(* ===== verification/_CoqProject ===== *)
-Q . S2P
Prelude.v
Contracts.v
TaskGraph.v
Scheduler.v
PlanMemory.v
PlanMemoryProofs.v
PlanMemoryProperties.v
PlanSql.v
PlanSqlProofs.v
PlanSqlProperties.v
Budgets.v
Rbac.v
Permissions.v
RagPolicy.v
RagManager.v
RagManagerProofs.v
RagArchive.v
Orchestrator.v
OrchestratorProofs.v
OrchestratorSql.v
ChatTurn.v
ChatHitl.v
ChatStream.v
ChatProofs.v
ChatProperties.v
Resilience.v
ResilienceProofs.v
Confirmation.v
ToolLedger.v
Operations.v
Protocol.v
OperationContext.v
AgentTools.v
Agent.v
OperationsProofs.v
AgentErrors.v
AgentProofs.v
AgentSafety.v
AgentCollections.v
AgentBounds.v
AgentOutcome.v
AgentDemo.v
StructuredCall.v
StructuredCallProofs.v
Planner.v
Collections.v
CollectionsProofs.v
VersionStore.v
VersionStoreProofs.v
Versions.v
AgentVersions.v
VersionsProofs.v
VersionsProperties.v
Entities.v
EntitiesProofs.v
MigrationProofs.v
Lifecycle.v
LifecycleProofs.v
LifecycleSafety.v
LifecycleProperties.v
LifecycleCleanup.v
LifecycleDemo.v
Facts.v
FactServices.v
FactReconciler.v
FactProofs.v
FactInvariant.v
FactReach.v
FactReplay.v
FactExtractor.v
FactCompactor.v
Glossary.v
FactOverlays.v
MemoryWriter.v
GlossaryProofs.v
MemoryWriterProofs.v
MemoryTargets.v
MemoryLife.v
FactProperties.v
FactDemo.v
