(* ===== verification/Prelude.v ===== *)
(** * ML-portal API: a verification development

    ML-portal is a multi-tenant LLM portal.  Its API service (Python, FastAPI and
    SQLAlchemy, under src/apps/api/src/app) answers a chat turn by letting a
    planner draw up a graph of tasks, running each task with an agent, and
    asking the planner again when a task fails or needs something; it decides
    which agents and collections a user may use; and it feeds documents through
    an ingest pipeline into vector indexes.  This library models the parts of
    the service that take these decisions, as executable definitions that read
    like the code, and proves what they promise.  Paths below are relative to
    src/apps/api/src/app.

    ** Files

    - [Prelude]: results and the exception-state monad [py] (an exception keeps the
      mutations made before it), savepoints ([begin_nested]), insertion-ordered
      dictionaries ([dict], with Python's assignment, pop and update), JSON
      trees, stable sorting ([sort_by], Python's [sorted]), generic lemmas and
      hint databases.
    - [Contracts]: runtime/orchestrator_contracts.py, the enumerations and messages
      exchanged by planner, store and executor, with their pydantic validators.
    - [TaskGraph]: the functions shared by both stores at the top of
      runtime/plan_store.py: graph validation, readiness, missing outputs.
    - [Scheduler]: an abstract task scheduler (status and dependencies of each
      task, and the moves patch, ready, claim, finish, wake), the
      specification of both stores, with its soundness invariant.
    - [PlanMemory], [PlanMemoryProofs], [PlanMemoryProperties]: class InMemoryPlanStore.
    - [PlanSql], [PlanSqlProofs], [PlanSqlProperties]: class SqlPlanStore over the six
      tables of models/runtime_plan.py.
    - [Orchestrator], [OrchestratorProofs], [OrchestratorSql]: class GraphOrchestrator of
      runtime/orchestrator.py over a class [PlanStore] of the store operations
      it calls, with the laws [PlanStoreLaws] it relies on; [OrchestratorSql]
      shows that SqlPlanStore is an instance and states the theorems.
    - [Budgets]: Module Service is services/runtime_budget_service.py with the
      tables of models/runtime_observability.py, Module Ledger is
      runtime/budgets (ledger.py, resolver.py, schema.py, errors.py).
    - [Rbac]: models/rbac.py, repositories/rbac_repository.py,
      services/rbac_service.py, services/rbac_cleanup_service.py.
    - [Permissions]: services/permission_service.py, and in Module Resolver
      agents/runtime_rbac_resolver.py.
    - [RagPolicy]: services/rag_status_policy.py, services/status_aggregator.py.
    - [RagManager], [RagManagerProofs], [RagArchive]: services/rag_status_manager.py,
      repositories/rag_status_repo.py, services/rag_target_model_service.py,
      services/rag_status_views.py.
    - [ChatTurn], [ChatHitl], [ChatStream], [ChatProofs], [ChatProperties]: one chat turn:
      services/chat_turn_state.py, chat_turn_service.py, chat_turn_orchestrator.py,
      chat_stream_service.py, chat_persistence_service.py, chat_context_service.py,
      runtime_hitl_protocol_service.py, runtime_terminal_status.py,
      runtime_resume_checkpoint_service.py and the resume route of
      api/v1/routers/chat/messages.py.
    - [Resilience], [ResilienceProofs]: Module Http is core/circuit_breaker.py with the
      client of core/http/clients.py, Module Manager is core/resilience.py.
    - [Confirmation]: agents/runtime/confirmation.py, with its theorems.
    - [ToolLedger]: runtime/memory/tool_ledger.py, with its theorems.
    - [Operations], [OperationsProofs]: what an agent may call (agents/contracts.py,
      agents/context.py, runtime/operation_errors.py,
      agents/runtime/prompt_contract.py) and the names and arguments of
      agents/runtime/tools.py; [Protocol]: agents/protocol.py and
      agents/json_utils.py, with its theorem; [OperationContext]: the texts that tools.py makes of
      results.
    - [AgentTools]: execution of one operation (agents/runtime/tools.py,
      tool_reuse_policy.py), the run session (session.py), the events, and the
      consumer of agent_executor.py; [Agent]: the loop of
      agents/runtime/agent.py.  [AgentErrors] (which exceptions the pure parts raise),
      [AgentProofs] (triples, and one walk through the runtime for every relation its
      updates satisfy), [AgentSafety], [AgentCollections], [AgentBounds],
      [AgentOutcome] hold the theorems, [AgentDemo] a run at which they are applied.
    - [StructuredCall], [StructuredCallProofs]: runtime/llm/structured.py (the call of a
      model that has to answer with JSON of a schema) and
      services/model_call_config_service.py; [Planner]: runtime/planner/graph_planner.py
      with the graph request of runtime/input_builders.py, its theorems, the class
      [PlannerPort] of what the orchestrator relies on, and GraphPlanner as its
      instance.
    - [Collections], [CollectionsProofs]: models/collection.py,
      services/collection/field_coercion.py, ddl.py and row_service.py.
    - [VersionStore], [VersionStoreProofs]: the two tables that every versioned
      container has (repositories/limit_repository.py and its copies), the abstract
      store [store_step] and the class [Refines] of services that make its writes
      only; [Versions] (services/limit_service.py, policy_service.py,
      prompt_service.py) and [AgentVersions] (services/agent_service.py,
      tool_release_service.py, collection/version_service.py) are the services,
      [VersionsProofs] has their instances, [VersionsProperties] the theorems.
    - [Entities], [EntitiesProofs], [MigrationProofs]: the rows that deletion touches
      (tenants, users, memberships, collections, agents, rules, chats, sandbox
      sessions), the services that delete one of them, and
      services/tenant_migration_service.py.
    - [Lifecycle], [LifecycleProofs], [LifecycleSafety], [LifecycleProperties],
      [LifecycleCleanup], [LifecycleDemo]: services/lifecycle_admin_service.py with the
      DELETE route of api/v1/routers/admin/lifecycle.py and the periodic cleanup of
      workers/tasks_cleanup.py; the last file holds a small platform at which the
      theorems are applied.
    - [Facts]: models/memory.py, models/project.py, models/glossary.py,
      runtime/memory/dto.py and runtime/memory/fact_store.py; [FactServices]:
      runtime/memory/service.py, services/fact_admin_service.py,
      services/project_memory_service.py and the /facts routes of
      api/v1/routers/profile.py.
    - [FactReconciler], [FactExtractor], [FactCompactor], [Glossary], [FactOverlays],
      [MemoryWriter]: the files of the same names of runtime/memory
      (sandbox_overlays.py, glossary_reconciler.py, writer.py).
    - [FactProofs], [FactInvariant], [FactReach], [FactReplay], [MemoryWriterProofs], [MemoryTargets], [MemoryLife]: runs of
      the operations, the history order, the invariants, the effect of a second
      application, the targets of a compaction and the step relation of the whole
      memory; [FactProperties] states the theorems and [FactDemo] applies them to a
      small memory.

    ** How the parts interact

    The orchestrator reads a snapshot of the plan, claims a ready task, hands it
    to the executor and records the result or the failure; the store keeps the
    graph and decides what is ready; the planner's patches go through
    [validate_patch] and [validate_task_graph] before the store applies them.
    Planner, executor, clock and identifier generator are arguments of the orchestrator:
    its theorems hold for all of them.  [Planner] puts GraphPlanner there: it shows the
    model the snapshot, calls it through [StructuredCall], and makes a patch of the
    answer.  Before a revision and before an attempt
    the orchestrator consumes a unit of the budget service of [Budgets].  The
    administrative API writes the RBAC rules of [Rbac]; [Permissions] reads the
    same table when a turn starts.  The ingest workers report stage transitions
    to the manager of [RagManager], which keeps the aggregate of [RagPolicy].
    A chat turn ([ChatStream]) writes its row and messages, consumes the events of
    the agents' run, sends frames to the client and settles the row; a run that
    pauses leaves a checkpoint that the resume route reads in a later request.
    A task of the plan is run by the loop of [Agent], which asks the model, reads its
    calls ([Protocol]), executes them ([AgentTools]) after the checks of [Operations],
    the gate of collections and the tokens of [Confirmation], and answers repeated
    calls from the ledger of the turn ([ToolLedger]), which the executor of tasks
    fills from the events it consumes.
    AgentService writes the agents ([AgentVersions]) and, through the RBAC service
    of [Rbac], the rule that denies a new agent to everybody.
    The life-cycle service ([Lifecycle]) deletes through the services of each kind
    ([Entities]), which find their rows in their own way, and the cleanup task calls
    it for the rows whose retention is over.  At the end of a turn the memory writer
    ([MemoryWriter.finalize]) hands the evidence of the turn to the extractor, its
    candidates with the current facts and terms to the compactor, and the result to
    the two reconcilers; profile and administration routes edit the same facts.

    ** Modelling choices

    - One database transaction is one state: a table is the list of its rows in
      insertion order, SELECT ... FOR UPDATE makes a method an atomic step, a
      flush is the update itself, UNIQUE, CHECK and FOREIGN KEY constraints are
      checked where the code inserts.  Interleavings of whole operations are
      the step relations [mem_step], [sql_step], [rbac_step], [rag_step].
    - uuid4 is an injective function of a counter, the wall clock a function of
      the number of readings.
    - Python objects that SQLAlchemy's identity map shares (status rows in a
      loop) are re-read from the state; copies (snapshots) are values.
    - A chat turn distinguishes what the session has flushed from what it has
      committed: the state has the tables as the session sees them and as they are
      durable, and the end of a request drops the difference.  What the client was
      sent is the list of frames in the state.  The run of the agents is an
      argument: the list of its events and the exception it ends with, if any.
    - The tables of the life cycle are finite maps by identifier, since no query orders
      them; ON DELETE clauses are part of the deletion of a row, and a request or a
      cleanup whose service raises gives back the tables it started from.
    - The models that extract and compact facts are arguments of a turn: the list
      they answer, or none when the call raised.  The dictionaries that travel with a
      candidate are records with a field per key that the program reads; confidences
      are rationals; the rows that a query without an order returns come in insertion
      order; column widths are not checked.
    - The outside of an agent run (clock, identifiers, model, executor of operations) is
      a state that every question moves ([AgentEnv]); the run keeps a trace of what it
      yields, asks, verifies, executes and finishes, in order.  A generator whose
      consumer leaves raises [GeneratorExit] at its yield.  Its loop runs max_llm_calls
      steps by structural recursion; what only describes the run to the journal is
      left out.
    - A structured call sees its outside as three lists: the events for the journal, the
      parameters of each request and the delays slept; the client, the sink and the
      sleep may fail.  The fields of pydantic models are read as their declarations
      say; [json.loads] and [json.dumps] are arguments, the two regular expressions are
      written out.
    - Libraries are arguments with the laws the code relies on: the JWT codec and
      Redis are classes ([Jwt], [NonceStore]) with law classes that witnesses
      instantiate; SHA-256, canonical JSON, Jinja's parser, and the parsers of
      dates and floats are functions.
    - Strings are byte strings: lower-casing covers ASCII (and Cyrillic where the
      code compares Russian words), stripping covers ASCII white space.
    - Log lines, redaction and tracing parameters are left out; events that
      another component consumes are part of the state, in order.
    - Structural recursion everywhere.  The depth-first search of
      [validate_task_graph] takes a depth, the number of tasks plus one, and is
      proved never to run out of it (the interpreter's recursion limit, about a
      thousand frames, is not modelled).  The main loop of the orchestrator is
      bounded by its own max_steps.

    ** Theorems

    - Task graphs: validation accepts exactly the acyclic, closed graphs.
    - Stores: every reachable store holds acyclic plans whose ready and running
      tasks have completed dependencies; the SQL store refines the scheduler
      with running and completed tasks protected; full effect of a patch, of a
      claim and of a completion; which exceptions leave the store unchanged.
    - Orchestrator: event traces are properly bracketed with one terminal event,
      calls of planner and executor are bounded, a run keeps the database sound
      and starts a task only with its needs resolved; the replan check and the
      artifact list are characterised.
    - Budgets: counters equal the journal, limits hold; ledger arithmetic.
    - RBAC: the rule table stays well formed; create, platform release and
      platform deny; the run-time decision is the newest rule of the
      highest-priority owner and agrees with the administrative check; strict
      environments allow only what a rule allows.
    - RAG: transitions, cascade, stop and start of an ingest; the aggregate and
      effective status of a document.
    - Chat: a turn always settles in the state its run decided; its phases are valid;
      a pause survives the request and can be resumed by its owner alone.
    - Resilience: the invariant of the breaker, its equivalence with a plain retry
      loop while it is closed, bounds on retries.
    - Confirmation: round trip of a token, single use.
    - Model calls: how a call ends, what it costs and what its journal says, JSON found in
      prose and in fences; the planner answers exactly when its call does, with a patch
      the contract accepts; the orchestrator driven by it keeps the database sound.
    - Agents: what reaches the executor is given, valid and confirmed, collections are
      read before they are used, a run is bounded by its policy and ends with exactly
      one event; native calls happen once, recorded results are reused, the built-in
      validation decides the schema.
    - Collections: types of accepted payloads and exactly which are accepted, the row
      counter and the table constraints, independence of the SQL text from what the
      user typed.
    - Life cycle: the full effect of a soft deletion, cascades as a transitive closure,
      restoration, what survives every sequence of requests and cleanups (the default
      tenant, an active administrator under hard deletions), the migration of a
      deleted tenant's users and collections.
    - Memory: support counts distinct sources, departments' facts and terms are
      confirmed by three of them, nothing is ever forgotten, a turn always succeeds,
      a replayed turn changes nothing, no candidate is lost in compaction, what an
      edit by the user and by an administrator does, bounds on the prompt context.
    - Versioned containers: what a version keeps for life, one active version per
      limit, current versions that are published, resolution of the version a run
      uses, inheritance from a parent version, hashes of policies.
    - Some theorems record behaviour the code probably does not intend: a
      repeated RBAC rule makes the check raise, a run cap keeps the consumption
      it refused, an archived document can never be restored, re-planning a task
      with recorded needs raises half way, a removed task reappears in snapshots,
      two spellings of a collection do not respect priorities, an answered request
      cannot be retried, a breaker under load stays open, a deactivated limit stays
      in force, a second publication makes an agent unresolvable, a tool release
      cannot be deleted, the last administrator can be soft-deleted, the cleanup
      never deletes a deprecated collection or agent, a cascading deletion of a tenant
      with collections is refused, restoration unblocks, no compaction supersedes a
      fact, an edited fact comes back beside its replacement, a run that ends in a
      single call never finishes its session, a native call repeated after a failure
      is dropped, an action that is a list ends a planner call with a raw TypeError, a
      call whose last text is refused leaves its journal open.

    ** Not modelled

    The streaming synthesizer (runtime/llm/streaming.py, runtime/synthesizer.py), the
    pipeline around the orchestrator (runtime/pipeline.py, agent_executor.py), the
    selection of facts for a prompt and the dialogue summaries (runtime/memory:
    components.py, fact_selection.py, builder.py, preparer), the preflight and the
    built-in tools of agents (agents), the extraction and embedding workers (workers, services/extractors), schemas,
    templates and vector indexes of collections, the HTTP layer (api) and the web
    client: they call models, storage and other services and take few decisions of
    their own.
    Left out of the modelled services: listings for the administration; in a chat
    turn the contexts of attachments, answer blocks and the queue between the run
    and the stream; the deletion of a collection's vectors in Qdrant; the rendering
    of prompts.  Candidates for an extension are the selection of facts and the
    summaries of the runtime memory, the turn state of the runtime, the sandbox overrides and the idempotency middleware. *)
From stdpp Require Export base gmap list strings sorting relations.
From Stdlib Require Export ZArith.

(** ** Results and the exception-state monad *)

Inductive result (E A : Type) : Type :=
| Ok (a : A)
| Err (e : E).
Arguments Ok {E A} a.
Arguments Err {E A} e.

(** A Python computation over a mutable state [S]: an exception does not undo
    the mutations made before it was raised, so the state is returned on both
    paths. *)
Definition py (E S A : Type) : Type := S -> result E A * S.

#[export] Instance py_ret E S : MRet (py E S) := fun A a s => (Ok a, s).
#[export] Instance py_bind E S : MBind (py E S) := fun A B f m s =>
  match m s with
  | (Ok a, s') => f a s'
  | (Err e, s') => (Err e, s')
  end.

Definition raise {E S A} (e : E) : py E S A := fun s => (Err e, s).
Definition get_state {E S} : py E S S := fun s => (Ok s, s).
Definition put_state {E S} (s : S) : py E S unit := fun _ => (Ok tt, s).
Definition modify {E S} (f : S -> S) : py E S unit := fun s => (Ok tt, f s).
Definition of_result {E S A} (r : result E A) : py E S A := fun s => (r, s).

(** [async with session.begin_nested()]: a savepoint, rolled back when the
    block raises. *)
Definition begin_nested {E S A} (m : py E S A) : py E S A := fun s =>
  match m s with
  | (Ok a, s') => (Ok a, s')
  | (Err e, _) => (Err e, s)
  end.

(** [try: m except e: h e] *)
Definition try_except {E S A} (m : py E S A) (h : E -> py E S A) : py E S A :=
  fun s => match m s with
           | (Ok a, s') => (Ok a, s')
           | (Err e, s') => h e s'
           end.

(** [for x in l: f x] *)
Fixpoint for_each {E S A} (f : A -> py E S unit) (l : list A) : py E S unit :=
  match l with
  | [] => mret tt
  | x :: l' => f x ≫= fun _ => for_each f l'
  end.

(** ** Python dictionaries: insertion-ordered association lists

    [odict V] has string keys, as most dictionaries of the program do; the
    operations work for every key type with decidable equality. *)

Abbreviation odict V := (list (string * V)).
Abbreviation dict K V := (list (K * V)).

Section ODict.
Context {K V : Type} `{!EqDecision K}.
Implicit Types (d : dict K V) (k : K) (v : V).

Fixpoint od_get k d : option V :=
  match d with
  | [] => None
  | (k', v) :: d' => if decide (k = k') then Some v else od_get k d'
  end.

(** [d[k] = v]: an existing key keeps its position. *)
Fixpoint od_set k v d : dict K V :=
  match d with
  | [] => [(k, v)]
  | (k', v') :: d' =>
      if decide (k = k') then (k', v) :: d' else (k', v') :: od_set k v d'
  end.

(** [d.pop(k, None)] *)
Definition od_pop k d : dict K V := filter (fun kv => kv.1 ≠ k) d.
Definition od_keys d : list K := map fst d.
Definition od_values d : list V := map snd d.
(** [d.update(pairs)] *)
Definition od_update d (l : dict K V) : dict K V :=
  foldl (fun d kv => od_set kv.1 kv.2 d) d l.
(** In-place update of every value. *)
Definition od_map (f : V -> V) d : dict K V := map (fun kv => (kv.1, f kv.2)) d.
(** In-place update of the value at [k], when there is one. *)
Definition od_alter (f : V -> V) k d : dict K V :=
  map (fun kv => if decide (kv.1 = k) then (kv.1, f kv.2) else kv) d.
Definition od_mem k d : bool :=
  match od_get k d with Some _ => true | None => false end.
End ODict.

(** ** JSON values, as [json.loads] produces them *)
Inductive json : Type :=
| JNull
| JBool (b : bool)
| JInt (z : Z)
| JFloat (mantissa exponent : Z)
| JStr (s : string)
| JList (l : list json)
| JObj (l : odict json).

(** Induction on a value: its parts first *)
Definition parts (P : json -> Prop) (v : json) : Prop :=
  match v with JObj d => Forall (fun kv => P kv.2) d | JList l => Forall P l | _ => True end.
Lemma json_parts_ind (P : json -> Prop) : (forall v, parts P v -> P v) -> forall v, P v.
Proof.
  intros H. fix IH 1. intros [| | | | |l|d]; apply H; simpl; try exact I.
  - induction l; constructor; [apply IH|assumption].
  - induction d; constructor; [apply IH|assumption].
Qed.

(** Python truthiness of a JSON value. *)
Definition truthy (j : json) : bool :=
  match j with
  | JNull => false
  | JBool b => b
  | JInt z => negb (Z.eqb z 0)
  | JFloat m _ => negb (Z.eqb m 0)
  | JStr s => negb (String.eqb s "")
  | JList l => match l with [] => false | _ => true end
  | JObj l => match l with [] => false | _ => true end
  end.

(** [sep.join(l)] *)
Fixpoint str_join (sep : string) (l : list string) : string :=
  match l with
  | [] => ""
  | [s] => s
  | s :: l' => s +:+ sep +:+ str_join sep l'
  end.

(** [d.get(k)] and [a or b] *)
Definition jget (k : string) (d : odict json) : json := default JNull (od_get k d).
Definition json_or (a b : json) : json := if truthy a then a else b.
(** [str(v)], where [repr] is the text of a value that is not a string. *)
Definition py_str (repr : json -> string) (v : json) : string := match v with JStr s => s | _ => repr v end.
(** [v if isinstance(v, dict) else {}] *)
Definition as_dict (v : json) : odict json := match v with JObj d => d | _ => [] end.

(** Prefix of a string: [s[:n]]. *)
Fixpoint str_take (n : nat) (s : string) : string :=
  match n, s with
  | S n', String c s' => String c (str_take n' s')
  | _, _ => EmptyString
  end.

Lemma str_take_length n s : (String.length (str_take n s) <= n)%nat.
Proof.
  revert s. induction n as [|n IH]; intros [|c s]; cbn; [lia..|]. specialize (IH s). lia.
Qed.

(** ** [str.strip] on ASCII white space *)
Definition is_space (c : Ascii.ascii) : bool :=
  let n := Ascii.nat_of_ascii c in
  bool_decide (9 <= n <= 13) || bool_decide (28 <= n <= 32).

Fixpoint lstrip (s : string) : string :=
  match s with
  | String c s' => if is_space c then lstrip s' else s
  | EmptyString => EmptyString
  end.

Fixpoint rstrip (s : string) : string :=
  match s with
  | String c s' =>
      match rstrip s' with
      | EmptyString => if is_space c then EmptyString else String c EmptyString
      | s'' => String c s''
      end
  | EmptyString => EmptyString
  end.

Definition strip (s : string) : string := rstrip (lstrip s).
Definition str_empty (s : string) : bool := String.eqb s "".

(** [int(s)] of a stripped string: an optional sign, digits with single
    underscores between them. *)
Definition digit (c : Ascii.ascii) : option Z :=
  (let n := Z.of_nat (Ascii.nat_of_ascii c) in
  if (48 <=? n) && (n <=? 57) then Some (n - 48) else None)%Z.
Definition is_char (code : nat) (c : Ascii.ascii) : bool := Nat.eqb (Ascii.nat_of_ascii c) code.

Fixpoint parse_digits (acc : Z) (after_digit : bool) (s : string) : option Z :=
  match s with
  | EmptyString => if after_digit then Some acc else None
  | String c s' =>
      match digit c with
      | Some d => parse_digits (10 * acc + d)%Z true s'
      | None => if is_char 95 c && after_digit then parse_digits acc false s' else None
      end
  end.

Definition parse_int (s : string) : option Z :=
  match s with
  | EmptyString => None
  | String c s' =>
      if is_char 45 c then option_map Z.opp (parse_digits 0%Z false s')
      else if is_char 43 c then parse_digits 0%Z false s'
      else parse_digits 0%Z false s
  end.

(** [str.lower] on ASCII letters *)
Definition lower_char (c : Ascii.ascii) : Ascii.ascii :=
  let n := Ascii.nat_of_ascii c in
  if bool_decide (65 <= n <= 90) then Ascii.ascii_of_nat (n + 32) else c.
Fixpoint lower (s : string) : string :=
  match s with
  | EmptyString => EmptyString
  | String c s' => String (lower_char c) (lower s')
  end.

(** [str.lower] on ASCII and on the Cyrillic capitals (two bytes in UTF-8). *)
Fixpoint lower_ru (s : string) : string :=
  match s with
  | String a s' =>
      match s' with
      | String b s2 =>
          let na := Ascii.nat_of_ascii a in
          let nb := Ascii.nat_of_ascii b in
          if Nat.eqb na 208 then
            if Nat.leb 144 nb && Nat.leb nb 159 then String a (String (Ascii.ascii_of_nat (nb + 32)) (lower_ru s2))
            else if Nat.leb 160 nb && Nat.leb nb 175 then
              String (Ascii.ascii_of_nat 209) (String (Ascii.ascii_of_nat (nb - 32)) (lower_ru s2))
            else if Nat.eqb nb 129 then
              String (Ascii.ascii_of_nat 209) (String (Ascii.ascii_of_nat 145) (lower_ru s2))
            else String a (String b (lower_ru s2))
          else String (lower_char a) (lower_ru s')
      | EmptyString => String (lower_char a) EmptyString
      end
  | EmptyString => EmptyString
  end.

Definition str_in (s : string) (l : list string) : bool := bool_decide (s ∈ l).

(** [needle in s]: substring test. *)
Fixpoint str_contains (needle s : string) : bool :=
  String.prefix needle s ||
  match s with
  | EmptyString => false
  | String _ s' => str_contains needle s'
  end.

(** [x or default] of an optional string *)
Definition or_str (x : option string) (default : string) : string :=
  match x with
  | Some s => if str_empty s then default else s
  | None => default
  end.

(** [s or None] *)
Definition some_str (s : string) : option string := if str_empty s then None else Some s.

(** [len(l) != len(set(l))] *)
Definition has_dup (l : list string) : bool := negb (bool_decide (NoDup l)).

(** ** Strings as lists of characters *)
#[export] Instance str_app_assoc : Assoc (=) String.append.
Proof. intros a b c. induction a as [|ch a IH]; [done|]. exact (f_equal (String ch) IH). Qed.

Lemma str_app_nil_r s : s +:+ "" = s.
Proof. induction s as [|ch s IH]; [done|]. exact (f_equal (String ch) IH). Qed.

Lemma str_app_cons c a b : String c a +:+ b = String c (a +:+ b).
Proof. done. Qed.

(** ** Lemmas on ordered dictionaries *)
Section ODictLemmas.
Context {K V : Type} `{!EqDecision K}.
Implicit Types (d : dict K V) (k : K) (v : V).

Lemma od_get_set_eq k v d : od_get k (od_set k v d) = Some v.
Proof. induction d as [|[k' v'] d IH]; simpl; repeat (case_decide; simpl); congruence. Qed.

Lemma od_get_set_ne k k' v d : k ≠ k' -> od_get k (od_set k' v d) = od_get k d.
Proof. intros ?; induction d as [|[k1 v1] d IH]; simpl; repeat (case_decide; simpl); congruence. Qed.

Lemma od_get_pop_eq k d : od_get k (od_pop k d) = None.
Proof.
  induction d as [|[k' v'] d IH]; [done|]. unfold od_pop in *. rewrite filter_cons.
  simpl. case_decide; simpl; [|done]. by rewrite decide_False by congruence.
Qed.

Lemma od_get_pop_ne k k' d : k ≠ k' -> od_get k (od_pop k' d) = od_get k d.
Proof.
  intros ?. induction d as [|[k1 v1] d IH]; [done|]. unfold od_pop in *. rewrite filter_cons.
  simpl. repeat (case_decide; simpl); congruence.
Qed.

Lemma od_get_elem k v d : od_get k d = Some v -> (k, v) ∈ d.
Proof.
  induction d as [|[k' v'] d IH]; simpl; [done|]. case_decide; intros; simplify_eq.
  - by left.
  - right; auto.
Qed.

Lemma od_get_None k d : od_get k d = None <-> k ∉ od_keys d.
Proof.
  induction d as [|[k' v'] d IH]; simpl; [set_solver|].
  case_decide; subst; [|rewrite IH]; set_solver.
Qed.

Lemma od_get_is_Some k d : is_Some (od_get k d) <-> k ∈ od_keys d.
Proof.
  rewrite <- not_eq_None_Some, od_get_None.
  destruct (decide (k ∈ od_keys d)); tauto.
Qed.

Lemma od_elem_get k v d : NoDup (od_keys d) -> (k, v) ∈ d -> od_get k d = Some v.
Proof.
  induction d as [|[k' v'] d IH]; simpl; [set_solver|].
  rewrite NoDup_cons, elem_of_cons. intros [Hn Hd] [?|Hin]; simplify_eq.
  - by rewrite decide_True.
  - rewrite decide_False; [auto|]. intros ->. apply Hn.
    apply list_elem_of_fmap. by exists (k', v).
Qed.

Lemma od_keys_set k v d :
  od_keys (od_set k v d) = if decide (k ∈ od_keys d) then od_keys d else od_keys d ++ [k].
Proof.
  induction d as [|[k' v'] d IH]; simpl; [done|].
  destruct (decide (k = k')) as [->|Hne]; simpl.
  - rewrite decide_True; [done|left].
  - rewrite IH. destruct (decide (k ∈ od_keys d)), (decide (k ∈ k' :: od_keys d)); set_solver.
Qed.

Lemma od_keys_set_elem k k' v d : k' ∈ od_keys (od_set k v d) <-> k' = k \/ k' ∈ od_keys d.
Proof. rewrite od_keys_set. case_decide; set_solver. Qed.

Lemma od_set_NoDup k v d : NoDup (od_keys d) -> NoDup (od_keys (od_set k v d)).
Proof.
  rewrite od_keys_set. case_decide; [done|]. intros ?.
  apply NoDup_app; split_and!; [done|set_solver|apply NoDup_singleton].
Qed.

Lemma od_keys_pop k d : od_keys (od_pop k d) = filter (fun k' => k' ≠ k) (od_keys d).
Proof.
  induction d as [|[k' v'] d IH]; [done|]. unfold od_pop in *. simpl.
  rewrite !filter_cons. simpl. case_decide; simpl; congruence.
Qed.

Lemma od_pop_NoDup k d : NoDup (od_keys d) -> NoDup (od_keys (od_pop k d)).
Proof. rewrite od_keys_pop. apply NoDup_filter. Qed.

Lemma od_get_map f k d : od_get k (od_map f d) = f <$> od_get k d.
Proof. induction d as [|[k' v'] d IH]; simpl; [done|]. by case_decide. Qed.

Lemma od_keys_map f d : od_keys (od_map f d) = od_keys d.
Proof. unfold od_keys, od_map. by rewrite map_map. Qed.

Lemma od_get_alter f k k' d :
  od_get k (od_alter f k' d) = if decide (k = k') then f <$> od_get k d else od_get k d.
Proof.
  induction d as [|[k1 v1] d IH]; simpl; [by case_decide|].
  repeat (case_decide; simpl; simplify_eq); congruence.
Qed.

Lemma od_keys_alter f k d : od_keys (od_alter f k d) = od_keys d.
Proof.
  unfold od_keys, od_alter. rewrite map_map. apply map_ext. intros [k' v']; simpl.
  by case_decide.
Qed.

Lemma od_get_update_ne k d l : k ∉ map fst l -> od_get k (od_update d l) = od_get k d.
Proof.
  revert d. induction l as [|[k' v'] l IH]; intros d; [done|]. simpl.
  intros Hk. change (od_get k (od_update (od_set k' v' d) l) = od_get k d).
  rewrite IH by set_solver. apply od_get_set_ne. set_solver.
Qed.

Lemma od_get_update_elem k v d l :
  NoDup (map fst l) -> (k, v) ∈ l -> od_get k (od_update d l) = Some v.
Proof.
  revert d. induction l as [|[k' v'] l IH]; intros d; simpl; [set_solver|].
  rewrite NoDup_cons, elem_of_cons. intros [Hn Hd] [?|Hin]; simplify_eq.
  - change (od_get k' (od_update (od_set k' v' d) l) = Some v').
    rewrite od_get_update_ne by done. apply od_get_set_eq.
  - by apply IH.
Qed.

Lemma od_update_NoDup d l : NoDup (od_keys d) -> NoDup (od_keys (od_update d l)).
Proof.
  revert d. induction l as [|[k v] l IH]; intros d Hd; simpl; [done|].
  apply IH. by apply od_set_NoDup.
Qed.

Lemma od_update_keys k d l :
  k ∈ od_keys (od_update d l) <-> k ∈ od_keys d \/ k ∈ map fst l.
Proof.
  revert d. induction l as [|[k' v] l IH]; intros d; simpl; [set_solver|].
  change (k ∈ od_keys (od_update (od_set k' v d) l) <-> k ∈ od_keys d \/ k ∈ k' :: map fst l).
  rewrite IH, od_keys_set_elem. set_solver.
Qed.

Lemma od_values_elem v d : v ∈ od_values d <-> exists k, (k, v) ∈ d.
Proof.
  unfold od_values. rewrite list_elem_of_fmap. split.
  - intros ([k v'] & -> & ?). by exists k.
  - intros [k ?]. by exists (k, v).
Qed.
End ODictLemmas.

Lemma od_get_filter_key {K V} `{EqDecision K} (P : K -> Prop) `{forall k, Decision (P k)}
    (k : K) (d : dict K V) :
  od_get k (filter (fun kv => P kv.1) d) = if decide (P k) then od_get k d else None.
Proof.
  induction d as [|[k' v] d IH]; [by case_decide|]. rewrite filter_cons. simpl.
  repeat (case_decide; simpl; simplify_eq); congruence.
Qed.

Lemma od_keys_filter_NoDup {K V} `{EqDecision K} (P : K * V -> Prop) `{forall kv, Decision (P kv)}
    (d : dict K V) : NoDup (od_keys d) -> NoDup (od_keys (filter P d)).
Proof.
  induction d as [|[k v] d IH]; [done|]. rewrite filter_cons. simpl. rewrite NoDup_cons.
  intros [Hn Hd]. case_decide; [|by apply IH]. simpl. apply NoDup_cons; split; [|by apply IH].
  intros Hk. apply Hn. unfold od_keys in *. apply list_elem_of_fmap in Hk as (kv & -> & Hkv).
  apply list_elem_of_filter in Hkv as [_ Hkv]. by apply (list_elem_of_fmap_2 fst).
Qed.

Create HintDb odict.
Create Rewrite HintDb odict.
#[export] Hint Resolve od_set_NoDup od_pop_NoDup od_get_elem od_elem_get : odict.
#[export] Hint Rewrite @od_get_set_eq @od_get_pop_eq @od_get_map @od_keys_map @od_keys_alter : odict.

(** ** Relations *)
Lemma tc_impl {A} (R S : relation A) x y :
  (forall a b, R a b -> S a b) -> tc R x y -> tc S x y.
Proof.
  intros H. induction 1 as [a b Hab|a b c Hab _ IH]; [by apply tc_once, H|].
  eapply tc_l; [by apply H|exact IH].
Qed.

(** ** Boolean list tests *)
Lemma forallb_elem {A} (f : A -> bool) l :
  forallb f l = true <-> forall x, x ∈ l -> f x = true.
Proof. rewrite forallb_forall. by setoid_rewrite list_elem_of_In. Qed.

Lemma existsb_elem {A} (f : A -> bool) l :
  existsb f l = true <-> exists x, x ∈ l /\ f x = true.
Proof. rewrite existsb_exists. by setoid_rewrite list_elem_of_In. Qed.

Lemma existsb_none {A} (f : A -> bool) l : existsb f l = false -> forall x, x ∈ l -> f x = false.
Proof. intros H x Hx. apply not_true_iff_false. intros Hf. apply not_true_iff_false in H. apply H, existsb_elem. eauto. Qed.

Lemma elem_of_List_filter {A} (f : A -> bool) l x :
  x ∈ List.filter f l <-> x ∈ l /\ f x = true.
Proof. rewrite !list_elem_of_In. apply filter_In. Qed.

#[export] Instance List_filter_Permutation {A} (f : A -> bool) :
  Proper ((≡ₚ) ==> (≡ₚ)) (List.filter f).
Proof.
  intros l l' H. induction H as [|x l l' _ IH|x y l|l1 l2 l3 _ IH1 _ IH2]; simpl; [done|..].
  - destruct (f x); by rewrite IH.
  - destruct (f x), (f y); done || constructor.
  - by transitivity (List.filter f l2).
Qed.

Lemma filter_none {A} (f : A -> bool) l :
  (forall x, x ∈ l -> f x = false) -> List.filter f l = [].
Proof.
  induction l as [|x l IH]; intros H; [done|]. simpl. rewrite H by left.
  apply IH. intros y Hy. apply H. by right.
Qed.

Lemma filter_all {A} (f : A -> bool) l :
  (forall x, x ∈ l -> f x = true) -> List.filter f l = l.
Proof.
  induction l as [|x l IH]; intros H; [done|]. simpl. rewrite H by left. f_equal.
  apply IH. intros y Hy. apply H. by right.
Qed.

(** Keys that identify elements still do in a sublist, and in the image of a function
    that keeps them. *)
Lemma NoDup_map_filter {A B} (g : A -> B) (f : A -> bool) l :
  NoDup (map g l) -> NoDup (map g (List.filter f l)).
Proof.
  induction l as [|x l IH]; simpl; [done|]. intros [Hx Hl]%NoDup_cons. destruct (f x); [|by apply IH].
  simpl. constructor; [|by apply IH]. intros (y & Hxy & Hy)%list_elem_of_fmap. apply Hx.
  apply elem_of_List_filter in Hy as [Hy _]. rewrite Hxy. by apply list_elem_of_fmap_2.
Qed.

Lemma NoDup_map_key {A B} (g : A -> B) l x y : NoDup (map g l) -> x ∈ l -> y ∈ l -> g x = g y -> x = y.
Proof.
  induction l as [|z l IH]; simpl; [by intros _ ?%not_elem_of_nil|]. intros [Hz Hl]%NoDup_cons.
  intros [->|Hx]%elem_of_cons [->|Hy]%elem_of_cons E; [done| | |by apply IH].
  - destruct Hz. rewrite E. by apply list_elem_of_fmap_2.
  - destruct Hz. rewrite <- E. by apply list_elem_of_fmap_2.
Qed.

Lemma str_in_spec s l : str_in s l = true <-> s ∈ l.
Proof. unfold str_in. by rewrite bool_decide_eq_true. Qed.

(** ** Sorting by a key *)
Section SortBy.
Context {A K : Type} (key : A -> K) (le : relation K) `{!RelDecision le, !Total le, !Transitive le}.

#[local] Instance sort_by_dec : RelDecision (fun a b => le (key a) (key b)) :=
  fun a b => decide_rel le (key a) (key b).

(** [sorted(l, key=key)] *)
Definition sort_by (l : list A) : list A := merge_sort (fun a b => le (key a) (key b)) l.

#[local] Instance sort_by_total : Total (fun a b => le (key a) (key b)).
Proof. intros a b. apply (total le). Qed.

#[local] Instance sort_by_trans : Transitive (fun a b => le (key a) (key b)).
Proof. intros a b c. apply transitivity. Qed.

Lemma sort_by_perm l : sort_by l ≡ₚ l.
Proof. apply merge_sort_Permutation. Qed.

Lemma sort_by_elem l x : x ∈ sort_by l <-> x ∈ l.
Proof. by rewrite sort_by_perm. Qed.

Lemma sort_by_sorted l : StronglySorted (fun a b => le (key a) (key b)) (sort_by l).
Proof. apply StronglySorted_merge_sort; apply _. Qed.

Lemma sort_by_take_sorted n l : StronglySorted (fun a b => le (key a) (key b)) (take n (sort_by l)).
Proof. eapply StronglySorted_app_1_l. rewrite take_drop. apply sort_by_sorted. Qed.

(** A prefix holds the least elements. *)
Lemma sort_by_take_least n l x y :
  x ∈ take n (sort_by l) -> y ∈ l -> y ∈ take n (sort_by l) \/ le (key x) (key y).
Proof.
  intros Hx Hy. rewrite <- sort_by_elem, <- (take_drop n (sort_by l)), elem_of_app in Hy.
  destruct Hy as [Hy|Hy]; [by left|right].
  eapply (StronglySorted_app_1_elem_of (fun a b => le (key a) (key b))); [|exact Hx|exact Hy].
  rewrite take_drop. apply sort_by_sorted.
Qed.

Lemma sort_by_take_all n l : length (take n (sort_by l)) < n -> forall x, x ∈ l -> x ∈ take n (sort_by l).
Proof.
  intros Hn x Hx. rewrite length_take in Hn. rewrite take_ge by lia. by apply sort_by_elem.
Qed.
End SortBy.

(** ** Lemmas and tactics for the monad *)
Lemma bind_Ok {E S A B} (m : py E S A) (f : A -> py E S B) s b s' :
  (m ≫= f) s = (Ok b, s') -> exists a s1, m s = (Ok a, s1) /\ f a s1 = (Ok b, s').
Proof.
  unfold mbind, py_bind. destruct (m s) as [[a|e] s1]; intros; simplify_eq; eauto.
Qed.

Lemma bind_either {E S A B} (m : py E S A) (k : A -> py E S B) s r s' :
  (m ≫= k) s = (r, s') ->
  (exists a s1, m s = (Ok a, s1) /\ k a s1 = (r, s')) \/ (exists e, m s = (Err e, s') /\ r = Err e).
Proof.
  unfold mbind, py_bind. destruct (m s) as [[a|e] s1]; intros H; [left; by exists a, s1|right; exists e; by simplify_eq].
Qed.

Lemma bind_Err {E S A B} (m : py E S A) (f : A -> py E S B) s e s' :
  (m ≫= f) s = (Err e, s') ->
  m s = (Err e, s') \/ exists a s1, m s = (Ok a, s1) /\ f a s1 = (Err e, s').
Proof.
  unfold mbind, py_bind. destruct (m s) as [[a|e'] s1]; intros; simplify_eq; eauto.
Qed.

Lemma bind_run_Ok {E S A B} (m : py E S A) (k : A -> py E S B) s a s' :
  m s = (Ok a, s') -> (m ≫= k) s = k a s'.
Proof. unfold mbind, py_bind. by intros ->. Qed.

Lemma bind_run_Err {E S A B} (m : py E S A) (k : A -> py E S B) s e s' :
  m s = (Err e, s') -> (m ≫= k) s = (Err e, s').
Proof. unfold mbind, py_bind. by intros ->. Qed.

(** A [for] loop preserves every invariant its body preserves, on both paths. *)
Lemma for_each_inv {E S A} (P : S -> Prop) (f : A -> py E S unit) l s r s' :
  (forall x s r s', x ∈ l -> P s -> f x s = (r, s') -> P s') ->
  P s -> for_each f l s = (r, s') -> P s'.
Proof.
  revert s. induction l as [|x l IH]; intros s Hf HP; simpl.
  - unfold mret, py_ret. by intros; simplify_eq.
  - unfold mbind, py_bind. destruct (f x s) as [[u|e] s1] eqn:E1; intros Hk.
    + eapply IH; [|eapply Hf|exact Hk]; eauto; set_solver.
    + simplify_eq. eapply Hf; eauto; set_solver.
Qed.

(** ** What a computation does to the state, compositionally *)
Definition preserves {E S A} (R : relation S) (m : py E S A) : Prop :=
  forall s r s', m s = (r, s') -> R s s'.

Section Preserves.
Context {E S : Type} (R : relation S) `{!PreOrder R}.

Lemma preserves_bind {A B} (m : py E S A) (k : A -> py E S B) :
  preserves R m -> (forall a, preserves R (k a)) -> preserves R (m ≫= k).
Proof.
  intros Hm Hk s r s' H. unfold mbind, py_bind in H. destruct (m s) as [[a|e] s1] eqn:Es.
  - transitivity s1; [by eapply Hm|by eapply Hk].
  - simplify_eq. by eapply Hm.
Qed.

(** A continuation that only runs on results with a property *)
Lemma preserves_bind_post {A B} (Q : A -> Prop) (m : py E S A) (k : A -> py E S B) :
  preserves R m -> (forall s a s', m s = (Ok a, s') -> Q a) ->
  (forall a, Q a -> preserves R (k a)) -> preserves R (m ≫= k).
Proof.
  intros Hm HQ Hk s r s' H. unfold mbind, py_bind in H. destruct (m s) as [[a|e] s1] eqn:Es.
  - transitivity s1; [by eapply Hm|]. eapply Hk; [by eapply HQ|exact H].
  - simplify_eq. by eapply Hm.
Qed.

Lemma preserves_try {A} (m : py E S A) h :
  preserves R m -> (forall e, preserves R (h e)) -> preserves R (try_except m h).
Proof.
  intros Hm Hh s r s' H. unfold try_except in H. destruct (m s) as [[a|e] s1] eqn:E1.
  - simplify_eq. by eapply Hm.
  - transitivity s1; [by eapply Hm|by eapply Hh].
Qed.

Lemma preserves_keep {A} (m : py E S A) : (forall s, (m s).2 = s) -> preserves R m.
Proof. intros Hm s r s' H. specialize (Hm s). rewrite H in Hm. simpl in Hm. by subst. Qed.

Lemma preserves_for_each {A} (f : A -> py E S unit) l :
  (forall x, preserves R (f x)) -> preserves R (for_each f l).
Proof. intros Hf. induction l as [|x l IH]; simpl; [by apply preserves_keep|by apply preserves_bind]. Qed.

Lemma preserves_modify (f : S -> S) : (forall s, R s (f s)) -> preserves R (modify f : py E S unit).
Proof. intros Hf s r s' H. unfold modify in H. by simplify_eq. Qed.

Lemma preserves_put (s0 s : S) r s' : R s s0 -> (put_state s0 : py E S unit) s = (r, s') -> R s s'.
Proof. intros HR H. unfold put_state in H. by simplify_eq. Qed.
End Preserves.

(** Splits hypotheses about monadic runs into the runs of their parts. *)
Ltac py_step :=
  match goal with
  | H : (_ ≫= _) _ = (Ok _, _) |- _ =>
      apply bind_Ok in H; destruct H as (? & ? & ? & H)
  | H : mret _ _ = _ |- _ => unfold mret, py_ret in H; simplify_eq
  | H : raise _ _ = _ |- _ => unfold raise in H; simplify_eq
  | H : get_state _ = _ |- _ => unfold get_state in H; simplify_eq
  | H : put_state _ _ = _ |- _ => unfold put_state in H; simplify_eq
  | H : modify _ _ = _ |- _ => unfold modify in H; simplify_eq
  | H : of_result _ _ = _ |- _ => unfold of_result in H; simplify_eq
  end.
Ltac py_inv := repeat (py_step; simpl in *).
