(* ===== verification/Contracts.v ===== *)
(** * Contracts of the planner/orchestrator boundary

    Models [app/runtime/orchestrator_contracts.py]: the status enumerations,
    the pydantic models the planner, the executors and the plan stores exchange,
    and their validators.  Also the exceptions the plan stores raise; the text
    of a message is represented by a [reason] constructor. *)
From S2P Require Import Prelude.

(** ** Enumerations *)

Inductive PlanStatus :=
| PlanDRAFT | PlanACTIVE | PlanWAITING_INPUT | PlanCOMPLETED | PlanFAILED | PlanCANCELLED.

Inductive TaskStatus :=
| PENDING | READY | RUNNING | WAITING_DEPENDENCY | WAITING_USER | WAITING_RETRY
| COMPLETED | UNFULFILLABLE | FAILED | CANCELLED.

Inductive RequirementStatus :=
| ReqPENDING | ReqRESOLVED | ReqWAITING_USER | ReqUNRESOLVABLE.

Inductive AttemptStatus :=
| AttRUNNING | AttSUCCEEDED | AttFAILED | AttTIMED_OUT | AttCANCELLED.

Inductive TaskOutcome := OutCOMPLETED | OutNEEDS_DEPENDENCY | OutUNFULFILLABLE.

Inductive TaskSuccessAction := CONTINUE | REPLAN.

Inductive PlannerDecisionKind :=
| CREATE_PLAN | REVISE_PLAN | ASK_USER | COMPLETE_PLAN | FAIL_PLAN.

Inductive NeedKind := KindDATA | KindARTIFACT | KindDECISION.

#[export] Instance PlanStatus_eq_dec : EqDecision PlanStatus.
Proof. solve_decision. Defined.
#[export] Instance TaskStatus_eq_dec : EqDecision TaskStatus.
Proof. solve_decision. Defined.
#[export] Instance RequirementStatus_eq_dec : EqDecision RequirementStatus.
Proof. solve_decision. Defined.
#[export] Instance AttemptStatus_eq_dec : EqDecision AttemptStatus.
Proof. solve_decision. Defined.
#[export] Instance TaskOutcome_eq_dec : EqDecision TaskOutcome.
Proof. solve_decision. Defined.
#[export] Instance TaskSuccessAction_eq_dec : EqDecision TaskSuccessAction.
Proof. solve_decision. Defined.
#[export] Instance PlannerDecisionKind_eq_dec : EqDecision PlannerDecisionKind.
Proof. solve_decision. Defined.

(** ** Exceptions *)

(** What an error message says. *)
Inductive reason :=
| DuplicateTaskIds
| DuplicateDependencies (task_id : string)
| SelfDependency (task_id : string)
| UnknownDependencies (task_id : string)
| GraphCycle
| CreateAndRemoveSameTask
| CreatePlanRevisionNotZero
| AskUserWithoutQuestion
| FailPlanWithoutReason
| CompletePlanMutatesTasks
| CompletedWithNeeds
| NeedsDependencyWithoutNeeds
| FieldConstraint (field : string)
| CannotReplace (task_id : string)
| CannotRemove (task_ids : list string)
| NotRunning (task_id : string)
| NotResumable (task_id : string)
| UnresolvedNeeds (task_id : string) (keys : list string)
| MissingOutputs (task_id : string) (keys : list string)
| NotWaitingForPlanner
| PersistenceConstraints.

Inductive exn :=
| ValidationError (r : reason)               (* pydantic *)
| PlanConflictError (expected current : Z)
| PlanValidationError (r : reason)
| TaskNotFoundError (task_id : string)
| KeyError (key : string)
| AttributeError (attribute : string)
| IntegrityError (constraint : string)
| TypeError (what : string)
| RuntimeError (message : string)
| OtherError (name message : string).          (* raised by code outside the model *)

(** ** Models *)

Record NeedSpec := mkNeedSpec {
  ns_ref : string;
  ns_key : string;
  ns_kind : NeedKind;
  ns_description : string;
  ns_json_schema : odict json;
  ns_required : bool;
  ns_context : odict json;
  ns_resolved_value : option json;
  ns_resolved_by : option string;
  ns_resolved_at_iteration : option Z
}.

Record TaskOutputSpec := mkTaskOutputSpec {
  os_key : string;
  os_description : string;
  os_json_schema : odict json;
  os_required : bool
}.

Record PlannedTask := mkPlannedTask {
  pt_task_id : string;
  pt_executor : string;
  pt_intent : string;
  pt_instructions : string;
  pt_inputs : odict json;
  pt_expected_outputs : list TaskOutputSpec;
  pt_depends_on : list string;
  pt_needs : list NeedSpec;
  pt_on_success : TaskSuccessAction
}.

Record PlanPatch := mkPlanPatch {
  pp_expected_revision : Z;
  pp_decision : PlannerDecisionKind;
  pp_goal : option string;
  pp_tasks : list PlannedTask;
  pp_remove_task_ids : list string;
  pp_question : option string;
  pp_answer_brief : option string;
  pp_failure_reason : option string;
  pp_rationale : string;
  pp_trigger : option string
}.

Record AgentTaskResult := mkAgentTaskResult {
  ar_outcome : TaskOutcome;
  ar_summary : string;
  ar_outputs : odict json;
  ar_checkpoint : odict json;
  ar_needs : list NeedSpec;
  ar_reason_code : option string;
  ar_evidence : odict json
}.

Record TaskAttemptFailure := mkTaskAttemptFailure {
  af_code : string;
  af_message : string;
  af_retryable : bool;
  af_timed_out : bool;
  af_details : odict json
}.

(** ** Validators *)

(** [not x] for an [Optional[str]]. *)
Definition falsy_str (o : option string) : bool :=
  match o with Some s => str_empty s | None => true end.

Definition non_empty (field : string) (s : string) : result exn unit :=
  if str_empty s then Err (ValidationError (FieldConstraint field)) else Ok tt.

Definition andThen {E A} (r : result E unit) (k : result E A) : result E A :=
  match r with Ok _ => k | Err e => Err e end.
Infix ";;;" := andThen (at level 60, right associativity).

Definition check {E} (b : bool) (e : E) : result E unit := if b then Ok tt else Err e.

(** First failure over a list, in list order. *)
Fixpoint all_ok {E A} (f : A -> result E unit) (l : list A) : result E unit :=
  match l with
  | [] => Ok tt
  | x :: l' => f x ;;; all_ok f l'
  end.

Definition validate_need (n : NeedSpec) : result exn unit :=
  non_empty "key" (ns_key n) ;;; non_empty "description" (ns_description n).

Definition validate_output_spec (o : TaskOutputSpec) : result exn unit :=
  non_empty "key" (os_key o) ;;; non_empty "description" (os_description o).

Definition validate_planned_task (t : PlannedTask) : result exn unit :=
  non_empty "task_id" (pt_task_id t) ;;;
  non_empty "executor" (pt_executor t) ;;;
  non_empty "intent" (pt_intent t) ;;;
  non_empty "instructions" (pt_instructions t) ;;;
  all_ok validate_output_spec (pt_expected_outputs t) ;;;
  all_ok validate_need (pt_needs t).

(** The per-task part of [validate_patch]. *)
Definition validate_patch_task (t : PlannedTask) : result exn unit :=
  check (negb (has_dup (pt_depends_on t)))
        (ValidationError (DuplicateDependencies (pt_task_id t))) ;;;
  check (negb (bool_decide (pt_task_id t ∈ pt_depends_on t)))
        (ValidationError (SelfDependency (pt_task_id t))).

Definition validate_patch (p : PlanPatch) : result exn PlanPatch :=
  let task_ids := map pt_task_id (pp_tasks p) in
  check (negb (has_dup task_ids)) (ValidationError DuplicateTaskIds) ;;;
  all_ok validate_patch_task (pp_tasks p) ;;;
  check (forallb (fun i => negb (bool_decide (i ∈ task_ids))) (pp_remove_task_ids p))
        (ValidationError CreateAndRemoveSameTask) ;;;
  check (negb (bool_decide (pp_decision p = CREATE_PLAN)
               && negb (Z.eqb (pp_expected_revision p) 0)))
        (ValidationError CreatePlanRevisionNotZero) ;;;
  check (negb (bool_decide (pp_decision p = ASK_USER) && falsy_str (pp_question p)))
        (ValidationError AskUserWithoutQuestion) ;;;
  check (negb (bool_decide (pp_decision p = FAIL_PLAN) && falsy_str (pp_failure_reason p)))
        (ValidationError FailPlanWithoutReason) ;;;
  check (negb (bool_decide (pp_decision p = COMPLETE_PLAN)
               && negb (bool_decide (pp_tasks p = []) && bool_decide (pp_remove_task_ids p = []))))
        (ValidationError CompletePlanMutatesTasks) ;;;
  Ok p.

(** Construction of a [PlanPatch]: the field constraints, then the model
    validator. *)
Definition make_patch (p : PlanPatch) : result exn PlanPatch :=
  check (Z.leb 0 (pp_expected_revision p)) (ValidationError (FieldConstraint "expected_revision")) ;;;
  match pp_goal p with Some g => non_empty "goal" g | None => Ok tt end ;;;
  all_ok validate_planned_task (pp_tasks p) ;;;
  validate_patch p.

Definition validate_outcome (r : AgentTaskResult) : result exn AgentTaskResult :=
  check (negb (bool_decide (ar_outcome r = OutCOMPLETED) && negb (bool_decide (length (ar_needs r) = 0))))
        (ValidationError CompletedWithNeeds) ;;;
  check (negb (bool_decide (ar_outcome r = OutNEEDS_DEPENDENCY) && bool_decide (length (ar_needs r) = 0)))
        (ValidationError NeedsDependencyWithoutNeeds) ;;;
  Ok r.

(** Construction of a [TaskAttemptFailure]. *)
Definition validate_failure (f : TaskAttemptFailure) : result exn TaskAttemptFailure :=
  non_empty "code" (af_code f) ;;; non_empty "message" (af_message f) ;;; Ok f.

(** ** Facts about the validators *)

Lemma andThen_Ok {E A} (r : result E unit) (k : result E A) a :
  (r ;;; k) = Ok a <-> r = Ok tt /\ k = Ok a.
Proof. destruct r as [[]|e]; simpl; split; intros; destruct_and?; simplify_eq; auto. Qed.

Lemma check_Ok {E} b (e : E) u : check b e = Ok u <-> b = true.
Proof. destruct b, u; simpl; split; done. Qed.

Lemma all_ok_Ok {E A} (f : A -> result E unit) l u :
  all_ok f l = Ok u <-> Forall (fun x => f x = Ok tt) l.
Proof.
  destruct u. induction l as [|x l IH]; simpl; [done|].
  by rewrite andThen_Ok, IH, Forall_cons.
Qed.

Lemma andThen_Err {E A} (r : result E unit) (k : result E A) e :
  (r ;;; k) = Err e <-> r = Err e \/ (r = Ok tt /\ k = Err e).
Proof.
  destruct r as [[]|e']; simpl; split; intros;
    repeat (destruct_or? || destruct_and?); simplify_eq; auto.
Qed.

Lemma check_Err {E} b (e e' : E) : check b e = Err e' <-> b = false /\ e' = e.
Proof. destruct b; simpl; split; intros; destruct_and?; simplify_eq; auto. Qed.

Lemma all_ok_Err {E A} (f : A -> result E unit) l e :
  all_ok f l = Err e -> exists x, x ∈ l /\ f x = Err e.
Proof.
  induction l as [|x l IH]; simpl; [done|]. rewrite andThen_Err. intros [?|[_ H]].
  - exists x. split; [left|done].
  - destruct (IH H) as (y & ? & ?). exists y. split; [by right|done].
Qed.

Lemma has_dup_false l : has_dup l = false <-> NoDup l.
Proof. unfold has_dup. rewrite negb_false_iff. by rewrite bool_decide_eq_true. Qed.

Create HintDb contracts.
Create Rewrite HintDb contracts.
#[export] Hint Rewrite @andThen_Ok @check_Ok @all_ok_Ok negb_true_iff negb_false_iff
  has_dup_false bool_decide_eq_true bool_decide_eq_false andb_false_iff andb_true_iff : contracts.

(** What a constructed patch satisfies. *)
Lemma validate_patch_Ok p p' :
  validate_patch p = Ok p' ->
  p' = p /\ NoDup (map pt_task_id (pp_tasks p)) /\
  Forall (fun t => NoDup (pt_depends_on t) /\ pt_task_id t ∉ pt_depends_on t) (pp_tasks p) /\
  (forall i, i ∈ pp_remove_task_ids p -> i ∉ map pt_task_id (pp_tasks p)) /\
  (pp_decision p = COMPLETE_PLAN -> pp_tasks p = [] /\ pp_remove_task_ids p = []).
Proof.
  unfold validate_patch. intros H. autorewrite with contracts in H.
  destruct H as (Hd & Ht & Hr & _ & _ & _ & Hc & He). split_and!; [congruence|done| | |].
  - eapply Forall_impl; [exact Ht|]. intros t Htt. unfold validate_patch_task in Htt.
    autorewrite with contracts in Htt. tauto.
  - intros i Hi. rewrite forallb_elem in Hr. specialize (Hr i Hi).
    by autorewrite with contracts in Hr.
  - intros Hdec. destruct Hc as [Hc|Hc]; [done|]. tauto.
Qed.
