(* ===== verification/TaskGraph.v ===== *)
(** * The task graph: validation and readiness

    Models [validate_task_graph], [task_is_ready] and
    [_missing_contract_outputs] of [app/runtime/plan_store.py].  The two plan
    stores keep tasks in different shapes; [TaskDict] is the interface the
    shared readiness gate reads them through. *)
From S2P Require Import Prelude Contracts.

(** ** Definitions *)

(** [{item.task_id: set(item.depends_on) for item in task_list}] *)
Definition build_graph (task_list : list PlannedTask) : odict (list string) :=
  od_update [] (map (fun t => (pt_task_id t, remove_dups (pt_depends_on t))) task_list).

Record dfs_state := mkDfs { visiting : list string; visited : list string }.

Inductive visit_exn :=
| PlanCycle            (* PlanValidationError("plan task graph contains a cycle") *)
| VisitKeyError        (* graph[task_id] *)
| RecursionLimit.      (* the depth budget of the interpreter is exhausted *)

Fixpoint visit (depth : nat) (graph : odict (list string)) (task_id : string)
  : py visit_exn dfs_state unit :=
  match depth with
  | O => raise RecursionLimit
  | S depth' =>
      s ← get_state;
      if bool_decide (task_id ∈ visiting s) then raise PlanCycle else
      if bool_decide (task_id ∈ visited s) then mret tt else
      _ ← modify (fun s => mkDfs (task_id :: visiting s) (visited s));
      match od_get task_id graph with
      | None => raise VisitKeyError
      | Some dependencies =>
          _ ← for_each (visit depth' graph) dependencies;
          modify (fun s => mkDfs (filter (fun i => i ≠ task_id) (visiting s))
                                 (task_id :: visited s))
      end
  end.

Definition check_dependencies (item : PlannedTask) : result exn unit :=
  check (negb (has_dup (pt_depends_on item)))
        (PlanValidationError (DuplicateDependencies (pt_task_id item))) ;;;
  check (negb (bool_decide (pt_task_id item ∈ pt_depends_on item)))
        (PlanValidationError (SelfDependency (pt_task_id item))).

Definition check_known (ids : list string) (entry : string * list string) : result exn unit :=
  check (forallb (fun d => bool_decide (d ∈ ids)) entry.2)
        (PlanValidationError (UnknownDependencies entry.1)).

(** The depth budget is one more than the number of nodes: the path of a
    search holds distinct nodes, so the budget is never exhausted.  The
    interpreter's own recursion limit is not modelled. *)
Definition validate_task_graph (task_list : list PlannedTask) : result exn unit :=
  let ids := map pt_task_id task_list in
  let graph := build_graph task_list in
  all_ok check_dependencies task_list ;;;
  all_ok (check_known ids) graph ;;;
  match for_each (visit (S (length graph)) graph) (od_keys graph) (mkDfs [] []) with
  | (Ok _, _) => Ok tt
  | (Err PlanCycle, _) => Err (PlanValidationError GraphCycle)
  | (Err VisitKeyError, _) => Err (KeyError "task_id")
  | (Err RecursionLimit, _) => Err (KeyError "recursion")
  end.

(** A requirement dictionary.  [nd_task_id], [nd_status] and
    [nd_resolver_task_id] are [None] when the key is absent. *)
Record NeedDict := mkNeedDict {
  nd_task_id : option string;
  nd_spec : NeedSpec;
  nd_status : option RequirementStatus;
  nd_resolver_task_id : option string
}.

Definition nd_key (n : NeedDict) : string := ns_key (nd_spec n).
Definition nd_required (n : NeedDict) : bool := ns_required (nd_spec n).

(** What the shared gates read from a task dictionary. *)
Class TaskDict (T : Type) := {
  td_status : T -> option TaskStatus;
  td_depends_on : T -> list string;
  td_needs : T -> list NeedDict;
  td_expected_outputs : T -> list TaskOutputSpec
}.

Definition TERMINAL_TASK_STATUSES : list TaskStatus :=
  [COMPLETED; UNFULFILLABLE; FAILED; CANCELLED].

Section Gates.
Context {T : Type} `{TaskDict T}.

Definition dependency_completed (all_tasks : odict T) (dep : string) : bool :=
  match od_get dep all_tasks with
  | Some t => bool_decide (td_status t = Some COMPLETED)
  | None => false
  end.

Definition need_ready (need : NeedDict) : bool :=
  negb (nd_required need) || bool_decide (nd_status need = Some ReqRESOLVED).

Definition task_is_ready (task : T) (all_tasks : odict T) : bool :=
  if negb (bool_decide (td_status task = Some PENDING)
           || bool_decide (td_status task = Some READY))
  then false
  else forallb (dependency_completed all_tasks) (td_depends_on task)
       && forallb need_ready (td_needs task).

Definition _missing_contract_outputs (task : T) (r : AgentTaskResult) : list string :=
  map os_key (List.filter (fun spec => os_required spec && negb (od_mem (os_key spec) (ar_outputs r)))
                          (td_expected_outputs task)).
End Gates.

(** The order in which ready tasks are claimed: [(planned_order, task_id)]. *)
Definition claim_le (a b : Z * string) : Prop :=
  (a.1 < b.1)%Z \/ (a.1 = b.1 /\ String.le a.2 b.2).

#[export] Instance claim_le_dec : RelDecision claim_le.
Proof. intros a b. unfold claim_le. apply _. Defined.

(** The specification of a valid graph. *)
Definition edge (graph : odict (list string)) (x y : string) : Prop :=
  exists ds, od_get x graph = Some ds /\ y ∈ ds.

Definition acyclic (graph : odict (list string)) : Prop :=
  forall x, ~ tc (edge graph) x x.

Definition graph_ok (task_list : list PlannedTask) : Prop :=
  Forall (fun t => NoDup (pt_depends_on t) /\ pt_task_id t ∉ pt_depends_on t) task_list /\
  (forall x y, edge (build_graph task_list) x y -> y ∈ map pt_task_id task_list) /\
  acyclic (build_graph task_list).

#[export] Instance claim_le_total : Total claim_le.
Proof.
  intros [a s] [b t]. unfold claim_le; simpl.
  destruct (total String.le s t); destruct (Z.lt_total a b) as [|[|]]; auto.
Qed.

#[export] Instance claim_le_trans : Transitive claim_le.
Proof.
  intros [a s] [b t] [c u]. unfold claim_le; simpl. intros [?|[-> ?]] [?|[-> ?]];
    [left; lia|left; lia|left; lia|right]. split; [done|]. by transitivity t.
Qed.

(** ** The depth-first search *)
Section Visit.
Variable graph : odict (list string).

(** A finishing order: every node comes after its dependencies. *)
Inductive finished : list string -> Prop :=
| fin_nil : finished []
| fin_cons x ds l :
    od_get x graph = Some ds -> (forall y, y ∈ ds -> y ∈ l) -> x ∉ l ->
    finished l -> finished (x :: l).

(** The recursion stack is a path that ends in [x]. *)
Fixpoint chain (stack : list string) (x : string) : Prop :=
  match stack with
  | [] => True
  | s :: stack' => edge graph s x /\ chain stack' s
  end.

Lemma finished_closed l x y : finished l -> x ∈ l -> edge graph x y -> y ∈ l.
Proof.
  induction 1 as [|x' ds l Hg Hds Hn Hf IH]; [set_solver|].
  intros [->|Hx]%elem_of_cons (ds' & Hg' & Hy); simplify_eq.
  - right; auto.
  - right. apply IH; [done|]. by exists ds'.
Qed.

Lemma finished_tc l x y : finished l -> x ∈ l -> tc (edge graph) x y -> y ∈ l.
Proof. intros Hf Hx Ht. revert Hx. induction Ht; eauto using finished_closed. Qed.

Lemma finished_acyclic l x : finished l -> x ∈ l -> ~ tc (edge graph) x x.
Proof.
  induction 1 as [|x' ds l Hg Hds Hn Hf IH]; [set_solver|].
  intros [->|Hx]%elem_of_cons; [|auto]. intros Ht. apply Hn.
  inversion Ht as [x1 y1 (ds' & Hg' & Hy)|x1 y1 z1 (ds' & Hg' & Hy) Hyx];
    simplify_eq; [auto|]. eapply finished_tc; eauto.
Qed.

Lemma chain_tc stack x y : chain stack x -> y ∈ stack -> tc (edge graph) y x.
Proof.
  revert x. induction stack as [|s stack IH]; intros x; [set_solver|].
  intros [He Hc] [->|Hy]%elem_of_cons; [by apply tc_once|].
  eapply tc_r; [|exact He]. auto.
Qed.

Record ready_to_visit (depth : nat) (x : string) (s : dfs_state) : Prop := {
  rv_key : x ∈ od_keys graph;
  rv_nodup : NoDup (visiting s);
  rv_sub : visiting s ⊆ od_keys graph;
  rv_depth : length graph < depth + length (visiting s);
  rv_chain : chain (visiting s) x;
  rv_fin : finished (visited s);
  rv_disj : forall y, y ∈ visiting s -> y ∉ visited s
}.

Definition visit_post (targets : list string) (s : dfs_state)
    (out : result visit_exn unit * dfs_state) : Prop :=
  match out with
  | (Ok _, s') =>
      visiting s' = visiting s /\ finished (visited s') /\
      visited s ⊆ visited s' /\ (forall y, y ∈ targets -> y ∈ visited s') /\
      (forall y, y ∈ visiting s' -> y ∉ visited s')
  | (Err e, _) => e = PlanCycle /\ exists y, tc (edge graph) y y
  end.

Lemma for_each_visit (f : string -> py visit_exn dfs_state unit) (targets : list string) s :
  (forall x s1, x ∈ targets -> visiting s1 = visiting s -> finished (visited s1) ->
      (forall y, y ∈ visiting s1 -> y ∉ visited s1) -> visit_post [x] s1 (f x s1)) ->
  finished (visited s) -> (forall y, y ∈ visiting s -> y ∉ visited s) ->
  visit_post targets s (for_each f targets s).
Proof.
  revert s. induction targets as [|x l IH]; intros s Hf Hfin Hd; simpl.
  { split_and!; auto; set_solver. }
  unfold mbind, py_bind.
  pose proof (Hf x s ltac:(left) eq_refl Hfin Hd) as Hx.
  destruct (f x s) as [[[]|e] s1]; [|done]. destruct Hx as (Hv & Hf1 & Hsub & Hin & Hd1).
  assert (IH1 : visit_post l s1 (for_each f l s1)).
  { apply IH; [|done|done]. intros x' s2 Hx' Hs2. rewrite Hv in Hs2. apply Hf; [by right|done]. }
  destruct (for_each f l s1) as [[[]|e] s2]; [|done].
  destruct IH1 as (Hv2 & Hf2 & Hsub2 & Hin2 & Hd2). split_and!; [congruence|done|set_solver| |done].
  intros y [->|Hy]%elem_of_cons; [|auto]. apply Hsub2, Hin. set_solver.
Qed.

(** Every dependency is a node, which the caller has checked. *)
Hypothesis closed : forall x y, edge graph x y -> y ∈ od_keys graph.

Lemma visit_spec depth x s : ready_to_visit depth x s -> visit_post [x] s (visit depth graph x s).
Proof.
  revert x s. induction depth as [|depth IH]; intros x s [Hk Hnd Hsub Hdep Hch Hfin Hdj].
  { exfalso. apply (NoDup_submseteq _ _ Hnd) in Hsub. apply submseteq_length in Hsub.
    unfold od_keys in Hsub. rewrite length_map in Hsub. lia. }
  simpl. unfold get_state, mbind, py_bind, modify; simpl.
  case_bool_decide as Hvg; [split; [done|]; exists x; by eapply chain_tc|].
  case_bool_decide as Hvd; [split_and!; auto; set_solver|].
  apply od_get_is_Some in Hk as [ds Hds]. rewrite Hds.
  assert (Hl : visit_post ds (mkDfs (x :: visiting s) (visited s))
                 (for_each (visit depth graph) ds (mkDfs (x :: visiting s) (visited s)))).
  { apply for_each_visit; simpl; [|done|set_solver].
    intros y s1 Hy Hs1 Hf1 Hd1. apply IH.
    assert (Hxk : x ∈ od_keys graph) by (apply od_get_is_Some; eauto).
    assert (Hxy : edge graph x y) by (by exists ds).
    split; rewrite ?Hs1; simpl.
    - by apply closed with x.
    - by constructor.
    - set_solver.
    - lia.
    - done.
    - done.
    - by rewrite <- Hs1. }
  destruct (for_each _ _ _) as [[[]|e] s1]; [|done]. simpl in *.
  destruct Hl as (Hv & Hf1 & Hs1 & Hin & Hd1). unfold visit_post. simpl. rewrite Hv.
  assert (Hflt : filter (fun i => i ≠ x) (x :: visiting s) = visiting s).
  { rewrite filter_cons_False by tauto. clear -Hvg.
    induction (visiting s) as [|a l IHl]; [done|].
    rewrite filter_cons_True by set_solver. f_equal. apply IHl. set_solver. }
  rewrite Hflt. rewrite Hv in Hd1. split_and!; [done| |set_solver|set_solver|].
  - apply fin_cons with ds; auto. set_solver.
  - intros y Hy. rewrite not_elem_of_cons. split; set_solver.
Qed.
End Visit.

(** ** Consequences for the validator *)

Lemma build_graph_keys ts :
  NoDup (od_keys (build_graph ts)) /\
  forall k, k ∈ od_keys (build_graph ts) <-> k ∈ map pt_task_id ts.
Proof.
  split; [apply od_update_NoDup; constructor|].
  intros k. unfold build_graph. rewrite od_update_keys, map_map. set_solver.
Qed.

Lemma known_edges ids graph :
  NoDup (od_keys graph) ->
  (Forall (fun entry => check_known ids entry = Ok tt) graph <->
   forall x y, edge graph x y -> y ∈ ids).
Proof.
  intros Hnd. rewrite Forall_forall. split.
  - intros H x y (ds & Hg & Hy). apply od_get_elem in Hg. specialize (H _ Hg).
    unfold check_known in H. rewrite check_Ok, forallb_elem in H.
    exact (bool_decide_eq_true_1 _ (H y Hy)).
  - intros H [x ds] Hx. unfold check_known. apply check_Ok, forallb_elem. intros y Hy.
    apply bool_decide_eq_true_2, H with x.
    exists ds. split; [by apply od_elem_get|done].
Qed.

Lemma check_dependencies_Ok t :
  check_dependencies t = Ok tt <-> NoDup (pt_depends_on t) /\ pt_task_id t ∉ pt_depends_on t.
Proof. unfold check_dependencies. autorewrite with contracts. done. Qed.

Definition no_edge_out (g : odict (list string)) : Prop := forall x y, ~ edge g x y.

Lemma validate_search graph :
  (forall x y, edge graph x y -> y ∈ od_keys graph) ->
  visit_post graph (od_keys graph) (mkDfs [] [])
    (for_each (visit (S (length graph)) graph) (od_keys graph) (mkDfs [] [])).
Proof.
  intros Hc. apply for_each_visit; [|constructor|set_solver].
  intros x s1 Hx Hs1 Hf Hd. apply visit_spec; [done|].
  split; rewrite ?Hs1; simpl; [done|constructor|set_solver|lia|done|done|set_solver].
Qed.

(** ** The search on a closed graph *)

Lemma edge_dec_keys ts :
  (forall x y, edge (build_graph ts) x y -> y ∈ map pt_task_id ts) <->
  (forall x y, edge (build_graph ts) x y -> y ∈ od_keys (build_graph ts)).
Proof.
  destruct (build_graph_keys ts) as [_ Hk].
  split; intros H x y He; apply H in He; by apply Hk.
Qed.

Lemma edge_source graph x y : edge graph x y -> x ∈ od_keys graph.
Proof. intros (ds & Hg & _). apply od_get_is_Some. eauto. Qed.

Lemma tc_source graph x y : tc (edge graph) x y -> x ∈ od_keys graph.
Proof. destruct 1; eauto using edge_source. Qed.

(** What the search returns once the dependencies are known. *)
Lemma search_cases graph :
  (forall x y, edge graph x y -> y ∈ od_keys graph) ->
  let out := for_each (visit (S (length graph)) graph) (od_keys graph) (mkDfs [] []) in
  (out.1 = Ok tt /\ acyclic graph) \/ (out.1 = Err PlanCycle /\ ~ acyclic graph).
Proof.
  intros Hc out. pose proof (validate_search graph Hc) as Hp. fold out in Hp.
  destruct out as [[[]|e] s]; simpl in *.
  - left. split; [done|]. destruct Hp as (_ & Hf & _ & Hin & _). intros x Ht.
    eapply finished_acyclic; [exact Hf| |exact Ht]. apply Hin. by eapply tc_source.
  - right. destruct Hp as [-> [y Hy]]. split; [done|]. intros Ha. by apply (Ha y).
Qed.

Lemma deps_Ok ts :
  Forall (fun t => check_dependencies t = Ok tt) ts <->
  Forall (fun t => NoDup (pt_depends_on t) /\ pt_task_id t ∉ pt_depends_on t) ts.
Proof. apply Forall_iff, check_dependencies_Ok. Qed.

Lemma validate_task_graph_iff ts : validate_task_graph ts = Ok tt <-> graph_ok ts.
Proof.
  unfold validate_task_graph, graph_ok. destruct (build_graph_keys ts) as [Hnd _].
  rewrite !andThen_Ok, !all_ok_Ok, (known_edges _ _ Hnd), deps_Ok. f_equiv.
  split; intros [Hk Hs]; (split; [done|]); pose proof (proj1 (edge_dec_keys _) Hk) as Hk';
    destruct (search_cases _ Hk') as [[Ho Ha]|[Ho Ha]]; destruct (for_each _ _ _) as [o s];
    simpl in Ho; simplify_eq/=; done.
Qed.

Lemma validate_task_graph_Err ts e :
  validate_task_graph ts = Err e -> exists r, e = PlanValidationError r.
Proof.
  unfold validate_task_graph. destruct (build_graph_keys ts) as [Hnd _].
  destruct (all_ok check_dependencies ts) as [[]|e'] eqn:E1; simpl.
  2: { apply all_ok_Err in E1 as (t & _ & Ht). unfold check_dependencies in Ht.
       rewrite andThen_Err, !check_Err in Ht. naive_solver. }
  destruct (all_ok (check_known _) _) as [[]|e'] eqn:E2; simpl.
  2: { apply all_ok_Err in E2 as (t & _ & Ht). apply check_Err in Ht. naive_solver. }
  pose proof (proj1 (known_edges _ _ Hnd) (proj1 (all_ok_Ok _ _ _) E2)) as Hk.
  destruct (search_cases _ (proj1 (edge_dec_keys _) Hk)) as [[Ho _]|[Ho _]]; destruct (for_each _ _ _) as [o s];
    simpl in Ho; simplify_eq/=; naive_solver.
Qed.

(** ** Graphs of keyed dictionaries

    Both stores validate the values of a dictionary keyed by task id. *)
Definition keyed (d : odict PlannedTask) : Prop :=
  NoDup (od_keys d) /\ forall k t, od_get k d = Some t -> pt_task_id t = k.

Definition dep_of (d : odict PlannedTask) (x y : string) : Prop :=
  exists t, od_get x d = Some t /\ y ∈ pt_depends_on t.

Lemma keyed_ids d : keyed d -> map pt_task_id (od_values d) = od_keys d.
Proof.
  intros [Hn Hk]. unfold od_values, od_keys. rewrite map_map. apply map_ext_in.
  intros [k t] Hin. simpl. apply Hk. apply od_elem_get; [done|]. by apply list_elem_of_In.
Qed.

Lemma keyed_edge d x y : keyed d -> edge (build_graph (od_values d)) x y <-> dep_of d x y.
Proof.
  intros Hkd. pose proof (keyed_ids d Hkd) as Hids. destruct Hkd as [Hn Hk].
  set (l := map (fun t => (pt_task_id t, remove_dups (pt_depends_on t))) (od_values d)).
  assert (Hfst : map fst l = od_keys d) by (unfold l; rewrite map_map; exact Hids).
  unfold edge, dep_of, build_graph. fold l. split.
  - intros (ds & Hg & Hy).
    destruct (decide (x ∈ map fst l)) as [Hx|Hx].
    + rewrite Hfst in Hx. apply od_get_is_Some in Hx as [t Ht]. exists t. split; [done|].
      assert (Hin : (x, remove_dups (pt_depends_on t)) ∈ l).
      { unfold l. apply list_elem_of_fmap. exists t. split; [f_equal; symmetry; auto|].
        apply od_values_elem. exists x. by apply od_get_elem. }
      rewrite (od_get_update_elem _ _ _ _ ltac:(by rewrite Hfst) Hin) in Hg. simplify_eq.
      exact (proj1 (elem_of_remove_dups _ _) Hy).
    + by rewrite od_get_update_ne in Hg.
  - intros (t & Ht & Hy). exists (remove_dups (pt_depends_on t)).
    split; [|by apply elem_of_remove_dups].
    apply od_get_update_elem; [by rewrite Hfst|].
    unfold l. apply list_elem_of_fmap. exists t. split; [f_equal; symmetry; auto|].
    apply od_values_elem. exists x. by apply od_get_elem.
Qed.

Lemma keyed_graph_ok d :
  keyed d -> graph_ok (od_values d) ->
  (forall x y, dep_of d x y -> is_Some (od_get y d)) /\ (forall x, ~ tc (dep_of d) x x).
Proof.
  intros Hkd (_ & Hknown & Hac). split.
  - intros x y Hxy. apply od_get_is_Some. rewrite <- (keyed_ids d Hkd). apply Hknown with x.
    by apply keyed_edge.
  - intros x Hc. apply (Hac x). revert Hc. apply tc_impl. intros a b. by apply keyed_edge.
Qed.

(** The dictionary of the surviving tasks updated with the tasks of a patch. *)
Definition by_id (ts : list PlannedTask) : odict PlannedTask :=
  map (fun t => (pt_task_id t, t)) ts.

Lemma by_id_fst ts : map fst (by_id ts) = map pt_task_id ts.
Proof. unfold by_id. by rewrite map_map. Qed.

Lemma by_id_elem ts t : t ∈ ts -> (pt_task_id t, t) ∈ by_id ts.
Proof. intros H. apply list_elem_of_fmap. by exists t. Qed.

Lemma by_id_update_keyed d ts : keyed d -> keyed (od_update d (by_id ts)).
Proof.
  revert d. induction ts as [|t ts IH]; intros d Hd; simpl; [done|].
  apply IH. destruct Hd as [Hn Hk]. split; [by apply od_set_NoDup|].
  intros k t' Hg. destruct (decide (k = pt_task_id t)) as [->|Hne].
  - rewrite od_get_set_eq in Hg. by simplify_eq.
  - rewrite od_get_set_ne in Hg by done. auto.
Qed.

Lemma keyed_nil : keyed [].
Proof. split; [constructor|done]. Qed.

(** The shared readiness gate, as a proposition. *)
Lemma task_is_ready_spec {T} `{TaskDict T} (task : T) (all_tasks : odict T) :
  task_is_ready task all_tasks = true <->
  (td_status task = Some PENDING \/ td_status task = Some READY) /\
  (forall dep, dep ∈ td_depends_on task ->
     exists t, od_get dep all_tasks = Some t /\ td_status t = Some COMPLETED) /\
  (forall need, need ∈ td_needs task -> nd_required need = true -> nd_status need = Some ReqRESOLVED).
Proof.
  unfold task_is_ready.
  assert (Hdep : forall dep, dependency_completed all_tasks dep = true <->
    exists t, od_get dep all_tasks = Some t /\ td_status t = Some COMPLETED).
  { intros dep. unfold dependency_completed. destruct (od_get dep all_tasks); [|naive_solver].
    rewrite bool_decide_eq_true. naive_solver. }
  assert (Hneed : forall need, need_ready need = true <->
    (nd_required need = true -> nd_status need = Some ReqRESOLVED)).
  { intros need. unfold need_ready. destruct (nd_required need); simpl;
      rewrite ?bool_decide_eq_true; naive_solver. }
  destruct (bool_decide (td_status task = Some PENDING) ||
            bool_decide (td_status task = Some READY)) eqn:Est; simpl.
  - rewrite andb_true_iff, !forallb_elem.
    rewrite orb_true_iff, !bool_decide_eq_true in Est. naive_solver.
  - rewrite orb_false_iff, !bool_decide_eq_false in Est. naive_solver.
Qed.

(** ** Properties *)

(** C20: [validate_task_graph] accepts a task list exactly when no task repeats
    a dependency or depends on itself, every dependency names a task of the
    list and the dependency relation has no cycle; so the answer does not depend
    on the order in which Python iterates over the sets of dependencies.  Every
    rejection is a [PlanValidationError]: the search needs no more depth than the
    number of tasks plus one and never looks up a missing node. *)
Theorem validate_task_graph_correct ts :
  match validate_task_graph ts with
  | Ok _ => graph_ok ts
  | Err (PlanValidationError _) => ~ graph_ok ts
  | Err _ => False
  end.
Proof.
  pose proof (validate_task_graph_iff ts) as Hi. pose proof (validate_task_graph_Err ts) as He.
  destruct (validate_task_graph ts) as [[]|e]; [by apply Hi|].
  destruct (He e eq_refl) as [r ->]. intros Hg. by apply Hi in Hg.
Qed.
