(* ===== verification/Scheduler.v ===== *)
(** * The abstract scheduler

    What a plan store promises about the tasks of one plan, without its
    representation: a finite map from task identifiers to a status and the
    dependencies, and the moves a store may make on it.  [PlanMemoryProofs]
    and [PlanSqlProofs] show that the two stores of [app/runtime/plan_store.py]
    make only these moves, so the invariants proved here hold of both. *)
From S2P Require Import Prelude Contracts TaskGraph.

Abbreviation board := (gmap string (TaskStatus * list string)).

Definition protected (st : TaskStatus) : Prop := st = RUNNING \/ st = COMPLETED.

#[export] Instance protected_dec st : Decision (protected st).
Proof. unfold protected. apply _. Defined.

Definition depends (m : board) (x y : string) : Prop :=
  exists st ds, m !! x = Some (st, ds) /\ y ∈ ds.

Definition is_completed (m : board) (x : string) : Prop :=
  exists ds, m !! x = Some (COMPLETED, ds).

Record valid_graph (m : board) : Prop := {
  vg_known : forall x y, depends m x y -> is_Some (m !! y);
  vg_acyclic : forall x, ~ tc (depends m) x x
}.

(** The moves.  [protect] says whether running and completed tasks are
    protected from removal. *)
Inductive astep (protect : bool) : board -> board -> Prop :=
| as_patch m m' :
    (* every entry is kept, or is a task (re)planned over an unprotected one *)
    (forall x st ds, m' !! x = Some (st, ds) ->
       m !! x = Some (st, ds) \/
       (st = PENDING /\ forall st0 ds0, m !! x = Some (st0, ds0) -> ~ protected st0)) ->
    (protect = true -> forall x st ds, m !! x = Some (st, ds) -> protected st ->
       m' !! x = Some (st, ds)) ->
    valid_graph m' ->
    astep protect m m'
| as_ready m x ds :
    m !! x = Some (PENDING, ds) -> (forall y, y ∈ ds -> is_completed m y) ->
    astep protect m (<[x := (READY, ds)]> m)
| as_claim m x st ds :
    m !! x = Some (st, ds) -> st = PENDING \/ st = READY ->
    (forall y, y ∈ ds -> is_completed m y) ->
    astep protect m (<[x := (RUNNING, ds)]> m)
| as_finish m x ds st :
    m !! x = Some (RUNNING, ds) ->
    st ∈ [COMPLETED; WAITING_DEPENDENCY; WAITING_USER; WAITING_RETRY; UNFULFILLABLE; FAILED] ->
    astep protect m (<[x := (st, ds)]> m)
| as_wake m x st ds :
    m !! x = Some (st, ds) -> st ∈ [WAITING_DEPENDENCY; WAITING_USER; WAITING_RETRY] ->
    astep protect m (<[x := (PENDING, ds)]> m).

(** The invariant: a valid graph in which ready and running tasks have all
    their dependencies completed. *)
Record sound (m : board) : Prop := {
  so_graph : valid_graph m;
  so_ready : forall x st ds, m !! x = Some (st, ds) -> st = READY \/ st = RUNNING ->
    forall y, y ∈ ds -> is_completed m y
}.

Lemma depends_insert m x st st' ds a b :
  m !! x = Some (st, ds) -> depends (<[x := (st', ds)]> m) a b <-> depends m a b.
Proof.
  intros Hx. unfold depends. destruct (decide (a = x)) as [->|Hne].
  - rewrite lookup_insert_eq. rewrite Hx. naive_solver.
  - by rewrite lookup_insert_ne.
Qed.

Lemma valid_graph_insert m x st st' ds :
  m !! x = Some (st, ds) -> valid_graph m -> valid_graph (<[x := (st', ds)]> m).
Proof.
  intros Hx [Hk Ha]. split.
  - intros a b Hab. apply (depends_insert _ _ _ _ _ _ _ Hx) in Hab. apply Hk in Hab.
    rewrite lookup_insert. case_decide; [by eexists|done].
  - intros a Hc. apply (Ha a). revert Hc. apply tc_impl. intros b c.
    apply (depends_insert _ _ _ _ _ _ _ Hx).
Qed.

Lemma is_completed_insert m x st ds st' y :
  m !! x = Some (st, ds) -> st ≠ COMPLETED \/ st' = COMPLETED ->
  is_completed m y -> is_completed (<[x := (st', ds)]> m) y.
Proof.
  intros Hx Hst [d Hy]. unfold is_completed. destruct (decide (y = x)) as [->|].
  - rewrite lookup_insert_eq. destruct Hst; simplify_eq; eauto.
  - rewrite lookup_insert_ne; eauto.
Qed.

(** A status change that does not un-complete a task and, when it makes the
    task ready or running, finds its dependencies completed. *)
Lemma sound_insert m x st st' ds :
  m !! x = Some (st, ds) -> st ≠ COMPLETED ->
  (st' = READY \/ st' = RUNNING -> forall y, y ∈ ds -> is_completed m y) ->
  sound m -> sound (<[x := (st', ds)]> m).
Proof.
  intros Hx Hst Hdep [Hg Hr]. split; [by eapply valid_graph_insert|].
  intros a sa da Ha Hsa y Hy. eapply is_completed_insert; [done|by left|].
  destruct (decide (a = x)) as [->|Hne].
  - rewrite lookup_insert_eq in Ha. simplify_eq. auto.
  - rewrite lookup_insert_ne in Ha by done. eauto.
Qed.

Lemma sound_empty : sound ∅.
Proof.
  split; [split|].
  - intros x y (st & ds & H & _). by rewrite lookup_empty in H.
  - intros x Hc. destruct Hc as [? ? (st & ds & H & _)|? ? ? (st & ds & H & _)];
      by rewrite lookup_empty in H.
  - intros x st ds H. by rewrite lookup_empty in H.
Qed.

(** A patch keeps a completed dependency of a kept task: the dependency is
    known in the new graph, and a re-planned entry was not completed. *)
Lemma sound_patch protect m m' :
  (forall x st ds, m' !! x = Some (st, ds) ->
     m !! x = Some (st, ds) \/
     (st = PENDING /\ forall st0 ds0, m !! x = Some (st0, ds0) -> ~ protected st0)) ->
  valid_graph m' -> astep protect m m' -> sound m -> sound m'.
Proof.
  intros Hk Hg _ [_ Hr]. split; [done|]. intros x st ds Hx Hst y Hy.
  destruct (Hk _ _ _ Hx) as [Hx0|[-> _]]; [|by destruct Hst].
  destruct (Hr _ _ _ Hx0 Hst y Hy) as [dy Hy0].
  destruct (vg_known _ Hg x y) as [[sy dy'] Hy']; [by exists st, ds|].
  destruct (Hk _ _ _ Hy') as [Hy1|[_ Hn]]; [simplify_eq; eexists; exact Hy'|].
  exfalso. apply (Hn _ _ Hy0). by right.
Qed.

Lemma astep_sound protect m m' : astep protect m m' -> sound m -> sound m'.
Proof.
  intros Hs. inversion Hs as [? ? Hk Hp Hg|? x ds Hx Hd|? x st ds Hx Hst Hd|? x ds st Hx Hst|? x st ds Hx Hst];
    subst; intros Hm.
  - by eapply sound_patch.
  - eapply sound_insert; eauto.
  - eapply sound_insert; eauto. by destruct Hst as [-> | ->].
  - eapply sound_insert; eauto. set_solver.
  - eapply sound_insert; eauto; [set_solver|]. by intros [|].
Qed.

Lemma asteps_sound protect m m' : rtc (astep protect) m m' -> sound m -> sound m'.
Proof. induction 1; eauto using astep_sound. Qed.

(** A completed task keeps its status and dependencies. *)
Lemma astep_completed m m' x ds :
  astep true m m' -> m !! x = Some (COMPLETED, ds) -> m' !! x = Some (COMPLETED, ds).
Proof.
  intros Hs Hx. inversion Hs as [? ? Hk Hp Hg|? z d Hz Hd|? z st d Hz Hst Hd|? z d st Hz Hst|? z st d Hz Hst]; subst.
  - apply Hp; [done|done|by right].
  - rewrite lookup_insert_ne; [done|]. intros ->. simplify_eq.
  - rewrite lookup_insert_ne; [done|]. intros ->. simplify_eq. by destruct Hst.
  - rewrite lookup_insert_ne; [done|]. intros ->. simplify_eq.
  - rewrite lookup_insert_ne; [done|]. intros ->. simplify_eq. set_solver.
Qed.

Lemma asteps_completed m m' x ds :
  rtc (astep true) m m' -> m !! x = Some (COMPLETED, ds) -> m' !! x = Some (COMPLETED, ds).
Proof. induction 1; eauto using astep_completed. Qed.

(** A running task only leaves that status by finishing. *)
Lemma astep_running m m' x ds :
  astep true m m' -> m !! x = Some (RUNNING, ds) ->
  exists st, m' !! x = Some (st, ds) /\
    st ∈ [RUNNING; COMPLETED; WAITING_DEPENDENCY; WAITING_USER; WAITING_RETRY; UNFULFILLABLE; FAILED].
Proof.
  intros Hs Hx. inversion Hs as [? ? Hk Hp Hg|? z d Hz Hd|? z st d Hz Hst Hd|? z d st Hz Hst|? z st d Hz Hst]; subst.
  - exists RUNNING. split; [apply Hp; [done|done|by left]|set_solver].
  - exists RUNNING. split; [|set_solver]. rewrite lookup_insert_ne; [done|]. intros ->. simplify_eq.
  - exists RUNNING. split; [|set_solver]. rewrite lookup_insert_ne; [done|].
    intros ->. simplify_eq. by destruct Hst.
  - destruct (decide (z = x)) as [->|].
    + simplify_eq. exists st. rewrite lookup_insert_eq. split; [done|]. by right.
    + exists RUNNING. rewrite lookup_insert_ne by done. split; [done|set_solver].
  - exists RUNNING. split; [|set_solver]. rewrite lookup_insert_ne; [done|].
    intros ->. simplify_eq. set_solver.
Qed.

Create HintDb scheduler.
#[export] Hint Resolve sound_empty astep_sound asteps_sound : scheduler.
#[export] Hint Constructors astep : scheduler.
