(* ===== verification/PlanMemory.v ===== *)
(** * The in-memory plan store

    Models [InMemoryPlanStore] of [app/runtime/plan_store.py].  A method is a
    [py] computation over the three dictionaries of the store; it keeps the
    mutations made before an exception, as the Python objects do.  The plan
    identifier ([uuid4]) and the clock ([_now]) are arguments. *)
From S2P Require Import Prelude Contracts TaskGraph.

(** ** State *)

(** A task dictionary.  [mt_needs] holds the dumps of the declared needs. *)
Record MemTask := mkMemTask {
  mt_task_id : string;
  mt_executor : string;
  mt_intent : string;
  mt_instructions : string;
  mt_inputs : odict json;
  mt_expected_outputs : list TaskOutputSpec;
  mt_depends_on : list string;
  mt_needs : list NeedDict;
  mt_on_success : TaskSuccessAction;
  mt_status : TaskStatus;
  mt_checkpoint : odict json;
  mt_result : option AgentTaskResult;
  mt_attempts : Z;
  mt_planned_order : Z;
  mt_next_retry_at : option Z
}.

#[export] Instance MemTask_dict : TaskDict MemTask := {
  td_status t := Some (mt_status t);
  td_depends_on := mt_depends_on;
  td_needs := mt_needs;
  td_expected_outputs := mt_expected_outputs
}.

Record MemPlan := mkMemPlan {
  mp_id : string;
  mp_goal : string;
  mp_root_run_id : string;
  mp_tenant_id : string;
  mp_chat_id : option string;
  mp_status : PlanStatus;
  mp_revision : Z;
  mp_tasks : odict MemTask;
  mp_needs : odict NeedDict;
  mp_answer_brief : option string;
  mp_last_failure : option (odict json)
}.

Record Revision := mkRevision {
  rv_revision : Z;
  rv_reason : string;
  rv_planner_invocation_id : option string;
  rv_patch : PlanPatch;
  rv_created_at : Z
}.

Record Attempt := mkAttempt {
  at_attempt_number : Z;
  at_status : AttemptStatus;
  at_started_at : Z;
  at_error : option TaskAttemptFailure;
  at_finished_at : option Z
}.

Record MemStore := mkMemStore {
  ms_plans : odict MemPlan;
  ms_revisions : odict (list Revision);
  ms_attempts : odict (list Attempt)      (* keyed by task id alone *)
}.

Definition mem (A : Type) : Type := py exn MemStore A.

Definition empty_store : MemStore := mkMemStore [] [] [].

(** ** Field updates *)

Definition with_status (st : TaskStatus) (t : MemTask) : MemTask :=
  mkMemTask (mt_task_id t) (mt_executor t) (mt_intent t) (mt_instructions t) (mt_inputs t)
    (mt_expected_outputs t) (mt_depends_on t) (mt_needs t) (mt_on_success t) st
    (mt_checkpoint t) (mt_result t) (mt_attempts t) (mt_planned_order t) (mt_next_retry_at t).

Definition with_checkpoint (c : odict json) (t : MemTask) : MemTask :=
  mkMemTask (mt_task_id t) (mt_executor t) (mt_intent t) (mt_instructions t) (mt_inputs t)
    (mt_expected_outputs t) (mt_depends_on t) (mt_needs t) (mt_on_success t) (mt_status t)
    c (mt_result t) (mt_attempts t) (mt_planned_order t) (mt_next_retry_at t).

Definition with_result (r : option AgentTaskResult) (t : MemTask) : MemTask :=
  mkMemTask (mt_task_id t) (mt_executor t) (mt_intent t) (mt_instructions t) (mt_inputs t)
    (mt_expected_outputs t) (mt_depends_on t) (mt_needs t) (mt_on_success t) (mt_status t)
    (mt_checkpoint t) r (mt_attempts t) (mt_planned_order t) (mt_next_retry_at t).

Definition with_attempts (n : Z) (t : MemTask) : MemTask :=
  mkMemTask (mt_task_id t) (mt_executor t) (mt_intent t) (mt_instructions t) (mt_inputs t)
    (mt_expected_outputs t) (mt_depends_on t) (mt_needs t) (mt_on_success t) (mt_status t)
    (mt_checkpoint t) (mt_result t) n (mt_planned_order t) (mt_next_retry_at t).

Definition with_next_retry_at (r : option Z) (t : MemTask) : MemTask :=
  mkMemTask (mt_task_id t) (mt_executor t) (mt_intent t) (mt_instructions t) (mt_inputs t)
    (mt_expected_outputs t) (mt_depends_on t) (mt_needs t) (mt_on_success t) (mt_status t)
    (mt_checkpoint t) (mt_result t) (mt_attempts t) (mt_planned_order t) r.

Definition plan_with_status (st : PlanStatus) (p : MemPlan) : MemPlan :=
  mkMemPlan (mp_id p) (mp_goal p) (mp_root_run_id p) (mp_tenant_id p) (mp_chat_id p) st
    (mp_revision p) (mp_tasks p) (mp_needs p) (mp_answer_brief p) (mp_last_failure p).

Definition plan_with_tasks (ts : odict MemTask) (p : MemPlan) : MemPlan :=
  mkMemPlan (mp_id p) (mp_goal p) (mp_root_run_id p) (mp_tenant_id p) (mp_chat_id p) (mp_status p)
    (mp_revision p) ts (mp_needs p) (mp_answer_brief p) (mp_last_failure p).

Definition plan_with_needs (ns : odict NeedDict) (p : MemPlan) : MemPlan :=
  mkMemPlan (mp_id p) (mp_goal p) (mp_root_run_id p) (mp_tenant_id p) (mp_chat_id p) (mp_status p)
    (mp_revision p) (mp_tasks p) ns (mp_answer_brief p) (mp_last_failure p).

Definition plan_with_last_failure (f : odict json) (p : MemPlan) : MemPlan :=
  mkMemPlan (mp_id p) (mp_goal p) (mp_root_run_id p) (mp_tenant_id p) (mp_chat_id p) (mp_status p)
    (mp_revision p) (mp_tasks p) (mp_needs p) (mp_answer_brief p) (Some f).

Definition need_with_status (st : RequirementStatus) (n : NeedDict) : NeedDict :=
  mkNeedDict (nd_task_id n) (nd_spec n) (Some st) (nd_resolver_task_id n).

Definition spec_with_value (v : option json) (n : NeedSpec) : NeedSpec :=
  mkNeedSpec (ns_ref n) (ns_key n) (ns_kind n) (ns_description n) (ns_json_schema n)
    (ns_required n) (ns_context n) v (ns_resolved_by n) (ns_resolved_at_iteration n).

(** [need["status"] = RESOLVED; need["resolved_value"] = v;
     need["resolver_task_id"] = who] *)
Definition resolve_need (v : json) (who : string) (n : NeedDict) : NeedDict :=
  mkNeedDict (nd_task_id n) (spec_with_value (Some v) (nd_spec n)) (Some ReqRESOLVED) (Some who).

Definition opt_or {A} (o d : option A) : option A :=
  match o with Some a => Some a | None => d end.

(** ** Store access *)

Definition get (plan_id : string) : mem MemPlan :=
  s ← get_state;
  match od_get plan_id (ms_plans s) with
  | Some p => mret p
  | None => raise (KeyError plan_id)
  end.

(** A mutation of the plan dictionary the store holds. *)
Definition update_plan (plan_id : string) (f : MemPlan -> MemPlan) : mem unit :=
  modify (fun s => mkMemStore (od_alter f plan_id (ms_plans s)) (ms_revisions s) (ms_attempts s)).

Definition update_task (plan_id task_id : string) (f : MemTask -> MemTask) : mem unit :=
  update_plan plan_id (fun p => plan_with_tasks (od_alter f task_id (mp_tasks p)) p).

Definition create (uuid4 : string) (goal root_run_id tenant_id : string) (chat_id : option string)
  : mem MemPlan :=
  let plan := mkMemPlan uuid4 goal root_run_id tenant_id chat_id PlanDRAFT 0 [] [] None None in
  _ ← modify (fun s => mkMemStore (od_set uuid4 plan (ms_plans s))
                                  (od_set uuid4 [] (ms_revisions s)) (ms_attempts s));
  mret plan.

(** ** Readiness *)

(** [{**need, **requirement}] *)
Definition merge_need (need requirement : NeedDict) : NeedDict :=
  mkNeedDict (opt_or (nd_task_id requirement) (nd_task_id need)) (nd_spec requirement)
    (opt_or (nd_status requirement) (nd_status need))
    (opt_or (nd_resolver_task_id requirement) (nd_resolver_task_id need)).

(** The first requirement of the plan recorded for this task and key. *)
Definition find_requirement (needs : odict NeedDict) (task_id key : string) : option NeedDict :=
  List.find (fun r => bool_decide (nd_task_id r = Some task_id) && bool_decide (nd_key r = key))
            (od_values needs).

Definition with_needs (ns : list NeedDict) (t : MemTask) : MemTask :=
  mkMemTask (mt_task_id t) (mt_executor t) (mt_intent t) (mt_instructions t) (mt_inputs t)
    (mt_expected_outputs t) (mt_depends_on t) ns (mt_on_success t) (mt_status t)
    (mt_checkpoint t) (mt_result t) (mt_attempts t) (mt_planned_order t) (mt_next_retry_at t).

Definition task_for_readiness (needs : odict NeedDict) (t : MemTask) : MemTask :=
  with_needs (map (fun need => match find_requirement needs (mt_task_id t) (nd_key need) with
                               | Some r => merge_need need r
                               | None => need
                               end) (mt_needs t)) t.

(** One round of the loop, which sees the statuses written by earlier rounds. *)
Definition refresh_task (needs : odict NeedDict) (tasks : odict MemTask) (key : string)
  : odict MemTask :=
  match od_get key tasks with
  | Some task =>
      if task_is_ready (task_for_readiness needs task) tasks
      then od_alter (with_status READY) key tasks else tasks
  | None => tasks
  end.

Definition refresh_tasks (needs : odict NeedDict) (tasks : odict MemTask) : odict MemTask :=
  foldl (refresh_task needs) tasks (od_keys tasks).

Definition refresh_ready (plan_id : string) : mem unit :=
  plan ← get plan_id;
  update_plan plan_id (fun p => plan_with_tasks (refresh_tasks (mp_needs p) (mp_tasks p)) p).

(** ** Applying a planner patch *)

Definition planned_of_task (task_id : string) (t : MemTask) : PlannedTask :=
  mkPlannedTask task_id (mt_executor t) (mt_intent t) (mt_instructions t) (mt_inputs t)
    (mt_expected_outputs t) (mt_depends_on t) (map nd_spec (mt_needs t)) (mt_on_success t).

(** [merged.values()]: the surviving tasks updated with the patch's tasks. *)
Definition merged_tasks (plan : MemPlan) (patch : PlanPatch) : list PlannedTask :=
  let existing := map (fun kt => planned_of_task kt.1 kt.2)
    (filter (fun kt => kt.1 ∉ pp_remove_task_ids patch) (mp_tasks plan)) in
  od_values (od_update (od_update [] (by_id existing)) (by_id (pp_tasks patch))).

Definition active_or_completed (t : MemTask) : bool :=
  bool_decide (mt_status t = RUNNING) || bool_decide (mt_status t = COMPLETED).

(** [task.needs], or the requirement dictionaries [model_copy] puts in its
    place without validation. *)
Inductive effective_needs :=
| NeedModels (needs : list NeedSpec)
| NeedDicts (needs : list NeedDict).

Definition old_needs (plan : MemPlan) (task_id : string) : list NeedDict :=
  List.filter (fun n => bool_decide (nd_task_id n = Some task_id)) (od_values (mp_needs plan)).

Definition effective_task_needs (old : option MemTask) (task : PlannedTask) (olds : list NeedDict)
  : effective_needs :=
  match old, pt_needs task, olds with
  | Some _, [], _ :: _ => NeedDicts olds
  | _, ns, _ => NeedModels ns
  end.

Definition dump_need (n : NeedSpec) : NeedDict := mkNeedDict None n None None.

(** The dictionary stored for a task of the patch. *)
Definition replacement (old : option MemTask) (index : Z) (task : PlannedTask)
    (needs : effective_needs) : MemTask :=
  mkMemTask (pt_task_id task) (pt_executor task) (pt_intent task) (pt_instructions task)
    (pt_inputs task) (pt_expected_outputs task) (pt_depends_on task)
    (match needs with NeedModels ns => map dump_need ns | NeedDicts ds => ds end)
    (pt_on_success task)
    (match old with
     | Some o => if active_or_completed o then mt_status o else PENDING
     | None => PENDING
     end)
    (match old with Some o => if active_or_completed o then mt_checkpoint o else [] | None => [] end)
    (match old with Some o => if active_or_completed o then mt_result o else None | None => None end)
    (match old with Some o => mt_attempts o | None => 0%Z end)
    (match old with Some o => mt_planned_order o | None => index end)
    None.

Definition need_key (task_id key : string) : string := (task_id +:+ ":" +:+ key)%string.

(** A requirement entry of the plan, as patches and executors record it. *)
Definition requirement_of (task_id : string) (need : NeedSpec) : NeedDict :=
  mkNeedDict (Some task_id) (spec_with_value None need) (Some ReqPENDING) None.

Definition put_requirement (task_id : string) (needs : odict NeedDict) (need : NeedSpec)
  : odict NeedDict :=
  od_set (need_key task_id (ns_key need)) (requirement_of task_id need) needs.

Definition drop_requirements (task_id : string) (needs : odict NeedDict) : odict NeedDict :=
  filter (fun kn => nd_task_id kn.2 ≠ Some task_id) needs.

(** The body of [for index, task in enumerate(patch.tasks)]. *)
Definition apply_patch_task (plan_id : string) (it : Z * PlannedTask) : mem unit :=
  let '(index, task) := it in
  plan ← get plan_id;
  let old := od_get (pt_task_id task) (mp_tasks plan) in
  if match old with Some o => active_or_completed o | None => false end
  then raise (PlanValidationError (CannotReplace (pt_task_id task))) else
  let needs := effective_task_needs old task (old_needs plan (pt_task_id task)) in
  _ ← update_plan plan_id (fun p => plan_with_needs (drop_requirements (pt_task_id task) (mp_needs p)) p);
  _ ← update_plan plan_id (fun p =>
        plan_with_tasks (od_set (pt_task_id task) (replacement old index task needs) (mp_tasks p)) p);
  match needs with
  | NeedModels ns =>
      update_plan plan_id (fun p =>
        plan_with_needs (foldl (put_requirement (pt_task_id task)) (mp_needs p) ns) p)
  | NeedDicts _ => raise (AttributeError "key")     (* need.key on a dict *)
  end.

Definition enumerate {A} (l : list A) : list (Z * A) :=
  zip (map Z.of_nat (seq 0 (length l))) l.

Definition decision_status (d : PlannerDecisionKind) : PlanStatus :=
  match d with
  | ASK_USER => PlanWAITING_INPUT
  | COMPLETE_PLAN => PlanCOMPLETED
  | FAIL_PLAN => PlanFAILED
  | CREATE_PLAN | REVISE_PLAN => PlanACTIVE
  end.

(** Pending requirements are routed to the user. *)
Definition route_to_user (n : NeedDict) : NeedDict :=
  if bool_decide (nd_status n = Some ReqPENDING) then need_with_status ReqWAITING_USER n else n.

(** Revision, goal, status, requirements and answer brief after the task loop. *)
Definition finish_patch (patch : PlanPatch) (p : MemPlan) : MemPlan :=
  mkMemPlan (mp_id p)
    (match pp_goal patch with Some g => if str_empty g then mp_goal p else g | None => mp_goal p end)
    (mp_root_run_id p) (mp_tenant_id p) (mp_chat_id p)
    (decision_status (pp_decision patch)) (mp_revision p + 1) (mp_tasks p)
    (if bool_decide (pp_decision patch = ASK_USER) then od_map route_to_user (mp_needs p)
     else mp_needs p)
    (opt_or (pp_answer_brief patch) (mp_answer_brief p)) (mp_last_failure p).

Definition apply_patch (now : Z) (plan_id : string) (patch : PlanPatch) (reason : string)
    (planner_invocation_id : option string) : mem unit :=
  plan ← get plan_id;
  if negb (Z.eqb (pp_expected_revision patch) (mp_revision plan))
  then raise (PlanConflictError (pp_expected_revision patch) (mp_revision plan)) else
  _ ← of_result (validate_task_graph (merged_tasks plan patch));
  _ ← for_each (fun task_id => update_plan plan_id (fun p =>
                  plan_with_tasks (od_pop task_id (mp_tasks p)) p)) (pp_remove_task_ids patch);
  _ ← for_each (apply_patch_task plan_id) (enumerate (pp_tasks patch));
  _ ← update_plan plan_id (finish_patch patch);
  plan ← get plan_id;
  _ ← modify (fun s => mkMemStore (ms_plans s)
        (od_alter (fun l => l ++ [mkRevision (mp_revision plan) reason planner_invocation_id patch now])
                  plan_id (ms_revisions s)) (ms_attempts s));
  refresh_ready plan_id.

(** ** Failing, claiming and finishing *)

Definition mark_failed (plan_id : string) (failure : odict json) : mem unit :=
  plan ← get plan_id;
  update_plan plan_id (fun p => plan_with_last_failure failure (plan_with_status PlanFAILED p)).

Definition claim_key (kt : string * MemTask) : Z * string :=
  (mt_planned_order kt.2, mt_task_id kt.2).

(** [sorted((task for task in ... if READY), key=...)], with the dictionary
    key each task object is stored under. *)
Definition ready_tasks (tasks : odict MemTask) : odict MemTask :=
  sort_by claim_key claim_le (filter (fun kt => mt_status kt.2 = READY) tasks).

Definition batch_size (limit : Z) : nat := Z.to_nat (Z.max 1 limit).

Definition claim_task (t : MemTask) : MemTask :=
  with_attempts (mt_attempts t + 1) (with_status RUNNING t).

Definition append_attempt (task_id : string) (a : Attempt) (attempts : odict (list Attempt))
  : odict (list Attempt) :=
  od_set task_id (match od_get task_id attempts with Some l => l ++ [a] | None => [a] end) attempts.

Definition claim_one (now : Z) (plan_id : string) (kt : string * MemTask) : mem unit :=
  let '(key, task) := kt in
  _ ← update_task plan_id key claim_task;
  modify (fun s => mkMemStore (ms_plans s) (ms_revisions s)
    (append_attempt (mt_task_id task)
       (mkAttempt (mt_attempts task + 1) AttRUNNING now None None) (ms_attempts s))).

Definition claim_ready_batch (now : Z) (plan_id : string) (limit : Z) : mem (list MemTask) :=
  plan ← get plan_id;
  _ ← refresh_ready plan_id;
  plan ← get plan_id;
  let batch := take (batch_size limit) (ready_tasks (mp_tasks plan)) in
  _ ← for_each (claim_one now plan_id) batch;
  mret (map (fun kt => claim_task kt.2) batch).

Definition claim_ready (now : Z) (plan_id : string) : mem (option MemTask) :=
  batch ← claim_ready_batch now plan_id 1;
  mret (head batch).

(** [_refresh_plan_status] *)
Definition task_statuses (p : MemPlan) : list TaskStatus := map (fun kt => mt_status kt.2) (mp_tasks p).

Definition refreshed_status (statuses : list TaskStatus) (current : PlanStatus) : PlanStatus :=
  if negb (bool_decide (statuses = []))
     && forallb (fun st => bool_decide (st ∈ TERMINAL_TASK_STATUSES)) statuses
     && negb (bool_decide (FAILED ∈ statuses)) && negb (bool_decide (UNFULFILLABLE ∈ statuses))
  then PlanCOMPLETED
  else if bool_decide (WAITING_USER ∈ statuses) then PlanWAITING_INPUT else current.

Definition _refresh_plan_status (plan_id : string) : mem unit :=
  plan ← get plan_id;
  update_plan plan_id (fun p => plan_with_status (refreshed_status (task_statuses p) (mp_status p)) p).

(** [pending_needs] of [apply_result] *)
Definition unresolved_needs (plan : MemPlan) (task_id : string) (task : MemTask) : list string :=
  map nd_key (List.filter (fun need =>
    nd_required need &&
    negb (bool_decide (match od_get (need_key task_id (nd_key need)) (mp_needs plan) with
                       | Some r => nd_status r
                       | None => None
                       end = Some ReqRESOLVED))) (mt_needs task)).

(** Does the output of [task_id] resolve this requirement? *)
Definition resolvable (plan : MemPlan) (task_id : string) (req : NeedDict) : bool :=
  bool_decide (nd_status req = Some ReqPENDING)
  && negb (bool_decide (nd_task_id req = Some task_id))
  && match nd_task_id req with
     | Some consumer_id =>
         match od_get consumer_id (mp_tasks plan) with
         | Some consumer => bool_decide (task_id ∈ mt_depends_on consumer)
         | None => false
         end
     | None => false
     end.

Definition resolve_from_outputs (plan : MemPlan) (task_id : string) (outputs : odict json)
    (req : NeedDict) : NeedDict :=
  if resolvable plan task_id req then
    match od_get (nd_key req) outputs with
    | Some v => resolve_need v task_id req
    | None => req
    end
  else req.

Definition outcome_status (o : TaskOutcome) : TaskStatus :=
  match o with
  | OutCOMPLETED => COMPLETED
  | OutNEEDS_DEPENDENCY => WAITING_DEPENDENCY
  | OutUNFULFILLABLE => UNFULFILLABLE
  end.

Definition apply_result (plan_id task_id : string) (r : AgentTaskResult) : mem unit :=
  plan ← get plan_id;
  match od_get task_id (mp_tasks plan) with
  | None => raise (TaskNotFoundError task_id)
  | Some task =>
      if negb (bool_decide (mt_status task = RUNNING))
      then raise (PlanValidationError (NotRunning task_id)) else
      let completed := bool_decide (ar_outcome r = OutCOMPLETED) in
      if completed && negb (bool_decide (unresolved_needs plan task_id task = []))
      then raise (PlanValidationError (UnresolvedNeeds task_id (unresolved_needs plan task_id task)))
      else if completed && negb (bool_decide (_missing_contract_outputs task r = []))
      then raise (PlanValidationError (MissingOutputs task_id (_missing_contract_outputs task r)))
      else
      _ ← update_task plan_id task_id (fun t =>
            with_status (outcome_status (ar_outcome r))
              (with_checkpoint (ar_checkpoint r) (with_result (Some r) t)));
      _ ← update_plan plan_id (fun p =>
            match ar_outcome r with
            | OutCOMPLETED =>
                plan_with_needs (od_map (resolve_from_outputs p task_id (ar_outputs r)) (mp_needs p)) p
            | OutNEEDS_DEPENDENCY =>
                plan_with_needs (foldl (put_requirement task_id) (mp_needs p) (ar_needs r)) p
            | OutUNFULFILLABLE => p
            end);
      _ ← refresh_ready plan_id;
      _refresh_plan_status plan_id
  end.

Definition dump_failure (task_id : string) (f : TaskAttemptFailure) : odict json :=
  [("task_id", JStr task_id); ("code", JStr (af_code f)); ("message", JStr (af_message f));
   ("retryable", JBool (af_retryable f)); ("timed_out", JBool (af_timed_out f));
   ("details", JObj (af_details f))]%string.

(** [attempts[-1].update(...)], when there is an attempt. *)
Definition fail_last_attempt (now : Z) (f : TaskAttemptFailure) (l : list Attempt) : list Attempt :=
  match reverse l with
  | [] => []
  | a :: l' =>
      reverse (mkAttempt (at_attempt_number a)
                 (if af_timed_out f then AttTIMED_OUT else AttFAILED)
                 (at_started_at a) (Some f) (Some now) :: l')
  end.

Definition record_failure (now : Z) (plan_id task_id : string) (failure : TaskAttemptFailure)
    (retry_at : option Z) (max_attempts : Z) : mem unit :=
  plan ← get plan_id;
  match od_get task_id (mp_tasks plan) with
  | None => raise (TaskNotFoundError task_id)
  | Some task =>
      _ ← modify (fun s => mkMemStore (ms_plans s) (ms_revisions s)
            (od_set task_id (match od_get task_id (ms_attempts s) with
                             | Some l => fail_last_attempt now failure l
                             | None => []
                             end) (ms_attempts s)));
      _ ← (if af_retryable failure && (mt_attempts task <? max_attempts)%Z
           then update_task plan_id task_id (fun t =>
                  with_next_retry_at retry_at (with_status WAITING_RETRY t))
           else
             _ ← update_task plan_id task_id (with_status FAILED);
             update_plan plan_id (plan_with_last_failure (dump_failure task_id failure)));
      _refresh_plan_status plan_id
  end.

(** ** Resuming *)

Definition resume_task (plan_id task_id : string) : mem unit :=
  plan ← get plan_id;
  match od_get task_id (mp_tasks plan) with
  | None => raise (TaskNotFoundError task_id)
  | Some task =>
      if negb (bool_decide (mt_status task ∈ [WAITING_DEPENDENCY; WAITING_USER; WAITING_RETRY]))
      then raise (PlanValidationError (NotResumable task_id)) else
      _ ← update_task plan_id task_id (with_status PENDING);
      _ ← update_plan plan_id (plan_with_status PlanACTIVE);
      refresh_ready plan_id
  end.

Definition wake (value : string) (t : MemTask) : MemTask :=
  let t' := with_checkpoint (od_set "user_input" (JStr value) (mt_checkpoint t)) t in
  if bool_decide (mt_status t ∈ [WAITING_DEPENDENCY; WAITING_USER]) then with_status PENDING t' else t'.

(** [sorted((key, need) for ... if WAITING_USER)] *)
Definition waiting_needs (needs : odict NeedDict) : odict NeedDict :=
  sort_by fst String.le (filter (fun kn => nd_status kn.2 = Some ReqWAITING_USER) needs).

Definition resolve_waiting_need (plan_id user_input : string) : mem (option string) :=
  let value := strip user_input in
  if str_empty value then mret None else
  plan ← get plan_id;
  match waiting_needs (mp_needs plan) with
  | [] => mret None
  | (key, need) :: _ =>
      _ ← update_plan plan_id (fun p =>
            plan_with_needs (od_alter (resolve_need (JStr value) "user") key (mp_needs p)) p);
      _ ← match nd_task_id need with
          | Some task_id => update_task plan_id task_id (wake value)
          | None => mret tt
          end;
      _ ← update_plan plan_id (plan_with_status PlanACTIVE);
      _ ← refresh_ready plan_id;
      mret (Some (if str_empty (nd_key need) then key else nd_key need))
  end.
