(* ===== verification/PlanMemoryProofs.v ===== *)
(** * The in-memory plan store: proofs

    [PlanMemory]'s methods make only the moves of [Scheduler] on the tasks of a
    plan; revision checking; what a patch does when it fails half way. *)
From S2P Require Import Prelude Contracts TaskGraph Scheduler PlanMemory.

(** ** The scheduler's view of a plan *)

Definition abs_tasks (ts : odict MemTask) : board :=
  list_to_map (map (fun kt => (kt.1, (mt_status kt.2, mt_depends_on kt.2))) ts).

Definition abs (p : MemPlan) : board := abs_tasks (mp_tasks p).

(** Tasks are stored under their own identifiers, each once. *)
Definition tasks_wf (ts : odict MemTask) : Prop :=
  NoDup (od_keys ts) /\ forall k t, od_get k ts = Some t -> mt_task_id t = k.

Definition plan_at (plan_id : string) (s : MemStore) : option MemPlan :=
  od_get plan_id (ms_plans s).

(** From [s] to [s'] the plan [plan_id] has only made scheduler moves. *)
Definition moves (plan_id : string) (s s' : MemStore) : Prop :=
  forall p, plan_at plan_id s = Some p -> tasks_wf (mp_tasks p) -> sound (abs p) ->
  exists p', plan_at plan_id s' = Some p' /\ tasks_wf (mp_tasks p') /\
             rtc (astep false) (abs p) (abs p').

Lemma moves_refl pid s : moves pid s s.
Proof. intros p Hp Hw _. exists p. split_and!; [done|done|apply rtc_refl]. Qed.

Lemma moves_trans pid s1 s2 s3 : moves pid s1 s2 -> moves pid s2 s3 -> moves pid s1 s3.
Proof.
  intros H1 H2 p Hp Hw Hs. destruct (H1 p Hp Hw Hs) as (p2 & Hp2 & Hw2 & Hr).
  destruct (H2 p2 Hp2 Hw2) as (p3 & Hp3 & Hw3 & Hr3); [by eapply asteps_sound|].
  exists p3. split_and!; [done|done|by etrans].
Qed.

Lemma abs_lookup ts x :
  abs_tasks ts !! x = (fun t => (mt_status t, mt_depends_on t)) <$> od_get x ts.
Proof.
  unfold abs_tasks. induction ts as [|[k t] ts IH]; simpl; [done|].
  rewrite lookup_insert. repeat case_decide; subst; done.
Qed.

Lemma plan_lookup p k t st :
  od_get k (mp_tasks p) = Some t -> mt_status t = st -> abs p !! k = Some (st, mt_depends_on t).
Proof. intros Hk <-. unfold abs. by rewrite abs_lookup, Hk. Qed.

Lemma abs_alter f k t ts :
  od_get k ts = Some t -> mt_depends_on (f t) = mt_depends_on t ->
  abs_tasks (od_alter f k ts) = <[k := (mt_status (f t), mt_depends_on t)]> (abs_tasks ts).
Proof.
  intros Hk Hd. apply map_eq. intros x. rewrite abs_lookup, od_get_alter, lookup_insert.
  rewrite abs_lookup. destruct (decide (x = k)) as [Hx|Hx].
  - subst. rewrite decide_True, Hk by done. simpl. by rewrite Hd.
  - by rewrite decide_False by congruence.
Qed.

Lemma tasks_wf_alter f k ts :
  (forall t, mt_task_id (f t) = mt_task_id t) -> tasks_wf ts -> tasks_wf (od_alter f k ts).
Proof.
  intros Hf [Hn Hk]. split; [by rewrite od_keys_alter|]. intros x t. rewrite od_get_alter.
  case_decide; subst; [|auto]. destruct (od_get k ts) eqn:E; simpl; intros; simplify_eq.
  rewrite Hf. auto.
Qed.

(** ** Primitive operations *)

Lemma plan_at_update pid f s :
  plan_at pid (update_plan pid f s).2 = f <$> plan_at pid s.
Proof. unfold plan_at, update_plan, modify; simpl. rewrite od_get_alter. by rewrite decide_True. Qed.

Lemma update_plan_inv pid f s u s' :
  update_plan pid f s = (Ok u, s') -> s' = (update_plan pid f s).2.
Proof. by intros ->. Qed.

Lemma update_task_inv pid key f s u s' :
  update_task pid key f s = (Ok u, s') -> s' = (update_task pid key f s).2.
Proof. by intros ->. Qed.

(** Replaces the target state of an update by its definition. *)
Ltac updates :=
  repeat match goal with
  | H : update_task _ _ _ _ = (Ok _, _) |- _ => apply update_task_inv in H; subst
  | H : update_plan _ _ _ = (Ok _, _) |- _ => apply update_plan_inv in H; subst
  end.

Lemma get_Ok pid s p s' : get pid s = (Ok p, s') <-> s' = s /\ plan_at pid s = Some p.
Proof.
  unfold get, plan_at, get_state, mbind, py_bind; simpl.
  destruct (od_get pid (ms_plans s)); unfold mret, py_ret, raise; naive_solver.
Qed.

Lemma get_eq pid s p : plan_at pid s = Some p -> get pid s = (Ok p, s).
Proof. intros. by apply get_Ok. Qed.

(** Updates that leave the tasks alone. *)
Lemma update_plan_moves pid f s :
  (forall p, mp_tasks (f p) = mp_tasks p) -> moves pid s (update_plan pid f s).2.
Proof.
  intros Hf p Hp Hw _. exists (f p). rewrite plan_at_update, Hp. unfold abs. rewrite !Hf.
  split_and!; [done|done|apply rtc_refl].
Qed.

(** Updates of one task: a scheduler move, or no change of status. *)
Lemma update_task_moves pid key f s p t :
  plan_at pid s = Some p -> od_get key (mp_tasks p) = Some t ->
  (forall t, mt_task_id (f t) = mt_task_id t) -> mt_depends_on (f t) = mt_depends_on t ->
  (sound (abs p) -> mt_status (f t) = mt_status t \/
     astep false (abs p) (<[key := (mt_status (f t), mt_depends_on t)]> (abs p))) ->
  moves pid s (update_task pid key f s).2.
Proof.
  intros Hp Ht Hid Hd Hst p' Hp' Hw Hs. simplify_eq. unfold update_task.
  exists (plan_with_tasks (od_alter f key (mp_tasks p)) p). rewrite plan_at_update, Hp.
  split_and!; [done|by apply tasks_wf_alter|]. unfold abs; simpl.
  rewrite (abs_alter _ _ t) by done. destruct (Hst Hs) as [Heq|Ha]; [|by apply rtc_once].
  rewrite Heq, insert_id; [apply rtc_refl|]. by rewrite abs_lookup, Ht.
Qed.

Lemma modify_attempts_moves pid s revisions attempts :
  moves pid s (mkMemStore (ms_plans s) revisions attempts).
Proof. intros p Hp Hw _. exists p. split_and!; [done|done|apply rtc_refl]. Qed.

(** Peels the last of a sequence of moves. *)
Ltac after tac := eapply moves_trans; [|solve [tac]].

(** ** Readiness *)

Lemma abs_completed ts dep t :
  od_get dep ts = Some t -> mt_status t = COMPLETED -> is_completed (abs_tasks ts) dep.
Proof. intros Hd Hc. exists (mt_depends_on t). rewrite abs_lookup, Hd. simpl. by rewrite Hc. Qed.

Lemma ready_deps ts needs t :
  task_is_ready (task_for_readiness needs t) ts = true ->
  (mt_status t = PENDING \/ mt_status t = READY) /\
  forall y, y ∈ mt_depends_on t -> is_completed (abs_tasks ts) y.
Proof.
  intros H. apply task_is_ready_spec in H as (Hst & Hdep & _). simpl in *.
  split; [naive_solver|]. intros y Hy. destruct (Hdep y Hy) as (t' & Ht' & Hs). simpl in Hs.
  simplify_eq. by eapply abs_completed.
Qed.

Lemma refresh_task_steps needs ts key :
  tasks_wf ts -> tasks_wf (refresh_task needs ts key) /\
  rtc (astep false) (abs_tasks ts) (abs_tasks (refresh_task needs ts key)).
Proof.
  intros Hw. unfold refresh_task. destruct (od_get key ts) as [t|] eqn:Ht; [|split; [done|apply rtc_refl]].
  destruct (task_is_ready _ _) eqn:Hr; [|split; [done|apply rtc_refl]].
  split; [by apply tasks_wf_alter|]. apply ready_deps in Hr as [Hst Hdep].
  rewrite (abs_alter _ _ t) by done. simpl. destruct Hst as [Hst|Hst].
  - apply rtc_once, as_ready; [|done]. rewrite abs_lookup, Ht. simpl. by rewrite Hst.
  - rewrite insert_id; [apply rtc_refl|]. rewrite abs_lookup, Ht. simpl. by rewrite Hst.
Qed.

Lemma refresh_loop_steps needs keys ts :
  tasks_wf ts -> tasks_wf (foldl (refresh_task needs) ts keys) /\
  rtc (astep false) (abs_tasks ts) (abs_tasks (foldl (refresh_task needs) ts keys)).
Proof.
  revert ts. induction keys as [|k keys IH]; intros ts Hw; simpl; [split; [done|apply rtc_refl]|].
  destruct (refresh_task_steps needs ts k Hw) as [Hw1 Hr1].
  destruct (IH _ Hw1) as [Hw2 Hr2]. split; [done|by etrans].
Qed.

Lemma refresh_ready_moves pid s r s' : refresh_ready pid s = (Ok r, s') -> moves pid s s'.
Proof.
  unfold refresh_ready. intros H. py_step. apply get_Ok in H0 as [-> Hp].
  updates. intros p Hp' Hw _. simplify_eq.
  destruct (refresh_loop_steps (mp_needs x) (od_keys (mp_tasks x)) _ Hw) as [Hw' Hr].
  eexists. rewrite plan_at_update, Hp. split_and!; [done|exact Hw'|exact Hr].
Qed.

Lemma refresh_plan_status_moves pid s r s' : _refresh_plan_status pid s = (Ok r, s') -> moves pid s s'.
Proof.
  unfold _refresh_plan_status. intros H. py_step. apply get_Ok in H0 as [-> Hp].
  updates. by apply update_plan_moves.
Qed.

(** ** Claiming *)

(** A batch entry still has the task it was read with. *)
Definition batch_current (pid : string) (batch : odict MemTask) (s : MemStore) : Prop :=
  forall p kt, plan_at pid s = Some p -> kt ∈ batch ->
    od_get kt.1 (mp_tasks p) = Some kt.2 /\ mt_status kt.2 = READY.

Lemma claim_one_moves now pid kt s s' r p :
  claim_one now pid kt s = (Ok r, s') -> plan_at pid s = Some p ->
  od_get kt.1 (mp_tasks p) = Some kt.2 -> mt_status kt.2 = READY -> moves pid s s'.
Proof.
  destruct kt as [key t]. simpl. intros H Hp Ht Hst. unfold claim_one in H. py_inv. updates.
  after ltac:(apply modify_attempts_moves).
  eapply update_task_moves; [exact Hp|exact Ht|done|done|].
  intros Hs. right. simpl. pose proof (plan_lookup _ _ _ _ Ht Hst) as Hl.
  eapply as_claim; [exact Hl|by right|]. eapply so_ready; [exact Hs|exact Hl|by left].
Qed.

Lemma claim_one_plan now pid kt s s' r :
  claim_one now pid kt s = (Ok r, s') ->
  plan_at pid s' = (fun p => plan_with_tasks (od_alter claim_task kt.1 (mp_tasks p)) p) <$> plan_at pid s.
Proof.
  destruct kt as [key t]. simpl. intros H. unfold claim_one in H. py_inv. updates.
  apply plan_at_update.
Qed.

Lemma claim_loop_moves now pid batch s s' r :
  NoDup (map fst batch) -> batch_current pid batch s -> is_Some (plan_at pid s) ->
  for_each (claim_one now pid) batch s = (Ok r, s') -> moves pid s s'.
Proof.
  revert s. induction batch as [|kt batch IH]; intros s Hn Hc [p Hp] H; simpl in *.
  { py_inv. apply moves_refl. }
  py_step. rename H0 into H1. apply NoDup_cons in Hn as [Hnk Hn].
  destruct (Hc p kt Hp ltac:(left)) as [Ht Hst].
  pose proof (claim_one_plan _ _ _ _ _ _ H1) as Hp1. rewrite Hp in Hp1. simpl in Hp1.
  eapply moves_trans; [eapply claim_one_moves; eauto|].
  eapply IH; [done| |by rewrite Hp1|exact H]. intros p1 kt1 Hp1' Hin. rewrite Hp1 in Hp1'. simplify_eq.
  destruct (Hc p kt1 Hp ltac:(by right)) as [Ht1 Hst1]. split; [|done]. simpl.
  rewrite od_get_alter, decide_False; [done|]. intros Heq. apply Hnk. rewrite <- Heq.
  apply list_elem_of_fmap. by exists kt1.
Qed.

Lemma ready_tasks_elem ts kt :
  kt ∈ ready_tasks ts <-> mt_status kt.2 = READY /\ kt ∈ ts.
Proof. unfold ready_tasks. by rewrite (sort_by_elem _ _), list_elem_of_filter. Qed.

Lemma ready_tasks_NoDup ts : NoDup (od_keys ts) -> NoDup (map fst (ready_tasks ts)).
Proof.
  intros Hn. unfold ready_tasks. rewrite (sort_by_perm _ _).
  revert Hn. unfold od_keys. induction ts as [|kt ts IH]; simpl; [done|].
  rewrite NoDup_cons. intros [Hk Hn]. rewrite filter_cons. case_decide; simpl; [|auto].
  apply NoDup_cons. split; [|auto]. intros (kt' & Heq & Hin)%list_elem_of_fmap.
  apply Hk. rewrite Heq. apply list_elem_of_fmap. exists kt'. split; [done|].
  by apply list_elem_of_filter in Hin as [_ ?].
Qed.

(** The batch is a prefix of the ready tasks, all of them current. *)
Lemma claim_batch_current pid s p n :
  plan_at pid s = Some p -> tasks_wf (mp_tasks p) ->
  NoDup (map fst (take n (ready_tasks (mp_tasks p)))) /\
  batch_current pid (take n (ready_tasks (mp_tasks p))) s.
Proof.
  intros Hp [Hn _]. split.
  - apply ready_tasks_NoDup in Hn. rewrite <- (take_drop n (ready_tasks _)), map_app in Hn.
    by apply NoDup_app in Hn as (Hn & _ & _).
  - intros p' kt Hp' Hin. simplify_eq. apply elem_of_take in Hin as (i & Hi & _).
    apply list_elem_of_lookup_2, ready_tasks_elem in Hi as [Hst Hin]. split; [|done].
    apply od_elem_get; [done|]. by destruct kt.
Qed.

Lemma claim_ready_batch_moves now pid limit s r s' :
  claim_ready_batch now pid limit s = (Ok r, s') -> moves pid s s'.
Proof.
  unfold claim_ready_batch. intros H. py_step. apply get_Ok in H0 as [-> Hp].
  py_step. rename H0 into Href. py_step. apply get_Ok in H0 as [-> Hp1].
  py_step. rename H0 into Hloop. py_inv.
  intros p0 Hp0 Hw Hs.
  destruct (refresh_ready_moves _ _ _ _ Href p0 Hp0 Hw Hs) as (p1 & Hp1' & Hw1 & Hr1).
  rewrite Hp1 in Hp1'. injection Hp1' as <-.
  destruct (claim_batch_current pid _ _ (batch_size limit) Hp1 Hw1) as [Hn Hc].
  destruct (claim_loop_moves _ _ _ _ _ _ Hn Hc ltac:(eauto) Hloop _ Hp1 Hw1) as (p2 & Hp2 & Hw2 & Hr2);
    [by eapply asteps_sound|].
  exists p2. split_and!; [done|done|by etrans].
Qed.

(** ** Finishing, failing and resuming *)

Lemma apply_result_moves pid tid res s r s' :
  apply_result pid tid res s = (Ok r, s') -> moves pid s s'.
Proof.
  unfold apply_result. intros H. py_step. apply get_Ok in H0 as [-> Hp].
  destruct (od_get tid (mp_tasks x)) as [t|] eqn:Ht; [|done].
  case_bool_decide as Hrun; [|done]. simpl in H.
  destruct (_ && _); [done|]. destruct (_ && _); [done|].
  py_step. rename H0 into H1. py_step. rename H0 into H2. py_step. rename H0 into H3.
  updates.
  after ltac:(by eapply refresh_plan_status_moves). after ltac:(by eapply refresh_ready_moves).
  after ltac:(apply update_plan_moves; intros p; by destruct (ar_outcome res)).
  eapply (update_task_moves pid tid); [exact Hp|exact Ht|done|done|].
  intros _. right. simpl. apply as_finish; [by eapply plan_lookup|].
  destruct (ar_outcome res); set_solver.
Qed.

(** The orchestrator records failures of running tasks only. *)
Lemma record_failure_moves now pid tid f retry mx s r s' p t :
  record_failure now pid tid f retry mx s = (Ok r, s') ->
  plan_at pid s = Some p -> od_get tid (mp_tasks p) = Some t -> mt_status t = RUNNING ->
  moves pid s s'.
Proof.
  intros H Hp Ht Hrun. unfold record_failure in H. py_step. apply get_Ok in H0 as [-> Hp'].
  rewrite Hp in Hp'. injection Hp' as <-. rewrite Ht in H. py_step. rename H0 into H1. unfold modify in H1. simplify_eq.
  py_step. rename H0 into H2.
  after ltac:(by eapply refresh_plan_status_moves).
  eapply moves_trans; [apply modify_attempts_moves|].
  assert (Hstep : forall st f', (forall u, mt_task_id (f' u) = mt_task_id u) ->
    mt_depends_on (f' t) = mt_depends_on t -> mt_status (f' t) = st ->
    st ∈ [COMPLETED; WAITING_DEPENDENCY; WAITING_USER; WAITING_RETRY; UNFULFILLABLE; FAILED] ->
    forall s0, plan_at pid s0 = Some p -> moves pid s0 (update_task pid tid f' s0).2).
  { intros st f' Hid Hd Hst Hin s0 Hs0. eapply update_task_moves; [exact Hs0|exact Ht|done|done|].
    intros _. right. rewrite Hst. apply as_finish; [|done]. by eapply plan_lookup. }
  destruct (_ && _).
  - updates.
    eapply Hstep; try done. set_solver.
  - py_step. rename H0 into H3. updates.
    after ltac:(by apply update_plan_moves). eapply Hstep; try done. set_solver.
Qed.

Lemma resume_task_moves pid tid s r s' : resume_task pid tid s = (Ok r, s') -> moves pid s s'.
Proof.
  unfold resume_task. intros H. py_step. apply get_Ok in H0 as [-> Hp].
  destruct (od_get tid (mp_tasks x)) as [t|] eqn:Ht; [|done].
  case_bool_decide as Hst; [|done]. simpl in H. py_step. rename H0 into H1. py_step. rename H0 into H2.
  updates.
  after ltac:(by eapply refresh_ready_moves). after ltac:(by apply update_plan_moves).
  eapply (update_task_moves pid tid); [exact Hp|exact Ht|done|done|].
  intros _. right. simpl. eapply as_wake; [|exact Hst]. by eapply plan_lookup.
Qed.

Lemma wake_moves pid tid v s : moves pid s (update_task pid tid (wake v) s).2.
Proof.
  assert (Hid : forall u, mt_task_id (wake v u) = mt_task_id u)
    by (intros u; unfold wake; by case_bool_decide).
  assert (Hdep : forall u, mt_depends_on (wake v u) = mt_depends_on u)
    by (intros u; unfold wake; by case_bool_decide).
  intros p Hp Hw Hs. destruct (od_get tid (mp_tasks p)) as [t|] eqn:Ht.
  - refine (update_task_moves pid tid _ _ _ _ Hp Ht Hid (Hdep t) _ p Hp Hw Hs).
    intros _. unfold wake. case_bool_decide as Hin; [right|by left]. simpl.
    eapply as_wake; [by eapply plan_lookup|]. set_solver.
  - exists (plan_with_tasks (od_alter (wake v) tid (mp_tasks p)) p).
    assert (Heq : abs_tasks (od_alter (wake v) tid (mp_tasks p)) = abs_tasks (mp_tasks p)).
    { apply map_eq. intros x. rewrite !abs_lookup, od_get_alter. case_decide; subst; [|done]. by rewrite Ht. }
    unfold update_task. rewrite plan_at_update, Hp. split_and!; [done|by apply tasks_wf_alter|].
    unfold abs. simpl. rewrite Heq. apply rtc_refl.
Qed.

Lemma resolve_waiting_need_moves pid v s r s' :
  resolve_waiting_need pid v s = (Ok r, s') -> moves pid s s'.
Proof.
  unfold resolve_waiting_need. destruct (str_empty _); [intros; py_inv; apply moves_refl|].
  intros H. py_step. apply get_Ok in H0 as [-> Hp].
  destruct (waiting_needs _) as [|[key need] l]; [py_inv; apply moves_refl|].
  py_step. rename H0 into H1. py_step. rename H0 into H2. py_step. rename H0 into H3.
  py_step. rename H0 into H4. py_step. updates.
  after ltac:(by eapply refresh_ready_moves). after ltac:(by apply update_plan_moves).
  destruct (nd_task_id need) as [tid|]; [updates|py_step; by apply update_plan_moves].
  after ltac:(apply (wake_moves pid tid)). by apply update_plan_moves.
Qed.

Lemma mark_failed_moves pid f s r s' : mark_failed pid f s = (Ok r, s') -> moves pid s s'.
Proof.
  unfold mark_failed. intros H. py_step. apply get_Ok in H0 as [-> Hp].
  updates. by apply update_plan_moves.
Qed.

(** ** Applying a patch *)

Definition pops (ids : list string) (ts : odict MemTask) : odict MemTask := foldl (fun d i => od_pop i d) ts ids.

Lemma od_get_pops ids ts x :
  od_get x (pops ids ts) = if decide (x ∈ ids) then None else od_get x ts.
Proof.
  revert ts. induction ids as [|i ids IH]; intros ts; [by rewrite decide_False by set_solver|].
  change (pops (i :: ids) ts) with (pops ids (od_pop i ts)). rewrite IH.
  destruct (decide (x = i)) as [->|Hne].
  - rewrite (decide_True (P := i ∈ i :: ids)) by left. case_decide; [done|]. apply od_get_pop_eq.
  - rewrite od_get_pop_ne by done. repeat case_decide; set_solver.
Qed.

Lemma pops_wf ids ts : tasks_wf ts -> tasks_wf (pops ids ts).
Proof.
  intros [Hn Hk]. split.
  - revert ts Hn Hk. induction ids as [|i ids IH]; intros ts Hn Hk; [done|].
    apply (IH (od_pop i ts)); [by apply od_pop_NoDup|]. intros k t Hg.
    destruct (decide (k = i)) as [->|]; [by rewrite od_get_pop_eq in Hg|].
    rewrite od_get_pop_ne in Hg; auto.
  - intros k t. rewrite od_get_pops. case_decide; [done|]. auto.
Qed.

Lemma remove_loop pid ids s r s' p :
  for_each (fun i => update_plan pid (fun p => plan_with_tasks (od_pop i (mp_tasks p)) p)) ids s = (r, s') ->
  plan_at pid s = Some p ->
  r = Ok tt /\ plan_at pid s' = Some (plan_with_tasks (pops ids (mp_tasks p)) p).
Proof.
  revert s p. induction ids as [|i ids IH]; intros s p H Hp; simpl in *.
  - unfold mret, py_ret in H. simplify_eq. split; [done|]. rewrite Hp. by destruct p.
  - unfold mbind, py_bind in H. simpl in H. apply (IH _ (plan_with_tasks (od_pop i (mp_tasks p)) p)) in H as [-> H]; [split; [done|exact H]|].
    change (plan_at pid (update_plan pid (fun p => plan_with_tasks (od_pop i (mp_tasks p)) p) s).2
            = Some (plan_with_tasks (od_pop i (mp_tasks p)) p)).
    by rewrite plan_at_update, Hp.
Qed.

(** One round of the patch loop: the task is stored, whether or not recording
    its needs raises afterwards. *)
Lemma apply_patch_task_Ok pid i t s u s' p :
  apply_patch_task pid (i, t) s = (Ok u, s') -> plan_at pid s = Some p ->
  let old := od_get (pt_task_id t) (mp_tasks p) in
  (forall o, old = Some o -> active_or_completed o = false) /\
  exists p' needs, plan_at pid s' = Some p' /\ mp_revision p' = mp_revision p /\
    mp_tasks p' = od_set (pt_task_id t) (replacement old i t needs) (mp_tasks p).
Proof.
  intros H Hp old. unfold apply_patch_task in H. py_step.
  apply get_Ok in H0 as [-> Hp']. rewrite Hp in Hp'. injection Hp' as <-. fold old in H.
  destruct (match old with Some o => active_or_completed o | None => false end) eqn:Ha; [done|].
  split; [by intros o ->|]. py_step. rename H0 into H1. py_step. rename H0 into H2.
  destruct (effective_task_needs _ _ _) as [ns|ds] eqn:En; [|done]. updates.
  eexists _, (NeedModels ns). rewrite !plan_at_update, Hp. simpl. done.
Qed.

Definition patch_ids (its : list (Z * PlannedTask)) : list string := map (fun it => pt_task_id it.2) its.

Lemma patch_loop pid its s u s' p :
  for_each (apply_patch_task pid) its s = (Ok u, s') -> plan_at pid s = Some p ->
  NoDup (patch_ids its) -> tasks_wf (mp_tasks p) ->
  exists p', plan_at pid s' = Some p' /\ mp_revision p' = mp_revision p /\ tasks_wf (mp_tasks p') /\
    (forall x, x ∉ patch_ids its -> od_get x (mp_tasks p') = od_get x (mp_tasks p)) /\
    (forall it, it ∈ its ->
       let old := od_get (pt_task_id it.2) (mp_tasks p) in
       (forall o, old = Some o -> active_or_completed o = false) /\
       exists needs, od_get (pt_task_id it.2) (mp_tasks p') = Some (replacement old it.1 it.2 needs)).
Proof.
  revert s p. induction its as [|[i t] its IH]; intros s p H Hp Hn Hw; simpl in *.
  { py_inv. exists p. split_and!; auto. set_solver. }
  py_step. rename H0 into H1. apply NoDup_cons in Hn as [Hnt Hn].
  destruct (apply_patch_task_Ok _ _ _ _ _ _ _ H1 Hp) as (Hold & p1 & needs & Hp1 & Hr1 & Ht1).
  assert (Hw1 : tasks_wf (mp_tasks p1)).
  { destruct Hw as [Hnd Hk]. rewrite Ht1. split; [by apply od_set_NoDup|]. intros k t'.
    destruct (decide (k = pt_task_id t)) as [->|];
      [rewrite od_get_set_eq; intros; by simplify_eq|rewrite od_get_set_ne by done; auto]. }
  destruct (IH _ _ H Hp1 Hn Hw1) as (p' & Hp' & Hr' & Hw' & Hout & Hin).
  exists p'. split_and!; [done|congruence|done| |].
  - intros k [Hx1 Hx2]%not_elem_of_cons. rewrite Hout, Ht1, od_get_set_ne; done.
  - intros it [->|Hit]%elem_of_cons; simpl.
    + split; [exact Hold|]. exists needs. by rewrite Hout, Ht1, od_get_set_eq.
    + assert (Hne : pt_task_id it.2 ≠ pt_task_id t).
      { intros Heq. apply Hnt. rewrite <- Heq. apply list_elem_of_fmap. by exists it. }
      specialize (Hin it Hit). rewrite Ht1, !od_get_set_ne in Hin by done. exact Hin.
Qed.

Lemma patch_ids_enumerate ts : patch_ids (enumerate ts) = map pt_task_id ts.
Proof.
  unfold patch_ids, enumerate. transitivity (map pt_task_id (map snd (zip (map Z.of_nat (seq 0 (length ts))) ts))).
  - by rewrite map_map.
  - f_equal. apply snd_zip. by rewrite length_map, length_seq.
Qed.

Lemma enumerate_elem {A} (l : list A) x : x ∈ l -> exists i, (i, x) ∈ enumerate l.
Proof.
  intros (i & Hi)%list_elem_of_lookup. exists (Z.of_nat i). apply list_elem_of_lookup. exists i.
  apply lookup_zip_with_Some. eexists _, _. split_and!; [done| |exact Hi].
  apply lookup_lt_Some in Hi. change (map Z.of_nat) with (fmap (M := list) Z.of_nat).
  rewrite list_lookup_fmap, lookup_seq_lt by done. done.
Qed.

(** The dictionary [apply_patch] validates. *)
Definition merged_dict (p : MemPlan) (patch : PlanPatch) : odict PlannedTask :=
  od_update (od_update [] (by_id (map (fun kt => planned_of_task kt.1 kt.2)
    (filter (fun kt => kt.1 ∉ pp_remove_task_ids patch) (mp_tasks p))))) (by_id (pp_tasks patch)).

Lemma merged_dict_keyed p patch : keyed (merged_dict p patch).
Proof. apply by_id_update_keyed, by_id_update_keyed, keyed_nil. Qed.

Lemma surviving_ids p patch :
  map pt_task_id (map (fun kt => planned_of_task kt.1 kt.2)
    (filter (fun kt => kt.1 ∉ pp_remove_task_ids patch) (mp_tasks p)))
  = od_keys (filter (fun kt => kt.1 ∉ pp_remove_task_ids patch) (mp_tasks p)).
Proof. by rewrite map_map. Qed.

Lemma merged_dict_get p patch x :
  tasks_wf (mp_tasks p) -> NoDup (map pt_task_id (pp_tasks patch)) ->
  (forall t, t ∈ pp_tasks patch -> pt_task_id t = x -> od_get x (merged_dict p patch) = Some t) /\
  (x ∉ map pt_task_id (pp_tasks patch) ->
   od_get x (merged_dict p patch) =
     if decide (x ∈ pp_remove_task_ids patch) then None else planned_of_task x <$> od_get x (mp_tasks p)).
Proof.
  intros [Hn Hk] Hnd. unfold merged_dict. split.
  - intros t Ht <-. apply od_get_update_elem; [by rewrite by_id_fst|by apply by_id_elem].
  - intros Hx. rewrite od_get_update_ne by (by rewrite by_id_fst).
    pose proof (od_get_filter_key (fun k => k ∉ pp_remove_task_ids patch) x (mp_tasks p)) as Hf.
    set (kept := filter _ (mp_tasks p)) in *.
    assert (Hnk : NoDup (od_keys kept)) by (by apply od_keys_filter_NoDup).
    set (ex := map _ kept).
    assert (Hids : map pt_task_id ex = od_keys kept) by (unfold ex; by rewrite map_map).
    assert (Hgoal : od_get x (od_update [] (by_id ex)) = planned_of_task x <$> od_get x kept).
    { destruct (od_get x kept) as [t|] eqn:Ex; simpl.
      - apply od_get_update_elem; [by rewrite by_id_fst, Hids|].
        apply (by_id_elem ex (planned_of_task x t)). apply list_elem_of_fmap. exists (x, t).
        split; [done|by apply od_get_elem].
      - rewrite od_get_update_ne; [done|]. rewrite by_id_fst, Hids. by apply od_get_None. }
    rewrite Hgoal, Hf. repeat case_decide; done.
Qed.

(** A board with the dependencies of a validated dictionary is a valid graph. *)
Lemma valid_graph_of d m :
  keyed d -> graph_ok (od_values d) ->
  (forall x, snd <$> m !! x = pt_depends_on <$> od_get x d) -> valid_graph m.
Proof.
  intros Hk Hg Hm. destruct (keyed_graph_ok d Hk Hg) as [Hknown Hac].
  assert (Hd : forall x y, depends m x y <-> dep_of d x y).
  { intros x y. specialize (Hm x). unfold depends, dep_of. split.
    - intros (st & ds & Hx & Hy). rewrite Hx in Hm. destruct (od_get x d) as [t|]; simplify_eq/=. eauto.
    - intros (t & Ht & Hy). rewrite Ht in Hm. destruct (m !! x) as [[st ds]|]; simplify_eq/=. eauto. }
  split.
  - intros x y Hxy. apply Hd in Hxy. apply Hknown in Hxy as [t Ht]. specialize (Hm y).
    rewrite Ht in Hm. destruct (m !! y); [by eexists|done].
  - intros x Hc. apply (Hac x). revert Hc. apply tc_impl. intros a b. apply Hd.
Qed.

(** What the removal and the patch loop leave, read through [abs]. *)
Definition patched (p p2 : MemPlan) (patch : PlanPatch) : Prop :=
  (forall x, x ∉ map pt_task_id (pp_tasks patch) ->
     od_get x (mp_tasks p2) = if decide (x ∈ pp_remove_task_ids patch) then None else od_get x (mp_tasks p)) /\
  (forall t, t ∈ pp_tasks patch ->
     (forall o, od_get (pt_task_id t) (mp_tasks p) = Some o -> active_or_completed o = false) /\
     exists i needs, od_get (pt_task_id t) (mp_tasks p2)
                     = Some (replacement (od_get (pt_task_id t) (mp_tasks p)) i t needs)).

Lemma replacement_pending old i t needs :
  (forall o, old = Some o -> active_or_completed o = false) ->
  mt_status (replacement old i t needs) = PENDING.
Proof. intros H. unfold replacement. simpl. destruct old as [o|]; [|done]. by rewrite (H o eq_refl). Qed.

Lemma active_or_completed_false t : active_or_completed t = false <-> ~ protected (mt_status t).
Proof. unfold active_or_completed, protected. rewrite orb_false_iff, !bool_decide_eq_false. tauto. Qed.

Lemma patched_astep p p2 patch :
  tasks_wf (mp_tasks p) -> NoDup (map pt_task_id (pp_tasks patch)) ->
  validate_task_graph (merged_tasks p patch) = Ok tt -> patched p p2 patch ->
  astep false (abs p) (abs p2).
Proof.
  intros Hw Hnd Hv [Hout Hin]. apply as_patch; [|done|].
  - intros x st ds. unfold abs. rewrite !abs_lookup.
    destruct (decide (x ∈ map pt_task_id (pp_tasks patch))) as [Hx|Hx].
    + apply list_elem_of_fmap in Hx as (t & -> & Ht). destruct (Hin t Ht) as (Hold & i & needs & ->).
      simpl. intros [= <- <-]. right. split; [exact (replacement_pending _ i t needs Hold)|].
      intros st0 ds0 H0. destruct (od_get _ (mp_tasks p)) as [o|]; simplify_eq/=.
      apply active_or_completed_false. by apply Hold.
    + rewrite Hout by done. case_decide; [done|]. by left.
  - apply (valid_graph_of (merged_dict p patch)); [apply merged_dict_keyed| |].
    + by apply validate_task_graph_iff.
    + intros x. unfold abs. rewrite abs_lookup. destruct (merged_dict_get p patch x Hw Hnd) as [Hp Ho].
      destruct (decide (x ∈ map pt_task_id (pp_tasks patch))) as [Hx|Hx].
      * apply list_elem_of_fmap in Hx as (t & -> & Ht). rewrite (Hp t Ht eq_refl).
        destruct (Hin t Ht) as (_ & i & needs & ->). done.
      * rewrite Ho, Hout by done. case_decide; [done|]. by destruct (od_get x (mp_tasks p)).
Qed.

Lemma apply_patch_Ok now pid patch reason inv s u s' p :
  apply_patch now pid patch reason inv s = (Ok u, s') -> plan_at pid s = Some p ->
  tasks_wf (mp_tasks p) -> NoDup (map pt_task_id (pp_tasks patch)) ->
  (forall i, i ∈ pp_remove_task_ids patch -> i ∉ map pt_task_id (pp_tasks patch)) ->
  pp_expected_revision patch = mp_revision p /\
  validate_task_graph (merged_tasks p patch) = Ok tt /\
  exists p2 s2, plan_at pid s2 = Some (finish_patch patch p2) /\ mp_revision p2 = mp_revision p /\
    tasks_wf (mp_tasks p2) /\ patched p p2 patch /\ refresh_ready pid s2 = (Ok u, s').
Proof.
  intros H Hp Hw Hnd Hrm. unfold apply_patch in H. py_step. apply get_Ok in H0 as [-> Hp'].
  rewrite Hp in Hp'. injection Hp' as <-. destruct (Z.eqb_spec (pp_expected_revision patch) (mp_revision p)) as [Hr|];
    [|done]. simpl in H. py_step. rename H0 into Hv. unfold of_result in Hv. injection Hv as Hv <-.
  destruct x. split_and!; [done|done|].
  py_step. rename H0 into H1. destruct (remove_loop _ _ _ _ _ _ H1 Hp) as [_ Hp1].
  py_step. rename H0 into H2.
  destruct (patch_loop _ _ _ _ _ _ H2 Hp1) as (p2 & Hp2 & Hr2 & Hw2 & Hout & Hin);
    [by rewrite patch_ids_enumerate|by apply pops_wf|].
  py_step. rename H0 into H3. updates. py_step. apply get_Ok in H0 as [-> Hp3].
  rewrite plan_at_update, Hp2 in Hp3. injection Hp3 as <-. py_step. unfold modify in H0. simplify_eq.
  eexists p2, _. split_and!; [|done|done| |exact H].
  - transitivity (plan_at pid (update_plan pid (finish_patch patch) x2).2); [done|].
    by rewrite plan_at_update, Hp2.
  - rewrite patch_ids_enumerate in Hout. simpl in Hout, Hin. split.
    + intros k Hk. by rewrite Hout, od_get_pops.
    + intros t Ht. destruct (enumerate_elem _ _ Ht) as [i Hi]. specialize (Hin _ Hi). simpl in Hin.
      rewrite od_get_pops, decide_False in Hin.
      * destruct Hin as [Ho [needs Hn]]. eauto.
      * intros Hc. apply (Hrm _ Hc). apply list_elem_of_fmap. by exists t.
Qed.

Lemma make_patch_Ok p p' :
  make_patch p = Ok p' -> p' = p /\ NoDup (map pt_task_id (pp_tasks p)) /\
  (forall i, i ∈ pp_remove_task_ids p -> i ∉ map pt_task_id (pp_tasks p)).
Proof.
  unfold make_patch. rewrite !andThen_Ok. intros (_ & _ & _ & H).
  apply validate_patch_Ok in H as (-> & Hn & _ & Hr & _). done.
Qed.

Lemma apply_patch_moves now pid patch reason inv s u s' :
  make_patch patch = Ok patch -> apply_patch now pid patch reason inv s = (Ok u, s') -> moves pid s s'.
Proof.
  intros Hmk H p Hp Hw Hs. apply make_patch_Ok in Hmk as (_ & Hnd & Hrm).
  destruct (apply_patch_Ok _ _ _ _ _ _ _ _ _ H Hp Hw Hnd Hrm)
    as (_ & Hv & p2 & s2 & Hp2 & _ & Hw2 & Hpatch & Href).
  pose proof (patched_astep _ _ _ Hw Hnd Hv Hpatch) as Ha.
  destruct (refresh_ready_moves _ _ _ _ Href _ Hp2 Hw2) as (p3 & Hp3 & Hw3 & Hr3);
    [by eapply astep_sound|].
  exists p3. split_and!; [done|done|]. eapply rtc_l; [exact Ha|exact Hr3].
Qed.

(** ** Frames and totality

    An operation on one plan leaves the others alone, and does not raise once
    the plan exists, apart from its explicit refusals. *)

Definition frames {A} (pid : string) (m : mem A) : Prop :=
  forall s r s', m s = (r, s') -> forall q, q ≠ pid -> plan_at q s' = plan_at q s.

Definition returns {A} (pid : string) (m : mem A) : Prop :=
  forall s, is_Some (plan_at pid s) -> exists a s', m s = (Ok a, s') /\ is_Some (plan_at pid s').

Create HintDb store.

Lemma frames_bind {A B} pid (m : mem A) (k : A -> mem B) :
  frames pid m -> (forall a, frames pid (k a)) -> frames pid (m ≫= k).
Proof.
  intros Hm Hk s r s' H q Hq. unfold mbind, py_bind in H. destruct (m s) as [[a|e] s1] eqn:E.
  - rewrite (Hk _ _ _ _ H q Hq). by eapply Hm.
  - simplify_eq. by eapply Hm.
Qed.

Lemma frames_for_each {A} pid (f : A -> mem unit) l :
  (forall x, frames pid (f x)) -> frames pid (for_each f l).
Proof.
  intros Hf. induction l as [|x l IH]; simpl.
  - intros s r s' H q Hq. by unfold mret, py_ret in H; simplify_eq.
  - by apply frames_bind.
Qed.

Lemma frames_keep {A} pid (m : mem A) : (forall s, (m s).2 = s) -> frames pid m.
Proof. intros Hm s r s' H q _. specialize (Hm s). by rewrite H in Hm; simpl in Hm; subst. Qed.

Lemma frames_get pid q : frames pid (get q).
Proof. apply frames_keep. intros s. unfold get, get_state, mbind, py_bind. simpl. by destruct (od_get _ _). Qed.

Lemma frames_update_plan pid f : frames pid (update_plan pid f).
Proof.
  intros s r s' H q Hq. unfold update_plan, modify in H. simplify_eq.
  unfold plan_at. simpl. by rewrite od_get_alter, decide_False.
Qed.

Lemma frames_modify_logs pid f g :
  frames pid (modify (fun s => mkMemStore (ms_plans s) (f s) (g s))).
Proof. intros s r s' H q _. unfold modify in H. by simplify_eq. Qed.

Lemma frames_raise {A} pid e : frames pid (raise e : mem A).
Proof. by apply frames_keep. Qed.

Lemma frames_mret {A} pid (a : A) : frames pid (mret a).
Proof. by apply frames_keep. Qed.

Lemma frames_of_result {A} pid (r : result exn A) : frames pid (of_result r).
Proof. by apply frames_keep. Qed.

#[export] Hint Resolve frames_bind frames_for_each frames_get frames_update_plan frames_modify_logs
  frames_raise frames_mret frames_of_result : store.

(** Takes a method apart along its branches. *)
Ltac framed :=
  repeat first
    [ apply frames_get | apply frames_bind; [|intros ?] | apply frames_for_each; intros ?
    | apply frames_update_plan | apply frames_modify_logs
    | apply frames_raise | apply frames_mret | apply frames_of_result
    | progress (unfold update_task, refresh_ready, _refresh_plan_status, claim_one, apply_patch_task)
    | case_match ].

Lemma apply_patch_frames now pid patch reason inv : frames pid (apply_patch now pid patch reason inv).
Proof. unfold apply_patch. framed. Qed.
Lemma mark_failed_frames pid f : frames pid (mark_failed pid f).
Proof. unfold mark_failed. framed. Qed.
Lemma refresh_ready_frames pid : frames pid (refresh_ready pid).
Proof. framed. Qed.
Lemma claim_ready_batch_frames now pid limit : frames pid (claim_ready_batch now pid limit).
Proof. unfold claim_ready_batch. framed. Qed.
Lemma apply_result_frames pid tid r : frames pid (apply_result pid tid r).
Proof. unfold apply_result. framed. Qed.
Lemma record_failure_frames now pid tid f retry mx : frames pid (record_failure now pid tid f retry mx).
Proof. unfold record_failure. framed. Qed.
Lemma resume_task_frames pid tid : frames pid (resume_task pid tid).
Proof. unfold resume_task. framed. Qed.
Lemma resolve_waiting_need_frames pid v : frames pid (resolve_waiting_need pid v).
Proof. unfold resolve_waiting_need. framed. Qed.
#[export] Hint Resolve apply_patch_frames mark_failed_frames refresh_ready_frames
  claim_ready_batch_frames apply_result_frames record_failure_frames resume_task_frames
  resolve_waiting_need_frames : store.

Lemma returns_bind {A B} pid (m : mem A) (k : A -> mem B) :
  returns pid m -> (forall a, returns pid (k a)) -> returns pid (m ≫= k).
Proof.
  intros Hm Hk s Hs. destruct (Hm s Hs) as (a & s1 & E & Hs1). destruct (Hk a s1 Hs1) as (b & s2 & E2 & Hs2).
  exists b, s2. unfold mbind, py_bind. by rewrite E.
Qed.

Lemma returns_mret {A} pid (a : A) : returns pid (mret a).
Proof. intros s Hs. by exists a, s. Qed.

Lemma returns_for_each {A} pid (f : A -> mem unit) l :
  (forall x, returns pid (f x)) -> returns pid (for_each f l).
Proof. intros Hf. induction l as [|x l IH]; simpl; [apply returns_mret|by apply returns_bind]. Qed.

Lemma returns_get pid : returns pid (get pid).
Proof. intros s [p Hp]. exists p, s. split; [by apply get_eq|by exists p]. Qed.

Lemma returns_update_plan pid f : returns pid (update_plan pid f).
Proof.
  intros s [p Hp]. exists tt, (update_plan pid f s).2. split; [done|].
  exists (f p). by rewrite plan_at_update, Hp.
Qed.

Lemma returns_modify_logs pid f g :
  returns pid (modify (fun s => mkMemStore (ms_plans s) (f s) (g s))).
Proof. intros s Hs. by exists tt, (mkMemStore (ms_plans s) (f s) (g s)). Qed.

Ltac returning :=
  repeat first
    [ apply returns_get | apply returns_bind; [|intros ?] | apply returns_for_each; intros ?
    | apply returns_update_plan | apply returns_modify_logs | apply returns_mret
    | progress (unfold update_task, refresh_ready, _refresh_plan_status, claim_one)
    | case_match ].

Lemma mark_failed_returns pid f : returns pid (mark_failed pid f).
Proof. unfold mark_failed. returning. Qed.
Lemma claim_ready_batch_returns now pid limit : returns pid (claim_ready_batch now pid limit).
Proof. unfold claim_ready_batch. returning. Qed.
Lemma resolve_waiting_need_returns pid v : returns pid (resolve_waiting_need pid v).
Proof. unfold resolve_waiting_need. returning. Qed.

(** A method that raises has raised before it changed the store. *)
Definition clean {A} (m : mem A) : Prop := forall s e s', m s = (Err e, s') -> s' = s.

Lemma clean_get_bind {A} pid (k : MemPlan -> mem A) :
  (forall p s e s', plan_at pid s = Some p -> k p s = (Err e, s') -> s' = s) -> clean (get pid ≫= k).
Proof.
  intros Hk s e s' H. apply bind_Err in H as [H|(p & s1 & H1 & H)].
  - unfold get, get_state, mbind, py_bind in H. simpl in H.
    destruct (od_get _ _); unfold raise, mret, py_ret in H; by simplify_eq.
  - apply get_Ok in H1 as [-> Hp]. by eapply Hk.
Qed.

Lemma clean_returns {A} pid (k : mem A) s e s' :
  returns pid k -> is_Some (plan_at pid s) -> k s = (Err e, s') -> s' = s.
Proof. intros Hr Hs H. destruct (Hr s Hs) as (a & s1 & E & _). congruence. Qed.

Ltac clean_method :=
  apply clean_get_bind; intros ? ? ? ? ? Hrun;
  repeat case_match;
  first [ solve [unfold raise in Hrun; by simplify_eq]
        | solve [unfold mret, py_ret in Hrun; by simplify_eq]
        | (eapply clean_returns; [|by eexists|exact Hrun]); returning ].

Lemma mark_failed_clean pid f : clean (mark_failed pid f).
Proof. unfold mark_failed. clean_method. Qed.
Lemma refresh_ready_clean pid : clean (refresh_ready pid).
Proof. unfold refresh_ready. clean_method. Qed.
Lemma claim_ready_batch_clean now pid limit : clean (claim_ready_batch now pid limit).
Proof. unfold claim_ready_batch. clean_method. Qed.
Lemma apply_result_clean pid tid r : clean (apply_result pid tid r).
Proof. unfold apply_result. clean_method. Qed.
Lemma record_failure_clean now pid tid f retry mx : clean (record_failure now pid tid f retry mx).
Proof. unfold record_failure. clean_method. Qed.
Lemma resume_task_clean pid tid : clean (resume_task pid tid).
Proof. unfold resume_task. clean_method. Qed.
Lemma resolve_waiting_need_clean pid v : clean (resolve_waiting_need pid v).
Proof.
  unfold resolve_waiting_need. destruct (str_empty _).
  - intros s e s' H. by unfold mret, py_ret in H.
  - clean_method.
Qed.

(** ** The store as a transition system *)

Inductive mem_op :=
| OpCreate (uuid4 goal root_run_id tenant_id : string) (chat_id : option string)
| OpPatch (now : Z) (plan_id : string) (patch : PlanPatch) (why : string) (planner : option string)
| OpMarkFailed (plan_id : string) (failure : odict json)
| OpRefresh (plan_id : string)
| OpClaim (now : Z) (plan_id : string) (limit : Z)
| OpResult (plan_id task_id : string) (r : AgentTaskResult)
| OpFailure (now : Z) (plan_id task_id : string) (f : TaskAttemptFailure) (retry_at : option Z) (max_attempts : Z)
| OpResume (plan_id task_id : string)
| OpResolve (plan_id user_input : string).

Definition run_op (op : mem_op) : mem unit :=
  match op with
  | OpCreate u g r t c => _ ← create u g r t c; mret tt
  | OpPatch now p patch why inv => apply_patch now p patch why inv
  | OpMarkFailed p f => mark_failed p f
  | OpRefresh p => refresh_ready p
  | OpClaim now p l => _ ← claim_ready_batch now p l; mret tt
  | OpResult p t r => apply_result p t r
  | OpFailure now p t f retry mx => record_failure now p t f retry mx
  | OpResume p t => resume_task p t
  | OpResolve p v => _ ← resolve_waiting_need p v; mret tt
  end.

(** What the callers guarantee: identifiers are fresh, patches were
    constructed, only running tasks fail. *)
Definition op_ok (op : mem_op) (s : MemStore) : Prop :=
  match op with
  | OpCreate u _ _ _ _ => plan_at u s = None
  | OpPatch _ _ patch _ _ => make_patch patch = Ok patch
  | OpFailure _ p t _ _ _ => forall plan task, plan_at p s = Some plan ->
      od_get t (mp_tasks plan) = Some task -> mt_status task = RUNNING
  | _ => True
  end.

(** A patch whose task loop was entered is not undone when it raises. *)
Definition partial_patch_error (e : exn) : bool :=
  match e with
  | PlanValidationError (CannotReplace _) | AttributeError _ => true
  | _ => false
  end.

Inductive mem_step : MemStore -> MemStore -> Prop :=
| mem_returns op s s' : op_ok op s -> run_op op s = (Ok tt, s') -> mem_step s s'
| mem_raises op s s' e : op_ok op s -> run_op op s = (Err e, s') -> partial_patch_error e = false -> mem_step s s'.

Definition plans_sound (s : MemStore) : Prop :=
  forall pid p, plan_at pid s = Some p -> tasks_wf (mp_tasks p) /\ sound (abs p).

Lemma apply_patch_task_Err pid it s e s' :
  is_Some (plan_at pid s) -> apply_patch_task pid it s = (Err e, s') -> partial_patch_error e = true.
Proof.
  destruct it as [i t]. intros [p Hp] H. unfold apply_patch_task in H.
  apply bind_Err in H as [H|(p' & s1 & H1 & H)]; [by rewrite (get_eq _ _ _ Hp) in H|].
  destruct (match od_get _ _ with Some o => active_or_completed o | None => false end).
  { unfold raise in H. by simplify_eq. }
  apply bind_Err in H as [H|(u1 & s2 & _ & H)]; [done|].
  apply bind_Err in H as [H|(u2 & s3 & _ & H)]; [done|].
  destruct (effective_task_needs _ _ _); [done|]. unfold raise in H. by simplify_eq.
Qed.

Lemma apply_patch_task_plan pid it s s' :
  apply_patch_task pid it s = (Ok tt, s') -> is_Some (plan_at pid s) -> is_Some (plan_at pid s').
Proof.
  destruct it as [i t]. intros H [p Hp].
  destruct (apply_patch_task_Ok _ _ _ _ _ _ _ H Hp) as (_ & p' & needs & -> & _). by eexists.
Qed.

Lemma patch_loop_Err pid its s e s' :
  is_Some (plan_at pid s) -> for_each (apply_patch_task pid) its s = (Err e, s') ->
  partial_patch_error e = true.
Proof.
  revert s. induction its as [|it its IH]; intros s Hp H; simpl in H; [done|].
  apply bind_Err in H as [H|([] & s1 & H1 & H)]; [by eapply apply_patch_task_Err|].
  eapply IH; [|exact H]. by eapply apply_patch_task_plan.
Qed.

Lemma apply_patch_Err now pid patch why inv s e s' :
  apply_patch now pid patch why inv s = (Err e, s') -> partial_patch_error e = false -> s' = s.
Proof.
  unfold apply_patch. intros H He. apply bind_Err in H as [H|(p & s1 & H1 & H)].
  { eapply (frames_get pid pid) in H as Hf. unfold get, get_state, mbind, py_bind in H. simpl in H.
    destruct (od_get _ _); unfold raise, mret, py_ret in H; by simplify_eq. }
  apply get_Ok in H1 as [-> Hp]. case_match; [unfold raise in H; by simplify_eq|].
  apply bind_Err in H as [H|(u & s1 & H1 & H)]; [unfold of_result in H; by simplify_eq|].
  unfold of_result in H1. injection H1 as _ <-.
  apply bind_Err in H as [H|(u1 & s1 & H1 & H)].
  { by destruct (remove_loop _ _ _ _ _ _ H Hp) as [? _]. }
  destruct (remove_loop _ _ _ _ _ _ H1 Hp) as [_ Hp1].
  apply bind_Err in H as [H|([] & s2 & H2 & H)].
  { exfalso. eapply patch_loop_Err in H; [|by eexists]. congruence. }
  assert (Hp2 : is_Some (plan_at pid s2)).
  { clear -H2 Hp1. assert (Hs : is_Some (plan_at pid s1)) by (by eexists). clear Hp1.
    revert s1 Hs H2. induction (enumerate (pp_tasks patch)) as [|it its IH]; intros s1 Hs H; simpl in H.
    - unfold mret, py_ret in H. by simplify_eq.
    - py_step. rename H0 into H1. destruct x. eapply IH; [|exact H]. by eapply apply_patch_task_plan. }
  exfalso. match type of H with ?k s2 = _ => assert (Hr : returns pid k) by returning end.
  destruct (Hr s2 Hp2) as (a & s3 & E & _). congruence.
Qed.

Lemma create_plan_at u g r t c s q :
  plan_at q (create u g r t c s).2
  = if decide (q = u) then Some (mkMemPlan u g r t c PlanDRAFT 0 [] [] None None) else plan_at q s.
Proof.
  unfold plan_at, create. simpl. case_decide; subst; [apply od_get_set_eq|by apply od_get_set_ne].
Qed.

Lemma plans_sound_moves pid s s' :
  moves pid s s' -> (forall q, q ≠ pid -> plan_at q s' = plan_at q s) ->
  (plan_at pid s = None -> plan_at pid s' = None) -> plans_sound s -> plans_sound s'.
Proof.
  intros Hm Hf Hnone Hs q p' Hp'. destruct (decide (q = pid)) as [->|Hne].
  - destruct (plan_at pid s) as [p|] eqn:Hp; [|by rewrite Hnone in Hp'].
    destruct (Hs _ _ Hp) as [Hw Hso]. destruct (Hm p Hp Hw Hso) as (p2 & Hp2 & Hw2 & Hr).
    rewrite Hp' in Hp2. injection Hp2 as ->. split; [done|by eapply asteps_sound].
  - rewrite Hf in Hp' by done. by apply Hs in Hp'.
Qed.

(** A method that returned found the plan. *)
Lemma get_bind_plan {A} pid (k : MemPlan -> mem A) s a s' :
  (get pid ≫= k) s = (Ok a, s') -> plan_at pid s = None -> plan_at pid s' = None.
Proof. intros H Hn. py_step. apply get_Ok in H0 as [_ Hp]. congruence. Qed.

Lemma op_effect {A} pid (m : mem A) s a s' :
  m s = (Ok a, s') -> moves pid s s' -> frames pid m -> (plan_at pid s = None -> plan_at pid s' = None) ->
  plans_sound s -> plans_sound s'.
Proof. intros H Hm Hf Hn. apply (plans_sound_moves pid); [done|intros q Hq; by eapply Hf|done]. Qed.

Lemma failure_moves now pid tid f retry mx s r s' :
  op_ok (OpFailure now pid tid f retry mx) s -> record_failure now pid tid f retry mx s = (Ok r, s') ->
  moves pid s s'.
Proof.
  intros Hok H p Hp. unfold record_failure in H. assert (H' := H).
  py_step. apply get_Ok in H0 as [-> Hp']. rewrite Hp in Hp'. injection Hp' as <-.
  destruct (od_get tid (mp_tasks p)) as [t|] eqn:Ht; [|done].
  by eapply (record_failure_moves now pid tid f retry mx s r s' p t); eauto.
Qed.

Lemma op_returns_sound op s s' :
  op_ok op s -> run_op op s = (Ok tt, s') -> plans_sound s -> plans_sound s'.
Proof.
  destruct op as [u g rr t c|now pid patch why inv|pid f|pid|now pid l|pid t r|now pid t f retry mx|pid t|pid v];
    simpl run_op; intros Hok H Hs.
  - py_step. py_step. assert (Hc : s' = (create u g rr t c s).2) by (by rewrite H0). subst s'.
    intros q p. rewrite create_plan_at. case_decide; [|by apply Hs]. intros [= <-].
    split; [split; [constructor|done]|apply sound_empty].
  - eapply op_effect; [exact H|by eapply apply_patch_moves|auto with store|by eapply get_bind_plan|done].
  - eapply op_effect; [exact H|by eapply mark_failed_moves|auto with store|by eapply get_bind_plan|done].
  - eapply op_effect; [exact H|by eapply refresh_ready_moves|auto with store|by eapply get_bind_plan|done].
  - py_step. py_step.
    eapply op_effect; [exact H0|by eapply claim_ready_batch_moves|auto with store|by eapply get_bind_plan|done].
  - eapply op_effect; [exact H|by eapply apply_result_moves|auto with store|by eapply get_bind_plan|done].
  - eapply op_effect; [exact H|by eapply failure_moves|auto with store|by eapply get_bind_plan|done].
  - eapply op_effect; [exact H|by eapply resume_task_moves|auto with store|by eapply get_bind_plan|done].
  - py_step. py_step.
    eapply op_effect; [exact H0|by eapply resolve_waiting_need_moves|auto with store| |done].
    unfold resolve_waiting_need in H0. destruct (str_empty _); [unfold mret, py_ret in H0; by simplify_eq|].
    by eapply get_bind_plan.
Qed.

(** Every error of a method leaves the store as it was, or is a patch error
    raised inside the task loop. *)
Lemma op_raises_clean op s s' e :
  run_op op s = (Err e, s') -> partial_patch_error e = false -> s' = s.
Proof.
  destruct op as [u g rr t c|now pid patch why inv|pid f|pid|now pid l|pid t r|now pid t f retry mx|pid t|pid v];
    simpl run_op; intros H He.
  - done.
  - by eapply apply_patch_Err.
  - by eapply mark_failed_clean.
  - by eapply refresh_ready_clean.
  - apply bind_Err in H as [H|(b & s1 & _ & H)]; [by eapply claim_ready_batch_clean|done].
  - by eapply apply_result_clean.
  - by eapply record_failure_clean.
  - by eapply resume_task_clean.
  - apply bind_Err in H as [H|(b & s1 & _ & H)]; [by eapply resolve_waiting_need_clean|done].
Qed.

Lemma mem_step_sound s s' : mem_step s s' -> plans_sound s -> plans_sound s'.
Proof.
  intros [op s0 s1 Hok H|op s0 s1 e Hok H He] Hs; [by eapply op_returns_sound|].
  by rewrite (op_raises_clean _ _ _ _ H He).
Qed.

Lemma empty_plans_sound : plans_sound empty_store.
Proof. intros pid p H. done. Qed.

Lemma mem_reachable_sound s : rtc mem_step empty_store s -> plans_sound s.
Proof.
  intros H. assert (Hg : forall s0 s1, rtc mem_step s0 s1 -> plans_sound s0 -> plans_sound s1).
  { induction 1; eauto using mem_step_sound. }
  by apply (Hg _ _ H), empty_plans_sound.
Qed.

(** ** Readiness and claiming, task by task *)

(** [t'] is [t], or [t] made ready. *)
Definition same_or_ready (t t' : MemTask) : Prop :=
  t' = t \/ ((mt_status t = PENDING \/ mt_status t = READY) /\ t' = with_status READY t).

Lemma refresh_task_get needs ts k x :
  od_get x (refresh_task needs ts k) = od_get x ts \/
  exists t, od_get x ts = Some t /\ (mt_status t = PENDING \/ mt_status t = READY) /\
    od_get x (refresh_task needs ts k) = Some (with_status READY t).
Proof.
  unfold refresh_task. destruct (od_get k ts) as [t|] eqn:Ht; [|by left].
  destruct (task_is_ready _ _) eqn:Hr; [|by left]. rewrite od_get_alter.
  case_decide; [|by left]. subst. right. exists t. rewrite Ht. split_and!; [done| |done].
  apply task_is_ready_spec in Hr as (Hst & _). simpl in Hst. naive_solver.
Qed.

Lemma refresh_loop_get needs keys ts x t' :
  od_get x (foldl (refresh_task needs) ts keys) = Some t' ->
  exists t, od_get x ts = Some t /\ same_or_ready t t'.
Proof.
  revert ts. induction keys as [|k keys IH]; intros ts H; simpl in H; [exists t'; split; [done|by left]|].
  destruct (IH _ H) as (t1 & Ht1 & Hs1).
  destruct (refresh_task_get needs ts k x) as [He|(t & Ht & Hst & He)]; rewrite He in Ht1; [eauto|].
  simplify_eq. exists t. split; [done|]. right. split; [done|].
  destruct Hs1 as [->|[_ ->]]; done.
Qed.

Lemma refresh_loop_none needs keys ts x :
  od_get x (foldl (refresh_task needs) ts keys) = None <-> od_get x ts = None.
Proof.
  rewrite !od_get_None. revert ts. induction keys as [|k keys IH]; intros ts; simpl; [done|].
  rewrite IH. unfold refresh_task. repeat case_match; by rewrite ?od_keys_alter.
Qed.

Lemma refresh_loop_some needs keys ts x t :
  od_get x ts = Some t ->
  exists t', od_get x (foldl (refresh_task needs) ts keys) = Some t' /\ same_or_ready t t'.
Proof.
  intros Ht. destruct (od_get x (foldl (refresh_task needs) ts keys)) as [t'|] eqn:E.
  - destruct (refresh_loop_get _ _ _ _ _ E) as (t0 & Ht0 & Hs). simplify_eq. eauto.
  - apply refresh_loop_none in E. congruence.
Qed.

Lemma refresh_ready_plan pid s u s' p :
  refresh_ready pid s = (Ok u, s') -> plan_at pid s = Some p ->
  s' = (update_plan pid (fun p => plan_with_tasks (refresh_tasks (mp_needs p) (mp_tasks p)) p) s).2 /\
  plan_at pid s' = Some (plan_with_tasks (refresh_tasks (mp_needs p) (mp_tasks p)) p).
Proof.
  unfold refresh_ready. intros H Hp. py_step. apply get_Ok in H0 as [-> Hp'].
  updates. split; [done|]. by rewrite plan_at_update, Hp.
Qed.

Lemma claim_loop_plan now pid batch s s' u p :
  for_each (claim_one now pid) batch s = (Ok u, s') -> plan_at pid s = Some p ->
  NoDup (map fst batch) ->
  exists p', plan_at pid s' = Some p' /\
  forall x, od_get x (mp_tasks p') =
    if decide (x ∈ map fst batch) then claim_task <$> od_get x (mp_tasks p) else od_get x (mp_tasks p).
Proof.
  revert s p. induction batch as [|kt batch IH]; intros s p H Hp Hn; simpl in H.
  - unfold mret, py_ret in H. simplify_eq. exists p. split; [done|]. intros k.
    rewrite decide_False; [done|set_solver].
  - py_step. rename H0 into H1. apply NoDup_cons in Hn as [Hk Hn].
    apply claim_one_plan in H1. rewrite Hp in H1. simpl in H1.
    destruct (IH _ _ H H1 Hn) as (p' & Hp' & Hg). exists p'. split; [done|]. intros k.
    rewrite Hg. simpl. rewrite od_get_alter.
    repeat case_decide; subst; set_solver.
Qed.
