(* ===== verification/PlanMemoryProperties.v ===== *)
(** * The in-memory plan store: properties

    What [InMemoryPlanStore] guarantees, each property with a witness on a
    concrete plan of two tasks. *)
From S2P Require Import Prelude Contracts TaskGraph Scheduler PlanMemory PlanMemoryProofs.

(** ** A concrete run *)

Definition ex_task (id : string) (deps : list string) (outs : list TaskOutputSpec) : PlannedTask :=
  mkPlannedTask id "agent" "intent" "instructions" [] outs deps [] CONTINUE.

Definition ex_patch (rev : Z) (d : PlannerDecisionKind) (ts : list PlannedTask) (rm : list string) : PlanPatch :=
  mkPlanPatch rev d None ts rm None None None "" None.

Definition ex_first : PlanPatch := ex_patch 0 CREATE_PLAN [ex_task "b" ["a"] []; ex_task "a" [] []] [].

Definition ex_result (o : TaskOutcome) (needs : list NeedSpec) : AgentTaskResult :=
  mkAgentTaskResult o "done" [] [] needs None [].

Definition ex_need : NeedSpec :=
  mkNeedSpec "need" "city" KindDATA "which city" [] true [] None None None.

(** [create] then the first patch. *)
Definition ex_start : MemStore := (create "p" "goal" "run" "tenant" None empty_store).2.
Definition ex_planned : MemStore := (apply_patch 1 "p" ex_first "planner" None ex_start).2.
(** Task [a] is claimed and asks for a need. *)
Definition ex_claimed : MemStore := (claim_ready_batch 2 "p" 1 ex_planned).2.
Definition ex_waiting : MemStore := (apply_result "p" "a" (ex_result OutNEEDS_DEPENDENCY [ex_need]) ex_claimed).2.

(** One step of a concrete run. *)
Ltac run_step op := apply (mem_returns op); [vm_compute; try done; reflexivity|vm_compute; reflexivity].

Lemma ex_steps : rtc mem_step empty_store ex_waiting.
Proof.
  apply rtc_l with ex_start; [run_step (OpCreate "p" "goal" "run" "tenant" None)|].
  apply rtc_l with ex_planned; [run_step (OpPatch 1 "p" ex_first "planner" None)|].
  apply rtc_l with ex_claimed; [run_step (OpClaim 2 "p" 1)|].
  apply rtc_once. run_step (OpResult "p" "a" (ex_result OutNEEDS_DEPENDENCY [ex_need])).
Qed.

(** ** Reachable plans *)

(** In every store reachable from the empty one by the methods of
    [InMemoryPlanStore] (on fresh plan identifiers, constructed patches and
    failures of running tasks, refused calls included), each plan holds an
    acyclic task graph over known tasks, stored under their own identifiers,
    and a task is ready or running only when all its dependencies are
    completed. *)
Theorem memory_plans_sound s pid p :
  rtc mem_step empty_store s -> plan_at pid s = Some p ->
  tasks_wf (mp_tasks p) /\
  (forall x t y, od_get x (mp_tasks p) = Some t -> y ∈ mt_depends_on t -> is_Some (od_get y (mp_tasks p))) /\
  (forall x, ~ tc (depends (abs p)) x x) /\
  (forall x t y, od_get x (mp_tasks p) = Some t -> mt_status t = READY \/ mt_status t = RUNNING ->
     y ∈ mt_depends_on t ->
     exists t', od_get y (mp_tasks p) = Some t' /\ mt_status t' = COMPLETED).
Proof.
  intros Hr Hp. destruct (mem_reachable_sound s Hr pid p Hp) as [Hw [[Hk Ha] Hso]].
  split_and!; [done| |done|].
  - intros x t y Hx Hy. destruct (Hk x y) as [v Hv].
    + exists (mt_status t), (mt_depends_on t). split; [by apply plan_lookup|done].
    + unfold abs in Hv. rewrite abs_lookup in Hv. destruct (od_get y _); [by eexists|done].
  - intros x t y Hx Hst Hy. destruct (Hso x (mt_status t) (mt_depends_on t)) with y as [ds Hc];
      [by apply plan_lookup|done|done|].
    unfold abs in Hc. rewrite abs_lookup in Hc. destruct (od_get y _) as [t'|]; simplify_eq/=. eauto.
Qed.

Lemma memory_plans_sound_witness :
  exists p, plan_at "p" ex_waiting = Some p /\ forall x, ~ tc (depends (abs p)) x x.
Proof.
  destruct (plan_at "p" ex_waiting) as [p|] eqn:Hp; [|vm_compute in Hp; discriminate].
  exists p. split; [reflexivity|]. apply (memory_plans_sound ex_waiting "p" p ex_steps Hp).
Defined.

(** ** Errors *)

(** Every exception of a method leaves the store exactly as it was, except
    those a patch raises inside its task loop (a running or completed task it
    would replace, or the requirement dictionaries below). *)
Theorem memory_errors_clean op s s' e :
  run_op op s = (Err e, s') ->
  s' = s \/ exists now pid patch why inv, op = OpPatch now pid patch why inv /\ partial_patch_error e = true.
Proof.
  intros H. destruct (partial_patch_error e) eqn:He; [|left; by eapply op_raises_clean].
  destruct op; [done|right; eauto 10|..]; left; simpl in H.
  - by eapply mark_failed_clean.
  - by eapply refresh_ready_clean.
  - apply bind_Err in H as [H|(b & s1 & _ & H)]; [by eapply claim_ready_batch_clean|done].
  - by eapply apply_result_clean.
  - by eapply record_failure_clean.
  - by eapply resume_task_clean.
  - apply bind_Err in H as [H|(b & s1 & _ & H)]; [by eapply resolve_waiting_need_clean|done].
Qed.

Lemma memory_errors_clean_witness :
  exists e, run_op (OpResult "p" "b" (ex_result OutCOMPLETED [])) ex_planned = (Err e, ex_planned) /\
  (ex_planned = ex_planned \/ exists now pid patch why inv,
     OpResult "p" "b" (ex_result OutCOMPLETED []) = OpPatch now pid patch why inv /\ partial_patch_error e = true).
Proof.
  eexists. split; [vm_compute; reflexivity|]. eapply memory_errors_clean. vm_compute; reflexivity.
Defined.

(** ** Optimistic concurrency *)

(** A patch computed against another revision is refused with
    [PlanConflictError] and changes nothing. *)
Theorem memory_stale_patch_refused now pid patch why inv s p :
  plan_at pid s = Some p -> pp_expected_revision patch ≠ mp_revision p ->
  apply_patch now pid patch why inv s
  = (Err (PlanConflictError (pp_expected_revision patch) (mp_revision p)), s).
Proof.
  intros Hp Hne. unfold apply_patch, mbind, py_bind. rewrite (get_eq _ _ _ Hp).
  by rewrite (proj2 (Z.eqb_neq _ _) Hne).
Qed.

Lemma memory_stale_patch_refused_witness :
  apply_patch 3 "p" (ex_patch 0 REVISE_PLAN [] []) "planner" None ex_planned
  = (Err (PlanConflictError 0 1), ex_planned).
Proof.
  destruct (plan_at "p" ex_planned) as [p|] eqn:Hp; [|vm_compute in Hp; discriminate].
  assert (Hr : mp_revision p = 1%Z) by (vm_compute in Hp; injection Hp as <-; reflexivity).
  rewrite <- Hr. apply memory_stale_patch_refused; [exact Hp|]. rewrite Hr. vm_compute. discriminate.
Defined.

(** ** What a patch does *)

(** An accepted patch advances the revision by one, sets the status the
    decision asks for, drops the removed tasks, stores each planned task as
    pending (or ready, when nothing holds it) with the planned dependencies,
    its attempt count kept and its result cleared, and leaves every other task
    as it was, or ready. *)
Theorem memory_patch_effect now pid patch why inv s s' p :
  make_patch patch = Ok patch -> plan_at pid s = Some p -> tasks_wf (mp_tasks p) ->
  apply_patch now pid patch why inv s = (Ok tt, s') ->
  exists p', plan_at pid s' = Some p' /\
    mp_revision p' = (mp_revision p + 1)%Z /\ mp_status p' = decision_status (pp_decision patch) /\
    (forall x, x ∈ pp_remove_task_ids patch -> od_get x (mp_tasks p') = None) /\
    (forall t, t ∈ pp_tasks patch -> exists t', od_get (pt_task_id t) (mp_tasks p') = Some t' /\
       mt_depends_on t' = pt_depends_on t /\ (mt_status t' = PENDING \/ mt_status t' = READY) /\
       mt_result t' = None /\
       mt_attempts t' = from_option mt_attempts 0%Z (od_get (pt_task_id t) (mp_tasks p))) /\
    (forall x t, x ∉ pp_remove_task_ids patch -> x ∉ map pt_task_id (pp_tasks patch) ->
       od_get x (mp_tasks p) = Some t ->
       exists t', od_get x (mp_tasks p') = Some t' /\ same_or_ready t t').
Proof.
  intros Hmk Hp Hw H. apply make_patch_Ok in Hmk as (_ & Hnd & Hrm).
  destruct (apply_patch_Ok _ _ _ _ _ _ _ _ _ H Hp Hw Hnd Hrm)
    as (_ & _ & p2 & s2 & Hp2 & Hr2 & _ & [Hout Hin] & Href).
  destruct (refresh_ready_plan _ _ _ _ _ Href Hp2) as [_ Hp'].
  eexists. split; [exact Hp'|]. simpl. unfold refresh_tasks. split_and!.
  - by rewrite Hr2.
  - done.
  - intros x Hx. apply refresh_loop_none. rewrite Hout by auto. by rewrite decide_True.
  - intros t Ht. destruct (Hin t Ht) as (Hold & i & needs & Hg).
    destruct (refresh_loop_some (mp_needs (finish_patch patch p2)) (od_keys (mp_tasks p2)) _ _ _ Hg)
      as (t' & Hg' & Hs). exists t'. split; [exact Hg'|].
    pose proof (replacement_pending _ i t needs Hold) as Hst.
    assert (Hres : mt_result (replacement (od_get (pt_task_id t) (mp_tasks p)) i t needs) = None).
    { simpl. destruct (od_get _ (mp_tasks p)) as [o|]; [|done]. by rewrite (Hold o eq_refl). }
    destruct Hs as [->|[_ ->]]; split_and!; try done; auto; simpl; by destruct (od_get _ (mp_tasks p)).
  - intros x t Hx1 Hx2 Hg. apply refresh_loop_some. rewrite Hout by done. by rewrite decide_False.
Qed.

Lemma memory_patch_effect_witness :
  make_patch ex_first = Ok ex_first /\
  exists p', plan_at "p" ex_planned = Some p' /\ mp_revision p' = 1%Z.
Proof.
  split; [vm_compute; reflexivity|].
  destruct (plan_at "p" ex_start) as [p|] eqn:Hp; [|vm_compute in Hp; discriminate].
  destruct (memory_patch_effect 1 "p" ex_first "planner" None ex_start ex_planned p)
    as (p' & Hp' & Hr & _).
  - vm_compute; reflexivity.
  - exact Hp.
  - vm_compute in Hp. injection Hp as <-. split; [constructor|done].
  - vm_compute; reflexivity.
  - exists p'. split; [exact Hp'|]. rewrite Hr. vm_compute in Hp. injection Hp as <-. reflexivity.
Defined.

Lemma old_needs_dropped p tid ts :
  old_needs (plan_with_tasks ts (plan_with_needs (drop_requirements tid (mp_needs p)) p)) tid = [].
Proof.
  unfold old_needs, drop_requirements. simpl. induction (mp_needs p) as [|kn l IH]; [done|].
  rewrite filter_cons. case_decide; simpl; [|done]. by rewrite bool_decide_eq_false_2.
Qed.

Lemma update_plan_bind {A} pid f (k : unit -> mem A) s :
  (update_plan pid f ≫= k) s = k tt (update_plan pid f s).2.
Proof. done. Qed.

Lemma apply_patch_task_dicts pid i task s p o need rest :
  plan_at pid s = Some p -> od_get (pt_task_id task) (mp_tasks p) = Some o ->
  active_or_completed o = false -> pt_needs task = [] -> old_needs p (pt_task_id task) = need :: rest ->
  exists s' p', apply_patch_task pid (i, task) s = (Err (AttributeError "key"), s') /\
    plan_at pid s' = Some p' /\ mp_revision p' = mp_revision p /\
    old_needs p' (pt_task_id task) = [] /\
    mt_status <$> od_get (pt_task_id task) (mp_tasks p') = Some PENDING.
Proof.
  intros Hp Ho Hact Hn Hneeds. unfold apply_patch_task. rewrite (bind_run_Ok _ _ _ _ _ (get_eq _ _ _ Hp)).
  cbv zeta. rewrite Ho, Hact, Hneeds. unfold effective_task_needs. rewrite Hn.
  rewrite !update_plan_bind.
  eexists _, _. split; [reflexivity|].
  split; [etransitivity; [apply (plan_at_update pid)|etransitivity; [apply f_equal, (plan_at_update pid)|by rewrite Hp]]|].
  split_and!; [done|apply old_needs_dropped|]. simpl. rewrite od_get_set_eq. simpl. by rewrite Hact.
Qed.

(** Re-planning a waiting task that has recorded requirements, with a
    patch task that declares none, raises [AttributeError] after the task was
    overwritten and its requirements dropped: the exception leaves a plan of the
    old revision without the needs. *)
Theorem memory_replan_with_needs_raises now pid patch why inv s p task o need rest :
  plan_at pid s = Some p ->
  pp_expected_revision patch = mp_revision p -> pp_tasks patch = [task] -> pp_remove_task_ids patch = [] ->
  validate_task_graph (merged_tasks p patch) = Ok tt ->
  od_get (pt_task_id task) (mp_tasks p) = Some o -> active_or_completed o = false ->
  pt_needs task = [] -> old_needs p (pt_task_id task) = need :: rest ->
  exists s' p', apply_patch now pid patch why inv s = (Err (AttributeError "key"), s') /\
    plan_at pid s' = Some p' /\ mp_revision p' = mp_revision p /\
    old_needs p' (pt_task_id task) = [] /\
    mt_status <$> od_get (pt_task_id task) (mp_tasks p') = Some PENDING.
Proof.
  intros Hp Hrev Ht Hrm Hv Ho Hact Hn Hneeds.
  destruct (apply_patch_task_dicts pid 0 task s p o need rest Hp Ho Hact Hn Hneeds)
    as (s' & p' & Hrun & Hrest). exists s', p'. split; [|exact Hrest].
  unfold apply_patch. rewrite (bind_run_Ok _ _ _ _ _ (get_eq _ _ _ Hp)), Hrev, Z.eqb_refl. cbv beta iota delta [negb].
  rewrite Hv, Hrm, Ht.
  match goal with |- (_ ≫= fun _ => _ ≫= ?k) s = ?r => change (k tt s = r) end.
  apply bind_run_Err, (bind_run_Err (apply_patch_task _ _)), Hrun.
Qed.

Lemma memory_replan_with_needs_raises_witness :
  exists s', apply_patch 5 "p" (ex_patch 1 REVISE_PLAN [ex_task "a" [] []] []) "planner" None ex_waiting
             = (Err (AttributeError "key"), s').
Proof.
  destruct (plan_at "p" ex_waiting) as [p|] eqn:Hp; [|vm_compute in Hp; discriminate].
  assert (Hp' := Hp). vm_compute in Hp'. injection Hp' as Hp'.
  destruct (memory_replan_with_needs_raises 5 "p" (ex_patch 1 REVISE_PLAN [ex_task "a" [] []] []) "planner" None
              ex_waiting p (ex_task "a" [] [])
              (from_option id (replacement None 0 (ex_task "a" [] []) (NeedModels [])) (od_get "a" (mp_tasks p)))
              (requirement_of "a" ex_need) []) as (s' & p' & H & _);
    [exact Hp|subst p; vm_compute; reflexivity..|].
  exists s'. exact H.
Defined.

(** ** Claiming *)

Definition task_key (t : MemTask) : Z * string := (mt_planned_order t, mt_task_id t).

Lemma claim_batch_shape now pid limit s batch s' p :
  claim_ready_batch now pid limit s = (Ok batch, s') -> plan_at pid s = Some p -> tasks_wf (mp_tasks p) ->
  let ts := refresh_tasks (mp_needs p) (mp_tasks p) in
  let chosen := take (batch_size limit) (ready_tasks ts) in
  tasks_wf ts /\ batch = map (fun kt => claim_task kt.2) chosen /\
  exists p', plan_at pid s' = Some p' /\
    forall x, od_get x (mp_tasks p') =
      if decide (x ∈ map fst chosen) then claim_task <$> od_get x ts else od_get x ts.
Proof.
  intros H Hp Hw ts chosen. assert (Hwt : tasks_wf ts) by (by apply refresh_loop_steps).
  unfold claim_ready_batch in H. py_step. apply get_Ok in H0 as [-> _]. py_step. rename H0 into Href.
  destruct (refresh_ready_plan _ _ _ _ _ Href Hp) as [_ Hp1]. py_step. apply get_Ok in H0 as [-> Hp1'].
  rewrite Hp1 in Hp1'. injection Hp1' as <-. py_step. rename H0 into Hloop. py_step.
  destruct (claim_batch_current pid _ _ (batch_size limit) Hp1 Hwt) as [Hn _].
  split; [done|]. split; [done|]. by apply (claim_loop_plan _ _ _ _ _ _ _ Hloop Hp1).
Qed.

(** The chosen entries are ready and current. *)
Lemma chosen_current n ts kt :
  tasks_wf ts -> kt ∈ take n (ready_tasks ts) ->
  mt_status kt.2 = READY /\ od_get kt.1 ts = Some kt.2 /\ mt_task_id kt.2 = kt.1.
Proof.
  intros Hwt (i & Hi & _)%elem_of_take. apply list_elem_of_lookup_2, ready_tasks_elem in Hi as [Hst Hin].
  assert (Hg : od_get kt.1 ts = Some kt.2) by (apply od_elem_get; [apply Hwt|by destruct kt]).
  split_and!; [done|done|by apply Hwt].
Qed.

Lemma claimed_sorted n ts :
  StronglySorted (fun a b => claim_le (task_key a) (task_key b))
    (map (fun kt => claim_task kt.2) (take n (ready_tasks ts))).
Proof.
  refine (StronglySorted_fmap (fun kt : string * MemTask => claim_task kt.2)
    (fun a b => claim_le (claim_key a) (claim_key b)) _ _ _ _); [done|].
  apply (sort_by_take_sorted claim_key claim_le).
Qed.

(** Entries that were not chosen come later, and exist only past a full batch. *)
Lemma unchosen_ready n ts x t :
  tasks_wf ts -> od_get x ts = Some t -> mt_status t = READY -> x ∉ map fst (take n (ready_tasks ts)) ->
  length (take n (ready_tasks ts)) = n /\
  forall kt, kt ∈ take n (ready_tasks ts) -> claim_le (task_key kt.2) (task_key t).
Proof.
  intros Hw Hx Hst Hin. set (chosen := take n (ready_tasks ts)) in *.
  assert (Hel : (x, t) ∈ filter (fun kt => mt_status kt.2 = READY) ts)
    by (apply list_elem_of_filter; split; [done|by apply od_get_elem]).
  assert (Hni : (x, t) ∉ chosen) by (intros Hc; apply Hin, list_elem_of_fmap; by exists (x, t)).
  split.
  - destruct (decide (length chosen < n)) as [Hlt|Hge].
    + exfalso. apply Hni. by apply (sort_by_take_all claim_key claim_le).
    + unfold chosen in *. rewrite length_take in *. lia.
  - intros kt Hkt. destruct (sort_by_take_least claim_key claim_le _ _ _ _ Hkt Hel); done.
Qed.

Lemma sound_completed_dep p x t y :
  sound (abs p) -> od_get x (mp_tasks p) = Some t -> mt_status t = READY \/ mt_status t = RUNNING ->
  y ∈ mt_depends_on t -> exists d, od_get y (mp_tasks p) = Some d /\ mt_status d = COMPLETED.
Proof.
  intros [_ Hso] Hx Hst Hy.
  destruct (Hso x (mt_status t) (mt_depends_on t) (plan_lookup _ _ _ _ Hx eq_refl) Hst y Hy) as [ds Hc].
  unfold abs in Hc. rewrite abs_lookup in Hc. destruct (od_get y _) as [d|]; simplify_eq/=. eauto.
Qed.

(** A claim returns at most [max 1 limit] tasks, in the order of their
    planned position and then their identifier, and skips none: a task that is
    still ready comes after every claimed one, and there is none when the batch
    is not full.  Each claimed task was pending or ready with all dependencies
    completed, is now running, and counts one attempt more. *)
Theorem memory_claim_batch now pid limit s batch s' p :
  plans_sound s -> plan_at pid s = Some p -> claim_ready_batch now pid limit s = (Ok batch, s') ->
  length batch <= Z.to_nat (Z.max 1 limit) /\
  StronglySorted (fun a b => claim_le (task_key a) (task_key b)) batch /\
  exists p', plan_at pid s' = Some p' /\
    (forall t, t ∈ batch -> mt_status t = RUNNING /\ od_get (mt_task_id t) (mp_tasks p') = Some t /\
       (forall y, y ∈ mt_depends_on t -> exists d, od_get y (mp_tasks p') = Some d /\ mt_status d = COMPLETED) /\
       exists t0, od_get (mt_task_id t) (mp_tasks p) = Some t0 /\
         (mt_status t0 = PENDING \/ mt_status t0 = READY) /\ mt_attempts t = (mt_attempts t0 + 1)%Z) /\
    (forall x t, od_get x (mp_tasks p') = Some t -> mt_status t = READY ->
       length batch = Z.to_nat (Z.max 1 limit) /\
       forall t', t' ∈ batch -> claim_le (task_key t') (task_key t)).
Proof.
  intros Hsound Hp H. pose proof (Hsound _ _ Hp) as [Hw _].
  destruct (claim_batch_shape _ _ _ _ _ _ _ H Hp Hw) as (Hwt & -> & p' & Hp' & Hget).
  set (ts := refresh_tasks (mp_needs p) (mp_tasks p)) in *.
  pose proof (op_returns_sound (OpClaim now pid limit) s s' I
    ltac:(simpl; by rewrite (bind_run_Ok _ _ _ _ _ H)) Hsound _ _ Hp') as [Hw' Hso].
  split; [rewrite length_map, length_take; unfold batch_size; lia|].
  split; [apply claimed_sorted|]. exists p'. split; [done|]. split.
  - intros t Ht. apply list_elem_of_fmap in Ht as (kt & -> & Hin).
    destruct (chosen_current _ _ _ Hwt Hin) as (Hst & Hg & Hid). simpl.
    assert (Hg' : od_get (mt_task_id kt.2) (mp_tasks p') = Some (claim_task kt.2)).
    { rewrite Hid, Hget, decide_True, Hg; [done|]. apply list_elem_of_fmap. by exists kt. }
    split_and!; [done|done| |].
    + intros y Hy. by apply (sound_completed_dep p' _ _ y Hso Hg'); [right|].
    + destruct (refresh_loop_get _ _ _ _ _ Hg) as (t0 & Ht0 & Hs0). exists t0. rewrite Hid.
      split; [done|]. destruct Hs0 as [<-|[Hst0 ->]]; [by split; [right|]|done].
  - intros x t Hx Hst. rewrite Hget in Hx. case_decide as Hin; [destruct (od_get x ts); simplify_eq/=|].
    destruct (unchosen_ready _ _ _ _ Hwt Hx Hst Hin) as [Hlen Hle]. rewrite length_map.
    split; [exact Hlen|]. intros t' (kt & -> & Hkt)%list_elem_of_fmap. by apply Hle.
Qed.

Lemma memory_claim_batch_witness :
  exists batch, claim_ready_batch 2 "p" 1 ex_planned = (Ok batch, ex_claimed) /\
    length batch <= 1 /\ forall t, t ∈ batch -> mt_status t = RUNNING.
Proof.
  destruct (claim_ready_batch 2 "p" 1 ex_planned) as [[batch|e] s'] eqn:H; [|vm_compute in H; discriminate].
  destruct (plan_at "p" ex_planned) as [p|] eqn:Hp; [|vm_compute in Hp; discriminate].
  assert (Hs : plans_sound ex_planned).
  { apply mem_reachable_sound. apply rtc_l with ex_start; [run_step (OpCreate "p" "goal" "run" "tenant" None)|].
    apply rtc_once. run_step (OpPatch 1 "p" ex_first "planner" None). }
  destruct (memory_claim_batch 2 "p" 1 ex_planned batch s' p Hs Hp H) as (Hl & _ & p' & _ & Hb & _).
  exists batch. split; [unfold ex_claimed; rewrite H; reflexivity|]. split; [exact Hl|].
  intros t Ht. apply (Hb t Ht).
Defined.

(** ** Completing a task *)

Definition complete_task (res : AgentTaskResult) (t : MemTask) : MemTask :=
  with_status COMPLETED (with_checkpoint (ar_checkpoint res) (with_result (Some res) t)).

Lemma apply_completed pid tid res s s' p :
  plan_at pid s = Some p -> ar_outcome res = OutCOMPLETED -> apply_result pid tid res s = (Ok tt, s') ->
  exists t p', od_get tid (mp_tasks p) = Some t /\ mt_status t = RUNNING /\
    unresolved_needs p tid t = [] /\ _missing_contract_outputs t res = [] /\ plan_at pid s' = Some p' /\
    let tasks := od_alter (complete_task res) tid (mp_tasks p) in
    mp_needs p' = od_map (resolve_from_outputs (plan_with_tasks tasks p) tid (ar_outputs res)) (mp_needs p) /\
    mp_tasks p' = refresh_tasks (mp_needs p') tasks.
Proof.
  intros Hp Hout H. unfold apply_result in H. py_step. apply get_Ok in H0 as [-> Hp'].
  rewrite Hp in Hp'. injection Hp' as <-.
  destruct (od_get tid (mp_tasks p)) as [t|] eqn:Ht; [|done].
  case_bool_decide as Hrun; [|done]. rewrite Hout in H. simpl in H.
  case_bool_decide as Hneeds; [|done]. case_bool_decide as Houts; [|done]. simpl in H.
  py_step. rename H0 into H1. py_step. rename H0 into H2. py_step. rename H0 into H3.
  updates. unfold _refresh_plan_status in H. py_step. apply get_Ok in H0 as [-> Hp3]. updates.
  edestruct refresh_ready_plan as [_ Hp4]; [exact H3| |].
  { rewrite plan_at_update. unfold update_task. by rewrite plan_at_update, Hp. }
  eexists t, _. do 4 (split; [done|]). split; [rewrite plan_at_update, Hp4; reflexivity|]. done.
Qed.

Lemma filter_nil {A} (f : A -> bool) l x : List.filter f l = [] -> x ∈ l -> f x = false.
Proof.
  intros Hf Hx. destruct (f x) eqn:E; [|done]. exfalso.
  assert (Hin : x ∈ []); [|by apply elem_of_nil in Hin]. rewrite <- Hf. by apply elem_of_List_filter.
Qed.

Lemma no_unresolved p tid t n :
  unresolved_needs p tid t = [] -> n ∈ mt_needs t -> nd_required n = true ->
  exists r, od_get (need_key tid (nd_key n)) (mp_needs p) = Some r /\ nd_status r = Some ReqRESOLVED.
Proof.
  intros Hu%map_eq_nil Hn Hreq. apply (filter_nil _ _ _ Hu) in Hn. rewrite Hreq in Hn. simpl in Hn.
  apply negb_false_iff, bool_decide_eq_true in Hn. destruct (od_get _ _) as [r|]; [by exists r|done].
Qed.

Lemma no_missing t res o :
  _missing_contract_outputs t res = [] -> o ∈ mt_expected_outputs t -> os_required o = true ->
  is_Some (od_get (os_key o) (ar_outputs res)).
Proof.
  intros Hm%map_eq_nil Ho Hreq. apply (filter_nil _ _ _ Hm) in Ho. rewrite Hreq in Ho. simpl in Ho.
  apply negb_false_iff in Ho. unfold od_mem in Ho. by destruct (od_get _ _); [eexists|].
Qed.

(** A task completes only while it is running, with every required need
    resolved and every required output present; the result is stored, and each
    pending requirement of a task that depends on it becomes resolved, with the
    output's value, exactly when the outputs name its key. *)
Theorem memory_completion_contract pid tid res s s' p :
  plan_at pid s = Some p -> ar_outcome res = OutCOMPLETED ->
  apply_result pid tid res s = (Ok tt, s') ->
  exists t p' t', od_get tid (mp_tasks p) = Some t /\ mt_status t = RUNNING /\
    (forall n, n ∈ mt_needs t -> nd_required n = true ->
       exists r, od_get (need_key tid (nd_key n)) (mp_needs p) = Some r /\ nd_status r = Some ReqRESOLVED) /\
    (forall o, o ∈ mt_expected_outputs t -> os_required o = true -> is_Some (od_get (os_key o) (ar_outputs res))) /\
    plan_at pid s' = Some p' /\ od_get tid (mp_tasks p') = Some t' /\
    mt_status t' = COMPLETED /\ mt_result t' = Some res /\
    (forall k r, od_get k (mp_needs p) = Some r ->
       exists r', od_get k (mp_needs p') = Some r' /\
         match nd_task_id r, od_get (nd_key r) (ar_outputs res) with
         | Some c, Some v =>
             if bool_decide (nd_status r = Some ReqPENDING) && negb (bool_decide (c = tid)) &&
                match od_get c (mp_tasks p) with Some ct => bool_decide (tid ∈ mt_depends_on ct) | None => false end
             then nd_status r' = Some ReqRESOLVED /\ ns_resolved_value (nd_spec r') = Some v /\
                  nd_resolver_task_id r' = Some tid
             else r' = r
         | _, _ => r' = r
         end).
Proof.
  intros Hp Hout H.
  destruct (apply_completed _ _ _ _ _ _ Hp Hout H) as (t & p' & Ht & Hrun & Hu & Hm & Hp' & Hn' & Ht').
  destruct (refresh_loop_some (mp_needs p') (od_keys (od_alter (complete_task res) tid (mp_tasks p)))
    (od_alter (complete_task res) tid (mp_tasks p)) tid (complete_task res t)) as (t' & Hg' & Hs').
  { by rewrite od_get_alter, decide_True, Ht. }
  assert (Hdone : t' = complete_task res t) by (destruct Hs' as [->|[[Hc|Hc] _]]; done).
  exists t, p', t'. do 2 (split; [done|]).
  split; [intros n; by eapply no_unresolved|]. split; [intros o; by eapply no_missing|].
  split; [done|]. split; [by rewrite Ht'|]. do 2 (split; [by rewrite Hdone|]).
  intros k r Hr. rewrite Hn', od_get_map, Hr. simpl. eexists. split; [reflexivity|].
  unfold resolve_from_outputs, resolvable. simpl.
  destruct (nd_task_id r) as [c|]; [|by rewrite andb_false_r].
  rewrite od_get_alter, (bool_decide_ext (Some c = Some tid) (c = tid)) by naive_solver.
  replace (match (if decide (c = tid) then complete_task res <$> od_get c (mp_tasks p)
                  else od_get c (mp_tasks p)) with
           | Some ct => bool_decide (tid ∈ mt_depends_on ct) | None => false end)
    with (match od_get c (mp_tasks p) with
          | Some ct => bool_decide (tid ∈ mt_depends_on ct) | None => false end)
    by (case_decide; [by destruct (od_get c _)|done]).
  destruct (od_get (nd_key r) (ar_outputs res)); by case_match.
Qed.

(** Task [b] waits for the output [city] of [a]. *)
Definition ex_patch_need : PlanPatch :=
  ex_patch 0 CREATE_PLAN
    [ex_task "a" [] [mkTaskOutputSpec "city" "the city" [] true];
     mkPlannedTask "b" "agent" "i" "j" [] [] ["a"] [ex_need] CONTINUE] [].
Definition ex_running : MemStore :=
  (claim_ready_batch 2 "p" 1 (apply_patch 1 "p" ex_patch_need "planner" None ex_start).2).2.
Definition ex_done : AgentTaskResult :=
  mkAgentTaskResult OutCOMPLETED "done" [("city", JStr "Oslo")] [] [] None [].

Lemma memory_completion_contract_witness :
  exists p', plan_at "p" (apply_result "p" "a" ex_done ex_running).2 = Some p' /\
  exists r', od_get "b:city" (mp_needs p') = Some r' /\ nd_status r' = Some ReqRESOLVED /\
    ns_resolved_value (nd_spec r') = Some (JStr "Oslo").
Proof.
  destruct (plan_at "p" ex_running) as [p|] eqn:Hp; [|vm_compute in Hp; discriminate].
  destruct (memory_completion_contract "p" "a" ex_done ex_running (apply_result "p" "a" ex_done ex_running).2 p)
    as (t & p' & t' & _ & _ & _ & _ & Hp' & _ & _ & _ & Hreq).
  - exact Hp.
  - reflexivity.
  - vm_compute; reflexivity.
  - exists p'. split; [exact Hp'|]. vm_compute in Hp. injection Hp as <-.
    destruct (Hreq "b:city" (requirement_of "b" ex_need)) as (r' & Hr' & Hv); [vm_compute; reflexivity|].
    vm_compute in Hv. exists r'. destruct Hv as (H1 & H2 & _). split; [exact Hr'|]. split; [exact H1|exact H2].
Defined.
