(* ===== verification/PlanSql.v ===== *)
(** * The SQL plan store

    Models [SqlPlanStore] of [app/runtime/plan_store.py] over the tables of
    [app/models/runtime_plan.py].  A table is the list of its rows; a query
    without ORDER BY returns them in list order, on which no property depends.
    The unique constraints are checked where the rows are inserted, a deleted
    task takes its needs and attempts with it (ON DELETE CASCADE), and
    [uuid4] is a stream of identifiers the database state counts through. *)
From S2P Require Import Prelude Contracts TaskGraph PlanMemory.

(** ** Tables *)

Record PlanRow := mkPlanRow {
  pr_id : Z;
  pr_tenant_id : Z;
  pr_chat_id : option Z;
  pr_root_run_id : Z;
  pr_goal : string;
  pr_status : PlanStatus;
  pr_revision : Z;
  pr_answer_brief : option string;
  pr_last_failure : option (odict json)
}.

Record TaskRow := mkTaskRow {
  tr_id : Z;
  tr_plan_id : Z;
  tr_task_id : string;
  tr_planned_order : Z;
  tr_intent : string;
  tr_instructions : string;
  tr_executor : string;
  tr_status : TaskStatus;
  tr_inputs : odict json;
  tr_expected_outputs : list TaskOutputSpec;
  tr_on_success : TaskSuccessAction;
  tr_checkpoint : odict json;
  tr_result : option AgentTaskResult;
  tr_attempts : Z;
  tr_next_retry_at : option Z
}.

Record DependencyRow := mkDependencyRow {
  dr_id : Z;
  dr_plan_id : Z;
  dr_task_id : string;
  dr_depends_on_task_id : string
}.

(** [nr_ref], [nr_required] and [nr_context] are the keys of [need_metadata]. *)
Record NeedRow := mkNeedRow {
  nr_id : Z;
  nr_task_row_id : Z;
  nr_need_key : string;
  nr_kind : NeedKind;
  nr_description : string;
  nr_schema : odict json;
  nr_ref : string;
  nr_required : bool;
  nr_context : odict json;
  nr_status : RequirementStatus;
  nr_resolved_value : option json;
  nr_resolver_task_id : option string
}.

Record RevisionRow := mkRevisionRow {
  vr_id : Z;
  vr_plan_id : Z;
  vr_revision : Z;
  vr_reason : string;
  vr_patch : PlanPatch;
  vr_planner_invocation_id : option string
}.

Record AttemptRow := mkAttemptRow {
  tt_id : Z;
  tt_task_row_id : Z;
  tt_attempt_number : Z;
  tt_status : AttemptStatus;
  tt_error : option TaskAttemptFailure;
  tt_started_at : Z;
  tt_finished_at : option Z;
  tt_next_retry_at : option Z
}.

Record Db := mkDb {
  db_plans : list PlanRow;
  db_tasks : list TaskRow;
  db_dependencies : list DependencyRow;
  db_needs : list NeedRow;
  db_revisions : list RevisionRow;
  db_attempts : list AttemptRow;
  db_uuids : nat                      (* identifiers drawn so far *)
}.

Definition empty_db : Db := mkDb [] [] [] [] [] [] 0.
Definition sql (A : Type) : Type := py exn Db A.

(** ** Field updates *)

Definition set_plans (l : list PlanRow) (d : Db) : Db :=
  mkDb l (db_tasks d) (db_dependencies d) (db_needs d) (db_revisions d) (db_attempts d) (db_uuids d).
Definition set_tasks (l : list TaskRow) (d : Db) : Db :=
  mkDb (db_plans d) l (db_dependencies d) (db_needs d) (db_revisions d) (db_attempts d) (db_uuids d).
Definition set_dependencies (l : list DependencyRow) (d : Db) : Db :=
  mkDb (db_plans d) (db_tasks d) l (db_needs d) (db_revisions d) (db_attempts d) (db_uuids d).
Definition set_needs (l : list NeedRow) (d : Db) : Db :=
  mkDb (db_plans d) (db_tasks d) (db_dependencies d) l (db_revisions d) (db_attempts d) (db_uuids d).
Definition set_revisions (l : list RevisionRow) (d : Db) : Db :=
  mkDb (db_plans d) (db_tasks d) (db_dependencies d) (db_needs d) l (db_attempts d) (db_uuids d).
Definition set_attempts (l : list AttemptRow) (d : Db) : Db :=
  mkDb (db_plans d) (db_tasks d) (db_dependencies d) (db_needs d) (db_revisions d) l (db_uuids d).

Definition plan_set_status (st : PlanStatus) (p : PlanRow) : PlanRow :=
  mkPlanRow (pr_id p) (pr_tenant_id p) (pr_chat_id p) (pr_root_run_id p) (pr_goal p) st
    (pr_revision p) (pr_answer_brief p) (pr_last_failure p).

Definition row_set_status (st : TaskStatus) (t : TaskRow) : TaskRow :=
  mkTaskRow (tr_id t) (tr_plan_id t) (tr_task_id t) (tr_planned_order t) (tr_intent t)
    (tr_instructions t) (tr_executor t) st (tr_inputs t) (tr_expected_outputs t) (tr_on_success t)
    (tr_checkpoint t) (tr_result t) (tr_attempts t) (tr_next_retry_at t).

Definition row_set_checkpoint (c : odict json) (t : TaskRow) : TaskRow :=
  mkTaskRow (tr_id t) (tr_plan_id t) (tr_task_id t) (tr_planned_order t) (tr_intent t)
    (tr_instructions t) (tr_executor t) (tr_status t) (tr_inputs t) (tr_expected_outputs t)
    (tr_on_success t) c (tr_result t) (tr_attempts t) (tr_next_retry_at t).

Definition row_set_result (r : option AgentTaskResult) (t : TaskRow) : TaskRow :=
  mkTaskRow (tr_id t) (tr_plan_id t) (tr_task_id t) (tr_planned_order t) (tr_intent t)
    (tr_instructions t) (tr_executor t) (tr_status t) (tr_inputs t) (tr_expected_outputs t)
    (tr_on_success t) (tr_checkpoint t) r (tr_attempts t) (tr_next_retry_at t).

Definition row_set_attempts (n : Z) (t : TaskRow) : TaskRow :=
  mkTaskRow (tr_id t) (tr_plan_id t) (tr_task_id t) (tr_planned_order t) (tr_intent t)
    (tr_instructions t) (tr_executor t) (tr_status t) (tr_inputs t) (tr_expected_outputs t)
    (tr_on_success t) (tr_checkpoint t) (tr_result t) n (tr_next_retry_at t).

Definition row_set_next_retry_at (r : option Z) (t : TaskRow) : TaskRow :=
  mkTaskRow (tr_id t) (tr_plan_id t) (tr_task_id t) (tr_planned_order t) (tr_intent t)
    (tr_instructions t) (tr_executor t) (tr_status t) (tr_inputs t) (tr_expected_outputs t)
    (tr_on_success t) (tr_checkpoint t) (tr_result t) (tr_attempts t) r.

(** The columns a replan overwrites on an existing row. *)
Definition row_replan (index : Z) (item : PlannedTask) (t : TaskRow) : TaskRow :=
  mkTaskRow (tr_id t) (tr_plan_id t) (tr_task_id t) index (pt_intent item)
    (pt_instructions item) (pt_executor item) PENDING (pt_inputs item) (pt_expected_outputs item)
    (pt_on_success item) [] None (tr_attempts t) (tr_next_retry_at t).

Definition need_row_set_status (st : RequirementStatus) (n : NeedRow) : NeedRow :=
  mkNeedRow (nr_id n) (nr_task_row_id n) (nr_need_key n) (nr_kind n) (nr_description n) (nr_schema n)
    (nr_ref n) (nr_required n) (nr_context n) st (nr_resolved_value n) (nr_resolver_task_id n).

Definition need_row_resolve (v : json) (who : string) (n : NeedRow) : NeedRow :=
  mkNeedRow (nr_id n) (nr_task_row_id n) (nr_need_key n) (nr_kind n) (nr_description n) (nr_schema n)
    (nr_ref n) (nr_required n) (nr_context n) ReqRESOLVED (Some v) (Some who).

(** ** Statements *)

Section Sql.
Variable uuid4 : nat -> Z.

Definition new_uuid : sql Z := fun d =>
  (Ok (uuid4 (db_uuids d)),
   mkDb (db_plans d) (db_tasks d) (db_dependencies d) (db_needs d) (db_revisions d)
        (db_attempts d) (S (db_uuids d))).

(** Row objects are written back by primary key. *)
Definition update_plan_row (id : Z) (f : PlanRow -> PlanRow) : sql unit :=
  modify (fun d => set_plans (map (fun p => if decide (pr_id p = id) then f p else p) (db_plans d)) d).

Definition update_task_row (id : Z) (f : TaskRow -> TaskRow) : sql unit :=
  modify (fun d => set_tasks (map (fun t => if decide (tr_id t = id) then f t else t) (db_tasks d)) d).

Definition find_plan (plan_id : Z) (d : Db) : option PlanRow :=
  List.find (fun p => bool_decide (pr_id p = plan_id)) (db_plans d).

Definition plan_tasks (plan_id : Z) (d : Db) : list TaskRow :=
  filter (fun t => tr_plan_id t = plan_id) (db_tasks d).

Definition find_task (plan_id : Z) (task_id : string) (d : Db) : option TaskRow :=
  List.find (fun t => bool_decide (tr_plan_id t = plan_id) && bool_decide (tr_task_id t = task_id))
            (db_tasks d).

Definition plan_dependencies (plan_id : Z) (d : Db) : list DependencyRow :=
  filter (fun r => dr_plan_id r = plan_id) (db_dependencies d).

(** [select(RuntimeTaskNeed).join(RuntimePlanTask).where(plan_id == ...)] *)
Definition plan_needs (plan_id : Z) (d : Db) : list NeedRow :=
  filter (fun n => nr_task_row_id n ∈ map tr_id (plan_tasks plan_id d)) (db_needs d).

Definition insert_plan (p : PlanRow) : sql unit :=
  d ← get_state;
  if bool_decide (pr_root_run_id p ∈ map pr_root_run_id (db_plans d))
  then raise (IntegrityError "root_run_id")
  else put_state (set_plans (db_plans d ++ [p]) d).

Definition insert_task (t : TaskRow) : sql unit :=
  d ← get_state;
  match find_task (tr_plan_id t) (tr_task_id t) d with
  | Some _ => raise (IntegrityError "uq_runtime_plan_task_id")
  | None => put_state (set_tasks (db_tasks d ++ [t]) d)
  end.

Definition same_dependency (a b : DependencyRow) : bool :=
  bool_decide (dr_plan_id a = dr_plan_id b) && bool_decide (dr_task_id a = dr_task_id b)
  && bool_decide (dr_depends_on_task_id a = dr_depends_on_task_id b).

Definition insert_dependency (r : DependencyRow) : sql unit :=
  d ← get_state;
  if existsb (same_dependency r) (db_dependencies d)
  then raise (IntegrityError "uq_runtime_task_dependency")
  else put_state (set_dependencies (db_dependencies d ++ [r]) d).

Definition insert_need (n : NeedRow) : sql unit :=
  d ← get_state;
  if existsb (fun m => bool_decide (nr_task_row_id m = nr_task_row_id n)
                       && bool_decide (nr_need_key m = nr_need_key n)) (db_needs d)
  then raise (IntegrityError "uq_runtime_task_need")
  else put_state (set_needs (db_needs d ++ [n]) d).

Definition insert_attempt (a : AttemptRow) : sql unit :=
  d ← get_state;
  if existsb (fun b => bool_decide (tt_task_row_id b = tt_task_row_id a)
                       && bool_decide (tt_attempt_number b = tt_attempt_number a)) (db_attempts d)
  then raise (IntegrityError "uq_runtime_task_attempt")
  else put_state (set_attempts (db_attempts d ++ [a]) d).

Definition insert_revision (r : RevisionRow) : sql unit :=
  modify (fun d => set_revisions (db_revisions d ++ [r]) d).

(** Deleting tasks cascades to their needs and attempts; dependency rows name
    tasks by text and stay. *)
Definition delete_tasks (dead : TaskRow -> bool) : sql unit :=
  modify (fun d =>
    let ids := map tr_id (List.filter dead (db_tasks d)) in
    set_attempts (filter (fun a => tt_task_row_id a ∉ ids) (db_attempts d))
      (set_needs (filter (fun n => nr_task_row_id n ∉ ids) (db_needs d))
         (set_tasks (List.filter (fun t => negb (dead t)) (db_tasks d)) d))).

Definition delete_dependencies (plan_id : Z) (task_id : string) : sql unit :=
  modify (fun d => set_dependencies
    (filter (fun r => ~ (dr_plan_id r = plan_id /\ dr_task_id r = task_id)) (db_dependencies d)) d).

Definition delete_needs (task_row_id : Z) : sql unit :=
  modify (fun d => set_needs (filter (fun n => nr_task_row_id n ≠ task_row_id) (db_needs d)) d).

(** ** Reading *)

Definition get_by_run (root_run_id : Z) : sql (option PlanRow) :=
  d ← get_state;
  mret (List.find (fun p => bool_decide (pr_root_run_id p = root_run_id)) (db_plans d)).

Definition create_plan (goal : string) (root_run_id tenant_id : Z) (chat_id : option Z) : sql PlanRow :=
  id ← new_uuid;
  let plan := mkPlanRow id tenant_id chat_id root_run_id goal PlanDRAFT 0 None None in
  _ ← insert_plan plan;
  mret plan.

Definition str_or (s d : string) : string := if str_empty s then d else s.

Definition need_dict (n : NeedRow) : NeedDict :=
  mkNeedDict None
    (mkNeedSpec (str_or (nr_ref n) (nr_need_key n)) (nr_need_key n) (nr_kind n) (nr_description n)
       (nr_schema n) (nr_required n) (nr_context n) (nr_resolved_value n) None None)
    (Some (nr_status n)) (nr_resolver_task_id n).

(** A task of the snapshot.  An entry made by [setdefault] for a dependency
    row without a task has no [row]. *)
Record SnapTask := mkSnapTask {
  sn_row : option TaskRow;
  sn_depends_on : list string;
  sn_needs : list NeedDict
}.

#[export] Instance SnapTask_dict : TaskDict SnapTask := {
  td_status t := tr_status <$> sn_row t;
  td_depends_on := sn_depends_on;
  td_needs := sn_needs;
  td_expected_outputs t := match sn_row t with Some r => tr_expected_outputs r | None => [] end
}.

Record Snapshot := mkSnapshot {
  sp_plan : PlanRow;
  sp_tasks : odict SnapTask
}.

Definition snap_rows (rows : list TaskRow) : odict SnapTask :=
  od_update [] (map (fun r => (tr_task_id r, mkSnapTask (Some r) [] [])) rows).

Definition snap_dependency (tasks : odict SnapTask) (r : DependencyRow) : odict SnapTask :=
  let t := default (mkSnapTask None [] []) (od_get (dr_task_id r) tasks) in
  od_set (dr_task_id r)
    (mkSnapTask (sn_row t) (sn_depends_on t ++ [dr_depends_on_task_id r]) (sn_needs t)) tasks.

Definition snap_need (rows : list TaskRow) (tasks : odict SnapTask) (n : NeedRow) : odict SnapTask :=
  match List.find (fun r => bool_decide (tr_id r = nr_task_row_id n)) rows with
  | Some r =>
      if str_empty (tr_task_id r) then tasks else
      od_alter (fun t => mkSnapTask (sn_row t) (sn_depends_on t) (sn_needs t ++ [need_dict n]))
               (tr_task_id r) tasks
  | None => tasks
  end.

Definition snapshot_tasks (plan_id : Z) (d : Db) : odict SnapTask :=
  let rows := plan_tasks plan_id d in
  foldl (snap_need rows)
    (foldl snap_dependency (snap_rows rows) (plan_dependencies plan_id d))
    (plan_needs plan_id d).

Definition snapshot (plan_id : Z) : sql Snapshot :=
  d ← get_state;
  match find_plan plan_id d with
  | None => raise (KeyError "plan_id")
  | Some plan => mret (mkSnapshot plan (snapshot_tasks plan_id d))
  end.

(** ** Applying a planner patch *)

(** [dependencies_by_task[task_id]] *)
Definition deps_of (plan_id : Z) (d : Db) (task_id : string) : list string :=
  map dr_depends_on_task_id
    (filter (fun r => dr_task_id r = task_id) (plan_dependencies plan_id d)).

Definition needs_of_row (need_rows : list NeedRow) (task_row_id : Z) : list NeedRow :=
  filter (fun n => nr_task_row_id n = task_row_id) need_rows.

Definition planned_of_row (plan_id : Z) (d : Db) (r : TaskRow) : PlannedTask :=
  mkPlannedTask (tr_task_id r) (tr_executor r) (tr_intent r) (tr_instructions r) (tr_inputs r) []
    (deps_of plan_id d (tr_task_id r))
    (map (fun n => nd_spec (need_dict n)) (needs_of_row (plan_needs plan_id d) (tr_id r)))
    (tr_on_success r).

(** [combined.values()] *)
Definition combined_tasks (plan_id : Z) (patch : PlanPatch) (d : Db) : list PlannedTask :=
  let existing := map (planned_of_row plan_id d)
    (filter (fun r => tr_task_id r ∉ pp_remove_task_ids patch) (plan_tasks plan_id d)) in
  od_values (od_update (od_update [] (by_id existing)) (by_id (pp_tasks patch))).

Definition row_active_or_completed (t : TaskRow) : bool :=
  bool_decide (tr_status t = RUNNING) || bool_decide (tr_status t = COMPLETED).

Definition protected_removals (plan_id : Z) (patch : PlanPatch) (d : Db) : list string :=
  remove_dups (map tr_task_id (List.filter (fun r =>
    bool_decide (tr_task_id r ∈ pp_remove_task_ids patch) && row_active_or_completed r)
    (plan_tasks plan_id d))).

Definition sorted_strings (l : list string) : list string := sort_by id String.le l.

(** [RuntimePlanTask(...)] for a task of the patch. *)
Definition new_task_row (id plan_id index : Z) (item : PlannedTask) : TaskRow :=
  mkTaskRow id plan_id (pt_task_id item) index (pt_intent item) (pt_instructions item)
    (pt_executor item) PENDING (pt_inputs item) (pt_expected_outputs item) (pt_on_success item)
    [] None 0 None.

Definition insert_new_dependency (plan_id : Z) (task_id dependency : string) : sql unit :=
  id ← new_uuid;
  insert_dependency (mkDependencyRow id plan_id task_id dependency).

(** A need row for a declared need; [prior] is the row of the same key the
    task had before. *)
Definition insert_new_need (task_row_id : Z) (prior : option NeedRow) (need : NeedSpec) : sql unit :=
  id ← new_uuid;
  insert_need (mkNeedRow id task_row_id (ns_key need) (ns_kind need) (ns_description need)
    (ns_json_schema need) (str_or (ns_ref need) (ns_key need)) (ns_required need) (ns_context need)
    (match prior with Some p => nr_status p | None => ReqPENDING end)
    (match prior with Some p => nr_resolved_value p | None => None end)
    (match prior with Some p => nr_resolver_task_id p | None => None end)).

(** [existing_need_state.get(key)]: the last row with that key. *)
Definition prior_need (rows : list NeedRow) (key : string) : option NeedRow :=
  last (filter (fun n => nr_need_key n = key) rows).

(** The row a patch task is stored in: a new one, or the existing one,
    re-planned. *)
Definition upsert_task (plan_id index : Z) (item : PlannedTask) (task : option TaskRow) : sql Z :=
  match task with
  | None =>
      id ← new_uuid;
      _ ← insert_task (new_task_row id plan_id index item);
      mret id
  | Some t =>
      _ ← update_task_row (tr_id t) (row_replan index item);
      mret (tr_id t)
  end.

Definition existing_need_rows (need_rows : list NeedRow) (task : option TaskRow) : list NeedRow :=
  match task with Some t => needs_of_row need_rows (tr_id t) | None => [] end.

(** Does [model_copy] put the stored dictionaries in place of the needs? *)
Definition copies_dicts (need_rows : list NeedRow) (task : option TaskRow) (item : PlannedTask) : bool :=
  bool_decide (is_Some task) && bool_decide (pt_needs item = nil)
  && negb (bool_decide (existing_need_rows need_rows task = nil)).

(** The body of [for index, item in enumerate(patch.tasks)]. *)
Definition apply_patch_item (plan_id : Z) (need_rows : list NeedRow) (it : Z * PlannedTask) : sql unit :=
  let '(index, item) := it in
  d ← get_state;
  let task := find_task plan_id (pt_task_id item) d in
  if match task with Some t => row_active_or_completed t | None => false end
  then raise (PlanValidationError (CannotReplace (pt_task_id item))) else
  row_id ← upsert_task plan_id index item task;
  _ ← delete_dependencies plan_id (pt_task_id item);
  _ ← for_each (insert_new_dependency plan_id (pt_task_id item)) (pt_depends_on item);
  _ ← delete_needs row_id;
  if copies_dicts need_rows task item then raise (AttributeError "key") else   (* need.key on a dict *)
  for_each (fun need => insert_new_need row_id
              (prior_need (existing_need_rows need_rows task) (ns_key need)) need) (pt_needs item).

Definition finish_plan_row (patch : PlanPatch) (p : PlanRow) : PlanRow :=
  mkPlanRow (pr_id p) (pr_tenant_id p) (pr_chat_id p) (pr_root_run_id p) (pr_goal p)
    (decision_status (pp_decision patch)) (pr_revision p + 1)
    (opt_or (pp_answer_brief patch) (pr_answer_brief p)) (pr_last_failure p).

Definition route_needs_to_user (plan_id : Z) : sql unit :=
  modify (fun d =>
    let ids := map tr_id (plan_tasks plan_id d) in
    set_needs (map (fun n => if bool_decide (nr_status n = ReqPENDING) && bool_decide (nr_task_row_id n ∈ ids)
                             then need_row_set_status ReqWAITING_USER n else n) (db_needs d)) d).

(** The block under [begin_nested]. *)
Definition write_patch (plan : PlanRow) (need_rows : list NeedRow) (patch : PlanPatch) (reason : string)
    (planner_invocation_id : option string) : sql unit :=
  let plan_id := pr_id plan in
  _ ← delete_tasks (fun t => bool_decide (tr_plan_id t = plan_id)
                             && bool_decide (tr_task_id t ∈ pp_remove_task_ids patch)
                             && negb (row_active_or_completed t));
  _ ← for_each (apply_patch_item plan_id need_rows) (enumerate (pp_tasks patch));
  _ ← update_plan_row plan_id (finish_plan_row patch);
  _ ← (if bool_decide (pp_decision patch = ASK_USER) then route_needs_to_user plan_id else mret tt);
  id ← new_uuid;
  insert_revision (mkRevisionRow id plan_id (pr_revision plan + 1) reason patch planner_invocation_id).

Definition apply_patch_sql (plan_id : Z) (patch : PlanPatch) (reason : string)
    (planner_invocation_id : option string) : sql unit :=
  d ← get_state;
  match find_plan plan_id d with
  | None => raise (KeyError "plan_id")
  | Some plan =>
      if negb (Z.eqb (pr_revision plan) (pp_expected_revision patch))
      then raise (PlanConflictError (pp_expected_revision patch) (pr_revision plan)) else
      if negb (bool_decide (protected_removals plan_id patch d = []))
      then raise (PlanValidationError (CannotRemove (sorted_strings (protected_removals plan_id patch d)))) else
      _ ← of_result (validate_task_graph (combined_tasks plan_id patch d));
      try_except
        (begin_nested (write_patch plan (plan_needs plan_id d) patch reason planner_invocation_id))
        (fun e => match e with
                  | IntegrityError _ => raise (PlanValidationError PersistenceConstraints)
                  | _ => raise e
                  end)
  end.

(** ** Claiming *)

(** [(planned_order, task_id)] of the dependency-ready tasks. *)
Definition candidates (tasks : odict SnapTask) : list (Z * string) :=
  omap (fun kt => match sn_row kt.2 with
                  | Some r => if task_is_ready kt.2 tasks
                              then Some (tr_planned_order r, tr_task_id r) else None
                  | None => None
                  end) tasks.

Definition claim_row (t : TaskRow) : TaskRow := row_set_attempts (tr_attempts t + 1) (row_set_status RUNNING t).

Definition claim_candidate (now : Z) (plan_id : Z) (task_id : string) : sql (option TaskRow) :=
  d ← get_state;
  match find_task plan_id task_id d with
  | None => mret None
  | Some t =>
      if bool_decide (tr_status t = RUNNING) then mret None else
      _ ← update_task_row (tr_id t) claim_row;
      id ← new_uuid;
      _ ← insert_attempt (mkAttemptRow id (tr_id t) (tr_attempts t + 1) AttRUNNING None now None None);
      mret (Some (claim_row t))
  end.

Fixpoint claim_all (now : Z) (plan_id : Z) (chosen : list (Z * string)) : sql (list TaskRow) :=
  match chosen with
  | [] => mret []
  | (_, task_id) :: rest =>
      t ← claim_candidate now plan_id task_id;
      claimed ← claim_all now plan_id rest;
      mret (match t with Some t => t :: claimed | None => claimed end)
  end.

Definition claim_ready_batch_sql (now : Z) (plan_id limit : Z) : sql (list TaskRow) :=
  snap ← snapshot plan_id;
  claim_all now plan_id
    (take (batch_size limit) (sort_by id claim_le (candidates (sp_tasks snap)))).

Definition claim_ready_sql (now : Z) (plan_id : Z) : sql (option TaskRow) :=
  batch ← claim_ready_batch_sql now plan_id 1;
  mret (head batch).

(** ** Plan status *)

Definition refreshed_status_sql (statuses : list TaskStatus) (current : PlanStatus) : PlanStatus :=
  if negb (bool_decide (statuses = []))
     && forallb (fun st => bool_decide (st ∈ TERMINAL_TASK_STATUSES)) statuses
     && negb (bool_decide (FAILED ∈ statuses) || bool_decide (UNFULFILLABLE ∈ statuses))
  then PlanCOMPLETED
  else if bool_decide (WAITING_USER ∈ statuses) then PlanWAITING_INPUT
  else if negb (bool_decide (statuses = []))
          && forallb (fun st => bool_decide (st ∈ [FAILED; UNFULFILLABLE])) statuses
  then PlanFAILED else current.

Definition _refresh_status (plan_id : Z) : sql unit :=
  d ← get_state;
  match find_plan plan_id d with
  | None => mret tt
  | Some plan =>
      update_plan_row plan_id
        (plan_set_status (refreshed_status_sql (map tr_status (plan_tasks plan_id d)) (pr_status plan)))
  end.

(** ** Finishing a task *)

Definition unresolved_snap_needs (task : SnapTask) : list string :=
  map nd_key (List.filter (fun n => nd_required n && negb (bool_decide (nd_status n = Some ReqRESOLVED)))
                          (sn_needs task)).

Definition empty_snap_task : SnapTask := mkSnapTask None [] [].

(** Is this pending need of another task resolved by the outputs? *)
Definition resolve_need_row (snap : Snapshot) (d : Db) (row : TaskRow) (outputs : odict json)
    (n : NeedRow) : NeedRow :=
  let consumer := List.find (fun t => bool_decide (tr_id t = nr_task_row_id n)) (db_tasks d) in
  if bool_decide (nr_task_row_id n ∈ map tr_id (plan_tasks (tr_plan_id row) d))
     && bool_decide (nr_status n = ReqPENDING) && negb (bool_decide (nr_task_row_id n = tr_id row))
  then match od_get (nr_need_key n) outputs, consumer with
       | Some v, Some c =>
           if bool_decide (tr_task_id row ∈
                sn_depends_on (default empty_snap_task (od_get (tr_task_id c) (sp_tasks snap))))
           then need_row_resolve v (tr_task_id row) n else n
       | _, _ => n
       end
  else n.

Definition apply_result_sql (plan_id : Z) (task_id : string) (r : AgentTaskResult) : sql unit :=
  d ← get_state;
  match find_task plan_id task_id d with
  | None => raise (TaskNotFoundError task_id)
  | Some row =>
      if negb (bool_decide (tr_status row = RUNNING))
      then raise (PlanValidationError (NotRunning (tr_task_id row))) else
      snap ← snapshot plan_id;
      let task_data := default empty_snap_task (od_get task_id (sp_tasks snap)) in
      let completed := bool_decide (ar_outcome r = OutCOMPLETED) in
      if completed && negb (bool_decide (unresolved_snap_needs task_data = []))
      then raise (PlanValidationError (UnresolvedNeeds task_id (unresolved_snap_needs task_data)))
      else if completed && negb (bool_decide (_missing_contract_outputs task_data r = []))
      then raise (PlanValidationError (MissingOutputs task_id (_missing_contract_outputs task_data r)))
      else
      _ ← update_task_row (tr_id row) (fun t =>
            row_set_status (outcome_status (ar_outcome r))
              (row_set_checkpoint (ar_checkpoint r) (row_set_result (Some r) t)));
      _ ← match ar_outcome r with
          | OutCOMPLETED =>
              modify (fun d => set_needs (map (resolve_need_row snap d row (ar_outputs r)) (db_needs d)) d)
          | OutNEEDS_DEPENDENCY =>
              _ ← delete_needs (tr_id row);
              for_each (insert_new_need (tr_id row) None) (ar_needs r)
          | OutUNFULFILLABLE => mret tt
          end;
      _refresh_status plan_id
  end.

Definition find_attempt (row : TaskRow) (d : Db) : option AttemptRow :=
  List.find (fun a => bool_decide (tt_task_row_id a = tr_id row)
                      && bool_decide (tt_attempt_number a = tr_attempts row)) (db_attempts d).

Definition update_attempt_row (id : Z) (f : AttemptRow -> AttemptRow) : sql unit :=
  modify (fun d => set_attempts (map (fun a => if decide (tt_id a = id) then f a else a) (db_attempts d)) d).

Definition fail_attempt (now : Z) (f : TaskAttemptFailure) (retry_at : option Z) (a : AttemptRow) : AttemptRow :=
  mkAttemptRow (tt_id a) (tt_task_row_id a) (tt_attempt_number a)
    (if af_timed_out f then AttTIMED_OUT else AttFAILED) (Some f) (tt_started_at a) (Some now) retry_at.

Definition record_failure_sql (now : Z) (plan_id : Z) (task_id : string) (failure : TaskAttemptFailure)
    (retry_at : option Z) (max_attempts : Z) : sql unit :=
  d ← get_state;
  match find_task plan_id task_id d with
  | None => raise (TaskNotFoundError task_id)
  | Some row =>
      _ ← match find_attempt row d with
          | Some a => update_attempt_row (tt_id a) (fail_attempt now failure retry_at)
          | None => mret tt
          end;
      _ ← (if af_retryable failure && (tr_attempts row <? max_attempts)%Z
           then update_task_row (tr_id row) (fun t =>
                  row_set_next_retry_at retry_at (row_set_status WAITING_RETRY t))
           else update_task_row (tr_id row) (row_set_status FAILED));
      _refresh_status plan_id
  end.

Definition mark_failed_sql (plan_id : Z) (failure : odict json) : sql unit :=
  d ← get_state;
  match find_plan plan_id d with
  | None => raise (KeyError "plan_id")
  | Some _ => update_plan_row plan_id (fun p =>
      mkPlanRow (pr_id p) (pr_tenant_id p) (pr_chat_id p) (pr_root_run_id p) (pr_goal p) PlanFAILED
        (pr_revision p) (pr_answer_brief p) (Some failure))
  end.

(** ** Pausing and resuming *)

Definition cancel_attempt (now : Z) (a : AttemptRow) : AttemptRow :=
  mkAttemptRow (tt_id a) (tt_task_row_id a) (tt_attempt_number a) AttCANCELLED (tt_error a)
    (tt_started_at a) (Some now) (tt_next_retry_at a).

Definition pause_task_for_confirmation (now : Z) (plan_id : Z) (task_id : string) (confirmation : odict json)
  : sql unit :=
  d ← get_state;
  match find_task plan_id task_id d with
  | None => raise (TaskNotFoundError task_id)
  | Some task =>
      _ ← update_task_row (tr_id task) (fun t =>
            row_set_status WAITING_USER
              (row_set_checkpoint (od_set "confirmation" (JObj confirmation) (tr_checkpoint t)) t));
      _ ← match find_attempt task d with
          | Some a => update_attempt_row (tt_id a) (cancel_attempt now)
          | None => mret tt
          end;
      update_plan_row plan_id (plan_set_status PlanWAITING_INPUT)
  end.

Definition resume_planner_pause (plan_id : Z) : sql unit :=
  d ← get_state;
  match find_plan plan_id d with
  | None => raise (KeyError "plan_id")
  | Some plan =>
      if negb (bool_decide (pr_status plan = PlanWAITING_INPUT))
      then raise (PlanValidationError NotWaitingForPlanner)
      else update_plan_row plan_id (plan_set_status PlanACTIVE)
  end.

Definition WAITING_STATUSES : list TaskStatus := [WAITING_USER; WAITING_DEPENDENCY; WAITING_RETRY].

Definition resume_row (user_input : string) (t : TaskRow) : TaskRow :=
  row_set_status PENDING
    (if str_empty user_input then t
     else row_set_checkpoint (od_set "user_input" (JStr user_input) (tr_checkpoint t)) t).

Definition resume_waiting_tasks (plan_id : Z) (user_input : string) : sql unit :=
  d ← get_state;
  let rows := List.filter (fun t => bool_decide (tr_status t ∈ WAITING_STATUSES)) (plan_tasks plan_id d) in
  _ ← for_each (fun r => update_task_row (tr_id r) (resume_row user_input)) rows;
  if bool_decide (rows = []) then mret tt
  else update_plan_row plan_id (plan_set_status PlanACTIVE).

Definition wake_row (value : string) (t : TaskRow) : TaskRow :=
  let t' := row_set_checkpoint (od_set "user_input" (JStr value) (tr_checkpoint t)) t in
  if bool_decide (tr_status t ∈ [WAITING_DEPENDENCY; WAITING_USER]) then row_set_status PENDING t' else t'.

(** [... .order_by(RuntimeTaskNeed.id)] *)
Definition user_needs (plan_id : Z) (d : Db) : list NeedRow :=
  sort_by nr_id Z.le (List.filter (fun n => bool_decide (nr_status n = ReqWAITING_USER)) (plan_needs plan_id d)).

Definition update_need_row (id : Z) (f : NeedRow -> NeedRow) : sql unit :=
  modify (fun d => set_needs (map (fun n => if decide (nr_id n = id) then f n else n) (db_needs d)) d).

Definition resolve_waiting_need_sql (plan_id : Z) (user_input : string) : sql (option string) :=
  let value := strip user_input in
  if str_empty value then mret None else
  d ← get_state;
  match user_needs plan_id d with
  | [] => mret None
  | need :: _ =>
      _ ← update_need_row (nr_id need) (need_row_resolve (JStr value) "user");
      _ ← update_task_row (nr_task_row_id need) (wake_row value);
      _ ← update_plan_row plan_id (plan_set_status PlanACTIVE);
      mret (Some (nr_need_key need))
  end.
End Sql.
