(* ===== verification/PlanSqlProofs.v ===== *)
(** * The SQL plan store: proofs

    The methods of [PlanSql] make only the moves of [Scheduler], with running
    and completed tasks protected; what a snapshot shows; rows keep unique keys. *)
From S2P Require Import Prelude Contracts TaskGraph Scheduler PlanMemory PlanMemoryProofs PlanSql.

(** ** The scheduler's view of a plan *)

Definition row_abs (plan_id : Z) (d : Db) (r : TaskRow) : TaskStatus * list string :=
  (tr_status r, deps_of plan_id d (tr_task_id r)).

Definition sql_abs (plan_id : Z) (d : Db) : board :=
  list_to_map (map (fun r => (tr_task_id r, row_abs plan_id d r)) (plan_tasks plan_id d)).

Lemma find_map {A} (P : A -> bool) (g : A -> A) l :
  (forall a, P (g a) = P a) -> List.find P (map g l) = g <$> List.find P l.
Proof. intros H. induction l as [|a l IH]; simpl; [done|]. rewrite H. by destruct (P a). Qed.

Lemma find_app {A} (P : A -> bool) (l k : list A) :
  List.find P (l ++ k) = match List.find P l with Some a => Some a | None => List.find P k end.
Proof. induction l as [|a l IH]; simpl; [done|]. by destruct (P a). Qed.

Lemma find_Some_elem {A} (P : A -> bool) l a : List.find P l = Some a -> a ∈ l /\ P a = true.
Proof. intros H. apply find_some in H as [Hin HP]. split; [by apply list_elem_of_In|done]. Qed.

Lemma find_task_Some pid x d t :
  find_task pid x d = Some t -> t ∈ db_tasks d /\ tr_plan_id t = pid /\ tr_task_id t = x.
Proof.
  intros H. apply find_Some_elem in H as [Hin HP]. rewrite andb_true_iff, !bool_decide_eq_true in HP. tauto.
Qed.

Lemma sql_abs_lookup pid d x :
  sql_abs pid d !! x = (fun r => (tr_status r, deps_of pid d x)) <$> find_task pid x d.
Proof.
  unfold sql_abs, find_task, plan_tasks. induction (db_tasks d) as [|t l IH]; simpl; [done|].
  rewrite filter_cons. destruct (decide (tr_plan_id t = pid)) as [Hp|Hp]; simpl.
  - rewrite (bool_decide_eq_true_2 _ Hp). simpl. rewrite lookup_insert.
    case_decide as Hx; [by rewrite bool_decide_eq_true_2, <- Hx by done|].
    by rewrite bool_decide_eq_false_2.
  - by rewrite (bool_decide_eq_false_2 _ Hp).
Qed.

(** ** Well-formed rows *)

Section Sql.
Variable uuid4 : nat -> Z.
(** Identifiers are not drawn twice. *)
Hypothesis uuid4_unique : forall i j, uuid4 i = uuid4 j -> i = j.

Definition drawn (d : Db) (id : Z) : Prop := exists i, i < db_uuids d /\ id = uuid4 i.

Record rows_wf (d : Db) : Prop := {
  rw_ids : NoDup (map tr_id (db_tasks d));
  rw_keys : NoDup (map (fun t => (tr_plan_id t, tr_task_id t)) (db_tasks d));
  rw_drawn : forall t, t ∈ db_tasks d -> drawn d (tr_id t)
}.

Lemma same_row d t u : rows_wf d -> t ∈ db_tasks d -> u ∈ db_tasks d -> tr_id t = tr_id u -> t = u.
Proof. clear uuid4_unique.
  intros [Hn _ _]. revert Hn. induction (db_tasks d) as [|a l IH]; simpl; [set_solver|].
  rewrite NoDup_cons. intros [Ha Hn] Ht Hu Heq.
  assert (Hno : forall v, v ∈ l -> tr_id v ≠ tr_id a).
  { intros v Hv He. apply Ha. rewrite <- He. apply list_elem_of_fmap. by exists v. }
  apply elem_of_cons in Ht as [->|Ht], Hu as [->|Hu]; auto; exfalso; naive_solver.
Qed.

Lemma find_task_elem d t :
  rows_wf d -> t ∈ db_tasks d -> find_task (tr_plan_id t) (tr_task_id t) d = Some t.
Proof. clear uuid4_unique.
  intros [_ Hk _]. revert Hk. unfold find_task. induction (db_tasks d) as [|a l IH]; simpl; [set_solver|].
  rewrite NoDup_cons. intros [Ha Hn] [->|Ht]%elem_of_cons; [by rewrite !bool_decide_eq_true_2|].
  case_bool_decide as Hp; [|auto]. case_bool_decide as Hi; [|auto]. exfalso. apply Ha.
  rewrite Hp, Hi. apply list_elem_of_fmap. by exists t.
Qed.

(** From [d] to [d'] the plan [plan_id] made only scheduler moves, and the
    other plans none. *)
Definition sql_moves (plan_id : Z) (d d' : Db) : Prop :=
  rows_wf d ->
  rows_wf d' /\ (forall q, q ≠ plan_id -> sql_abs q d' = sql_abs q d) /\
  (sound (sql_abs plan_id d) -> rtc (astep true) (sql_abs plan_id d) (sql_abs plan_id d')).

Lemma sql_moves_refl pid d : sql_moves pid d d.
Proof. intros Hw. split_and!; [done|done|intros; apply rtc_refl]. Qed.

Lemma sql_moves_trans pid d1 d2 d3 : sql_moves pid d1 d2 -> sql_moves pid d2 d3 -> sql_moves pid d1 d3.
Proof.
  intros H1 H2 Hw. destruct (H1 Hw) as (Hw2 & Ho2 & Hr2). destruct (H2 Hw2) as (Hw3 & Ho3 & Hr3).
  split_and!; [done|intros q Hq; by rewrite Ho3, Ho2|]. intros Hs. etrans; [by apply Hr2|].
  apply Hr3. eapply asteps_sound; eauto.
Qed.

(** Changes outside the task and dependency tables. *)
Definition quiet (d d' : Db) : Prop :=
  db_tasks d' = db_tasks d /\ db_dependencies d' = db_dependencies d /\ db_uuids d <= db_uuids d'.

#[export] Instance quiet_preorder : PreOrder quiet.
Proof.
  split; [done|]. intros d1 d2 d3 (H1 & H2 & H3) (H4 & H5 & H6). split_and!; [congruence|congruence|lia].
Qed.

Lemma quiet_reads d d' pid x :
  quiet d d' -> find_task pid x d' = find_task pid x d /\ deps_of pid d' x = deps_of pid d x.
Proof. intros (H1 & H2 & _). unfold find_task, deps_of, plan_dependencies. by rewrite H1, H2. Qed.

Lemma quiet_abs d d' pid : quiet d d' -> sql_abs pid d' = sql_abs pid d.
Proof.
  intros H. apply map_eq. intros x. rewrite !sql_abs_lookup.
  by destruct (quiet_reads _ _ pid x H) as [-> ->].
Qed.

Lemma quiet_wf d d' : quiet d d' -> rows_wf d -> rows_wf d'.
Proof.
  intros (H1 & _ & H3) [Ha Hb Hc]. split; rewrite ?H1; [done|done|].
  intros t Ht. destruct (Hc t Ht) as (i & Hi & ->). exists i. split; [lia|done].
Qed.

Lemma quiet_moves pid d d' : quiet d d' -> sql_moves pid d d'.
Proof.
  intros H Hw. split_and!; [by eapply quiet_wf|intros q _; by apply quiet_abs|].
  intros _. rewrite (quiet_abs _ _ _ H). apply rtc_refl.
Qed.

(** A change of one row that keeps its keys. *)
Definition keeps_keys (f : TaskRow -> TaskRow) : Prop :=
  forall t, tr_id (f t) = tr_id t /\ tr_plan_id (f t) = tr_plan_id t /\ tr_task_id (f t) = tr_task_id t.

Lemma update_row_find id f d q x :
  keeps_keys f ->
  find_task q x (update_task_row id f d).2
  = (fun t => if decide (tr_id t = id) then f t else t) <$> find_task q x d.
Proof.
  intros Hf. unfold find_task, update_task_row, modify. simpl. apply find_map.
  intros t. case_decide; [|done]. by destruct (Hf t) as (_ & -> & ->).
Qed.

Lemma update_row_wf id f d : keeps_keys f -> rows_wf d -> rows_wf (update_task_row id f d).2.
Proof.
  intros Hf [Ha Hb Hc]. split; simpl.
  - rewrite map_map. erewrite map_ext; [exact Ha|]. intros t. simpl. case_decide; [apply Hf|done].
  - rewrite map_map. erewrite map_ext; [exact Hb|]. intros t. simpl. case_decide; [|done].
    by destruct (Hf t) as (_ & -> & ->).
  - intros t Ht. apply list_elem_of_fmap in Ht as (u & -> & Hu).
    assert (Hid : tr_id (if decide (tr_id u = id) then f u else u) = tr_id u) by (case_decide; [apply Hf|done]).
    rewrite Hid. by apply Hc.
Qed.

Lemma update_row_abs d f t q :
  rows_wf d -> keeps_keys f -> t ∈ db_tasks d ->
  sql_abs q (update_task_row (tr_id t) f d).2
  = if decide (q = tr_plan_id t)
    then <[tr_task_id t := (tr_status (f t), deps_of q d (tr_task_id t))]> (sql_abs q d) else sql_abs q d.
Proof. clear uuid4_unique.
  intros Hw Hf Ht. pose proof (find_task_elem _ _ Hw Ht) as Hft. apply map_eq. intros x.
  assert (Hd : forall y, deps_of q (update_task_row (tr_id t) f d).2 y = deps_of q d y) by done.
  rewrite sql_abs_lookup, update_row_find, Hd by done.
  assert (Hne : forall u, find_task q x d = Some u -> tr_id u = tr_id t -> u = t /\ q = tr_plan_id t /\ x = tr_task_id t).
  { intros u Hu Heq. apply find_task_Some in Hu as (Hu & <- & <-).
    by rewrite (same_row d u t Hw Hu Ht Heq). }
  destruct (decide (q = tr_plan_id t)) as [->|Hq].
  - rewrite lookup_insert. case_decide as Hx.
    + subst x. rewrite Hft. simpl. by rewrite decide_True.
    + rewrite sql_abs_lookup. destruct (find_task _ x d) as [u|] eqn:Eu; [|done]. simpl.
      rewrite decide_False; [done|]. intros Heq. by destruct (Hne u eq_refl Heq) as (_ & _ & ->).
  - rewrite sql_abs_lookup. destruct (find_task q x d) as [u|] eqn:Eu; [|done]. simpl.
    rewrite decide_False; [done|]. intros Heq. by destruct (Hne u eq_refl Heq) as (_ & -> & _).
Qed.

(** A scheduler move of one row, or a change that keeps its status. *)
Lemma update_row_moves d f t :
  keeps_keys f -> t ∈ db_tasks d ->
  (rows_wf d -> sound (sql_abs (tr_plan_id t) d) -> tr_status (f t) = tr_status t \/
     astep true (sql_abs (tr_plan_id t) d)
       (<[tr_task_id t := (tr_status (f t), deps_of (tr_plan_id t) d (tr_task_id t))]> (sql_abs (tr_plan_id t) d))) ->
  sql_moves (tr_plan_id t) d (update_task_row (tr_id t) f d).2.
Proof. clear uuid4_unique.
  intros Hf Ht Hst Hw. split; [by apply update_row_wf|]. split.
  - intros q Hq. rewrite update_row_abs by done. by rewrite decide_False.
  - intros Hs. rewrite update_row_abs, decide_True by done. destruct (Hst Hw Hs) as [Heq|Ha]; [|by apply rtc_once].
    rewrite Heq, insert_id; [apply rtc_refl|]. by rewrite sql_abs_lookup, (find_task_elem _ _ Hw Ht).
Qed.

Lemma row_lookup pid d t st :
  rows_wf d -> t ∈ db_tasks d -> tr_plan_id t = pid -> tr_status t = st ->
  sql_abs pid d !! tr_task_id t = Some (st, deps_of pid d (tr_task_id t)).
Proof. intros Hw Ht <- <-. by rewrite sql_abs_lookup, (find_task_elem _ _ Hw Ht). Qed.

(** ** Quiet statements *)

Abbreviation quietly m := (preserves quiet m).

Lemma quietly_new_uuid : quietly (new_uuid uuid4).
Proof. intros d r d' H. unfold new_uuid in H. simplify_eq. split_and!; simpl; auto with lia. Qed.

Lemma quietly_insert_need n : quietly (insert_need n).
Proof.
  intros d r d' H. unfold insert_need, mbind, py_bind, get_state in H. simpl in H.
  case_match; unfold raise, put_state in H; by simplify_eq.
Qed.

Lemma quietly_insert_attempt n : quietly (insert_attempt n).
Proof.
  intros d r d' H. unfold insert_attempt, mbind, py_bind, get_state in H. simpl in H.
  case_match; unfold raise, put_state in H; by simplify_eq.
Qed.

Ltac quieting :=
  repeat first
    [ apply quietly_new_uuid | apply quietly_insert_need | apply quietly_insert_attempt
    | apply (preserves_modify quiet); done
    | apply (preserves_keep quiet); done
    | apply (preserves_bind quiet); [|intros ?] | apply (preserves_for_each quiet); intros ?
    | progress (unfold insert_new_need, delete_needs, update_plan_row, route_needs_to_user,
                  insert_revision, update_need_row, update_attempt_row, _refresh_status)
    | case_match ].

Lemma quietly_moves {A} pid (m : sql A) d r d' : quietly m -> m d = (r, d') -> sql_moves pid d d'.
Proof. intros Hm H. apply quiet_moves. by eapply Hm. Qed.

Lemma update_row_inv id f d u d' :
  update_task_row id f d = (Ok u, d') -> d' = (update_task_row id f d).2.
Proof. by intros ->. Qed.

(** Takes the last, quiet, statements off a run. *)
Lemma sql_moves_quiet_r {A} pid (m : sql A) d0 d r d' :
  m d = (r, d') -> quietly m -> sql_moves pid d0 d -> sql_moves pid d0 d'.
Proof. intros H Hm Hd. eapply sql_moves_trans; [exact Hd|by eapply quietly_moves]. Qed.

Ltac read_state H := apply bind_Ok in H; destruct H as (? & ? & Hs & H); unfold get_state in Hs;
  injection Hs as <- <-; cbv beta in H.
Ltac stmt H H1 := apply bind_Ok in H; destruct H as (? & ? & H1 & H); cbv beta in H.

(** ** Methods that change one row *)

Lemma apply_result_sql_moves pid tid r d u d' :
  apply_result_sql uuid4 pid tid r d = (Ok u, d') -> sql_moves pid d d'.
Proof.
  unfold apply_result_sql. intros H. read_state H.
  destruct (find_task pid tid d) as [row|] eqn:Hrow; [|done].
  apply find_task_Some in Hrow as (Hin & Hpid & Htid).
  case_bool_decide as Hrun; [|done]. simpl in H. stmt H H1.
  assert (x0 = d) as ->.
  { unfold snapshot, mbind, py_bind, get_state in H1. simpl in H1.
    destruct (find_plan pid d); unfold mret, py_ret, raise in H1; by simplify_eq. }
  destruct (_ && _); [done|]. destruct (_ && _); [done|]. stmt H H2. stmt H H3.
  eapply sql_moves_quiet_r; [exact H|quieting|].
  eapply sql_moves_quiet_r; [exact H3|quieting|].
  apply update_row_inv in H2 as ->. rewrite <- Hpid. apply update_row_moves; [done|done|].
  intros Hw _. right. simpl. apply as_finish; [by apply row_lookup|].
  destruct (ar_outcome r); set_solver.
Qed.

Lemma record_failure_sql_moves now pid tid f retry mx d u d' t :
  record_failure_sql now pid tid f retry mx d = (Ok u, d') ->
  find_task pid tid d = Some t -> tr_status t = RUNNING -> sql_moves pid d d'.
Proof.
  unfold record_failure_sql. intros H Ht Hrun. read_state H. rewrite Ht in H.
  stmt H H1. stmt H H2. eapply sql_moves_quiet_r; [exact H|quieting|].
  assert (Hq : quiet d x0).
  { assert (Hm : quietly (match find_attempt t d with
      | Some a => update_attempt_row (tt_id a) (fail_attempt now f retry) | None => mret tt end)) by quieting.
    by eapply Hm. }
  eapply sql_moves_trans; [by apply quiet_moves|].
  assert (Hrow : find_task pid tid x0 = Some t) by (by rewrite (proj1 (quiet_reads _ _ pid tid Hq))).
  apply find_task_Some in Hrow as (Hin & <- & <-).
  destruct (_ && _); apply update_row_inv in H2 as ->; apply update_row_moves; try done;
    intros Hw _; right; simpl; (apply as_finish; [by apply row_lookup|set_solver]).
Qed.

Lemma pause_moves now pid tid c d u d' t :
  pause_task_for_confirmation now pid tid c d = (Ok u, d') ->
  find_task pid tid d = Some t -> tr_status t = RUNNING -> sql_moves pid d d'.
Proof.
  unfold pause_task_for_confirmation. intros H Ht Hrun. read_state H. rewrite Ht in H.
  stmt H H1. stmt H H2. eapply sql_moves_quiet_r; [exact H|quieting|].
  eapply sql_moves_quiet_r; [exact H2|quieting|]. apply update_row_inv in H1 as ->.
  apply find_task_Some in Ht as (Hin & <- & <-). apply update_row_moves; [done|done|].
  intros Hw _. right. simpl. apply as_finish; [by apply row_lookup|set_solver].
Qed.

Lemma mark_failed_sql_moves pid f d u d' : mark_failed_sql pid f d = (Ok u, d') -> sql_moves pid d d'.
Proof. intros H. eapply quietly_moves; [|exact H]. unfold mark_failed_sql. quieting. Qed.

Lemma resume_planner_pause_moves pid d u d' : resume_planner_pause pid d = (Ok u, d') -> sql_moves pid d d'.
Proof. intros H. eapply quietly_moves; [|exact H]. unfold resume_planner_pause. quieting. Qed.

(** ** Waking waiting tasks *)

Lemma resume_row_keeps v : keeps_keys (resume_row v).
Proof. intros t. unfold resume_row. by destruct (str_empty v). Qed.

Lemma wake_row_keeps v : keeps_keys (wake_row v).
Proof. intros t. unfold wake_row. by case_bool_decide. Qed.

Lemma resume_loop_moves pid v rows d r d' :
  (forall row, row ∈ rows -> exists t, t ∈ db_tasks d /\ tr_id t = tr_id row /\ tr_plan_id t = pid /\
     (tr_status t ∈ WAITING_STATUSES \/ tr_status t = PENDING)) ->
  for_each (fun row => update_task_row (tr_id row) (resume_row v)) rows d = (r, d') -> sql_moves pid d d'.
Proof. clear uuid4_unique.
  revert d. induction rows as [|row rows IH]; intros d Hrows H; simpl in H.
  { unfold mret, py_ret in H. simplify_eq. apply sql_moves_refl. }
  unfold mbind, py_bind in H. destruct (Hrows row ltac:(left)) as (t & Ht & Hid & Hpid & Hst).
  eapply (sql_moves_trans _ _ (update_task_row (tr_id row) (resume_row v) d).2).
  - rewrite <- Hid, <- Hpid. apply update_row_moves; [apply resume_row_keeps|done|]. intros Hw _.
    assert (Hnew : tr_status (resume_row v t) = PENDING) by done. rewrite Hnew.
    destruct Hst as [Hst|Hst]; [right|by left].
    eapply as_wake; [by apply row_lookup|]. unfold WAITING_STATUSES in Hst. set_solver.
  - eapply IH; [|exact H]. intros row' Hrow'. destruct (Hrows row' ltac:(by right)) as (u & Hu & Hidu & Hpu & Hstu).
    exists (if decide (tr_id u = tr_id row) then resume_row v u else u). split.
    { apply list_elem_of_fmap. by exists u. }
    destruct (resume_row_keeps v u) as (K1 & K2 & _).
    case_decide; [|done]. rewrite K1, K2. split_and!; [done|done|by right].
Qed.

Lemma resume_waiting_tasks_moves pid v d u d' :
  resume_waiting_tasks pid v d = (Ok u, d') -> sql_moves pid d d'.
Proof.
  unfold resume_waiting_tasks. intros H. read_state H. stmt H H1.
  eapply sql_moves_quiet_r; [exact H|quieting|]. eapply resume_loop_moves; [|exact H1].
  intros row (Hin & Hst)%elem_of_List_filter. apply bool_decide_eq_true in Hst.
  apply list_elem_of_filter in Hin as [Hpid Hin]. exists row. split_and!; auto.
Qed.

Lemma user_needs_task pid d need rest :
  user_needs pid d = need :: rest ->
  exists t, t ∈ db_tasks d /\ tr_id t = nr_task_row_id need /\ tr_plan_id t = pid.
Proof.
  intros H. assert (Hin : need ∈ user_needs pid d) by (rewrite H; left).
  unfold user_needs in Hin. rewrite (sort_by_elem _ _), elem_of_List_filter in Hin.
  destruct Hin as [Hin _]. apply list_elem_of_filter in Hin as [Hin _].
  apply list_elem_of_fmap in Hin as (t & Hid & Ht). apply list_elem_of_filter in Ht as [Hp Ht]. eauto.
Qed.

Lemma resolve_waiting_need_sql_moves pid v d u d' :
  resolve_waiting_need_sql pid v d = (Ok u, d') -> sql_moves pid d d'.
Proof.
  unfold resolve_waiting_need_sql. destruct (str_empty _).
  { intros H. unfold mret, py_ret in H. simplify_eq. apply sql_moves_refl. }
  intros H. read_state H. destruct (user_needs pid d) as [|need rest] eqn:Hn.
  { unfold mret, py_ret in H. simplify_eq. apply sql_moves_refl. }
  destruct (user_needs_task _ _ _ _ Hn) as (t & Ht & Hid & Hpid).
  stmt H H1. stmt H H2. eapply sql_moves_quiet_r; [exact H|quieting|]. apply update_row_inv in H2 as ->.
  unfold update_need_row, modify in H1. injection H1 as <- <-.
  match goal with |- sql_moves _ _ (update_task_row _ _ ?d1).2 =>
    apply (sql_moves_trans _ _ d1); [by apply quiet_moves|] end. rewrite <- Hid, <- Hpid.
  apply update_row_moves; [apply wake_row_keeps|done|]. intros Hw _. unfold wake_row.
  case_bool_decide as Hst; [right|by left]. simpl. eapply as_wake; [by apply row_lookup|]. set_solver.
Qed.

(** ** Snapshots *)

Lemma snap_rows_get d pid x :
  rows_wf d -> od_get x (snap_rows (plan_tasks pid d)) = (fun r => mkSnapTask (Some r) [] []) <$> find_task pid x d.
Proof. clear uuid4_unique.
  intros Hw. unfold snap_rows. set (l := map _ _).
  assert (Hfst : map fst l = map tr_task_id (plan_tasks pid d)) by (unfold l; by rewrite map_map).
  assert (Hn : NoDup (map tr_task_id (plan_tasks pid d))).
  { pose proof (rw_keys _ Hw) as Hk. unfold plan_tasks. revert Hk.
    induction (db_tasks d) as [|t ts IH]; simpl; [by constructor|]. rewrite NoDup_cons. intros [Ht Hk].
    rewrite filter_cons. case_decide as Hp; simpl; [|auto]. apply NoDup_cons. split; [|auto].
    intros (u & Heq & Hu)%list_elem_of_fmap. apply list_elem_of_filter in Hu as [Hpu Hu].
    apply Ht. rewrite Hp, Heq, <- Hpu. apply list_elem_of_fmap. by exists u. }
  destruct (find_task pid x d) as [r|] eqn:Er; simpl.
  - apply find_task_Some in Er as (Hin & Hp & <-). apply od_get_update_elem; [by rewrite Hfst|].
    apply list_elem_of_fmap. exists r. split; [done|]. by apply list_elem_of_filter.
  - rewrite od_get_update_ne; [done|]. rewrite Hfst. intros (r & -> & Hr)%list_elem_of_fmap.
    apply list_elem_of_filter in Hr as [Hp Hr]. rewrite <- Hp in Er.
    by rewrite (find_task_elem _ _ Hw Hr) in Er.
Qed.

Lemma snap_dependencies_get x tasks rs t :
  od_get x tasks = Some t ->
  od_get x (foldl snap_dependency tasks rs)
  = Some (mkSnapTask (sn_row t)
      (sn_depends_on t ++ map dr_depends_on_task_id (filter (fun r => dr_task_id r = x) rs)) (sn_needs t)).
Proof.
  revert tasks t. induction rs as [|r rs IH]; intros tasks t Ht; simpl.
  { rewrite app_nil_r. by destruct t. }
  rewrite filter_cons. destruct (decide (dr_task_id r = x)) as [Hx|Hx].
  - subst x. rewrite (IH _ (mkSnapTask (sn_row t) (sn_depends_on t ++ [dr_depends_on_task_id r]) (sn_needs t))).
    + simpl. by rewrite <- app_assoc.
    + unfold snap_dependency. rewrite Ht. simpl. apply od_get_set_eq.
  - apply IH. unfold snap_dependency. by rewrite od_get_set_ne.
Qed.

(** The entry of a dependency row without a task has no columns. *)
Lemma snap_dependencies_phantom x tasks rs t :
  od_get x tasks = None -> od_get x (foldl snap_dependency tasks rs) = Some t -> sn_row t = None.
Proof.
  revert tasks. induction rs as [|r rs IH]; intros tasks Hn H; simpl in H; [congruence|].
  destruct (decide (x = dr_task_id r)) as [Heq|Hne].
  - erewrite snap_dependencies_get in H.
    2: { rewrite Heq. unfold snap_dependency. rewrite <- Heq, Hn. apply od_get_set_eq. }
    injection H as <-. done.
  - eapply IH; [|exact H]. unfold snap_dependency. by rewrite od_get_set_ne.
Qed.

(** The need rows a snapshot lists under a task. *)
Definition owns (rows : list TaskRow) (x : string) (n : NeedRow) : bool :=
  match List.find (fun r => bool_decide (tr_id r = nr_task_row_id n)) rows with
  | Some r => negb (str_empty (tr_task_id r)) && bool_decide (tr_task_id r = x)
  | None => false
  end.

Lemma snap_needs_get rows x tasks ns :
  od_get x (foldl (snap_need rows) tasks ns)
  = (fun t => mkSnapTask (sn_row t) (sn_depends_on t)
                (sn_needs t ++ map need_dict (List.filter (owns rows x) ns))) <$> od_get x tasks.
Proof.
  revert tasks. induction ns as [|n ns IH]; intros tasks; simpl.
  { destruct (od_get x tasks) as [[]|]; simpl; [by rewrite app_nil_r|done]. }
  rewrite IH. unfold snap_need, owns at 2. destruct (List.find _ rows) as [r|]; [|done].
  destruct (str_empty (tr_task_id r)); simpl; [done|]. rewrite od_get_alter.
  destruct (decide (x = tr_task_id r)) as [->|Hne].
  - rewrite bool_decide_eq_true_2 by done. destruct (od_get _ tasks); simpl; [|done].
    by rewrite <- app_assoc.
  - by rewrite bool_decide_eq_false_2.
Qed.

Lemma snapshot_get pid d x t :
  rows_wf d -> find_task pid x d = Some t ->
  od_get x (snapshot_tasks pid d)
  = Some (mkSnapTask (Some t) (deps_of pid d x)
            (map need_dict (List.filter (owns (plan_tasks pid d) x) (plan_needs pid d)))).
Proof.
  intros Hw Ht. unfold snapshot_tasks. rewrite snap_needs_get.
  erewrite snap_dependencies_get by (rewrite snap_rows_get, Ht by done; done). done.
Qed.

(** A snapshot entry with columns is the row of its key. *)
Lemma snapshot_row pid d x s r :
  rows_wf d -> od_get x (snapshot_tasks pid d) = Some s -> sn_row s = Some r -> find_task pid x d = Some r.
Proof.
  intros Hw Hs Hr. destruct (find_task pid x d) as [t|] eqn:Et.
  - rewrite (snapshot_get _ _ _ _ Hw Et) in Hs. injection Hs as <-. exact Hr.
  - exfalso. unfold snapshot_tasks in Hs. rewrite snap_needs_get in Hs.
    destruct (od_get x (foldl snap_dependency _ _)) as [t|] eqn:Ed; simplify_eq/=.
    apply snap_dependencies_phantom in Ed; [congruence|]. by rewrite snap_rows_get, Et.
Qed.

Lemma snapshot_keys pid d : NoDup (od_keys (snapshot_tasks pid d)).
Proof.
  unfold snapshot_tasks.
  assert (H1 : forall ts rs, NoDup (od_keys ts) -> NoDup (od_keys (foldl snap_dependency ts rs))).
  { intros ts rs. revert ts. induction rs as [|r rs IH]; intros ts Hn; simpl; [done|].
    apply IH. unfold snap_dependency. by apply od_set_NoDup. }
  assert (H2 : forall rows ns ts, NoDup (od_keys ts) -> NoDup (od_keys (foldl (snap_need rows) ts ns))).
  { intros rows ns. induction ns as [|n ns IH]; intros ts Hn; simpl; [done|].
    apply IH. unfold snap_need. repeat case_match; by rewrite ?od_keys_alter. }
  apply H2, H1, od_update_NoDup. constructor.
Qed.

(** ** Claiming *)

(** The required needs of a task, read from the tables. *)
Definition needs_resolved (pid : Z) (d : Db) (x : string) : Prop :=
  forall n, n ∈ plan_needs pid d -> owns (plan_tasks pid d) x n = true -> nr_required n = true ->
    nr_status n = ReqRESOLVED.

Definition claimable (pid : Z) (d : Db) (t : TaskRow) : Prop :=
  (tr_status t = PENDING \/ tr_status t = READY) /\
  (forall y, y ∈ deps_of pid d (tr_task_id t) -> is_completed (sql_abs pid d) y) /\
  needs_resolved pid d (tr_task_id t).

Lemma snap_completed pid d y :
  rows_wf d ->
  (exists s, od_get y (snapshot_tasks pid d) = Some s /\ td_status s = Some COMPLETED) <->
  is_completed (sql_abs pid d) y.
Proof. clear uuid4_unique.
  intros Hw. unfold is_completed. setoid_rewrite sql_abs_lookup. split.
  - intros (s & Hs & Hst). simpl in Hst. destruct (sn_row s) as [r|] eqn:Er; simplify_eq/=.
    rewrite (snapshot_row _ _ _ _ _ Hw Hs Er). simpl. rewrite Hst. eauto.
  - intros (ds & Hy). destruct (find_task pid y d) as [r|] eqn:Er; simplify_eq/=.
    eexists. split; [by eapply snapshot_get|]. simpl. congruence.
Qed.

Lemma snapshot_ready pid d t :
  rows_wf d -> find_task pid (tr_task_id t) d = Some t ->
  (exists s, od_get (tr_task_id t) (snapshot_tasks pid d) = Some s /\
             task_is_ready s (snapshot_tasks pid d) = true) <-> claimable pid d t.
Proof. clear uuid4_unique.
  intros Hw Ht. rewrite (snapshot_get _ _ _ _ Hw Ht). unfold claimable, needs_resolved. split.
  - intros (s & [= <-] & Hr). apply task_is_ready_spec in Hr as (Hst & Hdep & Hneed). simpl in *.
    split_and!; [destruct Hst as [Hst|Hst]; injection Hst; auto|intros y Hy; apply snap_completed; auto|].
    intros n Hn Ho Hreq. assert (Hd : need_dict n ∈ map need_dict
      (List.filter (owns (plan_tasks pid d) (tr_task_id t)) (plan_needs pid d))).
    { apply list_elem_of_fmap. exists n. split; [done|]. by apply elem_of_List_filter. }
    specialize (Hneed _ Hd Hreq). simpl in Hneed. congruence.
  - intros (Hst & Hdep & Hneed). eexists. split; [done|]. apply task_is_ready_spec. simpl.
    split_and!; [destruct Hst as [-> | ->]; [by left|by right]|intros y Hy; apply snap_completed; auto|].
    intros nd (n & -> & Hn)%list_elem_of_fmap Hreq. apply elem_of_List_filter in Hn as [Hn Ho].
    simpl. f_equal. by apply Hneed.
Qed.

Lemma candidates_elem pid d o x :
  rows_wf d ->
  (o, x) ∈ candidates (snapshot_tasks pid d) <->
  exists t, find_task pid x d = Some t /\ tr_planned_order t = o /\ claimable pid d t.
Proof. clear uuid4_unique.
  intros Hw. unfold candidates. rewrite list_elem_of_omap. split.
  - intros ([k s] & Hin & Hm). apply (od_elem_get _ _ _ (snapshot_keys pid d)) in Hin. simpl in Hm.
    destruct (sn_row s) as [r|] eqn:Er; [|done]. destruct (task_is_ready s _) eqn:Hr; simplify_eq/=.
    pose proof (snapshot_row _ _ _ _ _ Hw Hin Er) as Ht.
    apply find_task_Some in Ht as Ht'. destruct Ht' as (_ & _ & <-).
    exists r. split_and!; [done|done|]. apply (snapshot_ready pid d r Hw Ht). eauto.
  - intros (t & Ht & <- & Hc). apply find_task_Some in Ht as Ht'. destruct Ht' as (_ & _ & <-).
    apply (snapshot_ready pid d t Hw Ht) in Hc as (s & Hs & Hr).
    exists (tr_task_id t, s). split; [by apply od_get_elem|]. simpl.
    assert (Er : sn_row s = Some t) by (rewrite (snapshot_get _ _ _ _ Hw Ht) in Hs; by injection Hs as <-).
    by rewrite Er, Hr.
Qed.

Lemma claim_row_keeps : keeps_keys claim_row.
Proof. done. Qed.

(** One claim: nothing, or the row made running with one attempt more. *)
Lemma claim_candidate_cases now pid x d o d' :
  claim_candidate uuid4 now pid x d = (Ok o, d') ->
  (o = None /\ d' = d) \/
  exists t, find_task pid x d = Some t /\ tr_status t ≠ RUNNING /\ o = Some (claim_row t) /\
    quiet (update_task_row (tr_id t) claim_row d).2 d'.
Proof.
  unfold claim_candidate. intros H. read_state H. destruct (find_task pid x d) as [t|] eqn:Ht.
  2: { unfold mret, py_ret in H. simplify_eq. by left. }
  case_bool_decide as Hrun; [unfold mret, py_ret in H; simplify_eq; by left|].
  stmt H H1. apply update_row_inv in H1 as ->. stmt H H2. stmt H H3.
  unfold mret, py_ret in H. simplify_eq. right. exists t. split_and!; try done.
  etransitivity; [by eapply quietly_new_uuid|]. by eapply quietly_insert_attempt.
Qed.

(** A chosen task is still claimable, or was claimed before. *)
Definition pending_claim (pid : Z) (d : Db) (x : string) : Prop :=
  exists st, sql_abs pid d !! x = Some (st, deps_of pid d x) /\
    (st = RUNNING \/ (st = PENDING \/ st = READY) /\ forall y, y ∈ deps_of pid d x -> is_completed (sql_abs pid d) y).

Lemma claim_candidate_moves now pid x d o d' :
  rows_wf d -> pending_claim pid d x -> claim_candidate uuid4 now pid x d = (Ok o, d') ->
  sql_moves pid d d' /\ (forall y, pending_claim pid d y -> pending_claim pid d' y).
Proof. clear uuid4_unique.
  intros Hw (st & Hx & Hst) H.
  destruct (claim_candidate_cases _ _ _ _ _ _ H) as [[_ ->]|(t & Ht & Hnr & _ & Hq)];
    [split; [apply sql_moves_refl|done]|].
  apply find_task_Some in Ht as Ht'. destruct Ht' as (Hin & Hpid & Htid). subst pid x.
  rewrite sql_abs_lookup, Ht in Hx. simpl in Hx. simplify_eq. destruct Hst as [?|[Hst Hdep]]; [done|].
  split.
  - eapply sql_moves_trans; [|by apply quiet_moves]. apply update_row_moves; [done|done|]. intros _ _. right.
    simpl. eapply as_claim; [by rewrite sql_abs_lookup, Ht|done|done].
  - intros y (sy & Hy & Hsy). unfold pending_claim. rewrite (quiet_abs _ _ _ Hq).
    assert (Hds : deps_of (tr_plan_id t) d' y = deps_of (tr_plan_id t) d y)
      by (by destruct (quiet_reads _ _ (tr_plan_id t) y Hq) as [_ ->]).
    rewrite Hds, update_row_abs, decide_True by done. simpl.
    rewrite lookup_insert. case_decide as Heq.
    + subst y. exists RUNNING. split; [done|by left].
    + exists sy. split; [done|]. destruct Hsy as [->|[Hsy Hdy]]; [by left|right]. split; [done|].
      intros z Hz. eapply is_completed_insert; [by rewrite sql_abs_lookup, Ht| |by apply Hdy].
      left. by destruct Hst as [-> | ->].
Qed.

Lemma claim_all_moves now pid chosen d l d' :
  rows_wf d -> (forall c, c ∈ chosen -> pending_claim pid d c.2) ->
  claim_all uuid4 now pid chosen d = (Ok l, d') -> sql_moves pid d d'.
Proof. clear uuid4_unique.
  revert d l. induction chosen as [|[o x] chosen IH]; intros d l Hw Hc H; simpl in H.
  { unfold mret, py_ret in H. simplify_eq. apply sql_moves_refl. }
  stmt H H1. stmt H H2. unfold mret, py_ret in H. simplify_eq.
  destruct (claim_candidate_moves _ _ _ _ _ _ Hw (Hc (o, x) ltac:(left)) H1) as [Hm Hp].
  eapply sql_moves_trans; [exact Hm|]. eapply IH; [by apply Hm| |exact H2].
  intros c Hin. apply Hp, Hc. by right.
Qed.

Lemma snapshot_inv pid d s d' :
  snapshot pid d = (Ok s, d') ->
  d' = d /\ exists p, find_plan pid d = Some p /\ s = mkSnapshot p (snapshot_tasks pid d).
Proof.
  unfold snapshot, mbind, py_bind, get_state. simpl.
  destruct (find_plan pid d) as [p|]; unfold mret, py_ret, raise; intros; simplify_eq; eauto.
Qed.

Definition chosen_for (pid limit : Z) (d : Db) : list (Z * string) :=
  take (batch_size limit) (sort_by id claim_le (candidates (snapshot_tasks pid d))).

Lemma chosen_pending pid limit d c :
  rows_wf d -> c ∈ chosen_for pid limit d -> pending_claim pid d c.2.
Proof.
  intros Hw (i & Hi & _)%elem_of_take. apply list_elem_of_lookup_2 in Hi.
  rewrite (sort_by_elem _ _) in Hi. destruct c as [o x].
  apply candidates_elem in Hi as (t & Ht & _ & Hst & Hdep & _); [|done].
  apply find_task_Some in Ht as Ht'. destruct Ht' as (_ & _ & <-).
  exists (tr_status t). rewrite sql_abs_lookup. simpl. rewrite Ht. split; [done|]. by right.
Qed.

Lemma claim_ready_batch_sql_moves now pid limit d l d' :
  claim_ready_batch_sql uuid4 now pid limit d = (Ok l, d') -> sql_moves pid d d'.
Proof.
  unfold claim_ready_batch_sql. intros H. stmt H H1. apply snapshot_inv in H1 as (-> & p & _ & ->).
  intros Hw. eapply claim_all_moves; [done| |exact H|done]. intros c. by apply chosen_pending.
Qed.

(** ** Applying a patch *)

(** Nothing but the task [x] of the plan changed. *)
Definition only_task (pid : Z) (x : string) (d d' : Db) : Prop :=
  forall q y, (q, y) ≠ (pid, x) ->
    find_task q y d' = find_task q y d /\ deps_of q d' y = deps_of q d y.

Lemma only_task_trans pid x d1 d2 d3 :
  only_task pid x d1 d2 -> only_task pid x d2 d3 -> only_task pid x d1 d3.
Proof.
  intros H1 H2 q y Hne. destruct (H1 q y Hne) as [E1 E2], (H2 q y Hne) as [E3 E4].
  split; congruence.
Qed.

Lemma quiet_only pid x d d' : quiet d d' -> only_task pid x d d'.
Proof. intros H q y _. by apply quiet_reads. Qed.

Lemma find_task_append q y d t :
  find_task q y (set_tasks (db_tasks d ++ [t]) d)
  = match find_task q y d with
    | Some u => Some u
    | None => if bool_decide (tr_plan_id t = q) && bool_decide (tr_task_id t = y) then Some t else None
    end.
Proof. unfold find_task. simpl. by rewrite find_app. Qed.

Lemma upsert_new pid i item d id d' :
  find_task pid (pt_task_id item) d = None -> rows_wf d ->
  upsert_task uuid4 pid i item None d = (Ok id, d') ->
  rows_wf d' /\ only_task pid (pt_task_id item) d d' /\
  find_task pid (pt_task_id item) d' = Some (new_task_row id pid i item).
Proof.
  intros Hn Hw H. unfold upsert_task in H. stmt H H1. stmt H H2. unfold mret, py_ret in H. simplify_eq.
  unfold new_uuid in H1. injection H1 as Hid <-. subst id.
  unfold insert_task, mbind, py_bind, get_state in H2. simpl in H2.
  change (find_task pid (pt_task_id item) (mkDb _ _ _ _ _ _ _)) with (find_task pid (pt_task_id item) d) in H2.
  rewrite Hn in H2. unfold put_state in H2. injection H2 as <- <-.
  set (row := new_task_row _ pid i item).
  assert (Hfind : forall q y, find_task q y (mkDb (db_plans d) (db_tasks d ++ [row]) (db_dependencies d)
    (db_needs d) (db_revisions d) (db_attempts d) (S (db_uuids d))) = find_task q y (set_tasks (db_tasks d ++ [row]) d)) by done.
  split_and!.
  - destruct Hw as [Ha Hb Hc]. split; simpl.
    + rewrite map_app. apply NoDup_app. split_and!; [done| |apply NoDup_singleton].
      intros z Hz ->%list_elem_of_singleton. apply list_elem_of_fmap in Hz as (t & Hz & Ht).
      destruct (Hc t Ht) as (j & Hj & Heq). rewrite <- Hz in Heq. simpl in Heq. apply uuid4_unique in Heq. lia.
    + rewrite map_app. apply NoDup_app. split_and!; [done| |apply NoDup_singleton].
      intros z Hz ->%list_elem_of_singleton. apply list_elem_of_fmap in Hz as (t & Hz & Ht). simpl in Hz.
      injection Hz as Hp Hi. unfold find_task in Hn.
      eapply (find_none _ _) in Hn; [|by apply list_elem_of_In].
      rewrite <- Hp, <- Hi, !bool_decide_eq_true_2 in Hn; done.
    + intros t [Ht| ->%list_elem_of_singleton]%elem_of_app.
      * destruct (Hc t Ht) as (j & Hj & ->). exists j. simpl. split; [lia|done].
      * exists (db_uuids d). simpl. split; [lia|done].
  - intros q y Hne. rewrite Hfind, find_task_append. split; [|done].
    destruct (find_task q y d); [done|]. simpl.
    destruct (bool_decide_reflect (pid = q)), (bool_decide_reflect (pt_task_id item = y)); try done.
    by subst.
  - rewrite Hfind, find_task_append, Hn. simpl. by rewrite !bool_decide_eq_true_2.
Qed.

Lemma upsert_old pid i item t d id d' :
  find_task pid (pt_task_id item) d = Some t -> rows_wf d ->
  upsert_task uuid4 pid i item (Some t) d = (Ok id, d') ->
  rows_wf d' /\ only_task pid (pt_task_id item) d d' /\ id = tr_id t /\
  find_task pid (pt_task_id item) d' = Some (row_replan i item t).
Proof.
  intros Ht Hw H. unfold upsert_task in H. stmt H H1. unfold mret, py_ret in H. simplify_eq.
  apply update_row_inv in H1 as ->. apply find_task_Some in Ht as Ht'. destruct Ht' as (Hin & Hpid & Htid).
  split_and!; [by apply update_row_wf| |done|].
  - intros q y Hne. split; [|done]. rewrite update_row_find by done.
    destruct (find_task q y d) as [u|] eqn:Eu; [|done]. simpl. rewrite decide_False; [done|].
    intros Heq. apply find_task_Some in Eu as (Hu & Hq & Hy). apply Hne.
    rewrite (same_row d u t Hw Hu Hin Heq) in Hq, Hy. congruence.
  - rewrite update_row_find, Ht by done. simpl. by rewrite decide_True.
Qed.

(** Replacing the dependencies of one task. *)
Lemma delete_dependencies_get pid x d q y :
  deps_of q (delete_dependencies pid x d).2 y = if decide ((q, y) = (pid, x)) then [] else deps_of q d y.
Proof.
  unfold deps_of, plan_dependencies, delete_dependencies, modify. simpl.
  induction (db_dependencies d) as [|r l IH]; [by case_decide|]. simpl.
  rewrite filter_cons. destruct (decide (~ (dr_plan_id r = pid /\ dr_task_id r = x))) as [Hk|Hk].
  - rewrite !filter_cons. destruct (decide (dr_plan_id r = q)) as [Hq|Hq]; [|exact IH].
    rewrite !filter_cons. destruct (decide (dr_task_id r = y)) as [Hy|Hy]; [|exact IH]. simpl. rewrite IH.
    case_decide; simplify_eq; [|done]. tauto.
  - apply dec_stable in Hk as [Hp Hx]. rewrite IH. case_decide as Hd; [done|].
    rewrite filter_cons. destruct (decide (dr_plan_id r = q)) as [Hq|Hq]; [|done].
    rewrite filter_cons. rewrite decide_False; [done|]. intros Hy. apply Hd. congruence.
Qed.

Lemma insert_dependency_get pid x dep d u d' :
  insert_new_dependency uuid4 pid x dep d = (Ok u, d') ->
  (forall q y, find_task q y d' = find_task q y d /\
     deps_of q d' y = if decide ((q, y) = (pid, x)) then deps_of q d y ++ [dep] else deps_of q d y) /\
  (rows_wf d -> rows_wf d').
Proof.
  unfold insert_new_dependency. intros H. stmt H H1. apply quietly_new_uuid in H1 as Hq.
  unfold insert_dependency, mbind, py_bind, get_state in H. simpl in H.
  destruct (existsb _ _); [done|]. unfold put_state in H. injection H as <- <-. split.
  - intros q y. destruct (quiet_reads _ _ q y Hq) as [Hf Hd]. split; [exact Hf|].
    rewrite <- Hd. unfold deps_of, plan_dependencies. simpl. rewrite !filter_app.
    rewrite (filter_cons (fun r => dr_plan_id r = q)), filter_nil. simpl.
    destruct (decide (pid = q)) as [->|Hne].
    + rewrite filter_cons, filter_nil. simpl.
      destruct (decide (x = y)) as [->|Hne].
      * rewrite map_app. by rewrite decide_True.
      * rewrite app_nil_r, decide_False by congruence. done.
    + rewrite filter_nil, app_nil_r, decide_False by congruence. done.
  - intros Hw. apply (quiet_wf _ _ Hq) in Hw as [Ha Hb Hc]. by split.
Qed.

Lemma insert_dependencies_get pid x deps d u d' :
  for_each (insert_new_dependency uuid4 pid x) deps d = (Ok u, d') ->
  (forall q y, find_task q y d' = find_task q y d /\
     deps_of q d' y = if decide ((q, y) = (pid, x)) then deps_of q d y ++ deps else deps_of q d y) /\
  (rows_wf d -> rows_wf d').
Proof.
  revert d. induction deps as [|dep deps IH]; intros d H; simpl in H.
  { unfold mret, py_ret in H. simplify_eq. split; [|done]. intros q y. rewrite app_nil_r. by case_decide. }
  stmt H H1. apply insert_dependency_get in H1 as [Hg1 Hw1]. apply IH in H as [Hg2 Hw2]. split; [|auto].
  intros q y. destruct (Hg1 q y) as [F1 D1], (Hg2 q y) as [F2 D2]. rewrite F2, F1, D2, D1. split; [done|].
  case_decide; [|done]. by rewrite <- app_assoc.
Qed.

(** What the loop leaves for a task of the patch. *)
Definition planned_row (old : option TaskRow) (i : Z) (item : PlannedTask) (pid : Z) (d' : Db) : Prop :=
  (forall t, old = Some t -> row_active_or_completed t = false) /\
  exists r, find_task pid (pt_task_id item) d' = Some r /\ tr_status r = PENDING /\
    tr_result r = None /\ tr_planned_order r = i /\
    tr_attempts r = from_option tr_attempts 0%Z old /\
    deps_of pid d' (pt_task_id item) = pt_depends_on item.

Lemma upsert_spec pid i item d id d' :
  rows_wf d -> upsert_task uuid4 pid i item (find_task pid (pt_task_id item) d) d = (Ok id, d') ->
  rows_wf d' /\ only_task pid (pt_task_id item) d d' /\
  exists r, find_task pid (pt_task_id item) d' = Some r /\ tr_status r = PENDING /\ tr_result r = None /\
    tr_planned_order r = i /\
    tr_attempts r = from_option tr_attempts 0%Z (find_task pid (pt_task_id item) d).
Proof.
  intros Hw H. destruct (find_task pid (pt_task_id item) d) as [t|] eqn:Ht.
  - destruct (upsert_old _ _ _ _ _ _ _ Ht Hw H) as (Hw' & Ho & _ & Hf). split_and!; eauto 10.
  - destruct (upsert_new _ _ _ _ _ _ Ht Hw H) as (Hw' & Ho & Hf). split_and!; eauto 10.
Qed.

Lemma apply_patch_item_Ok pid need_rows i item d u d' :
  rows_wf d -> apply_patch_item uuid4 pid need_rows (i, item) d = (Ok u, d') ->
  rows_wf d' /\ only_task pid (pt_task_id item) d d' /\
  planned_row (find_task pid (pt_task_id item) d) i item pid d'.
Proof.
  intros Hw H. unfold apply_patch_item in H. read_state H.
  destruct (match find_task pid (pt_task_id item) d with Some t => row_active_or_completed t | None => false end)
    eqn:Hact; [done|].
  stmt H H1. destruct (upsert_spec _ _ _ _ _ _ Hw H1) as (Hw1 & Ho1 & r & Hr & Hst & Hres & Hord & Hatt).
  stmt H H2. unfold delete_dependencies, modify in H2. injection H2 as _ H2.
  assert (Hdel : forall q y, find_task q y x2 = find_task q y x0 /\ deps_of q x2 y
    = if decide ((q, y) = (pid, pt_task_id item)) then [] else deps_of q x0 y).
  { intros q y. rewrite <- (delete_dependencies_get pid (pt_task_id item) x0 q y). by rewrite <- H2. }
  assert (Hw2 : rows_wf x2) by (rewrite <- H2; destruct Hw1; by split).
  stmt H H3. apply insert_dependencies_get in H3 as [Hg3 Hw3]. specialize (Hw3 Hw2).
  stmt H H4. destruct (copies_dicts _ _ _); [done|].
  assert (Hq : quiet x4 d').
  { transitivity x6.
    - assert (Hm : quietly (delete_needs x)) by quieting. by eapply Hm.
    - eapply (preserves_for_each quiet _ (pt_needs item)); [|exact H]. intros n. quieting. }
  assert (Hall : forall q y, find_task q y d' = find_task q y x0 /\ deps_of q d' y
    = if decide ((q, y) = (pid, pt_task_id item)) then pt_depends_on item else deps_of q x0 y).
  { intros q y. destruct (quiet_reads _ _ q y Hq) as [-> ->]. destruct (Hg3 q y) as [-> ->].
    destruct (Hdel q y) as [-> ->]. split; [done|]. by case_decide. }
  split_and!; [by eapply quiet_wf| |split].
  - intros q y Hne. destruct (Hall q y) as [-> ->], (Ho1 q y Hne) as [-> <-]. by rewrite decide_False.
  - intros t Ht. by rewrite Ht in Hact.
  - exists r. destruct (Hall pid (pt_task_id item)) as [-> ->]. by rewrite decide_True.
Qed.

Lemma patch_items_Ok pid need_rows its d u d' :
  rows_wf d -> NoDup (patch_ids its) ->
  for_each (apply_patch_item uuid4 pid need_rows) its d = (Ok u, d') ->
  rows_wf d' /\
  (forall q y, q ≠ pid \/ y ∉ patch_ids its ->
     find_task q y d' = find_task q y d /\ deps_of q d' y = deps_of q d y) /\
  (forall it, it ∈ its -> planned_row (find_task pid (pt_task_id it.2) d) it.1 it.2 pid d').
Proof.
  revert d. induction its as [|[i t] its IH]; intros d Hw Hn H; simpl in H.
  { unfold mret, py_ret in H. simplify_eq. split_and!; [done|done|set_solver]. }
  stmt H H1. destruct (apply_patch_item_Ok _ _ _ _ _ _ _ Hw H1) as (Hw1 & Ho1 & Hp1).
  simpl in Hn. apply NoDup_cons in Hn as [Hnt Hn]. destruct (IH _ Hw1 Hn H) as (Hw' & Hout & Hin).
  split_and!; [done| |].
  - intros q y Hy. destruct (Hout q y) as [-> ->]; [simpl in Hy; set_solver|].
    apply Ho1. intros [= -> ->]. simpl in Hy. set_solver.
  - intros it [->|Hit]%elem_of_cons; simpl.
    + destruct Hp1 as (Hact & r & Hr). split; [done|]. exists r.
      by destruct (Hout pid (pt_task_id t)) as [-> ->]; [right|].
    + assert (Hne : pt_task_id it.2 ≠ pt_task_id t).
      { intros Heq. apply Hnt. rewrite <- Heq. apply list_elem_of_fmap. by exists it. }
      specialize (Hin it Hit). destruct (Ho1 pid (pt_task_id it.2)) as [Hf _]; [congruence|].
      by rewrite Hf in Hin.
Qed.

(** Deleting rows. *)
Lemma find_filter_unique {A} (P : A -> bool) (dead : A -> bool) l :
  (forall a b, a ∈ l -> b ∈ l -> P a = true -> P b = true -> a = b) ->
  List.find P (List.filter (fun a => negb (dead a)) l)
  = match List.find P l with Some a => if dead a then None else Some a | None => None end.
Proof.
  induction l as [|a l IH]; intros Hu; simpl; [done|].
  assert (IH' := IH ltac:(intros; apply Hu; try done; by right)). clear IH.
  destruct (dead a) eqn:Ed; simpl.
  - rewrite IH'. destruct (P a) eqn:Ep; [|done]. rewrite Ed.
    destruct (List.find P l) as [b|] eqn:Eb; [|done]. apply find_Some_elem in Eb as [Hin Hb].
    rewrite <- (Hu a b); [by rewrite Ed|left|by right|done|done].
  - destruct (P a) eqn:Ep; [by rewrite Ed|exact IH'].
Qed.

Lemma delete_tasks_get dead d q y :
  rows_wf d ->
  find_task q y (delete_tasks dead d).2
  = match find_task q y d with Some t => if dead t then None else Some t | None => None end.
Proof.
  intros Hw. unfold find_task. simpl. apply find_filter_unique. intros a b Ha Hb Pa Pb.
  rewrite andb_true_iff, !bool_decide_eq_true in Pa, Pb. destruct Pa as [<- <-], Pb as [Hp Hi].
  pose proof (find_task_elem _ _ Hw Ha) as Fa. rewrite <- Hp, <- Hi, (find_task_elem _ _ Hw Hb) in Fa. congruence.
Qed.

Lemma delete_tasks_wf dead d : rows_wf d -> rows_wf (delete_tasks dead d).2.
Proof.
  intros [Ha Hb Hc]. split; simpl; [by apply NoDup_map_filter|by apply NoDup_map_filter|].
  intros t [Ht _]%elem_of_List_filter. by apply Hc.
Qed.

(** Statements that leave the plan table alone. *)
Definition same_plans (d d' : Db) : Prop := db_plans d' = db_plans d.
#[local] Instance same_plans_preorder : PreOrder same_plans.
Proof. split; [done|]. intros d1 d2 d3 H1 H2. unfold same_plans in *. congruence. Qed.

Ltac insert_keeps_plans :=
  intros d r d' H; unfold insert_task, insert_dependency, insert_need, mbind, py_bind, get_state in H;
  simpl in H; case_match; unfold raise, put_state in H; by simplify_eq.

Lemma insert_task_plans t : preserves same_plans (insert_task t).
Proof. insert_keeps_plans. Qed.
Lemma insert_dependency_plans t : preserves same_plans (insert_dependency t).
Proof. insert_keeps_plans. Qed.
Lemma insert_need_plans t : preserves same_plans (insert_need t).
Proof. insert_keeps_plans. Qed.
Lemma new_uuid_plans : preserves same_plans (new_uuid uuid4).
Proof. intros d r d' H. unfold new_uuid in H. by simplify_eq. Qed.

Lemma apply_patch_item_plans pid need_rows it : preserves same_plans (apply_patch_item uuid4 pid need_rows it).
Proof.
  destruct it as [i item]. unfold apply_patch_item, upsert_task, insert_new_dependency, insert_new_need.
  repeat first
    [ apply insert_task_plans | apply insert_dependency_plans | apply insert_need_plans
    | apply new_uuid_plans
    | apply (preserves_modify same_plans); done
    | apply (preserves_keep same_plans); done
    | apply (preserves_bind same_plans); [|intros ?] | apply (preserves_for_each same_plans); intros ?
    | progress (unfold update_task_row, delete_dependencies, delete_needs)
    | case_match ].
Qed.

(** The plan after a patch, table by table. *)
Record sql_patched (pid : Z) (patch : PlanPatch) (plan : PlanRow) (d d' : Db) : Prop := {
  sp_wf : rows_wf d';
  sp_others : forall q y, q ≠ pid -> find_task q y d' = find_task q y d /\ deps_of q d' y = deps_of q d y;
  sp_kept : forall y, y ∉ map pt_task_id (pp_tasks patch) ->
    find_task pid y d' = (if decide (y ∈ pp_remove_task_ids patch) then None else find_task pid y d) /\
    deps_of pid d' y = deps_of pid d y;
  sp_planned : forall t, t ∈ pp_tasks patch ->
    exists i, planned_row (find_task pid (pt_task_id t) d) i t pid d';
  sp_plan : find_plan pid d' = Some (finish_plan_row patch plan)
}.

Lemma find_plan_Some pid d p : find_plan pid d = Some p -> pr_id p = pid.
Proof. intros H. apply find_Some_elem in H as [_ H]. by apply bool_decide_eq_true in H. Qed.

Lemma not_protected pid patch d y t :
  protected_removals pid patch d = [] -> find_task pid y d = Some t -> y ∈ pp_remove_task_ids patch ->
  row_active_or_completed t = false.
Proof.
  intros Hp Ht Hy. apply find_task_Some in Ht as (Hin & Hpid & <-). destruct (row_active_or_completed t) eqn:Ha; [|done].
  exfalso. assert (Hel : tr_task_id t ∈ protected_removals pid patch d).
  { unfold protected_removals. apply elem_of_remove_dups, list_elem_of_fmap. exists t. split; [done|].
    apply elem_of_List_filter. rewrite Ha, bool_decide_eq_true_2 by done. split; [|done].
    by apply list_elem_of_filter. }
  rewrite Hp in Hel. by apply elem_of_nil in Hel.
Qed.

Lemma update_plan_find pid f d plan :
  (forall p, pr_id (f p) = pr_id p) -> find_plan pid d = Some plan ->
  find_plan pid (update_plan_row pid f d).2 = Some (f plan).
Proof.
  intros Hf Hp. unfold find_plan, update_plan_row, modify in *. simpl.
  rewrite find_map by (intros p; by case_decide; rewrite ?Hf). rewrite Hp. simpl.
  by rewrite decide_True by (by eapply find_plan_Some).
Qed.

Lemma quiet_same_plans_tail pid decision d d' id u why inv rev patch :
  (x ← (if bool_decide (decision = ASK_USER) then route_needs_to_user pid else mret tt);
   i ← new_uuid uuid4; insert_revision (mkRevisionRow (id i) pid rev why patch inv)) d = (Ok u, d') ->
  quiet d d' /\ db_plans d' = db_plans d.
Proof.
  intros H. split.
  - revert H. match goal with |- ?m d = _ -> _ => assert (Hm : quietly m) by quieting end.
    intros H. by eapply Hm.
  - revert H. match goal with |- ?m d = _ -> _ => assert (Hm : preserves same_plans m) end.
    { apply (preserves_bind same_plans); [case_match; [by apply (preserves_modify same_plans)|by apply (preserves_keep same_plans)]|].
      intros _. apply (preserves_bind same_plans); [|intros ?; by apply (preserves_modify same_plans)].
      apply new_uuid_plans. }
    intros H. by eapply Hm.
Qed.

Lemma write_patch_Ok plan need_rows patch why inv d u d' :
  rows_wf d -> find_plan (pr_id plan) d = Some plan -> protected_removals (pr_id plan) patch d = [] ->
  NoDup (map pt_task_id (pp_tasks patch)) ->
  (forall i, i ∈ pp_remove_task_ids patch -> i ∉ map pt_task_id (pp_tasks patch)) ->
  write_patch uuid4 plan need_rows patch why inv d = (Ok u, d') ->
  sql_patched (pr_id plan) patch plan d d'.
Proof.
  intros Hw Hplan Hprot Hnd Hrm H. unfold write_patch in H. set (pid := pr_id plan) in *.
  stmt H H1. unfold delete_tasks, modify in H1. injection H1 as _ H1.
  set (dead := fun t : TaskRow => bool_decide (tr_plan_id t = pid)
        && bool_decide (tr_task_id t ∈ pp_remove_task_ids patch) && negb (row_active_or_completed t)) in *.
  assert (Hdel : forall q y, find_task q y x0 = match find_task q y d with
      | Some t => if dead t then None else Some t | None => None end)
    by (intros q y; rewrite <- H1; by apply (delete_tasks_get dead)).
  assert (Hdeps : forall q y, deps_of q x0 y = deps_of q d y) by (intros; by rewrite <- H1).
  assert (Hw1 : rows_wf x0) by (rewrite <- H1; by apply (delete_tasks_wf dead)).
  assert (Hdel_pid : forall y, find_task pid y x0
      = if decide (y ∈ pp_remove_task_ids patch) then None else find_task pid y d).
  { intros y. rewrite Hdel. destruct (find_task pid y d) as [t|] eqn:Et; [|simpl; by destruct (decide (y ∈ pp_remove_task_ids patch))].
    apply find_task_Some in Et as Et'. destruct Et' as (_ & Hp & Hy). unfold dead.
    rewrite Hp, Hy, bool_decide_eq_true_2 by done. simpl.
    destruct (decide (y ∈ pp_remove_task_ids patch)) as [Hin|Hin].
    - rewrite bool_decide_eq_true_2 by done. by rewrite (not_protected _ _ _ _ _ Hprot Et Hin).
    - by rewrite bool_decide_eq_false_2. }
  stmt H H2. destruct (patch_items_Ok _ _ _ _ _ _ Hw1 ltac:(by rewrite patch_ids_enumerate) H2) as (Hw2 & Hout & Hin).
  rewrite patch_ids_enumerate in Hout.
  assert (Hplans : db_plans x2 = db_plans x0).
  { eapply (preserves_for_each same_plans (apply_patch_item uuid4 pid need_rows)); [|exact H2].
    intros it. apply apply_patch_item_plans. }
  stmt H H3. apply quiet_same_plans_tail in H as [Hq Htail].
  assert (Hq3 : quiet x2 x4) by (unfold update_plan_row, modify in H3; by simplify_eq).
  assert (Hqq : quiet x2 d') by (by transitivity x4).
  split.
  - by eapply quiet_wf.
  - intros q y Hq'. destruct (quiet_reads _ _ q y Hqq) as [-> ->], (Hout q y) as [-> ->]; [by left|].
    rewrite Hdel, Hdeps. split; [|done]. destruct (find_task q y d) as [t|] eqn:Et; [|done].
    apply find_task_Some in Et as (_ & Hp & _). unfold dead. rewrite bool_decide_eq_false_2; [done|congruence].
  - intros y Hy. destruct (quiet_reads _ _ pid y Hqq) as [-> ->], (Hout pid y) as [-> ->]; [by right|].
    by rewrite Hdel_pid, Hdeps.
  - intros t Ht. destruct (enumerate_elem _ _ Ht) as [i Hi]. exists i. specialize (Hin _ Hi). simpl in Hin.
    rewrite Hdel_pid, decide_False in Hin by (intros Hc; apply (Hrm _ Hc), list_elem_of_fmap; by exists t).
    destruct Hin as [Ho (r & Hr)]. split; [done|]. exists r.
    by destruct (quiet_reads _ _ pid (pt_task_id t) Hqq) as [-> ->].
  - transitivity (find_plan pid x4); [unfold find_plan; by rewrite Htail|].
    assert (x4 = (update_plan_row pid (finish_plan_row patch) x2).2) as -> by (by rewrite H3).
    apply update_plan_find; [done|]. unfold find_plan. rewrite Hplans, <- H1. exact Hplan.
Qed.

(** The dictionary [apply_patch_sql] validates. *)
Definition combined_dict (pid : Z) (patch : PlanPatch) (d : Db) : odict PlannedTask :=
  od_update (od_update [] (by_id (map (planned_of_row pid d)
    (filter (fun r => tr_task_id r ∉ pp_remove_task_ids patch) (plan_tasks pid d))))) (by_id (pp_tasks patch)).

Lemma plan_task_ids_NoDup pid d (P : TaskRow -> Prop) `{forall r, Decision (P r)} :
  rows_wf d -> NoDup (map tr_task_id (filter P (plan_tasks pid d))).
Proof.
  intros [_ Hk _]. unfold plan_tasks. revert Hk. induction (db_tasks d) as [|t l IH]; simpl; [by constructor|].
  rewrite NoDup_cons. intros [Ht Hk]. rewrite filter_cons. destruct (decide (tr_plan_id t = pid)) as [Hp|]; [|auto].
  rewrite filter_cons. destruct (decide (P t)); [|auto]. simpl. apply NoDup_cons. split; [|auto].
  intros (u & Heq & Hu)%list_elem_of_fmap. apply list_elem_of_filter in Hu as [_ Hu].
  apply list_elem_of_filter in Hu as [Hpu Hu]. apply Ht. rewrite Hp, Heq, <- Hpu.
  apply list_elem_of_fmap. by exists u.
Qed.

Lemma combined_dict_get pid patch d x :
  rows_wf d -> NoDup (map pt_task_id (pp_tasks patch)) ->
  (forall t, t ∈ pp_tasks patch -> pt_task_id t = x -> od_get x (combined_dict pid patch d) = Some t) /\
  (x ∉ map pt_task_id (pp_tasks patch) ->
   od_get x (combined_dict pid patch d) =
     if decide (x ∈ pp_remove_task_ids patch) then None else planned_of_row pid d <$> find_task pid x d).
Proof.
  intros Hw Hnd. unfold combined_dict. split.
  - intros t Ht <-. apply od_get_update_elem; [by rewrite by_id_fst|by apply by_id_elem].
  - intros Hx. rewrite od_get_update_ne by (by rewrite by_id_fst).
    set (kept := filter _ (plan_tasks pid d)).
    assert (Hnk : NoDup (map tr_task_id kept)) by (by apply plan_task_ids_NoDup).
    assert (Hids : map pt_task_id (map (planned_of_row pid d) kept) = map tr_task_id kept) by (by rewrite map_map).
    assert (Hmem : forall r, r ∈ kept <-> tr_task_id r ∉ pp_remove_task_ids patch /\ tr_plan_id r = pid /\ r ∈ db_tasks d)
      by (intros r; unfold kept, plan_tasks; by rewrite !list_elem_of_filter).
    destruct (decide (x ∈ map tr_task_id kept)) as [Hin|Hin].
    + apply list_elem_of_fmap in Hin as (r & -> & Hr). apply Hmem in Hr as Hr'. destruct Hr' as (Hnr & <- & Hdb).
      rewrite decide_False, (find_task_elem _ _ Hw Hdb) by done. simpl.
      apply od_get_update_elem; [by rewrite by_id_fst, Hids|].
      apply (by_id_elem _ (planned_of_row (tr_plan_id r) d r)). apply list_elem_of_fmap. by exists r.
    + rewrite od_get_update_ne by (by rewrite by_id_fst, Hids). simpl.
      destruct (decide (x ∈ pp_remove_task_ids patch)) as [|Hnr]; [done|].
      destruct (find_task pid x d) as [r|] eqn:Er; [|done]. exfalso. apply Hin.
      apply find_task_Some in Er as (Hdb & Hp & <-). apply list_elem_of_fmap. exists r. split; [done|by apply Hmem].
Qed.

Lemma row_active_protected t : row_active_or_completed t = false <-> ~ protected (tr_status t).
Proof. unfold row_active_or_completed, protected. rewrite orb_false_iff, !bool_decide_eq_false. tauto. Qed.

Lemma sql_patched_astep pid patch plan d d' :
  rows_wf d -> NoDup (map pt_task_id (pp_tasks patch)) -> protected_removals pid patch d = [] ->
  validate_task_graph (combined_tasks pid patch d) = Ok tt -> sql_patched pid patch plan d d' ->
  astep true (sql_abs pid d) (sql_abs pid d').
Proof.
  intros Hw Hnd Hprot Hv [_ _ Hkept Hplan _]. apply as_patch.
  - intros x st ds. rewrite !sql_abs_lookup.
    destruct (decide (x ∈ map pt_task_id (pp_tasks patch))) as [Hx|Hx].
    + apply list_elem_of_fmap in Hx as (t & -> & Ht). destruct (Hplan t Ht) as (i & Hold & r & -> & Hst & _).
      simpl. intros [= <- <-]. right. split; [done|]. intros st0 ds0 H0.
      destruct (find_task pid (pt_task_id t) d) as [o|] eqn:Eo; simplify_eq/=.
      by apply row_active_protected, Hold.
    + destruct (Hkept x Hx) as [-> ->]. destruct (decide (x ∈ pp_remove_task_ids patch)); [done|]. by left.
  - intros _ x st ds Hx Hst. rewrite sql_abs_lookup in Hx.
    destruct (find_task pid x d) as [o|] eqn:Eo; simplify_eq/=. rewrite sql_abs_lookup.
    destruct (decide (x ∈ map pt_task_id (pp_tasks patch))) as [Hp|Hp].
    + apply list_elem_of_fmap in Hp as (t & -> & Ht). destruct (Hplan t Ht) as (i & Hold & _).
      exfalso. by apply (proj1 (row_active_protected o) (Hold o Eo)).
    + destruct (Hkept x Hp) as [-> ->]. rewrite decide_False, Eo; [done|]. intros Hr.
      by apply (proj1 (row_active_protected o) (not_protected _ _ _ _ _ Hprot Eo Hr)).
  - apply (valid_graph_of (combined_dict pid patch d)); [apply by_id_update_keyed, by_id_update_keyed, keyed_nil| |].
    + by apply validate_task_graph_iff.
    + intros x. rewrite sql_abs_lookup. destruct (combined_dict_get pid patch d x Hw Hnd) as [Hp Ho].
      destruct (decide (x ∈ map pt_task_id (pp_tasks patch))) as [Hx|Hx].
      * apply list_elem_of_fmap in Hx as (t & -> & Ht). rewrite (Hp t Ht eq_refl).
        destruct (Hplan t Ht) as (i & _ & r & -> & _ & _ & _ & _ & ->). done.
      * rewrite Ho by done. destruct (Hkept x Hx) as [-> ->]. destruct (decide (x ∈ pp_remove_task_ids patch)); [done|].
        destruct (find_task pid x d) as [r|] eqn:Er; [|done]. simpl.
        apply find_task_Some in Er as (_ & _ & ->). done.
Qed.

Lemma apply_patch_sql_Ok pid patch why inv d u d' :
  rows_wf d -> NoDup (map pt_task_id (pp_tasks patch)) ->
  (forall i, i ∈ pp_remove_task_ids patch -> i ∉ map pt_task_id (pp_tasks patch)) ->
  apply_patch_sql uuid4 pid patch why inv d = (Ok u, d') ->
  exists plan, find_plan pid d = Some plan /\ pr_revision plan = pp_expected_revision patch /\
    protected_removals pid patch d = [] /\ validate_task_graph (combined_tasks pid patch d) = Ok tt /\
    sql_patched pid patch plan d d'.
Proof.
  intros Hw Hnd Hrm H. unfold apply_patch_sql in H. read_state H.
  destruct (find_plan pid d) as [plan|] eqn:Hplan; [|done].
  destruct (Z.eqb_spec (pr_revision plan) (pp_expected_revision patch)) as [Hrev|]; [|done]. simpl in H.
  case_bool_decide as Hprot; [|done]. simpl in H. stmt H H1. unfold of_result in H1. injection H1 as Hv <-.
  destruct x. exists plan. split_and!; try done.
  pose proof (find_plan_Some _ _ _ Hplan) as Hid. unfold try_except, begin_nested in H.
  destruct (write_patch uuid4 plan (plan_needs pid d) patch why inv d) as [[v|e] d1] eqn:Ew.
  - simplify_eq. by eapply write_patch_Ok.
  - destruct e; unfold raise in H; by simplify_eq.
Qed.

Lemma apply_patch_sql_moves pid patch why inv d u d' :
  make_patch patch = Ok patch -> apply_patch_sql uuid4 pid patch why inv d = (Ok u, d') -> sql_moves pid d d'.
Proof.
  intros Hmk H Hw. apply make_patch_Ok in Hmk as (_ & Hnd & Hrm).
  destruct (apply_patch_sql_Ok _ _ _ _ _ _ _ Hw Hnd Hrm H) as (plan & _ & _ & Hprot & Hv & Hp).
  split_and!.
  - apply Hp.
  - intros q Hq. apply map_eq. intros y. rewrite !sql_abs_lookup.
    by destruct (sp_others _ _ _ _ _ Hp q y Hq) as [-> ->].
  - intros _. apply rtc_once. by eapply sql_patched_astep.
Qed.

(** A patch is all or nothing. *)
Lemma apply_patch_sql_Err pid patch why inv d e d' :
  apply_patch_sql uuid4 pid patch why inv d = (Err e, d') -> d' = d.
Proof.
  unfold apply_patch_sql. intros H. apply bind_Err in H as [H|(x & d1 & H1 & H)]; [done|].
  unfold get_state in H1. injection H1 as <- <-.
  destruct (find_plan pid d); [|unfold raise in H; by simplify_eq].
  destruct (negb (Z.eqb _ _)); [unfold raise in H; by simplify_eq|].
  destruct (negb (bool_decide _)); [unfold raise in H; by simplify_eq|].
  apply bind_Err in H as [H|(x & d1 & H1 & H)]; [unfold of_result in H; by simplify_eq|].
  unfold of_result in H1. injection H1 as _ <-. unfold try_except, begin_nested in H.
  destruct (write_patch _ _ _ _ _ _ d) as [[v|e'] d1]; [done|].
  destruct e'; unfold raise in H; by simplify_eq.
Qed.

(** ** What a claim returns *)

Definition row_key (t : TaskRow) : Z * string := (tr_planned_order t, tr_task_id t).

Lemma omap_keys_NoDup {V} (f : string * V -> option (Z * string)) (tasks : odict V) :
  NoDup (od_keys tasks) -> (forall kt c, kt ∈ tasks -> f kt = Some c -> c.2 = kt.1) ->
  NoDup (map snd (omap f tasks)).
Proof.
  induction tasks as [|kt tasks IH]; simpl; [by constructor|]. rewrite NoDup_cons. intros [Hk Hn] Hf.
  assert (IH' := IH Hn ltac:(intros; apply Hf; [by right|done])). destruct (f kt) as [c|] eqn:Ec; [|done].
  simpl. apply NoDup_cons. split; [|done]. intros (c' & Heq & Hc')%list_elem_of_fmap.
  apply list_elem_of_omap in Hc' as (kt' & Hkt' & Ec'). apply Hk.
  rewrite <- (Hf kt c ltac:(left) Ec), Heq, (Hf kt' c' ltac:(by right) Ec'). apply list_elem_of_fmap. by exists kt'.
Qed.

Lemma chosen_NoDup pid limit d : rows_wf d -> NoDup (map snd (chosen_for pid limit d)).
Proof.
  intros Hw. assert (Hc : NoDup (map snd (candidates (snapshot_tasks pid d)))).
  { apply omap_keys_NoDup; [apply snapshot_keys|]. intros [k s] c Hin Hf. simpl in Hf.
    apply (od_elem_get _ _ _ (snapshot_keys pid d)) in Hin.
    destruct (sn_row s) as [r|] eqn:Er; [|done]. destruct (task_is_ready s _); simplify_eq/=.
    by pose proof (find_task_Some _ _ _ _ (snapshot_row _ _ _ _ _ Hw Hin Er)) as (_ & _ & ?). }
  rewrite <- (sort_by_perm id claim_le (candidates _)) in Hc.
  rewrite <- (take_drop (batch_size limit) (sort_by _ _ _)), map_app in Hc. by apply NoDup_app in Hc as (? & _ & _).
Qed.

(** An attempt row of the claim. *)
Definition attempt_recorded (now : Z) (r : TaskRow) (d : Db) : Prop :=
  exists a, a ∈ db_attempts d /\ tt_task_row_id a = tr_id r /\ tt_attempt_number a = tr_attempts r /\
    tt_status a = AttRUNNING /\ tt_started_at a = now.

Lemma claim_candidate_attempts now pid x d o d' :
  claim_candidate uuid4 now pid x d = (Ok o, d') ->
  (forall a, a ∈ db_attempts d -> a ∈ db_attempts d') /\
  (forall r, o = Some r -> attempt_recorded now r d').
Proof.
  unfold claim_candidate. intros H. read_state H. destruct (find_task pid x d) as [t|]; [|py_inv; done].
  case_bool_decide; [py_inv; done|].
  stmt H H1. stmt H H2. stmt H H3. unfold mret, py_ret in H. injection H as <- <-.
  unfold update_task_row, modify in H1. injection H1 as _ <-.
  unfold new_uuid in H2. injection H2 as _ <-.
  unfold insert_attempt, mbind, py_bind, get_state in H3. simpl in H3.
  destruct (existsb _ _); [done|]. unfold put_state in H3. injection H3 as _ <-. simpl. split.
  - intros a Ha. apply elem_of_app. by left.
  - intros r [= <-]. eexists. split; [apply elem_of_app; right; by left|done].
Qed.

(** The row a claim returns, in the table it leaves. *)
Definition claimed_row (now pid : Z) (d d' : Db) (r : TaskRow) : Prop :=
  exists t, find_task pid (tr_task_id r) d = Some t /\ r = claim_row t /\
    find_task pid (tr_task_id r) d' = Some r /\ attempt_recorded now r d'.

Lemma claim_candidate_row now pid x d o d' t :
  rows_wf d -> find_task pid x d = Some t -> tr_status t ≠ RUNNING ->
  claim_candidate uuid4 now pid x d = (Ok o, d') ->
  o = Some (claim_row t) /\ rows_wf d' /\ find_task pid x d' = Some (claim_row t) /\
  (forall y, y ≠ x -> find_task pid y d' = find_task pid y d).
Proof.
  intros Hw Ht Hnr H. destruct (claim_candidate_cases _ _ _ _ _ _ H) as [[-> ->]|(t' & Ht' & _ & -> & Hq)].
  { exfalso. unfold claim_candidate in H. read_state H. rewrite Ht in H. rewrite bool_decide_eq_false_2 in H by done.
    stmt H H1. stmt H H2. stmt H H3. py_inv. }
  rewrite Ht in Ht'. injection Ht' as <-. split; [done|].
  split; [eapply quiet_wf; [exact Hq|by apply update_row_wf]|].
  assert (Hf : forall y, find_task pid y d' = (fun u => if decide (tr_id u = tr_id t) then claim_row u else u)
      <$> find_task pid y d).
  { intros y. rewrite (proj1 (quiet_reads _ _ pid y Hq)). by apply update_row_find. }
  split; [rewrite Hf, Ht; simpl; by rewrite decide_True|].
  intros y Hy. rewrite Hf. destruct (find_task pid y d) as [u|] eqn:Eu; [|done]. simpl.
  rewrite decide_False; [done|]. intros Heq. apply Hy.
  apply find_task_Some in Ht as (Hin & _ & <-). apply find_task_Some in Eu as (Hinu & _ & <-).
  by rewrite (same_row d u t Hw Hinu Hin Heq).
Qed.

Lemma claim_all_spec now pid chosen d l d' :
  rows_wf d -> NoDup (map snd chosen) ->
  (forall c, c ∈ chosen -> exists t, find_task pid c.2 d = Some t /\ tr_status t ≠ RUNNING /\ row_key t = c) ->
  claim_all uuid4 now pid chosen d = (Ok l, d') ->
  map row_key l = chosen /\ (forall r, r ∈ l -> claimed_row now pid d d' r) /\
  (forall a, a ∈ db_attempts d -> a ∈ db_attempts d') /\
  (forall y, y ∉ map snd chosen -> find_task pid y d' = find_task pid y d).
Proof. clear uuid4_unique.
  revert d l. induction chosen as [|[o x] chosen IH]; intros d l Hw Hn Hc H; simpl in H.
  { py_inv. split_and!; [done|set_solver|done|done]. }
  stmt H H1. stmt H H2. unfold mret, py_ret in H. injection H as Hl <-.
  simpl in Hn. apply NoDup_cons in Hn as [Hx Hn].
  destruct (Hc (o, x) ltac:(left)) as (t & Ht & Hst & Hkey). simpl in Ht.
  destruct (claim_candidate_row _ _ _ _ _ _ _ Hw Ht Hst H1) as (-> & Hw1 & Hrow & Hother).
  destruct (claim_candidate_attempts _ _ _ _ _ _ H1) as [Hgrow Hatt].
  assert (Hc1 : forall c, c ∈ chosen ->
    exists u, find_task pid c.2 x1 = Some u /\ tr_status u ≠ RUNNING /\ row_key u = c).
  { intros c Hin. destruct (Hc c ltac:(by right)) as (u & Hu & Hsu & Hku). exists u. rewrite Hother; [done|].
    intros Heq. apply Hx. rewrite <- Heq. apply list_elem_of_fmap. by exists c. }
  destruct (IH _ _ Hw1 Hn Hc1 H2) as (Hkeys & Hrows & Hgrow2 & Hother2).
  subst l. assert (Hid : tr_task_id t = x) by (by apply find_task_Some in Ht as (_ & _ & ?)). split_and!.
  - simpl. rewrite Hkeys. f_equal. exact Hkey.
  - intros r [->|Hr]%elem_of_cons.
    + exists t. simpl. rewrite Hid. split_and!; [done|done|by rewrite Hother2|].
      destruct (Hatt _ eq_refl) as (a & Ha & Hrest). exists a. by split; [apply Hgrow2|].
    + destruct (Hrows r Hr) as (u & Hu & Heq & Hrest). exists u. split; [|done].
      rewrite <- Hu. symmetry. apply Hother. intros Heqx. apply Hx. rewrite <- Hkeys, <- Heqx, map_map.
      apply list_elem_of_fmap. by exists r.
  - auto.
  - intros y Hy. apply not_elem_of_cons in Hy as [Hy1 Hy2]. rewrite Hother2, Hother; done.
Qed.

Lemma chosen_claimable pid limit d c :
  rows_wf d -> c ∈ chosen_for pid limit d ->
  exists t, find_task pid c.2 d = Some t /\ claimable pid d t /\ row_key t = c.
Proof.
  intros Hw (i & Hi & _)%elem_of_take. apply list_elem_of_lookup_2 in Hi.
  rewrite (sort_by_elem _ _) in Hi. destruct c as [o x].
  apply candidates_elem in Hi as (t & Ht & <- & Hc); [|done]. exists t. split_and!; [done|done|].
  apply find_task_Some in Ht as (_ & _ & <-). done.
Qed.

Lemma claimable_not_running pid d t : claimable pid d t -> tr_status t ≠ RUNNING.
Proof. intros ([-> | ->] & _); done. Qed.
End Sql.
