(* ===== verification/PlanSqlProperties.v ===== *)
(** * The SQL plan store: properties

    What [SqlPlanStore] guarantees over every sequence of its methods, each
    property with a witness on a concrete database. *)
From S2P Require Import Prelude Contracts TaskGraph Scheduler PlanMemory PlanMemoryProofs PlanSql PlanSqlProofs.

Lemma filter_everything {A} (l : list A) : filter (fun _ => True) l = l.
Proof. induction l as [|a l IH]; [done|]. rewrite filter_cons_True by done. by rewrite IH. Qed.

(** ** The store as a transition system *)

Inductive sql_op :=
| SqlCreate (goal : string) (root_run_id tenant_id : Z) (chat_id : option Z)
| SqlPatch (plan_id : Z) (patch : PlanPatch) (why : string) (planner : option string)
| SqlMarkFailed (plan_id : Z) (failure : odict json)
| SqlClaim (now plan_id limit : Z)
| SqlResult (plan_id : Z) (task_id : string) (r : AgentTaskResult)
| SqlFailure (now plan_id : Z) (task_id : string) (f : TaskAttemptFailure) (retry_at : option Z) (max_attempts : Z)
| SqlPause (now plan_id : Z) (task_id : string) (confirmation : odict json)
| SqlResumeTasks (plan_id : Z) (user_input : string)
| SqlResumePlanner (plan_id : Z)
| SqlResolve (plan_id : Z) (user_input : string).

Section Sql.
Variable uuid4 : nat -> Z.
Hypothesis uuid4_unique : forall i j, uuid4 i = uuid4 j -> i = j.

Definition run_sql (op : sql_op) : sql unit :=
  match op with
  | SqlCreate g r t c => _ ← create_plan uuid4 g r t c; mret tt
  | SqlPatch p patch why inv => apply_patch_sql uuid4 p patch why inv
  | SqlMarkFailed p f => mark_failed_sql p f
  | SqlClaim now p l => _ ← claim_ready_batch_sql uuid4 now p l; mret tt
  | SqlResult p t r => apply_result_sql uuid4 p t r
  | SqlFailure now p t f retry mx => record_failure_sql now p t f retry mx
  | SqlPause now p t c => pause_task_for_confirmation now p t c
  | SqlResumeTasks p v => resume_waiting_tasks p v
  | SqlResumePlanner p => resume_planner_pause p
  | SqlResolve p v => _ ← resolve_waiting_need_sql p v; mret tt
  end.

(** What the callers guarantee: patches were constructed, and only running
    tasks fail or pause. *)
Definition sql_op_ok (op : sql_op) (d : Db) : Prop :=
  match op with
  | SqlPatch _ patch _ _ => make_patch patch = Ok patch
  | SqlFailure _ p t _ _ _ | SqlPause _ p t _ =>
      forall row, find_task p t d = Some row -> tr_status row = RUNNING
  | _ => True
  end.

(** A method that returned; a raising one is rolled back with the caller's
    transaction. *)
Inductive sql_step (d d' : Db) : Prop :=
| sql_returns op : sql_op_ok op d -> run_sql op d = (Ok tt, d') -> sql_step d d'.

Definition op_plan (op : sql_op) : Z :=
  match op with
  | SqlCreate _ _ _ _ => 0%Z
  | SqlPatch p _ _ _ | SqlMarkFailed p _ | SqlClaim _ p _ | SqlResult p _ _ | SqlFailure _ p _ _ _ _
  | SqlPause _ p _ _ | SqlResumeTasks p _ | SqlResumePlanner p | SqlResolve p _ => p
  end.

Lemma create_plan_moves g r t c d p d' pid :
  create_plan uuid4 g r t c d = (Ok p, d') -> sql_moves uuid4 pid d d'.
Proof.
  unfold create_plan. intros H. apply quiet_moves.
  apply bind_Ok in H as (i & d1 & H1 & H). apply bind_Ok in H as (? & d2 & H2 & H).
  unfold mret, py_ret in H. injection H as _ <-. transitivity d1; [by eapply quietly_new_uuid|].
  unfold insert_plan, mbind, py_bind, get_state in H2. simpl in H2.
  destruct (bool_decide _); [done|]. unfold put_state in H2. by injection H2 as _ <-.
Qed.

Lemma run_sql_moves op d d' :
  sql_op_ok op d -> run_sql op d = (Ok tt, d') -> sql_moves uuid4 (op_plan op) d d'.
Proof.
  destruct op as [g r t c|p patch why inv|p f|now p l|p t r|now p t f retry mx|now p t c|p v|p|p v];
    simpl; intros Hok H.
  - apply bind_Ok in H as (? & d1 & H & Hr). unfold mret, py_ret in Hr. injection Hr as <-.
    by eapply create_plan_moves.
  - by eapply apply_patch_sql_moves.
  - by eapply mark_failed_sql_moves.
  - apply bind_Ok in H as (? & d1 & H & Hr). unfold mret, py_ret in Hr. injection Hr as <-.
    by eapply claim_ready_batch_sql_moves.
  - by eapply apply_result_sql_moves.
  - destruct (find_task p t d) as [row|] eqn:Hrow; [by eapply record_failure_sql_moves; eauto|].
    unfold record_failure_sql, mbind, py_bind, get_state in H. by rewrite Hrow in H.
  - destruct (find_task p t d) as [row|] eqn:Hrow; [by eapply pause_moves; eauto|].
    unfold pause_task_for_confirmation, mbind, py_bind, get_state in H. by rewrite Hrow in H.
  - by eapply resume_waiting_tasks_moves.
  - by eapply resume_planner_pause_moves.
  - apply bind_Ok in H as (? & d1 & H & Hr). unfold mret, py_ret in Hr. injection Hr as <-.
    by eapply resolve_waiting_need_sql_moves.
Qed.

(** The invariant of the database. *)
Definition db_sound (d : Db) : Prop := rows_wf uuid4 d /\ forall pid, sound (sql_abs pid d).

Lemma empty_db_sound : db_sound empty_db.
Proof.
  split; [split; [constructor|constructor|intros t Ht; by apply elem_of_nil in Ht]|]. intros pid. apply sound_empty.
Qed.

Lemma sql_step_moves d d' :
  sql_step d d' -> db_sound d ->
  db_sound d' /\ forall pid, rtc (astep true) (sql_abs pid d) (sql_abs pid d').
Proof.
  intros [op Hok Hrun] [Hw Hs]. destruct (run_sql_moves _ _ _ Hok Hrun Hw) as (Hw' & Ho & Hr).
  assert (Hall : forall pid, rtc (astep true) (sql_abs pid d) (sql_abs pid d')).
  { intros pid. destruct (decide (pid = op_plan op)) as [->|Hne]; [by apply Hr|].
    rewrite Ho by done. apply rtc_refl. }
  split; [|done]. split; [done|]. intros pid. eapply asteps_sound; eauto.
Qed.

Lemma sql_steps_moves d d' :
  rtc sql_step d d' -> db_sound d ->
  db_sound d' /\ forall pid, rtc (astep true) (sql_abs pid d) (sql_abs pid d').
Proof.
  induction 1 as [d|d1 d2 d3 H12 _ IH]; intros Hs; [split; [done|intros; apply rtc_refl]|].
  destruct (sql_step_moves _ _ H12 Hs) as [Hs2 Hr2]. destruct (IH Hs2) as [Hs3 Hr3].
  split; [done|]. intros pid. etrans; [apply Hr2|apply Hr3].
Qed.

Lemma sql_reachable_sound d : rtc sql_step empty_db d -> db_sound d.
Proof. intros H. by destruct (sql_steps_moves _ _ H empty_db_sound). Qed.

(** ** Invariants *)



(** ** Patches *)

(** A patch is all or nothing: whatever it raises, inside or outside its
    savepoint, the database is unchanged. *)
Theorem sql_patch_atomic pid patch why inv d e d' :
  apply_patch_sql uuid4 pid patch why inv d = (Err e, d') -> d' = d /\ forall c, e ≠ IntegrityError c.
Proof.
  intros H. split; [by eapply apply_patch_sql_Err|]. intros c ->. unfold apply_patch_sql in H.
  apply bind_Err in H as [H|(x & d1 & H1 & H)]; [done|]. unfold get_state in H1. injection H1 as <- <-.
  destruct (find_plan pid d); [|done]. destruct (negb (Z.eqb _ _)); [done|]. destruct (negb (bool_decide _)); [done|].
  apply bind_Err in H as [H|(x & d1 & H1 & H)].
  - unfold of_result in H. injection H as H _. apply validate_task_graph_Err in H as [r Hr]. done.
  - unfold of_result in H1. injection H1 as _ <-. unfold try_except, begin_nested in H.
    destruct (write_patch _ _ _ _ _ _ d) as [[v|e'] d1]; [done|]. destruct e'; done.
Qed.

(** C32: an accepted patch was computed against the current revision and
    touches no running or completed task: it advances the revision by one and
    sets the status the decision asks for, drops the removed tasks, makes each
    planned task pending with exactly the planned dependencies, its attempts
    kept and its result cleared, and leaves every other task of this and the
    other plans as it was. *)
Theorem sql_patch_effect pid patch why inv d d' plan :
  rows_wf uuid4 d -> make_patch patch = Ok patch -> find_plan pid d = Some plan ->
  apply_patch_sql uuid4 pid patch why inv d = (Ok tt, d') ->
  pr_revision plan = pp_expected_revision patch /\
  (exists plan', find_plan pid d' = Some plan' /\ pr_revision plan' = (pr_revision plan + 1)%Z /\
     pr_status plan' = decision_status (pp_decision patch)) /\
  (forall x t, x ∈ pp_remove_task_ids patch -> find_task pid x d = Some t -> tr_status t ≠ RUNNING /\ tr_status t ≠ COMPLETED) /\
  (forall x, x ∈ pp_remove_task_ids patch -> find_task pid x d' = None) /\
  (forall t, t ∈ pp_tasks patch -> exists r, find_task pid (pt_task_id t) d' = Some r /\
     tr_status r = PENDING /\ tr_result r = None /\ deps_of pid d' (pt_task_id t) = pt_depends_on t /\
     tr_attempts r = from_option tr_attempts 0%Z (find_task pid (pt_task_id t) d)) /\
  (forall q x, q ≠ pid \/ x ∉ pp_remove_task_ids patch /\ x ∉ map pt_task_id (pp_tasks patch) ->
     find_task q x d' = find_task q x d /\ deps_of q d' x = deps_of q d x).
Proof.
  intros Hw Hmk Hp H. apply make_patch_Ok in Hmk as (_ & Hnd & Hrm).
  destruct (apply_patch_sql_Ok _ uuid4_unique _ _ _ _ _ _ _ Hw Hnd Hrm H) as (plan0 & Hp0 & Hrev & Hprot & _ & [_ Ho Hk Hpl Hpn]).
  rewrite Hp in Hp0. injection Hp0 as <-. split; [done|]. split_and!.
  - eexists. split; [exact Hpn|]. done.
  - intros x t Hx Ht. pose proof (not_protected _ _ _ _ _ Hprot Ht Hx) as Ha.
    apply row_active_protected in Ha. unfold protected in Ha. tauto.
  - intros x Hx. destruct (Hk x (Hrm x Hx)) as [-> _]. by rewrite decide_True.
  - intros t Ht. destruct (Hpl t Ht) as (i & _ & r & Hf & Hst & Hres & _ & Hatt & Hd). eauto 10.
  - intros q x Hqx. destruct (decide (q = pid)) as [->|Hne]; [|by apply Ho].
    destruct Hqx as [|[Hx1 Hx2]]; [done|]. destruct (Hk x Hx2) as [-> ->]. by rewrite decide_False.
Qed.

(** ** Claims *)

Lemma sql_claim_shape now pid limit d l d' :
  rows_wf uuid4 d -> claim_ready_batch_sql uuid4 now pid limit d = (Ok l, d') ->
  map row_key l = chosen_for pid limit d /\ (forall r, r ∈ l -> claimed_row now pid d d' r) /\
  (forall a, a ∈ db_attempts d -> a ∈ db_attempts d') /\
  (forall y, y ∉ map snd (chosen_for pid limit d) -> find_task pid y d' = find_task pid y d).
Proof.
  intros Hw H. unfold claim_ready_batch_sql in H.
  apply bind_Ok in H as (s & d1 & H1 & H). apply snapshot_inv in H1 as (-> & p & _ & ->).
  eapply claim_all_spec; [done|by eapply chosen_NoDup| |exact H].
  intros c Hc. destruct (chosen_claimable uuid4 _ _ _ _ Hw Hc) as (t & Ht & Hcl & Hk).
  exists t. split_and!; [done|by eapply claimable_not_running|done].
Qed.

(** A claim returns at most [max 1 limit] rows, in the order of planned
    position and then identifier.  Every claimed row was pending or ready,
    with all dependencies completed and all required needs resolved, is now
    running with one attempt more, and that attempt is recorded as running.
    None is skipped: a row left unclaimed that could have been claimed means a
    full batch of rows that all come before it. *)
Theorem sql_claim_batch now pid limit d l d' :
  rows_wf uuid4 d -> claim_ready_batch_sql uuid4 now pid limit d = (Ok l, d') ->
  length l <= Z.to_nat (Z.max 1 limit) /\ StronglySorted claim_le (map row_key l) /\
  (forall r, r ∈ l -> exists t, find_task pid (tr_task_id r) d = Some t /\ claimable pid d t /\
     find_task pid (tr_task_id r) d' = Some r /\ tr_status r = RUNNING /\
     tr_attempts r = (tr_attempts t + 1)%Z /\ attempt_recorded now r d') /\
  (forall t, t ∈ plan_tasks pid d -> claimable pid d t -> tr_task_id t ∉ map tr_task_id l ->
     length l = Z.to_nat (Z.max 1 limit) /\ forall r, r ∈ l -> claim_le (row_key r) (row_key t)).
Proof.
  intros Hw H. destruct (sql_claim_shape _ _ _ _ _ _ Hw H) as (Hk & Hrows & _ & _).
  assert (Hlen : length l = length (chosen_for pid limit d)) by (by rewrite <- Hk, length_map).
  split_and!.
  - rewrite Hlen. unfold chosen_for, batch_size. rewrite length_take. lia.
  - rewrite Hk. apply (sort_by_take_sorted id claim_le).
  - intros r Hr. destruct (Hrows r Hr) as (t & Ht & -> & Hf & Ha). exists t.
    assert (Hc : row_key (claim_row t) ∈ chosen_for pid limit d)
      by (rewrite <- Hk; apply list_elem_of_fmap; by exists (claim_row t)).
    destruct (chosen_claimable uuid4 _ _ _ _ Hw Hc) as (t' & Ht' & Hcl & _). simpl in Ht', Ht.
    rewrite Ht in Ht'. injection Ht' as <-. done.
  - intros t (Hp & Ht)%list_elem_of_filter Hcl Hn.
    assert (Hcand : row_key t ∈ candidates (snapshot_tasks pid d)).
    { apply (candidates_elem uuid4); [done|]. exists t. split; [|done]. rewrite <- Hp. by eapply find_task_elem. }
    assert (Hni : row_key t ∉ chosen_for pid limit d).
    { rewrite <- Hk. intros (r & Heq & Hr)%list_elem_of_fmap. apply Hn. injection Heq as _ ->.
      apply list_elem_of_fmap. by exists r. }
    split.
    + rewrite Hlen. destruct (decide (length (chosen_for pid limit d) < batch_size limit)) as [Hlt|Hge].
      * exfalso. apply Hni. by apply (sort_by_take_all id claim_le).
      * unfold chosen_for in *. rewrite length_take in *. unfold batch_size in *. lia.
    + intros r Hr. assert (Hc : row_key r ∈ chosen_for pid limit d)
        by (rewrite <- Hk; apply list_elem_of_fmap; by exists r).
      by destruct (sort_by_take_least id claim_le _ _ _ _ Hc Hcand).
Qed.

(** ** Two behaviours the code has *)

Lemma snap_dependencies_keys x tasks rs :
  x ∈ od_keys (foldl snap_dependency tasks rs) <-> x ∈ od_keys tasks \/ x ∈ map dr_task_id rs.
Proof.
  revert tasks. induction rs as [|r rs IH]; intros tasks; simpl; [set_solver|].
  rewrite IH. unfold snap_dependency. rewrite od_keys_set_elem. set_solver.
Qed.

Lemma dead_deps_kept pid patch why inv d d' x :
  rows_wf uuid4 d -> make_patch patch = Ok patch -> apply_patch_sql uuid4 pid patch why inv d = (Ok tt, d') ->
  x ∈ pp_remove_task_ids patch -> find_task pid x d' = None /\ deps_of pid d' x = deps_of pid d x.
Proof.
  intros Hw Hmk H Hx. apply make_patch_Ok in Hmk as (_ & Hnd & Hrm).
  destruct (apply_patch_sql_Ok _ uuid4_unique _ _ _ _ _ _ _ Hw Hnd Hrm H) as (plan & _ & _ & _ & _ & Hp).
  destruct (sp_kept _ _ _ _ _ _ Hp x (Hrm x Hx)) as [Hf Hd]. by rewrite decide_True in Hf.
Qed.

(** Removing a task that had dependencies leaves its dependency rows
    behind, and every later snapshot of the plan lists the removed task as an
    entry without any column but its dependencies. *)
Theorem sql_removed_task_in_snapshot pid patch why inv d d' x :
  rows_wf uuid4 d -> make_patch patch = Ok patch -> apply_patch_sql uuid4 pid patch why inv d = (Ok tt, d') ->
  x ∈ pp_remove_task_ids patch -> deps_of pid d x ≠ [] ->
  exists s, od_get x (snapshot_tasks pid d') = Some s /\ sn_row s = None /\ td_status s = None.
Proof.
  intros Hw Hmk H Hx Hdeps. destruct (dead_deps_kept _ _ _ _ _ _ _ Hw Hmk H Hx) as [Hf Hd].
  assert (Hw' : rows_wf uuid4 d') by (by apply (run_sql_moves (SqlPatch pid patch why inv) d d')).
  rewrite <- Hd in Hdeps. destruct (od_get x (snapshot_tasks pid d')) as [s|] eqn:Es.
  - exists s. assert (Hn : sn_row s = None); [|split_and!; [done|done|by simpl; rewrite Hn]].
    destruct (sn_row s) as [r|] eqn:Er; [|done]. by rewrite (snapshot_row uuid4 _ _ _ _ _ Hw' Es Er) in Hf.
  - exfalso. unfold snapshot_tasks in Es. rewrite snap_needs_get in Es.
    destruct (od_get x (foldl snap_dependency _ _)) as [t|] eqn:Ed; [done|].
    apply od_get_None in Ed. apply Ed. apply snap_dependencies_keys. right.
    unfold deps_of in Hdeps. destruct (filter _ (plan_dependencies pid d')) as [|r rs] eqn:Ef; [done|].
    assert (Hr : r ∈ r :: rs) by left. rewrite <- Ef in Hr. apply list_elem_of_filter in Hr as [<- Hr].
    apply list_elem_of_fmap. by exists r.
Qed.
End Sql.

(** ** A concrete run *)

Definition ex_uuid (i : nat) : Z := Z.of_nat i.

Lemma ex_uuid_unique i j : ex_uuid i = ex_uuid j -> i = j.
Proof. unfold ex_uuid. lia. Qed.

Definition sx_task (id : string) (deps : list string) : PlannedTask :=
  mkPlannedTask id "agent" "intent" "instructions" [] [] deps [] CONTINUE.
Definition sx_patch (rev : Z) (d : PlannerDecisionKind) (ts : list PlannedTask) (rm : list string) : PlanPatch :=
  mkPlanPatch rev d None ts rm None None None "" None.
Definition sx_first : PlanPatch := sx_patch 0 CREATE_PLAN [sx_task "b" ["a"]; sx_task "a" []] [].
Definition sx_done : AgentTaskResult := mkAgentTaskResult OutCOMPLETED "done" [] [] [] None [].

(** The plan [0] with its two tasks; task [a] claimed; task [a] completed. *)
Definition sx_created : Db := (run_sql ex_uuid (SqlCreate "goal" 7 1 None) empty_db).2.
Definition sx_planned : Db := (run_sql ex_uuid (SqlPatch 0 sx_first "planner" None) sx_created).2.
Definition sx_claimed : Db := (run_sql ex_uuid (SqlClaim 5 0 1) sx_planned).2.
Definition sx_completed : Db := (run_sql ex_uuid (SqlResult 0 "a" sx_done) sx_claimed).2.

Ltac sql_run op := apply (sql_returns ex_uuid _ _ op); [vm_compute; try done; reflexivity|vm_compute; reflexivity].

Lemma sx_planned_reachable : rtc (sql_step ex_uuid) empty_db sx_planned.
Proof.
  apply rtc_l with sx_created; [sql_run (SqlCreate "goal" 7 1 None)|].
  apply rtc_once. sql_run (SqlPatch 0 sx_first "planner" None).
Qed.

Lemma sx_completed_reachable : rtc (sql_step ex_uuid) sx_planned sx_completed.
Proof.
  apply rtc_l with sx_claimed; [sql_run (SqlClaim 5 0 1)|].
  apply rtc_once. sql_run (SqlResult 0 "a" sx_done).
Qed.

Lemma sx_planned_sound : db_sound ex_uuid sx_planned.
Proof. exact (sql_reachable_sound ex_uuid ex_uuid_unique _ sx_planned_reachable). Qed.



Lemma sql_patch_atomic_witness :
  exists e d', apply_patch_sql ex_uuid 0 (sx_patch 1 REVISE_PLAN [sx_task "a" []] []) "planner" None sx_claimed
    = (Err e, d') /\ d' = sx_claimed.
Proof.
  destruct (apply_patch_sql ex_uuid 0 (sx_patch 1 REVISE_PLAN [sx_task "a" []] []) "planner" None sx_claimed)
    as [[u|e] d'] eqn:H; [vm_compute in H; discriminate|].
  exists e, d'. split; [reflexivity|]. exact (proj1 (sql_patch_atomic ex_uuid _ _ _ _ _ _ _ H)).
Defined.

Lemma sql_patch_effect_witness :
  exists plan', find_plan 0 sx_planned = Some plan' /\ pr_revision plan' = 1%Z /\ pr_status plan' = PlanACTIVE.
Proof.
  destruct (find_plan 0 sx_created) as [plan|] eqn:Hp; [|vm_compute in Hp; discriminate].
  assert (Hr : pr_revision plan = 0%Z) by (vm_compute in Hp; injection Hp as <-; reflexivity).
  destruct (sql_patch_effect ex_uuid ex_uuid_unique 0 sx_first "planner" None sx_created sx_planned plan)
    as (_ & (plan' & H1 & H2 & H3) & _).
  - apply (sql_reachable_sound ex_uuid ex_uuid_unique), rtc_once. sql_run (SqlCreate "goal" 7 1 None).
  - vm_compute; reflexivity.
  - exact Hp.
  - vm_compute; reflexivity.
  - exists plan'. split; [exact H1|]. split; [rewrite H2, Hr; reflexivity|exact H3].
Defined.

Lemma sql_claim_batch_witness :
  exists l, claim_ready_batch_sql ex_uuid 5 0 1 sx_planned = (Ok l, sx_claimed) /\
    map tr_task_id l = ["a"] /\ length l <= 1.
Proof.
  destruct (claim_ready_batch_sql ex_uuid 5 0 1 sx_planned) as [[l|e] d'] eqn:H; [|vm_compute in H; discriminate].
  pose proof (sql_claim_batch ex_uuid 5 0 1 sx_planned l d' (proj1 sx_planned_sound) H) as (Hl & _).
  exists l. split.
  - unfold sx_claimed, run_sql, mbind, py_bind. rewrite H. reflexivity.
  - split; [vm_compute in H; injection H as <- _; reflexivity|exact Hl].
Defined.

Lemma sql_removed_task_in_snapshot_witness :
  exists s, od_get "b" (snapshot_tasks 0
      (apply_patch_sql ex_uuid 0 (sx_patch 1 REVISE_PLAN [] ["b"]) "planner" None sx_planned).2) = Some s /\
    sn_row s = None.
Proof.
  destruct (sql_removed_task_in_snapshot ex_uuid ex_uuid_unique 0 (sx_patch 1 REVISE_PLAN [] ["b"]) "planner" None
      sx_planned (apply_patch_sql ex_uuid 0 (sx_patch 1 REVISE_PLAN [] ["b"]) "planner" None sx_planned).2 "b")
    as (s & Hs & Hr & _).
  - exact (proj1 sx_planned_sound).
  - vm_compute; reflexivity.
  - vm_compute; reflexivity.
  - left.
  - vm_compute. discriminate.
  - exists s. split; [exact Hs|exact Hr].
Defined.
