(* ===== verification/Budgets.v ===== *)
(** * Budgets

    Models the persisted budget ledger of [app/services/runtime_budget_service.py]
    (Module Service) and the in-process one of [app/runtime/budgets/]: the
    limits of [schema.py] and [resolver.py], the per-entity counters and the
    run-wide registry of [ledger.py] (Module Ledger). *)
From S2P Require Import Prelude.

(** ** The persisted ledger *)
Module Service.

(** [RuntimeBudgetCounter], unique per owner and metric. *)
Record Counter := mkCounter {
  bc_run_id : Z;
  bc_owner_type : string;
  bc_owner_id : string;
  bc_metric : string;
  bc_consumed : Z;
  bc_limit_value : option Z
}.

(** [RuntimeBudgetEntry], the append-only journal. *)
Record Entry := mkEntry {
  be_run_id : Z;
  be_owner_type : string;
  be_owner_id : string;
  be_metric : string;
  be_delta : Z;
  be_before : Z;
  be_after : Z;
  be_limit_value : option Z;
  be_reason : string
}.

Inductive budget_event :=
| BudgetRejected (owner_type owner_id metric : string) (consumed : Z) (limit : Z)
| BudgetConsumed (owner_type owner_id metric : string) (delta consumed : Z) (limit : option Z) (reason : string).

Record BudgetState := mkBudgetState {
  bs_counters : list Counter;
  bs_entries : list Entry;
  bs_events : list budget_event
}.

Definition empty_budget : BudgetState := mkBudgetState [] [] [].

Record BudgetDecision := mkBudgetDecision {
  bd_allowed : bool;
  bd_metric : string;
  bd_consumed : Z;
  bd_limit : option Z;
  bd_reason : string
}.

Definition same_counter (owner_type owner_id metric : string) (c : Counter) : bool :=
  bool_decide (bc_owner_type c = owner_type) && bool_decide (bc_owner_id c = owner_id)
  && bool_decide (bc_metric c = metric).

Definition find_counter (owner_type owner_id metric : string) (s : BudgetState) : option Counter :=
  List.find (same_counter owner_type owner_id metric) (bs_counters s).

Definition counter_with (consumed : Z) (limit : option Z) (c : Counter) : Counter :=
  mkCounter (bc_run_id c) (bc_owner_type c) (bc_owner_id c) (bc_metric c) consumed limit.

Definition put_counter (owner_type owner_id metric : string) (f : Counter -> Counter) (l : list Counter)
  : list Counter :=
  map (fun c => if same_counter owner_type owner_id metric c then f c else c) l.

(** The counter row, created when it is missing; an explicit limit replaces the
    stored one. *)
Definition obtain_counter (run_id : Z) (owner_type owner_id metric : string) (limit : option Z)
    (s : BudgetState) : Counter * list Counter :=
  match find_counter owner_type owner_id metric s with
  | None =>
      let c := mkCounter run_id owner_type owner_id metric 0 limit in
      (c, bs_counters s ++ [c])
  | Some c =>
      match limit with
      | Some _ =>
          (counter_with (bc_consumed c) limit c,
           put_counter owner_type owner_id metric (fun c => counter_with (bc_consumed c) limit c) (bs_counters s))
      | None => (c, bs_counters s)
      end
  end.

Definition exceeds (after : Z) (limit : option Z) : option Z :=
  match limit with Some l => if (l <? after)%Z then Some l else None | None => None end.

Definition consume (run_id : Z) (owner_type owner_id metric : string) (amount : Z) (limit : option Z)
    (reason : string) (s : BudgetState) : BudgetDecision * BudgetState :=
  if (amount <=? 0)%Z then (mkBudgetDecision true metric 0 limit reason, s) else
  let '(counter, counters) := obtain_counter run_id owner_type owner_id metric limit s in
  let before := bc_consumed counter in
  let after := (before + amount)%Z in
  match exceeds after (bc_limit_value counter) with
  | Some l =>
      (mkBudgetDecision false metric before (Some l) "budget_exceeded",
       mkBudgetState counters (bs_entries s)
         (bs_events s ++ [BudgetRejected owner_type owner_id metric before l]))
  | None =>
      (mkBudgetDecision true metric after (bc_limit_value counter) reason,
       mkBudgetState
         (put_counter owner_type owner_id metric (fun c => counter_with after (bc_limit_value c) c) counters)
         (bs_entries s ++ [mkEntry run_id owner_type owner_id metric amount before after (bc_limit_value counter) reason])
         (bs_events s ++ [BudgetConsumed owner_type owner_id metric amount after (bc_limit_value counter) reason]))
  end.

(** What has been consumed of a metric. *)
Definition consumed (owner_type owner_id metric : string) (s : BudgetState) : Z :=
  match find_counter owner_type owner_id metric s with Some c => bc_consumed c | None => 0 end.

(** The journal's total for a metric. *)
Definition journalled (owner_type owner_id metric : string) (s : BudgetState) : Z :=
  foldr (fun e t => be_delta e + t)%Z 0%Z
    (List.filter (fun e => bool_decide (be_owner_type e = owner_type) && bool_decide (be_owner_id e = owner_id)
                           && bool_decide (be_metric e = metric)) (bs_entries s)).

(** ** Lemmas *)

Lemma same_counter_spec ot oi m c :
  same_counter ot oi m c = true <-> bc_owner_type c = ot /\ bc_owner_id c = oi /\ bc_metric c = m.
Proof. unfold same_counter. rewrite !andb_true_iff, !bool_decide_eq_true. tauto. Qed.

Lemma find_put_counter ot oi m f l ot' oi' m' :
  (forall c, same_counter ot' oi' m' (f c) = same_counter ot' oi' m' c) ->
  List.find (same_counter ot' oi' m') (put_counter ot oi m f l)
  = (fun c => if same_counter ot oi m c then f c else c) <$> List.find (same_counter ot' oi' m') l.
Proof.
  intros Hf. unfold put_counter. induction l as [|c l IH]; simpl; [done|].
  replace (same_counter ot' oi' m' (if same_counter ot oi m c then f c else c))
    with (same_counter ot' oi' m' c) by (destruct (same_counter ot oi m c); by rewrite ?Hf).
  by destruct (same_counter ot' oi' m' c).
Qed.

Lemma find_counter_same ot oi m s c : find_counter ot oi m s = Some c -> same_counter ot oi m c = true.
Proof. intros H. by apply find_some in H as [_ H]. Qed.

Lemma same_counter_other ot oi m ot' oi' m' c :
  same_counter ot oi m c = true -> (ot', oi', m') ≠ (ot, oi, m) -> same_counter ot' oi' m' c = false.
Proof.
  intros H Hne. destruct (same_counter ot' oi' m' c) eqn:E; [|done].
  apply same_counter_spec in H as (<- & <- & <-), E as (? & ? & ?). exfalso. apply Hne. congruence.
Qed.

(** The counter a call works on: its amount is what was consumed before, and no
    other counter's amount changes. *)
Lemma obtain_counter_spec run ot oi m limit s c cs :
  obtain_counter run ot oi m limit s = (c, cs) ->
  List.find (same_counter ot oi m) cs = Some c /\ bc_consumed c = consumed ot oi m s /\
  (forall l, limit = Some l -> bc_limit_value c = Some l) /\
  forall ot' oi' m', (ot', oi', m') ≠ (ot, oi, m) ->
    List.find (same_counter ot' oi' m') cs = find_counter ot' oi' m' s.
Proof.
  unfold obtain_counter, consumed. destruct (find_counter ot oi m s) as [c0|] eqn:Hf.
  - pose proof (find_counter_same _ _ _ _ _ Hf) as Hsame. destruct limit as [l|]; intros [= <- <-].
    + rewrite find_put_counter by done. unfold find_counter in Hf. rewrite Hf. simpl. rewrite Hsame.
      split_and!; [done|done|done|]. intros ot' oi' m' Hne. rewrite find_put_counter by done.
      unfold find_counter. destruct (List.find (same_counter ot' oi' m') (bs_counters s)) as [c'|] eqn:E; [|done]. simpl.
      apply (find_counter_same ot' oi' m') in E.
      destruct (same_counter ot oi m c') eqn:E2; [|done].
      by rewrite (same_counter_other _ _ _ _ _ _ _ E2 Hne) in E.
    + split_and!; done.
  - intros [= <- <-]. assert (Hn : same_counter ot oi m (mkCounter run ot oi m 0 limit) = true)
      by (by apply same_counter_spec). split_and!; [|done|by intros l [= ->]|].
    + unfold find_counter in Hf. clear -Hf Hn. induction (bs_counters s) as [|a l IH]; simpl in *; [by rewrite Hn|].
      destruct (same_counter ot oi m a); [done|auto].
    + intros ot' oi' m' Hne. unfold find_counter.
      pose proof (same_counter_other _ _ _ _ _ _ _ Hn Hne) as Ho. clear -Ho.
      induction (bs_counters s) as [|a l IH]; simpl; [by rewrite Ho|]. by destruct (same_counter ot' oi' m' a).
Qed.

(** What one call does, on every path. *)
Lemma consume_spec run ot oi m amount limit why s d s' :
  consume run ot oi m amount limit why s = (d, s') ->
  (forall ot' oi' m', (ot', oi', m') ≠ (ot, oi, m) -> consumed ot' oi' m' s' = consumed ot' oi' m' s /\
     journalled ot' oi' m' s' = journalled ot' oi' m' s) /\
  consumed ot oi m s' = (if bd_allowed d && (0 <? amount)%Z then consumed ot oi m s + amount else consumed ot oi m s)%Z /\
  journalled ot oi m s' = (if bd_allowed d && (0 <? amount)%Z then journalled ot oi m s + amount else journalled ot oi m s)%Z /\
  (forall l, limit = Some l -> (0 < amount)%Z -> bd_allowed d = true <-> (consumed ot oi m s + amount <= l)%Z).
Proof.
  unfold consume. destruct (Z.leb_spec amount 0) as [Hle|Hlt].
  { intros [= <- <-]. simpl. destruct (Z.ltb_spec 0 amount); [lia|]. split_and!; try done. lia. }
  destruct (obtain_counter _ _ _ _ _ _) as [c cs] eqn:Ho.
  destruct (obtain_counter_spec _ _ _ _ _ _ _ _ Ho) as (Hc & Hcons & Hlim & Hother).
  assert (Hltb : (0 <? amount)%Z = true) by (by apply Z.ltb_lt).
  destruct (exceeds _ _) as [l|] eqn:Hex; intros [= <- <-]; simpl; rewrite ?Hltb.
  - split_and!.
    + intros ot' oi' m' Hne. unfold consumed, find_counter at 1. simpl. by rewrite Hother.
    + unfold consumed at 1, find_counter. simpl. by rewrite Hc.
    + done.
    + intros l' Hl _. split; [done|]. intros Hok. exfalso. unfold exceeds in Hex.
      rewrite (Hlim _ Hl) in Hex. destruct (Z.ltb_spec l' (bc_consumed c + amount)); [lia|done].
  - split_and!.
    + intros ot' oi' m' Hne. unfold consumed, find_counter at 1, journalled. simpl. split.
      * rewrite find_put_counter by done. rewrite Hother by done. unfold find_counter.
        destruct (List.find (same_counter ot' oi' m') (bs_counters s)) as [c'|] eqn:E; [|done]. simpl.
        apply (find_counter_same ot' oi' m') in E. destruct (same_counter ot oi m c') eqn:E2; [|done].
        by rewrite (same_counter_other _ _ _ _ _ _ _ E2 Hne) in E.
      * rewrite List.filter_app. simpl.
        destruct (bool_decide (ot = ot') && bool_decide (oi = oi') && bool_decide (m = m')) eqn:E.
        { exfalso. rewrite !andb_true_iff, !bool_decide_eq_true in E. apply Hne. naive_solver. }
        by rewrite app_nil_r.
    + unfold consumed at 1, find_counter. simpl. rewrite find_put_counter, Hc by done. simpl.
      assert (Hs : same_counter ot oi m c = true) by (by apply find_some in Hc as [_ ?]).
      rewrite Hs. simpl. lia.
    + unfold journalled. simpl. rewrite List.filter_app. simpl. rewrite !bool_decide_eq_true_2 by done. simpl.
      rewrite foldr_app. simpl. generalize (List.filter (fun e => bool_decide (be_owner_type e = ot)
        && bool_decide (be_owner_id e = oi) && bool_decide (be_metric e = m)) (bs_entries s)) as es.
      intros es. induction es as [|e es IH]; simpl; lia.
    + intros l Hl _. split; [|done]. intros _. unfold exceeds in Hex. rewrite (Hlim _ Hl) in Hex.
      destruct (Z.ltb_spec l (bc_consumed c + amount)); [done|]. lia.
Qed.

(** A sequence of calls. *)
Record Call := mkCall {
  ca_run_id : Z; ca_owner_type : string; ca_owner_id : string; ca_metric : string;
  ca_amount : Z; ca_limit : option Z; ca_reason : string
}.

Definition run_call (s : BudgetState) (c : Call) : BudgetState :=
  (consume (ca_run_id c) (ca_owner_type c) (ca_owner_id c) (ca_metric c) (ca_amount c) (ca_limit c) (ca_reason c) s).2.

Definition run_calls (s : BudgetState) (cs : list Call) : BudgetState := foldl run_call s cs.

(** ** Properties *)

Lemma run_call_balanced s c ot oi m :
  consumed ot oi m s = journalled ot oi m s -> consumed ot oi m (run_call s c) = journalled ot oi m (run_call s c).
Proof.
  intros H. unfold run_call. destruct (consume _ _ _ _ _ _ _ s) as [d s'] eqn:E.
  apply consume_spec in E as (Ho & Hc & Hj & _). simpl.
  destruct (decide ((ot, oi, m) = (ca_owner_type c, ca_owner_id c, ca_metric c))) as [Heq|Hne].
  - simplify_eq. rewrite Hc, Hj, H. done.
  - destruct (Ho _ _ _ Hne) as [-> ->]. done.
Qed.

(** The counters and the journal always agree: after any sequence of calls
    the consumed amount of every owner and metric is the sum of its journal
    entries, rejected calls adding nothing. *)
Theorem budget_counter_matches_journal cs ot oi m :
  consumed ot oi m (run_calls empty_budget cs) = journalled ot oi m (run_calls empty_budget cs).
Proof.
  assert (H : forall s, consumed ot oi m s = journalled ot oi m s ->
    consumed ot oi m (run_calls s cs) = journalled ot oi m (run_calls s cs)).
  { induction cs as [|c cs IH]; intros s Hs; simpl; [done|]. by apply IH, run_call_balanced. }
  by apply H.
Qed.

Lemma run_call_bounded l s c ot oi m :
  (ca_owner_type c = ot -> ca_owner_id c = oi -> ca_metric c = m -> ca_limit c = Some l) ->
  (consumed ot oi m s <= Z.max 0 l)%Z -> (consumed ot oi m (run_call s c) <= Z.max 0 l)%Z.
Proof.
  intros Hlim H. unfold run_call. destruct (consume _ _ _ _ _ _ _ s) as [d s'] eqn:E.
  apply consume_spec in E as (Ho & Hc & _ & Ha). simpl.
  destruct (decide ((ot, oi, m) = (ca_owner_type c, ca_owner_id c, ca_metric c))) as [Heq|Hne].
  - simplify_eq. rewrite Hc. destruct (bd_allowed d) eqn:Hd; simpl; [|done].
    destruct (Z.ltb_spec 0 (ca_amount c)); [|done].
    pose proof (proj1 (Ha l (Hlim eq_refl eq_refl eq_refl) ltac:(lia)) eq_refl). lia.
  - by destruct (Ho _ _ _ Hne) as [-> _].
Qed.

(** When every call for an owner and metric names the same limit, the
    consumed amount never exceeds it, whatever the calls for other owners and
    metrics and however often a call is rejected. *)
Theorem budget_never_exceeded cs ot oi m l :
  (forall c, c ∈ cs -> ca_owner_type c = ot -> ca_owner_id c = oi -> ca_metric c = m -> ca_limit c = Some l) ->
  (consumed ot oi m (run_calls empty_budget cs) <= Z.max 0 l)%Z.
Proof.
  intros Hcs. assert (H : forall s, (consumed ot oi m s <= Z.max 0 l)%Z ->
    (consumed ot oi m (run_calls s cs) <= Z.max 0 l)%Z).
  { revert Hcs. induction cs as [|c cs IH]; intros Hcs s Hs; simpl; [done|].
    apply IH; [intros c' Hc'; apply Hcs; by right|]. apply run_call_bounded; [|done]. apply Hcs. by left. }
  apply H. cbv. destruct l; done.
Qed.

Lemma budget_never_exceeded_witness :
  let c := mkCall 1 "run" "r" "plan_revisions" 2 (Some 3%Z) "why" in
  consumed "run" "r" "plan_revisions" (run_calls empty_budget [c; c]) = 2%Z /\
  (consumed "run" "r" "plan_revisions" (run_calls empty_budget [c; c]) <= Z.max 0 3)%Z.
Proof.
  intros c. split; [vm_compute; reflexivity|]. apply (budget_never_exceeded [c; c] "run" "r" "plan_revisions" 3).
  intros c' Hc'. set_solver.
Defined.

End Service.

(** ** The in-process ledger *)
Module Ledger.

(** [EntityLimits] and [RunLimits] have the same fields. *)
Record Limits := mkLimits {
  li_plan_revisions : option Z;
  li_task_attempts : option Z;
  li_agent_runs : option Z;
  li_llm_calls : option Z;
  li_tool_calls : option Z;
  li_tokens_total : option Z;
  li_retries : option Z;
  li_wall_time_ms : option Z;
  li_max_parallel_tasks : option Z
}.

(** [getattr(limits, metric, None)] *)
Definition limit_attr (limits : Limits) (metric : string) : option Z :=
  if bool_decide (metric = "plan_revisions"%string) then li_plan_revisions limits
  else if bool_decide (metric = "task_attempts"%string) then li_task_attempts limits
  else if bool_decide (metric = "agent_runs"%string) then li_agent_runs limits
  else if bool_decide (metric = "llm_calls"%string) then li_llm_calls limits
  else if bool_decide (metric = "tool_calls"%string) then li_tool_calls limits
  else if bool_decide (metric = "tokens_total"%string) then li_tokens_total limits
  else if bool_decide (metric = "retries"%string) then li_retries limits
  else if bool_decide (metric = "wall_time_ms"%string) then li_wall_time_ms limits
  else if bool_decide (metric = "max_parallel_tasks"%string) then li_max_parallel_tasks limits
  else None.

Definition as_entity_limits (l : Limits) : Limits :=
  mkLimits (li_plan_revisions l) (li_task_attempts l) (li_agent_runs l) (li_llm_calls l) (li_tool_calls l)
    (li_tokens_total l) (li_retries l) (li_wall_time_ms l) (li_max_parallel_tasks l).

Inductive budget_error :=
| BudgetExceededError (scope metric : string) (used limit : Z)
| LedgerKeyError (entity_id : string).

Record EntityLedger := mkEntityLedger {
  el_entity_type : string;
  el_entity_id : string;
  el_parent_entity_id : option string;
  el_role : option string;
  el_limits : option Limits;
  el_own : odict Z
}.

Record Registry := mkRegistry {
  rg_run_limits : Limits;
  rg_ledgers : odict EntityLedger;
  rg_emitted : list (string * odict Z * odict Z)     (* entity, own, delta of each snapshot *)
}.

Definition own_of (l : EntityLedger) (metric : string) : Z := default 0%Z (od_get metric (el_own l)).

Definition _limit_of (l : EntityLedger) (metric : string) : option Z :=
  match el_limits l with Some limits => limit_attr limits metric | None => None end.

Definition can_consume (l : EntityLedger) (metric : string) (amount : Z) : bool :=
  match _limit_of l metric with
  | None => true
  | Some limit => (own_of l metric + Z.max 0 amount <=? limit)%Z
  end.

Definition with_own (own : odict Z) (l : EntityLedger) : EntityLedger :=
  mkEntityLedger (el_entity_type l) (el_entity_id l) (el_parent_entity_id l) (el_role l) (el_limits l) own.

Definition ledger_consume (metric : string) (amount : Z) (l : EntityLedger)
  : result budget_error EntityLedger :=
  if (amount <=? 0)%Z then Ok l else
  let next_used := (own_of l metric + amount)%Z in
  match _limit_of l metric with
  | Some limit =>
      if (limit <? next_used)%Z then Err (BudgetExceededError "orchestrator" metric next_used limit)
      else Ok (with_own (od_set metric next_used (el_own l)) l)
  | None => Ok (with_own (od_set metric next_used (el_own l)) l)
  end.

(** [register] returns the existing ledger of an entity unchanged. *)
Definition register (entity_type entity_id : string) (parent_entity_id role : option string)
    (limits : option Limits) : py budget_error Registry EntityLedger :=
  r ← get_state;
  match od_get entity_id (rg_ledgers r) with
  | Some l => mret l
  | None =>
      let l := mkEntityLedger entity_type entity_id parent_entity_id role limits [] in
      _ ← put_state (mkRegistry (rg_run_limits r) (od_set entity_id l (rg_ledgers r)) (rg_emitted r));
      mret l
  end.

(** [out[key] = int(out.get(key, 0)) + int(value)] *)
Definition add_used (out : odict Z) (kv : string * Z) : odict Z :=
  od_set kv.1 (default 0%Z (od_get kv.1 out) + kv.2)%Z out.

Definition aggregated_used (ledgers : odict EntityLedger) : odict Z :=
  foldl (fun out kl => foldl add_used out (el_own kl.2)) [] ledgers.

Definition emit_snapshot (entity_id : string) (delta : odict Z) : py budget_error Registry unit :=
  modify (fun r => match od_get entity_id (rg_ledgers r) with
                   | Some l => mkRegistry (rg_run_limits r) (rg_ledgers r)
                                 (rg_emitted r ++ [(entity_id, el_own l, delta)])
                   | None => r
                   end).

Definition registry_consume (entity_id metric : string) (amount : Z) : py budget_error Registry unit :=
  r ← get_state;
  match od_get entity_id (rg_ledgers r) with
  | None => raise (LedgerKeyError entity_id)
  | Some ledger =>
      match ledger_consume metric amount ledger with
      | Err e => raise e
      | Ok ledger' =>
          let ledgers := od_set entity_id ledger' (rg_ledgers r) in
          _ ← put_state (mkRegistry (rg_run_limits r) ledgers (rg_emitted r));
          let used := default 0%Z (od_get metric (aggregated_used ledgers)) in
          match limit_attr (rg_run_limits r) metric with
          | Some run_limit =>
              if (run_limit <? used)%Z then raise (BudgetExceededError "run" metric used run_limit)
              else emit_snapshot entity_id [(metric, amount)]
          | None => emit_snapshot entity_id [(metric, amount)]
          end
      end
  end.

(** ** The resolver *)

Definition _as_optional_int (value : option Z) : option Z :=
  match value with Some n => if (0 <? n)%Z then Some n else None | None => None end.

(** [limits.max_replans], [max_task_executions], [wall_time_ms_max] and
    [max_parallel_tasks] are what [RuntimeLimitsService] resolved. *)
Definition resolve_run (max_replans max_task_executions wall_time_ms_max max_parallel_tasks : option Z) : Limits :=
  mkLimits (_as_optional_int (Some (default 0 max_replans + 1)%Z)) (_as_optional_int max_task_executions)
    None None None None None (_as_optional_int wall_time_ms_max)
    (Some (default 1%Z (_as_optional_int max_parallel_tasks))).

Definition resolve_orchestrator (llm_calls_max wall_time_ms_max : option Z) : Limits :=
  mkLimits None None None (_as_optional_int llm_calls_max) None None None (_as_optional_int wall_time_ms_max) None.

(** ** Aggregation *)

(** The run's total for a metric, ledger by ledger. *)
Fixpoint total_used (metric : string) (ledgers : odict EntityLedger) : Z :=
  match ledgers with
  | [] => 0
  | (_, l) :: rest => own_of l metric + total_used metric rest
  end%Z.

Definition ledgers_wf (ledgers : odict EntityLedger) : Prop :=
  NoDup (od_keys ledgers) /\ Forall (fun kl => NoDup (od_keys (el_own kl.2))) ledgers.

Lemma add_used_get out kv m :
  default 0%Z (od_get m (add_used out kv))
  = (default 0 (od_get m out) + if decide (m = kv.1) then kv.2 else 0)%Z.
Proof.
  unfold add_used. case_decide as Hm; [subst; by rewrite od_get_set_eq|]. rewrite od_get_set_ne by done. lia.
Qed.

Lemma fold_add_used_get own out m :
  NoDup (od_keys own) ->
  default 0%Z (od_get m (foldl add_used out own)) = (default 0 (od_get m out) + default 0 (od_get m own))%Z.
Proof.
  revert out. induction own as [|[k v] own IH]; intros out; simpl; [lia|].
  rewrite NoDup_cons. intros [Hk Hn]. rewrite IH, add_used_get by done. simpl. case_decide as Hm; [|lia].
  subst. rewrite (proj2 (od_get_None k own)) by done. simpl. lia.
Qed.

Lemma aggregated_used_total ledgers m :
  Forall (fun kl => NoDup (od_keys (el_own kl.2))) ledgers ->
  default 0%Z (od_get m (aggregated_used ledgers)) = total_used m ledgers.
Proof.
  intros H. unfold aggregated_used.
  assert (Hg : forall out, default 0%Z (od_get m (foldl (fun out kl => foldl add_used out (el_own kl.2)) out ledgers))
    = (default 0 (od_get m out) + total_used m ledgers)%Z).
  { induction ledgers as [|[k l] ledgers IH]; intros out; simpl; [lia|].
    inversion H as [|? ? Hl Hr]; subst. rewrite IH, fold_add_used_get by done. unfold own_of. lia. }
  rewrite Hg. done.
Qed.

Lemma total_used_set k l l' ledgers m :
  NoDup (od_keys ledgers) -> od_get k ledgers = Some l ->
  total_used m (od_set k l' ledgers) = (total_used m ledgers - own_of l m + own_of l' m)%Z.
Proof.
  induction ledgers as [|[k0 l0] ledgers IH]; simpl; [done|]. rewrite NoDup_cons. intros [Hk Hn].
  case_decide as Hd; intros Hg; simpl.
  - simplify_eq. lia.
  - rewrite IH by done. lia.
Qed.

Lemma own_of_with own l m : own_of (with_own own l) m = default 0%Z (od_get m own).
Proof. done. Qed.

Lemma ledger_consume_Ok m a l l' :
  ledger_consume m a l = Ok l' ->
  (forall m', m' ≠ m -> own_of l' m' = own_of l m') /\ own_of l' m = (own_of l m + Z.max 0 a)%Z /\
  el_limits l' = el_limits l /\ (NoDup (od_keys (el_own l)) -> NoDup (od_keys (el_own l'))) /\
  (forall limit, _limit_of l m = Some limit -> (0 < a)%Z -> (own_of l' m <= limit)%Z).
Proof.
  unfold ledger_consume. destruct (Z.leb_spec a 0) as [Hle|Hlt].
  { intros [= <-]. split_and!; try done; [lia|]. intros; lia. }
  assert (Hset : forall l', l' = with_own (od_set m (own_of l m + a)%Z (el_own l)) l ->
    (forall m', m' ≠ m -> own_of l' m' = own_of l m') /\ own_of l' m = (own_of l m + Z.max 0 a)%Z /\
    el_limits l' = el_limits l /\ (NoDup (od_keys (el_own l)) -> NoDup (od_keys (el_own l')))).
  { intros ? ->. split_and!; [|rewrite own_of_with, od_get_set_eq; simpl; lia|done|apply od_set_NoDup].
    intros m' Hm'. by rewrite own_of_with, od_get_set_ne. }
  destruct (_limit_of l m) as [limit|].
  - destruct (Z.ltb_spec limit (own_of l m + a)); [done|]. intros [= <-].
    destruct (Hset _ eq_refl) as (H1 & H2 & H3 & H4). split_and!; try done. intros ? [= <-] _. lia.
  - intros [= <-]. destruct (Hset _ eq_refl) as (H1 & H2 & H3 & H4). by split_and!.
Qed.

Lemma ledgers_wf_set k l l' ledgers :
  ledgers_wf ledgers -> od_get k ledgers = Some l -> NoDup (od_keys (el_own l')) -> ledgers_wf (od_set k l' ledgers).
Proof.
  intros [Hn Hf] Hg Hl. split; [by apply od_set_NoDup|]. revert Hf. clear Hn Hg.
  induction ledgers as [|[k0 l0] ledgers IH]; simpl; intros Hf.
  - by repeat constructor.
  - inversion Hf; subst. case_decide; constructor; auto.
Qed.

(** ** Properties *)

(** A successful [consume] adds exactly the amount to the entity's own
    counter and to the run's total, and leaves both within their limits; the
    other metrics are untouched.  Every ledger keeps its limits. *)
Theorem registry_consume_within_limits entity_id m a r r' l :
  ledgers_wf (rg_ledgers r) -> od_get entity_id (rg_ledgers r) = Some l -> (0 < a)%Z ->
  registry_consume entity_id m a r = (Ok tt, r') ->
  ledgers_wf (rg_ledgers r') /\
  total_used m (rg_ledgers r') = (total_used m (rg_ledgers r) + a)%Z /\
  (forall m', m' ≠ m -> total_used m' (rg_ledgers r') = total_used m' (rg_ledgers r)) /\
  (forall limit, limit_attr (rg_run_limits r) m = Some limit -> (total_used m (rg_ledgers r') <= limit)%Z) /\
  exists l', od_get entity_id (rg_ledgers r') = Some l' /\ own_of l' m = (own_of l m + a)%Z /\
    (forall limit, _limit_of l m = Some limit -> (own_of l' m <= limit)%Z).
Proof.
  intros Hw Hl Ha H. unfold registry_consume, mbind, py_bind, get_state in H. simpl in H. rewrite Hl in H.
  destruct (ledger_consume m a l) as [l'|e] eqn:Hc; [|done].
  destruct (ledger_consume_Ok _ _ _ _ Hc) as (Ho & Hm & _ & Hnd & Hlim).
  assert (Hln : NoDup (od_keys (el_own l))).
  { destruct Hw as [_ Hf]. apply od_get_elem in Hl. by apply (proj1 (Forall_forall _ _) Hf _ Hl). }
  pose proof (ledgers_wf_set _ _ _ _ Hw Hl (Hnd Hln)) as Hw'.
  set (ledgers := od_set entity_id l' (rg_ledgers r)) in *. unfold put_state in H. simpl in H.
  assert (Hled : rg_ledgers r' = ledgers /\
    forall limit, limit_attr (rg_run_limits r) m = Some limit -> (total_used m ledgers <= limit)%Z).
  { unfold emit_snapshot, modify in H. simpl in H. rewrite <- (aggregated_used_total ledgers m) by apply Hw'.
    destruct (limit_attr (rg_run_limits r) m) as [run|].
    - destruct (Z.ltb_spec run (default 0%Z (od_get m (aggregated_used ledgers)))); [done|].
      injection H as <-. split; [by destruct (od_get entity_id ledgers)|by intros ? [= <-]].
    - injection H as <-. split; [by destruct (od_get entity_id ledgers)|done]. }
  destruct Hled as [-> Hrun]. split_and!; [done| | |done|].
  - unfold ledgers. rewrite (total_used_set _ l) by (done || apply Hw). rewrite Hm. lia.
  - intros m' Hne. unfold ledgers. rewrite (total_used_set _ l) by (done || apply Hw). rewrite Ho by done. lia.
  - exists l'. split; [apply od_get_set_eq|]. split; [lia|]. intros limit Hlm. by apply (Hlim limit Hlm).
Qed.

Definition ex_limits (revisions : option Z) : Limits := mkLimits revisions None None None None None None None None.
Definition ex_registry : Registry :=
  (register "agent" "e" None None (Some (ex_limits (Some 3%Z))) (mkRegistry (ex_limits (Some 2%Z)) [] [])).2.

Lemma registry_consume_within_limits_witness :
  exists r', registry_consume "e" "plan_revisions" 2 ex_registry = (Ok tt, r') /\
    (total_used "plan_revisions" (rg_ledgers r') <= 2)%Z.
Proof.
  destruct (registry_consume "e" "plan_revisions" 2 ex_registry) as [[[]|e] r'] eqn:H; [|vm_compute in H; discriminate].
  exists r'. split; [reflexivity|].
  destruct (registry_consume_within_limits "e" "plan_revisions" 2 ex_registry r'
    (mkEntityLedger "agent" "e" None None (Some (ex_limits (Some 3%Z))) [])) as (_ & _ & _ & Hlim & _).
  - split; [repeat constructor; set_solver|repeat constructor].
  - reflexivity.
  - reflexivity.
  - exact H.
  - apply Hlim. reflexivity.
Defined.

(** When the run's cap stops a consumption the entity's own limit
    accepted, the consumption stays recorded: the run's total is above the cap
    although the call raised, and nothing is emitted. *)
Theorem registry_run_cap_keeps_consumption entity_id m a r r' l used limit :
  ledgers_wf (rg_ledgers r) -> od_get entity_id (rg_ledgers r) = Some l -> (0 < a)%Z ->
  registry_consume entity_id m a r = (Err (BudgetExceededError "run" m used limit), r') ->
  limit_attr (rg_run_limits r) m = Some limit /\ rg_emitted r' = rg_emitted r /\
  total_used m (rg_ledgers r') = (total_used m (rg_ledgers r) + a)%Z /\
  total_used m (rg_ledgers r') = used /\ (limit < used)%Z.
Proof.
  intros Hw Hl Ha H. unfold registry_consume, mbind, py_bind, get_state in H. simpl in H. rewrite Hl in H.
  destruct (ledger_consume m a l) as [l'|e] eqn:Hc.
  2: { exfalso. unfold raise in H. injection H as -> _. unfold ledger_consume in Hc.
       destruct (_ <=? _)%Z; [done|]. destruct (_limit_of l m); [|done]. by destruct (_ <? _)%Z. }
  destruct (ledger_consume_Ok _ _ _ _ Hc) as (_ & Hm & _ & Hnd & _).
  assert (Hln : NoDup (od_keys (el_own l))).
  { destruct Hw as [_ Hf]. apply od_get_elem in Hl. by apply (proj1 (Forall_forall _ _) Hf _ Hl). }
  pose proof (ledgers_wf_set _ _ _ _ Hw Hl (Hnd Hln)) as Hw'.
  unfold put_state, emit_snapshot, modify, raise in H. simpl in H.
  destruct (limit_attr (rg_run_limits r) m) as [run|]; [|done].
  rewrite (aggregated_used_total _ m) in H by apply Hw'.
  destruct (Z.ltb_spec run (total_used m (od_set entity_id l' (rg_ledgers r)))); [|done].
  injection H as <- <- <-. simpl. split_and!; try done.
  rewrite (total_used_set _ l) by (done || apply Hw). rewrite Hm. lia.
Qed.

Lemma registry_run_cap_keeps_consumption_witness :
  exists r', registry_consume "e" "plan_revisions" 3 ex_registry
      = (Err (BudgetExceededError "run" "plan_revisions" 3 2), r') /\
    total_used "plan_revisions" (rg_ledgers r') = 3%Z.
Proof.
  destruct (registry_consume "e" "plan_revisions" 3 ex_registry) as [o r'] eqn:H. exists r'.
  assert (Ho : o = Err (BudgetExceededError "run" "plan_revisions" 3 2)) by (vm_compute in H; congruence).
  subst o. split; [reflexivity|].
  destruct (registry_run_cap_keeps_consumption "e" "plan_revisions" 3 ex_registry r'
    (mkEntityLedger "agent" "e" None None (Some (ex_limits (Some 3%Z))) []) 3 2) as (_ & _ & _ & Hu & _).
  - split; [repeat constructor; set_solver|repeat constructor].
  - reflexivity.
  - reflexivity.
  - exact H.
  - exact Hu.
Defined.

(** Resolved run limits never forbid the initial plan nor every parallel
    task: the revision limit is the allowed replans plus one, the parallelism is
    at least one, and no limit is zero or negative. *)
Theorem resolve_run_positive replans attempts wall par m l :
  limit_attr (resolve_run replans attempts wall par) m = Some l -> (0 < l)%Z.
Proof.
  unfold limit_attr, resolve_run, _as_optional_int. simpl.
  assert (Hp : forall o : option Z, forall z, (match o with Some n => if (0 <? n)%Z then Some n else None | None => None end)
    = Some z -> (0 < z)%Z).
  { intros [n|] z; [|done]. destruct (Z.ltb_spec 0 n); [|done]. by intros [= <-]. }
  repeat case_bool_decide; try done; try apply Hp.
  - apply (Hp (Some (default 0 replans + 1)%Z)).
  - intros [= <-]. destruct (match par with Some n => _ | None => None end) as [z|] eqn:E; simpl; [|lia].
    by apply Hp in E.
Qed.

Lemma resolve_run_positive_witness :
  limit_attr (resolve_run (Some 0%Z) (Some 0%Z) None (Some (-3)%Z)) "plan_revisions" = Some 1%Z /\ (0 < 1)%Z.
Proof.
  split; [reflexivity|].
  apply (resolve_run_positive (Some 0%Z) (Some 0%Z) None (Some (-3)%Z) "plan_revisions"). reflexivity.
Defined.

End Ledger.
