(* ===== verification/Rbac.v ===== *)
(** * Access-control rules: table, repository, service

    Models [app/models/rbac.py] (the [rbac_rules] table with its constraints),
    [app/repositories/rbac_repository.py], [app/services/rbac_service.py] (rule
    CRUD, binding validation, access check, platform rules) and
    [app/services/rbac_cleanup_service.py].

    String columns are strings, the CHECK constraints are boolean tests on a row,
    and the UNIQUE constraint compares columns the way SQL does: a NULL equals
    nothing.  UUIDs and timestamps are integers; [uuid4 n] and [now n] are the
    values of the [n]-th column default drawn. *)
From S2P Require Import Prelude.

(** ** The table *)

Record RbacRule := {
  rl_id : Z;
  rl_level : string;
  rl_owner_user_id : option Z;
  rl_owner_tenant_id : option Z;
  rl_owner_platform : bool;
  rl_resource_type : string;
  rl_resource_id : Z;
  rl_effect : string;
  rl_created_at : Z;
  rl_created_by_user_id : option Z;
  rl_lifecycle_status : string
}.

#[export] Instance RbacRule_eq_dec : EqDecision RbacRule.
Proof. solve_decision. Defined.

(** The rows the RBAC code reads or writes: the rules, the slug of every agent,
    tool instance and collection by primary key, the user and tenant keys the
    foreign keys refer to, and how many column defaults were drawn. *)
Record RbacDb := {
  rb_rules : list RbacRule;
  rb_agents : dict Z string;
  rb_instances : dict Z string;
  rb_collections : dict Z string;
  rb_users : list Z;
  rb_tenants : list Z;
  rb_clock : nat
}.

Definition set_rules (l : list RbacRule) (db : RbacDb) : RbacDb := {|
  rb_rules := l; rb_agents := rb_agents db; rb_instances := rb_instances db;
  rb_collections := rb_collections db; rb_users := rb_users db;
  rb_tenants := rb_tenants db; rb_clock := rb_clock db |}.

Definition tick (db : RbacDb) : RbacDb := {|
  rb_rules := rb_rules db; rb_agents := rb_agents db; rb_instances := rb_instances db;
  rb_collections := rb_collections db; rb_users := rb_users db;
  rb_tenants := rb_tenants db; rb_clock := S (rb_clock db) |}.

Inductive rbac_exn :=
| ValidationError
| RbacRuleNotFoundError
| IntegrityError
| MultipleResultsFound.

(** [ck_rbac_rule_single_owner] *)
Definition ck_single_owner (r : RbacRule) : bool :=
  (Z.b2z (rl_owner_platform r)
   + Z.b2z (bool_decide (is_Some (rl_owner_user_id r)))
   + Z.b2z (bool_decide (is_Some (rl_owner_tenant_id r))) =? 1)%Z.

(** The four CHECK constraints. *)
Definition ck_rbac_rule (r : RbacRule) : bool :=
  str_in (rl_level r) ["platform"; "tenant"; "user"]
  && str_in (rl_resource_type r) ["agent"; "tool"; "instance"; "collection"; "operation"]
  && str_in (rl_effect r) ["allow"; "deny"]
  && ck_single_owner r.

Definition fk_ok (keys : list Z) (v : option Z) : bool :=
  match v with None => true | Some k => bool_decide (k ∈ keys) end.

(** The foreign keys to [users] and [tenants]. *)
Definition fk_rbac_rule (db : RbacDb) (r : RbacRule) : bool :=
  fk_ok (rb_users db) (rl_owner_user_id r)
  && fk_ok (rb_tenants db) (rl_owner_tenant_id r)
  && fk_ok (rb_users db) (rl_created_by_user_id r).

(** SQL equality of two nullable columns. *)
Definition sql_eq {A} `{EqDecision A} (a b : option A) : bool :=
  match a, b with
  | Some x, Some y => bool_decide (x = y)
  | _, _ => false
  end.

(** [uq_rbac_rule_owner_resource]: two rows conflict when all six columns are
    equal and none of them is NULL. *)
Definition uq_conflict (r r' : RbacRule) : bool :=
  bool_decide (rl_level r = rl_level r')
  && sql_eq (rl_owner_user_id r) (rl_owner_user_id r')
  && sql_eq (rl_owner_tenant_id r) (rl_owner_tenant_id r')
  && bool_decide (rl_owner_platform r = rl_owner_platform r')
  && bool_decide (rl_resource_type r = rl_resource_type r')
  && bool_decide (rl_resource_id r = rl_resource_id r').

(** The database accepts the row [r] next to [others]. *)
Definition row_ok (db : RbacDb) (others : list RbacRule) (r : RbacRule) : bool :=
  ck_rbac_rule r
  && fk_rbac_rule db r
  && negb (existsb (uq_conflict r) others)
  && bool_decide (rl_id r ∉ map rl_id others).

(** [result.scalar_one_or_none()] *)
Definition scalar_one_or_none {A} (l : list A) : result rbac_exn (option A) :=
  match l with
  | [] => Ok None
  | [x] => Ok (Some x)
  | _ => Err MultipleResultsFound
  end.

(** ** [RbacRuleRepository] *)

Definition owned_by_user (u : Z) (r : RbacRule) : bool := bool_decide (rl_owner_user_id r = Some u).
Definition owned_by_tenant (t : Z) (r : RbacRule) : bool := bool_decide (rl_owner_tenant_id r = Some t).
Definition on_resource (rtype : string) (rid : Z) (r : RbacRule) : bool :=
  bool_decide (rl_resource_type r = rtype) && bool_decide (rl_resource_id r = rid).

Definition order_by_created_at (l : list RbacRule) : list RbacRule := sort_by rl_created_at Z.le l.

(** [if resource_type: stmt = stmt.where(...)] *)
Definition type_filter (rtype : option string) (r : RbacRule) : bool :=
  match rtype with
  | Some ty => str_empty ty || bool_decide (rl_resource_type r = ty)
  | None => true
  end.

Definition list_by_user (u : Z) (rtype : option string) (db : RbacDb) : list RbacRule :=
  order_by_created_at
    (List.filter (fun r => owned_by_user u r && type_filter rtype r) (rb_rules db)).

Definition list_by_tenant (t : Z) (rtype : option string) (db : RbacDb) : list RbacRule :=
  order_by_created_at
    (List.filter (fun r => owned_by_tenant t r && type_filter rtype r) (rb_rules db)).

Definition list_platform_rules (rtype : option string) (db : RbacDb) : list RbacRule :=
  order_by_created_at
    (List.filter (fun r => rl_owner_platform r && type_filter rtype r) (rb_rules db)).

Definition _find_user_rule (u : Z) (rtype : string) (rid : Z) (db : RbacDb) :=
  scalar_one_or_none
    (List.filter (fun r => owned_by_user u r && on_resource rtype rid r) (rb_rules db)).

Definition _find_tenant_rule (t : Z) (rtype : string) (rid : Z) (db : RbacDb) :=
  scalar_one_or_none
    (List.filter (fun r => owned_by_tenant t r && on_resource rtype rid r) (rb_rules db)).

Definition _find_platform_rule (rtype : string) (rid : Z) (db : RbacDb) :=
  scalar_one_or_none
    (List.filter (fun r => rl_owner_platform r && on_resource rtype rid r) (rb_rules db)).

(** [check_access]: user, tenant, platform, deny. *)
Definition check_access (u t : Z) (rtype : string) (rid : Z) (db : RbacDb)
    : result rbac_exn string :=
  match _find_user_rule u rtype rid db with
  | Err e => Err e
  | Ok (Some r) => Ok (rl_effect r)
  | Ok None =>
      match _find_tenant_rule t rtype rid db with
      | Err e => Err e
      | Ok (Some r) => Ok (rl_effect r)
      | Ok None =>
          match _find_platform_rule rtype rid db with
          | Err e => Err e
          | Ok (Some r) => Ok (rl_effect r)
          | Ok None => Ok "deny"
          end
      end
  end.

Definition get_by_id (rule_id : Z) (db : RbacDb) : option RbacRule :=
  List.find (fun r => bool_decide (rl_id r = rule_id)) (rb_rules db).

Definition without_id (rule_id : Z) (l : list RbacRule) : list RbacRule :=
  List.filter (fun r => negb (bool_decide (rl_id r = rule_id))) l.

Definition put_rule (r : RbacRule) (l : list RbacRule) : list RbacRule :=
  map (fun x => if decide (rl_id x = rl_id r) then r else x) l.

(** [session.delete(rule)] and the bulk deletes, with their row counts. *)
Definition delete (r : RbacRule) : py rbac_exn RbacDb unit := fun db =>
  (Ok tt, set_rules (without_id (rl_id r) (rb_rules db)) db).

Definition delete_where (p : RbacRule -> bool) : py rbac_exn RbacDb nat := fun db =>
  (Ok (length (List.filter p (rb_rules db))),
   set_rules (List.filter (fun r => negb (p r)) (rb_rules db)) db).

Definition delete_by_user (u : Z) : py rbac_exn RbacDb nat := delete_where (owned_by_user u).
Definition delete_by_tenant (t : Z) : py rbac_exn RbacDb nat := delete_where (owned_by_tenant t).

(** [update(rule)]: flushes the attributes already set on the row object; a
    refused UPDATE leaves the stored row. *)
Definition update (r : RbacRule) : py rbac_exn RbacDb RbacRule := fun db =>
  if row_ok db (without_id (rl_id r) (rb_rules db)) r
  then (Ok r, set_rules (put_rule r (rb_rules db)) db)
  else (Err IntegrityError, db).

(** ** [RbacCleanupService] *)

Definition opt_owner (owner : Z -> RbacRule -> bool) (o : option Z) (r : RbacRule) : bool :=
  match o with Some k => owner k r | None => true end.

Definition remove_rules_for_owner (user tenant : option Z) : py rbac_exn RbacDb nat :=
  match user, tenant with
  | None, None => mret 0
  | _, _ => delete_where (fun r => opt_owner owned_by_user user r && opt_owner owned_by_tenant tenant r)
  end.

Definition remove_rules_for_resource (rtype : string) (rid : Z) : py rbac_exn RbacDb nat :=
  delete_where (on_resource rtype rid).

(** ** [RbacService] *)
Section Service.
Context (uuid4 now : nat -> Z).

(** The row an [INSERT] writes: the column defaults filled in. *)
Definition with_defaults (db : RbacDb) (r : RbacRule) : RbacRule := {|
  rl_id := uuid4 (rb_clock db); rl_level := rl_level r;
  rl_owner_user_id := rl_owner_user_id r; rl_owner_tenant_id := rl_owner_tenant_id r;
  rl_owner_platform := rl_owner_platform r; rl_resource_type := rl_resource_type r;
  rl_resource_id := rl_resource_id r; rl_effect := rl_effect r;
  rl_created_at := now (rb_clock db); rl_created_by_user_id := rl_created_by_user_id r;
  rl_lifecycle_status := "active" |}.

(** [create(rule)]: [session.add], [flush] *)
Definition create (r : RbacRule) : py rbac_exn RbacDb RbacRule := fun db =>
  let row := with_defaults db r in
  if row_ok db (rb_rules db) row
  then (Ok row, tick (set_rules (rb_rules db ++ [row]) db))
  else (Err IntegrityError, tick db).

(** [RbacRule(...)] before the flush: the defaulted columns are not set yet. *)
Definition new_rule (level : string) (user tenant : option Z) (platform : bool)
    (rtype : string) (rid : Z) (effect : string) (created_by : option Z) : RbacRule := {|
  rl_id := 0; rl_level := level; rl_owner_user_id := user; rl_owner_tenant_id := tenant;
  rl_owner_platform := platform; rl_resource_type := rtype; rl_resource_id := rid;
  rl_effect := effect; rl_created_at := 0; rl_created_by_user_id := created_by;
  rl_lifecycle_status := "active" |}.

Definition _validate_resource_binding (rtype : string) (rid : Z) : py rbac_exn RbacDb unit :=
  fun db =>
    if negb (str_in rtype ["agent"; "instance"]) then (Err ValidationError, db)
    else if decide (rtype = "agent") then
      if od_mem rid (rb_agents db) then (Ok tt, db) else (Err ValidationError, db)
    else
      if od_mem rid (rb_collections db) then (Ok tt, db) else (Err ValidationError, db).

Definition get_rule (rule_id : Z) : py rbac_exn RbacDb RbacRule := fun db =>
  match get_by_id rule_id db with
  | None => (Err RbacRuleNotFoundError, db)
  | Some r => (Ok r, db)
  end.

Definition create_rule (level rtype : string) (rid : Z) (effect : string)
    (user tenant : option Z) (platform : bool) (created_by : option Z)
    : py rbac_exn RbacDb RbacRule :=
  _ ← _validate_resource_binding rtype rid;
  create (new_rule level user tenant platform rtype rid effect created_by).

(** [x or y] on an optional string: the empty string is false. *)
Definition str_or (o : option string) (d : string) : string :=
  match o with
  | Some s => if str_empty s then d else s
  | None => d
  end.

Definition update_rule (rule_id : Z) (effect rtype : option string) (rid : option Z)
    : py rbac_exn RbacDb RbacRule :=
  rule ← get_rule rule_id;
  if negb (String.eqb (rl_lifecycle_status rule) "active") then raise ValidationError else
  _ ← _validate_resource_binding (str_or rtype (rl_resource_type rule))
                                 (default (rl_resource_id rule) rid);
  update {|
    rl_id := rl_id rule; rl_level := rl_level rule;
    rl_owner_user_id := rl_owner_user_id rule; rl_owner_tenant_id := rl_owner_tenant_id rule;
    rl_owner_platform := rl_owner_platform rule;
    rl_resource_type := default (rl_resource_type rule) rtype;
    rl_resource_id := default (rl_resource_id rule) rid;
    rl_effect := default (rl_effect rule) effect;
    rl_created_at := rl_created_at rule; rl_created_by_user_id := rl_created_by_user_id rule;
    rl_lifecycle_status := rl_lifecycle_status rule |}.

Definition delete_rule (rule_id : Z) : py rbac_exn RbacDb unit :=
  rule ← get_rule rule_id; delete rule.

Definition find_platform (rtype : string) (rid : Z) : py rbac_exn RbacDb (option RbacRule) :=
  fun db => (_find_platform_rule rtype rid db, db).

Definition ensure_platform_deny (rtype : string) (rid : Z)
    : py rbac_exn RbacDb (option RbacRule) :=
  existing ← find_platform rtype rid;
  match existing with
  | Some _ => mret None
  | None =>
      r ← create (new_rule "platform" None None true rtype rid "deny" None);
      mret (Some r)
  end.

Definition set_platform_effect (rtype : string) (rid : Z) (effect : string)
    : py rbac_exn RbacDb RbacRule :=
  existing ← find_platform rtype rid;
  match existing with
  | Some r =>
      update {|
        rl_id := rl_id r; rl_level := rl_level r;
        rl_owner_user_id := rl_owner_user_id r; rl_owner_tenant_id := rl_owner_tenant_id r;
        rl_owner_platform := rl_owner_platform r; rl_resource_type := rl_resource_type r;
        rl_resource_id := rl_resource_id r; rl_effect := effect;
        rl_created_at := rl_created_at r; rl_created_by_user_id := rl_created_by_user_id r;
        rl_lifecycle_status := rl_lifecycle_status r |}
  | None => create (new_rule "platform" None None true rtype rid effect None)
  end.
End Service.

(** ** The table invariant *)

Definition table_ok (db : RbacDb) : Prop :=
  NoDup (map rl_id (rb_rules db)) /\
  forall r, r ∈ rb_rules db -> ck_rbac_rule r = true /\ fk_rbac_rule db r = true.

(** Exactly one of the three owner queries can return the rule. *)
Definition one_owner (r : RbacRule) : Prop :=
  (rl_owner_platform r = true /\ rl_owner_user_id r = None /\ rl_owner_tenant_id r = None) \/
  (rl_owner_platform r = false /\ is_Some (rl_owner_user_id r) /\ rl_owner_tenant_id r = None) \/
  (rl_owner_platform r = false /\ rl_owner_user_id r = None /\ is_Some (rl_owner_tenant_id r)).

Lemma ck_single_owner_spec r : ck_single_owner r = true <-> one_owner r.
Proof.
  unfold ck_single_owner, one_owner.
  destruct (rl_owner_platform r), (rl_owner_user_id r) as [u|], (rl_owner_tenant_id r) as [t|];
    simpl; (split; [intros H; try discriminate H|intros H]);
    first [reflexivity | by left | by right; left | by right; right
          | exfalso; destruct H as [(?&?&?)|[(?&?&?)|(?&?&?)]]; try done;
            match goal with Hs : is_Some None |- _ => destruct Hs; done end].
Qed.

Lemma ck_rbac_rule_spec r :
  ck_rbac_rule r = true <->
  rl_level r ∈ ["platform"; "tenant"; "user"] /\
  rl_resource_type r ∈ ["agent"; "tool"; "instance"; "collection"; "operation"] /\
  rl_effect r ∈ ["allow"; "deny"] /\ one_owner r.
Proof.
  unfold ck_rbac_rule. rewrite !andb_true_iff, !str_in_spec, ck_single_owner_spec. tauto.
Qed.

(** A row with a single owner has a NULL in the unique key. *)
Lemma uq_conflict_never r r' : one_owner r -> uq_conflict r r' = false.
Proof.
  unfold uq_conflict. intros [(_&Hu&_)|[(_&_&Ht)|(_&Hu&_)]].
  - rewrite Hu. simpl. by rewrite andb_false_r.
  - rewrite Ht. simpl. by rewrite !andb_false_r.
  - rewrite Hu. simpl. by rewrite andb_false_r.
Qed.

Lemma row_ok_spec db others r :
  row_ok db others r = true <->
  ck_rbac_rule r = true /\ fk_rbac_rule db r = true /\ rl_id r ∉ map rl_id others.
Proof.
  unfold row_ok. rewrite !andb_true_iff, negb_true_iff, bool_decide_eq_true.
  split; [tauto|]. intros (Hck & Hfk & Hid). split_and!; try done.
  apply not_true_iff_false. rewrite existsb_elem. intros (r' & _ & Hc).
  rewrite uq_conflict_never in Hc; [done|]. by apply ck_rbac_rule_spec in Hck as (_&_&_&?).
Qed.

Lemma fk_set_rules db l r : fk_rbac_rule (set_rules l db) r = fk_rbac_rule db r.
Proof. done. Qed.

Lemma put_rule_ids r l : map rl_id (put_rule r l) = map rl_id l.
Proof.
  unfold put_rule. rewrite map_map. apply map_ext. intros x. by case_decide.
Qed.

Lemma put_rule_elem r l x : x ∈ put_rule r l -> x = r \/ x ∈ l.
Proof.
  unfold put_rule. rewrite list_elem_of_fmap. intros (y & -> & Hy).
  case_decide; [by left|by right].
Qed.

Lemma put_rule_absent r l : rl_id r ∉ map rl_id l -> put_rule r l = l.
Proof.
  intros Hn. unfold put_rule. rewrite <- (map_id l) at 2. apply map_ext_in.
  intros x Hx%list_elem_of_In. rewrite decide_False; [done|].
  intros He. apply Hn. rewrite <- He. by apply (list_elem_of_fmap_2 rl_id).
Qed.

Lemma ids_inj l (x y : RbacRule) :
  NoDup (map rl_id l) -> x ∈ l -> y ∈ l -> rl_id x = rl_id y -> x = y.
Proof.
  induction l as [|z l IH]; simpl; [set_solver|]. rewrite NoDup_cons, !elem_of_cons.
  intros [Hn Hd] [->|Hx] [->|Hy] He; try done.
  - destruct Hn. rewrite He. by apply (list_elem_of_fmap_2 rl_id).
  - destruct Hn. rewrite <- He. by apply (list_elem_of_fmap_2 rl_id).
  - by apply IH.
Qed.

(** Updating one row commutes with a selection the update does not affect. *)
Lemma filter_put_rule f r x0 l :
  NoDup (map rl_id l) -> x0 ∈ l -> rl_id x0 = rl_id r -> f x0 = f r ->
  List.filter f (put_rule r l) = put_rule r (List.filter f l).
Proof.
  intros Hd Hx0 Hid Hf.
  assert (Hg : forall x, x ∈ l -> f (if decide (rl_id x = rl_id r) then r else x) = f x).
  { intros x Hx. case_decide as Hc; [|done]. rewrite <- Hf. f_equal.
    apply (ids_inj l); congruence. }
  clear Hd Hx0. induction l as [|x l IH]; [done|]. simpl.
  rewrite Hg by left. rewrite IH by (intros; apply Hg; by right).
  destruct (f x); done.
Qed.

Lemma filter_sub_ids f (l : list RbacRule) x :
  x ∈ map rl_id (List.filter f l) -> exists r, r ∈ l /\ f r = true /\ rl_id r = x.
Proof.
  rewrite list_elem_of_fmap. intros (r & -> & [? ?]%elem_of_List_filter). eauto.
Qed.

(** [keeps m]: the computation preserves the table invariant. *)
Definition ok_step : relation RbacDb := fun db db' => table_ok db -> table_ok db'.

#[export] Instance ok_step_preorder : PreOrder ok_step.
Proof. split; [intros x Hx; exact Hx|intros x y z H1 H2 Hx; exact (H2 (H1 Hx))]. Qed.

Create HintDb rbac.

Lemma delete_where_ok p : preserves ok_step (delete_where p).
Proof.
  intros db r db' H. unfold delete_where in H. simplify_eq. intros [Hd Hck]. split; simpl.
  - by apply NoDup_map_filter.
  - intros x [Hx _]%elem_of_List_filter. by apply Hck.
Qed.

Lemma delete_ok r : preserves ok_step (delete r).
Proof.
  intros db res db' H. unfold delete in H. simplify_eq. intros [Hd Hck]. split; simpl.
  - by apply NoDup_map_filter.
  - intros x [Hx _]%elem_of_List_filter. by apply Hck.
Qed.

Lemma update_ok r : preserves ok_step (update r).
Proof.
  intros db res db' H. unfold update in H. destruct (row_ok _ _ _) eqn:E; simplify_eq; [|exact (fun Hok => Hok)].
  apply row_ok_spec in E as (Hck & Hfk & _). intros [Hd Hall]. split; simpl.
  - by rewrite put_rule_ids.
  - intros x Hx. apply put_rule_elem in Hx as [->|Hx]; [done|by apply Hall].
Qed.

#[export] Hint Resolve delete_where_ok delete_ok update_ok : rbac.

Section ServiceProofs.
Context (uuid4 now : nat -> Z).

Lemma create_ok r : preserves ok_step (create uuid4 now r).
Proof.
  intros db res db' H. unfold create in H.
  destruct (row_ok _ _ _) eqn:E; simplify_eq; [|exact (fun Hok => Hok)].
  apply row_ok_spec in E as (Hck & Hfk & Hid). intros [Hd Hall]. split; simpl.
  - rewrite map_app. apply NoDup_app; split_and!; [done| |apply NoDup_singleton].
    intros x Hx Hx'%list_elem_of_singleton. by subst.
  - intros x [Hx| ->%list_elem_of_singleton]%elem_of_app; [by apply Hall|done].
Qed.

Lemma keep_ok {A} (m : py rbac_exn RbacDb A) : (forall s, (m s).2 = s) -> preserves ok_step m.
Proof. apply preserves_keep, _. Qed.

Lemma validate_keeps rtype rid db : (_validate_resource_binding rtype rid db).2 = db.
Proof. unfold _validate_resource_binding. repeat (case_decide || case_match); done. Qed.

Lemma get_rule_keeps i db : (get_rule i db).2 = db.
Proof. unfold get_rule. by destruct (get_by_id i db). Qed.
End ServiceProofs.

#[export] Hint Resolve create_ok keep_ok validate_keeps get_rule_keeps : rbac.

(** ** Operations as steps *)

Inductive rbac_op :=
| OpCreateRule (level rtype : string) (rid : Z) (effect : string)
    (user tenant : option Z) (platform : bool) (created_by : option Z)
| OpUpdateRule (rule_id : Z) (effect rtype : option string) (rid : option Z)
| OpDeleteRule (rule_id : Z)
| OpEnsureDeny (rtype : string) (rid : Z)
| OpSetPlatform (rtype : string) (rid : Z) (effect : string)
| OpDeleteByUser (u : Z)
| OpDeleteByTenant (t : Z)
| OpCleanOwner (user tenant : option Z)
| OpCleanResource (rtype : string) (rid : Z).

Section Steps.
Context (uuid4 now : nat -> Z).

(** The state after an operation, whether it returned or raised. *)
Definition run_op (o : rbac_op) (db : RbacDb) : RbacDb :=
  match o with
  | OpCreateRule l ty rid e u t p cb => (create_rule uuid4 now l ty rid e u t p cb db).2
  | OpUpdateRule i e ty rid => (update_rule i e ty rid db).2
  | OpDeleteRule i => (delete_rule i db).2
  | OpEnsureDeny ty rid => (ensure_platform_deny uuid4 now ty rid db).2
  | OpSetPlatform ty rid e => (set_platform_effect uuid4 now ty rid e db).2
  | OpDeleteByUser u => (delete_by_user u db).2
  | OpDeleteByTenant t => (delete_by_tenant t db).2
  | OpCleanOwner u t => (remove_rules_for_owner u t db).2
  | OpCleanResource ty rid => (remove_rules_for_resource ty rid db).2
  end.

Inductive rbac_step : relation RbacDb :=
| rbac_step_op o db : rbac_step db (run_op o db).

Lemma create_rule_ok l ty rid e u t p cb :
  preserves ok_step (create_rule uuid4 now l ty rid e u t p cb).
Proof.
  apply preserves_bind; [apply _|apply keep_ok, validate_keeps|intros _; apply create_ok].
Qed.

Lemma update_rule_ok i e ty rid : preserves ok_step (update_rule i e ty rid).
Proof.
  apply preserves_bind; [apply _|apply keep_ok, get_rule_keeps|intros r].
  destruct (negb _); [by apply keep_ok|].
  apply preserves_bind; [apply _|apply keep_ok, validate_keeps|intros _; apply update_ok].
Qed.

Lemma ensure_platform_deny_ok ty rid :
  preserves ok_step (ensure_platform_deny uuid4 now ty rid).
Proof.
  apply preserves_bind; [apply _|by apply keep_ok|]. intros [r|]; [by apply keep_ok|].
  apply preserves_bind; [apply _|apply create_ok|intros r; by apply keep_ok].
Qed.

Lemma set_platform_effect_ok ty rid e :
  preserves ok_step (set_platform_effect uuid4 now ty rid e).
Proof.
  apply preserves_bind; [apply _|by apply keep_ok|].
  intros [r|]; [apply update_ok|apply create_ok].
Qed.

Lemma run_op_ok o db : table_ok db -> table_ok (run_op o db).
Proof.
  assert (Hp : forall A (m : py rbac_exn RbacDb A), preserves ok_step m -> table_ok db -> table_ok (m db).2).
  { intros A m Hm. destruct (m db) as [r db'] eqn:E. exact (Hm _ _ _ E). }
  destruct o; cbn [run_op]; apply Hp;
    auto using create_rule_ok, update_rule_ok, ensure_platform_deny_ok, set_platform_effect_ok,
      delete_where_ok.
  - apply preserves_bind; [apply _|apply keep_ok, get_rule_keeps|intros r; apply delete_ok].
  - apply delete_where_ok.
  - apply delete_where_ok.
  - destruct user, tenant; try apply delete_where_ok. by apply keep_ok.
  - apply delete_where_ok.
Qed.

(** Whatever sequence of service calls is made, failing ones included, on
    an initially empty rule table, every stored rule has a unique id, exactly
    one owner, and a level, resource type and effect of the enumerations. *)
Theorem rbac_rules_well_formed db0 db :
  rb_rules db0 = [] -> rtc rbac_step db0 db ->
  NoDup (map rl_id (rb_rules db)) /\
  forall r, r ∈ rb_rules db ->
    one_owner r /\ rl_level r ∈ ["platform"; "tenant"; "user"] /\
    rl_resource_type r ∈ ["agent"; "tool"; "instance"; "collection"; "operation"] /\
    rl_effect r ∈ ["allow"; "deny"].
Proof.
  intros H0 Hs. assert (Hok : table_ok db0).
  { split; rewrite H0; [constructor|set_solver]. }
  clear H0. induction Hs as [db|db1 db2 db3 Hstep _ IH].
  - destruct Hok as [Hd Hck]. split; [done|]. intros r Hr.
    destruct (Hck r Hr) as [Hc _]. apply ck_rbac_rule_spec in Hc. tauto.
  - apply IH. destruct Hstep. by apply run_op_ok.
Qed.
End Steps.

(** ** Creating rules *)

(** The binding [_validate_resource_binding] accepts. *)
Definition binding_ok (db : RbacDb) (rtype : string) (rid : Z) : Prop :=
  (rtype = "agent" /\ rid ∈ od_keys (rb_agents db)) \/
  (rtype = "instance" /\ rid ∈ od_keys (rb_collections db)).

Lemma od_mem_spec {V} (k : Z) (d : dict Z V) : od_mem k d = true <-> k ∈ od_keys d.
Proof.
  unfold od_mem. rewrite <- od_get_is_Some. by destruct (od_get k d).
Qed.

Lemma validate_spec db rtype rid :
  (binding_ok db rtype rid /\ _validate_resource_binding rtype rid db = (Ok tt, db)) \/
  (~ binding_ok db rtype rid /\ _validate_resource_binding rtype rid db = (Err ValidationError, db)).
Proof.
  unfold _validate_resource_binding, binding_ok.
  destruct (str_in rtype _) eqn:Et; simpl.
  - apply str_in_spec in Et. case_decide as Ha.
    + rewrite <- !od_mem_spec. destruct (od_mem rid (rb_agents db)); [left; tauto|right].
      split; [|done]. intros [[_ ?]|[? _]]; congruence.
    + assert (rtype = "instance") as -> by set_solver. rewrite <- !od_mem_spec.
      destruct (od_mem rid (rb_collections db)); [left; tauto|right].
      split; [|done]. intros [[? _]|[_ ?]]; congruence.
  - right. split; [|done]. apply not_true_iff_false in Et. rewrite str_in_spec in Et.
    intros [[-> _]|[-> _]]; apply Et; set_solver.
Qed.

Section Properties.
Context (uuid4 now : nat -> Z).

Lemma create_cases r db :
  let row := with_defaults uuid4 now db r in
  (row_ok db (rb_rules db) row = true /\
   create uuid4 now r db = (Ok row, tick (set_rules (rb_rules db ++ [row]) db))) \/
  (row_ok db (rb_rules db) row = false /\ create uuid4 now r db = (Err IntegrityError, tick db)).
Proof. unfold create. simpl. destruct (row_ok _ _ _); auto. Qed.

(** [create_rule] stores exactly the requested rule when the resource is
    an agent or a collection and the row passes the CHECK constraints and
    foreign keys; otherwise it raises the validation or the integrity error and
    the table keeps its rows.  The unique constraint never plays a part. *)
Theorem create_rule_correct level rtype rid effect user tenant platform created_by db :
  let req := with_defaults uuid4 now db
               (new_rule level user tenant platform rtype rid effect created_by) in
  match create_rule uuid4 now level rtype rid effect user tenant platform created_by db with
  | (Ok row, db') =>
      row = req /\ rb_rules db' = rb_rules db ++ [req] /\ binding_ok db rtype rid /\
      one_owner row /\ level ∈ ["platform"; "tenant"; "user"] /\ effect ∈ ["allow"; "deny"]
  | (Err ValidationError, db') => db' = db /\ ~ binding_ok db rtype rid
  | (Err IntegrityError, db') =>
      rb_rules db' = rb_rules db /\ binding_ok db rtype rid /\
      ~ (ck_rbac_rule req = true /\ fk_rbac_rule db req = true /\
         uuid4 (rb_clock db) ∉ map rl_id (rb_rules db))
  | _ => False
  end.
Proof.
  intros req. unfold create_rule.
  destruct (validate_spec db rtype rid) as [[Hb Hv]|[Hb Hv]].
  2: { by rewrite (bind_run_Err _ _ _ _ _ Hv). }
  rewrite (bind_run_Ok _ _ _ _ _ Hv).
  destruct (create_cases (new_rule level user tenant platform rtype rid effect created_by) db)
    as [[Hok ->]|[Hok ->]]; fold req in Hok |- *.
  - apply row_ok_spec in Hok as (Hck & _ & _). apply ck_rbac_rule_spec in Hck. tauto.
  - split_and!; [done..|]. intros H. apply not_true_iff_false in Hok. apply Hok.
    by apply row_ok_spec.
Qed.

(** The UNIQUE constraint never refuses a rule, since one of its owner
    columns is always NULL: repeating an accepted [create_rule] for a user is
    accepted again, and from then on [check_access] of that user on that
    resource raises [MultipleResultsFound] for every tenant. *)
Theorem duplicate_rule_breaks_access level rtype rid effect u created_by db row db1 :
  (forall m n, uuid4 m = uuid4 n -> m = n) ->
  (forall n, rb_clock db <= n -> uuid4 n ∉ map rl_id (rb_rules db)) ->
  create_rule uuid4 now level rtype rid effect (Some u) None false created_by db = (Ok row, db1) ->
  exists row' db2,
    create_rule uuid4 now level rtype rid effect (Some u) None false created_by db1 = (Ok row', db2) /\
    forall t, check_access u t rtype rid db2 = Err MultipleResultsFound.
Proof.
  intros Hinj Hfresh Hc. unfold create_rule in *.
  destruct (validate_spec db rtype rid) as [[Hb Hv]|[Hb Hv]];
    [|by rewrite (bind_run_Err _ _ _ _ _ Hv) in Hc].
  rewrite (bind_run_Ok _ _ _ _ _ Hv) in Hc.
  set (req := new_rule level (Some u) None false rtype rid effect created_by) in *.
  destruct (create_cases req db) as [[Hok Hr]|[Hok Hr]]; rewrite Hr in Hc; [|done].
  injection Hc as <- <-. set (row := with_defaults uuid4 now db req) in *.
  set (db1 := tick (set_rules (rb_rules db ++ [row]) db)).
  destruct (validate_spec db1 rtype rid) as [[_ Hv1]|[Hb1 _]]; [|by destruct Hb1].
  rewrite (bind_run_Ok _ _ _ _ _ Hv1).
  apply row_ok_spec in Hok as (Hck & Hfk & Hid).
  destruct (create_cases req db1) as [[_ Hr1]|[Hno _]].
  - do 2 eexists. split; [exact Hr1|]. intros t. unfold check_access, _find_user_rule. simpl.
    rewrite !List.filter_app. simpl. unfold owned_by_user, on_resource. simpl.
    rewrite !bool_decide_true by done. simpl.
    by destruct (List.filter _ (rb_rules db)) as [|? [|? ?]].
  - apply not_true_iff_false in Hno. destruct Hno. apply row_ok_spec.
    split_and!; [exact Hck|exact Hfk|]. simpl. rewrite map_app, elem_of_app. simpl.
    intros [H|H%list_elem_of_singleton].
    + by apply (Hfresh (S (rb_clock db))); [lia|].
    + apply Hinj in H. lia.
Qed.

(** ** Platform rules *)

Definition no_own_rule (u t : Z) (rtype : string) (rid : Z) (db : RbacDb) : Prop :=
  forall x, x ∈ rb_rules db -> on_resource rtype rid x = true ->
    rl_owner_user_id x ≠ Some u /\ rl_owner_tenant_id x ≠ Some t.

(** Without rules of its own, a user gets the platform rule's effect. *)
Lemma check_access_platform u t rtype rid db p e :
  rl_effect p = e -> no_own_rule u t rtype rid db ->
  List.filter (fun r => rl_owner_platform r && on_resource rtype rid r) (rb_rules db) = [p] ->
  check_access u t rtype rid db = Ok e.
Proof.
  intros <- Hno Hp. unfold check_access, _find_user_rule, _find_tenant_rule, _find_platform_rule.
  rewrite Hp, !filter_none; [done|..];
    intros x Hx; apply not_true_iff_false; rewrite andb_true_iff; intros [Ho Hr];
    destruct (Hno x Hx Hr); unfold owned_by_user, owned_by_tenant in Ho;
    by rewrite bool_decide_eq_true in Ho.
Qed.

Lemma find_platform_Some rtype rid db p :
  _find_platform_rule rtype rid db = Ok (Some p) ->
  List.filter (fun r => rl_owner_platform r && on_resource rtype rid r) (rb_rules db) = [p].
Proof.
  unfold _find_platform_rule. destruct (List.filter _ _) as [|x [|y l]]; simpl; congruence.
Qed.

Lemma find_platform_None rtype rid db :
  _find_platform_rule rtype rid db = Ok None ->
  List.filter (fun r => rl_owner_platform r && on_resource rtype rid r) (rb_rules db) = [].
Proof.
  unfold _find_platform_rule. destruct (List.filter _ _) as [|x [|y l]]; simpl; congruence.
Qed.

Lemma on_resource_spec rtype rid r :
  on_resource rtype rid r = true <-> rl_resource_type r = rtype /\ rl_resource_id r = rid.
Proof. unfold on_resource. by rewrite andb_true_iff, !bool_decide_eq_true. Qed.

Lemma on_resource_ne r ty i :
  (rl_resource_type r, rl_resource_id r) ≠ (ty, i) -> on_resource ty i r = false.
Proof.
  intros Hne. apply not_true_iff_false. rewrite on_resource_spec. intros [??]. congruence.
Qed.

(** Selecting rows of another resource ignores the update of a row. *)
Lemma filter_put_other f x0 r l :
  NoDup (map rl_id l) -> x0 ∈ l -> rl_id x0 = rl_id r -> f x0 = false -> f r = false ->
  List.filter f (put_rule r l) = List.filter f l.
Proof.
  intros Hd Hx Hid Hf Hr. rewrite (filter_put_rule f r x0 l) by congruence.
  apply put_rule_absent. intros (y & Hy & Hfy & He)%filter_sub_ids.
  assert (y = x0) as -> by (apply (ids_inj l); congruence). congruence.
Qed.

(** The rows of another resource decide as before. *)
Lemma check_access_frame u t rtype rid db db' :
  (forall f, (forall x, f x = true -> on_resource rtype rid x = true) ->
     List.filter f (rb_rules db') = List.filter f (rb_rules db)) ->
  check_access u t rtype rid db' = check_access u t rtype rid db.
Proof.
  intros Hf. unfold check_access, _find_user_rule, _find_tenant_rule, _find_platform_rule.
  rewrite !Hf; [done|..]; intros x; rewrite andb_true_iff; tauto.
Qed.

(** [set_platform_effect] releases or rolls back a resource for everybody
    who has no rule of their own on it, and changes the access to no other
    resource. *)
Theorem platform_effect_decides rtype rid effect db r db' :
  NoDup (map rl_id (rb_rules db)) ->
  set_platform_effect uuid4 now rtype rid effect db = (Ok r, db') ->
  (forall u t, no_own_rule u t rtype rid db -> check_access u t rtype rid db' = Ok effect) /\
  (forall u t ty i, (rtype, rid) ≠ (ty, i) ->
     check_access u t ty i db' = check_access u t ty i db).
Proof.
  intros Hd H. unfold set_platform_effect in H.
  apply bind_Ok in H as (o & db1 & Hf & H). unfold find_platform in Hf.
  injection Hf as Hf <-. destruct o as [x|].
  - apply find_platform_Some in Hf.
    assert (Hx : x ∈ List.filter (fun r => rl_owner_platform r && on_resource rtype rid r) (rb_rules db))
      by (rewrite Hf; by left).
    apply elem_of_List_filter in Hx as [Hx Hpx].
    pose proof Hpx as [_ [Hty Hrid]%on_resource_spec]%andb_true_iff.
    unfold update in H. destruct (row_ok _ _ _) in H; [|done]. injection H as <- <-.
    split.
    + intros u t Hno. eapply check_access_platform; [| |].
      3: { simpl. rewrite (filter_put_rule _ _ x) by done. rewrite Hf. simpl. by rewrite decide_True. }
      * done.
      * intros y Hy Hr. simpl in Hy. apply put_rule_elem in Hy as [->|Hy]; [|by apply Hno].
        apply (Hno x Hx). by apply on_resource_spec.
    + intros u t ty i Hne. apply check_access_frame. intros f Hfi. simpl.
      assert (Hfalse : forall y, (rl_resource_type y, rl_resource_id y) ≠ (ty, i) -> f y = false).
      { intros y Hy. apply not_true_iff_false. intros Hfy%Hfi.
        by rewrite (on_resource_ne _ _ _ Hy) in Hfy. }
      apply (filter_put_other _ x); try done; apply Hfalse; simpl; congruence.
  - apply find_platform_None in Hf.
    destruct (create_cases (new_rule "platform" None None true rtype rid effect None) db)
      as [[_ Hc]|[_ Hc]]; rewrite Hc in H; [|done]. injection H as <- <-. split.
    + intros u t Hno. eapply check_access_platform.
      3: { simpl. rewrite List.filter_app, Hf. simpl. unfold on_resource. simpl.
           by rewrite !bool_decide_true. }
      * done.
      * intros y Hy Hr. simpl in Hy.
        apply elem_of_app in Hy as [Hy| ->%list_elem_of_singleton]; [by apply Hno|done].
    + intros u t ty i Hne. apply check_access_frame. intros f Hfi. simpl.
      rewrite List.filter_app. simpl. destruct (f _) eqn:E; [|by rewrite app_nil_r].
      apply Hfi in E. rewrite on_resource_ne in E; [done|]. simpl. congruence.
Qed.

(** After [ensure_platform_deny] (run whenever an agent is created) the
    resource has exactly one platform rule: a new deny rule, or the one that
    was there; users without a rule of their own get its effect, and a second
    call changes nothing. *)
Theorem ensure_platform_deny_correct rtype rid db o db' :
  ensure_platform_deny uuid4 now rtype rid db = (Ok o, db') ->
  exists p,
    List.filter (fun r => rl_owner_platform r && on_resource rtype rid r) (rb_rules db') = [p] /\
    (o = Some p /\ rl_effect p = "deny" /\ rb_rules db' = rb_rules db ++ [p] \/
     o = None /\ db' = db) /\
    (forall u t, no_own_rule u t rtype rid db -> check_access u t rtype rid db' = Ok (rl_effect p)) /\
    ensure_platform_deny uuid4 now rtype rid db' = (Ok None, db').
Proof.
  intros H. unfold ensure_platform_deny in *.
  assert (Hagain : forall d p,
    List.filter (fun r => rl_owner_platform r && on_resource rtype rid r) (rb_rules d) = [p] ->
    (find_platform rtype rid ≫= fun existing =>
      match existing with
      | Some _ => mret None
      | None => create uuid4 now (new_rule "platform" None None true rtype rid "deny" None)
                  ≫= fun r => mret (Some r)
      end) d = (Ok None, d)).
  { intros d p Hp. unfold find_platform, mbind, py_bind, _find_platform_rule. by rewrite Hp. }
  apply bind_Ok in H as (o' & db1 & Hf & H). unfold find_platform in Hf. injection Hf as Hf <-.
  destruct o' as [x|].
  - apply find_platform_Some in Hf. unfold mret, py_ret in H. injection H as <- <-.
    exists x. split_and!; [done|by right| |by eapply Hagain].
    intros u t Hno. by eapply check_access_platform.
  - apply find_platform_None in Hf. apply bind_Ok in H as (row & db1 & Hc & H).
    destruct (create_cases (new_rule "platform" None None true rtype rid "deny" None) db)
      as [[_ Hcr]|[_ Hcr]]; rewrite Hcr in Hc; [|done]. injection Hc as <- <-.
    unfold mret, py_ret in H. injection H as <- <-.
    set (row := with_defaults _ _ _ _).
    assert (Hp : List.filter (fun r => rl_owner_platform r && on_resource rtype rid r)
                   (rb_rules db ++ [row]) = [row]).
    { rewrite List.filter_app, Hf. simpl. unfold on_resource. simpl. by rewrite !bool_decide_true. }
    exists row. split_and!; [exact Hp|by left| |by eapply Hagain].
    intros u t Hno. eapply check_access_platform; [done| |exact Hp]. intros y Hy Hr. simpl in Hy.
    apply elem_of_app in Hy as [Hy| ->%list_elem_of_singleton]; [by apply Hno|done].
Qed.
End Properties.

(** ** A concrete table *)

Definition rb_example : RbacDb := {|
  rb_rules := []; rb_agents := [(101%Z, "helper")]; rb_instances := [(301%Z, "jira")];
  rb_collections := [(201%Z, "docs")]; rb_users := [1%Z; 2%Z]; rb_tenants := [10%Z];
  rb_clock := 0 |}.

Definition ex_ids (n : nat) : Z := 1000 + Z.of_nat n.
Definition ex_now (n : nat) : Z := Z.of_nat n.

Definition rb_after_deny : RbacDb := run_op ex_ids ex_now (OpEnsureDeny "agent" 101) rb_example.
Definition rb_after_user : RbacDb :=
  run_op ex_ids ex_now (OpCreateRule "user" "agent" 101 "allow" (Some 1%Z) None false None) rb_after_deny.

Lemma rbac_rules_well_formed_witness :
  NoDup (map rl_id (rb_rules rb_after_user)) /\ length (rb_rules rb_after_user) = 2.
Proof.
  split; [|reflexivity].
  apply (rbac_rules_well_formed ex_ids ex_now rb_example rb_after_user eq_refl).
  eapply rtc_l; [apply (rbac_step_op ex_ids ex_now (OpEnsureDeny "agent" 101))|].
  eapply rtc_l; [exact (rbac_step_op ex_ids ex_now (OpCreateRule "user" "agent" 101 "allow" (Some 1%Z) None false None) rb_after_deny)|]. apply rtc_refl.
Defined.

Lemma duplicate_rule_breaks_access_witness :
  exists row' db2,
    create_rule ex_ids ex_now "user" "agent" 101 "allow" (Some 1%Z) None false None rb_after_user
      = (Ok row', db2) /\
    forall t, check_access 1 t "agent" 101 db2 = Err MultipleResultsFound.
Proof.
  eapply (duplicate_rule_breaks_access ex_ids ex_now "user" "agent" 101 "allow" 1 None rb_after_deny).
  - unfold ex_ids. intros m n. lia.
  - intros n Hn. assert (map rl_id (rb_rules rb_after_deny) = [1000%Z]) as -> by reflexivity.
    intros H%list_elem_of_singleton. unfold ex_ids in H.
    assert (rb_clock rb_after_deny = 1) as Hc by reflexivity. rewrite Hc in Hn. lia.
  - vm_compute. reflexivity.
Defined.

Lemma platform_effect_decides_witness :
  check_access 2 10 "agent" 101 (run_op ex_ids ex_now (OpSetPlatform "agent" 101 "allow") rb_after_user)
    = Ok "allow".
Proof.
  destruct (platform_effect_decides ex_ids ex_now "agent" 101 "allow" rb_after_user
    (with_defaults ex_ids ex_now rb_example
       (new_rule "platform" None None true "agent" 101 "allow" None))
    (run_op ex_ids ex_now (OpSetPlatform "agent" 101 "allow") rb_after_user)) as [H _].
  - apply (bool_decide_unpack _). vm_compute. exact I.
  - vm_compute. reflexivity.
  - apply H. intros x Hx _.
    assert (Hall : forallb (fun x => bool_decide (rl_owner_user_id x ≠ Some 2%Z /\ rl_owner_tenant_id x ≠ Some 10%Z))
                     (rb_rules rb_after_user) = true) by (vm_compute; reflexivity).
    rewrite forallb_elem in Hall. apply Hall in Hx. exact (proj1 (bool_decide_eq_true _) Hx).
Defined.

Lemma ensure_platform_deny_correct_witness :
  exists p, check_access 1 10 "agent" 101 rb_after_deny = Ok (rl_effect p) /\ rl_effect p = "deny".
Proof.
  destruct (ensure_platform_deny_correct ex_ids ex_now "agent" 101 rb_example
    (Some (with_defaults ex_ids ex_now rb_example
       (new_rule "platform" None None true "agent" 101 "deny" None))) rb_after_deny)
    as (p & _ & Hp & Hacc & _).
  - vm_compute. reflexivity.
  - exists p. split.
    + apply Hacc. intros x Hx. simpl in Hx. by apply not_elem_of_nil in Hx.
    + destruct Hp as [(_ & H & _)|[H _]]; [exact H|discriminate H].
Defined.
