(* ===== verification/Permissions.v ===== *)
(** * Permission resolution

    Models [app/services/permission_service.py] ([EffectivePermissions], the
    batch slug look-ups, [PermissionService.resolve_permissions] and the quick
    checks) and [app/agents/runtime_rbac_resolver.py] (the runtime facade), over
    the rule table of [Rbac].

    [effective_effect] is the specification: the newest applicable rule of the
    highest priority owner (user, tenant, platform).  The theorems relate the
    slug-keyed result of [resolve_permissions], built by overwriting dictionary
    entries, to it and to [check_access]. *)
From S2P Require Import Prelude Rbac.

(** ** [EffectivePermissions] *)

Record EffectivePermissions := {
  instance_permissions : odict bool;
  agent_permissions : odict bool;
  collection_permissions : odict bool;
  denied_reasons : odict string;
  default_collection_allow : bool
}.

Definition is_instance_allowed (slug : string) (p : EffectivePermissions) : bool :=
  default false (od_get slug (instance_permissions p)).
Definition is_agent_allowed (slug : string) (p : EffectivePermissions) : bool :=
  default false (od_get slug (agent_permissions p)).
Definition is_collection_allowed (slug : string) (p : EffectivePermissions) : bool :=
  default (default_collection_allow p) (od_get slug (collection_permissions p)).

Definition slugs_where (want : bool) (d : odict bool) : list string :=
  map fst (List.filter (fun kv => Bool.eqb kv.2 want) d).
Definition allowed_collections (p : EffectivePermissions) := slugs_where true (collection_permissions p).
Definition get_allowed_instances (p : EffectivePermissions) := slugs_where true (instance_permissions p).
Definition get_denied_instances (p : EffectivePermissions) := slugs_where false (instance_permissions p).
Definition get_allowed_agents (p : EffectivePermissions) := slugs_where true (agent_permissions p).
Definition get_denied_agents (p : EffectivePermissions) := slugs_where false (agent_permissions p).
Definition filter_instances (slugs : list string) (p : EffectivePermissions) :=
  List.filter (fun s => is_instance_allowed s p) slugs.
Definition filter_agents (slugs : list string) (p : EffectivePermissions) :=
  List.filter (fun s => is_agent_allowed s p) slugs.

(** ** Slug look-ups *)

(** [_RESOURCE_SLUG_MODELS] *)
Definition slug_table (rtype : string) (db : RbacDb) : option (dict Z string) :=
  if decide (rtype = "agent") then Some (rb_agents db)
  else if decide (rtype = "instance") then Some (rb_instances db)
  else if decide (rtype = "collection") then Some (rb_collections db)
  else None.

Definition _batch_resolve_slugs (rtype : string) (ids : list Z) (db : RbacDb) : dict Z string :=
  match ids, slug_table rtype db with
  | [], _ | _, None => []
  | _, Some table => od_update [] (filter (fun row => row.1 ∈ ids) table)
  end.

Definition tag_kind (kind : string) (d : dict Z string) : dict Z (string * string) :=
  map (fun kv => (kv.1, (kv.2, kind))) d.

Definition _batch_resolve_resource_targets (rtype : string) (ids : list Z) (db : RbacDb)
    : dict Z (string * string) :=
  match ids with
  | [] => []
  | _ =>
      if decide (rtype = "instance") then
        let collection_slugs := _batch_resolve_slugs "collection" ids db in
        let unresolved := filter (fun rid => od_mem rid collection_slugs = false) ids in
        let instance_slugs := _batch_resolve_slugs "instance" unresolved db in
        od_update (tag_kind "collection" collection_slugs) (tag_kind "instance" instance_slugs)
      else tag_kind rtype (_batch_resolve_slugs rtype ids db)
  end.

(** ** [PermissionService] *)

Notation rule_key := (string * Z)%type (only parsing).
(** (type, id) to (effect, level) *)
Notation resolved_map := (dict (string * Z) (string * string)) (only parsing).

Definition key_of (r : RbacRule) : rule_key := (rl_resource_type r, rl_resource_id r).

(** One of the three loops that overwrite [resolved]. *)
Definition overlay (level : string) (rules : list RbacRule) (resolved : resolved_map) : resolved_map :=
  foldl (fun d r => od_set (key_of r) (rl_effect r, level) d) resolved rules.

Definition rules_for (list_rules : Z -> list RbacRule) (owner : option Z) : list RbacRule :=
  match owner with Some k => list_rules k | None => [] end.

Definition user_rules (u : option Z) (db : RbacDb) := rules_for (fun k => list_by_user k None db) u.
Definition tenant_rules (t : option Z) (db : RbacDb) := rules_for (fun k => list_by_tenant k None db) t.

Definition build_resolved (u t : option Z) (db : RbacDb) : resolved_map :=
  overlay "user" (user_rules u db)
    (overlay "tenant" (tenant_rules t db)
       (overlay "platform" (list_platform_rules None db) [])).

Definition set_add (x : Z) (l : list Z) : list Z := if decide (x ∈ l) then l else l ++ [x].

(** [ids_by_type.setdefault(rtype, set()).add(rid)] *)
Definition build_ids_by_type (resolved : resolved_map) : odict (list Z) :=
  foldl (fun d kv => od_set kv.1.1 (set_add kv.1.2 (default [] (od_get kv.1.1 d))) d) [] resolved.

Definition build_slug_maps (ids_by_type : odict (list Z)) (db : RbacDb)
    : odict (dict Z (string * string)) :=
  foldl (fun d kv => od_set kv.1 (_batch_resolve_resource_targets kv.1 kv.2 db) d) [] ids_by_type.

Definition lookup_target (slug_maps : odict (dict Z (string * string))) (k : rule_key)
    : option (string * string) :=
  od_get k.2 (default [] (od_get k.1 slug_maps)).

Definition denied_reason (level : string) : string :=
  String.append "Denied by RBAC rule (" (String.append level " level)").

(** The body of the last loop, for a key whose target is [slug] of [kind]. *)
Definition apply_effect (slug kind effect level : string) (p : EffectivePermissions)
    : EffectivePermissions :=
  let is_allowed := String.eqb effect "allow" in {|
    instance_permissions :=
      if decide (kind = "instance") then od_set slug is_allowed (instance_permissions p)
      else instance_permissions p;
    agent_permissions :=
      if decide (kind = "agent") then od_set slug is_allowed (agent_permissions p)
      else agent_permissions p;
    collection_permissions :=
      if decide (kind = "collection") then od_set slug is_allowed (collection_permissions p)
      else collection_permissions p;
    denied_reasons :=
      if is_allowed then denied_reasons p
      else od_set slug (denied_reason level) (denied_reasons p);
    default_collection_allow := default_collection_allow p |}.

Definition apply_resolved (slug_maps : odict (dict Z (string * string)))
    (p : EffectivePermissions) (kv : rule_key * (string * string)) : EffectivePermissions :=
  match lookup_target slug_maps kv.1 with
  | None => p
  | Some (slug, kind) => apply_effect slug kind kv.2.1 kv.2.2 p
  end.

Definition no_permissions (default_allow : bool) : EffectivePermissions := {|
  instance_permissions := []; agent_permissions := []; collection_permissions := [];
  denied_reasons := []; default_collection_allow := default_allow |}.

Definition resolve_permissions (u t : option Z) (default_allow : bool) (db : RbacDb)
    : EffectivePermissions :=
  let resolved := build_resolved u t db in
  let slug_maps := build_slug_maps (build_ids_by_type resolved) db in
  foldl (apply_resolved slug_maps) (no_permissions default_allow) resolved.

Definition check_instance_permission (slug : string) (u t : option Z) (db : RbacDb) : bool :=
  is_instance_allowed slug (resolve_permissions u t false db).
Definition check_agent_permission (slug : string) (u t : option Z) (db : RbacDb) : bool :=
  is_agent_allowed slug (resolve_permissions u t false db).

(** ** Specification *)

Definition last_effect (rtype : string) (rid : Z) (rules : list RbacRule) : option string :=
  rl_effect <$> last (List.filter (on_resource rtype rid) rules).

(** The effect the rules give to a resource: the user's newest rule, else the
    tenant's, else the platform's. *)
Definition effective_effect (u t : option Z) (rtype : string) (rid : Z) (db : RbacDb)
    : option string :=
  match last_effect rtype rid (user_rules u db) with
  | Some e => Some e
  | None =>
      match last_effect rtype rid (tenant_rules t db) with
      | Some e => Some e
      | None => last_effect rtype rid (list_platform_rules None db)
      end
  end.

Definition allows (e : option string) : bool := bool_decide (e = Some "allow").

(** The runtime target of a rule's resource. *)
Definition resource_target (k : rule_key) (db : RbacDb) : option (string * string) :=
  if decide (k.1 = "instance") then
    match od_get k.2 (rb_collections db) with
    | Some slug => Some (slug, "collection")
    | None => (fun slug => (slug, "instance")) <$> od_get k.2 (rb_instances db)
    end
  else
    match slug_table k.1 db with
    | Some table => (fun slug => (slug, k.1)) <$> od_get k.2 table
    | None => None
    end.

(** Primary keys and slugs are unique in the three resource tables. *)
Definition tables_ok (db : RbacDb) : Prop :=
  forall rtype table, slug_table rtype db = Some table ->
    NoDup (od_keys table) /\ NoDup (od_values table).

(** ** The overwriting loops *)

Lemma od_get_cons {K V} `{EqDecision K} (k k' : K) (v : V) (d : dict K V) :
  od_get k ((k', v) :: d) = if decide (k = k') then Some v else od_get k d.
Proof. reflexivity. Qed.

Lemma last_effect_app rtype rid l r :
  last_effect rtype rid (l ++ [r]) =
    if on_resource rtype rid r then Some (rl_effect r) else last_effect rtype rid l.
Proof.
  unfold last_effect. rewrite List.filter_app. simpl.
  destruct (on_resource rtype rid r); [by rewrite last_snoc|by rewrite app_nil_r].
Qed.

Lemma overlay_snoc level l r d :
  overlay level (l ++ [r]) d = od_set (key_of r) (rl_effect r, level) (overlay level l d).
Proof. unfold overlay. by rewrite foldl_app. Qed.

Lemma overlay_get level rules d rtype rid :
  od_get (rtype, rid) (overlay level rules d) =
    match last_effect rtype rid rules with
    | Some e => Some (e, level)
    | None => od_get (rtype, rid) d
    end.
Proof.
  induction rules as [|r l IH] using rev_ind; [done|].
  rewrite overlay_snoc, last_effect_app. destruct (on_resource rtype rid r) eqn:E.
  - apply on_resource_spec in E as [<- <-]. unfold key_of. by rewrite od_get_set_eq.
  - rewrite od_get_set_ne; [done|]. unfold key_of. intros [= Hty Hrid].
    apply not_true_iff_false in E. apply E. by apply on_resource_spec.
Qed.

Lemma overlay_NoDup level rules d : NoDup (od_keys d) -> NoDup (od_keys (overlay level rules d)).
Proof.
  intros Hd. induction rules as [|r l IH] using rev_ind; [done|].
  rewrite overlay_snoc. by apply od_set_NoDup.
Qed.

Lemma build_resolved_NoDup u t db : NoDup (od_keys (build_resolved u t db)).
Proof. unfold build_resolved. do 3 apply overlay_NoDup. constructor. Qed.

Lemma build_resolved_get u t db rtype rid :
  fst <$> od_get (rtype, rid) (build_resolved u t db) = effective_effect u t rtype rid db.
Proof.
  unfold build_resolved, effective_effect. rewrite !overlay_get.
  by repeat case_match.
Qed.

(** ** The slug look-ups *)

Lemma set_add_elem x y l : y ∈ set_add x l <-> y = x \/ y ∈ l.
Proof. unfold set_add. case_decide; set_solver. Qed.

Lemma ids_by_type_snoc l kv :
  build_ids_by_type (l ++ [kv]) =
    od_set kv.1.1 (set_add kv.1.2 (default [] (od_get kv.1.1 (build_ids_by_type l))))
      (build_ids_by_type l).
Proof. unfold build_ids_by_type. by rewrite foldl_app. Qed.

Lemma ids_by_type_NoDup l : NoDup (od_keys (build_ids_by_type l)).
Proof.
  induction l as [|kv l IH] using rev_ind; [constructor|].
  rewrite ids_by_type_snoc. by apply od_set_NoDup.
Qed.

Lemma ids_by_type_elem l (rtype : string) (rid : Z) :
  (rtype, rid) ∈ od_keys l ->
  exists ids, od_get rtype (build_ids_by_type l) = Some ids /\ rid ∈ ids.
Proof.
  induction l as [|[[ty i] v] l IH] using rev_ind; [set_solver|].
  unfold od_keys. rewrite map_app, ids_by_type_snoc. simpl.
  rewrite elem_of_app, list_elem_of_singleton. destruct (decide (rtype = ty)) as [->|Hne].
  - rewrite od_get_set_eq. intros H. eexists; split; [done|]. apply set_add_elem.
    destruct H as [H|H]; [right|by left; congruence].
    destruct (IH H) as (ids & -> & ?). done.
  - intros [H|H]; [|congruence]. rewrite od_get_set_ne by done. by apply IH.
Qed.

Lemma slug_maps_get m db rtype ids :
  NoDup (od_keys m) -> od_get rtype m = Some ids ->
  od_get rtype (build_slug_maps m db) = Some (_batch_resolve_resource_targets rtype ids db).
Proof.
  unfold build_slug_maps. induction m as [|[ty ids0] m IH] using rev_ind; [done|].
  unfold od_keys. rewrite map_app, foldl_app. simpl.
  rewrite NoDup_app. intros (Hd & Hnin & _) Hg.
  destruct (decide (rtype = ty)) as [->|Hne].
  - rewrite od_get_set_eq. do 2 f_equal.
    assert (Hm : od_get ty m = None).
    { apply od_get_None. intros H. by apply (Hnin _ H), list_elem_of_singleton. }
    clear -Hg Hm. induction m as [|[ty' is'] m IH]; simpl in *.
    + rewrite decide_True in Hg by done. congruence.
    + case_decide; [done|]. by apply IH.
  - rewrite od_get_set_ne by done. apply IH; [done|].
    clear -Hg Hne. induction m as [|[ty' is'] m IH]; simpl in *.
    + by rewrite decide_False in Hg.
    + case_decide; [done|]. by apply IH.
Qed.

Lemma od_get_of_rows {K V} `{EqDecision K} (k : K) (l : dict K V) :
  NoDup (od_keys l) -> od_get k (od_update [] l) = od_get k l.
Proof.
  intros Hd. destruct (od_get k l) as [v|] eqn:E.
  - apply od_get_elem in E. by apply od_get_update_elem.
  - apply od_get_None in E. by rewrite od_get_update_ne.
Qed.

Lemma batch_resolve_get rtype ids db table rid :
  slug_table rtype db = Some table -> NoDup (od_keys table) ->
  od_get rid (_batch_resolve_slugs rtype ids db) =
    if decide (rid ∈ ids) then od_get rid table else None.
Proof.
  intros Ht Hd. unfold _batch_resolve_slugs. rewrite Ht.
  destruct ids as [|i ids]; [rewrite decide_False by set_solver; done|].
  rewrite od_get_of_rows by by apply od_keys_filter_NoDup.
  exact (od_get_filter_key (fun r => r ∈ i :: ids) rid table).
Qed.

Lemma tag_kind_get kind rid d :
  od_get rid (tag_kind kind d) = (fun slug => (slug, kind)) <$> od_get rid d.
Proof.
  unfold tag_kind. induction d as [|[k v] d IH]; [done|]. simpl. by case_decide.
Qed.

Lemma tag_kind_keys kind d : od_keys (tag_kind kind d) = od_keys d.
Proof. unfold tag_kind, od_keys. by rewrite map_map. Qed.

Lemma od_mem_get {K V} `{EqDecision K} (k : K) (d : dict K V) :
  od_mem k d = false <-> od_get k d = None.
Proof. unfold od_mem. by destruct (od_get k d). Qed.

Lemma batch_resolve_NoDup rtype ids db : NoDup (od_keys (_batch_resolve_slugs rtype ids db)).
Proof.
  unfold _batch_resolve_slugs. destruct ids, (slug_table rtype db);
    try constructor. apply od_update_NoDup. constructor.
Qed.

Lemma targets_get rtype ids db rid :
  tables_ok db -> rid ∈ ids ->
  od_get rid (_batch_resolve_resource_targets rtype ids db) = resource_target (rtype, rid) db.
Proof.
  intros Hok Hin. unfold _batch_resolve_resource_targets, resource_target. simpl.
  destruct ids as [|i ids]; [set_solver|]. set (l := i :: ids) in *. clearbody l.
  case_decide as Hi.
  - destruct (Hok "collection" _ eq_refl) as [Hc _], (Hok "instance" _ eq_refl) as [Hins _].
    pose proof (fun l => batch_resolve_get "collection" l db _ rid eq_refl Hc) as Hgc.
    pose proof (fun l => batch_resolve_get "instance" l db _ rid eq_refl Hins) as Hgi.
    set (un := filter _ l).
    assert (Hun : rid ∈ un <-> od_get rid (rb_collections db) = None).
    { unfold un. rewrite list_elem_of_filter, od_mem_get, Hgc, decide_True by done. tauto. }
    clearbody un.
    assert (Hupd : forall d, od_get rid (od_update d (tag_kind "instance" (_batch_resolve_slugs "instance" un db)))
       = match od_get rid (tag_kind "instance" (_batch_resolve_slugs "instance" un db)) with
         | Some v => Some v | None => od_get rid d end).
    { intros d. destruct (od_get rid (tag_kind _ _)) as [v|] eqn:E.
      - apply od_get_elem in E. apply od_get_update_elem; [|done].
        pose proof (tag_kind_keys "instance" (_batch_resolve_slugs "instance" un db)) as Hk.
        unfold od_keys in Hk at 1. rewrite Hk. apply batch_resolve_NoDup.
      - apply od_get_None in E. by apply od_get_update_ne. }
    rewrite Hupd, !tag_kind_get, Hgc, Hgi, (decide_True (P := rid ∈ l)) by done.
    destruct (od_get rid (rb_collections db)) as [s|] eqn:Ec; simpl.
    + rewrite decide_False by (rewrite Hun; done). done.
    + rewrite decide_True by by apply Hun. simpl. by destruct (od_get rid (rb_instances db)).
  - rewrite tag_kind_get. destruct (slug_table rtype db) as [table|] eqn:Et.
    + destruct (Hok _ _ Et) as [Hd _]. rewrite (batch_resolve_get _ _ _ _ _ Et Hd).
      by rewrite decide_True.
    + unfold _batch_resolve_slugs. rewrite Et. by destruct l.
Qed.

Lemma lookup_target_eq resolved db k :
  tables_ok db -> k ∈ od_keys resolved ->
  lookup_target (build_slug_maps (build_ids_by_type resolved) db) k = resource_target k db.
Proof.
  intros Hok Hk. destruct k as [rtype rid]. unfold lookup_target. simpl.
  destruct (ids_by_type_elem _ _ _ Hk) as (ids & Hids & Hin).
  rewrite (slug_maps_get _ _ _ ids (ids_by_type_NoDup _) Hids). simpl. by apply targets_get.
Qed.

(** ** The result, by kind of target *)

Definition permissions_of (kind : string) (p : EffectivePermissions) : odict bool :=
  if decide (kind = "agent") then agent_permissions p
  else if decide (kind = "instance") then instance_permissions p
  else collection_permissions p.

Definition runtime_kind (kind : string) : Prop := kind ∈ ["agent"; "instance"; "collection"].

(** The entry decides the slug of that kind. *)
Definition targets (db : RbacDb) (slug kind : string) (kv : rule_key * (string * string)) : bool :=
  bool_decide (resource_target kv.1 db = Some (slug, kind)).

Lemma apply_effect_get slug kind s k effect level p :
  runtime_kind kind ->
  od_get slug (permissions_of kind (apply_effect s k effect level p)) =
    if decide (s = slug /\ k = kind) then Some (String.eqb effect "allow")
    else od_get slug (permissions_of kind p).
Proof.
  unfold runtime_kind, permissions_of, apply_effect. intros Hk.
  assert (kind = "agent" \/ kind = "instance" \/ kind = "collection") as Hcase by set_solver.
  destruct (decide (s = slug /\ k = kind)) as [[-> ->]|Hd];
    destruct Hcase as [->|[->| ->]]; simpl;
    try (by rewrite od_get_set_eq); repeat (case_decide; simpl; simplify_eq); try done;
    rewrite od_get_set_ne; try done; intros ->; by destruct Hd.
Qed.

Lemma apply_effect_default s k effect level p :
  default_collection_allow (apply_effect s k effect level p) = default_collection_allow p.
Proof. done. Qed.

Lemma fold_get slug_maps db l p slug kind :
  runtime_kind kind ->
  (forall k, k ∈ od_keys l -> lookup_target slug_maps k = resource_target k db) ->
  od_get slug (permissions_of kind (foldl (apply_resolved slug_maps) p l)) =
    match last (List.filter (targets db slug kind) l) with
    | Some kv => Some (String.eqb kv.2.1 "allow")
    | None => od_get slug (permissions_of kind p)
    end.
Proof.
  intros Hk Hl. induction l as [|kv l IH] using rev_ind; [done|].
  rewrite foldl_app, List.filter_app. simpl. unfold apply_resolved at 1.
  rewrite Hl by (unfold od_keys; rewrite map_app, elem_of_app; right; by left).
  assert (IH' := IH (fun k Hin => Hl k ltac:(unfold od_keys in *; rewrite map_app, elem_of_app; by left))).
  clear IH. unfold targets at 2.
  destruct (resource_target kv.1 db) as [[s k]|] eqn:E.
  - rewrite (apply_effect_get slug kind) by done. case_decide as Hd.
    + destruct Hd as [-> ->]. rewrite bool_decide_true by done. by rewrite last_snoc.
    + rewrite bool_decide_false by (intros [= -> ->]; by apply Hd). by rewrite app_nil_r.
  - rewrite bool_decide_false by done. by rewrite app_nil_r.
Qed.

Lemma last_filter_key {K V} `{EqDecision K} (f : K * V -> bool) (l : dict K V) k :
  NoDup (od_keys l) -> (forall kv, kv ∈ l -> f kv = true <-> kv.1 = k) ->
  snd <$> last (List.filter f l) = od_get k l.
Proof.
  induction l as [|[k' v] l IH]; [done|]. simpl. rewrite NoDup_cons. intros [Hn Hd] Hf.
  assert (Hfl : forall kv, kv ∈ l -> f kv = true <-> kv.1 = k) by (intros; apply Hf; by right).
  destruct (f (k', v)) eqn:E.
  - apply Hf in E as Hk; [|by left]. simpl in Hk. subst k'. rewrite decide_True by done.
    rewrite filter_none; [done|]. intros kv Hkv. apply not_true_iff_false. rewrite Hfl by done.
    intros <-. apply Hn. by apply (list_elem_of_fmap_2 fst).
  - rewrite decide_False; [by apply IH|]. intros ->.
    by rewrite (proj2 (Hf (k', v) ltac:(by left)) eq_refl) in E.
Qed.

(** A slug that only one key can target is decided by that key's effect. *)
Lemma resolve_get u t dflt db slug kind k :
  tables_ok db -> runtime_kind kind ->
  (forall k', k' ∈ od_keys (build_resolved u t db) ->
     resource_target k' db = Some (slug, kind) <-> k' = k) ->
  od_get slug (permissions_of kind (resolve_permissions u t dflt db)) =
    (fun e => String.eqb e "allow") <$> effective_effect u t k.1 k.2 db.
Proof.
  intros Hok Hkind Hkey. unfold resolve_permissions.
  rewrite (fold_get _ db) by (try done; intros; by apply lookup_target_eq).
  set (l := build_resolved u t db) in *.
  pose proof (last_filter_key (targets db slug kind) l k (build_resolved_NoDup u t db)) as Hlast.
  rewrite <- build_resolved_get. fold l. destruct k as [ty rid]. simpl. rewrite <- Hlast.
  - destruct (last _) as [[k' [e lvl]]|]; [done|]. simpl.
    unfold permissions_of, no_permissions. simpl. by repeat case_decide.
  - intros kv Hkv. unfold targets. rewrite bool_decide_eq_true. apply Hkey.
    by apply (list_elem_of_fmap_2 fst).
Qed.

Lemma resolve_get_none u t dflt db slug kind :
  tables_ok db -> runtime_kind kind ->
  (forall k, k ∈ od_keys (build_resolved u t db) -> resource_target k db ≠ Some (slug, kind)) ->
  od_get slug (permissions_of kind (resolve_permissions u t dflt db)) = None.
Proof.
  intros Hok Hkind Hkey. unfold resolve_permissions.
  rewrite (fold_get _ db) by (try done; intros; by apply lookup_target_eq).
  rewrite filter_none.
  - simpl. unfold permissions_of, no_permissions. simpl. by repeat case_decide.
  - intros kv Hkv. apply bool_decide_eq_false, Hkey. by apply (list_elem_of_fmap_2 fst).
Qed.

(** *** Which keys target what *)

Lemma get_inj {K V} `{EqDecision K} (d : dict K V) k k' v :
  NoDup (od_values d) -> od_get k d = Some v -> od_get k' d = Some v -> k = k'.
Proof.
  induction d as [|[k1 v1] d IH]; simpl; [done|]. rewrite NoDup_cons. intros [Hn Hd].
  repeat case_decide; intros; simplify_eq; try done.
  - destruct Hn. apply od_values_elem. exists k'. by apply od_get_elem.
  - destruct Hn. apply od_values_elem. exists k. by apply od_get_elem.
  - by apply IH.
Qed.

Lemma resource_target_kind ty rid db slug kind :
  resource_target (ty, rid) db = Some (slug, kind) ->
  (kind = ty \/ (ty = "instance" /\ kind = "collection")) /\
  exists table, slug_table kind db = Some table /\ od_get rid table = Some slug.
Proof.
  unfold resource_target. simpl. case_decide as Hi.
  - subst ty. destruct (od_get rid (rb_collections db)) as [s|] eqn:E.
    + intros [= -> <-]. split; [by right|]. eauto.
    + destruct (od_get rid (rb_instances db)) as [s|] eqn:E2; simpl; [|done].
      intros [= -> <-]. split; [by left|]. eauto.
  - destruct (slug_table ty db) as [table|] eqn:E; [|done].
    destruct (od_get rid table) as [s|] eqn:E2; simpl; [|done].
    intros [= -> <-]. split; [by left|]. eauto.
Qed.

Lemma agent_key db aid slug k :
  tables_ok db -> od_get aid (rb_agents db) = Some slug ->
  resource_target k db = Some (slug, "agent") <-> k = ("agent", aid).
Proof.
  intros Hok Ha. destruct k as [ty rid]. split.
  - intros H. apply resource_target_kind in H as [[<-|[_ ?]] (table & Ht & Hg)]; [|done].
    destruct (Hok _ _ Ht) as [_ Hv]. injection Ht as <-. f_equal. by eapply get_inj.
  - intros [= -> ->]. unfold resource_target. simpl. by rewrite Ha.
Qed.

Lemma overlay_keys level rules d :
  exists ks, od_keys (overlay level rules d) = od_keys d ++ ks.
Proof.
  induction rules as [|r l [ks IH]] using rev_ind; [exists []; by rewrite app_nil_r|].
  rewrite overlay_snoc, od_keys_set, IH. case_decide; [by exists ks|].
  exists (ks ++ [key_of r]). by rewrite app_assoc.
Qed.

Lemma last_later_key {K V} `{EqDecision K} (f : K * V -> bool) (l : dict K V) ks0 ks a b :
  NoDup (od_keys l) -> od_keys l = ks0 ++ ks -> a ∈ ks0 -> b ∈ ks ->
  (forall kv, kv ∈ l -> f kv = true <-> kv.1 = a \/ kv.1 = b) ->
  snd <$> last (List.filter f l) = od_get b l.
Proof.
  intros Hd Hl Ha Hb Hf. pose proof Hd as Hd'. rewrite Hl in Hd'.
  apply NoDup_app in Hd' as (_ & Hdis & Hd1).
  unfold od_keys in Hl. apply fmap_app_inv in Hl as (l0 & l1 & -> & -> & ->).
  rewrite List.filter_app, last_app.
  assert (Hlast : snd <$> last (List.filter f l1) = od_get b l1).
  { apply last_filter_key; [done|]. intros kv Hkv. rewrite Hf by (apply elem_of_app; by right).
    split; [|by right]. intros [Hka|]; [|done]. destruct (Hdis a Ha).
    rewrite <- Hka. by apply (list_elem_of_fmap_2 fst). }
  assert (Hget : od_get b (l0 ++ l1) = od_get b l1).
  { assert (Hn : b ∉ od_keys l0) by (intros Hin; by apply (Hdis b Hin)).
    clear -Hn. induction l0 as [|[k v] l0 IH]; [done|]. simpl in *.
    rewrite decide_False by set_solver. apply IH. set_solver. }
  rewrite Hget. destruct (last (List.filter f l1)) as [kv|]; [done|].
  simpl in Hlast. symmetry in Hlast. by apply od_get_None in Hlast.
Qed.

(** *** Agreement of the two look-ups *)

Lemma last_effect_scalar p rtype rid (l : list RbacRule) o :
  scalar_one_or_none (List.filter (fun r => p r && on_resource rtype rid r) l) = Ok o ->
  last_effect rtype rid (order_by_created_at (List.filter (fun r => p r && type_filter None r) l))
    = rl_effect <$> o.
Proof.
  intros Hs. unfold last_effect.
  set (q := List.filter (on_resource rtype rid) _).
  assert (Hq : q ≡ₚ List.filter (fun r => p r && on_resource rtype rid r) l).
  { subst q. unfold order_by_created_at. rewrite (sort_by_perm rl_created_at Z.le). clear Hs.
    induction l as [|x l IH]; [done|]. simpl. destruct (p x); simpl; [|done].
    destruct (on_resource rtype rid x); by rewrite IH. }
  clearbody q. destruct (List.filter _ l) as [|x [|y l']]; simpl in Hs; simplify_eq; simpl.
  - by apply Permutation_nil_r in Hq as ->.
  - by apply Permutation_singleton_r in Hq as ->.
Qed.

Lemma check_access_effective u t rtype rid db e :
  check_access u t rtype rid db = Ok e ->
  effective_effect (Some u) (Some t) rtype rid db = Some e \/
  (effective_effect (Some u) (Some t) rtype rid db = None /\ e = "deny").
Proof.
  unfold check_access, effective_effect, _find_user_rule, _find_tenant_rule, _find_platform_rule,
    user_rules, tenant_rules, rules_for, list_by_user, list_by_tenant, list_platform_rules.
  intros H.
  destruct (scalar_one_or_none (List.filter _ _)) as [ou|] eqn:Eu in H; [|done].
  rewrite (last_effect_scalar _ _ _ _ _ Eu). destruct ou as [r|]; cbn [fmap option_fmap option_map]; [left; congruence|].
  destruct (scalar_one_or_none (List.filter _ _)) as [ot|] eqn:Et in H; [|done].
  rewrite (last_effect_scalar _ _ _ _ _ Et). destruct ot as [r|]; cbn [fmap option_fmap option_map]; [left; congruence|].
  destruct (scalar_one_or_none (List.filter _ _)) as [op|] eqn:Ep in H; [|done].
  rewrite (last_effect_scalar _ _ _ _ _ Ep). destruct op as [r|]; simpl; [left|right]; split_and?; congruence.
Qed.

(** The agent entry of the result, by key and by slug. *)
Lemma allows_spec e : default false ((fun e => String.eqb e "allow") <$> e) = allows e.
Proof.
  unfold allows. destruct e as [e|]; simpl; [|done].
  destruct (String.eqb_spec e "allow") as [->|]; [by rewrite bool_decide_true|].
  by rewrite bool_decide_false by congruence.
Qed.

Lemma agent_entry u t dflt db slug aid :
  tables_ok db -> od_get aid (rb_agents db) = Some slug ->
  od_get slug (agent_permissions (resolve_permissions u t dflt db)) =
    (fun e => String.eqb e "allow") <$> effective_effect u t "agent" aid db.
Proof.
  intros Hok Ha. pose proof (resolve_get u t dflt db slug "agent" ("agent", aid) Hok) as H.
  unfold permissions_of in H. simpl in H. rewrite H; [done|by left|].
  intros k' _. by apply agent_key.
Qed.

Lemma agent_no_entry u t dflt db slug :
  tables_ok db -> slug ∉ od_values (rb_agents db) ->
  od_get slug (agent_permissions (resolve_permissions u t dflt db)) = None.
Proof.
  intros Hok Hno. pose proof (resolve_get_none u t dflt db slug "agent" Hok) as H.
  unfold permissions_of in H. simpl in H. rewrite H; [done|by left|].
  intros [ty rid] _ Ht. apply resource_target_kind in Ht as [_ (table & Htab & Hg)].
  injection Htab as <-. apply Hno, od_values_elem. exists rid. by apply od_get_elem.
Qed.

Definition agent_allows (u t : option Z) (slug : string) (db : RbacDb) : bool :=
  existsb (fun kv => String.eqb kv.2 slug && allows (effective_effect u t "agent" kv.1 db))
    (rb_agents db).

Lemma agent_allowed_by_slug u t dflt db slug :
  tables_ok db ->
  default false (od_get slug (agent_permissions (resolve_permissions u t dflt db)))
    = agent_allows u t slug db.
Proof.
  intros Hok. destruct (Hok "agent" _ eq_refl) as [Hd Hv].
  destruct (decide (slug ∈ od_values (rb_agents db))) as [Hin|Hno].
  - apply od_values_elem in Hin as [aid Hin].
    assert (Hg : od_get aid (rb_agents db) = Some slug) by by apply od_elem_get.
    rewrite (agent_entry _ _ _ _ _ aid), allows_spec by done.
    apply eq_true_iff_eq. unfold agent_allows. rewrite existsb_elem. split.
    + intros Hal. exists (aid, slug). split; [done|]. simpl. by rewrite String.eqb_refl.
    + intros ([aid' s'] & Hin' & [Hs%String.eqb_eq Hal]%andb_true_iff). simpl in *. subst s'.
      replace aid with aid'; [done|]. eapply (get_inj (rb_agents db)); [done| |exact Hg].
      by apply od_elem_get.
  - rewrite agent_no_entry by done. symmetry. apply not_true_iff_false. unfold agent_allows.
    rewrite existsb_elem. intros ([aid s] & Hin & [Hs%String.eqb_eq _]%andb_true_iff).
    simpl in *. subst s. apply Hno, od_values_elem. by exists aid.
Qed.


(** The data resource of slug [slug] has the primary key [cid], and no rule of
    the type "collection" applies to it. *)
Definition only_instance_rules (u t : option Z) (cid : Z) (db : RbacDb) : Prop :=
  effective_effect u t "collection" cid db = None.

Lemma collection_key db cid slug ty rid :
  tables_ok db -> od_get cid (rb_collections db) = Some slug ->
  resource_target (ty, rid) db = Some (slug, "collection") <->
  (ty = "instance" \/ ty = "collection") /\ rid = cid.
Proof.
  intros Hok Hc. destruct (Hok "collection" _ eq_refl) as [_ Hv]. split.
  - intros H. apply resource_target_kind in H as [Hty (table & Ht & Hg)].
    injection Ht as <-. split; [|by eapply get_inj].
    destruct Hty as [<-|[-> _]]; [by right|by left].
  - intros [[->| ->] ->]; unfold resource_target; simpl; by rewrite Hc.
Qed.

Lemma collection_allowed u t dflt db cid slug :
  tables_ok db -> od_get cid (rb_collections db) = Some slug -> only_instance_rules u t cid db ->
  is_collection_allowed slug (resolve_permissions u t dflt db) =
    match effective_effect u t "instance" cid db with
    | Some e => String.eqb e "allow"
    | None => dflt
    end.
Proof.
  intros Hok Hc Hno.
  pose proof (resolve_get u t dflt db slug "collection" ("instance", cid) Hok) as H.
  unfold permissions_of in H. simpl in H. unfold is_collection_allowed. rewrite H.
  - destruct (effective_effect _ _ _ _ _) as [e|]; [done|]. simpl.
    unfold resolve_permissions. generalize (build_resolved u t db) at 2. intros l.
    set (p := no_permissions dflt). assert (Hp : default_collection_allow p = dflt) by done.
    clearbody p. revert p Hp. induction l as [|kv l IH]; intros p Hp; [done|]. simpl.
    apply IH. unfold apply_resolved. by destruct (lookup_target _ _) as [[? ?]|].
  - right; right; by left.
  - intros [ty rid] Hk. rewrite (collection_key _ cid) by done. split.
    + intros [[->| ->] ->]; [done|]. exfalso.
      unfold only_instance_rules in Hno. rewrite <- build_resolved_get in Hno.
      apply od_get_is_Some in Hk as [v Hv]. by rewrite Hv in Hno.
    + intros [= -> ->]. split; [by left|done].
Qed.


(** Two spellings of one data resource are not merged by priority: with a
    platform rule on the "instance" spelling, a tenant rule on the "collection"
    spelling decides, whatever rule the user has on the "instance" spelling. *)
Theorem tenant_collection_rule_wins u t dflt db cid slug e :
  tables_ok db -> od_get cid (rb_collections db) = Some slug ->
  is_Some (last_effect "instance" cid (list_platform_rules None db)) ->
  last_effect "collection" cid (list_platform_rules None db) = None ->
  last_effect "collection" cid (tenant_rules t db) = Some e ->
  last_effect "collection" cid (user_rules u db) = None ->
  is_collection_allowed slug (resolve_permissions u t dflt db) = String.eqb e "allow".
Proof.
  intros Hok Hc Hpi Hpc Htc Huc. unfold is_collection_allowed.
  set (l := build_resolved u t db).
  pose proof (fold_get (build_slug_maps (build_ids_by_type l) db) db l (no_permissions dflt) slug
                "collection") as Hf.
  unfold permissions_of in Hf at 1. simpl in Hf. unfold resolve_permissions. fold l.
  rewrite Hf; [|right; right; by left|intros; by apply lookup_target_eq]. clear Hf.
  assert (Hget : fst <$> od_get ("collection", cid) l = Some e).
  { unfold l. rewrite build_resolved_get. unfold effective_effect. by rewrite Huc, Htc. }
  set (d0 := overlay "platform" (list_platform_rules None db) []).
  assert (Hks : exists ks, od_keys l = od_keys d0 ++ ks).
  { unfold l, build_resolved. fold d0.
    destruct (overlay_keys "tenant" (tenant_rules t db) d0) as [ks1 H1].
    destruct (overlay_keys "user" (user_rules u db) (overlay "tenant" (tenant_rules t db) d0)) as [ks2 H2].
    exists (ks1 ++ ks2). by rewrite H2, H1, app_assoc. }
  destruct Hks as [ks Hks].
  assert (Hlast : snd <$> last (List.filter (targets db slug "collection") l)
                  = od_get ("collection", cid) l).
  { apply (last_later_key _ l (od_keys d0) ks ("instance", cid)); [apply build_resolved_NoDup|done| | |].
    - apply od_get_is_Some. unfold d0. rewrite overlay_get. destruct Hpi as [v ->]. by eexists.
    - assert (Hin : ("collection", cid) ∈ od_keys l)
        by (apply od_get_is_Some; destruct (od_get _ l); [by eexists|done]).
      rewrite Hks in Hin. apply elem_of_app in Hin as [Hin|]; [|done].
      apply od_get_is_Some in Hin as [v Hv]. unfold d0 in Hv. by rewrite overlay_get, Hpc in Hv.
    - intros [[ty rid] v] _. unfold targets. rewrite bool_decide_eq_true. cbn [fst].
      rewrite (collection_key _ cid slug) by done.
      split; [intros [[->| ->] ->]; auto|intros [[= -> ->]|[= -> ->]]; auto]. }
  destruct (od_get ("collection", cid) l) as [[e' lvl]|]; [|done]. simpl in Hget. injection Hget as ->.
  destruct (last _) as [[k v]|]; [|done]. simpl in *. by injection Hlast as ->.
Qed.

(** ** [RuntimeRbacResolver] *)
Module Resolver.
Inductive init_exn := ValueError.

Record RuntimeRbacResolver := { allow_undefined : bool }.

Definition _STRICT_ENVS : list string := ["prod"; "production"; "staging"].

(** [__init__], with the two settings it reads. *)
Definition init (runtime_rbac_allow_undefined : bool) (env_setting : string)
    : result init_exn RuntimeRbacResolver :=
  let env := lower (strip (if str_empty env_setting then "local" else env_setting)) in
  if runtime_rbac_allow_undefined && str_in env _STRICT_ENVS then Err ValueError
  else Ok {| allow_undefined := runtime_rbac_allow_undefined |}.

Section WithResolver.
Context (self : RuntimeRbacResolver).

Definition resolve_effective_permissions (u t : option Z) (default_allow : bool) (db : RbacDb)
    : EffectivePermissions :=
  resolve_permissions u t (default_allow || allow_undefined self) db.

Definition is_collection_allowed (p : option EffectivePermissions) (slug : option string) : bool :=
  match slug with
  | None => true
  | Some s =>
      if str_empty s then true
      else match p with
           | None => true
           | Some p => Permissions.is_collection_allowed s p
           end
  end.

Definition is_agent_allowed (p : option EffectivePermissions) (slug : string)
    (default_allow : bool) : bool :=
  if str_empty (strip slug) then false
  else match p with
       | None => default_allow
       | Some p =>
           match od_get slug (agent_permissions p) with
           | Some allowed => allowed
           | None => allow_undefined self || default_allow
           end
       end.

(** [str(slug_getter(agent) or "").strip()] *)
Definition agent_slug {A} (slug_getter : A -> option string) (a : A) : string :=
  strip (default "" (slug_getter a)).

Fixpoint filter_agents_by_slug {A} (agents : list A) (p : option EffectivePermissions)
    (slug_getter : A -> option string) (default_allow : bool) : list A * list string :=
  match agents with
  | [] => ([], [])
  | a :: agents' =>
      let slug := agent_slug slug_getter a in
      let '(allowed, denied) := filter_agents_by_slug agents' p slug_getter default_allow in
      if str_empty slug then (allowed, denied)
      else if is_agent_allowed p slug default_allow then (a :: allowed, denied)
      else (allowed, slug :: denied)
  end.
End WithResolver.

Lemma rstrip_last s : forall c s', rstrip s = String c s' -> rstrip (rstrip s) = rstrip s.
Proof.
  induction s as [|c s IH]; [done|]. intros c1 s1 H. simpl in *.
  destruct (rstrip s) as [|c2 s2] eqn:E.
  - destruct (is_space c) eqn:Ec; [done|]. simpl. by rewrite Ec.
  - change (rstrip (String c (String c2 s2))) with
      (match rstrip (String c2 s2) with
       | EmptyString => if is_space c then EmptyString else String c EmptyString
       | s'' => String c s'' end).
    by rewrite (IH _ _ eq_refl).
Qed.

Lemma rstrip_idem s : rstrip (rstrip s) = rstrip s.
Proof. destruct (rstrip s) as [|c s'] eqn:E; [done|]. rewrite <- E. by eapply rstrip_last. Qed.

Lemma lstrip_head s : match lstrip s with EmptyString => True | String c _ => is_space c = false end.
Proof. induction s as [|c s IH]; simpl; [done|]. by destruct (is_space c) eqn:E. Qed.

Lemma lstrip_rstrip s :
  match s with EmptyString => True | String c _ => is_space c = false end -> lstrip (rstrip s) = rstrip s.
Proof.
  destruct s as [|c s]; [done|]. simpl. intros Hc.
  destruct (rstrip s); simpl; by rewrite Hc; simpl; rewrite ?Hc.
Qed.

Lemma strip_idem s : strip (strip s) = strip s.
Proof.
  unfold strip. rewrite (lstrip_rstrip (lstrip s) (lstrip_head s)). apply rstrip_idem.
Qed.

(** In a production or staging environment a resolver that could be built
    never falls back to allow: of a candidate list it keeps, in order, exactly
    the agents whose trimmed slug names an agent the rules allow, and reports
    the other non-empty slugs as denied. *)
Theorem strict_env_explicit_allow_only {A} undefined env self u t db (agents : list A) getter :
  init undefined env = Ok self ->
  str_in (lower (strip (if str_empty env then "local" else env))) _STRICT_ENVS = true ->
  tables_ok db ->
  let p := resolve_effective_permissions self u t false db in
  let allowed a := agent_allows u t (agent_slug getter a) db in
  let named := List.filter (fun a => negb (str_empty (agent_slug getter a))) agents in
  filter_agents_by_slug self agents (Some p) getter false =
    (List.filter allowed named, map (agent_slug getter) (List.filter (fun a => negb (allowed a)) named)).
Proof.
  intros Hinit Henv Hok p allowed named.
  assert (Hself : allow_undefined self = false).
  { unfold init in Hinit. rewrite Henv in Hinit. destruct undefined; simpl in Hinit; [done|].
    by injection Hinit as <-. }
  assert (Hdec : forall a, str_empty (agent_slug getter a) = false ->
    is_agent_allowed self (Some p) (agent_slug getter a) false = allowed a).
  { intros a Hne. unfold is_agent_allowed, agent_slug. rewrite strip_idem.
    fold (agent_slug getter a). rewrite Hne, Hself. unfold allowed.
    rewrite <- (agent_allowed_by_slug u t (false || allow_undefined self)) by done.
    unfold p, resolve_effective_permissions. by destruct (od_get _ _). }
  clearbody p allowed. subst named. induction agents as [|a agents IH]; [done|].
  simpl. rewrite IH. destruct (str_empty (agent_slug getter a)) eqn:E; simpl; [done|].
  rewrite Hdec by done. by destruct (allowed a).
Qed.
End Resolver.

(** ** Concrete tables *)

Definition pm_rules : list RbacRule :=
  [ {| rl_id := 1; rl_level := "platform"; rl_owner_user_id := None; rl_owner_tenant_id := None;
       rl_owner_platform := true; rl_resource_type := "instance"; rl_resource_id := 201;
       rl_effect := "deny"; rl_created_at := 1; rl_created_by_user_id := None;
       rl_lifecycle_status := "active" |};
    {| rl_id := 2; rl_level := "tenant"; rl_owner_user_id := None; rl_owner_tenant_id := Some 10%Z;
       rl_owner_platform := false; rl_resource_type := "collection"; rl_resource_id := 201;
       rl_effect := "allow"; rl_created_at := 2; rl_created_by_user_id := None;
       rl_lifecycle_status := "active" |};
    {| rl_id := 3; rl_level := "user"; rl_owner_user_id := Some 1%Z; rl_owner_tenant_id := None;
       rl_owner_platform := false; rl_resource_type := "instance"; rl_resource_id := 201;
       rl_effect := "deny"; rl_created_at := 3; rl_created_by_user_id := None;
       rl_lifecycle_status := "active" |};
    {| rl_id := 4; rl_level := "tenant"; rl_owner_user_id := None; rl_owner_tenant_id := Some 10%Z;
       rl_owner_platform := false; rl_resource_type := "agent"; rl_resource_id := 101;
       rl_effect := "allow"; rl_created_at := 4; rl_created_by_user_id := None;
       rl_lifecycle_status := "active" |} ].

Definition pm_db : RbacDb := set_rules pm_rules rb_example.

Lemma pm_tables_ok : tables_ok pm_db.
Proof.
  intros rtype table. unfold slug_table.
  repeat case_decide; intros Htab; simplify_eq; split; apply (bool_decide_unpack _); vm_compute; exact I.
Qed.



(** The user's own deny rule loses. *)
Lemma tenant_collection_rule_wins_witness :
  check_access 1 10 "instance" 201 pm_db = Ok "deny" /\
  is_collection_allowed "docs" (resolve_permissions (Some 1%Z) (Some 10%Z) false pm_db) = true.
Proof.
  split; [vm_compute; reflexivity|].
  apply (tenant_collection_rule_wins (Some 1%Z) (Some 10%Z) false pm_db 201 "docs" "allow" pm_tables_ok).
  - reflexivity.
  - vm_compute. eexists. reflexivity.
  - vm_compute. reflexivity.
  - vm_compute. reflexivity.
  - vm_compute. reflexivity.
Defined.

Lemma strict_env_explicit_allow_only_witness :
  Resolver.filter_agents_by_slug {| Resolver.allow_undefined := false |}
    [Some " helper "; Some "ghost"; None]
    (Some (Resolver.resolve_effective_permissions {| Resolver.allow_undefined := false |}
             (Some 1%Z) (Some 10%Z) false pm_db)) id false
  = ([Some " helper "], ["ghost"]).
Proof.
  pose proof (Resolver.strict_env_explicit_allow_only false " PROD"
    {| Resolver.allow_undefined := false |} (Some 1%Z) (Some 10%Z) pm_db
    [Some " helper "; Some "ghost"; None] id ltac:(reflexivity) ltac:(vm_compute; reflexivity) pm_tables_ok) as H.
  etransitivity; [exact H|]. vm_compute. reflexivity.
Defined.
