(* ===== verification/RagPolicy.v ===== *)
(** * RAG stages: statuses, stage names and the aggregate document status

    Models [app/services/rag_status_policy.py], [app/services/status_aggregator.py]
    and the status row of [app/models/rag_ingest.py].

    A status node's [status] is a string column, as in the code; [StageStatus] is
    the enumeration the manager validates against.  The detail dictionary
    [agg_details] is a record with one field per key ([None] where the code path
    does not set the key). *)
From S2P Require Import Prelude.

(** ** Statuses and transitions *)

Inductive StageStatus :=
| StPENDING | StQUEUED | StPROCESSING | StCOMPLETED | StFAILED | StCANCELLED.

#[export] Instance StageStatus_eq_dec : EqDecision StageStatus.
Proof. solve_decision. Defined.

Definition value (s : StageStatus) : string :=
  match s with
  | StPENDING => "pending" | StQUEUED => "queued" | StPROCESSING => "processing"
  | StCOMPLETED => "completed" | StFAILED => "failed" | StCANCELLED => "cancelled"
  end.

Definition all_statuses : list StageStatus :=
  [StPENDING; StQUEUED; StPROCESSING; StCOMPLETED; StFAILED; StCANCELLED].

(** [StageStatus(s)]: [None] stands for the [ValueError]. *)
Definition parse_status (s : string) : option StageStatus :=
  List.find (fun st => String.eqb (value st) s) all_statuses.

Inductive PipelineStage := UPLOAD | EXTRACT | NORMALIZE | CHUNK.

Definition stage_value (s : PipelineStage) : string :=
  match s with
  | UPLOAD => "upload" | EXTRACT => "extract" | NORMALIZE => "normalize" | CHUNK => "chunk"
  end.

Definition VALID_TRANSITIONS (s : StageStatus) : list StageStatus :=
  match s with
  | StPENDING => [StQUEUED; StPROCESSING; StFAILED; StCANCELLED]
  | StQUEUED => [StPROCESSING; StFAILED; StCANCELLED]
  | StPROCESSING => [StCOMPLETED; StFAILED; StCANCELLED]
  | StCOMPLETED => [StQUEUED]
  | StFAILED => [StQUEUED; StCANCELLED]
  | StCANCELLED => [StQUEUED]
  end.

Definition RETRYABLE_STAGE_STATUSES : list string :=
  map value [StFAILED; StCANCELLED; StCOMPLETED; StPENDING].
Definition STOPPABLE_STAGE_STATUSES : list string := map value [StPROCESSING; StQUEUED].

(** ** Stage names *)

Definition embed_prefix : string := "embed.".
Definition index_prefix : string := "index.".

Definition startswith (p s : string) : bool := String.prefix p s.
(** [s.replace(p, "", 1)] where [s] starts with [p] *)
Definition drop_prefix (p s : string) : string :=
  String.substring (String.length p) (String.length s - String.length p) s.

Definition format_stage_name (node_type node_key : string) : string :=
  if decide (node_type = "embedding") then String.append embed_prefix node_key
  else if decide (node_type = "index") then String.append index_prefix node_key
  else node_key.

Definition split_stage_name (stage : string) : string * string :=
  if startswith embed_prefix stage then ("embedding", drop_prefix embed_prefix stage)
  else if startswith index_prefix stage then ("index", drop_prefix index_prefix stage)
  else ("pipeline", stage).

Definition is_retry_supported (stage : string) : bool :=
  String.eqb stage "extract" || startswith embed_prefix stage || startswith index_prefix stage.

Record StageControl := {
  sc_stage : string; sc_node_type : string; sc_status : string;
  sc_retry_supported : bool; sc_can_retry : bool; sc_can_stop : bool
}.

Definition build_stage_control (stage node_type status : string) (archived : bool) : StageControl := {|
  sc_stage := stage; sc_node_type := node_type; sc_status := status;
  sc_retry_supported := is_retry_supported stage;
  sc_can_retry := negb archived && is_retry_supported stage && str_in status RETRYABLE_STAGE_STATUSES;
  sc_can_stop := str_in status STOPPABLE_STAGE_STATUSES |}.

(** ** The status row *)

Record RAGStatus := {
  rs_doc_id : Z;
  rs_node_type : string;
  rs_node_key : string;
  rs_status : string;
  rs_celery_task_id : option string;
  rs_model_version : option string;
  rs_modality : option string;
  rs_error_short : option string;
  rs_metrics_json : option json;
  rs_started_at : option Z;
  rs_finished_at : option Z;
  rs_updated_at : Z
}.

(** ** Aggregation *)

Record ModelLists := {
  ml_ready : list string; ml_failed : list string;
  ml_running : list string; ml_missing : list string
}.

Record AggDetails := {
  ad_pipeline : odict string;
  ad_embedding : odict string;
  ad_index : option (odict string);
  ad_policy : string;
  ad_lists : option ModelLists;
  ad_target_models : option (list string);
  ad_counters : option (odict nat);
  ad_last_error : option (option string);
  ad_updated_at : Z;
  ad_effective_status : string;
  ad_effective_reason : string;
  ad_stale_models : list string
}.

Definition with_effective (status reason : string) (d : AggDetails) : AggDetails := {|
  ad_pipeline := ad_pipeline d; ad_embedding := ad_embedding d; ad_index := ad_index d;
  ad_policy := ad_policy d; ad_lists := ad_lists d; ad_target_models := ad_target_models d;
  ad_counters := ad_counters d; ad_last_error := ad_last_error d; ad_updated_at := ad_updated_at d;
  ad_effective_status := status; ad_effective_reason := reason;
  ad_stale_models := ad_stale_models d |}.

(** [{node.node_key: f(node) for node in nodes}] *)
Definition statuses_by_key (f : string -> string) (nodes : list RAGStatus) : odict string :=
  od_update [] (map (fun n => (rs_node_key n, f (rs_status n))) nodes).

(** [max(l, key=...)]: the first greatest element. *)
Fixpoint max_by {A} (key : A -> Z) (best : A) (l : list A) : A :=
  match l with
  | [] => best
  | x :: l' => max_by key (if (key best <? key x)%Z then x else best) l'
  end.

Definition has_error (statuses : list string) (n : RAGStatus) : bool :=
  str_in (rs_status n) statuses
  && match rs_error_short n with Some e => negb (str_empty e) | None => false end.

Definition last_error (statuses : list string) (nodes : list RAGStatus) : option string :=
  match List.filter (has_error statuses) nodes with
  | [] => None
  | n :: l => rs_error_short (max_by rs_updated_at n l)
  end.

Definition _get_last_pipeline_error := last_error ["failed"].
Definition _get_last_embedding_error := last_error ["failed"].
Definition _get_last_index_error := last_error ["failed"; "cancelled"].

(** The serving context: the two aliases and which aliases are available. *)
Record ModelContext := {
  mc_default_alias : option string;
  mc_secondary_alias : option string;
  mc_availability : odict bool
}.

Definition nonempty (o : option string) : option string :=
  match o with Some s => if str_empty s then None else Some s | None => None end.

Definition active_statuses : list string := ["pending"; "queued"; "processing"].

Definition _annotate_effective_status (archived : bool) (pipeline index : list RAGStatus)
    (ctx : ModelContext) (d : AggDetails) : AggDetails :=
  if archived then with_effective "archived" "document_archived" d else
  if existsb (fun n => str_in (lower (rs_status n)) active_statuses) (pipeline ++ index)
  then with_effective "processing" "active_ingest_stages" d else
  let idx := statuses_by_key lower index in
  let has_any_index := existsb (fun v => String.eqb v "completed") (od_values idx) in
  let is_model_available alias :=
    match nonempty alias with
    | Some a => default false (od_get a (mc_availability ctx))
    | None => false
    end in
  let is_index_ready alias :=
    match nonempty alias with
    | Some a => bool_decide (od_get a idx = Some "completed")
    | None => false
    end in
  let default_ok := is_index_ready (mc_default_alias ctx) && is_model_available (mc_default_alias ctx) in
  let secondary_ok :=
    is_index_ready (mc_secondary_alias ctx) && is_model_available (mc_secondary_alias ctx) in
  if default_ok && secondary_ok then with_effective "extended" "default_and_secondary_available" d
  else if default_ok then with_effective "available" "default_available" d
  else if secondary_ok then with_effective "limited" "secondary_only_available" d
  else if has_any_index then with_effective "archived" "indexes_exist_models_unavailable" d
  else with_effective "unavailable" "no_indexes_no_active_tasks" d.

(** The details before the annotation; the effective fields are filled by it. *)
Definition base_details (pipeline : odict string) (policy : string) (now : Z) : AggDetails := {|
  ad_pipeline := pipeline; ad_embedding := []; ad_index := None; ad_policy := policy;
  ad_lists := None; ad_target_models := None; ad_counters := None; ad_last_error := None;
  ad_updated_at := now; ad_effective_status := ""; ad_effective_reason := "";
  ad_stale_models := [] |}.

Definition with_last_error (e : option string) (d : AggDetails) : AggDetails := {|
  ad_pipeline := ad_pipeline d; ad_embedding := ad_embedding d; ad_index := ad_index d;
  ad_policy := ad_policy d; ad_lists := ad_lists d; ad_target_models := ad_target_models d;
  ad_counters := ad_counters d; ad_last_error := Some e; ad_updated_at := ad_updated_at d;
  ad_effective_status := ad_effective_status d; ad_effective_reason := ad_effective_reason d;
  ad_stale_models := ad_stale_models d |}.

(** The body of the loop that sorts the target models by the status of their
    index node. *)
Definition classify_model (index : odict string) (l : ModelLists) (m : string) : ModelLists :=
  match od_get m index with
  | None => {| ml_ready := ml_ready l; ml_failed := ml_failed l;
               ml_running := ml_running l; ml_missing := ml_missing l ++ [m] |}
  | Some status =>
      if String.eqb status "completed" then
        {| ml_ready := ml_ready l ++ [m]; ml_failed := ml_failed l;
           ml_running := ml_running l; ml_missing := ml_missing l |}
      else if str_in status ["failed"; "cancelled"] then
        {| ml_ready := ml_ready l; ml_failed := ml_failed l ++ [m];
           ml_running := ml_running l; ml_missing := ml_missing l |}
      else
        {| ml_ready := ml_ready l; ml_failed := ml_failed l;
           ml_running := ml_running l ++ [m]; ml_missing := ml_missing l |}
  end.

Definition no_lists : ModelLists :=
  {| ml_ready := []; ml_failed := []; ml_running := []; ml_missing := [] |}.

Definition classify_models (index : odict string) (models : list string) : ModelLists :=
  foldl (classify_model index) no_lists models.

(** Status and policy once the pipeline is done. *)
Definition index_verdict (target_models : list string) (l : ModelLists) : string * string :=
  match target_models with
  | [] => ("ready", "no_target_models")
  | _ =>
      match ml_running l ++ ml_missing l with
      | _ :: _ => ("processing", "index_running")
      | [] =>
          if length (ml_ready l) =? length target_models then ("ready", "all_index_ready")
          else match ml_ready l with
               | _ :: _ => ("partial", "index_partial")
               | [] => ("failed", "index_all_failed")
               end
      end
  end.

Definition calculate_aggregate_status (pipeline embedding : list RAGStatus)
    (target_models : list string) (index : list RAGStatus) (archived : bool) (ctx : ModelContext)
    (now : Z) : string * AggDetails :=
  let annotate := _annotate_effective_status archived pipeline index ctx in
  let pipeline_statuses := statuses_by_key id pipeline in
  if existsb (fun s => String.eqb s "failed") (od_values pipeline_statuses) then
    ("failed", annotate (with_last_error (_get_last_pipeline_error pipeline)
                           (base_details pipeline_statuses "pipeline_error" now)))
  else if bool_decide (od_get "upload" pipeline_statuses = Some "completed")
          && forallb (fun kv => String.eqb kv.1 "upload" || String.eqb kv.2 "pending") pipeline_statuses
  then ("uploaded", annotate (base_details pipeline_statuses "uploaded" now))
  else if existsb (fun s => str_in s active_statuses) (od_values pipeline_statuses)
  then ("processing", annotate (base_details pipeline_statuses "pipeline_running" now))
  else
    let embedding_statuses := statuses_by_key id embedding in
    let index_statuses := statuses_by_key id index in
    let lists := match target_models with
                 | [] => no_lists
                 | _ => classify_models index_statuses target_models
                 end in
    let '(agg_status, policy) := index_verdict target_models lists in
    let details := {|
      ad_pipeline := pipeline_statuses; ad_embedding := embedding_statuses;
      ad_index := Some index_statuses; ad_policy := policy; ad_lists := Some lists;
      ad_target_models := Some target_models;
      ad_counters := Some [("target_models", length target_models);
                           ("ready_models", length (ml_ready lists));
                           ("failed_models", length (ml_failed lists));
                           ("running_models", length (ml_running lists));
                           ("missing_models", length (ml_missing lists))];
      ad_last_error := None; ad_updated_at := now;
      ad_effective_status := ""; ad_effective_reason := ""; ad_stale_models := [] |} in
    let details :=
      match nonempty (_get_last_index_error index) with
      | Some e => with_last_error (Some e) details
      | None =>
          match nonempty (_get_last_embedding_error embedding) with
          | Some e => with_last_error (Some e) details
          | None => details
          end
      end in
    (agg_status, annotate details).

(** [is_document_stale] *)
Definition is_document_stale (embedding : list RAGStatus) (current : odict string) : bool :=
  existsb (fun n =>
    String.eqb (rs_node_type n) "embedding"
    && match nonempty (rs_model_version n), nonempty (od_get (rs_node_key n) current) with
       | Some v, Some c => negb (String.eqb c v)
       | _, _ => false
       end) embedding.

(** ** Lemmas on statuses and stage names *)

Lemma parse_value s : parse_status (value s) = Some s.
Proof. by destruct s. Qed.

Lemma parse_status_Some s st : parse_status s = Some st -> s = value st.
Proof. intros H. apply find_some in H as [_ H]. by apply String.eqb_eq in H. Qed.

Lemma value_inj s s' : value s = value s' -> s = s'.
Proof. by destruct s, s'. Qed.

Lemma prefix_append p s : String.prefix p (String.append p s) = true.
Proof.
  induction p as [|c p IH]; simpl; [by destruct s|].
  rewrite IH. by destruct (Ascii.ascii_dec c c).
Qed.

Lemma substring_all s : String.substring 0 (String.length s) s = s.
Proof. induction s as [|c s IH]; simpl; [done|]. f_equal. exact IH. Qed.

Lemma substring_append p s :
  String.substring (String.length p) (String.length s) (String.append p s) = s.
Proof. induction p as [|c p IH]; simpl; [apply substring_all|exact IH]. Qed.

Lemma length_append p s : String.length (String.append p s) = String.length p + String.length s.
Proof. induction p as [|c p IH]; simpl; [done|]. f_equal. exact IH. Qed.

Lemma drop_prefix_append p s : drop_prefix p (String.append p s) = s.
Proof.
  unfold drop_prefix. rewrite length_append.
  replace (String.length p + String.length s - String.length p) with (String.length s) by lia.
  apply substring_append.
Qed.

Lemma prefix_inv p s : String.prefix p s = true -> s = String.append p (drop_prefix p s).
Proof.
  unfold drop_prefix. revert s. induction p as [|c p IH]; intros s; simpl.
  - rewrite Nat.sub_0_r. by rewrite substring_all.
  - destruct s as [|c' s]; [done|]. simpl. destruct (Ascii.ascii_dec c c') as [->|]; [|done].
    intros H. change (String c' s = String c' (String.append p (String.substring (String.length p)
      (String.length s - String.length p) s))). f_equal. by apply IH.
Qed.

(** The stages the manager names: a pipeline key carries no model prefix. *)
Definition plain_key (key : string) : Prop :=
  startswith embed_prefix key = false /\ startswith index_prefix key = false.

Definition stage_node (node_type node_key : string) : Prop :=
  node_type = "embedding" \/ node_type = "index" \/ (node_type = "pipeline" /\ plain_key node_key).

Lemma split_format node_type node_key :
  stage_node node_type node_key ->
  split_stage_name (format_stage_name node_type node_key) = (node_type, node_key).
Proof.
  unfold split_stage_name, format_stage_name, startswith. intros [->|[->|[-> [He Hi]]]].
  - rewrite decide_True by done. by rewrite prefix_append, drop_prefix_append.
  - rewrite decide_False, decide_True by done.
    assert (String.prefix embed_prefix (String.append index_prefix node_key) = false) as -> by done.
    by rewrite prefix_append, drop_prefix_append.
  - rewrite !decide_False by done. unfold startswith in He, Hi. by rewrite He, Hi.
Qed.

Lemma format_split stage :
  let '(node_type, node_key) := split_stage_name stage in
  format_stage_name node_type node_key = stage /\ stage_node node_type node_key.
Proof.
  unfold split_stage_name, format_stage_name. destruct (startswith embed_prefix stage) eqn:E.
  - rewrite decide_True by done. split; [symmetry; by apply prefix_inv|by left].
  - destruct (startswith index_prefix stage) eqn:E2.
    + rewrite decide_False, decide_True by done.
      split; [symmetry; by apply prefix_inv|by right; left].
    + rewrite !decide_False by done. split; [done|by right; right].
Qed.

(** ** The aggregate status *)

Definition index_done (index : odict string) (m : string) : bool :=
  bool_decide (od_get m index = Some "completed").
Definition index_broken (index : odict string) (m : string) : bool :=
  bool_decide (od_get m index = Some "failed") || bool_decide (od_get m index = Some "cancelled").
Definition index_open (index : odict string) (m : string) : bool :=
  negb (index_done index m) && negb (index_broken index m).

Lemma classify_cases index m :
  (index_done index m = true /\ index_broken index m = false /\ od_get m index = Some "completed") \/
  (index_done index m = false /\ index_broken index m = true /\
     exists s, od_get m index = Some s /\ s ≠ "completed" /\ str_in s ["failed"; "cancelled"] = true) \/
  (index_done index m = false /\ index_broken index m = false /\
     forall s, od_get m index = Some s -> s ≠ "completed" /\ str_in s ["failed"; "cancelled"] = false).
Proof.
  unfold index_done, index_broken. destruct (od_get m index) as [s|] eqn:E.
  - destruct (decide (s = "completed")) as [->|Hc]; [by left|right].
    rewrite (bool_decide_false (Some s = Some "completed")) by congruence.
    destruct (str_in s ["failed"; "cancelled"]) eqn:Es.
    + left. split_and!; [done| |by exists s]. apply str_in_spec in Es.
      rewrite orb_true_iff, !bool_decide_eq_true. set_solver.
    + right. split_and!; [done| |by intros ? [= <-]].
      apply orb_false_iff. rewrite !bool_decide_eq_false. apply not_true_iff_false in Es.
      rewrite str_in_spec in Es. set_solver.
  - right; right. by split_and!.
Qed.

Lemma classify_spec index models :
  let r := classify_models index models in
  ml_ready r = List.filter (index_done index) models /\
  ml_failed r = List.filter (index_broken index) models /\
  (ml_running r ++ ml_missing r = [] <-> List.filter (index_open index) models = []).
Proof.
  unfold classify_models. induction models as [|m models (Hr & Hf & Ho)] using rev_ind; [done|].
  rewrite foldl_app, !List.filter_app. simpl. set (r := foldl _ _ models) in *.
  unfold index_open at 2, classify_model.
  destruct (classify_cases index m) as [(Hd & Hb & ->)|[(Hd & Hb & s & -> & Hc & Hs)|(Hd & Hb & Hs)]];
    rewrite Hd, Hb; simpl.
  - rewrite !app_nil_r, Hr. done.
  - rewrite (proj2 (String.eqb_neq _ _) Hc), Hs. simpl. rewrite !app_nil_r, Hf. done.
  - destruct (od_get m index) as [s|].
    + destruct (Hs s eq_refl) as [Hc Hs']. rewrite (proj2 (String.eqb_neq _ _) Hc), Hs'. simpl.
      rewrite !app_nil_r. split_and!; [done|done|]. split; intros H.
      * by destruct (ml_running r).
      * by destruct (List.filter (index_open index) models).
    + simpl. rewrite !app_nil_r. split_and!; [done|done|]. split; intros H.
      * by destruct (ml_running r), (ml_missing r).
      * by destruct (List.filter (index_open index) models).
Qed.

Lemma filter_nil_iff {A} (f : A -> bool) l :
  List.filter f l = [] <-> forall x, x ∈ l -> f x = false.
Proof.
  split; [|apply filter_none]. intros H x Hx. apply not_true_iff_false. intros Hf.
  assert (Hin : x ∈ List.filter f l) by by apply elem_of_List_filter.
  rewrite H in Hin. set_solver.
Qed.

Lemma filter_length_all {A} (f : A -> bool) l :
  length (List.filter f l) = length l <-> forall x, x ∈ l -> f x = true.
Proof.
  induction l as [|x l IH]; simpl; [set_solver|].
  pose proof (filter_length_le f l) as Hle. destruct (f x) eqn:E; simpl.
  - split.
    + intros [= H] y [->|Hy]%elem_of_cons; [done|]. by apply IH.
    + intros H. f_equal. apply IH. intros y Hy. apply H. by right.
  - split; [lia|]. intros H. rewrite H in E; [done|by left].
Qed.

(** The pipeline part of the decision. *)
Inductive pipeline_state := PipelineFailed | PipelineUploaded | PipelineRunning | PipelineDone.

Definition pipeline_state_of (statuses : odict string) : pipeline_state :=
  if bool_decide ("failed" ∈ od_values statuses) then PipelineFailed
  else if bool_decide (od_get "upload" statuses = Some "completed"
                       /\ Forall (fun kv => kv.1 = "upload" \/ kv.2 = "pending") statuses)
  then PipelineUploaded
  else if bool_decide (Exists (fun s => s ∈ active_statuses) (od_values statuses)) then PipelineRunning
  else PipelineDone.

Lemma pipeline_failed_test l :
  existsb (fun s => String.eqb s "failed") l = bool_decide ("failed" ∈ l).
Proof.
  apply eq_true_iff_eq. rewrite existsb_elem, bool_decide_eq_true.
  setoid_rewrite String.eqb_eq. split; [by intros (x & ? & ->)|by eexists].
Qed.

Lemma pipeline_uploaded_test (d : odict string) :
  bool_decide (od_get "upload" d = Some "completed")
    && forallb (fun kv => String.eqb kv.1 "upload" || String.eqb kv.2 "pending") d
  = bool_decide (od_get "upload" d = Some "completed"
                 /\ Forall (fun kv => kv.1 = "upload" \/ kv.2 = "pending") d).
Proof.
  apply eq_true_iff_eq. rewrite andb_true_iff, !bool_decide_eq_true, forallb_elem, Forall_forall.
  by setoid_rewrite orb_true_iff; setoid_rewrite String.eqb_eq.
Qed.

Lemma pipeline_running_test l :
  existsb (fun s => str_in s active_statuses) l = bool_decide (Exists (fun s => s ∈ active_statuses) l).
Proof.
  apply eq_true_iff_eq. rewrite existsb_elem, bool_decide_eq_true, Exists_exists.
  by setoid_rewrite str_in_spec.
Qed.

Lemma aggregate_pipeline pipeline embedding models index archived ctx now :
  (calculate_aggregate_status pipeline embedding models index archived ctx now).1 =
    match pipeline_state_of (statuses_by_key id pipeline) with
    | PipelineFailed => "failed"
    | PipelineUploaded => "uploaded"
    | PipelineRunning => "processing"
    | PipelineDone =>
        (index_verdict models
           match models with
           | [] => no_lists
           | _ => classify_models (statuses_by_key id index) models
           end).1
    end.
Proof.
  unfold calculate_aggregate_status, pipeline_state_of.
  rewrite pipeline_failed_test, pipeline_uploaded_test, pipeline_running_test.
  repeat case_bool_decide; try done. by destruct (index_verdict _ _).
Qed.

Definition finished (index : odict string) (m : string) : Prop :=
  index_done index m = true \/ index_broken index m = true.

Lemma open_finished index m : index_open index m = false <-> finished index m.
Proof.
  unfold index_open, finished. rewrite andb_false_iff, !negb_false_iff. tauto.
Qed.

Lemma done_not_broken index m : index_done index m = true -> index_broken index m = false.
Proof.
  unfold index_done, index_broken. rewrite bool_decide_eq_true. intros ->. done.
Qed.

Lemma index_verdict_cases models idx :
  models ≠ [] ->
  (index_verdict models (classify_models idx models)).1 =
    if existsb (index_open idx) models then "processing"
    else if forallb (index_done idx) models then "ready"
    else if existsb (index_done idx) models then "partial" else "failed".
Proof.
  intros Hne. destruct (classify_spec idx models) as (Hr & _ & Ho).
  set (r := classify_models idx models) in *.
  assert (index_verdict models r =
      match ml_running r ++ ml_missing r with
      | _ :: _ => ("processing", "index_running")
      | [] => if length (ml_ready r) =? length models then ("ready", "all_index_ready")
              else match ml_ready r with _ :: _ => ("partial", "index_partial")
                   | [] => ("failed", "index_all_failed") end
      end) as -> by (clearbody r; by destruct models).
  destruct (existsb (index_open idx) models) eqn:Eo.
  - destruct (ml_running r ++ ml_missing r); [|done].
    pose proof (proj1 Ho eq_refl) as E. rewrite filter_nil_iff in E. apply existsb_elem in Eo as (m & Hm & Hmo).
    by rewrite E in Hmo.
  - assert (ml_running r ++ ml_missing r = []) as ->.
    { apply Ho, filter_nil_iff. intros m Hm. apply not_true_iff_false. intros Hmo.
      apply not_true_iff_false in Eo. apply Eo, existsb_elem. eauto. }
    rewrite Hr. destruct (Nat.eqb_spec (length (List.filter (index_done idx) models)) (length models)) as [El|El].
    + rewrite filter_length_all in El. apply forallb_elem in El. by rewrite El.
    + destruct (forallb (index_done idx) models) eqn:Ef.
      { destruct El. by apply filter_length_all, forallb_elem. }
      destruct (List.filter (index_done idx) models) as [|m l] eqn:E.
      * rewrite filter_nil_iff in E. simpl. destruct (existsb (index_done idx) models) eqn:Ee; [|reflexivity].
        apply existsb_elem in Ee as (m & Hm & Hd). by rewrite E in Hd.
      * assert (Hm : m ∈ List.filter (index_done idx) models) by (rewrite E; by left).
        apply elem_of_List_filter in Hm as [Hm Hd].
        assert (existsb (index_done idx) models = true) as -> by (apply existsb_elem; eauto). done.
Qed.

(** The four verdicts on a finished pipeline. *)
(** The verdict on a non-empty list of target models, by cases. *)
Lemma index_verdict_view models idx :
  models ≠ [] ->
  let status := (index_verdict models (classify_models idx models)).1 in
  (status = "processing" /\ exists m, m ∈ models /\ ~ finished idx m) \/
  (status = "ready" /\ forall m, m ∈ models -> index_done idx m = true) \/
  (status = "partial" /\ (forall m, m ∈ models -> finished idx m) /\
     (exists m, m ∈ models /\ index_done idx m = true) /\
     (exists m, m ∈ models /\ index_broken idx m = true)) \/
  (status = "failed" /\ forall m, m ∈ models -> index_broken idx m = true).
Proof.
  intros Hne status. unfold status. clear status. rewrite index_verdict_cases by done.
  destruct (existsb (index_open idx) models) eqn:Eo.
  { left. apply existsb_elem in Eo as (m & Hm & Ho). split; [done|]. exists m. split; [done|].
    intros Hf%open_finished. congruence. }
  assert (Hfin : forall m, m ∈ models -> finished idx m).
  { intros m Hm. apply open_finished. by apply (existsb_none _ _ Eo). }
  right. destruct (forallb (index_done idx) models) eqn:Ef.
  { left. split; [done|]. by apply forallb_elem. }
  right. destruct (existsb (index_done idx) models) eqn:Ee.
  - left. split_and!; [done..|by apply existsb_elem|]. apply existsb_elem, not_false_iff_true. intros Eb.
    apply not_true_iff_false in Ef. apply Ef, forallb_elem. intros m Hm.
    destruct (Hfin m Hm) as [|Hb]; [done|]. by rewrite (existsb_none _ _ Eb m Hm) in Hb.
  - right. split; [done|]. intros m Hm. destruct (Hfin m Hm) as [Hd|]; [|done].
    by rewrite (existsb_none _ _ Ee m Hm) in Hd.
Qed.

Lemma index_verdict_spec models idx :
  let status := (index_verdict models
    match models with [] => no_lists | _ => classify_models idx models end).1 in
  (status = "ready" <-> forall m, m ∈ models -> index_done idx m = true) /\
  (status = "processing" <-> exists m, m ∈ models /\ ~ finished idx m) /\
  (status = "failed" <-> models ≠ [] /\ forall m, m ∈ models -> index_broken idx m = true) /\
  (status = "partial" <-> (forall m, m ∈ models -> finished idx m) /\
     (exists m, m ∈ models /\ index_done idx m = true) /\
     (exists m, m ∈ models /\ index_broken idx m = true)).
Proof.
  intros status. unfold status. clear status.
  destruct models as [|m0 ms]; [simpl; split_and!; set_solver|]. set (models := m0 :: ms).
  assert (Hin : m0 ∈ models) by by left.
  assert (Hne : models ≠ []) by done.
  assert (Hx : forall m, index_done idx m = true -> index_broken idx m = true -> False).
  { intros m Hd Hb. rewrite (done_not_broken _ _ Hd) in Hb. done. }
  destruct (index_verdict_view models idx Hne) as [[-> H]|[[-> H]|[[-> H]|[-> H]]]];
    unfold finished in *; split_and!; split; try done; naive_solver.
Qed.

(** The aggregate status of a document.  A failed pipeline stage makes it
    failed; an upload without further progress uploaded; a pending, queued or
    running stage processing.  Otherwise the target models decide: processing
    while one of them has no finished index, else ready when all completed
    (also when there is no target model), failed when none did, partial when
    some did. *)
Theorem aggregate_status_correct pipeline embedding models index archived ctx now :
  let status := (calculate_aggregate_status pipeline embedding models index archived ctx now).1 in
  let idx := statuses_by_key id index in
  match pipeline_state_of (statuses_by_key id pipeline) with
  | PipelineFailed => status = "failed"
  | PipelineUploaded => status = "uploaded"
  | PipelineRunning => status = "processing"
  | PipelineDone =>
      (status = "ready" <-> forall m, m ∈ models -> index_done idx m = true) /\
      (status = "processing" <-> exists m, m ∈ models /\ ~ finished idx m) /\
      (status = "failed" <-> models ≠ [] /\ forall m, m ∈ models -> index_broken idx m = true) /\
      (status = "partial" <-> (forall m, m ∈ models -> finished idx m) /\
         (exists m, m ∈ models /\ index_done idx m = true) /\
         (exists m, m ∈ models /\ index_broken idx m = true))
  end.
Proof.
  intros status idx. unfold status. rewrite aggregate_pipeline.
  destruct (pipeline_state_of _); try done. apply index_verdict_spec.
Qed.

(** ** The user-facing status *)

Definition active_nodes (nodes : list RAGStatus) : Prop :=
  exists n, n ∈ nodes /\ lower (rs_status n) ∈ active_statuses.

(** The model of that alias has a completed index and can be served. *)
Definition serves (index : list RAGStatus) (ctx : ModelContext) (alias : option string) : Prop :=
  exists a, nonempty alias = Some a /\
    od_get a (statuses_by_key lower index) = Some "completed" /\
    od_get a (mc_availability ctx) = Some true.

#[export] Instance serves_dec index ctx alias : Decision (serves index ctx alias).
Proof.
  unfold serves. destruct (nonempty alias) as [a|] eqn:E; [|right; by intros (? & ? & _)].
  destruct (decide (od_get a (statuses_by_key lower index) = Some "completed" /\
                    od_get a (mc_availability ctx) = Some true)) as [H|H].
  - left. by exists a.
  - right. intros (a' & [= <-] & H'). by apply H.
Defined.

#[export] Instance active_nodes_dec nodes : Decision (active_nodes nodes).
Proof.
  destruct (existsb (fun n => str_in (lower (rs_status n)) active_statuses) nodes) eqn:E.
  - left. apply existsb_elem in E as (n & Hn & Ha%str_in_spec). by exists n.
  - right. intros (n & Hn & Ha). apply not_true_iff_false in E. apply E, existsb_elem.
    exists n. by rewrite str_in_spec.
Defined.

Lemma active_nodes_test nodes :
  existsb (fun n => str_in (lower (rs_status n)) active_statuses) nodes
  = bool_decide (active_nodes nodes).
Proof.
  apply eq_true_iff_eq. rewrite existsb_elem, bool_decide_eq_true.
  unfold active_nodes. by setoid_rewrite str_in_spec.
Qed.

Lemma serves_test index ctx alias :
  match nonempty alias with
  | Some a => bool_decide (od_get a (statuses_by_key lower index) = Some "completed")
  | None => false
  end
  && match nonempty alias with
     | Some a => default false (od_get a (mc_availability ctx))
     | None => false
     end
  = bool_decide (serves index ctx alias).
Proof.
  apply eq_true_iff_eq. rewrite andb_true_iff, bool_decide_eq_true. unfold serves.
  destruct (nonempty alias) as [a|]; [|split; [by intros [? _]|by intros (? & ? & _)]].
  rewrite bool_decide_eq_true. split.
  - intros [H1 H2]. exists a. split_and!; [done..|]. by destruct (od_get a (mc_availability ctx)) as [[]|].
  - by intros (a' & [= <-] & -> & ->).
Qed.

(** Some model has a completed index. *)
Definition any_index (index : list RAGStatus) : Prop :=
  "completed" ∈ od_values (statuses_by_key lower index).

Lemma any_index_test index :
  existsb (fun v => String.eqb v "completed") (od_values (statuses_by_key lower index))
  = bool_decide (any_index index).
Proof.
  apply eq_true_iff_eq. rewrite existsb_elem, bool_decide_eq_true. unfold any_index.
  setoid_rewrite String.eqb_eq. split; [by intros (x & ? & ->)|by eexists].
Qed.

(** What a document card shows.  An archived document is archived whatever
    its stages do; otherwise an active stage makes it processing; otherwise it
    is offered for search (extended, available, limited) exactly when a
    completed index of the default or the tenant's model can be served. *)
Theorem effective_status_correct archived pipeline index ctx d :
  let e := ad_effective_status (_annotate_effective_status archived pipeline index ctx d) in
  let active := active_nodes (pipeline ++ index) in
  let by_default := serves index ctx (mc_default_alias ctx) in
  let by_tenant := serves index ctx (mc_secondary_alias ctx) in
  let idle := archived = false /\ ~ active in
  (e = "processing" <-> archived = false /\ active) /\
  (e = "extended" <-> idle /\ by_default /\ by_tenant) /\
  (e = "available" <-> idle /\ by_default /\ ~ by_tenant) /\
  (e = "limited" <-> idle /\ ~ by_default /\ by_tenant) /\
  (e = "archived" <-> archived = true \/ (idle /\ ~ by_default /\ ~ by_tenant /\ any_index index)) /\
  (e = "unavailable" <-> idle /\ ~ by_default /\ ~ by_tenant /\ ~ any_index index).
Proof.
  intros e active by_default by_tenant idle. unfold e, _annotate_effective_status.
  rewrite active_nodes_test, !serves_test, any_index_test.
  fold active by_default by_tenant. unfold idle.
  destruct archived; simpl; [intuition discriminate|].
  repeat case_bool_decide; simpl; intuition discriminate.
Qed.
