(* ===== verification/RagManager.v ===== *)
(** * The RAG status manager

    Models [app/repositories/rag_status_repo.py] (status rows of a document),
    [app/services/rag_target_model_service.py] (which embedding models a document
    needs), [app/services/rag_status_manager.py] (transitions with their cascade,
    ingest start, stop and retry, the aggregate status) and
    [app/services/rag_status_views.py] (the ingest policy).

    The manager builds its repository without a tenant, so the tenant filter of the
    queries is the identity here.  The session state is a record; the row objects of a query are the session's
    own (SQLAlchemy's identity map), so a loop over queried nodes that reads
    [node.status] after a mutation sees the new status: such loops carry node
    keys and read the current row.  [now n] is the [n]-th clock reading.  Redis
    publications, Celery dispatches and the refresh of collection readiness are
    recorded in an event log in the order the code makes them. *)
From S2P Require Import Prelude RagPolicy.

(** ** State *)

Record RAGDocument := {
  dc_tenant_id : option Z;
  dc_agg_status : option string;
  dc_agg_details : option AggDetails
}.

(** The columns of the model registry that the manager reads. *)
Record ModelRow := {
  mr_alias : string;
  mr_type : string;
  mr_default_for_type : bool;
  mr_enabled : bool;
  mr_status : string;
  mr_health_status : string;
  mr_deleted_at : option Z;
  mr_model_version : option string;
  mr_created_at : Z
}.

Inductive event :=
| EvInitialized (doc : Z) (tenant : Z)
| EvStatusUpdate (doc : Z) (tenant : option Z) (stage status : string)
    (error : option string) (metrics : option json)
| EvAggregate (doc tenant : Z) (status : string) (details : AggDetails)
| EvRefreshCollections (doc : Z)
| EvDispatchPipeline (doc tenant : Z) (models : list string)
| EvDispatchEmbedIndex (doc tenant : Z) (alias : string)
| EvDispatchIndex (doc tenant : Z) (alias : string).

Record RagDb := {
  rg_nodes : list RAGStatus;
  rg_documents : dict Z RAGDocument;
  rg_tenants : dict Z (option string);
  rg_models : list ModelRow;
  rg_events : list event;
  rg_reads : nat
}.

Inductive rag_exn := StatusTransitionError | ValueError | AttributeError.

Definition set_nodes (l : list RAGStatus) (db : RagDb) : RagDb := {|
  rg_nodes := l; rg_documents := rg_documents db; rg_tenants := rg_tenants db;
  rg_models := rg_models db; rg_events := rg_events db; rg_reads := rg_reads db |}.
Definition log_event (e : event) (db : RagDb) : RagDb := {|
  rg_nodes := rg_nodes db; rg_documents := rg_documents db; rg_tenants := rg_tenants db;
  rg_models := rg_models db; rg_events := rg_events db ++ [e]; rg_reads := rg_reads db |}.
Definition set_documents (d : dict Z RAGDocument) (db : RagDb) : RagDb := {|
  rg_nodes := rg_nodes db; rg_documents := d; rg_tenants := rg_tenants db;
  rg_models := rg_models db; rg_events := rg_events db; rg_reads := rg_reads db |}.
Definition read_clock (db : RagDb) : RagDb := {|
  rg_nodes := rg_nodes db; rg_documents := rg_documents db; rg_tenants := rg_tenants db;
  rg_models := rg_models db; rg_events := rg_events db; rg_reads := S (rg_reads db) |}.

Notation node_id := (Z * string * string)%type (only parsing).
Definition nkey (n : RAGStatus) : node_id := (rs_doc_id n, rs_node_type n, rs_node_key n).

(** ** Queries of the repository *)

Definition get_node (doc : Z) (ty key : string) (db : RagDb) : option RAGStatus :=
  List.find (fun n => bool_decide (nkey n = (doc, ty, key))) (rg_nodes db).

Definition of_type (doc : Z) (ty : string) (n : RAGStatus) : bool :=
  bool_decide (rs_doc_id n = doc) && bool_decide (rs_node_type n = ty).

Definition nodes_of_type (ty : string) (doc : Z) (db : RagDb) : list RAGStatus :=
  sort_by rs_node_key String.le (List.filter (of_type doc ty) (rg_nodes db)).
Definition get_pipeline_nodes := nodes_of_type "pipeline".
Definition get_embedding_nodes := nodes_of_type "embedding".
Definition get_index_nodes := nodes_of_type "index".

(** [ORDER BY node_type, node_key] *)
Definition get_nodes_by_doc_id (doc : Z) (db : RagDb) : list RAGStatus :=
  sort_by rs_node_type String.le
    (sort_by rs_node_key String.le
       (List.filter (fun n => bool_decide (rs_doc_id n = doc)) (rg_nodes db))).

Definition get_nodes_by_status (status : string) (db : RagDb) : list RAGStatus :=
  List.filter (fun n => bool_decide (rs_status n = status)) (rg_nodes db).

Definition update_row (k : node_id) (f : RAGStatus -> RAGStatus) (db : RagDb) : RagDb :=
  set_nodes (map (fun n => if decide (nkey n = k) then f n else n) (rg_nodes db)) db.

Definition delete_nodes_by_doc_id (doc : Z) (db : RagDb) : RagDb :=
  set_nodes (List.filter (fun n => negb (bool_decide (rs_doc_id n = doc))) (rg_nodes db)) db.

(** ** Target models *)

Definition usable_embedding (m : ModelRow) : bool :=
  String.eqb (mr_type m) "embedding" && mr_enabled m && String.eqb (mr_status m) "available"
  && bool_decide (mr_deleted_at m = None).

Definition first_alias (l : list ModelRow) : option string := mr_alias <$> head l.

Definition get_target_models_for_tenant (tenant : Z) (db : RagDb) : list string :=
  match od_get tenant (rg_tenants db) with
  | None => []
  | Some embedding_model_alias =>
      let by_creation l := sort_by mr_created_at Z.le l in
      let global_embed_alias :=
        first_alias (by_creation
          (List.filter (fun m => usable_embedding m && mr_default_for_type m) (rg_models db))) in
      let fallback_alias := first_alias (by_creation (List.filter usable_embedding (rg_models db))) in
      let models :=
        match nonempty global_embed_alias with
        | Some a => [a]
        | None => match nonempty fallback_alias with Some a => [a] | None => [] end
        end in
      let tenant_alias := strip (default "" embedding_model_alias) in
      if str_empty tenant_alias then models
      else
        let tenant_embed_alias :=
          first_alias (List.filter (fun m => String.eqb (mr_alias m) tenant_alias && usable_embedding m)
                         (rg_models db)) in
        match nonempty tenant_embed_alias with
        | Some a => if str_in a models then models else models ++ [a]
        | None => models
        end
  end.

Section Manager.
(** The clock, the tenant of the repository factory, and whether an event
    publisher is configured. *)
Context (now : nat -> Z) (factory_tenant : option Z) (event_publisher : bool).

Definition get_target_models (doc : Z) (db : RagDb) : list string :=
  match factory_tenant with
  | Some t => get_target_models_for_tenant t db
  | None =>
      match od_get doc (rg_documents db) ≫= dc_tenant_id with
      | Some t => get_target_models_for_tenant t db
      | None => []
      end
  end.

Definition _resolve_status_model_context (doc : Z) (db : RagDb) : ModelContext :=
  let default_alias :=
    first_alias (List.filter (fun m => usable_embedding m && mr_default_for_type m) (rg_models db)) in
  let secondary_alias :=
    match od_get doc (rg_documents db) ≫= dc_tenant_id with
    | Some t => default None (od_get t (rg_tenants db))
    | None => None
    end in
  let wanted m := bool_decide (nonempty default_alias = Some (mr_alias m))
                  || bool_decide (nonempty secondary_alias = Some (mr_alias m)) in
  let available m :=
    negb (str_empty (mr_alias m)) && mr_enabled m && bool_decide (mr_deleted_at m = None)
    && String.eqb (mr_status m) "available" && String.eqb (mr_health_status m) "healthy" in
  {| mc_default_alias := default_alias; mc_secondary_alias := secondary_alias;
     mc_availability :=
       od_update [] (map (fun m => (mr_alias m, available m)) (List.filter wanted (rg_models db))) |}.

Definition _get_current_model_versions (aliases : list string) (db : RagDb) : odict string :=
  od_update [] (omap (fun m =>
    if str_in (mr_alias m) aliases && negb (str_empty (mr_alias m))
    then (fun v => (mr_alias m, v)) <$> nonempty (mr_model_version m)
    else None) (rg_models db)).

(** [sorted(set(stale_models))] *)
Definition stale_models (index : list RAGStatus) (current : odict string) (targets : list string)
    : list string :=
  sort_by id String.le (remove_dups (map rs_node_key (List.filter (fun n =>
    negb (str_empty (rs_node_key n)) && str_in (rs_node_key n) targets
    && match nonempty (rs_model_version n), nonempty (od_get (rs_node_key n) current) with
       | Some v, Some c => negb (String.eqb v c)
       | _, _ => false
       end) index))).

Definition _annotate_stale_models (index : list RAGStatus) (current : odict string)
    (targets : list string) (d : AggDetails) : AggDetails :=
  let stale := stale_models index current targets in
  {| ad_pipeline := ad_pipeline d; ad_embedding := ad_embedding d; ad_index := ad_index d;
     ad_policy :=
       if negb (bool_decide (stale = [])) && String.eqb (ad_policy d) "all_index_ready"
       then "index_ready_but_stale" else ad_policy d;
     ad_lists := ad_lists d; ad_target_models := ad_target_models d;
     ad_counters := Some (od_set "stale_models" (length stale) (default [] (ad_counters d)));
     ad_last_error := ad_last_error d; ad_updated_at := ad_updated_at d;
     ad_effective_status := ad_effective_status d; ad_effective_reason := ad_effective_reason d;
     ad_stale_models := stale |}.

Definition _update_aggregate_status (doc : Z) (db : RagDb) : RagDb :=
  let archived := bool_decide (is_Some (get_node doc "archive" "archive" db)) in
  let targets := get_target_models doc db in
  let index := get_index_nodes doc db in
  let '(agg_status, details) :=
    calculate_aggregate_status (get_pipeline_nodes doc db) (get_embedding_nodes doc db)
      targets index archived (_resolve_status_model_context doc db) (now (rg_reads db)) in
  let details := _annotate_stale_models index (_get_current_model_versions targets db) targets details in
  let db := read_clock db in
  let prev := od_get doc (rg_documents db) in
  let status_changed :=
    negb (bool_decide (Some agg_status = (prev ≫= dc_agg_status)))
    || negb (bool_decide (Some (ad_effective_status details)
                          = (prev ≫= dc_agg_details) ≫= fun d => Some (ad_effective_status d))) in
  let db1 := set_documents
    (od_alter (fun r => {| dc_tenant_id := dc_tenant_id r; dc_agg_status := Some agg_status;
                           dc_agg_details := Some details |}) doc (rg_documents db)) db in
  let db2 :=
    match prev ≫= dc_tenant_id with
    | Some t => if event_publisher && status_changed
                then log_event (EvAggregate doc t agg_status details) db1 else db1
    | None => db1
    end in
  log_event (EvRefreshCollections doc) db2.

(** ** [upsert_node] *)

Definition upsert_node (doc : Z) (ty key status : string)
    (celery_task_id model_version modality error_short : option string)
    (metrics_json : option json) (started_at finished_at : option Z) (db : RagDb) : RagDb :=
  match get_node doc ty key db with
  | Some _ =>
      let t := now (rg_reads db) in
      read_clock (update_row (doc, ty, key) (fun n => {|
        rs_doc_id := rs_doc_id n; rs_node_type := rs_node_type n; rs_node_key := rs_node_key n;
        rs_status := status;
        rs_celery_task_id := match celery_task_id with Some c => Some c | None => rs_celery_task_id n end;
        rs_model_version := match model_version with Some v => Some v | None => rs_model_version n end;
        rs_modality := match modality with Some v => Some v | None => rs_modality n end;
        rs_error_short := error_short; rs_metrics_json := metrics_json;
        rs_started_at := match started_at with Some v => Some v | None => rs_started_at n end;
        rs_finished_at := match finished_at with Some v => Some v | None => rs_finished_at n end;
        rs_updated_at := t |}) db)
  | None =>
      match od_get doc (rg_documents db) with
      | None => db
      | Some _ =>
          let t := now (rg_reads db) in
          read_clock (set_nodes (rg_nodes db ++ [{|
            rs_doc_id := doc; rs_node_type := ty; rs_node_key := key; rs_status := status;
            rs_celery_task_id := celery_task_id; rs_model_version := model_version;
            rs_modality := modality; rs_error_short := error_short;
            rs_metrics_json := metrics_json; rs_started_at := started_at;
            rs_finished_at := finished_at; rs_updated_at := t |}]) db)
      end
  end.

(** [_reset_stage_if_needed] *)
Definition _reset_stage_if_needed (doc : Z) (stage : string) (target : StageStatus) (force : bool)
    (db : RagDb) : RagDb :=
  let '(ty, key) := split_stage_name stage in
  match get_node doc ty key db with
  | Some cur =>
      if negb force && str_in (rs_status cur) [value StCOMPLETED; value StCANCELLED] then db
      else
        let t := now (rg_reads db) in
        read_clock (update_row (doc, ty, key) (fun n => {|
          rs_doc_id := rs_doc_id n; rs_node_type := rs_node_type n; rs_node_key := rs_node_key n;
          rs_status := value target;
          rs_celery_task_id := rs_celery_task_id n; rs_model_version := rs_model_version n;
          rs_modality := rs_modality n;
          rs_error_short := if decide (target = StPENDING) then None else rs_error_short n;
          rs_metrics_json := if decide (target = StPENDING) then None else rs_metrics_json n;
          rs_started_at := if decide (target = StPENDING) then None else rs_started_at n;
          rs_finished_at :=
            if decide (target = StPENDING) then None
            else if decide (target = StCANCELLED) then Some t else rs_finished_at n;
          rs_updated_at := t |}) db)
  | None =>
      upsert_node doc ty key (value target) None None None None None None
        (if decide (target = StCANCELLED) then Some (now (rg_reads db)) else None)
        (if decide (target = StCANCELLED) then read_clock db else db)
  end.

Definition stage_order : list string := ["upload"; "extract"; "normalize"; "chunk"].

(** [stage_order[stage_order.index(stage) + 1:]], or [None] for a stage not in it. *)
Fixpoint stages_after (stage : string) (order : list string) : option (list string) :=
  match order with
  | [] => None
  | s :: order' => if decide (s = stage) then Some order' else stages_after stage order'
  end.

Definition _cascade_reset_downstream (doc : Z) (failed_stage : string) (reset_to_pending : bool)
    (db : RagDb) : RagDb :=
  let target := if reset_to_pending then StPENDING else StCANCELLED in
  let force := bool_decide (target = StPENDING) in
  if startswith embed_prefix failed_stage then
    let model := drop_prefix embed_prefix failed_stage in
    _reset_stage_if_needed doc (format_stage_name "index" model) target force db
  else if startswith index_prefix failed_stage then db
  else match stages_after failed_stage stage_order with
  | None => db
  | Some later =>
      let db1 := foldl (fun db s => _reset_stage_if_needed doc s target force db) db later in
      foldl (fun db n =>
        _reset_stage_if_needed doc (format_stage_name "index" (rs_node_key n)) target force
          (_reset_stage_if_needed doc (format_stage_name "embedding" (rs_node_key n)) target force db))
        db1 (get_embedding_nodes doc db1)
  end.

(** ** Transitions *)

Definition transition_allowed (cur : option RAGStatus) (new : StageStatus) : bool :=
  match cur with
  | None => true
  | Some n =>
      match parse_status (rs_status n) with
      | None => true
      | Some s => bool_decide (new ∈ VALID_TRANSITIONS s)
      end
  end.

Definition is_final (s : StageStatus) : bool :=
  bool_decide (s ∈ [StCOMPLETED; StFAILED; StCANCELLED]).

Definition transition_stage (doc : Z) (stage : string) (new : StageStatus)
    (error : option string) (metrics : option json) (celery_task_id : option string)
    : py rag_exn RagDb unit := fun db =>
  let '(ty, key) := split_stage_name stage in
  if negb (transition_allowed (get_node doc ty key db) new) then (Err StatusTransitionError, db) else
  let t := now (rg_reads db) in
  let db1 := upsert_node doc ty key (value new)
    (if is_final new then None else nonempty celery_task_id) None None
    (nonempty error)
    (match metrics with Some m => if truthy m then Some m else None | None => None end)
    (if decide (new = StPROCESSING) then Some t else None)
    (if is_final new then Some t else None)
    (if decide (new = StPROCESSING) then read_clock db else if is_final new then read_clock db else db) in
  let db2 :=
    if event_publisher
    then log_event (EvStatusUpdate doc (od_get doc (rg_documents db1) ≫= dc_tenant_id) stage
                      (value new) error metrics) db1
    else db1 in
  let db3 :=
    if bool_decide (new ∈ [StFAILED; StCANCELLED])
    then _cascade_reset_downstream doc stage false db2 else db2 in
  (Ok tt, _update_aggregate_status doc db3).

(** ** Initialisation, start, stop, retry *)

Definition init_node (doc : Z) (ty key : string) (db : RagDb) : RagDb :=
  upsert_node doc ty key (value StPENDING) None None None None None None None db.

Definition initialize_document_statuses (doc tenant : Z) (embed_models : list string) (db : RagDb)
    : RagDb :=
  let t0 := now (rg_reads db) in
  let t1 := now (S (rg_reads db)) in
  let db1 := upsert_node doc "pipeline" (stage_value UPLOAD) (value StCOMPLETED)
               None None None None None (Some t0) (Some t1) (read_clock (read_clock db)) in
  let db2 := foldl (fun db s => init_node doc "pipeline" (stage_value s) db) db1
               [EXTRACT; NORMALIZE; CHUNK] in
  let db3 := foldl (fun db m => init_node doc "embedding" m db) db2 embed_models in
  let db4 := foldl (fun db m => init_node doc "index" m db) db3 embed_models in
  let db5 := if event_publisher then log_event (EvInitialized doc tenant) db4 else db4 in
  _update_aggregate_status doc db5.

(** The loops of [start_ingest] over the queried nodes. *)
Definition reset_nodes (doc : Z) (ty : string) (nodes : list RAGStatus) (db : RagDb) : RagDb :=
  foldl (fun db n => _reset_stage_if_needed doc (format_stage_name ty (rs_node_key n)) StPENDING true db)
    db nodes.

Definition start_ingest (doc : Z) : py rag_exn RagDb unit := fun db =>
  let db0 :=
    match get_pipeline_nodes doc db, get_embedding_nodes doc db, get_index_nodes doc db with
    | [], [], [] =>
        match od_get doc (rg_documents db) ≫= dc_tenant_id with
        | Some t => initialize_document_statuses doc t (get_target_models doc db) db
        | None => db
        end
    | _, _, _ => db
    end in
  let pipeline := get_pipeline_nodes doc db0 in
  let embedding := get_embedding_nodes doc db0 in
  let index := get_index_nodes doc db0 in
  let db1 := reset_nodes doc "pipeline"
               (List.filter (fun n => negb (String.eqb (rs_node_key n) (stage_value UPLOAD))) pipeline) db0 in
  let db2 := reset_nodes doc "embedding" embedding db1 in
  let db3 := reset_nodes doc "index" index db2 in
  transition_stage doc (stage_value EXTRACT) StQUEUED None None None db3.

Definition dispatch_ingest_pipeline (doc tenant : Z) : py rag_exn RagDb (list string) := fun db =>
  match get_target_models doc db with
  | [] => (Err ValueError, db)
  | models => (Ok models, log_event (EvDispatchPipeline doc tenant models) db)
  end.

Definition stop_stage (doc : Z) (stage : string) : py rag_exn RagDb (option string) := fun db =>
  let '(ty, key) := split_stage_name stage in
  match get_node doc ty key db with
  | None => (Ok None, db)
  | Some n =>
      let task_id := rs_celery_task_id n in
      match transition_stage doc stage StCANCELLED None None None db with
      | (Err e, db1) => (Err e, db1)
      | (Ok _, db1) => (Ok task_id, _cascade_reset_downstream doc stage false db1)
      end
  end.

Definition active_now : list string := [value StQUEUED; value StPROCESSING].

(** The loop of [stop_ingest] over the keys of the queried nodes. *)
Fixpoint stop_loop (doc : Z) (keys : list (string * string)) (stopped task_ids : list string)
    : py rag_exn RagDb (list string * list string) := fun db =>
  match keys with
  | [] => (Ok (stopped, task_ids), db)
  | (ty, key) :: keys' =>
      match get_node doc ty key db with
      | None => stop_loop doc keys' stopped task_ids db
      | Some n =>
          if negb (str_in (rs_status n) active_now) then stop_loop doc keys' stopped task_ids db
          else
            let stage := format_stage_name ty key in
            let task_ids' := match nonempty (rs_celery_task_id n) with
                             | Some t => task_ids ++ [t] | None => task_ids end in
            match transition_stage doc stage StCANCELLED None None None db with
            | (Err e, db1) => (Err e, db1)
            | (Ok _, db1) => stop_loop doc keys' (stopped ++ [stage]) task_ids' db1
            end
      end
  end.

(** Returns the stopped stages and the task ids to revoke. *)
Definition stop_ingest (doc : Z) : py rag_exn RagDb (list string * list string) := fun db =>
  stop_loop doc (map (fun n => (rs_node_type n, rs_node_key n)) (get_nodes_by_doc_id doc db)) [] [] db.

Definition retry_stage (doc : Z) (stage : string) : py rag_exn RagDb unit := fun db =>
  match transition_stage doc stage StQUEUED None None None db with
  | (Err e, db1) => (Err e, db1)
  | (Ok _, db1) =>
      (Ok tt,
       if startswith embed_prefix stage then
         _reset_stage_if_needed doc (format_stage_name "index" (drop_prefix embed_prefix stage))
           StPENDING true db1
       else if startswith index_prefix stage then db1
       else _cascade_reset_downstream doc stage true db1)
  end.

Definition dispatch_stage_retry (doc tenant : Z) (stage : string) : py rag_exn RagDb unit := fun db =>
  if String.eqb stage "extract" then
    match dispatch_ingest_pipeline doc tenant db with
    | (Ok _, db1) => (Ok tt, db1)
    | (Err e, db1) => (Err e, db1)
    end
  else if startswith embed_prefix stage then
    (Ok tt, log_event (EvDispatchEmbedIndex doc tenant (drop_prefix embed_prefix stage)) db)
  else if startswith index_prefix stage then
    (Ok tt, log_event (EvDispatchIndex doc tenant (drop_prefix index_prefix stage)) db)
  else (Err ValueError, db).

Definition archive_document (doc : Z) (db : RagDb) : RagDb :=
  upsert_node doc "archive" "archive" (value StCOMPLETED) None None None None None
    (Some (now (rg_reads db))) (Some (now (S (rg_reads db)))) (read_clock (read_clock db)).
(** It calls [status_repo.delete_node], which the repository and its base
    class do not define. *)
Definition unarchive_document (doc : Z) : py rag_exn RagDb unit := raise AttributeError.

(** ** [build_ingest_policy] *)

Record IngestPolicy := {
  ip_archived : bool; ip_start_allowed : bool; ip_start_reason : option string;
  ip_active_stages : list string; ip_retryable_stages : list string;
  ip_stoppable_stages : list string; ip_controls : list StageControl
}.

Definition node_status (doc : Z) (ty key : string) (db : RagDb) : string :=
  match get_node doc ty key db with Some n => rs_status n | None => value StPENDING end.

Definition build_ingest_policy (doc : Z) (db : RagDb) : IngestPolicy :=
  let archived := bool_decide (is_Some (get_node doc "archive" "archive" db)) in
  let effective_models := sort_by id String.le (remove_dups
    (get_target_models doc db ++ map rs_node_key (get_embedding_nodes doc db)
       ++ map rs_node_key (get_index_nodes doc db))) in
  let control ty key :=
    build_stage_control (format_stage_name ty key) ty (node_status doc ty key db) archived in
  let controls :=
    map (control "pipeline") stage_order
    ++ flat_map (fun m => [control "embedding" m; control "index" m]) effective_models in
  let active_stages :=
    map sc_stage (List.filter (fun c => str_in (sc_status c) STOPPABLE_STAGE_STATUSES) controls) in
  {| ip_archived := archived;
     ip_start_allowed := negb archived && bool_decide (active_stages = []);
     ip_start_reason :=
       if archived then Some "document_archived"
       else match active_stages with [] => None | _ => Some "ingest_already_running" end;
     ip_active_stages := active_stages;
     ip_retryable_stages := map sc_stage (List.filter sc_can_retry controls);
     ip_stoppable_stages := map sc_stage (List.filter sc_can_stop controls);
     ip_controls := controls |}.
End Manager.
