(* ===== verification/RagManagerProofs.v ===== *)
(** * What the RAG status operations do to the status rows

    Frame and status lemmas for the row updates of [RagManager], then the
    theorems on [transition_stage], [stop_ingest] and [start_ingest]. *)
From S2P Require Import Prelude RagPolicy RagManager.

(** ** Frames *)

Definition unique (db : RagDb) : Prop := NoDup (map nkey (rg_nodes db)).

(** Only rows with a key in [K] may differ; row uniqueness and the document keys
    are kept. *)
Record frame (K : node_id -> Prop) (db db' : RagDb) : Prop := {
  fr_nodes : forall n, ~ K (nkey n) -> n ∈ rg_nodes db' <-> n ∈ rg_nodes db;
  fr_unique : unique db -> unique db';
  fr_docs : od_keys (rg_documents db') = od_keys (rg_documents db)
}.

#[export] Instance frame_preorder K : PreOrder (frame K).
Proof.
  split.
  - intros db. by split.
  - intros a b c [H1 U1 D1] [H2 U2 D2]. split; [|by auto|congruence].
    intros n Hn. by rewrite H2, H1.
Qed.

Lemma frame_mono (K K' : node_id -> Prop) db db' :
  (forall k, K k -> K' k) -> frame K db db' -> frame K' db db'.
Proof. intros HK [H U D]. split; [|done|done]. intros n Hn. apply H. auto. Qed.

Lemma frame_foldl {A} (K : node_id -> Prop) (step : RagDb -> A -> RagDb) l db :
  (forall db x, x ∈ l -> frame K db (step db x)) -> frame K db (foldl step db l).
Proof.
  revert db. induction l as [|x l IH]; intros db H; simpl; [reflexivity|].
  etransitivity; [apply H; by left|]. apply IH. intros; apply H. by right.
Qed.

(** All rows with key [k] have a status in [G]. *)
Definition status_at (G : string -> Prop) (k : node_id) (db : RagDb) : Prop :=
  forall n, n ∈ rg_nodes db -> nkey n = k -> G (rs_status n).

Lemma frame_status_at G K k db db' :
  frame K db db' -> ~ K k -> status_at G k db -> status_at G k db'.
Proof. intros F Hk H n Hn <-. apply (H n); [|done]. by apply (fr_nodes _ _ _ F). Qed.

(** ** Row look-up and update *)

Lemma get_node_Some doc ty key db n :
  get_node doc ty key db = Some n -> n ∈ rg_nodes db /\ nkey n = (doc, ty, key).
Proof.
  intros H. apply find_some in H as [H1 H2]. rewrite list_elem_of_In.
  by apply bool_decide_eq_true in H2.
Qed.

Lemma get_node_None doc ty key db :
  get_node doc ty key db = None -> forall n, n ∈ rg_nodes db -> nkey n ≠ (doc, ty, key).
Proof.
  intros H n Hn%list_elem_of_In. pose proof (find_none _ _ H n Hn) as Hf.
  by apply bool_decide_eq_false in Hf.
Qed.

Lemma unique_get doc ty key db n n' :
  unique db -> get_node doc ty key db = Some n -> n' ∈ rg_nodes db -> nkey n' = (doc, ty, key) ->
  n' = n.
Proof.
  intros Hu Hg Hn' Hk'. apply get_node_Some in Hg as [Hn Hk]. unfold unique in Hu.
  induction (rg_nodes db) as [|x l IH]; [set_solver|]. simpl in Hu.
  apply NoDup_cons in Hu as [Hx Hu]. apply elem_of_cons in Hn as [->|Hn], Hn' as [->|Hn']; try done.
  - destruct Hx. rewrite Hk, <- Hk'. by apply (list_elem_of_fmap_2 nkey).
  - destruct Hx. rewrite Hk', <- Hk. by apply (list_elem_of_fmap_2 nkey).
  - by apply IH.
Qed.

Lemma update_row_elem k f db n :
  n ∈ rg_nodes (update_row k f db) <->
  exists n0, n0 ∈ rg_nodes db /\ ((nkey n0 = k /\ n = f n0) \/ (nkey n0 ≠ k /\ n = n0)).
Proof.
  simpl. rewrite list_elem_of_fmap. split.
  - intros (n0 & -> & Hn0). exists n0. split; [done|]. case_decide; auto.
  - intros (n0 & Hn0 & [[Hk ->]|[Hk ->]]); exists n0; (split; [|done]).
    + by rewrite decide_True.
    + by rewrite decide_False.
Qed.

Lemma update_row_frame k f db :
  (forall n, nkey (f n) = nkey n) -> frame (eq k) db (update_row k f db).
Proof.
  intros Hf. split.
  - intros n Hn. rewrite update_row_elem. split.
    + intros (n0 & Hn0 & [[Hk ->]|[_ ->]]); [|done]. destruct Hn. by rewrite Hf.
    + intros H. exists n. split; [done|]. right. split; [congruence|done].
  - unfold unique. simpl. rewrite map_map. intros Hu.
    erewrite map_ext; [exact Hu|]. intros n. by case_decide.
  - done.
Qed.

Lemma read_clock_frame db : frame (fun _ => False) db (read_clock db).
Proof. by split. Qed.
Lemma log_event_frame e db : frame (fun _ => False) db (log_event e db).
Proof. by split. Qed.

Lemma frame_clock K db d : frame K db d -> frame K db (read_clock d).
Proof. by intros [H U D]. Qed.
Lemma frame_from_clock K db d : frame K (read_clock db) d -> frame K db d.
Proof. by intros [H U D]. Qed.

Lemma append_frame k n db :
  nkey n = k -> (forall n', n' ∈ rg_nodes db -> nkey n' ≠ k) ->
  frame (eq k) db (set_nodes (rg_nodes db ++ [n]) db).
Proof.
  intros <- Hnew. split; [|intros Hu|done].
  - intros n' Hn'. simpl. rewrite elem_of_app, list_elem_of_singleton. split; [|by left].
    intros [?| ->]; done.
  - unfold unique. simpl. rewrite map_app. apply NoDup_app; split_and!; [done| |apply NoDup_singleton].
    intros k Hk. simpl. apply list_elem_of_fmap in Hk as (n' & -> & Hn').
    rewrite list_elem_of_singleton. by apply Hnew.
Qed.

Section Manager.
Context (now : nat -> Z) (factory_tenant : option Z) (event_publisher : bool).

(** ** [upsert_node] *)

Lemma upsert_frame doc ty key st ct mv mo er me sa fa db :
  frame (eq (doc, ty, key)) db (upsert_node now doc ty key st ct mv mo er me sa fa db).
Proof.
  unfold upsert_node. destruct (get_node doc ty key db) as [n|] eqn:E.
  - by apply frame_clock, update_row_frame.
  - destruct (od_get doc (rg_documents db)); [|reflexivity].
    apply frame_clock. apply append_frame; [done|by apply get_node_None].
Qed.

Lemma upsert_status doc ty key st ct mv mo er me sa fa db :
  status_at (fun s => s = st) (doc, ty, key) (upsert_node now doc ty key st ct mv mo er me sa fa db).
Proof.
  unfold upsert_node. intros n Hn Hk. destruct (get_node doc ty key db) as [n0|] eqn:E.
  - change (n ∈ rg_nodes (read_clock ?d)) with (n ∈ rg_nodes d) in Hn.
    apply update_row_elem in Hn as (n1 & _ & [[_ ->]|[Hne ->]]); [done|congruence].
  - pose proof (get_node_None _ _ _ _ E) as Hno.
    destruct (od_get doc (rg_documents db)); simpl in Hn; [|by destruct (Hno n Hn)].
    apply elem_of_app in Hn as [Hn|Hn%list_elem_of_singleton]; [by destruct (Hno n Hn)|by subst].
Qed.

Lemma upsert_exists doc ty key st ct mv mo er me sa fa db :
  is_Some (get_node doc ty key db) \/ doc ∈ od_keys (rg_documents db) ->
  exists n, n ∈ rg_nodes (upsert_node now doc ty key st ct mv mo er me sa fa db) /\
    nkey n = (doc, ty, key) /\
    forall n0, get_node doc ty key db = Some n0 ->
      rs_celery_task_id n = match ct with Some c => Some c | None => rs_celery_task_id n0 end.
Proof.
  intros Hex. unfold upsert_node. destruct (get_node doc ty key db) as [n0|] eqn:E.
  - apply get_node_Some in E as [Hn0 Hk0]. eexists. split; [|split].
    + simpl. apply list_elem_of_fmap. exists n0. split; [|done]. by rewrite decide_True.
    + exact Hk0.
    + by intros ? [= <-].
  - destruct Hex as [[? ?]|Hd]; [done|]. apply od_get_is_Some in Hd as [d ->].
    eexists. split; [simpl; apply elem_of_app; right; by left|]. split; [done|]. intros ? ?; done.
Qed.

(** ** [_reset_stage_if_needed] *)

(** The statuses a reset can leave on the row it is asked to reset. *)
Definition reset_good (target : StageStatus) (force : bool) (G : string -> Prop) : Prop :=
  G (value target) /\ (force = false -> forall s, s ∈ [value StCOMPLETED; value StCANCELLED] -> G s).

Definition stage_key (doc : Z) (stage : string) : node_id :=
  (doc, (split_stage_name stage).1, (split_stage_name stage).2).

Lemma reset_frame doc stage target force db :
  frame (eq (stage_key doc stage)) db (_reset_stage_if_needed now doc stage target force db).
Proof.
  unfold _reset_stage_if_needed, stage_key. destruct (split_stage_name stage) as [ty key]. simpl.
  destruct (get_node doc ty key db) as [n|] eqn:E.
  - destruct (negb force && _); [reflexivity|].
    by apply frame_clock, update_row_frame.
  - case_decide; [|apply upsert_frame].
    apply frame_from_clock, upsert_frame.
Qed.

Lemma reset_status doc stage target force db G :
  unique db -> reset_good target force G ->
  status_at G (stage_key doc stage) (_reset_stage_if_needed now doc stage target force db).
Proof.
  intros Hu [Hv Hs]. unfold _reset_stage_if_needed, stage_key.
  destruct (split_stage_name stage) as [ty key]. simpl.
  destruct (get_node doc ty key db) as [n|] eqn:E.
  - destruct (negb force && _) eqn:Ec.
    + apply andb_true_iff in Ec as [Hf Hst]. apply negb_true_iff in Hf. apply str_in_spec in Hst.
      intros n' Hn' Hk. rewrite (unique_get _ _ _ _ _ _ Hu E Hn' Hk). by apply Hs.
    + intros n' Hn' Hk. change (n' ∈ rg_nodes (read_clock ?d)) with (n' ∈ rg_nodes d) in Hn'.
      apply update_row_elem in Hn' as (n1 & _ & [[_ ->]|[Hne ->]]); [done|congruence].
  - intros n' Hn' Hk. pose proof (upsert_status doc ty key (value target)) as Hup.
    by rewrite (Hup _ _ _ _ _ _ _ _ n' Hn' Hk).
Qed.

Lemma reset_keeps doc stage target force db G k :
  unique db -> reset_good target force G -> status_at G k db ->
  status_at G k (_reset_stage_if_needed now doc stage target force db).
Proof.
  intros Hu HG Hk. destruct (decide (stage_key doc stage = k)) as [<-|Hne].
  - by apply reset_status.
  - by eapply frame_status_at; [apply reset_frame|..].
Qed.

(** A reset creates no rows besides its own key. *)
Lemma reset_keys doc stage target force db n :
  n ∈ rg_nodes (_reset_stage_if_needed now doc stage target force db) ->
  nkey n = stage_key doc stage \/ n ∈ rg_nodes db.
Proof.
  intros Hn. destruct (decide (stage_key doc stage = nkey n)) as [He|Hne]; [by left|right].
  by apply (fr_nodes _ _ _ (reset_frame doc stage target force db)).
Qed.

(** A sequence of resets leaves every row it resets in [G]. *)
Lemma resets_status {A} (stage : A -> string) doc target force G l db :
  reset_good target force G -> unique db ->
  let db' := foldl (fun db x => _reset_stage_if_needed now doc (stage x) target force db) db l in
  (forall x, x ∈ l -> status_at G (stage_key doc (stage x)) db') /\
  (forall k, status_at G k db -> status_at G k db').
Proof.
  intros HG. revert db. induction l as [|x l IH]; intros db Hu; simpl; [split; [set_solver|done]|].
  set (db1 := _reset_stage_if_needed now doc (stage x) target force db).
  assert (Hu1 : unique db1) by by apply (fr_unique _ _ _ (reset_frame _ _ _ _ _)).
  destruct (IH db1 Hu1) as [Hl Hk]. split.
  - intros y [->|Hy]%elem_of_cons; [|by apply Hl]. by apply Hk, reset_status.
  - intros k Hkk. by apply Hk, reset_keeps.
Qed.

Lemma resets_frame {A} (stage : A -> string) doc target force l db :
  frame (fun k => exists x, x ∈ l /\ k = stage_key doc (stage x)) db
    (foldl (fun db x => _reset_stage_if_needed now doc (stage x) target force db) db l).
Proof.
  apply frame_foldl. intros db' x Hx. eapply frame_mono; [|apply reset_frame].
  intros k <-. by exists x.
Qed.
End Manager.

(** ** The cascade *)

(** The rows a failing or cancelled stage takes along: the later pipeline stages
    and both rows of every embedding model; for an embedding, its index. *)
Definition downstream (doc : Z) (stage : string) (db : RagDb) (k : node_id) : Prop :=
  if startswith embed_prefix stage then k = (doc, "index", drop_prefix embed_prefix stage)
  else if startswith index_prefix stage then False
  else exists later, stages_after stage stage_order = Some later /\
    ((exists s, s ∈ later /\ k = (doc, "pipeline", s)) \/
     (exists n, n ∈ rg_nodes db /\ rs_doc_id n = doc /\ rs_node_type n = "embedding" /\
        (k = (doc, "embedding", rs_node_key n) \/ k = (doc, "index", rs_node_key n)))).

Lemma stage_key_format doc ty key :
  stage_node ty key -> stage_key doc (format_stage_name ty key) = (doc, ty, key).
Proof. intros H. unfold stage_key. by rewrite split_format. Qed.

Lemma stage_key_index doc m : stage_key doc (format_stage_name "index" m) = (doc, "index", m).
Proof. apply stage_key_format. by right; left. Qed.
Lemma stage_key_embedding doc m :
  stage_key doc (format_stage_name "embedding" m) = (doc, "embedding", m).
Proof. apply stage_key_format. by left. Qed.

Lemma stages_after_plain stage later s :
  stages_after stage stage_order = Some later -> s ∈ later ->
  stage_key 0 s = (0%Z, "pipeline", s) /\ s ≠ stage /\ split_stage_name stage = ("pipeline", stage).
Proof.
  unfold stage_order. simpl. intros Hl Hs. repeat case_decide; simplify_eq;
    repeat match goal with
    | H : _ ∈ _ :: _ |- _ => apply elem_of_cons in H as [->|H]
    | H : _ ∈ [] |- _ => by apply elem_of_nil in H
    end; done.
Qed.

Lemma stage_key_plain doc stage later s :
  stages_after stage stage_order = Some later -> s ∈ later ->
  stage_key doc s = (doc, "pipeline", s).
Proof.
  intros H1 H2. destruct (stages_after_plain _ _ _ H1 H2) as [H _]. unfold stage_key in *.
  by injection H as -> ->.
Qed.

Lemma nodes_of_type_elem ty doc db n :
  n ∈ nodes_of_type ty doc db <-> n ∈ rg_nodes db /\ rs_doc_id n = doc /\ rs_node_type n = ty.
Proof.
  unfold nodes_of_type, of_type. rewrite (sort_by_elem rs_node_key String.le), elem_of_List_filter.
  by rewrite andb_true_iff, !bool_decide_eq_true.
Qed.

(** The cascade as one sequence of resets. *)
Fixpoint interleave {A B} (f g : A -> B) (l : list A) : list B :=
  match l with [] => [] | x :: l' => f x :: g x :: interleave f g l' end.

Lemma interleave_elem {A B} (f g : A -> B) l y :
  y ∈ interleave f g l <-> exists x, x ∈ l /\ (y = f x \/ y = g x).
Proof.
  induction l as [|x l IH]; simpl; [set_solver|]. rewrite !elem_of_cons, IH. split.
  - intros [->|[->|(x' & Hx & H)]]; [exists x|exists x|exists x']; set_solver.
  - intros (x' & Hx & H). apply elem_of_cons in Hx as [->|Hx]; [tauto|]. right; right. eauto.
Qed.

Section Cascade.
Context (now : nat -> Z).

Definition resets (doc : Z) (target : StageStatus) (force : bool) (stages : list string)
    (db : RagDb) : RagDb :=
  foldl (fun db s => _reset_stage_if_needed now doc s target force db) db stages.

Lemma resets_interleave doc target force (ns : list RAGStatus) db :
  foldl (fun db n =>
    _reset_stage_if_needed now doc (format_stage_name "index" (rs_node_key n)) target force
      (_reset_stage_if_needed now doc (format_stage_name "embedding" (rs_node_key n)) target force db)) db ns
  = resets doc target force
      (interleave (fun n => format_stage_name "embedding" (rs_node_key n))
                  (fun n => format_stage_name "index" (rs_node_key n)) ns) db.
Proof. unfold resets. revert db. induction ns as [|n ns IH]; intros db; simpl; [done|]. apply IH. Qed.

(** The stages the cascade resets, in order. *)
Definition cascade_stages (doc : Z) (stage : string) (db : RagDb) : list string :=
  if startswith embed_prefix stage then [format_stage_name "index" (drop_prefix embed_prefix stage)]
  else if startswith index_prefix stage then []
  else match stages_after stage stage_order with
       | None => []
       | Some later =>
           later ++ interleave (fun n => format_stage_name "embedding" (rs_node_key n))
                      (fun n => format_stage_name "index" (rs_node_key n))
                      (get_embedding_nodes doc db)
       end.

Lemma nodes_of_type_ext ty doc db db' :
  List.filter (of_type doc ty) (rg_nodes db') = List.filter (of_type doc ty) (rg_nodes db) ->
  nodes_of_type ty doc db' = nodes_of_type ty doc db.
Proof. unfold nodes_of_type. by intros ->. Qed.

Lemma update_row_type_filter doc ty ty' key f db :
  (forall n, nkey (f n) = nkey n) -> ty ≠ ty' ->
  List.filter (of_type doc ty') (rg_nodes (update_row (doc, ty, key) f db))
  = List.filter (of_type doc ty') (rg_nodes db).
Proof.
  intros Hf Hne. simpl. induction (rg_nodes db) as [|x l IH]; [done|]. simpl. rewrite IH.
  case_decide as Hk; [|done].
  assert (Ht : forall n, nkey n = (doc, ty, key) -> of_type doc ty' n = false).
  { intros n [= _ Ht _]. unfold of_type. rewrite Ht.
    by rewrite (bool_decide_false (ty = ty')), andb_false_r. }
  by rewrite !Ht by (rewrite ?Hf; done).
Qed.

Lemma upsert_type_filter doc ty ty' key st ct mv mo er me sa fa db :
  ty ≠ ty' ->
  List.filter (of_type doc ty') (rg_nodes (upsert_node now doc ty key st ct mv mo er me sa fa db))
  = List.filter (of_type doc ty') (rg_nodes db).
Proof.
  intros Hne. unfold upsert_node. destruct (get_node doc ty key db).
  - by apply update_row_type_filter.
  - destruct (od_get doc (rg_documents db)); [|done]. simpl. rewrite List.filter_app. simpl.
    unfold of_type. simpl. by rewrite (bool_decide_false (ty = ty')), andb_false_r, app_nil_r.
Qed.

Lemma reset_type_filter doc stage target force ty' db :
  (split_stage_name stage).1 ≠ ty' ->
  List.filter (of_type doc ty') (rg_nodes (_reset_stage_if_needed now doc stage target force db))
  = List.filter (of_type doc ty') (rg_nodes db).
Proof.
  intros Hne. unfold _reset_stage_if_needed. destruct (split_stage_name stage) as [ty key]. simpl in Hne.
  destruct (get_node doc ty key db) as [n0|].
  - destruct (negb force && _); [done|]. by apply update_row_type_filter.
  - rewrite upsert_type_filter by done. by case_decide.
Qed.

Lemma cascade_resets doc stage (pending : bool) db :
  _cascade_reset_downstream now doc stage pending db =
    resets doc (if pending then StPENDING else StCANCELLED) pending (cascade_stages doc stage db) db.
Proof.
  assert (Hforce : bool_decide ((if pending then StPENDING else StCANCELLED) = StPENDING) = pending)
    by by destruct pending.
  unfold _cascade_reset_downstream, cascade_stages. rewrite Hforce.
  destruct (startswith embed_prefix stage); [done|].
  destruct (startswith index_prefix stage); [done|].
  destruct (stages_after stage stage_order) as [later|] eqn:E; [|done].
  rewrite resets_interleave. unfold resets. rewrite foldl_app.
  set (db1 := foldl _ db later).
  assert (get_embedding_nodes doc db1 = get_embedding_nodes doc db) as ->; [|done].
  apply nodes_of_type_ext. unfold db1. clear db1.
  assert (Hl : forall s, s ∈ later -> (split_stage_name s).1 = "pipeline").
  { intros s Hs. pose proof (stage_key_plain 0 _ _ _ E Hs) as H. by injection H. }
  clear E. generalize db. induction later as [|s later IH]; intros d; [done|]. simpl.
  rewrite IH by (intros; apply Hl; by right). apply reset_type_filter.
  by rewrite Hl by by left.
Qed.

Lemma cascade_stages_key doc stage db k :
  (exists s, s ∈ cascade_stages doc stage db /\ k = stage_key doc s) <-> downstream doc stage db k.
Proof.
  unfold cascade_stages, downstream. destruct (startswith embed_prefix stage).
  { split; [intros (s & ->%list_elem_of_singleton & ->); apply stage_key_index|].
    intros ->. eexists. split; [by left|]. by rewrite stage_key_index. }
  destruct (startswith index_prefix stage); [set_solver|].
  destruct (stages_after stage stage_order) as [later|] eqn:E; [|set_solver].
  setoid_rewrite elem_of_app. setoid_rewrite interleave_elem. split.
  - intros (s & [Hs|(n & Hn & Hs)] & ->); exists later; (split; [done|]).
    + left. exists s. split; [done|]. by eapply stage_key_plain.
    + right. exists n. apply nodes_of_type_elem in Hn as (? & ? & ?). split_and!; [done..|].
      destruct Hs as [->| ->]; [left; apply stage_key_embedding|right; apply stage_key_index].
  - intros (later' & [= <-] & [(s & Hs & ->)|(n & Hn & Hd & Ht & Hk)]).
    + exists s. split; [by left|]. symmetry. by eapply stage_key_plain.
    + assert (Hin : n ∈ get_embedding_nodes doc db) by by apply nodes_of_type_elem.
      destruct Hk as [->| ->].
      * exists (format_stage_name "embedding" (rs_node_key n)).
        split; [right; exists n; auto|by rewrite stage_key_embedding].
      * exists (format_stage_name "index" (rs_node_key n)).
        split; [right; exists n; auto|by rewrite stage_key_index].
Qed.

Lemma cascade_frame doc stage pending db :
  frame (downstream doc stage db) db (_cascade_reset_downstream now doc stage pending db).
Proof.
  rewrite cascade_resets. eapply frame_mono; [|apply (resets_frame now (fun s : string => s))].
  intros k Hk. by apply cascade_stages_key.
Qed.

Lemma cascade_status doc stage (pending : bool) db k G :
  unique db -> reset_good (if pending then StPENDING else StCANCELLED) pending G ->
  downstream doc stage db k ->
  status_at G k (_cascade_reset_downstream now doc stage pending db).
Proof.
  intros Hu HG Hk. rewrite cascade_resets.
  apply cascade_stages_key in Hk as (s & Hs & ->).
  destruct (resets_status now (fun s : string => s) doc _ _ G (cascade_stages doc stage db) db HG Hu) as [H _].
  exact (H s Hs).
Qed.

(** A stage is not downstream of itself. *)
Lemma not_own_downstream doc stage db : ~ downstream doc stage db (stage_key doc stage).
Proof.
  unfold downstream, stage_key, split_stage_name.
  destruct (startswith embed_prefix stage); simpl; [by intros [=]|].
  destruct (startswith index_prefix stage); simpl; [by intros []|].
  intros (later & E & [(s & Hs & [= He])|(n & _ & _ & _ & [[=]|[=]])]).
  destruct (stages_after_plain _ _ _ E Hs) as (_ & Hne & _). congruence.
Qed.
End Cascade.

(** ** Transitions *)

Definition settled (s : string) : Prop := s ∈ [value StCOMPLETED; value StCANCELLED].

Section Transitions.
Context (now : nat -> Z) (factory_tenant : option Z) (event_publisher : bool).

Notation aggregate := (_update_aggregate_status now factory_tenant event_publisher).
Notation transition := (transition_stage now factory_tenant event_publisher).

Lemma aggregate_frame doc db : frame (fun _ => False) db (aggregate doc db).
Proof.
  unfold _update_aggregate_status. destruct (calculate_aggregate_status _ _ _ _ _ _ _) as [st d].
  assert (Hk : forall f, od_keys (od_alter f doc (rg_documents db)) = od_keys (rg_documents db))
    by (intros; apply od_keys_alter).
  destruct (_ ≫= dc_tenant_id); [destruct (_ && _)|]; split; try done; apply Hk.
Qed.

(** The row state between the validation and the cascade of a transition. *)
Definition transition_upsert (doc : Z) (stage : string) (new : StageStatus)
    (error : option string) (metrics : option json) (celery_task_id : option string) (db : RagDb)
    : RagDb :=
  let '(ty, key) := split_stage_name stage in
  let t := now (rg_reads db) in
  upsert_node now doc ty key (value new)
    (if is_final new then None else nonempty celery_task_id) None None
    (nonempty error)
    (match metrics with Some m => if truthy m then Some m else None | None => None end)
    (if decide (new = StPROCESSING) then Some t else None)
    (if is_final new then Some t else None)
    (if decide (new = StPROCESSING) then read_clock db else if is_final new then read_clock db else db).

Definition cascades (new : StageStatus) : bool := bool_decide (new ∈ [StFAILED; StCANCELLED]).

Definition stage_node_of (doc : Z) (stage : string) (db : RagDb) : option RAGStatus :=
  get_node doc (split_stage_name stage).1 (split_stage_name stage).2 db.

Lemma transition_unfold doc stage new error metrics task db :
  transition doc stage new error metrics task db =
    if transition_allowed (stage_node_of doc stage db) new then
      let db1 := transition_upsert doc stage new error metrics task db in
      let db2 := if event_publisher
                 then log_event (EvStatusUpdate doc (od_get doc (rg_documents db1) ≫= dc_tenant_id)
                                   stage (value new) error metrics) db1
                 else db1 in
      let db3 := if cascades new then _cascade_reset_downstream now doc stage false db2 else db2 in
      (Ok tt, aggregate doc db3)
    else (Err StatusTransitionError, db).
Proof.
  unfold transition_stage, stage_node_of, transition_upsert.
  destruct (split_stage_name stage) as [ty key]. simpl.
  by destruct (transition_allowed _ _).
Qed.

Lemma clock_if (b c : bool) db :
  rg_nodes (if b then read_clock db else if c then read_clock db else db) = rg_nodes db.
Proof. by destruct b, c. Qed.

Lemma transition_upsert_frame doc stage new error metrics task db :
  frame (eq (stage_key doc stage)) db (transition_upsert doc stage new error metrics task db).
Proof.
  unfold transition_upsert, stage_key. destruct (split_stage_name stage) as [ty key]. simpl.
  repeat case_decide; repeat case_match; try apply upsert_frame;
    apply frame_from_clock, upsert_frame.
Qed.

Lemma transition_upsert_status doc stage new error metrics task db :
  status_at (fun s => s = value new) (stage_key doc stage)
    (transition_upsert doc stage new error metrics task db).
Proof.
  unfold transition_upsert, stage_key. destruct (split_stage_name stage) as [ty key].
  apply upsert_status.
Qed.

Lemma transition_upsert_exists doc stage new error metrics task db :
  is_Some (stage_node_of doc stage db) \/ doc ∈ od_keys (rg_documents db) ->
  exists n, n ∈ rg_nodes (transition_upsert doc stage new error metrics task db) /\
    nkey n = stage_key doc stage /\
    forall n0, stage_node_of doc stage db = Some n0 -> is_final new = true ->
      rs_celery_task_id n = rs_celery_task_id n0.
Proof.
  unfold transition_upsert, stage_key, stage_node_of.
  destruct (split_stage_name stage) as [ty key]. cbn [fst snd]. intros H.
  set (db0 := if decide (new = StPROCESSING) then read_clock db
              else if is_final new then read_clock db else db).
  assert (Hg : get_node doc ty key db0 = get_node doc ty key db)
    by (unfold db0; by repeat case_match).
  assert (Hd : rg_documents db0 = rg_documents db) by (unfold db0; by repeat case_match).
  rewrite <- Hg, <- Hd in H. clearbody db0.
  destruct (upsert_exists now doc ty key (value new)
    (if is_final new then None else nonempty task) None None (nonempty error)
    (match metrics with Some m => if truthy m then Some m else None | None => None end)
    (if decide (new = StPROCESSING) then Some (now (rg_reads db)) else None)
    (if is_final new then Some (now (rg_reads db)) else None) db0 H) as (n & Hn & Hk & Ht).
  exists n. split_and!; [exact Hn|done|]. intros n0 Hn0 Hf. rewrite <- Hg in Hn0.
  rewrite (Ht _ Hn0). by rewrite Hf.
Qed.

(** The rows after an accepted transition. *)
Lemma transition_effect doc stage new error metrics task db :
  transition_allowed (stage_node_of doc stage db) new = true ->
  exists db1 db', transition doc stage new error metrics task db = (Ok tt, db') /\
    db1 = transition_upsert doc stage new error metrics task db /\
    frame (fun k => cascades new = true /\ downstream doc stage db k) db1 db' /\
    (cascades new = true -> unique db ->
       forall k, downstream doc stage db k -> status_at settled k db').
Proof.
  intros Hok. rewrite transition_unfold, Hok. cbv zeta.
  set (db1 := transition_upsert doc stage new error metrics task db).
  set (db2 := if event_publisher then _ else db1).
  assert (F2 : frame (fun _ => False) db1 db2)
    by (unfold db2; destruct event_publisher; [apply log_event_frame|reflexivity]).
  assert (Hdown : forall k, downstream doc stage db2 k <-> downstream doc stage db k).
  { intros k. assert (Hn2 : rg_nodes db2 = rg_nodes db1) by (unfold db2; by destruct event_publisher).
    clear F2. clearbody db2. unfold downstream. rewrite Hn2.
    destruct (startswith embed_prefix stage) eqn:E1; [done|].
    destruct (startswith index_prefix stage) eqn:E2; [done|].
    pose proof (transition_upsert_frame doc stage new error metrics task db) as F1. fold db1 in F1.
    assert (Hemb : forall n, rs_node_type n = "embedding" -> n ∈ rg_nodes db1 <-> n ∈ rg_nodes db).
    { intros n Ht. apply (fr_nodes _ _ _ F1). unfold stage_key, split_stage_name.
      rewrite E1, E2. intros [= _ Hty _]. by rewrite Ht in Hty. }
    split; intros (later & Hl & [Hp|(n & Hn & Hd & Ht & Hk)]); exists later; (split; [done|]);
      [by left| |by left|]; right; exists n; (split; [by apply Hemb|done]). }
  set (db3 := if cascades new then _ else db2).
  pose proof (aggregate_frame doc db3) as F4.
  exists db1, (aggregate doc db3). split_and!; [done|done| |].
  - transitivity db2; [eapply frame_mono; [|exact F2]; done|].
    transitivity db3; [|eapply frame_mono; [|exact F4]; done].
    unfold db3. destruct (cascades new); [|reflexivity].
    eapply frame_mono; [|apply cascade_frame]. intros k Hk. split; [done|by apply Hdown].
  - intros Hc Hu k Hk.
    assert (Hu2 : unique db2) by (apply (fr_unique _ _ _ F2); unfold db1;
      by apply (fr_unique _ _ _ (transition_upsert_frame doc stage new error metrics task db))).
    eapply frame_status_at; [exact F4|tauto|]. unfold db3. rewrite Hc.
    apply cascade_status; [done| |by apply Hdown].
    split; [unfold settled; set_solver|]. intros _ s Hs. exact Hs.
Qed.

End Transitions.

(** ** Stopping and starting an ingest *)

(** The row keys of one document the manager can address. *)
Definition keys_ok (doc : Z) (db : RagDb) : Prop :=
  forall n, n ∈ rg_nodes db -> rs_doc_id n = doc ->
    stage_node (rs_node_type n) (rs_node_key n) \/ rs_node_type n = "archive".

Definition is_active (n : RAGStatus) : bool := str_in (rs_status n) active_now.

Lemma active_cancellable n : is_active n = true -> transition_allowed (Some n) StCANCELLED = true.
Proof.
  unfold is_active, active_now. intros H%str_in_spec. unfold transition_allowed.
  simpl in H. apply elem_of_cons in H as [->|H%list_elem_of_singleton]; [done|]. by rewrite H.
Qed.

Lemma settled_not_active n : settled (rs_status n) -> is_active n = false.
Proof.
  unfold settled, is_active, active_now. intros H. apply not_true_iff_false.
  rewrite str_in_spec. apply elem_of_cons in H as [->|H%list_elem_of_singleton]; [|rewrite H];
    intros [?|?%list_elem_of_singleton]%elem_of_cons; done.
Qed.

Section StopStart.
Context (now : nat -> Z) (factory_tenant : option Z) (event_publisher : bool).

Notation transition := (transition_stage now factory_tenant event_publisher).
Notation stop_loop := (stop_loop now factory_tenant event_publisher).

(** One iteration on an active row: accepted; the row and its downstream are
    no longer active, the rest is untouched. *)
Lemma cancel_step doc ty key n db :
  unique db -> stage_node ty key -> get_node doc ty key db = Some n -> is_active n = true ->
  exists db', transition doc (format_stage_name ty key) StCANCELLED None None None db = (Ok tt, db') /\
    unique db' /\
    (forall n', n' ∈ rg_nodes db' -> is_active n' = true -> n' ∈ rg_nodes db /\ nkey n' ≠ (doc, ty, key)) /\
    (forall n', rs_doc_id n' ≠ doc -> n' ∈ rg_nodes db' <-> n' ∈ rg_nodes db).
Proof.
  intros Hu Hst Hg Ha. set (stage := format_stage_name ty key).
  assert (Hk : stage_key doc stage = (doc, ty, key)) by by apply stage_key_format.
  assert (Hnode : stage_node_of doc stage db = Some n).
  { unfold stage_node_of. unfold stage_key in Hk. injection Hk as -> ->. done. }
  destruct (transition_effect now factory_tenant event_publisher doc stage StCANCELLED None None None db)
    as (db1 & db' & Hrun & -> & F & Hset); [rewrite Hnode; by apply active_cancellable|].
  set (db1 := transition_upsert now doc stage StCANCELLED None None None db) in *.
  pose proof (transition_upsert_frame now doc stage StCANCELLED None None None db) as F1.
  pose proof (transition_upsert_status now doc stage StCANCELLED None None None db) as S1.
  fold db1 in F1, S1. rewrite Hk in F1, S1.
  assert (Hdoc : forall k, downstream doc stage db k -> k.1.1 = doc).
  { unfold downstream. intros k. destruct (startswith embed_prefix stage); [by intros ->|].
    destruct (startswith index_prefix stage); [done|].
    by intros (? & _ & [(? & _ & ->)|(? & _ & _ & _ & [->| ->])]). }
  exists db'. split_and!; [done|by apply (fr_unique _ _ _ F), (fr_unique _ _ _ F1)| |].
  - intros n' Hn' Han'.
    assert (Hnd : ~ downstream doc stage db (nkey n')).
    { intros Hd. pose proof (Hset eq_refl Hu _ Hd n' Hn' eq_refl) as Hs.
      apply settled_not_active in Hs. congruence. }
    apply (fr_nodes _ _ _ F) in Hn'; [|tauto].
    assert (Hne : nkey n' ≠ (doc, ty, key)).
    { intros He. pose proof (S1 n' Hn' He) as Hs. unfold is_active in Han'. by rewrite Hs in Han'. }
    split; [|done]. apply (fr_nodes _ _ _ F1); [congruence|done].
  - intros n' Hd. rewrite (fr_nodes _ _ _ F), (fr_nodes _ _ _ F1); [done| |].
    + intros He. apply Hd. by injection He.
    + intros [_ He]. apply Hd. by apply Hdoc in He.
Qed.

Lemma stop_loop_spec doc keys stopped tasks db :
  unique db ->
  (forall ty key, (ty, key) ∈ keys -> stage_node ty key \/ ty = "archive") ->
  (forall n, n ∈ rg_nodes db -> rs_doc_id n = doc -> is_active n = true ->
     (rs_node_type n, rs_node_key n) ∈ keys /\ rs_node_type n ≠ "archive") ->
  exists stages tasks' db', stop_loop doc keys stopped tasks db = (Ok (stopped ++ stages, tasks'), db') /\
    (forall n, n ∈ rg_nodes db' -> rs_doc_id n = doc -> is_active n = false) /\
    (forall n, rs_doc_id n ≠ doc -> n ∈ rg_nodes db' <-> n ∈ rg_nodes db) /\
    (forall s, s ∈ stages -> exists n, n ∈ rg_nodes db /\ rs_doc_id n = doc /\ is_active n = true /\
       s = format_stage_name (rs_node_type n) (rs_node_key n)).
Proof.
  revert stopped tasks db. induction keys as [|[ty key] keys IH]; intros stopped tasks db Hu Hst Hact.
  { exists [], tasks, db. simpl. rewrite app_nil_r. split_and!; [done| |done|].
    - intros n Hn Hd. apply not_true_iff_false. intros Ha.
      destruct (Hact n Hn Hd Ha) as [Hk _]. by apply elem_of_nil in Hk.
    - intros s Hs. by apply elem_of_nil in Hs. }
  simpl. assert (Hst' : forall ty' key', (ty', key') ∈ keys -> stage_node ty' key' \/ ty' = "archive")
    by (intros; apply Hst; by right).
  assert (Hskip : (forall n, n ∈ rg_nodes db -> nkey n = (doc, ty, key) -> is_active n = false) ->
    forall n, n ∈ rg_nodes db -> rs_doc_id n = doc -> is_active n = true ->
      (rs_node_type n, rs_node_key n) ∈ keys /\ rs_node_type n ≠ "archive").
  { intros Hno n Hn Hd Ha. destruct (Hact n Hn Hd Ha) as [[Hk|Hk]%elem_of_cons Hne]; [|done].
    injection Hk as Ht Hkey. rewrite Hno in Ha; [done|done|]. unfold nkey. congruence. }
  destruct (get_node doc ty key db) as [n|] eqn:E.
  2: { apply IH; [done|done|]. apply Hskip. intros n Hn Hk. by destruct (get_node_None _ _ _ _ E n Hn). }
  pose proof (get_node_Some _ _ _ _ _ E) as [Hn Hk]. fold (is_active n).
  destruct (is_active n) eqn:Ea; simpl.
  2: { apply IH; [done|done|]. apply Hskip. intros n' Hn' Hk'. by rewrite (unique_get _ _ _ _ _ _ Hu E Hn' Hk'). }
  injection Hk as Hdoc Hty Hkey.
  destruct (Hact n Hn Hdoc Ea) as [_ Hne]. rewrite Hty in Hne.
  destruct (Hst ty key ltac:(by left)) as [Hs|]; [|done].
  destruct (cancel_step doc ty key n db Hu Hs E Ea) as (db1 & Hrun & Hu1 & Hsub & Hoth).
  rewrite Hrun.
  destruct (IH (stopped ++ [format_stage_name ty key])
              (match nonempty (rs_celery_task_id n) with Some t => tasks ++ [t] | None => tasks end)
              db1 Hu1 Hst') as (stages & tasks' & db' & -> & Hno & Hfr & Hst1).
  { intros n' Hn' Hd' Ha'. destruct (Hsub n' Hn' Ha') as [Hin Hk'].
    destruct (Hact n' Hin Hd' Ha') as [[He|He]%elem_of_cons Hne']; [|done].
    destruct Hk'. injection He as Ht' Hkey'. unfold nkey. congruence. }
  exists (format_stage_name ty key :: stages), tasks', db'. rewrite <- app_assoc.
  split_and!; [done|done|intros n' Hd'; by rewrite Hfr, Hoth|].
  intros s [->|Hin]%elem_of_cons.
  - exists n. split_and!; [done..|]. by rewrite Hty, Hkey.
  - destruct (Hst1 s Hin) as (n' & Hn' & Hd' & Ha' & ->). exists n'.
    destruct (Hsub n' Hn' Ha') as [? _]. done.
Qed.

Lemma nodes_by_doc_elem doc db n :
  n ∈ get_nodes_by_doc_id doc db <-> n ∈ rg_nodes db /\ rs_doc_id n = doc.
Proof.
  unfold get_nodes_by_doc_id.
  rewrite (sort_by_elem rs_node_type String.le), (sort_by_elem rs_node_key String.le), elem_of_List_filter.
  by rewrite bool_decide_eq_true.
Qed.

(** [stop_ingest] returns for every document: no stage of it stays queued
    or processing, every reported stage was active before, and no other
    document is touched. *)
Theorem stop_ingest_stops_everything doc db :
  unique db -> keys_ok doc db ->
  (forall n, n ∈ rg_nodes db -> rs_node_type n = "archive" -> is_active n = false) ->
  exists stages tasks db',
    stop_ingest now factory_tenant event_publisher doc db = (Ok (stages, tasks), db') /\
    (forall n, n ∈ rg_nodes db' -> rs_doc_id n = doc -> is_active n = false) /\
    (forall n, rs_doc_id n ≠ doc -> n ∈ rg_nodes db' <-> n ∈ rg_nodes db) /\
    (forall s, s ∈ stages -> exists n, n ∈ rg_nodes db /\ rs_doc_id n = doc /\ is_active n = true /\
       s = format_stage_name (rs_node_type n) (rs_node_key n)).
Proof.
  intros Hu Hkeys Harch. unfold stop_ingest.
  set (keys := map _ (get_nodes_by_doc_id doc db)).
  assert (Hin : forall ty key, (ty, key) ∈ keys <->
    exists n, n ∈ rg_nodes db /\ rs_doc_id n = doc /\ rs_node_type n = ty /\ rs_node_key n = key).
  { intros ty key. unfold keys. rewrite list_elem_of_fmap. split.
    - intros (n & [= -> ->] & [? ?]%nodes_by_doc_elem). by exists n.
    - intros (n & Hn & Hd & <- & <-). exists n. split; [done|]. by apply nodes_by_doc_elem. }
  destruct (stop_loop_spec doc keys [] [] db Hu) as (stages & tasks & db' & Hrun & H); simpl in *.
  - intros ty key (n & Hn & Hd & <- & <-)%Hin. by apply Hkeys.
  - intros n Hn Hd Ha. split; [apply Hin; by exists n|]. intros Ht. by rewrite Harch in Ha.
  - by exists stages, tasks, db'.
Qed.

(** ** [start_ingest] *)

Definition own_stage (doc : Z) (k : node_id) : Prop := k.1.1 = doc /\ stage_node k.1.2 k.2.

Lemma upsert_own doc ty key st ct mv mo er me sa fa db :
  stage_node ty key ->
  frame (own_stage doc) db (upsert_node now doc ty key st ct mv mo er me sa fa db).
Proof. intros H. eapply frame_mono; [|apply upsert_frame]. by intros k <-. Qed.

Lemma init_own doc ty l db :
  (forall key, key ∈ l -> stage_node ty key) ->
  frame (own_stage doc) db (foldl (fun db key => init_node now doc ty key db) db l).
Proof. intros H. apply frame_foldl. intros d key Hk. by apply upsert_own, H. Qed.

Lemma initialize_own doc tenant models db :
  frame (own_stage doc) db
    (initialize_document_statuses now factory_tenant event_publisher doc tenant models db).
Proof.
  unfold initialize_document_statuses.
  etransitivity; [|eapply frame_mono; [|apply aggregate_frame]; done].
  set (db4 := foldl (fun db m => init_node now doc "index" m db) _ models).
  assert (F : frame (own_stage doc) db db4).
  { unfold db4. etransitivity; [|apply init_own; intros; by right; left].
    etransitivity; [|apply init_own; intros; by left].
    assert (Hplain : forall s, stage_node "pipeline" (stage_value s)) by (intros []; right; right; done).
    etransitivity; [apply frame_from_clock, frame_from_clock, upsert_own, (Hplain UPLOAD)|].
    apply frame_foldl. intros d s _. apply upsert_own, Hplain. }
  destruct event_publisher; [|exact F].
  etransitivity; [exact F|]. eapply frame_mono; [|apply log_event_frame]. done.
Qed.

Lemma own_keys_ok doc db db' : frame (own_stage doc) db db' -> keys_ok doc db -> keys_ok doc db'.
Proof.
  intros F Hk n Hn Hd.
  assert (Hdec : own_stage doc (nkey n) \/ ~ own_stage doc (nkey n)).
  { unfold own_stage, stage_node, plain_key. simpl. destruct (decide (rs_node_type n = "embedding")),
      (decide (rs_node_type n = "index")), (decide (rs_node_type n = "pipeline")),
      (startswith embed_prefix (rs_node_key n)), (startswith index_prefix (rs_node_key n)); tauto || naive_solver. }
  destruct Hdec as [[_ Ho]|Ho]; [by left|].
  apply Hk; [by apply (fr_nodes _ _ _ F)|done].
Qed.

(** The stages the three loops of [start_ingest] reset. *)
Definition start_stages (doc : Z) (db : RagDb) : list string :=
  map (fun n => format_stage_name "pipeline" (rs_node_key n))
    (List.filter (fun n => negb (String.eqb (rs_node_key n) (stage_value UPLOAD))) (get_pipeline_nodes doc db))
  ++ map (fun n => format_stage_name "embedding" (rs_node_key n)) (get_embedding_nodes doc db)
  ++ map (fun n => format_stage_name "index" (rs_node_key n)) (get_index_nodes doc db).

Lemma reset_nodes_resets doc ty nodes db :
  reset_nodes now doc ty nodes db =
    resets now doc StPENDING true (map (fun n => format_stage_name ty (rs_node_key n)) nodes) db.
Proof. unfold reset_nodes, resets. revert db. induction nodes as [|n l IH]; intros db; [done|apply IH]. Qed.

Lemma start_stages_key doc db k :
  keys_ok doc db ->
  (exists s, s ∈ start_stages doc db /\ k = stage_key doc s) <->
  (exists n, n ∈ rg_nodes db /\ nkey n = k /\ rs_doc_id n = doc /\
     rs_node_type n ∈ ["pipeline"; "embedding"; "index"] /\ k ≠ (doc, "pipeline", "upload")).
Proof.
  intros Hkeys. unfold start_stages.
  assert (Hf : forall n, n ∈ rg_nodes db -> rs_doc_id n = doc ->
    rs_node_type n ∈ ["pipeline"; "embedding"; "index"] ->
    stage_key doc (format_stage_name (rs_node_type n) (rs_node_key n)) = nkey n).
  { intros n Hn Hd Ht. rewrite stage_key_format; [unfold nkey; congruence|].
    destruct (Hkeys n Hn Hd) as [|Ha]; [done|]. rewrite Ha in Ht. set_solver. }
  split.
  - intros (s & Hs & ->). rewrite !elem_of_app, !list_elem_of_fmap in Hs.
    destruct Hs as [(n & -> & Hn)|[(n & -> & Hn)|(n & -> & Hn)]].
    + apply elem_of_List_filter in Hn as [(Hn & Hd & Ht)%nodes_of_type_elem Hup].
      exists n. rewrite <- Ht, Hf by (rewrite ?Ht; set_solver). split_and!; try done; [rewrite Ht; set_solver|].
      unfold nkey. intros He. assert (rs_node_key n = "upload") as Hkey by congruence. by rewrite Hkey in Hup.
    + apply nodes_of_type_elem in Hn as (Hn & Hd & Ht). exists n.
      rewrite <- Ht, Hf by (rewrite ?Ht; set_solver). split_and!; try done; [rewrite Ht; set_solver|].
      unfold nkey. intros He. assert (rs_node_type n = "pipeline") by congruence. congruence.
    + apply nodes_of_type_elem in Hn as (Hn & Hd & Ht). exists n.
      rewrite <- Ht, Hf by (rewrite ?Ht; set_solver). split_and!; try done; [rewrite Ht; set_solver|].
      unfold nkey. intros He. assert (rs_node_type n = "pipeline") by congruence. congruence.
  - intros (n & Hn & <- & Hd & Ht & Hup). pose proof (Hf n Hn Hd Ht) as Hkey.
    exists (format_stage_name (rs_node_type n) (rs_node_key n)). split; [|done].
    rewrite !elem_of_app, !list_elem_of_fmap.
    apply elem_of_cons in Ht as [Ht|[Ht|Ht%list_elem_of_singleton]%elem_of_cons].
    + left. exists n. split; [by rewrite Ht|]. apply elem_of_List_filter. split; [by apply nodes_of_type_elem|].
      apply negb_true_iff, String.eqb_neq. intros Hkk. apply Hup. unfold nkey. simpl in Hkk. congruence.
    + right; left. exists n. split; [by rewrite Ht|by apply nodes_of_type_elem].
    + right; right. exists n. split; [by rewrite Ht|by apply nodes_of_type_elem].
Qed.

(** The three loops: everything but the upload is pending again. *)
Lemma start_resets doc db :
  unique db -> keys_ok doc db ->
  let db3 := resets now doc StPENDING true (start_stages doc db) db in
  frame (fun k => exists s, s ∈ start_stages doc db /\ k = stage_key doc s) db db3 /\
  (forall n, n ∈ rg_nodes db3 -> rs_doc_id n = doc ->
     rs_node_type n ∈ ["pipeline"; "embedding"; "index"] -> nkey n ≠ (doc, "pipeline", "upload") ->
     rs_status n = value StPENDING).
Proof.
  intros Hu Hkeys db3.
  pose proof (resets_frame now (fun s : string => s) doc StPENDING true (start_stages doc db) db) as F.
  split; [exact F|]. intros n Hn Hd Ht Hup.
  destruct (resets_status now (fun s : string => s) doc StPENDING true (fun s => s = value StPENDING)
              (start_stages doc db) db) as [Hst _]; [by split|done|].
  assert (Hdec : (exists n0, n0 ∈ rg_nodes db /\ nkey n0 = nkey n) \/
                 ~ exists n0, n0 ∈ rg_nodes db /\ nkey n0 = nkey n).
  { destruct (decide (nkey n ∈ map nkey (rg_nodes db))) as [H|H].
    - left. apply list_elem_of_fmap in H as (n0 & ? & ?). eauto.
    - right. intros (n0 & Hn0 & He). apply H. rewrite <- He. by apply (list_elem_of_fmap_2 nkey). }
  destruct Hdec as [(n0 & Hn0 & He)|Hno].
  - assert (Hs : exists s, s ∈ start_stages doc db /\ nkey n = stage_key doc s).
    { apply start_stages_key; [done|]. exists n0. injection He as Hd0 Ht0 Hk0.
      split_and!; [done| | |by rewrite Ht0|done]; unfold nkey; congruence. }
    destruct Hs as (s & Hs & Hk). by apply (Hst s Hs n Hn).
  - exfalso. apply Hno. exists n. split; [|done]. apply (fr_nodes _ _ _ F); [|done].
    rewrite start_stages_key by done. intros (n0 & Hn0 & He & _). apply Hno. eauto.
Qed.

Lemma start_ingest_unfold doc db :
  start_ingest now factory_tenant event_publisher doc db =
    let db0 :=
      match get_pipeline_nodes doc db, get_embedding_nodes doc db, get_index_nodes doc db with
      | [], [], [] =>
          match od_get doc (rg_documents db) ≫= dc_tenant_id with
          | Some t => initialize_document_statuses now factory_tenant event_publisher doc t
                        (get_target_models factory_tenant doc db) db
          | None => db
          end
      | _, _, _ => db
      end in
    transition doc (stage_value EXTRACT) StQUEUED None None None
      (resets now doc StPENDING true (start_stages doc db0) db0).
Proof.
  unfold start_ingest, start_stages. cbv zeta. rewrite !reset_nodes_resets.
  unfold resets. by rewrite !foldl_app.
Qed.

(** [start_ingest] always succeeds, whatever an earlier run left behind
    (a row set is created first when there is none): extraction is queued, the
    other stages but the upload are pending, an existing document has its
    extraction row, and no other document is touched. *)
Theorem start_ingest_fresh_run doc db :
  unique db -> keys_ok doc db ->
  exists db', start_ingest now factory_tenant event_publisher doc db = (Ok tt, db') /\
    (forall n, n ∈ rg_nodes db' -> rs_doc_id n = doc ->
       rs_node_type n ∈ ["pipeline"; "embedding"; "index"] -> nkey n ≠ (doc, "pipeline", "upload") ->
       rs_status n = if decide (nkey n = (doc, "pipeline", "extract")) then "queued" else "pending") /\
    (doc ∈ od_keys (rg_documents db) ->
       exists n, n ∈ rg_nodes db' /\ nkey n = (doc, "pipeline", "extract")) /\
    (forall n, rs_doc_id n ≠ doc -> n ∈ rg_nodes db' <-> n ∈ rg_nodes db).
Proof.
  intros Hu Hkeys. rewrite start_ingest_unfold. cbv zeta. set (db0 := match get_pipeline_nodes doc db with [] => _ | _ => _ end).
  assert (F0 : frame (own_stage doc) db db0).
  { unfold db0. destruct (get_pipeline_nodes doc db), (get_embedding_nodes doc db), (get_index_nodes doc db);
      try reflexivity. destruct (_ ≫= dc_tenant_id); [apply initialize_own|reflexivity]. }
  clearbody db0. assert (Hu0 : unique db0) by by apply (fr_unique _ _ _ F0).
  assert (Hk0 : keys_ok doc db0) by by eapply own_keys_ok.
  destruct (start_resets doc db0 Hu0 Hk0) as [F3 Hpend].
  set (db3 := resets now doc StPENDING true (start_stages doc db0) db0) in *.
  assert (Hallow : transition_allowed (stage_node_of doc (stage_value EXTRACT) db3) StQUEUED = true).
  { destruct (stage_node_of doc (stage_value EXTRACT) db3) as [n|] eqn:E; [|done].
    apply get_node_Some in E as [Hn Hk]. injection Hk as Hd Ht Hkey. simpl.
    rewrite (Hpend n Hn Hd); [done|rewrite Ht; by left|]. unfold nkey. intros He.
    assert (rs_node_key n = "upload") by congruence. rewrite Hkey in *. done. }
  destruct (transition_effect now factory_tenant event_publisher doc (stage_value EXTRACT) StQUEUED
              None None None db3 Hallow) as (db4 & db' & Hrun & -> & F & _).
  set (db4 := transition_upsert _ _ _ _ _ _ _ _) in *.
  pose proof (transition_upsert_frame now doc (stage_value EXTRACT) StQUEUED None None None db3) as F4.
  pose proof (transition_upsert_status now doc (stage_value EXTRACT) StQUEUED None None None db3) as S4.
  fold db4 in F4, S4.
  assert (Hsame : forall n, n ∈ rg_nodes db' <-> n ∈ rg_nodes db4)
    by (intros n; apply (fr_nodes _ _ _ F); by intros [? _]).
  exists db'. split_and!; [exact Hrun| | |].
  - intros n Hn Hd Ht Hup. apply Hsame in Hn. case_decide as He; [by apply (S4 n Hn)|].
    apply (fr_nodes _ _ _ F4) in Hn; [by apply Hpend|]. intros Hs. by apply He.
  - intros Hdoc. destruct (transition_upsert_exists now doc (stage_value EXTRACT) StQUEUED None None None db3)
      as (n & Hn & Hk & _); [right; by rewrite (fr_docs _ _ _ F3), (fr_docs _ _ _ F0)|].
    exists n. split; [by apply Hsame|exact Hk].
  - intros n Hd. rewrite Hsame. rewrite (fr_nodes _ _ _ F4), (fr_nodes _ _ _ F3), (fr_nodes _ _ _ F0); [done| | |].
    + intros [He _]. by apply Hd.
    + intros (s & _ & He). apply Hd. by injection He.
    + intros He. apply Hd. by injection He.
Qed.
End StopStart.

(** ** A concrete document *)

Definition rg_model : ModelRow := {|
  mr_alias := "e5"; mr_type := "embedding"; mr_default_for_type := true; mr_enabled := true;
  mr_status := "available"; mr_health_status := "healthy"; mr_deleted_at := None;
  mr_model_version := Some "2"; mr_created_at := 1 |}.

Definition rg_empty : RagDb := {|
  rg_nodes := []; 
  rg_documents := [(1%Z, {| dc_tenant_id := Some 7%Z; dc_agg_status := None; dc_agg_details := None |})];
  rg_tenants := [(7%Z, None)]; rg_models := [rg_model]; rg_events := []; rg_reads := 0 |}.

Definition rg_now (n : nat) : Z := Z.of_nat n.
Definition rg_started : RagDb := (start_ingest rg_now None true 1 rg_empty).2.
Definition rg_running : RagDb :=
  (transition_stage rg_now None true 1 "extract" StPROCESSING None None (Some "task-1") rg_started).2.

Definition all_keys_ok (l : list RAGStatus) : bool :=
  forallb (fun n =>
    str_in (rs_node_type n) ["embedding"; "index"]
    || (String.eqb (rs_node_type n) "pipeline"
        && negb (startswith embed_prefix (rs_node_key n)) && negb (startswith index_prefix (rs_node_key n)))) l.

Lemma all_keys_ok_spec doc db : all_keys_ok (rg_nodes db) = true -> keys_ok doc db.
Proof.
  unfold all_keys_ok. rewrite forallb_elem. intros H n Hn _. left. specialize (H n Hn).
  apply orb_true_iff in H as [H%str_in_spec|H].
  - apply elem_of_cons in H as [->|H%list_elem_of_singleton]; [by left|right; by left].
  - right; right. rewrite !andb_true_iff, !negb_true_iff, String.eqb_eq in H. by destruct H as [[? ?] ?].
Qed.

Lemma rg_running_unique : unique rg_running.
Proof. apply (bool_decide_unpack _). vm_compute. exact I. Qed.


Lemma stop_ingest_stops_everything_witness :
  exists stages tasks db',
    stop_ingest rg_now None true 1 rg_running = (Ok (stages, tasks), db') /\
    (forall n, n ∈ rg_nodes db' -> rs_doc_id n = 1%Z -> is_active n = false).
Proof.
  destruct (stop_ingest_stops_everything rg_now None true 1 rg_running rg_running_unique)
    as (stages & tasks & db' & Hrun & Hno & _).
  - apply all_keys_ok_spec. vm_compute. reflexivity.
  - intros n Hn Ht. assert (Hall : forallb (fun n => negb (String.eqb (rs_node_type n) "archive"))
                                     (rg_nodes rg_running) = true) by (vm_compute; reflexivity).
    rewrite forallb_elem in Hall. apply Hall in Hn. rewrite Ht in Hn. discriminate Hn.
  - exists stages, tasks, db'. split; [exact Hrun|exact Hno].
Defined.

Lemma start_ingest_fresh_run_witness :
  exists db' n, start_ingest rg_now None true 1 rg_running = (Ok tt, db') /\
    n ∈ rg_nodes db' /\ nkey n = (1%Z, "pipeline", "extract").
Proof.
  destruct (start_ingest_fresh_run rg_now None true 1 rg_running rg_running_unique)
    as (db' & Hrun & _ & Hex & _).
  - apply all_keys_ok_spec. vm_compute. reflexivity.
  - destruct Hex as (n & Hn & Hk).
    + change (od_keys (rg_documents rg_running)) with (od_keys (rg_documents rg_running)).
      assert (od_keys (rg_documents rg_running) = [1%Z]) as -> by (vm_compute; reflexivity). left.
    + exists db', n. split; [exact Hrun|]. split; [exact Hn|exact Hk].
Defined.
