(* ===== verification/RagArchive.v ===== *)
(** * Manager operations as steps, and the archive row

    Every public operation of [RAGStatusManager] as a step on the session state,
    and what sequences of steps can do to an archived document. *)
From S2P Require Import Prelude RagPolicy RagManager RagManagerProofs.

Inductive rag_op :=
| OpInitialize (doc tenant : Z) (models : list string)
| OpTransition (doc : Z) (stage : string) (new : StageStatus) (error : option string)
    (metrics : option json) (task : option string)
| OpStartIngest (doc : Z)
| OpDispatch (doc tenant : Z)
| OpStopStage (doc : Z) (stage : string)
| OpStopIngest (doc : Z)
| OpRetryStage (doc : Z) (stage : string)
| OpDispatchRetry (doc tenant : Z) (stage : string)
| OpArchive (doc : Z)
| OpUnarchive (doc : Z).

(** The keys the stage operations write. *)
Definition stage_row (k : node_id) : Prop := k.1.2 ≠ "archive".

Lemma stage_key_row doc stage : stage_row (stage_key doc stage).
Proof.
  unfold stage_row, stage_key, split_stage_name.
  destruct (startswith embed_prefix stage); [done|]. by destruct (startswith index_prefix stage).
Qed.

Section Steps.
Context (now : nat -> Z) (factory_tenant : option Z) (event_publisher : bool).

(** The state after an operation, whether it returned or raised. *)
Definition run_op (o : rag_op) (db : RagDb) : RagDb :=
  match o with
  | OpInitialize doc tenant models =>
      initialize_document_statuses now factory_tenant event_publisher doc tenant models db
  | OpTransition doc stage new error metrics task =>
      (transition_stage now factory_tenant event_publisher doc stage new error metrics task db).2
  | OpStartIngest doc => (start_ingest now factory_tenant event_publisher doc db).2
  | OpDispatch doc tenant => (dispatch_ingest_pipeline factory_tenant doc tenant db).2
  | OpStopStage doc stage => (stop_stage now factory_tenant event_publisher doc stage db).2
  | OpStopIngest doc => (stop_ingest now factory_tenant event_publisher doc db).2
  | OpRetryStage doc stage => (retry_stage now factory_tenant event_publisher doc stage db).2
  | OpDispatchRetry doc tenant stage => (dispatch_stage_retry factory_tenant doc tenant stage db).2
  | OpArchive doc => archive_document now doc db
  | OpUnarchive doc => (unarchive_document doc db).2
  end.

Inductive rag_step : relation RagDb :=
| rag_step_op o db : rag_step db (run_op o db).

Notation rows := (frame stage_row).

Lemma nothing_rows db db' : frame (fun _ => False) db db' -> rows db db'.
Proof. by apply frame_mono. Qed.

Lemma reset_rows doc stage target force db :
  rows db (_reset_stage_if_needed now doc stage target force db).
Proof. eapply frame_mono; [|apply reset_frame]. intros k <-. apply stage_key_row. Qed.

Lemma resets_rows doc target force stages db : rows db (resets now doc target force stages db).
Proof. apply frame_foldl. intros. apply reset_rows. Qed.

Lemma cascade_rows doc stage pending db :
  rows db (_cascade_reset_downstream now doc stage pending db).
Proof. rewrite cascade_resets. apply resets_rows. Qed.

Lemma transition_rows doc stage new error metrics task db :
  rows db (transition_stage now factory_tenant event_publisher doc stage new error metrics task db).2.
Proof.
  rewrite transition_unfold. destruct (transition_allowed _ _); [|reflexivity]. simpl.
  etransitivity; [|apply nothing_rows, aggregate_frame].
  set (db1 := transition_upsert now doc stage new error metrics task db).
  assert (F1 : rows db db1).
  { eapply frame_mono; [|apply transition_upsert_frame]. intros k <-. apply stage_key_row. }
  clearbody db1. etransitivity; [exact F1|]. clear F1.
  destruct event_publisher, (cascades new);
    (reflexivity || apply cascade_rows || apply nothing_rows, log_event_frame || idtac).
  etransitivity; [apply nothing_rows, log_event_frame|apply cascade_rows].
Qed.

Lemma init_rows doc ty l db :
  ty ≠ "archive" -> rows db (foldl (fun db key => init_node now doc ty key db) db l).
Proof.
  intros Hty. apply frame_foldl. intros d key _. eapply frame_mono; [|apply upsert_frame].
  by intros k <-.
Qed.

Lemma initialize_rows doc tenant models db :
  rows db (initialize_document_statuses now factory_tenant event_publisher doc tenant models db).
Proof.
  eapply frame_mono; [|apply initialize_own]. unfold own_stage, stage_row. intros k [_ Hs] Ha.
  rewrite Ha in Hs. by destruct Hs as [?|[?|[? _]]].
Qed.

Lemma start_rows doc db : rows db (start_ingest now factory_tenant event_publisher doc db).2.
Proof.
  rewrite start_ingest_unfold. cbv zeta.
  set (db0 := match get_pipeline_nodes doc db with [] => _ | _ => _ end).
  assert (F0 : rows db db0).
  { unfold db0. destruct (get_pipeline_nodes doc db), (get_embedding_nodes doc db), (get_index_nodes doc db);
      try reflexivity. destruct (_ ≫= dc_tenant_id); [apply initialize_rows|reflexivity]. }
  clearbody db0. etransitivity; [exact F0|]. etransitivity; [apply resets_rows|apply transition_rows].
Qed.

Lemma stop_loop_rows doc keys stopped tasks db :
  rows db (stop_loop now factory_tenant event_publisher doc keys stopped tasks db).2.
Proof.
  revert stopped tasks db. induction keys as [|[ty key] keys IH]; intros stopped tasks db; [reflexivity|].
  simpl. destruct (get_node doc ty key db) as [n|]; [|apply IH].
  destruct (negb _); [apply IH|].
  pose proof (transition_rows doc (format_stage_name ty key) StCANCELLED None None None db) as F.
  destruct (transition_stage _ _ _ _ _ _ _ _ _ db) as [[[]|e] db1]; [|exact F].
  etransitivity; [exact F|apply IH].
Qed.

Lemma stop_stage_rows doc stage db :
  rows db (stop_stage now factory_tenant event_publisher doc stage db).2.
Proof.
  unfold stop_stage. destruct (split_stage_name stage) as [ty key].
  destruct (get_node doc ty key db); [|reflexivity].
  pose proof (transition_rows doc stage StCANCELLED None None None db) as F.
  destruct (transition_stage _ _ _ _ _ _ _ _ _ db) as [[[]|e] db1]; [|exact F].
  etransitivity; [exact F|apply cascade_rows].
Qed.

Lemma retry_rows doc stage db :
  rows db (retry_stage now factory_tenant event_publisher doc stage db).2.
Proof.
  unfold retry_stage. pose proof (transition_rows doc stage StQUEUED None None None db) as F.
  destruct (transition_stage _ _ _ _ _ _ _ _ _ db) as [[[]|e] db1]; [|exact F].
  etransitivity; [exact F|]. simpl in *. destruct (startswith embed_prefix stage); [apply reset_rows|].
  destruct (startswith index_prefix stage); [reflexivity|apply cascade_rows].
Qed.

Lemma dispatch_rows doc tenant db : rows db (dispatch_ingest_pipeline factory_tenant doc tenant db).2.
Proof.
  unfold dispatch_ingest_pipeline. destruct (get_target_models _ _ _); [reflexivity|].
  apply nothing_rows, log_event_frame.
Qed.

Lemma dispatch_retry_rows doc tenant stage db :
  rows db (dispatch_stage_retry factory_tenant doc tenant stage db).2.
Proof.
  unfold dispatch_stage_retry. destruct (String.eqb stage "extract").
  { pose proof (dispatch_rows doc tenant db) as F.
    by destruct (dispatch_ingest_pipeline _ _ _ db) as [[] db1]. }
  repeat case_match; try reflexivity; apply nothing_rows, log_event_frame.
Qed.

(** *** The archive row survives *)

Definition has_archive (doc : Z) (db : RagDb) : Prop :=
  exists n, n ∈ rg_nodes db /\ nkey n = (doc, "archive", "archive").

Lemma has_archive_get doc db :
  has_archive doc db <-> is_Some (get_node doc "archive" "archive" db).
Proof.
  split.
  - intros (n & Hn & Hk). destruct (get_node doc "archive" "archive" db) eqn:E; [by eexists|].
    by destruct (get_node_None _ _ _ _ E n Hn).
  - intros [n Hg]. apply get_node_Some in Hg. by exists n.
Qed.

Lemma rows_archive doc db db' : rows db db' -> has_archive doc db -> has_archive doc db'.
Proof.
  intros F (n & Hn & Hk). exists n. split; [|done]. apply (fr_nodes _ _ _ F); [|done].
  rewrite Hk. unfold stage_row. tauto.
Qed.

Lemma archive_keeps doc doc' db : has_archive doc db -> has_archive doc (archive_document now doc' db).
Proof.
  intros Ha. unfold archive_document. set (db0 := read_clock (read_clock db)).
  assert (Ha0 : has_archive doc db0) by exact Ha. clearbody db0.
  set (db1 := upsert_node _ _ _ _ _ _ _ _ _ _ _ _ _).
  assert (F : frame (eq (doc', "archive", "archive")) db0 db1) by apply upsert_frame.
  destruct (decide (doc = doc')) as [->|Hne].
  - destruct (upsert_exists now doc' "archive" "archive" (value StCOMPLETED) None None None None None
                (Some (now (rg_reads db))) (Some (now (S (rg_reads db)))) db0) as (n & Hn & Hk & _);
      [left; by apply has_archive_get|]. by exists n.
  - destruct Ha0 as (n & Hn & Hk). exists n. split; [|done]. apply (fr_nodes _ _ _ F); [|done].
    rewrite Hk. congruence.
Qed.

Lemma step_archive doc db db' : rag_step db db' -> has_archive doc db -> has_archive doc db'.
Proof.
  intros [o d]. destruct o; cbn [run_op];
    try (apply rows_archive; auto using initialize_rows, transition_rows, start_rows, dispatch_rows,
           stop_stage_rows, stop_loop_rows, retry_rows, dispatch_retry_rows; fail).
  - apply rows_archive. apply stop_loop_rows.
  - apply archive_keeps.
  - done.
Qed.

(** Archiving is final: once a document is archived, no sequence of
    manager operations, [unarchive_document] included, brings it back; its
    ingest policy offers neither start nor retry. *)
Theorem archived_forever doc db db' :
  is_Some (get_node doc "archive" "archive" db) -> rtc rag_step db db' ->
  let policy := build_ingest_policy factory_tenant doc db' in
  ip_archived policy = true /\ ip_start_allowed policy = false /\
  ip_start_reason policy = Some "document_archived" /\ ip_retryable_stages policy = [].
Proof.
  intros Ha Hs. apply has_archive_get in Ha.
  assert (Ha' : has_archive doc db').
  { induction Hs as [|a b c Hab _ IH]; [done|]. apply IH. by eapply step_archive. }
  apply has_archive_get in Ha'. unfold build_ingest_policy.
  rewrite (bool_decide_true (is_Some _)) by done. simpl. split_and!; try done.
  match goal with |- map _ ?l = [] => assert (l = []) as -> end; [|done].
  rewrite !filter_none; [done|]. intros c Hc.
  apply list_elem_of_In, in_flat_map in Hc as (m & _ & Hc%list_elem_of_In).
  by apply elem_of_cons in Hc as [->| ->%list_elem_of_singleton].
Qed.
End Steps.

Definition rg_archived : RagDb := archive_document rg_now 1 rg_running.

Lemma archived_forever_witness :
  ip_start_allowed (build_ingest_policy None 1 (run_op rg_now None true (OpUnarchive 1) rg_archived)) = false.
Proof.
  apply (archived_forever rg_now None true 1 rg_archived).
  - vm_compute. eexists. reflexivity.
  - apply rtc_once. apply (rag_step_op rg_now None true (OpUnarchive 1)).
Defined.
