(* ===== verification/Orchestrator.v ===== *)
(** * The graph orchestrator

    Models [GraphOrchestrator] of [app/runtime/orchestrator.py]: the loop that
    claims tasks, runs them and asks the planner to revise the plan.  The plan
    store is an interface, [PlanStore]; the planner, the executor and the clock
    are parameters.  Every event is kept in order with the channel it leaves
    through: yielded to the caller, or sent to the event sink. *)
From stdpp Require Import pretty.
From S2P Require Import Prelude Contracts TaskGraph PlanMemory PlanSql Budgets.

(** ** The store the orchestrator drives *)

Class PlanStore (St : Type) := {
  ps_snapshot : Z -> py exn St Snapshot;
  ps_claim_ready : Z -> Z -> py exn St (option TaskRow);
  ps_apply_patch : Z -> PlanPatch -> string -> option string -> py exn St Z;   (* the new revision *)
  ps_apply_result : Z -> string -> AgentTaskResult -> py exn St unit;
  ps_record_failure : Z -> Z -> string -> TaskAttemptFailure -> option Z -> Z -> py exn St unit;
  ps_pause_task : Z -> Z -> string -> odict json -> py exn St unit;
  ps_mark_failed : Z -> odict json -> py exn St unit
}.

(** ** Events *)

Inductive event :=
| EvIterationStart (iteration : Z) (mode : string)
| EvIterationEnd (iteration : Z) (iteration_type status : string) (outcome : option string)
| EvStepStart (iteration step_number : Z) (kind : string)
| EvStepEnd (iteration step_number : Z) (status outcome : string)
| EvAgentStart (iteration : Z) (agent : string) (attempt : Z)
| EvAgentEnd (iteration : Z) (agent : string) (attempt : Z) (status : string)
| EvRbacSnapshot (iteration : Z)
| EvCheckpointStarted (kind key : string)
| EvCheckpointFinished (kind key status : string)
| EvInvocationStarted (id : nat) (trigger : string)
| EvInvocationFinished (id : nat) (status : string)
| EvPlannerDecision (iteration : Z) (decision : PlannerDecisionKind)
| EvPlanPatchApplied (before after : Z)
| EvPlanCreated (before after : Z)
| EvWaitingInput (question : option string)
| EvError (code : string)
| EvTaskStarted (task_id : string) (attempt : Z)
| EvTaskCompleted (task_id : string)
| EvTaskUnfulfillable (task_id : string) (outcome : TaskOutcome)
| EvTaskAttemptFailed (task_id : string) (f : TaskAttemptFailure)
| EvTaskPaused (task_id : string)
| EvStatus (task_id : string) (outcome : TaskOutcome)
| EvAttemptStarted (task_id : string) (attempt : Z)
| EvAttemptSucceeded (task_id : string) (attempt : Z)
| EvAttemptFailed (task_id : string) (attempt : Z)
| EvConfirmationRequired (payload : odict json)
| EvPlanTerminal (status : PlanStatus) (error : option string)
| EvPlanStalled
| EvMaxSteps.

Inductive channel := Yielded | Sunk.

(** Lifecycle events that are yielded, and so not sent to the sink as well. *)
Definition journalled_by_yield (e : event) : bool :=
  match e with
  | EvPlanCreated _ _ | EvTaskStarted _ _ | EvTaskCompleted _ | EvTaskUnfulfillable _ _ => true
  | _ => false
  end.

(** ** Requests to the planner and the executor *)

Record PlanRequest := mkPlanRequest {
  rq_goal : string;
  rq_plan : Snapshot;
  rq_completed_outputs : odict (odict json);
  rq_available_artifacts : list (odict json);
  rq_needs : list (string * NeedDict);
  rq_last_failure : option TaskAttemptFailure;
  rq_user_response : option string;
  rq_trigger : string
}.

Record DependencyOutput := mkDependencyOutput {
  do_summary : string;
  do_outputs : odict json;
  do_evidence : odict json
}.

Record TaskRequest := mkTaskRequest {
  tq_task_id : string;
  tq_executor : string;
  tq_intent : string;
  tq_instructions : string;
  tq_inputs : odict json;
  tq_resolved_needs : list NeedDict;
  tq_needs : list NeedDict;
  tq_checkpoint : odict json;
  tq_dependency_outputs : odict DependencyOutput;
  tq_expected_outputs : list TaskOutputSpec
}.

(** What [execute_task] does: return, or raise one of the exceptions the
    orchestrator tells apart. *)
Inductive exec_outcome :=
| ExecResult (r : AgentTaskResult)
| ExecConfirmationRequired (payload : odict json)
| ExecTaskError (code message : string) (retryable : bool) (details : odict json)
| ExecException (name message : string).

(** [RuntimePlannerInvocation] *)
Record Invocation := mkInvocation {
  iv_trigger : string;
  iv_status : string;
  iv_revision_before : Z;
  iv_revision_after : option Z;
  iv_error : option string
}.

(** ** State *)

Record Orch (St : Type) := mkOrch {
  o_store : St;
  o_budget : Service.BudgetState;
  o_trace : list (channel * event);
  o_invocations : list Invocation;
  o_iteration_number : Z;
  o_active : option Z;                 (* active_iteration_id *)
  o_type : string;                     (* active_iteration_type *)
  o_step : Z;                          (* active_step_number *)
  o_open : bool;                       (* iteration_open *)
  o_plan_requests : list PlanRequest;  (* what the planner was asked so far *)
  o_task_requests : list TaskRequest   (* what the executor was asked so far *)
}.
Arguments mkOrch {St}.
Arguments o_store {St}. Arguments o_budget {St}. Arguments o_trace {St}. Arguments o_invocations {St}.
Arguments o_iteration_number {St}. Arguments o_active {St}. Arguments o_type {St}. Arguments o_step {St}.
Arguments o_open {St}. Arguments o_plan_requests {St}. Arguments o_task_requests {St}.

(** ** Pure helpers *)

Definition task_result (t : SnapTask) : option AgentTaskResult :=
  match sn_row t with Some r => tr_result r | None => None end.

Definition _has_declared_resolvers (tasks : odict SnapTask) (pending_needs : list (string * NeedDict)) : bool :=
  forallb (fun tn =>
    match od_get tn.1 tasks with
    | None => false
    | Some task =>
        negb (str_empty (nd_key tn.2)) &&
        existsb (fun producer_id =>
          match od_get producer_id tasks with
          | None => false
          | Some producer =>
              existsb (fun output => bool_decide (os_key output = nd_key tn.2)) (td_expected_outputs producer)
          end) (sn_depends_on task)
    end) pending_needs.

Definition _completed_outputs (tasks : odict SnapTask) : odict (odict json) :=
  omap (fun kt => match task_result kt.2 with
                  | Some r => if bool_decide (td_status kt.2 = Some COMPLETED)
                              then Some (kt.1, ar_outputs r) else None
                  | None => None
                  end) tasks.

(** [plan["tasks"][..]["needs"]] that are required and not resolved. *)
Definition pending_needs_of (tasks : odict SnapTask) : list (string * NeedDict) :=
  kt ← tasks;
  map (pair kt.1) (List.filter (fun n => nd_required n && negb (bool_decide (nd_status n = Some ReqRESOLVED)))
                               (sn_needs kt.2)).

Definition all_needs_of (tasks : odict SnapTask) : list (string * NeedDict) :=
  kt ← tasks; map (pair kt.1) (sn_needs kt.2).

Section Artifacts.
Variable repr : json -> string.

#[local] Abbreviation py_str := (py_str repr).

Definition json_eqs (v : json) (s : string) : bool :=
  match v with JStr s' => String.eqb s' s | _ => false end.

(** [*(v or [])]: the items of a list; a string or a dictionary yields strings. *)
Definition unpack (v : json) : result exn (list json) :=
  match json_or v (JList []) with
  | JList l => Ok l
  | JStr _ | JObj _ => Ok []
  | _ => Err (TypeError "not iterable")
  end.

Definition input_artifact (item : json) : option (odict json) :=
  match item with
  | JObj item =>
      let ref := match jget "ref" item with JObj r => r | _ => item end in
      let artifact_id := strip (py_str (json_or (json_or (jget "artifact_id" ref) (jget "artifact_id" item)) (JStr ""))) in
      let status := py_str (json_or (json_or (jget "status" ref) (jget "status" item)) (JStr "active")) in
      if str_empty artifact_id || String.eqb status "deleted" then None
      else Some [("artifact_id", JStr artifact_id);
                 ("file_name", json_or (json_or (jget "file_name" ref) (jget "file_name" item)) (JStr "artifact"));
                 ("content_type", json_or (jget "content_type" ref) (jget "content_type" item));
                 ("size_bytes", json_or (jget "size_bytes" ref) (jget "size_bytes" item));
                 ("snippet", json_or (jget "snippet" item) (JStr ""));
                 ("snippet_status", json_or (jget "snippet_status" item) (JStr "missing"));
                 ("readable", JBool (truthy (jget "readable" item)));
                 ("truncated", JBool (truthy (jget "truncated" item)))]%string
  | _ => None
  end.

Definition output_artifact (item : json) : option (odict json) :=
  match item with
  | JObj item =>
      if truthy (jget "artifact_id" item) && negb (json_eqs (jget "status" item) "deleted") then Some item else None
  | _ => None
  end.

Definition task_artifacts (t : SnapTask) : result exn (list (odict json)) :=
  let outputs := match task_result t with Some r => ar_outputs r | None => [] end in
  match unpack (jget "artifacts" outputs), unpack (jget "attachments" outputs) with
  | Ok a, Ok b => Ok (omap output_artifact (a ++ b))
  | Err e, _ | _, Err e => Err e
  end.

Fixpoint collect_artifacts (tasks : odict SnapTask) : result exn (list (odict json)) :=
  match tasks with
  | [] => Ok []
  | (_, t) :: rest =>
      match task_artifacts t with
      | Err e => Err e
      | Ok l => match collect_artifacts rest with Err e => Err e | Ok l' => Ok (l ++ l') end
      end
  end.

Definition artifact_key (item : odict json) : string :=
  strip (py_str (json_or (jget "artifact_id" item) (JStr ""))).

(** The first artifact of each identifier. *)
Fixpoint dedupe (seen : list string) (l : list (odict json)) : list (odict json) :=
  match l with
  | [] => []
  | item :: rest =>
      let key := artifact_key item in
      if str_empty key || bool_decide (key ∈ seen) then dedupe seen rest
      else item :: dedupe (key :: seen) rest
  end.

Definition _available_artifacts (tasks : odict SnapTask) (input_artifacts : list json)
  : result exn (list (odict json)) :=
  match collect_artifacts tasks with
  | Err e => Err e
  | Ok l => Ok (dedupe [] (omap input_artifact input_artifacts ++ l))
  end.
End Artifacts.

(** The delay before a retry, from the failure's [retry_after_ms] when it is a
    positive integer. *)
Definition retry_delay_of (default_delay : Z) (details : odict json) : Z :=
  let after ms := Z.max 1 (Z.min 30 ((ms + 999) / 1000)) in
  match jget "retry_after_ms" details with
  | JInt ms => if (0 <? ms)%Z then after ms else default_delay
  | JBool true => after 1%Z
  | _ => default_delay
  end.

Definition exn_name (e : exn) : string :=
  match e with
  | ValidationError _ => "ValidationError"
  | PlanConflictError _ _ => "PlanConflictError"
  | PlanValidationError _ => "PlanValidationError"
  | TaskNotFoundError _ => "TaskNotFoundError"
  | KeyError _ => "KeyError"
  | AttributeError _ => "AttributeError"
  | IntegrityError _ => "IntegrityError"
  | TypeError _ => "TypeError"
  | RuntimeError _ => "RuntimeError"
  | OtherError name _ => name
  end.

(** ** The run *)

Section Run.
Context {St : Type} `{PlanStore St}.
Variable planner : nat -> PlanRequest -> result exn PlanPatch.
Variable executor : nat -> TaskRequest -> exec_outcome.
Variable clock : nat -> Z.
Variable repr : json -> string.
Variable str_exn : exn -> string.

(** The constructor's and [run]'s arguments. *)
Record Config := mkConfig {
  cf_plan_id : Z;
  cf_run_id : Z;
  cf_goal : string;
  cf_max_attempts : Z;
  cf_retry_delay_seconds : Z;
  cf_event_sink : bool;
  cf_budget_service : bool;
  cf_limit_plan_revisions : option Z;
  cf_limit_task_attempts : option Z;
  cf_force_replan : bool;
  cf_resume_user_response : option string;
  cf_available_artifacts : list json
}.
Variable cfg : Config.

Definition max_attempts : Z := Z.max 1 (cf_max_attempts cfg).
Definition retry_delay_seconds : Z := Z.max 1 (cf_retry_delay_seconds cfg).

Definition orc (A : Type) : Type := py exn (Orch St) A.

(** *** Access to the parts of the state *)

Definition with_store {A} (m : py exn St A) : orc A := fun o =>
  let '(r, s) := m (o_store o) in
  (r, mkOrch s (o_budget o) (o_trace o) (o_invocations o) (o_iteration_number o) (o_active o) (o_type o)
        (o_step o) (o_open o) (o_plan_requests o) (o_task_requests o)).

Definition emit (c : channel) (e : event) : orc unit := modify (fun o =>
  mkOrch (o_store o) (o_budget o) (o_trace o ++ [(c, e)]) (o_invocations o) (o_iteration_number o) (o_active o)
    (o_type o) (o_step o) (o_open o) (o_plan_requests o) (o_task_requests o)).

Definition yield_ (e : event) : orc unit := emit Yielded e.

Definition observe (e : event) : orc unit :=
  if journalled_by_yield e then mret tt
  else if cf_event_sink cfg then emit Sunk e else mret tt.

Definition set_iteration (number : Z) (active : option Z) (itype : string) (step : Z) (open : bool) : orc unit :=
  modify (fun o => mkOrch (o_store o) (o_budget o) (o_trace o) (o_invocations o) number active itype step open
                     (o_plan_requests o) (o_task_requests o)).

Definition next_step : orc unit := modify (fun o =>
  mkOrch (o_store o) (o_budget o) (o_trace o) (o_invocations o) (o_iteration_number o) (o_active o) (o_type o)
    (o_step o + 1) (o_open o) (o_plan_requests o) (o_task_requests o)).

Definition set_invocations (l : list Invocation) : orc unit := modify (fun o =>
  mkOrch (o_store o) (o_budget o) (o_trace o) l (o_iteration_number o) (o_active o) (o_type o)
    (o_step o) (o_open o) (o_plan_requests o) (o_task_requests o)).

Definition now : orc Z := o ← get_state; mret (clock (length (o_trace o))).

(** [close_active_iteration] and the [yield] of what it returns. *)
Definition close_active_iteration (status : string) (outcome : option string) : orc unit :=
  o ← get_state;
  match o_active o with
  | Some active =>
      if o_open o then
        _ ← set_iteration (o_iteration_number o) (o_active o) (o_type o) (o_step o) false;
        yield_ (EvIterationEnd active (o_type o) status outcome)
      else mret tt
  | None => mret tt
  end.

Definition call_planner (rq : PlanRequest) : orc PlanPatch := fun o =>
  (planner (length (o_plan_requests o)) rq,
   mkOrch (o_store o) (o_budget o) (o_trace o) (o_invocations o) (o_iteration_number o) (o_active o) (o_type o)
     (o_step o) (o_open o) (o_plan_requests o ++ [rq]) (o_task_requests o)).

Definition call_executor (rq : TaskRequest) : orc exec_outcome := fun o =>
  (Ok (executor (length (o_task_requests o)) rq),
   mkOrch (o_store o) (o_budget o) (o_trace o) (o_invocations o) (o_iteration_number o) (o_active o) (o_type o)
     (o_step o) (o_open o) (o_plan_requests o) (o_task_requests o ++ [rq])).

(** One unit of a metric, when there is a budget service. *)
Definition consume_budget (metric : string) (limit : option Z) (why message : string) : orc unit :=
  if negb (cf_budget_service cfg) then mret tt else
  o ← get_state;
  let '(decision, b) := Service.consume (cf_run_id cfg) "run" "run_id" metric 1 limit why (o_budget o) in
  _ ← put_state (mkOrch (o_store o) b (o_trace o) (o_invocations o) (o_iteration_number o) (o_active o) (o_type o)
        (o_step o) (o_open o) (o_plan_requests o) (o_task_requests o));
  if Service.bd_allowed decision then mret tt else raise (RuntimeError message).

(** [try: m] with the exception as a value. *)
Definition attempt {A} (m : orc A) : orc (result exn A) := fun o =>
  let '(r, o') := m o in (Ok r, o').

Definition start_invocation (trigger : string) (revision : Z) : orc nat :=
  o ← get_state;
  _ ← set_invocations (o_invocations o ++ [mkInvocation trigger "running" revision None None]);
  mret (length (o_invocations o)).

Definition finish_invocation (id : nat) (f : Invocation -> Invocation) : orc unit :=
  o ← get_state; set_invocations (alter f id (o_invocations o)).

Definition fail_invocation (e : exn) (i : Invocation) : Invocation :=
  mkInvocation (iv_trigger i) "failed" (iv_revision_before i) (iv_revision_after i) (Some (str_exn e)).

Definition complete_invocation (revision : Z) (i : Invocation) : Invocation :=
  mkInvocation (iv_trigger i) "completed" (iv_revision_before i) (Some revision) (iv_error i).

Definition failure_of (e : exn) (trigger : string) : odict json :=
  [("code", JStr (exn_name e)); ("message", JStr (str_exn e)); ("trigger", JStr trigger)]%string.

(** *** Planning *)

Definition plan_request (plan : Snapshot) (trigger : string) (last_failure : option TaskAttemptFailure)
    (needs : list (string * NeedDict)) : result exn PlanRequest :=
  match _available_artifacts repr (sp_tasks plan) (cf_available_artifacts cfg) with
  | Err e => Err e
  | Ok artifacts =>
      if str_empty (cf_goal cfg) then Err (ValidationError (FieldConstraint "goal")) else
      Ok (mkPlanRequest (cf_goal cfg) plan (_completed_outputs (sp_tasks plan)) artifacts needs last_failure
            (if bool_decide (trigger = "user_input"%string) then cf_resume_user_response cfg else None) trigger)
  end.

(** The [try] block shared by the initial plan and the replans: ask the
    planner, spend a revision, apply the patch. *)
Definition plan_and_apply (iteration : Z) (invocation : nat) (rq : result exn PlanRequest) (why : string)
  : orc (PlanPatch * Z) :=
  rq ← of_result rq;
  patch ← call_planner rq;
  _ ← observe (EvPlannerDecision iteration (pp_decision patch));
  _ ← consume_budget "plan_revisions" (cf_limit_plan_revisions cfg) why "plan revision budget exceeded";
  revision ← with_store (ps_apply_patch (cf_plan_id cfg) patch why (Some (pretty invocation)));
  mret (patch, revision).

(** [revise]: [Some message] when the plan failed. *)
Definition revise (why : string) (last_failure : option TaskAttemptFailure) : orc (option string) :=
  current ← with_store (ps_snapshot (cf_plan_id cfg));
  o ← get_state;
  let n := (o_iteration_number o + 1)%Z in
  let revision := pr_revision (sp_plan current) in
  _ ← set_iteration n (Some n) "replan" 2 true;
  _ ← observe (EvCheckpointStarted "planner" why);
  invocation ← start_invocation why revision;
  _ ← observe (EvInvocationStarted invocation why);
  _ ← observe (EvIterationStart n "replan");
  _ ← observe (EvStepStart n 1 "plan");
  _ ← observe (EvAgentStart n "planner" n);
  _ ← observe (EvRbacSnapshot n);
  outcome ← attempt (plan_and_apply n invocation
                       (plan_request current why last_failure (all_needs_of (sp_tasks current))) why);
  match outcome with
  | Err e =>
      _ ← finish_invocation invocation (fail_invocation e);
      _ ← with_store (ps_mark_failed (cf_plan_id cfg) (failure_of e why));
      _ ← observe (EvInvocationFinished invocation "failed");
      _ ← observe (EvError "plan_patch_invalid");
      _ ← observe (EvCheckpointFinished "planner" why "failed");
      _ ← observe (EvAgentEnd n "planner" n "failed");
      _ ← observe (EvStepEnd n 1 "failed" "plan_patch_invalid");
      mret (Some (str_exn e))
  | Ok (patch, updated) =>
      _ ← finish_invocation invocation (complete_invocation updated);
      _ ← observe (EvInvocationFinished invocation "completed");
      _ ← observe (EvPlanPatchApplied revision updated);
      _ ← (if bool_decide (pp_decision patch = ASK_USER) then observe (EvWaitingInput (pp_question patch)) else mret tt);
      _ ← observe (EvCheckpointFinished "planner" why "completed");
      _ ← observe (EvAgentEnd n "planner" n "completed");
      _ ← observe (EvStepEnd n 1 "completed" "success");
      mret None
  end.

Inductive flow := Continue | Return.

Definition fail_run (message : string) : orc flow :=
  _ ← close_active_iteration "failed" (Some "plan_patch_invalid"%string);
  _ ← yield_ (EvPlanTerminal PlanFAILED (Some message));
  mret Return.

(** [replan_error = await revise(...)], ending the run when it is truthy. *)
Definition revise_or_fail (why : string) (last_failure : option TaskAttemptFailure) : orc flow :=
  replan_error ← revise why last_failure;
  match replan_error with
  | Some message => if str_empty message then mret Continue else fail_run message
  | None => mret Continue
  end.

(** The first plan of a run. *)
Definition initial_plan (plan : Snapshot) : orc flow :=
  let revision := pr_revision (sp_plan plan) in
  _ ← observe (EvCheckpointStarted "planner" "initial");
  invocation ← start_invocation "initial" revision;
  _ ← observe (EvInvocationStarted invocation "initial");
  o ← get_state;
  let n := o_iteration_number o in
  _ ← set_iteration n (Some n) "decision" 2 true;
  _ ← yield_ (EvIterationStart n "initial");
  _ ← yield_ (EvStepStart n 1 "plan");
  _ ← yield_ (EvAgentStart n "planner" 1);
  _ ← yield_ (EvRbacSnapshot n);
  outcome ← attempt (plan_and_apply n invocation (plan_request plan "initial" None []) "initial_plan");
  match outcome with
  | Err e =>
      _ ← finish_invocation invocation (fail_invocation e);
      _ ← with_store (ps_mark_failed (cf_plan_id cfg) (failure_of e "initial"));
      _ ← observe (EvInvocationFinished invocation "failed");
      _ ← observe (EvError "plan_patch_invalid");
      _ ← observe (EvCheckpointFinished "planner" "initial" "failed");
      _ ← yield_ (EvAgentEnd n "planner" 1 "failed");
      _ ← yield_ (EvStepEnd n 1 "failed" "plan_patch_invalid");
      fail_run (str_exn e)
  | Ok (patch, updated) =>
      _ ← finish_invocation invocation (complete_invocation updated);
      _ ← observe (EvInvocationFinished invocation "completed");
      _ ← observe (EvPlanCreated revision updated);
      _ ← (if bool_decide (pp_decision patch = ASK_USER) then observe (EvWaitingInput (pp_question patch)) else mret tt);
      _ ← observe (EvCheckpointFinished "planner" "initial" "completed");
      _ ← yield_ (EvAgentEnd n "planner" 1 "completed");
      _ ← yield_ (EvStepEnd n 1 "completed" "success");
      _ ← yield_ (EvPlanCreated revision updated);
      mret Continue
  end.

Definition resume_execution : orc flow :=
  o ← get_state;
  let n := o_iteration_number o in
  _ ← set_iteration n (Some n) "execution" 1 true;
  _ ← yield_ (EvIterationStart n "resume");
  mret Continue.

(** *** Executing one task *)

Definition dependency_output (tasks : odict SnapTask) (dep : string) : option (string * DependencyOutput) :=
  match od_get dep tasks with
  | Some t =>
      match sn_row t with
      | Some r => match tr_result r with
                  | Some res => Some (dep, mkDependencyOutput (ar_summary res) (ar_outputs res) (ar_evidence res))
                  | None => None
                  end
      | None => Some (dep, mkDependencyOutput "" [] [])
      end
  | None => Some (dep, mkDependencyOutput "" [] [])
  end.

Definition task_request (tasks : odict SnapTask) (task : TaskRow) : TaskRequest :=
  let entry := default empty_snap_task (od_get (tr_task_id task) tasks) in
  mkTaskRequest (tr_task_id task) (tr_executor task) (tr_intent task) (tr_instructions task) (tr_inputs task)
    (List.filter (fun n => bool_decide (nd_status n = Some ReqRESOLVED)) (sn_needs entry)) (sn_needs entry)
    (tr_checkpoint task) (omap (dependency_output tasks) (sn_depends_on entry)) (tr_expected_outputs task).

Definition attempt_failure (e : exec_outcome) : TaskAttemptFailure :=
  let or_default m := if str_empty m then "task execution failed"%string else m in
  match e with
  | ExecTaskError code m retryable details => mkTaskAttemptFailure code (or_default m) retryable false details
  | ExecException name m => mkTaskAttemptFailure name (or_default m) true false []
  | _ => mkTaskAttemptFailure "" "" true false []
  end.

Definition outcome_value (o : TaskOutcome) : string :=
  match o with
  | OutCOMPLETED => "completed" | OutNEEDS_DEPENDENCY => "needs_dependency" | OutUNFULFILLABLE => "unfulfillable"
  end.

Definition active_id : orc Z :=
  o ← get_state;
  match o_active o with
  | Some a => mret a
  | None => raise (RuntimeError "task execution requires an active planner iteration")
  end.

(** The task waits for a confirmation and the run ends. *)
Definition pause_for_confirmation (n step : Z) (task : TaskRow) (payload : odict json) : orc flow :=
  t ← now;
  _ ← with_store (ps_pause_task t (cf_plan_id cfg) (tr_task_id task) payload);
  _ ← observe (EvTaskPaused (tr_task_id task));
  _ ← yield_ (EvConfirmationRequired payload);
  _ ← yield_ (EvAgentEnd n (tr_executor task) (tr_attempts task) "waiting_confirmation");
  _ ← yield_ (EvStepEnd n step "waiting_confirmation" "waiting_confirmation");
  _ ← close_active_iteration "waiting_confirmation" (Some "waiting_confirmation"%string);
  _ ← yield_ (EvPlanTerminal PlanWAITING_INPUT None);
  mret Return.

(** A technical failure: constructed (its code must not be empty), recorded, and
    answered with a replan when it cannot be retried. *)
Definition handle_failure (n step : Z) (task : TaskRow) (failure : TaskAttemptFailure) : orc flow :=
  failure ← of_result (validate_failure failure);
  t ← now;
  _ ← with_store (ps_record_failure t (cf_plan_id cfg) (tr_task_id task) failure
                    (Some (t + retry_delay_of retry_delay_seconds (af_details failure))%Z) max_attempts);
  _ ← observe (EvAttemptFailed (tr_task_id task) (tr_attempts task));
  _ ← observe (EvCheckpointFinished "task" (tr_task_id task) "failed_technical");
  _ ← yield_ (EvAgentEnd n (tr_executor task) (tr_attempts task) "failed");
  _ ← yield_ (EvStepEnd n step "failed" "technical_failure");
  _ ← yield_ (EvTaskAttemptFailed (tr_task_id task) failure);
  _ ← next_step;
  if negb (af_retryable failure) || (max_attempts <=? tr_attempts task)%Z then
    _ ← close_active_iteration "failed" (Some "technical_failure"%string);
    revise_or_fail "technical_failure" (Some failure)
  else mret Continue.

Definition handle_result (n step : Z) (task : TaskRow) (r : AgentTaskResult) : orc flow :=
  let completed := bool_decide (ar_outcome r = OutCOMPLETED) in
  let value := outcome_value (ar_outcome r) in
  _ ← with_store (ps_apply_result (cf_plan_id cfg) (tr_task_id task) r);
  _ ← observe (if completed then EvTaskCompleted (tr_task_id task) else EvStatus (tr_task_id task) (ar_outcome r));
  _ ← observe (EvAttemptSucceeded (tr_task_id task) (tr_attempts task));
  _ ← observe (EvCheckpointFinished "task" (tr_task_id task) value);
  _ ← yield_ (EvAgentEnd n (tr_executor task) (tr_attempts task) value);
  _ ← yield_ (EvStepEnd n step value value);
  _ ← yield_ (if completed then EvTaskCompleted (tr_task_id task)
              else EvTaskUnfulfillable (tr_task_id task) (ar_outcome r));
  _ ← next_step;
  if completed then
    if bool_decide (tr_on_success task = REPLAN) then
      _ ← close_active_iteration "completed" (Some "replan"%string);
      revise_or_fail "task_completed" None
    else mret Continue
  else
    _ ← close_active_iteration value (Some value);
    revise_or_fail value None.

Definition execute_claimed (task : TaskRow) : orc flow :=
  n ← active_id;
  snap ← with_store (ps_snapshot (cf_plan_id cfg));
  let rq := task_request (sp_tasks snap) task in
  _ ← observe (EvCheckpointStarted "task" (tr_task_id task));
  _ ← observe (EvTaskStarted (tr_task_id task) (tr_attempts task));
  _ ← observe (EvAttemptStarted (tr_task_id task) (tr_attempts task));
  _ ← consume_budget "task_attempts" (cf_limit_task_attempts cfg) "task_started" "task attempt budget exceeded";
  _ ← yield_ (EvTaskStarted (tr_task_id task) (tr_attempts task));
  o ← get_state;
  let step := o_step o in
  _ ← yield_ (EvStepStart n step "call_agent");
  _ ← yield_ (EvAgentStart n (tr_executor task) (tr_attempts task));
  outcome ← call_executor rq;
  match outcome with
  | ExecResult r => handle_result n step task r
  | ExecConfirmationRequired payload => pause_for_confirmation n step task payload
  | e => handle_failure n step task (attempt_failure e)
  end.

(** *** Nothing to claim *)

Definition unresolvable_message : string :=
  "planner did not declare a producer or request user input for pending needs".

Definition unresolvable_failure (pending : list (string * NeedDict)) : odict json :=
  [("code", JStr "unresolvable_dependency"); ("message", JStr unresolvable_message);
   ("needs", JList (map (fun tn => JObj [("task_id", JStr tn.1); ("key", JStr (nd_key tn.2))]) pending))]%string.

Definition replan_pending (pending : list (string * NeedDict)) : orc flow :=
  _ ← close_active_iteration "needs_dependency" (Some "needs_dependency"%string);
  f ← revise_or_fail "pending_need" None;
  match f with
  | Return => mret Return
  | Continue =>
      revised ← with_store (ps_snapshot (cf_plan_id cfg));
      if bool_decide (pr_status (sp_plan revised) = PlanACTIVE)
         && negb (_has_declared_resolvers (sp_tasks revised) pending)
      then
        _ ← with_store (ps_mark_failed (cf_plan_id cfg) (unresolvable_failure pending));
        _ ← observe (EvError "unresolvable_dependency");
        _ ← close_active_iteration "failed" (Some "unresolvable_dependency"%string);
        _ ← yield_ (EvPlanTerminal PlanFAILED (Some unresolvable_message));
        mret Return
      else mret Continue
  end.

Definition stall : orc flow :=
  _ ← close_active_iteration "stalled" None;
  _ ← yield_ EvPlanStalled;
  mret Return.

(** *** The loop *)

Definition status_value (st : PlanStatus) : string :=
  match st with
  | PlanDRAFT => "draft" | PlanACTIVE => "active" | PlanWAITING_INPUT => "waiting_input"
  | PlanCOMPLETED => "completed" | PlanFAILED => "failed" | PlanCANCELLED => "cancelled"
  end.

Definition terminal_plan (st : PlanStatus) : bool :=
  bool_decide (st ∈ [PlanCOMPLETED; PlanWAITING_INPUT; PlanFAILED; PlanCANCELLED]).

Definition loop_body : orc flow :=
  plan ← with_store (ps_snapshot (cf_plan_id cfg));
  let status := pr_status (sp_plan plan) in
  if terminal_plan status then
    _ ← close_active_iteration (status_value status) None;
    _ ← yield_ (EvPlanTerminal status None);
    mret Return
  else
    t ← now;
    task ← with_store (ps_claim_ready t (cf_plan_id cfg));
    match task with
    | None =>
        let pending := pending_needs_of (sp_tasks plan) in
        if bool_decide (pending = []) then stall else replan_pending pending
    | Some task => execute_claimed task
    end.

Fixpoint loop (max_steps : nat) : orc unit :=
  match max_steps with
  | O =>
      _ ← close_active_iteration "max_steps" None;
      yield_ EvMaxSteps
  | S k =>
      f ← loop_body;
      match f with Return => mret tt | Continue => loop k end
  end.

Definition prologue : orc flow :=
  plan ← with_store (ps_snapshot (cf_plan_id cfg));
  if cf_force_replan cfg then
    f ← revise_or_fail "user_input" None;
    match f with
    | Return => mret Return
    | Continue => _ ← with_store (ps_snapshot (cf_plan_id cfg)); mret Continue
    end
  else if bool_decide (sp_tasks plan = []) then initial_plan plan
  else resume_execution.

Definition run (max_steps : nat) : orc unit :=
  f ← prologue;
  match f with Return => mret tt | Continue => loop max_steps end.

Definition start (s : St) (b : Service.BudgetState) : Orch St :=
  mkOrch s b [] [] 1 None "execution" 1 false [] [].
End Run.
