(* ===== verification/OrchestratorProofs.v ===== *)
(** * The graph orchestrator: proofs

    A small program logic for the orchestrator's computations, and three uses
    of it: the shape of the event trace, the number of external calls, and the
    calls made on the store interface ([PlanStoreLaws]). *)
From S2P Require Import Prelude Contracts TaskGraph PlanMemory PlanSql Budgets Orchestrator.

(** ** Triples

    [hoare P m Q]: a run of [m] from [P] that returns ends in [Q]. *)
Section Hoare.
Context {St : Type}.

Definition hoare {A} (P : Orch St -> Prop) (m : py exn (Orch St) A) (Q : A -> Orch St -> Prop) : Prop :=
  forall o a o', P o -> m o = (Ok a, o') -> Q a o'.

Lemma hoare_bind {A B} P (m : py exn (Orch St) A) (k : A -> py exn (Orch St) B) R Q :
  hoare P m R -> (forall a, hoare (R a) (k a) Q) -> hoare P (m ≫= k) Q.
Proof. intros Hm Hk o b o' HP H. apply bind_Ok in H as (a & o1 & H1 & H). by eapply Hk; [eapply Hm|]. Qed.

(** A statement that keeps its precondition. *)
Lemma hoare_seq {A B} P (m : py exn (Orch St) A) (k : A -> py exn (Orch St) B) Q :
  hoare P m (fun _ => P) -> (forall a, hoare P (k a) Q) -> hoare P (m ≫= k) Q.
Proof. intros Hm Hk. by apply (hoare_bind P m k (fun _ => P)). Qed.

Lemma hoare_conseq {A} (P P' : Orch St -> Prop) (m : py exn (Orch St) A) (Q Q' : A -> Orch St -> Prop) :
  (forall o, P o -> P' o) -> hoare P' m Q' -> (forall a o, Q' a o -> Q a o) -> hoare P m Q.
Proof. intros HP Hm HQ o a o' Ho H. eapply HQ, Hm; eauto. Qed.

Lemma hoare_mret {A} (P : Orch St -> Prop) (a : A) (Q : A -> Orch St -> Prop) :
  (forall o, P o -> Q a o) -> hoare P (mret a) Q.
Proof. intros HQ o a' o' Ho H. unfold mret, py_ret in H. injection H as <- <-. auto. Qed.

Lemma hoare_get (P : Orch St -> Prop) (Q : Orch St -> Orch St -> Prop) :
  (forall o, P o -> Q o o) -> hoare P get_state Q.
Proof. intros HQ o a o' Ho H. unfold get_state in H. injection H as <- <-. auto. Qed.

Lemma hoare_modify (P : Orch St -> Prop) f (Q : unit -> Orch St -> Prop) :
  (forall o, P o -> Q tt (f o)) -> hoare P (modify f) Q.
Proof. intros HQ o [] o' Ho H. unfold modify in H. injection H as <-. auto. Qed.

Lemma hoare_pure {A} (P : Orch St -> Prop) (phi : Prop) (m : py exn (Orch St) A) Q :
  (phi -> hoare P m Q) -> hoare (fun o => P o /\ phi) m Q.
Proof. intros Hm o a o' [HP Hphi] H. by eapply Hm. Qed.

Lemma hoare_raise {A} (P : Orch St -> Prop) e (Q : A -> Orch St -> Prop) : hoare P (raise e) Q.
Proof. intros o a o' _ H. unfold raise in H. done. Qed.
End Hoare.

(** ** The event trace *)

(** One event opens or closes the current planner iteration; a second start, or
    an end without a start, is an error. *)
Definition scan_event (open : option bool) (e : event) : option bool :=
  match open, e with
  | Some false, EvIterationStart _ _ => Some true
  | Some true, EvIterationStart _ _ => None
  | Some true, EvIterationEnd _ _ _ _ => Some false
  | Some false, EvIterationEnd _ _ _ _ => None
  | o, _ => o
  end.

Definition scan (tr : list (channel * event)) : option bool :=
  foldl (fun o ce => scan_event o ce.2) (Some false) tr.

Definition terminal_event (e : event) : bool :=
  match e with EvPlanTerminal _ _ | EvPlanStalled | EvMaxSteps => true | _ => false end.

Definition iteration_event (e : event) : bool :=
  match e with EvIterationStart _ _ | EvIterationEnd _ _ _ _ => true | _ => false end.

Definition plain (e : event) : bool := negb (terminal_event e) && negb (iteration_event e).

Lemma scan_app tr ce : scan (tr ++ [ce]) = scan_event (scan tr) ce.2.
Proof. unfold scan. by rewrite foldl_app. Qed.

Lemma scan_plain o e : plain e = true -> scan_event o e = o.
Proof. destruct e; try done; by destruct o as [[]|]. Qed.

Section Trace.
Context {St : Type} `{PlanStore St}.
Variable planner : nat -> PlanRequest -> result exn PlanPatch.
Variable executor : nat -> TaskRequest -> exec_outcome.
Variable clock : nat -> Z.
Variable repr : json -> string.
Variable str_exn : exn -> string.
Variable cfg : Config.
Hypothesis sink : cf_event_sink cfg = true.

(** The run is between events: the trace is balanced up to an iteration that
    is open when [b] holds, [iteration_open] is [c], and there is no terminal
    event yet.  The two differ only while an iteration is being opened. *)
Definition at_state (b c : bool) (o : Orch St) : Prop :=
  scan (o_trace o) = Some b /\ o_open o = c /\ (c = true -> is_Some (o_active o)) /\
  Forall (fun ce => terminal_event ce.2 = false) (o_trace o).

Abbreviation at_iteration b := (at_state b b).

(** The run is over: every iteration is closed and the trace ends with its
    only terminal event, which was yielded. *)
Definition finished_run (o : Orch St) : Prop :=
  scan (o_trace o) = Some false /\
  exists tr e, o_trace o = tr ++ [(Yielded, e)] /\ terminal_event e = true /\
    Forall (fun ce => terminal_event ce.2 = false) tr.

Definition flow_post (f : flow) (o : Orch St) : Prop :=
  match f with Continue => at_iteration true o | Return => finished_run o end.

(** Statements that do not touch the iteration. *)
Definition neutral {A} (m : orc (St := St) A) : Prop :=
  forall o r o', m o = (r, o') ->
    o_open o' = o_open o /\ o_active o' = o_active o /\
    exists tr, o_trace o' = o_trace o ++ tr /\ Forall (fun ce => plain ce.2 = true) tr.

Lemma scan_plain_app tr l : Forall (fun ce => plain ce.2 = true) l -> scan (tr ++ l) = scan tr.
Proof.
  revert tr. induction l as [|ce l IH]; intros tr Hl; [by rewrite app_nil_r|]. inversion Hl; subst.
  change (ce :: l) with ([ce] ++ l). rewrite app_assoc, IH by done. rewrite scan_app. by apply scan_plain.
Qed.

Lemma neutral_hoare {A} b c (m : orc A) : neutral m -> hoare (at_state b c) m (fun _ => at_state b c).
Proof.
  intros Hm o a o' (Hs & Ho & Ha & Ht) Hr. destruct (Hm _ _ _ Hr) as (E1 & E2 & tr & E3 & Hp).
  unfold at_state. rewrite E1, E2, E3. split_and!; [by rewrite scan_plain_app|done|done|].
  apply Forall_app. split; [done|]. eapply Forall_impl; [exact Hp|]. intros ce Hce. unfold plain in Hce.
  by destruct (terminal_event ce.2).
Qed.

Lemma neutral_bind {A B} (m : orc A) (k : A -> orc B) :
  neutral m -> (forall a, neutral (k a)) -> neutral (m ≫= k).
Proof.
  intros Hm Hk o r o' Hr. unfold mbind, py_bind in Hr. destruct (m o) as [[a|e] o1] eqn:Em.
  - destruct (Hm _ _ _ Em) as (E1 & E2 & tr1 & E3 & Hp1). destruct (Hk a _ _ _ Hr) as (F1 & F2 & tr2 & F3 & Hp2).
    split; [congruence|]. split; [congruence|]. exists (tr1 ++ tr2). rewrite F3, E3, app_assoc.
    split; [done|by apply Forall_app].
  - injection Hr as <- <-. by apply (Hm _ (Err e)).
Qed.

Lemma neutral_keep {A} (m : orc A) :
  (forall o, o_open (m o).2 = o_open o /\ o_active (m o).2 = o_active o /\ o_trace (m o).2 = o_trace o) -> neutral m.
Proof.
  intros Hm o r o' Hr. specialize (Hm o). rewrite Hr in Hm. simpl in Hm. destruct Hm as (E1 & E2 & E3).
  split; [done|]. split; [done|]. exists []. by rewrite app_nil_r.
Qed.

Lemma neutral_emit c e : plain e = true -> neutral (emit c e).
Proof.
  intros Hp o r o' Hr. unfold emit, modify in Hr. injection Hr as <- <-. simpl. split; [done|]. split; [done|].
  exists [(c, e)]. split; [done|]. by repeat constructor.
Qed.

Lemma neutral_observe e : plain e = true -> neutral (observe cfg e).
Proof.
  intros Hp. unfold observe. destruct (journalled_by_yield e); [by apply neutral_keep|].
  destruct (cf_event_sink cfg); [by apply neutral_emit|by apply neutral_keep].
Qed.

Lemma neutral_with_store {A} (m : py exn St A) : neutral (with_store m).
Proof. apply neutral_keep. intros o. unfold with_store. by destruct (m (o_store o)). Qed.

Lemma neutral_attempt {A} (m : orc A) : neutral m -> neutral (attempt m).
Proof.
  intros Hm o r o' Hr. unfold attempt in Hr. destruct (m o) as [r1 o1] eqn:Em. injection Hr as _ <-. by eapply Hm.
Qed.

Lemma neutral_consume metric limit why msg : neutral (consume_budget cfg metric limit why msg).
Proof.
  unfold consume_budget. case_match; [by apply neutral_keep|]. apply neutral_keep. intros o.
  unfold mbind, py_bind, get_state. simpl. destruct (Service.consume _ _ _ _ _ _ _ _) as [d b]. simpl.
  by destruct (Service.bd_allowed d).
Qed.

Ltac neutrals :=
  repeat first
    [ apply neutral_with_store | apply neutral_consume | (apply neutral_observe; reflexivity)
    | (apply neutral_emit; reflexivity) | apply neutral_attempt
    | (apply neutral_keep; intros; split_and!; reflexivity)
    | apply neutral_bind; [|intros ?]
    | progress (unfold plan_and_apply, start_invocation, finish_invocation, set_invocations, yield_, next_step,
                  now, call_planner, call_executor, of_result)
    | case_match ].

Lemma neutral_plan_and_apply n i rq why : neutral (plan_and_apply planner cfg n i rq why).
Proof. neutrals. Qed.

(** Peels statements that do not touch the iteration off the front. *)
Ltac peel := repeat (apply hoare_seq; [apply neutral_hoare; solve [neutrals]|intros ?]).

(** Splits on what the [try] block of a plan left. *)
Ltac on_outcome :=
  match goal with o : result exn (PlanPatch * Z) |- _ => destruct o as [[? ?]|?] end.

Lemma close_spec b status outcome :
  hoare (at_iteration b) (close_active_iteration status outcome) (fun _ => at_iteration false).
Proof.
  intros o a o' (Hs & Ho & Ha & Ht) Hr. unfold close_active_iteration, mbind, py_bind, get_state in Hr. simpl in Hr.
  rewrite Ho in Hr. destruct b.
  - destruct (Ha eq_refl) as [n Hn]. rewrite Hn in Hr. unfold set_iteration, yield_, emit, modify in Hr.
    injection Hr as _ <-. split_and!; simpl; [|done|done|].
    + rewrite scan_app. simpl. by rewrite Hs.
    + apply Forall_app. split; [done|]. by repeat constructor.
  - assert (o' = o) as -> by (by destruct (o_active o); unfold mret, py_ret in Hr; injection Hr).
    by split_and!.
Qed.

Lemma terminal_spec e : terminal_event e = true ->
  hoare (at_iteration false) (yield_ e) (fun _ => finished_run).
Proof.
  intros He o a o' (Hs & Ho & Ha & Ht) Hr. unfold yield_, emit, modify in Hr. injection Hr as _ <-.
  assert (Hi : iteration_event e = false) by (by destruct e).
  split; simpl; [|exists (o_trace o), e; by split_and!]. rewrite scan_app. simpl. rewrite Hs. by destruct e.
Qed.

Lemma return_spec : hoare finished_run (mret Return : orc flow) flow_post.
Proof. by apply hoare_mret. Qed.

Lemma set_iteration_spec b c m n ty stp :
  hoare (at_state b c) (set_iteration m (Some n) ty stp true) (fun _ => at_state b true).
Proof. apply hoare_modify. intros o (Hs & _ & _ & Ht). split_and!; simpl; [done|done|by eexists|done]. Qed.

Lemma emit_start_spec c n mode :
  hoare (at_state false true) (emit c (EvIterationStart n mode)) (fun _ => at_iteration true).
Proof.
  apply hoare_modify. intros o (Hs & Ho & Ha & Ht). split_and!; simpl; [|done|done|].
  - rewrite scan_app. simpl. by rewrite Hs.
  - apply Forall_app. split; [done|]. by repeat constructor.
Qed.

(** A replan starts an iteration whose events go to the sink. *)
Lemma observe_start_spec n mode :
  hoare (at_state false true) (observe cfg (EvIterationStart n mode)) (fun _ => at_iteration true).
Proof. unfold observe. simpl. rewrite sink. apply emit_start_spec. Qed.

(** ** The parts of the run *)

Lemma revise_spec why last_failure :
  hoare (at_iteration false) (revise planner repr str_exn cfg why last_failure) (fun _ => at_iteration true).
Proof.
  unfold revise. peel.
  eapply hoare_bind; [apply (set_iteration_spec false)|intros ?]. peel.
  eapply hoare_bind; [apply observe_start_spec|intros ?]. peel.
  on_outcome; peel; by apply hoare_mret.
Qed.

Lemma fail_run_spec b message : hoare (at_iteration b) (fail_run message) flow_post.
Proof.
  unfold fail_run. eapply hoare_bind; [apply close_spec|intros ?].
  eapply hoare_bind; [by apply terminal_spec|intros ?]. apply return_spec.
Qed.

Lemma revise_or_fail_spec why last_failure :
  hoare (at_iteration false) (revise_or_fail planner repr str_exn cfg why last_failure) flow_post.
Proof.
  unfold revise_or_fail. eapply hoare_bind; [apply revise_spec|intros [message|]]; [|by apply hoare_mret].
  destruct (str_empty message); [by apply hoare_mret|apply fail_run_spec].
Qed.

Lemma initial_plan_spec plan :
  hoare (at_iteration false) (initial_plan planner repr str_exn cfg plan) flow_post.
Proof.
  unfold initial_plan. peel.
  eapply hoare_bind; [apply (set_iteration_spec false)|intros ?].
  eapply hoare_bind; [apply emit_start_spec|intros ?]. peel.
  on_outcome; peel.
  - by apply hoare_mret.
  - apply fail_run_spec.
Qed.

Lemma resume_execution_spec : hoare (at_iteration false) (resume_execution (St := St)) flow_post.
Proof.
  unfold resume_execution. peel. eapply hoare_bind; [apply (set_iteration_spec false)|intros ?].
  eapply hoare_bind; [apply emit_start_spec|intros ?]. by apply hoare_mret.
Qed.

Lemma execute_claimed_spec task :
  hoare (at_iteration true) (execute_claimed planner executor clock repr str_exn cfg task) flow_post.
Proof.
  unfold execute_claimed.
  assert (Ha : neutral active_id).
  { unfold active_id. apply neutral_bind; [neutrals|intros o]. destruct (o_active o); by apply neutral_keep. }
  eapply hoare_seq; [by apply neutral_hoare|intros n]. peel.
  assert (Hf : forall f, hoare (at_iteration true)
    (handle_failure planner clock repr str_exn cfg n (o_step a5) task f) flow_post).
  { intros f. unfold handle_failure. peel. destruct (_ || _); [|by apply hoare_mret].
    eapply hoare_bind; [apply close_spec|intros ?]. apply revise_or_fail_spec. }
  destruct a8 as [r|payload|code m rt dt|name m]; try apply Hf.
  - unfold handle_result. destruct (bool_decide (ar_outcome r = OutCOMPLETED)).
    + peel. destruct (bool_decide _); [|by apply hoare_mret].
      eapply hoare_bind; [apply close_spec|intros ?]. apply revise_or_fail_spec.
    + peel. eapply hoare_bind; [apply close_spec|intros ?]. apply revise_or_fail_spec.
  - unfold pause_for_confirmation. peel.
    eapply hoare_bind; [apply close_spec|intros ?].
    eapply hoare_bind; [by apply terminal_spec|intros ?]. apply return_spec.
Qed.

Lemma replan_pending_spec pending :
  hoare (at_iteration true) (replan_pending planner repr str_exn cfg pending) flow_post.
Proof.
  unfold replan_pending. eapply hoare_bind; [apply close_spec|intros ?].
  eapply hoare_bind; [apply revise_or_fail_spec|intros [|]]; [|by apply hoare_mret].
  eapply hoare_seq; [apply neutral_hoare; neutrals|intros revised].
  destruct (_ && _); [|by apply hoare_mret]. peel.
  eapply hoare_bind; [apply close_spec|intros ?].
  eapply hoare_bind; [by apply terminal_spec|intros ?]. apply return_spec.
Qed.

Lemma loop_body_spec :
  hoare (at_iteration true) (loop_body planner executor clock repr str_exn cfg) flow_post.
Proof.
  unfold loop_body. eapply hoare_seq; [apply neutral_hoare; neutrals|intros plan]. cbv zeta.
  destruct (terminal_plan _).
  - eapply hoare_bind; [apply close_spec|intros ?].
    eapply hoare_bind; [by apply terminal_spec|intros ?]. apply return_spec.
  - peel. destruct a0 as [task|]; [apply execute_claimed_spec|].
    destruct (bool_decide _); [|apply replan_pending_spec]. unfold stall.
    eapply hoare_bind; [apply close_spec|intros ?].
    eapply hoare_bind; [by apply terminal_spec|intros ?]. apply return_spec.
Qed.

Lemma loop_spec n :
  hoare (at_iteration true) (loop planner executor clock repr str_exn cfg n) (fun _ => finished_run).
Proof.
  induction n as [|n IH]; simpl.
  - eapply hoare_bind; [apply close_spec|intros ?]. by apply terminal_spec.
  - eapply hoare_bind; [apply loop_body_spec|intros [|]]; [exact IH|by apply hoare_mret].
Qed.

Lemma prologue_spec :
  hoare (at_iteration false) (prologue planner repr str_exn cfg) flow_post.
Proof.
  unfold prologue. eapply hoare_seq; [apply neutral_hoare; neutrals|intros plan].
  destruct (cf_force_replan cfg).
  - eapply hoare_bind; [apply revise_or_fail_spec|intros [|]]; [|by apply hoare_mret].
    eapply hoare_seq; [apply (neutral_hoare true true); neutrals|intros ?]. by apply hoare_mret.
  - destruct (bool_decide _); [apply initial_plan_spec|apply resume_execution_spec].
Qed.

Lemma run_spec n :
  hoare (at_iteration false) (run planner executor clock repr str_exn cfg n) (fun _ => finished_run).
Proof.
  unfold run. eapply hoare_bind; [apply prologue_spec|intros [|]]; [apply loop_spec|by apply hoare_mret].
Qed.

Lemma start_at s b : at_iteration false (start s b).
Proof. split_and!; done. Qed.
End Trace.

(** ** External calls *)

Section Calls.
Context {St : Type} `{PlanStore St}.
Variable planner : nat -> PlanRequest -> result exn PlanPatch.
Variable executor : nat -> TaskRequest -> exec_outcome.
Variable clock : nat -> Z.
Variable repr : json -> string.
Variable str_exn : exn -> string.
Variable cfg : Config.

(** [m] asks the planner at most [p] times and the executor at most [x] times,
    also when it raises. *)
Definition calls (p x : nat) {A} (m : orc (St := St) A) : Prop :=
  forall o r o', m o = (r, o') ->
    length (o_plan_requests o') <= p + length (o_plan_requests o) /\
    length (o_task_requests o') <= x + length (o_task_requests o).

Lemma calls_bind {A B} p1 x1 p2 x2 (m : orc A) (k : A -> orc B) :
  calls p1 x1 m -> (forall a, calls p2 x2 (k a)) -> calls (p1 + p2) (x1 + x2) (m ≫= k).
Proof.
  intros Hm Hk o r o' Hr. unfold mbind, py_bind in Hr. destruct (m o) as [[a|e] o1] eqn:Em.
  - destruct (Hm _ _ _ Em), (Hk a _ _ _ Hr). lia.
  - injection Hr as _ <-. destruct (Hm _ _ _ Em). lia.
Qed.

Lemma calls_seq {A B} p x (m : orc A) (k : A -> orc B) :
  calls 0 0 m -> (forall a, calls p x (k a)) -> calls p x (m ≫= k).
Proof. apply (calls_bind 0 0). Qed.

Lemma calls_then {A B} p x (m : orc A) (k : A -> orc B) :
  calls p x m -> (forall a, calls 0 0 (k a)) -> calls p x (m ≫= k).
Proof. intros Hm Hk. rewrite <- (Nat.add_0_r p), <- (Nat.add_0_r x). by apply calls_bind. Qed.

Lemma calls_weaken {A} p x p' x' (m : orc A) : calls p x m -> p <= p' -> x <= x' -> calls p' x' m.
Proof. intros Hm Hp Hx o r o' Hr. destruct (Hm _ _ _ Hr). lia. Qed.

Lemma calls_keep {A} p x (m : orc A) :
  (forall o, o_plan_requests (m o).2 = o_plan_requests o /\ o_task_requests (m o).2 = o_task_requests o) -> calls p x m.
Proof. intros Hm o r o' Hr. specialize (Hm o). rewrite Hr in Hm. simpl in Hm. destruct Hm as [-> ->]. lia. Qed.

Lemma calls_with_store {A} p x (m : py exn St A) : calls p x (with_store m).
Proof. apply calls_keep. intros o. unfold with_store. by destruct (m (o_store o)). Qed.

Lemma calls_attempt {A} p x (m : orc A) : calls p x m -> calls p x (attempt m).
Proof.
  intros Hm o r o' Hr. unfold attempt in Hr. destruct (m o) as [r1 o1] eqn:Em. injection Hr as _ <-. by eapply Hm.
Qed.

Lemma calls_consume p x metric limit why msg : calls p x (consume_budget cfg metric limit why msg).
Proof.
  unfold consume_budget. case_match; [by apply calls_keep|]. apply calls_keep. intros o.
  unfold mbind, py_bind, get_state. simpl. destruct (Service.consume _ _ _ _ _ _ _ _) as [d b]. simpl.
  by destruct (Service.bd_allowed d).
Qed.

Lemma calls_planner rq x : calls 1 x (call_planner planner rq).
Proof.
  intros o r o' Hr. unfold call_planner in Hr. injection Hr as _ <-. simpl. rewrite length_app. simpl. lia.
Qed.

Lemma calls_executor rq p : calls p 1 (call_executor executor rq).
Proof.
  intros o r o' Hr. unfold call_executor in Hr. injection Hr as _ <-. simpl. rewrite length_app. simpl. lia.
Qed.

Ltac no_calls :=
  repeat first
    [ apply calls_with_store | apply calls_consume
    | (apply calls_keep; intros; split; reflexivity)
    | (apply calls_seq; [|intros ?])
    | progress (unfold observe, start_invocation, finish_invocation, set_invocations, yield_, emit, next_step,
                  now, set_iteration, active_id, close_active_iteration)
    | case_match ].

Ltac skip := repeat (apply calls_seq; [solve [no_calls]|intros ?]).

Lemma calls_plan_and_apply n i rq why x : calls 1 x (plan_and_apply planner cfg n i rq why).
Proof.
  unfold plan_and_apply. skip. apply calls_then; [apply calls_planner|intros patch]. no_calls.
Qed.

Lemma calls_revise why lf x : calls 1 x (revise planner repr str_exn cfg why lf).
Proof.
  unfold revise. skip.
  apply calls_then; [apply calls_attempt, calls_plan_and_apply|intros outcome]. no_calls.
Qed.

Lemma calls_revise_or_fail why lf x : calls 1 x (revise_or_fail planner repr str_exn cfg why lf).
Proof.
  unfold revise_or_fail. apply calls_then; [apply calls_revise|intros outcome].
  unfold fail_run. no_calls.
Qed.

Lemma calls_prologue : calls 1 0 (prologue planner repr str_exn cfg).
Proof.
  unfold prologue. skip. case_match.
  - apply calls_then; [apply calls_revise_or_fail|intros f]. no_calls.
  - case_match.
    + unfold initial_plan. skip. apply calls_then; [apply calls_attempt, calls_plan_and_apply|intros outcome].
      unfold fail_run. no_calls.
    + unfold resume_execution. no_calls.
Qed.

Lemma calls_execute task : calls 1 1 (execute_claimed planner executor clock repr str_exn cfg task).
Proof.
  unfold execute_claimed. skip. apply (calls_bind 0 1 1 0); [apply calls_executor|intros outcome].
  assert (Hf : forall n s f, calls 1 0 (handle_failure planner clock repr str_exn cfg n s task f)).
  { intros n s f. unfold handle_failure. skip. case_match; [|no_calls]. skip. apply calls_revise_or_fail. }
  destruct outcome as [r|payload|code m rt dt|name m]; try apply Hf.
  - unfold handle_result. skip. case_match; [case_match|]; [|no_calls|]; skip; apply calls_revise_or_fail.
  - unfold pause_for_confirmation. no_calls.
Qed.

Lemma calls_loop_body : calls 1 1 (loop_body planner executor clock repr str_exn cfg).
Proof.
  unfold loop_body. skip. cbv zeta. case_match; [no_calls|]. skip. case_match; [apply calls_execute|].
  case_match; [unfold stall; no_calls|]. unfold replan_pending. skip.
  apply calls_then; [apply calls_revise_or_fail|intros f]. no_calls.
Qed.

Lemma calls_loop n : calls n n (loop planner executor clock repr str_exn cfg n).
Proof.
  induction n as [|n IH]; simpl; [no_calls|].
  apply (calls_bind 1 1 n n); [apply calls_loop_body|intros [|]]; [exact IH|no_calls].
Qed.

Lemma calls_run n : calls (S n) n (run planner executor clock repr str_exn cfg n).
Proof.
  unfold run. apply (calls_bind 1 0 n n); [apply calls_prologue|intros [|]]; [apply calls_loop|no_calls].
Qed.
End Calls.

(** ** What the orchestrator asks of the store *)

(** The laws a store gives its orchestrator: an invariant kept by every call
    the orchestrator may make, and what holds of a task it has just claimed. *)
Class PlanStoreLaws (St : Type) `{PlanStore St} (Inv : St -> Prop) (Claimed : Z -> string -> St -> Prop) := {
  pl_snapshot : forall pid s r s', ps_snapshot pid s = (r, s') -> s' = s;
  pl_claim : forall t pid s r s', Inv s -> ps_claim_ready t pid s = (Ok r, s') ->
    Inv s' /\ forall row, r = Some row -> Claimed pid (tr_task_id row) s';
  pl_patch : forall pid patch why inv s r s', make_patch patch = Ok patch -> Inv s ->
    ps_apply_patch pid patch why inv s = (r, s') -> Inv s';
  pl_result : forall pid tid r s u s', Inv s -> ps_apply_result pid tid r s = (Ok u, s') -> Inv s';
  pl_failure : forall t pid tid f retry mx s u s', Inv s -> Claimed pid tid s ->
    ps_record_failure t pid tid f retry mx s = (Ok u, s') -> Inv s';
  pl_pause : forall t pid tid c s u s', Inv s -> Claimed pid tid s ->
    ps_pause_task t pid tid c s = (Ok u, s') -> Inv s';
  pl_mark_failed : forall pid f s u s', Inv s -> ps_mark_failed pid f s = (Ok u, s') -> Inv s';
  (** the required needs of a claimed task are resolved *)
  pl_claimed_needs : forall pid tid s snap s', Inv s -> Claimed pid tid s -> ps_snapshot pid s = (Ok snap, s') ->
    forall n, n ∈ sn_needs (default empty_snap_task (od_get tid (sp_tasks snap))) ->
      nd_required n = true -> nd_status n = Some ReqRESOLVED
}.

Section Store.
Context {St : Type} `{PlanStore St} (Inv : St -> Prop) (Claimed : Z -> string -> St -> Prop)
  `{!PlanStoreLaws St Inv Claimed}.
Variable planner : nat -> PlanRequest -> result exn PlanPatch.
Variable executor : nat -> TaskRequest -> exec_outcome.
Variable clock : nat -> Z.
Variable repr : json -> string.
Variable str_exn : exn -> string.
Variable cfg : Config.
(** The planner returns constructed patches. *)
Hypothesis planner_constructs : forall n rq patch, planner n rq = Ok patch -> make_patch patch = Ok patch.

Definition well_fed (rq : TaskRequest) : Prop :=
  forall n, n ∈ tq_needs rq -> nd_required n = true -> nd_status n = Some ReqRESOLVED.

Definition legal (o : Orch St) : Prop := Inv (o_store o) /\ Forall well_fed (o_task_requests o).
Definition legal_claim (tid : string) (o : Orch St) : Prop :=
  legal o /\ Claimed (cf_plan_id cfg) tid (o_store o).

(** Kept by [m] whether it returns or raises. *)
Definition keeps (P : Orch St -> Prop) {A} (m : orc (St := St) A) : Prop :=
  forall o r o', P o -> m o = (r, o') -> P o'.

Lemma keeps_hoare P {A} (m : orc A) : keeps P m -> hoare P m (fun _ => P).
Proof. intros Hm o a o' HP Hr. by eapply Hm. Qed.

Lemma keeps_bind P {A B} (m : orc A) (k : A -> orc B) :
  keeps P m -> (forall a, keeps P (k a)) -> keeps P (m ≫= k).
Proof.
  intros Hm Hk o r o' HP Hr. unfold mbind, py_bind in Hr. destruct (m o) as [[a|e] o1] eqn:Em.
  - eapply Hk; [|exact Hr]. by eapply Hm.
  - injection Hr as _ <-. by eapply Hm.
Qed.

(** Statements that leave the store and the executor's requests alone. *)
Definition aside {A} (m : orc (St := St) A) : Prop :=
  forall o, o_store (m o).2 = o_store o /\ o_task_requests (m o).2 = o_task_requests o.

Lemma aside_legal {A} (m : orc A) : aside m -> keeps legal m.
Proof. intros Hm o r o' HP Hr. specialize (Hm o). rewrite Hr in Hm. simpl in Hm. unfold legal in *. destruct Hm as [-> ->]. exact HP. Qed.

Lemma aside_claim tid {A} (m : orc A) : aside m -> keeps (legal_claim tid) m.
Proof.
  intros Hm o r o' HP Hr. specialize (Hm o). rewrite Hr in Hm. simpl in Hm. unfold legal_claim, legal in *.
  destruct Hm as [-> ->]. exact HP.
Qed.

Lemma aside_bind {A B} (m : orc A) (k : A -> orc B) : aside m -> (forall a, aside (k a)) -> aside (m ≫= k).
Proof.
  intros Hm Hk o. unfold mbind, py_bind. specialize (Hm o). destruct (m o) as [[a|e] o1]; simpl in *; [|done].
  destruct (Hk a o1) as [-> ->]. done.
Qed.

Lemma aside_consume metric limit why msg : aside (consume_budget cfg metric limit why msg).
Proof.
  unfold consume_budget. case_match; [done|]. intros o. unfold mbind, py_bind, get_state. simpl.
  destruct (Service.consume _ _ _ _ _ _ _ _) as [d b]. simpl. by destruct (Service.bd_allowed d).
Qed.

Lemma aside_snapshot : aside (with_store (ps_snapshot (cf_plan_id cfg))).
Proof.
  intros o. unfold with_store. destruct (ps_snapshot (cf_plan_id cfg) (o_store o)) as [r s] eqn:E. simpl.
  split; [|done]. by eapply pl_snapshot.
Qed.

Ltac asides :=
  repeat first
    [ apply aside_consume | apply aside_snapshot
    | (intros ?; split; reflexivity)
    | (apply aside_bind; [|intros ?])
    | progress (unfold observe, start_invocation, finish_invocation, set_invocations, yield_, emit, next_step,
                  now, set_iteration, active_id, close_active_iteration, call_planner, of_result)
    | case_match ].

(** Peels statements that leave the store alone. *)
Ltac peel_legal := repeat (apply hoare_seq; [apply keeps_hoare, aside_legal; solve [asides]|intros ?]).
Ltac peel_claim := repeat (apply hoare_seq; [apply keeps_hoare, aside_claim; solve [asides]|intros ?]).

Lemma legal_mret {A} (a : A) : hoare legal (mret a) (fun _ => legal).
Proof. by apply hoare_mret. Qed.

Lemma aside_hoare {A} (m : orc A) : aside m -> hoare legal m (fun _ => legal).
Proof. intros Hm. by apply keeps_hoare, aside_legal. Qed.

Lemma legal_store {A} (P : Orch St -> Prop) (m : py exn St A) :
  (forall o a s, P o -> m (o_store o) = (Ok a, s) -> Inv s) ->
  (forall o, P o -> legal o) -> hoare P (with_store m) (fun _ => legal).
Proof.
  intros Hm HP o a o' Ho Hr. unfold with_store in Hr. destruct (m (o_store o)) as [r s] eqn:Es.
  injection Hr as -> <-. split; simpl; [by eapply Hm|]. by apply HP.
Qed.

Lemma mark_failed_legal f : hoare legal (with_store (ps_mark_failed (cf_plan_id cfg) f)) (fun _ => legal).
Proof. apply legal_store; [|done]. intros o a s [Hi _] Hr. by eapply pl_mark_failed. Qed.

Lemma plan_and_apply_legal n i rq why : keeps legal (plan_and_apply planner cfg n i rq why).
Proof.
  unfold plan_and_apply. apply keeps_bind; [apply aside_legal; asides|intros q].
  intros o r o' HP Hr. unfold mbind, py_bind at 1 in Hr. unfold call_planner in Hr at 1.
  destruct (planner _ q) as [patch|e] eqn:Ep; [|injection Hr as _ <-; exact HP].
  apply planner_constructs in Ep. revert Hr. apply keeps_bind; [apply aside_legal; asides|intros _|exact HP].
  apply keeps_bind; [apply aside_legal; asides|intros _].
  apply keeps_bind; [|intros ?; apply aside_legal; asides].
  intros o1 r1 o2 [Hi Hf] Hr1. unfold with_store in Hr1.
  destruct (ps_apply_patch _ _ _ _ (o_store o1)) as [r2 s2] eqn:Es. injection Hr1 as _ <-.
  split; simpl; [|done]. by eapply pl_patch.
Qed.

Lemma attempt_legal n i rq why : keeps legal (attempt (plan_and_apply planner cfg n i rq why)).
Proof.
  intros o r o' HP Hr. unfold attempt in Hr. destruct (plan_and_apply _ _ _ _ _ _ o) as [r1 o1] eqn:E.
  injection Hr as _ <-. by eapply plan_and_apply_legal.
Qed.

Ltac on_plan :=
  eapply hoare_bind; [apply keeps_hoare, attempt_legal|intros [[? ?]|?]]; peel_legal;
  [|eapply hoare_bind; [apply mark_failed_legal|intros ?]; peel_legal].

Lemma revise_legal why lf : hoare legal (revise planner repr str_exn cfg why lf) (fun _ => legal).
Proof. unfold revise. peel_legal. on_plan; apply legal_mret. Qed.

Lemma fail_run_legal message : hoare legal (fail_run message) (fun _ => legal).
Proof. apply aside_hoare. unfold fail_run. asides. Qed.

Lemma revise_or_fail_legal why lf : hoare legal (revise_or_fail planner repr str_exn cfg why lf) (fun _ => legal).
Proof.
  unfold revise_or_fail. eapply hoare_bind; [apply revise_legal|intros [m|]]; [|apply legal_mret].
  destruct (str_empty m); [apply legal_mret|apply fail_run_legal].
Qed.

Lemma prologue_legal : hoare legal (prologue planner repr str_exn cfg) (fun _ => legal).
Proof.
  unfold prologue. peel_legal. destruct (cf_force_replan cfg).
  - eapply hoare_bind; [apply revise_or_fail_legal|intros [|]]; apply aside_hoare; asides.
  - destruct (bool_decide _); [|apply aside_hoare; unfold resume_execution; asides].
    unfold initial_plan. peel_legal. on_plan; apply legal_mret.
Qed.

Lemma handle_failure_legal n step task f :
  hoare (legal_claim (tr_task_id task)) (handle_failure planner clock repr str_exn cfg n step task f) (fun _ => legal).
Proof.
  unfold handle_failure. peel_claim. eapply hoare_bind.
  { apply legal_store; [|by intros o [? _]]. intros o u s [[Hi _] Hc] Hr. by eapply pl_failure. }
  intros ?. peel_legal. destruct (_ || _); [|apply legal_mret]. peel_legal. apply revise_or_fail_legal.
Qed.

Lemma handle_result_legal n step task r :
  hoare (legal_claim (tr_task_id task)) (handle_result planner repr str_exn cfg n step task r) (fun _ => legal).
Proof.
  unfold handle_result. eapply hoare_bind.
  { apply legal_store; [|by intros o [? _]]. intros o u s [[Hi _] Hc] Hr. by eapply pl_result. }
  intros ?. peel_legal. destruct (bool_decide (ar_outcome r = _)); [destruct (bool_decide _); [|apply legal_mret]|];
    peel_legal; apply revise_or_fail_legal.
Qed.

Lemma pause_legal n step task payload :
  hoare (legal_claim (tr_task_id task)) (pause_for_confirmation clock cfg n step task payload) (fun _ => legal).
Proof.
  unfold pause_for_confirmation. peel_claim. eapply hoare_bind.
  { apply legal_store; [|by intros o [? _]]. intros o u s [[Hi _] Hc] Hr. by eapply pl_pause. }
  intros ?. peel_legal. apply legal_mret.
Qed.

(** The request built from the snapshot of a claimed task is well fed. *)
Lemma snapshot_claimed tid :
  hoare (legal_claim tid) (with_store (ps_snapshot (cf_plan_id cfg)))
    (fun snap o => legal_claim tid o /\
       forall task, tr_task_id task = tid -> well_fed (task_request (sp_tasks snap) task)).
Proof.
  intros o snap o' [[Hi Hf] Hc] Hr. unfold with_store in Hr.
  destruct (ps_snapshot (cf_plan_id cfg) (o_store o)) as [r s] eqn:Es. injection Hr as -> <-.
  assert (s = o_store o) as -> by (by eapply pl_snapshot).
  split; [by split; [split|]|]. intros task <- n Hn Hreq. by eapply (pl_claimed_needs _ _ _ _ _ Hi Hc Es).
Qed.

Lemma execute_claimed_legal task :
  hoare (legal_claim (tr_task_id task)) (execute_claimed planner executor clock repr str_exn cfg task) (fun _ => legal).
Proof.
  unfold execute_claimed. apply hoare_seq; [apply keeps_hoare, aside_claim; asides|intros n].
  eapply hoare_bind; [apply snapshot_claimed|intros snap].
  apply hoare_pure. intros Hfed. specialize (Hfed task eq_refl). peel_claim.
  apply (hoare_bind _ _ _ (fun _ => legal_claim (tr_task_id task))).
  { intros o x o' [[Hi Hf] Hc] Hr. unfold call_executor in Hr. injection Hr as _ <-.
    split; [split|]; simpl; [done| |done]. apply Forall_app. by split; [|constructor]. }
  intros [r|payload|code m rt dt|name m];
    [apply handle_result_legal|apply pause_legal|apply handle_failure_legal..].
Qed.

Lemma claim_legal t :
  hoare legal (with_store (ps_claim_ready t (cf_plan_id cfg)))
    (fun r o => match r with Some row => legal_claim (tr_task_id row) o | None => legal o end).
Proof.
  intros o r o' [Hi Hf] Hr. unfold with_store in Hr.
  destruct (ps_claim_ready t (cf_plan_id cfg) (o_store o)) as [r' s] eqn:Es. injection Hr as -> <-.
  destruct (pl_claim _ _ _ _ _ Hi Es) as [Hi' Hc]. destruct r as [row|]; [|by split].
  split; [by split|]. by apply Hc.
Qed.

Lemma replan_pending_legal pending :
  hoare legal (replan_pending planner repr str_exn cfg pending) (fun _ => legal).
Proof.
  unfold replan_pending. peel_legal. eapply hoare_bind; [apply revise_or_fail_legal|intros [|]]; [|apply legal_mret].
  peel_legal. destruct (_ && _); [|apply legal_mret].
  eapply hoare_bind; [apply mark_failed_legal|intros ?]. peel_legal. apply legal_mret.
Qed.

Lemma loop_body_legal : hoare legal (loop_body planner executor clock repr str_exn cfg) (fun _ => legal).
Proof.
  unfold loop_body. peel_legal. cbv zeta. destruct (terminal_plan _); [peel_legal; apply legal_mret|].
  peel_legal. eapply hoare_bind; [apply claim_legal|intros [row|]]; [apply execute_claimed_legal|].
  destruct (bool_decide _); [apply aside_hoare; unfold stall; asides|apply replan_pending_legal].
Qed.

Lemma loop_legal n : hoare legal (loop planner executor clock repr str_exn cfg n) (fun _ => legal).
Proof.
  induction n as [|n IH]; simpl; [apply aside_hoare; asides|].
  eapply hoare_bind; [apply loop_body_legal|intros [|]]; [exact IH|apply legal_mret].
Qed.

Lemma run_legal n : hoare legal (run planner executor clock repr str_exn cfg n) (fun _ => legal).
Proof.
  unfold run. eapply hoare_bind; [apply prologue_legal|intros [|]]; [apply loop_legal|apply legal_mret].
Qed.

Lemma start_legal s b : Inv s -> legal (start s b).
Proof. intros Hi. split; [done|constructor]. Qed.
End Store.
