(* ===== verification/OrchestratorSql.v ===== *)
(** * The orchestrator over the SQL store

    [SqlPlanStore] as a [PlanStore], its [PlanStoreLaws], and the properties of
    [GraphOrchestrator.run]: some for every store, the others for the SQL one. *)
From S2P Require Import Prelude Contracts TaskGraph Scheduler PlanMemory PlanMemoryProofs PlanSql PlanSqlProofs.
From S2P Require Import PlanSqlProperties Budgets Orchestrator OrchestratorProofs.

Section Instance.
Variable uuid4 : nat -> Z.

(** [updated.revision] *)
Definition apply_patch_revision (plan_id : Z) (patch : PlanPatch) (why : string) (inv : option string) : sql Z :=
  _ ← apply_patch_sql uuid4 plan_id patch why inv;
  d ← get_state;
  match find_plan plan_id d with Some p => mret (pr_revision p) | None => raise (KeyError "plan_id") end.

Definition sql_plan_store : PlanStore Db := {|
  ps_snapshot := snapshot;
  ps_claim_ready now plan_id := claim_ready_sql uuid4 now plan_id;
  ps_apply_patch := apply_patch_revision;
  ps_apply_result := apply_result_sql uuid4;
  ps_record_failure := record_failure_sql;
  ps_pause_task := pause_task_for_confirmation;
  ps_mark_failed := mark_failed_sql
|}.
#[local] Existing Instance sql_plan_store.

Hypothesis uuid4_unique : forall i j, uuid4 i = uuid4 j -> i = j.

(** A task that is running with its required needs resolved. *)
Definition sql_claimed (pid : Z) (tid : string) (d : Db) : Prop :=
  exists row, find_task pid tid d = Some row /\ tr_status row = RUNNING /\ needs_resolved pid d tid.

(** Statements that change neither the keys of the tasks nor the needs. *)
Definition same_needs (d d' : Db) : Prop :=
  db_needs d' = db_needs d /\
  Forall2 (fun t t' => tr_id t' = tr_id t /\ tr_plan_id t' = tr_plan_id t /\ tr_task_id t' = tr_task_id t)
    (db_tasks d) (db_tasks d').

#[local] Instance same_needs_preorder : PreOrder same_needs.
Proof.
  split.
  - intros d. split; [done|]. by apply Forall_Forall2_diag, Forall_forall.
  - intros d1 d2 d3 [H1 H2] [H3 H4]. split; [congruence|].
    clear H1 H3. revert H4. generalize (db_tasks d3).
    induction H2 as [|a b l1 l2 (E1 & E2 & E3) _ IH]; intros l3 H4; inversion H4 as [|? c ? ? (F1 & F2 & F3)]; subst;
      constructor; [split_and!; congruence|by apply IH].
Qed.

Lemma same_needs_rows pid l l' :
  Forall2 (fun t t' => tr_id t' = tr_id t /\ tr_plan_id t' = tr_plan_id t /\ tr_task_id t' = tr_task_id t) l l' ->
  let rows k := filter (fun t => tr_plan_id t = pid) k in
  map tr_id (rows l') = map tr_id (rows l) /\
  forall x n, owns (rows l') x n = owns (rows l) x n.
Proof.
  intros H rows. unfold rows, owns. induction H as [|t t' l l' (E1 & E2 & E3) _ [IH1 IH2]]; [done|].
  rewrite !filter_cons, E2. case_decide; simpl; [|done]. rewrite E1, IH1. split; [done|]. intros x n.
  destruct (bool_decide (tr_id t = nr_task_row_id n)); [by rewrite E3|apply IH2].
Qed.

Lemma same_needs_resolved d d' pid x : same_needs d d' -> needs_resolved pid d x -> needs_resolved pid d' x.
Proof.
  intros [Hn Ht] H n Hin Ho Hreq. destruct (same_needs_rows pid _ _ Ht) as [Hids Howns].
  apply H; [|by unfold plan_tasks in *; rewrite <- Howns|done].
  unfold plan_needs, plan_tasks in *. by rewrite Hn, Hids in Hin.
Qed.

Lemma claim_candidate_needs now pid x d o d' :
  claim_candidate uuid4 now pid x d = (Ok o, d') -> same_needs d d'.
Proof.
  unfold claim_candidate. intros H. apply bind_Ok in H as (d0 & d1 & H0 & H). unfold get_state in H0.
  injection H0 as <- <-. destruct (find_task pid x d) as [t|]; [|unfold mret, py_ret in H; by simplify_eq].
  destruct (bool_decide _); [unfold mret, py_ret in H; by simplify_eq|].
  apply bind_Ok in H as (u & d1 & H1 & H). apply bind_Ok in H as (i & d2 & H2 & H).
  apply bind_Ok in H as (v & d3 & H3 & H). unfold mret, py_ret in H. injection H as _ <-.
  unfold update_task_row, modify in H1. injection H1 as _ <-. unfold new_uuid in H2. injection H2 as _ <-.
  unfold insert_attempt, mbind, py_bind, get_state in H3. simpl in H3.
  destruct (existsb _ _); [done|]. unfold put_state in H3. injection H3 as _ <-. split; [done|]. simpl.
  apply Forall2_fmap_r, Forall_Forall2_diag, Forall_forall. intros t' _. unfold compose. by destruct (decide (tr_id t' = tr_id t)).
Qed.

Lemma claim_all_needs now pid chosen d l d' : claim_all uuid4 now pid chosen d = (Ok l, d') -> same_needs d d'.
Proof.
  revert d l. induction chosen as [|[o x] chosen IH]; intros d l H; simpl in H.
  - unfold mret, py_ret in H. by simplify_eq.
  - apply bind_Ok in H as (t & d1 & H1 & H). apply bind_Ok in H as (l' & d2 & H2 & H).
    unfold mret, py_ret in H. injection H as _ <-.
    transitivity d1; [by eapply claim_candidate_needs|by eapply IH].
Qed.

Lemma claim_ready_law now pid d r d' :
  db_sound uuid4 d -> claim_ready_sql uuid4 now pid d = (Ok r, d') ->
  db_sound uuid4 d' /\ forall row, r = Some row -> sql_claimed pid (tr_task_id row) d'.
Proof.
  intros Hs H. unfold claim_ready_sql in H. apply bind_Ok in H as (l & d1 & H & Hr).
  unfold mret, py_ret in Hr. injection Hr as <- <-. split.
  - apply (sql_step_moves uuid4 uuid4_unique d d1); [|done].
    apply (sql_returns uuid4 d d1 (SqlClaim now pid 1)); [done|]. simpl.
    by rewrite (bind_run_Ok (claim_ready_batch_sql uuid4 now pid 1) _ _ _ _ H).
  - intros row Hrow. assert (Hin : row ∈ l) by (destruct l; simplify_eq/=; by left).
    destruct (sql_claim_shape uuid4 now pid 1 d l d1 (proj1 Hs) H) as (Hk & Hrows & _).
    destruct (Hrows row Hin) as (t & Ht & -> & Hf & _). exists (claim_row t). split_and!; [done|done|].
    assert (Hc : row_key (claim_row t) ∈ chosen_for pid 1 d)
      by (rewrite <- Hk; apply list_elem_of_fmap; by exists (claim_row t)).
    destruct (chosen_claimable uuid4 _ _ _ _ (proj1 Hs) Hc) as (t' & Ht' & (_ & _ & Hn) & _).
    simpl in Ht', Ht. rewrite Ht in Ht'. injection Ht' as <-.
    unfold claim_ready_batch_sql in H. apply bind_Ok in H as (s & d2 & H1 & H).
    apply snapshot_inv in H1 as (-> & p & _ & ->). eapply same_needs_resolved; [by eapply claim_all_needs|exact Hn].
Qed.

Lemma running_ok d pid tid : sql_claimed pid tid d ->
  forall row, find_task pid tid d = Some row -> tr_status row = RUNNING.
Proof. intros (row & Hf & Hst & _) row' Hf'. congruence. Qed.

Lemma step_law op d d' :
  db_sound uuid4 d -> sql_op_ok op d -> run_sql uuid4 op d = (Ok tt, d') -> db_sound uuid4 d'.
Proof.
  intros Hs Hok Hr. apply (sql_step_moves uuid4 uuid4_unique d d'); [|done]. by eapply sql_returns.
Qed.

#[export] Instance sql_plan_store_laws : PlanStoreLaws Db (db_sound uuid4) sql_claimed.
Proof.
  split; simpl.
  - intros pid s r s' Hr. unfold snapshot, mbind, py_bind, get_state in Hr. simpl in Hr.
    destruct (find_plan pid s); unfold mret, py_ret, raise in Hr; by simplify_eq.
  - intros now pid s r s' Hs Hr. by eapply claim_ready_law.
  - intros pid patch why inv s r s' Hmk Hs Hr. unfold apply_patch_revision in Hr.
    unfold mbind, py_bind at 1 in Hr. destruct (apply_patch_sql uuid4 pid patch why inv s) as [[[]|e] s1] eqn:Ep.
    + assert (s' = s1) as ->.
      { unfold mbind, py_bind, get_state in Hr. simpl in Hr.
        destruct (find_plan pid s1); unfold mret, py_ret, raise in Hr; by simplify_eq. }
      by apply (step_law (SqlPatch pid patch why inv) s).
    + injection Hr as _ <-. by rewrite (apply_patch_sql_Err _ _ _ _ _ _ _ _ Ep).
  - intros pid tid r s [] s' Hs Hr. by apply (step_law (SqlResult pid tid r) s).
  - intros now pid tid f retry mx s [] s' Hs Hc Hr.
    apply (step_law (SqlFailure now pid tid f retry mx) s); [done|exact (running_ok _ _ _ Hc)|done].
  - intros now pid tid c s [] s' Hs Hc Hr.
    apply (step_law (SqlPause now pid tid c) s); [done|exact (running_ok _ _ _ Hc)|done].
  - intros pid f s [] s' Hs Hr. by apply (step_law (SqlMarkFailed pid f) s).
  - intros pid tid s snap s' Hs (row & Hf & _ & Hn) Hr. apply snapshot_inv in Hr as (-> & p & _ & ->). simpl.
    rewrite (snapshot_get uuid4 _ _ _ _ (proj1 Hs) Hf). simpl. intros nd (n & -> & Hin)%list_elem_of_fmap Hreq.
    apply elem_of_List_filter in Hin as [Hin Ho]. simpl. f_equal. by apply Hn.
Qed.
End Instance.

(** ** Properties of every run *)

Section Any.
Context {St : Type} `{PlanStore St}.
Variable planner : nat -> PlanRequest -> result exn PlanPatch.
Variable executor : nat -> TaskRequest -> exec_outcome.
Variable clock : nat -> Z.
Variable repr : json -> string.
Variable str_exn : exn -> string.

(** C33: with an event sink, a run that returns has emitted exactly one
    terminal event, yielded last; and read in order over both channels the
    planner iterations are properly bracketed: no iteration starts while
    another is open, none ends twice, and none is left open. *)
Theorem run_trace_well_formed cfg n s b o :
  cf_event_sink cfg = true -> run planner executor clock repr str_exn cfg n (start s b) = (Ok tt, o) ->
  scan (o_trace o) = Some false /\
  exists tr e, o_trace o = tr ++ [(Yielded, e)] /\ terminal_event e = true /\
    Forall (fun ce => terminal_event ce.2 = false) tr.
Proof. intros Hsink Hr. by apply (run_spec planner executor clock repr str_exn cfg Hsink n (start s b) tt o (start_at s b)). Qed.

(** A run of at most [n] steps asks the executor at most [n] times and
    the planner at most [n + 1] times, whatever they answer and whether the
    run returns or raises. *)
Theorem run_calls_bounded cfg n s b r o :
  run planner executor clock repr str_exn cfg n (start s b) = (r, o) ->
  length (o_task_requests o) <= n /\ length (o_plan_requests o) <= S n.
Proof.
  intros Hr. destruct (calls_run planner executor clock repr str_exn cfg n _ _ _ Hr) as [H1 H2].
  simpl in H1, H2. lia.
Qed.
End Any.

(** ** Properties of runs over the SQL store *)

Section Sql.
Variable uuid4 : nat -> Z.
Hypothesis uuid4_unique : forall i j, uuid4 i = uuid4 j -> i = j.
#[local] Existing Instance sql_plan_store.
Variable planner : nat -> PlanRequest -> result exn PlanPatch.
Variable executor : nat -> TaskRequest -> exec_outcome.
Variable clock : nat -> Z.
Variable repr : json -> string.
Variable str_exn : exn -> string.

(** C3: whatever the planner and the executor answer, as long as the patches
    were constructed, a run over a sound database leaves it sound, so the
    orchestrator only records failures and pauses of tasks it has running;
    and every task the executor was given had all its required needs
    resolved. *)
Theorem sql_run_sound cfg n d b o :
  (forall i rq patch, planner i rq = Ok patch -> make_patch patch = Ok patch) ->
  db_sound uuid4 d ->
  run (H := sql_plan_store uuid4) planner executor clock repr str_exn cfg n (start d b) = (Ok tt, o) ->
  db_sound uuid4 (o_store o) /\
  forall rq, rq ∈ o_task_requests o ->
    forall need, need ∈ tq_needs rq -> nd_required need = true -> nd_status need = Some ReqRESOLVED.
Proof.
  intros Hp Hd Hr.
  pose proof (sql_plan_store_laws uuid4 uuid4_unique) as Hlaws.
  destruct (run_legal (H := sql_plan_store uuid4) (db_sound uuid4) sql_claimed planner executor clock repr str_exn cfg
              Hp n (start d b) tt o (start_legal _ _ _ Hd) Hr) as [Hi Hf].
  split; [done|]. intros rq Hin. exact (proj1 (Forall_forall _ _) Hf rq Hin).
Qed.
End Sql.

(** ** Pure decisions *)

(** The replan check accepts exactly the plans in which every pending need
    has a non-empty key, its task is in the plan, and one of that task's
    dependencies is in the plan and promises an output of that key. *)
Theorem has_declared_resolvers_spec tasks pending :
  _has_declared_resolvers tasks pending = true <->
  forall tid need, (tid, need) ∈ pending ->
    nd_key need ≠ ""%string /\
    exists task producer_id producer, od_get tid tasks = Some task /\ producer_id ∈ sn_depends_on task /\
      od_get producer_id tasks = Some producer /\
      exists output, output ∈ td_expected_outputs producer /\ os_key output = nd_key need.
Proof.
  unfold _has_declared_resolvers. rewrite forallb_elem. split.
  - intros Hf tid need Hin. specialize (Hf _ Hin). simpl in Hf.
    destruct (od_get tid tasks) as [task|]; [|done]. apply andb_true_iff in Hf as [Hk He].
    apply negb_true_iff in Hk. split; [intros Heq; by rewrite Heq in Hk|].
    apply existsb_elem in He as (pid & Hpid & Hp). destruct (od_get pid tasks) as [producer|] eqn:Ep; [|done].
    apply existsb_elem in Hp as (o & Ho & Hkey). apply bool_decide_eq_true in Hkey. eauto 10.
  - intros Hf [tid need] Hin. destruct (Hf tid need Hin) as (Hk & task & pid & producer & Ht & Hpid & Hp & o & Ho & Hkey).
    simpl. rewrite Ht. apply andb_true_iff. split.
    + apply negb_true_iff. unfold str_empty. by apply String.eqb_neq.
    + apply existsb_elem. exists pid. split; [done|]. rewrite Hp. apply existsb_elem. exists o.
      split; [done|]. by apply bool_decide_eq_true.
Qed.

Lemma dedupe_keys repr seen l :
  NoDup (map (artifact_key repr) (dedupe repr seen l)) /\
  (forall item, item ∈ dedupe repr seen l ->
     item ∈ l /\ artifact_key repr item ≠ ""%string /\ artifact_key repr item ∉ seen) /\
  (forall item, item ∈ l -> artifact_key repr item ≠ ""%string -> artifact_key repr item ∉ seen ->
     artifact_key repr item ∈ map (artifact_key repr) (dedupe repr seen l)).
Proof.
  revert seen. induction l as [|a l IH]; intros seen; simpl; [split_and!; [constructor|set_solver|set_solver]|].
  assert (Hempty : str_empty (artifact_key repr a) = true <-> artifact_key repr a = ""%string) by apply String.eqb_eq.
  destruct (str_empty (artifact_key repr a)) eqn:E1; simpl.
  { destruct (IH seen) as (H1 & H2 & H3). pose proof (proj1 Hempty eq_refl) as Ha. split_and!; [done| |].
    - intros item Hi. destruct (H2 item Hi) as (? & ? & ?). split_and!; [by right|done|done].
    - intros item [->|Hi]%elem_of_cons Hne Hs; [done|auto]. }
  case_bool_decide as E2.
  { destruct (IH seen) as (H1 & H2 & H3). split_and!; [done| |].
    - intros item Hi. destruct (H2 item Hi) as (? & ? & ?). split_and!; [by right|done|done].
    - intros item [->|Hi]%elem_of_cons Hne Hs; [done|auto]. }
  destruct (IH (artifact_key repr a :: seen)) as (H1 & H2 & H3). simpl. split_and!.
  - apply NoDup_cons. split; [|done]. intros (item & Heq & Hi)%list_elem_of_fmap.
    destruct (H2 item Hi) as (_ & _ & Hn). apply Hn. rewrite Heq. by left.
  - intros item [->|Hi]%elem_of_cons.
    + split_and!; [by left|intros Heq; apply Hempty in Heq; congruence|done].
    + destruct (H2 item Hi) as (? & ? & Hn). split_and!; [by right|done|]. intros Hs. apply Hn. by right.
  - intros item [->|Hi]%elem_of_cons Hne Hs; [by left|].
    destruct (decide (artifact_key repr item = artifact_key repr a)) as [->|Hd]; [by left|right].
    apply H3; [done|done|]. intros [?|?]%elem_of_cons; done.
Qed.

(** The artifacts offered to the planner have non-empty, pairwise distinct
    identifiers, and no identifier of an offered or produced artifact is lost. *)
Theorem available_artifacts_distinct repr tasks input produced artifacts :
  collect_artifacts tasks = Ok produced -> _available_artifacts repr tasks input = Ok artifacts ->
  NoDup (map (artifact_key repr) artifacts) /\
  (forall item, item ∈ artifacts -> artifact_key repr item ≠ ""%string) /\
  (forall item, item ∈ omap (input_artifact repr) input ++ produced -> artifact_key repr item ≠ ""%string ->
     artifact_key repr item ∈ map (artifact_key repr) artifacts).
Proof.
  intros Hc Ha. unfold _available_artifacts in Ha. rewrite Hc in Ha. injection Ha as <-.
  destruct (dedupe_keys repr [] (omap (input_artifact repr) input ++ produced)) as (H1 & H2 & H3).
  split_and!; [done|intros item Hi; by apply H2|intros item Hi Hne; by apply H3; [| |set_solver]].
Qed.

Definition ox_artifact (id : string) : json := JObj [("artifact_id", JStr id)]%string.

Lemma available_artifacts_distinct_witness :
  exists artifacts, _available_artifacts (fun _ => "?"%string) [] [ox_artifact "x"; ox_artifact "x"; ox_artifact "y"]
    = Ok artifacts /\ length artifacts = 2 /\ NoDup (map (artifact_key (fun _ => "?"%string)) artifacts).
Proof.
  eexists. split; [vm_compute; reflexivity|]. split; [reflexivity|].
  apply (available_artifacts_distinct (fun _ => "?"%string) [] [ox_artifact "x"; ox_artifact "x"; ox_artifact "y"] []);
    vm_compute; reflexivity.
Defined.

(** ** A concrete run *)

Definition ox_planner (n : nat) (rq : PlanRequest) : result exn PlanPatch := Ok sx_first.
Definition ox_executor (n : nat) (rq : TaskRequest) : exec_outcome := ExecResult sx_done.
Definition ox_clock (n : nat) : Z := Z.of_nat n.
Definition ox_repr (j : json) : string := "?".
Definition ox_str (e : exn) : string := exn_name e.
Definition ox_config : Config := mkConfig 0 7 "goal" 3 60 true true (Some 2%Z) None false None [].

(** The state a run of at most [n] steps ends in. *)
Definition ox_final (n : nat) : Orch Db :=
  (run (H := sql_plan_store ex_uuid) ox_planner ox_executor ox_clock ox_repr ox_str ox_config n
    (start sx_created Service.empty_budget)).2.

Lemma ox_run_eq :
  run (H := sql_plan_store ex_uuid) ox_planner ox_executor ox_clock ox_repr ox_str ox_config 10
    (start sx_created Service.empty_budget) = (Ok tt, ox_final 10).
Proof. vm_compute. reflexivity. Qed.

Lemma run_trace_well_formed_witness :
  scan (o_trace (ox_final 10)) = Some false /\ length (o_task_requests (ox_final 10)) = 2.
Proof.
  split; [|vm_compute; reflexivity].
  refine (proj1 (run_trace_well_formed (H := sql_plan_store ex_uuid) ox_planner ox_executor ox_clock ox_repr ox_str
                  ox_config 10 sx_created Service.empty_budget (ox_final 10) _ ox_run_eq)).
  reflexivity.
Defined.

Lemma run_calls_bounded_witness :
  length (o_task_requests (ox_final 10)) <= 10 /\ length (o_plan_requests (ox_final 10)) <= 11.
Proof.
  exact (run_calls_bounded (H := sql_plan_store ex_uuid) ox_planner ox_executor ox_clock ox_repr ox_str
           ox_config 10 sx_created Service.empty_budget (Ok tt) (ox_final 10) ox_run_eq).
Defined.

Lemma ox_planner_constructs i rq patch : ox_planner i rq = Ok patch -> make_patch patch = Ok patch.
Proof. intros H. injection H as <-. vm_compute. reflexivity. Qed.

Lemma sx_created_sound : db_sound ex_uuid sx_created.
Proof. apply (sql_reachable_sound ex_uuid ex_uuid_unique), rtc_once. sql_run (SqlCreate "goal" 7 1 None). Qed.

Lemma sql_run_sound_witness : db_sound ex_uuid (o_store (ox_final 10)).
Proof.
  exact (proj1 (sql_run_sound ex_uuid ex_uuid_unique ox_planner ox_executor ox_clock ox_repr ox_str
           ox_config 10 sx_created Service.empty_budget (ox_final 10) ox_planner_constructs sx_created_sound ox_run_eq)).
Defined.
