(* ===== verification/ChatTurn.v ===== *)
(** * Chat turns: the phases of a running turn and the persisted turn rows

    services/chat_turn_state.py (the phase tracker), models/chat_turn.py and
    services/chat_turn_service.py (the table [chat_turns]), with the small
    helpers of services/runtime_terminal_status.py,
    services/runtime_hitl_protocol_service.py and
    services/runtime_resume_checkpoint_service.py that decide how a paused turn
    may be resumed.

    The session's transaction is explicit: [ch_db] is what the session sees,
    [ch_durable] what has been committed; [commit] copies one to the other and
    [close_session] forgets what was only flushed.  Frames the generator yields
    are appended to [ch_out]. *)
From S2P Require Import Prelude.
Open Scope Z_scope.

(** ** The phase tracker *)
Inductive TurnPhase : Type :=
| PH_INIT | PH_USER_PERSISTED | PH_CONTEXT_LOADED | PH_TRIAGE_COMPLETE | PH_EXECUTION_STARTED
| PH_DELTA_STREAMING | PH_PAUSED | PH_FINAL_PERSISTED | PH_COMPLETED | PH_ERROR.

#[export] Instance TurnPhase_eq_dec : EqDecision TurnPhase.
Proof. solve_decision. Defined.

Definition VALID_TRANSITIONS (p : TurnPhase) : list TurnPhase :=
  match p with
  | PH_INIT => [PH_USER_PERSISTED; PH_ERROR]
  | PH_USER_PERSISTED => [PH_CONTEXT_LOADED; PH_ERROR]
  | PH_CONTEXT_LOADED => [PH_TRIAGE_COMPLETE; PH_EXECUTION_STARTED; PH_ERROR]
  | PH_TRIAGE_COMPLETE => [PH_EXECUTION_STARTED; PH_ERROR]
  | PH_EXECUTION_STARTED => [PH_DELTA_STREAMING; PH_PAUSED; PH_FINAL_PERSISTED; PH_ERROR]
  | PH_DELTA_STREAMING => [PH_DELTA_STREAMING; PH_PAUSED; PH_FINAL_PERSISTED; PH_ERROR]
  | PH_PAUSED => [PH_COMPLETED; PH_ERROR]
  | PH_FINAL_PERSISTED => [PH_COMPLETED; PH_ERROR]
  | PH_COMPLETED | PH_ERROR => []
  end.

(** [ChatTurnState]: the phase, and the transitions logged as invalid. *)
Record ChatTurnState := {
  cts_phase : TurnPhase;
  cts_warnings : list (TurnPhase * TurnPhase)
}.

Definition initial_turn_state : ChatTurnState := {| cts_phase := PH_INIT; cts_warnings := [] |}.

Definition is_terminal (t : ChatTurnState) : bool :=
  bool_decide (cts_phase t ∈ [PH_COMPLETED; PH_ERROR]).

(** An invalid move is made all the same, with a warning. *)
Definition transition (to : TurnPhase) (t : ChatTurnState) : bool * ChatTurnState :=
  if bool_decide (to ∈ VALID_TRANSITIONS (cts_phase t)) then
    (true, {| cts_phase := to; cts_warnings := cts_warnings t |})
  else (false, {| cts_phase := to; cts_warnings := cts_warnings t ++ [(cts_phase t, to)] |}).

Definition force_error (t : ChatTurnState) : ChatTurnState :=
  {| cts_phase := PH_ERROR; cts_warnings := cts_warnings t |}.

(** ** The table chat_turns *)
Inductive TurnStatus : Type :=
| TURN_STARTED | TURN_PAUSED | TURN_RESUMED | TURN_CANCELLED | TURN_COMPLETED | TURN_FAILED.

#[export] Instance TurnStatus_eq_dec : EqDecision TurnStatus.
Proof. solve_decision. Defined.

(** The four columns that describe a pause, written together; [JNull] is None. *)
Record PauseInfo := {
  pi_status : option string;
  pi_action : json;
  pi_context : json;
  pi_at : option Z
}.

Definition no_pause : PauseInfo := {| pi_status := None; pi_action := JNull; pi_context := JNull; pi_at := None |}.

Record ChatTurn := {
  tn_id : Z;
  tn_chat_id : Z;
  tn_user_id : Z;
  tn_runtime_run_id : option Z;
  tn_user_message_id : option Z;
  tn_assistant_message_id : option Z;
  tn_idempotency_key : option string;
  tn_request_hash : option string;
  tn_status : TurnStatus;
  tn_pause : PauseInfo;
  tn_error_message : option string;
  tn_started_at : Z;
  tn_completed_at : option Z
}.

Record ChatMessage := {
  cm_id : Z;
  cm_chat_id : Z;
  cm_role : string;
  cm_text : string;
  cm_meta : odict json;
  cm_created_at : Z
}.

Record ChatDb := { cd_turns : list ChatTurn; cd_messages : list ChatMessage }.

(** [set_status], [set_pause], ...: one attribute assignment each. *)
Definition set_status (st : TurnStatus) (t : ChatTurn) : ChatTurn :=
  {| tn_id := tn_id t; tn_chat_id := tn_chat_id t; tn_user_id := tn_user_id t;
     tn_runtime_run_id := tn_runtime_run_id t; tn_user_message_id := tn_user_message_id t;
     tn_assistant_message_id := tn_assistant_message_id t; tn_idempotency_key := tn_idempotency_key t;
     tn_request_hash := tn_request_hash t; tn_status := st; tn_pause := tn_pause t;
     tn_error_message := tn_error_message t; tn_started_at := tn_started_at t;
     tn_completed_at := tn_completed_at t |}.

Definition set_pause (p : PauseInfo) (t : ChatTurn) : ChatTurn :=
  {| tn_id := tn_id t; tn_chat_id := tn_chat_id t; tn_user_id := tn_user_id t;
     tn_runtime_run_id := tn_runtime_run_id t; tn_user_message_id := tn_user_message_id t;
     tn_assistant_message_id := tn_assistant_message_id t; tn_idempotency_key := tn_idempotency_key t;
     tn_request_hash := tn_request_hash t; tn_status := tn_status t; tn_pause := p;
     tn_error_message := tn_error_message t; tn_started_at := tn_started_at t;
     tn_completed_at := tn_completed_at t |}.

Definition set_run (r : option Z) (t : ChatTurn) : ChatTurn :=
  {| tn_id := tn_id t; tn_chat_id := tn_chat_id t; tn_user_id := tn_user_id t;
     tn_runtime_run_id := r; tn_user_message_id := tn_user_message_id t;
     tn_assistant_message_id := tn_assistant_message_id t; tn_idempotency_key := tn_idempotency_key t;
     tn_request_hash := tn_request_hash t; tn_status := tn_status t; tn_pause := tn_pause t;
     tn_error_message := tn_error_message t; tn_started_at := tn_started_at t;
     tn_completed_at := tn_completed_at t |}.

Definition set_messages (user assistant : option Z) (t : ChatTurn) : ChatTurn :=
  {| tn_id := tn_id t; tn_chat_id := tn_chat_id t; tn_user_id := tn_user_id t;
     tn_runtime_run_id := tn_runtime_run_id t; tn_user_message_id := user;
     tn_assistant_message_id := assistant; tn_idempotency_key := tn_idempotency_key t;
     tn_request_hash := tn_request_hash t; tn_status := tn_status t; tn_pause := tn_pause t;
     tn_error_message := tn_error_message t; tn_started_at := tn_started_at t;
     tn_completed_at := tn_completed_at t |}.

Definition set_end (error : option string) (at_ : option Z) (t : ChatTurn) : ChatTurn :=
  {| tn_id := tn_id t; tn_chat_id := tn_chat_id t; tn_user_id := tn_user_id t;
     tn_runtime_run_id := tn_runtime_run_id t; tn_user_message_id := tn_user_message_id t;
     tn_assistant_message_id := tn_assistant_message_id t; tn_idempotency_key := tn_idempotency_key t;
     tn_request_hash := tn_request_hash t; tn_status := tn_status t; tn_pause := tn_pause t;
     tn_error_message := error; tn_started_at := tn_started_at t; tn_completed_at := at_ |}.

(** ** Events of the runtime, frames of the transport, and the state of a request

    [RouterEvent] is what [_run_with_router] yields, by its "type": a text delta, the
    final content, a pause, an error, and anything else (progress), which is
    passed through. *)
Inductive RouterEvent : Type :=
| EvDelta (content : string)
| EvFinalContent (content : string) (sources attachments : json) (stop_reason : option string)
| EvRunPaused (run_id reason : option string) (action context : json)
| EvError (code error : option string)
| EvOther (stage : string) (payload : json).

Inductive Frame : Type :=
| FrStatus (stage : string)
| FrUserMessage (message_id : Z) (created_at : Z)
| FrChatTitle (title : string)
| FrRouter (ev : RouterEvent)
| FrError (error : string) (code : option string)
| FrFinal (message_id : Z) (created_at : Z) (sources attachments : json)
| FrStop (reason : string) (question message run_id : option string) (action context : json)
| FrCached (user_message_id assistant_message_id : Z).

(** Exceptions the modelled code lets through to [send_message_stream]. *)
Inductive ChatExc : Type :=
| ChatValueError
| ChatServiceError (message : string).

Record ChatState := {
  ch_db : ChatDb;
  ch_durable : ChatDb;
  ch_cache : odict (Z * Z);
  ch_out : list Frame;
  ch_clock : nat;
  ch_uuids : nat
}.

Abbreviation chat A := (py ChatExc ChatState A).

Definition with_chat_db (d : ChatDb) (w : ChatState) : ChatState :=
  {| ch_db := d; ch_durable := ch_durable w; ch_cache := ch_cache w; ch_out := ch_out w;
     ch_clock := ch_clock w; ch_uuids := ch_uuids w |}.

Definition with_turns (ts : list ChatTurn) (w : ChatState) : ChatState :=
  with_chat_db {| cd_turns := ts; cd_messages := cd_messages (ch_db w) |} w.

(** [yield f] *)
Definition yield_frame (f : Frame) : chat unit := modify (fun w =>
  {| ch_db := ch_db w; ch_durable := ch_durable w; ch_cache := ch_cache w; ch_out := ch_out w ++ [f];
     ch_clock := ch_clock w; ch_uuids := ch_uuids w |}).

(** [session.commit()] *)
Definition commit : chat unit := modify (fun w =>
  {| ch_db := ch_db w; ch_durable := ch_db w; ch_cache := ch_cache w; ch_out := ch_out w;
     ch_clock := ch_clock w; ch_uuids := ch_uuids w |}).

(** [session.close()] of the request's session: what was not committed is gone. *)
Definition close_session (w : ChatState) : ChatState := with_chat_db (ch_durable w) w.

(** The Redis cache of [IdempotencyManager]. *)
Definition cache_result (key : string) (ids : Z * Z) : chat unit := modify (fun w =>
  {| ch_db := ch_db w; ch_durable := ch_durable w; ch_cache := od_set key ids (ch_cache w);
     ch_out := ch_out w; ch_clock := ch_clock w; ch_uuids := ch_uuids w |}).

Definition get_cached_result (key : string) : chat (option (Z * Z)) :=
  w ← get_state; mret (od_get key (ch_cache w)).

(** ** ChatTurnService

    [uuid4] and [clock] give the identifiers and the times the database state
    counts through; [UUID] is the parser [uuid.UUID], [None] where it raises
    ValueError; [sha256] is the hash. *)
Section TurnService.
Variables (uuid4 clock : nat -> Z) (UUID : string -> option Z) (sha256 : string -> string).

Definition new_uuid : chat Z := fun w =>
  (Ok (uuid4 (ch_uuids w)),
   {| ch_db := ch_db w; ch_durable := ch_durable w; ch_cache := ch_cache w; ch_out := ch_out w;
      ch_clock := ch_clock w; ch_uuids := S (ch_uuids w) |}).

Definition now : chat Z := fun w =>
  (Ok (clock (ch_clock w)),
   {| ch_db := ch_db w; ch_durable := ch_durable w; ch_cache := ch_cache w; ch_out := ch_out w;
      ch_clock := S (ch_clock w); ch_uuids := ch_uuids w |}).

Definition parse_uuid (s : string) : chat Z :=
  match UUID s with
  | Some u => mret u
  | None => raise ChatValueError
  end.

Definition build_request_hash (content : string) : string := sha256 content.

Definition start_turn (chat_id user_id : Z) (idempotency_key request_hash : option string)
    (runtime_run_id : option Z) : chat ChatTurn :=
  id ← new_uuid;
  at_ ← now;
  let turn := {| tn_id := id; tn_chat_id := chat_id; tn_user_id := user_id;
                 tn_runtime_run_id := runtime_run_id; tn_user_message_id := None;
                 tn_assistant_message_id := None; tn_idempotency_key := idempotency_key;
                 tn_request_hash := request_hash; tn_status := TURN_STARTED; tn_pause := no_pause;
                 tn_error_message := None; tn_started_at := at_; tn_completed_at := None |} in
  _ ← modify (fun w => with_turns (cd_turns (ch_db w) ++ [turn]) w);
  mret turn.

Definition get_by_id (turn_id : Z) : chat (option ChatTurn) :=
  w ← get_state; mret (List.find (fun t => Z.eqb (tn_id t) turn_id) (cd_turns (ch_db w))).

(** The shape of every method that changes a turn: read the row, return [None]
    when there is none, assign its attributes, flush. *)
Definition assign_turn (turn_id : Z) (f : ChatTurn -> ChatTurn) : chat unit :=
  modify (fun w => with_turns (map (fun t => if Z.eqb (tn_id t) turn_id then f t else t)
                                   (cd_turns (ch_db w))) w).

Definition attach_user_message (turn_id message_id : Z) : chat (option ChatTurn) :=
  turn ← get_by_id turn_id;
  match turn with
  | None => mret None
  | Some t =>
      _ ← assign_turn turn_id (fun t => set_messages (Some message_id) (tn_assistant_message_id t) t);
      get_by_id turn_id
  end.

Definition attach_assistant_message (turn_id message_id : Z) : chat (option ChatTurn) :=
  turn ← get_by_id turn_id;
  match turn with
  | None => mret None
  | Some t =>
      _ ← assign_turn turn_id (fun t => set_messages (tn_user_message_id t) (Some message_id) t);
      get_by_id turn_id
  end.

Definition pause_turn (turn_id : Z) (pause_status : string) (runtime_run_id : option string)
    (paused_action paused_context : json) : chat (option ChatTurn) :=
  turn ← get_by_id turn_id;
  match turn with
  | None => mret None
  | Some _ =>
      _ ← (if str_empty (or_str runtime_run_id "") then mret tt
           else u ← parse_uuid (or_str runtime_run_id ""); assign_turn turn_id (set_run (Some u)));
      at_ ← now;
      _ ← assign_turn turn_id (fun t =>
            set_pause {| pi_status := Some pause_status; pi_action := paused_action;
                         pi_context := paused_context; pi_at := Some at_ |}
              (set_status TURN_PAUSED t));
      get_by_id turn_id
  end.

Definition resume_turn (turn_id : Z) : chat (option ChatTurn) :=
  turn ← get_by_id turn_id;
  match turn with
  | None => mret None
  | Some _ =>
      _ ← assign_turn turn_id (fun t => set_pause no_pause (set_status TURN_RESUMED t));
      get_by_id turn_id
  end.

Definition cancel_turn (turn_id : Z) (error_message : string) : chat (option ChatTurn) :=
  turn ← get_by_id turn_id;
  match turn with
  | None => mret None
  | Some _ =>
      at_ ← now;
      _ ← assign_turn turn_id (fun t => set_end (Some error_message) (Some at_) (set_status TURN_CANCELLED t));
      get_by_id turn_id
  end.

Definition complete_turn (turn_id : Z) (assistant_message_id : option Z) : chat (option ChatTurn) :=
  turn ← get_by_id turn_id;
  match turn with
  | None => mret None
  | Some _ =>
      at_ ← now;
      _ ← assign_turn turn_id (fun t =>
            set_end (tn_error_message t) (Some at_) (set_pause no_pause (set_status TURN_COMPLETED
              (match assistant_message_id with
               | Some m => set_messages (tn_user_message_id t) (Some m) t
               | None => t
               end))));
      get_by_id turn_id
  end.

Definition fail_turn (turn_id : Z) (error_message : string) : chat (option ChatTurn) :=
  turn ← get_by_id turn_id;
  match turn with
  | None => mret None
  | Some _ =>
      at_ ← now;
      _ ← assign_turn turn_id (fun t =>
            set_end (Some error_message) (Some at_) (set_pause no_pause (set_status TURN_FAILED t)));
      get_by_id turn_id
  end.

(** [ORDER BY started_at DESC LIMIT 1] *)
Definition latest (l : list ChatTurn) : option ChatTurn := head (sort_by (fun t => - tn_started_at t) Z.le l).

Definition get_by_runtime_run_id (runtime_run_id : Z) : chat (option ChatTurn) :=
  w ← get_state;
  mret (latest (List.filter (fun t => bool_decide (tn_runtime_run_id t = Some runtime_run_id))
                            (cd_turns (ch_db w)))).

Definition same_request (chat_id user_id : Z) (key : string) (t : ChatTurn) : bool :=
  bool_decide (tn_chat_id t = chat_id /\ tn_user_id t = user_id /\ tn_idempotency_key t = Some key).

Definition get_latest_by_idempotency_key (chat_id user_id : Z) (key : string) : chat (option ChatTurn) :=
  w ← get_state;
  mret (latest (List.filter (same_request chat_id user_id key) (cd_turns (ch_db w)))).

Definition is_in_flight (chat_id user_id : Z) (key : string) : chat bool :=
  turn ← get_latest_by_idempotency_key chat_id user_id key;
  mret (match turn with
        | Some t => bool_decide (tn_status t = TURN_STARTED)
        | None => false
        end).

Definition has_payload_mismatch (chat_id user_id : Z) (key request_hash : string) : chat bool :=
  turn ← get_latest_by_idempotency_key chat_id user_id key;
  mret (match turn with
        | Some t => negb (str_empty (or_str (tn_request_hash t) ""))
                    && negb (String.eqb (or_str (tn_request_hash t) "") request_hash)
        | None => false
        end).
End TurnService.
