(* ===== verification/ChatHitl.v ===== *)
(** * Pausing and resuming a run: the human-in-the-loop protocol

    services/runtime_hitl_protocol_service.py (the payload of a pause),
    services/runtime_terminal_status.py (terminal statuses) and
    services/runtime_resume_checkpoint_service.py (which action may continue a
    pause, and the checkpoint handed to the continued run).  [repr] is Python's
    [str] of a value that is not a string. *)
From S2P Require Import Prelude.
Open Scope Z_scope.

Section Hitl.
Variable repr : json -> string.

(** [str(x or "")] *)
Definition str_or_empty (x : option json) : string :=
  match x with
  | Some (JStr s) => s
  | Some j => if truthy j then repr j else ""
  | None => ""
  end.

Definition dict_of (x : option json) : option (odict json) :=
  match x with
  | Some (JObj d) => Some d
  | _ => None
  end.

(** [d.get(k)], [None] as a JSON value *)
Definition get_or_null (k : string) (d : odict json) : json :=
  match od_get k d with
  | Some j => j
  | None => JNull
  end.

Definition is_none (j : json) : bool := match j with JNull => true | _ => false end.

(** ** RuntimeHitlProtocolService *)
Definition CONTRACT_VERSION : Z := 1.

Definition action_kind_for_reason (reason : string) : string :=
  if String.eqb reason "waiting_confirmation" then "confirm"
  else if String.eqb reason "waiting_input" then "input"
  else "resume".

Definition ACTION_KEYS : list string :=
  ["operation_fingerprint"; "tool_slug"; "operation"; "risk_level"; "args_preview"; "summary"].

(** [if stop_payload.get(key) is not None: action[key] = stop_payload[key]] *)
Definition copy_key (stop_payload action : odict json) (key : string) : odict json :=
  if is_none (get_or_null key stop_payload) then action else od_set key (get_or_null key stop_payload) action.

Record Paused := {
  pd_reason : string;
  pd_run_id : json;
  pd_action : odict json;
  pd_context : odict json;
  pd_contract_version : Z
}.

Definition default_action (reason : string) (stop_payload : odict json) : odict json :=
  [("kind", JStr (action_kind_for_reason reason)); ("type", JStr "resume"); ("reason", JStr reason);
   ("question", get_or_null "question" stop_payload); ("message", get_or_null "message" stop_payload);
   ("contract_version", JInt CONTRACT_VERSION)].

Definition build_paused_from_stop (stop_payload : odict json) : Paused :=
  let stripped := strip (str_or_empty (od_get "reason" stop_payload)) in
  let reason := if str_empty stripped then "paused" else stripped in
  let action := default_action reason stop_payload in
  let action := match dict_of (od_get "action" stop_payload) with
                | Some existing => od_update action existing
                | None => action
                end in
  let action := foldl (copy_key stop_payload) action ACTION_KEYS in
  let context := match dict_of (od_get "context" stop_payload) with
                 | Some existing => existing
                 | None => stop_payload
                 end in
  let context := if od_mem "contract_version" context then context
                 else od_set "contract_version" (JInt CONTRACT_VERSION) context in
  {| pd_reason := reason; pd_run_id := get_or_null "run_id" stop_payload; pd_action := action;
     pd_context := context; pd_contract_version := CONTRACT_VERSION |}.

Definition fingerprint_of (x : option json) : string :=
  match dict_of x with
  | Some d => strip (str_or_empty (od_get "operation_fingerprint" d))
  | None => ""
  end.

Definition extract_operation_fingerprint (paused_action paused_context : option json) : string :=
  if str_empty (fingerprint_of paused_action) then fingerprint_of paused_context
  else fingerprint_of paused_action.

(** ** Terminal statuses *)
Inductive RunTerminalStatus : Type :=
| RT_COMPLETED | RT_FAILED | RT_WAITING_INPUT | RT_WAITING_CONFIRMATION | RT_STOPPED.

#[export] Instance RunTerminalStatus_eq_dec : EqDecision RunTerminalStatus.
Proof. solve_decision. Defined.

Definition run_terminal_value (s : RunTerminalStatus) : string :=
  match s with
  | RT_COMPLETED => "completed"
  | RT_FAILED => "failed"
  | RT_WAITING_INPUT => "waiting_input"
  | RT_WAITING_CONFIRMATION => "waiting_confirmation"
  | RT_STOPPED => "stopped"
  end.

Definition normalize_run_terminal_status (reason : option string) : RunTerminalStatus :=
  let value := strip (or_str reason "") in
  if String.eqb value (run_terminal_value RT_WAITING_INPUT) then RT_WAITING_INPUT
  else if String.eqb value (run_terminal_value RT_WAITING_CONFIRMATION) then RT_WAITING_CONFIRMATION
  else if String.eqb value (run_terminal_value RT_FAILED) then RT_FAILED
  else if String.eqb value (run_terminal_value RT_COMPLETED) then RT_COMPLETED
  else RT_STOPPED.

Definition normalize_run_status_for_storage (status : option string) : string :=
  let value := strip (or_str status "") in
  if str_in value ["running"; "resumed"; "cancelled"] then value
  else run_terminal_value (normalize_run_terminal_status (Some value)).

(** ** RuntimeResumeCheckpointService *)
Inductive RuntimeResumeAction : Type := RA_INPUT | RA_CONFIRM | RA_CANCEL.

#[export] Instance RuntimeResumeAction_eq_dec : EqDecision RuntimeResumeAction.
Proof. solve_decision. Defined.

Definition resume_action_value (a : RuntimeResumeAction) : string :=
  match a with
  | RA_INPUT => "input"
  | RA_CONFIRM => "confirm"
  | RA_CANCEL => "cancel"
  end.

(** [RuntimeResumeValidationError], by its message *)
Inductive ResumeError : Type :=
| RE_requires_input_or_cancel
| RE_input_required
| RE_requires_confirm_or_cancel
| RE_not_waiting.

Definition validate_action (pause_status : option string) (action : RuntimeResumeAction)
    (user_input : option string) : result ResumeError string :=
  let normalized_status := strip (or_str pause_status "") in
  let normalized_input := strip (or_str user_input "") in
  if String.eqb normalized_status "waiting_input" then
    if bool_decide (action = RA_CANCEL) then Ok ""
    else if negb (bool_decide (action = RA_INPUT)) then Err RE_requires_input_or_cancel
    else if str_empty normalized_input then Err RE_input_required
    else Ok normalized_input
  else if String.eqb normalized_status "waiting_confirmation" then
    if negb (bool_decide (action ∈ [RA_CONFIRM; RA_CANCEL])) then Err RE_requires_confirm_or_cancel
    else Ok ""
  else Err RE_not_waiting.

Definition source_context_snapshot (goal : string) (execution_mode : option string) : odict json :=
  let normalized_goal := strip goal in
  let snapshot := [("inputs", JObj [("goal", JStr normalized_goal); ("user_request", JStr normalized_goal)])] in
  if str_empty (or_str execution_mode "") then snapshot
  else od_set "meta" (JObj [("execution_mode", JStr (or_str execution_mode ""))]) snapshot.

(** [a or b] of optional values *)
Definition or_json (a b : option json) : option json :=
  match a with
  | Some j => if truthy j then a else b
  | None => b
  end.

(** [if value: payload[key] = str(value)] *)
Definition put_str (key : string) (value : option json) (payload : odict json) : odict json :=
  match value with
  | Some j => if truthy j then od_set key (JStr (str_or_empty (Some j))) payload else payload
  | None => payload
  end.

Definition or_empty_dict (x : option (odict json)) : odict json :=
  match x with
  | Some d => d
  | None => []
  end.

Definition build_checkpoint (checkpoint_id source_run_id agent_slug tenant_id user_id : string)
    (chat_id : option string) (created_at : string)
    (paused_action paused_context : option (odict json)) (resume_action : string)
    (user_input : option string) (source_snapshot : odict json) : odict json :=
  let source_inputs := or_empty_dict (dict_of (od_get "inputs" source_snapshot)) in
  let source_meta := or_empty_dict (dict_of (od_get "meta" source_snapshot)) in
  let payload :=
    [("checkpoint_id", JStr checkpoint_id); ("source_run_id", JStr source_run_id);
     ("agent_slug", JStr agent_slug); ("tenant_id", JStr tenant_id); ("user_id", JStr user_id);
     ("chat_id", match chat_id with Some c => JStr c | None => JNull end);
     ("created_at", JStr created_at); ("resume_action", JStr resume_action);
     ("paused_action", JObj (or_empty_dict paused_action));
     ("paused_context", JObj (or_empty_dict paused_context));
     ("source_context_snapshot", JObj source_snapshot)] in
  let original_goal := or_json (od_get "goal" source_inputs)
                         (or_json (od_get "user_request" source_inputs) (od_get "goal" source_meta)) in
  let payload := put_str "original_goal" original_goal payload in
  let payload := put_str "original_user_request" (od_get "user_request" source_inputs) payload in
  if str_empty (or_str user_input "") then payload
  else od_set "user_input" (JStr (or_str user_input "")) payload.
End Hitl.
