(* ===== verification/ChatStream.v ===== *)
(** * A chat turn from request to stream

    services/chat_turn_orchestrator.py ([execute_turn]), the persistence and
    context services it calls, services/chat_stream_service.py (idempotency and
    [send_message_stream]) and the resume route of
    api/v1/routers/chat/messages.py.  The run of the agents is an argument: the
    events it yields and the exception it may end with. *)
From S2P Require Import Prelude ChatTurn ChatHitl.
Open Scope Z_scope.

(** ** _normalize_runtime_error *)
Record NormError := {
  ne_code : string;
  ne_user_message : string;
  ne_operator_message : string
}.

Definition normalize_code_message (normalized_code message_lc : string) : string * string :=
  if str_contains "budget" normalized_code || str_contains "budget" message_lc then
    ("budget_exceeded", "Достигнут лимит выполнения запроса. Попробуйте сузить запрос.")
  else if str_contains "retry" normalized_code || str_contains "retry" message_lc then
    ("max_retries_exceeded", "Не удалось завершить запрос после нескольких попыток. Попробуйте позже.")
  else if str_contains "tool" normalized_code && str_contains "unavailable" message_lc then
    ("tool_unavailable", "Один из инструментов сейчас недоступен. Попробуйте позже.")
  else if str_contains "timeout" normalized_code || str_contains "timeout" message_lc then
    ("tool_timeout", "Превышено время ожидания инструмента. Попробуйте позже.")
  else if str_contains "planner" normalized_code || str_contains "planner" message_lc then
    ("planner_failed", "Не удалось построить план выполнения запроса. Попробуйте переформулировать вопрос.")
  else if str_contains "policy" normalized_code || str_contains "denied" message_lc then
    ("policy_blocked", "Запрос заблокирован политикой доступа.")
  else if str_contains "agent" normalized_code || str_contains "runtime_failed" normalized_code then
    ("agent_failed", "Не удалось завершить выполнение агентом. Попробуйте позже.")
  else ("unknown_runtime_error", "Произошла внутренняя ошибка выполнения. Попробуйте позже.").

Definition normalize_runtime_error (code raw_message : string) : NormError :=
  let normalized_code := lower (strip (if str_empty code then "unknown_runtime_error" else code)) in
  let cm := normalize_code_message normalized_code (lower raw_message) in
  {| ne_code := cm.1; ne_user_message := cm.2;
     ne_operator_message := if str_empty raw_message then cm.1 else raw_message |}.

(** ** The accumulators of the event loop *)
Record RunAcc := {
  ra_turn : ChatTurnState;
  ra_content : string;
  ra_sources : json;
  ra_attachments : json;
  ra_error : option NormError;
  ra_stop_reason : option string;
  ra_paused : bool;
  ra_paused_run_id : option string;
  ra_last_run_id : option string;
  ra_paused_reason : option string;
  ra_paused_action : json;
  ra_paused_context : json;
  ra_terminal_event_emitted : bool
}.

Definition initial_acc (turn : ChatTurnState) : RunAcc :=
  {| ra_turn := turn; ra_content := ""; ra_sources := JList []; ra_attachments := JList [];
     ra_error := None; ra_stop_reason := None; ra_paused := false; ra_paused_run_id := None;
     ra_last_run_id := None; ra_paused_reason := None; ra_paused_action := JNull;
     ra_paused_context := JNull; ra_terminal_event_emitted := false |}.

Definition as_list (j : json) : json := match j with JList _ => j | _ => JList [] end.

(** The body of the loop, per event. *)
Definition on_event (ev : RouterEvent) (a : RunAcc) : RunAcc :=
  match ev with
  | EvDelta content =>
      {| ra_turn := if bool_decide (cts_phase (ra_turn a) = PH_DELTA_STREAMING) then ra_turn a
                    else (transition PH_DELTA_STREAMING (ra_turn a)).2;
         ra_content := ra_content a +:+ content; ra_sources := ra_sources a;
         ra_attachments := ra_attachments a; ra_error := ra_error a; ra_stop_reason := ra_stop_reason a;
         ra_paused := ra_paused a; ra_paused_run_id := ra_paused_run_id a; ra_last_run_id := ra_last_run_id a;
         ra_paused_reason := ra_paused_reason a; ra_paused_action := ra_paused_action a;
         ra_paused_context := ra_paused_context a;
         ra_terminal_event_emitted := ra_terminal_event_emitted a |}
  | EvFinalContent content sources attachments stop_reason =>
      {| ra_turn := ra_turn a; ra_content := content; ra_sources := sources;
         ra_attachments := as_list attachments; ra_error := ra_error a;
         ra_stop_reason := some_str (strip (or_str stop_reason "")); ra_paused := ra_paused a;
         ra_paused_run_id := ra_paused_run_id a; ra_last_run_id := ra_last_run_id a;
         ra_paused_reason := ra_paused_reason a; ra_paused_action := ra_paused_action a;
         ra_paused_context := ra_paused_context a;
         ra_terminal_event_emitted := ra_terminal_event_emitted a |}
  | EvRunPaused run_id reason action context =>
      {| ra_turn := (transition PH_PAUSED (ra_turn a)).2; ra_content := ra_content a;
         ra_sources := ra_sources a; ra_attachments := ra_attachments a; ra_error := ra_error a;
         ra_stop_reason := ra_stop_reason a; ra_paused := true; ra_paused_run_id := run_id;
         ra_last_run_id := match run_id with Some _ => run_id | None => ra_last_run_id a end;
         ra_paused_reason := reason; ra_paused_action := action; ra_paused_context := context;
         ra_terminal_event_emitted := ra_terminal_event_emitted a |}
  | EvError code error =>
      {| ra_turn := ra_turn a; ra_content := ra_content a; ra_sources := ra_sources a;
         ra_attachments := ra_attachments a;
         ra_error := Some (normalize_runtime_error (or_str code "runtime_error")
                                                   (or_str error "Runtime error"));
         ra_stop_reason := ra_stop_reason a; ra_paused := ra_paused a;
         ra_paused_run_id := ra_paused_run_id a; ra_last_run_id := ra_last_run_id a;
         ra_paused_reason := ra_paused_reason a; ra_paused_action := ra_paused_action a;
         ra_paused_context := ra_paused_context a; ra_terminal_event_emitted := true |}
  | EvOther _ _ => a
  end.

Definition with_turn_state (t : ChatTurnState) (a : RunAcc) : RunAcc :=
  {| ra_turn := t; ra_content := ra_content a; ra_sources := ra_sources a;
     ra_attachments := ra_attachments a; ra_error := ra_error a; ra_stop_reason := ra_stop_reason a;
     ra_paused := ra_paused a; ra_paused_run_id := ra_paused_run_id a; ra_last_run_id := ra_last_run_id a;
     ra_paused_reason := ra_paused_reason a; ra_paused_action := ra_paused_action a;
     ra_paused_context := ra_paused_context a;
     ra_terminal_event_emitted := ra_terminal_event_emitted a |}.

Definition with_run_error (e : NormError) (a : RunAcc) : RunAcc :=
  {| ra_turn := force_error (ra_turn a); ra_content := ra_content a; ra_sources := ra_sources a;
     ra_attachments := ra_attachments a; ra_error := Some e; ra_stop_reason := ra_stop_reason a;
     ra_paused := ra_paused a; ra_paused_run_id := ra_paused_run_id a; ra_last_run_id := ra_last_run_id a;
     ra_paused_reason := ra_paused_reason a; ra_paused_action := ra_paused_action a;
     ra_paused_context := ra_paused_context a;
     ra_terminal_event_emitted := ra_terminal_event_emitted a |}.

(** Final content and pauses are held back, the rest is passed through. *)
Definition passes_through (ev : RouterEvent) : bool :=
  match ev with
  | EvFinalContent _ _ _ _ | EvRunPaused _ _ _ _ => false
  | _ => true
  end.

Fixpoint consume (evs : list RouterEvent) (a : RunAcc) : chat RunAcc :=
  match evs with
  | [] => mret a
  | ev :: evs' =>
      _ ← (if passes_through ev then yield_frame (FrRouter ev) else mret tt);
      consume evs' (on_event ev a)
  end.

(** ** The turn *)
Record CtxMessage := { cx_role : string; cx_content : string }.

(** The arguments of [execute_turn] that its own code reads. *)
Record TurnArgs := {
  ta_chat_name : option string;
  ta_chat_id : Z;
  ta_user_id : Z;
  ta_content : string;
  ta_artifact_ids : list string;
  ta_attachment_meta : list json;
  ta_idempotency_key : option string;
  ta_resumed_from_run_id : option string;
  ta_persist_user_message : bool;
  ta_preloaded_context : list CtxMessage;
  ta_resumed_turn_id : option Z
}.

(** One run of the agents: what [run_with_router] yields, the message of the
    exception it ends with, and whether it committed the shared session. *)
Record RouterRun := {
  rr_events : list RouterEvent;
  rr_raises : option string;
  rr_commits : bool
}.

Definition key_of (k : option string) : string := or_str k "".

(** [if not artifact_ids: content else "{content}||artifacts:{sorted ids}"] *)
Definition hash_payload (content : string) (artifact_ids : list string) : string :=
  match artifact_ids with
  | [] => content
  | _ => content +:+ "||artifacts:" +:+ String.concat "," (sort_by id String.le artifact_ids)
  end.

Section Turn.
Variables (uuid4 clock : nat -> Z) (UUID : string -> option Z) (sha256 : string -> string)
  (repr : json -> string) (uuid_str : Z -> string).
(** services/chat_attachment_service.py: [Some e] when binding raises;
    services/structured_answer_service.py: the entries it adds to the metadata of an
    answer; services/chat_title_service.py. *)
Variables (bind_attachments : list string -> Z -> option ChatExc)
  (answer_meta : string -> json -> json -> odict json)
  (generate_chat_title : string -> option string).

(** *** ChatPersistenceService and ChatContextService *)
Definition insert_message (m : ChatMessage) (w : ChatState) : ChatState :=
  with_chat_db {| cd_turns := cd_turns (ch_db w); cd_messages := cd_messages (ch_db w) ++ [m] |} w.

Definition create_message (chat_id : Z) (role text : string) (meta : odict json) : chat ChatMessage :=
  id ← new_uuid uuid4;
  at_ ← now clock;
  let m := {| cm_id := id; cm_chat_id := chat_id; cm_role := role; cm_text := text; cm_meta := meta;
              cm_created_at := at_ |} in
  _ ← modify (insert_message m);
  _ ← commit;
  mret m.

Definition create_user_message (chat_id : Z) (content : string) (meta : odict json) : chat ChatMessage :=
  create_message chat_id "user" content meta.

Definition meta_if (key : string) (value : json) : odict json :=
  if truthy value then [(key, value)] else [].

Definition create_assistant_message (chat_id : Z) (content : string) (rag_sources attachments : json)
    (extra_meta : odict json) : chat ChatMessage :=
  create_message chat_id "assistant" content
    (od_update (meta_if "rag_sources" rag_sources ++ meta_if "attachments" attachments
                ++ answer_meta content rag_sources attachments) extra_meta).

(** [get_recent_chat_messages], then the roles a model is shown. *)
Definition load_chat_context (chat_id : Z) (limit : nat) : chat (list CtxMessage) :=
  w ← get_state;
  let rows := List.filter (fun m => Z.eqb (cm_chat_id m) chat_id) (cd_messages (ch_db w)) in
  let recent := reverse (take limit (sort_by (fun m => - cm_created_at m) Z.le rows)) in
  mret (map (fun m => {| cx_role := cm_role m; cx_content := cm_text m |})
            (List.filter (fun m => str_in (cm_role m) ["user"; "assistant"]) recent)).

(** *** execute_turn, up to the run *)
Definition resolve_run_id (a : TurnArgs) : chat Z :=
  match UUID (or_str (ta_resumed_from_run_id a) "") with
  | Some u => if str_empty (or_str (ta_resumed_from_run_id a) "") then new_uuid uuid4 else mret u
  | None => new_uuid uuid4
  end.

Definition open_turn (a : TurnArgs) (runtime_run_id : Z) : chat Z :=
  match ta_resumed_turn_id a with
  | Some turn_id => mret turn_id
  | None =>
      t ← start_turn uuid4 clock (ta_chat_id a) (ta_user_id a) (ta_idempotency_key a)
            (Some (build_request_hash sha256 (hash_payload (ta_content a) (ta_artifact_ids a))))
            (Some runtime_run_id);
      mret (tn_id t)
  end.

Definition persist_user (a : TurnArgs) (turn_id : Z) : chat (option Z) :=
  if ta_persist_user_message a then
    _ ← yield_frame (FrStatus "saving_user_message");
    m ← create_user_message (ta_chat_id a) (ta_content a)
          (match ta_attachment_meta a with [] => [] | l => [("attachments", JList l)] end);
    _ ← (match ta_artifact_ids a with
         | [] => mret tt
         | ids => match bind_attachments ids (cm_id m) with Some e => raise e | None => mret tt end
         end);
    _ ← attach_user_message turn_id (cm_id m);
    _ ← yield_frame (FrUserMessage (cm_id m) (cm_created_at m));
    mret (Some (cm_id m))
  else mret None.

(** [llm_messages] is the same list object as [context]: the user's message is
    appended to both before the earlier user messages are counted. *)
Definition llm_messages (a : TurnArgs) : chat (list CtxMessage) :=
  context ← (match ta_preloaded_context a with
             | [] => load_chat_context (ta_chat_id a) 12
             | l => mret l
             end);
  mret (context ++ [{| cx_role := "user"; cx_content := ta_content a |}]).

Definition is_first_message (context : list CtxMessage) : bool :=
  bool_decide (length (List.filter (fun m => String.eqb (cx_role m) "user") context) = 0%nat).

Definition maybe_title (a : TurnArgs) (context : list CtxMessage) : chat unit :=
  if is_first_message context && str_in (or_str (ta_chat_name a) "") [""; "New Chat"; "Новый чат"] then
    match generate_chat_title (ta_content a) with
    | Some title => if str_empty title then mret tt else yield_frame (FrChatTitle title)
    | None => mret tt
    end
  else mret tt.

(** *** execute_turn, after the run *)
Definition answer_extra_meta (a : RunAcc) : odict json :=
  (match ra_last_run_id a with
   | Some r => if str_empty r then [] else [("runtime_run_id", JStr r)]
   | None => []
   end)
  ++ (match ra_stop_reason a with Some r => [("runtime_stop_reason", JStr r)] | None => [] end)
  ++ (match ra_stop_reason a with
      | Some r => if str_in r ["completed"; "stopped"] then [] else [("runtime_status", JStr r)]
      | None => []
      end).

Definition finish_answer (args : TurnArgs) (turn_id : Z) (user_message_id : option Z) (a : RunAcc)
    : chat ChatTurnState :=
  m ← create_assistant_message (ta_chat_id args) (ra_content a) (ra_sources a) (ra_attachments a)
        (answer_extra_meta a);
  _ ← (match user_message_id with
       | Some u => if str_empty (key_of (ta_idempotency_key args)) then mret tt
                   else cache_result (key_of (ta_idempotency_key args)) (u, cm_id m)
       | None => mret tt
       end);
  _ ← complete_turn clock turn_id (Some (cm_id m));
  let t := (transition PH_FINAL_PERSISTED (ra_turn a)).2 in
  _ ← yield_frame (FrFinal (cm_id m) (cm_created_at m) (ra_sources a) (ra_attachments a));
  let t := (transition PH_COMPLETED t).2 in
  _ ← yield_frame (FrStatus "completed");
  mret t.

Definition finish_empty (turn_id : Z) (a : RunAcc) : chat ChatTurnState :=
  _ ← fail_turn clock turn_id "Empty response from agent";
  _ ← yield_frame (FrError "Empty response from agent" None);
  mret (force_error (ra_turn a)).

Definition pause_text (key : string) (action context : json) : string :=
  let from j := match dict_of (Some j) with
                | Some d => strip (str_or_empty repr (od_get key d))
                | None => ""
                end in
  if str_empty (from context) then from action else from context.

Definition as_dict (j : json) : json := match j with JObj _ => j | _ => JObj [] end.

Definition finish_paused (turn_id : Z) (a : RunAcc) : chat ChatTurnState :=
  let reason := or_str (ra_paused_reason a) "paused" in
  let question := pause_text "question" (ra_paused_action a) (ra_paused_context a) in
  let message := pause_text "message" (ra_paused_action a) (ra_paused_context a) in
  _ ← pause_turn clock UUID turn_id reason (ra_paused_run_id a) (ra_paused_action a) (ra_paused_context a);
  _ ← commit;
  _ ← yield_frame (FrStop reason (some_str question) (some_str message) (ra_paused_run_id a)
                     (as_dict (ra_paused_action a)) (as_dict (ra_paused_context a)));
  mret (ra_turn a).

Definition finish_error (args : TurnArgs) (turn_id : Z) (e : NormError) (a : RunAcc) : chat ChatTurnState :=
  let run_id := match ra_last_run_id a with Some r => JStr r | None => JNull end in
  _ ← fail_turn clock turn_id (ne_operator_message e);
  m ← (if negb (str_empty (strip (ra_content a))) then
         create_assistant_message (ta_chat_id args) (strip (ra_content a)) (ra_sources a) (JList [])
           [("runtime_status", JStr "partial"); ("runtime_error_code", JStr (ne_code e));
            ("runtime_error_message", JStr (ne_user_message e)); ("runtime_run_id", run_id)]
       else
         create_assistant_message (ta_chat_id args) (ne_user_message e) (ra_sources a) (JList [])
           [("runtime_status", JStr "failed"); ("runtime_error_code", JStr (ne_code e));
            ("runtime_run_id", run_id)]);
  _ ← attach_assistant_message turn_id (cm_id m);
  _ ← (if ra_terminal_event_emitted a then mret tt
       else yield_frame (FrError (ne_user_message e) (Some (ne_code e))));
  mret (force_error (ra_turn a)).

(** The four ways a turn ends, in the code's order. *)
Definition finish (args : TurnArgs) (turn_id : Z) (user_message_id : option Z) (a : RunAcc)
    : chat ChatTurnState :=
  match ra_error a with
  | None =>
      if negb (str_empty (ra_content a)) then finish_answer args turn_id user_message_id a
      else if negb (ra_paused a) then finish_empty turn_id a
      else finish_paused turn_id a
  | Some e =>
      if ra_paused a then finish_paused turn_id a
      else finish_error args turn_id e a
  end.

Definition run_agents (turn_id : Z) (run : RouterRun) (turn : ChatTurnState) : chat RunAcc :=
  _ ← (if rr_commits run then commit else mret tt);
  a ← consume (rr_events run) (initial_acc turn);
  match rr_raises run with
  | None => mret a
  | Some raw =>
      let e := normalize_runtime_error "unknown_runtime_error" raw in
      _ ← fail_turn clock turn_id (ne_operator_message e);
      _ ← yield_frame (FrError (ne_user_message e) (Some (ne_code e)));
      mret (with_run_error e a)
  end.

Definition execute_turn (args : TurnArgs) (run : RouterRun) : chat ChatTurnState :=
  runtime_run_id ← resolve_run_id args;
  turn_id ← open_turn args runtime_run_id;
  user_message_id ← persist_user args turn_id;
  let turn := (transition PH_USER_PERSISTED initial_turn_state).2 in
  let turn := (transition PH_CONTEXT_LOADED turn).2 in
  _ ← yield_frame (FrStatus "loading_context");
  context ← llm_messages args;
  _ ← maybe_title args context;
  let turn := (transition PH_EXECUTION_STARTED turn).2 in
  _ ← yield_frame (FrStatus "agent_running");
  a ← run_agents turn_id run turn;
  finish args turn_id user_message_id a.

(** ** ChatStreamService: idempotency *)
Inductive TurnCached : Type :=
| TC_conflict
| TC_processing
| TC_completed (user_message_id assistant_message_id : Z).

Definition check_turn_idempotency (key : string) (chat_id user_id : Z) (content : string)
    (artifact_ids : list string) : chat (option TurnCached) :=
  let request_hash := build_request_hash sha256 (hash_payload content artifact_ids) in
  payload_mismatch ← has_payload_mismatch chat_id user_id key request_hash;
  match payload_mismatch with
  | true => mret (Some TC_conflict)
  | false =>
      turn ← get_latest_by_idempotency_key chat_id user_id key;
      mret (match turn with
            | None => None
            | Some t =>
                if bool_decide (tn_status t = TURN_STARTED) then Some TC_processing
                else match tn_status t, tn_user_message_id t, tn_assistant_message_id t with
                     | TURN_COMPLETED, Some u, Some m => Some (TC_completed u m)
                     | _, _, _ => None
                     end
            end)
  end.

(** ** ChatStreamService: send_message_stream *)
Record StreamRequest := {
  sq_chat_id : Z;
  sq_user_id : Z;
  sq_content : string;
  sq_artifact_ids : list string;
  sq_idempotency_key : option string;
  sq_resumed_from_run_id : option string;
  sq_resumed_turn_id : option Z;
  sq_persist_user_message : bool
}.

(** The chat row of the repository ([None] when the chat is unknown, else its
    name), and the metadata of the artifacts ([None] for
    ChatAttachmentNotFoundError). *)
Variables (get_chat_by_id : Z -> option (option string))
  (artifact_metadata : list string -> option (list json)).

Definition safe_stream_error (code user_message : string) : Frame := FrError user_message (Some code).

(** What idempotency answers with, [None] to go on. *)
Definition idempotency_answer (q : StreamRequest) : chat (option Frame) :=
  let key := key_of (sq_idempotency_key q) in
  if str_empty key then mret None
  else
    turn_cached ← check_turn_idempotency key (sq_chat_id q) (sq_user_id q) (sq_content q)
                    (sq_artifact_ids q);
    match turn_cached with
    | Some TC_conflict =>
        mret (Some (safe_stream_error "idempotency_conflict"
                      "Idempotency key was already used with different request payload"))
    | Some TC_processing =>
        mret (Some (safe_stream_error "idempotency_processing"
                      "Request with this idempotency key is already in progress"))
    | Some (TC_completed u m) => mret (Some (FrCached u m))
    | None =>
        cached ← get_cached_result key;
        mret (option_map (fun um => FrCached um.1 um.2) cached)
    end.

Definition turn_args (q : StreamRequest) (name : option string) (attachment_meta : list json)
    (context : list CtxMessage) : TurnArgs :=
  {| ta_chat_name := name; ta_chat_id := sq_chat_id q; ta_user_id := sq_user_id q;
     ta_content := sq_content q; ta_artifact_ids := sq_artifact_ids q;
     ta_attachment_meta := attachment_meta; ta_idempotency_key := sq_idempotency_key q;
     ta_resumed_from_run_id := sq_resumed_from_run_id q;
     ta_persist_user_message := sq_persist_user_message q; ta_preloaded_context := context;
     ta_resumed_turn_id := sq_resumed_turn_id q |}.

Definition process_request (q : StreamRequest) (run : RouterRun) : chat unit :=
  match get_chat_by_id (sq_chat_id q) with
  | None => yield_frame (safe_stream_error "chat_not_found" "Chat not found")
  | Some name =>
      context ← load_chat_context (sq_chat_id q) 12;
      match (match sq_artifact_ids q with [] => Some [] | ids => artifact_metadata ids end) with
      | None => yield_frame (safe_stream_error "attachment_not_found" "Attachment not found or access denied")
      | Some attachment_meta =>
          _ ← execute_turn (turn_args q name attachment_meta context) run; mret tt
      end
  end.

Definition send_message_stream (q : StreamRequest) (run : RouterRun) : chat unit :=
  answer ← idempotency_answer q;
  match answer with
  | Some f => yield_frame f
  | None =>
      try_except (process_request q run) (fun _ =>
        yield_frame (safe_stream_error "chat_stream_failed" "Failed to process chat request"))
  end.

(** One request: the stream is consumed to its end, then the dependency closes
    the session. *)
Definition request (q : StreamRequest) (run : RouterRun) (w : ChatState) : ChatState :=
  close_session (send_message_stream q run w).2.

(** ** The resume route of api/v1/routers/chat/messages.py *)
Inductive HttpExc : Type := HTTPException (status_code : Z) (detail : string).

Inductive ResumeOutcome : Type :=
| ResumeCancelled
| ResumeStream (q : StreamRequest) (checkpoint : odict json).

Definition resume_detail (e : ResumeError) : string :=
  match e with
  | RE_requires_input_or_cancel => "waiting_input requires action='input' or action='cancel'"
  | RE_input_required => "input is required for action='input'"
  | RE_requires_confirm_or_cancel => "waiting_confirmation requires action='confirm' or action='cancel'"
  | RE_not_waiting => "Run is not waiting for resume"
  end.

Definition build_resume_content (action : RuntimeResumeAction) (user_input : string) : string :=
  if bool_decide (action = RA_INPUT) then user_input else "Подтверждаю.".

(** A service call inside the route: its exceptions become a 500. *)
Definition in_route {A} (m : chat A) : py HttpExc ChatState A := fun w =>
  match m w with
  | (Ok x, w') => (Ok x, w')
  | (Err _, w') => (Err (HTTPException 500 "Internal Server Error"), w')
  end.

(** The goal of the run's plan ([SqlPlanStore.get_by_run]) and the checkpoint's
    identifier and time. *)
Variables (plan_goal : Z -> option string) (checkpoint_id created_at : string).

Definition resolve_original_goal (run_id : Z) : option string :=
  match plan_goal run_id with
  | Some goal => some_str (strip goal)
  | None => None
  end.

Definition paused_turns (run_id : Z) (w : ChatState) : list ChatTurn :=
  List.filter (fun t => bool_decide (tn_runtime_run_id t = Some run_id /\ tn_status t = TURN_PAUSED))
    (cd_turns (ch_db w)).

Definition resume_run (run_id : string) (action : RuntimeResumeAction) (input : option string)
    (current_user : Z) (tenant_ids : list Z) : py HttpExc ChatState ResumeOutcome :=
  match UUID run_id with
  | None => raise (HTTPException 400 "Invalid run ID")
  | Some run_uuid =>
      w ← get_state;
      match paused_turns run_uuid w with
      | [] => raise (HTTPException 404 "Paused run not found")
      | _ :: _ :: _ => raise (HTTPException 500 "Internal Server Error")
      | [turn] =>
          if negb (Z.eqb (tn_user_id turn) current_user) then raise (HTTPException 404 "Paused run not found")
          else match tenant_ids with
          | [] => raise (HTTPException 403 "No tenant scope available")
          | tenant :: _ =>
              match validate_action (pi_status (tn_pause turn)) action input with
              | Err e => raise (HTTPException 409 (resume_detail e))
              | Ok normalized_input =>
                  if bool_decide (action = RA_CANCEL) then
                    _ ← in_route (cancel_turn clock (tn_id turn) "Cancelled by user");
                    _ ← in_route commit;
                    mret ResumeCancelled
                  else match resolve_original_goal run_uuid with
                  | None => raise (HTTPException 409 "Runtime continuation plan not found")
                  | Some original_goal =>
                      let checkpoint :=
                        build_checkpoint repr checkpoint_id (uuid_str run_uuid) "" (uuid_str tenant)
                          (uuid_str (tn_user_id turn)) (Some (uuid_str (tn_chat_id turn))) created_at
                          (dict_of (Some (pi_action (tn_pause turn))))
                          (dict_of (Some (pi_context (tn_pause turn))))
                          (resume_action_value action) (some_str normalized_input)
                          (source_context_snapshot original_goal None) in
                      _ ← in_route (resume_turn (tn_id turn));
                      _ ← in_route commit;
                      mret (ResumeStream
                              {| sq_chat_id := tn_chat_id turn; sq_user_id := current_user;
                                 sq_content := build_resume_content action normalized_input;
                                 sq_artifact_ids := []; sq_idempotency_key := None;
                                 sq_resumed_from_run_id := Some run_id;
                                 sq_resumed_turn_id := Some (tn_id turn);
                                 sq_persist_user_message := false |} checkpoint)
                  end
              end
          end
      end
  end.
End Turn.
