(* ===== verification/ChatProofs.v ===== *)
(** * Lemmas on chat turns

    Each operation of [ChatTurn] and [ChatStream] as an equation on the state, in terms
    of six state changes ([emit], [tick], [draw], [committed], [upd_row],
    [insert_message]), and what those changes do to a turn's row, to the frames
    and to the committed database. *)
From S2P Require Import Prelude ChatTurn ChatHitl ChatStream.
Open Scope Z_scope.

(** ** State changes *)
Definition emit (fs : list Frame) (w : ChatState) : ChatState :=
  {| ch_db := ch_db w; ch_durable := ch_durable w; ch_cache := ch_cache w; ch_out := ch_out w ++ fs;
     ch_clock := ch_clock w; ch_uuids := ch_uuids w |}.
Definition tick (w : ChatState) : ChatState :=
  {| ch_db := ch_db w; ch_durable := ch_durable w; ch_cache := ch_cache w; ch_out := ch_out w;
     ch_clock := S (ch_clock w); ch_uuids := ch_uuids w |}.
Definition draw (w : ChatState) : ChatState :=
  {| ch_db := ch_db w; ch_durable := ch_durable w; ch_cache := ch_cache w; ch_out := ch_out w;
     ch_clock := ch_clock w; ch_uuids := S (ch_uuids w) |}.
Definition committed (w : ChatState) : ChatState :=
  {| ch_db := ch_db w; ch_durable := ch_db w; ch_cache := ch_cache w; ch_out := ch_out w;
     ch_clock := ch_clock w; ch_uuids := ch_uuids w |}.
Definition cached (key : string) (ids : Z * Z) (w : ChatState) : ChatState :=
  {| ch_db := ch_db w; ch_durable := ch_durable w; ch_cache := od_set key ids (ch_cache w);
     ch_out := ch_out w; ch_clock := ch_clock w; ch_uuids := ch_uuids w |}.
Definition upd_row (id : Z) (f : ChatTurn -> ChatTurn) (w : ChatState) : ChatState :=
  with_turns (map (fun t => if Z.eqb (tn_id t) id then f t else t) (cd_turns (ch_db w))) w.

(** The row of a turn, as the session sees it and as committed. *)
Definition find_turn (id : Z) (d : ChatDb) : option ChatTurn :=
  List.find (fun t => Z.eqb (tn_id t) id) (cd_turns d).

Lemma find_map_same id f (l : list ChatTurn) :
  (forall t, tn_id (f t) = tn_id t) ->
  List.find (fun t => Z.eqb (tn_id t) id) (map (fun t => if Z.eqb (tn_id t) id then f t else t) l)
  = option_map f (List.find (fun t => Z.eqb (tn_id t) id) l).
Proof.
  intros Hf. induction l as [|t l IH]; [done|]. simpl.
  destruct (Z.eqb (tn_id t) id) eqn:E; simpl; [by rewrite Hf, E|by rewrite E].
Qed.

Lemma find_upd_row id f w :
  (forall t, tn_id (f t) = tn_id t) ->
  find_turn id (ch_db (upd_row id f w)) = option_map f (find_turn id (ch_db w)).
Proof. apply find_map_same. Qed.

Lemma find_insert id m w : find_turn id (ch_db (insert_message m w)) = find_turn id (ch_db w).
Proof. done. Qed.

Lemma find_turn_id id d t : find_turn id d = Some t -> tn_id t = id /\ t ∈ cd_turns d.
Proof.
  intros H. apply find_some in H as [Hin Hid]. split; [by apply Z.eqb_eq|by apply list_elem_of_In].
Qed.

Lemma find_turn_fresh id d t :
  id ∉ map tn_id (cd_turns d) -> tn_id t = id ->
  find_turn id {| cd_turns := cd_turns d ++ [t]; cd_messages := cd_messages d |} = Some t.
Proof.
  unfold find_turn. simpl. intros Hn <-. induction (cd_turns d) as [|t' l IH]; simpl in *.
  - by rewrite Z.eqb_refl.
  - destruct (Z.eqb_spec (tn_id t') (tn_id t)) as [E|E]; [set_solver|]. apply IH. set_solver.
Qed.

(** ** Operations as equations *)
Section Runs.
Variables (uuid4 clock : nat -> Z) (UUID : string -> option Z) (sha256 : string -> string).

Lemma get_by_id_run id w : get_by_id id w = (Ok (find_turn id (ch_db w)), w).
Proof. done. Qed.

Definition complete_row (at_ : Z) (m : option Z) (t : ChatTurn) : ChatTurn :=
  set_end (tn_error_message t) (Some at_) (set_pause no_pause (set_status TURN_COMPLETED
    (match m with Some m => set_messages (tn_user_message_id t) (Some m) t | None => t end))).

Definition fail_row (at_ : Z) (e : string) (t : ChatTurn) : ChatTurn :=
  set_end (Some e) (Some at_) (set_pause no_pause (set_status TURN_FAILED t)).

Definition pause_row (at_ : Z) (status : string) (action context : json) (t : ChatTurn) : ChatTurn :=
  set_pause {| pi_status := Some status; pi_action := action; pi_context := context; pi_at := Some at_ |}
    (set_status TURN_PAUSED t).

Lemma complete_turn_run id m w t :
  find_turn id (ch_db w) = Some t ->
  complete_turn clock id m w
  = (Ok (find_turn id (ch_db (upd_row id (complete_row (clock (ch_clock w)) m) (tick w)))),
     upd_row id (complete_row (clock (ch_clock w)) m) (tick w)).
Proof. intros H. unfold complete_turn, mbind, py_bind. rewrite get_by_id_run, H. done. Qed.

Lemma fail_turn_run id e w t :
  find_turn id (ch_db w) = Some t ->
  fail_turn clock id e w
  = (Ok (find_turn id (ch_db (upd_row id (fail_row (clock (ch_clock w)) e) (tick w)))),
     upd_row id (fail_row (clock (ch_clock w)) e) (tick w)).
Proof. intros H. unfold fail_turn, mbind, py_bind. rewrite get_by_id_run, H. done. Qed.

Definition set_user (m : Z) (t : ChatTurn) : ChatTurn := set_messages (Some m) (tn_assistant_message_id t) t.
Definition set_assistant (m : Z) (t : ChatTurn) : ChatTurn := set_messages (tn_user_message_id t) (Some m) t.

Lemma attach_user_run id m w t :
  find_turn id (ch_db w) = Some t ->
  attach_user_message id m w
  = (Ok (find_turn id (ch_db (upd_row id (set_user m) w))), upd_row id (set_user m) w).
Proof. intros H. unfold attach_user_message, mbind, py_bind. rewrite get_by_id_run, H. done. Qed.

Lemma attach_assistant_run id m w t :
  find_turn id (ch_db w) = Some t ->
  attach_assistant_message id m w
  = (Ok (find_turn id (ch_db (upd_row id (set_assistant m) w))), upd_row id (set_assistant m) w).
Proof. intros H. unfold attach_assistant_message, mbind, py_bind. rewrite get_by_id_run, H. done. Qed.

(** The run identifier a pause records: the one of the event, when it has one. *)
Definition pause_run_ok (r : option string) : bool :=
  str_empty (or_str r "") || match UUID (or_str r "") with Some _ => true | None => false end.

Definition paused_run_row (r : option string) (t : ChatTurn) : ChatTurn :=
  if str_empty (or_str r "") then t else set_run (UUID (or_str r "")) t.

Lemma upd_row_id id w : upd_row id (fun t => t) w = w.
Proof.
  destruct w as [[ts ms] ? ? ? ? ?]. unfold upd_row, with_turns, with_chat_db. simpl.
  f_equal. f_equal. rewrite <- (map_id ts) at 2. apply map_ext. intros t. by destruct (_ =? _).
Qed.

Lemma upd_row_upd_row id f g w :
  (forall t, tn_id (f t) = tn_id t) ->
  upd_row id g (upd_row id f w) = upd_row id (fun t => g (f t)) w.
Proof.
  intros Hf. unfold upd_row, with_turns, with_chat_db. simpl. f_equal. f_equal.
  rewrite map_map. apply map_ext. intros t. destruct (Z.eqb (tn_id t) id) eqn:E; [|by rewrite E].
  by rewrite Hf, E.
Qed.

Lemma pause_turn_run id status r action context w t :
  find_turn id (ch_db w) = Some t -> pause_run_ok r = true ->
  pause_turn clock UUID id status r action context w
  = (Ok (find_turn id (ch_db (upd_row id (fun t => pause_row (clock (ch_clock w)) status action context
                                                    (paused_run_row r t)) (tick w)))),
     upd_row id (fun t => pause_row (clock (ch_clock w)) status action context (paused_run_row r t)) (tick w)).
Proof.
  intros H Hr. unfold pause_turn, mbind, py_bind. rewrite get_by_id_run, H.
  unfold pause_run_ok, paused_run_row in *. destruct (str_empty (or_str r "")) eqn:Er; [done|].
  simpl in Hr. unfold parse_uuid. destruct (UUID (or_str r "")) as [u|]; [|done].
  rewrite <- !(upd_row_upd_row id (set_run (Some u))) by done. reflexivity.
Qed.
End Runs.

#[local] Arguments normalize_runtime_error : simpl never.

(** ** The event loop *)
Definition run_acc (evs : list RouterEvent) (a : RunAcc) : RunAcc := foldl (fun a ev => on_event ev a) a evs.
Definition passed (evs : list RouterEvent) : list Frame := map FrRouter (List.filter passes_through evs).

Lemma emit_emit fs gs w : emit gs (emit fs w) = emit (fs ++ gs) w.
Proof. unfold emit. simpl. by rewrite <- app_assoc. Qed.

Lemma emit_nil w : emit [] w = w.
Proof. destruct w. unfold emit. simpl. by rewrite app_nil_r. Qed.

Lemma consume_run evs a w : consume evs a w = (Ok (run_acc evs a), emit (passed evs) w).
Proof.
  revert a w. induction evs as [|ev evs IH]; intros a w; [by rewrite emit_nil|].
  unfold passed. simpl. unfold mbind, py_bind. destruct (passes_through ev); simpl.
  - rewrite IH. f_equal. apply (emit_emit [FrRouter ev]).
  - unfold mret, py_ret. by rewrite IH.
Qed.

(** How a run ends, read off the accumulators. *)
Inductive Verdict : Type := V_answered | V_empty | V_paused | V_failed.

Definition acc_verdict (a : RunAcc) : Verdict :=
  match ra_error a with
  | None => if negb (str_empty (ra_content a)) then V_answered
            else if negb (ra_paused a) then V_empty else V_paused
  | Some _ => if ra_paused a then V_paused else V_failed
  end.

Definition verdict_status (v : Verdict) : TurnStatus :=
  match v with
  | V_answered => TURN_COMPLETED
  | V_paused => TURN_PAUSED
  | V_empty | V_failed => TURN_FAILED
  end.

(** Frames after which a client stops waiting. *)
Definition terminal_frame (f : Frame) : bool :=
  match f with
  | FrFinal _ _ _ _ | FrStop _ _ _ _ _ _ | FrError _ _ | FrRouter (EvError _ _) | FrCached _ _ => true
  | _ => false
  end.

Definition terminals (fs : list Frame) : nat := length (List.filter terminal_frame fs).

Lemma terminals_app fs gs : terminals (fs ++ gs) = (terminals fs + terminals gs)%nat.
Proof. unfold terminals. by rewrite List.filter_app, length_app. Qed.

(** The frame that tells the user how the turn ended. *)
Definition verdict_shown (v : Verdict) (fs : list Frame) : Prop :=
  match v with
  | V_answered => exists m c s a, FrFinal m c s a ∈ fs
  | V_paused => exists r q m i a c, FrStop r q m i a c ∈ fs
  | V_empty | V_failed => True
  end.

Lemma verdict_shown_app v fs gs : verdict_shown v gs -> verdict_shown v (fs ++ gs).
Proof.
  destruct v; simpl; try done.
  - intros (m & c & s & a & H). exists m, c, s, a. apply elem_of_app. by right.
  - intros (r & q & m & i & a & c & H). exists r, q, m, i, a, c. apply elem_of_app. by right.
Qed.

(** ** The end of a turn *)
Section Finish.
Variables (uuid4 clock : nat -> Z) (UUID : string -> option Z) (repr : json -> string)
  (answer_meta : string -> json -> json -> odict json).

Definition new_message (w : ChatState) (chat_id : Z) (role text : string) (meta : odict json) : ChatMessage :=
  {| cm_id := uuid4 (ch_uuids w); cm_chat_id := chat_id; cm_role := role; cm_text := text;
     cm_meta := meta; cm_created_at := clock (ch_clock w) |}.

Lemma create_message_run chat_id role text meta w :
  create_message uuid4 clock chat_id role text meta w
  = (Ok (new_message w chat_id role text meta),
     committed (insert_message (new_message w chat_id role text meta) (tick (draw w)))).
Proof. done. Qed.

(** What [finish] does to the turn's row, to the committed rows and to the
    stream, by verdict. *)
Record finish_post (id : Z) (v : Verdict) (a : RunAcc) (w w' : ChatState) : Prop := {
  fp_status : exists t', find_turn id (ch_db w') = Some t' /\ tn_status t' = verdict_status v;
  fp_durable : match v with
               | V_answered => cd_turns (ch_durable w') = cd_turns (ch_db w)
               | V_empty => ch_durable w' = ch_durable w
               | V_paused => ch_durable w' = ch_db w'
               | V_failed => exists t', find_turn id (ch_durable w') = Some t' /\ tn_status t' = TURN_FAILED
               end;
  fp_out : exists fs, ch_out w' = ch_out w ++ fs /\ (forall title, FrChatTitle title ∉ fs) /\
           verdict_shown v fs /\ terminals fs = match v with
                          | V_failed => if ra_terminal_event_emitted a then 0%nat else 1%nat
                          | _ => 1%nat
                          end
}.

Lemma find_upd_some id f w t :
  (forall t, tn_id (f t) = tn_id t) -> find_turn id (ch_db w) = Some t ->
  find_turn id (ch_db (upd_row id f w)) = Some (f t).
Proof. intros Hf H. by rewrite find_upd_row, H. Qed.

Lemma finish_answer_post args id um a w t :
  find_turn id (ch_db w) = Some t ->
  exists ts w', finish_answer uuid4 clock answer_meta args id um a w = (Ok ts, w') /\
    finish_post id V_answered a w w' /\
    ts = (transition PH_COMPLETED (transition PH_FINAL_PERSISTED (ra_turn a)).2).2.
Proof.
  intros Ht. unfold finish_answer, create_assistant_message.
  erewrite bind_run_Ok by apply create_message_run.
  set (m := new_message _ _ _ _ _). set (w1 := committed _).
  assert (exists c, (match um with
       | Some u => if str_empty (key_of (ta_idempotency_key args)) then mret tt
                   else cache_result (key_of (ta_idempotency_key args)) (u, cm_id m)
       | None => mret tt
       end : chat unit) w1 = (Ok tt, c) /\ ch_db c = ch_db w1 /\ ch_durable c = ch_durable w1
       /\ ch_out c = ch_out w1) as (c & Hc & Hdb & Hdur & Hout).
  { destruct um as [u|]; [|by eexists]. destruct (str_empty _); by eexists. }
  rewrite (bind_run_Ok _ _ _ _ _ Hc).
  assert (find_turn id (ch_db c) = Some t) as Htc by by rewrite Hdb.
  rewrite (bind_run_Ok _ _ _ _ _ (complete_turn_run clock id (Some (cm_id m)) c t Htc)).
  eexists _, _. split; [reflexivity|]. split; [|done]. split.
  - exists (complete_row (clock (ch_clock c)) (Some (cm_id m)) t). split; [|done]. simpl.
    by apply (find_upd_some id (complete_row (clock (ch_clock c)) (Some (cm_id m))) (tick c)).
  - simpl. by rewrite Hdur.
  - eexists. simpl. rewrite <- app_assoc, Hout. split; [reflexivity|]. split; [set_solver|].
    split; [|done]. eexists _, _, _, _. by left.
Qed.

Lemma finish_empty_post id a w t :
  find_turn id (ch_db w) = Some t ->
  exists w', finish_empty clock id a w = (Ok (force_error (ra_turn a)), w') /\ finish_post id V_empty a w w'.
Proof.
  intros Ht. unfold finish_empty. rewrite (bind_run_Ok _ _ _ _ _ (fail_turn_run clock id _ w t Ht)).
  eexists. split; [reflexivity|]. split; simpl.
  - exists (fail_row (clock (ch_clock w)) "Empty response from agent" t). split; [|done].
    by apply (find_upd_some id (fail_row (clock (ch_clock w)) _) (tick w)).
  - done.
  - eexists. split; [reflexivity|]. split; [set_solver|done].
Qed.

Lemma finish_paused_run id a w t :
  find_turn id (ch_db w) = Some t -> pause_run_ok UUID (ra_paused_run_id a) = true ->
  let f t := pause_row (clock (ch_clock w)) (or_str (ra_paused_reason a) "paused") (ra_paused_action a)
               (ra_paused_context a) (paused_run_row UUID (ra_paused_run_id a) t) in
  exists fr, finish_paused clock UUID repr id a w
  = (Ok (ra_turn a), emit [fr] (committed (upd_row id f (tick w)))) /\
    exists r q m i a c, fr = FrStop r q m i a c.
Proof.
  intros Ht Hr f. eexists. unfold finish_paused.
  rewrite (bind_run_Ok _ _ _ _ _ (pause_turn_run clock UUID id _ _ _ _ w t Ht Hr)).
  split; [reflexivity|]. by eexists _, _, _, _, _, _.
Qed.

Lemma finish_paused_post id a w t :
  find_turn id (ch_db w) = Some t -> pause_run_ok UUID (ra_paused_run_id a) = true ->
  exists w', finish_paused clock UUID repr id a w = (Ok (ra_turn a), w') /\ finish_post id V_paused a w w'.
Proof.
  intros Ht Hr. destruct (finish_paused_run id a w t Ht Hr) as (fr & -> & r & q & m & i & ac & co & ->).
  eexists. split; [reflexivity|]. split.
  - eexists. split; [apply (find_upd_some id _ (tick w) t)|]; try done.
    intros t'. unfold paused_run_row. by destruct (str_empty _).
  - done.
  - eexists. split; [reflexivity|]. split; [set_solver|]. split; [|done].
    exists r, q, m, i, ac, co. by left.
Qed.

Lemma finish_error_post args id e a w t :
  find_turn id (ch_db w) = Some t ->
  exists w', finish_error uuid4 clock answer_meta args id e a w = (Ok (force_error (ra_turn a)), w') /\
    finish_post id V_failed a w w'.
Proof.
  intros Ht. unfold finish_error, create_assistant_message.
  rewrite (bind_run_Ok _ _ _ _ _ (fail_turn_run clock id (ne_operator_message e) w t Ht)).
  set (f := fail_row _ _). set (w1 := upd_row _ _ _).
  assert (find_turn id (ch_db w1) = Some (f t)) as Hf by by apply find_upd_some.
  set (mk := if negb _ then _ else _).
  assert (exists m, mk w1 = (Ok m, committed (insert_message m (tick (draw w1))))) as [m Hm].
  { unfold mk. destruct (negb _); eexists; apply create_message_run. }
  rewrite (bind_run_Ok _ _ _ _ _ Hm). set (w2 := committed _).
  rewrite (bind_run_Ok _ _ _ _ _ (attach_assistant_run id (cm_id m) w2 (f t) Hf)).
  exists (emit (if ra_terminal_event_emitted a then []
                else [FrError (ne_user_message e) (Some (ne_code e))])
           (upd_row id (set_assistant (cm_id m)) w2)). split.
  { destruct (ra_terminal_event_emitted a); [|reflexivity]. by rewrite emit_nil. }
  split; simpl.
  - eexists. split; [by apply (find_upd_some id (set_assistant (cm_id m)) w2)|done].
  - exists (f t). done.
  - eexists. split; [reflexivity|]. split; [|split; [done|]].
    + destruct (ra_terminal_event_emitted a); set_solver.
    + by destruct (ra_terminal_event_emitted a).
Qed.

(** The four ends together. *)
Lemma finish_spec args id um a w t :
  find_turn id (ch_db w) = Some t ->
  (acc_verdict a = V_paused -> pause_run_ok UUID (ra_paused_run_id a) = true) ->
  exists ts w', finish uuid4 clock UUID repr answer_meta args id um a w = (Ok ts, w') /\
    finish_post id (acc_verdict a) a w w' /\
    ts = match acc_verdict a with
         | V_answered => (transition PH_COMPLETED (transition PH_FINAL_PERSISTED (ra_turn a)).2).2
         | V_paused => ra_turn a
         | V_empty | V_failed => force_error (ra_turn a)
         end.
Proof.
  intros Ht. unfold finish, acc_verdict. destruct (ra_error a) as [e|].
  - destruct (ra_paused a); intros Hr.
    + destruct (finish_paused_post id a w t Ht (Hr eq_refl)) as (w' & -> & ?). by eexists _, _.
    + destruct (finish_error_post args id e a w t Ht) as (w' & -> & ?). by eexists _, _.
  - destruct (negb (str_empty (ra_content a))); intros Hr.
    + destruct (finish_answer_post args id um a w t Ht) as (ts & w' & -> & ? & ->). by eexists _, _.
    + destruct (ra_paused a); simpl in *.
      * destruct (finish_paused_post id a w t Ht (Hr eq_refl)) as (w' & -> & ?). by eexists _, _.
      * destruct (finish_empty_post id a w t Ht) as (w' & -> & ?). by eexists _, _.
Qed.
End Finish.

(** ** What a run amounts to, read off its events *)
Definition is_error_event (ev : RouterEvent) : bool := match ev with EvError _ _ => true | _ => false end.
Definition is_pause_event (ev : RouterEvent) : bool := match ev with EvRunPaused _ _ _ _ => true | _ => false end.

(** The answer: the deltas appended, each final content replacing what came before. *)
Definition run_text (evs : list RouterEvent) : string :=
  foldl (fun t ev => match ev with
                     | EvDelta c => t +:+ c
                     | EvFinalContent c _ _ _ => c
                     | _ => t
                     end) "" evs.

(** The run identifier of the last pause. *)
Definition run_pause_id (evs : list RouterEvent) : option string :=
  foldl (fun r ev => match ev with EvRunPaused id _ _ _ => id | _ => r end) None evs.

(** The last pause: run identifier, reason, action and context. *)
Definition last_pause (evs : list RouterEvent) : option (option string * option string * json * json) :=
  foldl (fun p ev => match ev with EvRunPaused id r a c => Some (id, r, a, c) | _ => p end) None evs.

Definition run_raises (run : RouterRun) : bool := match rr_raises run with Some _ => true | None => false end.
Definition run_failed (run : RouterRun) : bool := existsb is_error_event (rr_events run) || run_raises run.
Definition run_paused (run : RouterRun) : bool := existsb is_pause_event (rr_events run).

Definition verdict (run : RouterRun) : Verdict :=
  if run_failed run then (if run_paused run then V_paused else V_failed)
  else if negb (str_empty (run_text (rr_events run))) then V_answered
  else if run_paused run then V_paused else V_empty.

(** The phase of a run that does not pause. *)
Definition is_delta_event (ev : RouterEvent) : bool := match ev with EvDelta _ => true | _ => false end.

Lemma run_acc_phase evs :
  existsb is_pause_event evs = false ->
  ra_turn (run_acc evs (initial_acc {| cts_phase := PH_EXECUTION_STARTED; cts_warnings := [] |}))
  = {| cts_phase := if existsb is_delta_event evs then PH_DELTA_STREAMING else PH_EXECUTION_STARTED;
       cts_warnings := [] |}.
Proof.
  induction evs as [|ev evs IH] using rev_ind; [done|]. rewrite !existsb_app. simpl.
  intros [Hp Hev]%orb_false_iff. unfold run_acc. rewrite foldl_app. simpl. fold (run_acc evs).
  specialize (IH Hp). unfold run_acc in *. destruct ev; simpl; rewrite ?orb_false_r; try exact IH; [|done].
  rewrite IH. destruct (existsb is_delta_event evs); simpl; [done|].
  reflexivity.
Qed.

Lemma run_acc_app evs ev a : run_acc (evs ++ [ev]) a = on_event ev (run_acc evs a).
Proof. unfold run_acc. by rewrite foldl_app. Qed.

Lemma run_acc_facts evs turn :
  let a := run_acc evs (initial_acc turn) in
  ra_content a = run_text evs /\ ra_paused a = existsb is_pause_event evs /\
  ra_paused_run_id a = run_pause_id evs /\
  (match ra_error a with Some _ => true | None => false end) = existsb is_error_event evs /\
  ra_terminal_event_emitted a = existsb is_error_event evs.
Proof.
  induction evs as [|ev evs IH] using rev_ind; [done|]. simpl in *. rewrite run_acc_app.
  unfold run_text, run_pause_id in *. rewrite !foldl_app, !existsb_app.
  destruct IH as (Hc & Hp & Hi & He & Ht).
  destruct ev; simpl; rewrite ?orb_false_r, ?orb_true_r, ?Hc; done.
Qed.

Lemma run_acc_pause evs turn id r act ctx :
  last_pause evs = Some (id, r, act, ctx) ->
  let a := run_acc evs (initial_acc turn) in
  ra_paused_run_id a = id /\ ra_paused_reason a = r /\ ra_paused_action a = act /\ ra_paused_context a = ctx.
Proof.
  induction evs as [|ev evs IH] using rev_ind; [done|]. simpl in *. rewrite run_acc_app.
  unfold last_pause. rewrite foldl_app. simpl. destruct ev; simpl; try exact IH. by intros [= -> -> -> ->].
Qed.

Section Run.
Variables (uuid4 clock : nat -> Z).

Definition raise_frames (run : RouterRun) : list Frame :=
  match rr_raises run with
  | Some raw => let e := normalize_runtime_error "unknown_runtime_error" raw in
                [FrError (ne_user_message e) (Some (ne_code e))]
  | None => []
  end.

Definition pre_run (run : RouterRun) (w : ChatState) : ChatState :=
  if rr_commits run then committed w else w.

(** The accumulators after the run, with the error of an exception. *)
Definition final_acc (run : RouterRun) (turn : ChatTurnState) : RunAcc :=
  let a := run_acc (rr_events run) (initial_acc turn) in
  match rr_raises run with
  | Some raw => with_run_error (normalize_runtime_error "unknown_runtime_error" raw) a
  | None => a
  end.

Lemma final_acc_verdict run turn : acc_verdict (final_acc run turn) = verdict run.
Proof.
  destruct (run_acc_facts (rr_events run) turn) as (Hc & Hp & Hi & He & Ht). cbv zeta in *.
  unfold acc_verdict, verdict, final_acc, run_failed, run_raises, run_paused.
  destruct (rr_raises run) as [raw|]; simpl; [by rewrite Hp, orb_true_r|]. rewrite orb_false_r, Hc, Hp, <- He.
  destruct (ra_error _); [done|]. repeat (destruct (existsb _ _) || destruct (str_empty _)); done.
Qed.

Lemma final_acc_pause_id run turn : ra_paused_run_id (final_acc run turn) = run_pause_id (rr_events run).
Proof.
  destruct (run_acc_facts (rr_events run) turn) as (_ & _ & Hi & _). unfold final_acc.
  by destruct (rr_raises run).
Qed.

Lemma final_acc_emitted run turn :
  ra_terminal_event_emitted (final_acc run turn) = existsb is_error_event (rr_events run).
Proof.
  destruct (run_acc_facts (rr_events run) turn) as (_ & _ & _ & _ & Ht). unfold final_acc.
  by destruct (rr_raises run).
Qed.

Lemma run_agents_spec id run turn w t :
  find_turn id (ch_db w) = Some t ->
  exists w' t', run_agents clock id run turn w = (Ok (final_acc run turn), w') /\
    find_turn id (ch_db w') = Some t' /\
    ch_out w' = ch_out w ++ passed (rr_events run) ++ raise_frames run /\
    (rr_raises run = None -> ch_db w' = ch_db w /\ ch_durable w' = ch_durable (pre_run run w)).
Proof.
  intros Ht. unfold run_agents.
  assert ((if rr_commits run then commit else mret tt : chat unit) w = (Ok tt, pre_run run w)) as Hc.
  { unfold pre_run. by destruct (rr_commits run). }
  rewrite (bind_run_Ok _ _ _ _ _ Hc), (bind_run_Ok _ _ _ _ _ (consume_run _ _ _)).
  assert (find_turn id (ch_db (emit (passed (rr_events run)) (pre_run run w))) = Some t) as Hf.
  { unfold pre_run. by destruct (rr_commits run). }
  assert (ch_out (pre_run run w) = ch_out w) as Ho by (unfold pre_run; by destruct (rr_commits run)).
  assert (ch_db (pre_run run w) = ch_db w) as Hd by (unfold pre_run; by destruct (rr_commits run)).
  unfold final_acc, raise_frames. destruct (rr_raises run) as [raw|].
  - rewrite (bind_run_Ok _ _ _ _ _ (fail_turn_run clock id _ _ t Hf)). eexists _, _.
    split; [reflexivity|]. split; [|split; [|done]].
    + apply (find_upd_some id (fail_row _ _) (tick _) t); [done|exact Hf].
    + simpl. by rewrite Ho, app_assoc.
  - eexists _, t. split; [reflexivity|]. split; [exact Hf|]. simpl. rewrite Ho, app_nil_r. done.
Qed.

Lemma terminals_passed evs : terminals (passed evs) = length (List.filter is_error_event evs).
Proof.
  unfold terminals, passed. induction evs as [|ev evs IH]; [done|]. simpl.
  destruct ev; simpl; rewrite ?IH; done.
Qed.

Lemma passed_title evs title : FrChatTitle title ∉ passed evs.
Proof. unfold passed. rewrite list_elem_of_fmap. intros (ev & [=] & _). Qed.
End Run.

(** ** The whole turn *)
Section WholeTurn.
Variables (uuid4 clock : nat -> Z) (UUID : string -> option Z) (sha256 : string -> string)
  (repr : json -> string) (bind_attachments : list string -> Z -> option ChatExc)
  (answer_meta : string -> json -> json -> odict json) (generate_chat_title : string -> option string).

(** Identifiers in use come from the generator, and it does not repeat itself. *)
Definition turn_ids_used (d : ChatDb) (n : nat) : Prop :=
  forall t, t ∈ cd_turns d -> exists k, (k < n)%nat /\ tn_id t = uuid4 k.

(** The phase when the run starts. *)
Definition running_state : ChatTurnState := {| cts_phase := PH_EXECUTION_STARTED; cts_warnings := [] |}.

Lemma llm_messages_not_first args w :
  exists context, llm_messages args w = (Ok context, w) /\ is_first_message context = false.
Proof.
  unfold llm_messages, mbind, py_bind.
  assert (forall l, is_first_message (l ++ [{| cx_role := "user"; cx_content := ta_content args |}]) = false) as H.
  { intros l. unfold is_first_message. rewrite List.filter_app, length_app. simpl.
    apply bool_decide_eq_false. lia. }
  destruct (ta_preloaded_context args); eexists; (split; [reflexivity|apply H]).
Qed.

Lemma resolve_run_id_run args w :
  exists r w', resolve_run_id uuid4 UUID args w = (Ok r, w') /\ (w' = w \/ w' = draw w).
Proof.
  unfold resolve_run_id. destruct (UUID _); [destruct (str_empty _)|]; eexists _, _; split; eauto; reflexivity.
Qed.

(** The state in which the run starts: the turn's row, and nothing terminal
    sent so far. *)
Record ready_post (args : TurnArgs) (id : Z) (w w1 : ChatState) : Prop := {
  rp_row : exists t, find_turn id (ch_db w1) = Some t;
  rp_out : exists fs, ch_out w1 = ch_out w ++ fs /\ terminals fs = 0%nat /\ (forall title, FrChatTitle title ∉ fs);
  rp_fresh : ta_resumed_turn_id args = None ->
     exists t, cd_turns (ch_db w1) = cd_turns (ch_db w) ++ [t] /\ tn_id t = id /\
               id ∉ map tn_id (cd_turns (ch_db w)) /\
               tn_chat_id t = ta_chat_id args /\ tn_user_id t = ta_user_id args /\
               tn_idempotency_key t = ta_idempotency_key args /\ tn_status t = TURN_STARTED /\
               tn_request_hash t = Some (build_request_hash sha256
                                           (hash_payload (ta_content args) (ta_artifact_ids args)));
  rp_resumed : forall id', ta_resumed_turn_id args = Some id' ->
     id = id' /\ map tn_id (cd_turns (ch_db w1)) = map tn_id (cd_turns (ch_db w));
  rp_cache : ch_cache w1 = ch_cache w
}.

Lemma map_upd_fresh id f (l : list ChatTurn) :
  id ∉ map tn_id l -> map (fun t => if Z.eqb (tn_id t) id then f t else t) l = l.
Proof.
  induction l as [|t l IH]; simpl; [done|]. rewrite not_elem_of_cons. intros [Hn Hl]. rewrite IH by done.
  destruct (Z.eqb_spec (tn_id t) id); congruence.
Qed.

Lemma open_turn_ready args r w :
  Inj eq eq uuid4 -> turn_ids_used (ch_db w) (ch_uuids w) ->
  (forall id, ta_resumed_turn_id args = Some id -> is_Some (find_turn id (ch_db w))) ->
  exists id w1, open_turn uuid4 clock sha256 args r w = (Ok id, w1) /\ ready_post args id w w1 /\
    ch_out w1 = ch_out w.
Proof.
  intros Hinj Hids Hres. unfold open_turn. destruct (ta_resumed_turn_id args) as [id|] eqn:Er.
  - destruct (Hres id eq_refl) as [t Ht]. exists id, w. split; [reflexivity|]. split; [|done].
    split; [by eexists| |congruence|intros id'; rewrite Er; by intros [= ->]|done].
    exists []. rewrite app_nil_r. split; [done|]. split; [done|set_solver].
  - assert (uuid4 (ch_uuids w) ∉ map tn_id (cd_turns (ch_db w))) as Hn.
    { intros (t & Ht & Hin)%list_elem_of_fmap. destruct (Hids t Hin) as (k & Hk & Hk').
      rewrite Hk' in Ht. apply Hinj in Ht. lia. }
    eexists _, _. split; [reflexivity|]. split; [|done]. split; simpl; [| | |congruence|done].
    + eexists. apply find_turn_fresh; [exact Hn|done].
    + exists []. rewrite app_nil_r. split; [done|]. split; [done|set_solver].
    + intros _. eexists. split; [reflexivity|]. done.
Qed.

Lemma persist_user_ready args id w w0 :
  (forall ids m, bind_attachments ids m = None) ->
  ready_post args id w0 w -> ch_out w = ch_out w0 ->
  exists um w1, persist_user uuid4 clock bind_attachments args id w = (Ok um, w1) /\
    ready_post args id w0 w1 /\ (ta_persist_user_message args = true -> is_Some um).
Proof.
  intros Hb Hrp Ho. unfold persist_user.
  destruct (ta_persist_user_message args); [|by exists None, w].
  destruct Hrp as [[t Ht] Hout Hfr Hre Hca].
  unfold create_user_message, yield_frame. erewrite bind_run_Ok by reflexivity.
  erewrite bind_run_Ok by apply create_message_run.
  set (m := new_message _ _ _ _ _ _ _). set (w1 := committed _).
  assert ((match ta_artifact_ids args with
       | [] => mret tt
       | s :: l => match bind_attachments (s :: l) (cm_id m) with Some e => raise e | None => mret tt end
       end : chat unit) w1 = (Ok tt, w1)) as Hbind by (destruct (ta_artifact_ids args); by rewrite ?Hb).
  rewrite (bind_run_Ok _ _ _ _ _ Hbind).
  rewrite (bind_run_Ok _ _ _ _ _ (attach_user_run id (cm_id m) w1 t Ht)).
  eexists (Some (cm_id m)), _. split; [reflexivity|]. split; [|by eexists].
  split; [| | | |done].
  - eexists. by apply (find_upd_some id (set_user (cm_id m)) w1 t).
  - eexists. simpl. rewrite Ho, <- app_assoc. split; [reflexivity|]. split; [done|set_solver].
  - intros Hn. destruct (Hfr Hn) as (t0 & Hts & Hid & Hni & Hrest). simpl. rewrite Hts, map_app, map_upd_fresh by done.
    simpl. rewrite Hid, Z.eqb_refl. exists (set_user (cm_id m) t0). by simpl.
  - intros id' Hr. destruct (Hre id' Hr) as [-> <-]. split; [done|]. simpl. rewrite map_map.
    apply map_ext. intros t'. by destruct (_ =? _).
Qed.

Lemma ready_post_emit args id w0 w fs :
  terminals fs = 0%nat -> (forall title, FrChatTitle title ∉ fs) ->
  ready_post args id w0 w -> ready_post args id w0 (emit fs w).
Proof.
  intros Hfs Hti [Hr (gs & Ho & Hgs & Hgt) Hfr Hre Hca]. split; try done. exists (gs ++ fs). simpl.
  rewrite Ho, <- app_assoc, terminals_app, Hfs, Hgs. split; [done|]. split; [done|set_solver].
Qed.

(** A turn is its preparation, the run, and its end. *)
Lemma execute_turn_split args run w :
  Inj eq eq uuid4 -> turn_ids_used (ch_db w) (ch_uuids w) ->
  (forall id, ta_resumed_turn_id args = Some id -> is_Some (find_turn id (ch_db w))) ->
  (forall ids m, bind_attachments ids m = None) ->
  exists id um w1, ready_post args id w w1 /\ (ta_persist_user_message args = true -> is_Some um) /\
    execute_turn uuid4 clock UUID sha256 repr bind_attachments answer_meta generate_chat_title args run w
    = (run_agents clock id run running_state ≫= fun a =>
         finish uuid4 clock UUID repr answer_meta args id um a) w1.
Proof.
  intros Hinj Hids Hres Hb. unfold execute_turn.
  destruct (resolve_run_id_run args w) as (r & wr & Hr & Hwr). rewrite (bind_run_Ok _ _ _ _ _ Hr).
  assert (turn_ids_used (ch_db wr) (ch_uuids wr)) as Hids'.
  { destruct Hwr as [->| ->]; [done|]. intros t Ht. destruct (Hids t Ht) as (k & Hk & ?). exists k.
    simpl. split; [lia|done]. }
  assert (ch_db wr = ch_db w /\ ch_out wr = ch_out w /\ ch_cache wr = ch_cache w) as (Hdb & Hout & Hca).
  { by destruct Hwr as [->| ->]. }
  rewrite <- Hdb in Hres.
  destruct (open_turn_ready args r wr Hinj Hids' Hres) as (id & wo & Ho & Hrp & Hoo).
  rewrite (bind_run_Ok _ _ _ _ _ Ho).
  destruct (persist_user_ready args id wo wr Hb Hrp Hoo) as (um & wu & Hu & Hrp' & Hum).
  rewrite (bind_run_Ok _ _ _ _ _ Hu). unfold yield_frame. erewrite bind_run_Ok by reflexivity.
  destruct (llm_messages_not_first args (emit [FrStatus "loading_context"] wu)) as (ctx & Hc & Hfirst).
  erewrite bind_run_Ok by apply Hc.
  unfold maybe_title. rewrite Hfirst. simpl. erewrite bind_run_Ok by reflexivity.
  erewrite bind_run_Ok by reflexivity.
  exists id, um, (emit [FrStatus "agent_running"] (emit [FrStatus "loading_context"] wu)).
  split; [|split; [done|reflexivity]].
  apply ready_post_emit; [done|set_solver|]. apply ready_post_emit; [done|set_solver|].
  destruct Hrp' as [H1 H2 H3 H4 H5]. rewrite Hdb, Hout, Hca in *. by split.
Qed.

(** What a turn leaves behind. *)
Record turn_post (args : TurnArgs) (run : RouterRun) (w w' : ChatState) (id : Z) : Prop := {
  tp_status : exists t, find_turn id (ch_db w') = Some t /\ tn_status t = verdict_status (verdict run);
  tp_fresh : ta_resumed_turn_id args = None -> id ∉ map tn_id (cd_turns (ch_db w));
  tp_resumed : forall id', ta_resumed_turn_id args = Some id' -> id = id';
  tp_out : exists fs, ch_out w' = ch_out w ++ fs /\ (forall title, FrChatTitle title ∉ fs) /\
    verdict_shown (verdict run) fs /\ terminals fs = (length (List.filter is_error_event (rr_events run))
                    + (if run_raises run then 1 else 0)
                    + match verdict run with
                      | V_failed => if existsb is_error_event (rr_events run) then 0 else 1
                      | _ => 1
                      end)%nat
}.

Lemma execute_turn_post args run w :
  Inj eq eq uuid4 -> turn_ids_used (ch_db w) (ch_uuids w) ->
  (forall id, ta_resumed_turn_id args = Some id -> is_Some (find_turn id (ch_db w))) ->
  (forall ids m, bind_attachments ids m = None) ->
  (verdict run = V_paused -> pause_run_ok UUID (run_pause_id (rr_events run)) = true) ->
  exists ts w' id,
    execute_turn uuid4 clock UUID sha256 repr bind_attachments answer_meta generate_chat_title args run w
    = (Ok ts, w') /\ turn_post args run w w' id.
Proof.
  intros Hinj Hids Hres Hb Hp.
  destruct (execute_turn_split args run w Hinj Hids Hres Hb) as (id & um & w1 & Hrp & _ & ->).
  destruct Hrp as [[t1 Ht1] (fs1 & Ho1 & Hf1 & Hti1) Hfr Hre _].
  destruct (run_agents_spec clock id run running_state w1 t1 Ht1) as (w2 & t2 & Hrun & Ht2 & Ho2 & _).
  rewrite (bind_run_Ok _ _ _ _ _ Hrun).
  edestruct (finish_spec uuid4 clock UUID repr answer_meta args id um (final_acc run running_state) w2 t2 Ht2)
    as (ts & w3 & -> & [Hst _ (fs3 & Ho3 & Hti3 & Hsh & Hf3)] & _).
  { rewrite final_acc_verdict, final_acc_pause_id. exact Hp. }
  rewrite final_acc_verdict in *. rewrite final_acc_emitted in Hf3.
  exists ts, w3, id. split; [done|]. split; [done| | |].
  - intros Hn. by destruct (Hfr Hn) as (? & _ & _ & ? & _).
  - intros id' Hr. by destruct (Hre id' Hr).
  - exists (fs1 ++ passed (rr_events run) ++ raise_frames run ++ fs3).
    rewrite Ho3, Ho2, Ho1, <- !app_assoc. split; [done|]. split.
    + intros title. rewrite !not_elem_of_app. split; [apply Hti1|]. split; [apply passed_title|].
      split; [|apply Hti3]. unfold raise_frames. destruct (rr_raises run) as [raw|]; [|by apply not_elem_of_nil].
      by intros [=]%list_elem_of_singleton.
    + split; [by apply verdict_shown_app, verdict_shown_app, verdict_shown_app|].
      rewrite !terminals_app, Hf1, Hf3, terminals_passed. unfold raise_frames, run_raises.
      destruct (rr_raises run); simpl; destruct (verdict run); unfold terminals; simpl; lia.
Qed.
End WholeTurn.
