(* ===== verification/ChatProperties.v ===== *)
(** * What a chat turn promises *)
From S2P Require Import Prelude ChatTurn ChatHitl ChatStream ChatProofs.
Open Scope Z_scope.

Section Properties.
Variables (uuid4 clock : nat -> Z) (UUID : string -> option Z) (sha256 : string -> string)
  (repr : json -> string) (uuid_str : Z -> string) (bind_attachments : list string -> Z -> option ChatExc)
  (answer_meta : string -> json -> json -> odict json) (generate_chat_title : string -> option string).

#[local] Abbreviation run_turn :=
  (execute_turn uuid4 clock UUID sha256 repr bind_attachments answer_meta generate_chat_title).

(** What holds when a turn starts: fresh identifiers, an existing row when a
    paused turn is continued, attachments that can be bound. *)
Record turn_pre (args : TurnArgs) (w : ChatState) : Prop := {
  pre_uuid4 : Inj eq eq uuid4;
  pre_ids : turn_ids_used uuid4 (ch_db w) (ch_uuids w);
  pre_row : forall id, ta_resumed_turn_id args = Some id -> is_Some (find_turn id (ch_db w));
  pre_bind : forall ids m, bind_attachments ids m = None
}.


(** What the client sees of the end of a turn: the answer or the stop frame that
    the verdict calls for, and a number of terminal frames that is one when
    nothing failed or when one error was reported without a pause, and two when
    the runtime raises without having reported an error: the failure is sent once
    by the exception handler and once more by the error branch after it. *)
Theorem turn_terminal_frames args run w :
  turn_pre args w ->
  (verdict run = V_paused -> pause_run_ok UUID (run_pause_id (rr_events run)) = true) ->
  exists ts w' fs,
    run_turn args run w = (Ok ts, w') /\ ch_out w' = ch_out w ++ fs /\
    verdict_shown (verdict run) fs /\
    (run_failed run = false -> terminals fs = 1%nat) /\
    (length (List.filter is_error_event (rr_events run)) = 1%nat -> run_raises run = false ->
     run_paused run = false -> terminals fs = 1%nat) /\
    (existsb is_error_event (rr_events run) = false -> run_raises run = true -> terminals fs = 2%nat).
Proof.
  intros [Hi Hids Hrow Hb] Hp.
  destruct (execute_turn_post uuid4 clock UUID sha256 repr bind_attachments answer_meta generate_chat_title
              args run w Hi Hids Hrow Hb Hp) as (ts & w' & id & Hrun & [_ _ _ (fs & Ho & _ & Hsh & Hf)]).
  exists ts, w', fs. split; [exact Hrun|]. split; [exact Ho|]. split; [exact Hsh|]. rewrite Hf.
  assert (forall evs, existsb is_error_event evs = false <-> length (List.filter is_error_event evs) = 0%nat) as Hex.
  { induction evs as [|ev evs IH]; simpl; [done|]. destruct (is_error_event ev); simpl; [done|exact IH]. }
  unfold verdict, run_failed. split_and!.
  - intros [He ->]%orb_false_iff. rewrite He. apply Hex in He. rewrite He. simpl.
    by destruct (str_empty (run_text (rr_events run))), (run_paused run).
  - intros H1 -> ->. rewrite H1. destruct (existsb _ _) eqn:He; [done|]. apply Hex in He. lia.
  - intros He ->. rewrite He. apply Hex in He. rewrite He. simpl. by destruct (run_paused run).
Qed.

(** No turn ever sends a chat title, whatever the chat's name, its history and
    the title service: the user's message has been appended to the list in which
    earlier user messages are counted. *)
Theorem turn_never_titles args run w :
  turn_pre args w ->
  (verdict run = V_paused -> pause_run_ok UUID (run_pause_id (rr_events run)) = true) ->
  exists ts w' fs, run_turn args run w = (Ok ts, w') /\ ch_out w' = ch_out w ++ fs /\
    forall title, FrChatTitle title ∉ fs.
Proof.
  intros [Hi Hids Hrow Hb] Hp.
  destruct (execute_turn_post uuid4 clock UUID sha256 repr bind_attachments answer_meta generate_chat_title
              args run w Hi Hids Hrow Hb Hp) as (ts & w' & id & Hrun & [_ _ _ (fs & Ho & Hti & _)]).
  by exists ts, w', fs.
Qed.
(** A run that does not pause goes through valid phases only (no transition is
    logged as invalid) and ends in a terminal phase: COMPLETED when it was
    answered, ERROR otherwise. *)
Theorem turn_phases_valid args run w :
  turn_pre args w -> run_paused run = false ->
  exists ts w', run_turn args run w = (Ok ts, w') /\ cts_warnings ts = [] /\ is_terminal ts = true /\
    (cts_phase ts = PH_COMPLETED <-> verdict run = V_answered).
Proof.
  intros [Hi Hids Hrow Hb] Hp.
  destruct (execute_turn_split uuid4 clock UUID sha256 repr bind_attachments answer_meta generate_chat_title
              args run w Hi Hids Hrow Hb) as (id & um & w1 & [[t1 Ht1] _ _ _ _] & _ & ->).
  destruct (run_agents_spec clock id run running_state w1 t1 Ht1) as (w2 & t2 & Hrun & Ht2 & _ & _).
  rewrite (bind_run_Ok _ _ _ _ _ Hrun).
  assert (verdict run <> V_paused) as Hv.
  { unfold verdict. rewrite Hp. by destruct (run_failed run), (str_empty (run_text (rr_events run))). }
  edestruct (finish_spec uuid4 clock UUID repr answer_meta args id um (final_acc run running_state) w2 t2 Ht2)
    as (ts & w3 & -> & _ & ->); [by rewrite final_acc_verdict|].
  eexists _, w3. split; [reflexivity|]. rewrite final_acc_verdict in *.
  pose proof (run_acc_phase (rr_events run) Hp) as Hph. fold running_state in Hph. unfold final_acc.
  destruct (verdict run) eqn:Ev; try done.
  - unfold verdict, run_failed, run_raises in Ev.
    destruct (rr_raises run); [by rewrite orb_true_r, Hp in Ev|]. rewrite Hph.
    destruct (existsb is_delta_event _); vm_compute; done.
  - destruct (rr_raises run); simpl; rewrite Hph; done.
  - destruct (rr_raises run); simpl; rewrite Hph; done.
Qed.
(** *** Whole requests *)
Variables (get_chat_by_id : Z -> option (option string)) (artifact_metadata : list string -> option (list json)).

#[local] Abbreviation stream :=
  (send_message_stream uuid4 clock UUID sha256 repr bind_attachments answer_meta generate_chat_title
     get_chat_by_id artifact_metadata).
#[local] Abbreviation one_request :=
  (request uuid4 clock UUID sha256 repr bind_attachments answer_meta generate_chat_title
     get_chat_by_id artifact_metadata).

(** A new request that nothing stands in the way of: the chat exists, its
    artifacts are known and can be bound, its key (if any) is unused. *)
Record request_pre (q : StreamRequest) (w : ChatState) : Prop := {
  rq_uuid4 : Inj eq eq uuid4;
  rq_ids : turn_ids_used uuid4 (ch_db w) (ch_uuids w);
  rq_bind : forall ids m, bind_attachments ids m = None;
  rq_new : sq_resumed_turn_id q = None;
  rq_chat : is_Some (get_chat_by_id (sq_chat_id q));
  rq_artifacts : sq_artifact_ids q = [] \/ is_Some (artifact_metadata (sq_artifact_ids q));
  rq_unused : forall t, t ∈ cd_turns (ch_db w) ->
    same_request (sq_chat_id q) (sq_user_id q) (key_of (sq_idempotency_key q)) t = false;
  rq_uncached : od_get (key_of (sq_idempotency_key q)) (ch_cache w) = None
}.

Lemma latest_one t : latest [t] = Some t.
Proof. done. Qed.

Lemma idempotency_answer_new q w :
  request_pre q w -> idempotency_answer sha256 q w = (Ok None, w).
Proof.
  intros [_ _ _ _ _ _ Hu Hc]. unfold idempotency_answer. destruct (str_empty _); [done|].
  unfold check_turn_idempotency, has_payload_mismatch, get_latest_by_idempotency_key, get_cached_result,
    mbind, py_bind, get_state, mret, py_ret.
  rewrite (filter_none _ _ Hu). change (latest []) with (@None ChatTurn). simpl.
  rewrite (filter_none _ _ Hu). change (latest []) with (@None ChatTurn). simpl. by rewrite Hc.
Qed.

(** A request goes through [execute_turn], and its failures are answered. *)
Lemma stream_runs q run w :
  request_pre q w ->
  exists args, stream q run w = (match run_turn args run w with
                                 | (Ok _, w') => (Ok tt, w')
                                 | (Err _, w') => yield_frame (safe_stream_error "chat_stream_failed"
                                                    "Failed to process chat request") w'
                                 end) /\
    ta_chat_id args = sq_chat_id q /\ ta_user_id args = sq_user_id q /\ ta_content args = sq_content q /\
    ta_artifact_ids args = sq_artifact_ids q /\ ta_idempotency_key args = sq_idempotency_key q /\
    ta_resumed_turn_id args = None /\ ta_persist_user_message args = sq_persist_user_message q.
Proof.
  intros H. unfold send_message_stream. rewrite (bind_run_Ok _ _ _ _ _ (idempotency_answer_new q w H)).
  destruct H as [_ _ _ Hn [name Hc] Ha _ _]. unfold try_except, process_request. rewrite Hc.
  erewrite bind_run_Ok by reflexivity. set (ctx := map _ _).
  assert (exists meta, match sq_artifact_ids q with [] => Some [] | s :: l => artifact_metadata (s :: l) end
                       = Some meta) as [meta Hm].
  { destruct (sq_artifact_ids q); [by eexists|]. destruct Ha as [Ha|[m Ha]]; [done|]. by eexists. }
  rewrite Hm. exists (turn_args q name meta ctx). split; [|by rewrite <- Hn].
  unfold mbind, py_bind. destruct (execute_turn _ _ _ _ _ _ _ _ _ _ _) as [[ts|e] w']; done.
Qed.

Lemma request_turn_pre q args w :
  request_pre q w -> ta_resumed_turn_id args = None -> turn_pre args w.
Proof. intros [Hi Hids Hb _ _ _ _ _] Hr. split; try done. rewrite Hr. done. Qed.
(** An answered request in detail: the session sees the turn completed, but what
    was committed last is the row as it was opened. *)
Lemma answered_request q run w :
  request_pre q w -> verdict run = V_answered ->
  exists w' id t, stream q run w = (Ok tt, w') /\
    (exists t', find_turn id (ch_db w') = Some t' /\ tn_status t' = TURN_COMPLETED) /\
    (exists fs, ch_out w' = ch_out w ++ fs /\ verdict_shown V_answered fs) /\
    cd_turns (ch_durable w') = cd_turns (ch_db w) ++ [t] /\
    tn_id t = id /\ id ∉ map tn_id (cd_turns (ch_db w)) /\
    tn_chat_id t = sq_chat_id q /\ tn_user_id t = sq_user_id q /\
    tn_idempotency_key t = sq_idempotency_key q /\ tn_status t = TURN_STARTED /\
    tn_request_hash t = Some (build_request_hash sha256 (hash_payload (sq_content q) (sq_artifact_ids q))).
Proof.
  intros H Hv. destruct (stream_runs q run w H) as (args & -> & Hca & Hus & Hco & Har & Hke & Hr & _).
  destruct (request_turn_pre q args w H Hr) as [Hi Hids Hrow Hb].
  destruct (execute_turn_split uuid4 clock UUID sha256 repr bind_attachments answer_meta generate_chat_title
              args run w Hi Hids Hrow Hb) as (id & um & w1 & [[t1 Ht1] (fs & Ho & _) Hfr _ _] & _ & ->).
  destruct (run_agents_spec clock id run running_state w1 t1 Ht1) as (w2 & t2 & Hrun & Ht2 & Ho2 & Hdb).
  rewrite (bind_run_Ok _ _ _ _ _ Hrun).
  edestruct (finish_spec uuid4 clock UUID repr answer_meta args id um (final_acc run running_state) w2 t2 Ht2)
    as (ts & w3 & -> & [Hst Hdur (fs3 & Ho3 & _ & Hsh & _)] & _); [by rewrite final_acc_verdict, Hv|].
  rewrite final_acc_verdict, Hv in *.
  assert (rr_raises run = None) as Hnr.
  { unfold verdict, run_failed, run_raises in Hv. destruct (rr_raises run); [|done].
    rewrite orb_true_r in Hv. by destruct (run_paused run). }
  destruct (Hdb Hnr) as [Hdb2 _]. destruct (Hfr Hr) as (t & Hts & Hid & Hni & H1 & H2 & H3 & H4 & H5).
  exists w3, id, t. split; [done|]. split; [done|]. split.
  { eexists. rewrite Ho3, Ho2, Ho, <- !app_assoc. split; [reflexivity|].
    by apply verdict_shown_app, verdict_shown_app, verdict_shown_app. }
  rewrite Hdur, Hdb2, Hts, H1, H2, H3, H4, H5, Hca, Hus, Hco, Har, Hke. done.
Qed.

Lemma same_hash h :
  negb (str_empty (or_str (Some h) "")) && negb (String.eqb (or_str (Some h) "") h) = false.
Proof. unfold or_str. destruct (str_empty h) eqn:E; [done|]. by rewrite String.eqb_refl, andb_false_r. Qed.

(** A request that was answered cannot be retried: the answer and the completed
    turn are shown to the client, but the completion was flushed after the last
    commit, so that once the session is closed the turn is "started" again, and the
    same request with the same key is refused as still in progress. *)
Theorem retry_of_answered_request q run run' w :
  request_pre q w -> key_of (sq_idempotency_key q) <> "" -> verdict run = V_answered ->
  let w' := (stream q run w).2 in
  let w1 := one_request q run w in
  (exists fs, ch_out w1 = ch_out w ++ fs /\ verdict_shown V_answered fs) /\
  (exists t, t ∈ cd_turns (ch_db w') /\ t ∉ cd_turns (ch_db w1) /\ tn_status t = TURN_COMPLETED /\
             tn_id t ∉ map tn_id (cd_turns (ch_db w))) /\
  stream q run' w1
  = (Ok tt, emit [safe_stream_error "idempotency_processing"
                    "Request with this idempotency key is already in progress"] w1).
Proof.
  intros H Hk Hv w' w1.
  destruct (answered_request q run w H Hv) as (w2 & id & t & Hs & (t' & Ht' & Hc) & Hout & Hdur & Hid & Hni &
    Hch & Hus & Hke & Hst & Hha).
  assert (w' = w2) as -> by (unfold w'; by rewrite Hs).
  assert (w1 = close_session w2) as -> by (unfold w1, request; by rewrite Hs).
  split; [exact Hout|]. apply find_turn_id in Ht' as [Hid' Hin']. split.
  - exists t'. split; [done|]. simpl. rewrite Hdur, Hid'. split; [|done]. rewrite elem_of_app.
    intros [Hin| ->%list_elem_of_singleton]; [|congruence]. apply Hni. rewrite <- Hid'.
    by apply list_elem_of_fmap_2.
  - assert (List.filter (same_request (sq_chat_id q) (sq_user_id q) (key_of (sq_idempotency_key q)))
              (cd_turns (ch_db (close_session w2))) = [t]) as Hfil.
    { simpl. rewrite Hdur, List.filter_app, (filter_none _ _ (rq_unused q w H)). simpl.
      unfold same_request. rewrite bool_decide_eq_true_2; [done|]. split; [done|]. split; [done|].
      rewrite Hke. unfold key_of, or_str in *. destruct (sq_idempotency_key q) as [k|]; [|done].
      by destruct (str_empty k). }
    unfold send_message_stream, idempotency_answer, check_turn_idempotency, has_payload_mismatch,
      get_latest_by_idempotency_key, mbind, py_bind, get_state, mret, py_ret.
    destruct (str_empty (key_of (sq_idempotency_key q))) eqn:E; [by apply String.eqb_eq in E|].
    rewrite Hfil, latest_one, Hha, same_hash, Hfil, latest_one, Hst. done.
Qed.
(** *** Resuming *)
Variables (plan_goal : Z -> option string) (checkpoint_id created_at : string).

#[local] Abbreviation resume := (resume_run clock UUID repr uuid_str plan_goal checkpoint_id created_at).

Definition resumed_row (t : ChatTurn) : ChatTurn := set_pause no_pause (set_status TURN_RESUMED t).
Definition cancelled_row (at_ : Z) (t : ChatTurn) : ChatTurn :=
  set_end (Some "Cancelled by user") (Some at_) (set_status TURN_CANCELLED t).

(** When the route accepts a resume. *)
Definition resume_allowed (run_id : string) (action : RuntimeResumeAction) (input : option string)
    (current_user : Z) (tenant_ids : list Z) (w : ChatState) (t : ChatTurn) : Prop :=
  exists u, UUID run_id = Some u /\ paused_turns u w = [t] /\ tn_user_id t = current_user /\ tenant_ids <> [] /\
    (exists i, validate_action (pi_status (tn_pause t)) action input = Ok i) /\
    (action = RA_CANCEL \/ is_Some (resolve_original_goal plan_goal u)).

Lemma paused_turns_find u w t :
  NoDup (map tn_id (cd_turns (ch_db w))) -> paused_turns u w = [t] -> find_turn (tn_id t) (ch_db w) = Some t.
Proof.
  intros Hnd Hp. assert (t ∈ cd_turns (ch_db w)) as Hin.
  { assert (t ∈ paused_turns u w) as Ht by (rewrite Hp; by left). by apply elem_of_List_filter in Ht as [? _]. }
  clear Hp. unfold find_turn. induction (cd_turns (ch_db w)) as [|t' l IH]; simpl in *; [set_solver|].
  apply NoDup_cons in Hnd as [Hn Hnd]. apply elem_of_cons in Hin as [->|Hin]; [by rewrite Z.eqb_refl|].
  destruct (Z.eqb_spec (tn_id t') (tn_id t)) as [E|E]; [|by apply IH].
  exfalso. apply Hn. rewrite E. by apply list_elem_of_fmap_2.
Qed.

Lemma resume_allowed_run run_id action input user tenants w t :
  NoDup (map tn_id (cd_turns (ch_db w))) ->
  resume_allowed run_id action input user tenants w t ->
  if decide (action = RA_CANCEL) then
    resume run_id action input user tenants w
    = (Ok ResumeCancelled, committed (upd_row (tn_id t) (cancelled_row (clock (ch_clock w))) (tick w)))
  else exists i checkpoint,
    validate_action (pi_status (tn_pause t)) action input = Ok i /\
    resume run_id action input user tenants w
    = (Ok (ResumeStream {| sq_chat_id := tn_chat_id t; sq_user_id := user;
             sq_content := build_resume_content action i; sq_artifact_ids := [];
             sq_idempotency_key := None; sq_resumed_from_run_id := Some run_id;
             sq_resumed_turn_id := Some (tn_id t); sq_persist_user_message := false |} checkpoint),
       committed (upd_row (tn_id t) resumed_row w)).
Proof.
  intros Hnd (u & Hu & Hp & Hus & Hte & (i & Hi) & Hg). pose proof (paused_turns_find u w t Hnd Hp) as Hf.
  unfold resume_run. rewrite Hu. erewrite bind_run_Ok by reflexivity. cbv beta. rewrite Hp.
  rewrite Hus, Z.eqb_refl. cbn [negb]. destruct tenants as [|te tenants]; [done|]. rewrite Hi.
  destruct (decide (action = RA_CANCEL)) as [->|Ha].
  - rewrite bool_decide_eq_true_2 by done. unfold mbind, py_bind, in_route, cancel_turn.
    unfold mbind, py_bind. rewrite get_by_id_run, Hf. reflexivity.
  - rewrite bool_decide_eq_false_2 by done. destruct Hg as [?|[g Hg]]; [done|]. rewrite Hg.
    eexists i, _. split; [done|]. unfold mbind, py_bind, in_route, resume_turn.
    unfold mbind, py_bind. rewrite get_by_id_run, Hf. reflexivity.
Qed.

(** C35: The resume route accepts exactly the single paused turn of the run, asked for
    by its owner within a tenant, with an action its pause status allows and,
    unless it is cancelled, a plan goal to continue; the turn is then resumed
    (pause forgotten) or cancelled, and committed.  Every refusal leaves the state
    as it was. *)
Theorem resume_run_spec run_id action input user tenants w :
  NoDup (map tn_id (cd_turns (ch_db w))) ->
  match resume run_id action input user tenants w with
  | (Ok _, w') => exists t, resume_allowed run_id action input user tenants w t /\
      ch_durable w' = ch_db w' /\
      find_turn (tn_id t) (ch_db w')
      = Some (if decide (action = RA_CANCEL) then cancelled_row (clock (ch_clock w)) t else resumed_row t)
  | (Err _, w') => w' = w /\ forall t, ~ resume_allowed run_id action input user tenants w t
  end.
Proof.
  intros Hnd. destruct (resume run_id action input user tenants w) as [[o|e] w'] eqn:E.
  - assert (exists t, resume_allowed run_id action input user tenants w t) as [t Ht].
    { unfold resume_run, resume_allowed in *. destruct (UUID run_id) as [u|]; [|done].
      erewrite bind_run_Ok in E by reflexivity. cbv beta in E. destruct (paused_turns u w) as [|t [|]] eqn:Hp; try done.
      destruct (Z.eqb_spec (tn_user_id t) user); simpl in E; [|done]. destruct tenants; [done|].
      destruct (validate_action _ _ _) as [i|] eqn:Hv; [|done]. exists t, u.
      repeat (split; [done|]). split; [by eexists|].
      destruct (decide (action = RA_CANCEL)) as [|Ha]; [by left|right].
      rewrite bool_decide_eq_false_2 in E by done. destruct (resolve_original_goal _ _); [by eexists|done]. }
    exists t. split; [done|]. pose proof (resume_allowed_run _ _ _ _ _ _ _ Hnd Ht) as Hr.
    destruct Ht as (u & _ & Hp & _). pose proof (paused_turns_find u w t Hnd Hp) as Hf.
    destruct (decide (action = RA_CANCEL)) as [->|Ha].
    + rewrite E in Hr. injection Hr as _ ->. split; [done|].
      by apply (find_upd_some (tn_id t) (cancelled_row _) (tick w) t).
    + destruct Hr as (i & ck & _ & Hr). rewrite E in Hr. injection Hr as _ ->. split; [done|].
      by apply (find_upd_some (tn_id t) resumed_row w t).
  - split.
    + unfold resume_run in E. destruct (UUID run_id) as [u|]; [|by injection E].
      erewrite bind_run_Ok in E by reflexivity. cbv beta in E. destruct (paused_turns u w) as [|t [|]] eqn:Hp;
        [by injection E| |by injection E].
      pose proof (paused_turns_find u w t Hnd Hp) as Hf.
      destruct (negb _); [by injection E|]. destruct tenants; [by injection E|].
      destruct (validate_action _ _ _); [|by injection E].
      destruct (bool_decide _); [|destruct (resolve_original_goal _ _); [|by injection E]];
        exfalso; unfold mbind, py_bind, in_route, cancel_turn, resume_turn in E;
        unfold mbind, py_bind in E; rewrite get_by_id_run, Hf in E; discriminate E.
    + intros t Ht. pose proof (resume_allowed_run _ _ _ _ _ _ _ Hnd Ht) as Hr.
      destruct (decide (action = RA_CANCEL)); [congruence|]. destruct Hr as (? & ? & _ & Hr). congruence.
Qed.
(** A paused request in detail: the paused row is committed before the client hears
    of it. *)
Lemma paused_request q run w rid r act ctx u :
  request_pre q w -> rr_raises run = None -> verdict run = V_paused ->
  last_pause (rr_events run) = Some (Some rid, r, act, ctx) -> rid <> "" -> UUID rid = Some u ->
  exists w' t, stream q run w = (Ok tt, w') /\ ch_durable w' = ch_db w' /\
    cd_turns (ch_db w') = cd_turns (ch_db w) ++ [t] /\ tn_id t ∉ map tn_id (cd_turns (ch_db w)) /\
    tn_runtime_run_id t = Some u /\ tn_status t = TURN_PAUSED /\ tn_user_id t = sq_user_id q /\
    pi_status (tn_pause t) = Some (or_str r "paused") /\
    pi_action (tn_pause t) = act /\ pi_context (tn_pause t) = ctx.
Proof.
  intros H Hnr Hv Hlp Hrid Hu. destruct (stream_runs q run w H) as (args & -> & _ & Hus & _ & _ & _ & Hr & _).
  destruct (request_turn_pre q args w H Hr) as [Hi Hids Hrow Hb].
  destruct (execute_turn_split uuid4 clock UUID sha256 repr bind_attachments answer_meta generate_chat_title
              args run w Hi Hids Hrow Hb) as (id & um & w1 & [[t1 Ht1] _ Hfr _ _] & _ & ->).
  destruct (run_agents_spec clock id run running_state w1 t1 Ht1) as (w2 & t2 & Hrun & Ht2 & _ & Hdb).
  destruct (Hdb Hnr) as [Hdb2 _]. rewrite (bind_run_Ok _ _ _ _ _ Hrun).
  destruct (run_acc_pause (rr_events run) running_state _ _ _ _ Hlp) as (Hpi & Hpr & Hpa & Hpc).
  assert (final_acc run running_state = run_acc (rr_events run) (initial_acc running_state)) as Hacc.
  { unfold final_acc. by rewrite Hnr. }
  pose proof (final_acc_verdict run running_state) as Hav. rewrite Hv, Hacc in Hav. rewrite Hacc.
  set (a := run_acc _ _) in *.
  assert (finish uuid4 clock UUID repr answer_meta args id um a w2 = finish_paused clock UUID repr id a w2) as ->.
  { unfold finish, acc_verdict in *. destruct (ra_error a), (str_empty (ra_content a)), (ra_paused a); done. }
  assert (str_empty rid = false) as Hre by (by apply String.eqb_neq).
  assert (or_str (Some rid) "" = rid) as Hor by (simpl; by rewrite Hre).
  assert (pause_run_ok UUID (ra_paused_run_id a) = true) as Hok.
  { rewrite Hpi. unfold pause_run_ok. by rewrite Hor, Hre, Hu. }
  destruct (finish_paused_run clock UUID repr id a w2 t2 Ht2 Hok) as (fr & -> & _).
  destruct (Hfr Hr) as (t & Hts & Hid & Hni & _ & H2 & _). eexists _, _. split; [reflexivity|]. split; [done|].
  split; [simpl; rewrite Hdb2, Hts, map_app, map_upd_fresh by done; simpl; by rewrite Hid, Z.eqb_refl|].
  rewrite Hpi, Hpr, Hpa, Hpc. unfold paused_run_row. rewrite Hor, Hre, Hu. simpl.
  rewrite H2, Hus, Hid. done.
Qed.

(** A paused turn can be continued after the request that paused it is gone: its
    row, with the action and context the client was sent, survives the closing of
    the session; its owner's valid answer reopens that very row, committed as
    resumed with the pause forgotten, and the continuation runs for it. *)
Theorem pause_then_resume q run w rid r act ctx u action input i tenants :
  request_pre q w -> NoDup (map tn_id (cd_turns (ch_db w))) ->
  (forall t, t ∈ cd_turns (ch_db w) -> tn_runtime_run_id t = Some u -> tn_status t <> TURN_PAUSED) ->
  rr_raises run = None -> verdict run = V_paused ->
  last_pause (rr_events run) = Some (Some rid, r, act, ctx) -> rid <> "" -> UUID rid = Some u ->
  action <> RA_CANCEL -> validate_action (Some (or_str r "paused")) action input = Ok i ->
  tenants <> [] -> is_Some (resolve_original_goal plan_goal u) ->
  let w1 := one_request q run w in
  exists t checkpoint q' w2,
    cd_turns (ch_db w1) = cd_turns (ch_db w) ++ [t] /\
    pi_action (tn_pause t) = act /\ pi_context (tn_pause t) = ctx /\
    resume rid action input (sq_user_id q) tenants w1 = (Ok (ResumeStream q' checkpoint), w2) /\
    sq_resumed_turn_id q' = Some (tn_id t) /\ sq_content q' = build_resume_content action i /\
    cd_turns (ch_durable w2) = cd_turns (ch_db w) ++ [resumed_row t].
Proof.
  intros H Hnd Hno Hnr Hv Hlp Hrid Hu Ha Hi Hte Hg w1.
  destruct (paused_request q run w rid r act ctx u H Hnr Hv Hlp Hrid Hu)
    as (w' & t & Hs & Hdur & Hts & Hni & Hrun & Hst & Hus & Hps & Hpa & Hpc).
  assert (w1 = close_session w') as -> by (unfold w1, request; by rewrite Hs).
  assert (cd_turns (ch_db (close_session w')) = cd_turns (ch_db w) ++ [t]) as Hts' by (simpl; by rewrite Hdur).
  assert (NoDup (map tn_id (cd_turns (ch_db (close_session w'))))) as Hnd'.
  { rewrite Hts', map_app. apply NoDup_app. split; [done|]. split; [|apply NoDup_singleton].
    intros x Hx ->%list_elem_of_singleton. done. }
  assert (paused_turns u (close_session w') = [t]) as Hp.
  { unfold paused_turns. rewrite Hts', List.filter_app, filter_none; simpl.
    - by rewrite bool_decide_eq_true_2 by done.
    - intros x Hx. apply bool_decide_eq_false. intros [? ?]. by apply (Hno x). }
  assert (resume_allowed rid action input (sq_user_id q) tenants (close_session w') t) as Hal.
  { exists u. rewrite Hps. repeat (split; [done|]). split; [by exists i|]. by right. }
  pose proof (resume_allowed_run _ _ _ _ _ _ _ Hnd' Hal) as Hr. rewrite decide_False in Hr by done.
  destruct Hr as (i' & ck & Hi' & Hr). rewrite Hps, Hi in Hi'. injection Hi' as <-.
  exists t, ck. eexists _, _. split; [exact Hts'|]. split; [done|]. split; [done|]. split; [exact Hr|].
  split; [done|]. split; [done|]. simpl in *. rewrite Hts', map_app, map_upd_fresh by done. simpl.
  by rewrite Z.eqb_refl.
Qed.
End Properties.

(** ** Witnesses: a chat with no history, one user, one tenant *)
Module Demo.
Definition ids : nat -> Z := Z.of_nat.
Definition clock : nat -> Z := Z.of_nat.
Definition UUID (s : string) : option Z := if String.eqb s "run-7" then Some 7 else None.
Definition sha256 (s : string) : string := s.
Definition repr (j : json) : string := "".
Definition uuid_str (z : Z) : string := "run-7".
Definition bind (l : list string) (m : Z) : option ChatExc := None.
Definition answer_meta (text : string) (sources attachments : json) : odict json := [].
Definition title (s : string) : option string := Some "A title".
Definition chat_row (id : Z) : option (option string) := Some (Some "New Chat").
Definition artifacts (l : list string) : option (list json) := Some [].
Definition goal (run : Z) : option string := Some " find it ".

Definition empty : ChatState :=
  {| ch_db := {| cd_turns := []; cd_messages := [] |}; ch_durable := {| cd_turns := []; cd_messages := [] |};
     ch_cache := []; ch_out := []; ch_clock := 0; ch_uuids := 0 |}.
Definition q : StreamRequest :=
  {| sq_chat_id := 1; sq_user_id := 2; sq_content := "hello"; sq_artifact_ids := [];
     sq_idempotency_key := Some "key"; sq_resumed_from_run_id := None; sq_resumed_turn_id := None;
     sq_persist_user_message := true |}.
Definition args : TurnArgs := turn_args q (Some "New Chat") [] [].
Definition answered : RouterRun :=
  {| rr_events := [EvDelta "hi"; EvDelta " there"]; rr_raises := None; rr_commits := false |}.
Definition raised : RouterRun := {| rr_events := []; rr_raises := Some "planner broke"; rr_commits := false |}.
Definition paused : RouterRun :=
  {| rr_events := [EvRunPaused (Some "run-7") (Some "waiting_input") (JObj []) (JObj [])];
     rr_raises := None; rr_commits := true |}.

Lemma turn_pre_empty : turn_pre ids bind args empty.
Proof. split; try done; [by intros x y ?%Nat2Z.inj|]. intros t Ht. by apply not_elem_of_nil in Ht. Qed.

Lemma request_pre_empty : request_pre ids bind chat_row artifacts q empty.
Proof.
  split; [by intros x y ?%Nat2Z.inj| |done|done|by eexists|by left| |done];
    intros t Ht; by apply not_elem_of_nil in Ht.
Qed.
End Demo.


Lemma turn_terminal_frames_witness :
  exists ts w' fs,
    execute_turn Demo.ids Demo.clock Demo.UUID Demo.sha256 Demo.repr Demo.bind Demo.answer_meta Demo.title
      Demo.args Demo.raised Demo.empty = (Ok ts, w') /\ ch_out w' = fs /\ terminals fs = 2%nat.
Proof.
  destruct (turn_terminal_frames Demo.ids Demo.clock Demo.UUID Demo.sha256 Demo.repr Demo.bind Demo.answer_meta
              Demo.title Demo.args Demo.raised Demo.empty Demo.turn_pre_empty)
    as (ts & w' & fs & H1 & H2 & _ & _ & _ & H3); [discriminate|].
  exists ts, w', fs. split; [exact H1|]. split; [exact H2|]. by apply H3.
Defined.

Lemma turn_never_titles_witness :
  exists ts w' fs,
    execute_turn Demo.ids Demo.clock Demo.UUID Demo.sha256 Demo.repr Demo.bind Demo.answer_meta Demo.title
      Demo.args Demo.answered Demo.empty = (Ok ts, w') /\ ch_out w' = fs /\ FrChatTitle "A title" ∉ fs.
Proof.
  destruct (turn_never_titles Demo.ids Demo.clock Demo.UUID Demo.sha256 Demo.repr Demo.bind Demo.answer_meta
              Demo.title Demo.args Demo.answered Demo.empty Demo.turn_pre_empty)
    as (ts & w' & fs & H1 & H2 & H3); [discriminate|].
  exists ts, w', fs. split; [exact H1|]. split; [exact H2|]. apply H3.
Defined.

Lemma turn_phases_valid_witness :
  exists ts w',
    execute_turn Demo.ids Demo.clock Demo.UUID Demo.sha256 Demo.repr Demo.bind Demo.answer_meta Demo.title
      Demo.args Demo.answered Demo.empty = (Ok ts, w') /\ cts_warnings ts = [] /\ cts_phase ts = PH_COMPLETED.
Proof.
  destruct (turn_phases_valid Demo.ids Demo.clock Demo.UUID Demo.sha256 Demo.repr Demo.bind Demo.answer_meta
              Demo.title Demo.args Demo.answered Demo.empty Demo.turn_pre_empty)
    as (ts & w' & H1 & H2 & _ & H3); [reflexivity|].
  exists ts, w'. split; [exact H1|]. split; [exact H2|]. apply H3. reflexivity.
Defined.

Lemma retry_of_answered_request_witness :
  let w1 := request Demo.ids Demo.clock Demo.UUID Demo.sha256 Demo.repr Demo.bind Demo.answer_meta Demo.title
              Demo.chat_row Demo.artifacts Demo.q Demo.answered Demo.empty in
  send_message_stream Demo.ids Demo.clock Demo.UUID Demo.sha256 Demo.repr Demo.bind Demo.answer_meta Demo.title
    Demo.chat_row Demo.artifacts Demo.q Demo.answered w1
  = (Ok tt, emit [safe_stream_error "idempotency_processing"
                    "Request with this idempotency key is already in progress"] w1).
Proof.
  apply (retry_of_answered_request Demo.ids Demo.clock Demo.UUID Demo.sha256 Demo.repr Demo.bind Demo.answer_meta
           Demo.title Demo.chat_row Demo.artifacts Demo.q Demo.answered Demo.answered Demo.empty
           Demo.request_pre_empty); [discriminate|reflexivity].
Defined.

Lemma pause_then_resume_witness :
  exists t checkpoint q' w2,
    resume_run Demo.clock Demo.UUID Demo.repr Demo.uuid_str Demo.goal "checkpoint" "now" "run-7" RA_INPUT
      (Some " blue ") 2 [5]
      (request Demo.ids Demo.clock Demo.UUID Demo.sha256 Demo.repr Demo.bind Demo.answer_meta Demo.title
         Demo.chat_row Demo.artifacts Demo.q Demo.paused Demo.empty)
    = (Ok (ResumeStream q' checkpoint), w2) /\ sq_content q' = "blue" /\
    cd_turns (ch_durable w2) = [resumed_row t].
Proof.
  edestruct (pause_then_resume Demo.ids Demo.clock Demo.UUID Demo.sha256 Demo.repr Demo.uuid_str Demo.bind
    Demo.answer_meta Demo.title Demo.chat_row Demo.artifacts Demo.goal "checkpoint" "now" Demo.q Demo.paused
    Demo.empty "run-7" (Some "waiting_input") (JObj []) (JObj []) 7 RA_INPUT (Some " blue ") "blue" [5])
    as (t & ck & q' & w2 & _ & _ & _ & H1 & _ & H2 & H3);
    [exact Demo.request_pre_empty|by apply NoDup_nil| |reflexivity|reflexivity|reflexivity|discriminate|reflexivity
    |discriminate|reflexivity|discriminate|by eexists|].
  { intros t Ht. by apply not_elem_of_nil in Ht. }
  exists t, ck, q', w2. split; [exact H1|]. by split.
Defined.

Lemma resume_run_spec_witness :
  resume_run Demo.clock Demo.UUID Demo.repr Demo.uuid_str Demo.goal "checkpoint" "now" "run-7" RA_CONFIRM
    None 2 [5] Demo.empty = (Err (HTTPException 404 "Paused run not found"), Demo.empty) /\
  forall t, ~ resume_allowed Demo.UUID Demo.goal "run-7" RA_CONFIRM None 2 [5] Demo.empty t.
Proof.
  pose proof (resume_run_spec Demo.clock Demo.UUID Demo.repr Demo.uuid_str Demo.goal "checkpoint" "now" "run-7"
                RA_CONFIRM None 2 [5] Demo.empty) as H.
  assert (resume_run Demo.clock Demo.UUID Demo.repr Demo.uuid_str Demo.goal "checkpoint" "now" "run-7" RA_CONFIRM
            None 2 [5] Demo.empty = (Err (HTTPException 404 "Paused run not found"), Demo.empty)) as E
    by reflexivity.
  rewrite E in H. split; [exact E|]. apply H. by apply NoDup_nil.
Defined.
