(* ===== verification/Resilience.v ===== *)
(** * Circuit breakers and retries

    Module [Http]: core/circuit_breaker.py with the embedding client that uses it
    (core/http/clients.py, [_post_json]).  Module [Manager]: core/resilience.py, whose
    breaker guards any call and whose manager retries with exponential back-off.

    Times are readings of [time.time()], in any unit; each operation takes the
    reading it makes as an argument. *)
From S2P Require Import Prelude.
From Stdlib Require Import QArith Qminmax.
Open Scope Z_scope.

Inductive CircuitState : Type := CB_CLOSED | CB_OPEN | CB_HALF_OPEN.

#[export] Instance CircuitState_eq_dec : EqDecision CircuitState.
Proof. solve_decision. Defined.

Module Http.
Record CircuitBreakerConfig := {
  failures_threshold : Z;
  open_timeout_seconds : Z;
  half_open_max_calls : Z
}.

Record CircuitBreaker := {
  cb_state : CircuitState;
  cb_failures : Z;
  cb_opened_at : option Z;
  cb_half_open_calls : Z
}.

Definition new_breaker : CircuitBreaker :=
  {| cb_state := CB_CLOSED; cb_failures := 0; cb_opened_at := None; cb_half_open_calls := 0 |}.

(** One attempt of HTTPEmbClient._post_json: when it starts, when it ends, and the service's response
    ([None] for any exception: transport errors and error statuses). *)
Record Attempt (R : Type) := { at_start : Z; at_end : Z; at_response : option R }.
Arguments at_start {R} a.
Arguments at_end {R} a.
Arguments at_response {R} a.

Inductive PostResult (R : Type) : Type :=
| Returned (r : R)
| RaisedOpen
| RaisedService
| ReturnedNothing.
Arguments Returned {R} r.
Arguments RaisedOpen {R}.
Arguments RaisedService {R}.
Arguments ReturnedNothing {R}.

Section Breaker.
Variable cfg : CircuitBreakerConfig.

(** The property [state]: an open circuit whose time has passed becomes half-open
    when it is looked at. *)
Definition state (now : Z) (b : CircuitBreaker) : CircuitBreaker :=
  match cb_state b, cb_opened_at b with
  | CB_OPEN, Some opened_at =>
      if Z.leb (open_timeout_seconds cfg) (now - opened_at) then
        {| cb_state := CB_HALF_OPEN; cb_failures := cb_failures b; cb_opened_at := cb_opened_at b;
           cb_half_open_calls := 0 |}
      else b
  | _, _ => b
  end.

Definition trip (now : Z) : CircuitBreaker :=
  {| cb_state := CB_OPEN; cb_failures := 0; cb_opened_at := Some now; cb_half_open_calls := 0 |}.

(** [before_call]: [false] when it raises ExternalServiceCircuitBreakerOpen. *)
Definition before_call (now : Z) (b : CircuitBreaker) : bool * CircuitBreaker :=
  let b := state now b in
  match cb_state b with
  | CB_OPEN => (false, b)
  | CB_HALF_OPEN =>
      if Z.leb (half_open_max_calls cfg) (cb_half_open_calls b) then (false, b)
      else (true, {| cb_state := cb_state b; cb_failures := cb_failures b; cb_opened_at := cb_opened_at b;
                     cb_half_open_calls := cb_half_open_calls b + 1 |})
  | CB_CLOSED => (true, b)
  end.

Definition on_success (b : CircuitBreaker) : CircuitBreaker := new_breaker.

Definition on_failure (now : Z) (b : CircuitBreaker) : CircuitBreaker :=
  let failures := cb_failures b + 1 in
  match cb_state b with
  | CB_HALF_OPEN => trip now
  | _ => if Z.leb (failures_threshold cfg) failures then trip now
         else {| cb_state := cb_state b; cb_failures := failures; cb_opened_at := cb_opened_at b;
                 cb_half_open_calls := cb_half_open_calls b |}
  end.

(** *** HTTPEmbClient._post_json

    One pass through the body of the loop, with a breaker: [before_call] is inside
    the [try], so that a call it rejects goes to [on_failure] as well. *)
Definition attempt_once {R} (a : Attempt R) (b : CircuitBreaker) : PostResult R * CircuitBreaker :=
  match before_call (at_start a) b with
  | (false, b) => (RaisedOpen, on_failure (at_end a) b)
  | (true, b) => match at_response a with
                 | Some r => (Returned r, on_success b)
                 | None => (RaisedService, on_failure (at_end a) b)
                 end
  end.

(** The loop over [range(attempts)], given the attempts as the world answers them. *)
Fixpoint post_json {R} (attempts : list (Attempt R)) (b : CircuitBreaker) : PostResult R * CircuitBreaker :=
  match attempts with
  | [] => (ReturnedNothing, b)
  | a :: rest =>
      match attempt_once a b with
      | (Returned r, b) => (Returned r, b)
      | (e, b) => match rest with
                  | [] => (e, b)
                  | _ => post_json rest b
                  end
      end
  end.
End Breaker.
End Http.

Module Manager.
Record CircuitBreaker := {
  failure_threshold : Z;
  recovery_timeout : Z;
  half_open_max_calls : Z;
  failure_count : Z;
  last_failure_time : Z;
  mb_state : CircuitState;
  half_open_calls : Z
}.

Definition make_breaker (threshold timeout max_calls : Z) : CircuitBreaker :=
  {| failure_threshold := threshold; recovery_timeout := timeout; half_open_max_calls := max_calls;
     failure_count := 0; last_failure_time := 0; mb_state := CB_CLOSED; half_open_calls := 0 |}.

Definition update (count last : Z) (st : CircuitState) (calls : Z) (b : CircuitBreaker) : CircuitBreaker :=
  {| failure_threshold := failure_threshold b; recovery_timeout := recovery_timeout b;
     half_open_max_calls := half_open_max_calls b; failure_count := count; last_failure_time := last;
     mb_state := st; half_open_calls := calls |}.

Definition can_execute (now : Z) (b : CircuitBreaker) : bool * CircuitBreaker :=
  match mb_state b with
  | CB_CLOSED => (true, b)
  | CB_OPEN =>
      if Z.leb (recovery_timeout b) (now - last_failure_time b) then
        (true, update (failure_count b) (last_failure_time b) CB_HALF_OPEN 0 b)
      else (false, b)
  | CB_HALF_OPEN => (Z.ltb (half_open_calls b) (half_open_max_calls b), b)
  end.

Definition record_success (b : CircuitBreaker) : CircuitBreaker :=
  match mb_state b with
  | CB_HALF_OPEN => update 0 (last_failure_time b) CB_CLOSED (half_open_calls b) b
  | CB_CLOSED => update (Z.max 0 (failure_count b - 1)) (last_failure_time b) CB_CLOSED (half_open_calls b) b
  | CB_OPEN => b
  end.

Definition record_failure (now : Z) (b : CircuitBreaker) : CircuitBreaker :=
  let count := failure_count b + 1 in
  let st := match mb_state b with
            | CB_HALF_OPEN => CB_OPEN
            | CB_CLOSED => if Z.leb (failure_threshold b) count then CB_OPEN else CB_CLOSED
            | CB_OPEN => CB_OPEN
            end in
  update count now st (half_open_calls b) b.

(** [call] up to its [await]: the guard, and the half-open counter.  [false] when
    it raises CircuitBreakerOpen. *)
Definition begin_call (now : Z) (b : CircuitBreaker) : bool * CircuitBreaker :=
  match can_execute now b with
  | (false, b) => (false, b)
  | (true, b) =>
      (true, match mb_state b with
             | CB_HALF_OPEN => update (failure_count b) (last_failure_time b) CB_HALF_OPEN (half_open_calls b + 1) b
             | _ => b
             end)
  end.

(** How an awaited call ends: with a value, with an Exception, or cancelled
    (asyncio.CancelledError is a BaseException, which [except Exception] does not
    catch). *)
Inductive Ending (R E : Type) : Type :=
| EndValue (r : R)
| EndException (e : E)
| EndCancelled.
Arguments EndValue {R E} r.
Arguments EndException {R E} e.
Arguments EndCancelled {R E}.

Definition end_call {R E} (now : Z) (x : Ending R E) (b : CircuitBreaker) : CircuitBreaker :=
  match x with
  | EndValue _ => record_success b
  | EndException _ => record_failure now b
  | EndCancelled => b
  end.

Inductive CallResult (R E : Type) : Type :=
| CallReturns (r : R)
| CallRaises (e : E)
| CallOpen
| CallCancelled
| CallRaisesNone.
Arguments CallReturns {R E} r.
Arguments CallRaises {R E} e.
Arguments CallOpen {R E}.
Arguments CallCancelled {R E}.
Arguments CallRaisesNone {R E}.

Definition call {R E} (start finish : Z) (x : Ending R E) (b : CircuitBreaker) : CallResult R E * CircuitBreaker :=
  match begin_call start b with
  | (false, b) => (CallOpen, b)
  | (true, b) => (match x with
                  | EndValue r => CallReturns r
                  | EndException e => CallRaises e
                  | EndCancelled => CallCancelled
                  end, end_call finish x b)
  end.

(** *** ResilienceManager.execute_with_resilience *)
Record RetryConfig := {
  max_retries : Z;
  base_delay : Q;
  max_delay : Q;
  exponential_base : Q;
  jitter : bool
}.

(** The delay after a failed attempt; [rnd] is the reading of [random.random()]. *)
Definition retry_delay (cfg : RetryConfig) (attempt : nat) (rnd : Q) : Q :=
  let delay := Qmin (base_delay cfg * Qpower (exponential_base cfg) (Z.of_nat attempt))%Q (max_delay cfg) in
  if jitter cfg then (delay * ((1 # 2) + rnd * (1 # 2)))%Q else delay.

(** What the world does at one attempt: the clock before and after the call, how
    it ends, and the random number of the delay. *)
Record Round (R E : Type) := { rd_start : Z; rd_finish : Z; rd_ending : Ending R E; rd_random : Q }.
Arguments rd_start {R E} r.
Arguments rd_finish {R E} r.
Arguments rd_ending {R E} r.
Arguments rd_random {R E} r.

(** The loop, from [attempt] with [left] attempts to come; the list of delays slept
    is part of the result.  [world] answers attempt by attempt. *)
Fixpoint retry_loop {R E} (cfg : RetryConfig) (world : nat -> Round R E) (attempt left : nat)
    (last : option E) (b : CircuitBreaker) : CallResult R E * list Q * CircuitBreaker :=
  match left with
  | O => (match last with Some e => CallRaises e | None => CallRaisesNone end, [], b)
  | S left' =>
      let w := world attempt in
      match call (rd_start w) (rd_finish w) (rd_ending w) b with
      | (CallRaises e, b) =>
          if Z.eqb (Z.of_nat attempt) (max_retries cfg) then (CallRaises e, [], b)
          else match retry_loop cfg world (S attempt) left' (Some e) b with
               | (r, ds, b) => (r, retry_delay cfg attempt (rd_random w) :: ds, b)
               end
      | (r, b) => (r, [], b)
      end
  end.

Definition execute_with_resilience {R E} (cfg : RetryConfig) (world : nat -> Round R E) (b : CircuitBreaker)
    : CallResult R E * list Q * CircuitBreaker :=
  retry_loop cfg world 0 (Z.to_nat (max_retries cfg + 1)) None b.

(** The registry of breakers and retry settings, with their fall-backs. *)
Record ResilienceManager := {
  circuit_breakers : odict CircuitBreaker;
  retry_configs : odict RetryConfig
}.

Definition setup_defaults (llm emb : CircuitBreaker) (http_max_retries : Z) : ResilienceManager :=
  {| circuit_breakers := [("llm", llm); ("emb", emb)];
     retry_configs := [("default", {| max_retries := http_max_retries; base_delay := 1; max_delay := 30;
                                      exponential_base := 2; jitter := true |})] |}.

Definition get_circuit_breaker (service_name : string) (m : ResilienceManager) : option CircuitBreaker :=
  match od_get service_name (circuit_breakers m) with
  | Some b => Some b
  | None => od_get "llm" (circuit_breakers m)
  end.

Definition get_retry_config (service_name : string) (m : ResilienceManager) : option RetryConfig :=
  match od_get service_name (retry_configs m) with
  | Some c => Some c
  | None => od_get "default" (retry_configs m)
  end.
End Manager.
