(* ===== verification/ResilienceProofs.v ===== *)
(** * What the circuit breakers and the retry loop promise *)
From S2P Require Import Prelude Resilience.
From Stdlib Require Import QArith Qminmax.
Open Scope Z_scope.

Module HttpProps.
Import Http.

Section Breaker.
Variable cfg : CircuitBreakerConfig.

(** The three operations at any time. *)
Inductive breaker_step : relation CircuitBreaker :=
| step_before now b : breaker_step b (before_call cfg now b).2
| step_success b : breaker_step b (on_success b)
| step_failure now b : breaker_step b (on_failure cfg now b).

Definition breaker_ok (b : CircuitBreaker) : Prop :=
  0 <= cb_failures b < failures_threshold cfg /\
  match cb_state b with
  | CB_CLOSED => cb_opened_at b = None /\ cb_half_open_calls b = 0
  | CB_OPEN => is_Some (cb_opened_at b) /\ cb_half_open_calls b = 0
  | CB_HALF_OPEN => is_Some (cb_opened_at b) /\ 0 <= cb_half_open_calls b <= Z.max 0 (half_open_max_calls cfg)
  end.

Lemma state_ok now b : breaker_ok b -> breaker_ok (state cfg now b).
Proof.
  intros [Hf Hs]. unfold state. destruct (cb_state b) eqn:E, (cb_opened_at b) eqn:Eo;
    try destruct (Z.leb _ _); split; simpl; rewrite ?E, ?Eo; try done.
  split; [by eexists|lia].
Qed.

Lemma breaker_step_ok b b' : 1 <= failures_threshold cfg -> breaker_ok b -> breaker_step b b' -> breaker_ok b'.
Proof.
  intros Ht Hb H. revert Hb. destruct H as [now b0|b0|now b0]; intros Hb.
  - pose proof (state_ok now b0 Hb) as [Hf Hs]. unfold before_call. set (s := state cfg now b0) in *.
    destruct (cb_state s) eqn:E; simpl; [split; [done|by rewrite E]..|].
    destruct (Z.leb_spec (half_open_max_calls cfg) (cb_half_open_calls s)); simpl; split; simpl;
      rewrite ?E; try done. destruct Hs as [Ho Hc]. split; [done|lia].
  - split; simpl; [lia|done].
  - destruct Hb as [Hf Hs]. assert (breaker_ok (trip now)) as Htrip.
    { split; simpl; [lia|]. split; [by eexists|done]. }
    unfold on_failure. destruct (cb_state b0) eqn:E; try exact Htrip;
      destruct (Z.leb_spec (failures_threshold cfg) (cb_failures b0 + 1)); try exact Htrip;
      split; simpl; rewrite ?E; (lia || done).
Qed.

(** In every reachable state of the embedding client's breaker the failure
    counter stays below the threshold, an open or half-open circuit knows when it
    was opened, and at most [half_open_max_calls] probes have been let through. *)
Theorem breaker_invariant b :
  1 <= failures_threshold cfg -> rtc breaker_step new_breaker b -> breaker_ok b.
Proof.
  intros Ht. assert (breaker_ok new_breaker) as H0 by (split; simpl; [lia|done]).
  revert H0. generalize new_breaker. intros b0 H0 Hr. induction Hr as [|x y z Hxy _ IH]; [done|].
  apply IH. by apply (breaker_step_ok x).
Qed.

(** The attempts of many requests, one after the other. *)
Fixpoint outcomes {R} (attempts : list (Attempt R)) (b : CircuitBreaker) : list (PostResult R) :=
  match attempts with
  | [] => []
  | a :: rest => (attempt_once cfg a b).1 :: outcomes rest (attempt_once cfg a b).2
  end.

(** An open circuit that has seen [k] of the rejections of its current round. *)
Definition open_at (t k : Z) : CircuitBreaker :=
  {| cb_state := CB_OPEN; cb_failures := k; cb_opened_at := Some t; cb_half_open_calls := 0 |}.

Lemma attempt_rejected {R} (a : Attempt R) t k :
  at_start a - t < open_timeout_seconds cfg ->
  attempt_once cfg a (open_at t k)
  = (RaisedOpen, if Z.leb (failures_threshold cfg) (k + 1) then trip (at_end a) else open_at t (k + 1)).
Proof.
  intros Ht. unfold attempt_once, before_call, state. simpl.
  destruct (Z.leb_spec (open_timeout_seconds cfg) (at_start a - t)); [lia|]. simpl. done.
Qed.

(** A rejected attempt is counted as a failure of the service, and enough of them
    restart the open period: while attempts arrive every [p] time units, with
    threshold * p below the timeout, a circuit that has opened rejects every one of
    them, for ever, whatever the service would answer. *)
Theorem rejections_keep_open {R} (responses : list (option R)) t0 p :
  1 <= failures_threshold cfg -> 0 <= p -> failures_threshold cfg * p < open_timeout_seconds cfg ->
  Forall (fun r => r = RaisedOpen)
    (outcomes (imap (fun i r => {| at_start := t0 + p * (Z.of_nat i + 1); at_end := t0 + p * (Z.of_nat i + 1);
                                   at_response := r |}) responses) (trip t0)).
Proof.
  intros Ht Hp Hpt. change (trip t0) with (open_at t0 0).
  enough (forall (rs : list (option R)) (j : nat) t k,
    0 <= k < failures_threshold cfg -> t0 + p * Z.of_nat j = t + p * k ->
    Forall (fun r => r = RaisedOpen)
      (outcomes (imap (fun i r => {| at_start := t0 + p * (Z.of_nat (j + i) + 1);
                                     at_end := t0 + p * (Z.of_nat (j + i) + 1); at_response := r |}) rs)
                (open_at t k))) as H.
  { apply (H responses 0%nat t0 0); lia. }
  induction rs as [|r rs IH]; intros j t k Hk Hj; [constructor|]. rewrite imap_cons. cbn [outcomes].
  rewrite attempt_rejected by (simpl; nia). simpl. constructor; [done|].
  assert (forall b, Forall (fun r => r = RaisedOpen)
     (outcomes (imap (fun i r => {| at_start := t0 + p * (Z.of_nat (S j + i) + 1);
                                    at_end := t0 + p * (Z.of_nat (S j + i) + 1); at_response := r |}) rs) b) ->
     Forall (fun r => r = RaisedOpen)
     (outcomes (imap ((fun i r => {| at_start := t0 + p * (Z.of_nat (j + i) + 1);
                                    at_end := t0 + p * (Z.of_nat (j + i) + 1); at_response := r |}) ∘ S) rs) b)) as Hs.
  { intros b Hb. erewrite imap_ext; [exact Hb|]. intros i x _. simpl. do 2 f_equal; lia. }
  apply Hs. destruct (Z.leb_spec (failures_threshold cfg) (k + 1)).
  - apply (IH (S j) (t0 + p * (Z.of_nat (j + 0) + 1)) 0); [lia|]. nia.
  - apply (IH (S j) t (k + 1)); [lia|nia].
Qed.

(** The first response, as a loop without a breaker would find it. *)
Fixpoint first_response {R} (attempts : list (Attempt R)) : option R :=
  match attempts with
  | [] => None
  | a :: rest => match at_response a with Some r => Some r | None => first_response rest end
  end.

Lemma closed_attempt {R} (a : Attempt R) b :
  cb_state b = CB_CLOSED -> cb_failures b + 1 < failures_threshold cfg ->
  attempt_once cfg a b = (match at_response a with Some r => Returned r | None => RaisedService end,
                          match at_response a with
                          | Some _ => new_breaker
                          | None => {| cb_state := CB_CLOSED; cb_failures := cb_failures b + 1;
                                       cb_opened_at := cb_opened_at b; cb_half_open_calls := cb_half_open_calls b |}
                          end).
Proof.
  intros Hc Hf. unfold attempt_once, before_call, state. rewrite !Hc. destruct (at_response a); [done|].
  unfold on_failure. rewrite Hc. destruct (Z.leb_spec (failures_threshold cfg) (cb_failures b + 1)); [lia|done].
Qed.

End Breaker.

Lemma rejections_keep_open_witness :
  Forall (fun r => r = RaisedOpen)
    (outcomes {| failures_threshold := 5; open_timeout_seconds := 30; half_open_max_calls := 1 |}
       (imap (fun i r => {| at_start := 0 + 5 * (Z.of_nat i + 1); at_end := 0 + 5 * (Z.of_nat i + 1);
                            at_response := r |}) (replicate 100 (Some tt))) (trip 0)).
Proof.
  apply (rejections_keep_open {| failures_threshold := 5; open_timeout_seconds := 30; half_open_max_calls := 1 |}
           (replicate 100 (Some tt)) 0 5); simpl; lia.
Defined.

Lemma breaker_invariant_witness :
  breaker_ok {| failures_threshold := 2; open_timeout_seconds := 30; half_open_max_calls := 1 |}
    (on_failure {| failures_threshold := 2; open_timeout_seconds := 30; half_open_max_calls := 1 |} 4 new_breaker).
Proof. apply breaker_invariant; [simpl; lia|]. apply rtc_once. constructor. Defined.

End HttpProps.

Module ManagerProps.
Import Manager.

(** A probe that may begin: the circuit is half-open, or open with its time passed. *)
Definition probing (now : Z) (b : CircuitBreaker) : Prop :=
  mb_state b = CB_HALF_OPEN \/ (mb_state b = CB_OPEN /\ recovery_timeout b <= now - last_failure_time b).

(** Calls in sequence, each with its times and its ending. *)
Fixpoint calls {R E} (l : list (Z * Z * Ending R E)) (b : CircuitBreaker) : list (CallResult R E) * CircuitBreaker :=
  match l with
  | [] => ([], b)
  | (start, finish, x) :: l' =>
      let rb := call start finish x b in
      let rest := calls l' rb.2 in
      (rb.1 :: rest.1, rest.2)
  end.

Lemma half_open_full_rejects {R E} (l : list (Z * Z * Ending R E)) b :
  mb_state b = CB_HALF_OPEN -> half_open_max_calls b <= half_open_calls b ->
  Forall (fun r => r = CallOpen) (calls l b).1 /\ (calls l b).2 = b.
Proof.
  intros Hs Hc. induction l as [|[[s f] x] l [IH1 IH2]]; [by split|]. cbn [calls].
  assert (call s f x b = (CallOpen, b)) as ->.
  { unfold call, begin_call, can_execute. rewrite Hs. by destruct (Z.ltb_spec (half_open_calls b) (half_open_max_calls b)); [lia|]. }
  simpl. split; [by constructor|exact IH2].
Qed.

(** A cancelled probe wedges the breaker: once an open circuit has let its one
    probe through and that probe is cancelled (asyncio's CancelledError is no
    Exception), every later call is refused, at any time and for ever. *)
Theorem cancelled_probe_wedges {R E} (start finish : Z) (l : list (Z * Z * Ending R E)) b :
  mb_state b = CB_OPEN -> recovery_timeout b <= start - last_failure_time b -> half_open_max_calls b = 1 ->
  exists b', call start finish (EndCancelled : Ending R E) b = (CallCancelled, b') /\
    Forall (fun r => r = CallOpen) (calls l b').1 /\ (calls l b').2 = b'.
Proof.
  intros Hs Ht Hm. eexists. split.
  - unfold call, begin_call, can_execute. rewrite Hs.
    destruct (Z.leb_spec (recovery_timeout b) (start - last_failure_time b)); [|lia]. reflexivity.
  - apply half_open_full_rejects; simpl; [done|lia].
Qed.

Lemma call_fails {R E} s f (e : E) b :
  mb_state b = CB_CLOSED -> call s f (EndException e : Ending R E) b = (CallRaises e, record_failure f b).
Proof. intros Hs. unfold call, begin_call, can_execute. rewrite Hs. by rewrite Hs. Qed.

(** A closed circuit opens at its [failure_threshold]-th failure in a row, and
    from then on refuses calls without running them until the timeout has passed
    since the last failure, when it lets a probe through. *)
Theorem opens_and_fails_fast {R E} (fails : list (Z * Z * E)) (s f now : Z) (e : E) b (x : Ending R E) :
  mb_state b = CB_CLOSED -> 0 <= failure_count b ->
  failure_count b + Z.of_nat (length fails) + 1 = failure_threshold b ->
  let b1 := (calls (map (fun c => (c.1, EndException c.2 : Ending R E)) (fails ++ [(s, f, e)])) b).2 in
  mb_state b1 = CB_OPEN /\ last_failure_time b1 = f /\
  (now - f < recovery_timeout b -> forall finish, call now finish x b1 = (CallOpen, b1)) /\
  (recovery_timeout b <= now - f -> (begin_call now b1).1 = true).
Proof.
  revert b. induction fails as [|[[s' f'] e'] fails IH]; intros b Hs Hc Hn; cbv zeta; simpl length in Hn;
    cbn [app map calls snd fst]; rewrite call_fails by exact Hs; cbn [snd fst].
  - unfold record_failure. rewrite Hs.
    destruct (Z.leb_spec (failure_threshold b) (failure_count b + 1)); [|lia]. simpl.
    split; [done|]. split; [done|]. unfold call, begin_call, can_execute. simpl.
    split; intros Hlt; destruct (Z.leb_spec (recovery_timeout b) (now - f)); (done || lia).
  - assert (record_failure f' b = update (failure_count b + 1) f' CB_CLOSED (half_open_calls b) b) as ->.
    { unfold record_failure. rewrite Hs. by destruct (Z.leb_spec (failure_threshold b) (failure_count b + 1)); [lia|]. }
    apply (IH (update (failure_count b + 1) f' CB_CLOSED (half_open_calls b) b)); simpl; lia || done.
Qed.

(** ** Retries *)
Lemma retry_delay_bound cfg n r :
  (0 <= max_delay cfg)%Q -> (0 <= r)%Q -> (r <= 1)%Q -> (retry_delay cfg n r <= max_delay cfg)%Q.
Proof.
  intros Hm H0 H1. unfold retry_delay. set (d := Qmin _ _).
  assert (d <= max_delay cfg)%Q as Hd by apply Q.le_min_r. destruct (jitter cfg); [|exact Hd].
  set (f := ((1 # 2) + r * (1 # 2))%Q).
  assert (0 <= f /\ f <= 1)%Q as [Hf0 Hf1].
  { unfold f. split.
    - apply (Qle_trans _ ((1 # 2) + 0)); [done|]. apply Qplus_le_r.
      apply Qmult_le_0_compat; done.
    - apply (Qle_trans _ ((1 # 2) + 1 * (1 # 2))); [|done]. apply Qplus_le_r. by apply Qmult_le_compat_r. }
  destruct (Qlt_le_dec d 0) as [Hn|Hp].
  - apply (Qle_trans _ 0); [|exact Hm]. apply (Qle_trans _ (0 * f)); [|by rewrite Qmult_0_l].
    apply Qmult_le_compat_r; [by apply Qlt_le_weak|done].
  - apply (Qle_trans _ (d * 1)); [|by rewrite Qmult_1_r]. rewrite !(Qmult_comm d).
    by apply Qmult_le_compat_r.
Qed.

Lemma retry_loop_delays {R E} cfg (world : nat -> Round R E) left : forall attempt last b,
  Z.of_nat (attempt + left) = max_retries cfg + 1 ->
  exists rs, (retry_loop cfg world attempt left last b).1.2
             = map (fun n => retry_delay cfg n (rd_random (world n))) rs /\ (length rs <= left - 1)%nat.
Proof.
  induction left as [|left IH]; intros attempt last b Hm; [by exists []|]. cbn [retry_loop].
  destruct (call _ _ _ b) as [r b1]. destruct r as [r|e| | |]; try (exists []; simpl; split; [done|lia]).
  destruct (Z.eqb_spec (Z.of_nat attempt) (max_retries cfg)) as [Ha|Ha]; [exists []; simpl; split; [done|lia]|].
  destruct (IH (S attempt) (Some e) b1) as (rs & Hrs & Hl); [lia|].
  destruct (retry_loop cfg world (S attempt) left (Some e) b1) as [[r ds] b2]. simpl in *.
  exists (attempt :: rs). simpl. rewrite Hrs. split; [done|]. lia.
Qed.

Definition total (ds : list Q) : Q := foldr Qplus 0%Q ds.

(** Retrying is bounded: at most [max_retries] sleeps, each at most [max_delay]
    long, so at most max_retries * max_delay in all, whatever the service, the
    breaker and the jitter do. *)
Theorem retry_bounded {R E} cfg (world : nat -> Round R E) b :
  0 <= max_retries cfg -> (0 <= max_delay cfg)%Q ->
  (forall n, 0 <= rd_random (world n) /\ rd_random (world n) <= 1)%Q ->
  let ds := (execute_with_resilience cfg world b).1.2 in
  Z.of_nat (length ds) <= max_retries cfg /\ Forall (fun d => d <= max_delay cfg)%Q ds /\
  (total ds <= inject_Z (max_retries cfg) * max_delay cfg)%Q.
Proof.
  intros Hr Hd Hj. cbv zeta. unfold execute_with_resilience.
  destruct (retry_loop_delays cfg world (Z.to_nat (max_retries cfg + 1)) 0 None b) as (rs & -> & Hl); [lia|].
  rewrite length_map.
  assert (Forall (fun d => d <= max_delay cfg)%Q (map (fun n => retry_delay cfg n (rd_random (world n))) rs)) as Hall.
  { apply Forall_map, Forall_forall. intros n _. simpl. apply retry_delay_bound; [done|apply Hj..]. }
  split; [lia|]. split; [exact Hall|].
  assert (total (map (fun n => retry_delay cfg n (rd_random (world n))) rs)
          <= inject_Z (Z.of_nat (length rs)) * max_delay cfg)%Q as Ht.
  { clear Hl. induction rs as [|n rs IH]; [simpl; by rewrite Qmult_0_l|].
    apply Forall_cons in Hall as [H1 H2]. specialize (IH H2).
    apply (Qle_trans _ (max_delay cfg + inject_Z (Z.of_nat (length rs)) * max_delay cfg)).
    - by apply Qplus_le_compat.
    - apply Qle_lteq. right. rewrite length_cons, Nat2Z.inj_succ, <- Z.add_1_r, inject_Z_plus. ring. }
  apply (Qle_trans _ _ _ Ht). apply Qmult_le_compat_r; [|done]. rewrite <- Zle_Qle. lia.
Qed.
Definition opened : CircuitBreaker := update 5 100 CB_OPEN 0 (make_breaker 5 30 1).

Lemma cancelled_probe_wedges_witness :
  exists b', call 130 140 (EndCancelled : Ending nat string) opened = (CallCancelled, b') /\
    Forall (fun r => r = CallOpen)
      (calls (E:=string) [(1000, 1001, EndValue 1%nat); (9000, 9001, EndValue 2%nat)] b').1.
Proof.
  destruct (cancelled_probe_wedges (E:=string) 130 140
              [(1000, 1001, EndValue 1%nat); (9000, 9001, EndValue 2%nat)] opened) as (b' & H1 & H2 & _);
    [done|done|done|].
  exists b'. by split.
Defined.

Lemma opens_and_fails_fast_witness :
  mb_state (calls (map (fun c => (c.1, EndException c.2 : Ending nat string))
                     ([(1, 2, "down")] ++ [(3, 4, "down")])) (make_breaker 2 30 1)).2 = CB_OPEN.
Proof.
  apply (opens_and_fails_fast [(1, 2, "down")] 3 4 5 "down" (make_breaker 2 30 1) (EndValue 0%nat)); done.
Defined.

Lemma retry_bounded_witness :
  let cfg := {| max_retries := 2; base_delay := 1; max_delay := 30; exponential_base := 2; jitter := true |} in
  let world n := {| rd_start := 0; rd_finish := 0; rd_ending := EndException "down" : Ending nat string;
                    rd_random := 1 # 2 |} in
  (total (execute_with_resilience cfg world (make_breaker 5 30 1)).1.2 <= inject_Z 2 * 30)%Q.
Proof.
  intros cfg world. apply (retry_bounded cfg world (make_breaker 5 30 1)); [done|done|]. intros n. by split.
Defined.
End ManagerProps.
