(* ===== verification/Confirmation.v ===== *)
(** * Confirmation tokens: agents/runtime/confirmation.py

    A risky operation needs the user's confirmation, a signed token bound to user,
    chat and operation that can be consumed once.  The JWT library and Redis are
    arguments: [JwtLaws] and [NonceStoreLaws] state what the service relies on.

    Times are milliseconds since the epoch: [int(time.time())] is [seconds now]. *)
From S2P Require Import Prelude.
Open Scope Z_scope.

Definition seconds (now : Z) : Z := now / 1000.

Record Payload := {
  pl_fp : string;
  pl_uid : string;
  pl_cid : string;
  pl_iat : Z;
  pl_exp : Z;
  pl_nonce : string
}.

(** ** What the libraries provide *)

(** PyJWT: [decode token secret now] is [None] where it raises. *)
Class Jwt := {
  jwt_encode : Payload -> string -> string;
  jwt_decode : string -> string -> Z -> option Payload
}.

Class JwtLaws `(Jwt) : Prop := {
  jwt_decode_encode p s now :
    pl_iat p * 1000 <= now < pl_exp p * 1000 -> jwt_decode (jwt_encode p s) s now = Some p;
  jwt_decode_encode_only p s now p' : jwt_decode (jwt_encode p s) s now = Some p' -> p' = p;
  jwt_decode_unexpired tok s now p : jwt_decode tok s now = Some p -> now < pl_exp p * 1000;
  jwt_decode_stable tok s now now' p p' :
    jwt_decode tok s now = Some p -> jwt_decode tok s now' = Some p' -> p' = p
}.

(** Redis: [SET key "1" EX ttl NX]; [None] where the client raises. *)
Class NonceStore (R : Type) := {
  set_nx : string -> Z -> Z -> R -> option bool * R;
  holds : string -> Z -> R -> Prop
}.

Class NonceStoreLaws (R : Type) `(NonceStore R) : Prop := {
  set_nx_created k ttl now r r' :
    set_nx k ttl now r = (Some true, r') -> forall t, t < now + ttl * 1000 -> holds k t r';
  set_nx_keeps k k' ttl now r o r' t :
    set_nx k' ttl now r = (o, r') -> now <= t -> holds k t r -> holds k t r';
  set_nx_refuses k ttl now r o r' : set_nx k ttl now r = (o, r') -> holds k now r -> o <> Some true
}.

(** ** Fingerprints *)
Section Fingerprint.
Variables (sha256 : string -> string) (canonical_json : odict json -> string).

Definition build_operation_fingerprint (tool_slug operation : string) (args : odict json) : string :=
  sha256 (tool_slug +:+ "|" +:+ operation +:+ "|" +:+ canonical_json args).
End Fingerprint.

(** ** ConfirmationService.__init__: the secret *)
Definition choose_secret (env : option string) (confirmation_secret jwt_secret : option string) : option string :=
  let env := lower (strip (or_str env "local")) in
  let secret := strip (or_str confirmation_secret "") in
  if negb (str_empty secret) then Some secret
  else if str_in env ["production"; "prod"; "staging"] then None
  else Some (strip (or_str jwt_secret "")).

Section Service.
Context `{J : Jwt} {R : Type} `{N : NonceStore R}.
Variables (ttl_seconds : Z) (secret : string).

Definition MAX_FALLBACK_NONCE_STORE_SIZE : Z := 2000.
Definition NONCE_PREFIX : string := "runtime:confirmation:nonce:".

(** The Redis connection, when there is one, and the process-local store. *)
Record ConfState := { cs_redis : option R; cs_fallback : odict Z }.

Definition with_fallback (d : odict Z) (w : ConfState) : ConfState :=
  {| cs_redis := cs_redis w; cs_fallback := d |}.
Definition with_redis (r : R) (w : ConfState) : ConfState :=
  {| cs_redis := Some r; cs_fallback := cs_fallback w |}.

(** [issue]: the token and its expiry; [nonce] is [secrets.token_urlsafe(12)]. *)
Definition issue_payload (now : Z) (nonce user_id chat_id fingerprint : string) : Payload :=
  {| pl_fp := fingerprint; pl_uid := user_id; pl_cid := chat_id; pl_iat := seconds now;
     pl_exp := seconds (now + ttl_seconds * 1000); pl_nonce := nonce |}.

Definition issue (now : Z) (nonce user_id chat_id fingerprint : string) : string * Z :=
  (jwt_encode (issue_payload now nonce user_id chat_id fingerprint) secret, now + ttl_seconds * 1000).

(** The store kept in the process: expired nonces go first, then the ones that
    expire soonest until one more fits, then the nonce is looked up. *)
Definition drop_stale (now : Z) (d : odict Z) : odict Z := filter (fun kv => ~ kv.2 <= now) d.

Definition evict (d : odict Z) : odict Z :=
  let overflow := Z.of_nat (length d) - MAX_FALLBACK_NONCE_STORE_SIZE + 1 in
  if Z.ltb 0 overflow then
    let oldest := take (Z.to_nat overflow) (sort_by snd Z.le d) in
    foldl (fun d kv => od_pop kv.1 d) d oldest
  else d.

Definition consume_fallback (token_key : string) (ttl now : Z) (d : odict Z) : bool * odict Z :=
  let d := evict (drop_stale now d) in
  if od_mem token_key d then (false, d)
  else (true, od_set token_key (now + ttl * 1000) d).

(** [_consume_nonce], with the clock readings before and after the call to Redis. *)
Definition consume_nonce (now now' : Z) (p : Payload) (w : ConfState) : bool * ConfState :=
  let nonce := strip (pl_nonce p) in
  if str_empty nonce then (false, w)
  else
    let ttl := Z.max 1 (pl_exp p - seconds now) in
    let token_key := NONCE_PREFIX +:+ nonce in
    let fall_back w := let bd := consume_fallback token_key ttl now' (cs_fallback w) in
                       (bd.1, with_fallback bd.2 w) in
    match cs_redis w with
    | Some r => match set_nx token_key ttl now r with
                | (Some created, r') => (created, with_redis r' w)
                | (None, r') => fall_back (with_redis r' w)
                end
    | None => fall_back w
    end.

Definition verify (now now' : Z) (token user_id chat_id fingerprint : string) (consume : bool) (w : ConfState)
    : bool * ConfState :=
  match jwt_decode token secret now with
  | None => (false, w)
  | Some p =>
      if String.eqb (pl_uid p) user_id && String.eqb (pl_cid p) chat_id && String.eqb (pl_fp p) fingerprint then
        if consume then consume_nonce now now' p w else (true, w)
      else (false, w)
  end.
End Service.
Arguments ConfState R : clear implicits.

(** ** Theorems *)
Section Theorems.
Context `{J : Jwt} `{!JwtLaws J} {R : Type} `{N : NonceStore R} `{!NonceStoreLaws R N}.
Variables (ttl_seconds : Z) (secret : string).
Implicit Types w : ConfState R.

Lemma issue_times now nonce u c f :
  0 < ttl_seconds ->
  let p := issue_payload ttl_seconds now nonce u c f in
  pl_iat p * 1000 <= now /\ (pl_exp p = pl_iat p + ttl_seconds) /\ pl_exp p * 1000 <= now + ttl_seconds * 1000.
Proof.
  intros Ht. simpl. unfold seconds. rewrite Z.div_add by lia.
  pose proof (Z.mul_div_le now 1000). lia.
Qed.


(** Later calls of the service: any token, any request. *)
Record Call := { cl_now : Z; cl_now' : Z; cl_token : string; cl_user : string; cl_chat : string;
                 cl_fp : string; cl_consume : bool }.

Definition run_call (c : Call) (w : ConfState R) : bool * ConfState R :=
  verify secret (cl_now c) (cl_now' c) (cl_token c) (cl_user c) (cl_chat c) (cl_fp c) (cl_consume c) w.

Fixpoint run_calls (l : list Call) (w : ConfState R) : ConfState R :=
  match l with
  | [] => w
  | c :: l' => run_calls l' (run_call c w).2
  end.

Definition redis_holds (k : string) (t : Z) (w : ConfState R) : Prop :=
  match cs_redis w with Some r => holds k t r | None => False end.

Lemma run_call_keeps k t c w : cl_now c <= t -> redis_holds k t w -> redis_holds k t (run_call c w).2.
Proof.
  intros Ht H. unfold run_call, verify. destruct (jwt_decode _ _ _) as [p|]; [|done].
  destruct (_ && _ && _); [|done]. destruct (cl_consume c); [|done].
  unfold consume_nonce, redis_holds in *. destruct (str_empty _); [done|].
  destruct (cs_redis w) as [r|] eqn:Er; [|done].
  destruct (set_nx _ _ _ r) as [[created|] r'] eqn:Es; simpl; by eapply set_nx_keeps.
Qed.

Lemma run_calls_keeps k t l w :
  Forall (fun c => cl_now c <= t) l -> redis_holds k t w -> redis_holds k t (run_calls l w).
Proof.
  intros Hl. revert w. induction Hl as [|c l Hc _ IH]; intros w H; [done|]. simpl. apply IH. by apply run_call_keeps.
Qed.

(** When Redis answers the call. *)
Definition redis_answers (now : Z) (p : Payload) (w : ConfState R) : Prop :=
  exists r, cs_redis w = Some r /\
    (set_nx (NONCE_PREFIX +:+ strip (pl_nonce p)) (Z.max 1 (pl_exp p - seconds now)) now r).1 <> None.

Lemma consumed_held now now' token u c f p w :
  jwt_decode token secret now = Some p -> redis_answers now p w ->
  (verify secret now now' token u c f true w).1 = true ->
  str_empty (strip (pl_nonce p)) = false /\
  forall t, t < pl_exp p * 1000 ->
    redis_holds (NONCE_PREFIX +:+ strip (pl_nonce p)) t (verify secret now now' token u c f true w).2.
Proof.
  intros Hd (r & Hr & Hans). unfold verify. rewrite Hd. destruct (_ && _ && _); [|done].
  unfold consume_nonce. rewrite Hr. destruct (str_empty (strip (pl_nonce p))); [done|].
  destruct (set_nx _ _ now r) as [[created|] r1] eqn:Es; [|done]. simpl. intros ->. split; [done|].
  intros t Ht. unfold redis_holds. simpl. eapply set_nx_created; [exact Es|].
  unfold seconds. pose proof (Z.mul_div_le now 1000). lia.
Qed.

(** C19: A token is accepted for consumption at most once: after a consumption that
    Redis acknowledged, whatever calls follow, in any order and by any process, a
    later attempt to consume the token is refused as long as Redis answers it. *)
Theorem token_single_use now now' t t' token u c f u' c' f' p l w :
  jwt_decode token secret now = Some p ->
  redis_answers now p w ->
  (verify secret now now' token u c f true w).1 = true ->
  Forall (fun k => cl_now k <= t) l ->
  let w' := run_calls l (verify secret now now' token u c f true w).2 in
  redis_answers t p w' ->
  (verify secret t t' token u' c' f' true w').1 = false.
Proof.
  intros Hd Hans Hv Hl w' Ha. pose proof (consumed_held now now' token u c f p w Hd Hans Hv) as [Hne Hheld].
  unfold verify at 1. destruct (jwt_decode token secret t) as [p'|] eqn:Hd'; [|done].
  pose proof (jwt_decode_stable _ _ _ _ _ _ Hd Hd') as ->. apply jwt_decode_unexpired in Hd'.
  destruct (_ && _ && _); [|done].
  assert (redis_holds (NONCE_PREFIX +:+ strip (pl_nonce p)) t w') as Hh by (apply run_calls_keeps; auto).
  clearbody w'. destruct Ha as (r2 & Hr2 & Ha2). unfold consume_nonce, redis_holds in *. rewrite Hr2 in *. rewrite Hne.
  destruct (set_nx _ _ t r2) as [[[]|] r3] eqn:Es2; simpl in *; [|done..].
  by apply (set_nx_refuses _ _ _ _ _ _ Es2) in Hh.
Qed.
End Theorems.

(** *** The process-local store *)
Section Fallback.
Implicit Types d : odict Z.

Lemma od_get_pop_all (l d : odict Z) k :
  od_get k (foldl (fun d kv => od_pop kv.1 d) d l) = if decide (k ∈ od_keys l) then None else od_get k d.
Proof.
  revert d. induction l as [|[k' v] l IH]; intros d; [done|]. simpl. rewrite IH.
  destruct (decide (k = k')) as [->|Hne].
  - rewrite od_get_pop_eq. rewrite (decide_True (P:=_ ∈ _ :: _)) by by left. by case_decide.
  - rewrite od_get_pop_ne by done. repeat case_decide; set_solver.
Qed.

Lemma filter_id {A} (P : A -> Prop) `{forall x, Decision (P x)} (l : list A) :
  (forall x, x ∈ l -> P x) -> filter P l = l.
Proof.
  induction l as [|x l IH]; intros H1; [done|]. rewrite filter_cons, decide_True by (apply H1; left).
  rewrite IH; [done|]. intros y Hy. apply H1. by right.
Qed.

Lemma evict_small d : Z.of_nat (length d) < MAX_FALLBACK_NONCE_STORE_SIZE -> evict d = d.
Proof.
  intros H. unfold evict. destruct (Z.ltb_spec 0 (Z.of_nat (length d) - MAX_FALLBACK_NONCE_STORE_SIZE + 1)); [lia|done].
Qed.

Lemma drop_stale_get now k v d : NoDup (od_keys d) -> od_get k d = Some v -> now < v -> od_get k (drop_stale now d) = Some v.
Proof.
  intros Hnd Hk Hv. apply od_elem_get; [by apply od_keys_filter_NoDup|].
  apply list_elem_of_filter. split; [simpl; lia|by apply od_get_elem].
Qed.

(** A sequence of consumptions, none of which finds the store full. *)
Fixpoint consume_all (l : list (string * Z * Z)) d : odict Z :=
  match l with
  | [] => d
  | (k, ttl, now) :: l' => consume_all l' (consume_fallback k ttl now d).2
  end.

Fixpoint never_full (l : list (string * Z * Z)) d : Prop :=
  match l with
  | [] => True
  | (k, ttl, now) :: l' => Z.of_nat (length (drop_stale now d)) < MAX_FALLBACK_NONCE_STORE_SIZE /\
                           never_full l' (consume_fallback k ttl now d).2
  end.

Lemma consume_keeps k0 ttl now k v d :
  Z.of_nat (length (drop_stale now d)) < MAX_FALLBACK_NONCE_STORE_SIZE -> NoDup (od_keys d) ->
  now < v -> od_get k d = Some v ->
  NoDup (od_keys (consume_fallback k0 ttl now d).2) /\ od_get k (consume_fallback k0 ttl now d).2 = Some v.
Proof.
  intros Hs Hnd Hv Hk. unfold consume_fallback. rewrite evict_small by done.
  pose proof (drop_stale_get now k v d Hnd Hk Hv) as Hk'.
  assert (NoDup (od_keys (drop_stale now d))) as Hnd' by by apply od_keys_filter_NoDup.
  destruct (od_mem k0 (drop_stale now d)) eqn:Em; simpl; [done|]. split; [by apply od_set_NoDup|].
  rewrite od_get_set_ne; [done|]. intros ->. unfold od_mem in Em. by rewrite Hk' in Em.
Qed.

(** Without Redis a nonce is accepted once per process until it expires, as long
    as the store never fills up. *)
Theorem fallback_single_use k ttl now l d t ttl' :
  NoDup (od_keys d) ->
  (consume_fallback k ttl now d).1 = true ->
  never_full ((k, ttl, now) :: l ++ [(k, ttl', t)]) d ->
  Forall (fun c => c.2 <= t) l -> t < now + ttl * 1000 ->
  (consume_fallback k ttl' t (consume_all l (consume_fallback k ttl now d).2)).1 = false.
Proof.
  intros Hnd H1 [Hs Hfull] Hl Ht. unfold consume_fallback in H1 at 1.
  assert (NoDup (od_keys (consume_fallback k ttl now d).2) /\
          od_get k (consume_fallback k ttl now d).2 = Some (now + ttl * 1000)) as [Hnd1 Hk1].
  { unfold consume_fallback. rewrite evict_small in * by done.
    destruct (od_mem k (drop_stale now d)); [done|]. simpl.
    split; [by apply od_set_NoDup, od_keys_filter_NoDup|by rewrite od_get_set_eq]. }
  revert Hnd1 Hk1 Hfull. generalize (consume_fallback k ttl now d).2. clear H1 Hs Hnd d.
  induction Hl as [|[[k' ttl1] n'] l Hn _ IH]; intros d Hnd Hk Hfull; simpl in *.
  - destruct Hfull as [Hs _]. unfold consume_fallback. rewrite evict_small by done. unfold od_mem.
    by rewrite (drop_stale_get t k (now + ttl * 1000)).
  - destruct Hfull as [Hs Hfull].
    destruct (consume_keeps k' ttl1 n' k (now + ttl * 1000) d Hs Hnd ltac:(lia) Hk). by apply IH.
Qed.

(** A full store forgets before it checks: the nonce that expires first is
    accepted again, because room is made for it before it is looked up. *)
Theorem full_store_replays k v ttl now d :
  MAX_FALLBACK_NONCE_STORE_SIZE <= Z.of_nat (length d) ->
  (k, v) ∈ d -> now < v -> (forall k' v', (k', v') ∈ d -> (k', v') <> (k, v) -> v < v') ->
  (consume_fallback k ttl now d).1 = true.
Proof.
  intros Hlen Hin Hv Hmin.
  assert (drop_stale now d = d) as Hd.
  { apply filter_id. intros [k' v'] H. simpl.
    destruct (decide ((k', v') = (k, v))) as [[= -> ->]|Hne]; [lia|]. specialize (Hmin k' v' H Hne). lia. }
  unfold consume_fallback. rewrite Hd. unfold evict.
  destruct (Z.ltb_spec 0 (Z.of_nat (length d) - MAX_FALLBACK_NONCE_STORE_SIZE + 1)) as [Ho|Ho]; [|lia].
  set (n := Z.to_nat _). unfold od_mem. rewrite od_get_pop_all, decide_True; [done|].
  enough ((k, v) ∈ take n (sort_by snd Z.le d)) as He by (by apply (list_elem_of_fmap_2 fst) in He).
  destruct (sort_by snd Z.le d) as [|x s] eqn:Es.
  { pose proof (sort_by_elem snd Z.le d (k, v)) as Hs. rewrite Es in Hs. set_solver. }
  assert (x ∈ take n (sort_by snd Z.le d)) as Hx.
  { rewrite Es. destruct n as [|n'] eqn:En; [unfold n in En; lia|]. by left. }
  rewrite <- Es. destruct (sort_by_take_least snd Z.le n d x (k, v) Hx Hin) as [?|Hle]; [done|].
  destruct (decide (x = (k, v))) as [<-|Hne]; [done|]. destruct x as [kx vx].
  assert ((kx, vx) ∈ d) as Hxd by (apply (sort_by_elem snd Z.le); rewrite Es; by left).
  specialize (Hmin kx vx Hxd Hne). simpl in Hle. lia.
Qed.
End Fallback.

(** ** Fingerprints *)
Definition bar : Ascii.ascii := Ascii.ascii_of_nat 124.
Fixpoint no_bar (s : string) : bool :=
  match s with
  | EmptyString => true
  | String c s' => negb (bool_decide (c = bar)) && no_bar s'
  end.

Lemma split_at_bar a a' b b' :
  no_bar a = true -> no_bar a' = true -> a +:+ "|" +:+ b = a' +:+ "|" +:+ b' -> a = a' /\ b = b'.
Proof.
  revert a'. induction a as [|c a IH]; intros [|c' a']; simpl.
  - by intros _ _ [= H].
  - by intros _ H [= <- _].
  - by intros H _ [= -> _].
  - intros [_ Ha]%andb_true_iff [_ Ha']%andb_true_iff [= <- Heq].
    by destruct (IH a' Ha Ha' Heq) as [-> ->].
Qed.

(** What a fingerprint binds: with a collision-free hash and tools and
    operations named without a bar, two calls have the same fingerprint only when
    tool, operation and canonical arguments are all the same; with a bar in a
    name the binding is lost for every hash. *)
Theorem fingerprint_binds sha256 canonical_json tool op args tool' op' args' :
  Inj eq eq sha256 -> no_bar tool = true -> no_bar op = true -> no_bar tool' = true -> no_bar op' = true ->
  (build_operation_fingerprint sha256 canonical_json tool op args
   = build_operation_fingerprint sha256 canonical_json tool' op' args'
   <-> tool = tool' /\ op = op' /\ canonical_json args = canonical_json args') /\
  (forall a b c, build_operation_fingerprint sha256 canonical_json (a +:+ "|" +:+ b) c args
                 = build_operation_fingerprint sha256 canonical_json a (b +:+ "|" +:+ c) args).
Proof.
  intros Hinj H1 H2 H3 H4. unfold build_operation_fingerprint. split; [split|].
  - intros H%Hinj. apply (split_at_bar tool tool') in H as [-> H]; [|done..].
    by apply (split_at_bar op op') in H as [-> ->].
  - by intros (-> & -> & ->).
  - intros a b c. f_equal. by rewrite <- !(assoc_L String.append).
Qed.

(** ** Witnesses: a decodable token format and an expiring store *)
Module Demo.
Definition zero : Ascii.ascii := Ascii.ascii_of_nat 48.
Definition one : Ascii.ascii := Ascii.ascii_of_nat 49.
Fixpoint bits (p : positive) : string :=
  match p with
  | xH => ""
  | xO p => String zero (bits p)
  | xI p => String one (bits p)
  end.
Fixpoint unbits (s : string) : positive :=
  match s with
  | EmptyString => xH
  | String c s => if bool_decide (c = one) then xI (unbits s) else xO (unbits s)
  end.
Lemma unbits_bits p : unbits (bits p) = p.
Proof. induction p; simpl; by rewrite ?IHp. Qed.

Abbreviation tuple := (string * string * string * Z * Z * string)%type.
Definition to_tuple (p : Payload) : tuple := (pl_fp p, pl_uid p, pl_cid p, pl_iat p, pl_exp p, pl_nonce p).
Definition of_tuple (t : tuple) : Payload :=
  match t with
  | (fp, uid, cid, iat, exp, nonce) =>
      {| pl_fp := fp; pl_uid := uid; pl_cid := cid; pl_iat := iat; pl_exp := exp; pl_nonce := nonce |}
  end.

#[local] Instance jwt : Jwt := {
  jwt_encode p s := bits (encode (to_tuple p, s));
  jwt_decode tok s now :=
    match (decode (unbits tok) : option (tuple * string)) with
    | Some (t, s') =>
        if bool_decide (s' = s /\ pl_iat (of_tuple t) * 1000 <= now < pl_exp (of_tuple t) * 1000)
        then Some (of_tuple t) else None
    | None => None
    end
}.

Lemma of_to_tuple p : of_tuple (to_tuple p) = p.
Proof. by destruct p. Qed.

#[local] Instance jwt_laws : JwtLaws jwt.
Proof.
  split.
  - intros p s now H. simpl. rewrite unbits_bits, decode_encode, of_to_tuple.
    by rewrite bool_decide_eq_true_2.
  - intros p s now p'. simpl. rewrite unbits_bits, decode_encode, of_to_tuple. case_bool_decide; congruence.
  - intros tok s now p. simpl. destruct (decode (unbits tok)) as [[t s']|]; [|done].
    case_bool_decide as Hd; intros [= <-]. lia.
  - intros tok s now now' p p'. simpl. destruct (decode (unbits tok)) as [[t s']|]; [|done].
    case_bool_decide; [|done]. intros [= <-]. case_bool_decide; congruence.
Qed.

#[local] Instance store : NonceStore (odict Z) := {
  set_nx k ttl now r :=
    if existsb (fun kv => String.eqb kv.1 k && Z.ltb now kv.2) r then (Some false, r)
    else (Some true, (k, now + ttl * 1000) :: r);
  holds k t r := exists e, (k, e) ∈ r /\ t < e
}.

#[local] Instance store_laws : NonceStoreLaws (odict Z) store.
Proof.
  split.
  - intros k ttl now r r'. simpl. destruct (existsb _ r); intros [= <-] t Ht. exists (now + ttl * 1000).
    split; [by left|done].
  - intros k k' ttl now r o r' t. simpl. destruct (existsb _ r); intros [= <- <-] _ (e & He & Hte); exists e.
    + done.
    + split; [by right|done].
  - intros k ttl now r o r'. simpl. destruct (existsb _ r) eqn:E; intros [= <- <-]; [done|].
    intros (e & He & Hte) _. pose proof (existsb_none _ _ E _ He) as Hf. simpl in Hf.
    rewrite String.eqb_refl in Hf. simpl in Hf. lia.
Qed.

Definition state : ConfState (odict Z) := {| cs_redis := Some []; cs_fallback := [] |}.
Definition token : string := (issue 300 "secret" 5000 "n1" "u" "c" "f").1.


Lemma token_single_use_witness :
  (verify "secret" 8000 8000 token "u" "c" "f" true
     (run_calls "secret" [] (verify "secret" 6000 6000 token "u" "c" "f" true state).2)).1 = false.
Proof.
  apply (token_single_use "secret" 6000 6000 8000 8000 token "u" "c" "f" "u" "c" "f"
           (issue_payload 300 5000 "n1" "u" "c" "f") [] state).
  - unfold token, issue. cbn [fst]. apply jwt_decode_encode. vm_compute. by split.
  - exists []. by split.
  - vm_compute. reflexivity.
  - constructor.
  - eexists. split; [vm_compute; reflexivity|]. vm_compute. discriminate.
Defined.
End Demo.

Lemma fallback_single_use_witness :
  (consume_fallback "k" 300 9000 (consume_all [("other", 300, 7000)] (consume_fallback "k" 300 5000 []).2)).1 = false.
Proof.
  apply (fallback_single_use "k" 300 5000 [("other", 300, 7000)] [] 9000 300).
  - apply NoDup_nil_2.
  - reflexivity.
  - vm_compute. done.
  - repeat constructor; simpl; lia.
  - lia.
Defined.

(** Two thousand nonces of other operations and an earlier one. *)
Definition full_store : odict Z := ("k", 10000) :: replicate 1999 ("other", 300000).

Lemma full_store_replays_witness : (consume_fallback "k" 300 9000 full_store).1 = true.
Proof.
  apply (full_store_replays "k" 10000 300 9000 full_store).
  - vm_compute. discriminate.
  - by left.
  - lia.
  - intros k' v'. unfold full_store. rewrite elem_of_cons. intros [?|H] Hne; [done|].
    apply elem_of_replicate_inv in H. injection H as -> ->. lia.
Defined.

Lemma fingerprint_binds_witness :
  build_operation_fingerprint id (fun _ => "{}") "a" "b" [] <> build_operation_fingerprint id (fun _ => "{}") "a" "c" [].
Proof.
  destruct (fingerprint_binds id (fun _ => "{}") "a" "b" [] "a" "c" []) as [H _]; [apply _|done..|].
  rewrite H. intros (_ & [=] & _).
Defined.
