(* ===== verification/ToolLedger.v ===== *)
(** * The tool ledger of a turn: runtime/memory/tool_ledger.py

    A bounded journal of the operation calls of one turn, with their results, from
    which a repeated call is answered.  [stable_json] is [_stable_json], the sorted
    compact JSON text, and [sha256] the hexadecimal digest; times are microseconds. *)
From S2P Require Import Prelude.
Open Scope Z_scope.

Definition MAX_TOOL_LEDGER_ENTRIES : nat := 120.
Definition REUSE_MAX_AGE_SECONDS : Z := 300.
Definition MAX_TOOL_PREVIEW_CHARS : nat := 220.
Definition MAX_RESULT_CACHE_CHARS : nat := Z.to_nat 24000.

Inductive CallStatus := CALLED | SUCCEEDED | FAILED.
#[export] Instance call_status_eq_dec : EqDecision CallStatus.
Proof. solve_decision. Defined.

Record ToolLedgerEntry := {
  le_call_id : string;
  le_operation : string;
  le_args_fingerprint : string;
  le_args_preview : string;
  le_iteration : Z;
  le_agent_slug : option string;
  le_phase_id : option string;
  le_duplicate_of_call_id : option string;
  le_status : CallStatus;
  le_success : option bool;
  le_result_fingerprint : option string;
  le_result_preview : option string;
  le_result_data : json;
  le_called_at : Z;
  le_finished_at : option Z
}.

Definition ToolLedger := list ToolLedgerEntry.

(** [l[-n:]] for a positive [n] *)
Definition last_n {A} (n : nat) (l : list A) : list A := drop (length l - n) l.

(** The newest element that satisfies [p], and its update in place. *)
Definition newest {A} (p : A -> bool) (l : list A) : option A := List.find p (reverse l).

Fixpoint update_newest {A} (p : A -> bool) (f : A -> A) (l : list A) : list A :=
  match l with
  | [] => []
  | x :: l' => if existsb p l' then x :: update_newest p f l' else if p x then f x :: l' else l
  end.

Section Ledger.
Variables (stable_json : json -> string) (sha256 : string -> string).

Definition _fingerprint_and_preview (value : json) : string * string :=
  let text := stable_json value in (str_take 16 (sha256 text), str_take MAX_TOOL_PREVIEW_CHARS text).

Definition _cacheable_result_data (value : json) : json :=
  if Nat.ltb MAX_RESULT_CACHE_CHARS (String.length (stable_json value)) then JNull else value.

Definition signature_of (operation args_fingerprint : string) : string := operation +:+ ":" +:+ args_fingerprint.
Definition signature (e : ToolLedgerEntry) : string := signature_of (le_operation e) (le_args_fingerprint e).

Definition _find_completed_duplicate (sig : string) (entries : ToolLedger) : option string :=
  le_call_id <$> newest (fun e => String.eqb (signature e) sig && negb (bool_decide (le_status e = CALLED))) entries.

Definition new_entry (now : Z) (operation call_id : string) (arguments : json) (iteration : Z)
    (agent_slug phase_id : option string) (entries : ToolLedger) : ToolLedgerEntry :=
  let '(args_fingerprint, args_preview) := _fingerprint_and_preview arguments in
  {| le_call_id := call_id; le_operation := operation; le_args_fingerprint := args_fingerprint;
     le_args_preview := args_preview; le_iteration := iteration; le_agent_slug := agent_slug; le_phase_id := phase_id;
     le_duplicate_of_call_id := _find_completed_duplicate (signature_of operation args_fingerprint) entries;
     le_status := CALLED; le_success := None; le_result_fingerprint := None; le_result_preview := None;
     le_result_data := JNull; le_called_at := now; le_finished_at := None |}.

Definition register_call (now : Z) (operation call_id : string) (arguments : json) (iteration : Z)
    (agent_slug phase_id : option string) (entries : ToolLedger) : ToolLedger :=
  let entries := entries ++ [new_entry now operation call_id arguments iteration agent_slug phase_id entries] in
  if Nat.ltb MAX_TOOL_LEDGER_ENTRIES (length entries) then last_n MAX_TOOL_LEDGER_ENTRIES entries else entries.

Definition settle (now : Z) (success : bool) (data : json) (e : ToolLedgerEntry) : ToolLedgerEntry :=
  let '(result_fingerprint, result_preview) := _fingerprint_and_preview data in
  {| le_call_id := le_call_id e; le_operation := le_operation e; le_args_fingerprint := le_args_fingerprint e;
     le_args_preview := le_args_preview e; le_iteration := le_iteration e; le_agent_slug := le_agent_slug e;
     le_phase_id := le_phase_id e; le_duplicate_of_call_id := le_duplicate_of_call_id e;
     le_status := if success then SUCCEEDED else FAILED; le_success := Some success;
     le_result_fingerprint := Some result_fingerprint; le_result_preview := Some result_preview;
     le_result_data := if success then _cacheable_result_data data else JNull;
     le_called_at := le_called_at e; le_finished_at := Some now |}.

(** The newest entry of the call; a result without a call is ignored. *)
Definition register_result (now : Z) (call_id : string) (success : bool) (data : json) (entries : ToolLedger) : ToolLedger :=
  update_newest (fun e => String.eqb (le_call_id e) call_id) (settle now success data) entries.

(** One row of [compact_view]. *)
Record CallView := {
  cv_operation : string;
  cv_call_id : string;
  cv_status : CallStatus;
  cv_success : option bool;
  cv_duplicate_of_call_id : option string;
  cv_args_preview : string;
  cv_result_preview : option string
}.

Definition compact_view (max_items : nat) (entries : ToolLedger) : list CallView :=
  map (fun e => {| cv_operation := le_operation e; cv_call_id := le_call_id e; cv_status := le_status e;
                   cv_success := le_success e; cv_duplicate_of_call_id := le_duplicate_of_call_id e;
                   cv_args_preview := le_args_preview e; cv_result_preview := le_result_preview e |})
      (match max_items with O => entries | _ => last_n max_items entries end).

Definition reusable (now max_age_seconds : Z) (sig : string) (e : ToolLedgerEntry) : bool :=
  String.eqb (signature e) sig && bool_decide (le_status e = SUCCEEDED) &&
  negb (match le_result_data e with JNull => true | _ => false end) &&
  bool_decide (now - default (le_called_at e) (le_finished_at e) <= max_age_seconds * 1000000).

Definition find_successful_result (now : Z) (operation : string) (arguments : json) (max_age_seconds : Z)
    (entries : ToolLedger) : option ToolLedgerEntry :=
  newest (reusable now max_age_seconds (signature_of operation (_fingerprint_and_preview arguments).1)) entries.
End Ledger.

(** ** Lemmas *)
Section Lists.
Context {A : Type}.
Implicit Types (p : A -> bool) (l : list A).

Lemma newest_Some p l x : newest p l = Some x -> x ∈ l /\ p x = true.
Proof.
  unfold newest. intros H. apply List.find_some in H as [Hin Hp]. split; [|done].
  by rewrite <- elem_of_reverse, list_elem_of_In.
Qed.

Lemma newest_split p l x :
  newest p l = Some x -> exists l1 l2, l = l1 ++ x :: l2 /\ p x = true /\ forall y, y ∈ l2 -> p y = false.
Proof.
  induction l as [|y l IH] using rev_ind; [done|]. unfold newest. rewrite reverse_snoc. simpl.
  destruct (p y) eqn:Hy; [injection 1 as ->; exists l, []; split_and!; set_solver|].
  intros H. destruct (IH H) as (l1 & l2 & -> & Hx & Hl2). exists l1, (l2 ++ [y]).
  rewrite <- app_assoc. split_and!; [done..|]. intros z. rewrite elem_of_app, list_elem_of_singleton.
  by intros [?| ->]; [apply Hl2|].
Qed.

Lemma newest_None p l : newest p l = None <-> forall x, x ∈ l -> p x = false.
Proof.
  unfold newest. split.
  - intros H x Hx. eapply List.find_none; [exact H|]. by apply list_elem_of_In, elem_of_reverse.
  - intros H. destruct (List.find p (reverse l)) as [x|] eqn:E; [|done].
    apply List.find_some in E as [Hin Hp]. rewrite <- list_elem_of_In, elem_of_reverse in Hin. by rewrite H in Hp.
Qed.

Lemma newest_snoc p l x : newest p (l ++ [x]) = if p x then Some x else newest p l.
Proof. unfold newest. by rewrite reverse_snoc. Qed.

Lemma newest_weaken p l x : x ∈ l -> p x = true -> is_Some (newest p l).
Proof.
  intros Hx Hp. destruct (newest p l) eqn:E; [done|]. by rewrite (proj1 (newest_None p l) E x Hx) in Hp.
Qed.

Lemma update_newest_length p f l : length (update_newest p f l) = length l.
Proof. induction l as [|x l IH]; [done|]. simpl. destruct (existsb p l); [|destruct (p x)]; simpl; congruence. Qed.

Lemma update_newest_none p f l : existsb p l = false -> update_newest p f l = l.
Proof.
  destruct l as [|x l]; [done|]. simpl. intros [-> ->]%orb_false_iff. done.
Qed.

Lemma update_newest_snoc p f l x : p x = true -> update_newest p f (l ++ [x]) = l ++ [f x].
Proof.
  intros Hx. induction l as [|y l IH]; simpl; [by rewrite Hx|].
  rewrite existsb_app. simpl. rewrite Hx, orb_true_r. by rewrite IH.
Qed.

Lemma update_newest_elem p f l y : y ∈ update_newest p f l -> y ∈ l \/ exists x, x ∈ l /\ p x = true /\ y = f x.
Proof.
  induction l as [|x l IH]; simpl; [set_solver|]. destruct (existsb p l); [|destruct (p x) eqn:Hx]; set_solver.
Qed.

Lemma last_n_length n l : (length (last_n n l) <= n)%nat.
Proof. unfold last_n. rewrite length_drop. lia. Qed.

Lemma last_n_elem n l x : x ∈ last_n n l -> x ∈ l.
Proof. unfold last_n. intros H. eapply elem_of_submseteq; [exact H|]. apply sublist_submseteq, sublist_drop. Qed.

Lemma last_n_snoc n l x : (0 < n)%nat -> last_n n (l ++ [x]) = last_n (pred n) l ++ [x].
Proof.
  intros Hn. unfold last_n. rewrite length_app. simpl. rewrite drop_app_le by lia. do 2 f_equal. lia.
Qed.
End Lists.

Lemma update_newest_Forall2 {A} (p : A -> bool) f l :
  Forall2 (fun x y => y = x \/ (p x = true /\ y = f x)) l (update_newest p f l).
Proof.
  assert (forall l', Forall2 (fun x y => y = x \/ (p x = true /\ y = f x)) l' l') as Hrefl
    by (intros l'; induction l'; constructor; [by left|done]).
  induction l as [|x l IH]; simpl; [constructor|].
  destruct (existsb p l); [constructor; [by left|done]|]. destruct (p x) eqn:Hx; [|apply Hrefl].
  constructor; [by right|apply Hrefl].
Qed.

(** ** Theorems *)
Section Theorems.
Variables (stable_json : json -> string) (sha256 : string -> string).
#[local] Abbreviation register_call := (register_call stable_json sha256).
#[local] Abbreviation register_result := (register_result stable_json sha256).
#[local] Abbreviation find_successful_result := (find_successful_result stable_json sha256).
#[local] Abbreviation fingerprint v := (_fingerprint_and_preview stable_json sha256 v).1.

(** The calls of the journal, in any order. *)
Inductive ledger_op :=
| RegisterCall (now : Z) (operation call_id : string) (arguments : json) (iteration : Z)
    (agent_slug phase_id : option string)
| RegisterResult (now : Z) (call_id : string) (success : bool) (data : json).

Definition run_op (l : ToolLedger) (o : ledger_op) : ToolLedger :=
  match o with
  | RegisterCall now op cid args it ag ph => register_call now op cid args it ag ph l
  | RegisterResult now cid ok data => register_result now cid ok data l
  end.

Definition is_call (o : ledger_op) : bool := match o with RegisterCall _ _ _ _ _ _ _ => true | _ => false end.
Definition op_id (o : ledger_op) : string :=
  match o with RegisterCall _ _ cid _ _ _ _ => cid | RegisterResult _ cid _ _ => cid end.

Lemma register_call_shape now op cid args it ag ph l :
  exists e, le_call_id e = cid /\ le_operation e = op /\ le_args_fingerprint e = fingerprint args /\
    le_status e = CALLED /\ le_called_at e = now /\
    register_call now op cid args it ag ph l = last_n MAX_TOOL_LEDGER_ENTRIES (l ++ [e]).
Proof.
  exists (new_entry stable_json sha256 now op cid args it ag ph l).
  unfold ToolLedger.register_call. destruct (Nat.ltb_spec MAX_TOOL_LEDGER_ENTRIES (length (l ++ [new_entry stable_json
    sha256 now op cid args it ag ph l]))) as [|Hle]; (split_and!; [unfold new_entry; by destruct (_fingerprint_and_preview
    _ _ _)..|]); [reflexivity|].
  unfold last_n. by rewrite (proj2 (Nat.sub_0_le _ _)) by exact Hle.
Qed.

(** The journal never holds more than 120 entries. *)
Lemma ledger_bounded ops l :
  (length l <= MAX_TOOL_LEDGER_ENTRIES)%nat -> (length (foldl run_op l ops) <= MAX_TOOL_LEDGER_ENTRIES)%nat.
Proof.
  revert l. induction ops as [|o ops IH]; intros l Hl; [done|]. simpl. apply IH. destruct o; simpl.
  - destruct (register_call_shape now operation call_id arguments iteration agent_slug phase_id l)
      as (e & _ & _ & _ & _ & _ & ->). apply last_n_length.
  - unfold ToolLedger.register_result. by rewrite update_newest_length.
Qed.

(** An entry stays while fewer than 120 calls follow and its own call is not settled again. *)
Lemma entry_kept e ops l :
  (exists l1 l2, l = l1 ++ e :: l2 /\
     (length l2 + length (filter is_call ops) < MAX_TOOL_LEDGER_ENTRIES)%nat) ->
  Forall (fun o => op_id o <> le_call_id e) ops -> e ∈ foldl run_op l ops.
Proof.
  revert l. induction ops as [|o ops IH]; intros l (l1 & l2 & -> & Hlen) Hops; simpl; [set_solver|].
  inversion_clear Hops as [|? ? Ho Hops']. apply IH; [|done]. destruct o; simpl in *.
  - destruct (register_call_shape now operation call_id arguments iteration agent_slug phase_id (l1 ++ e :: l2))
      as (e' & _ & _ & _ & _ & _ & ->). unfold last_n. rewrite <- app_assoc. simpl.
    rewrite drop_app_le by (rewrite !length_app; simpl; rewrite length_app; simpl; lia).
    eexists _, (l2 ++ [e']). split; [done|]. rewrite length_app. simpl. lia.
  - unfold ToolLedger.register_result. pose proof (update_newest_Forall2 (fun e => String.eqb (le_call_id e) call_id)
      (settle stable_json sha256 now success data) (l1 ++ e :: l2)) as H.
    apply Forall2_app_inv_l in H as (k1 & k2 & _ & H2 & ->). inversion H2 as [|? y ? k3 Hy H3]; subst.
    destruct Hy as [->|[Hy _]]; [|by apply String.eqb_eq in Hy].
    exists k1, k3. split; [done|]. by rewrite <- (Forall2_length _ _ _ H3).
Qed.

(** What is reused is the newest recorded success of the same call that is fresh enough. *)
Lemma find_successful_result_sound now op args age l e :
  find_successful_result now op args age l = Some e ->
  e ∈ l /\ signature e = signature_of op (fingerprint args) /\ le_status e = SUCCEEDED /\
  le_result_data e <> JNull /\ now - default (le_called_at e) (le_finished_at e) <= age * 1000000.
Proof.
  intros H. apply newest_Some in H as [Hin H]. unfold reusable in H.
  apply andb_true_iff in H as [[[Hs Ht]%andb_true_iff Hd]%andb_true_iff Ha].
  apply String.eqb_eq in Hs. apply bool_decide_eq_true in Ht, Ha. split_and!; [done..| |done].
  intros E. by rewrite E in Hd.
Qed.

(** C9: A recorded success is there to be reused: after the call and its result
    were registered, and whatever other calls and results are registered since, at
    at most 119 calls of them, a repetition of the call within five minutes of the
    result is answered from the journal, unless the result is null or its text has
    more than 24,000 characters. *)
Theorem recorded_result_reused now now' t op cid args it ag ph data l ops :
  data <> JNull -> (String.length (stable_json data) <= MAX_RESULT_CACHE_CHARS)%nat ->
  Forall (fun o => op_id o <> cid) ops -> (length (filter is_call ops) < MAX_TOOL_LEDGER_ENTRIES)%nat ->
  t - now' <= REUSE_MAX_AGE_SECONDS * 1000000 ->
  let l' := foldl run_op (register_result now' cid true data (register_call now op cid args it ag ph l)) ops in
  exists e, find_successful_result t op args REUSE_MAX_AGE_SECONDS l' = Some e /\ e ∈ l' /\
    signature e = signature_of op (fingerprint args) /\ le_status e = SUCCEEDED.
Proof.
  intros Hnull Hsize Hids Hlen Ht l'.
  destruct (register_call_shape now op cid args it ag ph l) as (e & Hid & Hop & Hfp & Hst & Hca & He).
  set (e' := settle stable_json sha256 now' true data e).
  assert (e' ∈ l') as Hin.
  { apply entry_kept.
    - unfold l', ToolLedger.register_result. rewrite He, last_n_snoc by (unfold MAX_TOOL_LEDGER_ENTRIES; lia).
      rewrite update_newest_snoc by (rewrite Hid; apply String.eqb_refl). eexists _, []. split; [done|]. simpl. done.
    - unfold e', settle. destruct (_fingerprint_and_preview _ _ data). simpl. by rewrite Hid. }
  assert (reusable t REUSE_MAX_AGE_SECONDS (signature_of op (fingerprint args)) e' = true) as Hr.
  { unfold reusable, e', settle, signature. destruct (_fingerprint_and_preview stable_json sha256 data). simpl.
    rewrite Hop, Hfp, String.eqb_refl, bool_decide_eq_true_2 by done. simpl.
    unfold _cacheable_result_data. destruct (Nat.ltb_spec MAX_RESULT_CACHE_CHARS (String.length (stable_json data))); [lia|].
    by destruct data. }
  destruct (newest_weaken _ _ _ Hin Hr) as [f Hf]. exists f. split; [exact Hf|].
  apply find_successful_result_sound in Hf as (? & ? & ? & _). done.
Qed.
End Theorems.
