(* ===== verification/Operations.v ===== *)
(** * Operations of an agent: agents/contracts.py, agents/context.py,
    runtime/operation_errors.py, agents/runtime/prompt_contract.py and the argument
    handling of agents/runtime/tools.py

    What an agent may call, how a name the model wrote is resolved, and how its
    arguments are normalised and validated.  [repr v] is the text of a value that is
    not a string, [json_loads] and [literal_eval] are [None] where they raise. *)
From stdpp Require Import pretty.
From S2P Require Import Prelude.
Open Scope Z_scope.

Record ResolvedOperation := {
  op_slug : string;
  op_operation : string;
  op_scope : string;
  op_description : option string;
  op_input_schema : odict json;
  op_collection_slug : option string;
  op_risk_level : string;
  op_requires_confirmation : bool;
  op_canonical_name : option string   (* published.canonical_name *)
}.

Record ToolCall := { tc_id : string; tc_tool_name : string; tc_arguments : json }.

Record ToolResult := {
  tr_success : bool;
  tr_data : json;
  tr_error : option string;
  tr_metadata : odict json
}.

Definition tool_ok (data : json) (metadata : odict json) : ToolResult :=
  {| tr_success := true; tr_data := data; tr_error := None; tr_metadata := metadata |}.
Definition tool_fail (error : string) (metadata : odict json) : ToolResult :=
  {| tr_success := false; tr_data := JNull; tr_error := Some error; tr_metadata := metadata |}.

(** ** runtime/operation_errors.py *)
Inductive RuntimeErrorCode :=
| OPERATION_UNAVAILABLE | OPERATION_AMBIGUOUS | OPERATION_INVALID_ARGS | OPERATION_TIMEOUT
| OPERATION_EXECUTION_FAILED | COLLECTION_INFO_REQUIRED | COLLECTION_OPERATION_NOT_ACTIVATED
| AGENT_WALL_TIME_EXCEEDED | AGENT_REQUIRED_OPERATION_CALL_MISSING | AGENT_MAX_TOOL_CALLS_EXCEEDED
| AGENT_NO_SUCCESSFUL_OPERATION_RESULT | AGENT_RUNTIME_EXCEPTION.

Definition code_value (c : RuntimeErrorCode) : string :=
  match c with
  | OPERATION_UNAVAILABLE => "operation_unavailable"
  | OPERATION_AMBIGUOUS => "operation_ambiguous"
  | OPERATION_INVALID_ARGS => "operation_invalid_args"
  | OPERATION_TIMEOUT => "operation_timeout"
  | OPERATION_EXECUTION_FAILED => "operation_execution_failed"
  | COLLECTION_INFO_REQUIRED => "collection_info_required"
  | COLLECTION_OPERATION_NOT_ACTIVATED => "collection_operation_not_activated"
  | AGENT_WALL_TIME_EXCEEDED => "agent_wall_time_exceeded"
  | AGENT_REQUIRED_OPERATION_CALL_MISSING => "agent_required_operation_call_missing"
  | AGENT_MAX_TOOL_CALLS_EXCEEDED => "agent_max_tool_calls_exceeded"
  | AGENT_NO_SUCCESSFUL_OPERATION_RESULT => "agent_no_successful_operation_result"
  | AGENT_RUNTIME_EXCEPTION => "agent_runtime_exception"
  end.

(** What the user is asked to confirm. *)
Record ConfirmationPayload := {
  cp_operation_fingerprint : string;
  cp_tool_slug : string;
  cp_operation : string;
  cp_risk_level : string;
  cp_args_preview : string;
  cp_summary : string
}.

(** The exceptions of the agent runtime.  [GeneratorExit] is raised at a [yield]
    whose consumer does not come back; it and [CancelledError] are no [Exception]. *)
Inductive exn :=
| ConfirmationRequiredError (payload : ConfirmationPayload)
| PyError (cls message : string)
| CancelledError
| GeneratorExit.

Record OperationValidationError := {
  ve_code : RuntimeErrorCode;
  ve_message : string;
  ve_field_path : option string;
  ve_retryable : bool
}.

Definition validation_metadata (e : OperationValidationError) : odict json :=
  [("error_code", JStr (code_value (ve_code e))); ("retryable", JBool (ve_retryable e))] ++
  match ve_field_path e with
  | Some p => if str_empty p then [] else [("field_path", JStr p)]
  | None => []
  end.

Definition to_user_message (e : OperationValidationError) : string :=
  match ve_field_path e with
  | Some p => if str_empty p then ve_message e else ve_message e +:+ " (field: " +:+ p +:+ ")"
  | None => ve_message e
  end.

(** [OperationExecutionError.to_metadata] and [build_error_metadata]; the debug
    entry, a traceback, is left out. *)
Definition execution_metadata (code : RuntimeErrorCode) (retryable : bool) : odict json :=
  [("error_code", JStr (code_value code)); ("retryable", JBool retryable)].
Definition build_error_metadata (code : RuntimeErrorCode) (retryable : bool) (user_message operator_message source : string)
    : odict json :=
  execution_metadata code retryable ++
  [("user_message", JStr user_message);
   ("operator_message", JStr (or_str (Some operator_message) user_message)); ("source", JStr source)].

(** ** Values *)

(** Iterating over a value; [None] where Python raises TypeError. *)
Definition chars (s : string) : list json := map (fun c => JStr (String c EmptyString)) (String.list_ascii_of_string s).
Definition iter_items (v : json) : result exn (list json) :=
  match v with
  | JList l => Ok l
  | JObj d => Ok (map (fun kv => JStr kv.1) d)
  | JStr s => Ok (chars s)
  | _ => Err (PyError "TypeError" "object is not iterable")
  end.

(** Numbers as mantissa and binary exponent, compared exactly as Python does. *)
Definition num (v : json) : option (Z * Z) :=
  match v with
  | JBool b => Some (Z.b2z b, 0)
  | JInt z => Some (z, 0)
  | JFloat m e => Some (m, e)
  | _ => None
  end.
Definition num_compare (x y : Z * Z) : comparison :=
  let e := Z.min x.2 y.2 in Z.compare (x.1 * 2 ^ (x.2 - e)) (y.1 * 2 ^ (y.2 - e)).

(** [a == b] *)
Fixpoint py_eq (a b : json) {struct a} : bool :=
  match num a, num b with
  | Some x, Some y => match num_compare x y with Eq => true | _ => false end
  | None, None =>
      match a, b with
      | JNull, JNull => true
      | JStr s, JStr t => String.eqb s t
      | JList l, JList m =>
          (fix go l m := match l, m with
                         | [], [] => true
                         | x :: l', y :: m' => py_eq x y && go l' m'
                         | _, _ => false
                         end) l m
      | JObj d, JObj e =>
          Nat.eqb (length d) (length e) &&
          forallb (fun kv => match od_get kv.1 e with Some w => py_eq kv.2 w | None => false end) d
      | _, _ => false
      end
  | _, _ => false
  end.

Definition setdefault (k : string) (v : json) (d : odict json) : odict json := if od_mem k d then d else od_set k v d.

Section Operations.
Variable repr : json -> string.
#[local] Abbreviation str := (py_str repr).

(** ** Names: [_find_operation] *)
Definition collection_of (o : ResolvedOperation) : string := strip (or_str (op_collection_slug o) "").

Definition _find_operation (operation_slug : string) (arguments : json) (operations : list ResolvedOperation)
    : option ResolvedOperation * option string :=
  match List.find (fun o => String.eqb (op_slug o) operation_slug) operations with
  | Some o => (Some o, None)
  | None =>
      let shorthand_matches := List.filter (fun o => String.eqb (op_operation o) operation_slug) operations in
      match shorthand_matches with
      | [o] => (Some o, None)
      | _ :: _ =>
          let collection_slug :=
            match arguments with JObj a => strip (str (json_or (jget "collection_slug" a) (JStr ""))) | _ => "" end in
          match (if str_empty collection_slug then []
                 else List.filter (fun o => String.eqb (collection_of o) collection_slug) shorthand_matches) with
          | [o] => (Some o, None)
          | _ => (None, Some ("Tool '" +:+ operation_slug +:+ "' is ambiguous. " +:+
                    "Provide collection_slug for the intended collection. Matching bindings: " +:+
                    str_join ", " (map op_slug (take 10 shorthand_matches))))
          end
      | [] =>
          let candidates := str_join ", " (map op_slug (take 10 operations)) in
          if str_empty candidates then (None, None)
          else (None, Some ("Tool '" +:+ operation_slug +:+ "' is unavailable. " +:+
                  "Use a published canonical tool name. Available bindings: " +:+ candidates))
      end
  end.

(** ** Schemas: [build_prompt_input_schema] *)
Definition required_names (schema : odict json) : result exn (list string) :=
  match iter_items (json_or (jget "required" schema) (JList [])) with
  | Ok items => Ok (List.filter (fun s => negb (str_empty s)) (map (fun i => strip (str i)) items))
  | Err e => Err e
  end.

Definition build_prompt_input_schema (op : ResolvedOperation) : result exn (odict json) :=
  let schema := setdefault "properties" (JObj []) (setdefault "type" (JStr "object") (op_input_schema op)) in
  let properties := as_dict (jget "properties" schema) in
  if String.eqb (op_scope op) "collection" then
    match required_names schema with
    | Ok required =>
        let properties := od_pop "collection_id"
          (od_set "collection_slug" (JObj [("type", JStr "string"); ("minLength", JInt 1)]) properties) in
        let required := List.filter (fun s => negb (String.eqb s "collection_id"))
          (merge_sort String.le (remove_dups (required ++ ["collection_slug"]))) in
        Ok (od_set "required" (JList (map JStr required)) (od_set "properties" (JObj properties) schema))
    | Err e => Err e
    end
  else Ok (od_set "properties" (JObj properties) schema).

(** ** Arguments *)
Variables (json_loads literal_eval : string -> option json) (py_float : string -> option json).

(** [_coerce_args]: the value of one field. *)
Definition coerce_value (prop_schema : json) (value : json) : json :=
  match prop_schema with
  | JObj p =>
      match jget "type" p, value with
      | JStr t, JStr s =>
          if String.eqb t "integer" then match parse_int (strip s) with Some z => JInt z | None => value end
          else if String.eqb t "number" then default value (py_float s)
          else if String.eqb t "boolean" then
            if str_in (lower s) ["true"; "1"; "yes"; "on"] then JBool true
            else if str_in (lower s) ["false"; "0"; "no"; "off"] then JBool false else value
          else value
      | JStr t, JFloat m e =>
          if String.eqb t "integer" then JInt (if 0 <=? e then m * 2 ^ e else Z.quot m (2 ^ (- e))) else value
      | _, _ => value
      end
  | _ => value
  end.

Definition _coerce_args (arguments : json) (schema : odict json) : json :=
  match arguments, default (JObj []) (od_get "properties" schema) with
  | JObj args, JObj properties =>
      JObj (map (fun kv => (kv.1, coerce_value (default (JObj []) (od_get kv.1 properties)) kv.2)) args)
  | _, _ => arguments
  end.

(** [_normalize_template_fill_args] *)
Definition reserved_keys : list string := ["row_id"; "filename"; "collection_id"; "collection_slug"].

Definition _normalize_template_fill_args (op : ResolvedOperation) (arguments : json) : json :=
  match arguments with
  | JObj args =>
      if negb (String.eqb (op_operation op) "collection.template.fill") then arguments
      else
        match od_get "values" args with
        | Some (JStr values) =>
            let parsed := match json_loads values with Some v => Some v | None => literal_eval values end in
            match parsed with
            | Some (JObj v) => JObj (od_set "values" (JObj v) args)
            | _ => arguments
            end
        | Some _ => arguments
        | None =>
            let flattened := List.filter (fun kv => negb (str_in kv.1 reserved_keys)) args in
            match flattened with
            | [] => arguments
            | _ => JObj (od_set "values" (JObj flattened) (List.filter (fun kv => str_in kv.1 reserved_keys) args))
            end
        end
  | _ => arguments
  end.

(** [_strip_optional_nulls]: null values of optional fields are dropped, also in
    nested objects the schema describes. *)
Fixpoint _strip_optional_nulls (arguments : json) (schema : odict json) {struct arguments} : result exn json :=
  match arguments with
  | JObj args =>
      match jget "properties" schema with
      | JObj properties =>
          match required_names schema with
          | Err e => Err e
          | Ok required =>
              match (fix go l := match l with
                      | [] => Ok []
                      | (key, value) :: l' =>
                          match value, od_get key properties with
                          | JNull, _ => match go l' with
                                        | Ok r => Ok (if str_in key required then (key, JNull) :: r else r)
                                        | Err e => Err e
                                        end
                          | JObj _, Some (JObj child) =>
                              match _strip_optional_nulls value child with
                              | Ok v => match go l' with Ok r => Ok ((key, v) :: r) | Err e => Err e end
                              | Err e => Err e
                              end
                          | _, _ => match go l' with Ok r => Ok ((key, value) :: r) | Err e => Err e end
                          end
                      end) args with
              | Ok r => Ok (JObj r)
              | Err e => Err e
              end
          end
      | _ => Ok arguments
      end
  | _ => Ok arguments
  end.

Definition _normalize_args (op : ResolvedOperation) (arguments : json) : result exn json :=
  let arguments := _normalize_template_fill_args op arguments in
  match build_prompt_input_schema op with
  | Err e => Err e
  | Ok schema => _strip_optional_nulls arguments schema
  end.

(** ** Validation *)
Definition vresult := result exn (option OperationValidationError).
Definition orelse (a b : vresult) : vresult := match a with Ok None => b | _ => a end.
Definition invalid (message path : string) : vresult :=
  Ok (Some {| ve_code := OPERATION_INVALID_ARGS; ve_message := message; ve_field_path := Some path; ve_retryable := true |}).

Definition _type_ok (value : json) (expected : string) : bool :=
  if String.eqb expected "object" then match value with JObj _ => true | _ => false end
  else if String.eqb expected "array" then match value with JList _ => true | _ => false end
  else if String.eqb expected "string" then match value with JStr _ => true | _ => false end
  else if String.eqb expected "integer" then match value with JInt _ => true | _ => false end
  else if String.eqb expected "number" then match value with JInt _ | JFloat _ _ => true | _ => false end
  else if String.eqb expected "boolean" then match value with JBool _ => true | _ => false end
  else if String.eqb expected "null" then match value with JNull => true | _ => false end
  else true.

Definition check_type (node : odict json) (value : json) (path : string) : vresult :=
  match jget "type" node with
  | JStr t => if _type_ok value t then Ok None else invalid (path +:+ " must be " +:+ t) path
  | _ => Ok None
  end.

Definition check_enum (node : odict json) (value : json) (path : string) : vresult :=
  match jget "enum" node with
  | JList l => if existsb (py_eq value) l then Ok None
               else invalid (path +:+ " must be one of: " +:+ str_join ", " (map str l)) path
  | _ => Ok None
  end.

Definition check_minimum (node : odict json) (value : json) (path : string) : vresult :=
  match value with
  | JInt _ | JFloat _ _ =>
      match jget "minimum" node, num value with
      | JNull, _ | _, None => Ok None
      | minimum, Some x =>
          match num minimum with
          | Some y => match num_compare x y with
                      | Lt => invalid (path +:+ " must be >= " +:+ str minimum) path
                      | _ => Ok None
                      end
          | None => Err (PyError "TypeError" "'<' not supported")
          end
      end
  | _ => Ok None
  end.

Definition child_path (path key : string) : string := path +:+ "." +:+ key.

Fixpoint check_required (required : list json) (value : odict json) (path : string) : vresult :=
  match required with
  | [] => Ok None
  | field :: required' =>
      match field with
      | JList _ | JObj _ => Err (PyError "TypeError" "unhashable type")
      | _ => if match field with JStr f => od_mem f value | _ => false end then check_required required' value path
             else invalid ("Missing required field: " +:+ str field) (child_path path (str field))
      end
  end.

Definition check_additional (node : odict json) (value : odict json) (path : string) : vresult :=
  match default (JBool true) (od_get "additionalProperties" node), default (JObj []) (od_get "properties" node) with
  | JBool false, JObj properties =>
      match List.find (fun kv => negb (od_mem kv.1 properties)) value with
      | Some kv => invalid ("Unexpected field(s): " +:+ kv.1) path
      | None => Ok None
      end
  | _, _ => Ok None
  end.

Definition validator := json -> string -> vresult.

(** The properties the schema describes by an object, in the order of the schema. *)
Fixpoint check_properties (children : list (string * option validator)) (value : odict json) (path : string) : vresult :=
  match children with
  | [] => Ok None
  | (key, child) :: children' =>
      orelse (match od_get key value, child with
              | Some v, Some validate => validate v (child_path path key)
              | _, _ => Ok None
              end) (check_properties children' value path)
  end.

Fixpoint check_items (validate : validator) (idx : nat) (l : list json) (path : string) : vresult :=
  match l with
  | [] => Ok None
  | item :: l' => orelse (validate item (path +:+ "[" +:+ pretty idx +:+ "]")) (check_items validate (S idx) l' path)
  end.

(** One node: [own] are the validators of its entries, [nested] those of the entries of its objects. *)
Definition check_node (node : odict json) (own : list (string * option validator))
    (nested : list (string * list (string * option validator))) : validator := fun value path =>
  orelse (check_type node value path)
    (orelse (check_enum node value path)
      (orelse (check_minimum node value path)
        (match value with
         | JObj fields =>
             orelse (match default (JList []) (od_get "required" node) with
                     | JList required => check_required required fields path
                     | _ => Ok None
                     end)
               (orelse (check_additional node fields path)
                  (check_properties (default [] (od_get "properties" nested)) fields path))
         | JList l => match mjoin (od_get "items" own) with Some validate => check_items validate 0 l path | None => Ok None end
         | _ => Ok None
         end))).

Fixpoint _validate (node : json) : option validator :=
  match node with
  | JObj fields =>
      Some (check_node fields (map (fun kv => (kv.1, _validate kv.2)) fields)
              (map (fun kv => (kv.1, match kv.2 with
                                     | JObj children => map (fun c => (c.1, _validate c.2)) children
                                     | _ => []
                                     end)) fields))
  | _ => None
  end.

Definition _validate_args_builtin (arguments : json) (schema : odict json) : vresult :=
  match _validate (JObj schema) with Some validate => validate arguments "$" | None => Ok None end.

(** [jsonschema], when the package is there and not disabled, gives the first error. *)
Variable jsonschema : option (odict json -> json -> result exn (option (string * string))).

Definition _validate_args (op : ResolvedOperation) (arguments : json) : vresult :=
  match build_prompt_input_schema op with
  | Err e => Err e
  | Ok schema =>
      let coerced_args := _coerce_args arguments schema in
      match jsonschema with
      | Some validate => match validate schema coerced_args with
                         | Ok (Some (message, path)) => invalid message path
                         | Ok None => Ok None
                         | Err e => Err e
                         end
      | None => _validate_args_builtin coerced_args schema
      end
  end.

(** [_canonical_operation_name]: the name without the instance in front. *)
Fixpoint after_dot (s : string) : string :=
  match s with
  | EmptyString => ""
  | String c s' => if is_char 46 c then s' else after_dot s'
  end.
Definition _canonical_operation_name (operation_slug : string) : string :=
  let normalized := strip operation_slug in
  if String.prefix "instance." normalized then after_dot (after_dot normalized) else normalized.
End Operations.
