(* ===== verification/Protocol.v ===== *)
(** * The tool-call protocol of a model's answer: agents/protocol.py, agents/json_utils.py

    How the tool calls are read out of an answer, in the native form of the provider
    or from the text.  The two regular expressions are arguments: their [findall]
    and the text that [sub] leaves.  [json_loads] is [None] on JSONDecodeError,
    [dumps_sorted] is [json.dumps] with sorted keys. *)
From S2P Require Import Prelude.
From S2P Require Import Operations.
Open Scope Z_scope.

(** ** agents/json_utils.py: the object that starts at the first character *)
Fixpoint balanced_rest (s : string) (depth : Z) (in_string escape : bool) : option string :=
  match s with
  | EmptyString => None
  | String ch s' =>
      let next d i e := option_map (String ch) (balanced_rest s' d i e) in
      if escape then next depth in_string false
      else if is_char 92 ch then next depth in_string true
      else if is_char 34 ch then next depth (negb in_string) false
      else if in_string then next depth in_string false
      else if is_char 123 ch then next (depth + 1) in_string false
      else if is_char 125 ch then
        if Z.eqb (depth - 1) 0 then Some (String ch EmptyString) else next (depth - 1) in_string false
      else next depth in_string false
  end.

Definition extract_balanced_json (s : string) : option string :=
  match s with
  | String ch _ => if is_char 123 ch then balanced_rest s 0 false false else None
  | EmptyString => None
  end.

(** ** Answers *)

(** The calls are the dictionaries [ToolCall.from_dict] is given. *)
Record ParsedResponse := { pr_text : string; pr_tool_calls : list (odict json); pr_has_tool_calls : bool }.

(** [s.replace(needle, "", 1)] *)
Fixpoint remove_first (needle s : string) : string :=
  if String.prefix needle s then String.substring (String.length needle) (String.length s) s
  else match s with
       | EmptyString => EmptyString
       | String c s' => String c (remove_first needle s')
       end.

Section Protocol.
Variables (repr : json -> string) (json_loads : string -> option json) (dumps_sorted : json -> string).
Variables (tool_call_blocks json_blocks : string -> list string)
  (without_tool_call_blocks without_json_blocks : string -> string).

Definition _extract_tool_name (data : odict json) : option string :=
  match jget "tool" data with
  | JStr s => if str_empty (strip s) then None else Some (strip s)
  | _ => None
  end.

(** [(tool_name, args_json)] *)
Definition tool_key (name : string) (data : odict json) : string * string :=
  (name, dumps_sorted (default (JObj []) (od_get "arguments" data))).

(** One block: malformed JSON and nameless objects are skipped, a repetition too;
    anything else than an object raises. *)
Definition read_block (data : option json) (acc : list (odict json) * list (string * string))
    : result exn (list (odict json) * list (string * string)) :=
  match data with
  | None => Ok acc
  | Some (JObj d) =>
      match _extract_tool_name d with
      | None => Ok acc
      | Some name => if bool_decide (tool_key name d ∈ acc.2) then Ok acc
                     else Ok (acc.1 ++ [d], acc.2 ++ [tool_key name d])
      end
  | Some _ => Err (PyError "AttributeError" "object has no attribute 'get'")
  end.

Fixpoint read_blocks (blocks : list string) (acc : list (odict json) * list (string * string))
    : result exn (list (odict json) * list (string * string)) :=
  match blocks with
  | [] => Ok acc
  | b :: blocks' => match read_block (json_loads b) acc with
                    | Ok acc' => read_blocks blocks' acc'
                    | Err e => Err e
                    end
  end.

(** [_find_tool_json_objects]: the objects with a tool, [skip] characters ahead. *)
Fixpoint _find_tool_json_objects (skip : nat) (content : string) : list string :=
  match content with
  | EmptyString => []
  | String _ content' =>
      match skip with
      | S skip' => _find_tool_json_objects skip' content'
      | O => match extract_balanced_json content with
             | Some candidate =>
                 let rest := _find_tool_json_objects (pred (String.length candidate)) content' in
                 match json_loads candidate with
                 | Some (JObj d) => match _extract_tool_name d with Some _ => candidate :: rest | None => rest end
                 | _ => rest
                 end
             | None => _find_tool_json_objects 0 content'
             end
      end
  end.

(** The inline objects: each one read is taken out of the text. *)
Fixpoint read_inline (objects : list string) (text : string) (acc : list (odict json) * list (string * string))
    : string * list (odict json) :=
  match objects with
  | [] => (text, acc.1)
  | js :: objects' =>
      match json_loads js with
      | Some (JObj d) =>
          match _extract_tool_name d with
          | Some name => if bool_decide (tool_key name d ∈ acc.2) then read_inline objects' text acc
                         else read_inline objects' (remove_first js text) (acc.1 ++ [d], acc.2 ++ [tool_key name d])
          | None => read_inline objects' text acc
          end
      | _ => read_inline objects' text acc
      end
  end.

Definition found (text : string) (calls : list (odict json)) : ParsedResponse :=
  {| pr_text := text; pr_tool_calls := calls; pr_has_tool_calls := true |}.

Definition parse_llm_response (strict : bool) (content : string) : result exn ParsedResponse :=
  match read_blocks (map strip (tool_call_blocks content)) ([], []) with
  | Err e => Err e
  | Ok ((_ :: _) as calls, _) => Ok (found (strip (without_tool_call_blocks content)) calls)
  | Ok ([], seen) =>
      match read_blocks (map strip (json_blocks content)) ([], seen) with
      | Err e => Err e
      | Ok ((_ :: _) as calls, _) => Ok (found (strip (without_json_blocks content)) calls)
      | Ok ([], seen) =>
          let '(text, calls) := if strict then (content, [])
                                else read_inline (_find_tool_json_objects 0 content) content ([], seen) in
          match calls with
          | [] => Ok {| pr_text := text; pr_tool_calls := []; pr_has_tool_calls := false |}
          | _ => Ok (found (strip text) calls)
          end
      end
  end.

(** ** The native form *)
Definition attribute_error : exn := PyError "AttributeError" "object has no attribute 'get'".
Definition type_error : exn := PyError "TypeError" "object is not subscriptable".

(** [v.get(k)] *)
Definition py_get (k : string) (v : json) : result exn json :=
  match v with JObj d => Ok (jget k d) | _ => Err attribute_error end.

(** [response["choices"][0]["message"]], [{}] where it is missing; [None] without choices. *)
Definition native_message (response : odict json) : result exn (option json) :=
  match json_or (jget "choices" response) (JList []) with
  | JList [] => Ok None
  | JList (c :: _) => match py_get "message" c with Ok m => Ok (Some (json_or m (JObj []))) | Err e => Err e end
  | _ => Err type_error
  end.

(** One native call: its name and its arguments. *)
Definition native_call (item : json) : result exn (option (string * json)) :=
  let fn := match item with JObj d => json_or (jget "function" d) (JObj []) | _ => JObj [] end in
  match fn with
  | JObj f =>
      let name := strip (py_str repr (json_or (jget "name" f) (JStr ""))) in
      if str_empty name then Ok None
      else
        let raw := json_or (jget "arguments" f) (JObj []) in
        let raw := match raw with JStr s => default (JObj []) (json_loads s) | _ => raw end in
        Ok (Some (name, match raw with JObj _ => raw | _ => JObj [] end))
  | _ => Err attribute_error
  end.

Definition native_dict (name : string) (args : json) : odict json := [("tool", JStr name); ("arguments", args)].

Fixpoint read_native (items : list json) (calls : list (odict json)) (seen : list (string * string))
    : result exn (list (odict json)) * list (string * string) :=
  match items with
  | [] => (Ok calls, seen)
  | item :: items' =>
      match native_call item with
      | Err e => (Err e, seen)
      | Ok None => read_native items' calls seen
      | Ok (Some (name, args)) =>
          let key := (name, dumps_sorted args) in
          if bool_decide (key ∈ seen) then read_native items' calls seen
          else read_native items' (calls ++ [native_dict name args]) (seen ++ [key])
      end
  end.

(** [parse_native_tool_calls]: [None] hands the answer over to the text protocol;
    [seen] lives as long as the run of the agent. *)
Definition parse_native_tool_calls (response : json) (seen : list (string * string))
    : result exn (option ParsedResponse) * list (string * string) :=
  match response with
  | JObj r =>
      match native_message r with
      | Err e => (Err e, seen)
      | Ok None => (Ok None, seen)
      | Ok (Some message) =>
          match py_get "tool_calls" message with
          | Err e => (Err e, seen)
          | Ok raw =>
              if negb (truthy raw) then (Ok None, seen)
              else match iter_items raw with
                   | Err e => (Err e, seen)
                   | Ok items =>
                       match read_native items [] seen with
                       | (Err e, seen') => (Err e, seen')
                       | (Ok [], seen') => (Ok None, seen')
                       | (Ok calls, seen') =>
                           (Ok (Some (found (strip (py_str repr (json_or (jget "content" (as_dict message)) (JStr ""))))
                                        calls)), seen')
                       end
                   end
          end
      end
  | _ => (Ok None, seen)
  end.
End Protocol.

(** ** Theorems *)

Section Native.
Variables (repr : json -> string) (json_loads : string -> option json) (dumps_sorted : json -> string).
#[local] Abbreviation read := (read_native repr json_loads dumps_sorted).
#[local] Abbreviation parse := (parse_native_tool_calls repr json_loads dumps_sorted).

(** What identifies a call: its name and its arguments *)
Definition native_key (d : odict json) : string * string := tool_key dumps_sorted (py_str repr (jget "tool" d)) d.

Lemma native_key_dict name args : native_key (native_dict name args) = (name, dumps_sorted args).
Proof. done. Qed.

Lemma read_native_spec items calls seen calls' seen' :
  read items calls seen = (Ok calls', seen') ->
  exists new, calls' = calls ++ new /\ seen' = seen ++ map native_key new /\ (NoDup seen -> NoDup seen') /\
    Forall (fun item => match native_call repr json_loads item with
                        | Ok (Some (name, args)) => (name, dumps_sorted args) ∈ seen'
                        | Ok None => True
                        | Err _ => False
                        end) items.
Proof.
  revert calls seen. induction items as [|item items IH]; intros calls seen H; simpl in H.
  - simplify_eq. exists []. by rewrite !app_nil_r.
  - destruct (native_call repr json_loads item) as [[[name args]|]|e] eqn:En; [|by apply IH in H as (new & ? & ? & ? & ?);
      exists new; split_and!; [..|constructor; [by rewrite En|]]|done].
    destruct (bool_decide _) eqn:Ek.
    + apply bool_decide_eq_true in Ek. apply IH in H as (new & -> & -> & Hn & Hi). exists new. split_and!; try done.
      constructor; [|done]. rewrite En. apply elem_of_app. by left.
    + apply bool_decide_eq_false in Ek. apply IH in H as (new & -> & -> & Hn & Hi).
      exists (native_dict name args :: new). rewrite <- !app_assoc. split_and!; [done..| |].
      * intros Hs. rewrite <- app_assoc in Hn. apply Hn, NoDup_app. split_and!; [done| |apply NoDup_singleton].
        intros k Hk ->%list_elem_of_singleton. done.
      * rewrite <- app_assoc in Hi. constructor; [|exact Hi]. rewrite En. apply elem_of_app. right. by left.
Qed.

Lemma read_native_known items seen :
  Forall (fun item => match native_call repr json_loads item with
                      | Ok (Some (name, args)) => (name, dumps_sorted args) ∈ seen
                      | Ok None => True
                      | Err _ => False
                      end) items ->
  read items [] seen = (Ok [], seen).
Proof.
  induction 1 as [|item items Hi _ IH]; [done|]. simpl. destruct (native_call _ _ item) as [[[name args]|]|]; [|done|done].
  by rewrite bool_decide_eq_true_2.
Qed.

(** C10: Over the native answers of a run no operation is called twice with the same
    arguments: the calls an answer contributes have keys of their own that no answer
    before it had, all of them are remembered, and the same answer given again
    contributes nothing and is handed over to the text protocol. *)
Theorem native_calls_once response seen parsed seen' :
  NoDup seen -> parse response seen = (Ok (Some parsed), seen') ->
  pr_tool_calls parsed <> [] /\
  seen' = seen ++ map native_key (pr_tool_calls parsed) /\ NoDup seen' /\
  parse response seen' = (Ok None, seen').
Proof.
  intros Hs H. unfold parse_native_tool_calls in H |- *. destruct response as [| | | | | |r]; try done.
  destruct (native_message r) as [[message|]|]; try done. destruct (py_get "tool_calls" message) as [raw|]; [|done].
  destruct (truthy raw); simpl in *; [|done]. destruct (iter_items raw) as [items|]; [|done].
  destruct (read items [] seen) as [[[|d calls]|] s1] eqn:Er; [done| |done]. injection H as <- <-. simpl.
  apply read_native_spec in Er as (new & Hnew & -> & Hn & Hi). simpl in Hnew. subst new.
  split_and!; [done..|by apply Hn|]. by rewrite read_native_known.
Qed.
End Native.
