(* ===== verification/OperationContext.v ===== *)
(** * What the next model call sees of a result: the projections of
    agents/runtime/tools.py

    [dumps] is [json.dumps] with [default=str], which never raises; lengths count
    characters. *)
From S2P Require Import Prelude.
From S2P Require Import Operations.
From S2P Require Import Protocol.
Open Scope Z_scope.

Definition MAX_TOOL_CONTEXT_CHARS : nat := 4000.
Definition MAX_COLLECTION_INFO_TOOLS : nat := 12.
Definition MAX_COLLECTION_INFO_TEXT_CHARS : nat := 320.
Definition MAX_COLLECTION_INFO_RULES_CHARS : nat := 1200.
Definition MAX_TEMPLATE_SEARCH_HITS : nat := 8.
Definition MAX_TEMPLATE_SEARCH_TITLE_CHARS : nat := 240.
Definition MAX_TEMPLATE_SEARCH_FRAGMENT_CHARS : nat := 320.

Definition newline : string := String (Ascii.ascii_of_nat 10) EmptyString.

Section Projections.
Variables (repr : json -> string) (dumps : json -> string).
#[local] Abbreviation str := (py_str repr).

(** [str(value or "").strip()] *)
Definition text_of (v : json) : string := strip (str (json_or v (JStr ""))).
Definition text (limit : nat) (v : json) : json := JStr (str_take limit (text_of v)).
Definition short (v : json) : json := text MAX_COLLECTION_INFO_TEXT_CHARS v.

(** [v.get(...)] on a value that should be a dictionary *)
Definition dict_of (v : json) : result exn (odict json) :=
  match v with JObj d => Ok d | _ => Err attribute_error end.

Definition empty_text (v : json) : bool := match v with JStr s => str_empty s | _ => false end.
Definition is_null (v : json) : bool := match v with JNull => true | _ => false end.
Definition keep_if (p : json -> bool) (d : odict json) : odict json := List.filter (fun kv => p kv.2) d.

Definition compact_tool (item : json) : option json :=
  match item with
  | JObj d =>
      Some (JObj (keep_if (fun v => negb (empty_text v || match v with JList [] => true | _ => false end))
        [("tool_name", short (jget "tool_name" d)); ("invoke_as", short (jget "invoke_as" d));
         ("description", short (jget "description" d));
         ("arguments", match jget "arguments" d with JList l => JList l | _ => JList [] end)]))
  | _ => None
  end.

Definition _compact_collection_info_for_context (raw_output : odict json) (include_operation_contracts : bool)
    : result exn (odict json) :=
  let tools := json_or (jget "tools" raw_output) (JList []) in
  match dict_of (json_or (jget "collection" raw_output) (JObj [])),
        dict_of (json_or (jget "readiness" raw_output) (JObj [])) with
  | Ok collection, Ok readiness =>
      let compact_tools := match tools with JList l => omap compact_tool (take MAX_COLLECTION_INFO_TOOLS l) | _ => [] end in
      let projection :=
        [("collection", JObj (keep_if truthy
            [("id", short (jget "id" collection)); ("slug", short (jget "slug" collection));
             ("name", short (jget "name" collection)); ("type", short (jget "type" collection));
             ("description", short (jget "description" collection));
             ("usage_rules", text MAX_COLLECTION_INFO_RULES_CHARS (jget "usage_rules" collection))]));
         ("readiness", JObj (keep_if (fun v => negb (empty_text v || is_null v))
            [("status", short (jget "status" readiness)); ("schema_freshness", short (jget "schema_freshness" readiness));
             ("operations_count", jget "operations_count" readiness)]))] in
      Ok (if include_operation_contracts then projection ++ [("tools", JList compact_tools)] else projection)
  | Err e, _ | _, Err e => Err e
  end.

Definition compact_hit (item : json) : option json :=
  match item with
  | JObj d =>
      let row_data := as_dict (jget "row_data" d) in
      let row_id := text_of (json_or (jget "row_id" d) (jget "id" row_data)) in
      if str_empty row_id then None
      else
        let title := text_of (json_or (jget "title" row_data) (jget "title" d)) in
        let fragment := text_of (jget "primary_fragment" d) in
        Some (JObj ([("row_id", JStr row_id)] ++
          (if str_empty title then [] else [("title", JStr (str_take MAX_TEMPLATE_SEARCH_TITLE_CHARS title))]) ++
          (match jget "score" d with
           | JInt _ | JFloat _ _ | JBool _ => [("score", jget "score" d)]
           | _ => []
           end) ++
          (if str_empty fragment then [] else [("match", JStr (str_take MAX_TEMPLATE_SEARCH_FRAGMENT_CHARS fragment))])))
  | _ => None
  end.

(** A slice of a text gives characters, which are no hits; other values have none. *)
Definition _compact_template_search_for_context (raw_output : odict json) : result exn (odict json) :=
  let published hits := [("collection", jget "collection" raw_output); ("hits", JList hits);
                         ("total", JInt (Z.of_nat (length hits)))] in
  match json_or (jget "hits" raw_output) (JList []) with
  | JList l => Ok (published (omap compact_hit (take MAX_TEMPLATE_SEARCH_HITS l)))
  | JStr _ => Ok (published [])
  | _ => Err type_error
  end.

Definition _compact_template_schema_for_context (raw_output : odict json) : odict json :=
  [("template_schema", JObj (as_dict (jget "template_schema" raw_output)))].

Definition _compact_template_fill_for_context (raw_output : odict json) : odict json :=
  keep_if (fun v => negb (is_null v || empty_text v))
    (map (fun k => (k, jget k raw_output)) ["artifact_id"; "file_name"; "content_type"; "size_bytes"; "format"]).

Definition project_output (canonical_operation : string) (raw_output : odict json) (include_operation_contracts : bool)
    : result exn (odict json) :=
  if String.eqb canonical_operation "collection.info" then
    _compact_collection_info_for_context raw_output include_operation_contracts
  else if String.eqb canonical_operation "collection.template.search" then
    _compact_template_search_for_context raw_output
  else if String.eqb canonical_operation "collection.template.get_schema" then
    Ok (_compact_template_schema_for_context raw_output)
  else if String.eqb canonical_operation "collection.template.fill" then
    Ok (_compact_template_fill_for_context raw_output)
  else Ok raw_output.

Definition format_result_for_context (result : ToolResult) (operation_slug : string) (include_operation_contracts : bool)
    (evidence_call_id : option string) : Prelude.result exn string :=
  if tr_success result then
    match json_or (tr_data result) (JObj []) with
    | JObj d =>
        match project_output (_canonical_operation_name operation_slug) d include_operation_contracts with
        | Err e => Err e
        | Ok d => let d := match evidence_call_id with
                           | Some i => if str_empty i then d else od_set "evidence_call_id" (JStr i) d
                           | None => d
                           end in
                  Ok (str_take MAX_TOOL_CONTEXT_CHARS (dumps (JObj d)))
        end
    | v => Ok (str_take MAX_TOOL_CONTEXT_CHARS (dumps v))
    end
  else Ok ("Error: " +:+ or_str (tr_error result) "unknown").

(** ** The text of all results, for the synthesis of an answer *)
Definition file_tools : list string :=
  ["file.generate"; "file_generate"; "collection.template.fill";
   "instance.local-template-tools.collection.template.fill"].

Definition observation (out : odict json) : Prelude.result exn (list string) :=
  let tool_name := str (json_or (json_or (jget "operation" out) (jget "tool" out)) (JStr "unknown")) in
  if truthy (jget "success" out) && truthy (jget "data" out) then
    if str_in tool_name file_tools then
      match dict_of (jget "data" out) with
      | Err e => Err e
      | Ok data =>
          let file_name := str (json_or (json_or (jget "file_name" data) (jget "filename" data)) (JStr "file")) in
          let artifact_id := str (json_or (jget "artifact_id" data) (JStr "")) in
          let size_str := if truthy (jget "size_bytes" data) then " (" +:+ str (jget "size_bytes" data) +:+ " bytes)" else "" in
          Ok ["[" +:+ tool_name +:+ "] OK:" +:+ newline +:+ "📎 " +:+ file_name +:+ size_str +:+
              " — artifact_id: `" +:+ artifact_id +:+ "`"]
      end
    else Ok ["[" +:+ tool_name +:+ "] OK:" +:+ newline +:+ str_take 4000 (dumps (jget "data" out))]
  else if truthy (jget "error" out) then Ok ["[" +:+ tool_name +:+ "] ERROR: " +:+ str (jget "error" out)]
  else Ok [].

Fixpoint observations (outs : list (odict json)) : Prelude.result exn (list string) :=
  match outs with
  | [] => Ok []
  | o :: outs' => match observation o, observations outs' with
                  | Ok a, Ok b => Ok (a ++ b)
                  | Err e, _ | _, Err e => Err e
                  end
  end.

Definition format_observation_text (tool_outputs : list (odict json)) : Prelude.result exn string :=
  match observations tool_outputs with
  | Err e => Err e
  | Ok parts => Ok (or_str (Some (str_join (newline +:+ newline) parts)) "No data retrieved.")
  end.
End Projections.
