(* ===== verification/AgentTools.v ===== *)
(** * Execution of one operation: agents/runtime/tools.py ([OperationExecutionFacade]),
    agents/runtime/tool_reuse_policy.py, agents/runtime/session.py and the events of
    runtime/events.py an agent yields

    The outside of an agent run, the model, the executor of operations, the clock and
    the identifiers, is an argument ([AgentEnv]): a state that every question moves.
    [w_trace] records what the run did, in order: events it yielded, questions to the
    outside, confirmation tokens it presented, calls of the run session.  The agent's
    consumer (agent_executor.py) registers tool calls and results in the ledger of
    the turn as it receives the events, which [yield_] does with [observe]. *)
From S2P Require Import Prelude.
From S2P Require Import Confirmation.
From S2P Require Import ToolLedger.
From S2P Require Import Operations.
Open Scope Z_scope.

(** ** Events *)
Record ToolResultEvent := {
  te_tool : string;
  te_call_id : string;
  te_success : bool;
  te_data : json;
  te_sources : json;
  te_reused : bool;
  te_error_code : json;
  te_retryable : json;
  te_truncated : bool
}.

Record ErrorEvent := {
  ee_error : string;
  ee_recoverable : bool;
  ee_error_code : string;
  ee_retryable : bool;
  ee_retry_after_ms : option Z
}.

Inductive LlmStatus := LlmAnswered (content : string) | LlmWaitingRetry | LlmCallFailed.

(** [RuntimeEvent.llm_response]: what is marked as not retryable never waits for a retry. *)
Definition llm_response_status (retryable : option bool) (status : LlmStatus) : LlmStatus :=
  match retryable, status with Some false, LlmWaitingRetry => LlmCallFailed | _, _ => status end.
Inductive Purpose := PTOOL_DECISION | PFINAL_ANSWER.

Inductive RuntimeEvent :=
| EvStatus (stage : string)
| EvRbacSnapshot
| EvBudgetSnapshot (reason : string) (step tool_calls retries : Z)
| EvLlmRequest (purpose : Purpose) (llm_call_id : string) (messages : list json)
| EvLlmResponse (purpose : Purpose) (llm_call_id : string) (status : LlmStatus)
| EvProtocolRetry (step : Z) (reason llm_call_id : string) (retry_delay_ms : option Z)
| EvToolCall (call : ToolCall) (llm_call_id : string)
| EvToolResult (r : ToolResultEvent)
| EvConfirmationRequired (payload : ConfirmationPayload)
| EvDelta (content : string)
| EvFinal (content : string) (sources : list json)
| EvError (e : ErrorEvent).

(** ** The outside *)
Inductive ExecOutcome :=
| ExecReturns (r : ToolResult)
| ExecTimesOut
| ExecRaises (message : string)
| ExecCancelled.

Inductive LlmOutcome (A : Type) :=
| LlmReturns (answer : A)
| LlmToolCallingUnsupported (message : string)
| LlmRequestTooLarge (message : string)
| LlmProviderError (code : string) (retryable : bool) (retry_after_ms : option Z)
| LlmRaises (cls message : string)
| LlmCancelled.
Arguments LlmReturns {A}. Arguments LlmToolCallingUnsupported {A}. Arguments LlmRequestTooLarge {A}.
Arguments LlmProviderError {A}. Arguments LlmRaises {A}. Arguments LlmCancelled {A}.

(** A stream yields chunks, then ends, raises or is cancelled. *)
Inductive StreamEnd := StreamDone | StreamRaises (cls message : string) | StreamCancelled.

(** Times are microseconds.  [env_executor] is [None] when no executor is configured;
    it is given the timeout in seconds. *)
Class AgentEnv (E : Type) := {
  env_now : E -> Z * E;
  env_uuid : E -> string * E;
  env_executor : option (ToolCall -> option Z -> E -> ExecOutcome * E);
  env_call : list json -> E -> LlmOutcome string * E;
  env_call_raw : list json -> list json -> bool -> E -> LlmOutcome json * E;
  env_stream : list json -> E -> list string * StreamEnd * E
}.

Inductive Action :=
| AYield (e : RuntimeEvent)
| AVerify (token fingerprint : string) (accepted : bool)
| AExecute (op : ResolvedOperation) (call : ToolCall)
| AJournal (step_type : string)
| AFinish (status : string) (error : option string).

(** ** State *)

(** [ToolContext]: what a run finds and does not change. *)
Record Context := {
  cx_user_id : string;
  cx_chat_id : option string;
  cx_confirmation_tokens : json;       (* extra["confirmation_tokens"] *)
  cx_confirmed_fingerprints : json;    (* extra["sandbox_confirmed_fingerprints"] *)
  cx_reuse_enabled : bool;             (* extra["runtime_tool_reuse_enabled"] *)
  cx_ledger : bool;                    (* extra["runtime_tool_ledger"] is there *)
  cx_iteration : Z;
  cx_agent_slug : string;
  cx_phase_id : option string
}.

(** [RunSession] *)
Record RunSession := {
  rs_run_id : option string;
  rs_logger : option string;
  rs_owns_root_journal : bool;
  rs_inherited_logger : option string
}.

(** [AgentLoopState] and the local variables of [AgentToolRuntime.execute]. *)
Record LoopState := {
  ls_tool_outputs : list (odict json);
  ls_sources : list json;
  ls_tool_calls_total : Z;
  ls_steps_without_success : Z;
  ls_retry_count : Z;
  ls_force_tool_choice : bool;
  ls_start_time : Z;
  ls_messages : list json;                            (* llm_messages *)
  ls_native : bool;                                   (* native_tool_calling *)
  ls_seen_native : list (string * string);            (* seen_native_tool_calls *)
  ls_pending : option string * option string          (* pending_llm_call_id, pending_logical_llm_call_id *)
}.

Section World.
Context (R E : Type).

Record World := {
  w_env : E;
  w_conf : ConfState R;
  w_ledger : ToolLedger;
  w_used_tool_calls : Z;                 (* RuntimeTurnState.used_tool_calls *)
  w_gate : bool;                         (* collection_interaction_state["enabled"] *)
  w_active : list string;                (* active_collection_operation_slugs *)
  w_opened : list string;                (* opened_collections *)
  w_loop : LoopState;
  w_logger : option string;              (* ctx.extra["runtime_event_logger"] *)
  w_session : RunSession;
  w_trace : list Action
}.
End World.
Arguments w_env {R E}. Arguments w_conf {R E}. Arguments w_ledger {R E}. Arguments w_used_tool_calls {R E}.
Arguments w_gate {R E}. Arguments w_active {R E}. Arguments w_opened {R E}. Arguments w_loop {R E}.
Arguments w_logger {R E}. Arguments w_session {R E}. Arguments w_trace {R E}.

Section Run.
Context `{J : Jwt} {R E : Type} `{N : NonceStore R} `{V : AgentEnv E}.
Variables (repr : json -> string) (stable_json : json -> string) (sha256 : string -> string)
  (canonical_json : json -> string) (dumps : json -> string)
  (json_loads literal_eval : string -> option json) (py_float : string -> option json)
  (jsonschema : option (odict json -> json -> result exn (option (string * string)))).
Variables (secret : string) (cx : Context).
#[local] Abbreviation world := (World R E).
#[local] Abbreviation call A := (py exn world A).
Implicit Types w : world.

Definition set_env (e : E) w : world :=
  {| w_env := e; w_conf := w_conf w; w_ledger := w_ledger w; w_used_tool_calls := w_used_tool_calls w;
     w_gate := w_gate w; w_active := w_active w; w_opened := w_opened w; w_loop := w_loop w; w_logger := w_logger w;
     w_session := w_session w; w_trace := w_trace w |}.
Definition set_conf (c : ConfState R) w : world :=
  {| w_env := w_env w; w_conf := c; w_ledger := w_ledger w; w_used_tool_calls := w_used_tool_calls w;
     w_gate := w_gate w; w_active := w_active w; w_opened := w_opened w; w_loop := w_loop w; w_logger := w_logger w;
     w_session := w_session w; w_trace := w_trace w |}.
Definition set_turn (l : ToolLedger) (used : Z) w : world :=
  {| w_env := w_env w; w_conf := w_conf w; w_ledger := l; w_used_tool_calls := used; w_gate := w_gate w;
     w_active := w_active w; w_opened := w_opened w; w_loop := w_loop w; w_logger := w_logger w;
     w_session := w_session w; w_trace := w_trace w |}.
Definition set_collections (gate : bool) (active opened : list string) w : world :=
  {| w_env := w_env w; w_conf := w_conf w; w_ledger := w_ledger w; w_used_tool_calls := w_used_tool_calls w;
     w_gate := gate; w_active := active; w_opened := opened; w_loop := w_loop w; w_logger := w_logger w;
     w_session := w_session w; w_trace := w_trace w |}.
Definition set_loop (l : LoopState) w : world :=
  {| w_env := w_env w; w_conf := w_conf w; w_ledger := w_ledger w; w_used_tool_calls := w_used_tool_calls w;
     w_gate := w_gate w; w_active := w_active w; w_opened := w_opened w; w_loop := l; w_logger := w_logger w;
     w_session := w_session w; w_trace := w_trace w |}.
Definition set_session (logger : option string) (s : RunSession) w : world :=
  {| w_env := w_env w; w_conf := w_conf w; w_ledger := w_ledger w; w_used_tool_calls := w_used_tool_calls w;
     w_gate := w_gate w; w_active := w_active w; w_opened := w_opened w; w_loop := w_loop w; w_logger := logger;
     w_session := s; w_trace := w_trace w |}.
Definition record (a : Action) w : world :=
  {| w_env := w_env w; w_conf := w_conf w; w_ledger := w_ledger w; w_used_tool_calls := w_used_tool_calls w;
     w_gate := w_gate w; w_active := w_active w; w_opened := w_opened w; w_loop := w_loop w; w_logger := w_logger w;
     w_session := w_session w; w_trace := w_trace w ++ [a] |}.

(** A question to the outside. *)
Definition ask {A} (f : E -> A * E) : call A := fun w => (Ok (f (w_env w)).1, set_env (f (w_env w)).2 w).
Definition now : call Z := ask env_now.
Definition uuid4 : call string := ask env_uuid.
Definition log (a : Action) : call unit := modify (record a).
Definition gets {A} (f : world -> A) : call A := fun w => (Ok (f w), w).

(** ** The consumer: agent_executor.py on tool events *)
Definition observe (e : RuntimeEvent) : call unit :=
  match e with
  | EvToolCall c _ =>
      t ← now;
      modify (fun w => set_turn
        (register_call stable_json sha256 t (tc_tool_name c) (tc_id c) (JObj (as_dict (tc_arguments c))) (cx_iteration cx)
           (Some (cx_agent_slug cx)) (cx_phase_id cx) (w_ledger w)) (w_used_tool_calls w + 1) w)
  | EvToolResult r =>
      t ← now;
      modify (fun w => set_turn (register_result stable_json sha256 t (te_call_id r) (te_success r) (te_data r) (w_ledger w))
                         (if te_reused r then Z.max 0 (w_used_tool_calls w - 1) else w_used_tool_calls w) w)
  | _ => mret tt
  end.

Definition yield_ (e : RuntimeEvent) : call unit := log (AYield e) ≫= fun _ => observe e.

(** ** RunSession *)
Definition session_start (enable_logging : bool) (run_id_override : option string) (child root : string -> string)
    : call (option string) :=
  if negb enable_logging then mret None
  else
    fresh ← uuid4;
    let run_id := default fresh run_id_override in
    inherited ← gets w_logger;
    match inherited with
    | Some l =>
        _ ← modify (set_session (Some (child l)) {| rs_run_id := Some run_id; rs_logger := Some (child l);
                                                     rs_owns_root_journal := false; rs_inherited_logger := Some l |});
        mret (Some run_id)
    | None =>
        _ ← modify (set_session (Some (root run_id)) {| rs_run_id := Some run_id; rs_logger := Some (root run_id);
                                                          rs_owns_root_journal := true; rs_inherited_logger := None |});
        _ ← log (AJournal "run_start");
        _ ← log (AJournal "agent_start");
        mret (Some run_id)
    end.

(** [_emit] writes only when the session does not share the journal of its caller. *)
Definition _emit (name : string) : call unit :=
  s ← gets w_session;
  match rs_inherited_logger s, rs_logger s with
  | None, Some _ => log (AJournal name)
  | _, _ => mret tt
  end.

Definition record_event (step_type : string) : call unit :=
  s ← gets w_session;
  match rs_run_id s with
  | None => mret tt
  | Some _ => if String.eqb step_type "llm_turn" then _emit "llm_request" ≫= fun _ => _emit "llm_response"
              else _emit step_type
  end.

Definition session_finish (status : string) (error : option string) : call unit :=
  _ ← log (AFinish status error);
  s ← gets w_session;
  match rs_run_id s, rs_logger s with
  | Some _, Some _ =>
      _ ← (if rs_owns_root_journal s then _emit "agent_end" ≫= fun _ => _emit "run_end" else mret tt);
      _ ← (if str_empty (or_str error "") then mret tt else _emit "error");
      match rs_inherited_logger s with
      | Some l => modify (set_session (Some l) s)
      | None => mret tt
      end
  | _, _ => mret tt
  end.

(** ** The gate of collections *)
Definition _validate_collection_interaction (o : ResolvedOperation) : call (option OperationValidationError) :=
  w ← get_state;
  if negb (w_gate w) then mret None
  else if negb (String.eqb (op_scope o) "collection") || String.eqb (op_operation o) "collection.info" then mret None
  else if str_in (op_slug o) (w_active w) then mret None
  else
    let slug := collection_of o in
    let message := if str_empty slug then "Call collection.info before using this collection operation."
                   else "Call collection.info for collection '" +:+ slug +:+ "' before using this operation." in
    let code := match w_opened w with [] => COLLECTION_INFO_REQUIRED | _ => COLLECTION_OPERATION_NOT_ACTIVATED end in
    mret (Some {| ve_code := code; ve_message := message; ve_field_path := None; ve_retryable := true |}).

(** ** Confirmation *)
Definition confirmation_payload (o : ResolvedOperation) (c : ToolCall) (fingerprint : string) : ConfirmationPayload :=
  {| cp_operation_fingerprint := fingerprint; cp_tool_slug := op_slug o; cp_operation := op_operation o;
     cp_risk_level := op_risk_level o;
     cp_args_preview := str_take 600 (dumps (json_or (tc_arguments c) (JObj [])));
     cp_summary := or_str (op_description o) "Operation requires explicit confirmation" |}.

(** The first token that the service accepts is consumed, the others are left. *)
Fixpoint present_tokens (tokens : list json) (chat_id fingerprint : string) : call bool :=
  match tokens with
  | [] => mret false
  | JStr token :: tokens' =>
      if str_empty (strip token) then present_tokens tokens' chat_id fingerprint
      else
        t ← now;
        t' ← now;
        conf ← gets w_conf;
        let '(accepted, conf') := verify secret t t' token (cx_user_id cx) chat_id fingerprint true conf in
        _ ← modify (set_conf conf');
        _ ← log (AVerify token fingerprint accepted);
        if accepted : bool then mret true else present_tokens tokens' chat_id fingerprint
  | _ :: tokens' => present_tokens tokens' chat_id fingerprint
  end.

(** Of the arguments, or of the empty dictionary when they are false. *)
Definition operation_fingerprint (o : ResolvedOperation) (c : ToolCall) : string :=
  build_operation_fingerprint sha256 (fun d => canonical_json (json_or (tc_arguments c) (JObj d))) (op_slug o)
    (op_operation o) [].

Definition as_list (v : json) : list json := match v with JList l => l | _ => [] end.

Definition _ensure_confirmation_if_required (o : ResolvedOperation) (c : ToolCall) : call unit :=
  if negb (op_requires_confirmation o) then mret tt
  else
    let fingerprint := operation_fingerprint o c in
    match cx_chat_id cx with
    | None =>
        if existsb (fun v => match v with JStr s => String.eqb s fingerprint | _ => false end)
             (as_list (cx_confirmed_fingerprints cx)) then mret tt
        else raise (ConfirmationRequiredError (confirmation_payload o c fingerprint))
    | Some chat_id =>
        accepted ← present_tokens (as_list (cx_confirmation_tokens cx)) chat_id fingerprint;
        if accepted : bool then mret tt
        else raise (ConfirmationRequiredError (confirmation_payload o c fingerprint))
    end.

(** ** Reuse: [ToolCallReusePolicy.maybe_reuse] *)
Definition maybe_reuse (operation_slug : string) (arguments : json) : call (option ToolResult) :=
  if negb (cx_reuse_enabled cx) || negb (cx_ledger cx) then mret None
  else
    t ← now;
    entries ← gets w_ledger;
    match find_successful_result stable_json sha256 t operation_slug (json_or arguments (JObj [])) REUSE_MAX_AGE_SECONDS entries with
    | None => mret None
    | Some e => mret (Some (tool_ok (le_result_data e)
                              [("reused", JBool true); ("reused_from_call_id", JStr (le_call_id e))]))
    end.

(** ** [execute] *)

(** Scanning the notes of a result raises unless they are a list of objects. *)
Definition logs_readable (logs : json) : bool :=
  negb (truthy logs) || match logs with
                        | JList l => forallb (fun v => match v with JObj _ => true | _ => false end) l
                        | _ => false
                        end.

Definition failed (code : RuntimeErrorCode) (retryable : bool) (message operator_message : string) : ToolResult * json :=
  (tool_fail message (build_error_metadata code retryable message operator_message "tool"), JList []).

Definition run_executor (o : ResolvedOperation) (c : ToolCall) (timeout_s : option Z) : call (ToolResult * json) :=
  match env_executor with
  | None => mret (failed OPERATION_EXECUTION_FAILED false "Operation executor is not configured"
                    "Operation executor is not configured")
  | Some executor =>
      _ ← log (AExecute o c);
      r ← ask (executor c timeout_s);
      match r with
      | ExecCancelled => raise CancelledError
      | ExecTimesOut =>
          let message := "Execution timed out after " +:+
            match timeout_s with Some t => repr (JInt t) | None => "None" end +:+ " seconds" in
          mret (failed OPERATION_TIMEOUT true message message)
      | ExecRaises message => mret (failed OPERATION_EXECUTION_FAILED true message message)
      | ExecReturns result =>
          let sources := if tr_success result && truthy (jget "sources" (tr_metadata result))
                         then jget "sources" (tr_metadata result) else JList [] in
          if logs_readable (jget "logs" (tr_metadata result)) then mret (result, sources)
          else mret (failed OPERATION_EXECUTION_FAILED true "object has no attribute 'get'" "object has no attribute 'get'")
      end
  end.

Definition not_found (tool_name : string) (resolved_slug_error : option string) : ToolResult :=
  let message := or_str resolved_slug_error ("Tool '" +:+ tool_name +:+ "' not found") in
  let code := match resolved_slug_error with
              | Some e => if negb (str_empty e) && str_contains "ambiguous" (lower e) then OPERATION_AMBIGUOUS
                          else OPERATION_UNAVAILABLE
              | None => OPERATION_UNAVAILABLE
              end in
  tool_fail message (execution_metadata code false).

Definition execute_operation (c : ToolCall) (operations : list ResolvedOperation) (timeout_s : option Z)
    : call (ToolResult * json) :=
  match _find_operation repr (tc_tool_name c) (tc_arguments c) operations with
  | (None, resolved_slug_error) => mret (not_found (tc_tool_name c) resolved_slug_error, JList [])
  | (Some o, _) =>
      gate_error ← _validate_collection_interaction o;
      match gate_error with
      | Some e => mret (tool_fail (ve_message e) (validation_metadata e ++
                          [("user_message", JStr (ve_message e)); ("operator_message", JStr (ve_message e));
                           ("source", JStr "runtime")]), JList [])
      | None =>
          args ← of_result (_normalize_args repr json_loads literal_eval o (tc_arguments c));
          let c := {| tc_id := tc_id c; tc_tool_name := op_slug o; tc_arguments := args |} in
          validation_error ← of_result (_validate_args repr py_float jsonschema o args);
          match validation_error with
          | Some e => mret (tool_fail (to_user_message e) (validation_metadata e ++
                              [("user_message", JStr (to_user_message e)); ("operator_message", JStr (ve_message e));
                               ("source", JStr "tool")]), JList [])
          | None =>
              _ ← _ensure_confirmation_if_required o c;
              reused ← maybe_reuse (tc_tool_name c) (tc_arguments c);
              match reused with
              | Some result => mret (result, JList [])
              | None => run_executor o c timeout_s
              end
          end
      end
  end.
End Run.
