(* ===== verification/Agent.v ===== *)
(** * The loop of an agent: agents/runtime/agent.py ([AgentToolRuntime]), with
    agents/runtime/policy.py

    The settings of a run (policy, platform configuration, messages) are arguments;
    the model, the executor and the clock are the outside of AgentTools.v.  The body
    of the loop returns [Continue] or [Return].  [_execute_single_operation_call] is a
    generator of its own: its consumer, the loop, leaves at the first error or
    confirmation event, so that nothing after that [yield] runs; [yield_to_loop]
    raises [GeneratorExit] there.  Payloads that only describe the run to the journal
    (token counts, durations, snapshots of the prompt) are left out. *)
From S2P Require Import Prelude.
From S2P Require Import Confirmation.
From S2P Require Import ToolLedger.
From S2P Require Import Operations.
From S2P Require Import Protocol.
From S2P Require Import OperationContext.
From S2P Require Import AgentTools.
Open Scope Z_scope.

Definition MAX_OPERATION_RESULT_PREVIEW_CHARS : nat := Z.to_nat 4096.
Definition MAX_STEPS_WITHOUT_SUCCESSFUL_TOOL_RESULT_DEFAULT : Z := 2.

Record PolicyLimits := {
  max_llm_calls : Z;
  max_tool_calls_total : Z;
  max_wall_time_ms : Z;
  tool_timeout_ms : Z;
  max_retries : Z
}.

(** What the loop reads of the platform configuration, the request and the renderer
    of prompts. *)
Record AgentRequest := {
  ar_policy : PolicyLimits;
  ar_platform : odict json;
  ar_overrides : json;                             (* sandbox_overrides *)
  ar_operations : list ResolvedOperation;          (* available_operations *)
  ar_system_prompt : string;
  ar_input : list json;                            (* messages *)
  ar_partial_warning : bool;
  ar_tools_payload : list ResolvedOperation -> list json;             (* build_tools_payload *)
  ar_synthesis_messages : list json -> string -> list json;           (* render_base_prompt, build_synthesis_messages *)
  ar_required_instruction : string                 (* PLATFORM_REQUIRED_OPERATION_RETRY_INSTRUCTION *)
}.

(** [int(v)] *)
Definition py_int (v : json) : result exn Z :=
  match v with
  | JInt z => Ok z
  | JBool b => Ok (Z.b2z b)
  | JFloat m e => Ok (if 0 <=? e then m * 2 ^ e else Z.quot m (2 ^ (- e)))
  | JStr s => match parse_int (strip s) with Some z => Ok z | None => Err (PyError "ValueError" "invalid literal for int()") end
  | _ => Err (PyError "TypeError" "int() argument must be a string or a number")
  end.

Definition max_steps_setting (platform : odict json) : result exn Z :=
  py_int (json_or (jget "max_steps_without_successful_tool_result" platform)
            (JInt MAX_STEPS_WITHOUT_SUCCESSFUL_TOOL_RESULT_DEFAULT)).
Definition fail_fast_setting (platform : odict json) : bool :=
  truthy (default (JBool true) (od_get "fail_fast_invalid_operation_calls" platform)).
Definition native_setting (platform : odict json) (ops : list ResolvedOperation) : bool :=
  truthy (jget "native_tool_calling" platform) && match ops with [] => false | _ => true end.
Definition strict_setting (platform : odict json) : bool := truthy (jget "strict_operation_protocol" platform).

(** [_retry_delay_ms] *)
Definition _retry_delay_ms (retry_count : Z) (retry_after_ms : option Z) : Z :=
  let backoff_ms := Z.min 30000 (500 * 2 ^ Z.max 0 retry_count) in
  match retry_after_ms with
  | Some r => if 0 <? r then Z.min 30000 r else backoff_ms
  | None => backoff_ms
  end.

(** [_required_operation_retry_instruction] *)
Definition stripped_text (v : json) : option string :=
  match v with JStr s => if str_empty (strip s) then None else Some (strip s) | _ => None end.

Definition _required_operation_retry_instruction (platform : odict json) (overrides : json) (default_text : string) : string :=
  let runtime_override :=
    match overrides with
    | JObj o => match jget "required_operation_retry_instruction" o with
                | JNull => match jget "agent_runtime" o with
                           | JObj a => jget "required_operation_retry_instruction" a
                           | _ => JNull
                           end
                | v => v
                end
    | _ => JNull
    end in
  default (default default_text (stripped_text (jget "retry_instruction" platform))) (stripped_text runtime_override).

(** [_invalid_operation_retry_instruction] *)
Fixpoint allowed_names (ops : list string) (seen : list string) : list string :=
  match ops with
  | [] => []
  | name :: ops' => if str_empty name || str_in name seen then allowed_names ops' seen
                    else name :: allowed_names ops' (name :: seen)
  end.

Definition _invalid_operation_retry_instruction (invalid_operation_slugs : list string) (ops : list ResolvedOperation) : string :=
  let names := allowed_names (ops ≫= fun o => [strip (op_slug o); strip (op_operation o)]) [] in
  "Предыдущий tool_call использовал недоступные имена инструментов: " +:+
  or_str (Some (str_join ", " (take 5 invalid_operation_slugs))) "unknown" +:+ ". " +:+
  "Не придумывай namespace по slug или типу коллекции. " +:+
  "Если нужен доступ к коллекции `template`, первый вызов должен быть " +:+
  "`collection.info` с аргументом `collection_slug=" +:+ String (Ascii.ascii_of_nat 34) "template" +:+
  String (Ascii.ascii_of_nat 34) "`. " +:+
  "Используй только имена из разрешенного списка текущего run: " +:+
  or_str (Some (str_join ", " (take 12 names))) "none" +:+ ". " +:+
  "Верни только корректный `tool_call`.".

(** [LLMAdapter.normalize_response] of a response that is no object with a text *)
Definition normalize_response (repr : json -> string) (response : json) : result exn string :=
  match response with
  | JObj d =>
      let choices := default (JList []) (od_get "choices" d) in
      if truthy choices then
        match choices with
        | JList (c :: _) =>
            match dict_of c with
            | Err e => Err e
            | Ok c => match dict_of (default (JObj []) (od_get "message" c)) with
                      | Err e => Err e
                      | Ok m => Ok (py_str repr (default (JStr "") (od_get "content" m)))
                      end
            end
        | _ => Err type_error
        end
      else Ok (py_str repr (default (JStr "") (od_get "content" d)))
  | _ => Ok (py_str repr (json_or response (JStr "")))
  end.

Definition chat_message (role content : string) : json := JObj [("role", JStr role); ("content", JStr content)].

(** [filter_prompt_visible_operations] *)
Definition filter_prompt_visible_operations (ops : list ResolvedOperation) (active : list string) : list ResolvedOperation :=
  List.filter (fun o =>
    let canonical_name := or_str (some_str (strip (or_str (op_canonical_name o) ""))) (strip (op_operation o)) in
    String.eqb (op_scope o) "system" || String.eqb canonical_name "collection.info" || str_in (op_slug o) active) ops.

Inductive outcome := Continue | Return.

(** ** State updates *)
Definition set_retry_count (n : Z) (s : LoopState) : LoopState :=
  {| ls_tool_outputs := ls_tool_outputs s; ls_sources := ls_sources s; ls_tool_calls_total := ls_tool_calls_total s;
     ls_steps_without_success := ls_steps_without_success s; ls_retry_count := n;
     ls_force_tool_choice := ls_force_tool_choice s; ls_start_time := ls_start_time s; ls_messages := ls_messages s;
     ls_native := ls_native s; ls_seen_native := ls_seen_native s; ls_pending := ls_pending s |}.
Definition set_force (b : bool) (s : LoopState) : LoopState :=
  {| ls_tool_outputs := ls_tool_outputs s; ls_sources := ls_sources s; ls_tool_calls_total := ls_tool_calls_total s;
     ls_steps_without_success := ls_steps_without_success s; ls_retry_count := ls_retry_count s;
     ls_force_tool_choice := b; ls_start_time := ls_start_time s; ls_messages := ls_messages s;
     ls_native := ls_native s; ls_seen_native := ls_seen_native s; ls_pending := ls_pending s |}.
Definition add_messages (l : list json) (s : LoopState) : LoopState :=
  {| ls_tool_outputs := ls_tool_outputs s; ls_sources := ls_sources s; ls_tool_calls_total := ls_tool_calls_total s;
     ls_steps_without_success := ls_steps_without_success s; ls_retry_count := ls_retry_count s;
     ls_force_tool_choice := ls_force_tool_choice s; ls_start_time := ls_start_time s; ls_messages := ls_messages s ++ l;
     ls_native := ls_native s; ls_seen_native := ls_seen_native s; ls_pending := ls_pending s |}.
Definition set_native (b : bool) (s : LoopState) : LoopState :=
  {| ls_tool_outputs := ls_tool_outputs s; ls_sources := ls_sources s; ls_tool_calls_total := ls_tool_calls_total s;
     ls_steps_without_success := ls_steps_without_success s; ls_retry_count := ls_retry_count s;
     ls_force_tool_choice := ls_force_tool_choice s; ls_start_time := ls_start_time s; ls_messages := ls_messages s;
     ls_native := b; ls_seen_native := ls_seen_native s; ls_pending := ls_pending s |}.
Definition set_seen (l : list (string * string)) (s : LoopState) : LoopState :=
  {| ls_tool_outputs := ls_tool_outputs s; ls_sources := ls_sources s; ls_tool_calls_total := ls_tool_calls_total s;
     ls_steps_without_success := ls_steps_without_success s; ls_retry_count := ls_retry_count s;
     ls_force_tool_choice := ls_force_tool_choice s; ls_start_time := ls_start_time s; ls_messages := ls_messages s;
     ls_native := ls_native s; ls_seen_native := l; ls_pending := ls_pending s |}.
Definition set_pending (p : option string * option string) (s : LoopState) : LoopState :=
  {| ls_tool_outputs := ls_tool_outputs s; ls_sources := ls_sources s; ls_tool_calls_total := ls_tool_calls_total s;
     ls_steps_without_success := ls_steps_without_success s; ls_retry_count := ls_retry_count s;
     ls_force_tool_choice := ls_force_tool_choice s; ls_start_time := ls_start_time s; ls_messages := ls_messages s;
     ls_native := ls_native s; ls_seen_native := ls_seen_native s; ls_pending := p |}.
Definition set_steps (n : Z) (s : LoopState) : LoopState :=
  {| ls_tool_outputs := ls_tool_outputs s; ls_sources := ls_sources s; ls_tool_calls_total := ls_tool_calls_total s;
     ls_steps_without_success := n; ls_retry_count := ls_retry_count s;
     ls_force_tool_choice := ls_force_tool_choice s; ls_start_time := ls_start_time s; ls_messages := ls_messages s;
     ls_native := ls_native s; ls_seen_native := ls_seen_native s; ls_pending := ls_pending s |}.
Definition set_calls_total (n : Z) (s : LoopState) : LoopState :=
  {| ls_tool_outputs := ls_tool_outputs s; ls_sources := ls_sources s; ls_tool_calls_total := n;
     ls_steps_without_success := ls_steps_without_success s; ls_retry_count := ls_retry_count s;
     ls_force_tool_choice := ls_force_tool_choice s; ls_start_time := ls_start_time s; ls_messages := ls_messages s;
     ls_native := ls_native s; ls_seen_native := ls_seen_native s; ls_pending := ls_pending s |}.
Definition add_output (o : odict json) (sources : list json) (s : LoopState) : LoopState :=
  {| ls_tool_outputs := ls_tool_outputs s ++ [o]; ls_sources := ls_sources s ++ sources;
     ls_tool_calls_total := ls_tool_calls_total s; ls_steps_without_success := ls_steps_without_success s;
     ls_retry_count := ls_retry_count s; ls_force_tool_choice := ls_force_tool_choice s;
     ls_start_time := ls_start_time s; ls_messages := ls_messages s; ls_native := ls_native s;
     ls_seen_native := ls_seen_native s; ls_pending := ls_pending s |}.

Section Agent.
Context `{J : Jwt} {R E : Type} `{N : NonceStore R} `{V : AgentEnv E}.
Variables (repr : json -> string) (stable_json : json -> string) (sha256 : string -> string)
  (canonical_json : json -> string) (dumps dumps_sorted indented : json -> string)
  (json_loads literal_eval : string -> option json) (py_float : string -> option json)
  (jsonschema : option (odict json -> json -> result exn (option (string * string)))).
Variables (tool_call_blocks json_blocks : string -> list string)
  (without_tool_call_blocks without_json_blocks : string -> string).
Variables (secret : string) (cx : Context) (rq : AgentRequest).
#[local] Abbreviation world := (World R E).
#[local] Abbreviation call A := (py exn world A).
#[local] Abbreviation yield_ := (yield_ stable_json sha256 cx).
#[local] Abbreviation policy := (ar_policy rq).
#[local] Abbreviation operations := (ar_operations rq).

Definition update_loop (f : LoopState -> LoopState) : call unit := modify (fun w => set_loop (f (w_loop w)) w).
Definition in_loop {A} (f : LoopState -> A) : call A := gets (fun w => f (w_loop w)).

Definition error_event (message : string) (recoverable : bool) (code : string) (retryable : bool)
    (retry_after_ms : option Z) : RuntimeEvent :=
  EvError {| ee_error := message; ee_recoverable := recoverable; ee_error_code := code; ee_retryable := retryable;
             ee_retry_after_ms := retry_after_ms |}.
Definition fatal (message : string) (code : RuntimeErrorCode) : RuntimeEvent :=
  error_event message false (code_value code) false None.

Definition budget_snapshot (reason : string) (step : Z) : call unit :=
  ls ← in_loop id;
  yield_ (EvBudgetSnapshot reason step (ls_tool_calls_total ls) (ls_retry_count ls)).

(** ** One operation call *)

(** [_activate_collection_tools]: only what a successful collection.info returned. *)
Definition _activate_collection_tools (c : ToolCall) (result : ToolResult) : call unit :=
  if negb (tr_success result) then mret tt
  else
    match _find_operation repr (tc_tool_name c) (tc_arguments c) operations with
    | (None, _) => mret tt
    | (Some o, _) =>
        if negb (String.eqb (op_operation o) "collection.info") then mret tt
        else
          let payload := as_dict (tr_data result) in
          let collection := as_dict (jget "collection" payload) in
          let own := collection_of o in
          let collection_slug := strip (py_str repr
            (json_or (json_or (jget "slug" collection) (JStr (or_str (op_collection_slug o) ""))) (JStr ""))) in
          if str_empty collection_slug || negb (String.eqb collection_slug own) then mret tt
          else
            let returned_slugs := omap (fun item =>
              match item with
              | JObj d => some_str (strip (py_str repr (json_or (jget "invoke_as" d) (JStr ""))))
              | _ => None
              end) (as_list (jget "tools" payload)) in
            let active := map op_slug (List.filter (fun op =>
              String.eqb (collection_of op) collection_slug && str_in (strip (op_operation op)) returned_slugs &&
              negb (String.eqb (op_operation op) "collection.info")) operations) in
            modify (fun w => set_collections (w_gate w) (remove_dups (w_active w ++ active))
                               (remove_dups (w_opened w ++ [collection_slug])) w)
    end.

(** A [yield] of the inner generator: the loop leaves at errors and confirmations. *)
Definition leaves_loop (e : RuntimeEvent) : bool :=
  match e with EvError _ | EvConfirmationRequired _ => true | _ => false end.
Definition yield_to_loop (e : RuntimeEvent) : call unit :=
  _ ← yield_ e;
  if leaves_loop e then raise GeneratorExit else mret tt.

(** The data of the event: the text of a large result is cut. *)
Definition event_data (result : ToolResult) : json * bool :=
  if tr_success result then
    match tr_data result with
    | JObj _ => let raw_str := dumps (tr_data result) in
                if Nat.ltb MAX_OPERATION_RESULT_PREVIEW_CHARS (String.length raw_str)
                then (JStr (str_take MAX_OPERATION_RESULT_PREVIEW_CHARS raw_str), true)
                else (tr_data result, false)
    | _ => (tr_data result, false)
    end
  else (match tr_error result with Some e => JStr e | None => JNull end, false).

Definition opt_json (o : option string) : json := match o with Some s => JStr s | None => JNull end.

Definition output_entry (c : ToolCall) (result : ToolResult) : odict json :=
  [("tool", JStr (tc_tool_name c)); ("success", JBool (tr_success result));
   ("data", json_or (tr_data result) (JObj [])); ("error", opt_json (tr_error result));
   ("error_code", jget "error_code" (tr_metadata result)); ("retryable", jget "retryable" (tr_metadata result))].

Definition tool_timeout : option Z :=
  if Z.eqb (tool_timeout_ms policy) 0 then None else Some (Z.quot (tool_timeout_ms policy) 1000).

Definition reused (result : ToolResult) : bool := truthy (jget "reused" (tr_metadata result)).

(** The end of [_execute_single_operation_call]: the result is reported, opens
    collections and is kept; with the text for the model. *)
Definition report_result (c : ToolCall) (include_operation_contracts : bool) (used : Z) (result : ToolResult) (raw_sources : json)
    : call (Z * option (ToolCall * string)) :=
  let used := if reused result then used else used + 1 in
  sources ← of_result (iter_items (json_or raw_sources (JList [])));
  let data := event_data result in
  _ ← yield_to_loop (EvToolResult
    {| te_tool := tc_tool_name c; te_call_id := tc_id c; te_success := tr_success result; te_data := fst data;
       te_sources := JList sources; te_reused := reused result;
       te_error_code := jget "error_code" (tr_metadata result);
       te_retryable := jget "retryable" (tr_metadata result); te_truncated := snd data |});
  _ ← record_event "tool_result";
  _ ← _activate_collection_tools c result;
  _ ← update_loop (add_output (output_entry c result) sources);
  text ← of_result (format_result_for_context repr dumps result (tc_tool_name c) include_operation_contracts
                      (if tr_success result then Some (tc_id c) else None));
  mret (used, Some (c, text)).

(** [_execute_single_operation_call]: [used] is [operation_calls_total_ref[0]]; the
    new count and, unless it returns early, the text for the model. *)
Definition _execute_single_operation_call (c : ToolCall) (llm_call_id : string) (include_operation_contracts : bool) (used : Z)
    : call (Z * option (ToolCall * string)) :=
  if Z.leb (max_tool_calls_total policy) used then
    let limit_message := "Maximum operation calls (" +:+ repr (JInt (max_tool_calls_total policy)) +:+ ") reached" in
    _ ← yield_to_loop (fatal limit_message AGENT_MAX_TOOL_CALLS_EXCEEDED);
    _ ← record_event "budget_snapshot";
    _ ← session_finish "failed" (Some limit_message);
    mret (used, None)
  else
    _ ← yield_to_loop (EvToolCall c llm_call_id);
    _ ← record_event "tool_call";
    executed ← try_except
      (rs ← execute_operation repr stable_json sha256 canonical_json dumps json_loads literal_eval py_float jsonschema
              secret cx c operations tool_timeout;
       mret (Some rs))
      (fun e => match e with
                | ConfirmationRequiredError payload =>
                    _ ← yield_to_loop (EvConfirmationRequired payload);
                    _ ← session_finish "waiting_confirmation" (Some (cp_summary payload));
                    mret None
                | _ => raise e
                end);
    match executed with
    | None => mret (used, None)
    | Some (result, raw_sources) => report_result c include_operation_contracts used result raw_sources
    end.

(** ** Answers *)
Fixpoint yield_deltas (chunks : list string) : call unit :=
  match chunks with
  | [] => mret tt
  | c :: chunks' => _ ← yield_ (EvDelta c); yield_deltas chunks'
  end.

(** Streams an answer: its chunks, then its end or its exception. *)
Definition stream_answer (messages : list json) : call string :=
  r ← ask (fun e => let '(chunks, stop, e') := env_stream messages e in ((chunks, stop), e'));
  _ ← yield_deltas (fst r);
  match snd r with
  | StreamDone => mret (str_join "" (fst r))
  | StreamRaises cls message => raise (PyError cls message)
  | StreamCancelled => raise CancelledError
  end.

(** [_synthesize_answer], up to its final event and with it *)
Definition synthesis : call (string * list json) :=
  ls ← in_loop id;
  observation_text ← of_result (format_observation_text repr dumps (ls_tool_outputs ls));
  let messages := ar_synthesis_messages rq (ar_input rq) observation_text in
  _ ← yield_ (EvStatus "generating_answer");
  llm_call_id ← uuid4;
  _ ← yield_ (EvLlmRequest PFINAL_ANSWER llm_call_id messages);
  answer ← stream_answer messages;
  _ ← yield_ (EvLlmResponse PFINAL_ANSWER llm_call_id (LlmAnswered answer));
  mret (answer, ls_sources ls).

Definition _synthesize_answer : call unit :=
  answer ← synthesis;
  yield_ (EvFinal (fst answer) (snd answer)).

Definition _handle_no_tool_calls (parsed : ParsedResponse) : call unit :=
  ls ← in_loop id;
  if negb (str_empty (strip (pr_text parsed))) then
    _ ← yield_ (EvStatus "generating_answer");
    _ ← yield_ (EvDelta (pr_text parsed));
    yield_ (EvFinal (pr_text parsed) (ls_sources ls))
  else
    match ls_tool_outputs ls with
    | _ :: _ => _synthesize_answer
    | [] =>
        _ ← yield_ (EvStatus "generating_answer");
        answer ← stream_answer (ls_messages ls);
        yield_ (EvFinal answer (ls_sources ls))
    end.

(** ** One question to the model *)
Definition lift_answer {A B} (o : LlmOutcome A) (k : A -> call (LlmOutcome B)) : call (LlmOutcome B) :=
  match o with
  | LlmReturns a => k a
  | LlmToolCallingUnsupported m => mret (LlmToolCallingUnsupported m)
  | LlmRequestTooLarge m => mret (LlmRequestTooLarge m)
  | LlmProviderError c r a => mret (LlmProviderError c r a)
  | LlmRaises cls m => mret (LlmRaises cls m)
  | LlmCancelled => mret LlmCancelled
  end.

(** The text of the answer, with the native response when there is one. *)
Definition ask_model : call (LlmOutcome (string * option json)) :=
  w ← get_state;
  let ls := w_loop w in
  let tools := if ls_native ls
               then ar_tools_payload rq (filter_prompt_visible_operations operations (w_active w)) else [] in
  match tools with
  | _ :: _ =>
      r ← ask (env_call_raw (ls_messages ls) tools (ls_force_tool_choice ls));
      lift_answer r (fun raw =>
        _ ← update_loop (set_force false);
        match normalize_response repr raw with
        | Ok s => mret (LlmReturns (s, Some raw))
        | Err (PyError cls m) => mret (LlmRaises cls m)
        | Err e => raise e
        end)
  | [] =>
      r ← ask (env_call (ls_messages ls));
      lift_answer r (fun s => mret (LlmReturns (s, None)))
  end.

Inductive turn := Answered (raw_response : string) (raw : option json) | Ended (o : outcome).

Definition protocol_retry (step : Z) (reason : string) (ids : string * string) (delay : option Z) : call unit :=
  _ ← record_event "protocol_retry";
  _ ← yield_ (EvProtocolRetry step reason (fst ids) delay);
  update_loop (set_pending (Some (fst ids), Some (snd ids))).

Definition llm_response (ids : string * string) (retryable : option bool) (status : LlmStatus) : call unit :=
  yield_ (EvLlmResponse PTOOL_DECISION (fst ids) (llm_response_status retryable status)).

(** The failure of a call: a retry while some are left, or the end of the run. *)
Definition call_failed (step : Z) (ids : string * string) (message code : string) (retryable : bool)
    (retry_after_ms : option Z) : call turn :=
  retry_count ← in_loop ls_retry_count;
  let will_retry := retryable && (retry_count <? max_retries policy) in
  _ ← llm_response ids (Some retryable) (if will_retry then LlmWaitingRetry else LlmCallFailed);
  if will_retry then
    let retry_delay_ms := _retry_delay_ms retry_count retry_after_ms in
    _ ← update_loop (fun s => set_retry_count (ls_retry_count s + 1) s);
    _ ← protocol_retry step "transport_error" ids (Some retry_delay_ms);
    mret (Ended Continue)
  else
    _ ← yield_ (error_event message retryable code retryable retry_after_ms);
    _ ← session_finish "failed" (Some message);
    mret (Ended Return).

Definition llm_turn (step : Z) (ids : string * string) : call turn :=
  messages ← in_loop ls_messages;
  _ ← yield_ (EvLlmRequest PTOOL_DECISION (fst ids) messages);
  answer ← ask_model;
  match answer with
  | LlmReturns (raw_response, raw) =>
      _ ← record_event "llm_turn";
      _ ← llm_response ids None (LlmAnswered raw_response);
      mret (Answered raw_response raw)
  | LlmCancelled => raise CancelledError
  | LlmToolCallingUnsupported message =>
      native ← in_loop ls_native;
      if native : bool then
        _ ← llm_response ids (Some false) LlmWaitingRetry;
        _ ← update_loop (fun s => set_force false (set_native false s));
        _ ← protocol_retry step "native_tool_calling_unsupported" ids None;
        mret (Ended Continue)
      else raise (PyError "LLMToolCallingUnsupportedError" message)
  | LlmRequestTooLarge message =>
      _ ← yield_ (error_event message false "llm_provider_request_too_large" false None);
      _ ← session_finish "failed" (Some message);
      mret (Ended Return)
  | LlmProviderError code retryable retry_after_ms =>
      call_failed step ids ("Agent LLM call failed: " +:+ code) code retryable retry_after_ms
  | LlmRaises cls message =>
      call_failed step ids ("Agent LLM call failed: " +:+ cls +:+ ": " +:+ message) "agent_llm_call_error" true None
  end.

(** The calls in the answer: the native form first, then the text. *)
Definition parse_answer (raw_response : string) (raw : option json) : call ParsedResponse :=
  ls ← in_loop id;
  native ← match ls_native ls, raw with
           | true, Some response =>
               let r := parse_native_tool_calls repr json_loads dumps_sorted response (ls_seen_native ls) in
               _ ← update_loop (set_seen (snd r));
               of_result (fst r)
           | _, _ => mret None
           end;
  match native with
  | Some parsed => mret parsed
  | None => of_result (parse_llm_response json_loads dumps_sorted tool_call_blocks json_blocks without_tool_call_blocks
                         without_json_blocks (strict_setting (ar_platform rq)) raw_response)
  end.

(** [ToolCall.from_dict]; the identifier as events and ledger write it. *)
Definition from_dict (data : odict json) : call ToolCall :=
  fresh ← uuid4;
  let id := default (JStr fresh) (od_get "id" data) in
  mret {| tc_id := py_str repr (json_or id (JStr "")); tc_tool_name := py_str repr (jget "tool" data);
          tc_arguments := default (JObj []) (od_get "arguments" data) |}.

Fixpoint read_calls (l : list (odict json)) : call (list ToolCall) :=
  match l with
  | [] => mret []
  | d :: l' => c ← from_dict d; cs ← read_calls l'; mret (c :: cs)
  end.

(** ** The answer calls no operation *)
Definition fail_run (message : string) (code : RuntimeErrorCode) (journal : list string) (finish_message : string) : call outcome :=
  _ ← yield_ (fatal message code);
  _ ← for_each (fun j => record_event j) journal;
  _ ← session_finish "failed" (Some finish_message);
  mret Return.

Definition no_calls (step : Z) (ids : string * string) (max_steps : Z) (raw_response : string) (parsed : ParsedResponse)
    : call outcome :=
  ls ← in_loop id;
  match operations, ls_tool_outputs ls with
  | _ :: _, [] =>
      let steps := ls_steps_without_success ls + 1 in
      _ ← update_loop (set_steps steps);
      if Z.leb max_steps steps then
        fail_run "Agent repeatedly skipped required operation calls" AGENT_REQUIRED_OPERATION_CALL_MISSING
          ["budget_snapshot"] "Agent repeatedly skipped required operation calls"
      else if Z.leb (max_llm_calls policy) (step + 1) then
        fail_run "Agent failed to call required operations before answering" AGENT_REQUIRED_OPERATION_CALL_MISSING
          [] "no operation call before final answer"
      else
        _ ← update_loop (add_messages [chat_message "assistant" raw_response; chat_message "user"
              (_required_operation_retry_instruction (ar_platform rq) (ar_overrides rq) (ar_required_instruction rq))]);
        _ ← update_loop (fun s => if ls_native s then set_force true s else s);
        _ ← protocol_retry (step + 1) "no_tool_call_before_answer" ids None;
        _ ← update_loop (fun s => set_retry_count (ls_retry_count s + 1) s);
        mret Continue
  | _, _ =>
      _ ← _handle_no_tool_calls parsed;
      _ ← record_event "final_response";
      _ ← session_finish "completed" None;
      mret Return
  end.

(** ** The answer calls operations *)
Definition _is_allowed_operation_call (c : ToolCall) : bool :=
  match fst (_find_operation repr (tc_tool_name c) (tc_arguments c) operations) with Some _ => true | None => false end.

(** The entry that a call added, when it succeeded or failed for good. *)
Definition non_retryable (out : odict json) : bool :=
  match jget "error_code" out with
  | JStr ec => str_in ec [code_value OPERATION_UNAVAILABLE; code_value OPERATION_AMBIGUOUS;
                          code_value OPERATION_EXECUTION_FAILED]
  | _ => false
  end && match jget "retryable" out with JBool false => true | _ => false end.

Record Tally := { ty_results : list (ToolCall * string); ty_successes : Z; ty_failures : list (string * json) }.

Definition tally (c : ToolCall) (result : option (ToolCall * string)) (entry : option (odict json)) (t : Tally) : Tally :=
  let succeeded := match entry with Some out => truthy (jget "success" out) | None => false end in
  let gone := match entry with Some out => negb succeeded && non_retryable out | None => false end in
  {| ty_results := ty_results t ++ match result with Some r => [r] | None => [] end;
     ty_successes := if succeeded then ty_successes t + 1 else ty_successes t;
     ty_failures := if gone then ty_failures t ++ [(tc_tool_name c, jget "error_code" (default [] entry))]
                    else ty_failures t |}.

(** The calls of one answer in order; [None] when the loop has to return. *)
Fixpoint run_calls (llm_call_id : string) (include_contracts : bool) (cs : list ToolCall) (t : Tally) : call (option Tally) :=
  match cs with
  | [] => mret (Some t)
  | c :: cs' =>
      ls ← in_loop id;
      r ← try_except
        (x ← _execute_single_operation_call c llm_call_id include_contracts (ls_tool_calls_total ls); mret (Some x))
        (fun e => match e with GeneratorExit => mret None | _ => raise e end);
      match r with
      | None => mret None
      | Some (used, result) =>
          _ ← update_loop (set_calls_total used);
          outs ← in_loop ls_tool_outputs;
          run_calls llm_call_id include_contracts cs' (tally c result (outs !! length (ls_tool_outputs ls)) t)
      end
  end.

(** [build_tool_results_message]; [indented] is [json.dumps] with an indent. *)
Definition format_tool_result (c : ToolCall) (result_content : string) : string :=
  "```tool_result" +:+ newline +:+
  indented (JObj [("tool", JStr (tc_tool_name c)); ("call_id", JStr (tc_id c)); ("result", JStr result_content)]) +:+
  newline +:+ "```".
Definition build_tool_results_message (results : list (ToolCall * string)) : string :=
  str_join (newline +:+ newline) (map (fun r => format_tool_result (fst r) (snd r)) results).

(** [build_tool_result_messages] *)
Definition native_id_map (raw_calls : list json) : odict string :=
  foldl (fun d item =>
    match item with
    | JObj i =>
        let fn_name := match json_or (jget "function" i) (JObj []) with JObj f => json_or (jget "name" f) (JStr "") | _ => JStr "" end in
        let tool_call_id := py_str repr (json_or (jget "id" i) (JStr "")) in
        match fn_name with
        | JStr n => if str_empty n || str_empty tool_call_id then d else od_set n tool_call_id d
        | _ => d
        end
    | _ => d
    end) [] raw_calls.

Definition build_tool_result_messages (results : list (ToolCall * string)) (raw_calls : list json) : list json :=
  let id_map := native_id_map raw_calls in
  map (fun r => JObj [("role", JStr "tool");
                      ("tool_call_id", JStr (or_str (od_get (tc_tool_name (fst r)) id_map) (tc_id (fst r))));
                      ("content", JStr (snd r))]) results.

(** [raw_response_dict["choices"][0]["message"]["tool_calls"]] *)
Definition raw_tool_calls (raw : json) : result exn json :=
  match raw with
  | JObj r => match native_message r with
              | Err e => Err e
              | Ok message => match dict_of (default (JObj []) message) with
                              | Err e => Err e
                              | Ok m => Ok (json_or (jget "tool_calls" m) (JList []))
                              end
              end
  | _ => Err attribute_error
  end.

(** The native form: an assistant message with the calls and a message per result;
    the text form: an assistant and a user message. *)
Definition results_messages (native : bool) (raw_response : string) (raw : option json) (results : list (ToolCall * string))
    : result exn (list json) :=
  match native, raw with
  | true, Some response =>
      match raw_tool_calls response with
      | Err e => Err e
      | Ok calls =>
          match iter_items calls with
          | Err e => Err e
          | Ok items =>
              Ok (JObj ([("role", JStr "assistant");
                         ("content", if str_empty raw_response then JNull else JStr raw_response)] ++
                        if truthy calls then [("tool_calls", calls)] else [])
                  :: build_tool_result_messages results items)
          end
      end
  | _, _ => Ok [chat_message "assistant" raw_response; chat_message "user" (build_tool_results_message results)]
  end.

(** The end of a step: its results for the model, unless too many steps had no success. *)
Definition finish_step (max_steps : Z) (native : bool) (raw_response : string) (raw : option json)
    (results : list (ToolCall * string)) : call outcome :=
  steps ← in_loop ls_steps_without_success;
  if Z.leb max_steps steps then
    fail_run "No successful operation results within the allowed retry budget" AGENT_NO_SUCCESSFUL_OPERATION_RESULT
      ["budget_snapshot"] "No successful operation results within the allowed retry budget"
  else
    messages ← of_result (results_messages native raw_response raw results);
    _ ← update_loop (add_messages messages);
    mret Continue.

Definition invalid_calls (step : Z) (ids : string * string) (raw_response : string) (invalid : list string) : call outcome :=
  _ ← update_loop (add_messages [chat_message "assistant" raw_response; chat_message "user"
        (_invalid_operation_retry_instruction invalid operations)]);
  _ ← record_event "protocol_retry";
  _ ← update_loop (fun s => set_retry_count (ls_retry_count s + 1) s);
  _ ← update_loop (fun s => if ls_native s then set_force true s else s);
  _ ← yield_ (EvProtocolRetry (step + 1) "invalid_operation_slug" (fst ids) None);
  _ ← update_loop (set_pending (Some (fst ids), Some (snd ids)));
  mret Continue.

Definition with_calls (step : Z) (ids : string * string) (max_steps : Z) (raw_response : string) (raw : option json)
    (cs : list ToolCall) : call outcome :=
  let fail_fast := fail_fast_setting (ar_platform rq) in
  let invalid := map tc_tool_name (List.filter (fun c => negb (_is_allowed_operation_call c)) cs) in
  if fail_fast && match invalid with [] => false | _ => true end then
    invalid_calls step ids raw_response invalid
  else
    native ← in_loop ls_native;
    t ← run_calls (fst ids) (negb native) cs {| ty_results := []; ty_successes := 0; ty_failures := [] |};
    match t with
    | None => mret Return
    | Some t =>
        _ ← update_loop (fun s => set_steps (if 0 <? ty_successes t then 0 else ls_steps_without_success s + 1) s);
        match ty_failures t with
        | ((_, code) :: _) as failures =>
            if fail_fast && Z.eqb (ty_successes t) 0 then
              let message := "Agent operation execution failed with non-retryable errors: " +:+
                str_join "; " (map (fun f => fst f +:+ "[" +:+ py_str repr (snd f) +:+ "]") (take 3 failures)) in
              _ ← yield_ (error_event message false (py_str repr code) false None);
              _ ← record_event "invalid_operation_call_fail_fast";
              _ ← session_finish "failed" (Some message);
              mret Return
            else finish_step max_steps native raw_response raw (ty_results t)
        | [] => finish_step max_steps native raw_response raw (ty_results t)
        end
    end.

(** ** The loop *)
Definition step_ids : call (string * string) :=
  pending ← in_loop ls_pending;
  a ← match fst pending with Some i => mret i | None => uuid4 end;
  b ← match snd pending with Some i => mret i | None => uuid4 end;
  _ ← update_loop (set_pending (None, None));
  mret (a, b).

Definition step_body (max_steps step : Z) : call outcome :=
  ids ← step_ids;
  t ← now;
  start ← in_loop ls_start_time;
  let elapsed := t - start in
  let limit := max_wall_time_ms policy * 1000 in
  if (limit <? elapsed) || (limit - elapsed <=? 0) then
    fail_run "Wall time limit exceeded" AGENT_WALL_TIME_EXCEEDED [] "Wall time limit exceeded"
  else
    _ ← record_event "budget_snapshot";
    _ ← budget_snapshot "agent_step" (step + 1);
    answer ← llm_turn (step + 1) ids;
    match answer with
    | Ended o => mret o
    | Answered raw_response raw =>
        parsed ← parse_answer raw_response raw;
        cs ← read_calls (pr_tool_calls parsed);
        if negb (pr_has_tool_calls parsed) then no_calls step ids max_steps raw_response parsed
        else with_calls step ids max_steps raw_response raw cs
    end.

(** After the last step: an answer from what there is. *)
Definition steps_exhausted : call unit :=
  ls ← in_loop id;
  match ls_tool_outputs ls with
  | _ :: _ =>
      _ ← _synthesize_answer;
      _ ← record_event "final_response";
      session_finish "completed" None
  | [] =>
      let message := "Maximum agent LLM calls (" +:+ repr (JInt (max_llm_calls policy)) +:+ ") reached without result" in
      _ ← yield_ (error_event message true (code_value AGENT_NO_SUCCESSFUL_OPERATION_RESULT) true None);
      session_finish "failed" None
  end.

(** [for step in range(max_llm_calls)] with [n] steps left. *)
Fixpoint loop (max_steps step : Z) (n : nat) : call unit :=
  match n with
  | O => steps_exhausted
  | S n' =>
      o ← step_body max_steps step;
      match o with
      | Return => mret tt
      | Continue => loop max_steps (step + 1) n'
      end
  end.

Definition str_exn (e : exn) : string :=
  match e with
  | ConfirmationRequiredError p => cp_summary p
  | PyError _ m => m
  | CancelledError | GeneratorExit => ""
  end.

Definition run_loop (max_steps : Z) : call unit :=
  try_except (loop max_steps 0 (Z.to_nat (max_llm_calls policy)))
    (fun e => match e with
              | CancelledError | GeneratorExit => raise e
              | _ =>
                  _ ← yield_ (fatal (str_exn e) AGENT_RUNTIME_EXCEPTION);
                  session_finish "failed" (Some (str_exn e))
              end).

(** [execute]: from the start of the run session to the clock of the loop, the state
    of the loop, and the loop *)
Definition announce_run (enable_logging : bool) (run_id_override : option string) (child root : string -> string) : call unit :=
  run_id ← session_start enable_logging run_id_override child root;
  _ ← match run_id with
      | Some _ => _ ← yield_ (EvStatus "executor_config_snapshot"); yield_ EvRbacSnapshot
      | None => mret tt
      end;
  _ ← record_event "user_request";
  _ ← record_event "budget_snapshot";
  _ ← yield_ (EvBudgetSnapshot "init" 0 0 0);
  _ ← (if ar_partial_warning rq then yield_ (EvStatus "partial_mode") else mret tt);
  yield_ (EvStatus "agent_operation_loop_started").

Definition initial_loop (start : Z) : LoopState :=
  {| ls_tool_outputs := []; ls_sources := []; ls_tool_calls_total := 0; ls_steps_without_success := 0;
     ls_retry_count := 0; ls_force_tool_choice := false; ls_start_time := start;
     ls_messages := chat_message "system" (ar_system_prompt rq) :: ar_input rq;
     ls_native := native_setting (ar_platform rq) operations; ls_seen_native := []; ls_pending := (None, None) |}.

Definition start_loop : call Z :=
  start ← now;
  _ ← modify (set_loop (initial_loop start));
  max_steps ← of_result (max_steps_setting (ar_platform rq));
  _ ← modify (set_collections true [] []);
  mret max_steps.

Definition execute (enable_logging : bool) (run_id_override : option string) (child root : string -> string) : call unit :=
  _ ← announce_run enable_logging run_id_override child root;
  max_steps ← start_loop;
  run_loop max_steps.
End Agent.
