(* ===== verification/OperationsProofs.v ===== *)
(** * The built-in validation of arguments against its declarative meaning *)
From S2P Require Import Prelude.
From S2P Require Import Operations.
Open Scope Z_scope.

(** [accepts node v]: the value satisfies what the validator knows of a JSON schema. *)
Definition at_least (minimum v : json) : Prop :=
  match minimum, v, num v with
  | JNull, _, _ => True
  | _, (JInt _ | JFloat _ _), Some x => exists y, num minimum = Some y /\ num_compare x y <> Lt
  | _, _, _ => True
  end.

Definition node_required (node : odict json) : list json :=
  match default (JList []) (od_get "required" node) with JList l => l | _ => [] end.
Definition node_children (node : odict json) : odict json := as_dict (jget "properties" node).
Definition closed (node : odict json) : Prop := od_get "additionalProperties" node = Some (JBool false).

Inductive accepts : odict json -> json -> Prop :=
| accepts_node node v :
    (forall t, jget "type" node = JStr t -> _type_ok v t = true) ->
    (forall l, jget "enum" node = JList l -> existsb (py_eq v) l = true) ->
    at_least (jget "minimum" node) v ->
    (forall fields, v = JObj fields ->
       (forall r, r ∈ node_required node -> exists f, r = JStr f /\ is_Some (od_get f fields)) /\
       (closed node -> forall properties, default (JObj []) (od_get "properties" node) = JObj properties ->
          forall k, k ∈ od_keys fields -> k ∈ od_keys properties)) ->
    (forall fields k child x, v = JObj fields -> (k, JObj child) ∈ node_children node -> od_get k fields = Some x ->
       accepts child x) ->
    (forall l child x, v = JList l -> jget "items" node = JObj child -> x ∈ l -> accepts child x) ->
    accepts node v.

Section Validation.
Variable repr : json -> string.

Lemma orelse_ok a b : orelse a b = Ok None <-> a = Ok None /\ b = Ok None.
Proof. destruct a as [[]|]; simpl; split; (done || by intros [] || by intros [? ?]). Qed.

Lemma check_type_ok node v path : check_type node v path = Ok None <-> forall t, jget "type" node = JStr t -> _type_ok v t = true.
Proof.
  unfold check_type. destruct (jget "type" node); try (by split; intros; simplify_eq). destruct (_type_ok v s) eqn:Et; split; try done.
  - by intros _ t [= <-].
  - intros H. specialize (H s eq_refl). congruence.
Qed.

Lemma check_enum_ok node v path : check_enum repr node v path = Ok None <-> forall l, jget "enum" node = JList l -> existsb (py_eq v) l = true.
Proof.
  unfold check_enum. destruct (jget "enum" node); try (by split; intros; simplify_eq). destruct (existsb _ l) eqn:Et; split; try done.
  - by intros _ t [= <-].
  - intros H. specialize (H l eq_refl). congruence.
Qed.

Lemma check_minimum_ok node v path : check_minimum repr node v path = Ok None <-> at_least (jget "minimum" node) v.
Proof.
  unfold check_minimum, at_least. set (m := jget "minimum" node).
  assert (forall x, match num m with
    | Some y => match num_compare x y with Lt => invalid (path +:+ " must be >= " +:+ py_str repr m) path | _ => Ok None end
    | None => Err (PyError "TypeError" "'<' not supported")
    end = Ok None <-> exists y, num m = Some y /\ num_compare x y <> Lt) as Hx.
  { intros x. destruct (num m) as [y|]; [|split; [done|by intros (? & ? & _)]]. destruct (num_compare x y) eqn:Ec; split; try done.
    - intros _. exists y. by rewrite Ec.
    - intros (? & [= <-] & ?). congruence.
    - intros _. exists y. by rewrite Ec. }
  destruct v; try (by destruct m); simpl num; destruct m eqn:Em; try done; apply Hx.
Qed.

Lemma check_required_ok required fields path :
  check_required repr required fields path = Ok None <-> forall r, r ∈ required -> exists f, r = JStr f /\ is_Some (od_get f fields).
Proof.
  induction required as [|r required IH]; simpl; [by split; [intros _ r ?%not_elem_of_nil|]|].
  assert (forall P, (forall x, x ∈ r :: required -> P x) <-> P r /\ forall x, x ∈ required -> P x) as Hc.
  { intros P. split; [intros H; split; [|intros]; apply H; set_solver|intros [? ?] x [->|]%elem_of_cons; auto]. }
  rewrite Hc, <- IH. destruct r as [| | | |f| |]; try (split; [done|intros [(? & ? & _) _]; done]).
  unfold od_mem. destruct (od_get f fields) as [x|] eqn:Ef; simpl.
  - split; [|by intros [_ ?]]. intros H. split; [|done]. exists f. by rewrite Ef.
  - split; [done|]. intros [(f' & [= <-] & [? ?]) _]. congruence.
Qed.

Lemma check_additional_ok node fields path :
  check_additional node fields path = Ok None <->
  (closed node -> forall properties, default (JObj []) (od_get "properties" node) = JObj properties ->
     forall k, k ∈ od_keys fields -> k ∈ od_keys properties).
Proof.
  unfold check_additional, closed. destruct (od_get "additionalProperties" node) as [[|[]| | | | |]|]; simpl; try by split.
  destruct (default (JObj []) (od_get "properties" node)) as [| | | | | |properties]; try by split.
  destruct (List.find _ fields) as [[k v]|] eqn:Ef; simpl; split; try done.
  - intros H. exfalso. apply List.find_some in Ef as [Hin Hk]. simpl in Hk. apply negb_true_iff in Hk. unfold od_mem in Hk.
    destruct (od_get k properties) eqn:Eg; [done|]. apply od_get_None in Eg. apply Eg, (H eq_refl properties eq_refl).
    apply list_elem_of_In, in_map_iff. by exists (k, v).
  - intros _ _ ps [= <-] k Hk. apply list_elem_of_In, in_map_iff in Hk as ((k' & v) & <- & Hin).
    pose proof (List.find_none _ _ Ef _ Hin) as Hn. apply negb_false_iff in Hn. apply od_get_is_Some. unfold od_mem in Hn. simpl in *.
    destruct (od_get k' properties); [by eexists|done].
Qed.

(** A validator that means [P] on every path *)
Definition means (f : option validator) (P : json -> Prop) : Prop :=
  match f with Some validate => forall v path, validate v path = Ok None <-> P v | None => forall v, P v end.

Lemma check_properties_ok (children : odict json) (compile : json -> option validator) (P : json -> json -> Prop) fields path :
  (forall k c, (k, c) ∈ children -> means (compile c) (P c)) ->
  check_properties (map (fun kv => (kv.1, compile kv.2)) children) fields path = Ok None <->
  forall k c x, (k, c) ∈ children -> od_get k fields = Some x -> P c x.
Proof.
  induction children as [|[k c] children IH]; intros Hc; simpl; [by split; [intros _ ? ? ? ?%not_elem_of_nil|]|].
  rewrite orelse_ok, IH by (intros; eapply Hc; by right).
  assert (means (compile c) (P c)) as Hm by (eapply Hc; by left). split.
  - intros [H1 H2] k' c' x [[= -> ->]|Hin]%elem_of_cons Hx; [|by eapply H2]. rewrite Hx in H1.
    destruct (compile c); [by eapply Hm|apply Hm].
  - intros H. split; [|intros k' c' x Hin; apply H; by right]. destruct (od_get k fields) as [x|] eqn:Ex; [|done].
    destruct (compile c); [|done]. apply Hm. apply (H k); [by left|done].
Qed.

Lemma check_items_ok validate (P : json -> Prop) idx l path :
  (forall v path, validate v path = Ok None <-> P v) -> check_items validate idx l path = Ok None <-> forall x, x ∈ l -> P x.
Proof.
  intros Hv. revert idx. induction l as [|x l IH]; intros idx; simpl; [by split; [intros _ ? ?%not_elem_of_nil|]|].
  rewrite orelse_ok, Hv, IH. split; [intros [? ?] y [->|]%elem_of_cons; auto|].
  intros H. split; [|intros]; apply H; set_solver.
Qed.

Definition accepted_by (node : json) (v : json) : Prop := match node with JObj d => accepts d v | _ => True end.
Definition correct (node : json) : Prop := means (_validate repr node) (accepted_by node).

Lemma od_get_map_snd {A B} (g : A -> B) k (d : odict A) : od_get k (map (fun kv => (kv.1, g kv.2)) d) = g <$> od_get k d.
Proof. induction d as [|[k' v] d IH]; simpl; [done|]. by case_decide. Qed.

(** What the compiled parts of a node decide *)
Lemma nested_ok d fields path : Forall (fun kv => correct kv.2 /\ parts correct kv.2) d ->
  check_properties (default [] (od_get "properties"
    (map (fun kv => (kv.1, match kv.2 with JObj children => map (fun c => (c.1, _validate repr c.2)) children | _ => [] end)) d)))
    fields path = Ok None <->
  forall k c x, (k, JObj c) ∈ node_children d -> od_get k fields = Some x -> accepts c x.
Proof.
  intros Hd. rewrite Forall_forall in Hd.
  rewrite (od_get_map_snd (fun v => match v with JObj children => map (fun c => (c.1, _validate repr c.2)) children | _ => [] end)).
  unfold node_children, jget. destruct (od_get "properties" d) as [p|] eqn:Ep; simpl; [|by split; [intros _ ? ? ? ?%not_elem_of_nil|]].
  apply od_get_elem, Hd in Ep as [_ Hp]. simpl in Hp.
  destruct p as [| | | | | |children]; try (by split; [intros _ ? ? ? ?%not_elem_of_nil|]). cbn [as_dict parts] in *.
  rewrite Forall_forall in Hp. rewrite (check_properties_ok children (_validate repr) accepted_by).
  - split; [intros H k c x Hin; exact (H k (JObj c) x Hin)|].
    intros H k c x Hin Hx. destruct c as [| | | | | |c]; try exact I. exact (H k c x Hin Hx).
  - intros k c Hin. exact (Hp _ Hin).
Qed.

Lemma check_items_means f (P : json -> Prop) l path : means f P ->
  match f with Some validate => check_items validate 0 l path | None => Ok None end = Ok None <-> forall x, x ∈ l -> P x.
Proof. destruct f as [validate|]; intros Hf; [by apply check_items_ok|]. split; [intros _ x _; apply Hf|done]. Qed.

Lemma items_ok d l path : Forall (fun kv => correct kv.2 /\ parts correct kv.2) d ->
  match mjoin (od_get "items" (map (fun kv => (kv.1, _validate repr kv.2)) d)) with
  | Some validate => check_items validate 0 l path
  | None => Ok None
  end = Ok None <-> forall c x, jget "items" d = JObj c -> x ∈ l -> accepts c x.
Proof.
  intros Hd. rewrite Forall_forall in Hd. rewrite (od_get_map_snd (_validate repr)). unfold jget.
  destruct (od_get "items" d) as [i|] eqn:Ei; [|done]. apply od_get_elem, Hd in Ei as [Hi _].
  cbn [snd fmap option_fmap option_map mjoin option_join default] in Hi |- *.
  etransitivity; [exact (check_items_means _ _ l path Hi)|].
  unfold id. split; [intros H c x Hc; rewrite Hc in H; exact (H x)|]. intros H x Hx. destruct i as [| | | | | |c]; try exact I. exact (H c x eq_refl Hx).
Qed.

Lemma accepts_iff d v :
  accepts d v <->
  (forall t, jget "type" d = JStr t -> _type_ok v t = true) /\
  (forall l, jget "enum" d = JList l -> existsb (py_eq v) l = true) /\
  at_least (jget "minimum" d) v /\
  (forall fields, v = JObj fields ->
     (forall r, r ∈ node_required d -> exists f, r = JStr f /\ is_Some (od_get f fields)) /\
     (closed d -> forall properties, default (JObj []) (od_get "properties" d) = JObj properties ->
        forall k, k ∈ od_keys fields -> k ∈ od_keys properties)) /\
  (forall fields k child x, v = JObj fields -> (k, JObj child) ∈ node_children d -> od_get k fields = Some x -> accepts child x) /\
  (forall l child x, v = JList l -> jget "items" d = JObj child -> x ∈ l -> accepts child x).
Proof. split; [by intros []; split_and!|]. intros (? & ? & ? & ? & ? & ?). by constructor. Qed.

Lemma correct_node d : Forall (fun kv => correct kv.2 /\ parts correct kv.2) d -> correct (JObj d).
Proof.
  intros Hd v path. unfold check_node, accepted_by.
  rewrite accepts_iff, !orelse_ok, check_type_ok, check_enum_ok, check_minimum_ok.
  apply and_iff_compat_l, and_iff_compat_l, and_iff_compat_l. destruct v as [| | | | |l|fields]; try (split; [intros _; split_and!; intros; discriminate|reflexivity]).
  - rewrite (items_ok d l path Hd). split; [intros H; split_and!; [intros; discriminate..|intros l' c x [= <-]; exact (H c x)]|].
    intros (_ & _ & H) c x. exact (H l c x eq_refl).
  - rewrite !orelse_ok, check_additional_ok, nested_ok by done.
    assert (match default (JList []) (od_get "required" d) with JList required => check_required repr required fields path | _ => Ok None end
      = Ok None <-> forall r, r ∈ node_required d -> exists f, r = JStr f /\ is_Some (od_get f fields)) as ->.
    { unfold node_required. destruct (default _ _); try (by split; [intros _ ? ?%not_elem_of_nil|]). apply check_required_ok. }
    split.
    + intros (H1 & H2 & H3). split_and!; [intros ? [= <-]; exact (conj H1 H2)|intros ? k c x [= <-]; exact (H3 k c x)|intros; discriminate].
    + intros (H1 & H2 & _). destruct (H1 fields eq_refl) as [Hr Hc]. split_and!; [exact Hr|exact Hc|]. intros k c x.
      exact (H2 fields k c x eq_refl).
Qed.

Lemma validate_correct node : correct node.
Proof.
  enough (correct node /\ parts correct node) as [? _] by done.
  induction node as [v IH] using json_parts_ind.
  assert (forall P, Forall (fun n => correct n /\ parts correct n) P -> Forall correct P) as Hl
    by (intros P H; eapply Forall_impl; [exact H|by intros ? [? _]]).
  destruct v as [| | | | |l|d]; [split; exact (fun _ => I) || exact I..| |].
  - split; [exact (fun _ => I)|]. exact (Hl l IH).
  - split; [exact (correct_node d IH)|]. eapply Forall_impl; [exact IH|]. intros kv [H _]. exact H.
Qed.

(** C8: The built-in validation decides the schema: it lets arguments pass if and only
    if they are of the declared type, among the listed values, not below the minimum,
    have every required field and, in a closed object, no other than the declared
    ones, and their fields and items satisfy the schemas of properties and items. *)
Theorem builtin_validation_decides arguments schema :
  _validate_args_builtin repr arguments schema = Ok None <-> accepts schema arguments.
Proof. apply (validate_correct (JObj schema)). Qed.
End Validation.
