(* ===== verification/AgentErrors.v ===== *)
(** * The exceptions of the pure parts of an agent run

    Reading schemas, arguments, answers and results raises ordinary exceptions only:
    neither a cancellation nor the exit of a generator comes out of them. *)
From S2P Require Import Prelude.
From S2P Require Import Operations.
From S2P Require Import Protocol.
From S2P Require Import OperationContext.
From S2P Require Import AgentTools.
From S2P Require Import Agent.
Open Scope Z_scope.

(** [except Exception] catches it. *)
Definition ordinary (e : exn) : Prop := match e with PyError _ _ => True | _ => False end.
Definition orderly {A} (r : result exn A) : Prop := match r with Ok _ => True | Err e => ordinary e end.

Lemma orderly_err {A} (r : result exn A) e : orderly r -> r = Err e -> ordinary e.
Proof. by intros H ->. Qed.

Create HintDb orderly.
Ltac ordered_step :=
  match goal with
  | |- orderly (Ok _) => exact I
  | |- orderly (Err (PyError _ _)) => exact I
  | |- orderly (Err attribute_error) => exact I
  | |- orderly (Err type_error) => exact I
  | H : ?r = Err ?e |- orderly (Err ?e) => apply (orderly_err r e); [clear H|exact H]
  | |- orderly (match ?x with _ => _ end) => destruct x eqn:?
  | |- _ => solve [eauto 2 with orderly nocore]
  end.
Ltac ordered := repeat ordered_step.

Section Orderly.
Variables (repr : json -> string) (dumps dumps_sorted : json -> string)
  (json_loads literal_eval : string -> option json) (py_float : string -> option json)
  (jsonschema : option (odict json -> json -> result exn (option (string * string)))).
Variables (tool_call_blocks json_blocks : string -> list string)
  (without_tool_call_blocks without_json_blocks : string -> string).

(** ** Arguments *)
Lemma orderly_iter_items v : orderly (iter_items v).
Proof. unfold iter_items. ordered. Qed.
#[local] Hint Resolve orderly_iter_items : orderly.

Lemma orderly_required_names schema : orderly (required_names repr schema).
Proof. unfold required_names. ordered. Qed.
#[local] Hint Resolve orderly_required_names : orderly.

Lemma orderly_schema op : orderly (build_prompt_input_schema repr op).
Proof. unfold build_prompt_input_schema. ordered. Qed.
#[local] Hint Resolve orderly_schema : orderly.

Lemma orderly_strip_optional_nulls : forall v schema, orderly (_strip_optional_nulls repr v schema).
Proof.
  induction v as [v IH] using json_parts_ind. intros schema. destruct v as [| | | | | |args]; try exact I. simpl.
  destruct (jget _ schema) as [| | | | | |properties]; try exact I.
  destruct (required_names repr schema) as [required|e] eqn:Er; [|by apply (orderly_err _ _ (orderly_required_names schema))].
  match goal with |- orderly (match ?g with _ => _ end) => assert (orderly g) as Hg; [|by destruct g] end.
  induction IH as [|[key value] args Hv _ Hargs]; [exact I|]. simpl in Hv.
  match type of Hargs with orderly ?g => destruct g end; destruct value; try done;
    destruct (od_get key properties) as [[]|]; try done;
    match goal with |- context [_strip_optional_nulls repr ?v ?c] => specialize (Hv c); by destruct (_strip_optional_nulls repr v c) end.
Qed.
#[local] Hint Resolve orderly_strip_optional_nulls : orderly.

Lemma orderly_normalize_args op args : orderly (_normalize_args repr json_loads literal_eval op args).
Proof. unfold _normalize_args. ordered. Qed.

(** ** Validation *)
Lemma orderly_orelse a b : orderly a -> orderly b -> orderly (orelse a b).
Proof. destruct a as [[]|]; done. Qed.

Definition tidy (f : validator) : Prop := forall v path, orderly (f v path).
Definition tidy_entry (kv : string * option validator) : Prop := match kv.2 with Some f => tidy f | None => True end.

Lemma orderly_check_required required fields path : orderly (check_required repr required fields path).
Proof. induction required as [|field required IH]; simpl; [done|]. destruct field; simpl; try done. by destruct (od_mem _ _). Qed.

Lemma orderly_check_properties children fields path :
  Forall tidy_entry children -> orderly (check_properties children fields path).
Proof.
  induction 1 as [|[key child] children Hc _ IH]; [done|]. simpl. apply orderly_orelse; [|done].
  destruct (od_get key fields), child; done || apply Hc.
Qed.

Lemma orderly_check_items validate idx l path : tidy validate -> orderly (check_items validate idx l path).
Proof. intros Hv. revert idx. induction l; intros idx; simpl; [done|]. by apply orderly_orelse. Qed.

Lemma od_get_entry {A} (P : string * A -> Prop) k v (d : odict A) : Forall P d -> od_get k d = Some v -> exists k', P (k', v).
Proof.
  intros Hd H%od_get_elem. rewrite Forall_forall in Hd. by eauto.
Qed.

Lemma tidy_check_node node own nested :
  Forall tidy_entry own -> Forall (fun kv => Forall tidy_entry kv.2) nested -> tidy (check_node repr node own nested).
Proof.
  intros Ho Hn v path. unfold check_node. apply orderly_orelse; [unfold check_type, invalid; ordered|].
  apply orderly_orelse; [unfold check_enum, invalid; ordered|].
  apply orderly_orelse; [unfold check_minimum, invalid; ordered|]. destruct v as [| | | | |l|fields]; try done.
  - destruct (od_get "items" own) as [[f|]|] eqn:Ei; try done. simpl. apply orderly_check_items.
    by apply (od_get_entry _ _ _ _ Ho) in Ei as [? Hf].
  - apply orderly_orelse; [destruct (default _ _); try done; apply orderly_check_required|].
    apply orderly_orelse; [unfold check_additional, invalid; ordered|]. apply orderly_check_properties.
    destruct (od_get "properties" nested) as [l|] eqn:Ep; [|constructor]. by apply (od_get_entry _ _ _ _ Hn) in Ep as [? Hf].
Qed.

Definition tidy_node (node : json) : Prop := tidy_entry ("", _validate repr node).

Lemma tidy_children v : parts (fun c => tidy_node c) v ->
  match v with JObj d => Forall tidy_entry (map (fun kv => (kv.1, _validate repr kv.2)) d) | _ => True end.
Proof. destruct v; try done. simpl. rewrite Forall_map. intros H. by eapply Forall_impl. Qed.

Lemma tidy_validate node : tidy_node node.
Proof.
  enough (tidy_node node /\ parts (fun c => tidy_node c) node) as [? _] by done.
  induction node as [v IH] using json_parts_ind.
  assert (parts (fun c => tidy_node c) v) as Hp by (destruct v; try done; (eapply Forall_impl; [exact IH|by intros ? [? _]])).
  split; [|done]. destruct v as [| | | | | |d]; try done. apply (tidy_check_node d); [by apply tidy_children in Hp|].
  rewrite Forall_map. eapply Forall_impl; [exact IH|]. intros [k v] [_ Hc]. simpl in *.
  destruct v; [constructor..|]. by apply tidy_children in Hc.
Qed.

(** What jsonschema raises is an ordinary exception. *)
Hypothesis jsonschema_orderly : forall validate schema args, jsonschema = Some validate -> orderly (validate schema args).

Lemma orderly_validate_args op args : orderly (_validate_args repr py_float jsonschema op args).
Proof.
  unfold _validate_args, invalid. destruct (build_prompt_input_schema repr op) as [schema|e] eqn:Es.
  2:{ apply (orderly_err _ _ (orderly_schema op) Es). }
  destruct jsonschema as [validate|] eqn:Ej.
  - pose proof (jsonschema_orderly validate schema (_coerce_args py_float args schema) eq_refl) as Hv.
    destruct (validate _ _) as [[[]|]|]; done.
  - unfold _validate_args_builtin. pose proof (tidy_validate (JObj schema)) as Ht. apply Ht.
Qed.

(** ** Answers *)
Lemma orderly_read_block data acc : orderly (read_block dumps_sorted data acc).
Proof. unfold read_block. ordered. Qed.

Lemma orderly_read_blocks blocks acc : orderly (read_blocks json_loads dumps_sorted blocks acc).
Proof.
  revert acc. induction blocks as [|b blocks IH]; intros acc; simpl; [done|].
  pose proof (orderly_read_block (json_loads b) acc) as Hb. destruct (read_block _ _ _); [apply IH|done].
Qed.

Lemma orderly_parse_llm_response strict content :
  orderly (parse_llm_response json_loads dumps_sorted tool_call_blocks json_blocks without_tool_call_blocks without_json_blocks
             strict content).
Proof.
  unfold parse_llm_response. pose proof orderly_read_blocks as Hb.
  ordered; eapply orderly_err; eauto.
Qed.

Lemma orderly_native_message r : orderly (native_message r).
Proof. unfold native_message, py_get. ordered. Qed.

Lemma orderly_native_call item : orderly (native_call repr json_loads item).
Proof. unfold native_call. ordered. Qed.

Lemma orderly_read_native items calls seen : orderly (fst (read_native repr json_loads dumps_sorted items calls seen)).
Proof.
  revert calls seen. induction items as [|item items IH]; intros calls seen; simpl; [done|].
  pose proof (orderly_native_call item) as Hn. destruct (native_call _ _ _) as [[[name args]|]|]; simpl; try done.
  destruct (bool_decide _); done.
Qed.

Lemma orderly_parse_native response seen : orderly (fst (parse_native_tool_calls repr json_loads dumps_sorted response seen)).
Proof.
  unfold parse_native_tool_calls. destruct response as [| | | | | |r]; try done.
  pose proof (orderly_native_message r) as Hm. destruct (native_message r) as [[message|]|]; try done.
  destruct message; try done. simpl. destruct (truthy _); [|done].
  match goal with |- context [iter_items ?v] => pose proof (orderly_iter_items v) as Hi; destruct (iter_items v) as [items|]; [|done] end.
  simpl. pose proof (orderly_read_native items [] seen) as Hr. by destruct (read_native _ _ _ items [] seen) as [[[]|] ?].
Qed.

Lemma orderly_normalize_response response : orderly (normalize_response repr response).
Proof. unfold normalize_response, dict_of. ordered. Qed.

Lemma orderly_raw_tool_calls raw : orderly (raw_tool_calls raw).
Proof.
  unfold raw_tool_calls. destruct raw as [| | | | | |r]; try exact I. pose proof (orderly_native_message r) as Hm.
  destruct (native_message r); [|done]. unfold dict_of. ordered.
Qed.

(** ** Results *)
Lemma orderly_dict_of v : orderly (dict_of v).
Proof. by destruct v. Qed.
#[local] Hint Resolve orderly_dict_of : orderly.

Lemma orderly_project_output name d b : orderly (project_output repr name d b).
Proof.
  unfold project_output, _compact_collection_info_for_context, _compact_template_search_for_context. ordered.
Qed.

Lemma orderly_format_result result slug b evidence : orderly (format_result_for_context repr dumps result slug b evidence).
Proof.
  unfold format_result_for_context. destruct (tr_success result); [|done]. destruct (json_or _ _) as [| | | | | |d]; try done.
  match goal with |- context [project_output _ ?n d b] => pose proof (orderly_project_output n d b) as Hp end.
  by destruct (project_output _ _ d b).
Qed.

Lemma orderly_observations outs : orderly (observations repr dumps outs).
Proof.
  assert (forall o, orderly (observation repr dumps o)) as Ho by (intros o; unfold observation; ordered).
  induction outs as [|o outs IH]; simpl; [done|]. specialize (Ho o). destruct (observation _ _ o), (observations _ _ outs); done.
Qed.

Lemma orderly_format_observation_text outs : orderly (format_observation_text repr dumps outs).
Proof. unfold format_observation_text. pose proof (orderly_observations outs). by destruct (observations _ _ outs). Qed.

Lemma orderly_results_messages native raw_response raw results :
  orderly (results_messages repr dumps native raw_response raw results).
Proof.
  unfold results_messages. destruct native, raw as [response|]; try exact I.
  pose proof (orderly_raw_tool_calls response) as Hr. destruct (raw_tool_calls response) as [calls|]; [|done].
  pose proof (orderly_iter_items calls) as Hi. by destruct (iter_items calls).
Qed.

Lemma orderly_max_steps platform : orderly (max_steps_setting platform).
Proof. unfold max_steps_setting, py_int. ordered. Qed.
End Orderly.
