(* ===== verification/AgentProofs.v ===== *)
(** * What the steps of an agent run do to its state

    [Walk] goes once through the runtime of AgentTools.v and Agent.v, for every
    relation that its elementary updates satisfy; the invariants of AgentProperties.v
    are instances. *)
From S2P Require Import Prelude.
From S2P Require Import Confirmation.
From S2P Require Import ToolLedger.
From S2P Require Import Operations.
From S2P Require Import Protocol.
From S2P Require Import OperationContext.
From S2P Require Import AgentTools.
From S2P Require Import Agent.
Open Scope Z_scope.

(** Actions that neither end a run, ask the model, present a token, execute nor report
    a result, nor wait before a repetition. *)
Definition plain (a : Action) : Prop :=
  match a with
  | AYield e => match e with
                | EvLlmRequest _ _ _ | EvToolResult _ | EvConfirmationRequired _ | EvFinal _ _ | EvError _
                | EvProtocolRetry _ _ _ (Some _) => False
                | _ => True
                end
  | AJournal _ => True
  | AVerify _ _ _ | AExecute _ _ | AFinish _ _ => False
  end.

Lemma preserves_of {S A} (R : relation S) (f : S -> A * S) : (forall s, R s (f s).2) -> preserves R (fun s => (Ok (f s).1 : result exn A, (f s).2)).
Proof. intros Hf s r s' [= <- <-]. apply Hf. Qed.

(** ** Hoare triples: what holds after a value, and after an exception *)
Definition triple {E S A} (P : S -> Prop) (m : py E S A) (Q : A -> S -> Prop) (X : E -> S -> Prop) : Prop :=
  forall s r s', P s -> m s = (r, s') -> match r with Ok a => Q a s' | Err e => X e s' end.

(** The same after every exception *)
Definition spec {E S A} (P : S -> Prop) (m : py E S A) (Q : A -> S -> Prop) (X : S -> Prop) : Prop :=
  triple P m Q (fun _ => X).

Lemma triple_bind {E S A B} P Q Q' X (m : py E S A) (k : A -> py E S B) :
  triple P m Q X -> (forall a, triple (Q a) (k a) Q' X) -> triple P (m ≫= k) Q' X.
Proof.
  intros Hm Hk s r s' HP H. apply bind_either in H as [(a & s1 & H1 & H)|(e & H1 & ->)].
  - eapply Hk; [|exact H]. by apply (Hm _ _ _ HP H1).
  - by apply (Hm _ _ _ HP H1).
Qed.

Lemma triple_ret {E S A} (P : S -> Prop) (X : E -> S -> Prop) (Q : A -> S -> Prop) a :
  (forall s, P s -> Q a s) -> triple P (mret a : py E S A) Q X.
Proof. intros HQ s r s' HP H. unfold mret, py_ret in H. simplify_eq. by apply HQ. Qed.

Lemma triple_weaken {E S A} (P P' : S -> Prop) (Q Q' : A -> S -> Prop) (X X' : E -> S -> Prop) (m : py E S A) :
  triple P m Q X -> (forall s, P' s -> P s) -> (forall a s, Q a s -> Q' a s) -> (forall e s, X e s -> X' e s) ->
  triple P' m Q' X'.
Proof. intros Hm HP HQ HX s r s' H1 H2. specialize (Hm _ _ _ (HP _ H1) H2). destruct r; [by apply HQ|by apply HX]. Qed.

Lemma triple_try {E S A} P (X Y : E -> S -> Prop) (Q : A -> S -> Prop) (m : py E S A) h :
  triple P m Q X -> (forall e, triple (X e) (h e) Q Y) -> triple P (try_except m h) Q Y.
Proof.
  intros Hm Hh s r s' HP H. unfold try_except in H. destruct (m s) as [[a|e] s1] eqn:E1; specialize (Hm _ _ _ HP E1).
  - by injection H as <- <-.
  - by eapply (Hh e); [exact Hm|].
Qed.

Lemma spec_bind {E S A B} P Q Q' X (m : py E S A) (k : A -> py E S B) :
  spec P m Q X -> (forall a, spec (Q a) (k a) Q' X) -> spec P (m ≫= k) Q' X.
Proof. apply triple_bind. Qed.

Lemma spec_ret {E S A} (P X : S -> Prop) (Q : A -> S -> Prop) a : (forall s, P s -> Q a s) -> spec P (mret a : py E S A) Q X.
Proof. apply triple_ret. Qed.

Lemma spec_weaken {E S A} (P P' : S -> Prop) (Q Q' : A -> S -> Prop) (X : S -> Prop) (m : py E S A) :
  spec P m Q X -> (forall s, P' s -> P s) -> (forall a s, Q a s -> Q' a s) -> spec P' m Q' X.
Proof. intros ? ? ?. by eapply triple_weaken. Qed.

Lemma spec_try {E S A} (P X Y : S -> Prop) (Q : A -> S -> Prop) (m : py E S A) h :
  spec P m Q X -> (forall e, spec X (h e) Q Y) -> spec P (try_except m h) Q Y.
Proof. apply triple_try. Qed.

Lemma spec_False {E S A} (Q : A -> S -> Prop) X (m : py E S A) : spec (fun _ => False) m Q X.
Proof. by intros s r s' []. Qed.

(** Invariants as relations *)
Definition carries {S} (I : S -> Prop) : relation S := fun w w' => I w -> I w'.
#[export] Instance carries_preorder {S} (I : S -> Prop) : PreOrder (carries I).
Proof. split; unfold carries; [by intros ?|intros ? ? ?; auto]. Qed.

Lemma spec_carries {E S A} (I X : S -> Prop) (m : py E S A) :
  preserves (carries I) m -> (forall s, I s -> X s) -> spec I m (fun _ => I) X.
Proof. intros Hm HX s r s' HI H. specialize (Hm _ _ _ H HI). destruct r; [done|by apply HX]. Qed.

Section Walk.
Context `{J : Jwt} {R E : Type} `{N : NonceStore R} `{V : AgentEnv E}.
Variables (repr : json -> string) (stable_json : json -> string) (sha256 : string -> string)
  (canonical_json : json -> string) (dumps dumps_sorted indented : json -> string)
  (json_loads literal_eval : string -> option json) (py_float : string -> option json)
  (jsonschema : option (odict json -> json -> result exn (option (string * string)))).
Variables (tool_call_blocks json_blocks : string -> list string)
  (without_tool_call_blocks without_json_blocks : string -> string).
Variables (secret : string) (cx : Context) (rq : AgentRequest).
#[local] Abbreviation world := (World R E).
#[local] Abbreviation yield_ := (yield_ stable_json sha256 cx).

(** The loop state may move as long as the calls used stay and the retries grow. *)
Definition loop_moves (s s' : LoopState) : Prop :=
  ls_tool_calls_total s' = ls_tool_calls_total s /\ ls_retry_count s <= ls_retry_count s'.

Record Movable (Rel : relation world) : Prop := {
  mv_env e w : Rel w (set_env e w);
  mv_conf c w : Rel w (set_conf c w);
  mv_turn l n w : Rel w (set_turn l n w);
  mv_loop l w : loop_moves (w_loop w) l -> Rel w (set_loop l w);
  mv_session l s w : Rel w (set_session l s w);
  mv_plain a w : plain a -> Rel w (record a w)
}.

Context (Rel : relation world) `{!PreOrder Rel} (M : Movable Rel).
#[local] Abbreviation moves m := (preserves Rel m).

Lemma moves_ask {A} (f : E -> A * E) : moves (ask f).
Proof. intros w r w' [= <- <-]. by apply mv_env. Qed.

Lemma moves_gets {A} (f : world -> A) : moves (gets f).
Proof. by apply (preserves_keep _). Qed.

Lemma moves_log a : plain a -> moves (log a).
Proof. intros Ha w r w' [= <- <-]. by apply mv_plain. Qed.

Lemma moves_update f : (forall s, loop_moves s (f s)) -> moves (update_loop f).
Proof. intros Hf w r w' [= <- <-]. apply mv_loop; [done|]. apply Hf. Qed.

Lemma moves_observe e : moves (observe stable_json sha256 cx e).
Proof.
  destruct e; try (by apply (preserves_keep _));
    (apply (preserves_bind _); [apply moves_ask|intros t; intros ? ? ? [= <- <-]; by apply mv_turn]).
Qed.

Lemma moves_yield_at e : moves (log (AYield e)) -> moves (yield_ e).
Proof. intros He. apply (preserves_bind _); [done|intros _; apply moves_observe]. Qed.

Lemma moves_yield e : plain (AYield e) -> moves (yield_ e).
Proof. intros He. by apply moves_yield_at, moves_log. Qed.

Lemma moves_session l s : moves (modify (set_session l s) : py exn world unit).
Proof. intros ? ? ? [= <- <-]. by apply mv_session. Qed.
End Walk.

(** Splits a computation into its parts; the leaves that are left are the events
    that [plain] excludes and the calls of other functions. *)
Ltac solve_loop_moves :=
  let s := fresh in intros s; unfold loop_moves; simpl; try destruct (ls_native s); simpl; split; (done || lia).
Ltac walk_step :=
  match goal with
  | |- preserves _ (mbind _ _) => apply (preserves_bind _); [|intros ?]
  | |- preserves _ (try_except _ _) => apply (preserves_try _); [|intros ?]
  | |- preserves _ (mret _) => by apply (preserves_keep _)
  | |- preserves _ (raise _) => by apply (preserves_keep _)
  | |- preserves _ get_state => by apply (preserves_keep _)
  | |- preserves _ (gets _) => by apply (preserves_keep _)
  | |- preserves _ (in_loop _) => by apply (preserves_keep _)
  | |- preserves _ (of_result _) => by apply (preserves_keep _)
  | |- preserves _ (now) => by apply moves_ask
  | |- preserves _ (uuid4) => by apply moves_ask
  | |- preserves _ (ask _) => by apply moves_ask
  | |- preserves _ (modify (set_session _ _)) => by apply moves_session
  | |- preserves _ (update_loop _) => apply moves_update; [done|solve_loop_moves]
  | |- preserves _ (log _) => apply moves_log; [done|exact I]
  | |- preserves _ (yield_ _ _ _ _) => apply moves_yield; [done..|exact I]
  | |- preserves _ (match ?x with _ => _ end) => destruct x
  end.
Ltac walk := repeat walk_step.

Section Runtime.
Context `{J : Jwt} {R E : Type} `{N : NonceStore R} `{V : AgentEnv E}.
Variables (repr : json -> string) (stable_json : json -> string) (sha256 : string -> string)
  (canonical_json : json -> string) (dumps dumps_sorted indented : json -> string)
  (json_loads literal_eval : string -> option json) (py_float : string -> option json)
  (jsonschema : option (odict json -> json -> result exn (option (string * string)))).
Variables (tool_call_blocks json_blocks : string -> list string)
  (without_tool_call_blocks without_json_blocks : string -> string).
Variables (secret : string) (cx : Context) (rq : AgentRequest).
#[local] Abbreviation world := (World R E).
#[local] Abbreviation yield_ := (yield_ stable_json sha256 cx).
#[local] Abbreviation call A := (py exn world A).

Context (Rel : relation world) `{!PreOrder Rel} (M : Movable Rel).
#[local] Abbreviation moves m := (preserves Rel m).

Lemma moves_emit name : moves (_emit name).
Proof. unfold _emit. walk. Qed.

Lemma moves_record_event s : moves (record_event s).
Proof. unfold record_event. walk; apply moves_emit. Qed.

Lemma moves_session_start b o child root : moves (session_start b o child root).
Proof. unfold session_start. walk. Qed.

Lemma moves_present_tokens tokens chat fp :
  (forall t t' token w, let v := verify secret t t' token (cx_user_id cx) chat fp true (w_conf w) in
     Rel w (record (AVerify token fp v.1) (set_conf v.2 w))) ->
  moves (present_tokens secret cx tokens chat fp).
Proof.
  intros Hv. induction tokens as [|t tokens IH]; simpl; [walk|]. destruct t; try apply IH. destruct (str_empty _); [apply IH|].
  do 2 (apply (preserves_bind _); [by walk|intros ?]).
  intros w r w' H. unfold mbind at 1, py_bind at 1 in H. unfold gets at 1 in H. specialize (Hv a a0 s w). simpl in Hv.
  destruct (verify _ _ _ _ _ _ _ _ _) as [b conf']. unfold mbind, py_bind, modify, log, modify in H. simpl in H, Hv.
  destruct b; [by injection H as <- <-|]. transitivity (record (AVerify s fp false) (set_conf conf' w)); [done|]. by eapply IH.
Qed.

Lemma moves_maybe_reuse slug args : moves (maybe_reuse stable_json sha256 cx slug args).
Proof. unfold maybe_reuse. walk. Qed.

Lemma moves_gate o : moves (_validate_collection_interaction o).
Proof. unfold _validate_collection_interaction. walk. Qed.

Lemma moves_budget_snapshot r s : moves (budget_snapshot stable_json sha256 cx r s).
Proof. unfold budget_snapshot. walk. Qed.

Lemma moves_announce_run b o child root : moves (announce_run stable_json sha256 cx rq b o child root).
Proof. unfold announce_run. walk; first [apply moves_session_start|apply moves_record_event]. Qed.

Lemma moves_from_dict d : moves (from_dict repr d).
Proof. unfold from_dict. walk. Qed.

Lemma moves_read_calls l : moves (read_calls repr l).
Proof. induction l as [|d l IH]; simpl; walk; [apply moves_from_dict|done]. Qed.

Lemma moves_parse_answer raw_response raw :
  moves (parse_answer repr dumps_sorted json_loads tool_call_blocks json_blocks without_tool_call_blocks without_json_blocks
           rq raw_response raw).
Proof. unfold parse_answer. walk. Qed.

Lemma moves_step_ids : moves step_ids.
Proof. unfold step_ids. walk. Qed.

Lemma moves_protocol_retry step reason ids : moves (protocol_retry stable_json sha256 cx step reason ids None).
Proof. unfold protocol_retry. walk. apply moves_record_event. Qed.

Lemma moves_llm_response ids r s : moves (llm_response stable_json sha256 cx ids r s).
Proof. unfold llm_response. walk. Qed.

Lemma moves_invalid_calls step ids raw invalid :
  moves (invalid_calls stable_json sha256 cx rq step ids raw invalid).
Proof. unfold invalid_calls. walk. apply moves_record_event. Qed.

Lemma moves_ask_model : moves (ask_model repr rq).
Proof.
  unfold ask_model. apply (preserves_bind _); [walk|intros w].
  destruct (if ls_native (w_loop w) then _ else _) as [|t l]; (apply (preserves_bind _); [walk|intros o]);
    destruct o; simpl; walk.
Qed.

Lemma moves_deltas l : moves (yield_deltas stable_json sha256 cx l).
Proof. induction l; simpl; walk. done. Qed.

Lemma moves_stream messages : moves (stream_answer stable_json sha256 cx messages).
Proof. unfold stream_answer. walk. apply moves_deltas. Qed.

(** *** Events that end a run, questions and repetitions *)
Definition ending (e : RuntimeEvent) : Prop :=
  match e with EvError _ | EvFinal _ _ | EvConfirmationRequired _ => True | _ => False end.

Record EndsRuns : Prop := {
  er_ending e w : ending e -> Rel w (record (AYield e) w);
  er_finish s e w : Rel w (record (AFinish s e) w)
}.

Lemma moves_ending (En : EndsRuns) e : ending e -> moves (yield_ e).
Proof. intros He. apply moves_yield_at; [done..|]. intros ? ? ? [= <- <-]. by apply er_ending. Qed.

Lemma moves_finish (En : EndsRuns) s e : moves (session_finish s e).
Proof.
  unfold session_finish. apply (preserves_bind _); [intros ? ? ? [= <- <-]; by apply er_finish|intros _].
  walk; apply moves_emit.
Qed.

Lemma moves_fail_run (En : EndsRuns) m c j f : moves (fail_run stable_json sha256 cx m c j f).
Proof.
  unfold fail_run. apply (preserves_bind _); [by apply moves_ending|intros _].
  apply (preserves_bind _); [apply (preserves_for_each _); intros; apply moves_record_event|intros _].
  apply (preserves_bind _); [by apply moves_finish|intros _]. walk.
Qed.

Section Answers.
Context (mv_ask_final : forall id m w, Rel w (record (AYield (EvLlmRequest PFINAL_ANSWER id m)) w)).

Lemma moves_synthesis : moves (synthesis repr stable_json sha256 dumps cx rq).
Proof.
  unfold synthesis. walk; [|apply moves_stream].
  apply moves_yield_at; [done..|]. intros ? ? ? [= <- <-]. apply mv_ask_final.
Qed.
End Answers.

(** One call and one failure, for relations that ignore what they report. *)
Lemma moves_yield_to_loop e : moves (yield_ e) -> moves (yield_to_loop stable_json sha256 cx e).
Proof. intros He. unfold yield_to_loop. walk. done. Qed.

Lemma moves_activate c result :
  (forall a o w, Rel w (set_collections (w_gate w) a o w)) -> moves (_activate_collection_tools repr rq c result).
Proof.
  intros Hc. unfold _activate_collection_tools. destruct (negb _); [walk|].
  destruct (_find_operation _ _ _ _) as [[o|] ?]; [|walk]. destruct (negb _); [walk|]. destruct (_ || _); [walk|].
  intros ? ? ? [= <- <-]. apply Hc.
Qed.

Lemma moves_single (En : EndsRuns) c id b used :
  (forall r w, Rel w (record (AYield (EvToolResult r)) w)) ->
  (forall a o w, Rel w (set_collections (w_gate w) a o w)) ->
  (forall t, moves (execute_operation repr stable_json sha256 canonical_json dumps json_loads literal_eval py_float jsonschema
                      secret cx c (ar_operations rq) t)) ->
  moves (_execute_single_operation_call repr stable_json sha256 canonical_json dumps json_loads literal_eval py_float
           jsonschema secret cx rq c id b used).
Proof.
  intros Hr Hc He. unfold _execute_single_operation_call, report_result.
  walk; first [by apply moves_yield_to_loop, moves_ending|apply moves_yield_to_loop, moves_yield; [done..|exact I]
              |apply moves_record_event|by apply moves_finish|by apply moves_activate|apply He
              |apply moves_yield_to_loop, moves_yield_at; [done..|]; intros ? ? ? [= <- <-]; apply Hr].
Qed.

Lemma moves_call_failed (En : EndsRuns) step ids m c r a :
  (forall d w, Rel w (record (AYield (EvProtocolRetry step "transport_error" (fst ids) d)) w)) ->
  moves (call_failed stable_json sha256 cx rq step ids m c r a).
Proof.
  intros Hd. unfold call_failed, protocol_retry.
  walk; first [apply moves_llm_response|by apply moves_ending|by apply moves_finish|apply moves_record_event
              |apply moves_yield_at; [done..|]; intros ? ? ? [= <- <-]; apply Hd].
Qed.

Section Whole.
Context (En : EndsRuns).
Context (mv_ask : forall id m w, Rel w (record (AYield (EvLlmRequest PFINAL_ANSWER id m)) w)).
Context (mv_decide : forall id m w, Rel w (record (AYield (EvLlmRequest PTOOL_DECISION id m)) w)).
Context (mv_total : forall n w, Rel w (set_loop (set_calls_total n (w_loop w)) w)).
Context (mv_failed : forall step ids m c r a, moves (call_failed stable_json sha256 cx rq step ids m c r a)).
Context (mv_call : forall c id b used,
  moves (_execute_single_operation_call repr stable_json sha256 canonical_json dumps json_loads literal_eval py_float
           jsonschema secret cx rq c id b used)).

Lemma moves_synthesize_answer : moves (_synthesize_answer repr stable_json sha256 dumps cx rq).
Proof.
  unfold _synthesize_answer. apply (preserves_bind _); [apply moves_synthesis; intros; apply mv_ask|intros a].
  by apply moves_ending.
Qed.

Lemma moves_handle_no_tool_calls parsed : moves (_handle_no_tool_calls repr stable_json sha256 dumps cx rq parsed).
Proof.
  unfold _handle_no_tool_calls. walk; first [by apply moves_ending|apply moves_synthesize_answer|apply moves_stream].
Qed.

Lemma moves_no_calls step ids n raw parsed : moves (no_calls repr stable_json sha256 dumps cx rq step ids n raw parsed).
Proof.
  unfold no_calls. walk; first [by apply moves_fail_run|apply moves_protocol_retry|apply moves_handle_no_tool_calls
                               |apply moves_record_event|by apply moves_finish].
Qed.

Lemma moves_run_calls id b cs ty :
  moves (run_calls repr stable_json sha256 canonical_json dumps json_loads literal_eval py_float jsonschema secret cx rq
           id b cs ty).
Proof.
  revert ty. induction cs as [|c cs IH]; intros ty; simpl; [walk|].
  apply (preserves_bind _); [walk|intros ls]. apply (preserves_bind _).
  - apply (preserves_try _); [|intros []; by apply (preserves_keep _)].
    apply (preserves_bind _); [apply mv_call|intros x]. walk.
  - intros [[used result]|]; [|walk].
    apply (preserves_bind _); [intros ? ? ? [= <- <-]; apply mv_total|intros _]. walk. apply IH.
Qed.

Lemma moves_finish_step n native raw_response raw l :
  moves (finish_step repr stable_json sha256 indented cx n native raw_response raw l).
Proof. unfold finish_step. walk. by apply moves_fail_run. Qed.

Lemma moves_with_calls step ids n raw_response raw cs :
  moves (with_calls repr stable_json sha256 canonical_json dumps indented json_loads literal_eval py_float jsonschema secret
           cx rq step ids n raw_response raw cs).
Proof.
  unfold with_calls. destruct (_ && _); [apply moves_invalid_calls|].
  apply (preserves_bind _); [walk|intros native]. apply (preserves_bind _); [apply moves_run_calls|intros [t|]; [|walk]].
  apply (preserves_bind _); [walk|intros _].
  destruct (ty_failures t) as [|[f code] l]; [apply moves_finish_step|].
  destruct (_ && _); [|apply moves_finish_step].
  walk; first [by apply moves_ending|apply moves_record_event|by apply moves_finish].
Qed.

Lemma moves_llm_turn step ids : moves (llm_turn repr stable_json sha256 cx rq step ids).
Proof.
  unfold llm_turn. apply (preserves_bind _); [walk|intros messages].
  apply (preserves_bind _); [apply moves_yield_at; [done..|]; intros ? ? ? [= <- <-]; apply mv_decide|intros _].
  apply (preserves_bind _); [apply moves_ask_model|intros answer].
  walk; first [apply moves_record_event|apply moves_llm_response|apply moves_protocol_retry|by apply moves_ending
              |by apply moves_finish|apply mv_failed].
Qed.

Lemma moves_step_body n step :
  moves (step_body repr stable_json sha256 canonical_json dumps dumps_sorted indented json_loads literal_eval py_float jsonschema
           tool_call_blocks json_blocks without_tool_call_blocks without_json_blocks secret cx rq n step).
Proof.
  unfold step_body. apply (preserves_bind _); [apply moves_step_ids|intros ids]. do 2 (apply (preserves_bind _); [walk|intros ?]).
  destruct (_ || _); [by apply moves_fail_run|].
  apply (preserves_bind _); [apply moves_record_event|intros _].
  apply (preserves_bind _); [apply moves_budget_snapshot|intros _].
  apply (preserves_bind _); [apply moves_llm_turn|intros [raw_response raw|o]; [|walk]].
  apply (preserves_bind _); [apply moves_parse_answer|intros parsed].
  apply (preserves_bind _); [apply moves_read_calls|intros cs].
  destruct (negb _); [apply moves_no_calls|apply moves_with_calls].
Qed.

Lemma moves_loop n step k :
  moves (loop repr stable_json sha256 canonical_json dumps dumps_sorted indented json_loads literal_eval py_float jsonschema
           tool_call_blocks json_blocks without_tool_call_blocks without_json_blocks secret cx rq n step k).
Proof.
  revert step. induction k as [|k IH]; intros step; simpl.
  - unfold steps_exhausted. walk; first [apply moves_synthesize_answer|apply moves_record_event|by apply moves_finish
                                        |by apply moves_ending].
  - apply (preserves_bind _); [apply moves_step_body|intros []]; [apply IH|walk].
Qed.

Lemma moves_run_loop n :
  moves (run_loop repr stable_json sha256 canonical_json dumps dumps_sorted indented json_loads literal_eval py_float jsonschema
           tool_call_blocks json_blocks without_tool_call_blocks without_json_blocks secret cx rq n).
Proof.
  unfold run_loop. apply (preserves_try _); [apply moves_loop|intros e].
  destruct e; walk; first [by apply moves_ending|by apply moves_finish].
Qed.
End Whole.
End Runtime.

Section Start.
Context `{J : Jwt} {R E : Type} `{N : NonceStore R} `{V : AgentEnv E}.
Variables (repr : json -> string) (stable_json : json -> string) (sha256 : string -> string)
  (canonical_json : json -> string) (dumps dumps_sorted indented : json -> string)
  (json_loads literal_eval : string -> option json) (py_float : string -> option json)
  (jsonschema : option (odict json -> json -> result exn (option (string * string)))).
Variables (tool_call_blocks json_blocks : string -> list string)
  (without_tool_call_blocks without_json_blocks : string -> string).
Variables (secret : string) (cx : Context) (rq : AgentRequest).
#[local] Abbreviation world := (World R E).

(** ** Before the loop: the trace only announces the run. *)
Definition announces (w w' : world) : Prop := exists l, w_trace w' = w_trace w ++ l /\ Forall plain l.
#[local] Instance announces_preorder : PreOrder announces.
Proof.
  split; [intros w; exists []; by rewrite app_nil_r|].
  intros w1 w2 w3 (l1 & E1 & H1) (l2 & E2 & H2). exists (l1 ++ l2). rewrite E2, E1, app_assoc. split; [done|].
  by apply Forall_app.
Qed.

Lemma announces_movable : Movable announces.
Proof.
  split; try (intros; exists []; by rewrite app_nil_r). intros a w Ha. exists [a]. split; [done|by constructor].
Qed.

#[local] Abbreviation run := (execute repr stable_json sha256 canonical_json dumps dumps_sorted indented json_loads literal_eval
  py_float jsonschema tool_call_blocks json_blocks without_tool_call_blocks without_json_blocks secret cx rq).
#[local] Abbreviation the_run_loop := (run_loop repr stable_json sha256 canonical_json dumps dumps_sorted indented json_loads
  literal_eval py_float jsonschema tool_call_blocks json_blocks without_tool_call_blocks without_json_blocks secret cx rq).

(** A run either fails before its loop or is the loop, from its initial state. *)
Lemma execute_cases enable override child root (w w' : world) r :
  run enable override child root w = (r, w') ->
  (exists e, r = Err e /\ announces w w') \/
  exists w1 n start, announces w w1 /\ w_gate w1 = true /\ w_active w1 = [] /\ w_opened w1 = [] /\
    w_loop w1 = initial_loop rq start /\ the_run_loop n w1 = (r, w').
Proof.
  intros Hrun. unfold execute in Hrun.
  apply bind_either in Hrun as [([] & w1 & H1 & Hrun)|(e & H1 & ->)];
    apply (moves_announce_run _ _ _ _ announces announces_movable) in H1; [|left; by eauto].
  unfold start_loop, mbind, py_bind, now, ask, modify, of_result in Hrun. simpl in Hrun.
  destruct (max_steps_setting _) as [n|e]; simpl in Hrun; [right|left].
  - eexists _, n, _. split_and!; [| | | | |exact Hrun]; [exact H1|done..].
  - injection Hrun as <- <-. exists e. split; [done|exact H1].
Qed.
End Start.
