(* ===== verification/AgentSafety.v ===== *)
(** * What an agent may execute

    Every operation that reaches the executor was published to the agent, has valid
    arguments, and was confirmed when it has to be. *)
From S2P Require Import Prelude.
From S2P Require Import Confirmation.
From S2P Require Import ToolLedger.
From S2P Require Import Operations.
From S2P Require Import Protocol.
From S2P Require Import OperationContext.
From S2P Require Import AgentTools.
From S2P Require Import Agent.
From S2P Require Import AgentProofs.
Open Scope Z_scope.

Ltac py_ends := unfold mret, py_ret, raise, of_result in *; simplify_eq.

(** A trace every action of which is justified by the ones before it. *)
Inductive justified (ok : list Action -> Action -> Prop) : list Action -> Prop :=
| justified_nil : justified ok []
| justified_snoc tr a : justified ok tr -> ok tr a -> justified ok (tr ++ [a]).

Lemma justified_split ok tr a post : justified ok (tr ++ a :: post) -> ok tr a.
Proof.
  remember (tr ++ a :: post) as l eqn:E. intros H. revert post E.
  induction H as [|tr' b H IH Hb]; intros post E; [by destruct tr|].
  destruct post as [|p post _] using rev_ind.
  - apply app_inj_tail in E as [-> ->]. done.
  - rewrite app_comm_cons, app_assoc in E. apply app_inj_tail in E as [-> _]. by eapply IH.
Qed.

Section Confirmed.
Context `{J : Jwt} {R E : Type} `{N : NonceStore R} `{V : AgentEnv E}.
Variables (repr : json -> string) (stable_json : json -> string) (sha256 : string -> string)
  (canonical_json : json -> string) (dumps dumps_sorted indented : json -> string)
  (json_loads literal_eval : string -> option json) (py_float : string -> option json)
  (jsonschema : option (odict json -> json -> result exn (option (string * string)))).
Variables (tool_call_blocks json_blocks : string -> list string)
  (without_tool_call_blocks without_json_blocks : string -> string).
Variables (secret : string) (cx : Context) (rq : AgentRequest).
#[local] Abbreviation world := (World R E).
#[local] Abbreviation fingerprint := (operation_fingerprint sha256 canonical_json).

(** A token of the request that the service accepted for this operation and these
    arguments, presented last before the call; without a chat, an approval. *)
Definition confirmed (tr : list Action) (o : ResolvedOperation) (c : ToolCall) : Prop :=
  match cx_chat_id cx with
  | None => JStr (fingerprint o c) ∈ as_list (cx_confirmed_fingerprints cx)
  | Some chat => exists token, JStr token ∈ as_list (cx_confirmation_tokens cx) /\
                   last tr = Some (AVerify token (fingerprint o c) true)
  end.

Definition confirmed_action (tr : list Action) (a : Action) : Prop :=
  match a with
  | AExecute o c =>
      o ∈ ar_operations rq /\ tc_tool_name c = op_slug o /\
      _validate_args repr py_float jsonschema o (tc_arguments c) = Ok None /\
      (op_requires_confirmation o = true -> confirmed tr o c)
  | AVerify token fp true =>
      exists chat t t' (conf : ConfState R), cx_chat_id cx = Some chat /\
        (verify secret t t' token (cx_user_id cx) chat fp true conf).1 = true
  | _ => True
  end.

#[local] Abbreviation safe := (justified confirmed_action).
#[local] Abbreviation Rel := (carries (fun w : world => safe (w_trace w))).

Lemma safe_record (a : Action) (w : world) : confirmed_action (w_trace w) a -> Rel w (record a w).
Proof. intros Ha Hw. by apply justified_snoc. Qed.

Lemma safe_movable : Movable Rel.
Proof.
  split; [by intros; unfold carries..|]. intros a w Ha. apply safe_record. by destruct a as [|? ? []| | |].
Qed.

Lemma safe_tokens tokens chat fp (w w' : world) r :
  cx_chat_id cx = Some chat ->
  present_tokens secret cx tokens chat fp w = (r, w') -> safe (w_trace w) ->
  safe (w_trace w') /\
  (r = Ok true -> exists token, JStr token ∈ tokens /\ last (w_trace w') = Some (AVerify token fp true)).
Proof.
  intros Hchat. revert w. induction tokens as [|t tokens IH]; intros w H Hw; simpl in H; [by py_ends|].
  assert (forall w0, present_tokens secret cx tokens chat fp w0 = (r, w') -> safe (w_trace w0) ->
    safe (w_trace w') /\ (r = Ok true -> exists token, JStr token ∈ t :: tokens /\
      last (w_trace w') = Some (AVerify token fp true))) as Hrest.
  { intros w0 H0 Hw0. destruct (IH w0 H0 Hw0) as [? Hl]. split; [done|]. intros Hr. destruct (Hl Hr) as (k & ? & ?).
    exists k. split; [by right|done]. }
  destruct t as [| | | |token| |]; try (by eapply Hrest). destruct (str_empty (strip token)); [by eapply Hrest|].
  unfold mbind, py_bind, now, ask, gets in H. simpl in H.
  destruct (verify _ _ _ _ _ _ _ _ _) as [[] conf'] eqn:Ev; simpl in H.
  - py_ends. simpl. split; [|intros _; exists token; split; [by left|by rewrite last_snoc]].
    apply justified_snoc; [done|]. simpl. eexists chat, _, _, _. split; [done|by rewrite Ev].
  - eapply Hrest; [exact H|]. simpl. by apply justified_snoc.
Qed.

Lemma safe_confirmation o c (w w' : world) r :
  _ensure_confirmation_if_required sha256 canonical_json dumps secret cx o c w = (r, w') -> safe (w_trace w) ->
  safe (w_trace w') /\ (r = Ok tt -> op_requires_confirmation o = true -> confirmed (w_trace w') o c).
Proof.
  unfold _ensure_confirmation_if_required, confirmed. intros H Hw.
  destruct (op_requires_confirmation o); simpl in H; [|by py_ends].
  destruct (cx_chat_id cx) as [chat|] eqn:Hchat.
  - apply bind_either in H as [(b & w1 & H1 & H)|(e & H1 & ->)].
    + destruct (safe_tokens _ _ _ _ _ _ Hchat H1 Hw) as [Hs Hb]. destruct b; py_ends; [|done].
      split; [done|]. intros _ _. by apply Hb.
    + destruct (safe_tokens _ _ _ _ _ _ Hchat H1 Hw) as [Hs _]. done.
  - destruct (existsb _ _) eqn:Ex; py_ends; [|done]. split; [done|]. intros _ _.
    apply existsb_exists in Ex as (v & Hv & Heq). apply list_elem_of_In in Hv. destruct v; try done.
    apply String.eqb_eq in Heq. by subst.
Qed.


Lemma safe_executor o c t (w w' : world) r :
  run_executor repr o c t w = (r, w') -> confirmed_action (w_trace w) (AExecute o c) -> safe (w_trace w) -> safe (w_trace w').
Proof.
  intros H Ha Hw. assert (w_trace w' = w_trace w \/ w_trace w' = w_trace w ++ [AExecute o c]) as [->| ->];
    [|done|by apply justified_snoc].
  revert H. unfold run_executor, mbind, py_bind, log, modify, ask.
  destruct env_executor as [executor|]; [|intros ?; py_ends; by left]. simpl.
  destruct (executor c t (w_env w)).1; try destruct (logs_readable _); intros ?; py_ends; by right.
Qed.

Lemma maybe_reuse_trace slug args (w w' : world) r :
  maybe_reuse stable_json sha256 cx slug args w = (r, w') -> w_trace w' = w_trace w.
Proof.
  unfold maybe_reuse. destruct (_ || _); [(by intros ?; py_ends)|]. unfold mbind, py_bind, now, ask, gets. simpl.
  destruct (find_successful_result _ _ _ _ _ _ _); (by intros ?; py_ends).
Qed.

Lemma gate_keeps o (w w' : world) r : _validate_collection_interaction o w = (r, w') -> w' = w.
Proof.
  unfold _validate_collection_interaction, mbind, py_bind, get_state. simpl.
  repeat case_match; (by intros ?; py_ends).
Qed.

Lemma find_operation_elem slug args ops o msg :
  _find_operation repr slug args ops = (Some o, msg) -> o ∈ ops.
Proof.
  unfold _find_operation. destruct (List.find _ ops) eqn:E1.
  { intros [= <- _]. apply List.find_some in E1 as [? _]. by apply list_elem_of_In. }
  assert (forall o', o' ∈ List.filter (fun o => String.eqb (op_operation o) slug) ops -> o' ∈ ops) as Hin
    by (intros o' Ho'; by apply elem_of_List_filter in Ho' as [? _]).
  destruct (List.filter _ ops) as [|o1 [|o2 l]]; [by case_match|intros [= <- _]; apply Hin; by left|].
  destruct (if str_empty _ then _ else _) as [|o3 [|]] eqn:E2; try done. intros [= <- _]. apply Hin.
  destruct (str_empty _); [done|].
  assert (o3 ∈ [o3]) as H3 by by left. rewrite <- E2 in H3. by apply elem_of_List_filter in H3 as [? _].
Qed.

Lemma safe_execute c t (w w' : world) r :
  execute_operation repr stable_json sha256 canonical_json dumps json_loads literal_eval py_float jsonschema secret cx c
    (ar_operations rq) t w = (r, w') -> safe (w_trace w) -> safe (w_trace w').
Proof.
  unfold execute_operation. intros H Hw. destruct (_find_operation repr _ _ _) as [[o|] msg] eqn:Ef; [|by py_ends].
  apply find_operation_elem in Ef. apply bind_either in H as [(g & w1 & Hg & H)|(e & Hg & ->)];
    apply gate_keeps in Hg as ->; [|done]. destruct g; [by py_ends|].
  apply bind_either in H as [(args & w1 & Ha & H)|(e & Ha & ->)]; unfold of_result in Ha; py_ends; [|done].
  apply bind_either in H as [(v & w2 & Hv & H)|(e & Hv & ->)]; unfold of_result in Hv; injection Hv as Hv <-; [|done].
  destruct v; [by py_ends|]. set (c' := {| tc_id := tc_id c |}) in H.
  apply bind_either in H as [([] & w2 & Hc & H)|(e & Hc & ->)];
    destruct (safe_confirmation o c' _ _ _ Hc Hw) as [Hs Hconf]; [|done].
  apply bind_either in H as [(ru & w3 & Hr & H)|(e & Hr & ->)]; apply maybe_reuse_trace in Hr; [|by rewrite Hr].
  rewrite <- Hr in Hs. destruct ru; [by py_ends|]. eapply safe_executor; [exact H| |done].
  split_and!; [done..|]. rewrite Hr. by apply Hconf.
Qed.

#[local] Abbreviation run := (execute repr stable_json sha256 canonical_json dumps dumps_sorted indented json_loads literal_eval
  py_float jsonschema tool_call_blocks json_blocks without_tool_call_blocks without_json_blocks secret cx rq).

Lemma safe_run enable override child root : preserves Rel (run enable override child root).
Proof.
  pose proof safe_movable as M. pose proof (carries_preorder (fun w : world => safe (w_trace w))) as P.
  assert (forall e w, Rel w (record (AYield e) w)) as Hy by (intros; by apply safe_record).
  assert (EndsRuns Rel) as En by (split; intros; by apply safe_record).
  unfold execute. apply (preserves_bind _); [by apply moves_announce_run|intros _].
  apply (preserves_bind _).
  - unfold start_loop. apply (preserves_bind _); [walk|intros t].
    apply (preserves_bind _); [by intros ? ? ? [= <- <-] ?|intros _]. apply (preserves_bind _); [walk|intros n].
    apply (preserves_bind _); [by intros ? ? ? [= <- <-] ?|intros _]. walk.
  - intros n. apply moves_run_loop; try done.
    + by intros ? ? ?.
    + intros. apply moves_call_failed; [done..|]. intros. apply Hy.
    + intros. apply moves_single; [done|done|done|by intros; apply Hy|by intros ? ? ? ?|].
      intros t w r w' H Hw. by eapply safe_execute.
Qed.

End Confirmed.
