(* ===== verification/AgentCollections.v ===== *)
(** * The collections an agent works with

    An operation of a collection is executed only after a successful collection.info
    of that collection in the same run. *)
From S2P Require Import Prelude.
From S2P Require Import Confirmation.
From S2P Require Import ToolLedger.
From S2P Require Import Operations.
From S2P Require Import Protocol.
From S2P Require Import OperationContext.
From S2P Require Import AgentTools.
From S2P Require Import Agent.
From S2P Require Import AgentProofs.
From S2P Require Import AgentSafety.
Open Scope Z_scope.

Section Collections.
Context `{J : Jwt} {R E : Type} `{N : NonceStore R} `{V : AgentEnv E}.
Variables (repr : json -> string) (stable_json : json -> string) (sha256 : string -> string)
  (canonical_json : json -> string) (dumps dumps_sorted indented : json -> string)
  (json_loads literal_eval : string -> option json) (py_float : string -> option json)
  (jsonschema : option (odict json -> json -> result exn (option (string * string)))).
Variables (tool_call_blocks json_blocks : string -> list string)
  (without_tool_call_blocks without_json_blocks : string -> string).
Variables (secret : string) (cx : Context) (rq : AgentRequest).
#[local] Abbreviation world := (World R E).
#[local] Abbreviation call A := (py exn world A).
#[local] Abbreviation ops := (ar_operations rq).

(** The run saw a successful collection.info of the collection [coll]. *)
Definition opened (coll : string) (tr : list Action) : Prop :=
  exists c id r info, AYield (EvToolCall c id) ∈ tr /\ AYield (EvToolResult r) ∈ tr /\
    te_call_id r = tc_id c /\ te_tool r = tc_tool_name c /\ te_success r = true /\
    fst (_find_operation repr (tc_tool_name c) (tc_arguments c) ops) = Some info /\
    op_operation info = "collection.info" /\ collection_of info = coll /\ coll <> "".

Definition gated_action (tr : list Action) (a : Action) : Prop :=
  match a with
  | AExecute o c => op_scope o = "collection" -> op_operation o <> "collection.info" -> opened (collection_of o) tr
  | _ => True
  end.

Record gated (w : world) : Prop := {
  gt_gate : w_gate w = true;
  gt_active s : s ∈ w_active w -> exists o, o ∈ ops /\ op_slug o = s /\ opened (collection_of o) (w_trace w);
  gt_trace : justified gated_action (w_trace w)
}.

(** With a fact about the trace that stays true. *)
Definition stays (F : list Action -> Prop) : Prop := forall tr a, F tr -> F (tr ++ [a]).
Definition gated_with (F : list Action -> Prop) (w : world) : Prop := gated w /\ F (w_trace w).

Lemma stays_elem b : stays (fun tr => b ∈ tr).
Proof. intros tr a H. rewrite elem_of_app. by left. Qed.
Lemma stays_and F G : stays F -> stays G -> stays (fun tr => F tr /\ G tr).
Proof. intros HF HG tr a [? ?]. split; [by apply HF|by apply HG]. Qed.
Lemma stays_opened coll : stays (opened coll).
Proof.
  intros tr a (c & id & r & info & Hc & Hr & H). exists c, id, r, info. rewrite !elem_of_app. by split; [left|split; [left|]].
Qed.
Lemma stays_True : stays (fun _ => True).
Proof. done. Qed.
#[local] Hint Resolve stays_elem stays_and stays_opened stays_True : core.

Lemma gated_record F a w : stays F -> gated_action (w_trace w) a -> gated_with F w -> gated_with F (record a w).
Proof.
  intros HF Ha [[Hg Hact Htr] Hf]. split; [|by apply HF]. split; [done| |by apply justified_snoc].
  intros s Hs. destruct (Hact s Hs) as (o & ? & ? & Ho). exists o. split_and!; [done..|by apply stays_opened].
Qed.

Lemma gated_plain F a w : stays F -> (forall o c, a <> AExecute o c) -> carries (gated_with F) w (record a w).
Proof. intros HF Ha Hw. apply gated_record; [done| |done]. destruct a as [| |o c| |]; try done. by destruct (Ha o c). Qed.

Lemma gated_movable F : stays F -> Movable (carries (gated_with F)).
Proof.
  intros HF. split; try (by intros; unfold carries; intros [[? ? ?] ?]; split; [split|]).
  intros a w Ha. by apply gated_plain; [|destruct a].
Qed.

Lemma gated_ends F : stays F -> EndsRuns (carries (gated_with F)).
Proof. intros HF. by split; intros; apply gated_plain. Qed.

(** ** Execution *)
Hypothesis slugs_distinct : NoDup (map op_slug ops).

Lemma gated_confirmation F o c : stays F ->
  preserves (carries (gated_with F)) (_ensure_confirmation_if_required sha256 canonical_json dumps secret cx o c).
Proof.
  intros HF. pose proof (gated_movable F HF) as M. pose proof (carries_preorder (gated_with F)) as P.
  unfold _ensure_confirmation_if_required. walk. apply moves_present_tokens; [done..|].
  intros t t' token w v Hw. destruct (gated_plain F (AVerify token (operation_fingerprint sha256 canonical_json o c) v.1) w HF
    ltac:(done) Hw) as [[? ? ?] ?]. by split; [split|].
Qed.

Lemma gated_gate o (w w' : world) :
  _validate_collection_interaction o w = (Ok None, w') -> gated w -> o ∈ ops ->
  op_scope o = "collection" -> op_operation o <> "collection.info" -> opened (collection_of o) (w_trace w').
Proof.
  intros H [Hg Hact _] Ho Hsc Hop. pose proof (gate_keeps _ _ _ _ H) as ->. revert H.
  unfold _validate_collection_interaction, mbind, py_bind, get_state. simpl. rewrite Hg, Hsc. simpl.
  destruct (String.eqb_spec (op_operation o) "collection.info"); [done|]. simpl.
  destruct (str_in _ _) eqn:Hin; [|by intros; py_ends]. intros _. apply str_in_spec in Hin.
  destruct (Hact _ Hin) as (o' & Ho' & Hs & Hop'). by rewrite (NoDup_map_key op_slug ops o o') by done.
Qed.

Lemma gated_executor F o c t (w w' : world) r : stays F ->
  run_executor repr o c t w = (r, w') -> gated_action (w_trace w) (AExecute o c) -> gated_with F w -> gated_with F w'.
Proof.
  intros HF H Ha Hw. pose proof (gated_record F _ w HF Ha Hw) as Hrec. revert H.
  unfold run_executor, mbind, py_bind, log, modify, ask. destruct env_executor as [executor|]; [|by intros; py_ends].
  assert (forall e, gated_with F (set_env e (record (AExecute o c) w))) as He
    by (intros e; by apply (mv_env _ (gated_movable F HF) e (record (AExecute o c) w))).
  simpl. destruct (executor c t (w_env w)).1; try destruct (logs_readable _); intros; py_ends; apply He.
Qed.

Lemma gated_execute F c t : stays F ->
  preserves (carries (gated_with F))
    (execute_operation repr stable_json sha256 canonical_json dumps json_loads literal_eval py_float jsonschema secret cx c ops t).
Proof.
  intros HF w r w' H Hw. unfold execute_operation in H. destruct (_find_operation repr _ _ _) as [[o|] msg] eqn:Ef; [|by py_ends].
  apply find_operation_elem in Ef. apply bind_either in H as [(g & w1 & Hg & H)|(e & Hg & ->)];
    pose proof (gate_keeps _ _ _ _ Hg) as ->; [|done]. destruct g; [by py_ends|].
  apply bind_either in H as [(args & w2 & Ha & H)|(e & Ha & ->)]; unfold of_result in Ha; injection Ha as Ha <-; [|done].
  apply bind_either in H as [(v & w2 & Hv & H)|(e & Hv & ->)]; unfold of_result in Hv; injection Hv as Hv <-; [|done].
  destruct v; [by py_ends|]. set (c' := {| tc_id := tc_id c |}) in H.
  set (G := fun tr : list Action => F tr /\ gated_action tr (AExecute o c')).
  assert (stays G) as HG.
  { intros tr a [? Hga]. split; [by apply HF|]. simpl in *. intros. by apply stays_opened, Hga. }
  assert (gated_with G w) as HGw.
  { destruct Hw as [Hw ?]. split; [done|]. split; [done|]. simpl. intros. by eapply gated_gate. }
  apply bind_either in H as [([] & w2 & Hc & H)|(e & Hc & ->)]; pose proof (gated_confirmation G o c' HG _ _ _ Hc HGw) as
    [Hw2 [HF2 Hga]]; [|done].
  apply bind_either in H as [(ru & w3 & Hr & H)|(e & Hr & ->)];
    pose proof (moves_maybe_reuse stable_json sha256 cx _ (gated_movable F HF) _ _ _ _ _ Hr (conj Hw2 HF2)) as Hw3; [|done].
  apply maybe_reuse_trace in Hr. destruct ru; [by py_ends|]. eapply gated_executor; [done|exact H| |done]. by rewrite Hr.
Qed.

(** ** One call *)
#[local] Abbreviation plainly := (gated_with (fun _ => True)).

(** From [I], a result comes with [I'], and an exception keeps the gate. *)
Definition leads {A} (I I' : world -> Prop) (m : call A) : Prop := spec I m (fun _ => I') plainly.

Lemma weaker F w : gated_with F w -> plainly w.
Proof. by intros [? _]. Qed.

Lemma leads_carries {A} F (m : call A) : preserves (carries (gated_with F)) m -> leads (gated_with F) (gated_with F) m.
Proof. intros Hm. apply spec_carries; [done|apply weaker]. Qed.

Lemma leads_yield_to_loop F e :
  stays F -> leads (gated_with F) (gated_with (fun tr => F tr /\ AYield e ∈ tr)) (yield_to_loop stable_json sha256 cx e).
Proof.
  intros HF. set (G := fun tr : list Action => F tr /\ AYield e ∈ tr). assert (stays G) as HG by (apply (stays_and F); [done|apply stays_elem]).
  unfold yield_to_loop, yield_. apply (spec_bind _ (fun _ => gated_with G)).
  - apply (spec_bind _ (fun _ => gated_with G)); [|intros _; apply leads_carries, moves_observe; [apply _|exact (gated_movable G HG)]].
    intros w r w' [Hw Hf] [= <- <-]. destruct (gated_record F (AYield e) w HF I (conj Hw Hf)) as [? ?].
    split; [done|]. split; [done|]. simpl. rewrite elem_of_app. right. by left.
  - intros _. apply leads_carries. pose proof (gated_movable G HG). walk.
Qed.

Lemma leads_activate F c id r result :
  stays F -> tr_success result = true -> te_success r = true -> te_call_id r = tc_id c -> te_tool r = tc_tool_name c ->
  (forall tr, F tr -> AYield (EvToolCall c id) ∈ tr /\ AYield (EvToolResult r) ∈ tr) ->
  leads (gated_with F) plainly (_activate_collection_tools repr rq c result).
Proof.
  intros HF Hok Hr Hid Htool HFt w r' w' Hw H. enough (plainly w') as Hp by by destruct r'.
  unfold _activate_collection_tools in H. rewrite Hok in H. simpl in H. apply weaker in Hw as Hp.
  destruct (_find_operation repr _ _ _) as [[info|] msg] eqn:Ef; [|by py_ends].
  destruct (String.eqb_spec (op_operation info) "collection.info") as [Hinfo|]; simpl in H; [|by py_ends].
  destruct (_ || _) eqn:Eg; [by py_ends|]. apply orb_false_iff in Eg as [Hne Hown].
  apply negb_false_iff, String.eqb_eq in Hown. unfold modify in H. injection H as _ <-.
  destruct Hw as [[Hg Hact Htr] Hf]. destruct (HFt _ Hf) as [Hcall Hres]. split; [split|]; simpl; [done| |done..].
  intros s Hs. apply elem_of_remove_dups, elem_of_app in Hs as [Hs|Hs]; [by apply Hact|].
  apply list_elem_of_In, in_map_iff in Hs as (o & <- & Ho). apply List.filter_In in Ho as [Ho Hcond].
  apply andb_true_iff in Hcond as [[Hc _]%andb_true_iff _]. apply String.eqb_eq in Hc.
  exists o. split; [by apply list_elem_of_In|]. split; [done|]. exists c, id, r, info. rewrite Ef, Hc, Hown in *.
  split_and!; try done. by apply String.eqb_neq in Hne.
Qed.

Lemma leads_weaken {A} F (m : call A) : leads (gated_with F) (gated_with F) m -> leads (gated_with F) plainly m.
Proof. intros Hm. eapply spec_weaken; [exact Hm|done|]. intros ? ?. apply weaker. Qed.

Lemma gated_single c id b used :
  leads plainly plainly
    (_execute_single_operation_call repr stable_json sha256 canonical_json dumps json_loads literal_eval py_float jsonschema
       secret cx rq c id b used).
Proof.
  pose proof (gated_movable _ stays_True) as M. pose proof (gated_ends _ stays_True) as En.
  pose proof (carries_preorder plainly) as P.
  set (G1 := fun tr : list Action => True /\ AYield (EvToolCall c id) ∈ tr).
  assert (stays G1) as HG1 by (apply (stays_and (fun _ => True)); [done|apply stays_elem]).
  pose proof (carries_preorder (gated_with G1)) as P1. pose proof (gated_movable G1 HG1) as M1. pose proof (gated_ends G1 HG1) as En1.
  unfold _execute_single_operation_call, report_result. destruct (Z.leb _ _).
  { apply leads_carries. walk; first [by apply moves_yield_to_loop, moves_ending|by apply moves_record_event|by apply moves_finish]. }
  apply (spec_bind _ (fun _ => gated_with G1)); [by apply leads_yield_to_loop|intros _].
  apply (spec_bind _ (fun _ => gated_with G1)); [by apply leads_carries, moves_record_event|intros _].
  apply (spec_bind _ (fun _ => gated_with G1)).
  { apply leads_carries. walk; first [by apply gated_execute|by apply moves_yield_to_loop, moves_ending|by apply moves_finish]. }
  intros [[result raw_sources]|]; [|apply leads_weaken, leads_carries; walk].
  apply (spec_bind _ (fun _ => gated_with G1)); [apply leads_carries; walk|intros sources].
  match goal with |- context [EvToolResult ?x] => set (r := x) end.
  set (G2 := fun tr : list Action => G1 tr /\ AYield (EvToolResult r) ∈ tr).
  assert (stays G2) as HG2 by (apply (stays_and G1); [done|apply stays_elem]).
  pose proof (carries_preorder (gated_with G2)) as P2. pose proof (gated_movable G2 HG2) as M2.
  apply (spec_bind _ (fun _ => gated_with G2)); [by apply (leads_yield_to_loop G1)|intros _].
  apply (spec_bind _ (fun _ => gated_with G2)); [by apply leads_carries, moves_record_event|intros _].
  apply (spec_bind _ (fun _ => plainly)).
  - destruct (tr_success result) eqn:Hok.
    + apply (leads_activate G2 c id r); try done. by intros tr [[_ ?] ?].
    + unfold _activate_collection_tools. rewrite Hok. simpl. apply leads_weaken, leads_carries. walk.
  - intros _. apply leads_carries. walk.
Qed.

#[local] Abbreviation run := (execute repr stable_json sha256 canonical_json dumps dumps_sorted indented json_loads literal_eval
  py_float jsonschema tool_call_blocks json_blocks without_tool_call_blocks without_json_blocks secret cx rq).
#[local] Abbreviation Rel := (carries plainly).

Lemma gated_run_loop n : preserves Rel
  (run_loop repr stable_json sha256 canonical_json dumps dumps_sorted indented json_loads literal_eval py_float jsonschema
     tool_call_blocks json_blocks without_tool_call_blocks without_json_blocks secret cx rq n).
Proof.
  pose proof (gated_movable _ stays_True) as M. pose proof (gated_ends _ stays_True) as En.
  pose proof (carries_preorder plainly) as P.
  assert (forall e w, Rel w (record (AYield e) w)) as Hy by (intros; by apply gated_plain).
  apply moves_run_loop; try done.
  - intros k w [[? ? ?] ?]. by split; [split|].
  - intros. by apply moves_call_failed; try done; intros; apply Hy.
  - intros c id b used w r w' H Hw. pose proof (gated_single _ _ _ _ _ _ _ Hw H). by destruct r.
Qed.

Lemma justified_plain l : Forall plain l -> justified gated_action l.
Proof.
  induction l as [|a l IH] using rev_ind; [constructor|]. intros [H1 H2]%Forall_app. constructor; [by apply IH|].
  inversion_clear H2. by destruct a.
Qed.

(** C7: An agent reads a collection before it uses it: in every run, whatever the
    model answers, an operation of a collection other than collection.info reaches
    the executor only after a call of collection.info, named and bound to this very
    collection, returned with success in the same run. *)
Theorem collections_opened_first enable override child root (w w' : world) r pre o c post :
  w_trace w = [] -> run enable override child root w = (r, w') ->
  w_trace w' = pre ++ AExecute o c :: post ->
  op_scope o = "collection" -> op_operation o <> "collection.info" ->
  opened (collection_of o) pre.
Proof.
  intros Hw Hrun Htr Hsc Hop.
  assert (justified gated_action (w_trace w')) as Hs; [|rewrite Htr in Hs; by apply justified_split in Hs; apply Hs].
  apply execute_cases in Hrun as [(e & -> & l & Hl & Hplain)|(w1 & n & start & (l & Hl & Hplain) & Hg & Ha & _ & _ & Hrun)];
    rewrite Hw in Hl; simpl in Hl.
  - rewrite Hl. by apply justified_plain.
  - apply gated_run_loop in Hrun. destruct Hrun as [[_ _ H] _]; [|done]. split; [|done].
    split; [done|by rewrite Ha; intros s ?%not_elem_of_nil|]. rewrite Hl. by apply justified_plain.
Qed.
End Collections.
