(* ===== verification/AgentBounds.v ===== *)
(** * The bounds of a run

    How often a run asks the model, executes an operation and repeats a failed call. *)
From S2P Require Import Prelude.
From S2P Require Import Confirmation.
From S2P Require Import ToolLedger.
From S2P Require Import Operations.
From S2P Require Import Protocol.
From S2P Require Import OperationContext.
From S2P Require Import AgentTools.
From S2P Require Import Agent.
From S2P Require Import AgentProofs.
From S2P Require Import AgentSafety.
Open Scope Z_scope.

Definition count (p : Action -> bool) (tr : list Action) : Z := Z.of_nat (length (List.filter p tr)).

Definition is_decision (a : Action) : bool :=
  match a with AYield (EvLlmRequest PTOOL_DECISION _ _) => true | _ => false end.
Definition is_execution (a : Action) : bool := match a with AExecute _ _ => true | _ => false end.
Definition is_repetition (a : Action) : bool :=
  match a with AYield (EvProtocolRetry _ _ _ (Some _)) => true | _ => false end.

Lemma count_snoc p tr a : count p (tr ++ [a]) = count p tr + if p a then 1 else 0.
Proof. unfold count. rewrite List.filter_app, length_app. simpl. destruct (p a); simpl; lia. Qed.

Lemma plain_uncounted a : plain a -> is_decision a = false /\ is_execution a = false /\ is_repetition a = false.
Proof. destruct a as [[]| | | |]; try done. by destruct retry_delay_ms. Qed.

(** [_retry_delay_ms] *)
Lemma retry_delay_bounded retry_count retry_after_ms :
  0 < _retry_delay_ms retry_count retry_after_ms <= 30000.
Proof.
  unfold _retry_delay_ms. assert (0 < 2 ^ Z.max 0 retry_count) by (apply Z.pow_pos_nonneg; lia).
  destruct retry_after_ms as [r|]; [destruct (Z.ltb_spec 0 r)|]; lia.
Qed.

Section Bounds.
Context `{J : Jwt} {R E : Type} `{N : NonceStore R} `{V : AgentEnv E}.
Variables (repr : json -> string) (stable_json : json -> string) (sha256 : string -> string)
  (canonical_json : json -> string) (dumps dumps_sorted indented : json -> string)
  (json_loads literal_eval : string -> option json) (py_float : string -> option json)
  (jsonschema : option (odict json -> json -> result exn (option (string * string)))).
Variables (tool_call_blocks json_blocks : string -> list string)
  (without_tool_call_blocks without_json_blocks : string -> string).
Variables (secret : string) (cx : Context) (rq : AgentRequest).
#[local] Abbreviation world := (World R E).
#[local] Abbreviation call A := (py exn world A).
#[local] Abbreviation policy := (ar_policy rq).
#[local] Abbreviation body := (step_body repr stable_json sha256 canonical_json dumps dumps_sorted indented json_loads literal_eval
  py_float jsonschema tool_call_blocks json_blocks without_tool_call_blocks without_json_blocks secret cx rq).
#[local] Abbreviation the_loop := (loop repr stable_json sha256 canonical_json dumps dumps_sorted indented json_loads literal_eval
  py_float jsonschema tool_call_blocks json_blocks without_tool_call_blocks without_json_blocks secret cx rq).
#[local] Abbreviation the_run_loop := (run_loop repr stable_json sha256 canonical_json dumps dumps_sorted indented json_loads
  literal_eval py_float jsonschema tool_call_blocks json_blocks without_tool_call_blocks without_json_blocks secret cx rq).
#[local] Abbreviation single := (_execute_single_operation_call repr stable_json sha256 canonical_json dumps json_loads
  literal_eval py_float jsonschema secret cx rq).
#[local] Abbreviation exec_op := (execute_operation repr stable_json sha256 canonical_json dumps json_loads literal_eval py_float
  jsonschema secret cx).

(** ** Questions to the model *)
Definition decisions (w : world) : Z := count is_decision (w_trace w).
Definition same {S} (f : S -> Z) : relation S := fun w w' => f w' = f w.
#[local] Instance same_preorder {S} (f : S -> Z) : PreOrder (same f).
Proof. split; unfold same; [by intros ?|intros ? ? ? -> ->; done]. Qed.
#[local] Abbreviation quiet := (same decisions).

Lemma quiet_record a w : is_decision a = false -> quiet w (record a w).
Proof. intros Ha. unfold same, decisions. simpl. rewrite count_snoc, Ha. lia. Qed.

Lemma quiet_movable : Movable quiet.
Proof. split; try done. intros a w Ha. apply quiet_record. by apply plain_uncounted. Qed.
Lemma quiet_ends : EndsRuns quiet.
Proof. split; intros; apply quiet_record; [by destruct e|done]. Qed.

(** Execution moves whatever ignores tokens and executions. *)
Lemma moves_execute (Rel : relation world) `{!PreOrder Rel} c ops t :
  Movable Rel ->
  (forall t t' token fp chat w, let v := verify secret t t' token (cx_user_id cx) chat fp true (w_conf w) in
     Rel w (record (AVerify token fp v.1) (set_conf v.2 w))) ->
  (forall o c w, Rel w (record (AExecute o c) w)) ->
  preserves Rel (exec_op c ops t).
Proof.
  intros M Hv He. unfold execute_operation. destruct (_find_operation _ _ _ _) as [[o|] msg]; [|walk].
  apply (preserves_bind _); [by apply moves_gate|intros [e|]; [walk|]].
  apply (preserves_bind _); [walk|intros args]. apply (preserves_bind _); [walk|intros [e|]; [walk|]].
  apply (preserves_bind _).
  { unfold _ensure_confirmation_if_required. walk. apply moves_present_tokens; [done..|]. intros. apply Hv. }
  intros _. apply (preserves_bind _); [by apply moves_maybe_reuse|intros [x|]; [walk|]].
  unfold run_executor. walk. intros ? ? ? [= <- <-]. apply He.
Qed.

Lemma quiet_exec_op c ops t : preserves quiet (exec_op c ops t).
Proof.
  pose proof quiet_movable as M. apply moves_execute; [apply _|done| |intros; by apply quiet_record].
  intros. unfold same, decisions. simpl. rewrite count_snoc. simpl. lia.
Qed.

Lemma quiet_call_failed step ids m c r a : preserves quiet (call_failed stable_json sha256 cx rq step ids m c r a).
Proof. apply moves_call_failed; [apply _|apply quiet_movable|apply quiet_ends|]. intros. by apply quiet_record. Qed.

Lemma quiet_single c id b used : preserves quiet (single c id b used).
Proof.
  apply moves_single; [apply _|apply quiet_movable|apply quiet_ends|by intros; apply quiet_record|done|].
  intros. apply quiet_exec_op.
Qed.

Definition asks {A} (k : Z) (m : call A) : Prop :=
  forall w r w', m w = (r, w') -> decisions w' <= decisions w + k.

Lemma asks_quiet {A} k (m : call A) : 0 <= k -> preserves quiet m -> asks k m.
Proof. intros Hk Hm w r w' H. specialize (Hm _ _ _ H). unfold same in Hm. lia. Qed.

Lemma asks_bind {A B} j k (m : call A) (f : A -> call B) : 0 <= k -> asks j m -> (forall a, asks k (f a)) -> asks (j + k) (m ≫= f).
Proof.
  intros Hk Hm Hf w r w' H. apply bind_either in H as [(a & w1 & H1 & H)|(e & H1 & ->)].
  - apply Hm in H1. apply Hf in H. lia.
  - apply Hm in H1. lia.
Qed.

(** A quiet computation in front or behind *)
Lemma asks_before {A B} k (m : call A) (f : A -> call B) : 0 <= k -> preserves quiet m -> (forall a, asks k (f a)) -> asks k (m ≫= f).
Proof. intros Hk Hm Hf. apply (asks_bind 0 k); [done|by apply asks_quiet|done]. Qed.
Lemma asks_after {A B} k (m : call A) (f : A -> call B) : asks k m -> (forall a, preserves quiet (f a)) -> asks k (m ≫= f).
Proof.
  intros Hm Hf. replace k with (k + 0) by lia. apply asks_bind; [done|done|]. intros. by apply asks_quiet.
Qed.

Lemma asks_llm_turn step ids : asks 1 (llm_turn repr stable_json sha256 cx rq step ids).
Proof.
  pose proof quiet_movable as M. pose proof quiet_ends as En. pose proof (same_preorder decisions) as P.
  unfold llm_turn. apply asks_before; [done|walk|intros messages]. apply asks_after.
  - intros w r w' H. unfold AgentTools.yield_, log, modify, mbind, py_bind in H. simpl in H. injection H as _ <-.
    unfold decisions. simpl. rewrite count_snoc. simpl. lia.
  - intros _. apply (preserves_bind _); [by apply moves_ask_model|intros answer].
    walk; first [by apply moves_record_event|by apply moves_llm_response|by apply moves_protocol_retry|by apply moves_ending
                |by apply moves_finish|apply quiet_call_failed].
Qed.

Lemma asks_step_body n step : asks 1 (body n step).
Proof.
  pose proof quiet_movable as M. pose proof quiet_ends as En. pose proof (same_preorder decisions) as P.
  unfold step_body. apply asks_before; [done|by apply moves_step_ids|intros ids].
  do 2 (apply asks_before; [done|walk|intros ?]). destruct (_ || _); [by apply asks_quiet, moves_fail_run|].
  apply asks_before; [done|by apply moves_record_event|intros _].
  apply asks_before; [done|by apply moves_budget_snapshot|intros _].
  apply asks_after; [apply asks_llm_turn|intros [raw_response raw|o]; [|walk]].
  apply (preserves_bind _); [by apply moves_parse_answer|intros parsed].
  apply (preserves_bind _); [by apply moves_read_calls|intros cs].
  destruct (negb _).
  - apply moves_no_calls; [done..|]. intros. by apply quiet_record.
  - apply moves_with_calls; [done..| |]; [done|]. intros. apply quiet_single.
Qed.

Lemma asks_loop n step k : asks (Z.of_nat k) (the_loop n step k).
Proof.
  pose proof quiet_movable as M. pose proof quiet_ends as En. pose proof (same_preorder decisions) as P.
  revert step. induction k as [|k IH]; intros step; simpl.
  - apply asks_quiet; [done|]. unfold steps_exhausted.
    walk; first [apply moves_synthesize_answer; [done..|]; intros; by apply quiet_record|by apply moves_record_event
                |by apply moves_finish|by apply moves_ending].
  - replace (Z.of_nat (S k)) with (1 + Z.of_nat k) by lia.
    apply asks_bind; [lia|apply asks_step_body|intros []; [apply IH|]]. apply asks_quiet; [lia|walk].
Qed.

Lemma asks_run_loop n : asks (Z.max 0 (max_llm_calls policy)) (the_run_loop n).
Proof.
  pose proof quiet_movable as M. pose proof quiet_ends as En. pose proof (same_preorder decisions) as P.
  intros w r w' H. unfold run_loop, try_except in H.
  destruct (the_loop n 0 _ w) as [[a|e] w1] eqn:E1; apply asks_loop in E1; [simplify_eq; lia|].
  assert (quiet w1 w') as Hq; [|unfold same in Hq; lia].
  revert H. match goal with |- ?m w1 = _ -> _ => assert (preserves quiet m) as Hm end.
  { destruct e; walk; first [by apply moves_ending|by apply moves_finish]. }
  intros H. by eapply Hm.
Qed.

(** ** Executions *)
Definition executions (w : world) : Z := count is_execution (w_trace w).
Definition total (w : world) : Z := ls_tool_calls_total (w_loop w).
Definition limit : Z := Z.max 0 (max_tool_calls_total policy).

(** The counts as they are, or within the limits *)
Definition counts (x y : Z) (w : world) : Prop := executions w = x /\ total w = y.
Definition fine (w : world) : Prop := executions w <= total w /\ executions w <= limit.
Definition spent (w : world) : Prop := executions w <= limit.

Lemma executions_record a w : is_execution a = false -> executions (record a w) = executions w.
Proof. intros Ha. unfold executions. simpl. rewrite count_snoc, Ha. lia. Qed.

(** A relation that only looks at the two counts *)
Lemma counted_movable (I : Z -> Z -> Prop) : Movable (carries (fun w : world => I (executions w) (total w))).
Proof.
  split; unfold carries; try done.
  - intros l w [Hl _] H. unfold total in *. simpl. by rewrite Hl.
  - intros a w Ha. by rewrite executions_record by by apply plain_uncounted.
Qed.
Lemma counted_ends (I : Z -> Z -> Prop) : EndsRuns (carries (fun w : world => I (executions w) (total w))).
Proof. split; unfold carries; intros; rewrite executions_record; (done || by destruct e). Qed.

Lemma counts_movable x y : Movable (carries (counts x y)).
Proof. apply (counted_movable (fun a b => a = x /\ b = y)). Qed.
Lemma counts_ends x y : EndsRuns (carries (counts x y)).
Proof. apply (counted_ends (fun a b => a = x /\ b = y)). Qed.

(** The executor does not mark its results as reused. *)
Hypothesis honest : forall executor c t e r,
  env_executor = Some executor -> (executor c t e).1 = ExecReturns r -> reused r = false.

Definition executed (x y : Z) (result : ToolResult) (w : world) : Prop :=
  total w = y /\ (executions w = x \/ (executions w = x + 1 /\ reused result = false)).
Definition at_most (x : Z) (w : world) : Prop := executions w <= x.

Lemma executor_counts x y o c t :
  spec (counts x y) (run_executor repr o c t) (fun rs => executed x y (fst rs)) (at_most (x + 1)).
Proof.
  intros w r w' [Hx Hy] H. revert H. unfold run_executor. destruct env_executor as [executor|].
  2:{ intros ?. py_ends. split; [done|by left]. }
  unfold mbind, py_bind, log, modify, ask. simpl. destruct (executor c t (w_env w)) as [o' e'] eqn:Er. simpl.
  assert (executions (set_env e' (record (AExecute o c) w)) = x + 1) as Hx'
    by (unfold executions in *; simpl; rewrite count_snoc; simpl; lia).
  destruct o' as [result| | |]; try destruct (logs_readable _); intros ?; py_ends;
    first [split; [done|right; split; [done|]]|unfold at_most; lia]; try done.
  eapply honest; [reflexivity|]. by rewrite Er.
Qed.

Lemma exec_op_counts x y c ops t :
  spec (counts x y) (exec_op c ops t) (fun rs => executed x y (fst rs)) (at_most (x + 1)).
Proof.
  pose proof (counts_movable x y) as M. pose proof (carries_preorder (counts x y)) as P.
  assert (forall w, counts x y w -> at_most (x + 1) w) as Hat by (intros w [? _]; unfold at_most; lia).
  assert (forall rs : ToolResult * json, spec (counts x y) (mret rs : call _) (fun rs => executed x y (fst rs)) (at_most (x + 1)))
    as Hret by (intros rs; apply spec_ret; intros w [? ?]; split; [done|by left]).
  unfold execute_operation. destruct (_find_operation _ _ _ _) as [[o|] msg]; [|apply Hret].
  apply (spec_bind _ (fun _ => counts x y)); [by apply spec_carries; [apply moves_gate|]|intros [e|]; [apply Hret|]].
  apply (spec_bind _ (fun _ => counts x y)); [apply spec_carries; [walk|done]|intros args].
  apply (spec_bind _ (fun _ => counts x y)); [apply spec_carries; [walk|done]|intros [e|]; [apply Hret|]].
  apply (spec_bind _ (fun _ => counts x y)).
  { apply spec_carries; [|done]. unfold _ensure_confirmation_if_required. walk. apply moves_present_tokens; [done..|].
    intros t1 t2 token w v. unfold carries, counts, executions. simpl. rewrite count_snoc. simpl. by rewrite Z.add_0_r. }
  intros _. apply (spec_bind _ (fun _ => counts x y)); [by apply spec_carries; [apply moves_maybe_reuse|]|].
  intros [result|]; [apply Hret|apply executor_counts].
Qed.

Lemma counted_yield_to_loop (I : Z -> Z -> Prop) e :
  preserves (carries (fun w : world => I (executions w) (total w))) (yield_to_loop stable_json sha256 cx e).
Proof.
  pose proof (counted_movable I) as M. apply moves_yield_to_loop; [apply _|].
  apply moves_yield_at; [apply _|done|]. intros w r w' [= <- <-] H. by rewrite executions_record.
Qed.

Lemma leaving_yield (I : Z -> Z -> Prop) e : leaves_loop e = true ->
  spec (fun w : world => I (executions w) (total w)) (yield_to_loop stable_json sha256 cx e) (fun _ _ => False)
    (fun w => I (executions w) (total w)).
Proof.
  intros He w r w' HI H. pose proof (counted_yield_to_loop I e _ _ _ H HI) as Hi. unfold yield_to_loop in H.
  rewrite He in H. apply bind_either in H as [(? & ? & _ & H)|(e' & _ & ->)]; [by py_ends|done].
Qed.

(** One more part of a computation that keeps [I]. *)
Ltac keeping I := apply (spec_bind I (fun _ => I)); [apply spec_carries; [|by auto]|intros ?].

(** After the execution: the result is reported and kept. *)
Definition within (used : Z) (w : world) : Prop := executions w <= used /\ executions w <= limit.

Lemma report_counts z used y c b result sources : z <= used + (if reused result then 0 else 1) -> z <= limit ->
  spec (counts z y) (report_result repr stable_json sha256 dumps cx rq c b used result sources) (fun ux => within (fst ux)) spent.
Proof.
  intros Hu Hl. pose proof (counts_movable z y) as M. pose proof (carries_preorder (counts z y)) as P.
  assert (forall w, counts z y w -> spent w) as Hs by (intros w [? _]; unfold spent; lia).
  unfold report_result. keeping (counts z y); [walk|].
  keeping (counts z y); [apply (counted_yield_to_loop (fun a b => a = z /\ b = y))|].
  keeping (counts z y); [by apply moves_record_event|].
  keeping (counts z y); [apply moves_activate; [apply _|by intros ? ? ? ?]|].
  do 2 (keeping (counts z y); [walk|]). apply spec_ret. intros w [Hw _]. unfold within. rewrite Hw. split; [simpl|done]. destruct (reused result); lia.
Qed.

Lemma single_counts x y c id b : x <= y -> x <= limit ->
  spec (counts x y) (single c id b y) (fun ux => within (fst ux)) spent.
Proof.
  intros Hxy Hx. pose proof (counts_movable x y) as M. pose proof (counts_ends x y) as En.
  pose proof (carries_preorder (counts x y)) as P.
  assert (forall w, counts x y w -> spent w) as Hs by (intros w [? _]; unfold spent; lia).
  unfold _execute_single_operation_call. destruct (Z.leb_spec (max_tool_calls_total policy) y) as [Hmax|Hmax].
  { apply (spec_bind _ (fun _ _ => False)); [|intros; apply spec_False].
    intros w r w' HK H.
    pose proof (leaving_yield (fun a b => a = x /\ b = y) (fatal _ _) eq_refl _ _ _ HK H) as HQ. destruct r; [done|by apply Hs]. }
  keeping (counts x y); [apply (counted_yield_to_loop (fun a b => a = x /\ b = y))|].
  keeping (counts x y); [by apply moves_record_event|].
  apply (spec_bind _ (fun o w => exists rs, o = Some rs /\ executed x y (fst rs) w)).
  { apply (spec_try _ (at_most (x + 1))).
    - apply (spec_bind _ (fun rs => executed x y (fst rs))); [apply exec_op_counts|intros rs].
      apply spec_ret. intros w Hw. by exists rs.
    - assert (forall w, at_most (x + 1) w -> spent w) as Hat by (unfold at_most, spent, limit in *; lia).
      intros e. destruct e; try (intros w r w' Hw H; py_ends; by apply Hat).
      apply (spec_bind _ (fun _ _ => False)); [|intros; apply spec_False]. intros w r w' HK H.
      pose proof (leaving_yield (fun a b => a <= x + 1) (EvConfirmationRequired _) eq_refl _ _ _ HK H) as HQ.
      destruct r; [done|by apply Hat]. }
  intros [[result raw_sources]|]; [|by intros w r w' (? & [=] & _)].
  intros w r w' (rs & [= <-] & [Hy Hex]). simpl in Hex.
  apply (report_counts (executions w) y y c b result raw_sources); [..|done]; unfold limit in *;
    destruct Hex as [Hz|[Hz Hr]]; rewrite Hz, ?Hr; try destruct (reused result); lia.
Qed.

Definition fine_counts (x y : Z) : Prop := x <= y /\ x <= limit.
Lemma fine_spent w : fine w -> spent w.
Proof. by intros [_ ?]. Qed.
#[local] Hint Resolve fine_spent : core.
Lemma fine_movable : Movable (carries fine).
Proof. apply (counted_movable fine_counts). Qed.
Lemma fine_ends : EndsRuns (carries fine).
Proof. apply (counted_ends fine_counts). Qed.

Definition onward (o : outcome) (w : world) : Prop := match o with Continue => fine w | Return => spent w end.

Lemma spec_onward (m : call outcome) : preserves (carries fine) m -> spec fine m onward spent.
Proof.
  intros Hm. eapply spec_weaken; [apply (spec_carries fine spent); [done|apply fine_spent]|done|]. intros [] w Hw; [done|by apply fine_spent].
Qed.

Lemma calls_counts id b cs ty :
  spec fine (run_calls repr stable_json sha256 canonical_json dumps json_loads literal_eval py_float jsonschema secret cx rq
                id b cs ty) (fun o w => match o with Some _ => fine w | None => spent w end) spent.
Proof.
  revert ty. induction cs as [|c cs IH]; intros ty; simpl; [by apply spec_ret|].
  apply (spec_bind _ (fun ls w => fine w /\ ls = w_loop w)).
  { intros w r w' Hw H. unfold in_loop, gets in H. by py_ends. }
  intros ls. apply (spec_bind _ (fun o w => match o with Some (used, _) => within used w | None => spent w end)).
  - apply (spec_try _ spent); [|intros []; intros ? ? ? ? ?; by py_ends].
    apply (spec_bind _ (fun ux => within (fst ux))); [|intros [used text]; by apply spec_ret].
    intros w r w' [[Hu Hl] ->] H. by apply (single_counts (executions w) (total w) c id b Hu Hl w).
  - intros [[used text]|]; [|by apply spec_ret]. apply (spec_bind _ (fun _ => fine)).
    { intros w r w' Hw H. unfold update_loop, modify in H. by injection H as <- <-. }
    intros _. apply (spec_bind _ (fun _ => fine)); [|intros outs; apply IH].
    intros w r w' Hw H. unfold in_loop, gets in H. by py_ends.
Qed.

Lemma with_calls_counts step ids n raw_response raw cs :
  spec fine (with_calls repr stable_json sha256 canonical_json dumps indented json_loads literal_eval py_float jsonschema secret
                cx rq step ids n raw_response raw cs) onward spent.
Proof.
  pose proof fine_movable as M. pose proof fine_ends as En. pose proof (carries_preorder fine) as P.
  unfold with_calls. destruct (_ && _); [by apply spec_onward, moves_invalid_calls|].
  keeping fine; [walk|]. eapply spec_bind; [apply calls_counts|]. intros [t|]; [|by apply spec_ret].
  keeping fine; [walk|]. apply spec_onward.
  destruct (ty_failures t) as [|[f code] l]; [by apply moves_finish_step|].
  destruct (_ && _); [|by apply moves_finish_step].
  walk; first [by apply moves_ending|by apply moves_record_event|by apply moves_finish].
Qed.

Lemma step_body_counts n step : spec fine (body n step) onward spent.
Proof.
  pose proof fine_movable as M. pose proof fine_ends as En. pose proof (carries_preorder fine) as P.
  assert (forall e w, is_execution (AYield e) = false -> carries fine w (record (AYield e) w)) as Hy.
  { intros e w He Hw. unfold fine. by rewrite executions_record. }
  unfold step_body. keeping fine; [by apply moves_step_ids|]. do 2 (keeping fine; [walk|]).
  destruct (_ || _); [by apply spec_onward, moves_fail_run|].
  keeping fine; [by apply moves_record_event|]. keeping fine; [by apply moves_budget_snapshot|].
  apply (spec_bind fine (fun _ => fine)).
  { apply spec_carries; [|by auto]. apply moves_llm_turn; try done; intros; [by apply Hy|].
    apply moves_call_failed; try done. intros. by apply Hy. }
  intros [raw_response raw|o]; [|apply spec_onward; walk].
  keeping fine; [by apply moves_parse_answer|]. keeping fine; [by apply moves_read_calls|].
  destruct (negb _); [|apply with_calls_counts]. apply spec_onward, moves_no_calls; try done. intros. by apply Hy.
Qed.

Lemma loop_counts n step k : spec fine (the_loop n step k) (fun _ => spent) spent.
Proof.
  pose proof fine_movable as M. pose proof fine_ends as En. pose proof (carries_preorder fine) as P.
  revert step. induction k as [|k IH]; intros step; simpl.
  - apply (spec_weaken fine _ (fun _ => fine)); [apply spec_carries; [|by auto]|done|by auto].
    unfold steps_exhausted. walk; first [by apply moves_record_event|by apply moves_finish|by apply moves_ending
              |apply moves_synthesize_answer; try done; intros i m w Hw; unfold fine; by rewrite executions_record].
  - eapply spec_bind; [apply step_body_counts|]. intros []; [apply IH|by apply spec_ret].
Qed.

Lemma run_loop_counts n : spec fine (the_run_loop n) (fun _ => spent) spent.
Proof.
  pose proof (counted_movable (fun a _ => a <= limit)) as M. pose proof (counted_ends (fun a _ => a <= limit)) as En.
  unfold run_loop. apply (spec_try _ spent); [apply loop_counts|].
  intros e. apply (spec_weaken spent _ (fun _ => spent)); [|done..]. apply spec_carries; [|done].
  destruct e; walk; first [by apply (moves_ending stable_json sha256 cx _ M En)|by apply (moves_finish _ M En)].
Qed.

(** ** Repetitions of a failed question *)
Definition repetitions (w : world) : Z := count is_repetition (w_trace w).
Definition retries (k : Z) (w : world) : Prop :=
  repetitions w + k <= ls_retry_count (w_loop w) /\ repetitions w + k <= Z.max 0 (max_retries policy).
Definition retries_upto (n : Z) (w : world) : Prop := retries 0 w /\ repetitions w <= n.

Lemma repetitions_record a w : is_repetition a = false -> repetitions (record a w) = repetitions w.
Proof. intros Ha. unfold repetitions. simpl. by rewrite count_snoc, Ha, Z.add_0_r. Qed.

(** What only looks at the repetitions and survives more retries *)
Definition retry_tolerant (I : world -> Prop) : Prop :=
  forall w w', repetitions w' = repetitions w -> ls_retry_count (w_loop w) <= ls_retry_count (w_loop w') -> I w -> I w'.

Lemma tolerant_movable I : retry_tolerant I -> Movable (carries I).
Proof.
  intros HI. split; intros; intros ?; (eapply HI; [..|eassumption]); try done.
  - match goal with H : loop_moves _ _ |- _ => apply H end.
  - apply repetitions_record. by apply plain_uncounted.
Qed.
Lemma tolerant_ends I : retry_tolerant I -> EndsRuns (carries I).
Proof. intros HI. split; intros; intros ?; (eapply HI; [..|eassumption]); try done; apply repetitions_record; (done || by destruct e). Qed.

Lemma retries_tolerant k : retry_tolerant (retries k).
Proof. intros w w' He ? [? ?]. unfold retries. rewrite He. lia. Qed.
Lemma retries_upto_tolerant n : retry_tolerant (retries_upto n).
Proof. intros w w' He ? [? ?]. split; [by eapply retries_tolerant|by rewrite He]. Qed.

Lemma retries_call_failed step ids m c r a :
  preserves (carries (retries 0)) (call_failed stable_json sha256 cx rq step ids m c r a).
Proof.
  pose proof (tolerant_movable _ (retries_tolerant 0)) as M. pose proof (tolerant_ends _ (retries_tolerant 0)) as En.
  pose proof (tolerant_movable _ (retries_tolerant 1)) as M1. pose proof (carries_preorder (retries 0)) as P.
  enough (spec (retries 0) (call_failed stable_json sha256 cx rq step ids m c r a) (fun _ => retries 0) (retries 0)) as Hh.
  { intros w o w' H Hw. specialize (Hh _ _ _ Hw H). by destruct o. }
  unfold call_failed. apply (spec_bind _ retries_upto).
  { intros w o w' Hw H. unfold in_loop, gets in H. py_ends. split; [done|]. unfold retries in Hw. lia. }
  intros n. pose proof (tolerant_movable _ (retries_upto_tolerant n)) as Mn.
  assert (forall w, retries_upto n w -> retries 0 w) as Hn by by intros ? [? _].
  keeping (retries_upto n); [by apply moves_llm_response; [apply _|]|].
  destruct (r && _) eqn:Hwill.
  - apply andb_true_iff in Hwill as [_ Hwill%Z.ltb_lt]. apply (spec_bind _ (fun _ => retries 1)).
    { intros w o w' [Hw Hr] H. unfold update_loop, modify in H. injection H as <- <-. unfold retries in *. simpl.
      unfold repetitions in *. simpl. lia. }
    intros _. unfold protocol_retry. apply (spec_bind _ (fun _ => retries 0)); [|intros; apply spec_ret; done].
    assert (forall w, retries 1 w -> retries 0 w) as H1 by (unfold retries; lia).
    keeping (retries 1); [by apply moves_record_event; [apply _|]|].
    apply (spec_bind _ (fun _ => retries 0)); [|intros; apply spec_carries; [walk|done]].
    apply (spec_bind _ (fun _ => retries 0)); [|intros; by apply spec_carries; [apply moves_observe|]].
    intros w o w' [Hw1 Hw2] H. unfold log, modify in H. injection H as <- <-. unfold retries, repetitions in *. simpl.
    rewrite count_snoc. simpl. lia.
  - apply (spec_weaken (retries 0) _ (fun _ => retries 0)); [|done..]. apply spec_carries; [|done].
    walk; first [by apply moves_ending|by apply moves_finish].
Qed.

Lemma retries_run_loop n : preserves (carries (retries 0)) (the_run_loop n).
Proof.
  pose proof (tolerant_movable _ (retries_tolerant 0)) as M. pose proof (tolerant_ends _ (retries_tolerant 0)) as En.
  pose proof (carries_preorder (retries 0)) as P.
  assert (forall a w, is_repetition a = false -> carries (retries 0) w (record a w)) as Hrec.
  { intros a w Ha Hw. eapply retries_tolerant; [..|exact Hw]; [by apply repetitions_record|done]. }
  apply moves_run_loop; try done; try (intros; by apply Hrec); [by intros ? ? ?|intros; apply retries_call_failed|].
  intros c id b used. apply moves_single; try done; try (intros; by apply Hrec); [by intros ? ? ? ?|].
  intros t. apply moves_execute; try done; [|intros; by apply Hrec].
  intros t1 t2 token fp chat w v Hw. by apply Hrec, (mv_conf _ M).
Qed.

#[local] Abbreviation run := (execute repr stable_json sha256 canonical_json dumps dumps_sorted indented json_loads literal_eval
  py_float jsonschema tool_call_blocks json_blocks without_tool_call_blocks without_json_blocks secret cx rq).

Lemma plain_count p (l : list Action) : (forall a, plain a -> p a = false) -> Forall plain l -> count p l = 0.
Proof. intros Hp. unfold count. induction 1 as [|a l Ha Hl IH]; [done|]. simpl. by rewrite (Hp _ Ha). Qed.

End Bounds.
