(* ===== verification/AgentOutcome.v ===== *)
(** * How a run ends

    A run reports its end exactly once, and finishes its session exactly once unless
    its consumer leaves at the event that ended it. *)
From S2P Require Import Prelude.
From S2P Require Import Confirmation.
From S2P Require Import ToolLedger.
From S2P Require Import Operations.
From S2P Require Import Protocol.
From S2P Require Import OperationContext.
From S2P Require Import AgentTools.
From S2P Require Import Agent.
From S2P Require Import AgentErrors.
From S2P Require Import AgentProofs.
From S2P Require Import AgentSafety.
From S2P Require Import AgentBounds.
Open Scope Z_scope.

(** The event that ends a run, and the end of its session *)
Definition is_terminal (a : Action) : bool :=
  match a with AYield (EvFinal _ _ | EvError _ | EvConfirmationRequired _) => true | _ => false end.
Definition is_finish (a : Action) : bool := match a with AFinish _ _ => true | _ => false end.
Definition neutral (a : Action) : bool := negb (is_terminal a) && negb (is_finish a).

Definition tally_of (tr : list Action) : Z * Z := (count is_terminal tr, count is_finish tr).

Lemma tally_neutral tr a : neutral a = true -> tally_of (tr ++ [a]) = tally_of tr.
Proof.
  unfold neutral, tally_of. intros [Ht%negb_true_iff Hf%negb_true_iff]%andb_true_iff. rewrite !count_snoc, Ht, Hf. f_equal; lia.
Qed.

Section Outcome.
Context `{J : Jwt} {R E : Type} `{N : NonceStore R} `{V : AgentEnv E}.
Variables (repr : json -> string) (stable_json : json -> string) (sha256 : string -> string)
  (canonical_json : json -> string) (dumps dumps_sorted indented : json -> string)
  (json_loads literal_eval : string -> option json) (py_float : string -> option json)
  (jsonschema : option (odict json -> json -> result exn (option (string * string)))).
Variables (tool_call_blocks json_blocks : string -> list string)
  (without_tool_call_blocks without_json_blocks : string -> string).
Variables (secret : string) (cx : Context) (rq : AgentRequest).
#[local] Abbreviation world := (World R E).
#[local] Abbreviation call A := (py exn world A).
#[local] Abbreviation yield_ := (yield_ stable_json sha256 cx).

Definition ends (t : Z * Z) (w : world) : Prop := tally_of (w_trace w) = t.

(** What steady both counts; [X] after an exception *)
Section Keeps.
Context (t : Z * Z) (X : exn -> world -> Prop).
Definition steady {A} (m : call A) : Prop := triple (ends t) m (fun _ => ends t) X.

Lemma steady_bind {A B} (m : call A) (k : A -> call B) : steady m -> (forall a, steady (k a)) -> steady (m ≫= k).
Proof. apply triple_bind. Qed.
Lemma steady_ret {A} (a : A) : steady (mret a).
Proof. by apply triple_ret. Qed.
Lemma steady_gets {A} (f : world -> A) : steady (gets f).
Proof. intros w r w' Hw [= <- <-]. done. Qed.
Lemma steady_ask {A} (f : E -> A * E) : steady (ask f).
Proof. intros w r w' Hw [= <- <-]. done. Qed.
Lemma steady_modify f : (forall w, w_trace (f w) = w_trace w) -> steady (modify f : call unit).
Proof. intros Hf w r w' Hw [= <- <-]. unfold ends. by rewrite Hf. Qed.
Lemma steady_log a : neutral a = true -> steady (log a).
Proof. intros Ha w r w' Hw [= <- <-]. unfold ends. simpl. by rewrite tally_neutral. Qed.
Lemma steady_observe e : steady (observe stable_json sha256 cx e).
Proof. destruct e; try (by apply steady_ret); (apply steady_bind; [apply steady_ask|intros; by apply steady_modify]). Qed.
Lemma steady_yield e : neutral (AYield e) = true -> steady (yield_ e).
Proof. intros He. apply steady_bind; [by apply steady_log|intros; apply steady_observe]. Qed.
End Keeps.

Ltac keep_step :=
  match goal with
  | |- steady _ _ (mbind _ _) => apply steady_bind; [|intros ?]
  | |- steady _ _ (mret _) => apply steady_ret
  | |- steady _ _ get_state => apply (steady_gets _ _ id)
  | |- steady _ _ (gets _) => apply steady_gets
  | |- steady _ _ (in_loop _) => apply steady_gets
  | |- steady _ _ (now) => apply steady_ask
  | |- steady _ _ (uuid4) => apply steady_ask
  | |- steady _ _ (ask _) => apply steady_ask
  | |- steady _ _ (modify _) => apply steady_modify; done
  | |- steady _ _ (update_loop _) => apply steady_modify; done
  | |- steady _ _ (log _) => apply steady_log; reflexivity
  | |- steady _ _ (yield_ _) => apply steady_yield; reflexivity
  | |- steady _ _ (match ?x with _ => _ end) => destruct x
  end.
Ltac keep := repeat keep_step.

Section Calm.
Context (t : Z * Z) (X : exn -> world -> Prop).
#[local] Abbreviation calm := (steady t X).

Lemma calm_emit name : calm (_emit name).
Proof. unfold _emit. keep. Qed.
Lemma calm_record_event s : calm (record_event s).
Proof. unfold record_event. keep; apply calm_emit. Qed.
Lemma calm_journal l : calm (for_each (fun j => record_event j) l).
Proof. induction l; simpl; [keep|]. apply steady_bind; [apply calm_record_event|done]. Qed.
Lemma calm_session_start b o child root : calm (session_start b o child root).
Proof. unfold session_start. keep. Qed.
Lemma calm_announce b o child root : calm (announce_run stable_json sha256 cx rq b o child root).
Proof. unfold announce_run. keep; first [apply calm_session_start|apply calm_record_event]. Qed.
Lemma calm_budget_snapshot r s : calm (budget_snapshot stable_json sha256 cx r s).
Proof. unfold budget_snapshot. keep. Qed.
Lemma calm_read_calls l : calm (read_calls repr l).
Proof. induction l as [|d l IH]; simpl; keep; [|done]. unfold from_dict. keep. Qed.
Lemma calm_step_ids : calm step_ids.
Proof. unfold step_ids. keep. Qed.
Lemma calm_protocol_retry step reason ids d : calm (protocol_retry stable_json sha256 cx step reason ids d).
Proof. unfold protocol_retry. keep. apply calm_record_event. Qed.
Lemma calm_llm_response ids r s : calm (llm_response stable_json sha256 cx ids r s).
Proof. unfold llm_response. keep. Qed.
Lemma calm_invalid_calls step ids raw invalid : calm (invalid_calls stable_json sha256 cx rq step ids raw invalid).
Proof. unfold invalid_calls. keep. apply calm_record_event. Qed.
Lemma calm_deltas l : calm (yield_deltas stable_json sha256 cx l).
Proof. induction l; simpl; keep. done. Qed.
Lemma calm_activate c result : calm (_activate_collection_tools repr rq c result).
Proof. unfold _activate_collection_tools. keep. Qed.
Lemma calm_gate o : calm (_validate_collection_interaction o).
Proof. unfold _validate_collection_interaction. keep. Qed.
Lemma calm_reuse slug args : calm (maybe_reuse stable_json sha256 cx slug args).
Proof. unfold maybe_reuse. keep. Qed.
Lemma calm_present_tokens tokens chat fp : calm (present_tokens secret cx tokens chat fp).
Proof.
  induction tokens as [|x tokens IH]; simpl; [keep|]. destruct x; try done. destruct (str_empty _); [done|].
  by keep.
Qed.
End Calm.

(** *** Computations that raise before anything has ended *)
Definition clean (e : exn) (w : world) : Prop := e <> GeneratorExit /\ ends (0, 0) w.
#[local] Abbreviation tame := (steady (0, 0) clean).

Lemma triple_raise {A} e (Q : A -> world -> Prop) : e <> GeneratorExit -> triple (ends (0, 0)) (raise e : call A) Q clean.
Proof. intros He w r w' Hw H. by py_ends. Qed.
Lemma tame_raise {A} e : e <> GeneratorExit -> tame (raise e : call A).
Proof. apply triple_raise. Qed.

Lemma tame_of {A} (r : result exn A) : orderly r -> tame (of_result r).
Proof. intros Hr w r' w' Hw H. unfold of_result in H. injection H as <- <-. destruct r; [done|]. split; [|done]. intros ->. exact Hr. Qed.

Hypothesis jsonschema_orderly : forall validate schema args, jsonschema = Some validate -> orderly (validate schema args).

Lemma tame_execute c ops timeout :
  tame (execute_operation repr stable_json sha256 canonical_json dumps json_loads literal_eval py_float jsonschema secret cx
          c ops timeout).
Proof.
  unfold execute_operation. destruct (_find_operation _ _ _ _) as [[o|] msg]; [|keep].
  apply steady_bind; [apply calm_gate|intros [e|]; [keep|]].
  apply steady_bind; [apply tame_of, orderly_normalize_args|intros args].
  apply steady_bind; [by apply tame_of, orderly_validate_args|intros [e|]; [keep|]].
  apply steady_bind; [|intros _; apply steady_bind; [apply calm_reuse|intros [x|]; [keep|]]].
  - unfold _ensure_confirmation_if_required.
    keep; first [by apply tame_raise|apply calm_present_tokens].
  - unfold run_executor. keep. by apply tame_raise.
Qed.

Lemma tame_ask_model : tame (ask_model repr rq).
Proof.
  unfold ask_model. apply steady_bind; [keep|intros w].
  destruct (if ls_native (w_loop w) then _ else _); (apply steady_bind; [keep|intros [raw|m|m|c r a|c m|]]); simpl; try (by keep).
  apply steady_bind; [keep|intros _]. pose proof (orderly_normalize_response repr raw) as Ho.
  destruct (normalize_response repr raw) as [|[]]; try (by keep); exfalso; exact Ho.
Qed.

Lemma tame_stream messages : tame (stream_answer stable_json sha256 cx messages).
Proof. unfold stream_answer. keep; first [by apply tame_raise|apply calm_deltas]. Qed.

Lemma tame_synthesis : tame (synthesis repr stable_json sha256 dumps cx rq).
Proof. unfold synthesis. keep; first [apply tame_of, orderly_format_observation_text|apply tame_stream]. Qed.

Lemma tame_parse_answer raw_response raw :
  tame (parse_answer repr dumps_sorted json_loads tool_call_blocks json_blocks without_tool_call_blocks without_json_blocks
          rq raw_response raw).
Proof.
  unfold parse_answer. keep; apply tame_of; [apply orderly_parse_native|apply orderly_parse_llm_response].
Qed.

(** ** The end *)
Definition never : exn -> world -> Prop := fun _ _ => False.

Lemma ending_yield e j X : ending e -> triple (ends (0, j)) (yield_ e) (fun _ => ends (1, j)) X.
Proof.
  intros He w r w' Hw H. unfold ends, tally_of in *. destruct e; try done; injection H as <- <-; simpl; rewrite !count_snoc; simpl;
    injection Hw as -> ->; f_equal; lia.
Qed.

Lemma finish_session s e k X : triple (ends (k, 0)) (session_finish s e) (fun _ => ends (k, 1)) X.
Proof.
  unfold session_finish. apply (triple_bind _ (fun _ => ends (k, 1))).
  - intros w r w' Hw [= <- <-]. unfold ends, tally_of in *. simpl. rewrite !count_snoc. simpl. injection Hw as -> ->. f_equal; lia.
  - intros _. match goal with |- triple _ ?m _ _ => enough (steady (k, 1) X m) by done end. keep; apply calm_emit.
Qed.

(** The run is over: its session finished, or its consumer left at the last event. *)
Definition left_run (w : world) : Prop :=
  ends (1, 0) w /\ exists tr e, w_trace w = tr ++ [AYield e] /\ leaves_loop e = true.
Definition over (w : world) : Prop := ends (1, 1) w \/ left_run w.
Definition goes_on (o : outcome) (w : world) : Prop := match o with Continue => ends (0, 0) w | Return => over w end.
#[local] Abbreviation progress m := (triple (ends (0, 0)) m goes_on clean).

Lemma triple_steady {A} t X (m : call A) : steady t X m -> triple (ends t) m (fun _ => ends t) X.
Proof. done. Qed.

(** One more part that steady the counts *)
Ltac part := eapply triple_bind; [apply triple_steady|intros ?; cbv beta].
(** One more part, by its own triple *)
Ltac seq tac := eapply triple_bind; [tac|intros ?; cbv beta].

Lemma ends_fail_run m c j f : progress (fail_run stable_json sha256 cx m c j f).
Proof.
  unfold fail_run. seq ltac:(by apply ending_yield).
  part; [apply calm_journal|].
  seq ltac:(apply finish_session). apply triple_ret. intros. by left.
Qed.

Lemma ends_synthesize : triple (ends (0, 0)) (_synthesize_answer repr stable_json sha256 dumps cx rq) (fun _ => ends (1, 0)) clean.
Proof. unfold _synthesize_answer. part; [apply tame_synthesis|]. by apply ending_yield. Qed.

Lemma ends_handle_no_tool_calls parsed :
  triple (ends (0, 0)) (_handle_no_tool_calls repr stable_json sha256 dumps cx rq parsed) (fun _ => ends (1, 0)) clean.
Proof.
  unfold _handle_no_tool_calls. part; [keep|]. destruct (negb _).
  - do 2 (part; [keep|]). by apply ending_yield.
  - destruct (ls_tool_outputs _); [|apply ends_synthesize]. part; [keep|]. part; [apply tame_stream|]. by apply ending_yield.
Qed.

Lemma ends_complete X : triple (ends (1, 0)) (record_event "final_response" ≫= fun _ => session_finish "completed" None)
  (fun _ => ends (1, 1)) X.
Proof. part; [apply calm_record_event|]. apply finish_session. Qed.

Lemma ends_no_calls step ids n raw parsed : progress (no_calls repr stable_json sha256 dumps cx rq step ids n raw parsed).
Proof.
  unfold no_calls. part; [keep|]. rename a into ls.
  assert (progress (_ ← _handle_no_tool_calls repr stable_json sha256 dumps cx rq parsed;
                    _ ← record_event "final_response"; _ ← session_finish "completed" None; mret Return)) as Hanswer.
  { seq ltac:(apply ends_handle_no_tool_calls). part; [apply calm_record_event|].
    seq ltac:(apply finish_session). apply triple_ret. intros. by left. }
  destruct (ar_operations rq), (ls_tool_outputs ls); try exact Hanswer.
  part; [keep|]. destruct (Z.leb _ _); [apply ends_fail_run|]. destruct (Z.leb _ _); [apply ends_fail_run|].
  do 2 (part; [keep|]). part; [apply calm_protocol_retry|]. part; [keep|]. by apply triple_ret.
Qed.

Definition turned (t : turn) (w : world) : Prop := match t with Answered _ _ => ends (0, 0) w | Ended o => goes_on o w end.

Lemma ends_failed e m X : ending e ->
  triple (ends (0, 0)) (_ ← yield_ e; _ ← session_finish "failed" m; mret (Ended Return)) turned X.
Proof.
  intros He. seq ltac:(by apply ending_yield). seq ltac:(apply finish_session).
  apply triple_ret. intros. by left.
Qed.

Lemma ends_call_failed step ids m c r a : triple (ends (0, 0)) (call_failed stable_json sha256 cx rq step ids m c r a) turned clean.
Proof.
  unfold call_failed. part; [keep|]. part; [apply calm_llm_response|]. destruct (r && _); [|by apply ends_failed].
  part; [keep|]. part; [apply calm_protocol_retry|]. by apply triple_ret.
Qed.

Lemma ends_llm_turn step ids : triple (ends (0, 0)) (llm_turn repr stable_json sha256 cx rq step ids) turned clean.
Proof.
  unfold llm_turn. do 2 (part; [keep|]). eapply triple_bind; [apply triple_steady, tame_ask_model|intros answer; cbv beta].
  destruct answer as [[raw_response raw]|m|m|c r after|cls m|].
  - part; [apply calm_record_event|]. part; [apply calm_llm_response|]. by apply triple_ret.
  - eapply triple_bind; [apply triple_steady; keep|intros []; cbv beta]; [|by apply triple_raise]. part; [apply calm_llm_response|]. part; [keep|].
    part; [apply calm_protocol_retry|]. by apply triple_ret.
  - by apply ends_failed.
  - apply ends_call_failed.
  - apply ends_call_failed.
  - by apply triple_raise.
Qed.

(** *** One call: it raises at the event after which its consumer leaves. *)
Definition leaving (e : exn) (w : world) : Prop := match e with GeneratorExit => left_run w | _ => ends (0, 0) w end.

Lemma clean_leaving e w : clean e w -> leaving e w.
Proof. intros [He ?]. by destruct e. Qed.

Lemma leaves_at e A (k : call A) : leaves_loop e = true ->
  triple (ends (0, 0)) (yield_to_loop stable_json sha256 cx e ≫= fun _ => k) (fun _ => ends (0, 0)) leaving.
Proof.
  intros He w r w' Hw H. unfold yield_to_loop, AgentTools.yield_, log, modify, raise, mbind, py_bind in H. rewrite He in H.
  assert (w' = record (AYield e) w /\ r = Err GeneratorExit) as [-> ->] by (destruct e; try done; by injection H as <- <-).
  split; [|by exists (w_trace w), e]. unfold ends, tally_of in *. simpl. rewrite !count_snoc. injection Hw as -> ->. by destruct e.
Qed.

Lemma steady_yield_to_loop t X e : neutral (AYield e) = true -> steady t X (yield_to_loop stable_json sha256 cx e).
Proof. intros He. unfold yield_to_loop. destruct (leaves_loop e) eqn:El; [by destruct e|]. keep. by apply steady_yield. Qed.

Lemma ends_single c id b used :
  triple (ends (0, 0))
    (_execute_single_operation_call repr stable_json sha256 canonical_json dumps json_loads literal_eval py_float jsonschema
       secret cx rq c id b used) (fun _ => ends (0, 0)) leaving.
Proof.
  unfold _execute_single_operation_call. destruct (Z.leb _ _); [by apply leaves_at|].
  part; [by apply steady_yield_to_loop|]. part; [apply calm_record_event|].
  eapply triple_bind; [eapply (triple_try _ clean)|].
  - part; [apply tame_execute|]. apply (triple_ret _ _ (fun _ => ends (0, 0))). done.
  - intros [payload|cls m| |]; try (intros w r w' [Hc Hw] H; by py_ends).
    apply (triple_weaken (ends (0, 0)) _ (fun _ => ends (0, 0)) _ leaving);
      [by apply leaves_at|by intros ? [_ ?]|done..].
  - intros [[result sources]|]; [|by apply triple_ret]. unfold report_result.
    eapply triple_weaken; [|done|by intros ? ? Hw; exact Hw|apply clean_leaving].
    part; [apply tame_of, orderly_iter_items|]. part; [by apply steady_yield_to_loop|]. part; [apply calm_record_event|].
    part; [apply calm_activate|]. part; [keep|]. part; [apply tame_of, orderly_format_result|]. by apply triple_ret.
Qed.

Lemma ends_run_calls id b cs ty :
  triple (ends (0, 0))
    (run_calls repr stable_json sha256 canonical_json dumps json_loads literal_eval py_float jsonschema secret cx rq id b cs ty)
    (fun o w => match o with Some _ => ends (0, 0) w | None => left_run w end) clean.
Proof.
  revert ty. induction cs as [|c cs IH]; intros ty; simpl; [by apply triple_ret|]. part; [keep|].
  apply (triple_bind _ (fun o w => match o with Some _ => ends (0, 0) w | None => left_run w end)).
  - eapply triple_try; [seq ltac:(apply ends_single); by apply triple_ret|].
    intros [payload|cls m| |]; try (intros w r w' Hw H; by py_ends).
  - intros [[used text]|]; [|by apply triple_ret]. do 2 (part; [keep|]). apply IH.
Qed.

Lemma ends_finish_step n native raw_response raw l :
  progress (finish_step repr stable_json sha256 indented cx n native raw_response raw l).
Proof.
  unfold finish_step. part; [keep|]. destruct (Z.leb _ _); [apply ends_fail_run|].
  part; [apply tame_of, orderly_results_messages|]. part; [keep|]. by apply triple_ret.
Qed.

Lemma ends_with_calls step ids n raw_response raw cs :
  progress (with_calls repr stable_json sha256 canonical_json dumps indented json_loads literal_eval py_float jsonschema secret
              cx rq step ids n raw_response raw cs).
Proof.
  unfold with_calls. destruct (_ && _).
  { unfold invalid_calls. part; [keep|]. part; [apply calm_record_event|]. do 4 (part; [keep|]). by apply triple_ret. }
  part; [keep|]. eapply triple_bind; [apply ends_run_calls|]. intros [t|]; [|by apply triple_ret; intros; right].
  part; [keep|]. destruct (ty_failures t) as [|[f code] l]; [apply ends_finish_step|].
  destruct (_ && _); [|apply ends_finish_step].
  seq ltac:(by apply ending_yield). part; [apply calm_record_event|]. seq ltac:(apply finish_session).
  apply triple_ret. intros. by left.
Qed.

#[local] Abbreviation body := (step_body repr stable_json sha256 canonical_json dumps dumps_sorted indented json_loads literal_eval
  py_float jsonschema tool_call_blocks json_blocks without_tool_call_blocks without_json_blocks secret cx rq).
#[local] Abbreviation the_loop := (loop repr stable_json sha256 canonical_json dumps dumps_sorted indented json_loads literal_eval
  py_float jsonschema tool_call_blocks json_blocks without_tool_call_blocks without_json_blocks secret cx rq).
#[local] Abbreviation the_run_loop := (run_loop repr stable_json sha256 canonical_json dumps dumps_sorted indented json_loads
  literal_eval py_float jsonschema tool_call_blocks json_blocks without_tool_call_blocks without_json_blocks secret cx rq).
#[local] Abbreviation run := (execute repr stable_json sha256 canonical_json dumps dumps_sorted indented json_loads literal_eval
  py_float jsonschema tool_call_blocks json_blocks without_tool_call_blocks without_json_blocks secret cx rq).

Lemma ends_step_body n step : progress (body n step).
Proof.
  unfold step_body. part; [apply calm_step_ids|]. do 2 (part; [keep|]). destruct (_ || _); [apply ends_fail_run|].
  part; [apply calm_record_event|]. part; [apply calm_budget_snapshot|].
  eapply triple_bind; [apply ends_llm_turn|]. intros [raw_response raw|o]; [|by apply triple_ret]. cbn [turned].
  part; [apply tame_parse_answer|]. part; [apply calm_read_calls|].
  destruct (negb _); [apply ends_no_calls|apply ends_with_calls].
Qed.

Lemma ends_loop n step k : triple (ends (0, 0)) (the_loop n step k) (fun _ => over) clean.
Proof.
  revert step. induction k as [|k IH]; intros step; simpl.
  - unfold steps_exhausted. part; [keep|]. destruct (ls_tool_outputs _).
    + seq ltac:(by apply ending_yield). eapply triple_weaken; [apply finish_session|done|by intros; left|done].
    + seq ltac:(apply ends_synthesize). eapply triple_weaken; [apply ends_complete|done|by intros; left|done].
  - eapply triple_bind; [apply ends_step_body|]. intros []; [apply IH|by apply triple_ret].
Qed.

Lemma ends_run_loop n : triple (ends (0, 0)) (the_run_loop n) (fun _ => over) (fun e w => e = CancelledError /\ ends (0, 0) w).
Proof.
  unfold run_loop. eapply triple_try; [apply ends_loop|].
  intros [payload|cls m| |]; try (intros w r w' [Hc Hw] H; by py_ends);
    (apply (triple_weaken (ends (0, 0)) _ (fun _ => ends (1, 1)) _ never); [|by intros ? [_ ?]|by intros; left|by intros ? ? []]);
    seq ltac:(by apply ending_yield); apply finish_session.
Qed.

End Outcome.
