(* ===== verification/AgentDemo.v ===== *)
(** * A small run of an agent

    A model that reads a collection, deletes one of its documents with a confirmed
    call and answers: the inputs at which the properties of the agent are applied. *)
From stdpp Require Import pretty.
From S2P Require Import Prelude.
From S2P Require Import Confirmation.
From S2P Require Import ToolLedger.
From S2P Require Import Operations.
From S2P Require Import OperationsProofs.
From S2P Require Import Protocol.
From S2P Require Import OperationContext.
From S2P Require Import AgentTools.
From S2P Require Import Agent.
From S2P Require Import AgentErrors.
From S2P Require Import AgentProofs.
From S2P Require Import AgentSafety.
From S2P Require Import AgentCollections.
From S2P Require Import AgentBounds.
From S2P Require Import AgentOutcome.
Open Scope Z_scope.

(** Tokens that name the operation they confirm, and a store without Redis *)
#[local] Instance a_jwt : Jwt := {
  jwt_encode p _ := pl_fp p;
  jwt_decode token _ _ := Some {| pl_fp := token; pl_uid := "u"; pl_cid := "chat"; pl_iat := 0; pl_exp := 1000; pl_nonce := "n" |}
}.
#[local] Instance a_store : NonceStore unit := { set_nx _ _ _ r := (Some true, r); holds _ _ _ := True }.

Fixpoint a_text (v : json) : string :=
  match v with
  | JStr s => s
  | JInt z => pretty z
  | JList l => str_join "," (map a_text l)
  | JObj d => str_join "," (map (fun kv => kv.1 +:+ ":" +:+ a_text kv.2) d)
  | _ => "-"
  end.
Definition a_load (s : string) : option json :=
  if String.eqb s "{info}" then Some (JObj [("tool", JStr "docs.info"); ("arguments", JObj [("collection_slug", JStr "docs")])])
  else if String.eqb s "{delete}" then
    Some (JObj [("tool", JStr "docs.delete"); ("arguments", JObj [("collection_slug", JStr "docs"); ("id", JStr "7")])])
  else None.
Definition a_blocks (s : string) : list string := if String.prefix "{" s then [s] else [].

(** The model answers from a list, and every question to the clock takes a millisecond. *)
Definition a_executor (c : ToolCall) (_ : option Z) (e : list string * Z) : ExecOutcome * (list string * Z) :=
  (ExecReturns (tool_ok (JObj [("collection", JObj [("slug", JStr "docs")]);
                               ("tools", JList [JObj [("invoke_as", JStr "delete")]])]) []), e).
#[local] Instance a_env : AgentEnv (list string * Z) := {
  env_now e := (e.2, (e.1, e.2 + 1000));
  env_uuid e := ("id" +:+ pretty e.2, (e.1, e.2 + 1));
  env_executor := Some a_executor;
  env_call _ e := match e.1 with a :: l => (LlmReturns a, (l, e.2)) | [] => (LlmRaises "IndexError" "no answer", e) end;
  env_call_raw _ _ _ e := (LlmRaises "NotImplementedError" "native", e);
  env_stream _ e := (["fine"], StreamDone, e)
}.

Definition an_operation (slug name : string) (confirm : bool) : ResolvedOperation :=
  {| op_slug := slug; op_operation := name; op_scope := "collection"; op_description := None; op_input_schema := [];
     op_collection_slug := Some "docs"; op_risk_level := "high"; op_requires_confirmation := confirm; op_canonical_name := None |}.
Definition a_delete : ResolvedOperation := an_operation "docs.delete" "delete" true.
Definition a_request : AgentRequest :=
  {| ar_policy := {| max_llm_calls := 5; max_tool_calls_total := 4; max_wall_time_ms := 60000; tool_timeout_ms := 5000;
                     max_retries := 1 |};
     ar_platform := []; ar_overrides := JNull;
     ar_operations := [an_operation "docs.info" "collection.info" false; a_delete];
     ar_system_prompt := "system"; ar_input := []; ar_partial_warning := false;
     ar_tools_payload := fun _ => []; ar_synthesis_messages := fun _ _ => []; ar_required_instruction := "call" |}.

Definition a_call (id : string) : ToolCall :=
  {| tc_id := id; tc_tool_name := "docs.delete"; tc_arguments := JObj [("collection_slug", JStr "docs"); ("id", JStr "7")] |}.
Definition a_token : string := operation_fingerprint (fun s => s) a_text a_delete (a_call "").
Definition a_context : Context :=
  {| cx_user_id := "u"; cx_chat_id := Some "chat"; cx_confirmation_tokens := JList [JStr a_token];
     cx_confirmed_fingerprints := JNull; cx_reuse_enabled := true; cx_ledger := true; cx_iteration := 1;
     cx_agent_slug := "agent"; cx_phase_id := None |}.

Definition a_world : World unit (list string * Z) :=
  {| w_env := (["{info}"; "{delete}"; "done"], 0); w_conf := {| cs_redis := None; cs_fallback := [] |}; w_ledger := [];
     w_used_tool_calls := 0; w_gate := false; w_active := []; w_opened := []; w_loop := initial_loop a_request 0;
     w_logger := None;
     w_session := {| rs_run_id := None; rs_logger := None; rs_owns_root_journal := false; rs_inherited_logger := None |};
     w_trace := [] |}.

Definition a_run : result exn unit * World unit (list string * Z) :=
  execute a_text a_text (fun s => s) a_text a_text a_text a_text a_load (fun _ => None) (fun _ => None) None
    a_blocks (fun _ => []) (fun _ => "") (fun _ => "") "secret" a_context a_request false None (fun s => s) (fun s => s) a_world.

Definition a_done : World unit (list string * Z) := snd a_run.
Definition a_trace : list Action := w_trace a_done.
Definition executes (a : Action) : bool := match a with AExecute o _ => op_requires_confirmation o | _ => false end.
Fixpoint before (p : Action -> bool) (tr : list Action) : list Action :=
  match tr with [] => [] | a :: tr' => if p a then [] else a :: before p tr' end.
Definition a_before : list Action := before executes a_trace.

Lemma a_run_is : execute a_text a_text (fun s => s) a_text a_text a_text a_text a_load (fun _ => None) (fun _ => None) None
    a_blocks (fun _ => []) (fun _ => "") (fun _ => "") "secret" a_context a_request false None (fun s => s) (fun s => s) a_world
  = (fst a_run, a_done).
Proof. unfold a_done, a_run. apply surjective_pairing. Qed.

Lemma a_run_split : w_trace a_done = a_before ++ AExecute a_delete (a_call "id6005") :: drop (S (length a_before)) a_trace.
Proof. vm_compute. reflexivity. Qed.


Lemma a_distinct : NoDup (map op_slug (ar_operations a_request)).
Proof. by apply (bool_decide_unpack _). Qed.

Lemma collections_opened_first_witness : opened a_text a_request "docs" a_before.
Proof.
  refine (collections_opened_first a_text a_text (fun s => s) a_text a_text a_text a_text a_load (fun _ => None) (fun _ => None) None
    a_blocks (fun _ => []) (fun _ => "") (fun _ => "") "secret" a_context a_request a_distinct false None (fun s => s) (fun s => s) a_world a_done (fst a_run) a_before a_delete
    (a_call "id6005") (drop (S (length a_before)) a_trace) eq_refl a_run_is a_run_split eq_refl _). discriminate.
Defined.

Lemma a_honest executor c t (e : list string * Z) r :
  env_executor = Some executor -> (executor c t e).1 = ExecReturns r -> reused r = false.
Proof. simpl. intros He Hr. injection He as <-. simpl in Hr. injection Hr as <-. reflexivity. Qed.


Lemma a_run_returns : fst a_run = Ok tt.
Proof. vm_compute. reflexivity. Qed.

Lemma a_no_schema (validate : odict json -> json -> result exn (option (string * string))) schema args :
  None = Some validate -> orderly (validate schema args).
Proof. discriminate. Qed.


(** Another call in between, and the repetition is answered from the ledger. *)
Lemma recorded_result_reused_witness :
  exists e, find_successful_result a_text (fun s => s) 5000 "op" (JStr "x") REUSE_MAX_AGE_SECONDS
    (foldl (run_op a_text (fun s => s)) (register_result a_text (fun s => s) 2000 "c1" true (JInt 7)
       (register_call a_text (fun s => s) 1000 "op" "c1" (JStr "x") 1 None None [])) []) = Some e /\ le_status e = SUCCEEDED.
Proof.
  destruct (recorded_result_reused a_text (fun s => s) 1000 2000 5000 "op" "c1" (JStr "x") 1 None None (JInt 7) [] [])
    as (e & He & _ & _ & Hs); [discriminate| |constructor| |vm_compute; discriminate|exists e; exact (conj He Hs)].
  - apply Nat.leb_le. vm_compute. reflexivity.
  - apply Nat.ltb_lt. vm_compute. reflexivity.
Defined.

Definition a_native : json :=
  JObj [("choices", JList [JObj [("message", JObj [("tool_calls", JList [JObj [("function", JObj [("name", JStr "f")])]])])]])].
Lemma native_calls_once_witness :
  parse_native_tool_calls a_text a_load a_text a_native [("f", "")] = (Ok None, [("f", "")]).
Proof.
  apply (native_calls_once a_text a_load a_text a_native [] (found "" [native_dict "f" (JObj [])]) [("f", "")]);
    [constructor|vm_compute; reflexivity].
Defined.
