(* ===== verification/StructuredCall.v ===== *)
(** * The structured call of a model: runtime/llm/structured.py and
    services/model_call_config_service.py

    A call asks the model for JSON that a schema accepts, with retries.  The client of
    the model, the JSON printer and parser, the event sink and the schema are
    arguments.  Identifiers, durations and sizes in events are left out: they only
    describe the call. *)
From stdpp Require Import pretty.
From S2P Require Import Prelude.
From S2P Require Import Operations.
From S2P Require Import Protocol.
From S2P Require Import Agent.
From S2P Require Import Contracts.
Open Scope Z_scope.

(** ** Exceptions *)

(** What the client raises, timeouts apart. *)
Inductive CallError :=
| LLMProviderError (code safe_message : string) (retryable : bool) (retry_after_ms : option Z)
| OtherFailure (cls message : string).

Definition error_class (e : CallError) : string :=
  match e with LLMProviderError _ _ _ _ => "LLMProviderError" | OtherFailure cls _ => cls end.
Definition error_text (e : CallError) : string :=
  match e with LLMProviderError _ safe_message _ _ => safe_message | OtherFailure _ message => message end.
Definition error_code (e : CallError) : string :=
  match e with LLMProviderError code _ _ _ => code | OtherFailure _ _ => "llm_unknown_error" end.
Definition provider_retryable (e : CallError) : bool :=
  match e with LLMProviderError _ _ retryable _ => retryable | OtherFailure _ _ => true end.
Definition error_retry_after_ms (e : CallError) : option Z :=
  match e with LLMProviderError _ _ _ ms => ms | OtherFailure _ _ => None end.
Definition too_large (e : CallError) : bool :=
  match e with LLMProviderError code _ _ _ => String.eqb code "llm_request_too_large" | OtherFailure _ _ => false end.

Inductive call_exn :=
| StructuredCallError (message : string) (original_exception : option CallError)
| Cancelled                                  (* asyncio.CancelledError, no [Exception] *)
| Raised (e : Contracts.exn).

(** [int(v)], with the exceptions of this layer *)
Definition to_int (v : json) : result Contracts.exn Z :=
  match py_int v with
  | Ok z => Ok z
  | Err (PyError cls message) => Err (OtherError cls message)
  | Err _ => Err (OtherError "TypeError" "int()")
  end.

(** ** Model call configuration *)

(** A row of the registry of models *)
Record ModelRow := {
  mr_max_output_tokens : option Z;
  mr_extra_config : odict json;
  mr_request_timeout_s : option Z;
  mr_max_retries : option Z
}.

Record ModelCallConfig := { mc_max_output_tokens : option Z; mc_request_timeout_s : Z; mc_max_retries : Z }.

Definition opt_int (o : option Z) : json := match o with Some z => JInt z | None => JNull end.
(** [o or d] of an optional number *)
Definition or_int (o : option Z) (d : Z) : Z := match o with Some z => if Z.eqb z 0 then d else z | None => d end.

Definition default_call_config : ModelCallConfig :=
  {| mc_max_output_tokens := None; mc_request_timeout_s := 30; mc_max_retries := 2 |}.

Definition resolve_model (registry : string -> option ModelRow) (alias_or_provider_name : string)
    : result Contracts.exn ModelCallConfig :=
  if str_empty alias_or_provider_name then Ok default_call_config else
  match registry alias_or_provider_name with
  | None => Ok default_call_config
  | Some row =>
      let tokens := json_or (opt_int (mr_max_output_tokens row)) (jget "max_tokens" (mr_extra_config row)) in
      match (if truthy tokens then match to_int tokens with Ok z => Ok (Some z) | Err e => Err e end else Ok None) with
      | Err e => Err e
      | Ok max_tokens => Ok {| mc_max_output_tokens := max_tokens;
                               mc_request_timeout_s := Z.max 1 (or_int (mr_request_timeout_s row) 30);
                               mc_max_retries := Z.max 0 (default 2 (mr_max_retries row)) |}
      end
  end.

(** ** Responses of the model *)

Section Text.
Variables (repr : json -> string) (json_loads : string -> option json).

(** [c0 = choices[0].get("message") or {}], [c0.get("content")]; [None] where an
    exception is swallowed. *)
Definition choice_content (choices : json) : option json :=
  match choices with
  | JList (JObj c :: _) => match json_or (jget "message" c) (JObj []) with JObj m => Some (jget "content" m) | _ => None end
  | _ => None
  end.

Definition _extract_text (response : json) : string :=
  let text := py_str repr (json_or response (JStr "")) in
  match response with
  | JStr s => s
  | JObj r =>
      let direct := match json_or (jget "content" r) (jget "text" r) with JStr s => s | _ => text end in
      let choices := json_or (jget "choices" r) (JList []) in
      if truthy choices then
        match choice_content choices with
        | Some (JStr s) => s
        | Some _ => direct
        | None => text
        end
      else direct
  | _ => text
  end.

(** What is left of [s] behind its last [c]: the greedy [.*] of a regular expression. *)
Fixpoint up_to_last (c : nat) (s : string) : option string :=
  match s with
  | EmptyString => None
  | String ch s' => match up_to_last c s' with
                    | Some r => Some (String ch r)
                    | None => if is_char c ch then Some (String ch EmptyString) else None
                    end
  end.

(** [_JSON_OBJECT.search]: an object or a list, up to the last closing bracket *)
Fixpoint json_object_search (s : string) : option string :=
  match s with
  | EmptyString => None
  | String ch s' =>
      match (if is_char 123 ch then up_to_last 125 s' else if is_char 91 ch then up_to_last 93 s' else None) with
      | Some r => Some (String ch r)
      | None => json_object_search s'
      end
  end.

Definition fence : string := "```".
(** [s[n:]] *)
Fixpoint str_drop (n : nat) (s : string) : string :=
  match n, s with S n', String _ s' => str_drop n' s' | _, _ => s end.

(** The lazy [.*?] up to the first [c] that white space and the closing fence follow. *)
Fixpoint up_to_fence (c : nat) (s : string) : option string :=
  match s with
  | EmptyString => None
  | String ch s' =>
      if is_char c ch && String.prefix fence (lstrip s') then Some (String ch EmptyString)
      else option_map (String ch) (up_to_fence c s')
  end.

(** What follows the opening fence: [(?:json)?\s*], then the object or the list *)
Definition fenced_block (s : string) : option string :=
  let s := lstrip (if String.prefix "json" (lower (str_take 4 s)) then str_drop 4 s else s) in
  match s with
  | String ch s' =>
      option_map (String ch)
        (if is_char 123 ch then up_to_fence 125 s' else if is_char 91 ch then up_to_fence 93 s' else None)
  | EmptyString => None
  end.

(** [_JSON_FENCE.search] *)
Fixpoint json_fence_search (s : string) : option string :=
  match (if String.prefix fence s then fenced_block (str_drop 3 s) else None) with
  | Some r => Some r
  | None => match s with String _ s' => json_fence_search s' | EmptyString => None end
  end.

Definition loads_found (found : option string) : option json :=
  match found with Some s => json_loads s | None => None end.

(** [_extract_json]: the text itself, a fenced block, or what the outermost brackets
    hold.  [Some JNull] is a text that says null. *)
Definition _extract_json (text : string) : option json :=
  let text := strip text in
  if str_empty text then None else
  match json_loads text with
  | Some v => Some v
  | None => match loads_found (json_fence_search text) with
            | Some v => Some v
            | None => loads_found (json_object_search text)
            end
  end.
End Text.

(** ** Schemas *)

(** What [typing.get_type_hints] tells the coercion of a field *)
Inductive hint := HintListStr | HintDictStrStr | HintOther.

Record Schema (T : Type) := {
  sc_name : string;
  sc_json_schema : result Contracts.exn json;                (* model_json_schema() *)
  sc_validate : json -> result Contracts.exn T;              (* model_validate *)
  sc_hints : option (list (string * hint))                   (* None: get_type_hints raises *)
}.
Arguments sc_name {T}. Arguments sc_json_schema {T}. Arguments sc_validate {T}. Arguments sc_hints {T}.

Section Coerce.
Variable repr : json -> string.

(** [v.get(a) or v.get(b) or v.get(c) or str(v)] *)
Definition first_field (keys : list string) (d : odict json) : json :=
  foldr (fun k v => json_or (jget k d) v) (JStr (repr (JObj d))) keys.

Definition coerce_item (keys : list string) (v : json) : json :=
  match v with
  | JStr _ => v
  | JObj d => first_field keys d
  | _ => JStr (repr v)
  end.

(** One object of a list that should have been a dictionary *)
Definition coerce_pair (acc : odict json) (item : json) : odict json :=
  match item with
  | JObj d =>
      let key := json_or (json_or (jget "id" d) (jget "name" d)) (JStr (pretty (Z.of_nat (length acc)))) in
      let value := first_field ["name"; "description"; "text"]%string d in
      od_set (py_str repr key) (JStr (py_str repr value)) acc
  | _ => acc
  end.

Definition coerce_field (h : hint) (v : json) : json :=
  match h, v with
  | HintListStr, JList l => JList (map (coerce_item ["text"; "name"; "description"]%string) l)
  | HintDictStrStr, JObj d => JObj (od_map (coerce_item ["name"; "description"; "text"]%string) d)
  | HintDictStrStr, JList l => JObj (foldl coerce_pair [] l)
  | _, _ => v
  end.

Definition coerce_one (d : odict json) (nh : string * hint) : odict json :=
  match od_get nh.1 d with Some v => od_set nh.1 (coerce_field nh.2 v) d | None => d end.

Definition _coerce_schema_types (hints : option (list (string * hint))) (data : json) : json :=
  match data, hints with
  | JObj d, Some hints => JObj (foldl coerce_one d hints)
  | _, _ => data
  end.

Inductive parse_error := NoJson | SchemaMismatch | ValidatorRaised (e : Contracts.exn).

(** [schema.model_validate(data)], then once more on the coerced data; only
    [ValidationError] is caught. *)
Definition validate_coerced {T} (schema : Schema T) (data : json) : parse_error + T :=
  match sc_validate schema data with
  | Ok v => inr v
  | Err (ValidationError _) =>
      match sc_validate schema (_coerce_schema_types (sc_hints schema) data) with
      | Ok v => inr v
      | Err (ValidationError _) => inl SchemaMismatch
      | Err e => inl (ValidatorRaised e)
      end
  | Err e => inl (ValidatorRaised e)
  end.

(** A text that says null is [None], as a text without JSON is. *)
Definition _parse_and_validate {T} (json_loads : string -> option json) (schema : Schema T) (raw : string) : parse_error + T :=
  match _extract_json json_loads raw with
  | None | Some JNull => inl NoJson
  | Some data => validate_coerced schema data
  end.
End Coerce.

(** ** Roles *)

(** [get_role_config]: the columns of the active role *)
Record RoleConfig := {
  rc_role_type : string;
  rc_prompt : string;                         (* compiled_prompt *)
  rc_identity : option string;
  rc_mission : option string;
  rc_rules : option string;
  rc_safety : option string;
  rc_output_requirements : option string;
  rc_examples : json;
  rc_model : option string;
  rc_temperature : json;
  rc_max_tokens : option Z;
  rc_timeout_s : option Z;
  rc_max_retries : option Z;
  rc_retry_backoff : option string
}.

Definition nl : string := String (Ascii.ascii_of_nat 10) "".
Definition opt_str (o : option string) : json := match o with Some s => JStr s | None => JNull end.
(** [role_override.get(field) if isinstance(role_override, dict) else None] *)
Definition override_get (field : string) (role_override : json) : json := jget field (as_dict role_override).
(** [v if v is not None else base] *)
Definition not_none (v base : json) : json := match v with JNull => base | _ => v end.

Definition _ROLE_PROMPT_SECTIONS : list (string * string * (RoleConfig -> option string)) :=
  [("identity", "IDENTITY", rc_identity); ("mission", "MISSION", rc_mission); ("rules", "RULES", rc_rules);
   ("safety", "SAFETY", rc_safety); ("output_requirements", "OUTPUT REQUIREMENTS", rc_output_requirements)]%string.

Definition planner_runtime_contract : string := "# PLANNER RUNTIME CONTRACT" +:+ nl +:+
  "Планер не формирует пользовательский ответ и не завершает план напрямую. Для любого ответа, включая " +:+
  "простой, добавь задачу с executor из available_agents; завершённый граф передаётся synthesizer-у " +:+
  "оркестратором.".

Definition compact_keywords : list string :=
  ["$defs"; "$ref"; "type"; "properties"; "required"; "items"; "additionalProperties"; "enum"; "const"; "anyOf"; "oneOf";
   "allOf"; "format"; "pattern"; "minLength"; "maxLength"; "minimum"; "maximum"; "minItems"; "maxItems"; "minProperties";
   "maxProperties"]%string.
(** What tells a schema from a dictionary of named schemas *)
Definition schema_markers : list string :=
  ["type"; "properties"; "items"; "$ref"; "anyOf"; "oneOf"; "allOf"; "enum"; "required"]%string.
Definition is_schema (d : odict json) : bool := existsb (fun kv => str_in kv.1 schema_markers) d.

Fixpoint _compact_response_schema (value : json) : json :=
  let compact_values d := map (fun kv => (kv.1, _compact_response_schema kv.2)) d in
  match value with
  | JList l => JList (map _compact_response_schema l)
  | JObj d =>
      JObj (if is_schema d then
              (fix compact (d : odict json) : odict json :=
                 match d with
                 | [] => []
                 | (key, item) :: d' =>
                     if str_in key compact_keywords then
                       (key, match item with
                             | JObj children =>
                                 if str_in key ["properties"; "$defs"]%string then JObj (compact_values children)
                                 else _compact_response_schema item
                             | _ => _compact_response_schema item
                             end) :: compact d'
                     else compact d'
                 end) d
            else compact_values d)
  | _ => value
  end.

(** The values of [for x in v] *)
Definition iterate (v : json) : result Contracts.exn (list json) :=
  match v with
  | JList l => Ok l
  | JStr s => Ok (chars s)
  | JObj d => Ok (map JStr (od_keys d))
  | _ => Err (TypeError "object is not iterable")
  end.

Section Prompt.
Variables (repr : json -> string) (dumps_indent : json -> string).

Definition prompt_section (rc : RoleConfig) (role_override : json) (s : string * string * (RoleConfig -> option string))
    : option string :=
  let val := not_none (override_get s.1.1 role_override) (opt_str (s.2 rc)) in
  if truthy val then Some ("# " +:+ s.1.2 +:+ nl +:+ py_str repr val) else None.

Definition role_key (s : string) : string := lower (strip s).

(** The schema and, for the planner, the contract of the runtime *)
Definition schema_sections (role_type : string) (generated_schema : json) : list string :=
  (if String.eqb role_type "planner" then [planner_runtime_contract] else []) ++
  ["# RUNTIME RESPONSE CONTRACT" +:+ nl +:+
   "Верни строго валидный JSON по следующей схеме (без markdown и пояснений):" +:+ nl +:+ dumps_indent generated_schema].

Definition example_sections (i : Z) (example : json) : list string :=
  let part field heading := match example with
                            | JObj d => if truthy (jget field d) then [heading +:+ ": " +:+ py_str repr (jget field d)] else []
                            | _ => []
                            end in
  ["## Example " +:+ pretty i] ++ part "description"%string "Description" ++ part "input"%string "Input" ++
  part "output"%string "Output" ++ [""%string].

Definition _compile_role_prompt {T} (rc : RoleConfig) (role_override : json) (schema : Schema T) : result Contracts.exn string :=
  let role_type := role_key (rc_role_type rc) in
  let sections := omap (prompt_section rc role_override) _ROLE_PROMPT_SECTIONS in
  let schema_parts :=
    if String.eqb role_type "synthesizer" then Ok []
    else match sc_json_schema schema with
         | Ok js => Ok (schema_sections role_type (_compact_response_schema js))
         | Err e => Err e
         end in
  let examples := not_none (override_get "examples" role_override) (rc_examples rc) in
  let example_parts :=
    if truthy examples then
      match iterate examples with
      | Ok l => Ok ("# EXAMPLES"%string :: concat (imap (fun i => example_sections (Z.of_nat i + 1)) l))
      | Err e => Err e
      end
    else Ok [] in
  match schema_parts, example_parts with
  | Ok b, Ok c =>
      Ok (match sections ++ b ++ c with
          | [] => or_str (Some (rc_prompt rc)) "You are a helpful assistant."
          | parts => str_join (nl +:+ nl) parts
          end)
  | Err e, _ | _, Err e => Err e
  end.
End Prompt.

(** ** The settings of a call *)

Record Settings := {
  st_model : string;
  st_temperature : json;
  st_timeout_s : Z;
  st_max_retries : Z;
  st_retry_backoff : string;
  st_max_tokens : option Z
}.

Section Settings.
Variables (repr : json -> string) (py_float : json -> result Contracts.exn json) (registry : string -> option ModelRow).

(** [((sandbox_overrides or {}).get("role_overrides") or {}).get(role_key)] *)
Definition role_override_of (sandbox_overrides : odict json) (key : string) : result Contracts.exn json :=
  match json_or (jget "role_overrides" sandbox_overrides) (JObj []) with
  | JObj o => Ok (jget key o)
  | _ => Err (AttributeError "get")
  end.

Definition model_of (rc : RoleConfig) (role_override : json) : string :=
  let v := override_get "model" role_override in
  if truthy v then py_str repr v else or_str (rc_model rc) "unknown".

Definition temperature_of (rc : RoleConfig) (role_override : json) : result Contracts.exn json :=
  match override_get "temperature" role_override with JNull => Ok (rc_temperature rc) | v => py_float v end.

Definition settings (rc : RoleConfig) (model : string) (temperature : json) : result Contracts.exn Settings :=
  match resolve_model registry model with
  | Err e => Err e
  | Ok mc =>
      Ok {| st_model := model; st_temperature := temperature;
            st_timeout_s := or_int (rc_timeout_s rc) (mc_request_timeout_s mc);
            st_max_retries := default (mc_max_retries mc) (rc_max_retries rc);
            st_retry_backoff := or_str (rc_retry_backoff rc) "exp";
            st_max_tokens := match rc_max_tokens rc with Some n => Some n | None => mc_max_output_tokens mc end |}
  end.

(** [params]: a schema that cannot be printed leaves a plain JSON answer. *)
Definition request_params {T} (st : Settings) (schema : Schema T) : odict json :=
  let with_temperature := match st_temperature st with JNull => [] | v => [("temperature", v)]%string end in
  let with_tokens := match st_max_tokens st with Some n => [("max_tokens", JInt n)]%string | None => [] end in
  with_temperature ++ with_tokens ++
  [("response_format",
    match sc_json_schema schema with
    | Ok js => JObj [("type", JStr "json_schema");
                     ("json_schema", JObj [("name", JStr (sc_name schema)); ("schema", _compact_response_schema js);
                                           ("strict", JBool false)])]
    | Err _ => JObj [("type", JStr "json_object")]
    end)]%string.
End Settings.

(** ** One call: [StructuredLLMCall.invoke] *)

(** What [wait_for(chat(...))] does *)
Inductive reply :=
| Response (v : json)
| TimedOut
| CallCancelled
| Failed (e : CallError).

Record ResponseEvent := {
  re_attempt : Z;
  re_status : string;
  re_terminal : bool;
  re_retryable : option bool;
  re_error : option (string * string);         (* error_type, error_code *)
  re_retry_after_ms : option Z;
  re_response : option string;
  re_result_kind : option string
}.

Inductive llm_event :=
| LlmRequest (max_tokens : json)
| LlmResponse (r : ResponseEvent)
| ProtocolRetry (attempt : Z) (reason : string) (retry_delay_ms : Z).

(** [RuntimeEvent.llm_response]: what is not retryable does not wait for a retry. *)
Definition llm_response (r : ResponseEvent) : llm_event :=
  LlmResponse
    (if bool_decide (re_retryable r = Some false) && String.eqb (re_status r) "waiting_retry"
     then {| re_attempt := re_attempt r; re_status := "failed"; re_terminal := true; re_retryable := re_retryable r;
             re_error := re_error r; re_retry_after_ms := re_retry_after_ms r; re_response := re_response r;
             re_result_kind := re_result_kind r |}
     else r).

(** What the outside has seen: the events, the parameters of every request and the
    delays slept *)
Record World := { w_events : list llm_event; w_requests : list (odict json); w_sleeps : list Z }.

(** The variables the loop carries *)
Record Locals := {
  l_params : odict json;
  l_last_error : option string;
  l_last_exception : option CallError;
  l_raw_response : string
}.

Record StructuredCallResult (T : Type) := {
  sr_value : T;
  sr_raw_response : string;
  sr_model : string;
  sr_request_messages : list json;
  sr_request_params : odict json
}.
Arguments sr_value {T}. Arguments sr_raw_response {T}. Arguments sr_model {T}.
Arguments sr_request_messages {T}. Arguments sr_request_params {T}.

(** The body of the loop goes on, breaks or returns. *)
Inductive step (T : Type) :=
| Next (l : Locals)
| Break (l : Locals)
| Return (value : T) (l : Locals).
Arguments Next {T}. Arguments Break {T}. Arguments Return {T}.

(** [_shrink_request_for_provider_limit] *)
Definition shrink_format (params : odict json) : odict json * bool :=
  match jget "response_format" params with
  | JObj f => match jget "type" f with
              | JStr t => if String.eqb t "json_schema"
                          then (od_set "response_format" (JObj [("type", JStr "json_object")]%string) params, true)
                          else (params, false)
              | _ => (params, false)
              end
  | _ => (params, false)
  end.
Definition shrink_tokens (params : odict json) : odict json * bool :=
  match jget "max_tokens" params with
  | JInt current => if 256 <? current then (od_set "max_tokens" (JInt (Z.max 256 (current / 2))) params, true)
                    else (params, false)
  | _ => (params, false)
  end.
Definition _shrink_request_for_provider_limit (params : odict json) : odict json * bool :=
  let '(params, format) := shrink_format params in
  let '(params, tokens) := shrink_tokens params in
  (params, format || tokens).

Definition non_retryable_patterns : list string :=
  ["error code: 413"; "request too large"; "context_length_exceeded"; "maximum context length"; "rate_limit_exceeded";
   "tokens per minute"]%string.
Definition _is_non_retryable_llm_error (e : CallError) : bool :=
  existsb (fun p => str_contains p (lower (error_text e))) non_retryable_patterns.

Definition llm_retry_delay_ms (attempt : Z) (retry_after_ms : option Z) (strategy : string) : Z :=
  let base_ms :=
    if String.eqb strategy "none" then 0
    else if String.eqb strategy "linear" then Z.min 10000 (500 * (attempt + 1))
    else Z.min 10000 (500 * 2 ^ Z.max 0 attempt) in
  match retry_after_ms with
  | None => base_ms
  | Some ms => Z.min 30000 (Z.max base_ms (Z.max 0 ms))
  end.

Section Invoke.
Variables (repr : json -> string) (json_loads : string -> option json)
  (dumps dumps_indent : json -> string) (py_float : json -> result Contracts.exn json)
  (registry : string -> option ModelRow).
(** The client answers by the number of requests before; the sink may raise, a sleep
    may be cancelled. *)
Variables (chat : nat -> odict json -> reply) (sink_raises : list llm_event -> option Contracts.exn)
  (sleep_cancelled : nat -> bool).
Variables (role_type : string) (journalled : bool).   (* event_sink and agent_execution_id are given *)
Context {T : Type}.
Variables (schema : Schema T) (fallback_factory : option (string -> result Contracts.exn T)).

Abbreviation call A := (py call_exn World A).

Definition emit_event (e : llm_event) : call unit := fun w =>
  if negb journalled then (Ok tt, w) else
  let w' := {| w_events := w_events w ++ [e]; w_requests := w_requests w; w_sleeps := w_sleeps w |} in
  match sink_raises (w_events w) with
  | Some e => (Err (Raised e), w')
  | None => (Ok tt, w')
  end.

Definition sleep (ms : Z) : call unit := fun w =>
  let w' := {| w_events := w_events w; w_requests := w_requests w; w_sleeps := w_sleeps w ++ [ms] |} in
  if sleep_cancelled (length (w_sleeps w)) then (Err Cancelled, w') else (Ok tt, w').

Definition send (params : odict json) : call reply := fun w =>
  (Ok (chat (length (w_requests w)) params),
   {| w_events := w_events w; w_requests := w_requests w ++ [params]; w_sleeps := w_sleeps w |}).

Section Attempts.
Variable st : Settings.

Definition emit_protocol_retry (attempt : Z) (reason : string) (retry_after_ms : option Z) : call unit :=
  if st_max_retries st <=? attempt then mret tt
  else emit_event (ProtocolRetry (attempt + 1) reason (llm_retry_delay_ms attempt retry_after_ms (st_retry_backoff st))).

Definition wait_before_retry (attempt : Z) (retry_after_ms : option Z) : call unit :=
  if st_max_retries st <=? attempt then mret tt
  else sleep (llm_retry_delay_ms attempt retry_after_ms (st_retry_backoff st)).

(** Both, and [continue] *)
Definition retry_with (attempt : Z) (reason : string) (retry_after_ms : option Z) (l : Locals) : call (step T) :=
  _ ← emit_protocol_retry attempt reason retry_after_ms;
  _ ← wait_before_retry attempt retry_after_ms;
  mret (Next l).

Definition failure_event (attempt : Z) (will_retry : bool) (cls code : string) (retryable : bool) (ms : option Z) : llm_event :=
  llm_response {| re_attempt := attempt + 1; re_status := if will_retry then "waiting_retry" else "failed";
                  re_terminal := negb will_retry; re_retryable := Some retryable; re_error := Some (cls, code);
                  re_retry_after_ms := ms; re_response := None; re_result_kind := None |}.

Definition answer_event (attempt : Z) (raw : string) (completed : bool) : llm_event :=
  llm_response {| re_attempt := attempt + 1; re_status := if completed then "completed" else "running";
                  re_terminal := completed; re_retryable := None; re_error := None; re_retry_after_ms := None;
                  re_response := Some raw;
                  re_result_kind := if completed then Some (if String.eqb (role_key role_type) "planner" then "plan" else "answer")
                                    else None |}.

(** [except asyncio.TimeoutError] *)
Definition timeout_error : CallError := OtherFailure "TimeoutError" ("llm_timeout after " +:+ pretty (st_timeout_s st) +:+ "s").
Definition on_timeout (attempt : Z) (l : Locals) : call (step T) :=
  _ ← emit_event (failure_event attempt (attempt <? st_max_retries st) "TimeoutError" "llm_timeout" true None);
  retry_with attempt "timeout" None
    {| l_params := l_params l;
       l_last_error := Some ("TimeoutError: " +:+ error_text timeout_error +:+ " (attempt " +:+ pretty (attempt + 1) +:+ ")");
       l_last_exception := Some timeout_error; l_raw_response := l_raw_response l |}.

(** [except Exception] *)
Definition on_failure (attempt : Z) (e : CallError) (l : Locals) : call (step T) :=
  let may_shrink := too_large e && (attempt <? st_max_retries st) in
  let '(params, adaptive_retry) :=
    if may_shrink then _shrink_request_for_provider_limit (l_params l) else (l_params l, false) in
  let fail_fast := negb (provider_retryable e) || _is_non_retryable_llm_error e in
  let will_retry := adaptive_retry || (provider_retryable e && negb fail_fast && (attempt <? st_max_retries st)) in
  let l' := {| l_params := params; l_last_error := Some (error_class e +:+ ": " +:+ error_text e);
               l_last_exception := Some e; l_raw_response := l_raw_response l |} in
  _ ← emit_event (failure_event attempt will_retry (error_class e) (error_code e) will_retry (error_retry_after_ms e));
  if fail_fast && negb adaptive_retry then mret (Break l')
  else retry_with attempt (if adaptive_retry then "reduce_request_size" else "transport_error") (error_retry_after_ms e) l'.

Definition schema_error_text (e : parse_error) : string :=
  match e with NoJson => "no JSON block detected in LLM response" | _ => "schema validation failed" end.

(** The response: empty, not what the schema wants, or the value *)
Definition on_response (attempt : Z) (response : json) (l : Locals) : call (step T) :=
  let raw := _extract_text repr response in
  let l' error := {| l_params := l_params l; l_last_error := error; l_last_exception := None; l_raw_response := raw |} in
  _ ← emit_event (answer_event attempt raw false);
  if str_empty raw then retry_with attempt "empty_response" None (l' (Some "empty_response"%string)) else
  match _parse_and_validate repr json_loads schema raw with
  | inr value => _ ← emit_event (answer_event attempt raw true); mret (Return value (l' (l_last_error l)))
  | inl (ValidatorRaised e) => raise (Raised e)
  | inl e => retry_with attempt "schema_validation" None (l' (Some (schema_error_text e)))
  end.

Definition attempt_once (attempt : Z) (l : Locals) : call (step T) :=
  _ ← emit_event (LlmRequest (jget "max_tokens" (l_params l)));
  r ← send (l_params l);
  match r with
  | CallCancelled => raise Cancelled
  | TimedOut => on_timeout attempt l
  | Failed e => on_failure attempt e l
  | Response v => on_response attempt v l
  end.

(** [for attempt in range(max_retries + 1)], [n] of them left *)
Fixpoint attempts (n : nat) (attempt : Z) (l : Locals) : call (option T * Locals) :=
  match n with
  | O => mret (None, l)
  | S n' =>
      s ← attempt_once attempt l;
      match s with
      | Next l' => attempts n' (attempt + 1) l'
      | Break l' => mret (None, l')
      | Return value l' => mret (Some value, l')
      end
  end.

Definition call_result (messages : list json) (l : Locals) (value : T) : StructuredCallResult T :=
  {| sr_value := value; sr_raw_response := l_raw_response l; sr_model := st_model st; sr_request_messages := messages;
     sr_request_params := l_params l |}.

Definition final_error (l : Locals) : call_exn :=
  StructuredCallError ("LLM failed to produce a valid " +:+ sc_name schema +:+ " after " +:+ pretty (st_max_retries st + 1) +:+
                       " attempts: " +:+ default "None"%string (l_last_error l)) (l_last_exception l).

(** All attempts failed: the fallback, when there is one *)
Definition fall_back (messages : list json) (l : Locals) : call (StructuredCallResult T) :=
  match fallback_factory with
  | Some fallback => match fallback (l_raw_response l) with
                     | Ok value => mret (call_result messages l value)
                     | Err _ => raise (final_error l)
                     end
  | None => raise (final_error l)
  end.

Definition call_model (messages : list json) : call (StructuredCallResult T) :=
  o ← attempts (Z.to_nat (st_max_retries st + 1)) 0
        {| l_params := request_params st schema; l_last_error := None; l_last_exception := None; l_raw_response := "" |};
  match o with
  | (Some value, l) => mret (call_result messages l value)
  | (None, l) => fall_back messages l
  end.
End Attempts.

(** The prompt: the caller's, or the one of the role *)
Definition system_prompt_of (system_prompt : option string) (rc : RoleConfig) (role_override : json) : result Contracts.exn string :=
  match some_str (default ""%string system_prompt) with
  | Some s => Ok s
  | None => _compile_role_prompt repr dumps_indent rc role_override schema
  end.

Definition lift {A} (r : result Contracts.exn A) : call A :=
  of_result (match r with Ok a => Ok a | Err e => Err (Raised e) end).

Definition invoke (role_config : result Contracts.exn RoleConfig) (payload : json) (system_prompt : option string)
    (sandbox_overrides : odict json) : call (StructuredCallResult T) :=
  rc ← lift role_config;
  role_override ← lift (role_override_of sandbox_overrides (role_key role_type));
  temperature ← lift (temperature_of py_float rc role_override);
  prompt ← lift (system_prompt_of system_prompt rc role_override);
  st ← lift (settings registry rc (model_of repr rc role_override) temperature);
  call_model st [chat_message "system" prompt; chat_message "user" (dumps payload)].
End Invoke.
