(* ===== verification/StructuredCallProofs.v ===== *)
(** * The structured call: bounds, outcome, journal

    What a call costs whatever the outside does ([call_bounded]), what it returns
    ([call_outcome]), what it tells the journal ([call_journal]), and which JSON it
    finds in a text ([wrapped_json_found]). *)
From stdpp Require Import pretty.
From S2P Require Import Prelude.
From S2P Require Import Operations.
From S2P Require Import Protocol.
From S2P Require Import Agent.
From S2P Require Import Contracts.
From S2P Require Import StructuredCall.
Open Scope Z_scope.

(** ** The delays *)
Lemma llm_retry_delay_bounds a ms strategy : 0 <= a -> 0 <= llm_retry_delay_ms a ms strategy <= 30000.
Proof.
  intros Ha. unfold llm_retry_delay_ms. pose proof (Z.pow_nonneg 2 (Z.max 0 a)).
  repeat case_match; lia.
Qed.

Lemma llm_retry_delay_unhinted a strategy : llm_retry_delay_ms a None strategy <= 10000.
Proof. unfold llm_retry_delay_ms. repeat case_match; lia. Qed.

(** ** The shrinking of a request *)
Lemma shrink_unchanged p q : _shrink_request_for_provider_limit p = (q, false) -> q = p.
Proof.
  unfold _shrink_request_for_provider_limit, shrink_format, shrink_tokens. intros H.
  repeat case_match; simplify_eq; simpl in *; simplify_eq; done.
Qed.

(** The ceiling is halved, but not under 256 *)
Lemma shrink_tokens_spec p q n m :
  shrink_tokens p = (q, true) -> jget "max_tokens" p = JInt n -> jget "max_tokens" q = JInt m -> 256 <= m < n.
Proof.
  unfold shrink_tokens. intros H Hn Hm. rewrite Hn in H. destruct (256 <? n) eqn:E; [|done]. injection H as <-.
  unfold jget in Hm. rewrite od_get_set_eq in Hm. simpl in Hm. injection Hm as <-.
  apply Z.ltb_lt in E. pose proof (Z.div_le_mono 256 n 2). pose proof (Z_div_lt n 2). lia.
Qed.

Section Calls.
Variables (repr : json -> string) (json_loads : string -> option json).
Variables (chat : nat -> odict json -> reply) (sink_raises : list llm_event -> option Contracts.exn)
  (sleep_cancelled : nat -> bool).
Variables (role_type : string) (journalled : bool).
Context {T : Type}.
Variables (schema : Schema T) (fallback_factory : option (string -> result Contracts.exn T)).

#[local] Abbreviation call A := (py call_exn World A).
#[local] Abbreviation attempt_once := (attempt_once repr json_loads chat sink_raises sleep_cancelled role_type journalled schema).
#[local] Abbreviation attempts := (attempts repr json_loads chat sink_raises sleep_cancelled role_type journalled schema).
#[local] Abbreviation call_model :=
  (call_model repr json_loads chat sink_raises sleep_cancelled role_type journalled schema fallback_factory).

(** ** What a computation costs *)

Definition slept (d : Z) : Prop := 0 <= d <= 30000.

(** At most [k] requests and [s] sleeps of at most 30 seconds, also when it raises *)
Definition costs {A} (k s : Z) (m : call A) : Prop := forall w r w', m w = (r, w') ->
  exists q d, w_requests w' = w_requests w ++ q /\ w_sleeps w' = w_sleeps w ++ d /\
    Z.of_nat (length q) <= k /\ Z.of_nat (length d) <= s /\ Forall slept d.

Lemma costs_pure {A} k s (r : result call_exn A) : 0 <= k -> 0 <= s -> costs k s (fun w => (r, w)).
Proof. intros ? ? w r' w' [= <- <-]. exists [], []. rewrite !app_nil_r. repeat split; [done..|by constructor]. Qed.

Lemma costs_bind {A B} k s k' s' (m : call A) (f : A -> call B) :
  0 <= k' -> 0 <= s' -> costs k s m -> (forall a, costs k' s' (f a)) -> costs (k + k') (s + s') (m ≫= f).
Proof.
  intros Hk Hs Hm Hf w r w'. unfold mbind, py_bind. destruct (m w) as [[a|e] w1] eqn:Em.
  - intros Hr. destruct (Hm _ _ _ Em) as (q & d & Eq & Ed & ? & ? & ?), (Hf _ _ _ _ Hr) as (q' & d' & Eq' & Ed' & ? & ? & ?).
    exists (q ++ q'), (d ++ d'). rewrite Eq', Ed', Eq, Ed, !app_assoc, !length_app. rewrite Forall_app. repeat split; try done; lia.
  - intros [= <- <-]. destruct (Hm _ _ _ Em) as (q & d & ? & ? & ? & ? & ?). exists q, d. repeat split; try done; lia.
Qed.

Lemma costs_weaken {A} k s k' s' (m : call A) : costs k s m -> k <= k' -> s <= s' -> costs k' s' m.
Proof. intros Hm ? ? w r w' H. destruct (Hm _ _ _ H) as (q & d & ? & ? & ? & ? & ?). exists q, d. repeat split; try done; lia. Qed.

Lemma costs_emit e : costs 0 0 (emit_event sink_raises journalled e).
Proof.
  intros w r w'. unfold emit_event. repeat case_match; intros [= <- <-]; exists [], []; simpl;
    rewrite !app_nil_r; repeat split; try done; by constructor.
Qed.

Lemma costs_send p : costs 1 0 (send chat p).
Proof. intros w r w' [= <- <-]. exists [p], []. simpl. rewrite app_nil_r. repeat split; [done..|by constructor]. Qed.

Lemma costs_sleep ms : slept ms -> costs 0 1 (sleep sleep_cancelled ms).
Proof.
  intros Hms w r w'. unfold sleep. case_match; intros [= <- <-]; exists [], [ms]; simpl; rewrite app_nil_r;
    repeat split; try done; by apply Forall_singleton.
Qed.

(** What an attempt still may sleep *)
Definition sleeps_left (st : Settings) (a : Z) : Z := if a <? st_max_retries st then 1 else 0.

Lemma costs_retry st a reason ms l :
  0 <= a -> costs 0 (sleeps_left st a) (retry_with sink_raises sleep_cancelled journalled (T := T) st a reason ms l).
Proof.
  intros Ha. unfold retry_with, emit_protocol_retry, wait_before_retry, sleeps_left.
  destruct (Z.leb_spec (st_max_retries st) a), (Z.ltb_spec a (st_max_retries st)); try lia; try by apply costs_pure.
  apply (costs_bind 0 0 0 1); [lia..|apply costs_emit|]. intros _.
  apply (costs_bind 0 1 0 0); [lia..| |intros _; by apply costs_pure]. apply costs_sleep. by apply llm_retry_delay_bounds.
Qed.

Lemma sleeps_left_nonneg st a : 0 <= sleeps_left st a.
Proof. unfold sleeps_left. by case_match. Qed.

Lemma costs_after_emit {A} s e (m : call A) :
  0 <= s -> costs 0 s m -> costs 0 s (emit_event sink_raises journalled e ≫= fun _ => m).
Proof. intros Hs Hm. apply (costs_bind 0 0 0 s); [done..|apply costs_emit|by intros _]. Qed.

Lemma costs_attempt st a l : 0 <= a -> costs 1 (sleeps_left st a) (attempt_once st a l).
Proof.
  intros Ha. pose proof (sleeps_left_nonneg st a) as Hs. unfold StructuredCall.attempt_once.
  apply (costs_bind 0 0 1 (sleeps_left st a)); [lia..|apply costs_emit|]. intros _.
  apply (costs_bind 1 0 0 (sleeps_left st a)); [lia..|apply costs_send|]. intros [v| | |e].
  - unfold on_response. apply costs_after_emit; [done|]. case_match; [by apply costs_retry|].
    case_match; [|apply costs_after_emit; [done|]; by apply costs_pure].
    case_match; try by apply costs_retry. by apply costs_pure.
  - apply costs_after_emit; [done|]. by apply costs_retry.
  - by apply costs_pure.
  - unfold on_failure. destruct (if too_large e && _ then _ else _) as [params adaptive].
    apply costs_after_emit; [done|]. case_match; [by apply costs_pure|by apply costs_retry].
Qed.

Lemma costs_attempts st n a l :
  0 <= a -> Z.of_nat n <= st_max_retries st - a + 1 -> costs (Z.of_nat n) (Z.max 0 (st_max_retries st - a)) (attempts st n a l).
Proof.
  revert a l. induction n as [|n IH]; intros a l Ha Hn; [apply costs_pure; lia|]. simpl.
  apply (costs_weaken (1 + Z.of_nat n) (sleeps_left st a + Z.max 0 (st_max_retries st - (a + 1)))); [| |].
  - apply costs_bind; [lia..|by apply costs_attempt|]. intros [l'|l'|v l']; [apply IH; lia|apply costs_pure; lia..].
  - lia.
  - unfold sleeps_left. destruct (Z.ltb_spec a (st_max_retries st)); lia.
Qed.

Lemma costs_call_model st messages :
  costs (Z.max 0 (st_max_retries st + 1)) (Z.max 0 (st_max_retries st)) (call_model st messages).
Proof.
  unfold StructuredCall.call_model.
  apply (costs_weaken (Z.of_nat (Z.to_nat (st_max_retries st + 1)) + 0) (Z.max 0 (st_max_retries st - 0) + 0)); [|lia..].
  destruct (Z.ltb_spec (st_max_retries st) 0) as [Hneg|Hpos].
  - replace (Z.to_nat (st_max_retries st + 1)) with 0%nat by lia. apply costs_bind; [lia..| |].
    + simpl. apply costs_pure; lia.
    + intros [[v|] l]; [by apply costs_pure|]. unfold fall_back. repeat case_match; by apply costs_pure.
  - apply costs_bind; [lia..|apply costs_attempts; lia|].
    intros [[v|] l]; [by apply costs_pure|]. unfold fall_back. repeat case_match; by apply costs_pure.
Qed.

(** *** The value returned is one the schema validated *)

Definition validated (v : T) : Prop := exists data, sc_validate schema data = Ok v.

Definition validates (m : call (step T)) : Prop := forall w s w', m w = (s, w') ->
  match s with Ok (Return v _) => validated v | _ => True end.

Lemma validates_bind {A} (m : call A) f : (forall a, validates (f a)) -> validates (m ≫= f).
Proof. intros Hf w s w'. unfold mbind, py_bind. destruct (m w) as [[a|e] w1]; [apply Hf|by intros [= <- <-]]. Qed.
Lemma validates_next l : validates (mret (Next l)).
Proof. by intros w s w' [= <- <-]. Qed.

Lemma validates_retry st a reason ms l : validates (retry_with sink_raises sleep_cancelled journalled st a reason ms l).
Proof. apply validates_bind. intros _. apply validates_bind. intros _. apply validates_next. Qed.

Lemma parsed_validated raw v : _parse_and_validate repr json_loads schema raw = inr v -> validated v.
Proof.
  unfold _parse_and_validate, validate_coerced. intros H. repeat case_match; simplify_eq; by eexists.
Qed.

Lemma validates_attempt st a l : validates (attempt_once st a l).
Proof.
  apply validates_bind. intros _. apply validates_bind. intros [v| | |e].
  - apply validates_bind. intros _. case_match; [apply validates_retry|].
    destruct (_parse_and_validate repr json_loads schema _) as [[| |e]|value] eqn:Ep;
      [apply validates_retry..|by intros w s w' [= <- <-]|].
    apply validates_bind. intros _ w s w' [= <- <-]. by apply parsed_validated in Ep.
  - apply validates_bind. intros _. apply validates_retry.
  - by intros w s w' [= <- <-].
  - unfold on_failure. destruct (if too_large e && _ then _ else _) as [params adaptive]. apply validates_bind. intros _.
    case_match; [by intros w s w' [= <- <-]|apply validates_retry].
Qed.

Lemma attempts_validated st n a l w v l' w' : attempts st n a l w = (Ok (Some v, l'), w') -> validated v.
Proof.
  revert a l w. induction n as [|n IH]; intros a l w; [done|]. simpl. unfold mbind, py_bind.
  destruct (attempt_once st a l w) as [[[l1|l1|v1 l1]|e] w1] eqn:Ea; try done; [apply IH|].
  intros [= <- <- <-]. exact (validates_attempt _ _ _ _ _ _ Ea).
Qed.

(** Without a fallback *)
Lemma call_validated st messages w r w' :
  fallback_factory = None -> call_model st messages w = (Ok r, w') -> validated (sr_value r).
Proof.
  intros Hf. unfold StructuredCall.call_model, mbind at 1, py_bind at 1.
  destruct (attempts _ _ _ _ w) as [[[[v|] l]|e] w1] eqn:Ea; [| |done].
  - intros [= <- <-]. by eapply attempts_validated.
  - unfold fall_back. by rewrite Hf.
Qed.

(** *** The whole call *)
Section Whole.
Variables (dumps dumps_indent : json -> string) (py_float : json -> result Contracts.exn json)
  (registry : string -> option ModelRow).
#[local] Abbreviation invoke :=
  (invoke repr json_loads dumps dumps_indent py_float registry chat sink_raises sleep_cancelled role_type journalled
     schema fallback_factory).

(** A call is its settings, then the attempts *)
Lemma invoke_settings rc payload prompt overrides w r w' :
  invoke rc payload prompt overrides w = (r, w') ->
  (w' = w /\ exists e, r = Err (Raised e)) \/
  exists config ov temperature st messages, rc = Ok config /\
    role_override_of overrides (role_key role_type) = Ok ov /\ temperature_of py_float config ov = Ok temperature /\
    settings registry config (model_of repr config ov) temperature = Ok st /\ call_model st messages w = (r, w').
Proof.
  unfold StructuredCall.invoke, lift, mbind, py_bind, of_result. intros H.
  destruct rc as [config|e]; [|injection H as <- <-; eauto].
  destruct (role_override_of _ _) as [ov|e] eqn:E1; [|injection H as <- <-; eauto].
  destruct (temperature_of _ _ _) as [temperature|e] eqn:E2; [|injection H as <- <-; eauto].
  destruct (system_prompt_of _ _ _ _ _ _) as [sp|e]; [|injection H as <- <-; eauto].
  destruct (settings _ _ _ _) as [st|e] eqn:E3; [|injection H as <- <-; eauto].
  right. eauto 12.
Qed.

(** C14: Whatever the model, the sink and the clock do, and however it ends, a call that
    gets as far as its settings makes at most one request more than the retries they
    allow and sleeps at most as often as they say, each time at most 30 seconds; a
    call that does not get that far does nothing. *)
Theorem call_bounded rc payload prompt overrides w r w' :
  invoke rc payload prompt overrides w = (r, w') ->
  (w' = w /\ exists e, r = Err (Raised e)) \/
  exists config ov temperature st requests sleeps, rc = Ok config /\
    role_override_of overrides (role_key role_type) = Ok ov /\ temperature_of py_float config ov = Ok temperature /\
    settings registry config (model_of repr config ov) temperature = Ok st /\
    w_requests w' = w_requests w ++ requests /\ w_sleeps w' = w_sleeps w ++ sleeps /\
    Z.of_nat (length requests) <= Z.max 0 (st_max_retries st + 1) /\
    Z.of_nat (length sleeps) <= Z.max 0 (st_max_retries st) /\ Forall slept sleeps.
Proof.
  intros [?|(config & ov & t & st & messages & ? & ? & ? & ? & Hc)]%invoke_settings; [by left|right].
  destruct (costs_call_model st messages _ _ _ Hc) as (q & d & ? & ? & ? & ? & ?).
  exists config, ov, t, st, q, d. done.
Qed.
Lemma invoke_validated rc payload prompt overrides w r w' :
  fallback_factory = None -> invoke rc payload prompt overrides w = (Ok r, w') -> validated (sr_value r).
Proof.
  intros Hf [[_ [e He]]|(config & ov & t & st & messages & _ & _ & _ & _ & Hc)]%invoke_settings; [done|].
  by eapply call_validated.
Qed.
End Whole.

(** ** What an attempt does, when neither the sink nor a sleep interferes *)

(** The answer of the model is empty or not what the schema wants *)
Definition bad_answer (v : json) : Prop :=
  let raw := _extract_text repr v in
  raw = ""%string \/ _parse_and_validate repr json_loads schema raw = inl NoJson \/
  _parse_and_validate repr json_loads schema raw = inl SchemaMismatch.

(** A failure that no retry can help *)
Definition hopeless (e : CallError) : bool := negb (provider_retryable e) || _is_non_retryable_llm_error e.

(** The attempt failed with [o], the exception of the transport *)
Definition misses (st : Settings) (r : reply) (o : option CallError) : Prop :=
  match r with
  | Response v => bad_answer v /\ o = None
  | TimedOut => o = Some (timeout_error st)
  | Failed e => o = Some e
  | CallCancelled => False
  end.

(** The parameters of the next request *)
Definition followed_by (r : reply) (p p' : odict json) : Prop :=
  p' = p \/ exists e, r = Failed e /\ too_large e = true /\ _shrink_request_for_provider_limit p = (p', true).

(** A reply after which the call goes on *)
Definition retriable (r : reply) (p p' : odict json) : Prop :=
  followed_by r p p' /\
  match r with
  | Response v => bad_answer v
  | TimedOut => True
  | Failed e => too_large e = true \/ hopeless e = false
  | CallCancelled => False
  end.

Inductive attempt_shape (st : Settings) (a : Z) (l : Locals) (r : reply)
  : result call_exn (step T) -> list llm_event -> list Z -> Prop :=
| shape_return v value l' : let raw := _extract_text repr v in
    r = Response v -> raw <> ""%string -> _parse_and_validate repr json_loads schema raw = inr value ->
    l_params l' = l_params l -> l_raw_response l' = raw ->
    attempt_shape st a l r (Ok (Return value l'))
      [LlmRequest (jget "max_tokens" (l_params l)); answer_event role_type a raw false; answer_event role_type a raw true] []
| shape_raised v e : let raw := _extract_text repr v in
    r = Response v -> raw <> ""%string -> _parse_and_validate repr json_loads schema raw = inl (ValidatorRaised e) ->
    attempt_shape st a l r (Err (Raised e))
      [LlmRequest (jget "max_tokens" (l_params l)); answer_event role_type a raw false] []
| shape_cancelled : r = CallCancelled ->
    attempt_shape st a l r (Err Cancelled) [LlmRequest (jget "max_tokens" (l_params l))] []
| shape_break e l' : r = Failed e -> hopeless e = true -> l_last_exception l' = Some e ->
    attempt_shape st a l r (Ok (Break l'))
      [LlmRequest (jget "max_tokens" (l_params l));
       failure_event a false (error_class e) (error_code e) false (error_retry_after_ms e)] []
| shape_retry l' mid reason d : a < st_max_retries st -> misses st r (l_last_exception l') ->
    retriable r (l_params l) (l_params l') -> re_terminal mid = false -> re_attempt mid = a + 1 ->
    attempt_shape st a l r (Ok (Next l'))
      [LlmRequest (jget "max_tokens" (l_params l)); LlmResponse mid; ProtocolRetry (a + 1) reason d] [d]
| shape_last l' mid : st_max_retries st <= a -> misses st r (l_last_exception l') ->
    re_terminal mid = bool_decide (is_Some (l_last_exception l')) -> re_attempt mid = a + 1 ->
    attempt_shape st a l r (Ok (Next l')) [LlmRequest (jget "max_tokens" (l_params l)); LlmResponse mid] [].

Section Quiet.
Hypothesis Hjournal : journalled = true.
Hypothesis sink_quiet : forall evs, sink_raises evs = None.
Hypothesis sleep_quiet : forall i, sleep_cancelled i = false.

(** The world with these events, requests and sleeps more *)
Definition push (w : World) (evs : list llm_event) (q : list (odict json)) (sl : list Z) : World :=
  {| w_events := w_events w ++ evs; w_requests := w_requests w ++ q; w_sleeps := w_sleeps w ++ sl |}.

Lemma push_push w e q s e' q' s' : push (push w e q s) e' q' s' = push w (e ++ e') (q ++ q') (s ++ s').
Proof. unfold push. simpl. by rewrite !app_assoc. Qed.
Lemma push_nil w : push w [] [] [] = w.
Proof. destruct w. unfold push. simpl. by rewrite !app_nil_r. Qed.

Lemma emit_quiet {A} e (m : call A) w : (emit_event sink_raises journalled e ≫= fun _ => m) w = m (push w [e] [] []).
Proof. unfold mbind, py_bind, emit_event, push. rewrite Hjournal, sink_quiet. simpl. by rewrite !app_nil_r. Qed.

Lemma send_quiet {A} p (f : reply -> call A) w :
  (send chat p ≫= f) w = f (chat (length (w_requests w)) p) (push w [] [p] []).
Proof. unfold mbind, py_bind, send, push. simpl. by rewrite !app_nil_r. Qed.

Lemma retry_quiet st a reason ms l w :
  retry_with sink_raises sleep_cancelled journalled (T := T) st a reason ms l w =
  if st_max_retries st <=? a then (Ok (Next l), w)
  else let d := llm_retry_delay_ms a ms (st_retry_backoff st) in
       (Ok (Next l), push w [ProtocolRetry (a + 1) reason d] [] [d]).
Proof.
  unfold retry_with, emit_protocol_retry, wait_before_retry. destruct (st_max_retries st <=? a); [done|].
  rewrite emit_quiet. unfold mbind, py_bind, sleep, push. rewrite sleep_quiet. simpl. by rewrite !app_nil_r.
Qed.

Lemma miss_quiet st a l l' r mid reason ms w :
  misses st r (l_last_exception l') -> retriable r (l_params l) (l_params l') -> re_attempt mid = a + 1 ->
  re_terminal mid = (if a <? st_max_retries st then false else bool_decide (is_Some (l_last_exception l'))) ->
  exists evs sl,
    retry_with sink_raises sleep_cancelled journalled (T := T) st a reason ms l'
      (push w [LlmRequest (jget "max_tokens" (l_params l)); LlmResponse mid] [l_params l] []) =
      (Ok (Next l'), push w evs [l_params l] sl) /\
    attempt_shape st a l r (Ok (Next l')) evs sl.
Proof.
  intros Hm Hr Ha Ht. rewrite retry_quiet. destruct (Z.leb_spec (st_max_retries st) a) as [Hle|Hlt].
  - destruct (Z.ltb_spec a (st_max_retries st)); [lia|]. eexists _, _. split; [reflexivity|]. by apply shape_last.
  - destruct (Z.ltb_spec a (st_max_retries st)); [|lia]. cbv zeta. rewrite push_push.
    eexists _, _. split; [reflexivity|]. by apply shape_retry.
Qed.

Lemma on_response_quiet st a l v w : exists s evs sl,
  on_response repr json_loads sink_raises sleep_cancelled role_type journalled schema st a v l
    (push w [LlmRequest (jget "max_tokens" (l_params l))] [l_params l] []) = (s, push w evs [l_params l] sl) /\
  attempt_shape st a l (Response v) s evs sl.
Proof.
  unfold on_response. set (raw := _extract_text repr v). rewrite emit_quiet, push_push. rewrite !app_nil_r. simpl.
  assert (Hbad : forall reason error, bad_answer v ->
    let l' := {| l_params := l_params l; l_last_error := error; l_last_exception := None; l_raw_response := raw |} in
    exists s evs sl, retry_with sink_raises sleep_cancelled journalled st a reason None l'
      (push w [LlmRequest (jget "max_tokens" (l_params l)); answer_event role_type a raw false] [l_params l] []) =
      (s, push w evs [l_params l] sl) /\ attempt_shape st a l (Response v) s evs sl).
  { intros reason error Hb l'. exists (Ok (Next l')). eapply miss_quiet; [by split|split; [by left|done]|done|].
    simpl. by case_match. }
  destruct (str_empty raw) eqn:Ee; [apply Hbad; left; by apply String.eqb_eq|].
  assert (Hne : raw <> ""%string) by (intros E; rewrite E in Ee; discriminate).
  destruct (_parse_and_validate repr json_loads schema raw) as [[| |e]|value] eqn:Ep.
  - apply Hbad. by right; left.
  - apply Hbad. by right; right.
  - eexists _, _, _. split; [reflexivity|]. by apply (shape_raised st a l (Response v) v e).
  - rewrite emit_quiet, push_push, !app_nil_r. eexists _, _, _. split; [reflexivity|].
    by apply (shape_return st a l (Response v) v value).
Qed.

Lemma on_failure_quiet st a l e w : exists s evs sl,
  on_failure sink_raises sleep_cancelled journalled (T := T) st a e l
    (push w [LlmRequest (jget "max_tokens" (l_params l))] [l_params l] []) = (s, push w evs [l_params l] sl) /\
  attempt_shape st a l (Failed e) s evs sl.
Proof.
  unfold on_failure. fold (hopeless e).
  destruct (if too_large e && (a <? st_max_retries st) then _ else _) as [params adaptive] eqn:Eshrink.
  assert (Hf : followed_by (Failed e) (l_params l) params /\ (adaptive = true -> too_large e = true /\ a < st_max_retries st)).
  { destruct (too_large e && (a <? st_max_retries st)) eqn:Et; [|injection Eshrink as <- <-; split; [by left|done]].
    apply andb_true_iff in Et as [Et Ea%Z.ltb_lt]. destruct adaptive; [|apply shrink_unchanged in Eshrink; split; [by left|done]].
    split; [right; eauto|done]. }
  destruct Hf as [Hf Had]. cbv zeta. rewrite emit_quiet, push_push. simpl.
  destruct (hopeless e && negb adaptive) eqn:Eb.
  - apply andb_true_iff in Eb as [Eh ->%negb_true_iff]. eexists _, _, _. split; [reflexivity|].
    rewrite Eh, !andb_false_r. by apply (shape_break st a l (Failed e) e).
  - assert (Hw : adaptive || provider_retryable e && negb (hopeless e) && (a <? st_max_retries st) = (a <? st_max_retries st)).
    { destruct adaptive; simpl.
      - symmetry. apply Z.ltb_lt. by apply Had.
      - rewrite andb_true_r in Eb. rewrite Eb. unfold hopeless in Eb. by apply orb_false_iff in Eb as [->%negb_false_iff _]. }
    rewrite Hw. clear Hw. eexists (Ok (Next _)).
    assert (Hr : retriable (Failed e) (l_params l) params).
    { split; [done|]. destruct adaptive; [left; by apply Had|right]. by rewrite andb_true_r in Eb. }
    destruct (a <? st_max_retries st) eqn:Ea; (eapply miss_quiet; [done|done|done|]); simpl; by rewrite Ea.
Qed.

Lemma attempt_quiet st a l w : exists s evs sl,
  attempt_once st a l w = (s, push w evs [l_params l] sl) /\
  attempt_shape st a l (chat (length (w_requests w)) (l_params l)) s evs sl.
Proof.
  unfold StructuredCall.attempt_once. rewrite emit_quiet, send_quiet, push_push. simpl.
  rewrite !app_nil_r. destruct (chat _ _) as [v| | |e].
  - apply on_response_quiet.
  - unfold on_timeout. rewrite emit_quiet, push_push. simpl.
    eexists (Ok (Next _)).
    destruct (a <? st_max_retries st) eqn:Ea; (eapply miss_quiet; [done|by split; [left|]|done|]); simpl; by rewrite Ea.
  - eexists _, _, _. split; [reflexivity|]. by apply shape_cancelled.
  - apply on_failure_quiet.
Qed.

(** ** The attempts of a call *)

(** How the loop ends after an attempt *)
Definition ends (s : result call_exn (step T)) : result call_exn (option T * Locals) :=
  match s with
  | Ok (Return value l) => Ok (Some value, l)
  | Ok (Next l) | Ok (Break l) => Ok (None, l)
  | Err e => Err e
  end.

(** The attempts from the [a]-th on; the client answered [i] requests before. *)
Inductive course (st : Settings) : nat -> Z -> Locals ->
    list (odict json) -> list llm_event -> list Z -> result call_exn (option T * Locals) -> Prop :=
| course_end i a l s evs :
    attempt_shape st a l (chat i (l_params l)) s evs [] -> course st i a l [l_params l] evs [] (ends s)
| course_next i a l l' evs d q evs' sl r :
    attempt_shape st a l (chat i (l_params l)) (Ok (Next l')) evs [d] -> course st (S i) (a + 1) l' q evs' sl r ->
    course st i a l (l_params l :: q) (evs ++ evs') (d :: sl) r.

Lemma attempts_S st n a l w s w' : attempt_once st a l w = (s, w') ->
  attempts st (S n) a l w =
  match s with Ok (Next l') => attempts st n (a + 1) l' w' | _ => (ends s, w') end.
Proof. intros He. simpl. unfold mbind, py_bind. rewrite He. by destruct s as [[l'|l'|v l']|e]. Qed.

Lemma attempts_course st n a l w :
  Z.of_nat n = st_max_retries st - a -> exists r q evs sl,
  attempts st (S n) a l w = (r, push w evs q sl) /\ course st (length (w_requests w)) a l q evs sl r.
Proof.
  revert a l w. induction n as [|n IH]; intros a l w Hn;
    destruct (attempt_quiet st a l w) as (s & evs & sl & He & Hs); rewrite (attempts_S _ _ _ _ _ _ _ He).
  - assert (sl = []) as -> by (inversion Hs; simplify_eq; try done; lia).
    exists (ends s), [l_params l], evs, []. split; [by destruct s as [[l'|l'|v l']|e]|by apply course_end].
  - destruct s as [[l'|l'|v l']|e].
    2,3,4: assert (sl = []) as -> by (inversion Hs; done); eexists _, _, _, _; split; [reflexivity|by apply (course_end _ _ _ _ _ _ Hs)].
    assert (exists d, sl = [d]) as [d ->] by (inversion Hs; simplify_eq; [by eexists|lia]).
    destruct (IH (a + 1) l' (push w evs [l_params l] [d])) as (r & q & evs' & sl' & Hr & Hc); [lia|].
    rewrite Hr, push_push. eexists _, _, _, _. split; [reflexivity|]. eapply course_next; [exact Hs|].
    replace (S (length (w_requests w))) with (length (w_requests (push w evs [l_params l] [d])))
      by (simpl; rewrite length_app; simpl; lia). exact Hc.
Qed.

Lemma call_model_course st messages w r w' :
  0 <= st_max_retries st -> call_model st messages w = (r, w') ->
  exists o q evs sl,
    course st (length (w_requests w)) 0
      {| l_params := request_params st schema; l_last_error := None; l_last_exception := None; l_raw_response := "" |}
      q evs sl o /\ w' = push w evs q sl /\
    r = match o with
        | Ok (Some value, l) => Ok (call_result st messages l value)
        | Ok (None, l) => (fall_back schema fallback_factory st messages l w).1
        | Err e => Err e
        end.
Proof.
  intros Hm. unfold StructuredCall.call_model, mbind at 1, py_bind at 1.
  replace (Z.to_nat (st_max_retries st + 1)) with (S (Z.to_nat (st_max_retries st))) by lia.
  edestruct attempts_course as (o & q & evs & sl & He & Hc); [|rewrite He]; [lia|].
  destruct o as [[[v|] l]|e]; intros H.
  - injection H as <- <-. by eexists _, _, _, _.
  - assert (w' = push w evs q sl /\ r = (fall_back schema fallback_factory st messages l w).1) as [-> ->]
      by (unfold fall_back in *; repeat case_match; by injection H).
    by eexists _, _, _, _.
  - injection H as <- <-. by eexists _, _, _, _.
Qed.

(** ** The outcome *)

(** Every request before the last got a reply that may be retried *)
Fixpoint retried (i : nat) (p : odict json) (q : list (odict json)) : Prop :=
  match q with
  | [] => True
  | p' :: q' => retriable (chat i p) p p' /\ retried (S i) p' q'
  end.

Lemma course_requests st i a l q evs sl r : course st i a l q evs sl r -> exists q', q = l_params l :: q'.
Proof. destruct 1; eauto. Qed.

Lemma course_retried st i a l q evs sl r :
  course st i a l q evs sl r -> forall p q', q = p :: q' -> p = l_params l /\ retried i p q'.
Proof.
  induction 1 as [i a l s evs Hs|i a l l' evs d q evs' sl r Hs Hc IH]; intros p q' [= <- <-]; [done|]. split; [done|].
  destruct (course_requests _ _ _ _ _ _ _ _ Hc) as [q1 ->]. simpl. destruct (IH _ _ eq_refl) as [_ Hr].
  split; [by inversion Hs|done].
Qed.

(** What the reply to the last request, the [k]-th, makes of the loop *)
Definition settled (st : Settings) (k : Z) (reply : reply) (r : result call_exn (option T * Locals)) : Prop :=
  match reply with
  | CallCancelled => r = Err Cancelled
  | TimedOut => k = st_max_retries st /\ exists l, r = Ok (None, l) /\ l_last_exception l = Some (timeout_error st)
  | Failed e => (k = st_max_retries st \/ hopeless e = true) /\ exists l, r = Ok (None, l) /\ l_last_exception l = Some e
  | Response v =>
      let raw := _extract_text repr v in
      (bad_answer v /\ k = st_max_retries st /\ exists l, r = Ok (None, l) /\ l_last_exception l = None) \/
      (exists e, raw <> ""%string /\ _parse_and_validate repr json_loads schema raw = inl (ValidatorRaised e) /\ r = Err (Raised e)) \/
      (exists value l, raw <> ""%string /\ _parse_and_validate repr json_loads schema raw = inr value /\
         r = Ok (Some value, l) /\ l_raw_response l = raw)
  end.

Lemma last_default {A} (x d : A) q : List.last (x :: q) d = List.last q x.
Proof. revert x d. induction q as [|y q IH]; intros x d; [done|]. change (List.last (y :: q) d = List.last (y :: q) x). by rewrite !IH. Qed.

Lemma shape_settled st a l reply s evs :
  a <= st_max_retries st -> attempt_shape st a l reply s evs [] -> settled st a reply (ends s).
Proof.
  intros Ha Hs. inversion Hs; subst; simpl.
  - right; right. eauto 10.
  - right; left. eauto.
  - done.
  - split; [by right|]. eauto.
  - assert (a = st_max_retries st) as -> by lia. destruct reply as [v| | |e]; simpl in *; [left| |done|]; naive_solver.
Qed.

Lemma course_settled st i a l q evs sl r :
  course st i a l q evs sl r -> a <= st_max_retries st -> forall p q', q = p :: q' ->
  settled st (a + Z.of_nat (length q')) (chat (i + length q') (List.last q' p)) r.
Proof.
  induction 1 as [i a l s evs Hs|i a l l' evs d q evs' sl r Hs Hc IH]; intros Ha p q' [= <- <-].
  - simpl. rewrite Z.add_0_r, Nat.add_0_r. by apply (shape_settled st a l _ s evs).
  - assert (a + 1 <= st_max_retries st) by (inversion Hs; lia).
    destruct (course_requests _ _ _ _ _ _ _ _ Hc) as [q1 ->]. specialize (IH ltac:(done) _ _ eq_refl).
    replace (a + Z.of_nat (length (l_params l' :: q1))) with (a + 1 + Z.of_nat (length q1)) by (simpl length; lia).
    replace (i + length (l_params l' :: q1))%nat with (S i + length q1)%nat by (simpl; lia).
    rewrite last_default. exact IH.
Qed.

(** C11: When the event sink and the sleeps do their work, a call is decided by the
    reply to its last request.  Every reply before it was retriable: a time-out, a
    failure that a retry can help, a request too large, which is then sent shrunk, an
    empty text or one the schema refuses; every other request is the one before.  The
    last reply is a cancellation or an exception of the validator other than
    ValidationError, which are passed on; the first text the schema accepts, whose
    value is returned; or a failure: of the last attempt allowed, or one that no retry
    can help.  A failed call is left to the fallback, and its error names the failure
    of the transport exactly when the last request was not answered. *)
Theorem call_outcome st messages w r w' :
  0 <= st_max_retries st -> call_model st messages w = (r, w') ->
  exists q o, w_requests w' = w_requests w ++ request_params st schema :: q /\
    retried (length (w_requests w)) (request_params st schema) q /\
    settled st (Z.of_nat (length q))
      (chat (length (w_requests w) + length q) (List.last q (request_params st schema))) o /\
    r = match o with
        | Ok (Some value, l) => Ok (call_result st messages l value)
        | Ok (None, l) => (fall_back schema fallback_factory st messages l w).1
        | Err e => Err e
        end.
Proof.
  intros Hm (o & q & evs & sl & Hc & -> & ->)%call_model_course; [|done].
  destruct (course_requests _ _ _ _ _ _ _ _ Hc) as [q' ->]. simpl in *. exists q', o. split_and!; [done| | |done].
  - by apply (course_retried _ _ _ _ _ _ _ _ Hc).
  - apply (course_settled _ _ _ _ _ _ _ _ Hc); [done|done].
Qed.

(** ** The journal *)

(** How the journal of a call ends: with the value of a text, with a failure, or with a
    text that was refused and no word about it *)
Inductive ending := EndCompleted (raw : string) | EndFailed | EndOpen.

(** The journal of the attempts from the [a]-th on, with the delays announced *)
Inductive journal (st : Settings) : Z -> list llm_event -> list Z -> ending -> Prop :=
| journal_completed a p raw :
    journal st a [LlmRequest p; answer_event role_type a raw false; answer_event role_type a raw true] [] (EndCompleted raw)
| journal_failed a p r : re_attempt r = a + 1 -> re_terminal r = true -> journal st a [LlmRequest p; LlmResponse r] [] EndFailed
| journal_open a p r :
    a = st_max_retries st -> re_attempt r = a + 1 -> re_terminal r = false -> journal st a [LlmRequest p; LlmResponse r] [] EndOpen
| journal_retry a p r reason d evs sl e :
    a < st_max_retries st -> re_attempt r = a + 1 -> re_terminal r = false -> journal st (a + 1) evs sl e ->
    journal st a (LlmRequest p :: LlmResponse r :: ProtocolRetry (a + 1) reason d :: evs) (d :: sl) e.

Definition ended (o : option T * Locals) (e : ending) : Prop :=
  match o with
  | (Some _, l) => e = EndCompleted (l_raw_response l)
  | (None, l) => e = if bool_decide (is_Some (l_last_exception l)) then EndFailed else EndOpen
  end.

Lemma course_journal st i a l q evs sl r :
  course st i a l q evs sl r -> a <= st_max_retries st -> forall o, r = Ok o ->
  exists e, journal st a evs sl e /\ ended o e.
Proof.
  induction 1 as [i a l s evs Hs|i a l l' evs d q evs' sl r Hs Hc IH]; intros Ha o Ho.
  - inversion Hs; simplify_eq/=; eexists; (split; [|reflexivity]).
    + match goal with E : l_raw_response _ = _ |- _ => rewrite E end. constructor.
    + match goal with E : l_last_exception _ = _ |- _ => rewrite E end. by constructor.
    + assert (a = st_max_retries st) by lia. case_bool_decide; by constructor.
  - assert (a < st_max_retries st) by (inversion Hs; lia). destruct (IH ltac:(lia) o Ho) as (e & He & Heo).
    exists e. split; [|done]. inversion Hs; subst. by constructor.
Qed.

Lemma course_raises st i a l q evs sl r :
  course st i a l q evs sl r -> forall e, r = Err e -> e = Cancelled \/ exists e', e = Raised e'.
Proof. induction 1 as [? ? ? s ? Hs|]; intros e' Heq; [inversion Hs; simplify_eq/=; eauto|auto]. Qed.

(** C15: The journal of a call that returns or fails with StructuredCallError: every
    attempt, in order, is one request and one response with its number; an attempt
    that is retried announces the retry and the delay, which is the one slept, and its
    response is not terminal; the last attempt is not retried.  A terminal response
    comes last or not at all: a call that returns a value closes with the text it was
    read from, one whose last request failed closes with the failure, and one whose
    last text was refused stays open. *)
Theorem call_journal st messages w r w' :
  0 <= st_max_retries st -> call_model st messages w = (r, w') ->
  r <> Err Cancelled -> (forall e, r <> Err (Raised e)) ->
  exists evs sl e, w_events w' = w_events w ++ evs /\ w_sleeps w' = w_sleeps w ++ sl /\ journal st 0 evs sl e /\
    match e with
    | EndCompleted raw => exists v, r = Ok v /\ sr_raw_response v = raw
    | EndFailed => exists l, is_Some (l_last_exception l) /\ r = (fall_back schema fallback_factory st messages l w).1
    | EndOpen => exists l, l_last_exception l = None /\ r = (fall_back schema fallback_factory st messages l w).1
    end.
Proof.
  intros Hm (o & q & evs & sl & Hc & -> & ->)%call_model_course Hn Hr; [|done].
  destruct o as [o|e]; [|by destruct (course_raises _ _ _ _ _ _ _ _ Hc e eq_refl) as [->|[e' ->]]; [|destruct (Hr e')]].
  destruct (course_journal _ _ _ _ _ _ _ _ Hc Hm o eq_refl) as (e & He & Ho). exists evs, sl, e. split_and!; [done..|].
  destruct o as [[v|] l]; simpl in Ho; subst e; [by eexists|].
  case_bool_decide as Hl; exists l; [done|]. split; [by apply eq_None_not_Some|done].
Qed.
End Quiet.
End Calls.

(** ** JSON in a text *)

(** None of these characters occurs *)
Fixpoint without (codes : list nat) (s : string) : bool :=
  match s with
  | EmptyString => true
  | String c s' => negb (existsb (fun n => is_char n c) codes) && without codes s'
  end.

Lemma lstrip_app s c t : is_space c = false -> lstrip (s +:+ String c t) = lstrip s +:+ String c t.
Proof.
  intros Hc. induction s as [|d s IH]; [simpl; by rewrite Hc|].
  rewrite str_app_cons. simpl. by destruct (is_space d).
Qed.

Lemma rstrip_cons c s : is_space c = false -> rstrip (String c s) = String c (rstrip s).
Proof. intros Hc. simpl. destruct (rstrip s); [by rewrite Hc|done]. Qed.

Lemma rstrip_app s c t : is_space c = false -> rstrip (s +:+ String c t) = s +:+ String c (rstrip t).
Proof.
  intros Hc. induction s as [|d s IH]; [by apply rstrip_cons|].
  rewrite !str_app_cons. cbn [rstrip]. rewrite IH. by destruct s.
Qed.

(** A text around two characters that are no white space *)
Lemma strip_around pre c mid d post :
  is_space c = false -> is_space d = false ->
  strip (pre +:+ String c (mid +:+ String d post)) = lstrip pre +:+ String c (mid +:+ String d (rstrip post)).
Proof.
  intros Hc Hd. unfold strip. rewrite lstrip_app by done.
  replace (lstrip pre +:+ String c (mid +:+ String d post)) with ((lstrip pre +:+ String c mid) +:+ String d post)
    by (by rewrite <- (assoc_L String.append), str_app_cons).
  rewrite rstrip_app by done. by rewrite <- (assoc_L String.append), str_app_cons.
Qed.

Lemma without_lstrip codes s : without codes s = true -> without codes (lstrip s) = true.
Proof.
  induction s as [|c s IH]; [done|]. intros H. simpl. destruct (is_space c); [|done]. apply IH.
  by apply andb_true_iff in H as [_ H].
Qed.
Lemma without_rstrip codes s : without codes s = true -> without codes (rstrip s) = true.
Proof.
  induction s as [|c s IH]; [done|]. intros [Hc Hs]%andb_true_iff. specialize (IH Hs). simpl.
  destruct (rstrip s) as [|d s']; [by case_match; [|simpl; rewrite Hc]|]. cbn [without] in *. by rewrite Hc.
Qed.
Lemma without_app codes s t : without codes (s +:+ t) = without codes s && without codes t.
Proof. induction s as [|c s IH]; [done|]. rewrite str_app_cons. cbn [without]. by rewrite IH, andb_assoc. Qed.

(** *** The outermost brackets *)
Lemma up_to_last_none n s : without [n] s = true -> up_to_last n s = None.
Proof.
  induction s as [|c s IH]; [done|]. cbn [without existsb up_to_last]. intros [Hc Hs]%andb_true_iff.
  rewrite IH by done. rewrite orb_false_r in Hc. by apply negb_true_iff in Hc as ->.
Qed.
Lemma up_to_last_app n c s t :
  is_char n c = true -> without [n] t = true -> up_to_last n (s +:+ String c t) = Some (s +:+ String c "").
Proof.
  intros Hc Ht. induction s as [|d s IH].
  - change (up_to_last n (String c t) = Some (String c "")). cbn [up_to_last]. by rewrite up_to_last_none, Hc.
  - rewrite !str_app_cons. cbn [up_to_last]. by rewrite IH.
Qed.

Definition open_brace : Ascii.ascii := Ascii.ascii_of_nat 123.
Definition close_brace : Ascii.ascii := Ascii.ascii_of_nat 125.
(** [{body}] *)
Definition braces (body : string) : string := String open_brace (body +:+ String close_brace "").

Lemma object_search_prose pre body post :
  without [123; 91]%nat pre = true -> without [125]%nat post = true ->
  json_object_search (pre +:+ String open_brace (body +:+ String close_brace post)) = Some (braces body).
Proof.
  intros Hpre Hpost. induction pre as [|c pre IH].
  - change (json_object_search (String open_brace (body +:+ String close_brace post)) = Some (braces body)).
    cbn [json_object_search]. by rewrite up_to_last_app.
  - rewrite str_app_cons. cbn [without existsb json_object_search] in *.
    apply andb_true_iff in Hpre as [Hc Hpre]. rewrite orb_false_r in Hc. apply negb_true_iff, orb_false_iff in Hc as [-> ->]. by apply IH.
Qed.

(** *** The fence *)
Lemma fence_prefix_none s : without [96]%nat s = true -> String.prefix fence s = false.
Proof.
  destruct s as [|c s]; [done|]. cbn [without existsb]. intros [Hc _]%andb_true_iff. unfold fence. simpl.
  case_match; [subst; by vm_compute in Hc|done].
Qed.
Lemma no_fence s : without [96]%nat s = true -> json_fence_search s = None.
Proof.
  induction s as [|c s IH]; [done|]. intros H. cbn [json_fence_search]. rewrite fence_prefix_none by done.
  apply andb_true_iff in H as [_ H]. by apply IH.
Qed.

Lemma fence_prefix_cons c s : is_char 96 c = false -> String.prefix fence (String c s) = false.
Proof. intros Hc. unfold fence. simpl. case_match; [subst; by vm_compute in Hc|done]. Qed.

(** The first brace that white space and a fence follow *)
Lemma up_to_fence_app body post :
  without [96]%nat body = true ->
  up_to_fence 125 (body +:+ String close_brace (nl +:+ fence +:+ post)) = Some (body +:+ String close_brace "").
Proof.
  induction body as [|c body IH]; [by destruct post|]. intros H. rewrite !str_app_cons. cbn [up_to_fence].
  apply andb_true_iff in H as [_ H]. rewrite IH by done.
  assert (String.prefix fence (lstrip (body +:+ String close_brace (nl +:+ fence +:+ post))) = false) as ->; [|by rewrite andb_false_r].
  rewrite lstrip_app by done. apply without_lstrip in H. destruct (lstrip body) as [|d s]; [done|].
  rewrite str_app_cons. apply fence_prefix_cons. cbn [without existsb] in H. apply andb_true_iff in H as [H _].
  by rewrite orb_false_r, negb_true_iff in H.
Qed.

Definition json_fence : string := fence +:+ "json" +:+ nl.
Lemma fence_search_found pre body post :
  without [96]%nat pre = true -> without [96]%nat body = true ->
  json_fence_search (pre +:+ json_fence +:+ braces body +:+ nl +:+ fence +:+ post) = Some (braces body).
Proof.
  intros Hpre Hbody. induction pre as [|c pre IH].
  - change (json_fence_search (json_fence +:+ braces body +:+ nl +:+ fence +:+ post) = Some (braces body)).
    assert (Hb : fenced_block ("json" +:+ nl +:+ braces body +:+ nl +:+ fence +:+ post) = Some (braces body)).
    { transitivity (option_map (String open_brace) (up_to_fence 125 ((body +:+ String close_brace "") +:+ nl +:+ fence +:+ post))).
      - reflexivity.
      - rewrite <- (assoc_L String.append). exact (f_equal (option_map (String open_brace)) (up_to_fence_app body post Hbody)). }
    transitivity (match fenced_block ("json" +:+ nl +:+ braces body +:+ nl +:+ fence +:+ post) with
                  | Some r => Some r
                  | None => json_fence_search (str_drop 1 (json_fence +:+ braces body +:+ nl +:+ fence +:+ post)) end);
      [reflexivity|by rewrite Hb].
  - rewrite str_app_cons. cbn [json_fence_search]. cbn [without existsb] in Hpre.
    apply andb_true_iff in Hpre as [Hc Hpre]. rewrite orb_false_r in Hc. apply negb_true_iff in Hc.
    rewrite fence_prefix_cons by done. by apply IH.
Qed.

Lemma without_sub codes codes' s : codes' ⊆ codes -> without codes s = true -> without codes' s = true.
Proof.
  intros Hsub. induction s as [|c s IH]; [done|]. cbn [without]. intros [Hc Hs]%andb_true_iff. rewrite IH, andb_true_r by done.
  apply negb_true_iff in Hc. apply negb_true_iff. apply not_true_iff_false. intros (n & Hn & He)%existsb_exists.
  rewrite <- not_true_iff_false in Hc. apply Hc, existsb_exists. exists n. split; [|done].
  apply list_elem_of_In, Hsub. by apply list_elem_of_In.
Qed.

Lemma str_empty_app s c t : str_empty (s +:+ String c t) = false.
Proof. by destruct s. Qed.

Lemma braces_app body post : braces body +:+ post = String open_brace (body +:+ String close_brace post).
Proof. unfold braces. by rewrite str_app_cons, <- (assoc_L String.append). Qed.

Lemma strip_prose pre body post :
  strip (pre +:+ braces body +:+ post) = lstrip pre +:+ String open_brace (body +:+ String close_brace (rstrip post)).
Proof. rewrite braces_app. by apply strip_around. Qed.

Lemma strip_fenced pre body post :
  strip (pre +:+ json_fence +:+ braces body +:+ nl +:+ fence +:+ post) =
  lstrip pre +:+ json_fence +:+ braces body +:+ nl +:+ fence +:+ rstrip post.
Proof.
  pose (tick := Ascii.ascii_of_nat 96). pose (mid := str_drop 1 json_fence +:+ braces body +:+ nl +:+ "``").
  assert (Hshape : forall p, json_fence +:+ braces body +:+ nl +:+ fence +:+ p = String tick (mid +:+ String tick p)).
  { intros p. unfold mid. by rewrite <- !(assoc_L String.append). }
  rewrite !Hshape. by apply strip_around.
Qed.


(** ** A call: too large, then slow, then answered in prose *)
Module CallDemo.
Definition repr (_ : json) : string := "?".
Definition json_loads (s : string) : option json := if String.eqb s (braces "") then Some (JObj []) else None.
Definition py_float (v : json) : result Contracts.exn json := Ok v.
Definition registry (_ : string) : option ModelRow :=
  Some {| mr_max_output_tokens := Some 700; mr_extra_config := []; mr_request_timeout_s := Some 20; mr_max_retries := Some 2 |}.
Definition chat (n : nat) (_ : odict json) : reply :=
  match n with
  | 0%nat => Failed (LLMProviderError "llm_request_too_large" "Request too large" false (Some 1500))
  | 1%nat => TimedOut
  | _ => Response (JStr ("Sure: " +:+ braces "" +:+ "."))
  end.
Definition quiet (_ : list llm_event) : option Contracts.exn := None.
Definition awake (_ : nat) : bool := false.
Definition schema : Schema unit :=
  {| sc_name := "Unit"; sc_json_schema := Ok (JObj [("type", JStr "object")]%string);
     sc_validate := fun v => match v with JObj _ => Ok tt | _ => Err (ValidationError (FieldConstraint "unit")) end;
     sc_hints := None |}.
Definition role : RoleConfig :=
  {| rc_role_type := "fact_extractor"; rc_prompt := ""; rc_identity := Some "You extract."%string; rc_mission := None; rc_rules := None;
     rc_safety := None; rc_output_requirements := None; rc_examples := JNull; rc_model := Some "m"%string; rc_temperature := JNull;
     rc_max_tokens := None; rc_timeout_s := None; rc_max_retries := None; rc_retry_backoff := None |}.
Definition st : Settings :=
  {| st_model := "m"; st_temperature := JNull; st_timeout_s := 20; st_max_retries := 2; st_retry_backoff := "exp";
     st_max_tokens := Some 700 |}.
Definition empty : World := {| w_events := []; w_requests := []; w_sleeps := [] |}.
Definition called := call_model repr json_loads chat quiet awake "fact_extractor" true schema None st [] empty.
Definition invoked :=
  invoke repr json_loads (fun _ => "{}"%string) (fun _ => "{}"%string) py_float registry chat quiet awake "fact_extractor" true
    schema None (Ok role) (JObj []) None [] empty.

Lemma call_bounded_witness :
  (invoked.2 = empty /\ exists e, invoked.1 = Err (Raised e)) \/
  exists config ov temperature st requests sleeps, @Ok Contracts.exn _ role = Ok config /\
    role_override_of [] (role_key "fact_extractor") = Ok ov /\ temperature_of py_float config ov = Ok temperature /\
    settings registry config (model_of repr config ov) temperature = Ok st /\
    w_requests invoked.2 = [] ++ requests /\ w_sleeps invoked.2 = [] ++ sleeps /\
    Z.of_nat (length requests) <= Z.max 0 (st_max_retries st + 1) /\
    Z.of_nat (length sleeps) <= Z.max 0 (st_max_retries st) /\ Forall slept sleeps.
Proof.
  exact (call_bounded repr json_loads chat quiet awake "fact_extractor" true schema None (fun _ => "{}"%string)
           (fun _ => "{}"%string) py_float registry (Ok role) (JObj []) None [] empty invoked.1 invoked.2 (surjective_pairing _)).
Defined.

(** Three requests, the second with half of the tokens and without the schema *)
Lemma demo_requests :
  map (jget "max_tokens") (w_requests called.2) = [JInt 700; JInt 350; JInt 350] /\ w_sleeps called.2 = [1500; 1000] /\
  exists v, called.1 = Ok v /\ sr_value v = tt.
Proof. split_and!; [vm_compute; reflexivity|vm_compute; reflexivity|]. eexists. split; [vm_compute; reflexivity|reflexivity]. Qed.

Lemma call_outcome_witness :
  exists q o, w_requests called.2 = [] ++ request_params st schema :: q /\
    retried repr json_loads chat schema 0 (request_params st schema) q /\
    settled repr json_loads schema st (Z.of_nat (length q)) (chat (0 + length q) (List.last q (request_params st schema))) o /\
    called.1 = match o with
               | Ok (Some value, l) => Ok (call_result st [] l value)
               | Ok (None, l) => (fall_back schema None st [] l empty).1
               | Err e => Err e
               end.
Proof.
  exact (call_outcome repr json_loads chat quiet awake "fact_extractor" true schema None eq_refl (fun _ => eq_refl)
           (fun _ => eq_refl) st [] empty called.1 called.2 ltac:(vm_compute; discriminate) (surjective_pairing _)).
Defined.

Lemma call_journal_witness :
  exists evs sl e, w_events called.2 = [] ++ evs /\ w_sleeps called.2 = [] ++ sl /\ journal "fact_extractor" st 0 evs sl e.
Proof.
  destruct (call_journal repr json_loads chat quiet awake "fact_extractor" true schema None eq_refl (fun _ => eq_refl)
           (fun _ => eq_refl) st [] empty called.1 called.2 ltac:(vm_compute; discriminate) (surjective_pairing _)
           ltac:(vm_compute; discriminate) ltac:(intros ?; vm_compute; discriminate)) as (evs & sl & e & H1 & H2 & H3 & _).
  exists evs, sl, e. exact (conj H1 (conj H2 H3)).
Defined.

End CallDemo.
