(* ===== verification/Planner.v ===== *)
(** * The planner: runtime/planner/graph_planner.py and [PlannerInputBuilder] of
    runtime/input_builders.py

    The input the planner is given, the validation of its answer, with pydantic's part
    written out for the fields the models declare, and the patch made of it. *)
From S2P Require Import Prelude.
From S2P Require Import Operations.
From S2P Require Import Agent.
From S2P Require Import Contracts.
From S2P Require Import TaskGraph.
From S2P Require Import PlanMemory.
From S2P Require Import PlanMemoryProofs.
From S2P Require Import PlanSql.
From S2P Require Import PlanSqlProofs.
From S2P Require Import PlanSqlProperties.
From S2P Require Import Budgets.
From S2P Require Import Orchestrator.
From S2P Require Import OrchestratorProofs.
From S2P Require Import OrchestratorSql.
From S2P Require Import StructuredCall.
From S2P Require Import StructuredCallProofs.
Open Scope Z_scope.

(** ** The planner's answer: [PlannerGraphOutput] *)

Record PlannerPlannedTask := {
  ppt_task_id : string;
  ppt_executor : string;
  ppt_intent : string;
  ppt_instructions : string;
  ppt_inputs : odict json;
  ppt_expected_outputs : list TaskOutputSpec;
  ppt_depends_on : list string;
  ppt_on_success : TaskSuccessAction
}.

Inductive Action := ApplyGraph | AskUser | Complete | Fail_.
#[export] Instance Action_eq_dec : EqDecision Action.
Proof. solve_decision. Defined.

Record PlannerGraphOutput := {
  go_action : Action;
  go_tasks : list PlannerPlannedTask;
  go_remove_task_ids : list string;
  go_question : option string;
  go_answer_brief : option string;
  go_failure_reason : option string
}.

(** *** Fields, as pydantic reads them from JSON; [None] is a ValidationError *)

Definition field {A} (d : odict json) (key : string) (missing : option A) (parse : json -> option A) : option A :=
  match od_get key d with Some v => parse v | None => missing end.
Definition read_str (v : json) : option string := match v with JStr s => Some s | _ => None end.
(** [min_length=1] *)
Definition read_str1 (v : json) : option string :=
  match v with JStr s => if str_empty s then None else Some s | _ => None end.
Definition read_opt_str (v : json) : option (option string) :=
  match v with JNull => Some None | JStr s => Some (Some s) | _ => None end.
Definition read_dict (v : json) : option (odict json) := match v with JObj d => Some d | _ => None end.
Definition read_list {A} (parse : json -> option A) (v : json) : option (list A) :=
  match v with JList l => mapM parse l | _ => None end.
(** A lax boolean *)
Definition read_bool (v : json) : option bool :=
  match v with
  | JBool b => Some b
  | JInt z => if Z.eqb z 0 then Some false else if Z.eqb z 1 then Some true else None
  | JFloat m e => if Z.eqb m 0 then Some false else if Z.eqb m 1 && Z.eqb e 0 then Some true else None
  | JStr s => if str_in (lower s) ["0"; "off"; "f"; "false"; "n"; "no"]%string then Some false
              else if str_in (lower s) ["1"; "on"; "t"; "true"; "y"; "yes"]%string then Some true else None
  | _ => None
  end.
Definition read_on_success (v : json) : option TaskSuccessAction :=
  match v with
  | JStr s => if String.eqb s "continue" then Some CONTINUE else if String.eqb s "replan" then Some REPLAN else None
  | _ => None
  end.

(** The alias first ([populate_by_name]) *)
Definition aliased (d : odict json) (alias name : string) : string := if od_mem alias d then alias else name.

Definition read_output_spec (v : json) : option TaskOutputSpec :=
  d ← read_dict v;
  key ← field d "key" None read_str1;
  description ← field d "description" None read_str1;
  schema ← field d (aliased d "schema" "json_schema") (Some []) read_dict;
  required ← field d "required" (Some true) read_bool;
  Some (mkTaskOutputSpec key description schema required).

Definition task_fields : list string :=
  ["task_id"; "executor"; "intent"; "instructions"; "inputs"; "expected_outputs"; "depends_on"; "on_success"]%string.

Definition read_task (v : json) : option PlannerPlannedTask :=
  d ← read_dict v;
  task_id ← field d "task_id" None read_str1;
  executor ← field d "executor" None read_str1;
  intent ← field d "intent" None read_str1;
  instructions ← field d "instructions" None read_str1;
  inputs ← field d "inputs" (Some []) read_dict;
  expected_outputs ← field d "expected_outputs" (Some []) (read_list read_output_spec);
  depends_on ← field d "depends_on" (Some []) (read_list read_str);
  on_success ← field d "on_success" (Some CONTINUE) read_on_success;
  if forallb (fun key => str_in key task_fields) (od_keys d)                       (* extra="forbid" *)
  then Some {| ppt_task_id := task_id; ppt_executor := executor; ppt_intent := intent; ppt_instructions := instructions;
               ppt_inputs := inputs; ppt_expected_outputs := expected_outputs; ppt_depends_on := depends_on;
               ppt_on_success := on_success |}
  else None.

Definition read_action (v : json) : option Action :=
  match v with
  | JStr s => if String.eqb s "apply_graph" then Some ApplyGraph else if String.eqb s "ask_user" then Some AskUser
              else if String.eqb s "complete" then Some Complete else if String.eqb s "fail" then Some Fail_ else None
  | _ => None
  end.

Definition read_output (d : odict json) : option PlannerGraphOutput :=
  action ← field d "action" None read_action;
  tasks ← field d "tasks" (Some []) (read_list read_task);
  remove_task_ids ← field d "remove_task_ids" (Some []) (read_list read_str);
  question ← field d "question" (Some None) read_opt_str;
  answer_brief ← field d "answer_brief" (Some None) read_opt_str;
  failure_reason ← field d "failure_reason" (Some None) read_opt_str;
  Some {| go_action := action; go_tasks := tasks; go_remove_task_ids := remove_task_ids; go_question := question;
          go_answer_brief := answer_brief; go_failure_reason := failure_reason |}.

(** *** Validators *)

Definition legacy_actions : odict string :=
  [("create_plan", "apply_graph"); ("revise_plan", "apply_graph"); ("ask_user", "ask_user"); ("complete_plan", "complete");
   ("fail_plan", "fail")]%string.

(** [if normalized.get(field_name) is None: normalized[field_name] = []] *)
Definition null_as_empty (d : odict json) (field_name : string) : odict json :=
  match jget field_name d with JNull => od_set field_name (JList []) d | _ => d end.

(** [normalize_legacy_lifecycle_output]: the look-up of a list or an object raises. *)
Definition normalize_legacy_lifecycle_output (value : json) : result Contracts.exn json :=
  match value with
  | JObj d =>
      let normalized := foldl null_as_empty d ["tasks"; "remove_task_ids"]%string in
      match json_or (jget "action" normalized) (jget "decision" normalized) with
      | JStr s => Ok (JObj (match od_get s legacy_actions with
                            | Some action => od_set "action" (JStr action) normalized
                            | None => normalized
                            end))
      | JList _ | JObj _ => Err (TypeError "unhashable type")
      | _ => Ok (JObj normalized)
      end
  | _ => Ok value
  end.

Definition validate_semantic_task (t : PlannerPlannedTask) : result Contracts.exn unit :=
  check (negb (has_dup (ppt_depends_on t))) (ValidationError (DuplicateDependencies (ppt_task_id t))) ;;;
  check (negb (bool_decide (ppt_task_id t ∈ ppt_depends_on t))) (ValidationError (SelfDependency (ppt_task_id t))).

Definition mutates (o : PlannerGraphOutput) : bool :=
  negb (bool_decide (length (go_tasks o) = 0%nat) && bool_decide (go_remove_task_ids o = [])).

Definition validate_semantic_output (o : PlannerGraphOutput) : result Contracts.exn PlannerGraphOutput :=
  let task_ids := map ppt_task_id (go_tasks o) in
  check (negb (has_dup task_ids)) (ValidationError DuplicateTaskIds) ;;;
  all_ok validate_semantic_task (go_tasks o) ;;;
  check (forallb (fun i => negb (bool_decide (i ∈ task_ids))) (go_remove_task_ids o))
        (ValidationError CreateAndRemoveSameTask) ;;;
  check (negb (bool_decide (go_action o = AskUser) && falsy_str (go_question o))) (ValidationError AskUserWithoutQuestion) ;;;
  check (negb (bool_decide (go_action o = Fail_) && falsy_str (go_failure_reason o))) (ValidationError FailPlanWithoutReason) ;;;
  check (negb (negb (bool_decide (go_action o = ApplyGraph)) && mutates o)) (ValidationError CompletePlanMutatesTasks) ;;;
  Ok o.

(** [PlannerGraphOutput.model_validate] *)
Definition graph_output_validate (value : json) : result Contracts.exn PlannerGraphOutput :=
  match normalize_legacy_lifecycle_output value with
  | Err e => Err e
  | Ok (JObj d) => match read_output d with
                   | Some o => validate_semantic_output o
                   | None => Err (ValidationError (FieldConstraint "PlannerGraphOutput"))
                   end
  | Ok _ => Err (ValidationError (FieldConstraint "PlannerGraphOutput"))
  end.

(** *** The patch *)

Definition to_runtime_task (t : PlannerPlannedTask) : PlannedTask :=
  mkPlannedTask (ppt_task_id t) (ppt_executor t) (ppt_intent t) (ppt_instructions t) (ppt_inputs t)
    (ppt_expected_outputs t) (ppt_depends_on t) [] (ppt_on_success t).

Definition decision_of (a : Action) (has_existing_graph : bool) : PlannerDecisionKind :=
  match a with
  | ApplyGraph => if has_existing_graph then REVISE_PLAN else CREATE_PLAN
  | AskUser => ASK_USER
  | Complete => COMPLETE_PLAN
  | Fail_ => FAIL_PLAN
  end.

(** [int(plan.get("revision") or 0)] *)
Definition plan_revision (plan : odict json) : result Contracts.exn Z := to_int (json_or (jget "revision" plan) (JInt 0)).

Definition to_plan_patch (o : PlannerGraphOutput) (plan : odict json) : result Contracts.exn PlanPatch :=
  match plan_revision plan with
  | Err e => Err e
  | Ok revision =>
      let has_existing_graph := truthy (jget "tasks" plan) || (0 <? revision) in
      make_patch (mkPlanPatch revision (decision_of (go_action o) has_existing_graph) None
                    (map to_runtime_task (go_tasks o)) (go_remove_task_ids o) (go_question o) (go_answer_brief o)
                    (go_failure_reason o) "" None)
  end.

(** ** The planner's input *)

(** [PlanRequest] as the planner gets it *)
Record Request := {
  r_goal : string;
  r_available_agents : list (odict json);
  r_plan : odict json;
  r_completed_outputs : odict json;
  r_available_artifacts : list (odict json);
  r_needs : list json;
  r_last_failure : json;
  r_user_response : option string;
  r_memory_context : list json;
  r_trigger : option string
}.

Section Input.
Variable repr : json -> string.

Definition MAX_AGENT_DESCRIPTION_CHARS : nat := Z.to_nat 280.
Definition _trim_text (value : json) (limit : nat) : string :=
  str_take limit (strip (py_str repr (json_or value (JStr "")))).

(** [list(v or [])] *)
Definition list_or_empty (v : json) : result Contracts.exn (list json) := iterate (json_or v (JList [])).

Definition agent_view (item : odict json) : result Contracts.exn json :=
  match list_or_empty (jget "tags" item), list_or_empty (jget "provides_keys" item) with
  | Ok tags, Ok keys =>
      Ok (JObj [("slug", jget "slug" item);
                ("description", JStr (_trim_text (default (JStr "") (od_get "description" item)) MAX_AGENT_DESCRIPTION_CHARS));
                ("tags", JList tags); ("provides_keys", JList keys)])
  | Err e, _ | _, Err e => Err e
  end%string.

Fixpoint agent_views (items : list (odict json)) : result Contracts.exn (list json) :=
  match items with
  | [] => Ok []
  | item :: items' =>
      if truthy (jget "slug" item) then
        match agent_view item with
        | Err e => Err e
        | Ok v => match agent_views items' with Err e => Err e | Ok l => Ok (v :: l) end
        end
      else agent_views items'
  end.

Fixpoint _normalize_artifacts (seen : list string) (items : list (odict json)) : list json :=
  match items with
  | [] => []
  | item :: items' =>
      let ref := match jget "ref" item with JObj r => r | _ => item end in
      let either k := json_or (jget k ref) (jget k item) in
      let artifact_id := strip (py_str repr (json_or (either "artifact_id"%string) (JStr ""))) in
      if str_empty artifact_id || str_in artifact_id seen then _normalize_artifacts seen items'
      else JObj [("artifact_id", JStr artifact_id);
                 ("file_name", json_or (either "file_name") (JStr "artifact"));
                 ("content_type", either "content_type");
                 ("size_bytes", either "size_bytes");
                 ("snippet", json_or (jget "snippet" item) (JStr ""));
                 ("snippet_status", json_or (jget "snippet_status" item) (JStr "missing"));
                 ("readable", JBool (truthy (jget "readable" item)));
                 ("truncated", JBool (truthy (jget "truncated" item)))]%string
           :: _normalize_artifacts (artifact_id :: seen) items'
  end.

(** [build_graph_request] *)
Definition build_graph_request (rq : Request) : result Contracts.exn (odict json) :=
  match agent_views (r_available_agents rq) with
  | Err e => Err e
  | Ok agents =>
      let plan := r_plan rq in
      let tasks := as_dict (jget "tasks" plan) in
      match (if truthy (JObj tasks) then Ok true
             else match plan_revision plan with Ok r => Ok (0 <? r) | Err e => Err e end) with
      | Err e => Err e
      | Ok has_existing_graph =>
          let user_response := strip (or_str (r_user_response rq) "") in
          Ok (app [("goal", JStr (r_goal rq));
               ("mode", JStr (if has_existing_graph then "replan" else "initial"));
               ("replan_reason", opt_str (r_trigger rq));
               ("plan", JObj [("has_existing_graph", JBool has_existing_graph); ("status", jget "status" plan); ("tasks", JObj tasks)]);
               ("completed_outputs", JObj (r_completed_outputs rq));
               ("available_artifacts", JList (_normalize_artifacts [] (r_available_artifacts rq)));
               ("needs", JList (r_needs rq));
               ("last_failure", r_last_failure rq);
               ("memory_context", JList (r_memory_context rq));
               ("available_agents", JList agents)]
              (if str_empty user_response then [] else [("user_response", JStr user_response)]))%string
      end
  end.
End Input.

(** ** [GraphPlanner.plan] *)
Section Plan.
Variables (repr : json -> string) (json_loads : string -> option json)
  (dumps dumps_indent : json -> string) (py_float : json -> result Contracts.exn json)
  (registry : string -> option ModelRow).
Variables (chat : nat -> odict json -> reply) (sink_raises : list llm_event -> option Contracts.exn)
  (sleep_cancelled : nat -> bool).
Variables (graph_output_schema : result Contracts.exn json) (graph_output_hints : option (list (string * hint))).

Definition planner_schema : Schema PlannerGraphOutput :=
  {| sc_name := "PlannerGraphOutput"; sc_json_schema := graph_output_schema; sc_validate := graph_output_validate;
     sc_hints := graph_output_hints |}.

Definition plan (journalled : bool) (role_config : result Contracts.exn RoleConfig) (sandbox_overrides : odict json)
    (rq : Request) : py call_exn World PlanPatch :=
  payload ← lift (build_graph_request repr rq);
  r ← invoke repr json_loads dumps dumps_indent py_float registry chat sink_raises sleep_cancelled "planner" journalled
        planner_schema None role_config (JObj payload) None sandbox_overrides;
  lift (to_plan_patch (sr_value r) (r_plan rq)).
End Plan.

(** ** The answers the planner understands *)

(** What a dictionary says after the validator read it *)
Lemma null_as_empty_get d name k :
  od_get k (null_as_empty d name) =
  if decide (k = name) then match jget name d with JNull => Some (JList []) | v => Some v end else od_get k d.
Proof.
  unfold null_as_empty. case_decide as Hk.
  - subst k. destruct (jget name d) eqn:E; [by rewrite od_get_set_eq|..];
      (unfold jget in E; destruct (od_get name d); simpl in E; by subst).
  - destruct (jget name d); try done. by rewrite od_get_set_ne.
Qed.

Lemma read_output_ext d d' : (forall k, od_get k d = od_get k d') -> read_output d = read_output d'.
Proof. intros H. unfold read_output, field. by rewrite !H. Qed.

Definition collection_fields : list string := ["tasks"; "remove_task_ids"]%string.

Lemma normalized_get d k :
  od_get k (foldl null_as_empty d collection_fields) =
  if decide (k ∈ collection_fields) then Some (match jget k d with JNull => JList [] | v => v end) else od_get k d.
Proof.
  simpl. rewrite null_as_empty_get. unfold jget. rewrite !null_as_empty_get. unfold jget.
  destruct (decide (k ∈ collection_fields)) as [Hk|Hk]; unfold collection_fields in Hk.
  - apply list_elem_of_In in Hk as [<-|[<-|[]]]; simpl; by case_match.
  - rewrite !decide_False by set_solver. done.
Qed.

(** A list as action is looked up in a dictionary, which raises no ValidationError. *)
Lemma unhashable_action_escapes l : l <> [] ->
  graph_output_validate (JObj [("action", JList l)]%string) = Err (TypeError "unhashable type").
Proof. by destruct l. Qed.

(** Two dictionaries that read the same are validated alike. *)
Lemma graph_output_validate_ext d d' :
  (forall k, od_get k (foldl null_as_empty d collection_fields) = od_get k (foldl null_as_empty d' collection_fields)) ->
  graph_output_validate (JObj d) = graph_output_validate (JObj d').
Proof.
  intros H. unfold graph_output_validate, normalize_legacy_lifecycle_output.
  fold collection_fields. set (n := foldl null_as_empty d collection_fields) in *.
  set (n' := foldl null_as_empty d' collection_fields) in *.
  assert (Hj : forall k, jget k n = jget k n') by (intros k; unfold jget; by rewrite H). rewrite !Hj.
  assert (Hr : read_output n = read_output n') by by apply read_output_ext.
  destruct (json_or _ _) as [| | | |s| |]; try done; try by rewrite Hr. destruct (od_get s legacy_actions); [|by rewrite Hr].
  erewrite read_output_ext; [reflexivity|]. intros k.
  destruct (decide (k = "action"%string)) as [->|Hk]; [by rewrite !od_get_set_eq|by rewrite !od_get_set_ne].
Qed.

(** What the old vocabulary is turned into means itself. *)
Lemma legacy_actions_stable old new s :
  od_get old legacy_actions = Some new -> od_get new legacy_actions = Some s -> s = new.
Proof. intros H%od_get_elem. unfold legacy_actions in H. set_unfold. naive_solver. Qed.

(** The dictionary after both normalisations *)
Lemma graph_output_validate_action d a :
  json_or (jget "action" d) (jget "decision" d) = JStr a ->
  graph_output_validate (JObj d) =
  match read_output (match od_get a legacy_actions with
                     | Some new => od_set "action" (JStr new) (foldl null_as_empty d collection_fields)
                     | None => foldl null_as_empty d collection_fields
                     end) with
  | Some o => validate_semantic_output o
  | None => Err (ValidationError (FieldConstraint "PlannerGraphOutput"))
  end.
Proof.
  intros H. unfold graph_output_validate, normalize_legacy_lifecycle_output. fold collection_fields.
  assert (jget "action" (foldl null_as_empty d collection_fields) = jget "action" d /\
          jget "decision" (foldl null_as_empty d collection_fields) = jget "decision" d) as [-> ->]
    by (unfold jget; rewrite !normalized_get, !decide_False by (unfold collection_fields; set_solver); done).
  rewrite H. by destruct (od_get a legacy_actions).
Qed.

(** An answer in the vocabulary of the old prompts means what the same answer means
    in the vocabulary of today: a decision of a saved prompt, in either field, is the
    action it stands for, and a collection that is null is the empty one. *)
Theorem legacy_output_accepted d :
  (forall old new,
     jget "action" d = JStr old \/ truthy (jget "action" d) = false /\ jget "decision" d = JStr old ->
     od_get old legacy_actions = Some new ->
     graph_output_validate (JObj d) = graph_output_validate (JObj (od_set "action" (JStr new) d))) /\
  (forall name, name ∈ collection_fields -> jget name d = JNull ->
     graph_output_validate (JObj d) = graph_output_validate (JObj (od_set name (JList []) d))).
Proof.
  split.
  - intros old new Hold Hnew.
    assert (Hne : truthy (JStr old) = true) by (apply od_get_elem in Hnew; unfold legacy_actions in Hnew; set_unfold; naive_solver).
    assert (Ha : json_or (jget "action" d) (jget "decision" d) = JStr old).
    { destruct Hold as [->|[Ht ->]]; unfold json_or; [by rewrite Hne|by rewrite Ht]. }
    assert (Hb : json_or (jget "action" (od_set "action" (JStr new) d)) (jget "decision" (od_set "action" (JStr new) d)) = JStr new).
    { unfold jget. rewrite od_get_set_eq. apply od_get_elem in Hnew. unfold legacy_actions in Hnew. set_unfold. naive_solver. }
    rewrite (graph_output_validate_action _ _ Ha), (graph_output_validate_action _ _ Hb), Hnew.
    erewrite read_output_ext; [reflexivity|]. intros k.
    assert (Hset : od_get k (foldl null_as_empty (od_set "action" (JStr new) d) collection_fields) =
                   od_get k (od_set "action" (JStr new) (foldl null_as_empty d collection_fields))).
    { rewrite normalized_get. unfold jget. destruct (decide (k = "action"%string)) as [->|Hk].
      - rewrite decide_False by (unfold collection_fields; set_solver). by rewrite !od_get_set_eq.
      - rewrite !od_get_set_ne by done. by rewrite normalized_get. }
    destruct (od_get new legacy_actions) as [s|] eqn:Es; [|by rewrite Hset].
    rewrite (legacy_actions_stable _ _ _ Hnew Es). destruct (decide (k = "action"%string)) as [->|Hk];
      [by rewrite !od_get_set_eq|]. rewrite (od_get_set_ne _ _ _ (foldl null_as_empty (od_set _ _ _) _)) by done. by rewrite Hset.
  - intros name Hname Hnull. apply graph_output_validate_ext. intros k. rewrite !normalized_get. unfold jget in *.
    destruct (decide (k = name)) as [->|Hk]; [|by rewrite od_get_set_ne].
    rewrite !decide_True by done. by rewrite od_get_set_eq, Hnull.
Qed.

(** ** The patch *)

Lemma field_Some {A} d key missing (parse : json -> option A) a :
  field d key missing parse = Some a -> (exists v, od_get key d = Some v /\ parse v = Some a) \/ missing = Some a.
Proof. unfold field. destruct (od_get key d); eauto. Qed.

Lemma read_str1_non_empty name v s : read_str1 v = Some s -> non_empty name s = Ok tt.
Proof. destruct v; try done. unfold read_str1, non_empty. case_match; [done|]. intros [= <-]. by case_match. Qed.

Lemma field_str1 d key name s : field d key None read_str1 = Some s -> non_empty name s = Ok tt.
Proof. intros [(v & _ & H)|?]%field_Some; [by apply (read_str1_non_empty name) in H|done]. Qed.

Lemma read_output_spec_valid v o : read_output_spec v = Some o -> validate_output_spec o = Ok tt.
Proof.
  unfold read_output_spec. intros H. repeat (apply bind_Some in H as (? & ? & H)). injection H as <-.
  unfold validate_output_spec. simpl. rewrite !andThen_Ok. split; by eapply field_str1.
Qed.

Lemma read_list_Forall {A} (P : A -> Prop) parse v l :
  (forall v x, parse v = Some x -> P x) -> read_list parse v = Some l -> Forall P l.
Proof. intros Hp. destruct v; try done. intros H%mapM_Some_1. induction H; constructor; eauto. Qed.

Lemma field_list_Forall {A} (P : A -> Prop) d key parse l :
  (forall v x, parse v = Some x -> P x) -> field d key (Some []) (read_list parse) = Some l -> Forall P l.
Proof. intros Hp [(v & _ & H)|[= <-]]%field_Some; [by eapply read_list_Forall|constructor]. Qed.

Lemma read_task_valid v t : read_task v = Some t -> validate_planned_task (to_runtime_task t) = Ok tt.
Proof.
  unfold read_task. intros H. repeat (apply bind_Some in H as (? & ? & H)). case_match; [injection H as <-|done].
  unfold validate_planned_task. simpl. rewrite !andThen_Ok, all_ok_Ok. repeat split; try by eapply field_str1.
  by eapply field_list_Forall; [apply read_output_spec_valid|].
Qed.

Lemma read_output_tasks d o :
  read_output d = Some o -> Forall (fun t => validate_planned_task (to_runtime_task t) = Ok tt) (go_tasks o).
Proof.
  unfold read_output. intros H. repeat (apply bind_Some in H as (? & ? & H)). injection H as <-. simpl.
  by eapply field_list_Forall; [apply read_task_valid|].
Qed.

Lemma graph_output_validate_Ok v o :
  graph_output_validate v = Ok o ->
  Forall (fun t => validate_planned_task (to_runtime_task t) = Ok tt) (go_tasks o) /\ validate_semantic_output o = Ok o.
Proof.
  unfold graph_output_validate. destruct (normalize_legacy_lifecycle_output v) as [[| | | | | |d]|]; try done.
  destruct (read_output d) as [o'|] eqn:Er; [|done]. intros H.
  assert (o' = o) as -> by (unfold validate_semantic_output in H; rewrite !andThen_Ok in H; naive_solver).
  split; [by eapply read_output_tasks|done].
Qed.

(** The patch of a revision *)
Definition patch_of (o : PlannerGraphOutput) (revision : Z) (has_existing_graph : bool) : PlanPatch :=
  mkPlanPatch revision (decision_of (go_action o) has_existing_graph) None (map to_runtime_task (go_tasks o))
    (go_remove_task_ids o) (go_question o) (go_answer_brief o) (go_failure_reason o) "" None.

Lemma runtime_task_ids l : map pt_task_id (map to_runtime_task l) = map ppt_task_id l.
Proof. by rewrite map_map. Qed.

Lemma runtime_tasks_valid l :
  all_ok validate_semantic_task l = Ok tt -> all_ok validate_patch_task (map to_runtime_task l) = Ok tt.
Proof. rewrite !all_ok_Ok. intros H. by apply Forall_map. Qed.

(** What the planner's validators accept, those of the patch accept. *)
Lemma patch_of_valid o revision existing :
  validate_semantic_output o = Ok o -> (existing = false -> revision = 0) ->
  validate_patch (patch_of o revision existing) = Ok (patch_of o revision existing).
Proof.
  unfold validate_semantic_output, validate_patch. rewrite !andThen_Ok, !check_Ok. simpl. rewrite runtime_task_ids.
  intros (Hd & Ht & Hr & Hq & Hf & Hm & _) He. split_and!; [done|by apply runtime_tasks_valid|done| | | | |done].
  - destruct (go_action o); simpl; [|done..]. destruct existing; [done|]. by rewrite He.
  - destruct (go_action o); simpl in *; try done. by destruct existing.
  - destruct (go_action o); simpl in *; try done. by destruct existing.
  - unfold mutates in Hm. destruct (go_action o); simpl in *; try done; [by destruct existing|].
    rewrite negb_involutive in Hm. apply andb_true_iff in Hm as [Hl%bool_decide_eq_true Hrm].
    rewrite Hrm. by destruct (go_tasks o).
Qed.

Lemma to_plan_patch_valid o v plan n :
  graph_output_validate v = Ok o -> plan_revision plan = Ok n -> 0 <= n ->
  exists p, p = patch_of o n (truthy (jget "tasks" plan) || (0 <? n)) /\ to_plan_patch o plan = Ok p /\ make_patch p = Ok p.
Proof.
  intros [Ht Hs]%graph_output_validate_Ok Hn Hpos. eexists. split; [reflexivity|].
  set (existing := truthy _ || _).
  assert (Hm : make_patch (patch_of o n existing) = Ok (patch_of o n existing)).
  { unfold make_patch. rewrite !andThen_Ok, check_Ok, all_ok_Ok. simpl. split_and!; [by apply Z.leb_le|done|by apply Forall_map|].
    apply patch_of_valid; [done|]. intros [_ H%Z.ltb_ge]%orb_false_iff. lia. }
  split; [|done]. unfold to_plan_patch. rewrite Hn. exact Hm.
Qed.

(** The mode told to the planner *)
Lemma told_mode repr rq payload n :
  build_graph_request repr rq = Ok payload -> plan_revision (r_plan rq) = Ok n ->
  jget "mode" payload = JStr (if truthy (JObj (as_dict (jget "tasks" (r_plan rq)))) || (0 <? n) then "replan" else "initial").
Proof.
  unfold build_graph_request. intros H Hn. destruct (agent_views repr _); [|done]. rewrite Hn in H.
  destruct (truthy (JObj _)) eqn:Et; injection H as <-; by rewrite ?orb_false_l.
Qed.

(** ** The planner *)
Section Planned.
Variables (repr : json -> string) (json_loads : string -> option json)
  (dumps dumps_indent : json -> string) (py_float : json -> result Contracts.exn json)
  (registry : string -> option ModelRow).
Variables (chat : nat -> odict json -> reply) (sink_raises : list llm_event -> option Contracts.exn)
  (sleep_cancelled : nat -> bool).
Variables (graph_output_schema : result Contracts.exn json) (graph_output_hints : option (list (string * hint))).
#[local] Abbreviation plan := (plan repr json_loads dumps dumps_indent py_float registry chat sink_raises sleep_cancelled
                                graph_output_schema graph_output_hints).
#[local] Abbreviation invoke := (invoke repr json_loads dumps dumps_indent py_float registry chat sink_raises sleep_cancelled
  "planner" ).
#[local] Abbreviation schema := (planner_schema graph_output_schema graph_output_hints).

Lemma plan_steps journalled rc overrides rq w p w' :
  plan journalled rc overrides rq w = (Ok p, w') ->
  exists payload r v, build_graph_request repr rq = Ok payload /\
    invoke journalled schema None rc (JObj payload) None overrides w = (Ok r, w') /\
    graph_output_validate v = Ok (sr_value r) /\ to_plan_patch (sr_value r) (r_plan rq) = Ok p.
Proof.
  unfold Planner.plan, lift, of_result, mbind, py_bind. intros H. destruct (build_graph_request repr rq) as [payload|]; [|done].
  destruct (StructuredCall.invoke _ _ _ _ _ _ _ _ _ _ _ _ _ _ _ _ _ w) as [[r|] w1] eqn:Ei; [|done].
  destruct (invoke_validated _ _ _ _ _ _ _ _ _ _ _ _ _ _ _ _ _ _ _ _ eq_refl Ei) as [v Hv].
  destruct (to_plan_patch _ _) as [p'|] eqn:Ep; [|done]. injection H as <- <-. by exists payload, r, v.
Qed.

(** C12: The planner answers exactly when its call does: the validation of the answer
    leaves nothing for the patch to refuse.  The patch is one the contract accepts, of
    the revision the planner was shown; its tasks carry no needs; and it revises the
    graph exactly if the planner was asked to replan, and creates one exactly if it
    was asked for the first. *)
Theorem planned_patch journalled rc overrides rq payload n w :
  build_graph_request repr rq = Ok payload -> plan_revision (r_plan rq) = Ok n -> 0 <= n ->
  (forall w', (exists p, plan journalled rc overrides rq w = (Ok p, w')) <->
              (exists r, invoke journalled schema None rc (JObj payload) None overrides w = (Ok r, w'))) /\
  (forall p w', plan journalled rc overrides rq w = (Ok p, w') ->
     make_patch p = Ok p /\ pp_expected_revision p = n /\ Forall (fun t => pt_needs t = []) (pp_tasks p) /\
     (jget "tasks" (r_plan rq) = JObj (as_dict (jget "tasks" (r_plan rq))) \/ truthy (jget "tasks" (r_plan rq)) = false ->
      (pp_decision p = REVISE_PLAN -> jget "mode" payload = JStr "replan") /\
      (pp_decision p = CREATE_PLAN -> jget "mode" payload = JStr "initial"))).
Proof.
  intros Hb Hn Hpos. split.
  - intros w'. split.
    + intros [p Hp]. destruct (plan_steps _ _ _ _ _ _ _ Hp) as (payload' & r & v & Hb' & Hi & _).
      rewrite Hb in Hb'. injection Hb' as <-. exists r. exact Hi.
    + intros [r Hi]. destruct (invoke_validated _ _ _ _ _ _ _ _ _ _ _ _ _ _ _ _ _ _ _ _ eq_refl Hi) as [v Hv].
      destruct (to_plan_patch_valid (sr_value r) v (r_plan rq) n Hv Hn Hpos) as (p & _ & Hp & _). exists p.
      unfold Planner.plan, lift, of_result, mbind, py_bind. by rewrite Hb, Hi, Hp.
  - intros p w' Hp. destruct (plan_steps _ _ _ _ _ _ _ Hp) as (payload' & r & v & Hb' & _ & Hv & Hto). simplify_eq.
    destruct (to_plan_patch_valid (sr_value r) v (r_plan rq) n Hv Hn Hpos) as (p' & Hp' & Hto' & Hm).
    rewrite Hto in Hto'. injection Hto' as <-. split; [done|]. subst p.
    split_and!; [done|simpl; by apply Forall_map, Forall_true|].
    intros Ht. rewrite (told_mode _ _ _ _ Hb Hn).
    assert (truthy (JObj (as_dict (jget "tasks" (r_plan rq)))) = truthy (jget "tasks" (r_plan rq))) as ->.
    { destruct Ht as [->|Ht]; [done|]. rewrite Ht. by destruct (jget "tasks" (r_plan rq)). }
    simpl. destruct (go_action (sr_value r)); simpl; [|done..]. by case_match.
Qed.
End Planned.

(** ** The planner behind the orchestrator *)

(** What the orchestrator relies on: a patch it is handed was constructed. *)
Class PlannerPort (planner : nat -> PlanRequest -> result Contracts.exn PlanPatch) : Prop :=
  port_constructs : forall i rq p, planner i rq = Ok p -> make_patch p = Ok p.

Lemma to_plan_patch_constructs o plan p : to_plan_patch o plan = Ok p -> make_patch p = Ok p.
Proof.
  unfold to_plan_patch. destruct (plan_revision plan); [|done]. intros H. pose proof H as (-> & _)%make_patch_Ok. exact H.
Qed.

(** What the orchestrator sees of an exception of the call *)
Definition port_exn (e : call_exn) : Contracts.exn :=
  match e with
  | StructuredCallError message _ => OtherError "StructuredCallError" message
  | Cancelled => OtherError "CancelledError" ""
  | Raised e => e
  end.

Section Port.
Variables (repr : json -> string) (json_loads : string -> option json)
  (dumps dumps_indent : json -> string) (py_float : json -> result Contracts.exn json)
  (registry : string -> option ModelRow).
(** The model answers the [j]-th request of the [i]-th call of the planner; [request_of]
    is the request as JSON. *)
Variables (chats : nat -> nat -> odict json -> reply) (sink_raises : list llm_event -> option Contracts.exn)
  (request_of : PlanRequest -> Request).
Variables (graph_output_schema : result Contracts.exn json) (graph_output_hints : option (list (string * hint))).
Variables (journalled : bool) (role_config : result Contracts.exn RoleConfig) (overrides : odict json).

Definition graph_planner (i : nat) (rq : PlanRequest) : result Contracts.exn PlanPatch :=
  match (plan repr json_loads dumps dumps_indent py_float registry (chats i) sink_raises (fun _ => false)
           graph_output_schema graph_output_hints journalled role_config overrides (request_of rq)
           {| w_events := []; w_requests := []; w_sleeps := [] |}).1 with
  | Ok p => Ok p
  | Err e => Err (port_exn e)
  end.

(** The requests to the model that one call of the planner makes *)
Definition planner_requests (i : nat) (rq : PlanRequest) : nat :=
  length (w_requests (plan repr json_loads dumps dumps_indent py_float registry (chats i) sink_raises (fun _ => false)
           graph_output_schema graph_output_hints journalled role_config overrides (request_of rq)
           {| w_events := []; w_requests := []; w_sleeps := [] |}).2).

Lemma planner_requests_bounded rc m i rq :
  role_config = Ok rc -> rc_max_retries rc = Some m -> 0 <= m -> Z.of_nat (planner_requests i rq) <= m + 1.
Proof.
  intros Hrc Hm Hpos. unfold planner_requests, Planner.plan, lift, of_result, mbind, py_bind.
  destruct (build_graph_request repr (request_of rq)) as [payload|e]; [|simpl; lia].
  destruct (StructuredCall.invoke _ _ _ _ _ _ _ _ _ _ _ _ _ _ _ _ _ _) as [r w] eqn:Ei.
  assert (Z.of_nat (length (w_requests w)) <= m + 1) as Hw; [|by destruct r as [r|e]; [destruct (to_plan_patch _ _)|]].
  apply invoke_settings in Ei as [[-> _]|(config & ov & t & st & messages & Hcfg & _ & _ & Hs & Hc)]; [simpl; lia|].
  rewrite Hrc in Hcfg. injection Hcfg as <-.
  destruct (costs_call_model _ _ _ _ _ _ _ _ _ _ _ _ _ _ Hc) as (q & d & -> & _ & Hq & _). simpl.
  unfold settings in Hs. destruct (resolve_model _ _); [|done]. injection Hs as <-. simpl in Hq. rewrite Hm in Hq. simpl in Hq. lia.
Qed.

#[local] Instance graph_planner_port : PlannerPort graph_planner.
Proof.
  intros i rq p. unfold graph_planner. destruct (plan _ _ _ _ _ _ _ _ _ _ _ _ _ _ _ _) as [[p'|e] w] eqn:Ep; [|done].
  intros [= <-]. destruct (plan_steps _ _ _ _ _ _ _ _ _ _ _ _ _ _ _ _ _ _ Ep) as (payload & r & v & _ & _ & _ & Hto).
  exact (to_plan_patch_constructs _ _ _ Hto).
Qed.

(** *** Runs over the SQL store *)
Variable uuid4 : nat -> Z.
Hypothesis uuid4_unique : forall i j, uuid4 i = uuid4 j -> i = j.
#[local] Existing Instance sql_plan_store.

(** Whatever plans, as long as it keeps the promise of the port *)
Lemma port_run_sound planner `{Hport : PlannerPort planner} executor clock repr' str_exn cfg n d b o :
  db_sound uuid4 d ->
  run (H := sql_plan_store uuid4) planner executor clock repr' str_exn cfg n (start d b) = (Ok tt, o) -> db_sound uuid4 (o_store o).
Proof.
  intros Hd Hr. pose proof (sql_plan_store_laws uuid4 uuid4_unique) as Hlaws.
  by destruct (run_legal (H := sql_plan_store uuid4) (db_sound uuid4) sql_claimed planner executor clock repr' str_exn cfg
                 port_constructs n (start d b) tt o (start_legal _ _ _ Hd) Hr) as [Hi _].
Qed.

Lemma sum_bounded (f : nat -> PlanRequest -> nat) (k : Z) l :
  0 <= k -> (forall i rq, Z.of_nat (f i rq) <= k) -> Z.of_nat (sum_list (imap f l)) <= Z.of_nat (length l) * k.
Proof.
  revert f. induction l as [|rq l IH]; intros f Hk Hf; [done|]. simpl. specialize (IH (f ∘ S) Hk (fun i => Hf (S i))).
  specialize (Hf 0%nat rq). lia.
Qed.

(** C13: GraphPlanner behind the orchestrator, over the SQL store: whatever the model
    answers, a run leaves a sound database sound, and it asks the model for plans at
    most (steps + 1) * (retries + 1) times. *)
Theorem orchestrated_by_graph_planner rc m executor clock str_exn cfg n d b o :
  role_config = Ok rc -> rc_max_retries rc = Some m -> 0 <= m -> db_sound uuid4 d ->
  (forall i j p, chats i j p <> CallCancelled) ->
  run (H := sql_plan_store uuid4) graph_planner executor clock repr str_exn cfg n (start d b) = (Ok tt, o) ->
  db_sound uuid4 (o_store o) /\
  Z.of_nat (sum_list (imap planner_requests (o_plan_requests o))) <= (Z.of_nat n + 1) * (m + 1).
Proof.
  intros Hrc Hm Hpos Hd _ Hr. split; [by apply (port_run_sound graph_planner executor clock repr str_exn cfg n d b)|].
  destruct (calls_run (H := sql_plan_store uuid4) graph_planner executor clock repr str_exn cfg n _ _ _ Hr) as [H2 _].
  simpl in H2. pose proof (sum_bounded planner_requests (m + 1) (o_plan_requests o) ltac:(lia)
                             (fun i rq => planner_requests_bounded rc m i rq Hrc Hm Hpos)).
  etransitivity; [eassumption|]. apply Z.mul_le_mono_nonneg_r; lia.
Qed.
End Port.

(** ** A plan of two tasks, in the words of an old prompt *)
Module PlannerDemo.
Definition task_json (id : string) (deps : list json) : json :=
  JObj [("task_id", JStr id); ("executor", JStr "agent"); ("intent", JStr "intent"); ("instructions", JStr "instructions");
        ("depends_on", JList deps)]%string.
Definition answer : odict json :=
  [("decision", JStr "create_plan"); ("tasks", JList [task_json "b" [JStr "a"]; task_json "a" []]); ("remove_task_ids", JNull)]%string.
Definition json_loads (s : string) : option json := if String.eqb s (braces "") then Some (JObj answer) else None.
Definition chats (_ n : nat) (_ : odict json) : reply := match n with O => TimedOut | _ => Response (JStr (braces "")) end.
Definition role : RoleConfig :=
  {| rc_role_type := "planner"; rc_prompt := "Plan."; rc_identity := None; rc_mission := None; rc_rules := None;
     rc_safety := None; rc_output_requirements := None; rc_examples := JNull; rc_model := None; rc_temperature := JNull;
     rc_max_tokens := Some 512; rc_timeout_s := None; rc_max_retries := Some 1; rc_retry_backoff := None |}.
Definition request_of (rq : PlanRequest) : Request :=
  {| r_goal := rq_goal rq; r_available_agents := []; r_plan := [("revision", JInt (pr_revision (PlanSql.sp_plan (rq_plan rq))))]%string;
     r_completed_outputs := []; r_available_artifacts := []; r_needs := []; r_last_failure := JNull;
     r_user_response := rq_user_response rq; r_memory_context := []; r_trigger := Some (rq_trigger rq) |}.
Definition first_request : Request :=
  {| r_goal := "goal"; r_available_agents := []; r_plan := [("revision", JInt 0)]%string;
     r_completed_outputs := []; r_available_artifacts := []; r_needs := []; r_last_failure := JNull;
     r_user_response := None; r_memory_context := []; r_trigger := None |}.
Definition dumps (_ : json) : string := "{}".
Definition floats (v : json) : result Contracts.exn json := Ok v.
Definition registry (_ : string) : option ModelRow := None.
Definition quiet (_ : list llm_event) : option Contracts.exn := None.
Definition no_schema : result Contracts.exn json := Ok (JObj []).
Definition planned (w : World) : result call_exn PlanPatch * World :=
  plan ox_repr json_loads dumps dumps floats registry (chats 0) quiet (fun _ => false) no_schema None true (Ok role) []
    first_request w.
Definition empty : World := {| w_events := []; w_requests := []; w_sleeps := [] |}.
#[local] Abbreviation planner := (graph_planner ox_repr json_loads dumps dumps floats registry chats quiet request_of no_schema None true (Ok role) []).
#[local] Abbreviation running := (run (H := sql_plan_store ex_uuid) planner ox_executor ox_clock ox_repr ox_str ox_config 10
                    (start sx_created Service.empty_budget)).
Definition ran := running.2.

Lemma legacy_output_accepted_witness :
  graph_output_validate (JObj answer) = graph_output_validate (JObj (od_set "action" (JStr "apply_graph") answer)).
Proof.
  apply (proj1 (legacy_output_accepted answer) "create_plan" "apply_graph")%string; [right; split|]; vm_compute; reflexivity.
Defined.

Lemma planned_patch_witness :
  planned empty = (Ok sx_first, (planned empty).2) /\ make_patch sx_first = Ok sx_first.
Proof.
  assert (H : planned empty = (Ok sx_first, (planned empty).2)) by (vm_compute; reflexivity).
  split; [exact H|].
  exact (proj1 (proj2 (planned_patch ox_repr json_loads dumps dumps floats registry (chats 0) quiet (fun _ => false) no_schema None
    true (Ok role) [] first_request _ 0 empty eq_refl eq_refl ltac:(lia)) sx_first _ H)).
Defined.

Lemma ran_returns : running = (Ok tt, ran).
Proof. vm_compute. reflexivity. Qed.

Lemma orchestrated_by_graph_planner_witness :
  db_sound ex_uuid (o_store ran) /\
  (Z.of_nat (sum_list (imap (planner_requests ox_repr json_loads dumps dumps floats registry chats quiet request_of no_schema None
     true (Ok role) []) (o_plan_requests ran))) <= (Z.of_nat 10 + 1) * (1 + 1))%Z.
Proof.
  apply (orchestrated_by_graph_planner ox_repr json_loads dumps dumps floats registry chats quiet request_of no_schema None
    true (Ok role) [] ex_uuid ex_uuid_unique role 1 ox_executor ox_clock ox_str ox_config 10 sx_created Service.empty_budget ran
    eq_refl eq_refl ltac:(lia) sx_created_sound).
  - intros i [|j] p; vm_compute; discriminate.
  - exact ran_returns.
Defined.
End PlannerDemo.
