(* ===== verification/Collections.v ===== *)
(** * Collections: typed fields and dynamic rows

    models/collection.py (field categories and types), services/collection/field_coercion.py
    (Python values to typed values), services/collection/ddl.py (column types) and
    services/collection/row_service.py (rows of a collection's table).  The semantic
    versions of a collection are in [CollectionVersions].

    Python values are [pyval]; a float is a binary fraction.  Strings are strings
    of characters (lengths count them).  Parsers and printers of the standard
    library for dates, floats and JSON are arguments. *)
From S2P Require Import Prelude.
Open Scope Z_scope.

(** ** Python values *)
Inductive pyfloat : Type :=
| FFin (m e : Z)
| FInf (negative : bool)
| FNan.

Record pydatetime := { dt_date : Z; dt_micros : Z; dt_offset : option Z }.

Inductive pyval : Type :=
| PNone
| PBool (b : bool)
| PInt (z : Z)
| PFloat (f : pyfloat)
| PStr (s : string)
| PDateTime (d : pydatetime)
| PDate (d : Z)
| PList (l : list pyval)
| PDict (l : odict pyval).

(** ** Fields *)
Inductive FieldType : Type :=
| FT_STRING | FT_TEXT | FT_INTEGER | FT_FLOAT | FT_BOOLEAN | FT_DATETIME | FT_DATE | FT_ENUM | FT_JSON | FT_FILE.

#[export] Instance FieldType_eq_dec : EqDecision FieldType.
Proof. solve_decision. Defined.

Definition field_type_value (t : FieldType) : string :=
  match t with
  | FT_STRING => "string" | FT_TEXT => "text" | FT_INTEGER => "integer" | FT_FLOAT => "float"
  | FT_BOOLEAN => "boolean" | FT_DATETIME => "datetime" | FT_DATE => "date" | FT_ENUM => "enum"
  | FT_JSON => "json" | FT_FILE => "file"
  end.

Definition FIELD_TYPES : list FieldType :=
  [FT_STRING; FT_TEXT; FT_INTEGER; FT_FLOAT; FT_BOOLEAN; FT_DATETIME; FT_DATE; FT_ENUM; FT_JSON; FT_FILE].

(** The type a stored name stands for; an unknown name matches none of them. *)
Definition field_type_of (s : string) : option FieldType :=
  List.find (fun t => String.eqb (field_type_value t) s) FIELD_TYPES.

Record FieldDef := {
  fd_name : string;
  fd_category : string;
  fd_data_type : option string;
  fd_required : bool;
  fd_filterable : bool;
  fd_sortable : bool;
  fd_used_in_retrieval : bool
}.

Inductive CollectionType : Type := CT_TABLE | CT_DOCUMENT | CT_SQL | CT_API | CT_TEMPLATE.

#[export] Instance CollectionType_eq_dec : EqDecision CollectionType.
Proof. solve_decision. Defined.

Definition get_specific_fields (fields : list FieldDef) : list FieldDef :=
  List.filter (fun f => String.eqb (fd_category f) "specific") fields.
Definition get_user_fields (fields : list FieldDef) : list FieldDef :=
  List.filter (fun f => String.eqb (fd_category f) "user") fields.
Definition get_business_fields (fields : list FieldDef) : list FieldDef :=
  get_specific_fields fields ++ get_user_fields fields.
Definition get_row_writable_fields (fields : list FieldDef) : list FieldDef := get_business_fields fields.
Definition get_filterable_fields (fields : list FieldDef) : list FieldDef :=
  List.filter fd_filterable (get_business_fields fields).
Definition get_sortable_fields (fields : list FieldDef) : list FieldDef :=
  List.filter fd_sortable (get_business_fields fields).

(** [field.get("data_type") == t] and [field.get("data_type", "string") == t] *)
Definition has_data_type (t : FieldType) (f : FieldDef) : bool :=
  bool_decide (fd_data_type f = Some (field_type_value t)).
Definition data_type_or_string (f : FieldDef) : string :=
  match fd_data_type f with
  | Some s => s
  | None => "string"
  end.

Definition has_vector_search (ct : CollectionType) (fields : list FieldDef) : bool :=
  bool_decide (ct = CT_DOCUMENT) ||
  existsb (fun f => fd_used_in_retrieval f && has_data_type FT_TEXT f) (get_business_fields fields).

(** ** Coercion *)

(** The exceptions of the conversions: [except (ValueError, TypeError)] turns the
    first two into RowValidationError; an OverflowError goes through. *)
Inductive PyExc : Type := ValueError | TypeError | OverflowError.

Inductive RowExc : Type :=
| CannotCoerce (field : string)
| RowOverflow
| UnknownFields (names : list string)
| MissingField (field : string)
| EmptyPayload
| DuplicateTable (name : string)
| TableNameRequired
| NotNullViolation
| DataError
| RowTypeError
| CreatedRowNotLoaded.

Definition parse_string_bool (value : string) : result PyExc bool :=
  let l := lower_ru (strip value) in
  if str_in l ["true"; "1"; "yes"; "y"; "да"] then Ok true
  else if str_in l ["false"; "0"; "no"; "n"; "нет"] then Ok false
  else Err ValueError.

(** [int(f)]: towards zero. *)
Definition float_to_int (f : pyfloat) : result PyExc Z :=
  match f with
  | FFin m e => Ok (if 0 <=? e then m * 2 ^ e else Z.quot m (2 ^ (- e)))
  | FInf _ => Err OverflowError
  | FNan => Err ValueError
  end.

Section Coercion.
Variables (py_str : pyval -> string) (int_to_float : Z -> option pyfloat)
  (parse_float : string -> option pyfloat) (datetime_fromisoformat : string -> option pydatetime)
  (date_fromisoformat : string -> option Z) (json_loads : string -> option pyval).

(** [str(value)] *)
Definition str_of (v : pyval) : string := match v with PStr s => s | _ => py_str v end.

Definition opt_value {A} (o : option A) : result PyExc A :=
  match o with Some a => Ok a | None => Err ValueError end.

Definition ends_with_Z (s : string) : bool := String.prefix "Z" (String.rev s).

Definition parse_datetime (value : string) : result PyExc pydatetime :=
  let normalized := strip value in
  let normalized := if ends_with_Z normalized
                    then str_take (String.length normalized - 1) normalized +:+ "+00:00" else normalized in
  opt_value (datetime_fromisoformat normalized).

Definition parse_date (value : string) : result PyExc Z := opt_value (date_fromisoformat (strip value)).

Definition to_int (v : pyval) : result PyExc Z :=
  match v with
  | PBool b => Ok (Z.b2z b)
  | PInt z => Ok z
  | PFloat f => float_to_int f
  | PStr s => opt_value (parse_int (strip s))
  | _ => Err TypeError
  end.

Definition to_float (v : pyval) : result PyExc pyfloat :=
  match v with
  | PBool b => Ok (FFin (Z.b2z b) 0)
  | PInt z => match int_to_float z with Some f => Ok f | None => Err OverflowError end
  | PFloat f => Ok f
  | PStr s => opt_value (parse_float (strip s))
  | _ => Err TypeError
  end.

Definition to_bool (v : pyval) : result PyExc bool :=
  match v with
  | PBool b => Ok b
  | PInt z => Ok (negb (Z.eqb z 0))
  | PStr s => parse_string_bool s
  | _ => Err ValueError
  end.

Definition to_json (v : pyval) : result PyExc pyval :=
  match v with
  | PDict _ | PList _ => Ok v
  | PStr s => opt_value (json_loads s)
  | _ => Err ValueError
  end.

Definition rmap {E A B} (f : A -> B) (r : result E A) : result E B :=
  match r with Ok a => Ok (f a) | Err e => Err e end.

Definition convert (t : FieldType) (v : pyval) : result PyExc pyval :=
  match t with
  | FT_STRING => Ok (PStr (str_take 255 (str_of v)))
  | FT_TEXT => Ok (PStr (str_of v))
  | FT_INTEGER => rmap PInt (to_int v)
  | FT_FLOAT => rmap PFloat (to_float v)
  | FT_BOOLEAN => rmap PBool (to_bool v)
  | FT_DATETIME => match v with
                   | PDateTime d => Ok v
                   | _ => rmap PDateTime (parse_datetime (str_of v))
                   end
  | FT_DATE => match v with
               | PDate d => Ok v
               | PDateTime d => Ok (PDate (dt_date d))
               | _ => rmap PDate (parse_date (str_of v))
               end
  | FT_ENUM => Ok (PStr (str_take 100 (str_of v)))
  | FT_JSON | FT_FILE => to_json v
  end.

(** [coerce_value]: None and values of an unknown type pass as they are. *)
Definition coerce_value (field_name field_type : string) (v : pyval) : result RowExc pyval :=
  match v with
  | PNone => Ok PNone
  | _ => match field_type_of field_type with
         | None => Ok v
         | Some t => match convert t v with
                     | Ok v' => Ok v'
                     | Err OverflowError => Err RowOverflow
                     | Err _ => Err (CannotCoerce field_name)
                     end
         end
  end.

(** [validate_and_prepare_payload], the loop over the writable fields. *)
Fixpoint prepare (payload : odict pyval) (partial : bool) (fields : list FieldDef) (prepared : odict pyval)
    : result RowExc (odict pyval) :=
  match fields with
  | [] => Ok prepared
  | f :: rest =>
      match od_get (fd_name f) payload with
      | None => if negb partial && fd_required f then Err (MissingField (fd_name f))
                else prepare payload partial rest prepared
      | Some v =>
          match coerce_value (fd_name f) (data_type_or_string f) v with
          | Err e => Err e
          | Ok v' => prepare payload partial rest (od_set (fd_name f) v' prepared)
          end
      end
  end.

Definition unknown_fields (fields : list FieldDef) (payload : odict pyval) : list string :=
  List.filter (fun k => negb (str_in k (map fd_name fields))) (od_keys payload).

Definition validate_and_prepare_payload (fields : list FieldDef) (payload : odict pyval) (partial : bool)
    : result RowExc (odict pyval) :=
  let writable := get_row_writable_fields fields in
  match unknown_fields writable payload with
  | [] => prepare payload partial writable []
  | names => Err (UnknownFields (sort_by id String.le names))
  end.

(** ** ddl.py: the column of a field *)
Inductive PgType : Type :=
| PG_VARCHAR (n : nat) | PG_TEXT | PG_BIGINT | PG_DOUBLE | PG_BOOLEAN | PG_TIMESTAMPTZ | PG_DATE | PG_JSONB.

Definition FIELD_TYPE_TO_PG (t : FieldType) : PgType :=
  match t with
  | FT_STRING => PG_VARCHAR 255
  | FT_TEXT => PG_TEXT
  | FT_INTEGER => PG_BIGINT
  | FT_FLOAT => PG_DOUBLE
  | FT_BOOLEAN => PG_BOOLEAN
  | FT_DATETIME => PG_TIMESTAMPTZ
  | FT_DATE => PG_DATE
  | FT_ENUM => PG_VARCHAR 100
  | FT_JSON | FT_FILE => PG_JSONB
  end.

(** [FIELD_TYPE_TO_PG.get(data_type, "TEXT")] *)
Definition column_type (f : FieldDef) : PgType :=
  match field_type_of (data_type_or_string f) with
  | Some t => FIELD_TYPE_TO_PG t
  | None => PG_TEXT
  end.

(** What the driver and PostgreSQL accept in a column. *)
Definition fits (ty : PgType) (v : pyval) : bool :=
  match ty, v with
  | _, PNone => true
  | PG_VARCHAR n, PStr s => Nat.leb (String.length s) n
  | PG_TEXT, PStr _ => true
  | PG_BIGINT, PInt z => (- 2 ^ 63 <=? z) && (z <? 2 ^ 63)
  | PG_DOUBLE, PFloat _ => true
  | PG_BOOLEAN, PBool _ => true
  | PG_TIMESTAMPTZ, PDateTime _ => true
  | PG_DATE, PDate _ => true
  | PG_JSONB, _ => true
  | _, _ => false
  end.
End Coercion.

(** ** CollectionRowService *)
Record Row := {
  rw_id : Z;
  rw_cells : odict pyval;
  rw_vector_status : string;
  rw_vector_chunk_count : Z;
  rw_vector_error : option string
}.

(** A collection with its dynamic table.  [cl_qdrant] says whether vectors are kept
    for it; the counters are those of the row in [collections]. *)
Record Collection := {
  cl_type : CollectionType;
  cl_fields : list FieldDef;
  cl_rows : list Row;
  cl_total_rows : option Z;
  cl_vectorized_rows : Z;
  cl_failed_rows : Z;
  cl_total_chunks : Z;
  cl_qdrant : bool;
  cl_time_column : option string;
  cl_default_sort : option (option string * option string);
  cl_next_id : nat
}.

Abbreviation rows A := (py RowExc Collection A).

Definition with_table (rs : list Row) (total : option Z) (c : Collection) : Collection :=
  {| cl_type := cl_type c; cl_fields := cl_fields c; cl_rows := rs; cl_total_rows := total;
     cl_vectorized_rows := cl_vectorized_rows c; cl_failed_rows := cl_failed_rows c;
     cl_total_chunks := cl_total_chunks c; cl_qdrant := cl_qdrant c; cl_time_column := cl_time_column c;
     cl_default_sort := cl_default_sort c; cl_next_id := cl_next_id c |}.

Definition with_next_id (n : nat) (c : Collection) : Collection :=
  {| cl_type := cl_type c; cl_fields := cl_fields c; cl_rows := cl_rows c; cl_total_rows := cl_total_rows c;
     cl_vectorized_rows := cl_vectorized_rows c; cl_failed_rows := cl_failed_rows c;
     cl_total_chunks := cl_total_chunks c; cl_qdrant := cl_qdrant c; cl_time_column := cl_time_column c;
     cl_default_sort := cl_default_sort c; cl_next_id := n |}.

Definition with_stats (vectorized failed chunks : Z) (c : Collection) : Collection :=
  {| cl_type := cl_type c; cl_fields := cl_fields c; cl_rows := cl_rows c; cl_total_rows := cl_total_rows c;
     cl_vectorized_rows := vectorized; cl_failed_rows := failed;
     cl_total_chunks := chunks; cl_qdrant := cl_qdrant c; cl_time_column := cl_time_column c;
     cl_default_sort := cl_default_sort c; cl_next_id := cl_next_id c |}.

Definition get_row (row_id : Z) (c : Collection) : option Row :=
  List.find (fun r => Z.eqb (rw_id r) row_id) (cl_rows c).

(** [_serialize_row] of [SELECT *]: the id, then the schema's columns (NULL is None). *)
Definition serialize_row (c : Collection) (r : Row) : odict pyval :=
  od_update [("id", PInt (rw_id r))]
    (map (fun f => (fd_name f, match od_get (fd_name f) (rw_cells r) with Some v => v | None => PNone end))
         (cl_fields c)).

(** The constraints of the dynamic table (ddl.py): NOT NULL for required fields,
    and the column types.  A failing statement changes nothing.  None bound to a
    JSONB column is the JSON null, not NULL. *)
Definition column_error (cells : odict pyval) (f : FieldDef) : option RowExc :=
  let null := if fd_required f then Some NotNullViolation else None in
  match od_get (fd_name f) cells with
  | None => null
  | Some PNone => match column_type f with PG_JSONB => None | _ => null end
  | Some v => if fits (column_type f) v then None else Some DataError
  end.

(** A value of the wrong type is reported before a missing one: the driver and the
    server convert the values before the row is checked. *)
Definition is_data_error (e : RowExc) : bool := match e with DataError => true | _ => false end.

Definition first_error (cells : odict pyval) (fields : list FieldDef) : option RowExc :=
  let errors := omap (column_error cells) fields in
  if existsb is_data_error errors then Some DataError else head errors.

Definition checked (cells : odict pyval) (fields : list FieldDef) : rows unit :=
  match first_error cells fields with
  | Some e => raise e
  | None => mret tt
  end.

Section Rows.
Variables (py_str : pyval -> string) (int_to_float : Z -> option pyfloat)
  (parse_float : string -> option pyfloat) (datetime_fromisoformat : string -> option pydatetime)
  (date_fromisoformat : string -> option Z) (json_loads : string -> option pyval) (gen_random_uuid : nat -> Z).

#[local] Abbreviation validate :=
  (validate_and_prepare_payload py_str int_to_float parse_float datetime_fromisoformat date_fromisoformat json_loads).

(** [str(value or "").strip()] of a cell *)
Definition pv_truthy (v : pyval) : bool :=
  match v with
  | PNone => false
  | PBool b => b
  | PInt z => negb (Z.eqb z 0)
  | PFloat (FFin m _) => negb (Z.eqb m 0)
  | PFloat _ => true
  | PStr s => negb (str_empty s)
  | PDateTime _ | PDate _ => true
  | PList l => match l with [] => false | _ => true end
  | PDict l => match l with [] => false | _ => true end
  end.

Fixpoint ltrim (s : string) : string :=
  match s with
  | String c s' => if is_char 32 c then ltrim s' else s
  | EmptyString => EmptyString
  end.
Definition btrim (s : string) : string := String.rev (ltrim (String.rev (ltrim s))).

Definition table_name_of (v : pyval) : string := if pv_truthy v then strip (str_of py_str v) else "".

(** [lower(btrim(table_name))] of a stored cell, where [btrim] removes spaces
    only; NULL compares with nothing. *)
Definition registered_name (r : Row) : option string :=
  match od_get "table_name" (rw_cells r) with
  | Some (PStr s) => Some (lower (btrim s))
  | _ => None
  end.

Definition ensure_sql_table_name_unique (payload : odict pyval) (row_id : option Z) : rows unit :=
  c ← get_state;
  match cl_type c, od_get "table_name" payload with
  | CT_SQL, Some raw_value =>
      let normalized := table_name_of raw_value in
      if str_empty normalized then raise TableNameRequired
      else if existsb (fun r => bool_decide (registered_name r = Some (lower (btrim normalized)))
                                && negb (bool_decide (row_id = Some (rw_id r)))) (cl_rows c)
           then raise (DuplicateTable normalized)
           else mret tt
  | _, _ => mret tt
  end.

Definition new_row (id : Z) (cells : odict pyval) : Row :=
  {| rw_id := id; rw_cells := cells; rw_vector_status := "pending"; rw_vector_chunk_count := 0;
     rw_vector_error := None |}.

(** INSERT ... RETURNING id *)
Definition insert_row (cells : odict pyval) : rows Z :=
  c ← get_state;
  _ ← checked cells (cl_fields c);
  let id := gen_random_uuid (cl_next_id c) in
  _ ← put_state (with_next_id (S (cl_next_id c))
                   (with_table (cl_rows c ++ [new_row id cells]) (cl_total_rows c) c));
  mret id.

Definition or_zero (z : option Z) : Z := match z with Some z => z | None => 0 end.

(** [except IntegrityError]: for a row of a SQL collection's catalogue that names a
    table, every violated constraint is taken for a duplicate. *)
Definition integrity_error (ct : CollectionType) (prepared : odict pyval) (e : RowExc) : RowExc :=
  match e, ct, od_get "table_name" prepared with
  | NotNullViolation, CT_SQL, Some v => DuplicateTable (table_name_of v)
  | _, _, _ => e
  end.

Definition map_error {A} (f : RowExc -> RowExc) (m : rows A) : rows A :=
  try_except m (fun e => raise (f e)).

Definition create_row (payload : odict pyval) : rows (odict pyval) :=
  c ← get_state;
  prepared ← of_result (validate (cl_fields c) payload false);
  match prepared with
  | [] => raise EmptyPayload
  | _ =>
      _ ← ensure_sql_table_name_unique prepared None;
      id ← map_error (integrity_error (cl_type c) prepared) (insert_row prepared);
      _ ← modify (fun c => with_table (cl_rows c) (Some (or_zero (cl_total_rows c) + 1)) c);
      c ← get_state;
      match get_row id c with
      | Some r => mret (serialize_row c r)
      | None => raise CreatedRowNotLoaded
      end
  end.

Definition set_cells (prepared : odict pyval) (r : Row) : Row :=
  {| rw_id := rw_id r; rw_cells := od_update (rw_cells r) prepared; rw_vector_status := rw_vector_status r;
     rw_vector_chunk_count := rw_vector_chunk_count r; rw_vector_error := rw_vector_error r |}.

Definition reset_vector (r : Row) : Row :=
  {| rw_id := rw_id r; rw_cells := rw_cells r; rw_vector_status := "pending"; rw_vector_chunk_count := 0;
     rw_vector_error := None |}.

Definition update_where (row_id : Z) (f : Row -> Row) (c : Collection) : Collection :=
  with_table (map (fun r => if Z.eqb (rw_id r) row_id then f r else r) (cl_rows c)) (cl_total_rows c) c.

Definition update_row (row_id : Z) (payload : odict pyval) (skip_vectorization : bool)
    : rows (option (odict pyval)) :=
  c ← get_state;
  prepared ← of_result (validate (cl_fields c) payload true);
  match prepared with
  | [] => raise EmptyPayload
  | _ =>
      _ ← ensure_sql_table_name_unique prepared (Some row_id);
      match get_row row_id c with
      | None => mret None
      | Some r =>
          _ ← map_error (integrity_error (cl_type c) prepared)
                (checked (od_update (rw_cells r) prepared) (cl_fields c));
          _ ← modify (update_where row_id (set_cells prepared));
          _ ← (if negb skip_vectorization && bool_decide (cl_type c ∈ [CT_TABLE; CT_TEMPLATE])
                  && has_vector_search (cl_type c) (cl_fields c)
               then modify (update_where row_id reset_vector) else mret tt);
          c ← get_state;
          mret (option_map (serialize_row c) (get_row row_id c))
      end
  end.

(** Bulk insert: one statement per row, values as given by the caller. *)
Definition filtered_row (fields : list FieldDef) (row : odict pyval) : odict pyval :=
  od_update [] (map (fun f => (fd_name f, match od_get (fd_name f) row with Some v => v | None => PNone end))
                    (get_row_writable_fields fields)).

Definition insert_rows (l : list (odict pyval)) : rows Z :=
  match l with
  | [] => mret 0
  | _ =>
      c ← get_state;
      _ ← for_each (fun row => _ ← insert_row (filtered_row (cl_fields c) row); mret tt) l;
      c ← get_state;
      match cl_total_rows c with
      | None => raise RowTypeError
      | Some n =>
          _ ← put_state (with_table (cl_rows c) (Some (n + Z.of_nat (length l))) c);
          mret (Z.of_nat (length l))
      end
  end.

Definition count_rows (f : Row -> bool) (c : Collection) : Z := Z.of_nat (length (List.filter f (cl_rows c))).

Definition delete_rows (ids : list Z) : rows Z :=
  match ids with
  | [] => mret 0
  | _ =>
      c ← get_state;
      let kept := List.filter (fun r => negb (bool_decide (rw_id r ∈ ids))) (cl_rows c) in
      let deleted := Z.of_nat (length (cl_rows c)) - Z.of_nat (length kept) in
      _ ← put_state (with_table kept (cl_total_rows c) c);
      match cl_total_rows c with
      | None => raise RowTypeError
      | Some n =>
          _ ← modify (fun c => with_table (cl_rows c) (Some (Z.max 0 (n - deleted))) c);
          _ ← (if negb (Z.eqb deleted 0) && bool_decide (cl_type c ∈ [CT_TABLE; CT_TEMPLATE])
                  && has_vector_search (cl_type c) (cl_fields c) && cl_qdrant c
               then modify (fun c => with_stats (count_rows (fun r => String.eqb (rw_vector_status r) "done") c)
                                       (count_rows (fun r => String.eqb (rw_vector_status r) "error") c)
                                       (foldr Z.add 0 (map rw_vector_chunk_count (cl_rows c))) c)
               else mret tt);
          mret deleted
      end
  end.
End Rows.

(** ** Search: the text of the query and its bound parameters *)
Definition is_text_type (t : option string) : bool :=
  existsb (fun ft => bool_decide (t = Some (field_type_value ft))) [FT_STRING; FT_TEXT; FT_ENUM].
Definition is_range_type (t : option string) : bool :=
  existsb (fun ft => bool_decide (t = Some (field_type_value ft))) [FT_INTEGER; FT_FLOAT; FT_DATETIME; FT_DATE].

(** One filter: the clauses it adds and the parameters. *)
Definition range_clause (name key op : string) (d : odict pyval) : list string * odict pyval :=
  match od_get key d with
  | Some v => ([name +:+ " " +:+ op +:+ " :p_" +:+ name +:+ "_" +:+ key], [("p_" +:+ name +:+ "_" +:+ key, v)])
  | None => ([], [])
  end.

Definition filter_clause (f : FieldDef) (value : pyval) : list string * odict pyval :=
  let name := fd_name f in
  match value with
  | PDict d =>
      if is_range_type (fd_data_type f) then
        let a := range_clause name "from" ">=" d in
        let b := range_clause name "to" "<=" d in
        (a.1 ++ b.1, a.2 ++ b.2)
      else ([name +:+ " = :p_" +:+ name], [("p_" +:+ name, value)])
  | PStr s =>
      if is_text_type (fd_data_type f) then
        ([name +:+ " ILIKE :p_" +:+ name], [("p_" +:+ name, PStr ("%" +:+ s +:+ "%"))])
      else ([name +:+ " = :p_" +:+ name], [("p_" +:+ name, value)])
  | _ => ([name +:+ " = :p_" +:+ name], [("p_" +:+ name, value)])
  end.

Definition query_clause (fields : list FieldDef) (query : option string) : list string * odict pyval :=
  if str_empty (or_str query "") then ([], [])
  else
    match List.filter (fun f => is_text_type (fd_data_type f)) (get_filterable_fields fields) with
    | [] => ([], [])
    | l => (["(" +:+ String.concat " OR " (map (fun f => fd_name f +:+ " ILIKE :query_param") l) +:+ ")"],
            [("query_param", PStr ("%" +:+ or_str query "" +:+ "%"))])
    end.

Definition filter_clauses (fields : list FieldDef) (filters : odict pyval) : list (list string * odict pyval) :=
  omap (fun f => option_map (filter_clause f) (od_get (fd_name f) filters)) (get_filterable_fields fields).

Definition build_where (fields : list FieldDef) (filters : odict pyval) (query : option string)
    : string * odict pyval :=
  let parts := query_clause fields query :: filter_clauses fields filters in
  let clauses := concat (map fst parts) in
  (match clauses with
   | [] => "TRUE"
   | _ => String.concat " AND " clauses
   end, od_update [] (concat (map snd parts))).

(** [str.upper] on ASCII letters *)
Definition upper_char (c : Ascii.ascii) : Ascii.ascii :=
  let n := Ascii.nat_of_ascii c in
  if bool_decide (97 <= n <= 122)%nat then Ascii.ascii_of_nat (n - 32) else c.
Fixpoint upper (s : string) : string :=
  match s with
  | EmptyString => EmptyString
  | String c s' => String (upper_char c) (upper s')
  end.

Definition resolve_sort (c : Collection) : string * string :=
  let sortable := map fd_name (get_sortable_fields (cl_fields c)) in
  let by_time := match cl_time_column c with
                 | Some t => if negb (str_empty t) && str_in t sortable then (t, "DESC") else ("id", "DESC")
                 | None => ("id", "DESC")
                 end in
  match cl_default_sort c with
  | Some (Some field, order) =>
      if str_in field sortable then
        let o := upper (match order with Some o => o | None => "desc" end) in
        (field, if str_in o ["ASC"; "DESC"] then o else "DESC")
      else by_time
  | _ => by_time
  end.
