(* ===== verification/CollectionsProofs.v ===== *)
(** * What typed fields, rows and searches promise *)
From S2P Require Import Prelude Collections.
Open Scope Z_scope.

(** ** Coercion *)
Section CoercionProps.
Variables (py_str : pyval -> string) (int_to_float : Z -> option pyfloat)
  (parse_float : string -> option pyfloat) (datetime_fromisoformat : string -> option pydatetime)
  (date_fromisoformat : string -> option Z) (json_loads : string -> option pyval).

#[local] Abbreviation coerce :=
  (coerce_value py_str int_to_float parse_float datetime_fromisoformat date_fromisoformat json_loads).
#[local] Abbreviation validate :=
  (validate_and_prepare_payload py_str int_to_float parse_float datetime_fromisoformat date_fromisoformat json_loads).
#[local] Abbreviation prep :=
  (prepare py_str int_to_float parse_float datetime_fromisoformat date_fromisoformat json_loads).

(** The values of a field type. *)
Inductive has_type : FieldType -> pyval -> Prop :=
| ty_string s : (String.length s <= 255)%nat -> has_type FT_STRING (PStr s)
| ty_text s : has_type FT_TEXT (PStr s)
| ty_integer z : has_type FT_INTEGER (PInt z)
| ty_float f : has_type FT_FLOAT (PFloat f)
| ty_boolean b : has_type FT_BOOLEAN (PBool b)
| ty_datetime d : has_type FT_DATETIME (PDateTime d)
| ty_date d : has_type FT_DATE (PDate d)
| ty_enum s : (String.length s <= 100)%nat -> has_type FT_ENUM (PStr s)
| ty_json v : has_type FT_JSON v
| ty_file v : has_type FT_FILE v.

#[local] Arguments str_take : simpl never.

Lemma rmap_Ok {E A B} (f : A -> B) (r : result E A) b : rmap f r = Ok b -> exists a, r = Ok a /\ b = f a.
Proof. destruct r; intros; simplify_eq/=; eauto. Qed.

Lemma convert_typed t v v' :
  convert py_str int_to_float parse_float datetime_fromisoformat date_fromisoformat json_loads t v = Ok v' ->
  has_type t v'.
Proof.
  destruct t; cbn [convert].
  1: { intros [= <-]. apply ty_string, str_take_length. }
  1: { intros [= <-]. apply ty_text. }
  6: { intros [= <-]. apply ty_enum, str_take_length. }
  1-3: by intros (x & _ & ->)%rmap_Ok; constructor.
  3,4: constructor.
  all: destruct v; first [by intros [= <-]; constructor | by intros (x & _ & ->)%rmap_Ok; constructor].
Qed.

Lemma coerce_typed n ty v v' :
  coerce n ty v = Ok v' ->
  v' = PNone \/ match field_type_of ty with Some t => has_type t v' | None => v' = v end.
Proof.
  unfold coerce_value. destruct v; (try (intros [= <-]; by left)); right; revert H;
    destruct (field_type_of ty) as [t|]; (try (by intros [= <-]));
    destruct (convert _ _ _ _ _ _ t _) as [w|[]] eqn:Ec; intros [= <-]; by eapply convert_typed.
Qed.

(** What the loop of [validate_and_prepare_payload] has put together. *)
Lemma prep_spec payload partial fields prepared0 prepared :
  NoDup (map fd_name fields) -> (forall f, f ∈ fields -> od_get (fd_name f) prepared0 = None) ->
  prep payload partial fields prepared0 = Ok prepared ->
  (forall f, f ∈ fields ->
     match od_get (fd_name f) payload with
     | Some v => exists v', coerce (fd_name f) (data_type_or_string f) v = Ok v' /\
                            od_get (fd_name f) prepared = Some v'
     | None => (partial = true \/ fd_required f = false) /\ od_get (fd_name f) prepared = None
     end) /\
  (forall k, k ∉ map fd_name fields -> od_get k prepared = od_get k prepared0).
Proof.
  revert prepared0. induction fields as [|f rest IH]; intros p0 Hnd Hno H; simpl in H.
  { injection H as <-. split; [intros f Hf; by apply not_elem_of_nil in Hf|done]. }
  apply NoDup_cons in Hnd as [Hn Hnd].
  assert (forall g p, g ∈ rest -> od_get (fd_name g) (od_set (fd_name f) p p0) = None) as Hset.
  { intros g p Hg. rewrite od_get_set_ne; [apply Hno; by right|]. intros E. apply Hn. rewrite <- E.
    by apply list_elem_of_fmap_2. }
  destruct (od_get (fd_name f) payload) as [v|] eqn:Ev.
  - destruct (coerce (fd_name f) (data_type_or_string f) v) as [v'|e] eqn:Ec; [|done].
    destruct (IH _ Hnd (fun g => Hset g v') H) as [H1 H2]. split.
    + intros g [->|Hg]%elem_of_cons; [|by apply H1]. rewrite Ev. exists v'. split; [done|].
      rewrite H2 by done. apply od_get_set_eq.
    + intros k Hk. simpl in Hk. apply not_elem_of_cons in Hk as [Hkf Hk]. rewrite H2 by done.
      by apply od_get_set_ne.
  - destruct (negb partial && fd_required f) eqn:Er; [done|].
    destruct (IH p0 Hnd ltac:(intros g Hg; apply Hno; by right) H) as [H1 H2]. split.
    + intros g [->|Hg]%elem_of_cons; [|by apply H1]. rewrite Ev, H2 by done. split; [|apply Hno; by left].
      destruct partial; [by left|right]. by destruct (fd_required f).
    + intros k Hk. simpl in Hk. apply not_elem_of_cons in Hk as [_ Hk]. by apply H2.
Qed.
(** [prepare] fails only for a field that is missing or cannot be coerced. *)
Lemma prep_fails payload partial fields prepared0 e :
  prep payload partial fields prepared0 = Err e ->
  exists f, f ∈ fields /\
    match od_get (fd_name f) payload with
    | Some v => coerce (fd_name f) (data_type_or_string f) v = Err e
    | None => partial = false /\ fd_required f = true /\ e = MissingField (fd_name f)
    end.
Proof.
  revert prepared0. induction fields as [|f rest IH]; intros p0; cbn [prepare]; [done|].
  destruct (od_get (fd_name f) payload) as [v|] eqn:Ev.
  - destruct (coerce (fd_name f) (data_type_or_string f) v) as [v'|e'] eqn:Ec.
    + intros (g & Hg & H)%IH. exists g. split; [by right|exact H].
    + intros [= <-]. exists f. split; [by left|]. by rewrite Ev.
  - destruct (negb partial && fd_required f) eqn:Er.
    + intros [= <-]. exists f. split; [by left|]. rewrite Ev. destruct partial; [done|]. by destruct (fd_required f).
    + intros (g & Hg & H)%IH. exists g. split; [by right|exact H].
Qed.

Lemma unknown_fields_none fields payload :
  unknown_fields fields payload = [] <-> forall k, k ∈ od_keys payload -> k ∈ map fd_name fields.
Proof.
  unfold unknown_fields. split.
  - intros H k Hk. destruct (decide (k ∈ map fd_name fields)) as [|Hn]; [done|].
    assert (k ∈ List.filter (fun k => negb (str_in k (map fd_name fields))) (od_keys payload)) as Hin.
    { apply elem_of_List_filter. split; [done|]. unfold str_in. by rewrite bool_decide_eq_false_2. }
    rewrite H in Hin. by apply not_elem_of_nil in Hin.
  - intros H. apply filter_none. intros k Hk. unfold str_in. by rewrite bool_decide_eq_true_2 by auto.
Qed.


(** A payload is refused exactly when it names an unknown field, leaves out a
    required one on CREATE, or holds a value that its field cannot take; every
    refusal of [validate_and_prepare_payload] says which. *)
Theorem payload_accepted_iff fields payload partial :
  NoDup (map fd_name (get_row_writable_fields fields)) ->
  (exists prepared, validate fields payload partial = Ok prepared) <->
  (forall k, k ∈ od_keys payload -> k ∈ map fd_name (get_row_writable_fields fields)) /\
  (forall f, f ∈ get_row_writable_fields fields ->
     match od_get (fd_name f) payload with
     | Some v => exists v', coerce (fd_name f) (data_type_or_string f) v = Ok v'
     | None => partial = true \/ fd_required f = false
     end).
Proof.
  intros Hnd. unfold validate_and_prepare_payload. split.
  - intros [prepared H]. destruct (unknown_fields _ _) eqn:Hu; [|done]. rewrite unknown_fields_none in Hu.
    split; [done|]. apply prep_spec in H as [H1 _]; [|done|done]. intros f Hf. specialize (H1 f Hf).
    destruct (od_get (fd_name f) payload); [destruct H1 as (v' & H1 & _); by exists v'|by destruct H1].
  - intros [Hk Hf]. apply unknown_fields_none in Hk as ->.
    destruct (prep payload partial (get_row_writable_fields fields) []) as [p|e] eqn:E; [by exists p|].
    apply prep_fails in E as (f & Hin & H). specialize (Hf f Hin).
    destruct (od_get (fd_name f) payload) as [v|]; [destruct Hf as [v' Hf]; congruence|].
    destruct H as (-> & Hr & _), Hf; congruence.
Qed.
End CoercionProps.

(** ** Rows *)
Section RowProps.
Variables (py_str : pyval -> string) (int_to_float : Z -> option pyfloat)
  (parse_float : string -> option pyfloat) (datetime_fromisoformat : string -> option pydatetime)
  (date_fromisoformat : string -> option Z) (json_loads : string -> option pyval) (gen_random_uuid : nat -> Z).
Context `{!Inj eq eq gen_random_uuid}.

#[local] Abbreviation validate :=
  (validate_and_prepare_payload py_str int_to_float parse_float datetime_fromisoformat date_fromisoformat json_loads).
#[local] Abbreviation create :=
  (create_row py_str int_to_float parse_float datetime_fromisoformat date_fromisoformat json_loads gen_random_uuid).
#[local] Abbreviation update :=
  (update_row py_str int_to_float parse_float datetime_fromisoformat date_fromisoformat json_loads).
#[local] Abbreviation unique := (ensure_sql_table_name_unique py_str).

Definition inserted (cells : odict pyval) (c : Collection) : Collection :=
  with_next_id (S (cl_next_id c))
    (with_table (cl_rows c ++ [new_row (gen_random_uuid (cl_next_id c)) cells]) (cl_total_rows c) c).

Lemma insert_row_run cells c :
  insert_row gen_random_uuid cells c
  = match first_error cells (cl_fields c) with
    | Some e => (Err e, c)
    | None => (Ok (gen_random_uuid (cl_next_id c)), inserted cells c)
    end.
Proof. unfold insert_row, checked, mbind, py_bind, get_state. by destruct (first_error _ _). Qed.

Lemma unique_keeps payload i c : (unique payload i c).2 = c.
Proof.
  unfold ensure_sql_table_name_unique. erewrite bind_run_Ok by reflexivity.
  destruct (cl_type c), (od_get "table_name" payload); try done. destruct (str_empty _); [done|]. by destruct (existsb _ _).
Qed.

(** A collection in order: the counter counts, ids are unique and generated, every
    row satisfies the table's constraints. *)
Record collection_ok (c : Collection) : Prop := {
  ok_total : cl_total_rows c = Some (Z.of_nat (length (cl_rows c)));
  ok_ids : NoDup (map rw_id (cl_rows c));
  ok_generated : forall r, r ∈ cl_rows c -> exists k, (k < cl_next_id c)%nat /\ rw_id r = gen_random_uuid k;
  ok_constraints : forall r, r ∈ cl_rows c -> first_error (rw_cells r) (cl_fields c) = None
}.

Lemma fresh_id c : collection_ok c -> gen_random_uuid (cl_next_id c) ∉ map rw_id (cl_rows c).
Proof.
  intros H (r & Hr & Hin)%list_elem_of_fmap. destruct (ok_generated c H r Hin) as (k & Hk & Hk').
  rewrite Hk' in Hr. apply (inj gen_random_uuid) in Hr. lia.
Qed.

Lemma get_row_last l r : rw_id r ∉ map rw_id l -> List.find (fun x => Z.eqb (rw_id x) (rw_id r)) (l ++ [r]) = Some r.
Proof.
  induction l as [|x l IH]; simpl; [by rewrite Z.eqb_refl|]. intros Hn%not_elem_of_cons.
  destruct Hn as [Hx Hl]. destruct (Z.eqb_spec (rw_id x) (rw_id r)); [congruence|]. by apply IH.
Qed.

Definition created (prepared : odict pyval) (c : Collection) : Collection :=
  with_table (cl_rows (inserted prepared c)) (Some (or_zero (cl_total_rows c) + 1)) (inserted prepared c).

(** [create_row]: nothing changes when it raises, and one row is added when it
    returns. *)
Lemma create_row_run payload c :
  collection_ok c ->
  match create payload c with
  | (Ok out, c') => exists prepared, validate (cl_fields c) payload false = Ok prepared /\ prepared <> [] /\
      (unique prepared None c).1 = Ok tt /\ first_error prepared (cl_fields c) = None /\
      c' = created prepared c /\
      out = serialize_row c' (new_row (gen_random_uuid (cl_next_id c)) prepared)
  | (Err _, c') => c' = c
  end.
Proof.
  intros Hok. unfold create_row. erewrite bind_run_Ok by reflexivity. unfold of_result at 1, mbind at 1, py_bind at 1.
  destruct (validate (cl_fields c) payload false) as [prepared|e]; [|done].
  destruct prepared as [|kv prepared]; [done|]. set (p := kv :: prepared). unfold mbind at 1, py_bind at 1.
  pose proof (unique_keeps p None c) as Hk. destruct (unique p None c) as [[[]|e] c0] eqn:Eu; simpl in Hk; subst c0; [|done].
  unfold mbind at 1, py_bind at 1, map_error, try_except. rewrite insert_row_run.
  destruct (first_error p (cl_fields c)) as [e|] eqn:Ef; [done|].
  erewrite bind_run_Ok by reflexivity. erewrite bind_run_Ok by reflexivity.
  unfold get_row. cbn [cl_rows with_table with_next_id inserted].
  rewrite (get_row_last _ (new_row (gen_random_uuid (cl_next_id c)) p)) by (simpl; by apply fresh_id).
  exists p. by rewrite Eu.
Qed.

Lemma created_ok prepared c :
  collection_ok c -> first_error prepared (cl_fields c) = None -> collection_ok (created prepared c).
Proof.
  intros Hok Hf. pose proof (fresh_id c Hok) as Hfr. destruct Hok as [Ht Hn Hg Hc]. split; simpl.
  - rewrite Ht, length_app. simpl. f_equal. lia.
  - rewrite map_app. simpl. apply NoDup_app. split; [done|]. split; [|apply NoDup_singleton].
    intros x Hx ->%list_elem_of_singleton. done.
  - intros r [Hr| ->%list_elem_of_singleton]%elem_of_app.
    + destruct (Hg r Hr) as (k & ? & ?). exists k. split; [lia|done].
    + exists (cl_next_id c). split; [lia|done].
  - intros r [Hr| ->%list_elem_of_singleton]%elem_of_app; [by apply Hc|done].
Qed.

Lemma update_where_rows row_id f c : cl_rows (update_where row_id f c) = map (fun r => if Z.eqb (rw_id r) row_id then f r else r) (cl_rows c).
Proof. done. Qed.

Lemma update_where_ids row_id f c :
  (forall r, rw_id (f r) = rw_id r) -> map rw_id (cl_rows (update_where row_id f c)) = map rw_id (cl_rows c).
Proof.
  intros Hid. simpl. rewrite map_map. apply map_ext. intros r. destruct (Z.eqb _ _); [apply Hid|done].
Qed.

Lemma update_where_ok row_id f c :
  (forall r, rw_id (f r) = rw_id r) ->
  (forall r, r ∈ cl_rows c -> rw_id r = row_id -> first_error (rw_cells (f r)) (cl_fields c) = None) ->
  collection_ok c -> collection_ok (update_where row_id f c).
Proof.
  intros Hid Hf [Ht Hn Hg Hc]. pose proof (update_where_ids row_id f c Hid) as Hids. split.
  - simpl. by rewrite length_map.
  - by rewrite Hids.
  - intros r Hr. assert (rw_id r ∈ map rw_id (cl_rows c)) as Hi by (rewrite <- Hids; by apply list_elem_of_fmap_2).
    apply list_elem_of_fmap in Hi as (r0 & -> & Hr0). by apply Hg.
  - simpl. intros r (r0 & -> & Hr0)%list_elem_of_fmap.
    destruct (Z.eqb_spec (rw_id r0) row_id); [by apply Hf|by apply Hc].
Qed.

Lemma get_row_unique c r row_id r' :
  collection_ok c -> get_row row_id c = Some r -> r' ∈ cl_rows c -> rw_id r' = row_id -> r' = r.
Proof.
  intros Hok [Hr1 Hr2%Z.eqb_eq]%List.find_some Hin Hid.
  apply (NoDup_map_key rw_id (cl_rows c)); [by apply ok_ids|done|by apply list_elem_of_In|congruence].
Qed.

Lemma update_row_ok row_id payload skip c out c' :
  collection_ok c -> update row_id payload skip c = (Ok out, c') -> collection_ok c' /\ cl_fields c' = cl_fields c.
Proof.
  intros Hok. unfold update_row. erewrite bind_run_Ok by reflexivity. unfold of_result at 1, mbind at 1, py_bind at 1.
  destruct (validate (cl_fields c) payload true) as [prepared|e]; [|done].
  destruct prepared as [|kv prepared]; [done|]. set (p := kv :: prepared). unfold mbind at 1, py_bind at 1.
  pose proof (unique_keeps p (Some row_id) c) as Hk.
  destruct (unique p (Some row_id) c) as [[[]|e] c0]; simpl in Hk; subst c0; [|done].
  destruct (get_row row_id c) as [r|] eqn:Er; [|intros [= <- <-]; done].
  unfold mbind at 1, py_bind at 1, map_error, try_except, checked.
  destruct (first_error _ _) as [e|] eqn:Ef; [done|]. cbn [mret py_ret].
  erewrite bind_run_Ok by reflexivity.
  assert (collection_ok (update_where row_id (set_cells p) c)) as Hok1.
  { apply update_where_ok; [done| |done]. intros r' Hr' Hid. by rewrite (get_row_unique c r row_id r'). }
  destruct (_ && _).
  - erewrite bind_run_Ok by reflexivity. intros [= _ <-]. split; [|done].
    apply update_where_ok; [done| |done]. intros r' Hr' _. exact (ok_constraints _ Hok1 r' Hr').
  - intros [= _ <-]. done.
Qed.

(** While rows are inserted in bulk, the counter lags behind. *)
Definition lagging (n0 : Z) (fields : list FieldDef) (k : nat) (c : Collection) : Prop :=
  cl_total_rows c = Some n0 /\ cl_fields c = fields /\
  collection_ok (with_table (cl_rows c) (Some (n0 + Z.of_nat k)) c).

Lemma insert_row_lagging n0 fields k cells c id c' :
  lagging n0 fields k c -> insert_row gen_random_uuid cells c = (Ok id, c') -> lagging n0 fields (S k) c'.
Proof.
  intros (Ht & Hf & Hok). rewrite insert_row_run. destruct (first_error _ _) as [e|] eqn:Ef; [done|].
  intros [= _ <-]. split; [done|split; [done|]].
  replace (n0 + Z.of_nat (S k)) with (or_zero (Some (n0 + Z.of_nat k)) + 1) by (simpl; lia).
  exact (created_ok cells _ Hok Ef).
Qed.

Lemma insert_all_lagging n0 fields l k c u c' :
  lagging n0 fields k c ->
  for_each (fun row => _ ← insert_row gen_random_uuid (filtered_row fields row); mret tt) l c = (Ok u, c') ->
  lagging n0 fields (k + length l) c'.
Proof.
  revert k c. induction l as [|row l IH]; intros k c Hl.
  - intros [= _ <-]. by rewrite Nat.add_0_r.
  - simpl for_each. unfold mbind at 1, py_bind at 1.
    destruct (mbind _ (insert_row gen_random_uuid (filtered_row fields row)) c) as [[u1|e] c1] eqn:E; [|done].
    unfold mbind, py_bind in E.
    destruct (insert_row gen_random_uuid (filtered_row fields row) c) as [[id|e] c2] eqn:E2; [|done].
    injection E as _ <-. intros H. simpl length. rewrite <- Nat.add_succ_comm.
    eapply IH; [by eapply insert_row_lagging|exact H].
Qed.

Lemma insert_rows_ok l c n c' :
  collection_ok c -> insert_rows gen_random_uuid l c = (Ok n, c') -> collection_ok c' /\ cl_fields c' = cl_fields c.
Proof.
  intros Hok. destruct l as [|row l]; [by intros [= _ <-]|]. unfold insert_rows. set (rows := row :: l).
  erewrite bind_run_Ok by reflexivity. unfold mbind at 1, py_bind at 1.
  destruct (for_each _ rows c) as [[u|e] c1] eqn:E; [|done].
  apply (insert_all_lagging (Z.of_nat (length (cl_rows c))) _ rows 0) in E as (Ht & Hf & H1).
  - erewrite bind_run_Ok by reflexivity. rewrite Ht. erewrite bind_run_Ok by reflexivity. by intros [= _ <-].
  - split; [apply (ok_total c Hok)|split; [done|]]. rewrite Z.add_0_r.
    destruct Hok as [Ht Hn Hg Hc]. by split.
Qed.

Lemma delete_rows_ok ids c n c' :
  collection_ok c -> delete_rows ids c = (Ok n, c') ->
  collection_ok c' /\ cl_fields c' = cl_fields c /\ (forall r, r ∈ cl_rows c' <-> r ∈ cl_rows c /\ rw_id r ∉ ids).
Proof.
  intros Hok. destruct ids as [|i ids].
  { intros [= _ <-]. split; [done|split; [done|]]. intros r. split; [intros ?; split; [done|apply not_elem_of_nil]|by intros []]. }
  unfold delete_rows. set (l := i :: ids). erewrite bind_run_Ok by reflexivity. erewrite bind_run_Ok by reflexivity.
  rewrite (ok_total c Hok). erewrite bind_run_Ok by reflexivity.
  set (kept := List.filter (fun r => negb (bool_decide (rw_id r ∈ l))) (cl_rows c)).
  assert (forall r, r ∈ kept <-> r ∈ cl_rows c /\ rw_id r ∉ l) as Hkept.
  { intros r. unfold kept. rewrite elem_of_List_filter.
    destruct (bool_decide_reflect (rw_id r ∈ l)); simpl; split; intros [? ?]; done. }
  set (total := Z.max 0 (Z.of_nat (length (cl_rows c)) - _)).
  assert (collection_ok (with_table kept (Some total) c)) as [Ht Hnd Hg Hc].
  { destruct Hok as [Ht Hnd Hg Hc]. split; simpl.
    - f_equal. lia.
    - by apply NoDup_map_filter.
    - intros r [Hr _]%Hkept. by apply Hg.
    - intros r [Hr _]%Hkept. by apply Hc. }
  destruct (_ && _); erewrite bind_run_Ok by reflexivity; intros [= _ <-]; split.
  1,3: split; [exact Ht|exact Hnd|exact Hg|exact Hc].
  all: split; [done|exact Hkept].
Qed.

(** One call of the row service that returns. *)
Inductive row_step : Collection -> Collection -> Prop :=
| step_create payload out c c' : create payload c = (Ok out, c') -> row_step c c'
| step_update row_id payload skip out c c' : update row_id payload skip c = (Ok out, c') -> row_step c c'
| step_insert l n c c' : insert_rows gen_random_uuid l c = (Ok n, c') -> row_step c c'
| step_delete ids n c c' : delete_rows ids c = (Ok n, c') -> row_step c c'.

(** C30: After any sequence of calls of the row service that return, the row counter
    of the collection is the number of rows of its table, row ids are unique and
    all rows satisfy the NOT NULL and type constraints of the schema, which did not
    change. *)
Theorem rows_invariant c c' :
  collection_ok c -> rtc row_step c c' -> collection_ok c' /\ cl_fields c' = cl_fields c.
Proof.
  intros Hok H. induction H as [c|c c1 c' H _ IH]; [done|].
  assert (collection_ok c1 /\ cl_fields c1 = cl_fields c) as [H1 <-]; [|by apply IH].
  destruct H as [payload out c c1 H|row_id payload skip out c c1 H|l n c c1 H|ids n c c1 H].
  - pose proof (create_row_run payload c Hok) as Hr. rewrite H in Hr.
    destruct Hr as (p & _ & _ & _ & Hf & -> & _). split; [by apply created_ok|done].
  - by eapply update_row_ok.
  - by eapply insert_rows_ok.
  - by apply delete_rows_ok in H as (? & ? & _).
Qed.

(** [create_row] adds one row with the prepared values and returns what
    [get_row_by_id] finds; when it raises, the table and the counter are as they
    were.  The row returned has for each column of the schema the prepared value, or
    None. *)
Theorem create_row_spec payload c :
  collection_ok c ->
  match create payload c with
  | (Ok out, c') => exists prepared, validate (cl_fields c) payload false = Ok prepared /\
      let r := new_row (gen_random_uuid (cl_next_id c)) prepared in
      cl_rows c' = cl_rows c ++ [r] /\ rw_id r ∉ map rw_id (cl_rows c) /\
      cl_total_rows c' = Some (Z.of_nat (length (cl_rows c)) + 1) /\ out = serialize_row c' r
  | (Err _, c') => c' = c
  end.
Proof.
  intros Hok. pose proof (create_row_run payload c Hok) as H. destruct (create payload c) as [[out|e] c']; [|done].
  destruct H as (p & Hv & _ & _ & _ & -> & ->). exists p. split; [done|]. split; [done|]. split; [by apply fresh_id|].
  split; [|done]. simpl. by rewrite (ok_total c Hok).
Qed.
End RowProps.

(** ** Search *)

(** What the text of a filter may depend on: which keys a range has, whether the
    value is a string. *)
Inductive Shape : Type := ShRange (from to : bool) | ShStr | ShOther.

Definition shape (v : pyval) : Shape :=
  match v with
  | PDict d => ShRange (od_mem "from" d) (od_mem "to" d)
  | PStr _ => ShStr
  | _ => ShOther
  end.

Lemma range_clause_shape name key op d d' :
  od_mem key d = od_mem key d' -> (range_clause name key op d).1 = (range_clause name key op d').1.
Proof. unfold od_mem, range_clause. by destruct (od_get key d), (od_get key d'). Qed.

Lemma filter_clause_shape f v v' : shape v = shape v' -> (filter_clause f v).1 = (filter_clause f v').1.
Proof.
  destruct v, v'; simpl; try done.
  - by destruct (is_text_type _).
  - intros [= H1 H2]. destruct (is_range_type _); [|done]. simpl. f_equal; by apply range_clause_shape.
Qed.

Lemma filter_clauses_shape fields fs fs' :
  (forall k, option_map shape (od_get k fs) = option_map shape (od_get k fs')) ->
  map fst (filter_clauses fields fs) = map fst (filter_clauses fields fs').
Proof.
  intros H. unfold filter_clauses. induction (get_filterable_fields fields) as [|f l IH]; [done|].
  cbn [omap list_omap]. specialize (H (fd_name f)).
  destruct (od_get (fd_name f) fs), (od_get (fd_name f) fs'); cbn [option_map map] in *; try done.
  injection H as H. f_equal; [by apply filter_clause_shape|exact IH].
Qed.

Lemma query_clause_shape fields q q' :
  str_empty (or_str q "") = str_empty (or_str q' "") -> (query_clause fields q).1 = (query_clause fields q').1.
Proof.
  unfold query_clause. intros ->. destruct (str_empty _); [done|]. by destruct (List.filter _ _).
Qed.

(** C34: The text of a search never contains what the user typed: the WHERE clause is
    the same for all queries and filter values of the same shape (the values are
    bound parameters), and ORDER BY names the id or a sortable field of the schema,
    in one of the two directions. *)
Theorem search_text_safe c fs fs' q q' :
  (forall k, option_map shape (od_get k fs) = option_map shape (od_get k fs')) ->
  str_empty (or_str q "") = str_empty (or_str q' "") ->
  (build_where (cl_fields c) fs q).1 = (build_where (cl_fields c) fs' q').1 /\
  (resolve_sort c).1 ∈ "id"%string :: map fd_name (get_sortable_fields (cl_fields c)) /\
  (resolve_sort c).2 ∈ ["ASC"; "DESC"]%string.
Proof.
  intros Hfs Hq. split; [|split].
  - unfold build_where. cbn [map fst]. rewrite (query_clause_shape _ _ _ Hq), (filter_clauses_shape _ _ _ Hfs).
    reflexivity.
  - assert (forall n, str_in n (map fd_name (get_sortable_fields (cl_fields c))) = true ->
      n ∈ "id"%string :: map fd_name (get_sortable_fields (cl_fields c))) as Hin.
    { intros n. unfold str_in. rewrite bool_decide_eq_true. by right. }
    unfold resolve_sort. destruct (cl_default_sort c) as [[[field|] order]|].
    1: destruct (str_in field _) eqn:Ef; [by apply Hin|].
    all: destruct (cl_time_column c) as [t|]; [|left].
    all: destruct (negb (str_empty t)); [|left].
    all: destruct (str_in t _) eqn:Et; [by apply Hin|left].
  - assert (forall o, (if str_in o ["ASC"; "DESC"]%string then o else "DESC"%string) ∈ ["ASC"; "DESC"]%string) as Ho.
    { intros o. unfold str_in. case_bool_decide; [done|]. right. left. }
    assert ("DESC"%string ∈ ["ASC"; "DESC"]%string) as Hd by (right; left).
    unfold resolve_sort. destruct (cl_default_sort c) as [[[field|] order]|].
    1: destruct (str_in field _); [apply Ho|].
    all: destruct (cl_time_column c) as [t|]; [|done].
    all: by destruct (_ && _).
Qed.

(** ** A table of parts *)
Module Demo.
Definition field (n t : string) (req filt sort : bool) : FieldDef :=
  {| fd_name := n; fd_category := "user"; fd_data_type := Some t; fd_required := req; fd_filterable := filt;
     fd_sortable := sort; fd_used_in_retrieval := false |}.
Definition fields : list FieldDef :=
  [field "code" "string" true true true; field "amount" "integer" false true true;
   field "active" "boolean" false false false].

Definition no_str (v : pyval) : string := "?".
Definition whole (z : Z) : option pyfloat := Some (FFin z 0).
Definition no_parse {A} (s : string) : option A := None.

Definition parts : Collection :=
  {| cl_type := CT_TABLE; cl_fields := fields; cl_rows := []; cl_total_rows := Some 0; cl_vectorized_rows := 0;
     cl_failed_rows := 0; cl_total_chunks := 0; cl_qdrant := false; cl_time_column := None;
     cl_default_sort := Some (Some "amount"%string, Some "asc"%string); cl_next_id := 0 |}.

Definition bolt : odict pyval :=
  [("code", PStr "B-1"); ("amount", PStr " 12_000 "); ("active", PStr "ДА")]%string.

Definition bolt_cells : odict pyval :=
  [("code", PStr "B-1"); ("amount", PInt 12000); ("active", PBool true)]%string.

Lemma parts_ok : collection_ok Z.of_nat parts.
Proof. split; [done|constructor|intros r []%not_elem_of_nil..]. Qed.

Definition create := create_row no_str whole no_parse no_parse no_parse no_parse Z.of_nat.
Definition with_bolt : Collection := created Z.of_nat bolt_cells parts.
End Demo.


Lemma payload_accepted_iff_witness :
  ~ exists prepared, validate_and_prepare_payload Demo.no_str Demo.whole Demo.no_parse Demo.no_parse Demo.no_parse
      Demo.no_parse Demo.fields [("amount", PInt 1)]%string false = Ok prepared.
Proof.
  intros H. apply payload_accepted_iff in H as [_ H]; [|apply (bool_decide_unpack _); vm_compute; exact I].
  specialize (H (Demo.field "code" "string" true true true) ltac:(left)). simpl in H. by destruct H.
Defined.

Lemma rows_invariant_witness :
  collection_ok Z.of_nat Demo.with_bolt /\ cl_fields Demo.with_bolt = cl_fields Demo.parts.
Proof.
  apply (rows_invariant Demo.no_str Demo.whole Demo.no_parse Demo.no_parse Demo.no_parse Demo.no_parse Z.of_nat
           Demo.parts); [exact Demo.parts_ok|].
  apply rtc_once. eapply (step_create _ _ _ _ _ _ _ Demo.bolt). vm_compute. reflexivity.
Defined.

Lemma create_row_spec_witness :
  exists prepared, cl_rows Demo.with_bolt = [new_row 0 prepared] /\ cl_total_rows Demo.with_bolt = Some 1.
Proof.
  pose proof (create_row_spec Demo.no_str Demo.whole Demo.no_parse Demo.no_parse Demo.no_parse Demo.no_parse Z.of_nat
           Demo.bolt Demo.parts Demo.parts_ok) as H.
  assert (Demo.create Demo.bolt Demo.parts =
    (Ok (serialize_row Demo.with_bolt (new_row 0 Demo.bolt_cells)), Demo.with_bolt)) as E by (vm_compute; reflexivity).
  unfold Demo.create in E. rewrite E in H. destruct H as (p & _ & Hr & _ & Ht & _). exists p. by split.
Defined.

Lemma search_text_safe_witness :
  (build_where Demo.fields [("code", PStr "B'; DROP TABLE parts")]%string (Some "x"%string)).1
  = "(code ILIKE :query_param) AND code ILIKE :p_code"%string.
Proof.
  transitivity (build_where Demo.fields [("code", PStr "B")]%string (Some "y"%string)).1; [|vm_compute; reflexivity].
  apply (search_text_safe Demo.parts); [|reflexivity].
  intros k. unfold od_get. by destruct (decide (k = "code"%string)).
Defined.
