(* ===== verification/VersionStore.v ===== *)
(** * Versioned containers: tables, repositories and the abstract store

    Limits, policies, prompts, agents, tools and collections are all kept as a
    container row (slug, current version) and numbered version rows with a
    life cycle: draft, then in use, then retired.  This file has the two tables and
    the statements of the repositories
    (repositories/limit_repository.py, policy_repository.py, prompt_repository.py,
    agent_repository.py, tool_release_repository.py, which are copies of one
    another), and the abstract store: the writes a service may make, and the
    invariants they keep.  The services are in [Versions] and [AgentVersions].

    Statuses have the same three steps under different names: "draft"; "active" or
    "published" is [LIVE]; "deprecated" or "archived" is [RETIRED]. *)
From S2P Require Import Prelude.
Open Scope Z_scope.

Inductive VersionStatus : Type := DRAFT | LIVE | RETIRED.

#[export] Instance VersionStatus_eq_dec : EqDecision VersionStatus.
Proof. solve_decision. Defined.

Definition rank (s : VersionStatus) : nat :=
  match s with DRAFT => 0 | LIVE => 1 | RETIRED => 2 end.

(** The [value]s of the enumerations of the models. *)
Definition LimitStatus_value (s : VersionStatus) : string :=
  match s with DRAFT => "draft" | LIVE => "active" | RETIRED => "deprecated" end.
Definition PolicyStatus_value (s : VersionStatus) : string :=
  match s with DRAFT => "draft" | LIVE => "active" | RETIRED => "deprecated" end.
Definition AgentVersionStatus_value (s : VersionStatus) : string :=
  match s with DRAFT => "draft" | LIVE => "published" | RETIRED => "archived" end.
Definition ToolReleaseStatus_value (s : VersionStatus) : string :=
  match s with DRAFT => "draft" | LIVE => "active" | RETIRED => "archived" end.

Inductive VersionExc : Type :=
| ContainerNotFound
| VersionNotFound
| AlreadyExists (slug : string)
| NotEditable (status : VersionStatus)
| WrongStatus (status : VersionStatus)
| CurrentVersion
| ForeignVersion
| DefaultContainer
| BackendNotFound
| InvalidTemplate
| IntegrityError
| MultipleResultsFound
| AttributeError.

(** A version row with payload [P] and a container row with data [C]. *)
Record Version (P : Type) := {
  v_id : Z;
  v_owner : Z;
  v_number : Z;
  v_status : VersionStatus;
  v_parent : option Z;
  v_data : P
}.
Arguments Build_Version {P}.
Arguments v_id {P}.
Arguments v_owner {P}.
Arguments v_number {P}.
Arguments v_status {P}.
Arguments v_parent {P}.
Arguments v_data {P}.

Record Container (C : Type) := {
  c_id : Z;
  c_slug : string;
  c_current : option Z;
  c_data : C
}.
Arguments Build_Container {C}.
Arguments c_id {C}.
Arguments c_slug {C}.
Arguments c_current {C}.
Arguments c_data {C}.

(** The two tables and how many UUIDs were drawn. *)
Record Tables (C P : Type) := {
  t_containers : list (Container C);
  t_versions : list (Version P);
  t_next : nat
}.
Arguments Build_Tables {C P}.
Arguments t_containers {C P}.
Arguments t_versions {C P}.
Arguments t_next {C P}.

Abbreviation vpy C P A := (py VersionExc (Tables C P) A).

Section Repositories.
Context {C P : Type}.
Implicit Types (t : Tables C P) (v : Version P) (c : Container C).

(** ** Reads *)
Definition find_version (id : Z) t : option (Version P) :=
  List.find (fun v => Z.eqb (v_id v) id) (t_versions t).
Definition find_container (id : Z) t : option (Container C) :=
  List.find (fun c => Z.eqb (c_id c) id) (t_containers t).
Definition find_slug (slug : string) t : option (Container C) :=
  List.find (fun c => String.eqb (c_slug c) slug) (t_containers t).
Definition find_number (owner number : Z) t : option (Version P) :=
  List.find (fun v => Z.eqb (v_owner v) owner && Z.eqb (v_number v) number) (t_versions t).
Definition versions_of (owner : Z) t : list (Version P) :=
  List.filter (fun v => Z.eqb (v_owner v) owner) (t_versions t).
Definition has_status (s : VersionStatus) v : bool := bool_decide (v_status v = s).

Definition version_by_id (id : Z) : vpy C P (option (Version P)) := t ← get_state; mret (find_version id t).
Definition container_by_id (id : Z) : vpy C P (option (Container C)) := t ← get_state; mret (find_container id t).
Definition container_by_slug (slug : string) : vpy C P (option (Container C)) := t ← get_state; mret (find_slug slug t).
Definition version_by_number (owner number : Z) : vpy C P (option (Version P)) :=
  t ← get_state; mret (find_number owner number t).

(** [get_active_by_*], [get_published_by_agent]: [scalar_one_or_none] *)
Definition live_version (owner : Z) : vpy C P (option (Version P)) :=
  t ← get_state;
  match List.filter (has_status LIVE) (versions_of owner t) with
  | [] => mret None
  | [v] => mret (Some v)
  | _ => raise MultipleResultsFound
  end.

(** [SELECT max(version)], then [(max_version or 0) + 1] *)
Definition max_version (owner : Z) t : option Z :=
  match map v_number (versions_of owner t) with
  | [] => None
  | n :: l => Some (foldr Z.max n l)
  end.
Definition get_next_version (owner : Z) : vpy C P Z :=
  t ← get_state;
  mret (match max_version owner t with Some n => n + 1 | None => 1 end).

(** ** Writes *)
Definition with_versions (f : list (Version P) -> list (Version P)) t : Tables C P :=
  {| t_containers := t_containers t; t_versions := f (t_versions t); t_next := t_next t |}.
Definition with_containers (f : list (Container C) -> list (Container C)) t : Tables C P :=
  {| t_containers := f (t_containers t); t_versions := t_versions t; t_next := t_next t |}.
Definition drawn t : Tables C P :=
  {| t_containers := t_containers t; t_versions := t_versions t; t_next := S (t_next t) |}.

Definition update_version_where (sel : Version P -> bool) (f : Version P -> Version P) t : Tables C P :=
  with_versions (map (fun v => if sel v then f v else v)) t.
Definition update_container_where (id : Z) (f : Container C -> Container C) t : Tables C P :=
  with_containers (map (fun c => if Z.eqb (c_id c) id then f c else c)) t.

Definition set_v_status (s : VersionStatus) v : Version P :=
  {| v_id := v_id v; v_owner := v_owner v; v_number := v_number v; v_status := s; v_parent := v_parent v;
     v_data := v_data v |}.
Definition set_v_data (f : P -> P) v : Version P :=
  {| v_id := v_id v; v_owner := v_owner v; v_number := v_number v; v_status := v_status v;
     v_parent := v_parent v; v_data := f (v_data v) |}.
Definition set_v_parent (o : option Z) v : Version P :=
  {| v_id := v_id v; v_owner := v_owner v; v_number := v_number v; v_status := v_status v;
     v_parent := o; v_data := v_data v |}.
Definition set_c_current (o : option Z) c : Container C :=
  {| c_id := c_id c; c_slug := c_slug c; c_current := o; c_data := c_data c |}.
Definition set_c_data (f : C -> C) c : Container C :=
  {| c_id := c_id c; c_slug := c_slug c; c_current := c_current c; c_data := f (c_data c) |}.

(** [update_status] *)
Definition put_status (id : Z) (s : VersionStatus) t : Tables C P :=
  update_version_where (fun v => Z.eqb (v_id v) id) (set_v_status s) t.
Definition update_status (id : Z) (s : VersionStatus) : vpy C P unit := modify (put_status id s).

(** [deactivate_active_version], [archive_active_version] *)
Definition put_retired (owner : Z) t : Tables C P :=
  update_version_where (fun v => Z.eqb (v_owner v) owner && has_status LIVE v) (set_v_status RETIRED) t.
Definition deactivate_active_version (owner : Z) : vpy C P unit := modify (put_retired owner).

(** [update] of a version: the given changes of its columns *)
Definition put_data (id : Z) (f : P -> P) t : Tables C P :=
  update_version_where (fun v => Z.eqb (v_id v) id) (set_v_data f) t.
Definition update_version_data (id : Z) (f : P -> P) : vpy C P unit := modify (put_data id f).

(** [setattr(container, "current_version_id", o)] *)
Definition put_current (id : Z) (o : option Z) t : Tables C P := update_container_where id (set_c_current o) t.
Definition set_current (id : Z) (o : option Z) : vpy C P unit := modify (put_current id o).

(** [LimitRepository.update(limit, {"current_version_id": o})], which skips None
    values; the same in the policy and prompt repositories. *)
Definition set_current_not_none (id : Z) (o : option Z) : vpy C P unit :=
  match o with
  | Some _ => set_current id o
  | None => mret tt
  end.

Definition put_container_data (id : Z) (f : C -> C) t : Tables C P := update_container_where id (set_c_data f) t.
Definition update_container_data (id : Z) (f : C -> C) : vpy C P unit := modify (put_container_data id f).

(** [DELETE] of a version: the foreign keys that point to it are SET NULL. *)
Definition unlink (gone : Z -> bool) t : Tables C P :=
  with_versions (map (fun v => match v_parent v with
                               | Some p => if gone p then set_v_parent None v else v
                               | None => v
                               end))
    (with_containers (map (fun c => match c_current c with
                                    | Some p => if gone p then set_c_current None c else c
                                    | None => c
                                    end)) t).
Definition drop_version (id : Z) t : Tables C P :=
  unlink (Z.eqb id) (with_versions (List.filter (fun v => negb (Z.eqb (v_id v) id))) t).
Definition delete_version_row (id : Z) : vpy C P unit := modify (drop_version id).

(** [DELETE] of a container cascades to its versions. *)
Definition drop_container (id : Z) t : Tables C P :=
  let gone := map v_id (versions_of id t) in
  unlink (fun p => bool_decide (p ∈ gone))
    (with_versions (List.filter (fun v => negb (Z.eqb (v_owner v) id)))
       (with_containers (List.filter (fun c => negb (Z.eqb (c_id c) id))) t)).
Definition delete_container_row (id : Z) : vpy C P unit := modify (drop_container id).

Variable uuid4 : nat -> Z.

(** [INSERT] into the containers: the slug is unique. *)
Definition put_container (slug : string) (data : C) t : Tables C P :=
  drawn (with_containers (fun l => l ++ [ {| c_id := uuid4 (t_next t); c_slug := slug; c_current := None;
                                             c_data := data |} ]) t).
Definition create_container_row (slug : string) (data : C) : vpy C P Z :=
  t ← get_state;
  match find_slug slug t with
  | Some _ => raise IntegrityError
  | None => _ ← put_state (put_container slug data t); mret (uuid4 (t_next t))
  end.

(** [INSERT] into the versions: (owner, number) is unique, and the owner and the
    parent are foreign keys. *)
Definition new_version (owner number : Z) (s : VersionStatus) (parent : option Z) (data : P) t : Version P :=
  {| v_id := uuid4 (t_next t); v_owner := owner; v_number := number; v_status := s; v_parent := parent;
     v_data := data |}.
Definition put_version (v : Version P) t : Tables C P := drawn (with_versions (fun l => l ++ [v]) t).

Definition parent_exists (parent : option Z) t : bool :=
  match parent with
  | None => true
  | Some p => match find_version p t with Some _ => true | None => false end
  end.
Definition owner_exists (owner : Z) t : bool :=
  match find_container owner t with Some _ => true | None => false end.

Definition create_version_row (owner number : Z) (s : VersionStatus) (parent : option Z) (data : P)
    : vpy C P (Version P) :=
  t ← get_state;
  match find_number owner number t with
  | Some _ => raise IntegrityError
  | None => if owner_exists owner t && parent_exists parent t
            then let v := new_version owner number s parent data t in _ ← put_state (put_version v t); mret v
            else raise IntegrityError
  end.
End Repositories.
