(* ===== verification/VersionStoreProofs.v ===== *)
(** * The abstract version store and its invariants

    [store_step] lists the writes a service of versioned containers may make, with
    the conditions under which it may make them; [strict] stores never unlink or
    retire the current version, [single] stores have at most one live version per
    container.  A service that refines the store ([Refines]) keeps all its
    invariants: they are proved here once. *)
From S2P Require Import Prelude VersionStore.
Open Scope Z_scope.

Section Store.
Context {C P : Type} (uuid4 : nat -> Z).
Implicit Types (t : Tables C P) (v : Version P) (c : Container C).

(** ** The abstract store *)
Definition not_current (id : Z) t : Prop := forall c, c ∈ t_containers t -> c_current c <> Some id.
Definition no_live (owner : Z) t : Prop :=
  forall v, v ∈ t_versions t -> v_owner v = owner -> v_status v <> LIVE.

Inductive store_step (strict single : bool) : relation (Tables C P) :=
| st_create_container slug data t :
    (forall c, c ∈ t_containers t -> c_slug c <> slug) ->
    store_step strict single t (put_container uuid4 slug data t)
| st_container_data id f t : store_step strict single t (put_container_data id f t)
| st_drop_container id t : store_step strict single t (drop_container id t)
| st_create_version owner number parent data t :
    (exists c, c ∈ t_containers t /\ c_id c = owner) ->
    (forall v, v ∈ t_versions t -> v_owner v = owner -> v_number v <> number) ->
    store_step strict single t (put_version (new_version uuid4 owner number DRAFT parent data t) t)
| st_edit id f t :
    (forall v, v ∈ t_versions t -> v_id v = id -> v_status v = DRAFT) ->
    store_step strict single t (put_data id f t)
| st_advance id s t :
    (forall v, v ∈ t_versions t -> v_id v = id -> (rank (v_status v) < rank s)%nat) ->
    (strict = true -> s <> LIVE -> not_current id t) ->
    (single = true -> s = LIVE -> forall v, v ∈ t_versions t -> v_id v = id -> no_live (v_owner v) t) ->
    store_step strict single t (put_status id s t)
| st_retire owner t : strict = false -> store_step strict single t (put_retired owner t)
| st_drop_version id t :
    (strict = true -> not_current id t) -> store_step strict single t (drop_version id t)
| st_set_current id o t :
    (forall p, o = Some p -> exists v, v ∈ t_versions t /\ v_id v = p /\ v_owner v = id /\
                             (strict = true -> v_status v = LIVE)) ->
    store_step strict single t (put_current id o t).

(** ** The invariant of the tables *)
Record tables_ok (strict single : bool) (t : Tables C P) : Prop := {
  ok_version_ids : forall v, v ∈ t_versions t -> exists k, (k < t_next t)%nat /\ v_id v = uuid4 k;
  ok_container_ids : forall c, c ∈ t_containers t -> exists k, (k < t_next t)%nat /\ c_id c = uuid4 k;
  ok_versions : NoDup (map v_id (t_versions t));
  ok_containers : NoDup (map c_id (t_containers t));
  ok_slugs : NoDup (map c_slug (t_containers t));
  ok_numbers : NoDup (map (fun v => (v_owner v, v_number v)) (t_versions t));
  ok_owner : forall v, v ∈ t_versions t -> exists c, c ∈ t_containers t /\ c_id c = v_owner v;
  ok_current : forall c p, c ∈ t_containers t -> c_current c = Some p ->
    exists v, v ∈ t_versions t /\ v_id v = p /\ v_owner v = c_id c /\ (strict = true -> v_status v = LIVE);
  ok_single : single = true -> forall v w, v ∈ t_versions t -> w ∈ t_versions t -> v_owner v = v_owner w ->
    v_status v = LIVE -> v_status w = LIVE -> v_id v = v_id w
}.

(** ** What a version keeps for life *)
Record keeps (v v' : Version P) : Prop := {
  keeps_id : v_id v' = v_id v;
  keeps_owner : v_owner v' = v_owner v;
  keeps_number : v_number v' = v_number v;
  keeps_rank : (rank (v_status v) <= rank (v_status v'))%nat;
  keeps_data : v_status v <> DRAFT -> v_data v' = v_data v
}.

Definition evolves t t' : Prop :=
  (t_next t <= t_next t')%nat /\
  forall v', v' ∈ t_versions t' ->
    (exists v, v ∈ t_versions t /\ keeps v v') \/
    (exists k, (t_next t <= k < t_next t')%nat /\ v_id v' = uuid4 k).

#[export] Instance keeps_preorder : PreOrder keeps.
Proof.
  split.
  - intros v. by split.
  - intros v1 v2 v3 [E1 E2 E3 E4 E5] [F1 F2 F3 F4 F5]. split; [congruence..|lia|]. intros Hd.
    rewrite F5, E5; [done..|]. intros Hd2. rewrite Hd2 in E4. destruct (v_status v1); simpl in E4; [done|lia|lia].
Qed.

#[export] Instance evolves_preorder : PreOrder evolves.
Proof.
  split.
  - intros t. split; [lia|]. intros v Hv. left. exists v. by split.
  - intros t1 t2 t3 [N1 E1] [N2 E2]. split; [lia|]. intros v3 Hv3.
    destruct (E2 v3 Hv3) as [(v2 & Hv2 & K2)|(k & Hk & Hid)].
    + destruct (E1 v2 Hv2) as [(v1 & Hv1 & K1)|(k & Hk & Hid)].
      * left. exists v1. split; [done|by transitivity v2].
      * right. exists k. split; [lia|]. by rewrite (keeps_id _ _ K2).
    + right. exists k. split; [lia|done].
Qed.

(** Versions are mapped by functions that keep them. *)
Lemma evolves_map (f : Version P -> Version P) t t' :
  t_next t' = t_next t -> (forall v', v' ∈ t_versions t' -> exists v, v ∈ t_versions t /\ v' = f v) ->
  (forall v, v ∈ t_versions t -> keeps v (f v)) -> evolves t t'.
Proof.
  intros Hn Hm Hk. split; [lia|]. intros v' Hv'. left. destruct (Hm v' Hv') as (v & Hv & ->).
  exists v. split; [done|by apply Hk].
Qed.

Lemma elem_update_where sel f t v' :
  v' ∈ t_versions (update_version_where sel f t) ->
  exists v, v ∈ t_versions t /\ v' = (if sel v then f v else v).
Proof. simpl. intros (v & -> & Hv)%list_elem_of_fmap. by exists v. Qed.

Lemma evolves_where sel f t :
  (forall v, v ∈ t_versions t -> sel v = true -> keeps v (f v)) -> evolves t (update_version_where sel f t).
Proof.
  intros H. apply (evolves_map (fun v => if sel v then f v else v)); [done|apply elem_update_where|].
  intros v Hv. destruct (sel v) eqn:E; [by apply H|done].
Qed.

Definition unlinked (gone : Z -> bool) v : Version P :=
  match v_parent v with Some p => if gone p then set_v_parent None v else v | None => v end.

Lemma keeps_unlinked gone v : keeps v (unlinked gone v).
Proof. unfold unlinked. destruct (v_parent v) as [p|]; [destruct (gone p)|]; by split. Qed.

Lemma elem_unlink gone (sel : Version P -> bool) t v' :
  v' ∈ map (unlinked gone) (List.filter sel (t_versions t)) ->
  exists v, v ∈ t_versions t /\ sel v = true /\ v' = unlinked gone v.
Proof. intros (v & -> & Hv)%list_elem_of_fmap. apply elem_of_List_filter in Hv as [? ?]. by exists v. Qed.

(** Every step keeps what versions keep. *)
Lemma store_step_evolves strict single t t' : store_step strict single t t' -> evolves t t'.
Proof.
  intros H. destruct H as [slug data t _|id f t|id t|ow nr pa da t _ _|id f t Hf|id s t Hs _ _|ow t _|id t _|id o t _].
  1: { split; [simpl; lia|]. intros v Hv. left. by exists v. }
  1, 8: apply (evolves_map (fun v => v)); [done|intros v Hv; by exists v|by intros].
  1, 6: eapply (evolves_map (unlinked _)); [done| |intros v _; apply keeps_unlinked];
    intros v' (v & Hv & _ & Hu)%elem_unlink; by exists v.
  1: { split; [simpl; lia|]. intros v [Hv| ->%list_elem_of_singleton]%elem_of_app; [left; by exists v|].
       right. exists (t_next t). simpl. split; [lia|done]. }
  all: apply evolves_where; intros v Hv.
  - intros E%Z.eqb_eq. split; try done. simpl. intros Hd. by rewrite Hf in Hd.
  - intros E%Z.eqb_eq. split; try done. simpl. by apply Nat.lt_le_incl, Hs.
  - intros [_ E%bool_decide_eq_true]%andb_true_iff. split; try done; simpl; rewrite E; simpl; lia.
Qed.

(** ** The invariant is kept *)

(** All writes but the insertions map the rows that remain. *)
Lemma ok_derived strict single t t' (g : Version P -> Version P) sel (h : Container C -> Container C) selc :
  t_next t' = t_next t ->
  t_versions t' = map g (List.filter sel (t_versions t)) ->
  t_containers t' = map h (List.filter selc (t_containers t)) ->
  (forall v, v_id (g v) = v_id v /\ v_owner (g v) = v_owner v /\ v_number (g v) = v_number v) ->
  (forall c, c_id (h c) = c_id c /\ c_slug (h c) = c_slug c) ->
  (forall v c, v ∈ t_versions t -> sel v = true -> c ∈ t_containers t -> c_id c = v_owner v -> selc c = true) ->
  (forall c p, c ∈ t_containers t -> selc c = true -> c_current (h c) = Some p ->
     exists v, v ∈ t_versions t /\ sel v = true /\ v_id v = p /\ v_owner v = c_id c /\
               (strict = true -> v_status (g v) = LIVE)) ->
  (single = true -> forall v w, v ∈ t_versions t -> w ∈ t_versions t -> v_owner v = v_owner w ->
     v_status (g v) = LIVE -> v_status (g w) = LIVE -> v_id v = v_id w) ->
  tables_ok strict single t -> tables_ok strict single t'.
Proof.
  intros Hn Hv Hc Hg Hh Hsel Hcur Hone [Ov Oc Dv Dc Ds Dn Oo Ocur Os].
  assert (forall v', v' ∈ t_versions t' -> exists v, v ∈ t_versions t /\ sel v = true /\ v' = g v) as Ev.
  { rewrite Hv. intros v' (v & -> & [? ?]%elem_of_List_filter)%list_elem_of_fmap. by exists v. }
  assert (forall c', c' ∈ t_containers t' -> exists c, c ∈ t_containers t /\ selc c = true /\ c' = h c) as Ec.
  { rewrite Hc. intros c' (c & -> & [? ?]%elem_of_List_filter)%list_elem_of_fmap. by exists c. }
  split; rewrite ?Hn.
  - intros v' (v & Hin & _ & ->)%Ev. destruct (Hg v) as (-> & _). by apply Ov.
  - intros c' (c & Hin & _ & ->)%Ec. destruct (Hh c) as (-> & _). by apply Oc.
  - rewrite Hv, map_map, (map_ext _ v_id); [by apply NoDup_map_filter|intros v; apply Hg].
  - rewrite Hc, map_map, (map_ext _ c_id); [by apply NoDup_map_filter|intros c; apply Hh].
  - rewrite Hc, map_map, (map_ext _ c_slug); [by apply NoDup_map_filter|intros c; apply Hh].
  - rewrite Hv, map_map, (map_ext _ (fun v => (v_owner v, v_number v))); [by apply NoDup_map_filter|].
    intros v. by destruct (Hg v) as (_ & -> & ->).
  - intros v' (v & Hin & Hs & ->)%Ev. destruct (Oo v Hin) as (c & Hc' & E). exists (h c).
    destruct (Hh c) as (-> & _), (Hg v) as (_ & -> & _). split; [|done]. rewrite Hc. apply list_elem_of_fmap_2.
    apply elem_of_List_filter. split; [done|]. by apply (Hsel v).
  - intros c' p (c & Hin & Hs & ->)%Ec Hp. destruct (Hcur c p Hin Hs Hp) as (v & Hv' & Hsv & Hid & Ho & Hl).
    exists (g v). destruct (Hg v) as (-> & -> & _), (Hh c) as (-> & _). split; [|done].
    rewrite Hv. apply list_elem_of_fmap_2. by apply elem_of_List_filter.
  - intros Hsi v' w' (v & Hv' & _ & ->)%Ev (w & Hw & _ & ->)%Ev.
    destruct (Hg v) as (-> & -> & _), (Hg w) as (-> & -> & _). by apply Hone.
Qed.

(** [UPDATE] of versions *)
Lemma ok_versions_where strict single sel f t :
  (forall v, v_id (f v) = v_id v /\ v_owner (f v) = v_owner v /\ v_number (f v) = v_number v) ->
  (forall v, v ∈ t_versions t -> sel v = true -> strict = true -> not_current (v_id v) t \/ v_status (f v) = LIVE) ->
  (forall v, v ∈ t_versions t -> sel v = true -> single = true -> v_status (f v) = LIVE ->
     no_live (v_owner v) t /\ forall w, sel w = true -> v_id w = v_id v) ->
  tables_ok strict single t -> tables_ok strict single (update_version_where sel f t).
Proof.
  intros Hf Hs Hl Hok.
  apply (ok_derived strict single t _ (fun v => if sel v then f v else v) (fun _ => true) (fun c => c) (fun _ => true));
    [done|simpl; by rewrite filter_all|simpl; by rewrite filter_all, map_id|
     intros v; destruct (sel v); [apply Hf|done]|done|done| | |done].
  - intros c p Hc _ Hp. destruct (ok_current _ _ t Hok c p Hc Hp) as (v & Hv & Hid & Ho & Hst). exists v.
    repeat (split; [done|]). intros Hstr. destruct (sel v) eqn:E; [|by apply Hst].
    destruct (Hs v Hv E Hstr) as [Hn|?]; [|done]. subst p. by destruct (Hn c Hc).
  - intros Hsi v w Hv Hw Ho. destruct (sel v) eqn:Ev, (sel w) eqn:Ew; intros Lv Lw.
    + destruct (Hl v Hv Ev Hsi Lv) as [_ H]. symmetry. by apply H.
    + destruct (Hl v Hv Ev Hsi Lv) as [H _]. by destruct (H w Hw).
    + destruct (Hl w Hw Ew Hsi Lw) as [H _]. by destruct (H v Hv).
    + by apply (ok_single _ _ t Hok).
Qed.

(** [UPDATE] of containers *)
Lemma ok_containers_where strict single id f t :
  (forall c, c_id (f c) = c_id c /\ c_slug (f c) = c_slug c) ->
  (forall c p, c_id c = id -> c_current (f c) = Some p -> c_current c = Some p \/
     exists v, v ∈ t_versions t /\ v_id v = p /\ v_owner v = id /\ (strict = true -> v_status v = LIVE)) ->
  tables_ok strict single t -> tables_ok strict single (update_container_where id f t).
Proof.
  intros Hf Hc Hok.
  apply (ok_derived strict single t _ (fun v => v) (fun _ => true)
           (fun c => if Z.eqb (c_id c) id then f c else c) (fun _ => true));
    [done|simpl; by rewrite filter_all, map_id|simpl; by rewrite filter_all|done|
     intros c; destruct (Z.eqb _ _); [apply Hf|done]|done| |intros Hsi; by apply (ok_single _ _ t Hok)|done].
  intros c p Hin _ Hp. destruct (Z.eqb_spec (c_id c) id) as [E|].
  - destruct (Hc c p E Hp) as [H|(v & Hv & Hid & Ho & Hs)].
    + destruct (ok_current _ _ t Hok c p Hin H) as (v & ? & ? & ? & ?). by exists v.
    + exists v. repeat (split; [done|]). split; [by rewrite E|done].
  - destruct (ok_current _ _ t Hok c p Hin Hp) as (v & ? & ? & ? & ?). by exists v.
Qed.

(** [DELETE] *)
Definition uncurrent (gone : Z -> bool) c : Container C :=
  match c_current c with Some p => if gone p then set_c_current None c else c | None => c end.

Lemma uncurrent_Some gone c p : c_current (uncurrent gone c) = Some p -> c_current c = Some p /\ gone p = false.
Proof.
  unfold uncurrent. destruct (c_current c) as [q|] eqn:E; [|by rewrite E].
  destruct (gone q) eqn:G; [done|]. rewrite E. by intros [= ->].
Qed.

Lemma ok_drop strict single gone sel selc t :
  (forall v c, v ∈ t_versions t -> sel v = true -> c ∈ t_containers t -> c_id c = v_owner v -> selc c = true) ->
  (forall v c, v ∈ t_versions t -> c ∈ t_containers t -> c_id c = v_owner v -> selc c = true ->
     gone (v_id v) = false -> sel v = true) ->
  tables_ok strict single t ->
  tables_ok strict single (unlink gone (with_versions (List.filter sel) (with_containers (List.filter selc) t))).
Proof.
  intros H1 H2 Hok.
  apply (ok_derived strict single t _ (unlinked gone) sel (uncurrent gone) selc); [done..| | |done| | |done].
  - intros v. unfold unlinked. destruct (v_parent v) as [p|]; [by destruct (gone p)|done].
  - intros c. unfold uncurrent. destruct (c_current c) as [p|]; [by destruct (gone p)|done].
  - intros c p Hc Hs [Hp Hg]%uncurrent_Some.
    destruct (ok_current _ _ t Hok c p Hc Hp) as (v & Hv & Hid & Ho & Hst). exists v. split; [done|].
    split; [apply (H2 v c); by rewrite ?Hid|]. repeat (split; [done|]). intros Hstr. unfold unlinked.
    destruct (v_parent v) as [q|]; [destruct (gone q)|]; by apply Hst.
  - assert (forall v, v_status (unlinked gone v) = v_status v) as Hu.
    { intros v. unfold unlinked. destruct (v_parent v) as [p|]; [by destruct (gone p)|done]. }
    intros Hsi v w Hv Hw Ho. rewrite !Hu. by apply (ok_single _ _ t Hok).
Qed.

Lemma ok_drop_version strict single id t : tables_ok strict single t -> tables_ok strict single (drop_version id t).
Proof.
  intros Hok. apply (ok_drop _ _ (Z.eqb id) (fun v => negb (Z.eqb (v_id v) id)) (fun _ => true)) in Hok.
  - unfold with_containers in Hok. by rewrite filter_all in Hok.
  - done.
  - intros v c _ _ _ _. rewrite Z.eqb_sym. by intros ->.
Qed.

Lemma ok_drop_container strict single id t :
  tables_ok strict single t -> tables_ok strict single (drop_container id t).
Proof.
  intros Hok. apply ok_drop; [| |done].
  - intros v c _ Hs _ ->. done.
  - intros v c _ _ <- Hs _. done.
Qed.

(** [INSERT] *)
Lemma fresh_uuid `{!Inj eq eq uuid4} (n : nat) {A} (key : A -> Z) l :
  (forall x, x ∈ l -> exists k, (k < n)%nat /\ key x = uuid4 k) -> uuid4 n ∉ map key l.
Proof.
  intros H (x & Hx & Hin)%list_elem_of_fmap. destruct (H x Hin) as (k & Hk & E). rewrite E in Hx.
  apply (inj uuid4) in Hx. lia.
Qed.

Lemma NoDup_map_snoc {A B} (key : A -> B) l x : NoDup (map key l) -> key x ∉ map key l -> NoDup (map key (l ++ [x])).
Proof.
  intros Hl Hx. rewrite map_app. apply NoDup_app. split; [done|]. split; [|apply NoDup_singleton].
  intros y Hy ->%list_elem_of_singleton. done.
Qed.

Lemma ok_put_container `{!Inj eq eq uuid4} strict single slug data t :
  (forall c, c ∈ t_containers t -> c_slug c <> slug) ->
  tables_ok strict single t -> tables_ok strict single (put_container uuid4 slug data t).
Proof.
  intros Hs [Ov Oc Dv Dc Ds Dn Oo Ocur Os]. split; simpl; try done.
  - intros v Hv. destruct (Ov v Hv) as (k & ? & ?). exists k. split; [lia|done].
  - intros c [Hc| ->%list_elem_of_singleton]%elem_of_app; [|exists (t_next t); split; [lia|done]].
    destruct (Oc c Hc) as (k & ? & ?). exists k. split; [lia|done].
  - apply NoDup_map_snoc; [done|]. by apply fresh_uuid.
  - apply NoDup_map_snoc; [done|]. intros (c & Hc & Hin)%list_elem_of_fmap. by apply (Hs c).
  - intros v Hv. destruct (Oo v Hv) as (c & Hc & ?). exists c. split; [apply elem_of_app; by left|done].
  - intros c p [Hc| ->%list_elem_of_singleton]%elem_of_app; [by apply Ocur|done].
Qed.

Lemma ok_put_version `{!Inj eq eq uuid4} strict single owner number parent data t :
  (exists c, c ∈ t_containers t /\ c_id c = owner) ->
  (forall v, v ∈ t_versions t -> v_owner v = owner -> v_number v <> number) ->
  tables_ok strict single t ->
  tables_ok strict single (put_version (new_version uuid4 owner number DRAFT parent data t) t).
Proof.
  intros Hown Hnum [Ov Oc Dv Dc Ds Dn Oo Ocur Os]. split; simpl; try done.
  - intros v [Hv| ->%list_elem_of_singleton]%elem_of_app; [|exists (t_next t); split; [lia|done]].
    destruct (Ov v Hv) as (k & ? & ?). exists k. split; [lia|done].
  - intros c Hc. destruct (Oc c Hc) as (k & ? & ?). exists k. split; [lia|done].
  - apply NoDup_map_snoc; [done|]. by apply fresh_uuid.
  - apply NoDup_map_snoc; [done|]. intros (v & Hv & Hin)%list_elem_of_fmap. injection Hv as Ho Hn.
    by apply (Hnum v).
  - intros v [Hv| ->%list_elem_of_singleton]%elem_of_app; [by apply Oo|done].
  - intros c p Hc Hp. destruct (Ocur c p Hc Hp) as (v & Hv & ?). exists v. split; [apply elem_of_app; by left|done].
  - intros Hsi v w [Hv| ->%list_elem_of_singleton]%elem_of_app [Hw| ->%list_elem_of_singleton]%elem_of_app;
      [by apply Os|done..].
Qed.

Lemma store_step_ok `{!Inj eq eq uuid4} strict single t t' :
  store_step strict single t t' -> tables_ok strict single t -> tables_ok strict single t'.
Proof.
  intros [slug data t0 Hs|id f t0|id t0|ow nr pa da t0 Ho Hn|id f t0 Hf|id s t0 Hr Hst Hsi|ow t0 Hstr|id t0 _|id o t0 Ho] Hok.
  - by apply ok_put_container.
  - apply ok_containers_where; [done| |done]. intros c p _ Hp. by left.
  - by apply ok_drop_container.
  - by apply ok_put_version.
  - apply ok_versions_where; [done| | |done].
    + intros v Hv E%Z.eqb_eq Hstr. left. intros c Hc Hp.
      destruct (ok_current _ _ _ Hok c _ Hc Hp) as (w & Hw & Hid & _ & Hl).
      rewrite (Hf w Hw) in Hl by congruence. by discriminate Hl.
    + intros v Hv E%Z.eqb_eq _. simpl. by rewrite (Hf v Hv E).
  - apply ok_versions_where; [done| | |done].
    + intros v Hv E%Z.eqb_eq Hstr. destruct (decide (s = LIVE)) as [->|Hs]; [by right|left]. rewrite E. by apply Hst.
    + intros v Hv E%Z.eqb_eq Hsin. simpl. intros ->. split; [by apply (Hsi Hsin eq_refl v)|].
      intros w Hw%Z.eqb_eq. congruence.
  - apply ok_versions_where; [done| |done|done]. intros v _ _ Hs. congruence.
  - by apply ok_drop_version.
  - apply ok_containers_where; [done| |done]. simpl. intros c p _ ->. right. by apply Ho.
Qed.

(** ** Services *)

(** A service is a transition relation on the tables; it refines the store when each
    of its calls is a sequence of permitted writes. *)
Class Refines (strict single : bool) (call : relation (Tables C P)) :=
  refines : forall t t', tables_ok strict single t -> call t t' -> rtc (store_step strict single) t t'.

Lemma store_steps_ok `{!Inj eq eq uuid4} strict single t t' :
  rtc (store_step strict single) t t' -> tables_ok strict single t -> tables_ok strict single t'.
Proof. induction 1; [done|]. intros Hok. by eauto using store_step_ok. Qed.

Lemma calls_ok `{!Inj eq eq uuid4} strict single call `{!Refines strict single call} t t' :
  rtc call t t' -> tables_ok strict single t -> tables_ok strict single t' /\ evolves t t'.
Proof.
  induction 1 as [t|t1 t2 t3 H _ IH]; [done|]. intros Hok. pose proof (refines t1 t2 Hok H) as Hr.
  destruct IH as [Hok3 He]; [by eapply store_steps_ok|]. split; [done|]. transitivity t2; [|done].
  clear -Hr. induction Hr; [done|]. etransitivity; [by eapply store_step_evolves|done].
Qed.

(** The life of a version: whatever calls are made, a version that is still there has
    kept its container and number, has not gone back in its life cycle, and has the
    data it had when it left the draft state. *)
Lemma version_life `{!Inj eq eq uuid4} strict single call `{!Refines strict single call} t t' v v' :
  rtc call t t' -> tables_ok strict single t -> v ∈ t_versions t -> v' ∈ t_versions t' -> v_id v' = v_id v ->
  keeps v v'.
Proof.
  intros H Hok Hv Hv' E. destruct (calls_ok _ _ _ _ _ H Hok) as [_ [_ He]].
  destruct (He v' Hv') as [(w & Hw & Hk)|(k & Hk & Hid)].
  - replace v with w; [done|]. apply (NoDup_map_key v_id (t_versions t)); [apply Hok|done|done|].
    by rewrite <- (keeps_id _ _ Hk).
  - destruct (ok_version_ids _ _ t Hok v Hv) as (k' & Hk' & Hid'). rewrite E, Hid' in Hid.
    apply (inj uuid4) in Hid. lia.
Qed.
End Store.
