(* ===== verification/Versions.v ===== *)
(** * Limits, policies and prompts: services of versioned containers

    services/limit_service.py, services/policy_service.py and
    services/prompt_service.py over the tables of [VersionStore]; a [Module] per
    service.  Jinja's parser and SHA-256 are arguments. *)
From S2P Require Import Prelude VersionStore.
Open Scope Z_scope.

(** [x if x is not None else y] *)
Definition or_else {A} (x y : option A) : option A := match x with Some _ => x | None => y end.
(** [if x is not None: update["column"] = x] *)
Definition if_given {A} (x : option A) (y : A) : A := match x with Some a => a | None => y end.

Record Info := { in_name : string; in_description : option string }.

Definition update_info (name description : option string) (i : Info) : Info :=
  {| in_name := if_given name (in_name i); in_description := or_else description (in_description i) |}.

(** ** LimitService *)
Module Limits.
Record Numbers := {
  max_steps : option Z;
  max_tool_calls : option Z;
  max_wall_time_ms : option Z;
  tool_timeout_ms : option Z;
  max_retries : option Z;
  max_tokens_total : option Z
}.

(** The columns of LimitVersion a caller can set. *)
Record LimitData := { ld_numbers : Numbers; ld_extra_config : odict json; ld_notes : option string }.

Abbreviation DB := (Tables Info LimitData).
Abbreviation call A := (vpy Info LimitData A).
Abbreviation LimitVersion := (Version LimitData).
Abbreviation Limit := (Container Info).

Definition no_numbers : Numbers :=
  {| max_steps := None; max_tool_calls := None; max_wall_time_ms := None; tool_timeout_ms := None;
     max_retries := None; max_tokens_total := None |}.

Definition numbers_or (given inherited : Numbers) : Numbers :=
  {| max_steps := or_else (max_steps given) (max_steps inherited);
     max_tool_calls := or_else (max_tool_calls given) (max_tool_calls inherited);
     max_wall_time_ms := or_else (max_wall_time_ms given) (max_wall_time_ms inherited);
     tool_timeout_ms := or_else (tool_timeout_ms given) (tool_timeout_ms inherited);
     max_retries := or_else (max_retries given) (max_retries inherited);
     max_tokens_total := or_else (max_tokens_total given) (max_tokens_total inherited) |}.

Section Service.
Variable uuid4 : nat -> Z.

Definition create_limit (slug name : string) (description : option string) : call Z :=
  existing ← container_by_slug slug;
  match existing with
  | Some _ => raise (AlreadyExists slug)
  | None => create_container_row uuid4 slug {| in_name := name; in_description := description |}
  end.

Definition get_limit (limit_id : Z) : call Limit :=
  limit ← container_by_id limit_id;
  match limit with Some l => mret l | None => raise ContainerNotFound end.

Definition get_limit_by_slug (slug : string) : call Limit :=
  limit ← container_by_slug slug;
  match limit with Some l => mret l | None => raise ContainerNotFound end.

Definition update_limit (limit_id : Z) (name description : option string) : call unit :=
  _ ← get_limit limit_id;
  update_container_data limit_id (update_info name description).

Definition delete_limit (limit_id : Z) : call unit :=
  limit ← get_limit limit_id;
  if String.eqb (c_slug limit) "default" then raise DefaultContainer
  else delete_container_row limit_id.

Definition inherited_from (limit_id : Z) (parent_version_id : option Z) : call LimitData :=
  let nothing := {| ld_numbers := no_numbers; ld_extra_config := []; ld_notes := None |} in
  match parent_version_id with
  | None => mret nothing
  | Some p => parent ← version_by_id p;
              match parent with
              | Some v => mret (if Z.eqb (v_owner v) limit_id then v_data v else nothing)
              | None => mret nothing
              end
  end.

Definition create_version (limit_slug : string) (given : Numbers) (extra_config : option (odict json))
    (notes : option string) (parent_version_id : option Z) : call LimitVersion :=
  limit ← get_limit_by_slug limit_slug;
  next_version ← get_next_version (c_id limit);
  inherited ← inherited_from (c_id limit) parent_version_id;
  create_version_row uuid4 (c_id limit) next_version DRAFT parent_version_id
    {| ld_numbers := numbers_or given (ld_numbers inherited);
       ld_extra_config := if_given extra_config (ld_extra_config inherited); ld_notes := notes |}.

Definition get_version (version_id : Z) : call LimitVersion :=
  version ← version_by_id version_id;
  match version with Some v => mret v | None => raise VersionNotFound end.

Definition is_editable (v : LimitVersion) : bool := has_status DRAFT v.
Definition can_activate (v : LimitVersion) : bool := has_status DRAFT v.
Definition can_deactivate (v : LimitVersion) : bool := has_status DRAFT v || has_status LIVE v.

Definition update_data (given : Numbers) (extra_config : option (odict json)) (notes : option string)
    (d : LimitData) : LimitData :=
  {| ld_numbers := numbers_or given (ld_numbers d); ld_extra_config := if_given extra_config (ld_extra_config d);
     ld_notes := or_else notes (ld_notes d) |}.

Definition update_version (version_id : Z) (given : Numbers) (extra_config : option (odict json))
    (notes : option string) : call unit :=
  version ← get_version version_id;
  if is_editable version then update_version_data version_id (update_data given extra_config notes)
  else raise (NotEditable (v_status version)).

Definition delete_version (version_id : Z) : call unit :=
  version ← get_version version_id;
  if has_status LIVE version then raise (WrongStatus (v_status version))
  else delete_version_row version_id.

Definition activate_version (version_id : Z) : call LimitVersion :=
  version ← get_version version_id;
  if can_activate version then
    _ ← deactivate_active_version (v_owner version);
    _ ← update_status version_id LIVE;
    _ ← set_current_not_none (v_owner version) (Some version_id);
    get_version version_id
  else raise (WrongStatus (v_status version)).

Definition deactivate_version (version_id : Z) : call LimitVersion :=
  version ← get_version version_id;
  if can_deactivate version then
    _ ← update_status version_id RETIRED;
    limit ← container_by_id (v_owner version);
    match limit with
    | None => raise AttributeError
    | Some l =>
        _ ← (if bool_decide (c_current l = Some version_id) then set_current_not_none (c_id l) None else mret tt);
        get_version version_id
    end
  else raise (WrongStatus (v_status version)).

(** What the runtime reads. *)
Definition json_of (z : option Z) : json := match z with Some z => JInt z | None => JNull end.

Definition limits_dict (d : LimitData) : odict json :=
  let n := ld_numbers d in
  od_update [("max_steps", json_of (max_steps n)); ("max_tool_calls", json_of (max_tool_calls n));
             ("max_wall_time_ms", json_of (max_wall_time_ms n)); ("tool_timeout_ms", json_of (tool_timeout_ms n));
             ("max_retries", json_of (max_retries n)); ("max_tokens_total", json_of (max_tokens_total n))]
    (ld_extra_config d).

Definition _get_fallback_limits : odict json :=
  [("max_steps", JInt 20); ("max_tool_calls", JInt 50); ("max_wall_time_ms", JInt 300000);
   ("tool_timeout_ms", JInt 30000); ("max_retries", JInt 3); ("max_tokens_total", JNull)].

(** The version in force: the current one, else the active one. *)
Definition version_in_force (l : Limit) : call (option LimitVersion) :=
  current ← match c_current l with Some id => version_by_id id | None => mret None end;
  match current with
  | Some v => mret (Some v)
  | None => live_version (c_id l)
  end.

Definition get_effective_limits (limit_id : option Z) : call (odict json) :=
  limit ← match limit_id with Some id => container_by_id id | None => mret None end;
  limit ← match limit with Some l => mret (Some l) | None => container_by_slug "default" end;
  match limit with
  | None => mret _get_fallback_limits
  | Some l => version ← version_in_force l;
              match version with
              | Some v => mret (limits_dict (v_data v))
              | None => mret _get_fallback_limits
              end
  end.
End Service.
End Limits.

(** ** PolicyService *)
Module Policies.
Record PolicyData := {
  pd_policy_text : string;
  pd_policy_json : option json;
  pd_hash : string;
  pd_notes : option string
}.

Abbreviation DB := (Tables Info PolicyData).
Abbreviation call A := (vpy Info PolicyData A).
Abbreviation PolicyVersion := (Version PolicyData).
Abbreviation Policy := (Container Info).

Section Service.
Variables (uuid4 : nat -> Z) (sha256_hex : string -> string).

Definition create_policy (slug name : string) (description : option string) : call Z :=
  existing ← container_by_slug slug;
  match existing with
  | Some _ => raise (AlreadyExists slug)
  | None => create_container_row uuid4 slug {| in_name := name; in_description := description |}
  end.

Definition get_policy (policy_id : Z) : call Policy :=
  policy ← container_by_id policy_id;
  match policy with Some p => mret p | None => raise ContainerNotFound end.

Definition get_policy_by_slug (slug : string) : call Policy :=
  policy ← container_by_slug slug;
  match policy with Some p => mret p | None => raise ContainerNotFound end.

Definition update_policy (policy_id : Z) (name description : option string) : call unit :=
  _ ← get_policy policy_id;
  update_container_data policy_id (update_info name description).

Definition delete_policy (policy_id : Z) : call unit :=
  _ ← get_policy policy_id;
  delete_container_row policy_id.

Definition _compute_hash (policy_text : string) : string := str_take 16 (sha256_hex policy_text).

Definition inherited_from (policy_id : Z) (parent_version_id : option Z) : call (string * option json) :=
  match parent_version_id with
  | None => mret (""%string, None)
  | Some p => parent ← version_by_id p;
              match parent with
              | Some v => mret (if Z.eqb (v_owner v) policy_id
                                then (pd_policy_text (v_data v), pd_policy_json (v_data v)) else (""%string, None))
              | None => mret (""%string, None)
              end
  end.

Definition create_version (policy_slug : string) (policy_text : option string) (policy_json : option json)
    (notes : option string) (parent_version_id : option Z) : call PolicyVersion :=
  policy ← get_policy_by_slug policy_slug;
  next_version ← get_next_version (c_id policy);
  inherited ← inherited_from (c_id policy) parent_version_id;
  let final_text := if_given policy_text inherited.1 in
  let final_json := or_else policy_json inherited.2 in
  create_version_row uuid4 (c_id policy) next_version DRAFT parent_version_id
    {| pd_policy_text := final_text; pd_policy_json := final_json; pd_hash := _compute_hash final_text;
       pd_notes := notes |}.

Definition get_version (version_id : Z) : call PolicyVersion :=
  version ← version_by_id version_id;
  match version with Some v => mret v | None => raise VersionNotFound end.

Definition is_editable (v : PolicyVersion) : bool := has_status DRAFT v.
Definition can_activate (v : PolicyVersion) : bool := has_status DRAFT v.
Definition can_deactivate (v : PolicyVersion) : bool := has_status DRAFT v || has_status LIVE v.

Definition update_data (policy_text : option string) (policy_json : option json) (notes : option string)
    (d : PolicyData) : PolicyData :=
  {| pd_policy_text := if_given policy_text (pd_policy_text d);
     pd_policy_json := or_else policy_json (pd_policy_json d);
     pd_hash := match policy_text with Some text => _compute_hash text | None => pd_hash d end;
     pd_notes := or_else notes (pd_notes d) |}.

Definition update_version (version_id : Z) (policy_text : option string) (policy_json : option json)
    (notes : option string) : call unit :=
  version ← get_version version_id;
  if is_editable version then update_version_data version_id (update_data policy_text policy_json notes)
  else raise (NotEditable (v_status version)).

Definition delete_version (version_id : Z) : call unit :=
  version ← get_version version_id;
  if has_status LIVE version then raise (WrongStatus (v_status version))
  else delete_version_row version_id.

Definition activate_version (version_id : Z) : call PolicyVersion :=
  version ← get_version version_id;
  if can_activate version then
    _ ← deactivate_active_version (v_owner version);
    _ ← update_status version_id LIVE;
    _ ← set_current_not_none (v_owner version) (Some version_id);
    get_version version_id
  else raise (WrongStatus (v_status version)).

Definition deactivate_version (version_id : Z) : call PolicyVersion :=
  version ← get_version version_id;
  if can_deactivate version then
    _ ← update_status version_id RETIRED;
    policy ← container_by_id (v_owner version);
    match policy with
    | None => raise AttributeError
    | Some p =>
        _ ← (if bool_decide (c_current p = Some version_id) then set_current_not_none (c_id p) None else mret tt);
        get_version version_id
    end
  else raise (WrongStatus (v_status version)).

Definition get_effective_policy_text (policy_id : option Z) : call (option string) :=
  match policy_id with
  | None => mret None
  | Some id =>
      policy ← container_by_id id;
      match policy with
      | None => mret None
      | Some p =>
          current ← match c_current p with Some v => version_by_id v | None => mret None end;
          version ← match current with Some v => mret (Some v) | None => live_version (c_id p) end;
          mret (option_map (fun v => pd_policy_text (v_data v)) version)
      end
  end.
End Service.
End Policies.

(** ** PromptService: the current version is called the recommended one *)
Module Prompts.
Record PromptData := {
  pr_template : string;
  pr_input_variables : list string;
  pr_generation_config : odict json
}.

Abbreviation DB := (Tables (Info * string) PromptData).
Abbreviation call A := (vpy (Info * string) PromptData A).
Abbreviation PromptVersion := (Version PromptData).
Abbreviation Prompt := (Container (Info * string)).

Section Service.
Variables (uuid4 : nat -> Z) (find_undeclared_variables : string -> option (list string)).

Definition validate_template (template : string) : call (list string) :=
  match find_undeclared_variables template with
  | Some l => mret l
  | None => raise InvalidTemplate
  end.

Definition create_prompt (slug name : string) (description : option string) (type : string) : call Z :=
  existing ← container_by_slug slug;
  match existing with
  | Some _ => raise (AlreadyExists slug)
  | None => create_container_row uuid4 slug ({| in_name := name; in_description := description |}, type)
  end.

Definition get_prompt_by_slug (slug : string) : call Prompt :=
  prompt ← container_by_slug slug;
  match prompt with Some p => mret p | None => raise ContainerNotFound end.

Definition get_prompt_by_id (prompt_id : Z) : call Prompt :=
  prompt ← container_by_id prompt_id;
  match prompt with Some p => mret p | None => raise ContainerNotFound end.

Definition update_prompt (prompt_id : Z) (name description : option string) : call unit :=
  _ ← get_prompt_by_id prompt_id;
  update_container_data prompt_id (fun d => (update_info name description d.1, d.2)).

Definition create_version (slug template : string) (parent_version_id : option Z)
    (input_variables : option (list string)) (generation_config : option (odict json)) : call PromptVersion :=
  prompt ← get_prompt_by_slug slug;
  variables ← match input_variables with Some l => mret l | None => validate_template template end;
  next_version ← get_next_version (c_id prompt);
  _ ← match parent_version_id with
      | None => mret tt
      | Some id => parent ← version_by_id id;
                   match parent with
                   | None => raise VersionNotFound
                   | Some v => if Z.eqb (v_owner v) (c_id prompt) then mret tt else raise ForeignVersion
                   end
      end;
  create_version_row uuid4 (c_id prompt) next_version DRAFT parent_version_id
    {| pr_template := template; pr_input_variables := variables;
       pr_generation_config := if_given generation_config [] |}.

Definition get_version_by_id (version_id : Z) : call PromptVersion :=
  version ← version_by_id version_id;
  match version with Some v => mret v | None => raise VersionNotFound end.

Definition get_active_version (slug : string) : call PromptVersion :=
  prompt ← get_prompt_by_slug slug;
  version ← live_version (c_id prompt);
  match version with Some v => mret v | None => raise VersionNotFound end.

Definition update_version (version_id : Z) (template : option string) (input_variables : option (list string))
    (generation_config : option (odict json)) : call unit :=
  version ← get_version_by_id version_id;
  if has_status DRAFT version then
    detected ← match template with
               | Some t => l ← validate_template t; mret (Some l)
               | None => mret None
               end;
    update_version_data version_id (fun d =>
      {| pr_template := if_given template (pr_template d);
         pr_input_variables := if_given (or_else input_variables detected) (pr_input_variables d);
         pr_generation_config := if_given generation_config (pr_generation_config d) |})
  else raise (WrongStatus (v_status version)).

Definition activate_version (version_id : Z) (archive_current : bool) : call PromptVersion :=
  version ← get_version_by_id version_id;
  if has_status DRAFT version then
    _ ← (if archive_current then deactivate_active_version (v_owner version) else mret tt);
    _ ← update_status version_id LIVE;
    mret (set_v_status LIVE version)
  else raise (WrongStatus (v_status version)).

Definition archive_version (version_id : Z) : call PromptVersion :=
  version ← get_version_by_id version_id;
  if has_status RETIRED version then raise (WrongStatus (v_status version))
  else
    _ ← update_status version_id RETIRED;
    mret (set_v_status RETIRED version).

Definition update_recommended_version (slug : string) (version_id : Z) : call unit :=
  prompt ← get_prompt_by_slug slug;
  version ← get_version_by_id version_id;
  if negb (Z.eqb (v_owner version) (c_id prompt)) then raise ForeignVersion
  else if negb (has_status LIVE version) then raise (WrongStatus (v_status version))
  else set_current_not_none (c_id prompt) (Some version_id).
End Service.
End Prompts.
