(* ===== verification/AgentVersions.v ===== *)
(** * Agents, tool releases and collection versions

    services/agent_service.py (with the RBAC rows of an agent), 
    services/tool_release_service.py and services/collection/version_service.py over
    the tables of [VersionStore]. *)
From S2P Require Import Prelude Rbac VersionStore Versions.
Open Scope Z_scope.

(** ** AgentService *)
Module Agents.
Record AgentInfo := {
  ag_name : string;
  ag_description : option string;
  ag_tags : option (list string);
  ag_logging_level : string;
  ag_model : option string;
  ag_temperature : option json;
  ag_requires_confirmation_for_write : option bool;
  ag_risk_level : option string;
  ag_allow_all_collections : bool;
  ag_allowed_collection_ids : option (list Z);
  ag_provides_keys : option (list string);
  ag_lifecycle_status : string
}.

(** The text columns and tags of an AgentVersion, by name; NULL is absent. *)
Abbreviation AgentData := (odict json).
Abbreviation call A := (vpy AgentInfo AgentData A).
Abbreviation Agent := (Container AgentInfo).
Abbreviation AgentVersion := (Version AgentData).

Definition LEGACY_AGENT_SLUG_ALIASES : odict string := [("rag-search", "knowledge-base-search")]%string.

Definition _normalize_agent_slug (slug : string) : string :=
  match od_get slug LEGACY_AGENT_SLUG_ALIASES with Some s => s | None => slug end.

Definition _VERSION_FIELDS : list string :=
  ["identity"; "mission"; "scope"; "rules"; "tool_use_rules"; "output_format"; "examples"; "short_info";
   "never_do"; "allowed_ops"; "tags"].

Definition deprecated (a : Agent) : bool := String.eqb (ag_lifecycle_status (c_data a)) "deprecated".

Section Service.
Variable uuid4 : nat -> Z.

Definition visible_agent (a : option Agent) : call Agent :=
  match a with
  | Some a => if deprecated a then raise ContainerNotFound else mret a
  | None => raise ContainerNotFound
  end.

Definition get_agent (agent_id : Z) : call Agent := a ← container_by_id agent_id; visible_agent a.

Definition get_agent_by_slug (slug : string) : call Agent :=
  let normalized_slug := _normalize_agent_slug slug in
  a ← container_by_slug normalized_slug;
  a ← (match a with
       | None => if String.eqb normalized_slug slug then mret None else container_by_slug slug
       | Some _ => mret a
       end);
  visible_agent a.

(** [update_agent]: the columns that are given *)
Record AgentUpdate := {
  up_name : option string;
  up_description : option string;
  up_tags : option (list string);
  up_logging_level : option string;
  up_model : option string;
  up_temperature : option json;
  up_requires_confirmation_for_write : option bool;
  up_risk_level : option string;
  up_allow_all_collections : option bool;
  up_allowed_collection_ids : option (list Z);
  up_provides_keys : option (list string)
}.

Definition updated (u : AgentUpdate) (i : AgentInfo) : AgentInfo :=
  {| ag_name := if_given (up_name u) (ag_name i);
     ag_description := or_else (up_description u) (ag_description i);
     ag_tags := or_else (up_tags u) (ag_tags i);
     ag_logging_level := if_given (up_logging_level u) (ag_logging_level i);
     ag_model := or_else (up_model u) (ag_model i);
     ag_temperature := or_else (up_temperature u) (ag_temperature i);
     ag_requires_confirmation_for_write :=
       or_else (up_requires_confirmation_for_write u) (ag_requires_confirmation_for_write i);
     ag_risk_level := or_else (up_risk_level u) (ag_risk_level i);
     ag_allow_all_collections := if_given (up_allow_all_collections u) (ag_allow_all_collections i);
     ag_allowed_collection_ids := or_else (up_allowed_collection_ids u) (ag_allowed_collection_ids i);
     ag_provides_keys := or_else (up_provides_keys u) (ag_provides_keys i);
     ag_lifecycle_status := ag_lifecycle_status i |}.

Definition update_agent (agent_id : Z) (u : AgentUpdate) : call unit :=
  _ ← get_agent agent_id;
  update_container_data agent_id (updated u).

(** The fields of [names] that a dictionary has a value for. *)
Definition given_fields (names : list string) (data : odict json) : odict json :=
  omap (fun f => match od_get f data with
                 | Some JNull | None => None
                 | Some j => Some (f, j)
                 end) names.

Definition inherited_from (agent_id : Z) (parent_version_id : option Z) : call AgentData :=
  match parent_version_id with
  | None => mret []
  | Some p => parent ← version_by_id p;
              match parent with
              | Some v => mret (if Z.eqb (v_owner v) agent_id then given_fields _VERSION_FIELDS (v_data v) else [])
              | None => mret []
              end
  end.

Definition _create_version_for_agent (agent_id : Z) (data : odict json) (parent_version_id : option Z)
    : call AgentVersion :=
  next_version ← get_next_version agent_id;
  inherited ← inherited_from agent_id parent_version_id;
  create_version_row uuid4 agent_id next_version DRAFT parent_version_id
    (od_update inherited (given_fields (_VERSION_FIELDS ++ ["notes"%string]) data)).

Definition create_version (agent_slug : string) (data : odict json) (parent_version_id : option Z)
    : call AgentVersion :=
  agent ← get_agent_by_slug agent_slug;
  _create_version_for_agent (c_id agent) data parent_version_id.

Definition create_version_by_agent_id (agent_id : Z) (data : odict json) (parent_version_id : option Z)
    : call AgentVersion :=
  _ ← get_agent agent_id;
  _create_version_for_agent agent_id data parent_version_id.

Definition get_version (version_id : Z) : call AgentVersion :=
  version ← version_by_id version_id;
  match version with Some v => mret v | None => raise VersionNotFound end.

Definition is_editable (v : AgentVersion) : bool := has_status DRAFT v.
Definition can_publish (v : AgentVersion) : bool := has_status DRAFT v.
Definition can_archive (v : AgentVersion) : bool := has_status LIVE v.

Definition update_version (version_id : Z) (data : odict json) : call unit :=
  version ← get_version version_id;
  if is_editable version then
    update_version_data version_id (fun d => od_update d (given_fields (_VERSION_FIELDS ++ ["notes"%string]) data))
  else raise (NotEditable (v_status version)).

Definition delete_version (version_id : Z) : call unit :=
  version ← get_version version_id;
  if negb (has_status LIVE version || has_status RETIRED version) then raise (WrongStatus (v_status version))
  else
    agent ← container_by_id (v_owner version);
    match agent with
    | Some a => if bool_decide (c_current a = Some version_id) then raise CurrentVersion
                else delete_version_row version_id
    | None => delete_version_row version_id
    end.

Definition publish_version (version_id : Z) : call AgentVersion :=
  version ← get_version version_id;
  if can_publish version then
    _ ← update_status version_id LIVE;
    get_version version_id
  else raise (WrongStatus (v_status version)).

Definition archive_version (version_id : Z) : call AgentVersion :=
  version ← get_version version_id;
  if can_archive version then
    _ ← update_status version_id RETIRED;
    agent ← container_by_id (v_owner version);
    match agent with
    | None => raise AttributeError
    | Some a =>
        _ ← (if bool_decide (c_current a = Some version_id) then set_current (c_id a) None else mret tt);
        get_version version_id
    end
  else raise (WrongStatus (v_status version)).

Definition set_current_version (agent_id version_id : Z) : call unit :=
  agent ← get_agent agent_id;
  version ← get_version version_id;
  if negb (Z.eqb (v_owner version) agent_id) then raise ForeignVersion
  else if negb (has_status LIVE version) then raise (WrongStatus (v_status version))
  else set_current (c_id agent) (Some version_id).

(** The version a run uses. *)
Definition resolve_published_version (agent_slug : option string) : call AgentVersion :=
  match agent_slug with
  | None => raise ContainerNotFound
  | Some slug =>
      agent ← container_by_slug (_normalize_agent_slug slug);
      match agent with
      | None => raise ContainerNotFound
      | Some a =>
          current ← match c_current a with Some id => version_by_id id | None => mret None end;
          version ← match current with Some v => mret (Some v) | None => live_version (c_id a) end;
          match version with Some v => mret v | None => raise VersionNotFound end
      end
  end.

(** [compiled_prompt]: the parts that are set, in order, under their titles *)
Definition column_text (name : string) (d : AgentData) : string :=
  match od_get name d with Some (JStr s) => s | _ => "" end.

Definition newline : string := String (Ascii.ascii_of_nat 10) EmptyString.

Definition prompt_part (title name : string) (d : AgentData) : list string :=
  if str_empty (column_text name d) then [] else ["# " +:+ title +:+ newline +:+ column_text name d].

Definition compiled_prompt (d : AgentData) : string :=
  String.concat (newline +:+ newline)
    (prompt_part "Identity" "identity" d ++ prompt_part "Mission" "mission" d ++ prompt_part "Scope" "scope" d ++
     prompt_part "Rules" "rules" d ++ prompt_part "Tool Use Rules" "tool_use_rules" d ++
     prompt_part "Output Format" "output_format" d ++ prompt_part "Examples" "examples" d ++
     prompt_part "ЗАПРЕЩЕНО" "never_do" d ++ prompt_part "РАЗРЕШЁННЫЕ ОПЕРАЦИИ" "allowed_ops" d).

(** [resolve_agent_for_chat]: the prompt, the agent's slug and the version number *)
Definition resolve_agent_for_chat (agent_slug : option string) : call (string * (string * Z * option string)) :=
  version ← resolve_published_version agent_slug;
  agent ← container_by_id (v_owner version);
  match agent with
  | None => raise AttributeError
  | Some a => mret (compiled_prompt (v_data version), (c_slug a, v_number version, ag_model (c_data a)))
  end.

(** ** With the RBAC rows *)
Record AgentDb := { ad_tables : Tables AgentInfo AgentData; ad_rbac : RbacDb }.

Inductive AgentExc : Type := AE_version (e : VersionExc) | AE_rbac (e : rbac_exn).

Definition on_tables {A} (m : call A) : py AgentExc AgentDb A := fun db =>
  match m (ad_tables db) with
  | (Ok a, t) => (Ok a, {| ad_tables := t; ad_rbac := ad_rbac db |})
  | (Err e, t) => (Err (AE_version e), {| ad_tables := t; ad_rbac := ad_rbac db |})
  end.

(** The RBAC service looks at the same agents table. *)
Definition with_agents (t : Tables AgentInfo AgentData) (r : RbacDb) : RbacDb :=
  {| rb_rules := rb_rules r; rb_agents := map (fun a => (c_id a, c_slug a)) (t_containers t);
     rb_instances := rb_instances r; rb_collections := rb_collections r; rb_users := rb_users r;
     rb_tenants := rb_tenants r; rb_clock := rb_clock r |}.

Definition on_rbac {A} (m : py rbac_exn RbacDb A) : py AgentExc AgentDb A := fun db =>
  match m (with_agents (ad_tables db) (ad_rbac db)) with
  | (Ok a, r) => (Ok a, {| ad_tables := ad_tables db; ad_rbac := r |})
  | (Err e, r) => (Err (AE_rbac e), {| ad_tables := ad_tables db; ad_rbac := r |})
  end.

Variables (rule_uuid4 now : nat -> Z).

Definition create_agent (slug : string) (i : AgentInfo) : py AgentExc AgentDb Z :=
  existing ← on_tables (container_by_slug slug);
  match existing with
  | Some _ => raise (AE_version (AlreadyExists slug))
  | None =>
      id ← on_tables (create_container_row uuid4 slug i);
      _ ← on_rbac (ensure_platform_deny rule_uuid4 now "agent" id);
      mret id
  end.

Definition delete_agent (agent_id : Z) : py AgentExc AgentDb unit :=
  _ ← on_tables (get_agent agent_id);
  _ ← on_rbac (remove_rules_for_resource "agent" agent_id);
  on_tables (delete_container_row agent_id).
End Service.

(** [list_routable_agents_for_planner], over the rows of the join in the order the
    database returns them *)
Record PlannerAgent := {
  pa_slug : string;
  pa_description : string;
  pa_tags : list string;
  pa_provides_keys : list string
}.

Definition routable (row : Agent * AgentVersion) : bool :=
  Z.eqb (v_owner row.2) (c_id row.1) && has_status LIVE row.2 && negb (deprecated row.1).

Definition planner_item (row : Agent * AgentVersion) : PlannerAgent :=
  let (a, v) := row in
  let short := strip (column_text "short_info" (v_data v)) in
  let mission := strip (column_text "mission" (v_data v)) in
  {| pa_slug := strip (c_slug a);
     pa_description := if negb (str_empty short) then short
                       else if negb (str_empty mission) then mission
                       else strip (or_str (ag_description (c_data a)) "");
     pa_tags := default [] (ag_tags (c_data a));
     pa_provides_keys := default [] (ag_provides_keys (c_data a)) |}.

Fixpoint planner_items (seen : list string) (rows : list (Agent * AgentVersion)) : list PlannerAgent :=
  match rows with
  | [] => []
  | row :: rest =>
      let item := planner_item row in
      if str_empty (pa_slug item) || str_in (pa_slug item) seen then planner_items seen rest
      else item :: planner_items (seen ++ [pa_slug item]) rest
  end.

Definition list_routable_agents_for_planner (rows : list (Agent * AgentVersion)) : list PlannerAgent :=
  planner_items [] (List.filter routable rows).
End Agents.

(** ** ToolReleaseService: releases of a tool; the backend releases are read only *)
Module Releases.
Record Backend := { be_id : Z; be_tool : Z; be_schema_hash : option string }.
Record ReleaseData := { rd_backend : option Z; rd_expected_schema_hash : option string }.

Abbreviation call A := (vpy unit ReleaseData A).
Abbreviation Tool := (Container unit).
Abbreviation ToolRelease := (Version ReleaseData).

Section Service.
Variables (uuid4 : nat -> Z) (backends : list Backend).

Definition find_backend (id : Z) : option Backend := List.find (fun b => Z.eqb (be_id b) id) backends.
Definition backend_of (id tool_id : Z) : option Backend :=
  match find_backend id with
  | Some b => if Z.eqb (be_tool b) tool_id then Some b else None
  | None => None
  end.

Definition get_tool_by_id (tool_id : Z) : call Tool :=
  tool ← container_by_id tool_id;
  match tool with Some t => mret t | None => raise ContainerNotFound end.

Definition get_release_by_tool_id (tool_id version : Z) : call ToolRelease :=
  release ← version_by_number tool_id version;
  match release with Some r => mret r | None => raise VersionNotFound end.

Definition set_current_version_by_id (tool_id release_id : Z) : call unit :=
  tool ← get_tool_by_id tool_id;
  release ← version_by_id release_id;
  match release with
  | Some r => if negb (Z.eqb (v_owner r) (c_id tool)) then raise VersionNotFound
              else if negb (has_status LIVE r) then raise (NotEditable (v_status r))
              else set_current (c_id tool) (Some release_id)
  | None => raise VersionNotFound
  end.

Definition _create_release_for_tool (tool_id : Z) (backend_release_id from_release_id : option Z)
    : call ToolRelease :=
  _ ← match backend_release_id with
      | Some b => match backend_of b tool_id with Some _ => mret tt | None => raise BackendNotFound end
      | None => mret tt
      end;
  next_version ← get_next_version tool_id;
  _ ← match from_release_id with
      | None => mret tt
      | Some p => parent ← version_by_id p;
                  match parent with
                  | Some r => if Z.eqb (v_owner r) tool_id then mret tt else raise VersionNotFound
                  | None => raise VersionNotFound
                  end
      end;
  _ ← create_version_row uuid4 tool_id next_version DRAFT from_release_id
        {| rd_backend := backend_release_id; rd_expected_schema_hash := None |};
  get_release_by_tool_id tool_id next_version.

Definition create_release_by_tool_id (tool_id : Z) (backend_release_id from_release_id : option Z)
    : call ToolRelease :=
  tool ← get_tool_by_id tool_id;
  _create_release_for_tool (c_id tool) backend_release_id from_release_id.

Definition _update_release (release : ToolRelease) (backend_release_id : option Z) : call ToolRelease :=
  if negb (has_status DRAFT release) then raise (NotEditable (v_status release))
  else
    _ ← match backend_release_id with
        | None => mret tt
        | Some b => match backend_of b (v_owner release) with
                    | None => raise BackendNotFound
                    | Some _ => update_version_data (v_id release) (fun d =>
                        {| rd_backend := Some b; rd_expected_schema_hash := rd_expected_schema_hash d |})
                    end
        end;
    get_release_by_tool_id (v_owner release) (v_number release).

(** The hash of the backend's schemas is fixed when the release goes live. *)
Definition pinned_hash (d : ReleaseData) : ReleaseData :=
  match rd_backend d with
  | Some b => match find_backend b with
              | Some {| be_schema_hash := Some h |} =>
                  if str_empty h then d else {| rd_backend := rd_backend d; rd_expected_schema_hash := Some h |}
              | _ => d
              end
  | None => d
  end.

Definition _activate_release (release : ToolRelease) : call ToolRelease :=
  if negb (has_status DRAFT release) then raise (NotEditable (v_status release))
  else
    _ ← update_version_data (v_id release) pinned_hash;
    _ ← update_status (v_id release) LIVE;
    get_release_by_tool_id (v_owner release) (v_number release).

Definition _archive_release (release : ToolRelease) : call ToolRelease :=
  if has_status RETIRED release then raise (NotEditable (v_status release))
  else
    tool ← container_by_id (v_owner release);
    _ ← match tool with
        | Some t => if bool_decide (c_current t = Some (v_id release)) then set_current (c_id t) None else mret tt
        | None => mret tt
        end;
    _ ← update_status (v_id release) RETIRED;
    mret (set_v_status RETIRED release).

(** The public operations find the release first; the variants by slug find the tool
    by its slug. *)
Definition update_release_by_tool_id (tool_id version : Z) (backend_release_id : option Z) : call ToolRelease :=
  r ← get_release_by_tool_id tool_id version; _update_release r backend_release_id.
Definition activate_release_by_tool_id (tool_id version : Z) : call ToolRelease :=
  r ← get_release_by_tool_id tool_id version; _activate_release r.
Definition archive_release_by_tool_id (tool_id version : Z) : call ToolRelease :=
  r ← get_release_by_tool_id tool_id version; _archive_release r.

(** [self.release_repo.delete(release)]: ToolReleaseRepository has no such method. *)
Definition delete_release_by_tool_id (tool_id version : Z) : call unit :=
  release ← get_release_by_tool_id tool_id version;
  if negb (has_status LIVE release || has_status RETIRED release) then raise (NotEditable (v_status release))
  else
    tool ← container_by_id (v_owner release);
    match tool with
    | Some t => if bool_decide (c_current t = Some (v_id release)) then raise CurrentVersion else raise AttributeError
    | None => raise AttributeError
    end.
End Service.
End Releases.

(** ** CollectionVersionService *)
Module CollectionVersions.
Record VersionData := {
  vd_data_description : option string;
  vd_usage_purpose : option string;
  vd_usage_rules : option string;
  vd_notes : option string
}.

Abbreviation call A := (vpy unit VersionData A).
Abbreviation CollectionVersion := (Version VersionData).

Section Service.
Variable uuid4 : nat -> Z.

Definition get_version (collection_id version : Z) : call CollectionVersion :=
  v ← version_by_number collection_id version;
  match v with Some v => mret v | None => raise VersionNotFound end.

Definition create_version (collection_id : Z) (d : VersionData) : call CollectionVersion :=
  next_version ← get_next_version collection_id;
  create_version_row uuid4 collection_id next_version DRAFT None d.

(** The fields of the request: None is [_UNSET], the field was not sent. *)
Record VersionUpdate := {
  vu_data_description : option (option string);
  vu_usage_purpose : option (option string);
  vu_usage_rules : option (option string);
  vu_notes : option (option string)
}.

Definition update_version (collection_id version : Z) (u : VersionUpdate) : call unit :=
  v ← get_version collection_id version;
  if negb (has_status DRAFT v) then raise (NotEditable (v_status v))
  else update_version_data (v_id v) (fun old =>
    {| vd_data_description := if_given (vu_data_description u) (vd_data_description old);
       vd_usage_purpose := if_given (vu_usage_purpose u) (vd_usage_purpose old);
       vd_usage_rules := if_given (vu_usage_rules u) (vd_usage_rules old);
       vd_notes := if_given (vu_notes u) (vd_notes old) |}).

Definition publish_version (collection_id version : Z) : call unit :=
  v ← get_version collection_id version;
  if negb (has_status DRAFT v) then raise (WrongStatus (v_status v))
  else update_status (v_id v) LIVE.

Definition _get_collection (collection_id : Z) : call (Container unit) :=
  c ← container_by_id collection_id;
  match c with Some c => mret c | None => raise ContainerNotFound end.

Definition archive_version (collection_id version : Z) : call unit :=
  collection ← _get_collection collection_id;
  v ← get_version collection_id version;
  if negb (has_status LIVE v) then raise (WrongStatus (v_status v))
  else if bool_decide (c_current collection = Some (v_id v)) then raise CurrentVersion
  else update_status (v_id v) RETIRED.

Definition delete_version (collection_id version : Z) : call unit :=
  collection ← _get_collection collection_id;
  v ← get_version collection_id version;
  if negb (has_status LIVE v || has_status RETIRED v) then raise (WrongStatus (v_status v))
  else if bool_decide (c_current collection = Some (v_id v)) then raise CurrentVersion
  else delete_version_row (v_id v).

Definition set_current_version (collection_id version_id : Z) : call unit :=
  collection ← _get_collection collection_id;
  v ← version_by_id version_id;
  match v with
  | Some v => if negb (Z.eqb (v_owner v) collection_id) then raise ForeignVersion
              else if negb (has_status LIVE v) then raise (WrongStatus (v_status v))
              else set_current (c_id collection) (Some (v_id v))
  | None => raise ForeignVersion
  end.
End Service.
End CollectionVersions.
