(* ===== verification/VersionsProofs.v ===== *)
(** * The services of versioned containers keep the version store's promises *)
From S2P Require Import Prelude Rbac VersionStore VersionStoreProofs Versions AgentVersions.
Open Scope Z_scope.

(** ** Reading the tables *)
Section Reads.
Context {C P : Type}.
Implicit Types (t : Tables C P).

Lemma find_version_Some id t v : find_version id t = Some v -> v ∈ t_versions t /\ v_id v = id.
Proof. intros [H1 H2%Z.eqb_eq]%List.find_some. by rewrite <- list_elem_of_In in H1. Qed.

Lemma find_version_unique strict single uuid4 id t v w :
  tables_ok uuid4 strict single t -> find_version id t = Some v -> w ∈ t_versions t -> v_id w = id -> w = v.
Proof.
  intros Hok [Hv Hid]%find_version_Some Hw E.
  apply (NoDup_map_key v_id (t_versions t)); [apply Hok|done|done|congruence].
Qed.

Lemma find_container_Some id t c : find_container id t = Some c -> c ∈ t_containers t /\ c_id c = id.
Proof. intros [H1 H2%Z.eqb_eq]%List.find_some. by rewrite <- list_elem_of_In in H1. Qed.

Lemma find_slug_Some slug t c : find_slug slug t = Some c -> c ∈ t_containers t /\ c_slug c = slug.
Proof. intros [H1 H2%String.eqb_eq]%List.find_some. by rewrite <- list_elem_of_In in H1. Qed.

Lemma find_slug_None slug t c : find_slug slug t = None -> c ∈ t_containers t -> c_slug c <> slug.
Proof.
  intros H Hc E. apply list_elem_of_In in Hc. apply (List.find_none _ _ H) in Hc.
  rewrite E, String.eqb_refl in Hc. done.
Qed.

Lemma find_number_Some owner n t v :
  find_number owner n t = Some v -> v ∈ t_versions t /\ v_owner v = owner /\ v_number v = n.
Proof.
  intros [H1 [H2%Z.eqb_eq H3%Z.eqb_eq]%andb_true_iff]%List.find_some. by rewrite <- list_elem_of_In in H1.
Qed.

Lemma find_number_None owner n t v :
  find_number owner n t = None -> v ∈ t_versions t -> v_owner v = owner -> v_number v <> n.
Proof.
  intros H Hv Ho Hn. apply list_elem_of_In in Hv. apply (List.find_none _ _ H) in Hv.
  by rewrite Ho, Hn, !Z.eqb_refl in Hv.
Qed.

Lemma has_status_true s (v : Version P) : has_status s v = true -> v_status v = s.
Proof. apply bool_decide_eq_true. Qed.
Lemma has_status_false s (v : Version P) : has_status s v = false -> v_status v <> s.
Proof. apply bool_decide_eq_false. Qed.

Lemma owner_exists_true owner t : owner_exists owner t = true -> exists c, c ∈ t_containers t /\ c_id c = owner.
Proof.
  unfold owner_exists. destruct (find_container owner t) as [c|] eqn:E; [|done]. intros _. exists c.
  by apply find_container_Some.
Qed.

(** Only its own container can have a version as the current one. *)
Lemma not_current_own strict single uuid4 t v c :
  tables_ok uuid4 strict single t -> v ∈ t_versions t -> c ∈ t_containers t -> c_id c = v_owner v ->
  c_current c <> Some (v_id v) -> not_current (v_id v) t.
Proof.
  intros Hok Hv Hc Hid Hn d Hd Hcur. destruct (ok_current _ _ _ _ Hok d _ Hd Hcur) as (w & Hw & Hwid & Ho & _).
  assert (w = v) as -> by (by apply (NoDup_map_key v_id (t_versions t)); [apply Hok|..]).
  replace d with c in Hcur; [done|]. apply (NoDup_map_key c_id (t_containers t)); [apply Hok|done|done|congruence].
Qed.
End Reads.

(** ** The writes the services make *)
Section Writes.
Context {C P : Type} (uuid4 : nat -> Z).
Implicit Types (t : Tables C P).

Lemma rtc_put_container strict single slug data t :
  find_slug slug t = None -> rtc (store_step uuid4 strict single) t (put_container uuid4 slug data t).
Proof. intros H. apply rtc_once, st_create_container. intros c. by apply find_slug_None. Qed.

Lemma rtc_put_version strict single owner n parent data t b :
  find_number owner n t = None -> owner_exists owner t && b = true ->
  rtc (store_step uuid4 strict single) t (put_version (new_version uuid4 owner n DRAFT parent data t) t).
Proof.
  intros Hn [Ho _]%andb_true_iff. apply rtc_once, st_create_version; [by apply owner_exists_true|].
  intros v. by apply find_number_None.
Qed.

Lemma rtc_edit strict single id f t v :
  tables_ok uuid4 strict single t -> find_version id t = Some v -> has_status DRAFT v = true ->
  rtc (store_step uuid4 strict single) t (put_data id f t).
Proof.
  intros Hok Hv Hd%has_status_true. apply rtc_once, st_edit. intros w Hw Hid.
  by rewrite (find_version_unique _ _ _ _ _ _ _ Hok Hv Hw Hid).
Qed.

Lemma rtc_drop_free single id t : rtc (store_step uuid4 false single) t (drop_version id t).
Proof. by apply rtc_once, st_drop_version. Qed.

(** Any step forward, where neither the current nor the live version is protected. *)
Lemma rtc_status_free id s t v :
  tables_ok uuid4 false false t -> find_version id t = Some v -> (rank (v_status v) < rank s)%nat ->
  rtc (store_step uuid4 false false) t (put_status id s t).
Proof.
  intros Hok Hv Hr. apply rtc_once, st_advance; [|done|done]. intros w Hw Hid.
  by rewrite (find_version_unique _ _ _ _ _ _ _ Hok Hv Hw Hid).
Qed.

Lemma rtc_retire_free single id t v :
  tables_ok uuid4 false single t -> find_version id t = Some v -> v_status v <> RETIRED ->
  rtc (store_step uuid4 false single) t (put_status id RETIRED t).
Proof.
  intros Hok Hv Hr. apply rtc_once, st_advance; [|done|done]. intros w Hw Hid.
  rewrite (find_version_unique _ _ _ _ _ _ _ Hok Hv Hw Hid). destruct (v_status v); simpl; [lia|lia|done].
Qed.

Lemma rtc_set_current strict single id vid t v :
  find_version vid t = Some v -> v_owner v = id -> has_status LIVE v = true ->
  rtc (store_step uuid4 strict single) t (put_current id (Some vid) t).
Proof.
  intros [Hv Hid]%find_version_Some Ho Hl%has_status_true. apply rtc_once, st_set_current.
  intros p [= <-]. by exists v.
Qed.

(** Making a draft the one active version. *)
Lemma elem_put_retired owner t w :
  w ∈ t_versions (put_retired owner t) ->
  exists v, v ∈ t_versions t /\ v_id w = v_id v /\ v_owner w = v_owner v /\
            v_status w = (if Z.eqb (v_owner v) owner && has_status LIVE v then RETIRED else v_status v).
Proof. intros (v & -> & Hv)%list_elem_of_fmap. exists v. split; [done|]. by destruct (_ && _). Qed.

Lemma draft_after_retired single owner id t v w :
  tables_ok uuid4 false single t -> find_version id t = Some v -> v_status v = DRAFT ->
  w ∈ t_versions (put_retired owner t) -> v_id w = id -> v_status w = DRAFT /\ v_owner w = v_owner v.
Proof.
  intros Hok Hf Hd (w0 & Hw0 & Hid & -> & ->)%elem_put_retired E. rewrite Hid in E.
  rewrite (find_version_unique _ _ _ _ _ _ _ Hok Hf Hw0 E). unfold has_status. by rewrite Hd, andb_false_r.
Qed.

Lemma rtc_replace_live single id t v :
  tables_ok uuid4 false single t -> find_version id t = Some v -> has_status DRAFT v = true ->
  rtc (store_step uuid4 false single) t (put_status id LIVE (put_retired (v_owner v) t)).
Proof.
  intros Hok Hf Hd%has_status_true.
  etransitivity; [apply rtc_once, st_retire; done|]. apply rtc_once, st_advance; [|done|].
  - intros w Hin Hid. destruct (draft_after_retired _ _ _ _ _ _ Hok Hf Hd Hin Hid) as [-> _]. simpl. lia.
  - intros _ _ w Hin Hid u Hu Hou. destruct (draft_after_retired _ _ _ _ _ _ Hok Hf Hd Hin Hid) as [_ Ho].
    apply elem_put_retired in Hu as (u0 & Hu0 & _ & Ho0 & ->). rewrite Hou, Ho in Ho0.
    rewrite <- Ho0, Z.eqb_refl. unfold has_status. by case_bool_decide.
Qed.

Lemma rtc_activate id t v :
  tables_ok uuid4 false true t -> find_version id t = Some v -> has_status DRAFT v = true ->
  rtc (store_step uuid4 false true) t
    (put_current (v_owner v) (Some id) (put_status id LIVE (put_retired (v_owner v) t))).
Proof.
  intros Hok Hf Hd. etransitivity; [by apply rtc_replace_live|]. apply rtc_once, st_set_current.
  intros p [= <-]. apply find_version_Some in Hf as [Hin Hid].
  set (u := if Z.eqb (v_owner v) (v_owner v) && has_status LIVE v then set_v_status RETIRED v else v).
  exists (set_v_status LIVE u). split; [|subst u; destruct (_ && _); done].
  apply list_elem_of_fmap. exists u. split.
  - replace (v_id u) with id by (subst u; by destruct (_ && _)). by rewrite Z.eqb_refl.
  - apply list_elem_of_fmap. by exists v.
Qed.

(** Stores that protect the current version. *)
Lemma rtc_publish strict id t v :
  tables_ok uuid4 strict false t -> find_version id t = Some v -> has_status DRAFT v = true ->
  rtc (store_step uuid4 strict false) t (put_status id LIVE t).
Proof.
  intros Hok Hv Hd%has_status_true. apply rtc_once, st_advance; [|done|done]. intros w Hw Hid.
  rewrite (find_version_unique _ _ _ _ _ _ _ Hok Hv Hw Hid), Hd. simpl. lia.
Qed.

Lemma rtc_retire_other id t v c :
  tables_ok uuid4 true false t -> find_version id t = Some v -> v_status v <> RETIRED ->
  find_container (v_owner v) t = Some c -> c_current c <> Some id ->
  rtc (store_step uuid4 true false) t (put_status id RETIRED t).
Proof.
  intros Hok Hf Hr [Hc Hcid]%find_container_Some Hn. apply rtc_once, st_advance; [| |done].
  - intros w Hw Hid. rewrite (find_version_unique _ _ _ _ _ _ _ Hok Hf Hw Hid).
    destruct (v_status v); simpl; [lia|lia|done].
  - intros _ _. apply find_version_Some in Hf as [Hv <-]. by apply (not_current_own true false uuid4 t v c).
Qed.

Lemma rtc_drop_other id t v c :
  tables_ok uuid4 true false t -> find_version id t = Some v ->
  find_container (v_owner v) t = Some c -> c_current c <> Some id ->
  rtc (store_step uuid4 true false) t (drop_version id t).
Proof.
  intros Hok [Hv <-]%find_version_Some [Hc Hcid]%find_container_Some Hn. apply rtc_once, st_drop_version.
  intros _. by apply (not_current_own true false uuid4 t v c).
Qed.

(** Every version has its container. *)
Lemma owner_found strict single id t v :
  tables_ok uuid4 strict single t -> find_version id t = Some v -> find_container (v_owner v) t <> None.
Proof.
  intros Hok [Hv _]%find_version_Some Hn. destruct (ok_owner _ _ _ _ Hok v Hv) as (c & Hc & Hid).
  apply list_elem_of_In in Hc. apply (List.find_none _ _ Hn) in Hc. by rewrite Hid, Z.eqb_refl in Hc.
Qed.

Lemma find_version_in strict single t v :
  tables_ok uuid4 strict single t -> v ∈ t_versions t -> find_version (v_id v) t = Some v.
Proof.
  intros Hok Hv. destruct (find_version (v_id v) t) as [w|] eqn:E.
  - f_equal. symmetry. by eapply find_version_unique.
  - apply list_elem_of_In in Hv. apply (List.find_none _ _ E) in Hv. by rewrite Z.eqb_refl in Hv.
Qed.

Lemma find_number_version strict single t owner n v :
  tables_ok uuid4 strict single t -> find_number owner n t = Some v ->
  find_version (v_id v) t = Some v /\ v_owner v = owner.
Proof. intros Hok (Hv & Ho & _)%find_number_Some. split; [by eapply find_version_in|done]. Qed.

(** A draft is completed and published. *)
Lemma rtc_edit_publish strict id f t v :
  tables_ok uuid4 strict false t -> find_version id t = Some v -> has_status DRAFT v = true ->
  rtc (store_step uuid4 strict false) t (put_status id LIVE (put_data id f t)).
Proof.
  intros Hok Hf Hd. etransitivity; [by eapply rtc_edit|]. apply rtc_once, st_advance; [|done|done].
  apply has_status_true in Hd. intros w (u & -> & Hu)%list_elem_of_fmap Hid.
  assert (v_id u = id) as Hui by (by destruct (Z.eqb (v_id u) id)).
  rewrite <- (find_version_unique _ _ _ _ _ _ _ Hok Hf Hu Hui) in Hd. destruct (Z.eqb _ _); simpl; rewrite Hd; simpl; lia.
Qed.

(** The current version is unlinked, then retired. *)
Lemma rtc_retire_current id t v c :
  tables_ok uuid4 true false t -> find_version id t = Some v -> v_status v <> RETIRED ->
  find_container (v_owner v) t = Some c ->
  rtc (store_step uuid4 true false) t (put_status id RETIRED (put_current (c_id c) None t)).
Proof.
  intros Hok Hf Hr [Hc Hcid]%find_container_Some.
  etransitivity; [apply rtc_once, (st_set_current _ _ _ (c_id c) None); done|]. apply rtc_once, st_advance; [| |done].
  - intros w Hw Hid. rewrite (find_version_unique _ _ _ _ _ _ _ Hok Hf Hw Hid).
    destruct (v_status v); simpl; [lia|lia|done].
  - intros _ _ d (d0 & -> & Hd)%list_elem_of_fmap. destruct (Z.eqb_spec (c_id d0) (c_id c)) as [|Hne]; [done|].
    apply find_version_Some in Hf as [Hv Hid]. intros Hcur.
    destruct (ok_current _ _ _ _ Hok d0 _ Hd Hcur) as (w & Hw & Hwid & Ho & _).
    assert (w = v) as -> by (apply (NoDup_map_key v_id (t_versions t)); [apply Hok|done|done|congruence]).
    congruence.
Qed.
End Writes.

(** ** Executing a call *)
Ltac run_call :=
  cbv beta iota zeta delta [mbind py_bind mret py_ret raise get_state put_state modify
    version_by_id container_by_id container_by_slug version_by_number live_version get_next_version update_status
    deactivate_active_version update_version_data set_current set_current_not_none update_container_data
    delete_version_row delete_container_row create_container_row create_version_row snd];
  repeat (match goal with
          | H : negb _ = false |- _ => apply negb_false_iff in H
          | H : negb _ = true |- _ => apply negb_true_iff in H
          | H : Z.eqb _ _ = true |- _ => apply Z.eqb_eq in H
          | H : bool_decide _ = true |- _ => apply bool_decide_eq_true in H
          | H : bool_decide _ = false |- _ => apply bool_decide_eq_false in H
          | |- context [match ?x with _ => _ end] =>
              lazymatch x with context [match _ with _ => _ end] => fail | _ => destruct x eqn:? end
          end; try exact (rtc_refl _ _)).

(** A version found by its number is found by its id. *)
Ltac by_number :=
  match goal with
  | Hok : tables_ok ?u _ _ ?t, H : find_number _ _ ?t = Some _ |- _ =>
      destruct (find_number_version u _ _ _ _ _ _ Hok H) as [Hf Ho]
  end.

Section LimitsProofs.
Context (uuid4 : nat -> Z).
Import Limits.

Inductive limit_op : Type :=
| CreateLimit (slug name : string) (description : option string)
| UpdateLimit (limit_id : Z) (name description : option string)
| DeleteLimit (limit_id : Z)
| CreateLimitVersion (slug : string) (given : Numbers) (extra : option (odict json)) (notes : option string)
    (parent : option Z)
| UpdateLimitVersion (version_id : Z) (given : Numbers) (extra : option (odict json)) (notes : option string)
| DeleteLimitVersion (version_id : Z)
| ActivateLimitVersion (version_id : Z)
| DeactivateLimitVersion (version_id : Z).

Definition limit_exec (o : limit_op) (t : DB) : DB :=
  match o with
  | CreateLimit slug name description => (create_limit uuid4 slug name description t).2
  | UpdateLimit id name description => (update_limit id name description t).2
  | DeleteLimit id => (delete_limit id t).2
  | CreateLimitVersion slug given extra notes parent => (create_version uuid4 slug given extra notes parent t).2
  | UpdateLimitVersion id given extra notes => (update_version id given extra notes t).2
  | DeleteLimitVersion id => (delete_version id t).2
  | ActivateLimitVersion id => (activate_version id t).2
  | DeactivateLimitVersion id => (deactivate_version id t).2
  end.

Definition limit_call (t t' : DB) : Prop := exists o, t' = limit_exec o t.

#[export] Instance limits_refine : Refines uuid4 false true limit_call.
Proof.
  intros t t' Hok [o ->]. destruct o as [s n d|id n d|id|s g e no p|id g e no|id|id|id]; simpl.
  - unfold create_limit. run_call. by apply rtc_put_container.
  - unfold update_limit, get_limit. run_call. apply rtc_once, st_container_data.
  - unfold delete_limit, get_limit. run_call. apply rtc_once, st_drop_container.
  - unfold create_version, get_limit_by_slug, inherited_from. run_call; by eapply rtc_put_version.
  - unfold update_version, get_version. run_call. by eapply rtc_edit.
  - unfold delete_version, get_version. run_call. by apply rtc_drop_free.
  - unfold activate_version, get_version. run_call; by apply rtc_activate.
  - unfold deactivate_version, get_version, can_deactivate, has_status. run_call;
      (eapply rtc_retire_free; [done..|]; intros E; by rewrite E in *).
Qed.
End LimitsProofs.

Section PoliciesProofs.
Context (uuid4 : nat -> Z) (sha256_hex : string -> string).
Import Policies.

Inductive policy_op : Type :=
| CreatePolicy (slug name : string) (description : option string)
| UpdatePolicy (policy_id : Z) (name description : option string)
| DeletePolicy (policy_id : Z)
| CreatePolicyVersion (slug : string) (text : option string) (data : option json) (notes : option string)
    (parent : option Z)
| UpdatePolicyVersion (version_id : Z) (text : option string) (data : option json) (notes : option string)
| DeletePolicyVersion (version_id : Z)
| ActivatePolicyVersion (version_id : Z)
| DeactivatePolicyVersion (version_id : Z).

Definition policy_exec (o : policy_op) (t : DB) : DB :=
  match o with
  | CreatePolicy slug name description => (create_policy uuid4 slug name description t).2
  | UpdatePolicy id name description => (update_policy id name description t).2
  | DeletePolicy id => (delete_policy id t).2
  | CreatePolicyVersion slug text data notes parent =>
      (create_version uuid4 sha256_hex slug text data notes parent t).2
  | UpdatePolicyVersion id text data notes => (update_version sha256_hex id text data notes t).2
  | DeletePolicyVersion id => (delete_version id t).2
  | ActivatePolicyVersion id => (activate_version id t).2
  | DeactivatePolicyVersion id => (deactivate_version id t).2
  end.

Definition policy_call (t t' : DB) : Prop := exists o, t' = policy_exec o t.

#[export] Instance policies_refine : Refines uuid4 false true policy_call.
Proof.
  intros t t' Hok [o ->]. destruct o as [s n d|id n d|id|s x j no p|id x j no|id|id|id]; simpl.
  - unfold create_policy. run_call. by apply rtc_put_container.
  - unfold update_policy, get_policy. run_call. apply rtc_once, st_container_data.
  - unfold delete_policy, get_policy. run_call. apply rtc_once, st_drop_container.
  - unfold create_version, get_policy_by_slug, inherited_from. run_call; by eapply rtc_put_version.
  - unfold update_version, get_version. run_call. by eapply rtc_edit.
  - unfold delete_version, get_version. run_call. by apply rtc_drop_free.
  - unfold activate_version, get_version. run_call; by apply rtc_activate.
  - unfold deactivate_version, get_version, can_deactivate, has_status. run_call;
      (eapply rtc_retire_free; [done..|]; intros E; by rewrite E in *).
Qed.
End PoliciesProofs.

Section PromptsProofs.
Context (uuid4 : nat -> Z) (find_undeclared_variables : string -> option (list string)).
Import Prompts.

Inductive prompt_op : Type :=
| CreatePrompt (slug name : string) (description : option string) (type : string)
| UpdatePrompt (prompt_id : Z) (name description : option string)
| CreatePromptVersion (slug template : string) (parent : option Z) (variables : option (list string))
    (config : option (odict json))
| UpdatePromptVersion (version_id : Z) (template : option string) (variables : option (list string))
    (config : option (odict json))
| ActivatePromptVersion (version_id : Z) (archive_current : bool)
| ArchivePromptVersion (version_id : Z)
| RecommendPromptVersion (slug : string) (version_id : Z).

Definition prompt_exec (o : prompt_op) (t : DB) : DB :=
  match o with
  | CreatePrompt slug name description type => (create_prompt uuid4 slug name description type t).2
  | UpdatePrompt id name description => (update_prompt id name description t).2
  | CreatePromptVersion slug template parent variables config =>
      (create_version uuid4 find_undeclared_variables slug template parent variables config t).2
  | UpdatePromptVersion id template variables config =>
      (update_version find_undeclared_variables id template variables config t).2
  | ActivatePromptVersion id archive_current => (activate_version id archive_current t).2
  | ArchivePromptVersion id => (archive_version id t).2
  | RecommendPromptVersion slug id => (update_recommended_version slug id t).2
  end.

Definition prompt_call (t t' : DB) : Prop := exists o, t' = prompt_exec o t.

#[export] Instance prompts_refine : Refines uuid4 false false prompt_call.
Proof.
  intros t t' Hok [o ->]. destruct o as [s n d ty|id n d|s te p va co|id te va co|id [|]|id|s id]; simpl.
  - unfold create_prompt. run_call. by apply rtc_put_container.
  - unfold update_prompt, get_prompt_by_id. run_call. apply rtc_once, st_container_data.
  - unfold create_version, get_prompt_by_slug, validate_template. run_call; by eapply rtc_put_version.
  - unfold update_version, get_version_by_id, validate_template. run_call; by eapply rtc_edit.
  - unfold activate_version, get_version_by_id. run_call. by apply rtc_replace_live.
  - unfold activate_version, get_version_by_id. run_call. by eapply rtc_publish.
  - unfold archive_version, get_version_by_id. run_call.
    eapply rtc_retire_free; [done..|]. by apply has_status_false.
  - unfold update_recommended_version, get_prompt_by_slug, get_version_by_id. run_call.
    by eapply rtc_set_current.
Qed.
End PromptsProofs.

Section AgentsProofs.
Context (uuid4 : nat -> Z).
Import Agents.

Inductive agent_op : Type :=
| UpdateAgent (agent_id : Z) (u : AgentUpdate)
| CreateAgentVersion (slug : string) (data : odict json) (parent : option Z)
| CreateAgentVersionById (agent_id : Z) (data : odict json) (parent : option Z)
| UpdateAgentVersion (version_id : Z) (data : odict json)
| DeleteAgentVersion (version_id : Z)
| PublishAgentVersion (version_id : Z)
| ArchiveAgentVersion (version_id : Z)
| SetCurrentAgentVersion (agent_id version_id : Z).

Definition agent_exec (o : agent_op) (t : Tables AgentInfo AgentData) : Tables AgentInfo AgentData :=
  match o with
  | UpdateAgent id u => (update_agent id u t).2
  | CreateAgentVersion slug data parent => (create_version uuid4 slug data parent t).2
  | CreateAgentVersionById id data parent => (create_version_by_agent_id uuid4 id data parent t).2
  | UpdateAgentVersion id data => (update_version id data t).2
  | DeleteAgentVersion id => (delete_version id t).2
  | PublishAgentVersion id => (publish_version id t).2
  | ArchiveAgentVersion id => (archive_version id t).2
  | SetCurrentAgentVersion agent_id id => (set_current_version agent_id id t).2
  end.

Definition agent_call (t t' : Tables AgentInfo AgentData) : Prop := exists o, t' = agent_exec o t.

#[export] Instance agents_refine : Refines uuid4 true false agent_call.
Proof.
  intros t t' Hok [o ->]. destruct o as [id u|s d p|id d p|id d|id|id|id|aid id]; simpl.
  - unfold update_agent, get_agent, visible_agent. run_call. apply rtc_once, st_container_data.
  - unfold create_version, get_agent_by_slug, visible_agent, _create_version_for_agent, inherited_from.
    run_call; by eapply rtc_put_version.
  - unfold create_version_by_agent_id, get_agent, visible_agent, _create_version_for_agent, inherited_from.
    run_call; by eapply rtc_put_version.
  - unfold update_version, get_version. run_call. by eapply rtc_edit.
  - unfold delete_version, get_version. run_call; [by eapply rtc_drop_other|]. by destruct (owner_found uuid4 _ _ _ _ _ Hok Heqo).
  - unfold publish_version, get_version. run_call; by eapply rtc_publish.
  - unfold archive_version, get_version. run_call.
    all: apply has_status_true in Heqb.
    1,2: by apply (rtc_retire_current uuid4 id t v c Hok Heqo ltac:(congruence) Heqo0).
    1,2: by apply (rtc_retire_other uuid4 id t v c Hok Heqo ltac:(congruence) Heqo0).
    by destruct (owner_found uuid4 _ _ _ _ _ Hok Heqo).
  - unfold set_current_version, get_agent, visible_agent, get_version. run_call.
    apply find_container_Some in Heqo as Hc. destruct Hc as [_ <-]. by eapply rtc_set_current.
Qed.
End AgentsProofs.

Section ReleasesProofs.
Context (uuid4 : nat -> Z) (backends : list Releases.Backend).
Import Releases.

Inductive release_op : Type :=
| CreateRelease (tool_id : Z) (backend from : option Z)
| UpdateRelease (tool_id version : Z) (backend : option Z)
| ActivateRelease (tool_id version : Z)
| ArchiveRelease (tool_id version : Z)
| DeleteRelease (tool_id version : Z)
| SetCurrentRelease (tool_id release_id : Z).

Definition release_exec (o : release_op) (t : Tables unit ReleaseData) : Tables unit ReleaseData :=
  match o with
  | CreateRelease tool backend from => (create_release_by_tool_id uuid4 backends tool backend from t).2
  | UpdateRelease tool version backend => (update_release_by_tool_id backends tool version backend t).2
  | ActivateRelease tool version => (activate_release_by_tool_id backends tool version t).2
  | ArchiveRelease tool version => (archive_release_by_tool_id tool version t).2
  | DeleteRelease tool version => (delete_release_by_tool_id tool version t).2
  | SetCurrentRelease tool id => (set_current_version_by_id tool id t).2
  end.

Definition release_call (t t' : Tables unit ReleaseData) : Prop := exists o, t' = release_exec o t.

#[export] Instance releases_refine : Refines uuid4 true false release_call.
Proof.
  intros t t' Hok [o ->]. destruct o as [tool b f|tool n b|tool n|tool n|tool n|tool id]; simpl.
  - unfold create_release_by_tool_id, get_tool_by_id, _create_release_for_tool, get_release_by_tool_id.
    run_call; by eapply rtc_put_version.
  - unfold update_release_by_tool_id, _update_release, get_release_by_tool_id. run_call;
      (by_number; by eapply rtc_edit).
  - unfold activate_release_by_tool_id, _activate_release, get_release_by_tool_id. run_call;
      (by_number; by eapply rtc_edit_publish).
  - unfold archive_release_by_tool_id, _archive_release, get_release_by_tool_id. run_call;
      by_number; apply has_status_false in Heqb.
    + by apply (rtc_retire_current uuid4 _ t v c Hok Hf Heqb).
    + by apply (rtc_retire_other uuid4 _ t v c Hok Hf Heqb).
    + by destruct (owner_found uuid4 _ _ _ _ _ Hok Hf).
  - unfold delete_release_by_tool_id, get_release_by_tool_id. run_call.
  - unfold set_current_version_by_id, get_tool_by_id. run_call. by eapply rtc_set_current.
Qed.
End ReleasesProofs.

Section CollectionVersionsProofs.
Context (uuid4 : nat -> Z).
Import CollectionVersions.

Inductive cversion_op : Type :=
| CreateCVersion (collection_id : Z) (d : VersionData)
| UpdateCVersion (collection_id version : Z) (u : VersionUpdate)
| PublishCVersion (collection_id version : Z)
| ArchiveCVersion (collection_id version : Z)
| DeleteCVersion (collection_id version : Z)
| SetCurrentCVersion (collection_id version_id : Z).

Definition cversion_exec (o : cversion_op) (t : Tables unit VersionData) : Tables unit VersionData :=
  match o with
  | CreateCVersion id d => (create_version uuid4 id d t).2
  | UpdateCVersion id n u => (update_version id n u t).2
  | PublishCVersion id n => (publish_version id n t).2
  | ArchiveCVersion id n => (archive_version id n t).2
  | DeleteCVersion id n => (delete_version id n t).2
  | SetCurrentCVersion id vid => (set_current_version id vid t).2
  end.

Definition cversion_call (t t' : Tables unit VersionData) : Prop := exists o, t' = cversion_exec o t.

#[export] Instance cversions_refine : Refines uuid4 true false cversion_call.
Proof.
  intros t t' Hok [o ->]. destruct o as [id d|id n u|id n|id n|id n|id vid]; simpl.
  - unfold create_version. run_call; by eapply rtc_put_version.
  - unfold update_version, get_version. run_call.
    by_number. by eapply rtc_edit.
  - unfold publish_version, get_version. run_call.
    by_number. by eapply rtc_publish.
  - unfold archive_version, get_version, _get_collection. run_call.
    by_number; subst id. apply has_status_true in Heqb.
    eapply rtc_retire_other; [done|done|congruence|done|done].
  - unfold delete_version, get_version, _get_collection. run_call.
    by_number; subst id. by eapply rtc_drop_other.
  - unfold set_current_version, _get_collection. run_call. apply find_container_Some in Heqo as Hc.
    destruct Hc as [_ <-]. apply find_version_Some in Heqo0 as Hv. destruct Hv as [_ <-]. by eapply rtc_set_current.
Qed.
End CollectionVersionsProofs.
