(* ===== verification/VersionsProperties.v ===== *)
(** * What the services of versioned containers promise *)
From S2P Require Import Prelude Rbac VersionStore VersionStoreProofs Versions AgentVersions VersionsProofs.
Open Scope Z_scope.

(** ** The lives of versions *)
Section Lives.
Context (uuid4 : nat -> Z) `{!Inj eq eq uuid4}.


(** Through any sequence of calls of LimitService, a limit has at most one active
    version, the current version of a limit is one of its own, and versions keep
    their number and, once activated, their values. *)
Theorem limit_versions_life t t' :
  tables_ok uuid4 false true t -> rtc (limit_call uuid4) t t' ->
  (forall v w, v ∈ t_versions t' -> w ∈ t_versions t' -> v_owner v = v_owner w ->
     v_status v = LIVE -> v_status w = LIVE -> v = w) /\
  (forall l id, l ∈ t_containers t' -> c_current l = Some id ->
     exists v, v ∈ t_versions t' /\ v_id v = id /\ v_owner v = c_id l) /\
  (forall v v', v ∈ t_versions t -> v' ∈ t_versions t' -> v_id v' = v_id v -> keeps v v').
Proof.
  intros Hok H. destruct (calls_ok _ _ _ _ _ _ H Hok) as [Hok' _]. split; [|split; [|intros v v' Hv Hv' E; exact (version_life uuid4 _ _ _ t t' v v' H Hok Hv Hv' E)]].
  - intros v w Hv Hw Ho Lv Lw. apply (NoDup_map_key v_id (t_versions t')); [apply Hok'|done|done|].
    by apply (ok_single _ _ _ _ Hok').
  - intros l id Hl Hc. destruct (ok_current _ _ _ _ Hok' l id Hl Hc) as (v & ? & ? & ? & _). by exists v.
Qed.

(** A tool's current release is one of its own active releases, and a release
    that was published keeps its backend and its schema hash, whatever calls of
    ToolReleaseService follow. *)
Theorem release_versions_life backends t t' :
  tables_ok uuid4 true false t -> rtc (release_call uuid4 backends) t t' ->
  (forall a id, a ∈ t_containers t' -> c_current a = Some id ->
     exists v, v ∈ t_versions t' /\ v_id v = id /\ v_owner v = c_id a /\ v_status v = LIVE) /\
  (forall v v', v ∈ t_versions t -> v' ∈ t_versions t' -> v_id v' = v_id v -> keeps v v').
Proof.
  intros Hok H. split; [|intros v v' Hv Hv' E; exact (version_life uuid4 _ _ _ t t' v v' H Hok Hv Hv' E)].
  destruct (calls_ok _ _ _ _ _ _ H Hok) as [Hok' _]. intros a id Ha Hc.
  destruct (ok_current _ _ _ _ Hok' a id Ha Hc) as (v & ? & ? & ? & Hl). exists v. auto.
Qed.
End Lives.

(** ** Policies *)
Section PolicyHash.
Context (uuid4 : nat -> Z) (sha256_hex : string -> string).
Import Policies.

Definition hash_ok (t : DB) : Prop :=
  forall v, v ∈ t_versions t -> pd_hash (v_data v) = _compute_hash sha256_hex (pd_policy_text (v_data v)).

Lemma hash_ok_map (f : PolicyVersion -> PolicyVersion) (t t' : DB) :
  (forall v', v' ∈ t_versions t' -> exists v, v ∈ t_versions t /\ v' = f v) ->
  (forall v, v ∈ t_versions t -> pd_hash (v_data v) = _compute_hash sha256_hex (pd_policy_text (v_data v)) ->
     pd_hash (v_data (f v)) = _compute_hash sha256_hex (pd_policy_text (v_data (f v)))) ->
  hash_ok t -> hash_ok t'.
Proof. intros Hm Hf Hok v' Hv'. destruct (Hm v' Hv') as (v & Hv & ->). by apply Hf, Hok. Qed.

Lemma hash_ok_where sel (f : PolicyVersion -> PolicyVersion) t :
  (forall v, pd_hash (v_data v) = _compute_hash sha256_hex (pd_policy_text (v_data v)) ->
     pd_hash (v_data (f v)) = _compute_hash sha256_hex (pd_policy_text (v_data (f v)))) ->
  hash_ok t -> hash_ok (update_version_where sel f t).
Proof.
  intros Hf. apply (hash_ok_map (fun v => if sel v then f v else v)); [by apply elem_update_where|].
  intros v _ Hv. destruct (sel v); [by apply Hf|done].
Qed.

Lemma hash_ok_unlink gone sel (t : DB) :
  hash_ok t -> hash_ok (unlink gone (with_versions (List.filter sel) t)).
Proof.
  apply (hash_ok_map (unlinked gone)); [intros v' (v & Hv & _ & ->)%elem_unlink; by exists v|].
  intros v _ Hv. unfold unlinked. destruct (v_parent v) as [p|]; [by destruct (gone p)|done].
Qed.

(** The hash of a policy version is that of its text, whatever calls of
    PolicyService are made. *)
Theorem policy_hash_invariant t t' :
  hash_ok t -> rtc (policy_call uuid4 sha256_hex) t t' -> hash_ok t'.
Proof.
  intros Hok H. induction H as [|t t1 t2 [o ->] _ IH]; [done|]. apply IH. clear IH.
  destruct o as [s n d|id n d|id|s x j no p|id x j no|id|id|id]; simpl.
  - unfold create_policy. run_call; done.
  - unfold update_policy, get_policy. run_call; done.
  - unfold delete_policy, get_policy. run_call; [|done]. unfold drop_container. by apply hash_ok_unlink.
  - unfold create_version, get_policy_by_slug, inherited_from. run_call; try done.
    all: by intros u [Hu| ->%list_elem_of_singleton]%elem_of_app; [apply Hok|].
  - unfold update_version, get_version. run_call; try done. apply hash_ok_where; [|done].
    intros u Hu. simpl. by destruct x.
  - unfold delete_version, get_version. run_call; try done. by apply hash_ok_unlink.
  - unfold activate_version, get_version. run_call; try done; by do 2 (apply hash_ok_where; [done|]).
  - unfold deactivate_version, get_version. run_call; try done; by apply hash_ok_where.
Qed.
End PolicyHash.

(** ** What runs use *)
Section InForce.
Context (uuid4 : nat -> Z).

Lemma find_version_put_status {C P} id s (t : Tables C P) v :
  find_version id t = Some v -> find_version id (put_status id s t) = Some (set_v_status s v).
Proof.
  unfold find_version. simpl. induction (t_versions t) as [|w l IH]; simpl; [done|].
  destruct (Z.eqb_spec (v_id w) id) as [E|E]; simpl.
  - rewrite E, Z.eqb_refl. by intros [= ->].
  - destruct (Z.eqb_spec (v_id w) id); done.
Qed.

Import Limits.

Lemma get_version_run id t v : find_version id t = Some v -> get_version id t = (Ok v, t).
Proof. intros H. unfold get_version, version_by_id, get_state, mbind, py_bind, mret, py_ret. by rewrite H. Qed.

Lemma version_in_force_run l id v t :
  c_current l = Some id -> find_version id t = Some v -> version_in_force l t = (Ok (Some v), t).
Proof.
  intros Hc Hf. unfold version_in_force, version_by_id, get_state, mbind, py_bind, mret, py_ret. by rewrite Hc, Hf.
Qed.

(** Deactivating the current version of a limit retires it but leaves it current,
    because the repository's update skips None: the runtime goes on reading the
    values of the deprecated version, neither another one nor the defaults. *)
Theorem deactivated_limits_stay_in_force t v l :
  find_version (v_id v) t = Some v -> can_deactivate v = true ->
  find_container (v_owner v) t = Some l -> c_current l = Some (v_id v) ->
  exists v' t', deactivate_version (v_id v) t = (Ok v', t') /\ v_status v' = RETIRED /\
    get_effective_limits (Some (c_id l)) t' = (Ok (limits_dict (v_data v)), t').
Proof.
  intros Hf Hd Hl Hc. set (t' := put_status (v_id v) RETIRED t).
  assert (find_version (v_id v) t' = Some (set_v_status RETIRED v)) as Hf' by (by apply find_version_put_status).
  assert (find_container (v_owner v) t' = Some l) as Hl' by done.
  assert (c_id l = v_owner v) as Hid by (by apply find_container_Some in Hl as [_ ?]).
  exists (set_v_status RETIRED v), t'. split; [|split; [done|]].
  - unfold deactivate_version. rewrite (bind_run_Ok _ _ _ _ _ (get_version_run _ _ _ Hf)), Hd.
    do 2 erewrite bind_run_Ok by reflexivity. fold t'. rewrite Hl', Hc, bool_decide_eq_true_2 by done.
    erewrite bind_run_Ok by reflexivity. by apply get_version_run.
  - unfold get_effective_limits. erewrite bind_run_Ok by reflexivity. rewrite Hid, Hl'.
    erewrite bind_run_Ok by reflexivity. cbv beta iota.
    by rewrite (bind_run_Ok _ _ _ _ _ (version_in_force_run _ _ _ _ Hc Hf')).
Qed.
End InForce.

(** ** Agents *)
Section AgentRuns.
Context (uuid4 : nat -> Z).
Import Agents.

(** [resolve_published_version] returns a published version of the agent that has
    the (normalised) slug: its current version when it has one, else its only
    published one; otherwise it says why there is none.  It never changes the
    tables. *)
Theorem resolve_published_spec t slug :
  tables_ok uuid4 true false t ->
  let '(r, t') := resolve_published_version (Some slug) t in
  t' = t /\
  match find_slug (_normalize_agent_slug slug) t with
  | None => r = Err ContainerNotFound
  | Some a =>
      match r with
      | Ok v => v ∈ t_versions t /\ v_owner v = c_id a /\ v_status v = LIVE /\
                (c_current a = Some (v_id v) \/
                 c_current a = None /\ List.filter (has_status LIVE) (versions_of (c_id a) t) = [v])
      | Err e => c_current a = None /\
                 (e = VersionNotFound /\ List.filter (has_status LIVE) (versions_of (c_id a) t) = [] \/
                  e = MultipleResultsFound /\ (2 <= length (List.filter (has_status LIVE) (versions_of (c_id a) t)))%nat)
      end
  end.
Proof.
  intros Hok. unfold resolve_published_version, container_by_slug. erewrite bind_run_Ok by reflexivity.
  destruct (find_slug _ t) as [a|] eqn:Ea; [|by split]. apply find_slug_Some in Ea as [Ha _].
  destruct (c_current a) as [id|] eqn:Ec.
  - destruct (ok_current _ _ _ _ Hok a id Ha Ec) as (v & Hv & <- & Ho & Hl).
    pose proof (find_version_in uuid4 _ _ t v Hok Hv) as Hf.
    unfold version_by_id, get_state, mbind, py_bind, mret, py_ret. rewrite Hf.
    split; [done|]. repeat (split; [by auto|]). by left.
  - erewrite bind_run_Ok by reflexivity. unfold live_version, get_state, mbind, py_bind, mret, py_ret, raise.
    destruct (List.filter _ _) as [|v [|w l]] eqn:El; (split; [done|]).
    + split; [done|]. by left.
    + assert (v ∈ List.filter (has_status LIVE) (versions_of (c_id a) t)) as Hin by (rewrite El; left).
      apply elem_of_List_filter in Hin as [Hin Hl]. apply elem_of_List_filter in Hin as [Hin Ho].
      split; [done|]. split; [by apply Z.eqb_eq|]. split; [by apply has_status_true|]. by right.
    + split; [done|]. right. split; [done|]. simpl. lia.
Qed.

(** Publishing does not archive the version published before, and sets no current
    version: when an agent without a current version has a published version, the
    publication of a second one makes [resolve_published_version] raise
    MultipleResultsFound, so that the agent can no longer be run. *)
Theorem second_publication_unresolvable t slug a (v w : AgentVersion) :
  tables_ok uuid4 true false t ->
  find_slug (_normalize_agent_slug slug) t = Some a -> c_current a = None ->
  v ∈ t_versions t -> v_owner v = c_id a -> v_status v = LIVE ->
  w ∈ t_versions t -> v_owner w = c_id a -> v_status w = DRAFT ->
  exists t', publish_version (v_id w) t = (Ok (set_v_status LIVE w), t') /\
    v ∈ t_versions t' /\ resolve_published_version (Some slug) t' = (Err MultipleResultsFound, t').
Proof.
  intros Hok Ha Hc Hv Hvo Hvl Hw Hwo Hwd. set (t' := put_status (v_id w) LIVE t). exists t'.
  pose proof (find_version_in uuid4 _ _ t w Hok Hw) as Hfw.
  assert (v_id v <> v_id w) as Hne.
  { intros E. assert (v = w) as -> by (by apply (NoDup_map_key v_id (t_versions t)); [apply Hok|..]). congruence. }
  assert (v ∈ t_versions t') as Hv'.
  { apply list_elem_of_fmap. exists v. split; [|done]. by destruct (Z.eqb_spec (v_id v) (v_id w)). }
  assert (set_v_status LIVE w ∈ t_versions t') as Hw'.
  { apply list_elem_of_fmap. exists w. split; [by rewrite Z.eqb_refl|done]. }
  split; [|split; [done|]].
  - unfold publish_version, get_version, version_by_id, update_status, modify, get_state, mbind, py_bind, mret, py_ret.
    rewrite Hfw. unfold can_publish, has_status. rewrite bool_decide_eq_true_2 by done.
    by rewrite (find_version_put_status _ LIVE _ _ Hfw).
  - unfold resolve_published_version, container_by_slug. erewrite bind_run_Ok by reflexivity.
    change (find_slug (_normalize_agent_slug slug) t') with (find_slug (_normalize_agent_slug slug) t).
    rewrite Ha, Hc. erewrite bind_run_Ok by reflexivity. unfold live_version, get_state, mbind, py_bind, mret, raise.
    assert (forall u, u ∈ t_versions t' -> v_owner u = c_id a -> v_status u = LIVE ->
              u ∈ List.filter (has_status LIVE) (versions_of (c_id a) t')) as Hin.
    { intros u Hu Ho Hl. apply elem_of_List_filter. split; [|by apply bool_decide_eq_true].
      apply elem_of_List_filter. split; [done|by apply Z.eqb_eq]. }
    pose proof (Hin v Hv' Hvo Hvl) as H1. pose proof (Hin (set_v_status LIVE w) Hw' Hwo eq_refl) as H2.
    destruct (List.filter _ _) as [|x [|y l]]; [by apply not_elem_of_nil in H1| |done].
    apply list_elem_of_singleton in H1, H2. destruct Hne. by rewrite H1, <- H2.
Qed.

(** A field as [create_version] reads it: None and null are not given. *)
Definition given (f : string) (d : odict json) : option json :=
  match od_get f d with Some JNull | None => None | Some j => Some j end.

Lemma given_fields_eq names d :
  given_fields names d = omap (fun f => option_map (pair f) (given f d)) names.
Proof.
  unfold given_fields. induction names as [|f names IH]; [done|]. cbn [omap list_omap]. rewrite IH. unfold given.
  by destruct (od_get f d) as [[]|].
Qed.

Lemma given_fields_keys names d : (forall k, k ∈ map fst (given_fields names d) -> k ∈ names) /\
  (NoDup names -> NoDup (map fst (given_fields names d))).
Proof.
  rewrite given_fields_eq. induction names as [|f names [IH1 IH2]]; cbn [omap list_omap].
  { split; [by intros k ?%not_elem_of_nil|intros _; apply NoDup_nil_2]. }
  destruct (given f d) as [j|]; cbn [option_map map fst].
  - split; [intros k [->|Hk]%elem_of_cons; [by left|right; by apply IH1]|].
    intros [Hf Hn]%NoDup_cons. apply NoDup_cons. split; [intros Hin; by apply Hf, IH1|by apply IH2].
  - split; [intros k Hk; right; by apply IH1|]. intros [_ Hn]%NoDup_cons. by apply IH2.
Qed.

Lemma given_fields_elem names d f j : f ∈ names -> given f d = Some j -> (f, j) ∈ given_fields names d.
Proof. rewrite given_fields_eq. intros Hf Hg. apply list_elem_of_omap. exists f. by rewrite Hg. Qed.

Lemma given_fields_None names d f : given f d = None -> f ∉ map fst (given_fields names d).
Proof.
  rewrite given_fields_eq. intros Hg ((k & j) & -> & (g & _ & H)%list_elem_of_omap)%list_elem_of_fmap.
  simpl in Hg. destruct (given g d) as [j'|] eqn:E; simpl in H; [|done]. injection H as -> ->. congruence.
Qed.

Lemma get_update_given names f d old :
  NoDup names -> f ∈ names -> od_get f (od_update old (given_fields names d)) = or_else (given f d) (od_get f old).
Proof.
  intros Hn Hf. destruct (given f d) as [j|] eqn:E.
  - apply od_get_update_elem; [by apply given_fields_keys|by apply given_fields_elem].
  - rewrite od_get_update_ne; [done|by apply given_fields_None].
Qed.

(** The number of a new version is larger than the others'. *)
Lemma next_version_above {C P} (t : Tables C P) owner n w :
  get_next_version owner t = (Ok n, t) -> w ∈ t_versions t -> v_owner w = owner -> v_number w < n.
Proof.
  intros H Hw Ho. assert (v_number w ∈ map v_number (versions_of owner t)) as Hin.
  { apply list_elem_of_fmap_2, elem_of_List_filter. split; [done|by apply Z.eqb_eq]. }
  unfold get_next_version, get_state, mbind, py_bind, mret, py_ret, max_version in H.
  destruct (map v_number (versions_of owner t)) as [|m l]; [by apply not_elem_of_nil in Hin|].
  injection H as <-. clear -Hin. assert (v_number w <= foldr Z.max m l); [|lia].
  induction l as [|x l IH]; simpl.
  - apply list_elem_of_singleton in Hin. lia.
  - apply elem_of_cons in Hin as [E|[E|Hl]%elem_of_cons]; [|lia|].
    + specialize (IH ltac:(by rewrite E; left)). lia.
    + specialize (IH ltac:(by right)). lia.
Qed.

(** The parent version whose fields are inherited. *)
Definition parent_of (agent_id : Z) (parent : option Z) (t : Tables AgentInfo AgentData) : odict json :=
  match parent with
  | Some p => match find_version p t with
              | Some w => if Z.eqb (v_owner w) agent_id then v_data w else []
              | None => []
              end
  | None => []
  end.

Lemma inherited_from_run agent_id parent t :
  inherited_from agent_id parent t = (Ok (given_fields _VERSION_FIELDS (parent_of agent_id parent t)), t).
Proof.
  unfold inherited_from, parent_of, version_by_id, get_state, mbind, py_bind, mret, py_ret.
  destruct parent as [p|]; [|done]. destruct (find_version p t) as [w|]; [|done]. by destruct (Z.eqb _ _).
Qed.

(** [create_version] for a visible agent and an existing parent adds a draft with
    a number above all others of the agent; each prompt field is the one given, else
    that of the parent when it belongs to the same agent.  A parent that does not
    exist is not reported as such: the foreign key refuses the row. *)
Theorem agent_version_created t a data parent :
  tables_ok uuid4 true false t -> find_container (c_id a) t = Some a -> deprecated a = false ->
  if parent_exists parent t then
    exists v, create_version_by_agent_id uuid4 (c_id a) data parent t = (Ok v, put_version v t) /\
      v_owner v = c_id a /\ v_status v = DRAFT /\ v_parent v = parent /\
      (forall w, w ∈ t_versions t -> v_owner w = c_id a -> v_number w < v_number v) /\
      forall f, f ∈ _VERSION_FIELDS ->
        od_get f (v_data v) = or_else (given f data) (given f (parent_of (c_id a) parent t))
  else create_version_by_agent_id uuid4 (c_id a) data parent t = (Err IntegrityError, t).
Proof.
  intros Hok Ha Hd. unfold create_version_by_agent_id.
  erewrite (bind_run_Ok _ _ t); [|unfold get_agent, container_by_id, get_state, mbind, py_bind, mret, py_ret;
    rewrite Ha; unfold visible_agent; rewrite Hd; reflexivity].
  unfold _create_version_for_agent. erewrite bind_run_Ok by reflexivity.
  rewrite (bind_run_Ok _ _ _ _ _ (inherited_from_run _ _ _)).
  set (n := match max_version (c_id a) t with Some n => n + 1 | None => 1 end).
  assert (forall w, w ∈ t_versions t -> v_owner w = c_id a -> v_number w < n) as Habove.
  { intros w. by apply next_version_above. }
  unfold create_version_row, get_state, put_state, mbind, py_bind, mret, py_ret, raise.
  destruct (find_number (c_id a) n t) as [w|] eqn:En.
  { apply find_number_Some in En as (Hw & Ho & Hn). specialize (Habove w Hw Ho). lia. }
  unfold owner_exists. rewrite Ha. destruct (parent_exists parent t); [|done]. eexists.
  do 4 (split; [done|]). split; [exact Habove|]. intros f Hf. cbn [new_version v_data].
  rewrite get_update_given; [|apply (bool_decide_unpack _); vm_compute; exact I|apply elem_of_app; by left].
  f_equal. change (given_fields _VERSION_FIELDS (parent_of (c_id a) parent t)) with
    (given_fields _VERSION_FIELDS (parent_of (c_id a) parent t)).
  destruct (given f (parent_of (c_id a) parent t)) as [j|] eqn:Eg.
  - apply od_elem_get; [apply given_fields_keys, (bool_decide_unpack _); vm_compute; exact I|by apply given_fields_elem].
  - apply od_get_None. by apply given_fields_None.
Qed.

Lemma on_tables_run {A} (m : call A) db (a : A) t :
  m (ad_tables db) = (Ok a, t) -> on_tables m db = (Ok a, {| ad_tables := t; ad_rbac := ad_rbac db |}).
Proof. unfold on_tables. by intros ->. Qed.

Lemma create_container_row_run {C P} slug (data : C) (t : Tables C P) :
  find_slug slug t = None ->
  create_container_row uuid4 slug data t = (Ok (uuid4 (t_next t)), put_container uuid4 slug data t).
Proof. unfold create_container_row, get_state, put_state, mbind, py_bind, mret, py_ret. by intros ->. Qed.

(** A new agent is denied to everybody: when [create_agent] returns and no rule
    mentioned the fresh id before, the agent exists without a current version and
    [check_access] answers deny for every user and tenant. *)
Theorem create_agent_denied rule_uuid4 now slug i db id db' :
  (forall r, r ∈ rb_rules (ad_rbac db) -> on_resource "agent" id r = false) ->
  create_agent uuid4 rule_uuid4 now slug i db = (Ok id, db') ->
  (exists a, a ∈ t_containers (ad_tables db') /\ c_id a = id /\ c_slug a = slug /\ c_current a = None) /\
  forall user tenant, check_access user tenant "agent" id (ad_rbac db') = Ok "deny"%string.
Proof.
  destruct db as [t rules]. cbn [ad_tables ad_rbac]. intros Hfresh. unfold create_agent.
  erewrite bind_run_Ok by reflexivity. cbn [ad_tables ad_rbac].
  destruct (find_slug slug t) as [a|] eqn:Es; [done|].
  rewrite (bind_run_Ok _ _ _ _ _ (on_tables_run _ {| ad_tables := t; ad_rbac := rules |} _ _ (create_container_row_run _ i _ Es))).
  set (fresh := uuid4 (t_next t)). set (t' := put_container uuid4 slug i t).
  unfold mbind at 1, py_bind at 1, on_rbac. cbn [ad_tables ad_rbac].
  set (rb0 := with_agents t' rules).
  destruct (ensure_platform_deny rule_uuid4 now "agent" fresh rb0) as [[r|e] rb] eqn:Er; [|done].
  intros [= <- <-]. cbn [ad_tables ad_rbac]. split.
  { eexists. split; [apply elem_of_app; right; by left|]. done. }
  intros user tenant. unfold ensure_platform_deny in Er.
  assert (forall f, List.filter (fun r => f r && on_resource "agent" fresh r) (rb_rules rb0) = []) as Hnone.
  { intros f. apply filter_none. intros x Hx. by rewrite Hfresh, andb_false_r. }
  rewrite (bind_run_Ok _ _ _ None rb0) in Er
    by (unfold find_platform, _find_platform_rule; by rewrite Hnone).
  destruct (create_cases rule_uuid4 now (new_rule "platform" None None true "agent" fresh "deny" None) rb0)
    as [[_ Hc]|[_ Hc]]; unfold mbind, py_bind in Er; rewrite Hc in Er; [|done].
  injection Er as <- <-. set (row := with_defaults rule_uuid4 now rb0 _).
  apply (check_access_platform _ _ _ _ _ row "deny"); [done| |].
  - intros x [Hx|Hx]%elem_of_app Hr; [by rewrite Hfresh in Hr|]. apply list_elem_of_singleton in Hx as ->. done.
  - simpl. rewrite List.filter_app, Hnone. simpl. unfold on_resource. simpl. by rewrite !bool_decide_true.
Qed.
End AgentRuns.


(** ** Tool releases *)
Section ReleaseRuns.
Import Releases.

(** A release can never be deleted: [delete_release_by_tool_id] refuses drafts
    and the current release, and for every other release it calls a repository
    method that does not exist. *)
Theorem release_never_deleted t tool n :
  exists e, delete_release_by_tool_id tool n t = (Err e, t) /\
    forall v, find_number tool n t = Some v -> v_status v <> DRAFT ->
      (forall c, find_container tool t = Some c -> c_current c <> Some (v_id v)) -> e = AttributeError.
Proof.
  unfold delete_release_by_tool_id, get_release_by_tool_id, version_by_number, container_by_id, get_state, mbind,
    py_bind, mret, py_ret, raise.
  destruct (find_number tool n t) as [v|] eqn:Ev; [|by eexists].
  apply find_number_Some in Ev as Hv. destruct Hv as (_ & <- & _).
  destruct (negb _) eqn:Es.
  - eexists. split; [done|]. intros w [= <-] Hd. unfold has_status in Es. by destruct (v_status v).
  - destruct (find_container (v_owner v) t) as [c|]; [|by eexists].
    case_bool_decide as Hc; eexists; (split; [done|]); [|done]. intros w [= <-] _ Hn. by destruct (Hn c eq_refl).
Qed.
End ReleaseRuns.

(** ** Concrete tables *)
Module Demo.
Ltac in_list H := repeat (apply elem_of_cons in H as [->|H]); try (by apply not_elem_of_nil in H).

Definition version {P} (id owner n : Z) (s : VersionStatus) (d : P) : Version P :=
  {| v_id := id; v_owner := owner; v_number := n; v_status := s; v_parent := None; v_data := d |}.

(** One container with a live version and a draft. *)
Definition tables {C P} (slug : string) (current : option Z) (c : C) (d : P) : Tables C P :=
  {| t_containers := [ {| c_id := 0; c_slug := slug; c_current := current; c_data := c |} ];
     t_versions := [version 1 0 1 LIVE d; version 2 0 2 DRAFT d]; t_next := 3 |}.

Lemma tables_are_ok {C P} strict single slug (c : C) (d : P) current :
  current = None \/ current = Some 1 -> tables_ok Z.of_nat strict single (tables slug current c d).
Proof.
  intros Hcur. split; simpl.
  - intros v Hv. in_list Hv; [exists 1%nat|exists 2%nat]; (split; [lia|done]).
  - intros x Hx. in_list Hx. exists 0%nat. split; [lia|done].
  - apply (bool_decide_unpack _). vm_compute. exact I.
  - apply (bool_decide_unpack _). vm_compute. exact I.
  - apply NoDup_singleton.
  - apply (bool_decide_unpack _). vm_compute. exact I.
  - intros v Hv. in_list Hv; (eexists; split; [by left|done]).
  - intros x p Hx Hp. in_list Hx. simpl in Hp. destruct Hcur as [->| ->]; [done|]. injection Hp as <-.
    exists (version 1 0 1 LIVE d). split; [by left|done].
  - intros _ v w Hv Hw. in_list Hv; in_list Hw; done.
Qed.

Definition info : Agents.AgentInfo :=
  {| Agents.ag_name := "Search"; Agents.ag_description := None; Agents.ag_tags := None;
     Agents.ag_logging_level := "brief"; Agents.ag_model := None; Agents.ag_temperature := None;
     Agents.ag_requires_confirmation_for_write := None; Agents.ag_risk_level := None;
     Agents.ag_allow_all_collections := false; Agents.ag_allowed_collection_ids := None;
     Agents.ag_provides_keys := None; Agents.ag_lifecycle_status := "active" |}.

Definition prompt : odict json := [("mission", JStr "Find documents."); ("rules", JStr "Cite.")]%string.
Definition agents (current : option Z) : Tables Agents.AgentInfo (odict json) :=
  tables "knowledge-base-search" current info prompt.

Definition numbers : Limits.Numbers :=
  {| Limits.max_steps := Some 5; Limits.max_tool_calls := Some 7; Limits.max_wall_time_ms := None;
     Limits.tool_timeout_ms := None; Limits.max_retries := None; Limits.max_tokens_total := None |}.
Definition limit_data : Limits.LimitData :=
  {| Limits.ld_numbers := numbers; Limits.ld_extra_config := []; Limits.ld_notes := None |}.
Definition limits : Limits.DB := tables "default" (Some 1) {| in_name := "Default"; in_description := None |} limit_data.

Definition hash (s : string) : string := "sha-" +:+ s.
Definition policy_data : Policies.PolicyData :=
  {| Policies.pd_policy_text := "Be brief."; Policies.pd_policy_json := None;
     Policies.pd_hash := "sha-Be brief."; Policies.pd_notes := None |}.
Definition policies : Policies.DB := tables "style" None {| in_name := "Style"; in_description := None |} policy_data.

Definition release_data : Releases.ReleaseData :=
  {| Releases.rd_backend := None; Releases.rd_expected_schema_hash := None |}.
Definition releases : Tables unit Releases.ReleaseData := tables "search" None tt release_data.

Definition rules : RbacDb :=
  {| rb_rules := []; rb_agents := []; rb_instances := []; rb_collections := []; rb_users := [7];
     rb_tenants := [8]; rb_clock := 0 |}.
End Demo.

#[local] Instance nat_uuid_inj : Inj eq eq Z.of_nat := Nat2Z.inj.


Lemma limit_versions_life_witness :
  let t := put_current 0 (Some 2) (put_status 2 LIVE (put_retired 0 Demo.limits)) in
  (forall v w, v ∈ t_versions t -> w ∈ t_versions t -> v_owner v = v_owner w ->
     v_status v = LIVE -> v_status w = LIVE -> v = w) /\
  (forall l id, l ∈ t_containers t -> c_current l = Some id ->
     exists v, v ∈ t_versions t /\ v_id v = id /\ v_owner v = c_id l) /\
  (forall v v', v ∈ t_versions Demo.limits -> v' ∈ t_versions t -> v_id v' = v_id v -> keeps v v').
Proof.
  apply (limit_versions_life Z.of_nat); [apply Demo.tables_are_ok; by right|]. apply rtc_once.
  exists (ActivateLimitVersion 2). vm_compute. reflexivity.
Defined.

Lemma release_versions_life_witness :
  let t := put_status 1 RETIRED Demo.releases in
  (forall a id, a ∈ t_containers t -> c_current a = Some id ->
     exists v, v ∈ t_versions t /\ v_id v = id /\ v_owner v = c_id a /\ v_status v = LIVE) /\
  (forall v v', v ∈ t_versions Demo.releases -> v' ∈ t_versions t -> v_id v' = v_id v -> keeps v v').
Proof.
  apply (release_versions_life Z.of_nat []); [apply Demo.tables_are_ok; by left|]. apply rtc_once.
  exists (ArchiveRelease 0 1). vm_compute. reflexivity.
Defined.

Lemma policy_hash_invariant_witness :
  hash_ok Demo.hash (policy_exec Z.of_nat Demo.hash (UpdatePolicyVersion 2 (Some "Be kind."%string) None None) Demo.policies).
Proof.
  apply (policy_hash_invariant Z.of_nat Demo.hash Demo.policies).
  - intros v Hv. Demo.in_list Hv; vm_compute; reflexivity.
  - apply rtc_once. by eexists.
Defined.

Lemma deactivated_limits_stay_in_force_witness :
  exists v' t', Limits.deactivate_version 1 Demo.limits = (Ok v', t') /\ v_status v' = RETIRED /\
    Limits.get_effective_limits (Some 0) t' = (Ok (Limits.limits_dict Demo.limit_data), t').
Proof.
  apply (deactivated_limits_stay_in_force Demo.limits (Demo.version 1 0 1 LIVE Demo.limit_data)
    {| c_id := 0; c_slug := "default"; c_current := Some 1; c_data := {| in_name := "Default"; in_description := None |} |});
    vm_compute; reflexivity.
Defined.

Lemma resolve_published_spec_witness :
  let '(r, t') := Agents.resolve_published_version (Some "rag-search"%string) (Demo.agents (Some 1)) in
  t' = Demo.agents (Some 1) /\ r = Ok (Demo.version 1 0 1 LIVE Demo.prompt).
Proof.
  pose proof (resolve_published_spec Z.of_nat (Demo.agents (Some 1)) "rag-search"
    ltac:(apply Demo.tables_are_ok; by right)) as H. split; [exact (proj1 H)|vm_compute; reflexivity].
Defined.

Lemma second_publication_unresolvable_witness :
  exists t', Agents.publish_version 2 (Demo.agents None) = (Ok (set_v_status LIVE (Demo.version 2 0 2 DRAFT Demo.prompt)), t') /\
    Demo.version 1 0 1 LIVE Demo.prompt ∈ t_versions t' /\
    Agents.resolve_published_version (Some "rag-search"%string) t' = (Err MultipleResultsFound, t').
Proof.
  apply (second_publication_unresolvable Z.of_nat (Demo.agents None) "rag-search"
    {| c_id := 0; c_slug := "knowledge-base-search"; c_current := None; c_data := Demo.info |}
    (Demo.version 1 0 1 LIVE Demo.prompt) (Demo.version 2 0 2 DRAFT Demo.prompt)); try reflexivity.
  - apply Demo.tables_are_ok. by left.
  - by left.
  - right. by left.
Defined.

Lemma agent_version_created_witness :
  exists v, Agents.create_version_by_agent_id Z.of_nat 0 [("rules", JStr "Quote.")]%string (Some 1) (Demo.agents None)
              = (Ok v, put_version v (Demo.agents None)) /\
    v_number v = 3 /\ od_get "mission"%string (v_data v) = Some (JStr "Find documents.").
Proof.
  destruct (agent_version_created Z.of_nat (Demo.agents None)
    {| c_id := 0; c_slug := "knowledge-base-search"; c_current := None; c_data := Demo.info |}
    [("rules", JStr "Quote.")]%string (Some 1) ltac:(apply Demo.tables_are_ok; by left) eq_refl eq_refl)
    as (v & Hc & _ & _ & _ & _ & Hf).
  exists v. split; [exact Hc|]. split; [vm_compute in Hc; by injection Hc as <-|].
  rewrite Hf by (apply (bool_decide_unpack _); vm_compute; exact I). reflexivity.
Defined.

Lemma create_agent_denied_witness :
  exists id db', Agents.create_agent Z.of_nat Z.of_nat Z.of_nat "planner" Demo.info
    {| Agents.ad_tables := Demo.agents None; Agents.ad_rbac := Demo.rules |} = (Ok id, db') /\
    check_access 7 8 "agent" id (Agents.ad_rbac db') = Ok "deny"%string.
Proof.
  do 2 eexists. split; [vm_compute; reflexivity|].
  refine (proj2 (create_agent_denied Z.of_nat Z.of_nat Z.of_nat "planner" Demo.info
    {| Agents.ad_tables := Demo.agents None; Agents.ad_rbac := Demo.rules |} 3 _ _ _) 7 8).
  - intros r Hr. by apply not_elem_of_nil in Hr.
  - vm_compute. reflexivity.
Defined.

Lemma release_never_deleted_witness :
  exists e, Releases.delete_release_by_tool_id 0 1 Demo.releases = (Err e, Demo.releases) /\ e = AttributeError.
Proof.
  destruct (release_never_deleted Demo.releases 0 1) as (e & He & H). exists e. split; [exact He|].
  apply (H (Demo.version 1 0 1 LIVE Demo.release_data)); [reflexivity|discriminate|].
  intros c [= <-]. discriminate.
Defined.
