(* ===== verification/Entities.v ===== *)
(** * Owned entities and their deletion

    The tables that models/mixins/lifecycle.py gives a life cycle, with the
    services that delete their rows: services/rbac_cleanup_service.py,
    services/chats_service.py, services/sandbox_service.py (delete_session),
    services/collection/lifecycle_service.py and services/agent_service.py
    (deletion), and services/tenant_migration_service.py.

    A table is a finite map from identifiers to rows: the queries modelled here
    give no ORDER BY.  The rows that the database deletes along with a row
    (ON DELETE CASCADE, SET NULL) are those of the tables below. *)
From S2P Require Import Prelude.
From stdpp Require Import pretty.
Open Scope Z_scope.

(** ** Rows *)
Inductive LifecycleKind : Type :=
| K_tenant | K_user | K_collection | K_agent | K_rbac_rule | K_chat | K_sandbox_session.

#[export] Instance LifecycleKind_eq_dec : EqDecision LifecycleKind.
Proof. solve_decision. Defined.

Definition all_kinds : list LifecycleKind :=
  [K_tenant; K_user; K_collection; K_agent; K_rbac_rule; K_chat; K_sandbox_session].

Definition kind_str (k : LifecycleKind) : string :=
  match k with
  | K_tenant => "tenant"
  | K_user => "user"
  | K_collection => "collection"
  | K_agent => "agent"
  | K_rbac_rule => "rbac_rule"
  | K_chat => "chat"
  | K_sandbox_session => "sandbox_session"
  end.

#[export] Instance LifecycleKind_countable : Countable LifecycleKind.
Proof.
  refine (inj_countable' (fun k => match k with
    | K_tenant => 0 | K_user => 1 | K_collection => 2 | K_agent => 3 | K_rbac_rule => 4 | K_chat => 5
    | K_sandbox_session => 6 end)%nat
    (fun n => match n with
    | 0 => K_tenant | 1 => K_user | 2 => K_collection | 3 => K_agent | 4 => K_rbac_rule | 5 => K_chat
    | _ => K_sandbox_session end)%nat _).
  by intros [].
Defined.

(** The columns of LifecycleMixin, and is_active where the model has it. *)
Record Meta := {
  lifecycle_status : string;
  deprecated_at : option Z;
  deprecated_by : option Z;
  deprecated_reason : option string;
  retention_days : Z;
  delete_cascade : bool;
  deprecated_root_kind : option LifecycleKind;
  deprecated_root_id : option Z;
  is_active : option bool
}.

Record Row (D : Type) := { cols : D; meta : Meta }.
Arguments cols {D} _.
Arguments meta {D} _.
Abbreviation Table D := (gmap Z (Row D)).

Record Tenant := { t_name : string; is_platform_default : bool }.
Record User := { u_login : string; u_role : string }.
Record Collection := { co_name : string; co_slug : string; co_tenant_id : Z; co_table_name : option string }.
Record Agent := { ag_slug : string; ag_name : string; allowed_collection_ids : option (list Z) }.
Record RbacRule := { owner_user_id : option Z; owner_tenant_id : option Z; resource_type : string; resource_id : Z }.
Record Chat := { ch_owner_id : Z; ch_name : option string }.
Record SandboxSession := { ss_owner_id : Z; ss_tenant_id : Z; ss_name : string }.
Record UserTenant := { ut_user_id : Z; ut_tenant_id : Z; ut_is_default : bool }.

(** The other models with a column for their tenant. *)
Inductive OwnedModel : Type := RAGDocument | Source | DocumentCollectionMembership | Credential | Fact.

#[export] Instance OwnedModel_eq_dec : EqDecision OwnedModel.
Proof. solve_decision. Defined.

#[export] Instance OwnedModel_countable : Countable OwnedModel.
Proof.
  refine (inj_countable' (fun k => match k with
    | RAGDocument => 0 | Source => 1 | DocumentCollectionMembership => 2 | Credential => 3 | Fact => 4 end)%nat
    (fun n => match n with
    | 0 => RAGDocument | 1 => Source | 2 => DocumentCollectionMembership | 3 => Credential | _ => Fact end)%nat _).
  by intros [].
Defined.

Record DB := {
  tenants : Table Tenant;
  users : Table User;
  collections : Table Collection;
  agents : Table Agent;
  rbac_rules : Table RbacRule;
  chats : Table Chat;
  sandbox_sessions : Table SandboxSession;
  user_tenants : gmap Z UserTenant;
  owned : gmap (OwnedModel * Z) (option Z);   (** row of a model, its tenant *)
  physical_tables : gset string               (** the tables of the rows of collections *)
}.

(** The transaction's view of the database, and the number of clock readings. *)
Record World := { db : DB; readings : nat }.

Inductive Error : Type :=
| ValueError (message : string)
| NotFoundError (what : string)          (** AgentNotFoundError, RbacRuleNotFoundError *)
| IntegrityError
| DBAPIError
| MultipleResultsFound
| OutOfFuel.                              (** the loop below: no exception of the code *)

Abbreviation call A := (py Error World A).

(** ** Updates of one table *)
Section Setters.
Variable d : DB.

Definition with_tenants (f : Table Tenant -> Table Tenant) : DB :=
  {| tenants := f (tenants d); users := users d; collections := collections d; agents := agents d;
     rbac_rules := rbac_rules d; chats := chats d; sandbox_sessions := sandbox_sessions d;
     user_tenants := user_tenants d; owned := owned d; physical_tables := physical_tables d |}.
Definition with_users (f : Table User -> Table User) : DB :=
  {| tenants := tenants d; users := f (users d); collections := collections d; agents := agents d;
     rbac_rules := rbac_rules d; chats := chats d; sandbox_sessions := sandbox_sessions d;
     user_tenants := user_tenants d; owned := owned d; physical_tables := physical_tables d |}.
Definition with_collections (f : Table Collection -> Table Collection) : DB :=
  {| tenants := tenants d; users := users d; collections := f (collections d); agents := agents d;
     rbac_rules := rbac_rules d; chats := chats d; sandbox_sessions := sandbox_sessions d;
     user_tenants := user_tenants d; owned := owned d; physical_tables := physical_tables d |}.
Definition with_agents (f : Table Agent -> Table Agent) : DB :=
  {| tenants := tenants d; users := users d; collections := collections d; agents := f (agents d);
     rbac_rules := rbac_rules d; chats := chats d; sandbox_sessions := sandbox_sessions d;
     user_tenants := user_tenants d; owned := owned d; physical_tables := physical_tables d |}.
Definition with_rules (f : Table RbacRule -> Table RbacRule) : DB :=
  {| tenants := tenants d; users := users d; collections := collections d; agents := agents d;
     rbac_rules := f (rbac_rules d); chats := chats d; sandbox_sessions := sandbox_sessions d;
     user_tenants := user_tenants d; owned := owned d; physical_tables := physical_tables d |}.
Definition with_chats (f : Table Chat -> Table Chat) : DB :=
  {| tenants := tenants d; users := users d; collections := collections d; agents := agents d;
     rbac_rules := rbac_rules d; chats := f (chats d); sandbox_sessions := sandbox_sessions d;
     user_tenants := user_tenants d; owned := owned d; physical_tables := physical_tables d |}.
Definition with_sandboxes (f : Table SandboxSession -> Table SandboxSession) : DB :=
  {| tenants := tenants d; users := users d; collections := collections d; agents := agents d;
     rbac_rules := rbac_rules d; chats := chats d; sandbox_sessions := f (sandbox_sessions d);
     user_tenants := user_tenants d; owned := owned d; physical_tables := physical_tables d |}.
Definition with_bindings (f : gmap Z UserTenant -> gmap Z UserTenant) : DB :=
  {| tenants := tenants d; users := users d; collections := collections d; agents := agents d;
     rbac_rules := rbac_rules d; chats := chats d; sandbox_sessions := sandbox_sessions d;
     user_tenants := f (user_tenants d); owned := owned d; physical_tables := physical_tables d |}.
Definition with_owned (f : gmap (OwnedModel * Z) (option Z) -> gmap (OwnedModel * Z) (option Z)) : DB :=
  {| tenants := tenants d; users := users d; collections := collections d; agents := agents d;
     rbac_rules := rbac_rules d; chats := chats d; sandbox_sessions := sandbox_sessions d;
     user_tenants := user_tenants d; owned := f (owned d); physical_tables := physical_tables d |}.
Definition with_physical (f : gset string -> gset string) : DB :=
  {| tenants := tenants d; users := users d; collections := collections d; agents := agents d;
     rbac_rules := rbac_rules d; chats := chats d; sandbox_sessions := sandbox_sessions d;
     user_tenants := user_tenants d; owned := owned d; physical_tables := f (physical_tables d) |}.
End Setters.

Definition row_meta {D} (f : Meta -> Meta) (r : Row D) : Row D := {| cols := cols r; meta := f (meta r) |}.

(** [session.get(model, id)], as far as the life cycle goes *)
Definition entity (k : LifecycleKind) (i : Z) (d : DB) : option Meta :=
  match k with
  | K_tenant => meta <$> tenants d !! i
  | K_user => meta <$> users d !! i
  | K_collection => meta <$> collections d !! i
  | K_agent => meta <$> agents d !! i
  | K_rbac_rule => meta <$> rbac_rules d !! i
  | K_chat => meta <$> chats d !! i
  | K_sandbox_session => meta <$> sandbox_sessions d !! i
  end.

(** Assignments to the attributes of an entity *)
Definition alter_meta (f : Meta -> Meta) (k : LifecycleKind) (i : Z) (d : DB) : DB :=
  match k with
  | K_tenant => with_tenants d (alter (row_meta f) i)
  | K_user => with_users d (alter (row_meta f) i)
  | K_collection => with_collections d (alter (row_meta f) i)
  | K_agent => with_agents d (alter (row_meta f) i)
  | K_rbac_rule => with_rules d (alter (row_meta f) i)
  | K_chat => with_chats d (alter (row_meta f) i)
  | K_sandbox_session => with_sandboxes d (alter (row_meta f) i)
  end.

Definition map_meta (f : Meta -> Meta) (d : DB) : DB :=
  {| tenants := row_meta f <$> tenants d; users := row_meta f <$> users d;
     collections := row_meta f <$> collections d; agents := row_meta f <$> agents d;
     rbac_rules := row_meta f <$> rbac_rules d; chats := row_meta f <$> chats d;
     sandbox_sessions := row_meta f <$> sandbox_sessions d;
     user_tenants := user_tenants d; owned := owned d; physical_tables := physical_tables d |}.

Definition entity_ids (k : LifecycleKind) (d : DB) : list Z :=
  match k with
  | K_tenant => (map_to_list (tenants d)).*1
  | K_user => (map_to_list (users d)).*1
  | K_collection => (map_to_list (collections d)).*1
  | K_agent => (map_to_list (agents d)).*1
  | K_rbac_rule => (map_to_list (rbac_rules d)).*1
  | K_chat => (map_to_list (chats d)).*1
  | K_sandbox_session => (map_to_list (sandbox_sessions d)).*1
  end.

Definition read {A} (f : DB -> A) : call A := fun w => (Ok (f (db w)), w).
Definition write (f : DB -> DB) : call unit := modify (fun w => {| db := f (db w); readings := readings w |}).
Definition now (clock : nat -> Z) : call Z :=
  fun w => (Ok (clock (readings w)), {| db := db w; readings := S (readings w) |}).

(** [select(model.id).where(p)] *)
Definition select_ids {D} (p : Z -> D -> bool) (m : gmap Z D) : list Z :=
  (List.filter (fun x => p x.1 x.2) (map_to_list m)).*1.

(** ** Deletion of a row, with what the foreign keys do *)
Definition forget_deprecator (u : Z) (m : Meta) : Meta :=
  {| lifecycle_status := lifecycle_status m; deprecated_at := deprecated_at m;
     deprecated_by := if bool_decide (deprecated_by m = Some u) then None else deprecated_by m;
     deprecated_reason := deprecated_reason m; retention_days := retention_days m;
     delete_cascade := delete_cascade m; deprecated_root_kind := deprecated_root_kind m;
     deprecated_root_id := deprecated_root_id m; is_active := is_active m |}.

Definition delete_user_row (u : Z) (d : DB) : DB :=
  let d := with_users d (delete u) in
  let d := with_bindings d (filter (fun x => ut_user_id x.2 ≠ u)) in
  let d := with_rules d (filter (fun x => owner_user_id (cols x.2) ≠ Some u)) in
  let d := with_chats d (filter (fun x => ch_owner_id (cols x.2) ≠ u)) in
  let d := with_sandboxes d (filter (fun x => ss_owner_id (cols x.2) ≠ u)) in
  map_meta (forget_deprecator u) d.

Definition cascade_tenant (t : Z) (d : DB) : DB :=
  let d := with_tenants d (delete t) in
  let d := with_bindings d (filter (fun x => ut_tenant_id x.2 ≠ t)) in
  let d := with_rules d (filter (fun x => owner_tenant_id (cols x.2) ≠ Some t)) in
  let d := with_sandboxes d (filter (fun x => ss_tenant_id (cols x.2) ≠ t)) in
  with_owned d (filter (fun x => x.2 ≠ Some t)).

(** collections.tenant_id references its tenant without ON DELETE. *)
Definition collections_of (t : Z) (d : DB) : list Z :=
  select_ids (fun _ r => Z.eqb (co_tenant_id (cols r)) t) (collections d).

Definition delete_tenant_row (t : Z) : call unit :=
  left ← read (collections_of t);
  match left with
  | [] => write (cascade_tenant t)
  | _ => raise IntegrityError
  end.

Definition delete_collection_row (c : Z) : call unit := write (fun d => with_collections d (delete c)).
Definition delete_agent_row (a : Z) : call unit := write (fun d => with_agents d (delete a)).
Definition delete_rule_row (r : Z) : call unit := write (fun d => with_rules d (delete r)).
Definition delete_chat_row (c : Z) : call unit := write (fun d => with_chats d (delete c)).
Definition delete_sandbox_row (s : Z) : call unit := write (fun d => with_sandboxes d (delete s)).

(** ** RbacCleanupService *)
(** [DELETE FROM rbac_rules WHERE p], with the row count *)
Definition delete_rules (p : RbacRule -> bool) : call Z :=
  rules ← read rbac_rules;
  _ ← write (fun d => with_rules d (filter (fun x => p (cols x.2) = false)));
  mret (Z.of_nat (length (select_ids (fun _ r => p (cols r)) rules))).

Definition owner_clause (owner : option Z) (column : option Z) : bool :=
  match owner with Some o => bool_decide (column = Some o) | None => true end.

Definition remove_rules_for_owner (owner_user owner_tenant : option Z) : call Z :=
  match owner_user, owner_tenant with
  | None, None => mret 0
  | _, _ => delete_rules (fun r => owner_clause owner_user (owner_user_id r) &&
                                   owner_clause owner_tenant (owner_tenant_id r))
  end.

Definition remove_rules_for_resource (type : string) (id : Z) : call Z :=
  delete_rules (fun r => String.eqb (resource_type r) type && Z.eqb (resource_id r) id).

(** ** ChatsService and SandboxService *)
Section Services.
Variable uuid_str : Z -> string.

Definition SANDBOX_UPLOAD_CHAT_PREFIX : string := "__sandbox_uploads__:".
Definition make_sandbox_upload_chat_name (session_id : Z) : string :=
  SANDBOX_UPLOAD_CHAT_PREFIX +:+ uuid_str session_id.
Definition is_sandbox_upload_chat (c : Chat) : bool :=
  match ch_name c with
  | Some s => String.prefix SANDBOX_UPLOAD_CHAT_PREFIX s
  | None => false
  end.

(** [delete_chat], less the files of its attachments, which are in object storage *)
Definition delete_chat (chat_id owner_id : Z) (allow_internal : bool) : call bool :=
  chat ← read (fun d => chats d !! chat_id);
  match chat with
  | None => mret false
  | Some c =>
      if negb (Z.eqb (ch_owner_id (cols c)) owner_id) then mret false
      else if is_sandbox_upload_chat (cols c) && negb allow_internal then mret false
      else _ ← delete_chat_row chat_id; mret true
  end.

Definition hidden_chats (owner_id session_id : Z) (d : DB) : list Z :=
  select_ids (fun _ r => Z.eqb (ch_owner_id (cols r)) owner_id &&
                         bool_decide (ch_name (cols r) = Some (make_sandbox_upload_chat_name session_id)))
             (chats d).

Definition delete_session (session_id : Z) : call bool :=
  obj ← read (fun d => sandbox_sessions d !! session_id);
  match obj with
  | None => mret false
  | Some s =>
      let owner := ss_owner_id (cols s) in
      hidden ← read (hidden_chats owner session_id);
      _ ← match hidden with
          | [] => mret false
          | [chat] => delete_chat chat owner true
          | _ => raise MultipleResultsFound
          end;
      _ ← delete_sandbox_row session_id;
      mret true
  end.

(** ** Collections and agents *)
(** [CollectionQueryService.get_by_slug]: the slug is unique *)
Definition visible_collection (slug : string) (r : Row Collection) : bool :=
  String.eqb (co_slug (cols r)) slug && bool_decide (is_active (meta r) = Some true) &&
  negb (String.eqb (lifecycle_status (meta r)) "deprecated").

Definition get_by_slug (slug : string) : call (option Z) :=
  found ← read (fun d => select_ids (fun _ => visible_collection slug) (collections d));
  match found with
  | [] => mret None
  | [c] => mret (Some c)
  | _ => raise MultipleResultsFound
  end.

Definition without_collection (c : Z) (a : Agent) : Agent :=
  {| ag_slug := ag_slug a; ag_name := ag_name a;
     allowed_collection_ids := List.filter (fun i => negb (Z.eqb i c)) <$> allowed_collection_ids a |}.

Definition _remove_collection_from_agent_bindings (c : Z) : call unit :=
  write (fun d => with_agents d (fmap (fun r => {| cols := without_collection c (cols r); meta := meta r |}))).

(** [CollectionLifecycleService.delete_collection], less the vectors in Qdrant *)
Definition delete_collection (slug : string) (drop_table : bool) : call bool :=
  found ← get_by_slug slug;
  match found with
  | None => mret false
  | Some c =>
      row ← read (fun d => collections d !! c);
      _ ← remove_rules_for_resource "instance" c;
      _ ← _remove_collection_from_agent_bindings c;
      _ ← delete_collection_row c;
      _ ← match row ≫= fun r => co_table_name (cols r) with
          | Some name => if drop_table && negb (String.eqb name "")
                         then write (fun d => with_physical d (fun s => s ∖ {[name]}))
                         else mret tt
          | None => mret tt
          end;
      mret true
  end.

(** [AgentService.get_agent] and [delete_agent] *)
Definition delete_agent (a : Z) : call unit :=
  agent ← read (fun d => agents d !! a);
  match agent with
  | None => raise (NotFoundError "Agent")
  | Some r =>
      if String.eqb (lifecycle_status (meta r)) "deprecated" then raise (NotFoundError "Agent")
      else _ ← remove_rules_for_resource "agent" a; delete_agent_row a
  end.

(** [RbacService.delete_rule] *)
Definition delete_rule (r : Z) : call unit :=
  rule ← read (fun d => rbac_rules d !! r);
  match rule with
  | None => raise (NotFoundError "RbacRule")
  | Some _ => delete_rule_row r
  end.

(** ** TenantMigrationService *)
Definition bindings_of (t : Z) (d : DB) : list Z := select_ids (fun _ b => Z.eqb (ut_tenant_id b) t) (user_tenants d).

Definition move_binding (to : Z) (b : UserTenant) : UserTenant :=
  {| ut_user_id := ut_user_id b; ut_tenant_id := to; ut_is_default := ut_is_default b |}.

Definition _migrate_user_tenant (to : Z) (moved id : Z) : call Z :=
  row ← read (fun d => user_tenants d !! id);
  match row with
  | None => mret moved
  | Some b =>
      existing ← read (fun d => select_ids (fun _ x => Z.eqb (ut_user_id x) (ut_user_id b) &&
                                                       Z.eqb (ut_tenant_id x) to) (user_tenants d));
      match existing with
      | [] => _ ← write (fun d => with_bindings d (alter (move_binding to) id)); mret (moved + 1)
      | [_] => _ ← write (fun d => with_bindings d (delete id)); mret moved
      | _ => raise MultipleResultsFound
      end
  end.

(** [for row in rows: body], a loop with an accumulator *)
Fixpoint fold_rows {A B} (f : A -> B -> call A) (acc : A) (l : list B) : call A :=
  match l with
  | [] => mret acc
  | x :: l' => acc ← f acc x; fold_rows f acc l'
  end.

Definition _migrate_user_tenants (from to : Z) : call Z :=
  rows ← read (bindings_of from);
  fold_rows (_migrate_user_tenant to) 0 rows.

Definition dash : Ascii.ascii := Ascii.ascii_of_nat 45.

Fixpoint strip_dashes (s : string) : string :=
  match s with
  | EmptyString => EmptyString
  | String c s' => if Ascii.eqb c dash then strip_dashes s' else String c (strip_dashes s')
  end.

Definition conflicts (to : Z) (slug : string) (id : Z) (d : DB) : list Z :=
  select_ids (fun i r => Z.eqb (co_tenant_id (cols r)) to && String.eqb (co_slug (cols r)) slug &&
                         negb (Z.eqb i id)) (collections d).

Definition suffixed (short slug : string) (suffix : N) : string :=
  str_take 100 ("t_" +:+ short +:+ "__" +:+ slug +:+ "_" +:+ pretty suffix).

(** [while True], at most [fuel] times *)
Fixpoint free_slug (fuel : nat) (to : Z) (short original : string) (id : Z) (suffix : N) (target : string)
    : call string :=
  match fuel with
  | O => raise OutOfFuel
  | S fuel =>
      found ← read (conflicts to target id);
      match found with
      | [] => mret target
      | [_] => let suffix := (suffix + 1)%N in
               free_slug fuel to short original id suffix (suffixed short original suffix)
      | _ => raise MultipleResultsFound
      end
  end.

Definition move_collection (to : Z) (slug : string) (r : Row Collection) : Row Collection :=
  {| cols := {| co_name := co_name (cols r); co_slug := slug; co_tenant_id := to;
                co_table_name := co_table_name (cols r) |};
     meta := meta r |}.

Definition _migrate_collection (from to : Z) (acc : Z * list (string * string)) (id : Z)
    : call (Z * list (string * string)) :=
  row ← read (fun d => collections d !! id);
  match row with
  | None => mret acc
  | Some r =>
      let original := co_slug (cols r) in
      fuel ← read (fun d => S (size (collections d)));
      target ← free_slug fuel to (str_take 8 (strip_dashes (uuid_str from))) original id 1%N original;
      _ ← write (fun d => with_collections d (alter (move_collection to target) id));
      mret (acc.1 + 1, if String.eqb target original then acc.2 else acc.2 ++ [(original, target)])
  end.

Definition _migrate_collections (from to : Z) : call (Z * list (string * string)) :=
  rows ← read (collections_of from);
  fold_rows (_migrate_collection from to) (0, []) rows.

Definition reassigned (model : OwnedModel) (from to : Z) (d : DB) : list (OwnedModel * Z) :=
  (List.filter (fun x => bool_decide (x.1.1 = model) && bool_decide (x.2 = Some from)) (map_to_list (owned d))).*1.

Definition _bulk_reassign (model : OwnedModel) (from to : Z) : call Z :=
  rows ← read (reassigned model from to);
  _ ← write (fun d => with_owned d (fun m => foldl (fun m k => <[k := Some to]> m) m rows));
  mret (Z.of_nat (length rows)).

Record MigrationReport := { mr_migrated : odict Z; renamed_collections : list (string * string) }.

Definition migrate_tenant_data (from to : Z) : call MigrationReport :=
  if Z.eqb from to then mret {| mr_migrated := []; renamed_collections := [] |}
  else
    user_tenants ← _migrate_user_tenants from to;
    moved ← _migrate_collections from to;
    ragdocuments ← _bulk_reassign RAGDocument from to;
    sources ← _bulk_reassign Source from to;
    memberships ← _bulk_reassign DocumentCollectionMembership from to;
    credentials ← _bulk_reassign Credential from to;
    facts ← _bulk_reassign Fact from to;
    mret {| mr_migrated := [("user_tenants", user_tenants); ("collections", moved.1);
                            ("ragdocuments", ragdocuments); ("sources", sources);
                            ("document_collection_memberships", memberships);
                            ("credentials", credentials); ("tenant_facts", facts)]%string;
            renamed_collections := moved.2 |}.
End Services.
