(* ===== verification/EntitiesProofs.v ===== *)
(** * Lemmas on the tables of owned entities

    What the accessors of [Entities] do to each other, extensionality of
    databases, and what each deleting service leaves alone. *)
From S2P Require Import Prelude Entities.
Open Scope Z_scope.

Abbreviation key := (LifecycleKind * Z)%type.

(** ** Accessors *)
Lemma entity_alter f k i k' i' d :
  entity k' i' (alter_meta f k i d) =
  if decide ((k', i') = (k, i)) then f <$> entity k' i' d else entity k' i' d.
Proof.
  destruct (decide ((k', i') = (k, i))) as [[= -> ->]|Hne].
  - destruct k; simpl; rewrite lookup_alter_eq; by destruct (_ !! i).
  - destruct k, k'; simpl; try done; rewrite lookup_alter_ne by congruence; done.
Qed.

Lemma entity_alter_eq f k i d : entity k i (alter_meta f k i d) = f <$> entity k i d.
Proof. rewrite entity_alter. by rewrite decide_True. Qed.

Lemma entity_alter_ne f k i k' i' d : (k', i') ≠ (k, i) -> entity k' i' (alter_meta f k i d) = entity k' i' d.
Proof. intros H. rewrite entity_alter. by rewrite decide_False. Qed.

Lemma entity_map_meta f k i d : entity k i (map_meta f d) = f <$> entity k i d.
Proof. destruct k; simpl; rewrite lookup_fmap; by destruct (_ !! i). Qed.

Lemma entity_ids_spec k i d : i ∈ entity_ids k d <-> exists m, entity k i d = Some m.
Proof.
  assert (forall D (t : Table D), i ∈ (map_to_list t).*1 <-> exists m, meta <$> t !! i = Some m) as H.
  { intros D t. rewrite list_elem_of_fmap. split.
    - intros ([j r] & -> & Hr%elem_of_map_to_list). exists (meta r). simpl. by rewrite Hr.
    - intros (m & Hm). destruct (t !! i) as [r|] eqn:Hr; [|done]. exists (i, r). split; [done|].
      by apply elem_of_map_to_list. }
  destruct k; apply H.
Qed.

Lemma select_ids_spec {D} (p : Z -> D -> bool) (m : gmap Z D) i :
  i ∈ select_ids p m <-> exists r, m !! i = Some r /\ p i r = true.
Proof.
  unfold select_ids. rewrite list_elem_of_fmap. split.
  - intros ([j r] & -> & [Hr Hp]%elem_of_List_filter). exists r. by rewrite <- elem_of_map_to_list.
  - intros (r & Hr & Hp). exists (i, r). split; [done|]. apply elem_of_List_filter.
    by rewrite elem_of_map_to_list.
Qed.

Lemma select_ids_NoDup {D} (p : Z -> D -> bool) (m : gmap Z D) : NoDup (select_ids p m).
Proof. unfold select_ids. apply NoDup_map_filter, NoDup_fst_map_to_list. Qed.

Lemma select_ids_nil {D} (p : Z -> D -> bool) (m : gmap Z D) :
  select_ids p m = [] <-> forall i r, m !! i = Some r -> p i r = false.
Proof.
  split.
  - intros H i r Hr. destruct (p i r) eqn:Hp; [|done]. assert (i ∈ select_ids p m) as Hi.
    { apply select_ids_spec. eauto. } rewrite H in Hi. by apply not_elem_of_nil in Hi.
  - intros H. destruct (select_ids p m) as [|i l] eqn:E; [done|]. assert (i ∈ select_ids p m) as Hi.
    { rewrite E. by left. } apply select_ids_spec in Hi as (r & Hr & Hp). by rewrite (H i r Hr) in Hp.
Qed.

(** ** The columns outside the life cycle *)
Record Columns := {
  c_tenants : gmap Z Tenant;
  c_users : gmap Z User;
  c_collections : gmap Z Collection;
  c_agents : gmap Z Agent;
  c_rules : gmap Z RbacRule;
  c_chats : gmap Z Chat;
  c_sandboxes : gmap Z SandboxSession;
  c_bindings : gmap Z UserTenant;
  c_owned : gmap (OwnedModel * Z) (option Z);
  c_physical : gset string
}.

Definition columns (d : DB) : Columns :=
  {| c_tenants := cols <$> tenants d; c_users := cols <$> users d; c_collections := cols <$> collections d;
     c_agents := cols <$> agents d; c_rules := cols <$> rbac_rules d; c_chats := cols <$> chats d;
     c_sandboxes := cols <$> sandbox_sessions d; c_bindings := user_tenants d; c_owned := owned d;
     c_physical := physical_tables d |}.

Lemma cols_alter {D} f i (t : Table D) : cols <$> alter (row_meta f) i t = cols <$> t.
Proof.
  apply map_eq. intros j. rewrite !lookup_fmap. destruct (decide (i = j)) as [<-|Hne].
  - rewrite lookup_alter_eq. by destruct (t !! i).
  - by rewrite lookup_alter_ne.
Qed.

Lemma columns_alter f k i d : columns (alter_meta f k i d) = columns d.
Proof. destruct k; unfold columns; simpl; by rewrite cols_alter. Qed.

(** A database is its columns and its life cycles. *)
Lemma row_ext {D} (t t' : Table D) :
  cols <$> t = cols <$> t' -> (forall i, meta <$> t !! i = meta <$> t' !! i) -> t = t'.
Proof.
  intros Hc Hm. apply map_eq. intros i. specialize (Hm i).
  assert (cols <$> t !! i = cols <$> t' !! i) as H by (rewrite <- !lookup_fmap; by rewrite Hc).
  destruct (t !! i) as [[c m]|], (t' !! i) as [[c' m']|]; simpl in *; congruence.
Qed.

Lemma db_ext d d' : columns d = columns d' -> (forall k i, entity k i d = entity k i d') -> d = d'.
Proof.
  intros Hc He. unfold columns in Hc. injection Hc. intros.
  assert (tenants d = tenants d') by (apply row_ext; [done|]; intros i; apply (He K_tenant i)).
  assert (users d = users d') by (apply row_ext; [done|]; intros i; apply (He K_user i)).
  assert (collections d = collections d') by (apply row_ext; [done|]; intros i; apply (He K_collection i)).
  assert (agents d = agents d') by (apply row_ext; [done|]; intros i; apply (He K_agent i)).
  assert (rbac_rules d = rbac_rules d') by (apply row_ext; [done|]; intros i; apply (He K_rbac_rule i)).
  assert (chats d = chats d') by (apply row_ext; [done|]; intros i; apply (He K_chat i)).
  assert (sandbox_sessions d = sandbox_sessions d')
    by (apply row_ext; [done|]; intros i; apply (He K_sandbox_session i)).
  destruct d, d'; simpl in *; congruence.
Qed.

(** ** Loops *)
Lemma fold_rows_app {A B} (f : A -> B -> call A) acc l1 l2 w acc1 w1 :
  fold_rows f acc l1 w = (Ok acc1, w1) -> fold_rows f acc (l1 ++ l2) w = fold_rows f acc1 l2 w1.
Proof.
  revert acc w. induction l1 as [|x l1 IH]; intros acc w; simpl; unfold mret, py_ret; [by intros [= -> ->]|].
  unfold mbind, py_bind. destruct (f acc x w) as [[a|e] w']; [apply IH|done].
Qed.

(** A loop keeps what its body keeps. *)
Lemma preserves_fold_rows {A B} (R : relation World) `{!PreOrder R} (f : A -> B -> call A) l acc :
  (forall a x, preserves R (f a x)) -> preserves R (fold_rows f acc l).
Proof.
  intros Hf. revert acc. induction l as [|x l IH]; intros acc; simpl; [by apply preserves_keep|].
  by apply preserves_bind.
Qed.

(** A loop whose body always returns, with an invariant on the elements done. *)
Lemma fold_rows_total {A B} (f : A -> B -> call A) (I : list B -> A -> World -> Prop) l acc w :
  I [] acc w ->
  (forall done x rest a w1, l = done ++ x :: rest -> I done a w1 ->
     exists a' w2, f a x w1 = (Ok a', w2) /\ I (done ++ [x]) a' w2) ->
  exists a' w', fold_rows f acc l w = (Ok a', w') /\ I l a' w'.
Proof.
  intros H0 Hstep.
  enough (forall rest done a w1, l = done ++ rest -> I done a w1 ->
    exists a' w', fold_rows f a rest w1 = (Ok a', w') /\ I l a' w') as H by (by apply (H l [] acc w)).
  induction rest as [|x rest IH]; intros done a w1 Hl HI; simpl.
  - exists a, w1. rewrite app_nil_r in Hl. by subst.
  - destruct (Hstep done x rest a w1 Hl HI) as (a' & w2 & Hf & HI').
    rewrite (bind_run_Ok _ _ _ _ _ Hf). apply (IH (done ++ [x])); [|done]. by rewrite <- app_assoc.
Qed.
