(* ===== verification/MigrationProofs.v ===== *)
(** * Migration of a tenant's data

    What each loop of TenantMigrationService leaves behind: the slugs of
    collections are unique, so the search for a free slug stops at once, and a
    user has at most one binding with the target. *)
From S2P Require Import Prelude Entities EntitiesProofs.
Open Scope Z_scope.

(** UNIQUE (slug) *)
Definition slugs (d : DB) : gmap Z string := (fun r => co_slug (cols r)) <$> collections d.
Definition unique_slugs (d : DB) : Prop :=
  forall i j s, slugs d !! i = Some s -> slugs d !! j = Some s -> i = j.

Definition member (u t : Z) (d : DB) : Prop :=
  exists b ut, user_tenants d !! b = Some ut /\ ut_user_id ut = u /\ ut_tenant_id ut = t.

(** No user is bound twice to [t]. *)
Definition unique_members (t : Z) (d : DB) : Prop :=
  forall b b' ut ut', user_tenants d !! b = Some ut -> user_tenants d !! b' = Some ut' ->
    ut_tenant_id ut = t -> ut_tenant_id ut' = t -> ut_user_id ut = ut_user_id ut' -> b = b'.

Lemma slugs_lookup d i r : collections d !! i = Some r -> slugs d !! i = Some (co_slug (cols r)).
Proof. intros H. unfold slugs. by rewrite lookup_fmap, H. Qed.

Section Collections.
Variable uuid_str : Z -> string.

(** The first candidate, the collection's own slug, is free. *)
Lemma own_slug_free to d id r :
  unique_slugs d -> collections d !! id = Some r -> conflicts to (co_slug (cols r)) id d = [].
Proof.
  intros Hu Hr. apply select_ids_nil. intros i r' Hr'.
  destruct (Z.eqb_spec i id) as [->|Hne]; simpl; [by rewrite andb_false_r|]. rewrite andb_true_r.
  apply andb_false_iff. right. apply String.eqb_neq. intros Hs. destruct Hne. apply slugs_lookup in Hr, Hr'.
  rewrite Hs in Hr'. by eapply Hu.
Qed.

Definition moved_row (to : Z) (r : Row Collection) : Row Collection := move_collection to (co_slug (cols r)) r.

Lemma migrate_collection_ok from to acc id w r :
  unique_slugs (db w) -> collections (db w) !! id = Some r ->
  _migrate_collection uuid_str from to acc id w =
  (Ok (acc.1 + 1, acc.2),
   {| db := with_collections (db w) (alter (moved_row to) id); readings := readings w |}).
Proof.
  intros Hu Hr. unfold _migrate_collection.
  rewrite (bind_run_Ok _ _ w (Some r) w) by (unfold read; by rewrite Hr).
  rewrite (bind_run_Ok _ _ _ _ _ (eq_refl : read _ w = (Ok _, w))).
  rewrite (bind_run_Ok _ _ w (co_slug (cols r)) w); cycle 1.
  { cbn [free_slug]. rewrite (bind_run_Ok _ _ w [] w); [done|]. unfold read. by rewrite own_slug_free. }
  rewrite String.eqb_refl. unfold write, modify, mbind, py_bind, mret, py_ret. do 2 f_equal.
  unfold with_collections. f_equal. apply map_eq. intros i.
  destruct (decide (id = i)) as [<-|]; [by rewrite !lookup_alter_eq, Hr|by rewrite !lookup_alter_ne].
Qed.

Lemma slugs_alter_moved to id d : slugs (with_collections d (alter (moved_row to) id)) = slugs d.
Proof.
  apply map_eq. intros i. unfold slugs. simpl. rewrite !lookup_fmap. destruct (decide (id = i)) as [<-|].
  - rewrite lookup_alter_eq. by destruct (collections d !! id).
  - by rewrite lookup_alter_ne.
Qed.

Definition in_tenant (t : Z) (r : Row Collection) : bool := Z.eqb (co_tenant_id (cols r)) t.

(** The collections of [from] have moved, nothing else has changed. *)
Lemma migrate_collections_ok from to w :
  unique_slugs (db w) ->
  exists n, _migrate_collections uuid_str from to w =
    (Ok (n, []), {| db := with_collections (db w)
                            (fmap (fun r => if in_tenant from r then moved_row to r else r));
                    readings := readings w |}).
Proof.
  intros Hu. unfold _migrate_collections. rewrite (bind_run_Ok _ _ _ _ _ (eq_refl : read _ w = (Ok _, w))).
  set (ids := collections_of from (db w)).
  assert (forall i, i ∈ ids <-> exists r, collections (db w) !! i = Some r /\ in_tenant from r = true) as Hids
    by (intros i; apply (select_ids_spec (fun _ => in_tenant from))).
  destruct (fold_rows_total (_migrate_collection uuid_str from to) (fun done acc w1 => acc.2 = [] /\
    exists f, w1 = {| db := with_collections (db w) f; readings := readings w |} /\
    forall i, f (collections (db w)) !! i =
              if decide (i ∈ done) then moved_row to <$> collections (db w) !! i else collections (db w) !! i)
    ids (0, []) w) as ([n l] & w' & Hf & Hl & f & -> & Hi).
  { split; [done|]. exists id. split; [by destruct w as [[] ?]|]. intros i. by rewrite decide_False by set_solver. }
  { intros done x rest [n l] w1 Hsplit (Hl & f & -> & Hf). simpl in Hl. subst l.
    assert (NoDup ids) as Hnd by apply select_ids_NoDup. rewrite Hsplit in Hnd.
    assert (x ∉ done) as Hx.
    { apply NoDup_app in Hnd as (_ & Hnd & _). intros Hx. by apply (Hnd x Hx); left. }
    destruct (proj1 (Hids x)) as (r & Hr & _); [rewrite Hsplit; set_solver|].
    assert (slugs (with_collections (db w) f) = slugs (db w)) as Hs.
    { apply map_eq. intros i. unfold slugs. simpl. rewrite !lookup_fmap, Hf.
      case_decide; [|done]. by destruct (collections (db w) !! i). }
    eexists _, _. split.
    { eapply migrate_collection_ok; simpl; [unfold unique_slugs; by rewrite Hs|]. by rewrite Hf, decide_False. }
    split; [done|]. exists (fun t => alter (moved_row to) x (f t)). split; [done|]. intros i.
    destruct (decide (x = i)) as [<-|Hne].
    - by rewrite lookup_alter_eq, Hf, decide_False, decide_True by set_solver.
    - rewrite lookup_alter_ne, Hf by done. by repeat case_decide; set_solver. }
  exists n. rewrite Hf. simpl in Hl. subst l. do 2 f_equal. unfold with_collections. f_equal. apply map_eq. intros i.
  rewrite Hi, lookup_fmap. case_decide as Hin.
  - apply Hids in Hin as (r & -> & Ht). simpl. by rewrite Ht.
  - destruct (collections (db w) !! i) as [r|] eqn:Hr; simpl; [|done].
    destruct (in_tenant from r) eqn:Ht; [|done]. destruct Hin. apply Hids. eauto.
Qed.
End Collections.

(** ** Bindings *)
(** The state of the bindings once those in [done] are dealt with. *)
Record bindings_moved (to : Z) (done : list Z) (d0 d : DB) : Prop := {
  bm_frame : exists f, d = with_bindings d0 f;
  bm_rest : forall b, b ∉ done -> user_tenants d !! b = user_tenants d0 !! b;
  bm_done : forall b ut, b ∈ done -> user_tenants d !! b = Some ut -> ut_tenant_id ut = to;
  bm_members : forall u, member u to d <->
    member u to d0 \/ exists b ut, b ∈ done /\ user_tenants d0 !! b = Some ut /\ ut_user_id ut = u;
  bm_unique : unique_members to d
}.

(** Moving a binding, or deleting it when its user already has one. *)
Lemma member_alter to x ut d u :
  user_tenants d !! x = Some ut -> ut_tenant_id ut ≠ to ->
  member u to (with_bindings d (alter (move_binding to) x)) <-> member u to d \/ u = ut_user_id ut.
Proof.
  intros Hx Hto. unfold member. simpl. split.
  - intros (b & ut' & Hb & Hu & Ht). destruct (decide (x = b)) as [<-|Hne].
    + rewrite lookup_alter_eq, Hx in Hb. injection Hb as <-. by right.
    + rewrite lookup_alter_ne in Hb by done. left. eauto.
  - intros [(b & ut' & Hb & Hu & Ht)| ->].
    + exists b, ut'. rewrite lookup_alter_ne; [done|]. intros ->. congruence.
    + exists x, (move_binding to ut). by rewrite lookup_alter_eq, Hx.
Qed.

Lemma member_delete to x ut b ut' d u :
  user_tenants d !! x = Some ut -> ut_tenant_id ut ≠ to ->
  user_tenants d !! b = Some ut' -> ut_user_id ut' = ut_user_id ut -> ut_tenant_id ut' = to ->
  member u to (with_bindings d (delete x)) <-> member u to d \/ u = ut_user_id ut.
Proof.
  intros Hx Hto Hb Hu Ht. unfold member. simpl. split.
  - intros (c & ut2 & [_ Hc]%lookup_delete_Some & H2). left. eauto.
  - assert (x ≠ b) by congruence. intros [(c & ut2 & Hc & Hcu & Hct)| ->].
    + exists c, ut2. rewrite lookup_delete_ne; [done|congruence].
    + exists b, ut'. by rewrite lookup_delete_ne.
Qed.

Lemma member_done to done x ut d0 d d' :
  user_tenants d0 !! x = Some ut ->
  (forall u, member u to d' <-> member u to d \/ u = ut_user_id ut) ->
  bindings_moved to done d0 d ->
  forall u, member u to d' <->
    member u to d0 \/ exists b ut, b ∈ done ++ [x] /\ user_tenants d0 !! b = Some ut /\ ut_user_id ut = u.
Proof.
  intros Hx Hd' [_ _ _ Hm _] u. rewrite Hd', Hm. split.
  - intros [[?|(b & ut' & Hb & ?)]| ->]; [by left|right; exists b, ut'; set_solver|right; exists x, ut; set_solver].
  - intros [?|(b & ut' & [Hb|Hb]%elem_of_app & Hl & Hu)]; [by left; left|left; right; eauto|].
    apply list_elem_of_singleton in Hb as ->. rewrite Hx in Hl. injection Hl as <-. by right.
Qed.

Lemma unique_alter to x ut d :
  user_tenants d !! x = Some ut -> ~ member (ut_user_id ut) to d ->
  unique_members to d -> unique_members to (with_bindings d (alter (move_binding to) x)).
Proof.
  intros Hx Hnone Hu.
  assert (forall b ut', x ≠ b -> user_tenants d !! b = Some ut' -> ut_tenant_id ut' = to ->
    ut_user_id ut' ≠ ut_user_id ut) as Hdiff by (intros b ut' _ Hb Ht Heq; destruct Hnone; by exists b, ut').
  intros b b' u u'. simpl. destruct (decide (x = b)) as [<-|Hb], (decide (x = b')) as [<-|Hb']; [done|..];
    rewrite ?lookup_alter_eq, ?lookup_alter_ne by done; rewrite ?Hx; simpl; intros H1 H2 T1 T2 E.
  - injection H1 as <-. by destruct (Hdiff b' u' Hb' H2 T2).
  - injection H2 as <-. by destruct (Hdiff b u Hb H1 T1).
  - by apply (Hu b b' u u').
Qed.

Lemma unique_delete to x d : unique_members to d -> unique_members to (with_bindings d (delete x)).
Proof. intros Hu b b' u u'. simpl. intros [_ H1]%lookup_delete_Some [_ H2]%lookup_delete_Some. by apply Hu. Qed.

Lemma migrate_binding_ok from to done x acc w d0 ut :
  from ≠ to -> x ∉ done -> user_tenants d0 !! x = Some ut -> ut_tenant_id ut = from ->
  bindings_moved to done d0 (db w) ->
  exists n w', _migrate_user_tenant to acc x w = (Ok n, w') /\ readings w' = readings w /\
    bindings_moved to (done ++ [x]) d0 (db w').
Proof.
  intros Hft Hx Hut Hfrom [[f Hf] Hrest Hdone Hmem Huniq]. unfold _migrate_user_tenant.
  assert (user_tenants (db w) !! x = Some ut) as Hux by (by rewrite Hrest).
  rewrite (bind_run_Ok _ _ w (Some ut) w) by (unfold read; by rewrite Hux).
  rewrite (bind_run_Ok _ _ _ _ _ (eq_refl : read _ w = (Ok _, w))).
  set (p := fun (_ : Z) b => _). assert (forall b, b ∈ select_ids p (user_tenants (db w)) <->
    exists b', user_tenants (db w) !! b = Some b' /\ ut_user_id b' = ut_user_id ut /\ ut_tenant_id b' = to) as Hsel.
  { intros b. rewrite select_ids_spec. unfold p. setoid_rewrite andb_true_iff. by setoid_rewrite Z.eqb_eq. }
  pose proof (select_ids_NoDup p (user_tenants (db w))) as Hnd.
  destruct (select_ids p (user_tenants (db w))) as [|b [|b' l]]; cycle 2.
  { destruct (proj1 (Hsel b)) as (u1 & H1 & E1 & T1); [by left|].
    destruct (proj1 (Hsel b')) as (u2 & H2 & E2 & T2); [by right; left|].
    apply NoDup_cons in Hnd as [[] _]. rewrite (Huniq b b' u1 u2); congruence || by left. }
  - eexists _, _. split; [reflexivity|]. split; [done|]. assert (ut_tenant_id ut ≠ to) by congruence. split.
    + exists (fun m => alter (move_binding to) x (f m)). by rewrite Hf.
    + intros b Hb. simpl. rewrite lookup_alter_ne by set_solver. apply Hrest. set_solver.
    + intros b ut' Hb. simpl. destruct (decide (x = b)) as [<-|Hne].
      * rewrite lookup_alter_eq, Hux. by intros [= <-].
      * rewrite lookup_alter_ne by done. apply Hdone. set_solver.
    + eapply member_done; [done|intros u; by apply member_alter|by split; [exists f|..]].
    + eapply unique_alter; [done| |done]. intros (b & ut' & Hb & Hu & Ht).
      assert (b ∈ @nil Z) as []%not_elem_of_nil by (apply Hsel; eauto).
  - destruct (proj1 (Hsel b)) as (u1 & H1 & E1 & T1); [by left|].
    eexists _, _. split; [reflexivity|]. split; [done|]. assert (ut_tenant_id ut ≠ to) by congruence. split.
    + exists (fun m => delete x (f m)). by rewrite Hf.
    + intros c Hc. simpl. rewrite lookup_delete_ne by set_solver. apply Hrest. set_solver.
    + intros c ut' Hc. simpl. intros [Hne Hl]%lookup_delete_Some. eapply Hdone; [|done]. set_solver.
    + eapply member_done; [done|intros u; by eapply member_delete|by split; [exists f|..]].
    + by apply unique_delete.
Qed.

Lemma migrate_user_tenants_ok from to w :
  from ≠ to -> unique_members to (db w) ->
  exists n w', _migrate_user_tenants from to w = (Ok n, w') /\ readings w' = readings w /\
    (exists f, db w' = with_bindings (db w) f) /\ unique_members to (db w') /\ bindings_of from (db w') = [] /\
    (forall b ut, user_tenants (db w) !! b = Some ut -> ut_tenant_id ut ≠ from ->
       user_tenants (db w') !! b = Some ut) /\
    forall u, member u to (db w') <-> member u to (db w) \/ member u from (db w).
Proof.
  intros Hft Huniq. unfold _migrate_user_tenants. rewrite (bind_run_Ok _ _ _ _ _ (eq_refl : read _ w = (Ok _, w))).
  set (ids := bindings_of from (db w)).
  assert (forall b, b ∈ ids <-> exists ut, user_tenants (db w) !! b = Some ut /\ ut_tenant_id ut = from) as Hids.
  { intros b. unfold ids, bindings_of. rewrite select_ids_spec. by setoid_rewrite Z.eqb_eq. }
  destruct (fold_rows_total (_migrate_user_tenant to)
    (fun done _ w1 => readings w1 = readings w /\ bindings_moved to done (db w) (db w1)) ids 0 w)
    as (n & w' & Hf & Hr & [Hframe Hrest Hdone Hmem Hu]).
  { split; [done|]. split; [exists id; by destruct (db w)|done|set_solver| |done].
    intros u. split; [by left|]. intros [?|(b & ut & Hb & _)]; [done|set_solver]. }
  { intros done x rest acc w1 Hsplit [Hr HI]. assert (NoDup ids) as Hnd by apply select_ids_NoDup.
    destruct (proj1 (Hids x)) as (ut & Hut & Ht); [rewrite Hsplit; set_solver|].
    destruct (migrate_binding_ok from to done x acc w1 (db w) ut) as (n & w2 & H & Hr2 & HI2); [done| |done..|].
    { rewrite Hsplit in Hnd. apply NoDup_app in Hnd as (_ & Hnd & _). intros Hx. by apply (Hnd x Hx); left. }
    exists n, w2. split; [done|]. split; [congruence|done]. }
  exists n, w'. split; [done|]. split; [done|]. split; [done|]. split; [done|]. split; [|split].
  - apply select_ids_nil. intros b ut Hb. apply Z.eqb_neq. intros Ht.
    destruct (decide (b ∈ ids)) as [Hin|Hin]; [by rewrite (Hdone b ut Hin Hb) in Ht|].
    rewrite Hrest in Hb by done. destruct Hin. apply Hids. eauto.
  - intros b ut Hb Ht. rewrite Hrest; [done|]. intros (ut' & Hut' & Ht')%Hids. congruence.
  - intros u. rewrite Hmem. split; (intros [?|H]; [by left|right]).
    + destruct H as (b & ut & Hb & Hl & Hut). destruct (proj1 (Hids b) Hb) as (ut' & Hut' & Ht').
      exists b, ut. by rewrite Hl in Hut'; simplify_eq.
    + destruct H as (b & ut & Hl & Hut & Ht). exists b, ut. split; [apply Hids; eauto|done].
Qed.

(** ** The other tables *)
Definition reassign (from to : Z) (t : option Z) : option Z := if bool_decide (t = Some from) then Some to else t.

Lemma insert_all_lookup {K V} `{Countable K} (v : V) (l : list K) (m : gmap K V) k :
  foldl (fun m k => <[k := v]> m) m l !! k = if decide (k ∈ l) then Some v else m !! k.
Proof.
  revert m. induction l as [|x l IH]; intros m; [done|]. cbn [foldl]. rewrite IH.
  destruct (decide (k ∈ l)); [by rewrite decide_True by set_solver|].
  destruct (decide (x = k)) as [<-|].
  - by rewrite lookup_insert_eq, decide_True by set_solver.
  - by rewrite lookup_insert_ne, decide_False by set_solver.
Qed.

Definition reassigned_owned (models : list OwnedModel) (from to : Z) (m : gmap (OwnedModel * Z) (option Z))
    : gmap (OwnedModel * Z) (option Z) :=
  map_imap (fun k t => Some (if bool_decide (k.1 ∈ models) then reassign from to t else t)) m.

Lemma reassigned_lookup models from to m k :
  reassigned_owned models from to m !! k =
  (fun t => if bool_decide (k.1 ∈ models) then reassign from to t else t) <$> m !! k.
Proof. unfold reassigned_owned. rewrite map_lookup_imap. by destruct (m !! k). Qed.

(** [w] is [w0] with the rows of [models] reassigned. *)
Definition owned_moved (models : list OwnedModel) (from to : Z) (w0 w : World) : Prop :=
  w = {| db := with_owned (db w0) (reassigned_owned models from to); readings := readings w0 |}.

Lemma bulk_reassign_ok models model from to w0 w :
  model ∉ models -> owned_moved models from to w0 w ->
  exists n w', _bulk_reassign model from to w = (Ok n, w') /\ owned_moved (models ++ [model]) from to w0 w'.
Proof.
  intros Hm ->. eexists _, _. split; [reflexivity|]. unfold owned_moved. f_equal. unfold with_owned. cbn.
  f_equal. apply map_eq. intros [k i]. rewrite insert_all_lookup, !reassigned_lookup.
  set (d := {| tenants := _ |}).
  assert ((k, i) ∈ reassigned model from to d <-> k = model /\ owned d !! (k, i) = Some (Some from)) as Hk.
  { unfold reassigned. rewrite list_elem_of_fmap. split.
    - intros ([k' t] & Heq & [Hin Hp]%elem_of_List_filter). apply elem_of_map_to_list in Hin. simpl in Heq. subst k'.
      apply andb_true_iff in Hp as [Hp1%bool_decide_eq_true Hp2%bool_decide_eq_true]. simpl in *. by subst.
    - intros [H1 H2]. exists (k, i, Some from). split; [done|]. apply elem_of_List_filter.
      rewrite elem_of_map_to_list. split; [done|]. by rewrite !bool_decide_true. }
  unfold d in Hk at 2. cbn [owned] in Hk. rewrite reassigned_lookup in Hk.
  destruct (owned (db w0) !! (k, i)) as [t|]; simpl in *; [|rewrite decide_False; [done|]; intros [_ [=]]%Hk].
  destruct (decide (k = model)) as [->|Hne].
  - rewrite (bool_decide_false (model ∈ models)) in * by done. rewrite (bool_decide_true (model ∈ _)) by set_solver.
    unfold reassign. case_bool_decide as Ht.
    + rewrite decide_True; [done|]. by rewrite Hk, Ht.
    + rewrite decide_False; [done|]. intros [_ [= ?]]%Hk. done.
  - rewrite decide_False by (rewrite Hk; tauto).
    by rewrite (bool_decide_ext (k ∈ models ++ [model]) (k ∈ models)) by set_solver.
Qed.

Lemma owned_moved_nil from to w : owned_moved [] from to w w.
Proof.
  destruct w as [[] n]. unfold owned_moved, with_owned. simpl. do 2 f_equal. apply map_eq. intros k.
  rewrite reassigned_lookup. by destruct (_ !! k).
Qed.

(** ** The whole migration *)
Section Migrate.
Variable uuid_str : Z -> string.

Record migrated (from to : Z) (d d' : DB) : Prop := {
  mg_tenants : tenants d' = tenants d;
  mg_users : users d' = users d;
  mg_agents : agents d' = agents d;
  mg_rules : rbac_rules d' = rbac_rules d;
  mg_chats : chats d' = chats d;
  mg_sandboxes : sandbox_sessions d' = sandbox_sessions d;
  mg_physical : physical_tables d' = physical_tables d;
  mg_collections : collections d' = (fun r => if in_tenant from r then moved_row to r else r) <$> collections d;
  mg_owned : forall k, owned d' !! k = reassign from to <$> owned d !! k;
  mg_bindings : bindings_of from d' = [];
  mg_others : forall b ut, user_tenants d !! b = Some ut -> ut_tenant_id ut ≠ from -> user_tenants d' !! b = Some ut;
  mg_members : forall u, member u to d' <-> member u to d \/ member u from d
}.

Lemma migrate_ok from to w :
  from ≠ to -> unique_slugs (db w) -> unique_members to (db w) ->
  exists rep w', migrate_tenant_data uuid_str from to w = (Ok rep, w') /\ renamed_collections rep = [] /\
    readings w' = readings w /\ migrated from to (db w) (db w').
Proof.
  intros Hft Hs Hm. unfold migrate_tenant_data. rewrite (proj2 (Z.eqb_neq _ _) Hft).
  destruct (migrate_user_tenants_ok from to w Hft Hm) as (n1 & w1 & H1 & Hr1 & [f Hf] & _ & Hb & Hoth & Hmem).
  rewrite (bind_run_Ok _ _ _ _ _ H1).
  destruct (migrate_collections_ok uuid_str from to w1) as (n2 & H2).
  { unfold unique_slugs, slugs. by rewrite Hf. }
  rewrite (bind_run_Ok _ _ _ _ _ H2).
  set (wc := {| db := with_collections (db w1) _ |}).
  destruct (bulk_reassign_ok [] RAGDocument from to wc wc) as (n3 & w3 & H3 & O3); [set_solver|apply owned_moved_nil|].
  rewrite (bind_run_Ok _ _ _ _ _ H3).
  destruct (bulk_reassign_ok [RAGDocument] Source from to wc w3)
    as (n4 & w4 & H4 & O4); [set_solver|done|].
  rewrite (bind_run_Ok _ _ _ _ _ H4).
  destruct (bulk_reassign_ok [RAGDocument; Source] DocumentCollectionMembership from to wc w4)
    as (n5 & w5 & H5 & O5); [set_solver|done|].
  rewrite (bind_run_Ok _ _ _ _ _ H5).
  destruct (bulk_reassign_ok [RAGDocument; Source; DocumentCollectionMembership] Credential from to wc w5)
    as (n6 & w6 & H6 & O6); [set_solver|done|].
  rewrite (bind_run_Ok _ _ _ _ _ H6).
  destruct (bulk_reassign_ok [RAGDocument; Source; DocumentCollectionMembership; Credential] Fact from to wc w6)
    as (n7 & w7 & H7 & O7); [set_solver|done|].
  rewrite (bind_run_Ok _ _ _ _ _ H7).
  eexists _, w7. split; [reflexivity|]. split; [done|]. rewrite O7. split; [done|].
  split; simpl; try (rewrite Hf; reflexivity); [|done..].
  intros k. rewrite reassigned_lookup, bool_decide_true; [by rewrite Hf|]. destruct (k.1); set_solver.
Qed.
End Migrate.
