(* ===== verification/Lifecycle.v ===== *)
(** * The life cycle of owned entities

    services/lifecycle_admin_service.py (class LifecycleAdminService), the DELETE
    route of api/v1/routers/admin/lifecycle.py that calls it, and the task
    cleanup_deprecated_entities of workers/tasks_cleanup.py, over the tables of
    [Entities]. *)
From S2P Require Import Prelude Entities.
Open Scope Z_scope.

Record DependencyEntity := { de_uuid : Z; de_name : string; de_url : option string }.

(** [details["cascade_parent"]] *)
Record CascadeParent := { cp_kind : LifecycleKind; cp_id : Z; cp_name : string; cp_resource_type : string }.

Record DependencyEntry := {
  dep_resource_type : string;
  dep_count : Z;
  dep_action : string;
  dep_will_be : string;
  dep_entities : list DependencyEntity;
  dep_migration_target : option string;
  dep_reason : option string;              (** details["reason"] *)
  dep_parent : option CascadeParent
}.

Record LifecycleReport := {
  rep_kind : LifecycleKind;
  rep_entity_id : Z;
  rep_mode : string;
  rep_status : string;
  rep_details : odict json;
  rep_migrated : odict Z;
  rep_cascaded : odict Z;
  rep_rbac_rules_removed : Z;
  rep_renamed : list (string * string);
  rep_restored : odict Z
}.

Abbreviation key := (LifecycleKind * Z)%type.

Definition RESOURCE_KIND_MAP (resource_type : string) : option LifecycleKind :=
  if String.eqb resource_type "users" then Some K_user
  else if String.eqb resource_type "collections" then Some K_collection
  else if String.eqb resource_type "agents" then Some K_agent
  else if String.eqb resource_type "rbac_rules" then Some K_rbac_rule
  else if String.eqb resource_type "chats" then Some K_chat
  else if String.eqb resource_type "sandbox_sessions" then Some K_sandbox_session
  else None.

Definition LIFECYCLE_DEPENDENCY_RESOURCES : list string :=
  ["users"; "collections"; "agents"; "rbac_rules"; "chats"; "sandbox_sessions"]%string.

Definition _resource_counter_key (k : LifecycleKind) : string :=
  match k with
  | K_tenant => "tenants"
  | K_user => "users"
  | K_collection => "collections"
  | K_agent => "agents"
  | K_rbac_rule => "rbac_rules"
  | K_chat => "chats"
  | K_sandbox_session => "sandbox_sessions"
  end.

(** [counts[key] = counts.get(key, 0) + n] *)
Definition bump (key : string) (n : Z) (counts : odict Z) : odict Z :=
  od_set key (match od_get key counts with Some c => c | None => 0 end + n) counts.

Section Service.
Variable uuid_str : Z -> string.
Variable clock : nat -> Z.

(** ** Dependencies *)
Definition _resource_url (resource_type : string) (i : Z) : option string :=
  let at_ prefix := Some (prefix +:+ uuid_str i) in
  if String.eqb resource_type "users" then at_ "/admin/users/"%string
  else if String.eqb resource_type "collections" then at_ "/admin/collections/"%string
  else if String.eqb resource_type "agents" then at_ "/admin/agents/"%string
  else if String.eqb resource_type "sandbox_sessions" then at_ "/sandbox/"%string
  else if String.eqb resource_type "rbac_rules" then at_ "/admin/rbac/"%string
  else if String.eqb resource_type "tenants" then at_ "/admin/tenants/"%string
  else if String.eqb resource_type "chats" then at_ "/chat/"%string
  else None.

(** The name shown for a row of [resource_type] with the second column [name]. *)
Definition sample_name (resource_type : string) (i : Z) (name : option string) : string :=
  let u := uuid_str i in
  let n := match name with Some s => if String.eqb s "" then u else s | None => u end in
  let n := if String.eqb resource_type "rbac_rules" then "Rule: " +:+ n else n in
  let n := if String.eqb resource_type "chats" && String.eqb n u then "Chat " +:+ str_take 8 u else n in
  if String.eqb resource_type "sandbox_sessions" && String.eqb n u then "Session " +:+ str_take 8 u else n.

Definition _sample_entities (rows : list (Z * option string)) (resource_type : string) (limit : option nat)
    : list DependencyEntity :=
  let rows := match limit with Some n => take n rows | None => rows end in
  map (fun r => {| de_uuid := r.1; de_name := sample_name resource_type r.1 r.2;
                   de_url := _resource_url resource_type r.1 |}) rows.

(** [select(model.id, column).where(p)]: no query below looks at the life cycle. *)
Definition select_rows {D} (p : D -> bool) (column : D -> option string) (m : Table D) : list (Z * option string) :=
  map (fun x => (x.1, column x.2)) (List.filter (fun x => p x.2) (map_to_list (cols <$> m))).

(** [select(model.id, column).join(user_tenants).where(p)] *)
Definition join_rows {D} (target : UserTenant -> Z) (p : UserTenant -> bool) (column : D -> option string)
    (bindings : gmap Z UserTenant) (m : Table D) : list (Z * option string) :=
  omap (fun x => if p x.2
                 then (fun c => (target x.2, column c)) <$> (cols <$> m) !! target x.2
                 else None) (map_to_list bindings).

Definition count_rows {D} (p : D -> bool) (m : Table D) : Z := Z.of_nat (length (select_rows p (fun _ => None) m)).
Definition count_bindings (p : UserTenant -> bool) (m : gmap Z UserTenant) : Z :=
  Z.of_nat (length (List.filter (fun x => p x.2) (map_to_list m))).

Definition dependency (resource_type : string) (count : Z) (action will_be : string)
    (entities : list DependencyEntity) : DependencyEntry :=
  {| dep_resource_type := resource_type; dep_count := count; dep_action := action; dep_will_be := will_be;
     dep_entities := entities; dep_migration_target := None; dep_reason := None; dep_parent := None |}.

Definition migrated_dependency (resource_type : string) (count : Z) (entities : list DependencyEntity)
    : DependencyEntry :=
  {| dep_resource_type := resource_type; dep_count := count; dep_action := "migrate_to_default_tenant";
     dep_will_be := "migrated"; dep_entities := entities;
     dep_migration_target := Some "platform_default_tenant"%string; dep_reason := None; dep_parent := None |}.

Definition admin_guard : DependencyEntry :=
  {| dep_resource_type := "admin_guard"; dep_count := 1; dep_action := "cannot_delete_last_active_admin";
     dep_will_be := "blocker"; dep_entities := []; dep_migration_target := None;
     dep_reason := Some "last_active_admin"%string; dep_parent := None |}.

Definition limit_of (full_entities : bool) : option nat := if full_entities then None else Some 5%nat.

Definition _tenant_dependencies (t : Z) (full_entities : bool) (d : DB) : list DependencyEntry :=
  let limit := limit_of full_entities in
  let of_tenant b := Z.eqb (ut_tenant_id b) t in
  let in_tenant c := Z.eqb (co_tenant_id c) t in
  let sandbox_in s := Z.eqb (ss_tenant_id s) t in
  let rule_of r := bool_decide (owner_tenant_id r = Some t) in
  let user_entities :=
    _sample_entities (join_rows ut_user_id of_tenant (fun u => Some (u_login u)) (user_tenants d) (users d))
      "users" limit in
  let collection_entities :=
    _sample_entities (select_rows in_tenant (fun c => Some (co_name c)) (collections d)) "collections" limit in
  let sandbox_entities :=
    _sample_entities (select_rows sandbox_in (fun s => Some (ss_name s)) (sandbox_sessions d))
      "sandbox_sessions" limit in
  let rbac_entities :=
    _sample_entities (select_rows rule_of (fun r => Some (resource_type r)) (rbac_rules d)) "rbac_rules" limit in
  [ migrated_dependency "users" (count_bindings of_tenant (user_tenants d)) user_entities;
    migrated_dependency "collections" (count_rows in_tenant (collections d)) collection_entities;
    dependency "chats" 0 "detached_from_tenant" "set_null" [];
    dependency "sandbox_sessions" (count_rows sandbox_in (sandbox_sessions d)) "cascade" "cascade_deleted"
      sandbox_entities;
    dependency "rbac_rules" (count_rows rule_of (rbac_rules d)) "cascade" "cascade_deleted" rbac_entities ].

(** [count_active_admins] *)
Definition active_admin (u : Row User) : bool :=
  String.eqb (u_role (cols u)) "admin" && bool_decide (is_active (meta u) = Some true) &&
  String.eqb (lifecycle_status (meta u)) "active".

Definition active_admins (d : DB) : list Z := select_ids (fun _ => active_admin) (users d).

Definition _is_last_active_admin (u : Z) (d : DB) : bool :=
  match users d !! u with
  | None => false
  | Some user =>
      if negb (String.eqb (u_role (cols user)) "admin") then false
      else if negb (match is_active (meta user) with Some b => b | None => true end) then false
      else if negb (String.eqb (lifecycle_status (meta user)) "active") then false
      else bool_decide (length (active_admins d) <= 1)%nat
  end.

Definition _assert_user_not_last_active_admin (u : Z) : call unit :=
  last ← read (_is_last_active_admin u);
  if last : bool then raise (ValueError "last_admin") else mret tt.

Definition _user_dependencies (u : Z) (full_entities : bool) (d : DB) : list DependencyEntry :=
  let limit := limit_of full_entities in
  let of_user b := Z.eqb (ut_user_id b) u in
  let chat_of c := Z.eqb (ch_owner_id c) u in
  let sandbox_of s := Z.eqb (ss_owner_id s) u in
  let rule_of r := bool_decide (owner_user_id r = Some u) in
  [ dependency "tenant_bindings" (count_bindings of_user (user_tenants d)) "cascade" "cascade_deleted"
      (_sample_entities (join_rows ut_tenant_id of_user (fun t => Some (t_name t)) (user_tenants d) (tenants d))
         "tenants" limit);
    dependency "chats" (count_rows chat_of (chats d)) "cascade" "cascade_deleted"
      (_sample_entities (select_rows chat_of ch_name (chats d)) "chats" limit);
    dependency "sandbox_sessions" (count_rows sandbox_of (sandbox_sessions d)) "cascade" "cascade_deleted"
      (_sample_entities (select_rows sandbox_of (fun s => Some (ss_name s)) (sandbox_sessions d))
         "sandbox_sessions" limit);
    dependency "rbac_rules" (count_rows rule_of (rbac_rules d)) "cascade" "cascade_deleted"
      (_sample_entities (select_rows rule_of (fun r => Some (resource_type r)) (rbac_rules d))
         "rbac_rules" limit) ] ++
  (if _is_last_active_admin u d then [admin_guard] else []).

(** [_collection_dependencies] and [_agent_dependencies]: the rules about a resource *)
Definition resource_dependencies (type : string) (i : Z) (full_entities : bool) (d : DB) : list DependencyEntry :=
  let rule_about r := String.eqb (resource_type r) type && Z.eqb (resource_id r) i in
  [ dependency "rbac_rules" (count_rows rule_about (rbac_rules d)) "cascade" "cascade_deleted"
      (_sample_entities (select_rows rule_about (fun r => Some (resource_type r)) (rbac_rules d))
         "rbac_rules" (limit_of full_entities)) ].

Definition _get_direct_dependencies (k : LifecycleKind) (i : Z) (full_entities : bool) (d : DB)
    : list DependencyEntry :=
  match k with
  | K_tenant => _tenant_dependencies i full_entities d
  | K_user => _user_dependencies i full_entities d
  | K_collection => resource_dependencies "instance" i full_entities d
  | K_agent => resource_dependencies "agent" i full_entities d
  | K_rbac_rule | K_chat | K_sandbox_session => []
  end.

Definition with_parent (p : CascadeParent) (e : DependencyEntry) : DependencyEntry :=
  {| dep_resource_type := dep_resource_type e; dep_count := dep_count e; dep_action := dep_action e;
     dep_will_be := dep_will_be e; dep_entities := dep_entities e;
     dep_migration_target := dep_migration_target e; dep_reason := dep_reason e; dep_parent := Some p |}.

(** The body of the inner loop of [_expand_cascade_dependencies]: [rec] is the
    recursive call.  An identifier is never empty and always parses. *)
Definition expand_entity (rec : list DependencyEntry -> gset key -> list DependencyEntry * gset key)
    (full_entities : bool) (d : DB) (dep : DependencyEntry) (child_kind : LifecycleKind)
    (acc : list DependencyEntry * gset key) (e : DependencyEntity) : list DependencyEntry * gset key :=
  let k := (child_kind, de_uuid e) in
  if decide (k ∈ acc.2) then acc
  else
    let child_direct := _get_direct_dependencies child_kind (de_uuid e) full_entities d in
    let parent := {| cp_kind := child_kind; cp_id := de_uuid e; cp_name := de_name e;
                     cp_resource_type := dep_resource_type dep |} in
    let child_direct := map (with_parent parent) child_direct in
    let nested := rec child_direct ({[k]} ∪ acc.2) in
    (acc.1 ++ child_direct ++ nested.1, nested.2).

Definition expand_dep (rec : list DependencyEntry -> gset key -> list DependencyEntry * gset key)
    (full_entities : bool) (d : DB) (acc : list DependencyEntry * gset key) (dep : DependencyEntry)
    : list DependencyEntry * gset key :=
  match RESOURCE_KIND_MAP (dep_resource_type dep) with
  | None => acc
  | Some child_kind => foldl (expand_entity rec full_entities d dep child_kind) acc (dep_entities dep)
  end.

(** The recursion follows tenant, user, leaf: [depth] 3 is enough. *)
Fixpoint _expand_cascade_dependencies (depth : nat) (full_entities : bool) (d : DB)
    (direct : list DependencyEntry) (visited : gset key) : list DependencyEntry * gset key :=
  match depth with
  | O => ([], visited)
  | S depth => foldl (expand_dep (_expand_cascade_dependencies depth full_entities d) full_entities d)
                     ([], visited) direct
  end.

Definition cascade_depth : nat := 3.

Definition normalized (soft : bool) (e : DependencyEntry) : DependencyEntry :=
  if negb (bool_decide (dep_resource_type e ∈ LIFECYCLE_DEPENDENCY_RESOURCES)) then e
  else if String.eqb (dep_will_be e) "blocker" then e
  else {| dep_resource_type := dep_resource_type e; dep_count := dep_count e; dep_action := "cascade";
          dep_will_be := if soft then "cascade_deprecated" else "cascade_deleted";
          dep_entities := dep_entities e; dep_migration_target := dep_migration_target e;
          dep_reason := dep_reason e; dep_parent := dep_parent e |}.

Definition _apply_dependency_mode_semantics (soft cascade : bool) (l : list DependencyEntry)
    : list DependencyEntry :=
  if cascade then map (normalized soft) l else l.

Definition get_dependencies (k : LifecycleKind) (i : Z) (soft cascade full_entities : bool) (d : DB)
    : list DependencyEntry :=
  let direct := _get_direct_dependencies k i full_entities d in
  let expanded := if cascade
                  then (_expand_cascade_dependencies cascade_depth full_entities d direct {[(k, i)]}).1
                  else [] in
  _apply_dependency_mode_semantics soft cascade (direct ++ expanded).

(** ** Soft deletion *)
Definition has_is_active (k : LifecycleKind) : bool :=
  match k with K_tenant | K_user | K_collection => true | _ => false end.

(** [entity.is_active = b], if hasattr *)
Definition set_active (k : LifecycleKind) (b : bool) (m : Meta) : option bool :=
  if has_is_active k then (fun _ => b) <$> is_active m else is_active m.

Record SoftDelete := {
  sd_actor_id : option Z;
  sd_reason : option string;
  sd_retention_days : option Z
}.

Definition deprecated_meta (k : LifecycleKind) (at_ : Z) (s : SoftDelete) (cascade : bool) (root : key) (m : Meta)
    : Meta :=
  {| lifecycle_status := "deprecated"; deprecated_at := Some at_; deprecated_by := sd_actor_id s;
     deprecated_reason := sd_reason s;
     retention_days := match sd_retention_days s with Some n => n | None => retention_days m end;
     delete_cascade := cascade; deprecated_root_kind := Some root.1; deprecated_root_id := Some root.2;
     is_active := set_active k false m |}.

(** A second deletion of the same root *)
Definition redeprecated_meta (s : SoftDelete) (cascade : bool) (m : Meta) : Meta :=
  {| lifecycle_status := lifecycle_status m; deprecated_at := deprecated_at m; deprecated_by := deprecated_by m;
     deprecated_reason := match sd_reason s with Some r => Some r | None => deprecated_reason m end;
     retention_days := match sd_retention_days s with Some n => n | None => retention_days m end;
     delete_cascade := cascade; deprecated_root_kind := deprecated_root_kind m;
     deprecated_root_id := deprecated_root_id m; is_active := is_active m |}.

Definition is_default_tenant (k : LifecycleKind) (i : Z) (d : DB) : bool :=
  match k, tenants d !! i with
  | K_tenant, Some t => is_platform_default (cols t)
  | _, _ => false
  end.

Definition _apply_deprecated_state (k : LifecycleKind) (i : Z) (s : SoftDelete) (cascade : bool) (root : key)
    (counts : option (odict Z)) : call (bool * option (odict Z)) :=
  e ← read (entity k i);
  match e with
  | None => mret (false, counts)
  | Some m =>
      default ← read (is_default_tenant k i);
      if default : bool then raise (ValueError "cannot_delete_default_tenant")
      else if String.eqb (lifecycle_status m) "deprecated" then
        _ ← (if bool_decide ((k, i) = root) then write (alter_meta (redeprecated_meta s cascade) k i) else mret tt);
        mret (false, counts)
      else
        at_ ← now clock;
        _ ← write (alter_meta (deprecated_meta k at_ s cascade root) k i);
        mret (true, bump (_resource_counter_key k) 1 <$> counts)
  end.

(** One dependent entity of the loop of [soft_delete], with the set of those done. *)
Definition deprecate_dependent (s : SoftDelete) (root : key) (acc : option (odict Z) * gset key) (k : key)
    : call (option (odict Z) * gset key) :=
  if decide (k ∈ acc.2) then mret acc
  else
    r ← _apply_deprecated_state k.1 k.2 s true root acc.1;
    mret (r.2, {[k]} ∪ acc.2).

(** The entities that a list of dependencies names, in order *)
Definition dependent_keys (l : list DependencyEntry) : list key :=
  l ≫= fun dep => match RESOURCE_KIND_MAP (dep_resource_type dep) with
                  | Some k => map (fun e => (k, de_uuid e)) (dep_entities dep)
                  | None => []
                  end.

Definition soft_delete (k : LifecycleKind) (i : Z) (s : SoftDelete) (cascade : bool) : call LifecycleReport :=
  e ← read (entity k i);
  match e with
  | None => raise (ValueError "not_found")
  | Some _ =>
      _ ← _apply_deprecated_state k i s cascade (k, i) None;
      counts ← (if cascade then
                  dependencies ← read (get_dependencies k i true true true);
                  r ← fold_rows (deprecate_dependent s (k, i)) (Some [], {[(k, i)]}) (dependent_keys dependencies);
                  mret r.1
                else mret (Some []));
      e ← read (entity k i);
      mret {| rep_kind := k; rep_entity_id := i; rep_mode := "soft"; rep_status := "deprecated";
              rep_details := [("retention_days"%string, match e with Some m => JInt (retention_days m) | None => JNull end);
                              ("delete_cascade"%string, JBool cascade)];
              rep_migrated := []; rep_cascaded := match counts with Some c => c | None => [] end;
              rep_rbac_rules_removed := 0; rep_renamed := []; rep_restored := [] |}
  end.

(** ** Restoration *)
Definition restored_meta (k : LifecycleKind) (m : Meta) : Meta :=
  {| lifecycle_status := "active"; deprecated_at := None; deprecated_by := None; deprecated_reason := None;
     retention_days := retention_days m; delete_cascade := false; deprecated_root_kind := None;
     deprecated_root_id := None; is_active := set_active k true m |}.

Definition _restore_entity_state (counts : odict Z) (k : key) : call (odict Z) :=
  e ← read (entity k.1 k.2);
  match e with
  | None => mret counts
  | Some m =>
      if negb (String.eqb (lifecycle_status m) "deprecated") then mret counts
      else
        _ ← write (alter_meta (restored_meta k.1) k.1 k.2);
        mret (bump (_resource_counter_key k.1) 1 counts)
  end.

Definition deprecated_under (root : key) (m : Meta) : bool :=
  String.eqb (lifecycle_status m) "deprecated" && bool_decide (deprecated_root_kind m = Some root.1) &&
  bool_decide (deprecated_root_id m = Some root.2).

Definition _find_cascaded_entity_ids (k : LifecycleKind) (root : key) (d : DB) : list Z :=
  List.filter (fun i => match entity k i d with
                        | Some m => deprecated_under root m && negb (Z.eqb i root.2)
                        | None => false
                        end) (entity_ids k d).

Definition restore_kind (root : key) (counts : odict Z) (k : LifecycleKind) : call (odict Z) :=
  ids ← read (_find_cascaded_entity_ids k root);
  fold_rows _restore_entity_state counts (map (pair k) ids).

Definition restore (k : LifecycleKind) (i : Z) : call LifecycleReport :=
  e ← read (entity k i);
  match e with
  | None => raise (ValueError "not_found")
  | Some _ =>
      counts ← _restore_entity_state [] (k, i);
      counts ← fold_rows (restore_kind (k, i)) counts all_kinds;
      mret {| rep_kind := k; rep_entity_id := i; rep_mode := "restore"; rep_status := "active";
              rep_details := [("restored_dependents"%string, JInt (foldr Z.add 0 (od_values counts)))];
              rep_migrated := []; rep_cascaded := []; rep_rbac_rules_removed := 0; rep_renamed := [];
              rep_restored := counts |}
  end.

(** ** Hard deletion *)
Definition deleted_report (k : LifecycleKind) (i : Z) (details : odict json) (migrated cascaded : odict Z)
    (removed : Z) (renamed : list (string * string)) : LifecycleReport :=
  {| rep_kind := k; rep_entity_id := i; rep_mode := "hard"; rep_status := "deleted"; rep_details := details;
     rep_migrated := migrated; rep_cascaded := cascaded; rep_rbac_rules_removed := removed;
     rep_renamed := renamed; rep_restored := [] |}.

Definition chats_of (u : Z) (d : DB) : list Z :=
  select_ids (fun _ r => Z.eqb (ch_owner_id (cols r)) u) (chats d).

Definition hard_delete_user (u : Z) : call LifecycleReport :=
  e ← read (fun d => users d !! u);
  match e with
  | None => raise (ValueError "not_found")
  | Some _ =>
      _ ← _assert_user_not_last_active_admin u;
      chats_count ← read (fun d => count_rows (fun c => Z.eqb (ch_owner_id c) u) (chats d));
      sandbox_count ← read (fun d => count_rows (fun s => Z.eqb (ss_owner_id s) u) (sandbox_sessions d));
      chat_ids ← read (chats_of u);
      _ ← for_each (fun c => _ ← delete_chat c u false; mret tt) chat_ids;
      removed ← remove_rules_for_owner (Some u) None;
      _ ← write (delete_user_row u);
      mret (deleted_report K_user u [] [] [("chats", chats_count); ("sandbox_sessions", sandbox_count)]%string
              removed [])
  end.

(** One user of a tenant that is deleted with its dependents *)
Definition delete_member (counts : odict Z) (u : Z) : call (odict Z) :=
  try_except
    (report ← hard_delete_user u;
     mret (bump "users" 1 (foldl (fun c kv => bump kv.1 kv.2 c) counts (rep_cascaded report))))
    (fun e => match e with ValueError _ => mret counts | _ => raise e end).

(** [delete_collection(coll_id)]: a slug is expected, and [coll_id] is the
    identifier.  Either the driver refuses to bind it to a text column, or no
    slug equals it. *)
Definition delete_collection_by_id (refused : bool) (counts : odict Z) (c : Z) : call (odict Z) :=
  try_except
    (_ ← (if refused then raise DBAPIError else mret false);
     mret (bump "collections" 1 counts))
    (fun _ => mret counts).

Definition sandboxes_of_tenant (t : Z) (d : DB) : list Z :=
  take 10000 (select_ids (fun _ r => Z.eqb (ss_tenant_id (cols r)) t) (sandbox_sessions d)).

Definition get_platform_default (d : DB) : option Z :=
  head (select_ids (fun _ r => is_platform_default (cols r)) (tenants d)).

Definition members_of (t : Z) (d : DB) : list Z :=
  map fst (join_rows ut_user_id (fun b => Z.eqb (ut_tenant_id b) t) (fun _ => None) (user_tenants d) (users d)).

Section Hard.
Variable refused : bool.   (** whether the driver refuses an identifier for a slug *)

Definition delete_or_migrate (t default : Z) (cascade : bool) : call (MigrationReport * odict Z) :=
  if cascade then
    user_ids ← read (members_of t);
    counts ← fold_rows delete_member [] user_ids;
    collection_ids ← read (collections_of t);
    counts ← fold_rows (delete_collection_by_id refused) counts collection_ids;
    mret ({| mr_migrated := []; renamed_collections := [] |}, counts)
  else
    report ← migrate_tenant_data uuid_str t default;
    mret (report, []).

Definition delete_sandbox (n : Z) (s : Z) : call Z :=
  deleted ← delete_session uuid_str s;
  mret (if deleted : bool then n + 1 else n).

Definition hard_delete_tenant (t : Z) (cascade : bool) : call LifecycleReport :=
  e ← read (fun d => tenants d !! t);
  match e with
  | None => raise (ValueError "not_found")
  | Some row =>
      if is_platform_default (cols row) then raise (ValueError "cannot_delete_default_tenant")
      else
        default ← read get_platform_default;
        match default with
        | None => raise (ValueError "platform_default_tenant_not_found")
        | Some default =>
            done ← delete_or_migrate t default cascade;
            sandbox_ids ← read (sandboxes_of_tenant t);
            sandbox_deleted ← fold_rows delete_sandbox 0 sandbox_ids;
            removed ← remove_rules_for_owner None (Some t);
            _ ← write (fun d => with_bindings d (filter (fun x => ut_tenant_id x.2 ≠ t)));
            _ ← delete_tenant_row t;
            mret (deleted_report K_tenant t
                    (if cascade then [] else [("migrated_to_tenant_id"%string, JStr (uuid_str default))])
                    (mr_migrated done.1)
                    (if 0 <? sandbox_deleted then bump "sandbox_sessions" sandbox_deleted done.2 else done.2)
                    removed (renamed_collections done.1))
        end
  end.

Definition hard_delete_collection (c : Z) : call LifecycleReport :=
  e ← read (fun d => collections d !! c);
  match e with
  | None => raise (ValueError "not_found")
  | Some row =>
      _ ← _remove_collection_from_agent_bindings c;
      removed ← remove_rules_for_resource "instance" c;
      deleted ← delete_collection (co_slug (cols row)) true;
      if deleted : bool
      then mret (deleted_report K_collection c [("table_dropped"%string, JBool true)] [] [] removed [])
      else raise (ValueError "not_found")
  end.

Definition hard_delete_agent (a : Z) : call LifecycleReport :=
  e ← read (fun d => agents d !! a);
  match e with
  | None => raise (ValueError "not_found")
  | Some _ =>
      removed ← remove_rules_for_resource "agent" a;
      _ ← delete_agent a;
      mret (deleted_report K_agent a [] [] [] removed [])
  end.

Definition hard_delete (k : LifecycleKind) (i : Z) (cascade : bool) : call LifecycleReport :=
  match k with
  | K_tenant => hard_delete_tenant i cascade
  | K_user => hard_delete_user i
  | K_collection => hard_delete_collection i
  | K_agent => hard_delete_agent i
  | _ =>
      e ← read (entity k i);
      match e with
      | None => raise (ValueError "not_found")
      | Some _ =>
          _ ← match k with
              | K_rbac_rule => delete_rule i
              | K_chat => delete_chat_row i
              | _ => _ ← delete_session uuid_str i; mret tt
              end;
          mret (deleted_report k i [] [] [] 0 [])
      end
  end.

(** ** The administrator's DELETE route *)
Inductive HttpError : Type :=
| RequiresForce (blocking : list DependencyEntry)   (** 409 *)
| Status (code : Z) (detail : string)
| Raised (e : Error).                               (** left to the application's handlers *)

Definition to_http (e : Error) : HttpError :=
  match e with
  | ValueError m =>
      if String.eqb m "not_found" then Status 404 m
      else if bool_decide (m ∈ ["cannot_delete_default_tenant"; "platform_default_tenant_not_found"; "last_admin"]%string)
      then Status 409 m
      else Status 400 m
  | e => Raised e
  end.

(** The unit of work of a request: committed when it returns, rolled back when it
    raises. *)
Definition request {A} (m : call A) (w : World) : (HttpError + A) * World :=
  match m w with
  | (Ok a, w') => (inr a, w')
  | (Err e, w') => (inl (to_http e), {| db := db w; readings := readings w' |})
  end.

Definition delete_entity (k : LifecycleKind) (i : Z) (soft force cascade : bool) (s : SoftDelete) (w : World)
    : (HttpError + LifecycleReport) * World :=
  if soft then request (soft_delete k i s cascade) w
  else
    let deps := get_dependencies k i false false false (db w) in
    let blocking := List.filter (fun e => String.eqb (dep_will_be e) "blocker") deps in
    if negb (bool_decide (blocking = [])) && negb force then (inl (RequiresForce blocking), w)
    else request (hard_delete k i cascade) w.

(** ** cleanup_deprecated_entities *)
Definition seconds_per_day : Z := 86400.

Definition expired (k : LifecycleKind) (at_ : Z) (d : DB) (i : Z) : bool :=
  match entity k i d with
  | None => false
  | Some m =>
      String.eqb (lifecycle_status m) "deprecated" &&
      match deprecated_at m with
      | None => false
      | Some since =>
          match deprecated_root_id m with None => true | Some r => Z.eqb r i end &&
          (since + retention_days m * seconds_per_day <=? at_)
      end && negb (is_default_tenant k i d)
  end.

Definition expired_ids (k : LifecycleKind) (at_ : Z) (d : DB) : list Z :=
  take 500 (List.filter (expired k at_ d) (entity_ids k d)).

(** One entity, in a transaction of its own *)
Definition purge (k : LifecycleKind) (acc : World * Z) (i : Z) : World * Z :=
  let (w, deleted) := acc in
  match entity k i (db w) with
  | None => acc
  | Some m =>
      match hard_delete k i (delete_cascade m) w with
      | (Ok _, w') => (w', deleted + 1)
      | (Err _, w') => ({| db := db w; readings := readings w' |}, deleted)
      end
  end.

Definition purge_kind (w : World) (k : LifecycleKind) : World * Z :=
  let at_ := clock (readings w) in
  let w := {| db := db w; readings := S (readings w) |} in
  foldl (purge k) (w, 0) (expired_ids k at_ (db w)).

Definition cleanup_kind (acc : World * odict Z) (k : LifecycleKind) : World * odict Z :=
  let r := purge_kind acc.1 k in (r.1, od_set (kind_str k) r.2 acc.2).

Definition cleanup_deprecated_entities (w : World) : World * odict Z := foldl cleanup_kind (w, []) all_kinds.
End Hard.
End Service.
