(* ===== verification/LifecycleProofs.v ===== *)
(** * Lemmas on the life cycle

    The relation [depends] between entities, the cascade expansion as its
    transitive closure, and what soft deletion and restoration do to an entity. *)
From S2P Require Import Prelude Entities EntitiesProofs Lifecycle.
Open Scope Z_scope.

(** ** Who depends on whom *)
Inductive depends (c : Columns) : key -> key -> Prop :=
| tenant_user t u b ut :
    c_bindings c !! b = Some ut -> ut_tenant_id ut = t -> ut_user_id ut = u -> is_Some (c_users c !! u) ->
    depends c (K_tenant, t) (K_user, u)
| tenant_collection t i r :
    c_collections c !! i = Some r -> co_tenant_id r = t -> depends c (K_tenant, t) (K_collection, i)
| tenant_sandbox t i r :
    c_sandboxes c !! i = Some r -> ss_tenant_id r = t -> depends c (K_tenant, t) (K_sandbox_session, i)
| tenant_rule t i r :
    c_rules c !! i = Some r -> owner_tenant_id r = Some t -> depends c (K_tenant, t) (K_rbac_rule, i)
| user_chat u i r :
    c_chats c !! i = Some r -> ch_owner_id r = u -> depends c (K_user, u) (K_chat, i)
| user_sandbox u i r :
    c_sandboxes c !! i = Some r -> ss_owner_id r = u -> depends c (K_user, u) (K_sandbox_session, i)
| user_rule u i r :
    c_rules c !! i = Some r -> owner_user_id r = Some u -> depends c (K_user, u) (K_rbac_rule, i)
| collection_rule x i r :
    c_rules c !! i = Some r -> resource_type r = "instance"%string -> resource_id r = x ->
    depends c (K_collection, x) (K_rbac_rule, i)
| agent_rule x i r :
    c_rules c !! i = Some r -> resource_type r = "agent"%string -> resource_id r = x ->
    depends c (K_agent, x) (K_rbac_rule, i).

(** The height of a kind in [depends] *)
Definition rank (k : LifecycleKind) : nat :=
  match k with K_tenant => 3 | K_user | K_collection | K_agent => 2 | _ => 1 end.

Lemma depends_rank c x y : depends c x y -> (rank y.1 < rank x.1)%nat.
Proof. destruct 1; simpl; lia. Qed.

Lemma tc_depends_rank c x y : tc (depends c) x y -> (rank y.1 < rank x.1)%nat.
Proof. induction 1 as [x y H|x y z H _ IH]; apply depends_rank in H; lia. Qed.

(** ** The queries for dependents *)
Section Closure.
Variable uuid_str : Z -> string.
Variable d : DB.
#[local] Abbreviation dep := (depends (columns d)).
#[local] Abbreviation direct k i := (_get_direct_dependencies uuid_str k i true d).

Lemma sample_all rows type : map de_uuid (_sample_entities uuid_str rows type None) = map fst rows.
Proof. unfold _sample_entities. rewrite map_map. by apply map_ext. Qed.

Lemma select_rows_spec {D} p (col : D -> option string) (t : Table D) i :
  i ∈ map fst (select_rows p col t) <-> exists r, (cols <$> t) !! i = Some r /\ p r = true.
Proof.
  rewrite <- (select_ids_spec (fun _ r => p r)). unfold select_rows, select_ids. by rewrite map_map.
Qed.

Lemma join_rows_spec {D} target p (col : D -> option string) m (t : Table D) i :
  i ∈ map fst (join_rows target p col m t) <->
  exists b ut, m !! b = Some ut /\ p ut = true /\ target ut = i /\ is_Some ((cols <$> t) !! i).
Proof.
  rewrite (list_elem_of_fmap fst). unfold join_rows. split.
  - intros ([j n] & -> & H). apply list_elem_of_omap in H as ([b ut] & Hb%elem_of_map_to_list & Hx). simpl in *.
    destruct (p ut) eqn:Hp; [|done]. destruct ((cols <$> t) !! target ut) eqn:Ht; simplify_eq/=.
    exists b, ut. rewrite Ht. eauto.
  - intros (b & ut & Hb & Hp & <- & [r Hr]). exists (target ut, col r). split; [done|].
    apply list_elem_of_omap. exists (b, ut). rewrite elem_of_map_to_list. simpl. by rewrite Hp, Hr.
Qed.

Lemma dependent_keys_app l1 l2 : dependent_keys (l1 ++ l2) = dependent_keys l1 ++ dependent_keys l2.
Proof. unfold dependent_keys. by rewrite bind_app. Qed.

Lemma dependent_keys_cons e l :
  dependent_keys (e :: l) =
  match RESOURCE_KIND_MAP (dep_resource_type e) with
  | Some k => map (fun e => (k, de_uuid e)) (dep_entities e)
  | None => []
  end ++ dependent_keys l.
Proof. done. Qed.

Lemma sample_keys (k k' : LifecycleKind) i rows type :
  (k', i) ∈ map (fun e => (k, de_uuid e)) (_sample_entities uuid_str rows type None) <->
  k' = k /\ i ∈ map fst rows.
Proof.
  rewrite (list_elem_of_fmap (fun e => (k, de_uuid e))). rewrite <- (sample_all rows type). split.
  - intros (e & [= -> ->] & He). split; [done|]. by apply (list_elem_of_fmap_2 de_uuid).
  - intros [-> (e & -> & He)%(list_elem_of_fmap de_uuid)]. by exists e.
Qed.

(** Turns the tests of the queries into equations. *)
Ltac tests_to_eqs :=
  repeat match goal with
  | H : _ ∧ _ |- _ => destruct H
  | H : _ ∨ _ |- _ => destruct H
  | H : ∃ _, _ |- _ => destruct H
  | H : (_ && _)%bool = true |- _ => apply andb_true_iff in H
  | H : (_ =? _) = true |- _ => apply Z.eqb_eq in H
  | H : String.eqb _ _ = true |- _ => apply String.eqb_eq in H
  | H : bool_decide _ = true |- _ => apply bool_decide_eq_true in H
  end.

Ltac find_disjunct :=
  lazymatch goal with
  | |- _ \/ _ => first [left; find_disjunct | right; find_disjunct]
  | |- _ => split; [reflexivity|]; do 2 try eexists; split_and?; try eassumption;
            rewrite ?andb_true_iff, ?Z.eqb_eq, ?String.eqb_eq, ?bool_decide_eq_true; by eauto
  end.

(** The direct dependencies name exactly the dependents. *)
Lemma direct_spec k i y : y ∈ dependent_keys (direct k i) <-> dep (k, i) y.
Proof.
  destruct y as [k' j], k; simpl; unfold _tenant_dependencies, _user_dependencies, resource_dependencies;
    try destruct (_is_last_active_admin i d); simpl; rewrite ?app_nil_r;
    rewrite ?elem_of_app, ?elem_of_nil, ?sample_keys, ?select_rows_spec, ?join_rows_spec.
  all: split; [intros; tests_to_eqs; subst; try done; by eauto using depends|].
  all: inversion 1; subst; find_disjunct.
Qed.

(** ** The expansion, with its two loops made one *)
Lemma dependent_keys_map f l :
  (forall e, dep_resource_type (f e) = dep_resource_type e /\ dep_entities (f e) = dep_entities e) ->
  dependent_keys (map f l) = dependent_keys l.
Proof.
  intros Hf. induction l as [|e l IH]; [done|]. simpl map. rewrite !dependent_keys_cons, IH.
  by destruct (Hf e) as [-> ->].
Qed.

Definition work_of (e : DependencyEntry) : list (DependencyEntry * LifecycleKind * DependencyEntity) :=
  match RESOURCE_KIND_MAP (dep_resource_type e) with
  | Some k => map (pair (e, k)) (dep_entities e)
  | None => []
  end.

Definition work_key (x : DependencyEntry * LifecycleKind * DependencyEntity) : key := (x.1.2, de_uuid x.2).

Lemma dependent_keys_work l : dependent_keys l = map work_key (l ≫= work_of).
Proof.
  induction l as [|e l IH]; [done|]. rewrite dependent_keys_cons, IH. simpl. rewrite map_app. f_equal.
  unfold work_of. destruct (RESOURCE_KIND_MAP _); [|done]. by rewrite map_map.
Qed.

Lemma expand_deps_work rec l acc :
  foldl (expand_dep uuid_str rec true d) acc l =
  foldl (fun acc x => expand_entity uuid_str rec true d x.1.1 x.1.2 acc x.2) acc (l ≫= work_of).
Proof.
  revert acc. induction l as [|e l IH]; intros acc; simpl; [done|]. rewrite foldl_app, <- IH. f_equal.
  unfold expand_dep, work_of. destruct (RESOURCE_KIND_MAP _) as [k|]; [|done].
  revert acc. induction (dep_entities e) as [|x xs IHx]; intros acc; simpl; [done|]. apply IHx.
Qed.

(** What the expansion of [l] from [seen] to [acc] guarantees: everything new
    is marked, the dependents of the marked are named, and what is named is
    marked and obeys every property that dependents inherit. *)
Record expanded (named : key -> Prop) (seen : gset key) (acc : list DependencyEntry * gset key) : Prop := {
  exp_seen : seen ⊆ acc.2;
  exp_named : forall x, named x -> x ∈ acc.2;
  exp_closed : forall x y, x ∈ acc.2 -> x ∉ seen -> dep x y -> y ∈ dependent_keys acc.1;
  exp_marked : forall y, y ∈ dependent_keys acc.1 -> y ∈ acc.2;
  exp_inherits : forall P : key -> Prop, (forall x y, P x -> dep x y -> P y) -> (forall x, named x -> P x) ->
    forall y, y ∈ dependent_keys acc.1 -> P y
}.

Lemma expand_entity_step rec seen named acc e k x :
  let children := dependent_keys (direct k (de_uuid x)) in
  (forall l v, (forall y, y ∈ dependent_keys l -> y ∈ children) -> expanded (.∈ dependent_keys l) v (rec l v)) ->
  expanded named seen acc ->
  expanded (fun y => named y \/ y = (k, de_uuid x)) seen (expand_entity uuid_str rec true d e k acc x).
Proof.
  intros children Hrec [H1 H2 H3 H4 H5]. unfold expand_entity. destruct (decide _) as [Hin|Hin].
  { split; [done| |done|done|]; [intros y [Hy| ->]; auto|]. intros P HP Hn. apply H5; auto. }
  set (parent := {| cp_kind := _ |}). set (kids := map (with_parent parent) (direct k (de_uuid x))).
  assert (dependent_keys kids = children) as Hk by (by apply dependent_keys_map).
  destruct (Hrec kids ({[(k, de_uuid x)]} ∪ acc.2)) as [G1 G2 G3 G4 G5]; [by rewrite Hk|].
  split; simpl; rewrite ?dependent_keys_app, ?Hk.
  - set_solver.
  - intros y [Hy| ->]; set_solver.
  - intros y z Hy Hs Hd. rewrite ?dependent_keys_app, ?Hk, !elem_of_app. destruct (decide (y = (k, de_uuid x))) as [->|Hne].
    { right; left. by apply direct_spec. }
    destruct (decide (y ∈ acc.2)); [left; by eapply H3|]. right; right. eapply G3; [done| |done]. set_solver.
  - intros y. rewrite ?dependent_keys_app, ?Hk, !elem_of_app. intros [Hy|[Hy|Hy]]; [| |by apply G4].
    + apply G1. set_solver.
    + apply G2. by rewrite Hk.
  - intros P HP Hn y. rewrite ?dependent_keys_app, ?Hk, !elem_of_app. 
    assert (forall z, z ∈ children -> P z) as Hc.
    { intros z Hz%direct_spec. eapply HP; [|done]. auto. }
    intros [Hy|[Hy|Hy]]; [apply (H5 P HP); auto|auto|]. apply (G5 P HP); [|done]. by rewrite Hk.
Qed.

Lemma expand_spec depth l seen :
  (forall y, y ∈ dependent_keys l -> (rank y.1 <= depth)%nat) ->
  expanded (.∈ dependent_keys l) seen (_expand_cascade_dependencies uuid_str depth true d l seen).
Proof.
  revert l seen. induction depth as [|depth IH]; intros l seen Hl; simpl.
  { split; simpl; try set_solver. intros x Hx. specialize (Hl x Hx). destruct x as [[] ?]; simpl in Hl; lia. }
  rewrite expand_deps_work. rewrite dependent_keys_work in *.
  set (step := fun acc x => _).
  enough (forall done rest acc, l ≫= work_of = done ++ rest -> expanded (.∈ map work_key done) seen acc ->
    expanded (.∈ map work_key (l ≫= work_of)) seen (foldl step acc rest)) as H.
  { apply (H [] (l ≫= work_of)); [done|]. split; simpl; set_solver. }
  intros done rest. revert done. induction rest as [|x rest IHr]; intros done acc Hd Hacc; simpl.
  { rewrite app_nil_r in Hd. by rewrite Hd. }
  apply (IHr (done ++ [x])); [by rewrite <- app_assoc|]. unfold step at 1.
  assert (x ∈ l ≫= work_of) as Hx by (rewrite Hd; set_solver).
  assert (rank x.1.2 <= S depth)%nat as Hr.
  { apply (Hl (work_key x)). by apply (list_elem_of_fmap_2 work_key). }
  assert (forall y, y ∈ map work_key (done ++ [x]) <-> y ∈ map work_key done \/ y = work_key x) as Hn.
  { intros y. rewrite map_app. set_solver. }
  eapply expand_entity_step in Hacc as [G1 G2 G3 G4 G5].
  - split; [done| |done|done|].
    + intros y Hy%Hn. apply G2. exact Hy.
    + intros P HP HnP. apply (G5 P HP). intros y Hy. apply HnP, Hn. exact Hy.
  - intros l' v Hv. apply IH. intros y Hy%Hv%direct_spec%depends_rank. simpl in Hy. lia.
Qed.

(** The cascade names the transitive dependents and nothing else. *)
Lemma cascade_closure k i soft y :
  y ∈ dependent_keys (get_dependencies uuid_str k i soft true true d) <-> tc dep (k, i) y.
Proof.
  unfold get_dependencies, _apply_dependency_mode_semantics. rewrite dependent_keys_map; cycle 1.
  { intros e. unfold normalized. by repeat case_match. }
  rewrite dependent_keys_app, elem_of_app.
  destruct (expand_spec cascade_depth (direct k i) {[(k, i)]}) as [H1 H2 H3 H4 H5];
    [|generalize dependent (_expand_cascade_dependencies uuid_str cascade_depth true d (direct k i) {[(k, i)]})].
  { intros z Hz%direct_spec%depends_rank. destruct k; simpl in *; unfold cascade_depth; lia. }
  intros [found marked] H1 H2 H3 H4 H5. split.
  - intros [Hy|Hy]; [by apply tc_once, direct_spec|].
    apply (H5 (tc dep (k, i))); [intros x z Hx Hd; by eapply tc_r| |done]. intros x Hx. by apply tc_once, direct_spec.
  - set (named z := z ∈ dependent_keys (direct k i) \/ z ∈ dependent_keys found).
    assert (forall x z, x = (k, i) \/ named x -> dep x z -> named z) as Hstep.
    { intros x z Hx Hd. destruct (decide (x = (k, i))) as [->|Hne]; [left; by apply direct_spec|].
      right. apply (H3 x z); [|by rewrite elem_of_singleton|done]. destruct Hx as [|[]]; [done|by apply H2|by apply H4]. }
    intros Hy. assert (forall x, tc dep x y -> x = (k, i) \/ named x -> named y) as H; [|by apply (H _ Hy); left].
    clear Hy. intros x Hy. induction Hy as [x y Hy|x z y Hy _ IH]; intros Hx; [by eapply Hstep|].
    apply IH. right. by eapply Hstep.
Qed.
End Closure.

(** ** One entity *)
Abbreviation entity_at x d := (entity (fst x) (snd x) d).

Section Ops.
Variable uuid_str : Z -> string.
Variable clock : nat -> Z.

(** How soft deletion with root [root] changes the life cycle of [x]. *)
Definition soft_deleted (s : SoftDelete) (cascade : bool) (root x : key) (m m' : Meta) : Prop :=
  if String.eqb (lifecycle_status m) "deprecated"
  then m' = if bool_decide (x = root) then redeprecated_meta s cascade m else m
  else exists n, m' = deprecated_meta x.1 (clock n) s cascade root m.

(** [x] alone changes, as [R] says. *)
Definition changed_at (R : Meta -> Meta -> Prop) (x : key) (d d' : DB) : Prop :=
  columns d' = columns d /\
  option_Forall2 R (entity_at x d) (entity_at x d') /\
  forall y, y ≠ x -> entity_at y d' = entity_at y d.

Lemma changed_alter (R : Meta -> Meta -> Prop) f x d :
  (forall m, entity_at x d = Some m -> R m (f m)) -> changed_at R x d (alter_meta f x.1 x.2 d).
Proof.
  intros HR. split; [apply columns_alter|]. split.
  - rewrite entity_alter_eq. destruct (entity x.1 x.2 d) as [m|] eqn:Hm; simpl; constructor. by apply HR.
  - intros y Hy. apply entity_alter_ne. by destruct x, y.
Qed.

Lemma changed_none R x d : entity_at x d = None -> changed_at R x d d.
Proof. intros H. split; [done|]. split; [|done]. rewrite H. constructor. Qed.

Lemma apply_deprecated_ok s cascade root x counts w :
  is_default_tenant x.1 x.2 (db w) = false ->
  exists r w', _apply_deprecated_state clock x.1 x.2 s cascade root counts w = (Ok r, w') /\
    (is_Some counts -> is_Some r.2) /\ changed_at (soft_deleted s cascade root x) x (db w) (db w').
Proof.
  intros Hd. unfold _apply_deprecated_state, read, mbind, py_bind.
  destruct (entity x.1 x.2 (db w)) as [m|] eqn:Hm; [|eexists _, _; split; [done|split; [done|by apply changed_none]]].
  rewrite Hd. destruct (String.eqb (lifecycle_status m) "deprecated") eqn:Hs.
  - rewrite <- (surjective_pairing x). case_bool_decide as Hroot; simpl; eexists _, _; (split; [done|]); (split; [done|]).
    + apply changed_alter. intros m' Hm'. rewrite Hm in Hm'. injection Hm' as <-.
      unfold soft_deleted. by rewrite Hs, bool_decide_true.
    + split; [done|]. split; [|done]. rewrite Hm. constructor. unfold soft_deleted. by rewrite Hs, bool_decide_false.
  - simpl. eexists _, _. split; [done|]. split; [intros [c ->]; simpl; eauto|].
    apply (changed_alter _ (deprecated_meta x.1 (clock (readings w)) s cascade root)).
    intros m' Hm'. rewrite Hm in Hm'. injection Hm' as <-. unfold soft_deleted. rewrite Hs. eauto.
Qed.

(** The keys of [X], apart from the root, have changed as [soft_deleted] says. *)
Definition all_deprecated (s : SoftDelete) (cascade : bool) (root : key) (X : key -> Prop) (d d' : DB) : Prop :=
  columns d' = columns d /\
  (forall x, X x -> option_Forall2 (soft_deleted s cascade root x) (entity_at x d) (entity_at x d')) /\
  (forall x, ~ X x -> entity_at x d' = entity_at x d).

Lemma deprecate_dependents_ok s root l c w :
  (forall x, x ∈ l -> x.1 ≠ K_tenant) ->
  exists r w', fold_rows (deprecate_dependent clock s root) (Some c, {[root]}) l w = (Ok r, w') /\
    is_Some r.1 /\ all_deprecated s true root (fun x => x ∈ l /\ x ≠ root) (db w) (db w').
Proof.
  intros Hl.
  destruct (fold_rows_total (deprecate_dependent clock s root)
    (fun done acc w1 => is_Some acc.1 /\ acc.2 = list_to_set (root :: done) /\
       all_deprecated s true root (fun x => x ∈ done /\ x ≠ root) (db w) (db w1)) l (Some c, {[root]}) w)
    as (r & w' & Hf & Hc & _ & H); [| |by exists r, w'].
  { split; [done|]. split; [set_solver|]. split; [done|]. split; [set_solver|done]. }
  intros done x rest [counts seen] w1 -> (Hc & Hseen & Hcol & Hin & Hout). simpl in *. subst seen.
  unfold deprecate_dependent. simpl. destruct (decide _) as [Hx|Hx].
  { eexists _, _. split; [done|]. split; [done|]. simpl. split; [set_solver|]. split; [done|].
    split; [intros y Hy; apply Hin|intros y Hy; apply Hout]; set_solver. }
  destruct (apply_deprecated_ok s true root x counts w1) as (r & w2 & Hr & Hc2 & Hcol2 & Hx2 & Hout2).
  { unfold is_default_tenant. specialize (Hl x ltac:(set_solver)). by destruct (x.1). }
  eexists _, _. split; [by rewrite (bind_run_Ok _ _ _ _ _ Hr)|]. simpl. split; [by apply Hc2|].
  split; [set_solver|]. split; [by rewrite Hcol2|]. split.
  - intros y [Hy Hyr]. destruct (decide (y = x)) as [->|Hne].
    + rewrite <- (Hout x); [done|set_solver].
    + rewrite Hout2 by done. apply Hin. set_solver.
  - intros y Hy. destruct (decide (y = x)) as [->|Hne]; [set_solver|]. rewrite Hout2 by done. apply Hout. set_solver.
Qed.

(** ** Soft deletion *)
Definition cascade_scope (cascade : bool) (c : Columns) (root x : key) : Prop :=
  x = root \/ (cascade = true /\ tc (depends c) root x).

Lemma soft_delete_ok k i s cascade w m :
  entity k i (db w) = Some m -> is_default_tenant k i (db w) = false ->
  exists rep w', soft_delete uuid_str clock k i s cascade w = (Ok rep, w') /\
    all_deprecated s cascade (k, i) (cascade_scope cascade (columns (db w)) (k, i)) (db w) (db w').
Proof.
  intros Hm Hd. unfold soft_delete. rewrite (bind_run_Ok _ _ _ _ _ (eq_refl : read _ w = (Ok _, w))). rewrite Hm.
  destruct (apply_deprecated_ok s cascade (k, i) (k, i) None w Hd) as (r & w1 & Hr & _ & Hc1 & Hx1 & Ho1).
  simpl in Hr. rewrite (bind_run_Ok _ _ _ _ _ Hr). destruct cascade; cycle 1.
  { eexists _, w1. split; [reflexivity|]. split; [done|]. unfold cascade_scope. split.
    - by intros x [->|[? _]].
    - intros x Hx. apply Ho1. tauto. }
  assert (forall x, x ∈ dependent_keys (get_dependencies uuid_str k i true true true (db w1)) <->
    tc (depends (columns (db w))) (k, i) x) as Hdeps by (intros x; rewrite cascade_closure, Hc1; done).
  destruct (deprecate_dependents_ok s (k, i) (dependent_keys (get_dependencies uuid_str k i true true true (db w1)))
    [] w1) as (r2 & w2 & Hr2 & _ & Hc2 & Hin & Hout).
  { intros x Hx%Hdeps%tc_depends_rank Hk. rewrite Hk in Hx. destruct k; simpl in Hx; lia. }
  erewrite bind_run_Ok; cycle 1.
  { rewrite (bind_run_Ok _ _ _ _ _ (eq_refl : read _ w1 = (Ok _, w1))). by rewrite (bind_run_Ok _ _ _ _ _ Hr2). }
  eexists _, w2. split; [reflexivity|]. split; [by rewrite Hc2|].
  assert (forall x, tc (depends (columns (db w))) (k, i) x -> x ≠ (k, i)) as Hne.
  { intros x Hx%tc_depends_rank ->. lia. }
  unfold cascade_scope. split.
  - intros x [->|[_ Hx]]; [rewrite Hout; [done|intros [_ []]; done]|].
    rewrite <- (Ho1 x) by auto. apply Hin. split; [by apply Hdeps|auto].
  - intros x Hx. rewrite Hout; [apply Ho1; tauto|]. intros [Hx'%Hdeps _]. tauto.
Qed.

Lemma soft_delete_missing k i s cascade w :
  entity k i (db w) = None -> soft_delete uuid_str clock k i s cascade w = (Err (ValueError "not_found"), w).
Proof.
  intros Hm. unfold soft_delete. rewrite (bind_run_Ok _ _ w None w); [done|]. unfold read. by rewrite Hm.
Qed.

Lemma soft_delete_default k i s cascade w m :
  entity k i (db w) = Some m -> is_default_tenant k i (db w) = true ->
  soft_delete uuid_str clock k i s cascade w = (Err (ValueError "cannot_delete_default_tenant"), w).
Proof.
  intros Hm Hd. unfold soft_delete. rewrite (bind_run_Ok _ _ w (Some m) w) by (unfold read; by rewrite Hm).
  rewrite (bind_run_Err _ _ w (ValueError "cannot_delete_default_tenant") w); [done|].
  unfold _apply_deprecated_state. rewrite (bind_run_Ok _ _ w (Some m) w) by (unfold read; by rewrite Hm).
  rewrite (bind_run_Ok _ _ w true w); [done|]. unfold read. by rewrite Hd.
Qed.

End Ops.

(** ** Restoration *)
Definition restore_meta (k : LifecycleKind) (m : Meta) : Meta :=
  if String.eqb (lifecycle_status m) "deprecated" then restored_meta k m else m.

Lemma restore_entity_ok counts x w :
  exists counts' w', _restore_entity_state counts x w = (Ok counts', w') /\ columns (db w') = columns (db w) /\
    forall y, entity_at y (db w') =
              if decide (y = x) then restore_meta y.1 <$> entity_at y (db w) else entity_at y (db w).
Proof.
  unfold _restore_entity_state, read, mbind, py_bind.
  assert (restore_meta x.1 <$> entity_at x (db w) = entity_at x (db w) ->
    forall y, entity_at y (db w) = if decide (y = x) then restore_meta y.1 <$> entity_at y (db w)
                                   else entity_at y (db w)) as Hsame.
  { intros Hr y. by destruct (decide (y = x)) as [->|]. }
  destruct (entity x.1 x.2 (db w)) as [m|] eqn:Hm; [|by eexists _, _; split; [done|]; eauto].
  destruct (String.eqb (lifecycle_status m) "deprecated") eqn:Hs; simpl; cycle 1.
  { eexists _, _. split; [done|]. split; [done|]. apply Hsame. simpl. unfold restore_meta. by rewrite Hs. }
  eexists _, _. split; [done|]. split; [apply columns_alter|]. intros y. simpl. rewrite entity_alter.
  rewrite <- !surjective_pairing. destruct (decide (y = x)) as [->|]; [|done]. rewrite Hm. simpl. unfold restore_meta.
  by rewrite Hs.
Qed.

Lemma restore_meta_twice k m : restore_meta k (restore_meta k m) = restore_meta k m.
Proof. unfold restore_meta. destruct (String.eqb (lifecycle_status m) "deprecated") eqn:E; [done|by rewrite E]. Qed.

Lemma restore_list_ok l counts w :
  exists counts' w', fold_rows _restore_entity_state counts l w = (Ok counts', w') /\
    columns (db w') = columns (db w) /\
    forall y, entity_at y (db w') =
              if decide (y ∈ l) then restore_meta y.1 <$> entity_at y (db w) else entity_at y (db w).
Proof.
  revert counts w. induction l as [|x l IH]; intros counts w; simpl; [by eexists _, _|].
  destruct (restore_entity_ok counts x w) as (c1 & w1 & H1 & Hc1 & Hy1). rewrite (bind_run_Ok _ _ _ _ _ H1).
  destruct (IH c1 w1) as (c2 & w2 & H2 & Hc2 & Hy2). exists c2, w2. split; [done|]. split; [by rewrite Hc2|].
  intros y. rewrite Hy2, Hy1. destruct (decide (y = x)) as [->|Hne].
  - rewrite (decide_True (P := x ∈ x :: l)) by left. case_decide; [|done].
    rewrite <- option_fmap_compose. destruct (entity x.1 x.2 (db w)); simpl; [|done]. by rewrite restore_meta_twice.
  - repeat case_decide; set_solver.
Qed.

Definition restores (root : key) (kinds : list LifecycleKind) (x : key) (m : Meta) : bool :=
  bool_decide (x = root) ||
  (bool_decide (x.1 ∈ kinds) && deprecated_under root m && negb (Z.eqb x.2 root.2)).

Definition all_restored (root : key) (kinds : list LifecycleKind) (d d' : DB) : Prop :=
  columns d' = columns d /\
  forall x, entity_at x d' = (fun m => if restores root kinds x m then restore_meta x.1 m else m) <$> entity_at x d.

Lemma restore_kind_ok root kinds k counts w d0 :
  k ∉ kinds -> all_restored root kinds d0 (db w) ->
  exists counts' w', restore_kind root counts k w = (Ok counts', w') /\ all_restored root (kinds ++ [k]) d0 (db w').
Proof.
  intros Hk [Hc0 H0]. unfold restore_kind. rewrite (bind_run_Ok _ _ _ _ _ (eq_refl : read _ w = (Ok _, w))).
  destruct (restore_list_ok (map (pair k) (_find_cascaded_entity_ids k root (db w))) counts w)
    as (c1 & w1 & H1 & Hc1 & Hy1).
  exists c1, w1. split; [done|]. split; [by rewrite Hc1|]. intros [k' i]. rewrite Hy1. simpl.
  assert ((k', i) ∈ map (pair k) (_find_cascaded_entity_ids k root (db w)) <->
    k' = k /\ exists m, entity k i (db w) = Some m /\ deprecated_under root m = true /\ i ≠ root.2) as Hin.
  { rewrite (list_elem_of_fmap (pair k)). unfold _find_cascaded_entity_ids. split.
    - intros (j & [= -> <-] & [_ Hj]%elem_of_List_filter). split; [done|].
      destruct (entity k i (db w)) as [m|]; [|done]. apply andb_true_iff in Hj as [Hj ?%negb_true_iff%Z.eqb_neq]. eauto.
    - intros [-> (m & Hm & Hu & Hi)]. exists i. split; [done|]. apply elem_of_List_filter.
      rewrite Hm, Hu, (proj2 (Z.eqb_neq _ _) Hi). split; [apply entity_ids_spec; eauto|done]. }
  specialize (H0 (k', i)). simpl in H0. unfold restores in *. simpl in *.
  destruct (entity k' i d0) as [m|] eqn:Hm; simpl in H0; rewrite H0; [|by destruct (decide _)].
  destruct (decide ((k', i) ∈ _)) as [Hd|Hd].
  - apply Hin in Hd as [-> (m' & Hm' & Hu & Hi)]. simpl. f_equal. rewrite H0 in Hm'. injection Hm' as <-.
    rewrite (bool_decide_false (k ∈ kinds)) in * by done. rewrite (bool_decide_true (k ∈ kinds ++ [k])) by set_solver.
    simpl in *. rewrite orb_false_r in *. destruct (bool_decide _) eqn:Hroot; simpl; [by apply restore_meta_twice|].
    by rewrite Hu, (proj2 (Z.eqb_neq _ _) Hi).
  - simpl. destruct (bool_decide ((k', i) = root)) eqn:Hroot; simpl in *; [done|].
    destruct (decide (k' = k)) as [->|Hne]; cycle 1.
    { rewrite (bool_decide_ext (k' ∈ kinds ++ [k]) (k' ∈ kinds)) by set_solver. done. }
    rewrite (bool_decide_false (k ∈ kinds)) in * by done. rewrite (bool_decide_true (k ∈ kinds ++ [k])) by set_solver.
    simpl in *. destruct (deprecated_under root m) eqn:Hu; simpl; [|done].
    destruct (Z.eqb i root.2) eqn:Hi; simpl; [done|]. destruct Hd. apply Hin. split; [done|].
    exists m. by apply Z.eqb_neq in Hi.
Qed.

Lemma restore_ok k i w m :
  entity k i (db w) = Some m ->
  exists rep w', restore k i w = (Ok rep, w') /\ all_restored (k, i) all_kinds (db w) (db w').
Proof.
  intros Hm. unfold restore. rewrite (bind_run_Ok _ _ _ _ _ (eq_refl : read _ w = (Ok _, w))). rewrite Hm.
  destruct (restore_entity_ok [] (k, i) w) as (c1 & w1 & H1 & Hc1 & Hy1). rewrite (bind_run_Ok _ _ _ _ _ H1).
  destruct (fold_rows_total (restore_kind (k, i)) (fun done _ w' => all_restored (k, i) done (db w) (db w'))
    all_kinds c1 w1) as (c2 & w2 & H2 & Hall).
  { split; [done|]. intros x. rewrite Hy1. unfold restores. simpl. rewrite orb_false_r.
    destruct (decide (x = (k, i))) as [->|Hne]; [by rewrite bool_decide_true|rewrite bool_decide_false by done].
    by destruct (entity x.1 x.2 (db w)). }
  { intros done x rest a w' Hl Hw'. apply (restore_kind_ok _ _ _ _ _ _) with (2 := Hw').
    assert (NoDup all_kinds) as Hnd by (apply (bool_decide_unpack _); by vm_compute).
    rewrite Hl in Hnd. apply NoDup_app in Hnd as (_ & Hnd & _). intros Hx. by apply (Hnd x Hx); left. }
  rewrite (bind_run_Ok _ _ _ _ _ H2). by eexists _, w2.
Qed.
