(* ===== verification/LifecycleSafety.v ===== *)
(** * What deletions leave alone

    A projection of the database that ignores the dependent tables is kept by the
    services that delete rows ([Detached]); tenants, users, the slugs of
    collections and the identifiers of agents are such projections.  From this:
    what the deletion of an entity and the periodic cleanup cannot do. *)
From S2P Require Import Prelude Entities EntitiesProofs MigrationProofs Lifecycle LifecycleProofs.
Open Scope Z_scope.

(** ** Frames *)
Definition kept {A} (p : DB -> A) : relation World := fun w w' => p (db w') = p (db w).

#[export] Instance kept_preorder {A} (p : DB -> A) : PreOrder (kept p).
Proof. split; [done|]. intros w1 w2 w3 H1 H2. unfold kept in *. congruence. Qed.

Abbreviation keeps p := (preserves (kept p)).

Lemma keeps_write {A} (p : DB -> A) f : (forall d, p (f d) = p d) -> keeps p (write f).
Proof. intros Hf. apply preserves_modify. intros w. apply Hf. Qed.

Lemma keeps_read {A B} (p : DB -> A) (f : DB -> B) : keeps p (read f).
Proof. by apply preserves_keep; [apply _|]. Qed.

(** Splits the frame of a computation into those of its parts. *)
Ltac frame_step :=
  match goal with
  | |- preserves _ (mret _) => by (apply preserves_keep; [apply _|])
  | |- preserves _ (raise _) => by (apply preserves_keep; [apply _|])
  | |- preserves _ (read _) => by (apply preserves_keep; [apply _|])
  | |- preserves _ (_ ≫= _) => apply preserves_bind; [apply _| |intros ?]
  | |- preserves _ (fold_rows _ _ _) => apply preserves_fold_rows; [apply _|intros ? ?]
  | |- preserves _ (for_each _ _) => apply preserves_for_each; [apply _|intros ?]
  | |- preserves _ (try_except _ _) => apply preserves_try; [apply _| |intros ?]
  | |- preserves _ (write _) => apply keeps_write; intros ?
  | |- preserves _ (if ?b then _ else _) => destruct b
  | |- preserves _ (match ?x with _ => _ end) => destruct x
  end.
Create HintDb frames.
Ltac frame := repeat first [solve [auto 3 with frames nocore] | frame_step].

(** A projection that ignores rules, chats and sandboxes *)
Class Independent {A} (p : DB -> A) : Prop := {
  no_rules : forall d f, p (with_rules d f) = p d;
  no_chats : forall d f, p (with_chats d f) = p d;
  no_sandboxes : forall d f, p (with_sandboxes d f) = p d
}.

Section Independent.
Context {A} (p : DB -> A) `{!Independent p}.
Variable uuid_str : Z -> string.

Lemma keeps_delete_rules q : keeps p (delete_rules q).
Proof. unfold delete_rules. frame. apply no_rules. Qed.
#[local] Hint Resolve keeps_delete_rules : frames.

Lemma keeps_rules_for_owner u t : keeps p (remove_rules_for_owner u t).
Proof. unfold remove_rules_for_owner. frame; apply keeps_delete_rules. Qed.

Lemma keeps_delete_chat c o b : keeps p (delete_chat c o b).
Proof. unfold delete_chat, delete_chat_row. frame. apply no_chats. Qed.
#[local] Hint Resolve keeps_delete_chat : frames.

Lemma keeps_delete_session s : keeps p (delete_session uuid_str s).
Proof.
  unfold delete_session, delete_sandbox_row. frame. apply no_sandboxes.
Qed.
#[local] Hint Resolve keeps_delete_session : frames.

Lemma keeps_delete_sandbox n s : keeps p (delete_sandbox uuid_str n s).
Proof. unfold delete_sandbox. frame. Qed.
End Independent.

#[export] Hint Resolve keeps_delete_rules keeps_rules_for_owner keeps_delete_chat keeps_delete_session
  keeps_delete_sandbox : frames.

(** ... and bindings and owned rows *)
Class Detached {A} (p : DB -> A) : Prop := {
  detached_independent :: Independent p;
  no_bindings : forall d f, p (with_bindings d f) = p d;
  no_owned : forall d f, p (with_owned d f) = p d
}.

#[export] Hint Extern 1 (Independent _) => apply _ : frames.
#[export] Hint Extern 1 (Detached _) => apply _ : frames.

Section Detached.
Context {A} (p : DB -> A) `{!Detached p}.
Variable uuid_str : Z -> string.

Lemma keeps_user_tenants from to : keeps p (_migrate_user_tenants from to).
Proof. unfold _migrate_user_tenants, _migrate_user_tenant. frame; apply no_bindings. Qed.
#[local] Hint Resolve keeps_user_tenants : frames.

Lemma keeps_reassign model from to : keeps p (_bulk_reassign model from to).
Proof. unfold _bulk_reassign. frame. apply no_owned. Qed.
#[local] Hint Resolve keeps_reassign : frames.

(** Migration, apart from what it does to collections *)
Lemma keeps_migrate from to :
  (forall acc l, keeps p (fold_rows (_migrate_collection uuid_str from to) acc l)) ->
  keeps p (migrate_tenant_data uuid_str from to).
Proof.
  intros Hc. unfold migrate_tenant_data, _migrate_collections.
  frame.
Qed.
#[local] Hint Resolve keeps_migrate : frames.

(** Deletion of a user, when the projection does not see the row *)
Lemma keeps_hard_delete_user u :
  (forall d, p (delete_user_row u d) = p d) -> keeps p (hard_delete_user u).
Proof.
  intros Hu. unfold hard_delete_user, _assert_user_not_last_active_admin. frame.
Qed.
#[local] Hint Resolve keeps_hard_delete_user : frames.

Lemma keeps_delete_member counts u :
  (forall d, p (delete_user_row u d) = p d) -> keeps p (delete_member counts u).
Proof. intros Hu. unfold delete_member. frame. Qed.
#[local] Hint Resolve keeps_delete_member : frames.

Lemma keeps_delete_by_id refused counts c : keeps p (delete_collection_by_id refused counts c).
Proof. unfold delete_collection_by_id. frame. Qed.
#[local] Hint Resolve keeps_delete_by_id : frames.
End Detached.

#[export] Hint Resolve keeps_user_tenants keeps_reassign keeps_migrate keeps_hard_delete_user keeps_delete_member
  keeps_delete_by_id : frames.

(** ** The projections *)
(** A life cycle without the administrator who ended it, which ON DELETE SET NULL
    may clear *)
Definition anon (m : Meta) : Meta :=
  {| lifecycle_status := lifecycle_status m; deprecated_at := deprecated_at m; deprecated_by := None;
     deprecated_reason := deprecated_reason m; retention_days := retention_days m;
     delete_cascade := delete_cascade m; deprecated_root_kind := deprecated_root_kind m;
     deprecated_root_id := deprecated_root_id m; is_active := is_active m |}.

Definition view {D} (r : Row D) : D * Meta := (cols r, anon (meta r)).
Definition tenants_view (d : DB) : gmap Z (Tenant * Meta) := view <$> tenants d.
Definition users_view (d : DB) : gmap Z (User * Meta) := view <$> users d.
Definition agent_ids (d : DB) : gset Z := dom (agents d).

#[export] Instance tenants_detached : Detached tenants_view.
Proof. by repeat split. Qed.
#[export] Instance users_detached : Detached users_view.
Proof. by repeat split. Qed.
#[export] Instance agents_detached : Detached agent_ids.
Proof. by repeat split. Qed.
#[export] Instance slugs_detached : Detached slugs.
Proof. by repeat split. Qed.
#[export] Instance detached_compose {A B} (f : A -> B) (p : DB -> A) :
  Detached p -> Detached (fun d => f (p d)).
Proof.
  intros [[H1 H2 H3] H4 H5]. repeat split; intros d g; f_equal; [apply H1|apply H2|apply H3|apply H4|apply H5].
Qed.

Lemma view_map_meta {D} u (t : Table D) : view <$> (row_meta (forget_deprecator u) <$> t) = view <$> t.
Proof. rewrite <- map_fmap_compose. by apply map_fmap_ext. Qed.

Lemma tenants_delete_user u d : tenants_view (delete_user_row u d) = tenants_view d.
Proof. apply view_map_meta. Qed.

Lemma users_delete_user u d : users_view (delete_user_row u d) = delete u (users_view d).
Proof. unfold users_view. simpl. rewrite view_map_meta. apply fmap_delete. Qed.

Lemma slugs_delete_user u d : slugs (delete_user_row u d) = slugs d.
Proof. unfold slugs. simpl. rewrite <- map_fmap_compose. by apply map_fmap_ext. Qed.

Lemma agents_delete_user u d : agent_ids (delete_user_row u d) = agent_ids d.
Proof. apply dom_fmap_L. Qed.

Lemma tenants_delete_tenant t d : tenants_view (cascade_tenant t d) = delete t (tenants_view d).
Proof. apply fmap_delete. Qed.

(** ** Deletion of one entity *)
Section Ops.
Variable uuid_str : Z -> string.
Variable clock : nat -> Z.
Variable refused : bool.
#[local] Abbreviation hard_delete := (hard_delete uuid_str refused).
#[local] Abbreviation hard_delete_tenant := (hard_delete_tenant uuid_str refused).

(** Deletion of a tenant, for a projection that sees neither its row nor its users' *)
Lemma keeps_tenant_row {A} (p : DB -> A) `{!Detached p} t cascade :
  (forall u d, p (delete_user_row u d) = p d) -> (forall d, p (cascade_tenant t d) = p d) ->
  (forall to acc l, keeps p (fold_rows (_migrate_collection uuid_str t to) acc l)) ->
  keeps p (hard_delete_tenant t cascade).
Proof.
  intros Hu Ht Hc. unfold Lifecycle.hard_delete_tenant, delete_or_migrate, delete_tenant_row.
  frame. apply no_bindings.
Qed.

Lemma keeps_migrate_collections {A} (p : DB -> A) from to acc l :
  (forall d f, p (with_collections d f) = p d) ->
  keeps p (fold_rows (_migrate_collection uuid_str from to) acc l).
Proof.
  intros Hp. apply preserves_fold_rows; [apply _|intros [n renamed] id]. unfold _migrate_collection. frame.
  enough (forall fuel short original suffix target,
    keeps p (free_slug fuel to short original id suffix target)) as H by apply H.
  induction fuel as [|fuel IH]; intros; simpl; frame.
Qed.

(** *** Tenants *)
Lemma hard_delete_tenant_view t cascade : keeps (fun d => delete t (tenants_view d)) (hard_delete_tenant t cascade).
Proof.
  apply (keeps_tenant_row (fun d => delete t (tenants_view d))).
  - intros u d. by rewrite tenants_delete_user.
  - intros d. rewrite tenants_delete_tenant. by rewrite delete_delete_eq.
  - intros to acc l. by apply keeps_migrate_collections.
Qed.

Lemma keeps_others {A} (p : DB -> A) `{!Detached p} k i cascade :
  k ≠ K_tenant -> (forall u d, k = K_user -> p (delete_user_row u d) = p d) ->
  (forall d f, k = K_collection -> p (with_collections d f) = p d) ->
  (forall d f, k = K_collection \/ k = K_agent -> p (with_agents d f) = p d) ->
  (forall d f, p (with_physical d f) = p d) ->
  keeps p (hard_delete k i cascade).
Proof.
  intros Hk Hu Hc Ha Hp. destruct k; [done|..]; simpl; cbn [Lifecycle.hard_delete].
  - apply keeps_hard_delete_user; [done|]. intros d. by apply Hu.
  - unfold hard_delete_collection, delete_collection, remove_rules_for_resource, delete_collection_row,
      _remove_collection_from_agent_bindings, get_by_slug. frame; auto.
  - unfold hard_delete_agent, delete_agent, remove_rules_for_resource, delete_agent_row. frame; auto.
  - unfold delete_rule, delete_rule_row. frame; apply no_rules.
  - unfold delete_chat_row. frame. apply no_chats.
  - frame.
Qed.

Lemma hard_delete_view k i cascade w r w' t :
  hard_delete k i cascade w = (r, w') -> ~ (k = K_tenant /\ t = i) ->
  tenants_view (db w') !! t = tenants_view (db w) !! t.
Proof.
  intros H Ht. destruct (decide (k = K_tenant)) as [->|Hk].
  - assert (t ≠ i) by tauto. apply hard_delete_tenant_view in H. unfold kept in H.
    by rewrite <- (lookup_delete_ne _ i t), H, lookup_delete_ne.
  - revert H. enough (keeps tenants_view (hard_delete k i cascade)) as Hk' by (intros H%Hk'; by rewrite H).
    apply (keeps_others tenants_view); try done. intros u d _. apply tenants_delete_user.
Qed.

Lemma tenants_view_lookup t d x :
  tenants_view d !! t = Some x <-> exists r, tenants d !! t = Some r /\ x = view r.
Proof.
  unfold tenants_view. rewrite lookup_fmap_Some. by split; intros (r & H1 & H2); exists r.
Qed.

(** The default tenant survives every deletion. *)
Lemma hard_delete_default k i cascade w r w' t x :
  hard_delete k i cascade w = (r, w') -> tenants_view (db w) !! t = Some x ->
  is_platform_default x.1 = true -> tenants_view (db w') !! t = Some x.
Proof.
  intros H Hx Hd. destruct (decide (k = K_tenant /\ t = i)) as [[-> ->]|Hne].
  - apply tenants_view_lookup in Hx as Hr. destruct Hr as (row & Hrow & ->). simpl in H.
    unfold Lifecycle.hard_delete, Lifecycle.hard_delete_tenant, read, mbind, py_bind in H. simpl in Hd.
    rewrite Hrow, Hd in H. unfold raise in H. by simplify_eq.
  - by rewrite (hard_delete_view _ _ _ _ _ _ _ H Hne).
Qed.

(** *** Administrators *)
Definition admin_view (x : User * Meta) : bool :=
  String.eqb (u_role x.1) "admin" && bool_decide (is_active x.2 = Some true) &&
  String.eqb (lifecycle_status x.2) "active".

Definition admin (u : Z) (d : DB) : Prop := exists x, users_view d !! u = Some x /\ admin_view x = true.

Lemma active_admins_spec u d : u ∈ active_admins d <-> admin u d.
Proof.
  unfold active_admins, admin, users_view. rewrite select_ids_spec. setoid_rewrite lookup_fmap.
  destruct (users d !! u) as [row|]; simpl; split.
  - intros (r & [= <-] & Hr). by exists (view row).
  - intros (x & [= <-] & Hx). by exists row.
  - by intros (r & ? & _).
  - by intros (r & ? & _).
Qed.

Definition admins_kept : relation World := fun w w' => (exists u, admin u (db w)) -> exists u, admin u (db w').

#[export] Instance admins_kept_preorder : PreOrder admins_kept.
Proof. split; [by intros w H|]. intros w1 w2 w3 H1 H2 H. by apply H2, H1. Qed.

Lemma preserves_weaken {A B} (p : DB -> A) (R : relation World) (m : call B) :
  (forall w w', p (db w') = p (db w) -> R w w') -> keeps p m -> preserves R m.
Proof. intros HR Hm w r w' H. by apply HR, (Hm w r w'). Qed.

Lemma admins_weaken {B} (m : call B) : keeps users_view m -> preserves admins_kept m.
Proof. apply preserves_weaken. intros w w' H [u (x & Hx & Ha)]. exists u, x. by rewrite H. Qed.

(** The guard leaves another administrator. *)
Lemma another_admin u d : admin u d -> _is_last_active_admin u d = false -> exists v, v ≠ u /\ admin v d.
Proof.
  intros Hu Hg. apply active_admins_spec in Hu as Hin. unfold _is_last_active_admin in Hg.
  apply select_ids_spec in Hin as (row & Hrow & Ha). rewrite Hrow in Hg. unfold active_admin in Ha.
  apply andb_true_iff in Ha as [[Hrole Hact]%andb_true_iff Hst]. apply bool_decide_eq_true in Hact.
  rewrite Hrole, Hact, Hst in Hg. simpl in Hg. apply bool_decide_eq_false in Hg.
  destruct (active_admins d) as [|a [|b l]] eqn:El; simpl in Hg; [lia..|].
  assert (a ≠ b) as Hab.
  { pose proof (select_ids_NoDup (fun _ => active_admin) (users d)) as Hnd. unfold active_admins in El.
    rewrite El in Hnd. apply NoDup_cons in Hnd as [Hnd _]. intros ->. apply Hnd. by left. }
  destruct (decide (a = u)) as [->|Hne].
  - exists b. split; [done|]. apply active_admins_spec. rewrite El. right. by left.
  - exists a. split; [done|]. apply active_admins_spec. rewrite El. by left.
Qed.

Lemma hard_delete_user_admins u : preserves admins_kept (hard_delete_user u).
Proof.
  intros w r w' H.
  assert (delete u (users_view (db w')) = delete u (users_view (db w))) as Hp.
  { revert H. apply (keeps_hard_delete_user (fun d => delete u (users_view d))). intros d.
    by rewrite users_delete_user, delete_delete_eq. }
  assert (forall v, v ≠ u -> admin v (db w) -> admin v (db w')) as Hkeep.
  { intros v Hv (x & Hx & Ha). exists x. split; [|done].
    by rewrite <- (lookup_delete_ne _ u v), Hp, lookup_delete_ne. }
  cbv [hard_delete_user _assert_user_not_last_active_admin read raise mbind py_bind] in H.
  destruct (users (db w) !! u) as [row|]; [|by simplify_eq].
  destruct (_is_last_active_admin u (db w)) eqn:Hg; [by simplify_eq|]. clear H.
  intros [v Hv]. destruct (decide (v = u)) as [->|Hne]; [|by eauto].
  apply another_admin in Hv as (v & Hne & Hv); eauto.
Qed.

Lemma hard_delete_admins k i cascade : preserves admins_kept (hard_delete k i cascade).
Proof.
  destruct (decide (k = K_user)) as [->|Hu]; [apply hard_delete_user_admins|].
  destruct (decide (k = K_tenant)) as [->|Ht]; cycle 1.
  { apply admins_weaken, keeps_others; done. }
  unfold Lifecycle.hard_delete, Lifecycle.hard_delete_tenant, delete_or_migrate, delete_tenant_row.
  assert (forall counts u, preserves admins_kept (delete_member counts u)) as Hmember.
  { intros counts u. unfold delete_member. frame. apply hard_delete_user_admins. }
  assert (forall B (m : call B), keeps users_view m -> preserves admins_kept m) as Hweak
    by (intros; by apply admins_weaken).
  frame; apply Hweak; auto using users_detached with frames; try by apply keeps_write.
  apply keeps_migrate; [apply _|]. intros. by apply keeps_migrate_collections.
Qed.

(** *** Collections and agents *)
(** With unique slugs: the collections keep their identifiers and slugs, and
    agents theirs. *)
Definition assets_kept : relation World := fun w w' =>
  unique_slugs (db w) -> slugs (db w') = slugs (db w) /\ agent_ids (db w') = agent_ids (db w).

#[export] Instance assets_kept_preorder : PreOrder assets_kept.
Proof.
  split; [done|]. intros w1 w2 w3 H1 H2 Hu. destruct (H1 Hu) as [E1 A1].
  assert (unique_slugs (db w2)) as Hu2 by (unfold unique_slugs; by rewrite E1).
  destruct (H2 Hu2) as [E2 A2]. split; congruence.
Qed.

Definition assets (d : DB) : gmap Z string * gset Z := (slugs d, agent_ids d).

#[export] Instance assets_detached : Detached assets.
Proof. by repeat split. Qed.

Lemma assets_delete_user u d : assets (delete_user_row u d) = assets d.
Proof. unfold assets. by rewrite slugs_delete_user, agents_delete_user. Qed.

Lemma assets_weaken {B} (m : call B) : keeps assets m -> preserves assets_kept m.
Proof. apply preserves_weaken. intros w w' [= H1 H2] _. done. Qed.

Lemma migrate_collections_assets from to : preserves assets_kept (_migrate_collections uuid_str from to).
Proof.
  intros w r w' H Hu. destruct (migrate_collections_ok uuid_str from to w Hu) as (n & H'). rewrite H' in H.
  injection H as <- <-. split; [|done]. unfold slugs. simpl. rewrite <- map_fmap_compose. apply map_fmap_ext.
  intros i row _. simpl. by destruct (in_tenant from row).
Qed.

Lemma hard_delete_assets k i cascade :
  k ≠ K_collection -> k ≠ K_agent -> preserves assets_kept (hard_delete k i cascade).
Proof.
  intros Hc Ha. destruct (decide (k = K_tenant)) as [->|Ht]; cycle 1.
  { apply assets_weaken, (keeps_others assets); try done; [|intros d f [?|?]; done].
    intros u d _. apply assets_delete_user. }
  unfold Lifecycle.hard_delete, Lifecycle.hard_delete_tenant, delete_or_migrate, delete_tenant_row, migrate_tenant_data.
  assert (forall B (m : call B), keeps assets m -> preserves assets_kept m) as Hweak
    by (intros; by apply assets_weaken).
  frame; auto using migrate_collections_assets; apply Hweak; auto using assets_delete_user with frames;
    by apply keeps_write.
Qed.

Lemma delete_invisible slug drop w :
  (forall i r, collections (db w) !! i = Some r -> visible_collection slug r = false) ->
  delete_collection slug drop w = (Ok false, w).
Proof.
  intros H. unfold delete_collection. rewrite (bind_run_Ok _ _ w None w); [done|]. unfold get_by_slug.
  rewrite (bind_run_Ok _ _ w [] w); [done|]. unfold read. rewrite (proj2 (select_ids_nil _ _)); [done|].
  intros i r. apply H.
Qed.

(** A deprecated collection cannot be deleted: the service looks it up by its
    slug, among the collections that are not deprecated. *)
Lemma deprecated_collection_refused c cascade w r :
  unique_slugs (db w) -> collections (db w) !! c = Some r -> lifecycle_status (meta r) = "deprecated"%string ->
  exists w', hard_delete K_collection c cascade w = (Err (ValueError "not_found"), w').
Proof.
  intros Hu Hr Hs. unfold Lifecycle.hard_delete, hard_delete_collection.
  rewrite (bind_run_Ok _ _ w (Some r) w) by (unfold read; by rewrite Hr).
  erewrite (bind_run_Ok (_remove_collection_from_agent_bindings c)); [|reflexivity].
  erewrite (bind_run_Ok (remove_rules_for_resource "instance" c)); [|reflexivity].
  erewrite bind_run_Ok; [|apply delete_invisible].
  { eexists. reflexivity. }
  intros i r' Hr'. unfold visible_collection.
  destruct (String.eqb_spec (co_slug (cols r')) (co_slug (cols r))) as [Heq|]; [|done].
  assert (i = c) as ->; [|assert (r' = r) as -> by (cbn in Hr'; congruence); rewrite Hs; by rewrite andb_false_r].
  apply (Hu i c (co_slug (cols r))); [rewrite <- Heq|]; by apply slugs_lookup.
Qed.

Lemma deprecated_agent_refused a cascade w r :
  agents (db w) !! a = Some r -> lifecycle_status (meta r) = "deprecated"%string ->
  exists w', hard_delete K_agent a cascade w = (Err (NotFoundError "Agent"), w').
Proof.
  intros Hr Hs. unfold Lifecycle.hard_delete, hard_delete_agent.
  rewrite (bind_run_Ok _ _ w (Some r) w) by (unfold read; by rewrite Hr).
  erewrite (bind_run_Ok (remove_rules_for_resource "agent" a)); [|reflexivity]. unfold delete_agent. set (w1 := {| db := _ |}).
  eexists. rewrite (bind_run_Err _ _ _ (NotFoundError "Agent") w1); [reflexivity|].
  rewrite (bind_run_Ok _ _ w1 (Some r) w1) by (unfold read; by rewrite <- Hr). by rewrite Hs.
Qed.

(** *** The cleanup *)
(** A property that a step does not lose *)
Definition inherits (P : DB -> Prop) : relation DB := fun d d' => P d -> P d'.

#[export] Instance inherits_preorder P : PreOrder (inherits P).
Proof. split; [by intros d H|]. intros d1 d2 d3 H1 H2 H. by apply H2, H1. Qed.

Definition on_db (R : relation DB) : relation World := fun w w' => R (db w) (db w').

Lemma purge_keeps (R : relation DB) `{!PreOrder R} k acc i :
  (forall c, preserves (on_db R) (hard_delete k i c)) -> R (db acc.1) (db (purge uuid_str refused k acc i).1).
Proof.
  intros HR. destruct acc as [w n]. unfold purge. simpl. destruct (entity k i (db w)) as [m|]; [|done].
  destruct (hard_delete k i (delete_cascade m) w) as [[rep|e] w'] eqn:H; simpl; [by apply HR in H|done].
Qed.

Lemma purge_all_keeps (R : relation DB) `{!PreOrder R} k acc l :
  (forall i c, i ∈ l -> preserves (on_db R) (hard_delete k i c)) ->
  R (db acc.1) (db (foldl (purge uuid_str refused k) acc l).1).
Proof.
  revert acc. induction l as [|i l IH]; intros acc HR; [done|]. cbn [foldl].
  transitivity (db (purge uuid_str refused k acc i).1); [|apply IH; intros; apply HR; by right].
  apply (purge_keeps R). intros c. apply HR. by left.
Qed.

Lemma purge_kind_keeps (R : relation DB) `{!PreOrder R} k w :
  (forall i c, i ∈ expired_ids k (clock (readings w)) (db w) -> preserves (on_db R) (hard_delete k i c)) ->
  R (db w) (db (purge_kind uuid_str clock refused w k).1).
Proof. intros HR. unfold purge_kind. by apply (purge_all_keeps R _ ({| db := db w; readings := _ |}, 0)). Qed.

Lemma cleanup_kinds_keep (R : relation DB) `{!PreOrder R} l acc :
  (forall k w, k ∈ l -> R (db w) (db (purge_kind uuid_str clock refused w k).1)) ->
  R (db acc.1) (db (foldl (cleanup_kind uuid_str clock refused) acc l).1).
Proof.
  revert acc. induction l as [|k l IH]; intros acc HR; [done|]. cbn [foldl].
  transitivity (db (cleanup_kind uuid_str clock refused acc k).1); [|apply IH; intros; apply HR; by right].
  apply HR. by left.
Qed.

Lemma cleanup_keeps (R : relation DB) `{!PreOrder R} w :
  (forall k w, R (db w) (db (purge_kind uuid_str clock refused w k).1)) ->
  R (db w) (db (cleanup_deprecated_entities uuid_str clock refused w).1).
Proof. intros HR. apply (cleanup_kinds_keep R all_kinds (w, [])). auto. Qed.

Lemma expired_deprecated k at_ d i :
  i ∈ expired_ids k at_ d -> exists m, entity k i d = Some m /\ lifecycle_status m = "deprecated"%string.
Proof.
  unfold expired_ids. intros H. apply elem_of_take in H as (n & H & _). apply list_elem_of_lookup_2 in H.
  apply elem_of_List_filter in H as [_ H]. unfold expired in H. destruct (entity k i d) as [m|]; [|done].
  apply andb_true_iff in H as [[H%String.eqb_eq _]%andb_true_iff _]. eauto.
Qed.

(** A purge that is always refused changes nothing. *)
Lemma refused_purge_same k w :
  (forall i m c w', entity k i (db w') = Some m -> lifecycle_status m = "deprecated"%string -> db w' = db w ->
     exists e w'', hard_delete k i c w' = (Err e, w'')) ->
  db (purge_kind uuid_str clock refused w k).1 = db w.
Proof.
  intros Hr. unfold purge_kind. set (ids := expired_ids _ _ _).
  assert (forall i, i ∈ ids -> exists m, entity k i (db w) = Some m /\ lifecycle_status m = "deprecated"%string)
    as Hids by apply expired_deprecated.
  enough (forall acc, db acc.1 = db w -> db (foldl (purge uuid_str refused k) acc ids).1 = db w) as H by by apply H.
  induction ids as [|i ids IH]; intros acc Hacc; simpl; [done|].
  apply IH; [intros j Hj; apply Hids; by right|]. destruct acc as [w1 n]. unfold purge. simpl in *.
  destruct (Hids i) as (m & Hm & Hs); [by left|]. rewrite Hacc, Hm.
  destruct (Hr i m (delete_cascade m) w1) as (e & w2 & ->); [by rewrite Hacc|done|done|done].
Qed.

Lemma cleanup_assets w : assets_kept w (cleanup_deprecated_entities uuid_str clock refused w).1.
Proof.
  set (R := fun d d' => unique_slugs d -> slugs d' = slugs d /\ agent_ids d' = agent_ids d).
  assert (PreOrder R) as HR.
  { split; [done|]. intros d1 d2 d3 H1 H2. 
    exact (transitivity (R := assets_kept) (x := {| db := d1; readings := 0 |}) (y := {| db := d2; readings := 0 |})
             (z := {| db := d3; readings := 0 |}) H1 H2). }
  apply (cleanup_keeps R). intros k w1 Hu.
  destruct (decide (k = K_collection)) as [->|Hc].
  { rewrite refused_purge_same; [done|]. intros i m c w2 Hm Hs Hdb. apply fmap_Some in Hm as (r & Hr & ->).
    eapply deprecated_collection_refused in Hr as (w3 & H3); [|by rewrite Hdb|done]. eauto. }
  destruct (decide (k = K_agent)) as [->|Ha].
  { rewrite refused_purge_same; [done|]. intros i m c w2 Hm Hs Hdb. apply fmap_Some in Hm as (r & Hr & ->).
    eapply deprecated_agent_refused in Hr as (w3 & H3); [|done]. eauto. }
  apply (purge_kind_keeps R); [|done]. intros i c _. by apply (hard_delete_assets k i c).
Qed.
End Ops.
