(* ===== verification/LifecycleProperties.v ===== *)
(** * Properties of the life cycle

    Theorems on the requests of the administrator and the periodic cleanup, for
    every database, with a concrete instance of each in Module Demo. *)
From S2P Require Import Prelude Entities EntitiesProofs MigrationProofs Lifecycle LifecycleProofs LifecycleSafety.
Open Scope Z_scope.

Section Properties.
Variable uuid_str : Z -> string.
Variable clock : nat -> Z.
Variable refused : bool.
#[local] Abbreviation soft_delete := (soft_delete uuid_str clock).
#[local] Abbreviation hard_delete := (hard_delete uuid_str refused).
#[local] Abbreviation delete_entity := (delete_entity uuid_str clock refused).
#[local] Abbreviation cleanup := (cleanup_deprecated_entities uuid_str clock refused).

(** What happens to the database: requests of the administrator and runs of
    the cleanup task. *)
Inductive op : Type :=
| Delete (k : LifecycleKind) (i : Z) (soft force cascade : bool) (s : SoftDelete)
| Restore (k : LifecycleKind) (i : Z)
| Cleanup.

Definition run_op (o : op) (w : World) : World :=
  match o with
  | Delete k i soft force cascade s => (delete_entity k i soft force cascade s w).2
  | Restore k i => (request (restore k i) w).2
  | Cleanup => (cleanup w).1
  end.

Definition run_ops (l : list op) (w : World) : World := foldl (fun w o => run_op o w) w l.

Definition is_soft (o : op) : bool := match o with Delete _ _ soft _ _ _ => soft | _ => false end.

(** ** Lemmas on single requests *)
Lemma request_db {A} (m : call A) w (P : DB -> Prop) :
  P (db w) -> (forall a w', m w = (Ok a, w') -> P (db w')) -> P (db (request m w).2).
Proof. intros H0 H. unfold request. destruct (m w) as [[a|e] w'] eqn:E; simpl; [by eapply H|done]. Qed.

(** One theorem for both outcomes of [soft_delete] *)
Lemma soft_delete_cases k i s cascade w r w' :
  soft_delete k i s cascade w = (r, w') ->
  (exists e, r = Err e) \/
  (is_default_tenant k i (db w) = false /\
   all_deprecated clock s cascade (k, i) (cascade_scope cascade (columns (db w)) (k, i)) (db w) (db w')).
Proof.
  intros H. destruct (entity k i (db w)) as [m|] eqn:Hm; cycle 1.
  { left. rewrite soft_delete_missing in H by done. injection H as <- _. eauto. }
  destruct (is_default_tenant k i (db w)) eqn:Hd.
  - left. erewrite soft_delete_default in H by done. injection H as <- _. eauto.
  - right. split; [done|]. destruct (soft_delete_ok uuid_str clock k i s cascade w m Hm Hd) as (rep & w2 & H2 & Hall).
    rewrite H2 in H. by injection H as _ <-.
Qed.

Lemma tenant_view_same t d d' :
  columns d' = columns d -> entity K_tenant t d' = entity K_tenant t d ->
  tenants_view d' !! t = tenants_view d !! t.
Proof.
  intros Hc He. assert (c_tenants (columns d') !! t = c_tenants (columns d) !! t) as H by (by rewrite Hc).
  simpl in *. unfold tenants_view. rewrite !lookup_fmap in *.
  destruct (tenants d !! t) as [[]|], (tenants d' !! t) as [[]|]; simpl in *; by simplify_eq.
Qed.

Lemma user_view_same u d d' :
  columns d' = columns d -> entity K_user u d' = entity K_user u d -> users_view d' !! u = users_view d !! u.
Proof.
  intros Hc He. assert (c_users (columns d') !! u = c_users (columns d) !! u) as H by (by rewrite Hc).
  simpl in *. unfold users_view. rewrite !lookup_fmap in *.
  destruct (users d !! u) as [[]|], (users d' !! u) as [[]|]; simpl in *; by simplify_eq.
Qed.

(** No cascade reaches an entity of its root's kind. *)
Lemma scope_same_kind cascade c root x : cascade_scope cascade c root x -> (rank x.1 >= rank root.1)%nat -> x = root.
Proof. intros [->|[_ H%tc_depends_rank]] Hr; [done|lia]. Qed.

Lemma restored_same k i w w' x m :
  all_restored (k, i) all_kinds (db w) (db w') -> entity_at x (db w) = Some m ->
  lifecycle_status m ≠ "deprecated"%string -> entity_at x (db w') = entity_at x (db w).
Proof.
  intros [_ H] Hm Hs. rewrite H, Hm. simpl. f_equal. unfold restore_meta.
  rewrite (proj2 (String.eqb_neq _ _) Hs). by destruct (restores _ _ _ _).
Qed.

Lemma restore_cases k i w r w' :
  restore k i w = (r, w') -> (exists e, r = Err e) \/ all_restored (k, i) all_kinds (db w) (db w').
Proof.
  intros H. destruct (entity k i (db w)) as [m|] eqn:Hm.
  - right. destruct (restore_ok k i w m Hm) as (rep & w2 & H2 & Hall). rewrite H2 in H. by injection H as _ <-.
  - left. unfold restore, read, mbind, py_bind in H. rewrite Hm in H. unfold raise in H. injection H as <- _. eauto.
Qed.

(** ** The default tenant *)
Definition is_live_default (t : Z) (x : Tenant * Meta) (d : DB) : Prop :=
  tenants_view d !! t = Some x /\ is_platform_default x.1 = true /\ lifecycle_status x.2 ≠ "deprecated"%string.

Lemma live_default_hard t x k i c : preserves (on_db (inherits (is_live_default t x))) (hard_delete k i c).
Proof. intros w r w' H (Hx & Hd & Hs). split; [by eapply hard_delete_default|done]. Qed.

Lemma live_default_entity t x d :
  is_live_default t x d -> exists m, entity K_tenant t d = Some m /\ lifecycle_status m ≠ "deprecated"%string /\
    is_default_tenant K_tenant t d = true.
Proof.
  intros ((r & Hr & ->)%tenants_view_lookup & Hd & Hs). exists (meta r). simpl in *. by rewrite Hr.
Qed.

Lemma live_default_op t x o w : is_live_default t x (db w) -> is_live_default t x (db (run_op o w)).
Proof.
  intros Hx. destruct (live_default_entity t x (db w) Hx) as (m & Hm & Hs & Hd).
  destruct o as [k i [] force cascade s|k i|]; cbn [run_op].
  - unfold Lifecycle.delete_entity. apply (request_db _ _ (is_live_default t x)); [done|]. intros a w' H.
    apply soft_delete_cases in H as [[e [=]]|(Hnd & Hc & _ & Hout)]. destruct Hx as [Hv Hx]. split; [|done].
    rewrite <- Hv. apply tenant_view_same; [done|]. apply (Hout (K_tenant, t)). intros Hscope.
    apply scope_same_kind in Hscope; [injection Hscope as <- <-; congruence|destruct k; simpl; lia].
  - unfold Lifecycle.delete_entity. cbv zeta iota. destruct (_ && negb force); [done|]. apply (request_db _ _ (is_live_default t x)); [done|].
    intros a w' H. by apply (live_default_hard t x) in H; apply H.
  - apply (request_db _ _ (is_live_default t x)); [done|]. intros a w' H.
    apply restore_cases in H as [[e [=]]|Hall]. destruct Hx as [Hv Hx]. split; [|done].
    rewrite <- Hv. apply tenant_view_same; [apply Hall|]. by eapply (restored_same k i w w' (K_tenant, t)).
  - revert Hx. apply (cleanup_keeps uuid_str clock refused (inherits (is_live_default t x))).
    intros k w1. apply (purge_kind_keeps uuid_str clock refused (inherits (is_live_default t x))).
    intros i c _. apply live_default_hard.
Qed.

(** C24: The default tenant of the platform, unless it is already deprecated,
    survives every sequence of requests and cleanups, with its columns and life
    cycle unchanged. *)
Theorem default_tenant_survives ops w t r :
  tenants (db w) !! t = Some r -> is_platform_default (cols r) = true ->
  lifecycle_status (meta r) ≠ "deprecated"%string ->
  exists r', tenants (db (run_ops ops w)) !! t = Some r' /\ cols r' = cols r /\ anon (meta r') = anon (meta r).
Proof.
  intros Hr Hd Hs. assert (is_live_default t (view r) (db (run_ops ops w))) as [Hv _].
  { assert (is_live_default t (view r) (db w)) as H by (split; [apply tenants_view_lookup; eauto|done]).
    clear Hr Hd Hs. revert w H. induction ops as [|o ops IH]; intros w H; simpl; [done|]. by apply IH, live_default_op. }
  apply tenants_view_lookup in Hv as (r' & Hr' & Heq). exists r'. split; [done|].
  split; [exact (eq_sym (f_equal fst Heq))|exact (eq_sym (f_equal snd Heq))].
Qed.
(** ** Administrators *)
Lemma admins_hard k i c : preserves (on_db (inherits (fun d => exists u, admin u d))) (hard_delete k i c).
Proof. apply hard_delete_admins. Qed.

Lemma admins_op o w :
  is_soft o = false -> (exists u, admin u (db w)) -> exists u, admin u (db (run_op o w)).
Proof.
  set (P := fun d => exists u, admin u d). change (is_soft o = false -> P (db w) -> P (db (run_op o w))).
  intros Ho HP. destruct o as [k i soft force cascade s|k i|]; cbn [run_op].
  - simpl in Ho. subst soft. unfold Lifecycle.delete_entity. cbv zeta iota. destruct (_ && negb force); [done|].
    apply (request_db _ _ P); [done|]. intros a w' H. by apply admins_hard in H; apply H.
  - apply (request_db _ _ P); [done|]. intros a w' H. apply restore_cases in H as [[e [=]]|Hall].
    destruct HP as (u & x & Hx & Ha). exists u, x. split; [|done]. rewrite <- Hx.
    apply user_view_same; [apply Hall|]. unfold users_view in Hx. rewrite lookup_fmap_Some in Hx.
    destruct Hx as (row & <- & Hrow). eapply (restored_same k i w w' (K_user, u)); simpl; [done|by rewrite Hrow|].
    intros Hs. unfold admin_view in Ha. simpl in Ha. rewrite Hs in Ha. by rewrite andb_false_r in Ha.
  - revert HP. apply (cleanup_keeps uuid_str clock refused (inherits P)).
    intros k w1. apply (purge_kind_keeps uuid_str clock refused (inherits P)). intros i c _. apply admins_hard.
Qed.

(** C25: Hard deletions (cascades included), restorations and cleanups never leave
    the platform without an active administrator, in any order. *)
Theorem hard_deletes_keep_admin ops w u :
  Forall (fun o => is_soft o = false) ops -> u ∈ active_admins (db w) -> active_admins (db (run_ops ops w)) ≠ [].
Proof.
  intros Hops Hu Hnil. assert (exists v, admin v (db (run_ops ops w))) as [v Hv%active_admins_spec].
  { assert (exists v, admin v (db w)) as H by (exists u; by apply active_admins_spec).
    clear Hu Hnil. revert w H. induction Hops as [|o ops Ho _ IH]; intros w H; simpl; [done|].
    by apply IH, admins_op. }
  rewrite Hnil in Hv. by apply not_elem_of_nil in Hv.
Qed.

(** A soft deletion is not guarded: the last active administrator can be
    deprecated, with or without the force flag, and nobody is left. *)
Theorem soft_delete_last_admin u force cascade s w :
  active_admins (db w) = [u] ->
  exists rep w', delete_entity K_user u true force cascade s w = (inr rep, w') /\ active_admins (db w') = [].
Proof.
  intros Hu. assert (admin u (db w)) as Hadm by (apply active_admins_spec; rewrite Hu; by left).
  destruct Hadm as (x & Hx & Ha). unfold users_view in Hx. rewrite lookup_fmap_Some in Hx.
  destruct Hx as (row & <- & Hrow).
  destruct (soft_delete_ok uuid_str clock K_user u s cascade w (meta row)) as (rep & w' & Hr & Hc & Hin & Hout);
    [simpl; by rewrite Hrow|done|].
  exists rep, w'. unfold Lifecycle.delete_entity, request. rewrite Hr. split; [done|].
  destruct (active_admins (db w')) as [|v l] eqn:Hv; [done|]. exfalso.
  assert (admin v (db w')) as Hadm by (apply active_admins_spec; rewrite Hv; by left).
  destruct (decide (v = u)) as [->|Hne].
  - specialize (Hin (K_user, u) ltac:(by left)). simpl in Hin. rewrite Hrow in Hin.
    destruct Hadm as (y & Hy & Hay). unfold users_view in Hy. rewrite lookup_fmap_Some in Hy.
    destruct Hy as (row' & <- & Hrow'). rewrite Hrow' in Hin. inversion Hin as [m m' Hd E1 E2|]. subst.
    unfold admin_view in Ha, Hay. simpl in Ha, Hay. apply andb_true_iff in Ha as [_ Ha%String.eqb_eq].
    unfold soft_deleted in Hd. rewrite Ha in Hd. destruct Hd as [n Hd]. rewrite Hd in Hay. simpl in Hay.
    by rewrite andb_false_r in Hay.
  - assert (admin v (db w)) as Hadm'.
    { destruct Hadm as (y & Hy & Hay). exists y. split; [|done]. rewrite <- Hy. symmetry.
      apply user_view_same; [done|]. apply (Hout (K_user, v)). intros Hscope.
      apply scope_same_kind in Hscope; [congruence|simpl; lia]. }
    apply active_admins_spec in Hadm'. rewrite Hu in Hadm'. by apply list_elem_of_singleton in Hadm'.
Qed.

(** ** Soft deletion and restoration *)
(** C22: The dependencies of a cascade are the transitive dependents of the root:
    nothing is missed, although an entity reached twice is expanded once, and
    nothing else is named. *)
Theorem cascade_is_closure k i soft d y :
  y ∈ dependent_keys (get_dependencies uuid_str k i soft true true d) <-> tc (depends (columns d)) (k, i) y.
Proof. apply cascade_closure. Qed.

(** C21: [soft_delete] on every branch: a missing entity and the default tenant are
    refused without an effect; otherwise the call returns, the root and, under a
    cascade, its transitive dependents that exist are deprecated under this root,
    those already deprecated are left alone (the root takes the new reason and
    retention), and no other entity and no other column changes. *)
Theorem soft_delete_spec k i s cascade w :
  match entity k i (db w) with
  | None => soft_delete k i s cascade w = (Err (ValueError "not_found"), w)
  | Some _ =>
      if is_default_tenant k i (db w)
      then soft_delete k i s cascade w = (Err (ValueError "cannot_delete_default_tenant"), w)
      else exists rep w', soft_delete k i s cascade w = (Ok rep, w') /\
        columns (db w') = columns (db w) /\
        forall x, let scope := x = (k, i) \/ cascade = true /\ tc (depends (columns (db w))) (k, i) x in
          (scope -> option_Forall2 (soft_deleted clock s cascade (k, i) x) (entity_at x (db w)) (entity_at x (db w'))) /\
          (~ scope -> entity_at x (db w') = entity_at x (db w))
  end.
Proof.
  destruct (entity k i (db w)) as [m|] eqn:Hm; [|by apply soft_delete_missing].
  destruct (is_default_tenant k i (db w)) eqn:Hd; [by eapply soft_delete_default|].
  destruct (soft_delete_ok uuid_str clock k i s cascade w m Hm Hd) as (rep & w' & H & Hc & Hin & Hout).
  exists rep, w'. split; [done|]. split; [done|]. intros x. split; [apply Hin|apply Hout].
Qed.

(** An entity that was never deprecated and is not blocked *)
Definition pristine (k : LifecycleKind) (m : Meta) : Prop :=
  lifecycle_status m = "active"%string /\ deprecated_at m = None /\ deprecated_by m = None /\
  deprecated_reason m = None /\ delete_cascade m = false /\ deprecated_root_kind m = None /\
  deprecated_root_id m = None /\ (has_is_active k = true -> is_active m ≠ Some false).

Lemma restored_pristine k m at_ s cascade root :
  pristine k m -> sd_retention_days s = None ->
  restored_meta k (deprecated_meta k at_ s cascade root m) = m.
Proof.
  destruct m as [st da db_ dr rd dc rk ri ia]. unfold pristine, restored_meta, deprecated_meta, set_active. simpl.
  intros (-> & -> & -> & -> & -> & -> & -> & Ha) ->. f_equal. destruct (has_is_active k); simpl; [|done].
  destruct ia as [[]|]; simpl; [done|by destruct Ha|done].
Qed.

Lemma scope_or_not cascade d root x :
  cascade_scope cascade (columns d) root x \/ ~ cascade_scope cascade (columns d) root x.
Proof.
  unfold cascade_scope. destruct root as [k i]. destruct (decide (x = (k, i))); [tauto|]. destruct cascade; [|naive_solver].
  destruct (decide (x ∈ dependent_keys (get_dependencies uuid_str k i true true true d))) as [H|H];
    rewrite cascade_closure in H; tauto.
Qed.

(** C23: Restoring the root of a soft deletion restores the database, when the
    entities concerned were in their initial state and no retention was set. *)
Theorem restore_undoes_soft_delete k i s cascade w :
  is_Some (entity k i (db w)) -> is_default_tenant k i (db w) = false -> sd_retention_days s = None ->
  (forall x m, x = (k, i) \/ tc (depends (columns (db w))) (k, i) x -> entity_at x (db w) = Some m -> pristine x.1 m) ->
  (forall x, tc (depends (columns (db w))) (k, i) x -> x.2 ≠ i) ->
  (forall x m, entity_at x (db w) = Some m -> deprecated_under (k, i) m = false) ->
  exists rep w1 rep' w2, soft_delete k i s cascade w = (Ok rep, w1) /\ restore k i w1 = (Ok rep', w2) /\
    db w2 = db w.
Proof.
  intros [m Hm] Hd Hret Hprist Hids Hnone.
  destruct (soft_delete_ok uuid_str clock k i s cascade w m Hm Hd) as (rep & w1 & H1 & Hc1 & Hin & Hout).
  assert (is_Some (entity k i (db w1))) as [m1 Hm1].
  { specialize (Hin (k, i) ltac:(by left)). simpl in Hin. rewrite Hm in Hin. inversion Hin. eauto. }
  destruct (restore_ok k i w1 m1 Hm1) as (rep' & w2 & H2 & Hc2 & Hr2).
  exists rep, w1, rep', w2. split; [done|]. split; [done|]. apply db_ext; [congruence|]. intros k' i'.
  specialize (Hr2 (k', i')). cbn [fst snd] in Hr2. rewrite Hr2.
  destruct (scope_or_not cascade (db w) (k, i) (k', i')) as [Hs|Hs].
  - specialize (Hin _ Hs). cbn [fst snd] in Hin. destruct (entity k' i' (db w)) as [m0|] eqn:Hm0; [|by inversion Hin].
    inversion Hin as [? m2 Hdep E1 E2|]. simpl. f_equal.
    assert (pristine k' m0) as Hp by (apply (Hprist (k', i')); [destruct Hs as [|[_ Hs]]; auto|done]).
    unfold soft_deleted in Hdep. rewrite (proj1 Hp) in Hdep.
    destruct Hdep as [n Hdep]. cbn [fst] in Hdep. subst m2.
    assert (restores (k, i) all_kinds (k', i') (deprecated_meta k' (clock n) s cascade (k, i) m0) = true) as ->.
    { unfold restores. destruct Hs as [->|[_ Hs]]; [by rewrite bool_decide_true|].
      rewrite (bool_decide_true (_ ∈ all_kinds)) by (destruct k'; unfold all_kinds; set_solver).
      unfold deprecated_under. simpl.
      rewrite (bool_decide_true (Some k = Some k)), (bool_decide_true (Some i = Some i)) by done. specialize (Hids _ Hs). simpl in Hids.
      rewrite (proj2 (Z.eqb_neq _ _) Hids). by rewrite orb_true_r. }
    unfold restore_meta. simpl. by apply restored_pristine.
  - specialize (Hout _ Hs). cbn [fst snd] in Hout. rewrite Hout. destruct (entity k' i' (db w)) as [m0|] eqn:Hm0; [|done]. simpl. f_equal.
    assert (restores (k, i) all_kinds (k', i') m0 = false) as ->; [|done].
    unfold restores. rewrite (Hnone (k', i') m0 Hm0), andb_false_r. simpl. rewrite orb_false_r.
    apply bool_decide_eq_false. intros Heq. apply Hs. by left.
Qed.

(** The way back is not exact: an administrator's block is lost.  A tenant, user
    or collection that was inactive before its soft deletion is active after its
    restoration, whatever the cascade and the retention. *)
Theorem restore_unblocks k i s cascade w m b :
  entity k i (db w) = Some m -> has_is_active k = true -> is_active m = Some b ->
  lifecycle_status m ≠ "deprecated"%string -> is_default_tenant k i (db w) = false ->
  exists rep w1 rep' w2 m2, soft_delete k i s cascade w = (Ok rep, w1) /\ restore k i w1 = (Ok rep', w2) /\
    entity k i (db w2) = Some m2 /\ is_active m2 = Some true.
Proof.
  intros Hm Hk Ha Hst Hd.
  destruct (soft_delete_ok uuid_str clock k i s cascade w m Hm Hd) as (rep & w1 & H1 & _ & Hin & _).
  specialize (Hin (k, i) ltac:(by left)). simpl in Hin. rewrite Hm in Hin. inversion Hin as [? m1 Hdep E1 E2|]. subst.
  unfold soft_deleted in Hdep. rewrite (proj2 (String.eqb_neq _ _) Hst) in Hdep. destruct Hdep as [n ->].
  destruct (restore_ok k i w1 _ (eq_sym E2)) as (rep' & w2 & H2 & _ & Hr2).
  specialize (Hr2 (k, i)). simpl in Hr2. rewrite <- E2 in Hr2. simpl in Hr2.
  eexists rep, w1, rep', w2, _. split; [done|]. split; [done|]. split; [exact Hr2|].
  unfold restores. rewrite bool_decide_true by done. simpl.
  unfold deprecated_meta, set_active. simpl. unfold set_active. by rewrite Hk, Ha.
Qed.
End Properties.
