(* ===== verification/LifecycleCleanup.v ===== *)
(** * Properties of the cleanup and of the deletion of tenants

    What cleanup_deprecated_entities can delete, what the two ways of deleting a
    tenant do, and which deletions are always refused. *)
From S2P Require Import Prelude Entities EntitiesProofs MigrationProofs Lifecycle LifecycleProofs LifecycleSafety.
Open Scope Z_scope.

Section Cleanup.
Variable uuid_str : Z -> string.
Variable clock : nat -> Z.
Variable refused : bool.
#[local] Abbreviation hard_delete := (hard_delete uuid_str refused).
#[local] Abbreviation hard_delete_tenant := (hard_delete_tenant uuid_str refused).
#[local] Abbreviation purge := (purge uuid_str refused).
#[local] Abbreviation purge_kind := (purge_kind uuid_str clock refused).
#[local] Abbreviation cleanup := (cleanup_deprecated_entities uuid_str clock refused).

(** ** Collections and agents *)
(** The cleanup never deletes a collection or an agent, deprecated or not: the
    services it calls refuse to find deprecated ones, and the transaction is
    rolled back. *)
Theorem cleanup_keeps_collections_and_agents w :
  unique_slugs (db w) ->
  dom (collections (db (cleanup w).1)) = dom (collections (db w)) /\
  dom (agents (db (cleanup w).1)) = dom (agents (db w)).
Proof.
  intros Hu. destruct (cleanup_assets uuid_str clock refused w Hu) as [Hs Ha]. split; [|done].
  unfold slugs in Hs. apply (f_equal dom) in Hs. by rewrite !dom_fmap_L in Hs.
Qed.

(** ** Retention *)
Lemma foldl_step {A B} (f : A -> B -> A) a x l : foldl f a (x :: l) = foldl f (f a x) l.
Proof. done. Qed.

(** The part of the cleanup after the tenants *)
Lemma cleanup_rest_keeps (R : relation DB) `{!PreOrder R} w :
  (forall k w, k ≠ K_tenant -> R (db w) (db (purge_kind w k).1)) ->
  R (db (purge_kind w K_tenant).1) (db (cleanup w).1).
Proof.
  intros HR. unfold cleanup_deprecated_entities, all_kinds. rewrite foldl_step.
  apply (cleanup_kinds_keep uuid_str clock refused R _ (cleanup_kind uuid_str clock refused (w, []) K_tenant)).
  intros k w1 Hk. apply HR. set_solver.
Qed.

(** ... and after the users *)
Lemma cleanup_tail_keeps (R : relation DB) `{!PreOrder R} w :
  (forall k w, k ≠ K_tenant -> k ≠ K_user -> R (db w) (db (purge_kind w k).1)) ->
  R (db (purge_kind (purge_kind w K_tenant).1 K_user).1) (db (cleanup w).1).
Proof.
  intros HR. unfold cleanup_deprecated_entities, all_kinds. do 2 rewrite foldl_step.
  apply (cleanup_kinds_keep uuid_str clock refused R _
           (cleanup_kind uuid_str clock refused (cleanup_kind uuid_str clock refused (w, []) K_tenant) K_user)).
  intros k w1 Hk. apply HR; set_solver.
Qed.

(** Keeps a view. *)
Definition same_as {A} (v : DB -> A) : relation DB := fun d d' => v d' = v d.

#[export] Instance same_as_preorder {A} (v : DB -> A) : PreOrder (same_as v).
Proof. split; [done|]. intros d1 d2 d3 H1 H2. unfold same_as in *. congruence. Qed.

Lemma purge_kind_tenants k w : k ≠ K_tenant -> tenants_view (db (purge_kind w k).1) = tenants_view (db w).
Proof.
  intros Hk. apply (purge_kind_keeps uuid_str clock refused (same_as tenants_view)).
  intros i c _. apply (keeps_others uuid_str refused tenants_view); try done. intros u d _. apply tenants_delete_user.
Qed.

Lemma purge_kind_users k w :
  k ≠ K_tenant -> k ≠ K_user -> users_view (db (purge_kind w k).1) = users_view (db w).
Proof.
  intros Hk Hu. apply (purge_kind_keeps uuid_str clock refused (same_as users_view)).
  intros i c _. by apply (keeps_others uuid_str refused users_view).
Qed.

(** Keeps one row of a view. *)
Definition same_at {A} (v : DB -> gmap Z A) (i : Z) : relation DB := fun d d' => v d' !! i = v d !! i.

#[export] Instance same_at_preorder {A} (v : DB -> gmap Z A) i : PreOrder (same_at v i).
Proof. split; [done|]. intros d1 d2 d3 H1 H2. unfold same_at in *. congruence. Qed.

Lemma purge_tenants_others w t :
  t ∉ expired_ids K_tenant (clock (readings w)) (db w) ->
  tenants_view (db (purge_kind w K_tenant).1) !! t = tenants_view (db w) !! t.
Proof.
  intros Ht. apply (purge_kind_keeps uuid_str clock refused (same_at tenants_view t)).
  intros i c Hi w1 r w2 H. eapply hard_delete_view; [done|]. intros [_ ->]. done.
Qed.

Lemma purge_users_others w u :
  u ∉ expired_ids K_user (clock (readings w)) (db w) ->
  users_view (db (purge_kind w K_user).1) !! u = users_view (db w) !! u.
Proof.
  intros Hu. apply (purge_kind_keeps uuid_str clock refused (same_at users_view u)).
  intros i c Hi w1 r w2 H. assert (i ≠ u) by congruence. unfold on_db, same_at.
  assert (delete i (users_view (db w2)) = delete i (users_view (db w1))) as Hd.
  { revert H. apply (keeps_hard_delete_user (fun d => delete i (users_view d))). intros d.
    by rewrite users_delete_user, delete_delete_eq. }
  by rewrite <- (lookup_delete_ne _ i u), Hd, lookup_delete_ne.
Qed.

(** A tenant deleted without a cascade keeps its users. *)
Lemma migrated_tenant_users t : keeps users_view (hard_delete_tenant t false).
Proof.
  unfold Lifecycle.hard_delete_tenant, delete_or_migrate, delete_tenant_row.
  frame; [|done..]. apply keeps_migrate; [apply _|]. intros. by apply keeps_migrate_collections.
Qed.

Definition cascades (t : Z) (d : DB) : bool :=
  match entity K_tenant t d with Some m => delete_cascade m | None => false end.

Lemma cascades_view t d d' : tenants_view d' !! t = tenants_view d !! t -> cascades t d' = cascades t d.
Proof.
  unfold cascades, tenants_view. simpl. rewrite !lookup_fmap.
  destruct (tenants d !! t) as [[? []]|], (tenants d' !! t) as [[? []]|]; simpl; intros H; by simplify_eq.
Qed.

Lemma purge_tenants_users l acc :
  NoDup l -> (forall t, t ∈ l -> cascades t (db acc.1) = false) ->
  users_view (db (foldl (purge K_tenant) acc l).1) = users_view (db acc.1).
Proof.
  revert acc. induction l as [|t l IH]; intros acc Hnd Hc; [done|]. apply NoDup_cons in Hnd as [Ht Hnd].
  cbn [foldl].
  assert (users_view (db (purge K_tenant acc t).1) = users_view (db acc.1)) as Hu.
  { specialize (Hc t ltac:(by left)). unfold cascades in Hc. destruct acc as [w n]. unfold Lifecycle.purge. cbn [fst] in *.
    destruct (entity K_tenant t (db w)) as [m|]; [|done]. rewrite Hc.
    destruct (hard_delete K_tenant t false w) as [[rep|e] w'] eqn:H; [|done]. by apply migrated_tenant_users in H. }
  rewrite IH; [done|done|]. intros t' Ht'. rewrite <- (Hc t') by (by right). apply cascades_view.
  apply (purge_keeps uuid_str refused (same_at tenants_view t')). intros c w r w' H.
  eapply hard_delete_view; [done|]. intros [_ ->]. done.
Qed.

Lemma expired_user_view at_ d d' u :
  users_view d' !! u = users_view d !! u -> expired K_user at_ d' u = expired K_user at_ d u.
Proof.
  unfold expired, users_view. simpl. rewrite !lookup_fmap.
  destruct (users d !! u) as [[? []]|], (users d' !! u) as [[? []]|]; simpl; intros H; try done.
  injection H as <- <- <- <- <- <- <- <- <-. by destruct (tenants d !! u), (tenants d' !! u).
Qed.

Lemma expired_ids_spec k at_ d i : i ∈ expired_ids k at_ d -> expired k at_ d i = true.
Proof.
  unfold expired_ids. intros H. apply elem_of_take in H as (n & H & _). apply list_elem_of_lookup_2 in H.
  by apply elem_of_List_filter in H as [_ H].
Qed.

Lemma expired_ids_NoDup at_ d : NoDup (expired_ids K_tenant at_ d).
Proof.
  unfold expired_ids. eapply sublist_NoDup; [|apply sublist_take]. rewrite <- (map_id (List.filter _ _)).
  apply NoDup_map_filter. rewrite map_id. apply NoDup_fst_map_to_list.
Qed.

(** The cleanup respects the retention.  A tenant that it deletes was expired
    when it started (deprecated as a root, its retention over, not the default);
    a user that it deletes was expired too, unless some expired tenant was
    deprecated with a cascade. *)
Theorem cleanup_respects_retention w :
  (forall t, is_Some (tenants (db w) !! t) -> expired K_tenant (clock (readings w)) (db w) t = false ->
     is_Some (tenants (db (cleanup w).1) !! t)) /\
  (forall u, is_Some (users (db w) !! u) -> (forall n, expired K_user (clock n) (db w) u = false) ->
     (forall t, expired K_tenant (clock (readings w)) (db w) t = true -> cascades t (db w) = false) ->
     is_Some (users (db (cleanup w).1) !! u)).
Proof.
  assert (forall D (t t' : Table D) i, (view <$> t') !! i = (view <$> t) !! i -> is_Some (t !! i) -> is_Some (t' !! i))
    as Hview by (intros D t t' i; rewrite !lookup_fmap; destruct (t !! i), (t' !! i); intros ? [? ?]; by eauto).
  split.
  - intros t Ht He. revert Ht. apply Hview. change (tenants_view (db (cleanup w).1) !! t = tenants_view (db w) !! t).
    transitivity (tenants_view (db (purge_kind w K_tenant).1) !! t).
    + apply (cleanup_rest_keeps (same_at tenants_view t)). intros k w1 Hk. unfold same_at. by rewrite purge_kind_tenants.
    + apply purge_tenants_others. intros H%expired_ids_spec. congruence.
  - intros u Hu He Hc. revert Hu. apply Hview. change (users_view (db (cleanup w).1) !! u = users_view (db w) !! u).
    set (w1 := (purge_kind w K_tenant).1).
    assert (users_view (db w1) = users_view (db w)) as H1.
    { apply (purge_tenants_users _ ({| db := db w; readings := S (readings w) |}, 0)); [apply expired_ids_NoDup|].
      intros t Ht. apply Hc. by apply expired_ids_spec. }
    transitivity (users_view (db (purge_kind w1 K_user).1) !! u).
    + apply (cleanup_tail_keeps (same_at users_view u)). intros k w2 Hk Hk'. unfold same_at. by rewrite purge_kind_users.
    + rewrite purge_users_others; [by rewrite H1|]. intros H%expired_ids_spec.
      erewrite expired_user_view in H; [|by rewrite H1]. by rewrite He in H.
Qed.

(** ** Deletion of a tenant *)
(** No user has two chats for the uploads of one sandbox session. *)
Definition unique_uploads (d : DB) : Prop :=
  forall i j ri rj, chats d !! i = Some ri -> chats d !! j = Some rj -> is_sandbox_upload_chat (cols ri) = true ->
    ch_owner_id (cols ri) = ch_owner_id (cols rj) -> ch_name (cols ri) = ch_name (cols rj) -> i = j.

(** Chats are only deleted. *)
Definition chats_shrink (d d' : DB) : Prop :=
  forall i r', chats d' !! i = Some r' -> exists r, chats d !! i = Some r /\ cols r = cols r'.

#[export] Instance chats_shrink_preorder : PreOrder chats_shrink.
Proof.
  split; [intros d i r Hr; by exists r|]. intros d1 d2 d3 H1 H2 i r3 H3.
  destruct (H2 i r3 H3) as (r2 & Hr2 & E2). destruct (H1 i r2 Hr2) as (r1 & Hr1 & E1). exists r1. by rewrite E1.
Qed.

#[export] Instance on_db_preorder R `{!PreOrder R} : PreOrder (on_db R).
Proof. split; [by intros w; unfold on_db|]. intros w1 w2 w3 H1 H2. unfold on_db in *. by transitivity (db w2). Qed.

Lemma uploads_shrink d d' : chats_shrink d d' -> unique_uploads d -> unique_uploads d'.
Proof.
  intros Hs Hu i j ri rj (r & Hr & <-)%Hs (r' & Hr' & <-)%Hs. by apply Hu.
Qed.

Lemma shrink_same d d' : chats d' = chats d -> chats_shrink d d'.
Proof. intros H i r. rewrite H. eauto. Qed.

Ltac frame_rel := repeat first [frame_step | apply preserves_modify; intros ?].

Lemma shrink_delete_chat c o b : preserves (on_db chats_shrink) (delete_chat c o b).
Proof.
  unfold delete_chat, delete_chat_row. frame_rel. intros i r1. simpl. intros [_ Hr]%lookup_delete_Some. eauto.
Qed.

Lemma shrink_rules_for_owner u t : preserves (on_db chats_shrink) (remove_rules_for_owner u t).
Proof. unfold remove_rules_for_owner, delete_rules. frame_rel; by apply shrink_same. Qed.

Lemma shrink_delete_user u : preserves (on_db chats_shrink) (hard_delete_user u).
Proof.
  unfold hard_delete_user, _assert_user_not_last_active_admin.
  frame_rel; auto using shrink_delete_chat, shrink_rules_for_owner.
  intros i r1. simpl. rewrite lookup_fmap, fmap_Some. intros (r2 & [Hr _]%map_lookup_filter_Some & ->). by exists r2.
Qed.

Lemma shrink_delete_session s : preserves (on_db chats_shrink) (delete_session uuid_str s).
Proof.
  unfold delete_session, delete_sandbox_row. frame_rel; auto using shrink_delete_chat. by apply shrink_same.
Qed.

(** Operations that always return *)
Definition total {A} (m : call A) : Prop := forall w, exists a w', m w = (Ok a, w').

Lemma total_bind {A B} (m : call A) (f : A -> call B) : total m -> (forall a, total (f a)) -> total (m ≫= f).
Proof.
  intros Hm Hf w. destruct (Hm w) as (a & w1 & H1). destruct (Hf a w1) as (b & w2 & H2).
  exists b, w2. by rewrite (bind_run_Ok _ _ _ _ _ H1).
Qed.

Lemma total_delete_chat c o b : total (delete_chat c o b).
Proof.
  intros w. unfold delete_chat, read, mbind, py_bind. destruct (chats (db w) !! c) as [r|]; [|by eexists _, _].
  destruct (negb _); [by eexists _, _|]. destruct (_ && _); by eexists _, _.
Qed.

Lemma total_for_each {A} (f : A -> call unit) l : (forall x, total (f x)) -> total (for_each f l).
Proof. intros Hf. induction l as [|x l IH]; simpl; [by intros w; eexists _, _|]. by apply total_bind. Qed.

(** Deleting a user fails with a ValueError or not at all. *)
Lemma hard_delete_user_errors u w e w' : hard_delete_user u w = (Err e, w') -> exists m, e = ValueError m.
Proof.
  unfold hard_delete_user. intros [H|(row & w1 & H1 & H)]%bind_Err; [done|].
  destruct row as [row|]; [|injection H as <- _; eauto]. revert H.
  intros [H|([] & w2 & H2 & H)]%bind_Err.
  { unfold _assert_user_not_last_active_admin, read, mbind, py_bind in H.
    destruct (_is_last_active_admin u (db w1)); [injection H as <- _; eauto|done]. }
  exfalso. revert H. do 2 (rewrite (bind_run_Ok _ _ _ _ _ (eq_refl : read _ w2 = (Ok _, w2)))).
  rewrite (bind_run_Ok _ _ _ _ _ (eq_refl : read _ w2 = (Ok _, w2))).
  destruct (total_for_each (fun c => _ ← delete_chat c u false; mret tt) (chats_of u (db w2))) with (w := w2)
    as (a & w3 & H3); [intros c; apply total_bind; [apply total_delete_chat|by intros ? w3; eexists _, _]|].
  rewrite (bind_run_Ok _ _ _ _ _ H3). done.
Qed.

Lemma total_delete_member counts u : total (delete_member counts u).
Proof.
  intros w. unfold delete_member, try_except, mbind, py_bind, mret, py_ret.
  destruct (hard_delete_user u w) as [[rep|e] w'] eqn:H; [by eexists _, _|].
  apply hard_delete_user_errors in H as [m ->]. by eexists _, _.
Qed.

Lemma total_delete_by_id counts c : total (delete_collection_by_id refused counts c).
Proof. intros w. unfold delete_collection_by_id, try_except, mbind, py_bind. destruct refused; by eexists _, _. Qed.

Lemma prefix_app p s : String.prefix p (p +:+ s) = true.
Proof.
  induction p as [|c p IH]; simpl; [by destruct s|]. change (String.app p s) with (p +:+ s). by destruct (Ascii.ascii_dec c c).
Qed.

Lemma delete_session_total s w :
  unique_uploads (db w) -> exists b w', delete_session uuid_str s w = (Ok b, w').
Proof.
  intros Hu. unfold delete_session. rewrite (bind_run_Ok _ _ _ _ _ (eq_refl : read _ w = (Ok _, w))).
  destruct (sandbox_sessions (db w) !! s) as [row|]; [|by eexists _, _].
  rewrite (bind_run_Ok _ _ _ _ _ (eq_refl : read _ w = (Ok _, w))). set (owner := ss_owner_id (cols row)).
  assert (forall c, c ∈ hidden_chats uuid_str owner s (db w) -> exists r, chats (db w) !! c = Some r /\
    ch_owner_id (cols r) = owner /\ ch_name (cols r) = Some (make_sandbox_upload_chat_name uuid_str s)) as Hh.
  { intros c (r & Hr & [Ho%Z.eqb_eq Hn%bool_decide_eq_true]%andb_true_iff)%select_ids_spec. eauto. }
  assert (NoDup (hidden_chats uuid_str owner s (db w))) as Hnd by apply select_ids_NoDup.
  destruct (hidden_chats uuid_str owner s (db w)) as [|c [|c' l]]; [by eexists _, _| |].
  - destruct (total_delete_chat c owner true w) as (b & w1 & H1). rewrite (bind_run_Ok _ _ _ _ _ H1). by eexists _, _.
  - exfalso. destruct (Hh c) as (r & Hr & Ho & Hn); [by left|]. destruct (Hh c') as (r' & Hr' & Ho' & Hn'); [by right; left|].
    apply NoDup_cons in Hnd as [[] _]. rewrite (Hu c c' r r' Hr Hr'); [by left| |congruence..].
    unfold is_sandbox_upload_chat. rewrite Hn. apply prefix_app.
Qed.

Lemma delete_sandboxes_total l n w :
  unique_uploads (db w) ->
  exists m w', fold_rows (delete_sandbox uuid_str) n l w = (Ok m, w') /\ unique_uploads (db w').
Proof.
  intros Hu. apply (fold_rows_total _ (fun _ _ w1 => unique_uploads (db w1))); [done|].
  intros done x rest a w1 _ Hu1. destruct (delete_session_total x w1 Hu1) as (b & w2 & H2).
  unfold delete_sandbox. rewrite (bind_run_Ok _ _ _ _ _ H2). eexists _, _. split; [reflexivity|].
  eapply uploads_shrink; [|done]. by eapply shrink_delete_session.
Qed.

Lemma get_default_spec d t :
  get_platform_default d = Some t -> exists r, tenants d !! t = Some r /\ is_platform_default (cols r) = true.
Proof.
  unfold get_platform_default. intros H. apply (select_ids_spec (fun _ r => is_platform_default (cols r))).
  destruct (select_ids _ _); [done|]. injection H as ->. by left.
Qed.

(** The end of the deletion of a tenant, once its data is gone *)
Lemma rules_for_owner_total u t : total (remove_rules_for_owner u t).
Proof. intros w. unfold remove_rules_for_owner. destruct u, t; by eexists _, _. Qed.

(** A projection of what the last steps do not touch *)
Definition assets_of_users (d : DB) : Table User * Table Collection * gmap Z UserTenant :=
  (users d, collections d, user_tenants d).

#[local] Instance assets_of_users_independent : Independent assets_of_users.
Proof. by split. Qed.

#[local] Instance tenants_independent : Independent tenants.
Proof. by split. Qed.

Definition tenants_of_collections (d : DB) : gmap Z Z := (fun r => co_tenant_id (cols r)) <$> collections d.

#[local] Instance tenants_of_collections_detached : Detached tenants_of_collections.
Proof. by repeat split. Qed.

Lemma collections_of_nil t d : collections_of t d = [] <-> forall i, tenants_of_collections d !! i ≠ Some t.
Proof.
  unfold collections_of, tenants_of_collections. rewrite select_ids_nil. split.
  - intros H i. rewrite lookup_fmap. destruct (collections d !! i) as [r|] eqn:Hr; [|done]. simpl. intros [= Ht].
    specialize (H i r Hr). by apply Z.eqb_neq in H.
  - intros H i r Hr. apply Z.eqb_neq. intros Ht. apply (H i). by rewrite lookup_fmap, Hr, <- Ht.
Qed.

(** The tenant's row, read at the start *)
Lemma hard_delete_tenant_start t cascade w row default :
  tenants (db w) !! t = Some row -> is_platform_default (cols row) = false ->
  get_platform_default (db w) = Some default ->
  hard_delete_tenant t cascade w =
  (done ← delete_or_migrate uuid_str refused t default cascade;
   sandbox_ids ← read (sandboxes_of_tenant t);
   sandbox_deleted ← fold_rows (delete_sandbox uuid_str) 0 sandbox_ids;
   removed ← remove_rules_for_owner None (Some t);
   _ ← write (fun d => with_bindings d (filter (fun x => ut_tenant_id x.2 ≠ t)));
   _ ← delete_tenant_row t;
   mret (deleted_report K_tenant t
           (if cascade then [] else [("migrated_to_tenant_id"%string, JStr (uuid_str default))])
           (mr_migrated done.1)
           (if 0 <? sandbox_deleted then bump "sandbox_sessions" sandbox_deleted done.2 else done.2)
           removed (renamed_collections done.1))) w.
Proof.
  intros Hr Hd Hdef. unfold Lifecycle.hard_delete_tenant.
  rewrite (bind_run_Ok _ _ w (Some row) w) by (unfold read; by rewrite Hr). rewrite Hd.
  rewrite (bind_run_Ok _ _ w (Some default) w) by (unfold read; by rewrite Hdef). done.
Qed.


Lemma co_tenants_delete_user u d : tenants_of_collections (delete_user_row u d) = tenants_of_collections d.
Proof. unfold tenants_of_collections. simpl. rewrite <- map_fmap_compose. by apply map_fmap_ext. Qed.

Lemma fold_total {A B} (f : A -> B -> call A) acc l : (forall a x, total (f a x)) -> total (fold_rows f acc l).
Proof.
  intros Hf. revert acc. induction l as [|x l IH]; intros acc; [by intros w; eexists _, _|]. cbn [fold_rows].
  by apply total_bind.
Qed.

(** The cascade over users and collections returns, and deletes no collection. *)
Lemma delete_members_total t default w :
  unique_uploads (db w) ->
  exists rep w', delete_or_migrate uuid_str refused t default true w = (Ok rep, w') /\
    unique_uploads (db w') /\ tenants_of_collections (db w') = tenants_of_collections (db w).
Proof.
  intros Hu. unfold delete_or_migrate.
  assert (total (delete_or_migrate uuid_str refused t default true)) as Ht.
  { repeat (apply total_bind; [first [by intros w1; eexists _, _|apply fold_total]|intros ?]).
    - apply total_delete_member.
    - apply total_delete_by_id.
    - by intros w1; eexists _, _. }
  destruct (Ht w) as (rep & w' & H). exists rep, w'. split; [done|].
  assert (preserves (on_db chats_shrink) (delete_or_migrate uuid_str refused t default true)) as Hs.
  { unfold delete_or_migrate, delete_member, delete_collection_by_id. frame_rel. apply shrink_delete_user. }
  apply Hs in H as Hsh. split; [by eapply uploads_shrink|].
  assert (keeps tenants_of_collections (delete_or_migrate uuid_str refused t default true)) as Hk.
  { unfold delete_or_migrate. frame. apply keeps_delete_member; [apply _|]. apply co_tenants_delete_user. }
  by apply Hk in H.
Qed.

(** Deleting a tenant with a cascade fails as soon as it has a collection: the
    collections are looked up with their identifier for a slug, none is deleted,
    and the foreign key refuses the tenant's row. *)
Theorem cascade_deletion_refused t w row default :
  tenants (db w) !! t = Some row -> is_platform_default (cols row) = false ->
  get_platform_default (db w) = Some default -> unique_uploads (db w) -> collections_of t (db w) ≠ [] ->
  exists w', hard_delete K_tenant t true w = (Err IntegrityError, w').
Proof.
  intros Hr Hd Hdef Hu Hc. change (hard_delete K_tenant t true w) with (hard_delete_tenant t true w).
  rewrite (hard_delete_tenant_start t true w row default Hr Hd Hdef).
  destruct (delete_members_total t default w Hu) as (rep & w1 & H1 & Hu1 & Hco1). rewrite (bind_run_Ok _ _ _ _ _ H1).
  rewrite (bind_run_Ok _ _ _ _ _ (eq_refl : read _ w1 = (Ok _, w1))).
  destruct (delete_sandboxes_total (sandboxes_of_tenant t (db w1)) 0 w1 Hu1) as (n & w2 & H2 & _).
  assert (keeps tenants_of_collections (fold_rows (delete_sandbox uuid_str) 0 (sandboxes_of_tenant t (db w1)))) as Kc
    by frame.
  apply Kc in H2 as Hco2. rewrite (bind_run_Ok _ _ _ _ _ H2).
  destruct (rules_for_owner_total None (Some t) w2) as (removed & w3 & H3).
  apply (keeps_rules_for_owner tenants_of_collections) in H3 as Hco3. rewrite (bind_run_Ok _ _ _ _ _ H3).
  rewrite (bind_run_Ok _ _ _ _ _ (eq_refl : write _ w3 = (Ok _, _))). unfold delete_tenant_row.
  unfold kept in *. set (w4 := {| db := with_bindings (db w3) _ |}).
  assert (collections_of t (db w4) ≠ []) as Hne.
  { rewrite collections_of_nil in *. intros H. apply Hc. intros i. rewrite <- Hco1, <- Hco2, <- Hco3. apply H. }
  exists w4. apply bind_run_Err. rewrite (bind_run_Ok _ _ _ _ _ (eq_refl : read _ w4 = (Ok _, w4))).
  by destruct (collections_of t (db w4)).
Qed.
End Cleanup.
