(* ===== verification/LifecycleDemo.v ===== *)
(** * A small platform

    A database with two tenants, on which the theorems of [LifecycleProperties]
    and [LifecycleCleanup] are applied. *)
From S2P Require Import Prelude Entities EntitiesProofs MigrationProofs Lifecycle LifecycleProofs LifecycleSafety.
From S2P Require Import LifecycleProperties LifecycleCleanup.
Open Scope Z_scope.

Definition fresh (active : option bool) : Meta :=
  {| lifecycle_status := "active"; deprecated_at := None; deprecated_by := None; deprecated_reason := None;
     retention_days := 14; delete_cascade := false; deprecated_root_kind := None; deprecated_root_id := None;
     is_active := active |}.

Definition row {D} (active : option bool) (c : D) : Row D := {| cols := c; meta := fresh active |}.

(** Tenant 1 is the default; user 10 is the only administrator; user 11, the
    collection 20, the rule 40 and the sandbox 60 belong to tenant 2, the chat 50 to
    user 11, the rule 41 is about the collection; user 12 is blocked. *)
Definition platform : DB :=
  {| tenants := {[ 1 := row (Some true) {| t_name := "home"; is_platform_default := true |};
                   2 := row (Some true) {| t_name := "guests"; is_platform_default := false |} ]};
     users := {[ 10 := row (Some true) {| u_login := "root"; u_role := "admin" |};
                 11 := row (Some true) {| u_login := "ann"; u_role := "reader" |};
                 12 := row (Some false) {| u_login := "bob"; u_role := "reader" |} ]};
     collections := {[ 20 := row (Some true) {| co_name := "Docs"; co_slug := "docs"; co_tenant_id := 2;
                                                co_table_name := None |} ]};
     agents := {[ 30 := row None {| ag_slug := "a"; ag_name := "A"; allowed_collection_ids := Some [20] |} ]};
     rbac_rules := {[ 40 := row None {| owner_user_id := None; owner_tenant_id := Some 2; resource_type := "agent";
                                        resource_id := 30 |};
                      41 := row None {| owner_user_id := None; owner_tenant_id := None; resource_type := "instance";
                                        resource_id := 20 |} ]};
     chats := {[ 50 := row None {| ch_owner_id := 11; ch_name := None |} ]};
     sandbox_sessions := {[ 60 := row None {| ss_owner_id := 11; ss_tenant_id := 2; ss_name := "try" |} ]};
     user_tenants := {[ 70 := {| ut_user_id := 10; ut_tenant_id := 1; ut_is_default := true |};
                        71 := {| ut_user_id := 11; ut_tenant_id := 2; ut_is_default := true |} ]};
     owned := {[ (Source, 80) := Some 2 ]};
     physical_tables := ∅ |}.

Definition start : World := {| db := platform; readings := 0 |}.
Definition name_of (i : Z) : string := "0a0b0c0d-0000".
Definition time (n : nat) : Z := Z.of_nat n * 100 * seconds_per_day.
Definition request_by_root (retention : option Z) : SoftDelete :=
  {| sd_actor_id := Some 10; sd_reason := Some "leaves"%string; sd_retention_days := retention |}.

(** The cascade from tenant 2 reaches its user, collection, sandbox and rule, the
    user's chat and the collection's rule. *)
Example cascade_from_2 :
  dependent_keys (get_dependencies name_of K_tenant 2 true true true platform) =
  [(K_user, 11); (K_collection, 20); (K_sandbox_session, 60); (K_rbac_rule, 40); (K_chat, 50);
   (K_sandbox_session, 60); (K_rbac_rule, 41)].
Proof. by vm_compute. Qed.

(** Case analysis on a lookup in a concrete map. *)
Ltac map_cases :=
  repeat match goal with
  | H : (_ : gmap _ _) !! _ = Some _ |- _ => 
      first [apply lookup_insert_Some in H as [[<- <-]|[? H]] | apply lookup_singleton_Some in H as [<- <-]
            | by apply lookup_empty_Some in H]
  end.

Lemma platform_slugs : unique_slugs platform.
Proof.
  intros i j s. change (slugs platform) with ({[ 20 := "docs"%string ]} : gmap Z string).
  by intros [<- _]%lookup_singleton_Some [<- _]%lookup_singleton_Some.
Qed.

Lemma platform_members : unique_members 1 platform.
Proof.
  intros b b' ut ut' H H'. unfold platform in H, H'. cbn [user_tenants] in H, H'. map_cases; simpl; intros; try done.
Qed.

Lemma platform_uploads : unique_uploads platform.
Proof. intros i j ri rj H H'. unfold platform in H, H'. cbn [chats] in H, H'. by map_cases. Qed.

(** Every entity but user 12 is as it was created. *)
Lemma platform_pristine k i m : entity k i platform = Some m -> (k, i) ≠ (K_user, 12) -> pristine k m.
Proof.
  unfold platform. destruct k; cbn [entity tenants users collections agents rbac_rules chats sandbox_sessions];
    intros (r & H & ->)%fmap_Some Hne; map_cases; simpl; repeat split; simpl; try done; by destruct Hne.
Qed.

Lemma platform_roots k i m root : entity k i platform = Some m -> deprecated_under root m = false.
Proof.
  unfold platform. destruct k; cbn [entity tenants users collections agents rbac_rules chats sandbox_sessions];
    intros (r & H & ->)%fmap_Some; by map_cases.
Qed.

Lemma reach_2 x :
  tc (depends (columns platform)) (K_tenant, 2) x ->
  x ∈ [(K_user, 11); (K_collection, 20); (K_sandbox_session, 60); (K_rbac_rule, 40); (K_chat, 50);
       (K_sandbox_session, 60); (K_rbac_rule, 41)].
Proof. rewrite <- (cascade_closure name_of platform K_tenant 2 true), cascade_from_2. done. Qed.

(** ** The theorems on this platform *)
Lemma restore_undoes_soft_delete_witness :
  exists rep w1 rep' w2,
    soft_delete name_of time K_tenant 2 (request_by_root None) true start = (Ok rep, w1) /\
    restore K_tenant 2 w1 = (Ok rep', w2) /\ db w2 = db start.
Proof.
  apply (restore_undoes_soft_delete name_of time K_tenant 2 (request_by_root None) true start).
  - by eexists.
  - by vm_compute.
  - done.
  - intros [k i] m Hx Hm. apply platform_pristine with i; [done|]. cbn [fst]. intros [= -> ->].
    destruct Hx as [[=]|Hx%reach_2]. set_solver.
  - intros x Hx%reach_2. set_solver.
  - intros [k i] m. apply platform_roots.
Defined.

Lemma restore_unblocks_witness :
  exists rep w1 rep' w2 m2,
    soft_delete name_of time K_user 12 (request_by_root (Some 7)) false start = (Ok rep, w1) /\
    restore K_user 12 w1 = (Ok rep', w2) /\ entity K_user 12 (db w2) = Some m2 /\ is_active m2 = Some true.
Proof.
  apply (restore_unblocks name_of time K_user 12 (request_by_root (Some 7)) false start (fresh (Some false)) false);
    by vm_compute.
Defined.

Definition quiet_history : list op :=
  [Delete K_user 10 false true false (request_by_root None); Delete K_tenant 2 false false false (request_by_root None);
   Restore K_user 11; Cleanup].

Definition history : list op :=
  [Delete K_tenant 1 true true true (request_by_root None); Delete K_tenant 2 true false true (request_by_root (Some 7));
   Cleanup; Delete K_tenant 1 false true true (request_by_root None)].

Lemma default_tenant_survives_witness :
  exists r', tenants (db (run_ops name_of time true history start)) !! 1 = Some r' /\
    cols r' = {| t_name := "home"; is_platform_default := true |} /\ anon (meta r') = fresh (Some true).
Proof.
  apply (default_tenant_survives name_of time true history start 1
           (row (Some true) {| t_name := "home"; is_platform_default := true |})); by vm_compute.
Defined.

Lemma hard_deletes_keep_admin_witness :
  active_admins (db (run_ops name_of time true quiet_history start)) ≠ [].
Proof.
  apply (hard_deletes_keep_admin name_of time true quiet_history start 10); [by repeat constructor|by left].
Defined.

Lemma soft_delete_last_admin_witness :
  exists rep w', delete_entity name_of time true K_user 10 true false false (request_by_root None) start = (inr rep, w') /\
    active_admins (db w') = [].
Proof. apply (soft_delete_last_admin name_of time true 10 false false (request_by_root None) start). by vm_compute. Defined.

(** The collection is deprecated and its retention over when the cleanup runs. *)
Definition deprecated_docs : World :=
  (delete_entity name_of time true K_collection 20 true false false (request_by_root (Some 1)) start).2.

Example docs_expired : expired K_collection (time 1) (db deprecated_docs) 20 = true.
Proof. by vm_compute. Qed.

Lemma cleanup_keeps_collections_and_agents_witness :
  dom (collections (db (cleanup_deprecated_entities name_of time true deprecated_docs).1)) =
  dom (collections (db deprecated_docs)) /\
  dom (agents (db (cleanup_deprecated_entities name_of time true deprecated_docs).1)) =
  dom (agents (db deprecated_docs)).
Proof.
  apply (cleanup_keeps_collections_and_agents name_of time true deprecated_docs). intros i j s.
  replace (slugs (db deprecated_docs)) with ({[ 20 := "docs"%string ]} : gmap Z string) by by vm_compute.
  by intros [<- _]%lookup_singleton_Some [<- _]%lookup_singleton_Some.
Defined.


Lemma cascade_deletion_refused_witness :
  exists w', hard_delete name_of true K_tenant 2 true start = (Err IntegrityError, w').
Proof.
  apply (cascade_deletion_refused name_of true 2 start
           (row (Some true) {| t_name := "guests"; is_platform_default := false |}) 1); try by vm_compute.
  apply platform_uploads.
Defined.
