(* ===== verification/Facts.v ===== *)
(** * Facts: the durable memory of the runtime

    models/memory.py (Fact, FactObservation), models/project.py,
    runtime/memory/dto.py (FactDTO), runtime/memory/fact_store.py (FactStore),
    runtime/memory/service.py (MemorySnapshot, MemoryService),
    services/fact_admin_service.py with repositories/fact_admin_repository.py, and
    services/project_memory_service.py.

    A table is the list of its rows in insertion order.  The dictionaries that
    travel with a candidate (its metadata, the dump of a FactEvidence) are
    records with one field per key that the program reads or writes; a missing key
    is an empty field. *)
From S2P Require Import Prelude.
From Stdlib Require Import QArith.QArith_base.
Open Scope Z_scope.

(** ** Text *)
(** [s.split()]: [word] is the current word, reversed. *)
Fixpoint split_from (word : string) (s : string) : list string :=
  let flush := if str_empty word then [] else [word] in
  match s with
  | EmptyString => flush
  | String c s' => if is_space c then flush ++ split_from "" s' else split_from (word +:+ String c "") s'
  end.
Definition split (s : string) : list string := split_from "" s.

(** [" ".join(s.split())] *)
Definition squash (s : string) : string := String.concat " " (split s).

(** [" ".join(s.lower().split())[:500]] *)
Definition _normalized (value : string) : string := str_take 500 (squash (lower_ru value)).

Definition char (n : nat) : Ascii.ascii := Ascii.ascii_of_nat n.

(** SQL's [s LIKE pattern], escapes included *)
Fixpoint like (pattern s : string) : bool :=
  match pattern with
  | EmptyString => str_empty s
  | String c p =>
      if Ascii.eqb c (char 37) then
        (fix any s := like p s || match s with String _ s' => any s' | EmptyString => false end) s
      else if Ascii.eqb c (char 95) then
        match s with String _ s' => like p s' | EmptyString => false end
      else match p with
           | String e p' =>
               if Ascii.eqb c (char 92) then
                 match s with String d s' => Ascii.eqb d e && like p' s' | EmptyString => false end
               else match s with String d s' => Ascii.eqb d c && like p s' | EmptyString => false end
           | EmptyString => match s with String d s' => Ascii.eqb d c && like p s' | EmptyString => false end
           end
  end.

(** Python's [max] and [min] return their first argument unless the second is
    strictly greater, or smaller. *)
Definition q_max (a b : Q) : Q := if Qle_bool b a then a else b.
Definition q_min (a b : Q) : Q := if Qle_bool a b then a else b.

(** ** Rows *)
Inductive FactScope : Type := USER | TENANT | PROJECT.
Inductive FactStatus : Type := PENDING | CONFIRMED | UNCONFIRMED | DELETED.
Inductive FactSource : Type := USER_UTTERANCE | TOOL_RESULT | MANUAL | SYSTEM | LEGACY_AGENT_RESULT.

#[export] Instance FactScope_eq_dec : EqDecision FactScope.
Proof. solve_decision. Defined.
#[export] Instance FactStatus_eq_dec : EqDecision FactStatus.
Proof. solve_decision. Defined.
#[export] Instance FactSource_eq_dec : EqDecision FactSource.
Proof. solve_decision. Defined.

Definition scope_str (s : FactScope) : string :=
  match s with USER => "user" | TENANT => "tenant" | PROJECT => "project" end.
Definition status_str (s : FactStatus) : string :=
  match s with
  | PENDING => "pending" | CONFIRMED => "confirmed" | UNCONFIRMED => "unconfirmed" | DELETED => "deleted"
  end.
Definition source_str (s : FactSource) : string :=
  match s with
  | USER_UTTERANCE => "user_utterance" | TOOL_RESULT => "tool_result" | MANUAL => "manual"
  | SYSTEM => "system" | LEGACY_AGENT_RESULT => "agent_result"
  end.

(** The dump of a FactEvidence *)
Record Evidence := {
  source_id : string;
  source_type : string;
  source_ref : string;
  text : string;
  label : option string;
  support_ref : option string
}.

Record Metadata := {
  project_key : option string;
  project_aliases : list string;
  aliases : list string;
  evidence : list Evidence;
  glossary_scope : option string;
  compaction_action : option string;
  compaction_target_ids : list string;
  project_memory_marked : bool
}.

Definition no_metadata : Metadata :=
  {| project_key := None; project_aliases := []; aliases := []; evidence := []; glossary_scope := None;
     compaction_action := None; compaction_target_ids := []; project_memory_marked := false |}.

(** The columns of a fact that no code updates *)
Record FactColumns := {
  f_id : Z;
  project_id : option Z;
  scope : FactScope;
  owner_type : option string;
  owner_id : option Z;
  kind : option string;
  entry_metadata : option Metadata;
  subject : string;
  value : string;
  normalized_value : option string;
  source : FactSource;
  f_source_ref : option string;
  user_visible : bool
}.

(** The other columns *)
Record FactState := {
  tenant_id : option Z;
  confidence : Q;
  observed_at : Z;
  superseded_by : option Z;
  status : FactStatus;
  support_count : Z;
  first_confirmed_at : option Z;
  last_confirmed_at : option Z;
  revision : Z
}.

Record Fact := { columns :> FactColumns; state :> FactState }.

Record FactObservation := {
  o_id : Z;
  o_fact_id : Z;
  o_source_type : string;
  o_source_ref : string;
  o_source_label : option string
}.

Record Project := {
  p_id : Z;
  p_key : string;
  p_name : string;
  p_aliases : list string;
  p_is_active : bool
}.

(** ** FactDTO *)
Record FactDTO := {
  d_scope : FactScope;
  d_subject : string;
  d_value : string;
  d_source : FactSource;
  d_tenant_id : option Z;
  d_project_id : option Z;
  d_owner_type : option string;
  d_owner_id : option Z;
  d_kind : string;
  d_metadata : Metadata;
  d_confidence : Q;
  d_source_ref : option string;
  d_observed_at : Z;
  d_id : Z;
  d_superseded_by : option Z;
  d_user_visible : bool;
  d_status : FactStatus;
  d_support_count : Z;
  d_first_confirmed_at : option Z;
  d_last_confirmed_at : option Z;
  d_revision : Z
}.

Definition _orm_to_dto (row : Fact) : FactDTO :=
  {| d_scope := scope row; d_subject := subject row; d_value := value row; d_source := source row;
     d_tenant_id := tenant_id row; d_project_id := project_id row; d_owner_type := owner_type row;
     d_owner_id := owner_id row; d_kind := or_str (kind row) "fact";
     d_metadata := default no_metadata (entry_metadata row); d_confidence := confidence row;
     d_source_ref := f_source_ref row; d_observed_at := observed_at row; d_id := f_id row;
     d_superseded_by := superseded_by row; d_user_visible := user_visible row; d_status := status row;
     d_support_count := support_count row; d_first_confirmed_at := first_confirmed_at row;
     d_last_confirmed_at := last_confirmed_at row; d_revision := revision row |}.

(** Two DTOs in the same slot *)
Definition matches_key (a b : FactDTO) : bool :=
  bool_decide (d_scope a = d_scope b) && String.eqb (d_subject a) (d_subject b) &&
  match d_scope a with
  | USER | TENANT => bool_decide (d_owner_id a = d_owner_id b)
  | PROJECT => bool_decide (d_project_id a = d_project_id b)
  end.

(** ** Glossary rows (models/glossary.py) *)
Inductive GlossaryScope : Type := G_GLOBAL | G_USER | G_TENANT | G_PROJECT.
Inductive GlossaryStatus : Type := G_PENDING | G_CONFIRMED | G_UNCONFIRMED.

#[export] Instance GlossaryScope_eq_dec : EqDecision GlossaryScope.
Proof. solve_decision. Defined.
#[export] Instance GlossaryStatus_eq_dec : EqDecision GlossaryStatus.
Proof. solve_decision. Defined.

Record GlossaryEntry := {
  g_id : Z;
  g_scope : GlossaryScope;
  g_user_id : option Z;
  g_tenant_id : option Z;
  g_project_id : option Z;
  g_term : string;
  g_aliases : list string;
  g_description : option string;
  g_is_active : bool;
  g_status : GlossaryStatus;
  g_support_count : Z;
  g_first_confirmed_at : option Z;
  g_last_confirmed_at : option Z
}.

Record GlossaryObservation := {
  go_id : Z;
  go_entry_id : Z;
  go_source_type : string;
  go_source_ref : string;
  go_source_label : option string
}.

(** ** The database and the calls *)
Record MemDB := {
  facts : list Fact;
  observations : list FactObservation;
  projects : list Project;
  glossary_entries : list GlossaryEntry;
  glossary_observations : list GlossaryObservation
}.

Definition with_facts (f : list Fact -> list Fact) (d : MemDB) : MemDB :=
  {| facts := f (facts d); observations := observations d; projects := projects d;
     glossary_entries := glossary_entries d; glossary_observations := glossary_observations d |}.
Definition with_observations (f : list FactObservation -> list FactObservation) (d : MemDB) : MemDB :=
  {| facts := facts d; observations := f (observations d); projects := projects d;
     glossary_entries := glossary_entries d; glossary_observations := glossary_observations d |}.
Definition with_projects (f : list Project -> list Project) (d : MemDB) : MemDB :=
  {| facts := facts d; observations := observations d; projects := f (projects d);
     glossary_entries := glossary_entries d; glossary_observations := glossary_observations d |}.
Definition with_glossary (f : list GlossaryEntry -> list GlossaryEntry) (d : MemDB) : MemDB :=
  {| facts := facts d; observations := observations d; projects := projects d;
     glossary_entries := f (glossary_entries d); glossary_observations := glossary_observations d |}.
Definition with_glossary_obs (f : list GlossaryObservation -> list GlossaryObservation) (d : MemDB) : MemDB :=
  {| facts := facts d; observations := observations d; projects := projects d;
     glossary_entries := glossary_entries d; glossary_observations := f (glossary_observations d) |}.

(** The transaction's view of the database, with the numbers of clock readings and
    of identifiers drawn. *)
Record World := { db : MemDB; readings : nat; uuids : nat }.

Inductive Error : Type :=
| MultipleResultsFound
| IntegrityError
| AdminFactNotFoundError (id : Z)
| HTTPException (code : Z) (detail : string).

Abbreviation call A := (py Error World A).

Definition read {A} (f : MemDB -> A) : call A := fun w => (Ok (f (db w)), w).
Definition write (f : MemDB -> MemDB) : call unit :=
  modify (fun w => {| db := f (db w); readings := readings w; uuids := uuids w |}).

(** [select(Fact).where(p)] *)
Definition select_facts (p : Fact -> bool) : call (list Fact) := read (fun d => List.filter p (facts d)).

(** [update(Fact).where(p).values(g)], with the row count *)
Definition update_facts (p : Fact -> bool) (g : Fact -> FactState -> FactState) : call Z :=
  rows ← select_facts p;
  _ ← write (with_facts (map (fun f => if p f then {| columns := f; state := g f f |} else f)));
  mret (Z.of_nat (length rows)).

Definition insert_fact (f : Fact) : call unit :=
  ids ← read (fun d => map (fun f : Fact => f_id f) (facts d));
  if bool_decide (f_id f ∈ ids) then raise IntegrityError
  else write (with_facts (fun l => l ++ [f])).

(** [result.scalar_one_or_none()] *)
Definition scalar_one_or_none {A} (rows : list A) : call (option A) :=
  match rows with
  | [] => mret None
  | [x] => mret (Some x)
  | _ => raise MultipleResultsFound
  end.

(** [order_by(Fact.observed_at.desc())] *)
Definition newest_first (l : list Fact) : list Fact := sort_by (fun f : Fact => - observed_at f) Z.le l.

(** Assignments to columns *)
Definition set_superseded (by_ : Z) (s : FactState) : FactState :=
  {| tenant_id := tenant_id s; confidence := confidence s; observed_at := observed_at s;
     superseded_by := Some by_; status := status s; support_count := support_count s;
     first_confirmed_at := first_confirmed_at s; last_confirmed_at := last_confirmed_at s;
     revision := revision s |}.
Definition set_tenant (t : Z) (s : FactState) : FactState :=
  {| tenant_id := Some t; confidence := confidence s; observed_at := observed_at s;
     superseded_by := superseded_by s; status := status s; support_count := support_count s;
     first_confirmed_at := first_confirmed_at s; last_confirmed_at := last_confirmed_at s;
     revision := revision s |}.
Definition set_status (st : FactStatus) (s : FactState) : FactState :=
  {| tenant_id := tenant_id s; confidence := confidence s; observed_at := observed_at s;
     superseded_by := superseded_by s; status := st; support_count := support_count s;
     first_confirmed_at := first_confirmed_at s; last_confirmed_at := last_confirmed_at s;
     revision := revision s |}.
Definition set_revision (r : Z) (s : FactState) : FactState :=
  {| tenant_id := tenant_id s; confidence := confidence s; observed_at := observed_at s;
     superseded_by := superseded_by s; status := status s; support_count := support_count s;
     first_confirmed_at := first_confirmed_at s; last_confirmed_at := last_confirmed_at s;
     revision := r |}.
Definition refresh (at_ : Z) (c : Q) (s : FactState) : FactState :=
  {| tenant_id := tenant_id s; confidence := c; observed_at := at_;
     superseded_by := superseded_by s; status := status s; support_count := support_count s;
     first_confirmed_at := first_confirmed_at s; last_confirmed_at := last_confirmed_at s;
     revision := revision s |}.

(** Filters the queries share *)
Definition active (f : Fact) : bool := bool_decide (superseded_by f = None).
Definition confirmed (f : Fact) : bool := bool_decide (status f = CONFIRMED).
Definition owned_by (type : string) (owner : Z) (f : Fact) : bool :=
  bool_decide (owner_type f = Some type) && bool_decide (owner_id f = Some owner).

(** ** FactStore *)
Definition get_active_by_key (s : FactScope) (subj : string) (type : string) (owner : Z) : call (option FactDTO) :=
  rows ← select_facts (fun f => bool_decide (scope f = s) && String.eqb (subject f) subj && active f && confirmed f &&
                                owned_by type owner f);
  mret (_orm_to_dto <$> head rows).

Definition prefix_filter (prefix : option string) (f : Fact) : bool :=
  match prefix with
  | Some p => str_empty p || like (p +:+ "%") (subject f)
  | None => true
  end.
Definition ref_filter (part : option string) (f : Fact) : bool :=
  match part with
  | Some p => str_empty p ||
              match f_source_ref f with Some r => like ("%" +:+ p +:+ "%") r | None => false end
  | None => true
  end.
Definition source_filter (sources : list FactSource) (f : Fact) : bool :=
  match sources with [] => true | _ => bool_decide (source f ∈ sources) end.

Definition retrieve (scopes : list FactScope) (type : option string) (owner : option Z)
    (subject_prefix : option string) (sources : list FactSource) (source_ref_contains : option string)
    (limit : nat) : call (list FactDTO) :=
  match scopes, type, owner with
  | [], _, _ | _, None, _ | _, _, None => mret []
  | _, Some t, Some o =>
      rows ← select_facts (fun f => bool_decide (scope f ∈ scopes) && active f && confirmed f && owned_by t o f &&
                                    prefix_filter subject_prefix f && source_filter sources f &&
                                    ref_filter source_ref_contains f);
      mret (map _orm_to_dto (take limit (newest_first rows)))
  end.

Definition list_user_visible (user_id : Z) (limit offset : nat) : call (list FactDTO) :=
  rows ← select_facts (fun f => owned_by "user" user_id f && active f && user_visible f && confirmed f);
  mret (map _orm_to_dto (take limit (drop offset (newest_first rows)))).

(** [dto.metadata or None] *)
Definition is_no_metadata (m : Metadata) : bool :=
  match m with
  | {| project_key := None; project_aliases := []; aliases := []; evidence := []; glossary_scope := None;
       compaction_action := None; compaction_target_ids := []; project_memory_marked := false |} => true
  | _ => false
  end.
Definition metadata_or_none (m : Metadata) : option Metadata := if is_no_metadata m then None else Some m.

Definition row_of_dto (dto : FactDTO) : Fact :=
  {| columns := {| f_id := d_id dto; project_id := d_project_id dto; scope := d_scope dto;
                   owner_type := d_owner_type dto; owner_id := d_owner_id dto; kind := Some (d_kind dto);
                   entry_metadata := metadata_or_none (d_metadata dto); subject := d_subject dto;
                   value := d_value dto; normalized_value := Some (_normalized (d_value dto));
                   source := d_source dto; f_source_ref := d_source_ref dto; user_visible := d_user_visible dto |};
     state := {| tenant_id := d_tenant_id dto; confidence := d_confidence dto; observed_at := d_observed_at dto;
                 superseded_by := d_superseded_by dto; status := d_status dto; support_count := d_support_count dto;
                 first_confirmed_at := d_first_confirmed_at dto; last_confirmed_at := d_last_confirmed_at dto;
                 revision := d_revision dto |} |}.

Definition add (dto : FactDTO) : call FactDTO := _ ← insert_fact (row_of_dto dto); mret dto.

Definition mark_superseded (old_id new_id : Z) : call unit :=
  _ ← update_facts (fun f => Z.eqb (f_id f) old_id && active f) (fun _ => set_superseded new_id); mret tt.

Definition forget (fact_id : Z) : call unit := mark_superseded fact_id fact_id.

Definition forget_owned (type : string) (owner : Z) (fact_ids : list Z) : call Z :=
  update_facts (fun f => bool_decide (f_id f ∈ fact_ids) && owned_by type owner f && user_visible f && active f)
               (fun f => set_superseded (f_id f)).

Definition reassign_tenant_context (from_tenant_id to_tenant_id : Z) : call Z :=
  update_facts (fun f => bool_decide (tenant_id f = Some from_tenant_id)) (fun _ => set_tenant to_tenant_id).

Definition _values_equivalent (a b : string) : bool := String.eqb (strip a) (strip b).

(** The DTO that a refresh returns *)
Definition refreshed_dto (existing new : FactDTO) : FactDTO :=
  {| d_scope := d_scope existing; d_subject := d_subject existing; d_value := d_value existing;
     d_source := d_source existing; d_tenant_id := d_tenant_id existing; d_project_id := None;
     d_owner_type := d_owner_type existing; d_owner_id := d_owner_id existing; d_kind := d_kind existing;
     d_metadata := d_metadata existing; d_confidence := q_max (d_confidence existing) (d_confidence new);
     d_source_ref := d_source_ref existing; d_observed_at := d_observed_at new; d_id := d_id existing;
     d_superseded_by := None; d_user_visible := d_user_visible existing; d_status := PENDING;
     d_support_count := 0; d_first_confirmed_at := None; d_last_confirmed_at := None; d_revision := 1 |}.

Definition upsert_with_supersede (new : FactDTO) : call FactDTO :=
  existing ← get_active_by_key (d_scope new) (d_subject new) (or_str (d_owner_type new) "") (default 0 (d_owner_id new));
  match existing with
  | None => add new
  | Some old =>
      if _values_equivalent (d_value old) (d_value new) then
        _ ← update_facts (fun f => Z.eqb (f_id f) (d_id old))
                         (fun _ => refresh (d_observed_at new) (q_max (d_confidence old) (d_confidence new)));
        mret (refreshed_dto old new)
      else
        inserted ← add new;
        _ ← mark_superseded (d_id old) (d_id inserted);
        mret inserted
  end.
