(* ===== verification/FactServices.v ===== *)
(** * Services over the facts

    runtime/memory/service.py (MemorySnapshot, MemoryService),
    services/fact_admin_service.py with repositories/fact_admin_repository.py,
    services/project_memory_service.py, and the /facts routes of
    api/v1/routers/profile.py and api/v1/routers/admin/facts.py (the
    reconciler's replace_user_fact, which one of them calls, is in
    [FactReconciler]). *)
From S2P Require Import Prelude.
From S2P Require Import Facts.
From Stdlib Require Import QArith.QArith_base.
Open Scope Z_scope.

(** ** MemorySnapshot *)
Definition MAX_PROFILE_ITEMS : nat := 12.
Definition MAX_PROFILE_CHARS : nat := 2400.
Definition MAX_PROFILE_ITEM_CHARS : nat := 240.

Record MemorySnapshot := { user_facts : list FactDTO; tenant_facts : list FactDTO }.
Definition entries (s : MemorySnapshot) : list FactDTO := user_facts s ++ tenant_facts s.

(** One entry of a prompt's context *)
Record ContextItem := {
  ci_scope : string;
  ci_kind : string;
  ci_subject : string;
  ci_value : string;
  ci_confidence : Q
}.

Definition context_size (c : ContextItem) : nat := String.length (ci_subject c) + String.length (ci_value c).

Definition context_item (fact : FactDTO) : ContextItem :=
  {| ci_scope := scope_str (d_scope fact); ci_kind := d_kind fact;
     ci_subject := str_take MAX_PROFILE_ITEM_CHARS (d_subject fact);
     ci_value := str_take MAX_PROFILE_ITEM_CHARS (d_value fact); ci_confidence := d_confidence fact |}.

(** [break] at the first entry that does not fit *)
Fixpoint _context (used : nat) (l : list FactDTO) : list ContextItem :=
  match l with
  | [] => []
  | fact :: l' =>
      let item := context_item fact in
      if decide (MAX_PROFILE_CHARS < used + context_size item)%nat then []
      else item :: _context (used + context_size item) l'
  end.

Definition planner_context (limit : nat) (s : MemorySnapshot) : list ContextItem := _context 0 (take limit (entries s)).

(** The set of terms of a query *)
Definition query_words (query : string) : list string :=
  remove_dups (map lower_ru (List.filter (fun w => Nat.ltb 2 (String.length w)) (split query))).

Definition fact_text (f : FactDTO) : string := lower_ru (d_subject f +:+ " " +:+ d_value f).
Definition term_hits (terms : list string) (f : FactDTO) : nat :=
  length (List.filter (fun t => str_contains t (fact_text f)) terms).

Definition agent_context (query : string) (limit : nat) (s : MemorySnapshot) : list ContextItem :=
  let ranked := sort_by (fun f => - Z.of_nat (term_hits (query_words query) f)) Z.le (entries s) in
  _context 0 (take limit ranked).

(** ** MemoryService *)
Definition read_snapshot (user_id tenant_id : option Z) (limit : nat) : call MemorySnapshot :=
  user ← match user_id with
         | Some u => retrieve [USER] (Some "user") (Some u) None [] None limit
         | None => mret []
         end;
  tenant ← match tenant_id with
           | Some t => retrieve [TENANT] (Some "tenant") (Some t) None [] None limit
           | None => mret []
           end;
  mret {| user_facts := user; tenant_facts := tenant |}.

(** [replace(fact, tenant_id=..., owner_type=..., owner_id=..., kind=fact.kind or "fact")] *)
Definition with_owner (type : string) (owner : Z) (tenant : option Z) (f : FactDTO) : FactDTO :=
  {| d_scope := d_scope f; d_subject := d_subject f; d_value := d_value f; d_source := d_source f;
     d_tenant_id := tenant; d_project_id := d_project_id f; d_owner_type := Some type; d_owner_id := Some owner;
     d_kind := if str_empty (d_kind f) then "fact" else d_kind f; d_metadata := d_metadata f;
     d_confidence := d_confidence f; d_source_ref := d_source_ref f; d_observed_at := d_observed_at f;
     d_id := d_id f; d_superseded_by := d_superseded_by f; d_user_visible := d_user_visible f;
     d_status := d_status f; d_support_count := d_support_count f;
     d_first_confirmed_at := d_first_confirmed_at f; d_last_confirmed_at := d_last_confirmed_at f;
     d_revision := d_revision f |}.

Definition owned_entry (user_id tenant_id : option Z) (f : FactDTO) : option FactDTO :=
  match d_scope f, user_id, tenant_id with
  | USER, Some u, _ => Some (with_owner "user" u tenant_id f)
  | TENANT, _, Some t => Some (with_owner "tenant" t tenant_id f)
  | _, _, _ => None
  end.

Fixpoint write_extracted (user_id tenant_id : option Z) (l : list FactDTO) : call Z :=
  match l with
  | [] => mret 0
  | fact :: l' =>
      match owned_entry user_id tenant_id fact with
      | None => write_extracted user_id tenant_id l'
      | Some entry =>
          _ ← upsert_with_supersede entry;
          saved ← write_extracted user_id tenant_id l';
          mret (1 + saved)
      end
  end.

Definition forget_user_entries (user_id : Z) (fact_ids : list Z) : call Z := forget_owned "user" user_id fact_ids.

(** ** Manual facts *)
Section Manual.
Variables (clock gen : nat -> Z) (uuid_str : Z -> string).

Definition now : call Z :=
  fun w => (Ok (clock (readings w)), {| db := db w; readings := S (readings w); uuids := uuids w |}).
Definition uuid4 : call Z :=
  fun w => (Ok (gen (uuids w)), {| db := db w; readings := readings w; uuids := S (uuids w) |}).

(** A fact that somebody typed in: confirmed, one unit of support; [norm] is its
    normalised value. *)
Definition manual_fact (id : Z) (tenant : option Z) (type : string) (owner : Z) (knd : option string)
    (s : FactScope) (subj val norm ref : string) (visible : bool) (at_ rev : Z) : Fact :=
  {| columns := {| f_id := id; project_id := None; scope := s; owner_type := Some type; owner_id := Some owner;
                   kind := knd; entry_metadata := None; subject := subj; value := val;
                   normalized_value := Some norm; source := MANUAL; f_source_ref := Some ref;
                   user_visible := visible |};
     state := {| tenant_id := tenant; confidence := 1%Q; observed_at := at_; superseded_by := None;
                 status := CONFIRMED; support_count := 1; first_confirmed_at := Some at_;
                 last_confirmed_at := Some at_; revision := rev |} |}.

(** FactAdminService: [owner_type] is "user" or "tenant". *)
Definition list_active (type : string) (owner : Z) : call (list Fact) :=
  rows ← select_facts (fun f => owned_by type owner f && active f && confirmed f);
  mret (newest_first rows).

Definition get_active (fact_id : Z) (type : string) (owner : Z) : call (option Fact) :=
  rows ← select_facts (fun f => Z.eqb (f_id f) fact_id && owned_by type owner f && active f);
  scalar_one_or_none rows.

Definition supersede (fact_id replacement_id : Z) : call unit := mark_superseded fact_id replacement_id.

Definition admin_create (type : string) (owner : Z) (subj val : string) : call Fact :=
  at_ ← now;
  id ← uuid4;
  let fact := manual_fact id (if String.eqb type "tenant" then Some owner else None) type owner None
                (if String.eqb type "user" then USER else TENANT) (str_take 200 (squash (lower_ru (strip subj))))
                (str_take 500 (strip val)) (_normalized val) ("admin:manual:" +:+ type +:+ ":" +:+ uuid_str owner)
                (String.eqb type "user") at_ 1 in
  _ ← insert_fact fact;
  mret fact.

Definition admin_update (fact_id : Z) (type : string) (owner : Z) (subj val : string) : call Fact :=
  current ← get_active fact_id type owner;
  match current with
  | None => raise (AdminFactNotFoundError fact_id)
  | Some c =>
      replacement ← admin_create type owner subj val;
      _ ← update_facts (fun f => Z.eqb (f_id f) (f_id (columns replacement))) (fun _ => set_revision (revision (state c) + 1));
      _ ← supersede (f_id (columns c)) (f_id (columns replacement));
      mret {| columns := columns replacement; state := set_revision (revision (state c) + 1) (state replacement) |}
  end.

Definition admin_delete (fact_id : Z) (type : string) (owner : Z) : call unit :=
  current ← get_active fact_id type owner;
  match current with
  | None => raise (AdminFactNotFoundError fact_id)
  | Some c => supersede (f_id (columns c)) (f_id (columns c))
  end.

(** ** The profile routes *)
Definition profile_text (subj val : string) : string * string := (str_take 200 (lower_ru (strip subj)), str_take 500 (strip val)).

Definition list_user_facts (user_id limit offset : Z) : call (list FactDTO) :=
  list_user_visible user_id (Z.to_nat (Z.max 1 (Z.min limit 500))) (Z.to_nat (Z.max 0 offset)).

Definition delete_user_facts (user_id : Z) (ids : list Z) : call Z :=
  match ids with [] => mret 0 | _ => forget_user_entries user_id ids end.

Definition create_user_fact (user_id : Z) (subj val : string) : call Fact :=
  let (s, v) := profile_text subj val in
  if str_empty s || str_empty v then raise (HTTPException 422 "Fact subject and value are required")
  else
    at_ ← now;
    id ← uuid4;
    let row := manual_fact id None "user" user_id None USER s v (_normalized v) ("manual:create:" +:+ uuid_str user_id) true at_ 1 in
    _ ← insert_fact row;
    mret row.
End Manual.

(** ** ProjectMemoryService *)
Record ProjectFacts := { pf_project : option Project; pf_facts : list Fact }.

Definition read_project_memory (key : string) (subject_prefix : option string) (limit : Z) : call ProjectFacts :=
  found ← read (fun d => List.filter (fun p => String.eqb (p_key p) (lower_ru (strip key)) && p_is_active p) (projects d));
  project ← scalar_one_or_none found;
  match project with
  | None => mret {| pf_project := None; pf_facts := [] |}
  | Some p =>
      rows ← select_facts (fun f => bool_decide (project_id f = Some (p_id p)) && bool_decide (scope f = PROJECT) &&
                                    confirmed f && active f &&
                                    match subject_prefix with
                                    | Some s => str_empty s || like (lower_ru (strip s) +:+ "%") (subject f)
                                    | None => true
                                    end);
      mret {| pf_project := Some p;
              pf_facts := take (Z.to_nat (Z.max 1 (Z.min limit 50))) (newest_first rows) |}
  end.
