(* ===== verification/FactReconciler.v ===== *)
(** * FactReconciler

    runtime/memory/fact_reconciler.py: deterministic persistence of the candidates
    that the extractor and the compactor produced, and the manual revision of a
    user's fact that the profile route calls. *)
From S2P Require Import Prelude.
From S2P Require Import Facts.
From S2P Require Import FactServices.
From Stdlib Require Import QArith.QArith_base.
Open Scope Z_scope.

(** One persisted transition, as reported to the operator *)
Record FactReconciliationChange := {
  c_scope : FactScope;
  c_kind : string;
  c_subject : string;
  c_value : string;
  c_change_type : string;
  c_status_before : option FactStatus;
  c_status_after : FactStatus;
  c_support_before : Z;
  c_support_after : Z;
  c_support_delta : Z;
  c_compaction_action : string
}.

(** Assignments to the attributes of a fact and of a project *)
Definition reinforce (added at_ : Z) (s : FactState) : FactState :=
  {| tenant_id := tenant_id s; confidence := confidence s; observed_at := at_;
     superseded_by := superseded_by s; status := status s; support_count := support_count s + added;
     first_confirmed_at := first_confirmed_at s; last_confirmed_at := last_confirmed_at s;
     revision := revision s |}.
Definition confirm (first last_ : Z) (s : FactState) : FactState :=
  {| tenant_id := tenant_id s; confidence := confidence s; observed_at := observed_at s;
     superseded_by := superseded_by s; status := CONFIRMED; support_count := support_count s;
     first_confirmed_at := Some (default first (first_confirmed_at s)); last_confirmed_at := Some last_;
     revision := revision s |}.
Definition set_aliases (l : list string) (p : Project) : Project :=
  {| p_id := p_id p; p_key := p_key p; p_name := p_name p; p_aliases := l; p_is_active := p_is_active p |}.

Definition assign (id : Z) (g : FactState -> FactState) : call unit :=
  _ ← update_facts (fun f => Z.eqb (f_id f) id) (fun _ => g); mret tt.

Definition insert_project (p : Project) : call unit :=
  taken ← read (fun d => existsb (fun q => Z.eqb (p_id q) (p_id p) || String.eqb (p_key q) (p_key p)) (projects d));
  if taken : bool then raise IntegrityError else write (with_projects (fun l => l ++ [p])).

Definition same_source (fact_id : Z) (type ref : string) (o : FactObservation) : bool :=
  Z.eqb (o_fact_id o) fact_id && String.eqb (o_source_type o) type && String.eqb (o_source_ref o) ref.

Definition insert_observation (o : FactObservation) : call unit :=
  taken ← read (fun d => existsb (fun q => Z.eqb (o_id q) (o_id o) ||
                                           same_source (o_fact_id o) (o_source_type o) (o_source_ref o) q) (observations d));
  if taken : bool then raise IntegrityError else write (with_observations (fun l => l ++ [o])).

(** [str(candidate.metadata.get("project_key") or "").strip().lower()] *)
Definition candidate_key (m : Metadata) : string := lower_ru (strip (or_str (project_key m) "")).
Definition action_of (m : Metadata) : string := or_str (compaction_action m) "add".

Definition _persisted_metadata (m : Metadata) : option Metadata :=
  metadata_or_none
    {| project_key := some_str (or_str (project_key m) ""); project_aliases := project_aliases m; aliases := aliases m;
       evidence := []; glossary_scope := None; compaction_action := some_str (or_str (compaction_action m) "");
       compaction_target_ids := []; project_memory_marked := false |}.

(** [" ".join(raw.strip().split())[:n]] *)
Definition clean_alias (n : nat) (raw : string) : string := str_take n (squash (strip raw)).

(** The loop over the aliases of a confirmed project fact *)
Fixpoint add_aliases (name : string) (known acc raw : list string) : list string :=
  match raw with
  | [] => acc
  | r :: raw' =>
      let alias := clean_alias 120 r in
      let k := lower_ru alias in
      if negb (str_empty alias) && negb (str_in k known) && negb (String.eqb k (lower_ru name))
      then add_aliases name (k :: known) (acc ++ [alias]) raw'
      else add_aliases name known acc raw'
  end.

Section Reconciler.
Variables (clock gen : nat -> Z) (uuid_str : Z -> string) (UUID : string -> option Z).
#[local] Abbreviation now := (now clock).
#[local] Abbreviation uuid4 := (uuid4 gen).

(** The DTO of [current_for]: it carries neither the row's identifier nor its dates. *)
Definition _dto (row : Fact) : call FactDTO :=
  at_ ← now;
  id ← uuid4;
  mret {| d_scope := scope row; d_subject := subject row; d_value := value row; d_source := source row;
          d_tenant_id := tenant_id row; d_project_id := project_id row; d_owner_type := owner_type row;
          d_owner_id := owner_id row; d_kind := or_str (kind row) "fact";
          d_metadata := default no_metadata (entry_metadata row); d_confidence := confidence row;
          d_source_ref := None; d_observed_at := at_; d_id := id; d_superseded_by := None; d_user_visible := true;
          d_status := PENDING; d_support_count := 0; d_first_confirmed_at := None; d_last_confirmed_at := None;
          d_revision := 1 |}.

(** [[f(x) for x in l]] *)
Fixpoint map_call {A B} (f : A -> call B) (l : list A) : call (list B) :=
  match l with
  | [] => mret []
  | x :: l' => y ← f x; ys ← map_call f l'; mret (y :: ys)
  end.

Definition owner_clause (user_id tenant_id : option Z) (project_ids : list Z) (f : Fact) : bool :=
  match user_id with Some u => owned_by "user" u f | None => false end ||
  match tenant_id with Some t => owned_by "tenant" t f | None => false end ||
  match project_id f with Some p => bool_decide (p ∈ project_ids) | None => false end.

Definition current_for (user_id tenant_id : option Z) (project_keys : list string) : call (list FactDTO) :=
  let normalized_keys := List.filter (fun k => negb (str_empty k)) (map (fun k => lower_ru (strip k)) project_keys) in
  project_ids ← read (fun d => map p_id (List.filter (fun p => str_in (p_key p) normalized_keys) (projects d)));
  rows ← select_facts (fun f => active f && owner_clause user_id tenant_id project_ids f);
  map_call _dto rows.

(** One turn of the loop of [ensure_projects] *)
Definition ensure_project (candidate : FactDTO) : call unit :=
  let key := candidate_key (d_metadata candidate) in
  if negb (bool_decide (d_scope candidate = PROJECT)) || str_empty key then mret tt
  else
    found ← read (fun d => List.filter (fun p => String.eqb (p_key p) key) (projects d));
    exists_ ← scalar_one_or_none found;
    match exists_ with
    | Some _ => mret tt
    | None =>
        id ← uuid4;
        insert_project {| p_id := id; p_key := key; p_name := key; p_aliases := [key]; p_is_active := true |}
    end.

Definition ensure_projects (candidates : list FactDTO) : call unit := for_each ensure_project candidates.

Definition _owner_for (candidate : FactDTO) (user_id tenant_id : option Z) : call (option string * option Z * option Z) :=
  match d_scope candidate with
  | USER => mret (Some "user", user_id, None)
  | TENANT => mret (Some "tenant", tenant_id, None)
  | PROJECT =>
      let key := candidate_key (d_metadata candidate) in
      if str_empty key then mret (None, None, None)
      else
        found ← read (fun d => List.filter (fun p => String.eqb (p_key p) key && p_is_active p) (projects d));
        project ← scalar_one_or_none found;
        mret (match project with
              | Some p => (Some "project", Some (p_id p), Some (p_id p))
              | None => (None, None, None)
              end)
  end.

(** The clause that finds a row of the same owner *)
Definition same_owner (owner_t : option string) (owner_i project : option Z) (f : Fact) : bool :=
  match project with
  | Some p => bool_decide (project_id f = Some p)
  | None => bool_decide (owner_type f = owner_t) && bool_decide (owner_id f = owner_i)
  end.

Definition is_same (candidate : FactDTO) (owner_t : option string) (owner_i project : option Z) (f : Fact) : bool :=
  bool_decide (scope f = d_scope candidate) && String.eqb (subject f) (d_subject candidate) &&
  bool_decide (normalized_value f = Some (_normalized (d_value candidate))) && active f &&
  same_owner owner_t owner_i project f.

Definition _find_same (candidate : FactDTO) (owner_t : option string) (owner_i project : option Z) : call (option Fact) :=
  rows ← select_facts (is_same candidate owner_t owner_i project);
  mret (head rows).

Definition _supersede_targets (replacement : Fact) (raw_ids : list string) : call unit :=
  let ids := List.filter (fun i => negb (Z.eqb i (f_id replacement))) (omap UUID raw_ids) in
  match ids with
  | [] => mret tt
  | _ =>
      _ ← update_facts (fun f => bool_decide (f_id f ∈ ids) && active f && bool_decide (scope f = scope replacement) &&
                                 same_owner (owner_type replacement) (owner_id replacement) (project_id replacement) f)
                       (fun _ => set_superseded (f_id replacement));
      mret tt
  end.

Fixpoint _add_observations (fact_id : Z) (raw : list Evidence) : call Z :=
  match raw with
  | [] => mret 0
  | item :: raw' =>
      if str_empty (source_type item) || str_empty (source_ref item) then _add_observations fact_id raw'
      else
        found ← read (fun d => List.filter (same_source fact_id (source_type item) (source_ref item)) (observations d));
        exists_ ← scalar_one_or_none found;
        match exists_ with
        | Some _ => _add_observations fact_id raw'
        | None =>
            id ← uuid4;
            _ ← insert_observation {| o_id := id; o_fact_id := fact_id; o_source_type := source_type item;
                                      o_source_ref := source_ref item; o_source_label := label item |};
            added ← _add_observations fact_id raw';
            mret (1 + added)
        end
  end.

Definition _apply_confirmed_project_aliases (fact : Fact) (raw_aliases : list string) : call unit :=
  match project_id fact with
  | None => mret tt
  | Some pid =>
      found ← read (fun d => List.filter (fun p => Z.eqb (p_id p) pid) (projects d));
      project ← scalar_one_or_none found;
      match project with
      | None => mret tt
      | Some p =>
          let l := add_aliases (p_name p) (map lower_ru (p_aliases p)) (p_aliases p) raw_aliases in
          write (with_projects (map (fun q => if Z.eqb (p_id q) pid then set_aliases l q else q)))
      end
  end.

(** The row that a candidate without a match becomes *)
Definition new_fact (id : Z) (candidate : FactDTO) (owner_t : option string) (owner_i project tenant : option Z)
    (sandbox : bool) : Fact :=
  {| columns := {| f_id := id; project_id := project; scope := d_scope candidate; owner_type := owner_t;
                   owner_id := owner_i; kind := Some (d_kind candidate);
                   entry_metadata := _persisted_metadata (d_metadata candidate); subject := d_subject candidate;
                   value := d_value candidate; normalized_value := Some (_normalized (d_value candidate));
                   source := d_source candidate; f_source_ref := None;
                   user_visible := bool_decide (d_scope candidate = USER) |};
     state := {| tenant_id := tenant; confidence := d_confidence candidate;
                 observed_at := d_observed_at candidate; superseded_by := None;
                 status := if sandbox || bool_decide (d_scope candidate = USER) then CONFIRMED else PENDING;
                 support_count := 0; first_confirmed_at := None; last_confirmed_at := None; revision := 1 |} |}.

Definition get_fact (id : Z) : call (option Fact) := rows ← select_facts (fun f => Z.eqb (f_id f) id); mret (head rows).

(** [status = CONFIRMED; first_confirmed_at = first_confirmed_at or now(); last_confirmed_at = now()] *)
Definition confirm_fact (existing : Fact) : call unit :=
  first ← match first_confirmed_at existing with Some t => mret t | None => now end;
  last_ ← now;
  assign (f_id existing) (confirm first last_).

(** The match that a candidate reinforces, or a new row; with whether it is new *)
Definition find_or_create (candidate : FactDTO) (owner_t : option string) (owner_i project tenant : option Z)
    (sandbox : bool) : call (Fact * bool) :=
  found ← _find_same candidate owner_t owner_i project;
  match found with
  | Some existing => mret (existing, false)
  | None =>
      id ← uuid4;
      let existing := new_fact id candidate owner_t owner_i project tenant sandbox in
      _ ← insert_fact existing;
      let action := action_of (d_metadata candidate) in
      _ ← (if String.eqb action "rewrite" || String.eqb action "supersede"
           then _supersede_targets existing (compaction_target_ids (d_metadata candidate)) else mret tt);
      mret (existing, true)
  end.

(** The new status of a fact that received evidence; [support] is its new count. *)
Definition settle_status (candidate : FactDTO) (sandbox : bool) (existing : Fact) (support : Z) : call unit :=
  if String.eqb (action_of (d_metadata candidate)) "mark_conflict" then assign (f_id existing) (set_status UNCONFIRMED)
  else if sandbox || bool_decide (scope existing = USER) || project_memory_marked (d_metadata candidate)
  then confirm_fact existing
  else if bool_decide (3 <= support) then confirm_fact existing
  else mret tt.

Definition change_type (is_new : bool) (before : option FactStatus) (after : FactStatus) : string :=
  if is_new then if bool_decide (after = CONFIRMED) then "confirmed" else "candidate_created"
  else if negb (bool_decide (before = Some after)) && bool_decide (after = CONFIRMED) then "candidate_confirmed"
  else "candidate_reinforced".

Definition change_of (existing : Fact) (is_new : bool) (added : Z) (action : string) (after : Fact) :
    FactReconciliationChange :=
  let before := if is_new then None else Some (status existing) in
  {| c_scope := scope existing; c_kind := default "None" (kind existing); c_subject := subject existing;
     c_value := value existing; c_change_type := change_type is_new before (status after);
     c_status_before := before; c_status_after := status after;
     c_support_before := if is_new then 0 else support_count existing; c_support_after := support_count after;
     c_support_delta := added; c_compaction_action := action |}.

(** The rest of the loop's body, once [added] observations are recorded *)
Definition count_evidence (sandbox : bool) (candidate : FactDTO) (existing : Fact) (is_new : bool) (added : Z) :
    call (list FactReconciliationChange) :=
  if Z.eqb added 0 then mret []
  else
    at_ ← now;
    _ ← assign (f_id existing) (reinforce added at_);
    _ ← settle_status candidate sandbox existing (support_count existing + added);
    after ← get_fact (f_id existing);
    let after := default existing after in
    _ ← (if bool_decide (scope after = PROJECT) && bool_decide (status after = CONFIRMED)
         then _apply_confirmed_project_aliases after (project_aliases (d_metadata candidate)) else mret tt);
    mret [change_of existing is_new added (action_of (d_metadata candidate)) after].

(** One turn of the loop of [apply_with_changes] *)
Definition apply_candidate (user_id tenant : option Z) (sandbox : bool) (candidate : FactDTO) :
    call (list FactReconciliationChange) :=
  owner ← _owner_for candidate user_id tenant;
  let '(owner_t, owner_i, project) := owner in
  if bool_decide (owner_i = None) && bool_decide (project = None) then mret []
  else
    fc ← find_or_create candidate owner_t owner_i project tenant sandbox;
    let '(existing, is_new) := fc in
    added ← _add_observations (f_id (columns existing)) (evidence (d_metadata candidate));
    count_evidence sandbox candidate existing is_new added.

Definition apply_with_changes (candidates : list FactDTO) (user_id tenant : option Z) (sandbox : bool) :
    call (list FactReconciliationChange) :=
  _ ← ensure_projects candidates;
  changes ← map_call (apply_candidate user_id tenant sandbox) candidates;
  mret (concat changes).

(** A manual edit: a new confirmed revision, written once [previous] is found *)
Definition write_revision (fact_id user_id : Z) (subj val : string) (previous : Fact) : call (option Fact) :=
  at_ ← now;
  _ ← update_facts (fun f => owned_by "user" user_id f && bool_decide (scope f = USER) &&
                             String.eqb (subject f) subj && active f && negb (Z.eqb (f_id f) fact_id))
                   (fun _ => set_status UNCONFIRMED);
  _ ← assign (f_id previous) (set_status UNCONFIRMED);
  id ← uuid4;
  let ref := "manual:" +:+ uuid_str fact_id in
  let replacement := manual_fact id (tenant_id previous) "user" user_id (kind previous) USER subj val
                       (_normalized val) ref true at_ (revision previous + 1) in
  _ ← insert_fact replacement;
  oid ← uuid4;
  _ ← insert_observation {| o_id := oid; o_fact_id := id; o_source_type := source_str MANUAL; o_source_ref := ref;
                            o_source_label := Some "Manual profile edit" |};
  mret (Some replacement).

Definition replace_user_fact (fact_id user_id : Z) (subj val : string) : call (option Fact) :=
  current ← select_facts (fun f => Z.eqb (f_id f) fact_id && owned_by "user" user_id f && active f);
  previous ← scalar_one_or_none current;
  match previous : option Fact with
  | None => mret None
  | Some previous => write_revision fact_id user_id subj val previous
  end.

(** PUT /facts/{fact_id} of the profile router *)
Definition update_user_fact (fact_id user_id : Z) (subj val : string) : call Fact :=
  let (s, v) := profile_text subj val in
  if str_empty s || str_empty v then raise (HTTPException 422 "Fact subject and value are required")
  else
    row ← replace_user_fact fact_id user_id s v;
    match row with
    | None => raise (HTTPException 404 "Fact not found")
    | Some r => mret r
    end.
End Reconciler.
