(* ===== verification/FactProofs.v ===== *)
(** * Facts: runs of the operations and the history of a row

    What each call of [Facts], [FactServices] and [FactReconciler] does to the tables,
    and the order [evolves] in which every one of them moves the database. *)
From S2P Require Import Prelude.
From S2P Require Import Facts.
From S2P Require Import FactServices.
From S2P Require Import FactReconciler.
Open Scope Z_scope.

(** ** Runs *)
Definition on_facts (g : list Fact -> list Fact) (w : World) : World :=
  {| db := with_facts g (db w); readings := readings w; uuids := uuids w |}.
Definition on_observations (g : list FactObservation -> list FactObservation) (w : World) : World :=
  {| db := with_observations g (db w); readings := readings w; uuids := uuids w |}.
Definition on_projects (g : list Project -> list Project) (w : World) : World :=
  {| db := with_projects g (db w); readings := readings w; uuids := uuids w |}.
Definition tick (w : World) : World := {| db := db w; readings := S (readings w); uuids := uuids w |}.
Definition draw (w : World) : World := {| db := db w; readings := readings w; uuids := S (uuids w) |}.

Definition apply_where (p : Fact -> bool) (g : Fact -> FactState -> FactState) (l : list Fact) : list Fact :=
  map (fun f => if p f then {| columns := f; state := g f f |} else f) l.

Lemma update_facts_run p g w :
  update_facts p g w =
    (Ok (Z.of_nat (length (List.filter p (facts (db w))))), on_facts (apply_where p g) w).
Proof. done. Qed.

Lemma assign_run id g w :
  assign id g w = (Ok tt, on_facts (apply_where (fun f => Z.eqb (f_id f) id) (fun _ => g)) w).
Proof. done. Qed.

Lemma get_fact_run id w :
  get_fact id w = (Ok (head (List.filter (fun f : Fact => Z.eqb (f_id f) id) (facts (db w)))), w).
Proof. done. Qed.

Lemma insert_fact_run (f : Fact) w :
  f_id f ∉ map (fun f : Fact => f_id f) (facts (db w)) ->
  insert_fact f w = (Ok tt, on_facts (fun l => l ++ [f]) w).
Proof.
  intros H. unfold insert_fact. rewrite (bind_run_Ok _ _ _ _ _ (eq_refl : read _ w = (Ok _, w))).
  by rewrite bool_decide_false.
Qed.

Lemma scalar_run {A} (l : list A) w :
  (length l <= 1)%nat -> scalar_one_or_none l w = (Ok (head l), w).
Proof. destruct l as [|x [|y l]]; simpl; [done..|lia]. Qed.

(** ** History: rows are never removed, their identity and their content never
    change, a superseded row stays superseded by the same row, support never
    decreases, the first confirmation is kept. *)
Record fact_le (f f' : Fact) : Prop := {
  le_columns : columns f' = columns f;
  le_superseded s : superseded_by f = Some s -> superseded_by f' = Some s;
  le_support : support_count f <= support_count f';
  le_first t : first_confirmed_at f = Some t -> first_confirmed_at f' = Some t
}.

Record project_le (p p' : Project) : Prop := {
  le_id : p_id p' = p_id p;
  le_key : p_key p' = p_key p;
  le_name : p_name p' = p_name p;
  le_active : p_is_active p' = p_is_active p;
  le_aliases : p_aliases p `prefix_of` p_aliases p'
}.

(** [l'] is [l] row by row, then new rows. *)
Definition extends {A} (R : relation A) (l l' : list A) : Prop :=
  exists l1 l2, l' = l1 ++ l2 /\ Forall2 R l l1.

Record evolves (d d' : MemDB) : Prop := {
  ev_facts : extends fact_le (facts d) (facts d');
  ev_observations : observations d `prefix_of` observations d';
  ev_projects : extends project_le (projects d) (projects d')
}.

#[export] Instance fact_le_preorder : PreOrder fact_le.
Proof.
  split; [by split|]. intros f g h [C1 S1 N1 F1] [C2 S2 N2 F2].
  split; [by rewrite C2|by eauto|lia|by eauto].
Qed.

#[export] Instance project_le_preorder : PreOrder project_le.
Proof.
  split; [by split|]. intros f g h [] [].
  split; [congruence..|]. by etrans.
Qed.

Section Extends.
Context {A} (R : relation A) `{!PreOrder R}.

#[export] Instance extends_preorder : PreOrder (extends R).
Proof.
  split.
  - intros l. exists l, []. rewrite app_nil_r. by split.
  - intros l1 l2 l3 (a & b & -> & Hab) (c & e & -> & Hce).
    apply Forall2_app_inv_l in Hce as (c1 & c2 & Hc1 & Hc2 & ->).
    exists c1, (c2 ++ e). rewrite app_assoc. split; [done|by etrans].
Qed.

Lemma extends_app l x : extends R l (l ++ x).
Proof. exists l, x. by split. Qed.

Lemma extends_map g l : (forall x, x ∈ l -> R x (g x)) -> extends R l (map g l).
Proof.
  intros H. exists (map g l), []. rewrite app_nil_r. split; [done|].
  induction l as [|x l IH]; simpl; constructor; [by apply H; left|]. apply IH. intros y Hy. apply H. by right.
Qed.

Lemma extends_elem l l' x : extends R l l' -> x ∈ l -> exists y, y ∈ l' /\ R x y.
Proof.
  intros (a & b & -> & H) Hx. induction H as [|z y l a Hzy H IH]; [by apply not_elem_of_nil in Hx|].
  apply elem_of_cons in Hx as [->|Hx].
  - exists y. split; [left|done].
  - destruct (IH Hx) as (y' & Hy' & ?). exists y'. split; [by right|done].
Qed.
End Extends.

#[export] Instance evolves_preorder : PreOrder evolves.
Proof.
  split; [by split|]. intros d e f [] [].
  split; by etrans.
Qed.

Definition evolving (w w' : World) : Prop := evolves (db w) (db w').

#[export] Instance evolving_preorder : PreOrder evolving.
Proof. split; [by intros w|]. intros a b c H1 H2. unfold evolving in *. by etrans. Qed.

Lemma evolving_write g : (forall d, evolves d (g d)) -> preserves evolving (write g).
Proof. intros H. apply preserves_modify. intros w. apply H. Qed.

Lemma evolving_facts g : (forall l, extends fact_le l (g l)) -> preserves evolving (write (with_facts g)).
Proof. intros H. apply evolving_write. intros d. split; [apply H|done|reflexivity]. Qed.

Lemma evolving_read {A} (f : MemDB -> A) : preserves evolving (read f).
Proof. by apply (preserves_keep _). Qed.

Lemma evolving_update p (g : Fact -> FactState -> FactState) :
  (forall f : Fact, p f = true -> fact_le f {| columns := f; state := g f f |}) ->
  preserves evolving (update_facts p g).
Proof.
  intros H. apply (preserves_bind _); [apply evolving_read|]. intros rows.
  apply (preserves_bind _); [|intros _; by apply (preserves_keep _)].
  apply evolving_facts. intros l. apply extends_map. intros f _.
  destruct (p f) eqn:E; [by apply H|reflexivity].
Qed.

Lemma evolving_insert f : preserves evolving (insert_fact f).
Proof.
  apply (preserves_bind _); [apply evolving_read|]. intros ids. case_bool_decide.
  - by apply (preserves_keep _).
  - apply evolving_facts. intros l. apply (extends_app _).
Qed.

Lemma evolving_scalar {A} (l : list A) : preserves evolving (scalar_one_or_none l).
Proof. apply (preserves_keep _). intros w. by destruct l as [|x [|y l]]. Qed.

Lemma evolving_now clock : preserves evolving (now clock).
Proof. intros w r w' H. unfold now in H. by simplify_eq. Qed.

Lemma evolving_uuid4 gen : preserves evolving (uuid4 gen).
Proof. intros w r w' H. unfold uuid4 in H. by simplify_eq. Qed.

Lemma supersede_le (f : Fact) (b : Z) : active f = true -> fact_le f {| columns := f; state := set_superseded b f |}.
Proof.
  unfold active. rewrite bool_decide_eq_true. intros Hf. split; simpl; [done| |lia|done]. congruence.
Qed.

#[export] Hint Resolve supersede_le evolving_read evolving_insert evolving_scalar evolving_now evolving_uuid4 : evolving.

(** Goals [fact_le f f'] where the update is an assignment of columns *)
Ltac fact_le_assign := split; simpl; [done|done|lia|try done].

Ltac evolve_step :=
  match goal with
  | |- preserves evolving (_ ≫= _) => apply (preserves_bind _); [|intros ?]
  | |- preserves evolving (mret _) => by apply (preserves_keep _)
  | |- preserves evolving (raise _) => by apply (preserves_keep _)
  | |- preserves evolving (if ?b then _ else _) => destruct b
  | |- preserves evolving (match ?x with _ => _ end) => destruct x
  | |- preserves evolving (let (_, _) := ?x in _) => destruct x
  | |- preserves evolving (select_facts _) => apply evolving_read
  end.
Ltac evolve := repeat first [solve [auto 3 with evolving nocore] | evolve_step].

(** ** Every operation moves the database forward *)
Section Evolving.
Variables (clock gen : nat -> Z) (uuid_str : Z -> string) (UUID : string -> option Z).

Lemma evolving_assign id (g : FactState -> FactState) :
  (forall f : Fact, fact_le f {| columns := f; state := g f |}) -> preserves evolving (assign id g).
Proof.
  intros H. apply (preserves_bind _); [|intros ?; by apply (preserves_keep _)].
  apply evolving_update. intros f _. apply H.
Qed.

Lemma evolving_status id st : preserves evolving (assign id (set_status st)).
Proof. apply evolving_assign. intros f. fact_le_assign. Qed.

Lemma evolving_confirm id a b : preserves evolving (assign id (confirm a b)).
Proof. apply evolving_assign. intros f. fact_le_assign. by intros t ->. Qed.

Lemma evolving_reinforce id added at_ : 0 <= added -> preserves evolving (assign id (reinforce added at_)).
Proof. intros H. apply evolving_assign. intros f. fact_le_assign. Qed.

Lemma evolving_mark a b : preserves evolving (mark_superseded a b).
Proof.
  apply (preserves_bind _); [|intros ?; by apply (preserves_keep _)]. apply evolving_update.
  intros f. rewrite andb_true_iff. intros [_ Hf]. by apply supersede_le.
Qed.

Lemma evolving_forget_owned type owner ids : preserves evolving (forget_owned type owner ids).
Proof. apply evolving_update. intros f. rewrite andb_true_iff. intros [_ Hf]. by apply supersede_le. Qed.

Lemma evolving_reassign a b : preserves evolving (reassign_tenant_context a b).
Proof. apply evolving_update. intros ? _. fact_le_assign. Qed.

Lemma evolving_insert_project p : preserves evolving (insert_project p).
Proof.
  unfold insert_project. evolve. apply evolving_write. intros d. split; [reflexivity|done|]. apply (extends_app _).
Qed.

Lemma evolving_insert_observation o : preserves evolving (insert_observation o).
Proof.
  unfold insert_observation. evolve. apply evolving_write. intros d. split; [reflexivity| |reflexivity].
  by apply prefix_app_r.
Qed.

#[local] Hint Resolve evolving_status evolving_confirm evolving_mark evolving_insert_project
  evolving_insert_observation : evolving.

Lemma evolving_supersede_targets r ids : preserves evolving (_supersede_targets UUID r ids).
Proof.
  unfold _supersede_targets. evolve. apply evolving_update. intros f H.
  apply supersede_le. by repeat (apply andb_true_iff in H as [H ?]).
Qed.

Lemma evolving_ensure_projects l : preserves evolving (ensure_projects gen l).
Proof. apply (preserves_for_each _). intros c. unfold ensure_project. evolve. Qed.

Lemma evolving_add_observations id l : preserves evolving (_add_observations gen id l).
Proof. induction l as [|e l IH]; cbn [_add_observations]; evolve. Qed.

Lemma add_observations_nonneg id l : forall w n w', _add_observations gen id l w = (Ok n, w') -> 0 <= n.
Proof.
  induction l as [|e l IH]; intros w n w'; cbn [_add_observations]; [intros [= <- _]; lia|].
  destruct (_ || _); [apply IH|]. intros H. py_inv. destruct x1; [by eapply IH|]. py_inv.
  match goal with H : _add_observations _ _ _ _ = _ |- _ => apply IH in H end. lia.
Qed.

Lemma add_aliases_prefix name known acc raw : acc `prefix_of` add_aliases name known acc raw.
Proof.
  revert known acc. induction raw as [|r raw IH]; intros known acc; simpl; [done|].
  destruct (_ && _); [|done]. etrans; [|apply IH]. by apply prefix_app_r.
Qed.

Lemma evolving_project_aliases f raw : preserves evolving (_apply_confirmed_project_aliases f raw).
Proof.
  unfold _apply_confirmed_project_aliases. destruct (project_id f) as [pid|]; [|by apply (preserves_keep _)].
  intros w r w'. rewrite (bind_run_Ok _ _ _ _ _ (eq_refl : read _ w = (Ok _, w))).
  destruct (List.filter _ _) as [|p [|q l]] eqn:E; intros H; [by injection H as _ <-| |by injection H as _ <-].
  injection H as _ <-. split; [reflexivity|done|]. cbn. apply extends_map. intros q Hq.
  destruct (Z.eqb_spec (p_id q) pid) as [Hp|]; [|reflexivity].
  assert (q ∈ [p]) as ->%list_elem_of_singleton.
  { rewrite <- E. apply elem_of_List_filter. split; [done|]. by apply Z.eqb_eq. }
  split; [done..|]. apply add_aliases_prefix.
Qed.

Lemma evolving_find_or_create c t o p tenant sandbox :
  preserves evolving (find_or_create gen UUID c t o p tenant sandbox).
Proof.
  unfold find_or_create, _find_same. evolve; apply evolving_supersede_targets.
Qed.

Lemma evolving_settle c sandbox f support : preserves evolving (settle_status clock c sandbox f support).
Proof. unfold settle_status, confirm_fact. evolve. Qed.

Lemma evolving_count_evidence sandbox c e is_new added : 0 <= added ->
  preserves evolving (count_evidence clock sandbox c e is_new added).
Proof.
  intros Hadded. unfold count_evidence, get_fact. evolve;
    [by apply evolving_reinforce|apply evolving_settle|apply evolving_project_aliases].
Qed.

Lemma evolving_apply_candidate u t sandbox c :
  preserves evolving (apply_candidate clock gen UUID u t sandbox c).
Proof.
  unfold apply_candidate, _owner_for. apply (preserves_bind _); [evolve|].
  intros [[owner_t owner_i] project]. destruct (_ && _); [by apply (preserves_keep _)|].
  apply (preserves_bind _); [apply evolving_find_or_create|]. intros [existing is_new].
  apply (preserves_bind_post _ (fun n => 0 <= n)); [apply evolving_add_observations|by apply add_observations_nonneg|].
  intros added Hadded. by apply evolving_count_evidence.
Qed.

Lemma evolving_map_call {A B} (f : A -> call B) l :
  (forall x, preserves evolving (f x)) -> preserves evolving (map_call f l).
Proof. intros H. induction l as [|x l IH]; cbn [map_call]; evolve. Qed.

Lemma evolving_apply_with_changes l u t sandbox :
  preserves evolving (apply_with_changes clock gen UUID l u t sandbox).
Proof.
  unfold apply_with_changes. evolve; [apply evolving_ensure_projects|].
  apply evolving_map_call. intros c. apply evolving_apply_candidate.
Qed.

Lemma evolving_update_user_fact id u s v : preserves evolving (update_user_fact clock gen uuid_str id u s v).
Proof.
  unfold update_user_fact, replace_user_fact, write_revision. destruct (profile_text s v) as [s' v']. evolve.
  apply evolving_update. intros ? _. fact_le_assign.
Qed.

Lemma evolving_create_user_fact u s v : preserves evolving (create_user_fact clock gen uuid_str u s v).
Proof. unfold create_user_fact. destruct (profile_text s v) as [s' v']. evolve. Qed.

Lemma evolving_delete_user_facts u ids : preserves evolving (delete_user_facts u ids).
Proof. unfold delete_user_facts. evolve. apply evolving_forget_owned. Qed.

Lemma evolving_admin_create type owner s v : preserves evolving (admin_create clock gen uuid_str type owner s v).
Proof. unfold admin_create. evolve. Qed.

Lemma evolving_admin_update id type owner s v :
  preserves evolving (admin_update clock gen uuid_str id type owner s v).
Proof.
  unfold admin_update, get_active, supersede. evolve; [apply evolving_admin_create|].
  apply evolving_update. intros ? _. fact_le_assign.
Qed.

Lemma evolving_admin_delete id type owner : preserves evolving (admin_delete id type owner).
Proof. unfold admin_delete, get_active, supersede. evolve. Qed.
End Evolving.
