(* ===== verification/FactInvariant.v ===== *)
(** * Facts: the invariant of the memory

    Structure (identifiers and keys are unique, observations belong to facts),
    accounting (the support of a fact is the number of its observations, one more
    when a person typed it in) and the rule of confirmation, with the proof that
    no operation raises an exception or breaks them. *)
From S2P Require Import Prelude.
From S2P Require Import Facts.
From S2P Require Import FactServices.
From S2P Require Import FactReconciler.
From S2P Require Import FactProofs.
Open Scope Z_scope.

(** ** Runs that return *)
Definition runs {A} (P : World -> Prop) (m : call A) (Q : A -> World -> Prop) : Prop :=
  forall w, P w -> exists a w', m w = (Ok a, w') /\ Q a w'.

Lemma runs_bind {A B} P (m : call A) Q (k : A -> call B) R :
  runs P m Q -> (forall a, runs (Q a) (k a) R) -> runs P (m ≫= k) R.
Proof.
  intros Hm Hk w Hw. destruct (Hm w Hw) as (a & w1 & E & Ha). rewrite (bind_run_Ok _ _ _ _ _ E). by apply Hk.
Qed.

Lemma runs_ret {A} (P : World -> Prop) (a : A) (Q : A -> World -> Prop) :
  (forall w, P w -> Q a w) -> runs P (mret a) Q.
Proof. intros H w Hw. exists a, w. by split; [|apply H]. Qed.

Lemma runs_read {A} (P : World -> Prop) (f : MemDB -> A) : runs P (read f) (fun a w => P w /\ a = f (db w)).
Proof. intros w Hw. by exists (f (db w)), w. Qed.

Lemma runs_pre {A} (P P' : World -> Prop) (m : call A) Q : (forall w, P' w -> P w) -> runs P m Q -> runs P' m Q.
Proof. intros H Hm w Hw. by apply Hm, H. Qed.

Lemma runs_post {A} (P : World -> Prop) (m : call A) (Q Q' : A -> World -> Prop) :
  runs P m Q -> (forall a w, Q a w -> Q' a w) -> runs P m Q'.
Proof. intros Hm H w Hw. destruct (Hm w Hw) as (a & w1 & E & Ha). exists a, w1. eauto. Qed.

Lemma runs_map_call {A B} (P : World -> Prop) (f : A -> call B) l :
  (forall x, x ∈ l -> runs P (f x) (fun _ => P)) -> runs P (map_call f l) (fun _ => P).
Proof.
  induction l as [|x l IH]; intros Hf; cbn [map_call]; [by apply runs_ret|].
  eapply runs_bind; [apply Hf; left|]. intros y. eapply runs_bind; [apply IH; intros z Hz; apply Hf; by right|].
  intros ys. by apply runs_ret.
Qed.

Lemma runs_for_each {A} (P : World -> Prop) (f : A -> call unit) l :
  (forall x, x ∈ l -> runs P (f x) (fun _ => P)) -> runs P (for_each f l) (fun _ => P).
Proof.
  induction l as [|x l IH]; intros Hf; simpl; [by apply runs_ret|].
  eapply runs_bind; [apply Hf; left|]. intros y. apply IH. intros z Hz. apply Hf. by right.
Qed.

Lemma scalar_unique {A B} (g : A -> B) (p : A -> bool) l :
  NoDup (map g l) -> (forall x y, p x = true -> p y = true -> g x = g y) -> (length (List.filter p l) <= 1)%nat.
Proof.
  intros Hl Hp. destruct (List.filter p l) as [|x [|y k]] eqn:E; simpl; [lia..|]. exfalso.
  assert (x ∈ List.filter p l /\ y ∈ List.filter p l) as [Hx Hy] by (rewrite E; set_solver).
  pose proof (NoDup_map_filter g p l Hl) as Hn. rewrite E in Hn. simpl in Hn.
  apply NoDup_cons in Hn as [Hn _]. apply elem_of_List_filter in Hx as [_ Hx]. apply elem_of_List_filter in Hy as [_ Hy].
  rewrite (Hp x y Hx Hy) in Hn. apply Hn. left.
Qed.

(** ** The invariant *)
(** The observations of a fact, and their number *)
Definition evidence_of (id : Z) (os : list FactObservation) : list FactObservation :=
  List.filter (fun o => Z.eqb (o_fact_id o) id) os.
Definition support_of (id : Z) (os : list FactObservation) : Z := Z.of_nat (length (evidence_of id os)).

Definition o_key (o : FactObservation) : Z * string * string := (o_fact_id o, o_source_type o, o_source_ref o).
Definition fact_ids (w : World) : list Z := map (fun f : Fact => f_id f) (facts (db w)).

(** The rule of confirmation: a department's fact that nobody typed in needs three
    observations. *)
Definition needs_support (f : Fact) : Prop := status f = CONFIRMED /\ scope f = TENANT /\ source f <> MANUAL.

(** [due]: observations recorded but not yet counted *)
Record fact_ok (due : Z) (os : list FactObservation) (f : Fact) : Prop := {
  ok_low : support_of (f_id f) os - due <= support_count f;
  ok_high : support_count f <= support_of (f_id f) os - due + 1;
  ok_source : source f <> MANUAL -> support_count f = support_of (f_id f) os - due;
  ok_rule : needs_support f -> 3 <= support_count f
}.

Section Invariant.
Variable gen : nat -> Z.

Definition drawn (w : World) (i : Z) : Prop := exists k, (k < uuids w)%nat /\ i = gen k.

Record tables_ok (w : World) : Prop := {
  ok_ids : forall i, i ∈ fact_ids w -> drawn w i;
  ok_nodup : NoDup (fact_ids w);
  ok_obs_ids : forall o, o ∈ observations (db w) -> drawn w (o_id o);
  ok_obs_keys : NoDup (map o_key (observations (db w)));
  ok_obs_facts : forall o, o ∈ observations (db w) -> o_fact_id o ∈ fact_ids w;
  ok_project_ids : forall p, p ∈ projects (db w) -> drawn w (p_id p);
  ok_project_nodup : NoDup (map p_id (projects (db w)));
  ok_project_keys : NoDup (map p_key (projects (db w)))
}.

Definition due_for (id n : Z) (f : Fact) : Z := if Z.eqb (f_id f) id then n else 0.

(** [n] observations of the fact [id] are still to be counted. *)
Record mem_due (id n : Z) (w : World) : Prop := {
  due_tables : tables_ok w;
  due_facts : forall f, f ∈ facts (db w) -> fact_ok (due_for id n f) (observations (db w)) f
}.

Record mem_ok (w : World) : Prop := {
  ok_tables : tables_ok w;
  ok_facts : forall f, f ∈ facts (db w) -> fact_ok 0 (observations (db w)) f
}.

Lemma due_zero id w : mem_due id 0 w <-> mem_ok w.
Proof.
  assert (forall f, due_for id 0 f = 0) as H by (intros f; unfold due_for; by destruct (Z.eqb _ _)).
  split; intros [? Hf]; (split; [done|]); intros f Hin; specialize (Hf f Hin); by rewrite H in *.
Qed.

Lemma drawn_mono w w' i : (uuids w <= uuids w')%nat -> drawn w i -> drawn w' i.
Proof. intros H (k & ? & ->). exists k. split; [lia|done]. Qed.

(** *** Clock and identifiers *)
Lemma tables_tick w : tables_ok w -> tables_ok (tick w).
Proof. by intros []. Qed.

Lemma tables_draw w : tables_ok w -> tables_ok (draw w).
Proof.
  intros []. split; [|done| |done|done| |done|done]; intros ??; eapply (drawn_mono w); auto; simpl; lia.
Qed.

Lemma due_tick id n w : mem_due id n w -> mem_due id n (tick w).
Proof. intros []. split; [by apply tables_tick|done]. Qed.

Lemma due_draw id n w : mem_due id n w -> mem_due id n (draw w).
Proof. intros []. split; [by apply tables_draw|done]. Qed.

(** *** Updates of facts keep the tables. *)
Lemma fact_ids_update p (g : Fact -> FactState -> FactState) w : fact_ids (on_facts (apply_where p g) w) = fact_ids w.
Proof.
  unfold fact_ids, apply_where. cbn. rewrite map_map. apply map_ext. intros f. by destruct (p f).
Qed.

Lemma tables_update p (g : Fact -> FactState -> FactState) w : tables_ok w -> tables_ok (on_facts (apply_where p g) w).
Proof. intros []. split; rewrite ?fact_ids_update; done. Qed.

Lemma due_update p (g : Fact -> FactState -> FactState) id n n' w :
  mem_due id n w ->
  (forall f, f ∈ facts (db w) -> p f = true -> fact_ok (due_for id n f) (observations (db w)) f ->
     fact_ok (due_for id n' f) (observations (db w)) {| columns := f; state := g f f |}) ->
  (forall f, f ∈ facts (db w) -> p f = false -> due_for id n' f = due_for id n f) ->
  mem_due id n' (on_facts (apply_where p g) w).
Proof.
  intros [Ht Hf] Hp Hn. split; [by apply tables_update|]. intros f' (f & -> & Hin)%list_elem_of_fmap. cbn.
  specialize (Hf f Hin). destruct (p f) eqn:E.
  - exact (Hp f Hin E Hf).
  - rewrite Hn by done. done.
Qed.

(** A new row *)
Lemma support_unknown w i : tables_ok w -> i ∉ fact_ids w -> support_of i (observations (db w)) = 0.
Proof.
  intros [] Hi. unfold support_of, evidence_of. rewrite filter_none; [done|]. intros o Ho.
  apply Z.eqb_neq. intros <-. by apply Hi, ok_obs_facts0.
Qed.

Lemma ok_insert (f : Fact) w :
  mem_ok w -> f_id f ∉ fact_ids w -> drawn w (f_id f) ->
  fact_ok 0 [] f -> mem_ok (on_facts (fun l => l ++ [f]) w).
Proof.
  intros [Ht Hf] Hn Hd Hok. pose proof (support_unknown w _ Ht Hn) as Hs. destruct Ht. split.
  - split; try done; unfold fact_ids in *; cbn; rewrite map_app; simpl.
    + intros i [Hi| ->%list_elem_of_singleton]%elem_of_app; [exact (ok_ids0 _ Hi)|exact Hd].
    + apply NoDup_app; split_and!; [done| |apply NoDup_singleton]. by intros x Hx ->%list_elem_of_singleton.
    + intros o Ho. apply elem_of_app. left. by apply ok_obs_facts0.
  - cbn. intros f' [Hin| ->%list_elem_of_singleton]%elem_of_app; [by apply Hf|].
    destruct Hok as [L H S R]. cbn in *. split; rewrite ?Hs; auto.
Qed.

(** *** Observations and projects *)
Lemma evidence_app i os o :
  evidence_of i (os ++ [o]) = evidence_of i os ++ (if Z.eqb (o_fact_id o) i then [o] else []).
Proof. unfold evidence_of. rewrite List.filter_app. simpl. by destruct (Z.eqb _ _). Qed.

Lemma support_app i os o :
  support_of i (os ++ [o]) = support_of i os + (if Z.eqb (o_fact_id o) i then 1 else 0).
Proof. unfold support_of. rewrite evidence_app, length_app. destruct (Z.eqb _ _); simpl; lia. Qed.

Lemma due_observe o n w :
  mem_due (o_fact_id o) n w -> o_fact_id o ∈ fact_ids w -> drawn w (o_id o) -> o_key o ∉ map o_key (observations (db w)) ->
  mem_due (o_fact_id o) (n + 1) (on_observations (fun l => l ++ [o]) w).
Proof.
  intros [Ht Hf] Hid Hd Hk. split.
  - destruct Ht. split; try done; cbn.
    + intros x [Hx| ->%list_elem_of_singleton]%elem_of_app; [exact (ok_obs_ids0 _ Hx)|exact Hd].
    + rewrite map_app. simpl. apply NoDup_app; split_and!; [done| |apply NoDup_singleton].
      by intros x Hx ->%list_elem_of_singleton.
    + intros x [Hx| ->%list_elem_of_singleton]%elem_of_app; [exact (ok_obs_facts0 _ Hx)|exact Hid].
  - cbn. intros f Hin. destruct (Hf f Hin) as [L H S R]. unfold due_for in *. rewrite (Z.eqb_sym (f_id f)) in *.
    split; rewrite ?support_app; destruct (Z.eqb_spec (o_fact_id o) (f_id f)); try (intros Hs; specialize (S Hs)); lia || auto.
Qed.

Lemma ok_insert_project p w :
  mem_ok w -> p_id p ∉ map p_id (projects (db w)) -> p_key p ∉ map p_key (projects (db w)) -> drawn w (p_id p) ->
  mem_ok (on_projects (fun l => l ++ [p]) w).
Proof.
  intros [[] Hf] Hi Hk Hd. split; [|done]. split; try done; cbn.
  - intros x [Hx| ->%list_elem_of_singleton]%elem_of_app; [exact (ok_project_ids0 _ Hx)|exact Hd].
  - rewrite map_app. simpl. apply NoDup_app; split_and!; [done| |apply NoDup_singleton].
    by intros x Hx ->%list_elem_of_singleton.
  - rewrite map_app. simpl. apply NoDup_app; split_and!; [done| |apply NoDup_singleton].
    by intros x Hx ->%list_elem_of_singleton.
Qed.

Lemma ok_update_project g w :
  mem_ok w -> (forall p, p_id (g p) = p_id p /\ p_key (g p) = p_key p) -> mem_ok (on_projects (map g) w).
Proof.
  intros [[] Hf] Hg. split; [|done].
  assert (map p_id (map g (projects (db w))) = map p_id (projects (db w))) as E1
    by (rewrite map_map; apply map_ext; apply Hg).
  assert (map p_key (map g (projects (db w))) = map p_key (projects (db w))) as E2
    by (rewrite map_map; apply map_ext; apply Hg).
  split; try done; cbn; rewrite ?E1, ?E2; try done.
  intros p (q & -> & Hq)%list_elem_of_fmap. rewrite (proj1 (Hg q)). exact (ok_project_ids0 _ Hq).
Qed.
End Invariant.

(** ** The operations return and keep the invariant. *)
Section Operations.
Context (clock gen : nat -> Z) (uuid_str : Z -> string) (UUID : string -> option Z) `{!Inj (=) (=) gen}.
#[local] Abbreviation mem_ok := (mem_ok gen).
#[local] Abbreviation mem_due := (mem_due gen).

Record fresh (i : Z) (w : World) : Prop := {
  fresh_drawn : drawn gen w i;
  fresh_fact : i ∉ fact_ids w;
  fresh_observation o : o ∈ observations (db w) -> o_id o <> i;
  fresh_project : i ∉ map p_id (projects (db w))
}.

Lemma fresh_not_drawn w : ~ drawn gen w (gen (uuids w)).
Proof. intros (k & Hk & E). apply (inj gen) in E. lia. Qed.

Lemma fresh_draw w : tables_ok gen w -> fresh (gen (uuids w)) (draw w).
Proof.
  intros []. pose proof (fresh_not_drawn w) as Hn. split; cbn.
  - exists (uuids w). cbn. split; [lia|done].
  - intros Hi. by apply Hn, ok_ids0.
  - intros o Ho E. apply Hn. rewrite <- E. by apply ok_obs_ids0.
  - intros (p & E & Hp)%list_elem_of_fmap. apply Hn. rewrite E. by apply ok_project_ids0.
Qed.

(** Only the facts matter to the predicates below. *)
Definition at_facts (P : World -> Prop) (l : list Fact) (w : World) : Prop := P w /\ facts (db w) = l.

Lemma runs_now id n l : runs (at_facts (mem_due id n) l) (now clock) (fun _ => at_facts (mem_due id n) l).
Proof. intros w [Hw Hl]. exists (clock (readings w)), (tick w). split; [done|]. split; [by apply due_tick|done]. Qed.

Lemma runs_uuid4 id n l :
  runs (at_facts (mem_due id n) l) (uuid4 gen) (fun i w => at_facts (mem_due id n) l w /\ fresh i w).
Proof.
  intros w [Hw Hl]. exists (gen (uuids w)), (draw w). split; [done|].
  split; [split; [by apply due_draw|done]|]. apply fresh_draw. apply Hw.
Qed.

Lemma insert_observation_runs o n l :
  o_fact_id o ∈ map (fun f : Fact => f_id f) l ->
  runs (fun w => at_facts (mem_due (o_fact_id o) n) l w /\ fresh (o_id o) w /\
                 List.filter (same_source (o_fact_id o) (o_source_type o) (o_source_ref o)) (observations (db w)) = [])
       (insert_observation o) (fun _ => at_facts (mem_due (o_fact_id o) (n + 1)) l).
Proof.
  intros Hid w ([Hw Hl] & [Hd _ Ho _] & Hnone). exists tt, (on_observations (fun l => l ++ [o]) w). split.
  - unfold insert_observation. rewrite (bind_run_Ok _ _ _ _ _ (eq_refl : read _ w = (Ok _, w))).
    destruct (existsb _ _) eqn:E; [|done]. apply existsb_elem in E as (q & Hq & E).
    apply orb_true_iff in E as [E%Z.eqb_eq|E]; [by destruct (Ho q Hq)|].
    assert (q ∈ @nil FactObservation) as []%not_elem_of_nil. rewrite <- Hnone. by apply elem_of_List_filter.
  - split; [|done]. apply due_observe; [done|unfold fact_ids; by rewrite Hl|done|].
    intros (q & E & Hq)%list_elem_of_fmap. unfold o_key in E. injection E as E1 E2 E3.
    assert (q ∈ @nil FactObservation) as []%not_elem_of_nil. rewrite <- Hnone. apply elem_of_List_filter.
    split; [done|]. unfold same_source. by rewrite <- E1, <- E2, <- E3, Z.eqb_refl, !String.eqb_refl.
Qed.

Lemma same_source_unique id n w a b : mem_due id n w ->
  (length (List.filter (same_source id a b) (observations (db w))) <= 1)%nat.
Proof.
  intros [[] _]. apply (scalar_unique o_key); [done|]. unfold same_source, o_key.
  intros x y Hx Hy. rewrite !andb_true_iff, !Z.eqb_eq, !String.eqb_eq in Hx, Hy. destruct Hx as [[-> ->] ->], Hy as [[-> ->] ->]. done.
Qed.

Lemma runs_scalar {A} (P : World -> Prop) (g : MemDB -> list A) :
  (forall w, P w -> (length (g (db w)) <= 1)%nat) ->
  runs P (l ← read g; scalar_one_or_none l) (fun r w => P w /\ r = head (g (db w))).
Proof.
  intros H w Hw. exists (head (g (db w))), w. rewrite (bind_run_Ok _ _ _ _ _ (eq_refl : read _ w = (Ok _, w))).
  by rewrite scalar_run by auto.
Qed.

Lemma add_observations_runs id raw l : id ∈ map (fun f : Fact => f_id f) l ->
  forall n, runs (at_facts (mem_due id n) l) (_add_observations gen id raw)
                 (fun added => at_facts (mem_due id (n + added)) l).
Proof.
  intros Hid. induction raw as [|item raw IH]; intros n; cbn [_add_observations].
  { apply runs_ret. intros w. by rewrite Z.add_0_r. }
  destruct (_ || _); [apply IH|]. intros w Hw.
  set (g := fun d => List.filter (same_source id (source_type item) (source_ref item)) (observations d)).
  assert (length (g (db w)) <= 1)%nat as Hg by (by apply (same_source_unique id n), Hw).
  rewrite (bind_run_Ok _ _ _ _ _ (eq_refl : read g w = (Ok _, w))).
  rewrite (bind_run_Ok _ _ _ _ _ (scalar_run (g (db w)) w Hg)).
  destruct (g (db w)) as [|x k] eqn:E; simpl; [|by apply IH].
  destruct (runs_uuid4 id n l w Hw) as (i & w1 & E1 & Hw1 & Hi). pose proof E1 as E1'. injection E1' as _ <-.
  rewrite (bind_run_Ok _ _ _ _ _ E1).
  destruct (insert_observation_runs {| o_id := i; o_fact_id := id; o_source_type := source_type item;
    o_source_ref := source_ref item; o_source_label := label item |} n l Hid _ (conj Hw1 (conj Hi E))) as (u & w2 & E2 & Hw2).
  rewrite (bind_run_Ok _ _ _ _ _ E2). destruct (IH (n + 1) w2 Hw2) as (added & w3 & E3 & Hw3).
  rewrite (bind_run_Ok _ _ _ _ _ E3). exists (1 + added), w3. split; [done|]. by rewrite Z.add_assoc.
Qed.

(** *** Updates that neither count nor confirm *)
Definition quiet (g : Fact -> FactState -> FactState) : Prop := forall f : Fact,
  support_count (g f f) = support_count f /\ (status (g f f) = CONFIRMED -> status f = CONFIRMED).

Definition row_at (e : Fact) (s : Z) (w : World) : Prop :=
  exists f, f ∈ facts (db w) /\ columns f = columns e /\ support_count f = s.

Lemma ok_quiet p g w : quiet g -> mem_ok w -> mem_ok (on_facts (apply_where p g) w).
Proof.
  intros Hg Hw. apply (due_zero gen 0). apply (due_zero gen 0) in Hw. eapply due_update; [exact Hw| |done].
  intros f _ _ [L H S R]. destruct (Hg f) as [E C]. split; cbn; rewrite ?E; auto.
  intros (Hc & ? & ?). apply R. split_and!; [by apply C|done|done].
Qed.

Lemma row_quiet p g w e s : quiet g -> row_at e s w -> row_at e s (on_facts (apply_where p g) w).
Proof.
  intros Hg (f & Hf & Hc & Hs). destruct (Hg f) as [E _].
  exists (if p f then {| columns := f; state := g f f |} else f). split_and!.
  - cbn. unfold apply_where. apply list_elem_of_fmap. by exists f.
  - by destruct (p f).
  - destruct (p f); [|done]. cbn. by rewrite E.
Qed.

Lemma quiet_runs P p g : quiet g ->
  (forall w, P w -> P (on_facts (apply_where p g) w)) ->
  runs (fun w => mem_ok w /\ P w) (update_facts p g) (fun _ w => mem_ok w /\ P w).
Proof.
  intros Hg HP w [Hw Hp]. eexists _, _. split; [apply update_facts_run|]. split; [by apply ok_quiet|by apply HP].
Qed.

Lemma quiet_superseded (b : Fact -> Z) : quiet (fun f => set_superseded (b f)).
Proof. by intros f. Qed.
Lemma quiet_unconfirmed : quiet (fun _ => set_status UNCONFIRMED).
Proof. by intros f. Qed.
Lemma quiet_tenant t : quiet (fun _ => set_tenant t).
Proof. by intros f. Qed.
Lemma quiet_revision r : quiet (fun _ => set_revision r).
Proof. by intros f. Qed.

(** The row of an identifier is unique. *)
Lemma row_unique e s w (f : Fact) : mem_ok w -> row_at e s w -> f ∈ facts (db w) -> f_id f = f_id e ->
  columns f = columns e /\ support_count f = s.
Proof.
  intros [[] _] (f' & Hf' & Hc & Hs) Hf Hid.
  assert (f = f') as -> by (eapply (NoDup_map_key (fun f : Fact => f_id f)); [exact ok_nodup0|done..|by rewrite Hid, Hc]).
  done.
Qed.

Lemma confirm_ok (e : Fact) s a b w :
  mem_ok w -> row_at e s w -> (scope e = TENANT -> source e <> MANUAL -> 3 <= s) ->
  mem_ok (on_facts (apply_where (fun f => Z.eqb (f_id f) (f_id e)) (fun _ => confirm a b)) w).
Proof.
  intros Hw Hr H3. apply (due_zero gen 0). pose proof Hw as Hw0. apply (due_zero gen 0) in Hw. eapply due_update; [exact Hw| |done].
  intros f Hf Hid%Z.eqb_eq [L H S R]. destruct (row_unique e s w f Hw0 Hr Hf Hid) as [Hc Hs].
  split; cbn; auto. intros (_ & Hsc & Hso). rewrite Hc in Hsc, Hso. rewrite Hs. by apply H3.
Qed.

Lemma now_runs P : (forall w, P w -> P (tick w)) ->
  runs (fun w => mem_ok w /\ P w) (now clock) (fun _ w => mem_ok w /\ P w).
Proof.
  intros HP w [Hw Hp]. exists (clock (readings w)), (tick w). split; [done|]. split; [|by apply HP].
  apply (due_zero gen 0). apply due_tick. by apply due_zero.
Qed.

Lemma confirm_fact_runs (e : Fact) s :
  (scope e = TENANT -> source e <> MANUAL -> 3 <= s) ->
  runs (fun w => mem_ok w /\ row_at e s w) (confirm_fact clock e) (fun _ => mem_ok).
Proof.
  intros H3. unfold confirm_fact.
  eapply (runs_bind _ _ (fun _ w => mem_ok w /\ row_at e s w)).
  - destruct (first_confirmed_at e); [by apply runs_ret|]. by apply now_runs.
  - intros a. eapply runs_bind; [by apply now_runs|]. intros b w [Hw Hr]. exists tt.
    eexists. split; [done|]. by eapply confirm_ok.
Qed.

Lemma settle_runs c (e : Fact) s :
  d_scope c = scope e -> (project_memory_marked (d_metadata c) = true -> d_scope c <> TENANT) ->
  runs (fun w => mem_ok w /\ row_at e s w) (settle_status clock c false e s) (fun _ => mem_ok).
Proof.
  intros Hsc Hm. unfold settle_status. destruct (String.eqb _ _).
  { intros w [Hw _]. exists tt. eexists. split; [done|]. by apply ok_quiet; [apply quiet_unconfirmed|]. }
  destruct (false || _ || _) eqn:E; [|destruct (bool_decide (3 <= s)) eqn:E3].
  - apply confirm_fact_runs. intros Ht _. exfalso. simpl in E. apply orb_true_iff in E as [E|E].
    + rewrite bool_decide_eq_true in E. congruence.
    + apply Hm in E. congruence.
  - apply confirm_fact_runs. by apply bool_decide_eq_true in E3.
  - by apply runs_ret; intros w [].
Qed.

Lemma reinforce_ok (e : Fact) s added at_ l w :
  at_facts (mem_due (f_id e) added) l w -> 0 <= added -> row_at e s w ->
  mem_ok (on_facts (apply_where (fun f => Z.eqb (f_id f) (f_id e)) (fun _ => reinforce added at_)) w) /\
  row_at e (s + added) (on_facts (apply_where (fun f => Z.eqb (f_id f) (f_id e)) (fun _ => reinforce added at_)) w).
Proof.
  intros [Hw _] Hadd (f & Hf & Hc & Hs). split.
  - apply (due_zero gen (f_id e)). eapply due_update; [exact Hw| |].
    + intros f' _ Hid [L H S R]. unfold due_for in *. cbn. rewrite Hid in *.
      split; cbn; [lia|lia|intros Hso; specialize (S Hso); lia|intros Hn; specialize (R Hn); lia].
    + intros f' _ Hid. unfold due_for. by rewrite Hid.
  - exists {| columns := f; state := reinforce added at_ f |}. split_and!; [|done|cbn; by rewrite Hs].
    cbn. unfold apply_where. apply list_elem_of_fmap. exists f. by rewrite Hc, Z.eqb_refl.
Qed.

Lemma insert_runs (f : Fact) : fact_ok 0 [] f ->
  runs (fun w => mem_ok w /\ fresh (f_id f) w) (insert_fact f) (fun _ w => mem_ok w /\ row_at f (support_count f) w).
Proof.
  intros Hf w [Hw [Hd Hn _ _]]. exists tt. eexists. split; [by apply insert_fact_run|]. split; [by apply ok_insert|].
  exists f. split_and!; [|done|done]. cbn. apply elem_of_app. right. by apply list_elem_of_singleton.
Qed.

Lemma uuid4_ok : runs mem_ok (uuid4 gen) (fun i w => mem_ok w /\ fresh i w).
Proof.
  intros w Hw. destruct (runs_uuid4 0 0 (facts (db w)) w) as (i & w' & E & [Hw' _] & Hi).
  { split; [by apply due_zero|done]. }
  exists i, w'. split; [done|]. split; [by apply (due_zero gen 0)|done].
Qed.

Lemma support_nil i : support_of i [] = 0.
Proof. done. Qed.

Lemma new_fact_ok i c t o p tenant : fact_ok 0 [] (new_fact i c t o p tenant false).
Proof.
  split; rewrite ?support_nil; cbn; [lia|lia|lia|]. intros (Hs & Hsc & _). cbn in *. exfalso.
  rewrite Hsc in Hs. by rewrite bool_decide_false in Hs.
Qed.

(** What [find_or_create] hands to the rest of the loop *)
Definition candidate_row (c : FactDTO) (r : Fact * bool) (w : World) : Prop :=
  mem_ok w /\ row_at r.1 (support_count r.1) w /\ scope r.1 = d_scope c.

Lemma find_same_run c t o p w : _find_same c t o p w = (Ok (head (List.filter (is_same c t o p) (facts (db w)))), w).
Proof. done. Qed.

Lemma find_or_create_runs c t o p tenant :
  runs mem_ok (find_or_create gen UUID c t o p tenant false) (candidate_row c).
Proof.
  unfold find_or_create. intros w Hw. rewrite (bind_run_Ok _ _ _ _ _ (find_same_run c t o p w)).
  destruct (List.filter _ _) as [|e k] eqn:E; simpl head.
  - revert w Hw E. intros w Hw _. cbv beta iota. eapply runs_bind; [apply uuid4_ok| |exact Hw]. intros i.
    eapply (runs_bind _ _ (fun _ => candidate_row c (new_fact i c t o p tenant false, true))).
    + intros w1 [Hw1 Hi]. destruct (insert_runs (new_fact i c t o p tenant false) (new_fact_ok _ _ _ _ _ _) w1)
        as (u & w2 & E2 & Hw2 & Hr); [done|]. exists u, w2. split; [done|]. by split_and!.
    + intros _. eapply (runs_bind _ _ (fun _ => candidate_row c (new_fact i c t o p tenant false, true)));
        [|intros _; by apply runs_ret].
      destruct (_ || _); [|by apply runs_ret]. unfold _supersede_targets.
      destruct (List.filter _ _); [by apply runs_ret|].
      eapply (runs_bind _ _ (fun _ => candidate_row c (new_fact i c t o p tenant false, true)));
        [|intros ?; by apply runs_ret].
      intros w2 (Hw2 & Hr & Hsc). eexists _, _. split; [apply update_facts_run|].
      pose proof (quiet_superseded (fun _ => f_id (new_fact i c t o p tenant false))) as Hq.
      split_and!; [by apply ok_quiet|by apply row_quiet|done].
  - exists (e, false), w. split; [done|].
    assert (e ∈ List.filter (is_same c t o p) (facts (db w))) as He by (rewrite E; left).
    apply elem_of_List_filter in He as [He Hs]. split_and!; [done|by exists e|].
    unfold is_same in Hs. repeat (apply andb_true_iff in Hs as [Hs _]). by apply bool_decide_eq_true in Hs.
Qed.

(** Lookups of a project *)
Lemma one_key key w : mem_ok w ->
  (length (List.filter (fun p => String.eqb (p_key p) key) (projects (db w))) <= 1)%nat.
Proof.
  intros [[] _]. apply (scalar_unique p_key); [done|]. intros x y. rewrite !String.eqb_eq. by intros -> ->.
Qed.

Lemma one_active_key key w : mem_ok w ->
  (length (List.filter (fun p => String.eqb (p_key p) key && p_is_active p) (projects (db w))) <= 1)%nat.
Proof.
  intros [[] _]. apply (scalar_unique p_key); [done|]. intros x y.
  rewrite !andb_true_iff, !String.eqb_eq. by intros [-> _] [-> _].
Qed.

Lemma one_project pid w : mem_ok w ->
  (length (List.filter (fun p => Z.eqb (p_id p) pid) (projects (db w))) <= 1)%nat.
Proof.
  intros [[] _]. apply (scalar_unique p_id); [done|]. intros x y. rewrite !Z.eqb_eq. by intros -> ->.
Qed.

Lemma owner_runs c u t : runs mem_ok (_owner_for c u t) (fun _ => mem_ok).
Proof.
  unfold _owner_for. destruct (d_scope c); [by apply runs_ret..|].
  destruct (str_empty _); [by apply runs_ret|]. intros w Hw.
  rewrite (bind_run_Ok _ _ _ _ _ (eq_refl : read _ w = (Ok _, w))).
  rewrite (bind_run_Ok _ _ _ _ _ (scalar_run _ w (one_active_key (candidate_key (d_metadata c)) w Hw))).
  eexists _, _. by split.
Qed.

Lemma aliases_runs f raw : runs mem_ok (_apply_confirmed_project_aliases f raw) (fun _ => mem_ok).
Proof.
  unfold _apply_confirmed_project_aliases. destruct (project_id f) as [pid|]; [|by apply runs_ret]. intros w Hw.
  rewrite (bind_run_Ok _ _ _ _ _ (eq_refl : read _ w = (Ok _, w))).
  rewrite (bind_run_Ok _ _ _ _ _ (scalar_run _ w (one_project pid w Hw))).
  destruct (head _) as [p|]; [|by exists tt, w]. eexists _, _. split; [done|].
  apply ok_update_project; [done|]. intros q. by destruct (Z.eqb _ _).
Qed.

Lemma ensure_project_runs c : runs mem_ok (ensure_project gen c) (fun _ => mem_ok).
Proof.
  unfold ensure_project. destruct (_ || _); [by apply runs_ret|]. intros w Hw.
  set (key := candidate_key (d_metadata c)).
  rewrite (bind_run_Ok _ _ _ _ _ (eq_refl : read _ w = (Ok _, w))).
  rewrite (bind_run_Ok _ _ _ _ _ (scalar_run _ w (one_key key w Hw))).
  destruct (List.filter _ _) as [|p k] eqn:E; cbn [hd_error head]; [|by exists tt, w].
  destruct (uuid4_ok w Hw) as (i & w1 & E1 & Hw1 & Hi). pose proof E1 as E1'. injection E1' as _ <-.
  rewrite (bind_run_Ok _ _ _ _ _ E1).
  assert (key ∉ map p_key (projects (db (draw w)))) as Hk.
  { intros (q & Eq & Hq)%list_elem_of_fmap. assert (q ∈ @nil Project) as []%not_elem_of_nil.
    rewrite <- E. apply elem_of_List_filter. split; [done|]. by apply String.eqb_eq. }
  exists tt, (on_projects (fun l => l ++ [{| p_id := i; p_key := key; p_name := key; p_aliases := [key];
                                             p_is_active := true |}]) (draw w)).
  split; [|by apply ok_insert_project; [|apply (fresh_project _ _ Hi)| |apply (fresh_drawn _ _ Hi)]].
  unfold insert_project. rewrite (bind_run_Ok _ _ _ _ _ (eq_refl : read _ (draw w) = (Ok _, draw w))).
  destruct (existsb _ _) eqn:Ex; [|done]. exfalso. apply existsb_elem in Ex as (q & Hq & Ex). cbn in Ex.
  apply orb_true_iff in Ex as [Ex%Z.eqb_eq|Ex%String.eqb_eq].
  - apply (fresh_project _ _ Hi). rewrite <- Ex. by apply list_elem_of_fmap_2.
  - apply Hk. rewrite <- Ex. by apply list_elem_of_fmap_2.
Qed.
End Operations.
