(* ===== verification/FactReach.v ===== *)
(** * Facts: every reachable memory

    The operations of [Facts], [FactServices] and [FactReconciler] as the steps of a
    transition relation, and the invariant of [FactInvariant] at every state it
    reaches. *)
From S2P Require Import Prelude.
From S2P Require Import Facts.
From S2P Require Import FactServices.
From S2P Require Import FactReconciler.
From S2P Require Import FactProofs.
From S2P Require Import FactInvariant.
Open Scope Z_scope.

(** A marker of project memory is only set on the candidates of a project. *)
Definition marks_projects (c : FactDTO) : Prop :=
  project_memory_marked (d_metadata c) = true -> d_scope c <> TENANT.

Section Loop.
Context (clock gen : nat -> Z) (uuid_str : Z -> string) (UUID : string -> option Z) `{!Inj (=) (=) gen}.
#[local] Abbreviation mem_ok := (mem_ok gen).

Lemma count_evidence_runs c (e : Fact) is_new added l w : marks_projects c -> scope e = d_scope c -> 0 <= added ->
  at_facts (mem_due gen (f_id e) added) l w -> row_at e (support_count e) w ->
  exists r w', count_evidence clock false c e is_new added w = (Ok r, w') /\ mem_ok w'.
Proof.
  intros Hm Hsc Hadd Hw Hr. unfold count_evidence.
  destruct (Z.eqb_spec added 0) as [->|_]; [exists [], w; split; [done|by apply (due_zero gen (f_id e)), Hw]|].
  rewrite (bind_run_Ok _ _ w (clock (readings w)) (tick w) eq_refl).
  assert (at_facts (mem_due gen (f_id e) added) l (tick w)) as Hw2 by (destruct Hw; split; [by apply due_tick|done]).
  destruct (reinforce_ok gen e _ added (clock (readings w)) _ _ Hw2 Hadd Hr) as [Hw3 Hr3].
  rewrite (bind_run_Ok _ _ _ _ _ (assign_run _ _ (tick w))).
  eapply (runs_bind (fun w => mem_ok w /\ row_at e (support_count e + added) w) _ (fun _ => mem_ok));
    [|intros ?|by split].
  - apply (settle_runs clock gen c e); [by rewrite Hsc|done].
  - eapply (runs_bind _ _ (fun _ => mem_ok)); [intros w4 Hw4; by eexists _, w4; split; [apply get_fact_run|]|].
    intros after. eapply (runs_bind _ _ (fun _ => mem_ok)); [|intros ?; by apply runs_ret].
    destruct (_ && _); [apply (aliases_runs gen)|by apply runs_ret].
Qed.

Lemma apply_candidate_runs u t c : marks_projects c ->
  runs mem_ok (apply_candidate clock gen UUID u t false c) (fun _ => mem_ok).
Proof.
  intros Hm. unfold apply_candidate. eapply runs_bind; [apply (owner_runs gen)|]. intros [[owner_t owner_i] project].
  destruct (_ && _); [by apply runs_ret|].
  eapply runs_bind; [by apply (find_or_create_runs gen UUID)|]. intros [e is_new] w (Hw & Hr & Hsc). simpl in *.
  assert (f_id e ∈ map (fun f : Fact => f_id f) (facts (db w))) as Hid.
  { destruct Hr as (f & Hf & Hc & _). rewrite <- Hc. by apply (list_elem_of_fmap_2 (fun f : Fact => f_id f)). }
  destruct (add_observations_runs gen (f_id e) (evidence (d_metadata c)) _ Hid 0 w) as (added & w1 & E1 & Hw1).
  { split; [by apply due_zero|done]. }
  rewrite (bind_run_Ok _ _ _ _ _ E1). rewrite Z.add_0_l in Hw1. pose proof (add_observations_nonneg _ _ _ _ _ _ E1) as Hadd.
  apply (count_evidence_runs c e is_new added (facts (db w))); [done..|].
  destruct Hr as (f & Hf & ?). exists f. destruct Hw1 as [_ ->]. done.
Qed.

Lemma apply_with_changes_runs l u t : Forall marks_projects l ->
  runs mem_ok (apply_with_changes clock gen UUID l u t false) (fun _ => mem_ok).
Proof.
  intros Hl. unfold apply_with_changes. eapply runs_bind.
  { apply runs_for_each. intros c _. by apply (ensure_project_runs gen). }
  intros ?. eapply (runs_bind _ _ (fun _ => mem_ok)); [|intros ?; by apply runs_ret].
  apply runs_map_call. intros c Hc. apply apply_candidate_runs. rewrite Forall_forall in Hl. by apply Hl.
Qed.

(** *** What people do *)
Lemma manual_fact_ok id t type owner k s subj val norm ref visible at_ rev :
  fact_ok 0 [] (manual_fact id t type owner k s subj val norm ref visible at_ rev).
Proof. split; rewrite ?support_nil; cbn; [lia|lia|done|by intros (_ & _ & H); destruct H]. Qed.

Lemma insert_manual (f : Fact) P : fact_ok 0 [] f ->
  (forall w, P w -> mem_ok w /\ fresh gen (f_id f) w) -> runs P (insert_fact f) (fun _ => mem_ok).
Proof.
  intros Hf HP. eapply runs_pre; [exact HP|]. eapply runs_post; [by apply (insert_runs gen)|]. by intros ? w [].
Qed.

Lemma update_quiet_runs p g : quiet g -> runs mem_ok (update_facts p g) (fun _ => mem_ok).
Proof. intros Hg w Hw. eexists _, _. split; [apply update_facts_run|]. by apply ok_quiet. Qed.

Lemma mark_runs a b : runs mem_ok (mark_superseded a b) (fun _ => mem_ok).
Proof.
  eapply (runs_bind _ _ (fun _ => mem_ok)); [|intros ?; by apply runs_ret].
  apply update_quiet_runs, (quiet_superseded (fun _ => b)).
Qed.

Lemma now_ok : runs mem_ok (now clock) (fun _ => mem_ok).
Proof. eapply runs_post; [eapply runs_pre; [|by apply (now_runs clock gen (fun _ => True))]|]; naive_solver. Qed.

Lemma one_owned id type owner w : mem_ok w ->
  (length (List.filter (fun f : Fact => Z.eqb (f_id f) id && owned_by type owner f && active f) (facts (db w))) <= 1)%nat.
Proof.
  intros [[] _]. apply (scalar_unique (fun f : Fact => f_id f)); [done|]. intros x y.
  rewrite !andb_true_iff, !Z.eqb_eq. by intros [[-> _] _] [[-> _] _].
Qed.

Lemma get_active_run id type owner w : mem_ok w ->
  exists r, get_active id type owner w = (Ok r, w) /\
    forall f : Fact, r = Some f -> f ∈ facts (db w) /\ f_id f = id /\ owned_by type owner f = true /\ active f = true.
Proof.
  intros Hw. pose proof (one_owned id type owner w Hw) as H1. eexists. split.
  - unfold get_active. rewrite (bind_run_Ok _ _ _ _ _ (eq_refl : select_facts _ w = (Ok _, w))). by apply scalar_run.
  - intros f Hf. destruct (List.filter _ _) as [|x k] eqn:E; [done|]. injection Hf as ->.
    assert (f ∈ List.filter (fun f : Fact => Z.eqb (f_id f) id && owned_by type owner f && active f) (facts (db w))) as Hf
      by (rewrite E; left).
    apply elem_of_List_filter in Hf as [Hf Hp]. rewrite !andb_true_iff, Z.eqb_eq in Hp. naive_solver.
Qed.

Lemma create_manual_runs (mk : Z -> Z -> Fact) :
  (forall at_ id, fact_ok 0 [] (mk at_ id)) -> (forall at_ id, f_id (mk at_ id) = id) ->
  runs mem_ok (at_ ← now clock; id ← uuid4 gen; _ ← insert_fact (mk at_ id); mret (mk at_ id)) (fun _ => mem_ok).
Proof.
  intros Hok Hid. eapply (runs_bind _ _ (fun _ => mem_ok)); [apply now_ok|]. intros at_.
  eapply runs_bind; [by apply (uuid4_ok gen)|]. intros id.
  eapply (runs_bind _ _ (fun _ => mem_ok)); [|intros ?; by apply runs_ret].
  apply insert_manual; [apply Hok|]. intros w. by rewrite Hid.
Qed.

Lemma admin_create_runs type owner s v : runs mem_ok (admin_create clock gen uuid_str type owner s v) (fun _ => mem_ok).
Proof. apply create_manual_runs; intros at_ id; [apply manual_fact_ok|done]. Qed.

Lemma create_user_fact_runs u s v w : mem_ok w -> mem_ok (create_user_fact clock gen uuid_str u s v w).2.
Proof.
  intros Hw. unfold create_user_fact. destruct (profile_text s v) as [s' v']. destruct (_ || _); [done|].
  destruct (create_manual_runs (fun at_ id => manual_fact id None "user" u None USER s' v' (_normalized v')
    ("manual:create:" +:+ uuid_str u) true at_ 1)) with w as (r & w' & E & Hw'); [by intros; apply manual_fact_ok|done|done|].
  by rewrite E.
Qed.

Lemma admin_update_ok id type owner s v w : mem_ok w ->
  mem_ok (admin_update clock gen uuid_str id type owner s v w).2.
Proof.
  intros Hw. unfold admin_update. destruct (get_active_run id type owner w Hw) as (r & E & _).
  rewrite (bind_run_Ok _ _ _ _ _ E). destruct r as [c|]; [|done].
  enough (runs mem_ok (replacement ← admin_create clock gen uuid_str type owner s v;
      _ ← update_facts (fun f : Fact => Z.eqb (f_id f) (f_id (columns replacement))) (fun _ => set_revision (revision (state c) + 1));
      _ ← supersede (f_id (columns c)) (f_id (columns replacement));
      mret {| columns := columns replacement; state := set_revision (revision (state c) + 1) (state replacement) |})
    (fun _ => mem_ok)) as Hr by (destruct (Hr w Hw) as (x & w' & Ex & Hw'); by rewrite Ex).
  eapply (runs_bind _ _ (fun _ => mem_ok)); [apply admin_create_runs|]. intros repl.
  eapply (runs_bind _ _ (fun _ => mem_ok)); [apply update_quiet_runs, quiet_revision|]. intros ?.
  eapply (runs_bind _ _ (fun _ => mem_ok)); [apply mark_runs|]. intros ?. by apply runs_ret.
Qed.

Lemma admin_delete_ok id type owner w : mem_ok w -> mem_ok (admin_delete id type owner w).2.
Proof.
  intros Hw. unfold admin_delete. destruct (get_active_run id type owner w Hw) as (r & E & _).
  rewrite (bind_run_Ok _ _ _ _ _ E). destruct r as [c|]; [|done].
  destruct (mark_runs (f_id (columns c)) (f_id (columns c)) w Hw) as (x & w' & Ex & Hw'). unfold supersede. by rewrite Ex.
Qed.

(** The observation of a manual revision: the fact was counted when it was typed in. *)
Lemma observe_manual e o w :
  mem_ok w -> row_at e 1 w -> source e = MANUAL -> o_fact_id o = f_id e ->
  support_of (f_id e) (observations (db w)) = 0 -> fresh gen (o_id o) w ->
  exists w', insert_observation o w = (Ok tt, w') /\ mem_ok w'.
Proof.
  intros Hw Hr Hso Hid Hs Hfr. pose proof Hr as (f & Hf & Hc & Hn).
  destruct (insert_observation_runs gen o 0 (facts (db w))) with w as ([] & w' & E & [Hd Hl]).
  - rewrite Hid, <- Hc. by apply (list_elem_of_fmap_2 (fun f : Fact => f_id f)).
  - split_and!; [split; [by apply due_zero|done]|done|]. apply filter_none. intros q Hq. unfold same_source.
    rewrite Hid. destruct (Z.eqb_spec (o_fact_id q) (f_id e)) as [Eq|]; [|done]. exfalso.
    unfold support_of in Hs. destruct (evidence_of _ _) eqn:Ee; [|done].
    assert (q ∈ @nil FactObservation) as []%not_elem_of_nil. rewrite <- Ee. apply elem_of_List_filter.
    by rewrite Eq, Z.eqb_refl.
  - exists w'. split; [done|]. unfold insert_observation in E.
    rewrite (bind_run_Ok _ _ _ _ _ (eq_refl : read _ w = (Ok _, w))) in E. destruct (existsb _ _); [done|]. injection E as <-.
    destruct Hd as [Ht Hfs]. split; [done|]. cbn in *. intros g Hg. specialize (Hfs g Hg). unfold due_for in Hfs.
    destruct (Z.eqb_spec (f_id g) (o_fact_id o)) as [Eg|]; [|done].
    destruct (row_unique gen e 1 w g Hw Hr Hg) as [Hgc Hgs]; [congruence|].
    destruct Hfs as [L H S R]. assert (source g = MANUAL) as Hgm by (by rewrite Hgc).
    assert (support_of (f_id g) (observations (db w) ++ [o]) = 1) as E1.
    { rewrite support_app, Hgc, Hs, Hid, Z.eqb_refl. done. }
    split; rewrite ?E1, ?Hgs; [lia|lia|done|]. by intros (_ & _ & []).
Qed.

Lemma insert_revision_runs (mk : Z -> Fact) (ob : Z -> Z -> FactObservation) :
  (forall id, fact_ok 0 [] (mk id) /\ f_id (mk id) = id /\ source (mk id) = MANUAL /\ support_count (mk id) = 1) ->
  (forall id oid, o_fact_id (ob id oid) = id /\ o_id (ob id oid) = oid) ->
  runs mem_ok (id ← uuid4 gen; _ ← insert_fact (mk id); oid ← uuid4 gen; _ ← insert_observation (ob id oid);
               mret (Some (mk id))) (fun _ => mem_ok).
Proof.
  intros Hmk Hob w Hw. destruct (uuid4_ok gen w Hw) as (id & w1 & E1 & Hw1 & Hid). rewrite (bind_run_Ok _ _ _ _ _ E1).
  destruct (Hmk id) as (Hok & Hi & Hso & Hsu).
  assert (f_id (mk id) ∉ fact_ids w1) as Hn by (rewrite Hi; apply Hid).
  rewrite (bind_run_Ok _ _ _ _ _ (insert_fact_run (mk id) w1 Hn)).
  set (w2 := on_facts (fun l => l ++ [mk id]) w1).
  assert (mem_ok w2) as Hw2 by (apply ok_insert; [done|done|rewrite Hi; apply Hid|done]).
  assert (support_of (f_id (mk id)) (observations (db w2)) = 0) as Hs by (by apply (support_unknown gen w1); [apply Hw1|]).
  destruct (uuid4_ok gen w2 Hw2) as (oid & w3 & E3 & Hw3 & Hoid). pose proof E3 as E3'. injection E3' as _ <-.
  rewrite (bind_run_Ok _ _ _ _ _ E3). destruct (Hob id oid) as [Ho1 Ho2].
  destruct (observe_manual (mk id) (ob id oid) (draw w2)) as (w4 & E4 & Hw4); [done| |done|congruence|done|by rewrite Ho2|].
  - exists (mk id). split_and!; [|done|done]. cbn. apply elem_of_app. right. by apply list_elem_of_singleton.
  - rewrite (bind_run_Ok _ _ _ _ _ E4). by exists (Some (mk id)), w4.
Qed.

Lemma write_revision_runs id u s v e : runs mem_ok (write_revision clock gen uuid_str id u s v e) (fun _ => mem_ok).
Proof.
  unfold write_revision. eapply (runs_bind _ _ (fun _ => mem_ok)); [apply now_ok|]. intros at_.
  eapply (runs_bind _ _ (fun _ => mem_ok)); [apply update_quiet_runs, quiet_unconfirmed|]. intros ?.
  eapply (runs_bind _ _ (fun _ => mem_ok)).
  { eapply (runs_bind _ _ (fun _ => mem_ok)); [apply update_quiet_runs, quiet_unconfirmed|intros ?; by apply runs_ret]. }
  intros ?. apply insert_revision_runs; [|done]. intros i. split_and!; [apply manual_fact_ok|done..].
Qed.

Lemma update_user_fact_ok id u s v w : mem_ok w -> mem_ok (update_user_fact clock gen uuid_str id u s v w).2.
Proof.
  intros Hw. unfold update_user_fact. destruct (profile_text s v) as [s' v']. destruct (_ || _); [done|].
  unfold replace_user_fact. unfold mbind at 1, py_bind at 1.
  rewrite (bind_run_Ok _ _ _ _ _ (eq_refl : select_facts _ w = (Ok _, w))).
  rewrite (bind_run_Ok _ _ _ _ _ (scalar_run _ w (one_owned id "user" u w Hw))).
  destruct (head _) as [e|]; [|done]. destruct (write_revision_runs id u s' v' e w Hw) as (r & w' & E & Hw').
  rewrite E. by destruct r.
Qed.
End Loop.

(** ** The steps *)
Inductive MemOp : Type :=
| Op_apply_with_changes (candidates : list FactDTO) (user_id tenant : option Z)
| Op_update_user_fact (fact_id user_id : Z) (subj val : string)
| Op_create_user_fact (user_id : Z) (subj val : string)
| Op_delete_user_facts (user_id : Z) (ids : list Z)
| Op_admin_create (type : string) (owner : Z) (subj val : string)
| Op_admin_update (fact_id : Z) (type : string) (owner : Z) (subj val : string)
| Op_admin_delete (fact_id : Z) (type : string) (owner : Z)
| Op_reassign_tenant_context (from to : Z).

Section Steps.
Context (clock gen : nat -> Z) (uuid_str : Z -> string) (UUID : string -> option Z).

Definition perform (o : MemOp) (w : World) : World :=
  match o with
  | Op_apply_with_changes l u t => (apply_with_changes clock gen UUID l u t false w).2
  | Op_update_user_fact i u s v => (update_user_fact clock gen uuid_str i u s v w).2
  | Op_create_user_fact u s v => (create_user_fact clock gen uuid_str u s v w).2
  | Op_delete_user_facts u ids => (delete_user_facts u ids w).2
  | Op_admin_create type o s v => (admin_create clock gen uuid_str type o s v w).2
  | Op_admin_update i type o s v => (admin_update clock gen uuid_str i type o s v w).2
  | Op_admin_delete i type o => (admin_delete i type o w).2
  | Op_reassign_tenant_context a b => (reassign_tenant_context a b w).2
  end.

(** What the writer of the memory hands to the reconciler *)
Definition allowed (o : MemOp) : Prop :=
  match o with Op_apply_with_changes l _ _ => Forall marks_projects l | _ => True end.

Inductive mem_step (w : World) : World -> Prop :=
| mem_step_perform o : allowed o -> mem_step w (perform o w).

Lemma perform_evolves o w : evolving w (perform o w).
Proof.
  assert (forall A (m : call A), preserves evolving m -> evolving w (m w).2) as H.
  { intros A m Hm. destruct (m w) as [r w'] eqn:E. by eapply Hm. }
  destruct o; apply H; eauto using evolving_apply_with_changes, evolving_update_user_fact, evolving_create_user_fact,
    evolving_delete_user_facts, evolving_admin_create, evolving_admin_update, evolving_admin_delete, evolving_reassign.
Qed.

Lemma steps_evolve w w' : rtc mem_step w w' -> evolving w w'.
Proof. induction 1 as [w|w w1 w2 [o _] _ IH]; [done|]. etrans; [apply perform_evolves|exact IH]. Qed.

Context `{!Inj (=) (=) gen}.

Lemma perform_ok o w : allowed o -> mem_ok gen w -> mem_ok gen (perform o w).
Proof.
  assert (forall A (m : call A), runs (mem_ok gen) m (fun _ => mem_ok gen) -> mem_ok gen w -> mem_ok gen (m w).2) as H.
  { intros A m Hm Hw. by destruct (Hm w Hw) as (a & w' & -> & ?). }
  destruct o; cbn [perform allowed]; intros Ha.
  - apply H. by apply apply_with_changes_runs.
  - by apply update_user_fact_ok.
  - by apply create_user_fact_runs.
  - intros Hw. unfold delete_user_facts. destruct ids; [done|]. apply H; [|done].
    apply update_quiet_runs, (quiet_superseded (fun f => f_id f)).
  - apply H. by apply admin_create_runs.
  - by apply admin_update_ok.
  - by apply admin_delete_ok.
  - apply H. apply update_quiet_runs, quiet_tenant.
Qed.

Lemma steps_ok w w' : rtc mem_step w w' -> mem_ok gen w -> mem_ok gen w'.
Proof. induction 1 as [w|w w1 w2 [o Ha] _ IH]; [done|]. intros Hw. by apply IH, perform_ok. Qed.
End Steps.
