(* ===== verification/FactReplay.v ===== *)
(** * Facts: applying the same candidates twice

    The writeback runs in a task queue that may deliver a turn more than once.  A
    candidate that neither rewrites nor supersedes leaves the memory [settled]: its
    owner, its row and its evidence are there, and stay there, so that a second
    application finds nothing to do. *)
From S2P Require Import Prelude.
From S2P Require Import Facts.
From S2P Require Import FactServices.
From S2P Require Import FactReconciler.
From S2P Require Import FactProofs.
From S2P Require Import FactInvariant.
From S2P Require Import FactReach.
Open Scope Z_scope.

(** ** What the search for a row looks at *)
Definition slot (f : Fact) : FactColumns * option Z := (columns f, superseded_by f).
Definition slots (w : World) : list (FactColumns * option Z) := map slot (facts (db w)).

(** Rows keep their slots; new rows come last. *)
Definition steady (w w' : World) : Prop := slots w `prefix_of` slots w'.

#[export] Instance steady_preorder : PreOrder steady.
Proof. unfold steady. split; [intros w; reflexivity|]. intros a b c ??. by etrans. Qed.

Lemma steady_read {A} (f : MemDB -> A) : preserves steady (read f).
Proof. by apply (preserves_keep _). Qed.

Lemma steady_other {A} (m : call A) : (forall w, facts (db (m w).2) = facts (db w)) -> preserves steady m.
Proof. intros H w r w' E. specialize (H w). rewrite E in H. unfold steady, slots. cbn in H. by rewrite H. Qed.

Lemma steady_assign id g : (forall s, superseded_by (g s) = superseded_by s) -> preserves steady (assign id g).
Proof.
  intros Hg w r w'. rewrite assign_run. intros [= _ <-]. unfold steady, slots, apply_where. cbn. rewrite map_map.
  erewrite map_ext; [done|]. intros f. unfold slot. destruct (Z.eqb _ _); cbn; by rewrite ?Hg.
Qed.

Lemma steady_insert f : preserves steady (insert_fact f).
Proof.
  unfold insert_fact. apply (preserves_bind _); [apply steady_read|]. intros ids.
  destruct (bool_decide _); [by apply (preserves_keep _)|]. apply preserves_modify. intros w. unfold steady, slots. cbn.
  rewrite map_app. by apply prefix_app_r.
Qed.

#[export] Hint Resolve steady_read steady_insert : steady.

Ltac steady_step :=
  match goal with
  | |- preserves steady (_ ≫= _) => apply (preserves_bind _); [|intros ?]
  | |- preserves steady (mret _) => by apply (preserves_keep _)
  | |- preserves steady (raise _) => by apply (preserves_keep _)
  | |- preserves steady (scalar_one_or_none ?l) => apply (preserves_keep _); intros ?; by destruct l as [|? [|? ?]]
  | |- preserves steady (if ?b then _ else _) => destruct b
  | |- preserves steady (match ?x with _ => _ end) => destruct x
  | |- preserves steady (let (_, _) := ?x in _) => destruct x
  | |- preserves steady (select_facts _) => apply steady_read
  | |- preserves steady (assign _ _) => by apply steady_assign
  | |- preserves steady (now _) => by apply steady_other
  | |- preserves steady (uuid4 _) => by apply steady_other
  | |- preserves steady (write (with_projects _)) => by apply steady_other
  | |- preserves steady (write (with_observations _)) => by apply steady_other
  end.
Ltac steadily := repeat first [solve [auto 3 with steady nocore] | steady_step].

(** Candidates that leave the other rows alone *)
Definition keeps_rows (c : FactDTO) : Prop :=
  (String.eqb (action_of (d_metadata c)) "rewrite" || String.eqb (action_of (d_metadata c)) "supersede") = false.

Section Replay.
Context (clock gen : nat -> Z) (UUID : string -> option Z).
Variables (user_id tenant : option Z).
#[local] Abbreviation apply_one := (apply_candidate clock gen UUID user_id tenant false).

Lemma steady_add_observations id l : preserves steady (_add_observations gen id l).
Proof. induction l as [|e l IH]; cbn [_add_observations]; unfold insert_observation; steadily. Qed.

Lemma steady_find_or_create c t o p : keeps_rows c -> preserves steady (find_or_create gen UUID c t o p tenant false).
Proof. unfold keeps_rows, find_or_create, _find_same. intros ->. steadily. Qed.

Lemma steady_settle c e s : preserves steady (settle_status clock c false e s).
Proof. unfold settle_status, confirm_fact. steadily. Qed.

Lemma steady_aliases f raw : preserves steady (_apply_confirmed_project_aliases f raw).
Proof. unfold _apply_confirmed_project_aliases. steadily. Qed.

Lemma steady_count_evidence c e is_new added : preserves steady (count_evidence clock false c e is_new added).
Proof.
  unfold count_evidence, get_fact. repeat first [apply steady_settle | apply steady_aliases | apply steady_read | steady_step].
Qed.

Lemma steady_apply_one c : keeps_rows c -> preserves steady (apply_one c).
Proof.
  intros Hc. unfold apply_candidate, _owner_for.
  repeat first [apply steady_add_observations | by apply steady_find_or_create | apply steady_count_evidence
               | apply steady_read | steady_step].
Qed.

(** The first row of a slot stays first. *)
Lemma is_same_slot c t o p (f f' : Fact) : slot f = slot f' -> is_same c t o p f = is_same c t o p f'.
Proof.
  unfold slot. intros E. injection E as Ec Es. unfold is_same, same_owner, active. by rewrite Ec, Es.
Qed.

Lemma found_steady c t o p w w' e : steady w w' ->
  head (List.filter (is_same c t o p) (facts (db w))) = Some e ->
  exists e', head (List.filter (is_same c t o p) (facts (db w'))) = Some e' /\ columns e' = columns e.
Proof.
  unfold steady, slots. generalize (facts (db w)) as l. generalize (facts (db w')) as l'. intros l' l. revert l'.
  induction l as [|f l IH]; intros [|f' l'] Hp He; [done|done|by apply prefix_nil_not in Hp|].
  simpl in Hp. pose proof (prefix_cons_inv_1 _ _ _ _ Hp) as Hs. apply prefix_cons_inv_2 in Hp.
  simpl in *. rewrite <- (is_same_slot c t o p f f' Hs). destruct (is_same c t o p f); [|by apply IH].
  cbn in *. injection He as <-. exists f'. split; [done|]. unfold slot in Hs. by injection Hs.
Qed.

(** ** The owner of a candidate *)
Definition owner_of (ps : list Project) (c : FactDTO) : option string * option Z * option Z :=
  match d_scope c with
  | USER => (Some "user", user_id, None)
  | TENANT => (Some "tenant", tenant, None)
  | PROJECT =>
      let key := candidate_key (d_metadata c) in
      if str_empty key then (None, None, None)
      else match head (List.filter (fun p => String.eqb (p_key p) key && p_is_active p) ps) with
           | Some p => (Some "project", Some (p_id p), Some (p_id p))
           | None => (None, None, None)
           end
  end.

Lemma owner_run c w : mem_ok gen w -> _owner_for c user_id tenant w = (Ok (owner_of (projects (db w)) c), w).
Proof.
  intros Hw. unfold _owner_for, owner_of. destruct (d_scope c); [done..|]. destruct (str_empty _); [done|].
  rewrite (bind_run_Ok _ _ _ _ _ (eq_refl : read _ w = (Ok _, w))).
  rewrite (bind_run_Ok _ _ _ _ _ (scalar_run _ w (one_active_key gen (candidate_key (d_metadata c)) w Hw))).
  by destruct (head _).
Qed.

(** [ensure_projects] has seen the candidate. *)
Definition known (ps : list Project) (c : FactDTO) : Prop :=
  d_scope c = PROJECT -> str_empty (candidate_key (d_metadata c)) = false ->
  candidate_key (d_metadata c) ∈ map p_key ps.

Lemma active_by_key key ps p : NoDup (map p_key ps) -> p ∈ ps -> p_key p = key ->
  head (List.filter (fun p => String.eqb (p_key p) key && p_is_active p) ps) = if p_is_active p then Some p else None.
Proof.
  intros Hn Hp Hk. set (q := fun p => String.eqb (p_key p) key && p_is_active p).
  assert (forall x, x ∈ List.filter q ps -> x = p /\ p_is_active p = true) as Hu.
  { intros x [Hx Hq]%elem_of_List_filter. unfold q in Hq. rewrite andb_true_iff, String.eqb_eq in Hq.
    assert (x = p) as -> by (apply (NoDup_map_key p_key ps); [done..|by rewrite Hk; apply Hq]). naive_solver. }
  destruct (List.filter q ps) as [|x k] eqn:E.
  - destruct (p_is_active p) eqn:Ha; [|done]. assert (p ∈ @nil Project) as []%not_elem_of_nil.
    rewrite <- E. apply elem_of_List_filter. split; [done|]. unfold q. by rewrite Hk, String.eqb_refl, Ha.
  - destruct (Hu x) as [-> ->]; [left|done].
Qed.

Lemma owner_stable c ps ps' : NoDup (map p_key ps) -> NoDup (map p_key ps') ->
  extends project_le ps ps' -> known ps c -> owner_of ps' c = owner_of ps c.
Proof.
  intros Hn Hn' He Hk. unfold owner_of. destruct (d_scope c) eqn:Es; [done..|].
  destruct (str_empty _) eqn:Ek; [done|]. pose proof (Hk Es Ek) as (p & Hpk & Hp)%list_elem_of_fmap.
  destruct (extends_elem _ _ _ _ He Hp) as (p' & Hp' & [Hi Hpk' _ Ha _]).
  rewrite (active_by_key _ ps p), (active_by_key _ ps' p') by (congruence || done). rewrite Ha.
  destruct (p_is_active p); by rewrite ?Hi.
Qed.

Lemma known_stable c ps ps' : extends project_le ps ps' -> known ps c -> known ps' c.
Proof.
  intros He Hk Es Ek. pose proof (Hk Es Ek) as (p & Hpk & Hp)%list_elem_of_fmap.
  destruct (extends_elem _ _ _ _ He Hp) as (p' & Hp' & [_ Hpk' _ _ _]). apply list_elem_of_fmap. exists p'. split; [congruence|done].
Qed.

(** ** Recorded evidence *)
Definition recorded (id : Z) (raw : list Evidence) (os : list FactObservation) : Prop :=
  forall e, e ∈ raw -> (str_empty (source_type e) || str_empty (source_ref e)) = false ->
  exists o, o ∈ os /\ same_source id (source_type e) (source_ref e) o = true.

Lemma recorded_prefix id raw os os' : os `prefix_of` os' -> recorded id raw os -> recorded id raw os'.
Proof.
  intros [k ->] H e He Hv. destruct (H e He Hv) as (o & Ho & Hs). exists o. split; [|done]. apply elem_of_app. by left.
Qed.

Lemma observations_record id raw : forall w n w', _add_observations gen id raw w = (Ok n, w') ->
  recorded id raw (observations (db w')).
Proof.
  induction raw as [|item raw IH]; intros w n w' H e He Hv; [by apply not_elem_of_nil in He|].
  cbn [_add_observations] in H. destruct (_ || _) eqn:Ei.
  { apply elem_of_cons in He as [->|He]; [congruence|]. by eapply IH. }
  assert (forall w1 n1, _add_observations gen id raw w1 = (Ok n1, w') ->
    (exists o, o ∈ observations (db w1) /\ same_source id (source_type item) (source_ref item) o = true) ->
    exists o, o ∈ observations (db w') /\ same_source id (source_type e) (source_ref e) o = true) as Hrest.
  { intros w1 n1 Hr (o & Ho & Hs). apply elem_of_cons in He as [->|He]; [|by eapply IH]. exists o. split; [|done].
    destruct (ev_observations _ _ (evolving_add_observations gen id raw _ _ _ Hr)) as [k ->]. apply elem_of_app. by left. }
  apply bind_Ok in H as (found & w1 & Hread & H). injection Hread as <- <-.
  apply bind_Ok in H as (ex & w1 & Hsc & H). destruct (List.filter _ _) as [|o k] eqn:E.
  - injection Hsc as <- <-. apply bind_Ok in H as (i & w1 & Hi & H). apply bind_Ok in H as ([] & w2 & Hins & H).
    apply bind_Ok in H as (added & w3 & Hadd & H). injection H as _ <-. eapply Hrest; [done|].
    unfold insert_observation in Hins. apply bind_Ok in Hins as (taken & w4 & Hr4 & Hins). injection Hr4 as _ <-.
    destruct taken; [done|]. injection Hins as <-. eexists. split.
    + cbn. apply elem_of_app. right. by apply list_elem_of_singleton.
    + unfold same_source. cbn. by rewrite Z.eqb_refl, !String.eqb_refl.
  - destruct k as [|o' k]; [|done]. injection Hsc as <- <-. eapply Hrest; [done|]. exists o.
    apply elem_of_List_filter. rewrite E. left.
Qed.

Lemma observations_noop id raw w : mem_ok gen w -> recorded id raw (observations (db w)) ->
  _add_observations gen id raw w = (Ok 0, w).
Proof.
  intros Hw. induction raw as [|item raw IH]; intros Hr; [done|]. cbn [_add_observations].
  assert (recorded id raw (observations (db w))) as Hr' by (intros e He; apply Hr; by right).
  destruct (_ || _) eqn:Ei; [by apply IH|]. destruct (Hr item) as (o & Ho & Hs); [left|done|].
  assert (mem_due gen id 0 w) as Hd by (by apply due_zero).
  rewrite (bind_run_Ok _ _ _ _ _ (eq_refl : read _ w = (Ok _, w))).
  rewrite (bind_run_Ok _ _ _ _ _ (scalar_run _ w (same_source_unique gen id 0 w _ _ Hd))).
  destruct (List.filter _ _) as [|x k] eqn:E; [|by apply IH].
  assert (o ∈ @nil FactObservation) as []%not_elem_of_nil. rewrite <- E. by apply elem_of_List_filter.
Qed.

(** ** Settled candidates *)
Definition settled (c : FactDTO) (w : World) : Prop :=
  let '(t, o, p) := owner_of (projects (db w)) c in
  (o = None /\ p = None) \/
  exists e, head (List.filter (is_same c t o p) (facts (db w))) = Some e /\
            recorded (f_id e) (evidence (d_metadata c)) (observations (db w)).

Lemma settled_stable c w w' : mem_ok gen w -> mem_ok gen w' -> known (projects (db w)) c ->
  steady w w' -> evolving w w' -> settled c w -> settled c w'.
Proof.
  intros Hw Hw' Hk Hs [_ Ho Hp] H. unfold settled in *.
  rewrite (owner_stable c (projects (db w)) (projects (db w'))); [|apply Hw|apply Hw'|done..].
  destruct (owner_of (projects (db w)) c) as [[t o] p]. destruct H as [H|(e & He & Hr)]; [by left|right].
  destruct (found_steady c t o p w w' e Hs He) as (e' & He' & Hc). exists e'. split; [done|]. rewrite Hc.
  by eapply recorded_prefix.
Qed.

(** Nothing to do the second time *)
Lemma apply_settled c w : mem_ok gen w -> settled c w -> apply_one c w = (Ok [], w).
Proof.
  intros Hw Hs. unfold apply_candidate. rewrite (bind_run_Ok _ _ _ _ _ (owner_run c w Hw)). unfold settled in Hs.
  destruct (owner_of _ _) as [[t o] p]. destruct Hs as [[-> ->]|(e & He & Hr)]; [done|].
  destruct (bool_decide _ && bool_decide _); [done|].
  assert (find_or_create gen UUID c t o p tenant false w = (Ok (e, false), w)) as Ef.
  { unfold find_or_create. rewrite (bind_run_Ok _ _ _ _ _ (find_same_run c t o p w)), He. done. }
  rewrite (bind_run_Ok _ _ _ _ _ Ef). by rewrite (bind_run_Ok _ _ _ _ _ (observations_noop _ _ _ Hw Hr)).
Qed.

Lemma new_fact_same c t o p i : is_same c t o p (new_fact i c t o p tenant false) = true.
Proof.
  unfold is_same, same_owner, active. destruct p; rewrite !andb_true_iff, String.eqb_eq, !bool_decide_eq_true; done.
Qed.

Lemma find_or_create_found c t o p w e b w' : keeps_rows c ->
  find_or_create gen UUID c t o p tenant false w = (Ok (e, b), w') ->
  exists e', head (List.filter (is_same c t o p) (facts (db w'))) = Some e' /\ columns e' = columns e.
Proof.
  unfold find_or_create, keeps_rows. intros Hc. rewrite (bind_run_Ok _ _ _ _ _ (find_same_run c t o p w)).
  destruct (head _) as [e0|] eqn:E; [intros [= <- _ <-]; by exists e0|]. intros H.
  apply bind_Ok in H as (i & w1 & Hi & H). injection Hi as _ <-. apply bind_Ok in H as ([] & w2 & Hins & H).
  rewrite Hc in H. apply bind_Ok in H as ([] & w3 & Hn & H). injection Hn as <-. injection H as <- _ <-.
  apply bind_Ok in Hins as (ids & w4 & Hr & Hins). injection Hr as _ <-. destruct (bool_decide _); [done|]. injection Hins as <-.
  cbn [db with_facts facts]. rewrite List.filter_app. cbn in E. destruct (List.filter _ (facts (db w))); [|done].
  cbn [List.filter app]. rewrite new_fact_same. by eexists.
Qed.

Lemma apply_settles c w r w' : keeps_rows c -> mem_ok gen w -> mem_ok gen w' -> known (projects (db w)) c ->
  apply_one c w = (Ok r, w') -> settled c w'.
Proof.
  intros Hc Hw Hw' Hk H. pose proof (evolving_apply_candidate clock gen UUID _ _ _ _ _ _ _ H) as [_ _ Hp].
  unfold settled. rewrite (owner_stable c (projects (db w)) (projects (db w'))); [|apply Hw|apply Hw'|done..].
  unfold apply_candidate in H. rewrite (bind_run_Ok _ _ _ _ _ (owner_run c w Hw)) in H.
  destruct (owner_of _ _) as [[t o] p]. destruct (bool_decide _ && bool_decide _) eqn:E.
  { left. by rewrite andb_true_iff, !bool_decide_eq_true in E. }
  right. apply bind_Ok in H as ([e b] & w1 & Hf & H). apply bind_Ok in H as (n & w2 & Ho & H).
  destruct (find_or_create_found _ _ _ _ _ _ _ _ Hc Hf) as (e1 & He1 & Hc1).
  assert (steady w1 w') as Hs by (etrans; [by eapply steady_add_observations|by eapply steady_count_evidence]).
  destruct (found_steady _ _ _ _ _ _ _ Hs He1) as (e2 & He2 & Hc2). exists e2. split; [done|]. rewrite Hc2, Hc1.
  eapply recorded_prefix; [|by eapply observations_record].
  eapply (ev_observations _ _ (evolving_count_evidence clock false c e b n (add_observations_nonneg _ _ _ _ _ _ Ho) _ _ _ H)).
Qed.

(** ** The loops *)
Context `{!Inj (=) (=) gen}.

Lemma ensure_project_known c w w' : mem_ok gen w -> ensure_project gen c w = (Ok tt, w') ->
  mem_ok gen w' /\ known (projects (db w')) c.
Proof.
  intros Hw H. split.
  { destruct (ensure_project_runs gen c w Hw) as (u & w2 & E & Hw2). rewrite H in E. by simplify_eq. }
  intros Es Ek. unfold ensure_project in H. rewrite bool_decide_true, Ek in H by done. simpl in H.
  rewrite (bind_run_Ok _ _ _ _ _ (eq_refl : read _ w = (Ok _, w))) in H.
  rewrite (bind_run_Ok _ _ _ _ _ (scalar_run _ w (one_key gen (candidate_key (d_metadata c)) w Hw))) in H.
  destruct (List.filter _ _) as [|p k] eqn:E; cbn [head hd_error] in H.
  - apply bind_Ok in H as (i & w1 & Hi & H). injection Hi as _ <-. unfold insert_project in H.
    apply bind_Ok in H as (taken & w2 & Hr & H). injection Hr as _ <-. destruct taken; [done|]. injection H as <-.
    cbn. rewrite map_app. apply elem_of_app. right. by apply list_elem_of_singleton.
  - injection H as <-. assert (p ∈ p :: k) as Hp by left. rewrite <- E in Hp.
    apply elem_of_List_filter in Hp as [Hp <-%String.eqb_eq]. by apply list_elem_of_fmap_2.
Qed.

Lemma ensured_known l : forall w w', mem_ok gen w -> ensure_projects gen l w = (Ok tt, w') ->
  mem_ok gen w' /\ forall c, c ∈ l -> known (projects (db w')) c.
Proof.
  induction l as [|x l IH]; intros w w' Hw H; [injection H as <-; split; [done|]; by intros c ?%not_elem_of_nil|].
  apply bind_Ok in H as ([] & w1 & Hx & H). destruct (ensure_project_known x w w1 Hw Hx) as [Hw1 Hk].
  destruct (IH w1 w' Hw1 H) as [Hw' Hl]. split; [done|]. intros c [->|Hc]%elem_of_cons; [|by apply Hl].
  apply (known_stable x (projects (db w1))); [apply (evolving_ensure_projects gen l _ _ _ H)|done].
Qed.

Lemma ensured_noop l w : mem_ok gen w -> (forall c, c ∈ l -> known (projects (db w)) c) ->
  ensure_projects gen l w = (Ok tt, w).
Proof.
  intros Hw. induction l as [|x l IH]; intros Hk; [done|]. unfold ensure_projects. cbn [for_each].
  rewrite (bind_run_Ok _ _ w tt w); [apply IH; intros c Hc; apply Hk; by right|].
  assert (known (projects (db w)) x) as Hx by (apply Hk; left). unfold ensure_project.
  destruct (_ || _) eqn:E; [done|]. apply orb_false_iff in E as [Es%negb_false_iff%bool_decide_eq_true Ek].
  pose proof (Hx Es Ek) as (p & Hpk & Hp)%list_elem_of_fmap.
  rewrite (bind_run_Ok _ _ _ _ _ (eq_refl : read _ w = (Ok _, w))).
  rewrite (bind_run_Ok _ _ _ _ _ (scalar_run _ w (one_key gen (candidate_key (d_metadata x)) w Hw))).
  destruct (List.filter _ _) as [|q k] eqn:E; [|done]. assert (p ∈ @nil Project) as []%not_elem_of_nil.
  rewrite <- E. apply elem_of_List_filter. split; [done|]. by apply String.eqb_eq.
Qed.

Definition replayable (c : FactDTO) : Prop := keeps_rows c /\ marks_projects c.

Lemma loop_settles l : forall w r w', mem_ok gen w -> Forall replayable l ->
  (forall c, c ∈ l -> known (projects (db w)) c) -> map_call apply_one l w = (Ok r, w') ->
  mem_ok gen w' /\ steady w w' /\ evolving w w' /\ forall c, c ∈ l -> settled c w'.
Proof.
  induction l as [|x l IH]; intros w r w' Hw Hl Hk H.
  { injection H as _ <-. split_and!; [done|reflexivity|reflexivity|]. by intros c ?%not_elem_of_nil. }
  apply Forall_cons in Hl as [[Hx Hm] Hl]. cbn [map_call] in H. apply bind_Ok in H as (y & w1 & E & H).
  apply bind_Ok in H as (ys & w2 & Hr & H). injection H as _ <-.
  assert (mem_ok gen w1) as Hw1.
  { destruct (apply_candidate_runs clock gen UUID user_id tenant x Hm w Hw) as (a & w3 & E3 & Hw3).
    rewrite E in E3. by simplify_eq. }
  pose proof (evolving_apply_candidate clock gen UUID _ _ _ _ _ _ _ E) as He.
  pose proof (steady_apply_one x Hx _ _ _ E) as Hs.
  assert (forall c, c ∈ x :: l -> known (projects (db w1)) c) as Hk1 by
    (intros c Hc; apply (known_stable c (projects (db w))); [apply He|by apply Hk]).
  destruct (IH w1 ys w2 Hw1 Hl) as (Hw2 & Hs2 & He2 & Hset); [intros c Hc; apply Hk1; by right|done|].
  split_and!; [done|by etrans|by etrans|]. intros c [->|Hc]%elem_of_cons; [|by apply Hset].
  apply (settled_stable x w1 w2); [done|done|apply Hk1; left|done|done|].
  apply (apply_settles x w y w1); [done..|apply Hk; left|done].
Qed.

Lemma loop_noop l w : mem_ok gen w -> (forall c, c ∈ l -> settled c w) ->
  map_call apply_one l w = (Ok (map (fun _ => []) l), w).
Proof.
  intros Hw. induction l as [|x l IH]; intros Hs; [done|]. cbn [map_call map].
  rewrite (bind_run_Ok _ _ _ _ _ (apply_settled x w Hw (Hs x (list_elem_of_here _ _)))).
  rewrite (bind_run_Ok _ _ _ _ _ (IH (fun c Hc => Hs c (list_elem_of_further _ _ _ Hc)))). done.
Qed.

Lemma concat_nils {A B} (l : list A) : concat (map (fun _ => @nil B) l) = [].
Proof. by induction l. Qed.

Lemma replay l w r w' : mem_ok gen w -> Forall replayable l ->
  apply_with_changes clock gen UUID l user_id tenant false w = (Ok r, w') ->
  apply_with_changes clock gen UUID l user_id tenant false w' = (Ok [], w').
Proof.
  intros Hw Hl H. unfold apply_with_changes in *. apply bind_Ok in H as ([] & w1 & He & H).
  apply bind_Ok in H as (rs & w2 & Hm & H). injection H as _ <-.
  destruct (ensured_known l w w1 Hw He) as [Hw1 Hk]. destruct (loop_settles l w1 rs w2 Hw1 Hl Hk Hm) as (Hw2 & _ & Hev & Hs).
  assert (forall c, c ∈ l -> known (projects (db w2)) c) as Hk2 by
    (intros c Hc; apply (known_stable c (projects (db w1))); [apply Hev|by apply Hk]).
  rewrite (bind_run_Ok _ _ _ _ _ (ensured_noop l w2 Hw2 Hk2)).
  rewrite (bind_run_Ok _ _ _ _ _ (loop_noop l w2 Hw2 Hs)). by rewrite concat_nils.
Qed.
End Replay.
