(* ===== verification/FactExtractor.v ===== *)
(** * Candidates: extraction and compaction

    runtime/memory/fact_extractor.py (what the code keeps of a model's answer) and
    runtime/memory/fact_compactor.py (merging of candidates).  The answers of the
    model are arguments; an answer of [None] is a call that raised. *)
From S2P Require Import Prelude.
From S2P Require Import Facts.
From S2P Require Import FactServices.
From S2P Require Import FactReconciler.
From Stdlib Require Import QArith.QArith_base.
Open Scope Z_scope.

(** ** FactExtractor *)
Record LLMFactCandidate := {
  l_scope : string;
  l_subject : string;
  l_value : string;
  l_confidence : Q;
  l_kind : string;
  l_project_key : option string;
  l_project_aliases : list string;
  l_aliases : list string;
  l_evidence_source_ids : list string
}.

(** The limits of an extraction *)
Record FactPolicy := {
  max_facts_per_turn : Z;
  max_subject_len : Z;
  max_value_len : Z;
  confidence_min : Q;
  max_value_words : Z
}.

Definition default_policy : FactPolicy :=
  {| max_facts_per_turn := 8; max_subject_len := 200; max_value_len := 500; confidence_min := 6 # 10;
     max_value_words := 24 |}.

(** [isinstance(val, int)]: a bool is an int. *)
Definition json_int (j : json) : option Z :=
  match j with JInt z => Some z | JBool b => Some (if b then 1 else 0) | _ => None end.
Definition json_number (j : json) : option Q :=
  match j with
  | JInt z => Some (inject_Z z)
  | JBool b => Some (if b then 1%Q else 0%Q)
  | JFloat m e => Some (if 0 <=? e then inject_Z (m * 2 ^ e) else m # Z.to_pos (2 ^ (- e)))
  | _ => None
  end.

Definition clamp01 (q : Q) : Q := q_max 0 (q_min 1 q).

Definition get_key (k : string) (j : json) : option json := match j with JObj l => od_get k l | _ => None end.

Definition positive_setting (k : string) (old : Z) (j : json) : Z :=
  match get_key k j ≫= json_int with Some z => if bool_decide (0 < z) then z else old | None => old end.

(** One source of settings over the ones before it *)
Definition override_policy (p : FactPolicy) (source : json) : FactPolicy :=
  match source with
  | JObj _ =>
      {| max_facts_per_turn := positive_setting "max_facts_per_turn" (max_facts_per_turn p) source;
         max_subject_len := positive_setting "max_subject_len" (max_subject_len p) source;
         max_value_len := positive_setting "max_value_len" (max_value_len p) source;
         max_value_words := positive_setting "max_value_words" (max_value_words p) source;
         confidence_min := match get_key "confidence_min" source ≫= json_number with
                           | Some q => clamp01 q
                           | None => confidence_min p
                           end |}
  | _ => p
  end.

Definition _resolve_fact_policy (role_extras sandbox_overrides : json) : FactPolicy :=
  foldl override_policy default_policy
    [role_extras; default JNull (get_key "memory" sandbox_overrides);
     default JNull (get_key "fact_extractor" sandbox_overrides)].

Definition _normalize_subject (subj : string) : string :=
  let normalized := squash (lower_ru (strip subj)) in
  if str_in normalized ["имя"; "name"; "user name"; "username"; "имя пользователя"] then "name"
  else if str_in normalized ["email"; "почта"; "e-mail"; "mail"] then "email"
  else if str_in normalized ["язык"; "language"; "lang"] then "language"
  else normalized.

Fixpoint all_digits (s : string) : bool :=
  match s with
  | EmptyString => true
  | String c s' => bool_decide (48 <= Ascii.nat_of_ascii c <= 57)%nat && all_digits s'
  end.

Definition newline : string := String (char 10) EmptyString.

Definition _looks_ephemeral (subj val : string) (max_words : Z) : bool :=
  let stripped := strip val in
  str_empty stripped || str_contains newline stripped || bool_decide (max_words < Z.of_nat (length (split stripped))) ||
  (negb (str_empty stripped) && all_digits stripped &&
   existsb (fun h => str_contains h subj) ["count"; "количество"; "сколько"; "total"; "число"]).

Definition is_user_message (e : Evidence) : bool := String.eqb (source_type e) "user_message".

Definition _matching_evidence (requested_ids : list string) (subj val user_message : string) (ev : list Evidence) :
    list Evidence :=
  let requested := List.filter (fun s => negb (str_empty s)) (map strip requested_ids) in
  let pool := List.filter (fun e => match requested with [] => true | _ => str_in (source_id e) requested end) ev in
  let value_words := List.filter (fun w => Nat.ltb 2 (String.length w)) (split (lower_ru val)) in
  let supports (e : Evidence) :=
    let haystack := lower_ru (text e) in
    str_contains (lower_ru val) haystack || str_contains (lower_ru subj) haystack ||
    match value_words with
    | [] => false
    | _ => Nat.leb (Nat.max 1 (Nat.div (length value_words) 2))
                   (length (List.filter (fun w => str_contains w haystack) value_words))
    end in
  match List.filter supports pool with
  | [] => if negb (str_empty user_message) &&
             (str_contains (lower_ru val) (lower_ru user_message) || str_contains (lower_ru subj) (lower_ru user_message))
          then take 1 (List.filter is_user_message ev) else []
  | matched => matched
  end.

Fixpoint dedupe_aliases (n : nat) (seen : list string) (raw : list string) : list string :=
  match raw with
  | [] => []
  | r :: raw' =>
      let alias := clean_alias n r in
      if str_empty alias || str_in (lower_ru alias) seen then dedupe_aliases n seen raw'
      else alias :: dedupe_aliases n (lower_ru alias :: seen) raw'
  end.

Definition _normalize_project_aliases (raw : list string) : list string := dedupe_aliases 120 [] (take 8 raw).

Definition _has_grounded_glossary_evidence (ev : list Evidence) : bool :=
  existsb (fun e => String.eqb (source_type e) "tool_result" &&
                    str_in (strip (or_str (label e) "")) ["collection.document.search"; "collection.table.search"] &&
                    negb (str_empty (strip (or_str (support_ref e) (source_ref e))))) ev.

Definition scope_of_string (s : string) : option FactScope :=
  if String.eqb s "user" then Some USER else if String.eqb s "tenant" then Some TENANT
  else if String.eqb s "project" then Some PROJECT else None.

(** A DTO built without an identifier and without a date *)
Record Draft := {
  r_scope : FactScope; r_subject : string; r_value : string; r_source : FactSource; r_tenant_id : option Z;
  r_project_id : option Z; r_owner_type : option string; r_owner_id : option Z; r_kind : string;
  r_metadata : Metadata; r_confidence : Q
}.

Definition no_owner (s : FactScope) (subj val : string) (src : FactSource) (tenant : option Z) (k : string) (m : Metadata)
    (c : Q) : Draft :=
  {| r_scope := s; r_subject := subj; r_value := val; r_source := src; r_tenant_id := tenant; r_project_id := None;
     r_owner_type := None; r_owner_id := None; r_kind := k; r_metadata := m; r_confidence := c |}.

(** The body of the loop of [_to_dtos], [continue] as [None] *)
Definition _to_dto (p : FactPolicy) (user_message : string) (ev : list Evidence) (user_id tenant : option Z)
    (cand : LLMFactCandidate) : option Draft :=
  s ← scope_of_string (lower_ru (strip (l_scope cand)));
  let subj := str_take (Z.to_nat (max_subject_len p)) (strip (l_subject cand)) in
  let val := str_take (Z.to_nat (max_value_len p)) (strip (l_value cand)) in
  let knd := lower_ru (strip (if str_empty (l_kind cand) then "fact" else l_kind cand)) in
  let conf := clamp01 (l_confidence cand) in
  if str_empty subj || str_empty val || (bool_decide (s = USER) && bool_decide (user_id = None)) ||
     (bool_decide (s = TENANT) && bool_decide (tenant = None)) || negb (str_in knd ["fact"; "glossary"]) ||
     (String.eqb knd "glossary" && bool_decide (s = PROJECT)) || negb (Qle_bool (confidence_min p) conf)
  then None
  else
    let subj := _normalize_subject subj in
    if str_empty subj || _looks_ephemeral subj val (max_value_words p) then None
    else
      let matched := _matching_evidence (l_evidence_source_ids cand) subj val user_message ev in
      match matched with
      | [] => None
      | first :: _ =>
          if (bool_decide (s = USER) && negb (existsb is_user_message matched)) || bool_decide (s = PROJECT) then None
          else Some (no_owner s subj val (if is_user_message first then USER_UTTERANCE else TOOL_RESULT) tenant knd
            {| project_key := some_str (lower_ru (strip (or_str (l_project_key cand) "")));
               project_aliases := _normalize_project_aliases (l_project_aliases cand);
               aliases := _normalize_project_aliases (l_aliases cand); evidence := matched;
               glossary_scope := if String.eqb knd "glossary" && _has_grounded_glossary_evidence matched
                                 then Some "global" else None;
               compaction_action := None; compaction_target_ids := []; project_memory_marked := false |} conf)
      end.

Section Candidates.
Variables (clock gen : nat -> Z) (uuid_str : Z -> string).

Definition new_dto (d : Draft) : call FactDTO :=
  at_ ← now clock;
  id ← uuid4 gen;
  mret {| d_scope := r_scope d; d_subject := r_subject d; d_value := r_value d; d_source := r_source d;
          d_tenant_id := r_tenant_id d; d_project_id := r_project_id d; d_owner_type := r_owner_type d;
          d_owner_id := r_owner_id d; d_kind := r_kind d; d_metadata := r_metadata d; d_confidence := r_confidence d;
          d_source_ref := None; d_observed_at := at_; d_id := id; d_superseded_by := None; d_user_visible := true;
          d_status := PENDING; d_support_count := 0; d_first_confirmed_at := None; d_last_confirmed_at := None;
          d_revision := 1 |}.

Definition _to_dtos (p : FactPolicy) (out : list LLMFactCandidate) (user_message : string) (ev : list Evidence)
    (user_id tenant : option Z) : call (list FactDTO) :=
  map_call new_dto (omap (_to_dto p user_message ev user_id tenant) (take (Z.to_nat (max_facts_per_turn p)) out)).

(** [extract]; [out] is what the model answered *)
Definition extract (role_extras sandbox_overrides : json) (out : option (list LLMFactCandidate)) (user_message : string)
    (ev : list Evidence) (user_id tenant chat_id : option Z) : call (list FactDTO) :=
  let effective :=
    match ev with
    | [] => if str_empty (strip user_message) then []
            else [{| source_id := "user_message"; source_type := "user_message";
                     source_ref := match chat_id with Some c => uuid_str c | None => "request" end;
                     text := user_message; label := None; support_ref := None |}]
    | _ => ev
    end in
  match out with
  | None => mret []
  | Some l => _to_dtos (_resolve_fact_policy role_extras sandbox_overrides) l user_message effective user_id tenant
  end.
End Candidates.
