(* ===== verification/FactCompactor.v ===== *)
(** * FactCompactor

    runtime/memory/fact_compactor.py: candidates that repeat a current fact only add
    evidence, the others are merged as the model says; what the model leaves out
    goes through unchanged. *)
From S2P Require Import Prelude.
From S2P Require Import Facts.
From S2P Require Import FactServices.
From S2P Require Import FactReconciler.
From S2P Require Import FactExtractor.
From Stdlib Require Import QArith.QArith_base.
Open Scope Z_scope.

(** One fact of the model's answer; the action is a Literal. *)
Record CompactedFact := {
  k_scope : string;
  k_subject : string;
  k_value : string;
  k_source_candidate_indexes : list Z;
  k_action : string;
  k_target_current_indexes : list Z
}.

Definition compaction_actions : list string := ["add"; "rewrite"; "merge"; "supersede"; "mark_conflict"; "discard"].

(** [0 <= index < len(l)] *)
Definition in_range {A} (l : list A) (i : Z) : bool := bool_decide (0 <= i < Z.of_nat (length l)).
Definition nth_of {A} (l : list A) (i : Z) : option A := if in_range l i then l !! Z.to_nat i else None.

(** Exact matches of a user's or a department's current fact *)
Definition norm_text (s : string) : string := squash (lower_ru s).
Definition repeats (candidate current : FactDTO) : bool :=
  bool_decide (d_scope current = d_scope candidate) && String.eqb (d_kind current) (d_kind candidate) &&
  String.eqb (d_subject current) (d_subject candidate) &&
  String.eqb (norm_text (d_value current)) (norm_text (d_value candidate)).
Definition is_exact (current : list FactDTO) (candidate : FactDTO) : bool :=
  bool_decide (d_scope candidate ∈ [USER; TENANT]) && existsb (repeats candidate) current.

Definition evidence_key (e : Evidence) : string * string := (source_type e, source_ref e).

Fixpoint merge_evidence (seen : list (string * string)) (raw : list Evidence) : list Evidence :=
  match raw with
  | [] => []
  | e :: raw' =>
      if str_empty (source_type e) || str_empty (source_ref e) || bool_decide (evidence_key e ∈ seen)
      then merge_evidence seen raw'
      else e :: merge_evidence (evidence_key e :: seen) raw'
  end.

Definition max_confidence (first : FactDTO) (others : list FactDTO) : Q :=
  foldl (fun acc c => q_max acc (d_confidence c)) (d_confidence first) others.

Section Compactor.
Variables (clock gen : nat -> Z) (uuid_str : Z -> string).

(** The metadata of a merged candidate *)
Definition merged_metadata (base : FactDTO) (matches current : list FactDTO) (output : CompactedFact) : Metadata :=
  {| project_key := project_key (d_metadata base);
     project_aliases := dedupe_aliases 120 [] (concat (map (fun m => project_aliases (d_metadata m)) matches));
     aliases := dedupe_aliases 120 [] (concat (map (fun m => aliases (d_metadata m)) matches));
     evidence := merge_evidence [] (concat (map (fun m => evidence (d_metadata m)) matches));
     glossary_scope := glossary_scope (d_metadata base);
     compaction_action := Some (k_action output);
     compaction_target_ids := map (fun f => uuid_str (d_id f)) (omap (nth_of current) (k_target_current_indexes output));
     project_memory_marked := project_memory_marked (d_metadata base) |}.

Definition merged_draft (base : FactDTO) (matches current : list FactDTO) (output : CompactedFact) : Draft :=
  {| r_scope := d_scope base;
     r_subject := or_str (some_str (str_take 200 (lower_ru (strip (k_subject output))))) (d_subject base);
     r_value := or_str (some_str (str_take 500 (strip (k_value output)))) (d_value base);
     r_source := d_source base; r_tenant_id := d_tenant_id base; r_project_id := d_project_id base;
     r_owner_type := d_owner_type base; r_owner_id := d_owner_id base; r_kind := d_kind base;
     r_metadata := merged_metadata base matches current output;
     r_confidence := max_confidence base (drop 1 matches) |}.

Definition compact_one (semantic current : list FactDTO) (output : CompactedFact) : option Draft :=
  match omap (nth_of semantic) (k_source_candidate_indexes output) with
  | [] => None
  | (base :: _) as matches =>
      if String.eqb (k_action output) "discard" then None else Some (merged_draft base matches current output)
  end.

(** [represented_candidate_indexes] *)
Definition represented (semantic : list FactDTO) (outputs : list CompactedFact) : list Z :=
  concat (map (fun o => List.filter (in_range semantic) (k_source_candidate_indexes o)) outputs).

Definition untouched (semantic : list FactDTO) (outputs : list CompactedFact) : list FactDTO :=
  map snd (List.filter (fun p => negb (bool_decide (Z.of_nat p.1 ∈ represented semantic outputs)))
                       (zip (seq 0 (length semantic)) semantic)).

(** [compact]; [out] is what the model answered *)
Definition compact (out : option (list CompactedFact)) (candidates current : list FactDTO) : call (list FactDTO) :=
  match candidates with
  | [] => mret []
  | _ =>
      let exact := List.filter (is_exact current) candidates in
      let semantic := List.filter (fun c => negb (is_exact current c)) candidates in
      match semantic, out with
      | [], _ => mret exact
      | _, None => mret (exact ++ semantic)
      | _, Some outputs =>
          compacted ← map_call (new_dto clock gen) (omap (compact_one semantic current) outputs);
          mret (exact ++ compacted ++ untouched semantic outputs)
      end
  end.
End Compactor.

(** ** Theorems *)

Definition valid_evidence (e : Evidence) : bool := negb (str_empty (source_type e) || str_empty (source_ref e)).

Lemma merge_evidence_valid seen raw e : e ∈ merge_evidence seen raw -> e ∈ raw /\ valid_evidence e = true /\ evidence_key e ∉ seen.
Proof.
  revert seen. induction raw as [|x raw IH]; intros seen; simpl; [by intros ?%not_elem_of_nil|].
  destruct (_ || _ || _) eqn:E.
  - intros He. destruct (IH _ He) as (? & ? & ?). split_and!; [by right|done|done].
  - apply orb_false_iff in E as [Ev Es%bool_decide_eq_false]. intros [->|He]%elem_of_cons.
    + split_and!; [left| |done]. unfold valid_evidence. by rewrite Ev.
    + destruct (IH _ He) as (? & ? & Hk). split_and!; [by right|done|]. intros Hs. apply Hk. by right.
Qed.

Lemma merge_evidence_nodup seen raw : NoDup (map evidence_key (merge_evidence seen raw)).
Proof.
  revert seen. induction raw as [|x raw IH]; intros seen; simpl; [constructor|].
  destruct (_ || _ || _); [apply IH|]. simpl. constructor; [|apply IH].
  intros (e & Ee & He)%list_elem_of_fmap. apply merge_evidence_valid in He as (_ & _ & Hn). apply Hn. rewrite Ee. left.
Qed.

Lemma merge_evidence_complete seen raw e : e ∈ raw -> valid_evidence e = true ->
  evidence_key e ∈ seen \/ evidence_key e ∈ map evidence_key (merge_evidence seen raw).
Proof.
  revert seen. induction raw as [|x raw IH]; intros seen; [by intros ?%not_elem_of_nil|].
  intros [->|He]%elem_of_cons Hv; simpl.
  - unfold valid_evidence in Hv. apply negb_true_iff in Hv. rewrite Hv. simpl. case_bool_decide; [by left|right].
    simpl. left.
  - destruct (_ || _ || _); [by apply IH|]. simpl. destruct (IH (evidence_key x :: seen) He Hv) as [[->|?]%elem_of_cons|?].
    + right. left.
    + by left.
    + right. by right.
Qed.

Lemma nth_of_elem {A} (l : list A) i x : nth_of l i = Some x -> x ∈ l /\ in_range l i = true.
Proof. unfold nth_of. destruct (in_range l i); [|done]. intros H. split; [by eapply list_elem_of_lookup_2|done]. Qed.

(** ** The drafts become DTOs one for one. *)
Definition dto_of (d : Draft) (x : FactDTO) : Prop :=
  d_scope x = r_scope d /\ d_metadata x = r_metadata d /\ d_kind x = r_kind d /\ d_subject x = r_subject d /\
  d_value x = r_value d.

Lemma new_dtos clock gen l : forall w r w', map_call (new_dto clock gen) l w = (Ok r, w') ->
  Forall2 dto_of l r /\ facts (db w') = facts (db w) /\ (uuids w <= uuids w')%nat.
Proof.
  induction l as [|d l IH]; intros w r w' H; cbn [map_call] in H; [injection H as <- <-; by split_and!|].
  apply bind_Ok in H as (x & w1 & Hx & H). apply bind_Ok in H as (xs & w2 & Hl & H). injection H as <- <-.
  injection Hx as <- <-. apply IH in Hl as (H2 & Hf & Hu). cbn in *. split_and!; [by constructor|done|lia].
Qed.

(** ** What becomes of a candidate *)
Section Kept.
Variables (clock gen : nat -> Z) (uuid_str : Z -> string).

(** The model named the candidate in an answer that discards, or that was written
    with all its evidence. *)
Definition accounted (c : FactDTO) (semantic : list FactDTO) (outputs : list CompactedFact) (r : list FactDTO) : Prop :=
  exists o i, o ∈ outputs /\ i ∈ k_source_candidate_indexes o /\ nth_of semantic i = Some c /\
    (k_action o = "discard" \/
     exists x, x ∈ r /\ compaction_action (d_metadata x) = Some (k_action o) /\
       forall e, e ∈ evidence (d_metadata c) -> valid_evidence e = true ->
                 evidence_key e ∈ map evidence_key (evidence (d_metadata x))).

Lemma untouched_elem semantic outputs i c : nth_of semantic i = Some c -> i ∉ represented semantic outputs ->
  c ∈ untouched semantic outputs.
Proof.
  unfold nth_of, untouched. destruct (in_range semantic i) eqn:E; [|done]. intros Hc Hi.
  apply bool_decide_eq_true in E. apply list_elem_of_fmap. exists (Z.to_nat i, c). split; [done|].
  apply elem_of_List_filter. split; [|by rewrite bool_decide_false by (simpl; by rewrite Z2Nat.id by lia)].
  apply (list_elem_of_lookup_2 _ (Z.to_nat i)). rewrite lookup_zip_with, lookup_seq_lt by lia. cbn. by rewrite Hc.
Qed.

Lemma omap_elem {A B} (f : A -> option B) (l : list A) x y : x ∈ l -> f x = Some y -> y ∈ omap f l.
Proof. intros Hx Hf. apply list_elem_of_omap. by exists x. Qed.

Lemma compact_one_accounts semantic current o i c : i ∈ k_source_candidate_indexes o -> nth_of semantic i = Some c ->
  k_action o = "discard" \/
  exists d, compact_one uuid_str semantic current o = Some d /\ compaction_action (r_metadata d) = Some (k_action o) /\
    forall e, e ∈ evidence (d_metadata c) -> valid_evidence e = true ->
              evidence_key e ∈ map evidence_key (evidence (r_metadata d)).
Proof.
  intros Hi Hc. unfold compact_one. pose proof (omap_elem (nth_of semantic) _ _ _ Hi Hc) as Hm.
  destruct (omap _ _) as [|base ms] eqn:E; [by apply not_elem_of_nil in Hm|].
  destruct (String.eqb_spec (k_action o) "discard"); [by left|right]. eexists. split_and!; [done|done|].
  intros e He Hv.
  assert (e ∈ concat (map (fun m => evidence (d_metadata m)) (base :: ms))) as Hin.
  { apply list_elem_of_In, in_concat. exists (evidence (d_metadata c)).
    split; apply list_elem_of_In; [|done]. by apply (list_elem_of_fmap_2 (fun m => evidence (d_metadata m))). }
  by destruct (merge_evidence_complete [] _ e Hin Hv) as [?%not_elem_of_nil|?].
Qed.

(** Compaction loses no candidate: each one comes out as it is, or the model named it in an answer that discards it
    or that was turned into a fact carrying all its valid evidence. *)
Theorem compaction_loses_nothing out candidates current w r w' :
  compact clock gen uuid_str out candidates current w = (Ok r, w') ->
  forall c, c ∈ candidates -> c ∈ r \/
    exists outputs, out = Some outputs /\ accounted c (List.filter (fun c => negb (is_exact current c)) candidates) outputs r.
Proof.
  intros H c Hc. unfold compact in H. destruct candidates as [|c0 cs]; [by apply not_elem_of_nil in Hc|].
  set (all := c0 :: cs) in *. set (semantic := List.filter (fun c => negb (is_exact current c)) all) in *.
  destruct (is_exact current c) eqn:Ex.
  { assert (c ∈ List.filter (is_exact current) all) as Hin by (by apply elem_of_List_filter). left.
    destruct semantic; [by injection H as <- _|]. destruct out as [outputs|]; [|injection H as <- _; apply elem_of_app; by left].
    apply bind_Ok in H as (x & w1 & _ & H). injection H as <- _. apply elem_of_app. by left. }
  assert (c ∈ semantic) as Hin by (apply elem_of_List_filter; split; [done|]; by rewrite Ex).
  destruct semantic as [|s0 ss] eqn:Es; [by apply not_elem_of_nil in Hin|]. rewrite <- Es in *.
  destruct out as [outputs|]; [|left; injection H as <- _; apply elem_of_app; by right].
  apply bind_Ok in H as (compacted & w1 & Hd & H). injection H as <- _. apply new_dtos in Hd as (Hd & _).
  apply list_elem_of_lookup in Hin as [n Hn].
  assert (nth_of semantic (Z.of_nat n) = Some c) as Hnth.
  { unfold nth_of. pose proof (lookup_lt_Some _ _ _ Hn). unfold in_range. rewrite bool_decide_true by lia. by rewrite Nat2Z.id. }
  destruct (decide (Z.of_nat n ∈ represented semantic outputs)) as [Hr|Hr].
  2: { left. apply elem_of_app. right. apply elem_of_app. right. by eapply untouched_elem. }
  right. exists outputs. split; [done|]. unfold represented in Hr. apply list_elem_of_In, in_concat in Hr as (ix & Hix & Hn').
  apply list_elem_of_In in Hix, Hn'. apply list_elem_of_fmap in Hix as (o & -> & Ho). apply elem_of_List_filter in Hn' as [Hn' _].
  exists o, (Z.of_nat n). split_and!; [done..|].
  destruct (compact_one_accounts semantic current o (Z.of_nat n) c Hn' Hnth) as [?|(d & Hdo & Hda & He)]; [by left|right].
  assert (d ∈ omap (compact_one uuid_str semantic current) outputs) as Hdin by (by eapply omap_elem).
  apply list_elem_of_lookup in Hdin as [k Hk]. destruct (Forall2_lookup_l _ _ _ _ _ Hd Hk) as (x & Hx & (_ & Hm & _)).
  exists x. split_and!; [|by rewrite Hm|intros e Hee Hv; rewrite Hm; by apply He].
  apply elem_of_app. right. apply elem_of_app. left. by eapply list_elem_of_lookup_2.
Qed.
End Kept.
