(* ===== verification/Glossary.v ===== *)
(** * GlossaryReconciler

    runtime/memory/glossary_reconciler.py over models/glossary.py: terminology
    candidates, hidden until three distinct sources support them; and the creation
    of an entry by services/glossary_service.py. *)
From S2P Require Import Prelude.
From S2P Require Import Facts.
From S2P Require Import FactServices.
From S2P Require Import FactReconciler.
From S2P Require Import FactExtractor.
From Stdlib Require Import QArith.QArith_base.
Open Scope Z_scope.

Definition GLOSSARY_CONFIRMATION_SUPPORT : Z := 3.

Definition g_scope_str (s : GlossaryScope) : string :=
  match s with G_GLOBAL => "global" | G_USER => "user" | G_TENANT => "tenant" | G_PROJECT => "project" end.

(** Assignments to the attributes of an entry *)
Definition set_terms (al : list string) (descr : option string) (e : GlossaryEntry) : GlossaryEntry :=
  {| g_id := g_id e; g_scope := g_scope e; g_user_id := g_user_id e; g_tenant_id := g_tenant_id e;
     g_project_id := g_project_id e; g_term := g_term e; g_aliases := al; g_description := descr;
     g_is_active := g_is_active e; g_status := g_status e; g_support_count := g_support_count e;
     g_first_confirmed_at := g_first_confirmed_at e; g_last_confirmed_at := g_last_confirmed_at e |}.

(** [row.support_count += added], then the confirmation *)
Definition count_support (added at_ : Z) (e : GlossaryEntry) : GlossaryEntry :=
  let n := g_support_count e + added in
  let reached := negb (bool_decide (g_status e = G_CONFIRMED)) && bool_decide (GLOSSARY_CONFIRMATION_SUPPORT <= n) in
  let st := if reached then G_CONFIRMED else g_status e in
  {| g_id := g_id e; g_scope := g_scope e; g_user_id := g_user_id e; g_tenant_id := g_tenant_id e;
     g_project_id := g_project_id e; g_term := g_term e; g_aliases := g_aliases e; g_description := g_description e;
     g_is_active := g_is_active e; g_status := st; g_support_count := n;
     g_first_confirmed_at := if reached then Some (default at_ (g_first_confirmed_at e)) else g_first_confirmed_at e;
     g_last_confirmed_at := if bool_decide (st = G_CONFIRMED) then Some at_ else g_last_confirmed_at e |}.

Definition assign_entry (id : Z) (g : GlossaryEntry -> GlossaryEntry) : call unit :=
  write (with_glossary (map (fun e => if Z.eqb (g_id e) id then g e else e))).

Definition insert_entry (e : GlossaryEntry) : call unit :=
  taken ← read (fun d => existsb (fun x => Z.eqb (g_id x) (g_id e)) (glossary_entries d));
  if taken : bool then raise IntegrityError else write (with_glossary (fun l => l ++ [e])).

Definition same_term_source (entry : Z) (type ref : string) (o : GlossaryObservation) : bool :=
  Z.eqb (go_entry_id o) entry && String.eqb (go_source_type o) type && String.eqb (go_source_ref o) ref.

Definition insert_term_observation (o : GlossaryObservation) : call unit :=
  taken ← read (fun d => existsb (fun q => Z.eqb (go_id q) (go_id o) ||
                                           same_term_source (go_entry_id o) (go_source_type o) (go_source_ref o) q)
                                 (glossary_observations d));
  if taken : bool then raise IntegrityError else write (with_glossary_obs (fun l => l ++ [o])).

(** [_owner_for], [None] when the candidate has no owner *)
Definition term_owner (c : FactDTO) (user_id tenant : option Z) : option (GlossaryScope * option Z) :=
  if String.eqb (d_kind c) "glossary" && bool_decide (glossary_scope (d_metadata c) = Some "global")
  then Some (G_GLOBAL, None)
  else match d_scope c, user_id, tenant with
       | USER, Some u, _ => Some (G_USER, Some u)
       | TENANT, _, Some t => Some (G_TENANT, Some t)
       | _, _, _ => None
       end.

Definition _aliases (raw : list string) (canonical_term : string) : list string :=
  dedupe_aliases 255 [squash (lower_ru (strip canonical_term))] raw.

Definition _label (v : option string) : option string := some_str (str_take 255 (squash (strip (or_str v "")))).

(** The rows of [_find] *)
Definition is_term (s : GlossaryScope) (owner : option Z) (term : string) (e : GlossaryEntry) : bool :=
  bool_decide (g_scope e = s) && String.eqb (g_term e) term && g_is_active e &&
  match s with
  | G_USER => bool_decide (g_user_id e = owner)
  | G_TENANT => bool_decide (g_tenant_id e = owner)
  | _ => bool_decide (g_user_id e = None) && bool_decide (g_tenant_id e = None) && bool_decide (g_project_id e = None)
  end.

Section Glossary.
Variables (clock gen : nat -> Z).

Definition _find (s : GlossaryScope) (owner : option Z) (term : string) : call (option GlossaryEntry) :=
  rows ← read (fun d => List.filter (is_term s owner term) (glossary_entries d));
  mret (head rows).

Definition term_source (item : Evidence) : string * string :=
  (strip (source_type item), strip (or_str (support_ref item) (source_ref item))).

Fixpoint _add_term_observations (entry : Z) (raw : list Evidence) : call Z :=
  match raw with
  | [] => mret 0
  | item :: raw' =>
      let (type, ref) := term_source item in
      if str_empty type || str_empty ref then _add_term_observations entry raw'
      else
        found ← read (fun d => List.filter (same_term_source entry type ref) (glossary_observations d));
        exists_ ← scalar_one_or_none found;
        match exists_ with
        | Some _ => _add_term_observations entry raw'
        | None =>
            id ← uuid4 gen;
            _ ← insert_term_observation {| go_id := id; go_entry_id := entry; go_source_type := type;
                                           go_source_ref := ref; go_source_label := _label (label item) |};
            added ← _add_term_observations entry raw';
            mret (1 + added)
        end
  end.

(** The entry of a term: a pending row, or the found one with its aliases merged *)
Definition find_or_create_term (c : FactDTO) (s : GlossaryScope) (owner : option Z) : call GlossaryEntry :=
  found ← _find s owner (d_subject c);
  let al := _aliases (aliases (d_metadata c)) (d_subject c) in
  match found : option GlossaryEntry with
  | None =>
      id ← uuid4 gen;
      let row := {| g_id := id; g_scope := s; g_user_id := if bool_decide (s = G_USER) then owner else None;
                    g_tenant_id := if bool_decide (s = G_TENANT) then owner else None; g_project_id := None;
                    g_term := d_subject c; g_aliases := al; g_description := Some (d_value c); g_is_active := true;
                    g_status := G_PENDING; g_support_count := 0; g_first_confirmed_at := None;
                    g_last_confirmed_at := None |} in
      _ ← insert_entry row;
      mret row
  | Some row =>
      let merged := _aliases (g_aliases row ++ al) (g_term row) in
      let descr := if bool_decide (g_status row = G_CONFIRMED) then g_description row else Some (d_value c) in
      _ ← assign_entry (g_id row) (set_terms merged descr);
      mret row
  end.

(** One turn of the loop of [apply] *)
Definition apply_term (user_id tenant : option Z) (c : FactDTO) : call Z :=
  match term_owner c user_id tenant with
  | Some (s, owner) =>
      if negb (String.eqb (d_kind c) "glossary") || str_in (action_of (d_metadata c)) ["discard"; "mark_conflict"]
      then mret 0
      else
        row ← find_or_create_term c s owner;
        added ← _add_term_observations (g_id row) (evidence (d_metadata c));
        if Z.eqb added 0 then mret 0
        else
          at_ ← now clock;
          _ ← assign_entry (g_id row) (count_support added at_);
          mret 1
  | None => mret 0
  end.

Definition apply_terms (candidates : list FactDTO) (user_id tenant : option Z) : call Z :=
  changed ← map_call (apply_term user_id tenant) candidates;
  mret (foldl Z.add 0 changed).

(** [current_for]: what the compactor compares terminology with *)
Definition term_dto (tenant : option Z) (row : GlossaryEntry) : call FactDTO :=
  at_ ← now clock;
  mret {| d_scope := match g_scope row with G_USER => USER | G_PROJECT => PROJECT | _ => TENANT end;
          d_subject := g_term row; d_value := or_str (g_description row) (g_term row); d_source := SYSTEM;
          d_tenant_id := tenant; d_project_id := None; d_owner_type := Some (g_scope_str (g_scope row));
          d_owner_id := if bool_decide (g_scope row = G_USER) then g_user_id row else g_tenant_id row;
          d_kind := "glossary";
          d_metadata := {| project_key := None; project_aliases := []; aliases := g_aliases row; evidence := [];
                           glossary_scope := Some (g_scope_str (g_scope row)); compaction_action := None;
                           compaction_target_ids := []; project_memory_marked := false |};
          d_confidence := 1%Q; d_source_ref := None; d_observed_at := at_; d_id := g_id row; d_superseded_by := None;
          d_user_visible := true; d_status := PENDING; d_support_count := 0; d_first_confirmed_at := None;
          d_last_confirmed_at := None; d_revision := 1 |}.

Definition visible_term (user_id tenant : option Z) (e : GlossaryEntry) : bool :=
  g_is_active e && bool_decide (g_status e = G_CONFIRMED) &&
  (bool_decide (g_scope e = G_GLOBAL) ||
   (bool_decide (is_Some user_id) && bool_decide (g_scope e = G_USER) && bool_decide (g_user_id e = user_id)) ||
   (bool_decide (is_Some tenant) && bool_decide (g_scope e = G_TENANT) && bool_decide (g_tenant_id e = tenant))).

Definition current_terms (user_id tenant : option Z) : call (list FactDTO) :=
  rows ← read (fun d => List.filter (visible_term user_id tenant) (glossary_entries d));
  map_call (term_dto tenant) rows.

(** GlossaryService.create *)
Definition create_entry (s : GlossaryScope) (term : string) (al : list string) (descr : option string)
    (tenant project : option Z) : call GlossaryEntry :=
  id ← uuid4 gen;
  let row := {| g_id := id; g_scope := s; g_user_id := None; g_tenant_id := tenant; g_project_id := project;
                g_term := term; g_aliases := al; g_description := descr; g_is_active := true; g_status := G_CONFIRMED;
                g_support_count := 3; g_first_confirmed_at := None; g_last_confirmed_at := None |} in
  _ ← insert_entry row;
  mret row.
End Glossary.
