(* ===== verification/FactOverlays.v ===== *)
(** * Sandbox overlays

    runtime/memory/sandbox_overlays.py: a branch of the sandbox keeps its own facts as
    a delta over the durable ones, a JSON object {scope: {subject: entry}}.  [float()],
    [str()] and the JSON of a float are arguments; [None] is the ValueError or
    TypeError that a malformed entry raises. *)
From S2P Require Import Prelude.
From S2P Require Import Facts.
From S2P Require Import FactServices.
From S2P Require Import FactReconciler.
From S2P Require Import FactExtractor.
From S2P Require Import FactCompactor.
From Stdlib Require Import QArith.QArith_base.
Open Scope Z_scope.

Definition all_scopes : list FactScope := [USER; TENANT; PROJECT].

Abbreviation Overlays := (odict (odict json)).

(** The fields of the DTO that an entry describes *)
Record OverlayFact := {
  v_value : string;
  v_source : FactSource;
  v_confidence : Q;
  v_source_ref : option string;
  v_status : FactStatus;
  v_support_count : Z;
  v_revision : Z
}.

Definition source_of_string (s : string) : option FactSource :=
  if String.eqb s "user_utterance" then Some USER_UTTERANCE else if String.eqb s "tool_result" then Some TOOL_RESULT
  else if String.eqb s "manual" then Some MANUAL else if String.eqb s "system" then Some SYSTEM
  else if String.eqb s "agent_result" then Some LEGACY_AGENT_RESULT else None.
Definition status_of_string (s : string) : option FactStatus :=
  if String.eqb s "pending" then Some PENDING else if String.eqb s "confirmed" then Some CONFIRMED
  else if String.eqb s "unconfirmed" then Some UNCONFIRMED else if String.eqb s "deleted" then Some DELETED else None.

Section Overlays.
Variables (to_float : json -> option Q) (to_int : json -> option Z) (repr : json -> string) (of_float : Q -> json).

Definition text_of (j : json) : string := match j with JStr s => s | _ => repr j end.
(** [str(d.get(k) or default)] *)
Definition get_text (k : string) (default : string) (d : odict json) : string :=
  match od_get k d with Some j => if truthy j then text_of j else default | None => default end.
Definition get_or (k : string) (default : json) (d : odict json) : json :=
  match od_get k d with Some j => if truthy j then j else default | None => default end.

(** [_fact_from_entry]: [Some None] is the entry that describes no fact. *)
Definition _fact_from_entry (entry : odict json) : option (option OverlayFact) :=
  match od_get "fact" entry with
  | Some (JObj payload) =>
      let val := strip (get_text "value" "" payload) in
      if str_empty val then Some None
      else
        conf ← match od_get "confidence" payload with
               | Some j => if truthy j then to_float j else Some 1%Q
               | None => Some 1%Q
               end;
        st ← status_of_string (get_text "status" (status_str CONFIRMED) payload);
        support ← to_int (get_or "support_count" (JInt 0) payload);
        rev ← to_int (get_or "revision" (JInt 1) payload);
        Some (Some {| v_value := val;
                      v_source := default USER_UTTERANCE
                                    (source_of_string (get_text "source" (source_str USER_UTTERANCE) payload));
                      v_confidence := conf; v_source_ref := some_str (get_text "source_ref" "" payload);
                      v_status := st; v_support_count := Z.max 0 support; v_revision := Z.max 1 rev |})
  | _ => Some None
  end.

Definition entry_state (entry : odict json) : string := lower_ru (strip (get_text "state" "" entry)).

(** The entries of one scope, [entries] in their order *)
Fixpoint clean_entries (entries : odict json) (clean : odict json) : option (odict json) :=
  match entries with
  | [] => Some clean
  | (subj, JObj entry) :: entries' =>
      if str_empty (strip subj) then clean_entries entries' clean
      else if String.eqb (entry_state entry) "deleted" then clean_entries entries' (od_set (strip subj) (JObj entry) clean)
      else if String.eqb (entry_state entry) "set" then
        fact ← _fact_from_entry entry;
        match fact : option OverlayFact with
        | None => clean_entries entries' clean
        | Some _ => clean_entries entries' (od_set (strip subj) (JObj entry) clean)
        end
      else clean_entries entries' clean
  | _ :: entries' => clean_entries entries' clean
  end.

Fixpoint normalize_scopes (scopes : list FactScope) (raw : odict json) (normalized : Overlays) : option Overlays :=
  match scopes with
  | [] => Some normalized
  | s :: scopes' =>
      match od_get (scope_str s) raw with
      | Some (JObj entries) =>
          clean ← clean_entries entries [];
          normalize_scopes scopes' raw (match clean with [] => normalized | _ => od_set (scope_str s) clean normalized end)
      | _ => normalize_scopes scopes' raw normalized
      end
  end.

Definition normalize_overrides (raw : json) : option Overlays :=
  match raw with
  | JObj d => normalize_scopes all_scopes d []
  | _ => Some []
  end.

(** *** The effective facts *)
Abbreviation Effective := (dict (FactScope * string) FactDTO).

Definition overlay_dto (s : FactScope) (subj : string) (at_ id : Z) (f : OverlayFact) : FactDTO :=
  {| d_scope := s; d_subject := subj; d_value := v_value f; d_source := v_source f; d_tenant_id := None;
     d_project_id := None; d_owner_type := None; d_owner_id := None; d_kind := "fact"; d_metadata := no_metadata;
     d_confidence := v_confidence f; d_source_ref := v_source_ref f; d_observed_at := at_; d_id := id;
     d_superseded_by := None; d_user_visible := true; d_status := v_status f; d_support_count := v_support_count f;
     d_first_confirmed_at := None; d_last_confirmed_at := None; d_revision := v_revision f |}.

(** [entry["state"] == OVERLAY_DELETED] *)
Definition is_tombstone (entry : odict json) : bool :=
  match od_get "state" entry with Some (JStr s) => String.eqb s "deleted" | _ => false end.

(** [at_] and [id] give the date and the identifier of the DTO built for an entry. *)
Definition apply_entry (at_ id : FactScope -> string -> Z) (s : FactScope) (eff : Effective) (e : string * json) :
    option Effective :=
  match e.2 with
  | JObj entry =>
      if is_tombstone entry then Some (od_pop (s, e.1) eff)
      else
        fact ← _fact_from_entry entry;
        Some (match fact : option OverlayFact with
              | Some f => od_set (s, e.1) (overlay_dto s e.1 (at_ s e.1) (id s e.1) f) eff
              | None => eff
              end)
  | _ => Some eff
  end.

Fixpoint fold_opt {A B} (f : A -> B -> option A) (acc : A) (l : list B) : option A :=
  match l with
  | [] => Some acc
  | x :: l' => acc' ← f acc x; fold_opt f acc' l'
  end.

Definition base_facts (base : list FactDTO) : Effective :=
  foldl (fun d f => od_set (d_scope f, d_subject f) f d) [] base.

Definition apply_scope (at_ id : FactScope -> string -> Z) (overlays : Overlays) (eff : Effective) (s : FactScope) :
    option Effective :=
  fold_opt (apply_entry at_ id s) eff (default [] (od_get (scope_str s) overlays)).

Definition effective_facts (at_ id : FactScope -> string -> Z) (base : list FactDTO) (overlays : Overlays) :
    option Effective := fold_opt (apply_scope at_ id overlays) (base_facts base) all_scopes.

Definition apply_overrides (at_ id : FactScope -> string -> Z) (base : list FactDTO) (raw : json) :
    option (list FactDTO) :=
  overlays ← normalize_overrides raw;
  eff ← effective_facts at_ id base overlays;
  Some (od_values eff).

(** *** Writing to a branch *)
Definition fact_to_payload (f : FactDTO) : json :=
  JObj [("scope", JStr (scope_str (d_scope f))); ("subject", JStr (d_subject f)); ("value", JStr (d_value f));
        ("source", JStr (source_str (d_source f))); ("confidence", of_float (d_confidence f));
        ("source_ref", match d_source_ref f with Some r => JStr r | None => JNull end);
        ("status", JStr (status_str (d_status f))); ("support_count", JInt (d_support_count f));
        ("revision", JInt (d_revision f))].

Definition effective_fact (at_ id : Z) (fact : FactDTO) (subj : string) (conflict : bool) : FactDTO :=
  {| d_scope := d_scope fact; d_subject := subj; d_value := d_value fact; d_source := d_source fact;
     d_tenant_id := d_tenant_id fact; d_project_id := d_project_id fact; d_owner_type := None; d_owner_id := None;
     d_kind := "fact"; d_metadata := d_metadata fact; d_confidence := d_confidence fact;
     d_source_ref := d_source_ref fact; d_observed_at := at_; d_id := id; d_superseded_by := None;
     d_user_visible := true; d_status := if conflict then PENDING else CONFIRMED;
     d_support_count := if conflict then 0 else Z.max 1 (d_support_count fact); d_first_confirmed_at := None;
     d_last_confirmed_at := None; d_revision := 1 |}.

Definition conflicts_with (fact : FactDTO) (previous : option FactDTO) : bool :=
  match previous with
  | Some p => negb (String.eqb (norm_text (d_value p)) (norm_text (d_value fact)))
  | None => false
  end.

Definition set_entry (fact : FactDTO) (conflict : bool) : json :=
  JObj [("state", JStr "set"); ("fact", fact_to_payload fact); ("conflict", JBool conflict)].

(** One turn of the loop of [merge_extracted] *)
Definition merge_one (at_ id : FactScope -> string -> Z) (acc : Overlays * Effective) (fact : FactDTO) :
    Overlays * Effective :=
  let '(merged, current) := acc in
  let subj := strip (d_subject fact) in
  if str_empty subj then acc
  else
    let conflict := conflicts_with fact (od_get (d_scope fact, subj) current) in
    let eff := effective_fact (at_ (d_scope fact) subj) (id (d_scope fact) subj) fact subj conflict in
    (od_set (scope_str (d_scope fact))
       (od_set subj (set_entry eff conflict) (default [] (od_get (scope_str (d_scope fact)) merged))) merged,
     od_set (d_scope fact, subj) eff current).

Definition json_of_overlays (o : Overlays) : json := JObj (map (fun e => (e.1, JObj e.2)) o).

Definition merge_extracted (at_ id : FactScope -> string -> Z) (raw : json) (facts base : list FactDTO) :
    option Overlays :=
  merged ← normalize_overrides raw;
  normalized ← normalize_overrides (json_of_overlays merged);
  current ← effective_facts at_ id base normalized;
  Some (foldl (merge_one at_ id) (merged, base_facts (od_values current)) facts).1.
End Overlays.
