(* ===== verification/MemoryWriter.v ===== *)
(** * MemoryWriter

    runtime/memory/writer.py: the write path at the end of a turn, from the evidence
    of the turn to the reconcilers, with the markers of runtime/
    project_memory_candidates.py and the columns of a sandbox branch that it writes. *)
From S2P Require Import Prelude.
From S2P Require Import Facts.
From S2P Require Import FactServices.
From S2P Require Import FactReconciler.
From S2P Require Import FactExtractor.
From S2P Require Import FactCompactor.
From S2P Require Import FactOverlays.
From S2P Require Import Glossary.
From Stdlib Require Import QArith.QArith_base.
Open Scope Z_scope.

Record ProjectMemoryCandidate := {
  pm_project_key : string;
  pm_subject : string;
  pm_value : string;
  pm_evidence_call_ids : list string;
  pm_aliases : list string
}.

(** What the writer reads of the transport of a turn *)
Record TurnMemory := {
  tm_chat_id : option Z;
  tm_user_id : option Z;
  tm_tenant_id : option Z;
  tm_durable : MemorySnapshot;
  tm_fact_evidence : list Evidence;
  tm_project_candidates : list ProjectMemoryCandidate;
  tm_fact_run_ref : option string;
  tm_agent_results : list (bool * string * string)   (** success, summary, agent *)
}.

Record WriteContext := {
  wc_memory : TurnMemory;
  wc_user_message : string;
  wc_skip_llm_helpers : bool
}.

Record MemoryWriteResult := {
  wr_component : string;
  wr_status : string;
  wr_inserted : Z;
  wr_skipped : Z;
  wr_error_code : option string
}.

(** ** When the model is not asked *)
Definition non_retryable_patterns : list string :=
  ["error code: 413"; "request too large"; "rate_limit_exceeded"; "tokens per minute"; "context_length_exceeded";
   "maximum context length"; "tool_use_failed"; "tool choice is none, but model called a tool"].
Definition _looks_non_retryable_limit_error (t : string) : bool :=
  existsb (fun p => str_contains p (lower_ru t)) non_retryable_patterns.

Definition trivial_utterances : list string :=
  ["ok"; "okay"; "ок"; "ага"; "угу"; "спасибо"; "thanks"; "thank you"; "понял"; "понятно"].
Definition _is_trivial_utterance (t : string) : bool :=
  let normalized := squash (lower_ru (strip t)) in
  negb (str_empty normalized) && str_in normalized trivial_utterances.

Definition _should_skip_llm_helpers (m : TurnMemory) (user_message : string) (budget_exceeded : bool) : bool :=
  budget_exceeded || _is_trivial_utterance user_message ||
  (let failed := List.filter (fun r => negb r.1.1) (tm_agent_results m) in
   match failed with
   | [] => false
   | _ => negb (existsb (fun r => r.1.1) (tm_agent_results m)) &&
          existsb (fun r => _looks_non_retryable_limit_error (lower_ru (r.1.2 +:+ newline +:+ r.2))) failed
   end).

Section Writer.
Variables (clock gen : nat -> Z) (uuid_str : Z -> string) (UUID : string -> option Z).

(** The evidence handed to the extractor *)
Definition turn_evidence (m : TurnMemory) (user_message : string) : list Evidence :=
  {| source_id := "user_message"; source_type := "user_message";
     source_ref := or_str (tm_fact_run_ref m)
                     (match tm_chat_id m with Some c => uuid_str c | None => "request" end);
     text := user_message; label := Some "user message"; support_ref := None |} :: tm_fact_evidence m.

(** [evidence_by_id]: a repeated identifier keeps its last evidence. *)
Definition evidence_by_id (l : list Evidence) : odict Evidence :=
  foldl (fun d e => od_set (source_id e) e d) [] l.

Definition marked_draft (m : TurnMemory) (c : ProjectMemoryCandidate) : option Draft :=
  match omap (fun i => od_get i (evidence_by_id (tm_fact_evidence m))) (pm_evidence_call_ids c) with
  | [] => None
  | ev => Some (no_owner PROJECT (pm_subject c) (pm_value c) TOOL_RESULT (tm_tenant_id m) "fact"
                  {| project_key := Some (pm_project_key c); project_aliases := pm_aliases c; aliases := [];
                     evidence := ev; glossary_scope := None; compaction_action := None; compaction_target_ids := [];
                     project_memory_marked := true |} 1)
  end.

Definition _project_candidate_facts (m : TurnMemory) : call (list FactDTO) :=
  map_call (new_dto clock gen) (omap (marked_draft m) (tm_project_candidates m)).

Definition is_glossary (c : FactDTO) : bool := String.eqb (d_kind c) "glossary".

Definition project_keys (l : list FactDTO) : list string :=
  map (fun c => or_str (project_key (d_metadata c)) "") (List.filter (fun c => bool_decide (d_scope c = PROJECT)) l).

(** [_compact_and_write_facts] for a stored chat; [out] is the compactor's answer *)
Definition compact_and_write (m : TurnMemory) (candidates : list FactDTO) (out : option (list CompactedFact)) :
    call (Z * list FactReconciliationChange) :=
  marked ← _project_candidate_facts m;
  match candidates ++ marked with
  | [] => mret (0, [])
  | all =>
      _ ← ensure_projects gen all;
      current ← current_for clock gen (tm_user_id m) (tm_tenant_id m) (project_keys all);
      terms ← current_terms clock (tm_user_id m) (tm_tenant_id m);
      compacted ← compact clock gen uuid_str out all (current ++ terms);
      changes ← apply_with_changes clock gen UUID (List.filter (fun c => negb (is_glossary c)) compacted)
                  (tm_user_id m) (tm_tenant_id m) false;
      saved ← apply_terms clock gen (List.filter is_glossary compacted) (tm_user_id m) (tm_tenant_id m);
      mret (Z.of_nat (length changes) + saved, changes)
  end.

(** ** A sandbox branch: [branch] is its fact_overrides_json, [None] if there is no
    such branch; the durable tables are only read. *)
Variables (to_float : json -> option Q) (to_int : json -> option Z) (repr : json -> string) (of_float : Q -> json)
  (at_ id : FactScope -> string -> Z).

Inductive BranchWrite : Type :=
| Branch_untouched
| Branch_written (overrides : Overlays)
| Branch_raised.

Definition _write_branch_facts (branch : option json) (facts base : list FactDTO) : BranchWrite * Z :=
  match branch with
  | None => (Branch_untouched, 0)
  | Some raw =>
      match merge_extracted to_float to_int repr of_float at_ id raw facts base with
      | Some merged => (Branch_written merged, Z.of_nat (length facts))
      | None => (Branch_raised, 0)
      end
  end.

Definition compact_and_write_branch (m : TurnMemory) (candidates : list FactDTO) (out : option (list CompactedFact))
    (branch : option json) : call (BranchWrite * Z) :=
  marked ← _project_candidate_facts m;
  match candidates ++ marked with
  | [] => mret (Branch_untouched, 0)
  | all =>
      let current := entries (tm_durable m) in
      compacted ← compact clock gen uuid_str out all current;
      mret (_write_branch_facts branch (List.filter (fun c => negb (is_glossary c)) compacted) current)
  end.

(** ** The two components, and [finalize] for a stored chat *)
Definition skipped (name : string) : MemoryWriteResult :=
  {| wr_component := name; wr_status := "skipped"; wr_inserted := 0; wr_skipped := 1; wr_error_code := None |}.
Definition ok_result (name : string) (n : Z) : MemoryWriteResult :=
  {| wr_component := name; wr_status := "ok"; wr_inserted := n; wr_skipped := 0; wr_error_code := None |}.
Definition failed_result (name : string) : MemoryWriteResult :=
  {| wr_component := name; wr_status := "failed"; wr_inserted := 0; wr_skipped := 0;
     wr_error_code := Some "memory_component_error" |}.

(** [_run_component]: an exception becomes a failed result. *)
Definition _run_component {A} (name : string) (default_ : A) (m : call (A * MemoryWriteResult)) :
    call (A * MemoryWriteResult) :=
  try_except m (fun _ => mret (default_, failed_result name)).

Definition extraction_component (ctx : WriteContext) (role_extras overrides : json)
    (out : option (list LLMFactCandidate)) : call (list FactDTO * MemoryWriteResult) :=
  let m := wc_memory ctx in
  if wc_skip_llm_helpers ctx then mret ([], skipped "fact_extractor")
  else
    candidates ← extract clock gen uuid_str role_extras overrides out (wc_user_message ctx)
                   (turn_evidence m (wc_user_message ctx)) (tm_user_id m) (tm_tenant_id m) (tm_chat_id m);
    mret (candidates, ok_result "fact_extractor" (Z.of_nat (length candidates))).

Definition compaction_component (ctx : WriteContext) (candidates : list FactDTO) (out : option (list CompactedFact)) :
    call (list FactReconciliationChange * MemoryWriteResult) :=
  if wc_skip_llm_helpers ctx then mret ([], skipped "fact_compactor")
  else
    saved ← compact_and_write (wc_memory ctx) candidates out;
    mret (saved.2, ok_result "fact_compactor" saved.1).

Definition finalize (m : TurnMemory) (user_message : string) (budget_exceeded : bool) (chat_exists : bool)
    (role_extras overrides : json) (extracted : option (list LLMFactCandidate))
    (compacted : option (list CompactedFact)) : call (list MemoryWriteResult) :=
  let ctx := {| wc_memory := m; wc_user_message := user_message;
                wc_skip_llm_helpers := _should_skip_llm_helpers m user_message budget_exceeded |} in
  if negb chat_exists then mret []
  else
    first ← _run_component "fact_extractor" [] (extraction_component ctx role_extras overrides extracted);
    second ← _run_component "fact_compactor" [] (compaction_component ctx first.1 compacted);
    mret [first.2; second.2].
End Writer.
