(* ===== verification/GlossaryProofs.v ===== *)
(** * Glossary: the accounting of terms

    A term has one unit of support for each of its recorded sources, three more when
    somebody typed it in, and is confirmed from three units on.  No call of the
    reconciler raises an exception. *)
From S2P Require Import Prelude.
From S2P Require Import Facts.
From S2P Require Import FactServices.
From S2P Require Import FactReconciler.
From S2P Require Import FactExtractor.
From S2P Require Import FactProofs.
From S2P Require Import FactInvariant.
From S2P Require Import Glossary.
Open Scope Z_scope.

Definition sources_of (id : Z) (os : list GlossaryObservation) : list GlossaryObservation :=
  List.filter (fun o => Z.eqb (go_entry_id o) id) os.
Definition term_support (id : Z) (os : list GlossaryObservation) : Z := Z.of_nat (length (sources_of id os)).
Definition go_key (o : GlossaryObservation) : Z * string * string := (go_entry_id o, go_source_type o, go_source_ref o).
Definition entry_ids (w : World) : list Z := map g_id (glossary_entries (db w)).

(** [due]: sources recorded but not yet counted *)
Record term_ok (due : Z) (os : list GlossaryObservation) (e : GlossaryEntry) : Prop := {
  tk_support : g_support_count e = term_support (g_id e) os - due \/ g_support_count e = term_support (g_id e) os - due + 3;
  tk_rule : g_status e = G_CONFIRMED -> 3 <= g_support_count e
}.

Section Glossary.
Variable gen : nat -> Z.
#[local] Abbreviation drawn := (drawn gen).

Definition term_due (id n : Z) (e : GlossaryEntry) : Z := if Z.eqb (g_id e) id then n else 0.

Record glossary_due (id n : Z) (w : World) : Prop := {
  gd_ids : forall e, e ∈ glossary_entries (db w) -> drawn w (g_id e);
  gd_nodup : NoDup (entry_ids w);
  gd_obs_ids : forall o, o ∈ glossary_observations (db w) -> drawn w (go_id o);
  gd_obs_keys : NoDup (map go_key (glossary_observations (db w)));
  gd_obs_entries : forall o, o ∈ glossary_observations (db w) -> go_entry_id o ∈ entry_ids w;
  gd_terms : forall e, e ∈ glossary_entries (db w) -> term_ok (term_due id n e) (glossary_observations (db w)) e
}.

(** Nothing to count *)
Definition glossary_ok (w : World) : Prop := forall id, glossary_due id 0 w.

Lemma due_any i j w : glossary_due i 0 w -> glossary_due j 0 w.
Proof.
  intros []. split; [done..|]. intros e He. specialize (gd_terms0 e He). unfold term_due in *.
  by destruct (Z.eqb _ i), (Z.eqb _ j).
Qed.

Lemma glossary_ok_due i w : glossary_due i 0 w <-> glossary_ok w.
Proof. split; [intros H j; by eapply due_any|intros H; apply H]. Qed.

Definition on_glossary (g : list GlossaryEntry -> list GlossaryEntry) (w : World) : World :=
  {| db := with_glossary g (db w); readings := readings w; uuids := uuids w |}.
Definition on_glossary_obs (g : list GlossaryObservation -> list GlossaryObservation) (w : World) : World :=
  {| db := with_glossary_obs g (db w); readings := readings w; uuids := uuids w |}.

Lemma glossary_draw id n w : glossary_due id n w -> glossary_due id n (draw w).
Proof. intros []. split; try done; cbn; intros ??; eapply (drawn_mono gen w); auto; simpl; lia. Qed.

Lemma glossary_tick id n w : glossary_due id n w -> glossary_due id n (tick w).
Proof. by intros []. Qed.

(** An update of the rows that keeps their identifiers *)
Lemma glossary_assign (g : GlossaryEntry -> GlossaryEntry) id n i m w :
  (forall e, g_id (g e) = g_id e) -> glossary_due id n w ->
  (forall e, e ∈ glossary_entries (db w) -> term_ok (term_due id n e) (glossary_observations (db w)) e ->
     term_ok (term_due i m e) (glossary_observations (db w)) (g e)) ->
  glossary_due i m (on_glossary (map g) w).
Proof.
  intros Hg [] Hok. assert (entry_ids (on_glossary (map g) w) = entry_ids w) as E.
  { unfold entry_ids. cbn. rewrite map_map. by apply map_ext. }
  split; rewrite ?E; try done; cbn.
  - intros e (x & -> & Hx)%list_elem_of_fmap. rewrite Hg. by apply gd_ids0.
  - intros e (x & -> & Hx)%list_elem_of_fmap. unfold term_due. rewrite Hg. by apply Hok, gd_terms0.
Qed.

Lemma term_support_app i os o :
  term_support i (os ++ [o]) = term_support i os + (if Z.eqb (go_entry_id o) i then 1 else 0).
Proof. unfold term_support, sources_of. rewrite List.filter_app, length_app. simpl. destruct (Z.eqb _ _); simpl; lia. Qed.

Lemma glossary_observe o n w : glossary_due (go_entry_id o) n w -> go_entry_id o ∈ entry_ids w -> drawn w (go_id o) ->
  go_key o ∉ map go_key (glossary_observations (db w)) ->
  glossary_due (go_entry_id o) (n + 1) (on_glossary_obs (fun l => l ++ [o]) w).
Proof.
  intros [] Hid Hd Hk. split; try done; cbn.
  - intros x [Hx| ->%list_elem_of_singleton]%elem_of_app; [exact (gd_obs_ids0 _ Hx)|exact Hd].
  - rewrite map_app. simpl. apply NoDup_app; split_and!; [done| |apply NoDup_singleton].
    by intros x Hx ->%list_elem_of_singleton.
  - intros x [Hx| ->%list_elem_of_singleton]%elem_of_app; [exact (gd_obs_entries0 _ Hx)|exact Hid].
  - intros e He. destruct (gd_terms0 e He) as [S R]. unfold term_due in *. split; [|done]. rewrite term_support_app.
    rewrite (Z.eqb_sym (g_id e)) in *. destruct (Z.eqb _ _); lia.
Qed.

Lemma term_support_unknown w i id n : glossary_due id n w -> i ∉ entry_ids w ->
  term_support i (glossary_observations (db w)) = 0.
Proof.
  intros [] Hi. unfold term_support, sources_of. rewrite filter_none; [done|]. intros o Ho.
  apply Z.eqb_neq. intros <-. by apply Hi, gd_obs_entries0.
Qed.

Lemma glossary_insert e w : glossary_ok w -> g_id e ∉ entry_ids w -> drawn w (g_id e) -> term_ok 0 [] e ->
  glossary_ok (on_glossary (fun l => l ++ [e]) w).
Proof.
  intros Hw Hn Hd [Hs Hr]. apply (glossary_ok_due 0). pose proof (term_support_unknown w _ _ _ (Hw 0) Hn) as H0. destruct (Hw 0).
  split; try done; unfold entry_ids in *; cbn; rewrite ?map_app; simpl.
  - intros x [Hx| ->%list_elem_of_singleton]%elem_of_app; [exact (gd_ids0 _ Hx)|exact Hd].
  - apply NoDup_app; split_and!; [done| |apply NoDup_singleton]. by intros x Hx ->%list_elem_of_singleton.
  - intros o Ho. apply elem_of_app. left. by apply gd_obs_entries0.
  - intros x [Hx| ->%list_elem_of_singleton]%elem_of_app; [exact (gd_terms0 _ Hx)|]. unfold term_due.
    destruct (Z.eqb _ 0); split; rewrite ?H0; done.
Qed.
End Glossary.

(** ** The reconciler of terms *)
Section Reconciler.
Context (clock gen : nat -> Z) `{!Inj (=) (=) gen}.
#[local] Abbreviation glossary_ok := (glossary_ok gen).
#[local] Abbreviation glossary_due := (glossary_due gen).

Lemma fresh_entry id n w : glossary_due id n w -> gen (uuids w) ∉ entry_ids w.
Proof. intros [] (e & E & He)%list_elem_of_fmap. apply (fresh_not_drawn gen w). rewrite E. by apply gd_ids0. Qed.

Lemma insert_entry_run e w : g_id e ∉ entry_ids w -> insert_entry e w = (Ok tt, on_glossary (fun l => l ++ [e]) w).
Proof.
  intros Hn. unfold insert_entry. rewrite (bind_run_Ok _ _ _ _ _ (eq_refl : read _ w = (Ok _, w))).
  destruct (existsb _ _) eqn:E; [|done]. apply existsb_elem in E as (x & Hx & E%Z.eqb_eq).
  destruct Hn. rewrite <- E. by apply list_elem_of_fmap_2.
Qed.

(** A row drawn just now *)
Lemma insert_drawn_run (mk : Z -> GlossaryEntry) : (forall i, g_id (mk i) = i) -> (forall i, term_ok 0 [] (mk i)) ->
  runs glossary_ok (id ← uuid4 gen; _ ← insert_entry (mk id); mret (mk id))
                   (fun e w => glossary_ok w /\ g_id e ∈ entry_ids w).
Proof.
  intros Hid Hok w Hw. rewrite (bind_run_Ok _ _ _ _ _ (eq_refl : uuid4 gen w = (Ok (gen (uuids w)), draw w))).
  assert (g_id (mk (gen (uuids w))) ∉ entry_ids (draw w)) as Hn by (rewrite Hid; exact (fresh_entry 0 0 w (Hw 0))).
  rewrite (bind_run_Ok _ _ _ _ _ (insert_entry_run _ _ Hn)). eexists _, _. split; [done|]. split.
  - apply glossary_insert; [intros i; apply glossary_draw, Hw|done|rewrite Hid; exists (uuids w); cbn; split; [lia|done]|apply Hok].
  - unfold entry_ids. cbn. rewrite map_app. apply elem_of_app. right. by apply list_elem_of_singleton.
Qed.

Lemma assign_entry_run id g w :
  assign_entry id g w = (Ok tt, on_glossary (map (fun e => if Z.eqb (g_id e) id then g e else e)) w).
Proof. done. Qed.

Lemma find_run s owner term w : _find s owner term w = (Ok (head (List.filter (is_term s owner term) (glossary_entries (db w)))), w).
Proof. done. Qed.

Lemma find_or_create_term_runs c s owner :
  runs glossary_ok (find_or_create_term gen c s owner) (fun e w => glossary_ok w /\ g_id e ∈ entry_ids w).
Proof.
  intros w Hw. unfold find_or_create_term. rewrite (bind_run_Ok _ _ _ _ _ (find_run s owner (d_subject c) w)).
  destruct (List.filter _ _) as [|row k] eqn:E; cbn [hd_error head].
  - apply insert_drawn_run; [done| |done]. intros i. split; [by left|done].
  - rewrite (bind_run_Ok _ _ _ _ _ (assign_entry_run _ _ w)). eexists _, _. split; [done|]. cbn.
    assert (row ∈ row :: k) as Hrow by left. rewrite <- E in Hrow. apply elem_of_List_filter in Hrow as [Hrow _].
    split; [|unfold entry_ids; cbn; rewrite map_map; apply list_elem_of_fmap; exists row; split; [by destruct (Z.eqb _ _)|done]].
    intros i. eapply (glossary_assign gen _ i 0); [intros e; by destruct (Z.eqb _ _)|apply Hw|].
    intros e _ [S R]. by destruct (Z.eqb _ (g_id row)); split.
Qed.

Lemma same_term_unique id n w e a b : glossary_due id n w ->
  (length (List.filter (same_term_source e a b) (glossary_observations (db w))) <= 1)%nat.
Proof.
  intros []. apply (scalar_unique go_key); [done|]. unfold same_term_source, go_key.
  intros x y Hx Hy. rewrite !andb_true_iff, !Z.eqb_eq, !String.eqb_eq in Hx, Hy. destruct Hx as [[-> ->] ->], Hy as [[-> ->] ->]. done.
Qed.

Lemma insert_term_observation_run o n w : glossary_due (go_entry_id o) n w -> go_entry_id o ∈ entry_ids w ->
  go_id o = gen (uuids w) ->
  List.filter (same_term_source (go_entry_id o) (go_source_type o) (go_source_ref o)) (glossary_observations (db w)) = [] ->
  insert_term_observation o (draw w) = (Ok tt, on_glossary_obs (fun l => l ++ [o]) (draw w)) /\
  glossary_due (go_entry_id o) (n + 1) (on_glossary_obs (fun l => l ++ [o]) (draw w)).
Proof.
  intros Hw Hid Hgo Hnone. split.
  - unfold insert_term_observation. rewrite (bind_run_Ok _ _ _ _ _ (eq_refl : read _ (draw w) = (Ok _, draw w))).
    destruct (existsb _ _) eqn:E; [|done]. apply existsb_elem in E as (q & Hq & E). apply orb_true_iff in E as [E%Z.eqb_eq|E].
    + destruct (fresh_not_drawn gen w). rewrite <- Hgo, <- E. by apply (gd_obs_ids _ _ _ _ Hw).
    + assert (q ∈ @nil GlossaryObservation) as []%not_elem_of_nil. rewrite <- Hnone. by apply elem_of_List_filter.
  - apply glossary_observe; [by apply glossary_draw|done|rewrite Hgo; exists (uuids w); cbn; split; [lia|done]|].
    intros (q & E & Hq)%list_elem_of_fmap. unfold go_key in E. injection E as E1 E2 E3.
    assert (q ∈ @nil GlossaryObservation) as []%not_elem_of_nil. rewrite <- Hnone. apply elem_of_List_filter.
    split; [done|]. unfold same_term_source. by rewrite <- E1, <- E2, <- E3, Z.eqb_refl, !String.eqb_refl.
Qed.

Lemma add_term_observations_runs id raw : forall n,
  runs (fun w => glossary_due id n w /\ id ∈ entry_ids w) (_add_term_observations gen id raw)
       (fun added w => glossary_due id (n + added) w /\ 0 <= added).
Proof.
  induction raw as [|item raw IH]; intros n; cbn [_add_term_observations].
  { apply runs_ret. intros w [Hw _]. by rewrite Z.add_0_r. }
  destruct (term_source item) as [type ref]. destruct (_ || _); [apply IH|]. intros w [Hw Hid].
  rewrite (bind_run_Ok _ _ _ _ _ (eq_refl : read _ w = (Ok _, w))).
  rewrite (bind_run_Ok _ _ _ _ _ (scalar_run _ w (same_term_unique id n w id type ref Hw))).
  destruct (List.filter _ _) as [|x k] eqn:E; cbn [hd_error head]; [|by apply IH].
  rewrite (bind_run_Ok _ _ _ _ _ (eq_refl : uuid4 gen w = (Ok (gen (uuids w)), draw w))).
  match goal with |- context [insert_term_observation ?o] => destruct (insert_term_observation_run o n w) as [Ei Hi]; [done..|] end.
  rewrite (bind_run_Ok _ _ _ _ _ Ei). cbn [go_entry_id] in *. edestruct (IH (n + 1)) as (added & w2 & E2 & H2 & Hadd); [by split|].
  rewrite (bind_run_Ok _ _ _ _ _ E2). eexists _, w2. split; [done|]. by rewrite <- Z.add_assoc in H2; split; [|lia].
Qed.

Lemma apply_term_runs u t c : runs glossary_ok (apply_term clock gen u t c) (fun _ => glossary_ok).
Proof.
  unfold apply_term. destruct (term_owner c u t) as [[s owner]|]; [|by apply runs_ret].
  destruct (_ || _); [by apply runs_ret|].
  eapply runs_bind; [apply find_or_create_term_runs|]. intros row w [Hw Hid].
  destruct (add_term_observations_runs (g_id row) (evidence (d_metadata c)) 0 w) as (added & w1 & E1 & Hw1 & Hadd); [by split|].
  rewrite (bind_run_Ok _ _ _ _ _ E1). destruct (Z.eqb_spec added 0) as [->|Hne].
  { exists 0, w1. split; [done|]. by apply (glossary_ok_due gen (g_id row)). }
  rewrite (bind_run_Ok _ _ _ _ _ (eq_refl : now clock w1 = (Ok (clock (readings w1)), tick w1))).
  rewrite (bind_run_Ok _ _ _ _ _ (assign_entry_run _ _ (tick w1))). eexists _, _. split; [done|].
  apply (glossary_ok_due gen (g_id row)). eapply glossary_assign; [intros e; by destruct (Z.eqb _ _)|by apply glossary_tick|].
  intros e _ [S R]. unfold term_due in *. destruct (Z.eqb_spec (g_id e) (g_id row)) as [Ee|]; [|by split].
  cbn in S; split; cbn; [lia|]. unfold GLOSSARY_CONFIRMATION_SUPPORT. repeat case_bool_decide; simpl; try done; try lia.
  intros Hs. specialize (R Hs). lia.
Qed.

Lemma apply_terms_runs l u t : runs glossary_ok (apply_terms clock gen l u t) (fun _ => glossary_ok).
Proof.
  unfold apply_terms. eapply (runs_bind _ _ (fun _ => glossary_ok)); [|intros ?; by apply runs_ret].
  apply runs_map_call. intros c _. apply apply_term_runs.
Qed.

Lemma create_entry_runs s term al descr t p : runs glossary_ok (create_entry gen s term al descr t p) (fun _ => glossary_ok).
Proof.
  eapply runs_post; [apply insert_drawn_run; [done|]|by intros ? w []]. intros i. split; [by right|done].
Qed.
End Reconciler.
