(* ===== verification/MemoryWriterProofs.v ===== *)
(** * MemoryWriter: the parts of a turn that leave the facts alone

    Extraction, compaction, the reading of the current facts and the glossary move
    neither the facts nor their evidence; a marker of project memory is only ever on
    the candidates of a project. *)
From S2P Require Import Prelude.
From S2P Require Import Facts.
From S2P Require Import FactServices.
From S2P Require Import FactReconciler.
From S2P Require Import FactProofs.
From S2P Require Import FactInvariant.
From S2P Require Import FactReach.
From S2P Require Import FactReplay.
From S2P Require Import FactExtractor.
From S2P Require Import FactCompactor.
From S2P Require Import Glossary.
From S2P Require Import MemoryWriter.
Open Scope Z_scope.

(** ** Steps beside the facts *)
Record aside (w w' : World) : Prop := {
  as_facts : facts (db w') = facts (db w);
  as_observations : observations (db w') = observations (db w);
  as_projects : projects (db w') = projects (db w);
  as_uuids : (uuids w <= uuids w')%nat
}.

#[export] Instance aside_preorder : PreOrder aside.
Proof. split; [by split|]. intros a b c [] []. split; [congruence..|lia]. Qed.

Ltac aside_step :=
  match goal with
  | |- preserves aside (_ ≫= _) => apply (preserves_bind _); [|intros ?]
  | |- preserves aside (mret _) => by apply (preserves_keep _)
  | |- preserves aside (raise _) => by apply (preserves_keep _)
  | |- preserves aside (read _) => by apply (preserves_keep _)
  | |- preserves aside (scalar_one_or_none ?l) => apply (preserves_keep _); intros ?; by destruct l as [|? [|? ?]]
  | |- preserves aside (if ?b then _ else _) => destruct b
  | |- preserves aside (match ?x with _ => _ end) => destruct x
  | |- preserves aside (let (_, _) := ?x in _) => destruct x
  | |- preserves aside (select_facts _) => by apply (preserves_keep _)
  | |- preserves aside (write _) => apply preserves_modify; intros ?; by split
  | |- preserves aside (now _) => intros ? ? ? [= _ <-]; split; [done..|simpl; lia]
  | |- preserves aside (uuid4 _) => intros ? ? ? [= _ <-]; split; [done..|simpl; lia]
  end.
Ltac aside := repeat aside_step.

Lemma aside_map_call {A B} (f : A -> call B) l : (forall x, preserves aside (f x)) -> preserves aside (map_call f l).
Proof. intros H. induction l as [|x l IH]; cbn [map_call]; aside; [apply H|exact IH]. Qed.

Section Aside.
Variables (clock gen : nat -> Z) (uuid_str : Z -> string).

Lemma aside_new_dto d : preserves aside (new_dto clock gen d).
Proof. unfold new_dto. aside. Qed.

Lemma aside_current_for u t keys : preserves aside (current_for clock gen u t keys).
Proof. unfold current_for. aside. apply aside_map_call. intros x. unfold _dto. aside. Qed.

Lemma aside_current_terms u t : preserves aside (current_terms clock u t).
Proof. unfold current_terms. aside. apply aside_map_call. intros x. unfold term_dto. aside. Qed.

Lemma aside_compact out candidates current : preserves aside (compact clock gen uuid_str out candidates current).
Proof. unfold compact. aside. apply aside_map_call, aside_new_dto. Qed.

Lemma aside_extract extras overrides out um ev u t c : preserves aside (extract clock gen uuid_str extras overrides out um ev u t c).
Proof. unfold extract, _to_dtos. destruct out; [|by apply (preserves_keep _)]. apply aside_map_call, aside_new_dto. Qed.

Lemma aside_add_term_observations e raw : preserves aside (_add_term_observations gen e raw).
Proof.
  induction raw as [|item raw IH]; cbn [_add_term_observations]; [by apply (preserves_keep _)|].
  unfold insert_term_observation. aside; exact IH.
Qed.

Lemma aside_apply_terms l u t : preserves aside (apply_terms clock gen l u t).
Proof.
  unfold apply_terms. aside. apply aside_map_call. intros c.
  unfold apply_term, find_or_create_term, _find, insert_entry, assign_entry. aside; apply aside_add_term_observations.
Qed.

Lemma aside_marked m : preserves aside (_project_candidate_facts clock gen m).
Proof. unfold _project_candidate_facts. apply aside_map_call, aside_new_dto. Qed.

Lemma aside_ok w w' : aside w w' -> mem_ok gen w -> mem_ok gen w'.
Proof.
  intros [Hf Ho Hp Hu] [[] Hok].
  assert (forall i, drawn gen w i -> drawn gen w' i) as Hd by (intros i; by apply drawn_mono).
  split; [split|]; unfold fact_ids in *; rewrite ?Hf, ?Ho, ?Hp; eauto.
Qed.
End Aside.

(** ** Marked candidates are a project's, all along the pipeline. *)
Section Marks.
Variables (clock gen : nat -> Z) (uuid_str : Z -> string).

Definition draft_marks (d : Draft) : Prop := project_memory_marked (r_metadata d) = true -> r_scope d <> TENANT.

Lemma drafts_marks l w r w' : Forall draft_marks l -> map_call (new_dto clock gen) l w = (Ok r, w') -> Forall marks_projects r.
Proof.
  intros Hl H. apply new_dtos in H as (H2 & _). induction H2 as [|d x l r (Hs & Hm & _) _ IH]; [constructor|].
  apply Forall_cons in Hl as [Hd Hl]. constructor; [|by apply IH]. unfold marks_projects. by rewrite Hs, Hm.
Qed.

Lemma omap_Forall {A B} (P : B -> Prop) (f : A -> option B) (l : list A) :
  (forall x y, x ∈ l -> f x = Some y -> P y) -> Forall P (omap f l).
Proof. intros H. apply Forall_forall. intros y (x & Hx & Hy)%list_elem_of_omap. by eapply H. Qed.

Lemma extract_marks extras overrides out um ev u t c w r w' :
  extract clock gen uuid_str extras overrides out um ev u t c w = (Ok r, w') -> Forall marks_projects r.
Proof.
  unfold extract, _to_dtos. destruct out as [l|]; [|intros H; by injection H as <- _]. apply drafts_marks, omap_Forall.
  intros x d _. unfold _to_dto. destruct (scope_of_string _) as [s|]; [|done]. simpl. do 2 (destruct (_ || _); [done|]).
  destruct (_matching_evidence _ _ _ _ _) as [|e k]; [done|]. destruct (_ || _); [done|]. intros [= <-]. done.
Qed.

Lemma marked_marks m w r w' : _project_candidate_facts clock gen m w = (Ok r, w') -> Forall marks_projects r.
Proof.
  apply drafts_marks, omap_Forall. intros x d _. unfold marked_draft. destruct (omap _ _); [done|]. by intros [= <-].
Qed.

Lemma compact_marks out candidates current w r w' : Forall marks_projects candidates ->
  compact clock gen uuid_str out candidates current w = (Ok r, w') -> Forall marks_projects r.
Proof.
  intros Hc H. unfold compact in H. destruct candidates as [|c0 cs]; [by injection H as <- _|]. cbv iota in H.
  set (all := c0 :: cs) in *. rewrite Forall_forall in Hc.
  assert (forall p, Forall marks_projects (List.filter p all)) as Hp.
  { intros p. apply Forall_forall. intros x [Hx _]%elem_of_List_filter. by apply Hc. }
  destruct (List.filter (fun c => negb (is_exact current c)) all) as [|s0 ss] eqn:Es; [injection H as <- _; exact (Hp (is_exact current))|].
  rewrite <- Es in *. set (semantic := List.filter _ all) in *.
  destruct out as [outputs|]; [|injection H as <- _; apply Forall_app; split; [exact (Hp (is_exact current))|exact (Hp _)]].
  apply bind_Ok in H as (compacted & w1 & Hd & H). injection H as <- _.
  apply Forall_app; split; [exact (Hp (is_exact current))|]. apply Forall_app; split.
  - eapply drafts_marks; [|exact Hd]. apply omap_Forall. intros o d _. unfold compact_one.
    destruct (omap (nth_of semantic) _) as [|base ms] eqn:E; [done|]. destruct (String.eqb _ _); [done|]. intros [= <-]. unfold draft_marks. simpl.
    apply Hc. assert (base ∈ base :: ms) as Hb by left. rewrite <- E in Hb. apply list_elem_of_omap in Hb as (i & _ & Hi).
    apply nth_of_elem in Hi as [Hi _]. by apply elem_of_List_filter in Hi as [Hi _].
  - apply Forall_forall. intros x (p & -> & Hp')%list_elem_of_fmap. apply elem_of_List_filter in Hp' as [Hp' _]. apply Hc.
    destruct p as [i c]. apply elem_of_zip_r in Hp'. by apply elem_of_List_filter in Hp' as [Hp' _].
Qed.
End Marks.
