(* ===== verification/MemoryTargets.v ===== *)
(** * MemoryWriter: what the targets of a compaction are

    The identifiers that a compaction names as targets are those of the DTOs of
    [current_for], drawn for the DTOs: no row has them.  So no turn supersedes a
    row. *)
From S2P Require Import Prelude.
From S2P Require Import Facts.
From S2P Require Import FactServices.
From S2P Require Import FactReconciler.
From S2P Require Import FactProofs.
From S2P Require Import FactInvariant.
From S2P Require Import FactReach.
From S2P Require Import FactReplay.
From S2P Require Import FactExtractor.
From S2P Require Import FactCompactor.
From S2P Require Import Glossary.
From S2P Require Import MemoryWriter.
From S2P Require Import MemoryWriterProofs.
Open Scope Z_scope.

Section Targets.
Context (clock gen : nat -> Z) (uuid_str : Z -> string) (UUID : string -> option Z) `{!Inj (=) (=) gen}.

(** ** Targets of a compaction *)
(** An identifier drawn before now, and of no fact *)
Definition no_fact (w : World) (i : Z) : Prop := drawn gen w i /\ i ∉ fact_ids w.

(** New facts have new identifiers. *)
Record grows (w w' : World) : Prop := {
  gr_uuids : (uuids w <= uuids w')%nat;
  gr_ids i : i ∈ fact_ids w' -> i ∈ fact_ids w \/ ~ drawn gen w i
}.

#[export] Instance grows_preorder : PreOrder grows.
Proof.
  split; [by split; auto|]. intros a b c [U1 I1] [U2 I2]. split; [lia|]. intros i Hi. destruct (I2 i Hi) as [Hb|Hn].
  - by apply I1.
  - right. intros Hd. apply Hn. by eapply drawn_mono.
Qed.

Lemma no_fact_grows w w' i : grows w w' -> no_fact w i -> no_fact w' i.
Proof. intros [U I] [Hd Hn]. split; [by eapply drawn_mono|]. intros Hi. by destruct (I i Hi). Qed.

Lemma grows_same w w' : (uuids w <= uuids w')%nat -> fact_ids w' = fact_ids w -> grows w w'.
Proof. intros U E. split; [done|]. rewrite E. auto. Qed.

Lemma grows_aside w w' : aside w w' -> grows w w'.
Proof. intros [E _ _ U]. apply grows_same; [done|]. unfold fact_ids. by rewrite E. Qed.

Lemma grows_update p g : preserves grows (update_facts p g).
Proof. intros w r w'. rewrite update_facts_run. intros [= _ <-]. apply grows_same; [done|]. apply fact_ids_update. Qed.

Ltac grow_step :=
  match goal with
  | |- preserves grows (_ ≫= _) => apply (preserves_bind _); [|intros ?]
  | |- preserves grows (mret _) => by apply (preserves_keep _)
  | |- preserves grows (raise _) => by apply (preserves_keep _)
  | |- preserves grows (read _) => by apply (preserves_keep _)
  | |- preserves grows (scalar_one_or_none ?l) => apply (preserves_keep _); intros ?; by destruct l as [|? [|? ?]]
  | |- preserves grows (if ?b then _ else _) => destruct b
  | |- preserves grows (match ?x with _ => _ end) => destruct x
  | |- preserves grows (let (_, _) := ?x in _) => destruct x
  | |- preserves grows (select_facts _) => by apply (preserves_keep _)
  | |- preserves grows (update_facts _ _) => apply grows_update
  | |- preserves grows (write (with_projects _)) => apply preserves_modify; intros ?; by apply grows_same
  | |- preserves grows (write (with_observations _)) => apply preserves_modify; intros ?; by apply grows_same
  | |- preserves grows (now _) => intros ? ? ? [= _ <-]; by apply grows_same
  | |- preserves grows (uuid4 _) => intros ? ? ? [= _ <-]; apply grows_same; [simpl; lia|done]
  | |- preserves grows (assign _ _) => unfold assign
  end.
Ltac grow := repeat grow_step.

Lemma grows_add_observations id l : preserves grows (_add_observations gen id l).
Proof. induction l as [|e l IH]; cbn [_add_observations]; unfold insert_observation; grow; exact IH. Qed.

(** A row inserted under the identifier just drawn *)
Lemma grows_insert (f : Fact) w r w' : f_id f = gen (uuids w) -> insert_fact f (draw w) = (r, w') -> grows w w'.
Proof.
  intros Hf H. unfold insert_fact in H. rewrite (bind_run_Ok _ _ _ _ _ (eq_refl : read _ (draw w) = (Ok _, draw w))) in H.
  destruct (bool_decide _); injection H as _ <-; [apply grows_same; [simpl; lia|done]|]. split; [simpl; lia|].
  unfold fact_ids. cbn. intros i. rewrite map_app. intros [Hi|Hi%list_elem_of_singleton]%elem_of_app; [by left|right].
  rewrite Hi, Hf. apply (fresh_not_drawn gen).
Qed.

Lemma grows_targets e ids : preserves grows (_supersede_targets UUID e ids).
Proof. unfold _supersede_targets. grow. Qed.

Lemma grows_find_or_create c t o p tenant sandbox : preserves grows (find_or_create gen UUID c t o p tenant sandbox).
Proof.
  intros w r w' H. unfold find_or_create in H. rewrite (bind_run_Ok _ _ _ _ _ (find_same_run c t o p w)) in H.
  destruct (head _) as [e|]; [by injection H as _ <-|].
  rewrite (bind_run_Ok _ _ _ _ _ (eq_refl : uuid4 gen w = (Ok (gen (uuids w)), draw w))) in H. revert H.
  set (e := new_fact (gen (uuids w)) c t o p tenant sandbox). unfold mbind at 1, py_bind at 1.
  destruct (insert_fact e (draw w)) as [[[]|x] w1] eqn:E; intros H; pose proof (grows_insert e w _ _ eq_refl E) as G; [|by injection H as _ <-].
  etrans; [exact G|]. revert H. set (b := String.eqb _ _ || String.eqb _ _).
  assert (preserves grows (_ ← (if b then _supersede_targets UUID e (compaction_target_ids (d_metadata c)) else mret tt);
    mret (e, true) : call (Fact * bool))) as Hg; [|exact (Hg w1 r w')].
  grow; apply grows_targets.
Qed.

Lemma grows_apply_candidate u t c : preserves grows (apply_candidate clock gen UUID u t false c).
Proof.
  unfold apply_candidate, _owner_for. apply (preserves_bind _); [grow|]. intros [[owner_t owner_i] project].
  destruct (_ && _); [by apply (preserves_keep _)|]. apply (preserves_bind _); [apply grows_find_or_create|]. intros [e b].
  apply (preserves_bind _); [apply grows_add_observations|]. intros added.
  unfold count_evidence, settle_status, confirm_fact, get_fact, _apply_confirmed_project_aliases. grow.
Qed.

Lemma grows_ensure l : preserves grows (ensure_projects gen l).
Proof. apply (preserves_for_each _). intros c. unfold ensure_project, insert_project. grow. Qed.

(** A candidate whose targets are no facts leaves every other row as it was. *)
Definition aims_at_nothing (w : World) (c : FactDTO) : Prop :=
  forall raw i, raw ∈ compaction_target_ids (d_metadata c) -> UUID raw = Some i -> no_fact w i.

Lemma apply_where_none p g (l : list Fact) : (forall f, f ∈ l -> p f = false) -> apply_where p g l = l.
Proof.
  intros Hp. unfold apply_where. rewrite <- (map_id l) at 2. apply map_ext_in.
  intros f Hf%list_elem_of_In. by rewrite Hp.
Qed.

Lemma update_none p g w : (forall f, f ∈ facts (db w) -> p f = false) -> (update_facts p g w).2 = w.
Proof.
  intros Hp. rewrite update_facts_run. pose proof (apply_where_none p g _ Hp) as E.
  destruct w as [[fs os ps gs gos] rd us]. simpl in *. unfold on_facts, with_facts. simpl. by rewrite E.
Qed.

Lemma targets_missed (e : Fact) raw_ids w :
  (forall raw i, raw ∈ raw_ids -> UUID raw = Some i -> i ∉ fact_ids w \/ i = f_id e) ->
  (_supersede_targets UUID e raw_ids w).2 = w.
Proof.
  intros H. unfold _supersede_targets.
  set (ids := List.filter (fun i => negb (Z.eqb i (f_id e))) (omap UUID raw_ids)).
  assert (forall f : Fact, f ∈ facts (db w) -> f_id f ∉ ids) as Hids.
  { intros f Hf [Hi Hne]%elem_of_List_filter. apply list_elem_of_omap in Hi as (raw & Hraw & Hi).
    apply negb_true_iff, Z.eqb_neq in Hne. destruct (H raw _ Hraw Hi) as [Hn|Hn]; [|done].
    apply Hn. by apply (list_elem_of_fmap_2 (fun f : Fact => f_id f)). }
  destruct ids as [|i k]; [done|]. unfold mbind, py_bind.
  match goal with |- context [update_facts ?p ?g] => pose proof (update_none p g w) as E end.
  destruct (update_facts _ _ w) as [[n|x] w1]; simpl in *; apply E; intros f Hf; by rewrite bool_decide_false by (by apply Hids).
Qed.

Lemma steady_missed c t o p tenant w r w' : aims_at_nothing w c ->
  find_or_create gen UUID c t o p tenant false w = (r, w') -> steady w w'.
Proof.
  intros Ha H. unfold find_or_create in H. rewrite (bind_run_Ok _ _ _ _ _ (find_same_run c t o p w)) in H.
  destruct (head _) as [e|]; [by injection H as _ <-|].
  rewrite (bind_run_Ok _ _ _ _ _ (eq_refl : uuid4 gen w = (Ok (gen (uuids w)), draw w))) in H. revert H.
  set (e := new_fact (gen (uuids w)) c t o p tenant false). unfold mbind at 1, py_bind at 1.
  destruct (insert_fact e (draw w)) as [[[]|x] w1] eqn:E; intros H; pose proof (steady_insert e _ _ _ E) as G; [|by injection H as _ <-].
  assert (w' = w1) as ->; [|exact G]. revert H. set (b := String.eqb _ _ || String.eqb _ _).
  assert (forall raw i, raw ∈ compaction_target_ids (d_metadata c) -> UUID raw = Some i -> i ∉ fact_ids w1 \/ i = f_id e) as Hm.
  { intros raw i Hraw Hi. left. destruct (Ha raw i Hraw Hi) as [Hd Hn]. intros Hin.
    destruct (gr_ids _ _ (grows_insert e w _ _ eq_refl E) i Hin); done. }
  pose proof (targets_missed e _ w1 Hm) as Hs. destruct b; [|intros H; by injection H as _ <-].
  unfold mbind, py_bind. destruct (_supersede_targets _ _ _ w1) as [[[]|x] w2]; simpl in Hs; intros H; injection H as _ <-; done.
Qed.

(** *** Before the reconciler: the facts and the glossary stay. *)
Record calm (w w' : World) : Prop := {
  cm_facts : facts (db w') = facts (db w);
  cm_glossary : glossary_entries (db w') = glossary_entries (db w);
  cm_uuids : (uuids w <= uuids w')%nat
}.

#[export] Instance calm_preorder : PreOrder calm.
Proof. split; [by split|]. intros a b c [] []. split; [congruence..|lia]. Qed.

Lemma calm_steady w w' : calm w w' -> steady w w'.
Proof. intros [E _ _]. unfold steady, slots. by rewrite E. Qed.

Ltac calm_step :=
  match goal with
  | |- preserves calm (_ ≫= _) => apply (preserves_bind _); [|intros ?]
  | |- preserves calm (mret _) => by apply (preserves_keep _)
  | |- preserves calm (raise _) => by apply (preserves_keep _)
  | |- preserves calm (read _) => by apply (preserves_keep _)
  | |- preserves calm (select_facts _) => by apply (preserves_keep _)
  | |- preserves calm (scalar_one_or_none ?l) => apply (preserves_keep _); intros ?; by destruct l as [|? [|? ?]]
  | |- preserves calm (if ?b then _ else _) => destruct b
  | |- preserves calm (match ?x with _ => _ end) => destruct x
  | |- preserves calm (now _) => intros ? ? ? [= _ <-]; by split
  | |- preserves calm (uuid4 _) => intros ? ? ? [= _ <-]; split; [done..|simpl; lia]
  | |- preserves calm (write (with_projects _)) => apply preserves_modify; intros ?; by split
  end.
Ltac calmly := repeat calm_step.

Lemma calm_map_call {A B} (f : A -> call B) l : (forall x, preserves calm (f x)) -> preserves calm (map_call f l).
Proof. intros H. induction l as [|x l IH]; cbn [map_call]; calmly; [apply H|exact IH]. Qed.

Lemma calm_new_dto d : preserves calm (new_dto clock gen d).
Proof. unfold new_dto. calmly. Qed.

Lemma calm_ensure l : preserves calm (ensure_projects gen l).
Proof. apply (preserves_for_each _). intros c. unfold ensure_project, insert_project. calmly. Qed.

Lemma calm_current_for u t keys : preserves calm (current_for clock gen u t keys).
Proof. unfold current_for. calmly. apply calm_map_call. intros x. unfold _dto. calmly. Qed.

Lemma calm_current_terms u t : preserves calm (current_terms clock u t).
Proof. unfold current_terms. calmly. apply calm_map_call. intros x. unfold term_dto. calmly. Qed.

Lemma calm_compact out candidates current : preserves calm (compact clock gen uuid_str out candidates current).
Proof. unfold compact. calmly. apply calm_map_call, calm_new_dto. Qed.

Lemma calm_marked m : preserves calm (_project_candidate_facts clock gen m).
Proof. apply calm_map_call, calm_new_dto. Qed.

(** *** Where the targets come from *)
Definition apart (w : World) (l : list FactDTO) : Prop := forall x, x ∈ l -> no_fact w (d_id x).

Lemma no_fact_calm w w' i : calm w w' -> no_fact w i -> no_fact w' i.
Proof. intros [Hf _ Hu] [Hd Hn]. split; [by eapply drawn_mono|]. unfold fact_ids. by rewrite Hf. Qed.

Lemma apart_calm w w' l : calm w w' -> apart w l -> apart w' l.
Proof. intros Hc Ha x Hx. by eapply no_fact_calm, Ha. Qed.

(** The DTOs of [current_for] have identifiers of their own. *)
Lemma dtos_apart (rows : list Fact) : forall w l w',
  (forall i, i ∈ fact_ids w -> drawn gen w i) -> map_call (_dto clock gen) rows w = (Ok l, w') -> apart w' l.
Proof.
  induction rows as [|row rows IH]; intros w l w' Hd H; cbn [map_call] in H.
  { injection H as <- <-. by intros x ?%not_elem_of_nil. }
  apply bind_Ok in H as (y & w1 & Hy & H). apply bind_Ok in H as (ys & w2 & Hys & H). injection H as <- <-.
  injection Hy as <- <-. assert (calm w (draw (tick w))) as Hc by (split; [done..|simpl; lia]).
  assert (calm (draw (tick w)) w2) as Hc2.
  { eapply (calm_map_call (_dto clock gen)); [|exact Hys]. intros x. unfold _dto. calmly. }
  intros x [->|Hx]%elem_of_cons; [cbn [d_id]|].
  - apply (no_fact_calm (draw (tick w))); [done|]. split; [exists (uuids w); cbn; split; [lia|done]|].
    intros Hi. by apply (fresh_not_drawn gen w), Hd.
  - eapply IH; [|exact Hys|done]. intros i Hi. apply (drawn_mono gen w); [simpl; lia|by apply Hd].
Qed.

Lemma terms_apart tenant (rows : list GlossaryEntry) : forall w l w',
  (forall g, g ∈ rows -> no_fact w (g_id g)) -> map_call (term_dto clock tenant) rows w = (Ok l, w') -> apart w' l.
Proof.
  induction rows as [|row rows IH]; intros w l w' Hd H; cbn [map_call] in H.
  { injection H as <- <-. by intros x ?%not_elem_of_nil. }
  apply bind_Ok in H as (y & w1 & Hy & H). apply bind_Ok in H as (ys & w2 & Hys & H). injection H as <- <-.
  injection Hy as <- <-. assert (calm w (tick w)) as Hc by (by split).
  assert (calm (tick w) w2) as Hc2.
  { eapply (calm_map_call (term_dto clock tenant)); [|exact Hys]. intros x. unfold term_dto. calmly. }
  intros x [->|Hx]%elem_of_cons; [cbn [d_id]|].
  - apply (no_fact_calm w); [by etrans|]. apply Hd. left.
  - eapply IH; [|exact Hys|done]. intros g Hg. apply (no_fact_calm w); [done|]. apply Hd. by right.
Qed.

Definition untargeted (c : FactDTO) : Prop := compaction_target_ids (d_metadata c) = [].

(** The targets of what the compactor returns are entries it compared with. *)
Definition targets_among (current : list FactDTO) (c : FactDTO) : Prop :=
  forall raw, raw ∈ compaction_target_ids (d_metadata c) -> exists x, x ∈ current /\ raw = uuid_str (d_id x).

Lemma untargeted_among current c : untargeted c -> targets_among current c.
Proof. intros E raw. rewrite E. by intros ?%not_elem_of_nil. Qed.

Lemma compact_one_among semantic current o d raw : compact_one uuid_str semantic current o = Some d ->
  raw ∈ compaction_target_ids (r_metadata d) -> exists x, x ∈ current /\ raw = uuid_str (d_id x).
Proof.
  unfold compact_one. destruct (omap _ _) as [|base ms]; [done|]. destruct (String.eqb _ _); [done|]. intros [= <-].
  cbn. intros (x & -> & Hx)%list_elem_of_fmap. apply list_elem_of_omap in Hx as (i & _ & Hi). apply nth_of_elem in Hi as [Hi _].
  by exists x.
Qed.

Lemma compact_among out candidates current w r w' : Forall untargeted candidates ->
  compact clock gen uuid_str out candidates current w = (Ok r, w') -> Forall (targets_among current) r.
Proof.
  intros Hc H. assert (forall p, Forall (targets_among current) (List.filter p candidates)) as Hp.
  { intros p. apply Forall_forall. intros x [Hx _]%elem_of_List_filter. rewrite Forall_forall in Hc. by apply untargeted_among, Hc. }
  unfold compact in H. destruct candidates as [|c0 cs]; [by injection H as <- _|]. set (all := c0 :: cs) in *.
  destruct (List.filter (fun c => negb (is_exact current c)) all) as [|s0 ss] eqn:Es; [injection H as <- _; exact (Hp (is_exact current))|].
  rewrite <- Es in *. set (semantic := List.filter _ all) in *.
  destruct out as [outputs|]; [|injection H as <- _; apply Forall_app; split; [exact (Hp (is_exact current))|exact (Hp _)]].
  apply bind_Ok in H as (compacted & w1 & Hd & H). injection H as <- _. apply new_dtos in Hd as (Hd & _).
  apply Forall_app; split; [exact (Hp (is_exact current))|]. apply Forall_app; split.
  - apply Forall_forall. intros x [k Hk]%list_elem_of_lookup. destruct (Forall2_lookup_r _ _ _ _ _ Hd Hk) as (d & Hdk & (_ & Hm & _)).
    apply list_elem_of_lookup_2, list_elem_of_omap in Hdk as (o & _ & Ho). intros raw. rewrite Hm. by eapply compact_one_among.
  - apply Forall_forall. intros x (p & -> & Hp')%list_elem_of_fmap. apply elem_of_List_filter in Hp' as [Hp' _].
    destruct p as [i c]. apply elem_of_zip_r in Hp'. pose proof (Hp (fun c => negb (is_exact current c))) as Hs.
    rewrite Forall_forall in Hs. by apply Hs.
Qed.

Lemma drafts_untargeted l w r w' : Forall (fun d => compaction_target_ids (r_metadata d) = []) l ->
  map_call (new_dto clock gen) l w = (Ok r, w') -> Forall untargeted r.
Proof.
  intros Hl (H2 & _)%new_dtos. induction H2 as [|d x l r (_ & Hm & _) _ IH]; [constructor|].
  apply Forall_cons in Hl as [Hd Hl]. constructor; [|by apply IH]. unfold untargeted. by rewrite Hm.
Qed.

Lemma marked_untargeted m w r w' : _project_candidate_facts clock gen m w = (Ok r, w') -> Forall untargeted r.
Proof.
  apply drafts_untargeted, omap_Forall. intros x d _. unfold marked_draft. destruct (omap _ _); [done|]. by intros [= <-].
Qed.

Lemma extract_untargeted extras overrides out um ev u t c w r w' :
  extract clock gen uuid_str extras overrides out um ev u t c w = (Ok r, w') -> Forall untargeted r.
Proof.
  unfold extract, _to_dtos. destruct out as [l|]; [|intros H; by injection H as <- _]. apply drafts_untargeted, omap_Forall.
  intros x d _. unfold _to_dto. destruct (scope_of_string _) as [s|]; [|done]. simpl. do 2 (destruct (_ || _); [done|]).
  destruct (_matching_evidence _ _ _ _ _) as [|e k]; [done|]. destruct (_ || _); [done|]. intros [= <-]. done.
Qed.

(** *** The reconciler finds none of them. *)
Lemma aims_grows w w' c : grows w w' -> aims_at_nothing w c -> aims_at_nothing w' c.
Proof. intros Hg Ha raw i Hr Hi. by eapply no_fact_grows, Ha. Qed.

Lemma steady_apply_missed u t c w r w' : aims_at_nothing w c ->
  apply_candidate clock gen UUID u t false c w = (r, w') -> steady w w'.
Proof.
  intros Ha H. unfold apply_candidate in H.
  assert (forall x w1, _owner_for c u t w = (x, w1) -> w1 = w) as Ho.
  { unfold _owner_for. destruct (d_scope c); [by intros ?? [= _ <-]..|]. destruct (str_empty _); [by intros ?? [= _ <-]|].
    assert (preserves eq (found ← read (fun d => List.filter (fun p => String.eqb (p_key p) (candidate_key (d_metadata c)) &&
      p_is_active p) (projects d)); project ← scalar_one_or_none found;
      mret (match project with Some p => (Some "project", Some (p_id p), Some (p_id p)) | None => (None, None, None) end)
      : call (option string * option Z * option Z))) as Hk; [|intros x w1 E; symmetry; by eapply Hk].
    apply (preserves_bind _); [by apply (preserves_keep _)|]. intros l.
    apply (preserves_bind _); [apply (preserves_keep _); intros ?; by destruct l as [|? [|? ?]]|].
    intros p. by apply (preserves_keep _). }
  apply bind_either in H as [([[ot oi] p] & w1 & E1 & H)|(e & E1 & _)]; [|by rewrite (Ho _ _ E1)].
  rewrite (Ho _ _ E1) in *. destruct (_ && _); [by injection H as _ <-|].
  apply bind_either in H as [([e b] & w2 & E2 & H)|(e & E2 & _)]; [|by eapply steady_missed].
  etrans; [by eapply steady_missed|]. revert H. apply (preserves_bind steady); [apply steady_add_observations|].
  intros n. apply steady_count_evidence.
Qed.

Lemma steady_loop_missed u t l : forall w r w', (forall c, c ∈ l -> aims_at_nothing w c) ->
  map_call (apply_candidate clock gen UUID u t false) l w = (r, w') -> steady w w'.
Proof.
  induction l as [|c l IH]; intros w r w' Ha H; cbn [map_call] in H; [by injection H as _ <-|].
  apply bind_either in H as [(y & w1 & E1 & H)|(e & E1 & _)]; [|eapply steady_apply_missed; [apply Ha; left|exact E1]].
  etrans; [eapply steady_apply_missed; [apply Ha; left|exact E1]|].
  assert (forall c, c ∈ l -> aims_at_nothing w1 c) as Ha1.
  { intros x Hx. eapply aims_grows; [by eapply grows_apply_candidate|]. apply Ha. by right. }
  apply bind_either in H as [(ys & w2 & E2 & H)|(e & E2 & _)]; [|by eapply IH]. injection H as _ <-. by eapply IH.
Qed.

Lemma steady_apply_all u t l w r w' : (forall c, c ∈ l -> aims_at_nothing w c) ->
  apply_with_changes clock gen UUID l u t false w = (r, w') -> steady w w'.
Proof.
  intros Ha H. unfold apply_with_changes in H.
  apply bind_either in H as [([] & w1 & E1 & H)|(e & E1 & _)]; [|by eapply calm_steady, calm_ensure].
  etrans; [by eapply calm_steady, calm_ensure|]. assert (calm w w1) as Hc by (by eapply calm_ensure).
  assert (forall c, c ∈ l -> aims_at_nothing w1 c) as Ha1.
  { intros c Hc' raw i Hr Hi. eapply no_fact_calm; [done|]. by eapply Ha. }
  apply bind_either in H as [(rs & w2 & E2 & H)|(e & E2 & _)]; [injection H as _ <-|]; by eapply steady_loop_missed.
Qed.

Hypothesis uuid_law : forall i j, UUID (uuid_str i) = Some j -> j = i.

Lemma among_aims w current c : apart w current -> targets_among current c -> aims_at_nothing w c.
Proof. intros Ha Hc raw i Hr Hi. destruct (Hc raw Hr) as (x & Hx & ->). apply uuid_law in Hi as ->. by apply Ha. Qed.

Lemma steady_write m candidates out w r w' :
  (forall i, i ∈ fact_ids w -> drawn gen w i) -> (forall g, g ∈ glossary_entries (db w) -> no_fact w (g_id g)) ->
  Forall untargeted candidates -> compact_and_write clock gen uuid_str UUID m candidates out w = (r, w') -> steady w w'.
Proof.
  intros Hids Hterms Hc H. unfold compact_and_write in H.
  apply bind_either in H as [(marked & w1 & E1 & H)|(e & E1 & _)]; [|by eapply calm_steady, calm_marked].
  pose proof (calm_marked m _ _ _ E1) as C1. assert (Forall untargeted (candidates ++ marked)) as Hall.
  { apply Forall_app. split; [done|by eapply marked_untargeted]. }
  destruct (candidates ++ marked) as [|c0 cs]; [injection H as _ <-; by apply calm_steady|].
  apply bind_either in H as [([] & w2 & E2 & H)|(e & E2 & _)]; pose proof (calm_ensure _ _ _ _ E2) as C2;
    pose proof (transitivity C1 C2) as C12; [|by apply calm_steady].
  apply bind_either in H as [(current & w3 & E3 & H)|(e & E3 & _)]; pose proof (calm_current_for _ _ _ _ _ _ E3) as C3;
    pose proof (transitivity C12 C3) as C13; [|by apply calm_steady].
  assert (apart w3 current) as A3.
  { unfold current_for in E3. apply bind_Ok in E3 as (ps & w4 & [= _ <-] & E3). apply bind_Ok in E3 as (rows & w4 & [= _ <-] & E3).
    eapply dtos_apart; [|exact E3]. intros i Hi. destruct C12 as [F12 _ U12]. unfold fact_ids in Hi. rewrite F12 in Hi.
    eapply drawn_mono; [exact U12|]. by apply Hids. }
  apply bind_either in H as [(terms & w4 & E4 & H)|(e & E4 & _)]; pose proof (calm_current_terms _ _ _ _ _ E4) as C4;
    pose proof (transitivity C13 C4) as C14; [|by apply calm_steady].
  assert (apart w4 (current ++ terms)) as A4.
  { intros x [Hx|Hx]%elem_of_app; [exact (apart_calm _ _ _ C4 A3 x Hx)|]. unfold current_terms in E4.
    apply bind_Ok in E4 as (rows & w5 & [= <- <-] & E4). eapply terms_apart; [|exact E4|exact Hx].
    intros g [Hg _]%elem_of_List_filter. destruct C13 as [F G U]. rewrite G in Hg. by eapply no_fact_calm, Hterms. }
  apply bind_either in H as [(compacted & w5 & E5 & H)|(e & E5 & _)]; pose proof (calm_compact _ _ _ _ _ _ E5) as C5;
    pose proof (transitivity C14 C5) as C15; [|by apply calm_steady].
  pose proof (compact_among _ _ _ _ _ _ Hall E5) as Hamong. etrans; [by apply calm_steady|].
  revert H. assert (forall c, c ∈ List.filter (fun c => negb (is_glossary c)) compacted -> aims_at_nothing w5 c) as Haims.
  { intros c [Hin _]%elem_of_List_filter. rewrite Forall_forall in Hamong. eapply among_aims; [exact (apart_calm _ _ _ C5 A4)|by apply Hamong]. }
  intros H. apply bind_either in H as [(changes & w6 & E6 & H)|(e & E6 & _)]; [|by eapply steady_apply_all].
  etrans; [by eapply steady_apply_all|]. apply bind_either in H as [(saved & w7 & E7 & H)|(e & E7 & _)];
    [injection H as _ <-|]; apply aside_apply_terms in E7 as [F _ _ _]; unfold steady, slots; by rewrite F.
Qed.
End Targets.
