(* ===== verification/MemoryLife.v ===== *)
(** * The life of the memory

    Every step that moves the tables of facts, whole turns included, from the empty
    memory on. *)
From S2P Require Import Prelude.
From S2P Require Import Facts.
From S2P Require Import FactServices.
From S2P Require Import FactReconciler.
From S2P Require Import FactProofs.
From S2P Require Import FactInvariant.
From S2P Require Import FactReach.
From S2P Require Import FactExtractor.
From S2P Require Import FactCompactor.
From S2P Require Import Glossary.
From S2P Require Import GlossaryProofs.
From S2P Require Import MemoryWriter.
From S2P Require Import MemoryWriterProofs.
Open Scope Z_scope.

(** What a turn brings: its transport and the answers of the two models *)
Record Turn := {
  t_memory : TurnMemory;
  t_message : string;
  t_budget_exceeded : bool;
  t_chat_exists : bool;
  t_role_extras : json;
  t_overrides : json;
  t_extracted : option (list LLMFactCandidate);
  t_compacted : option (list CompactedFact)
}.

Definition empty_world : World :=
  {| db := {| facts := []; observations := []; projects := []; glossary_entries := []; glossary_observations := [] |};
     readings := 0; uuids := 0 |}.

Section Life.
Context (clock gen : nat -> Z) (uuid_str : Z -> string) (UUID : string -> option Z).

Definition write_turn (t : Turn) : call (list MemoryWriteResult) :=
  finalize clock gen uuid_str UUID (t_memory t) (t_message t) (t_budget_exceeded t) (t_chat_exists t) (t_role_extras t)
    (t_overrides t) (t_extracted t) (t_compacted t).

Inductive life_step (w : World) : World -> Prop :=
| life_operation o : allowed o -> life_step w (perform clock gen uuid_str UUID o w)
| life_turn t : life_step w (write_turn t w).2
| life_term s term al descr tenant project : life_step w (create_entry gen s term al descr tenant project w).2.

Definition reachable (w : World) : Prop := rtc life_step empty_world w.

Lemma aside_create_entry s term al descr t p : preserves aside (create_entry gen s term al descr t p).
Proof. unfold create_entry, insert_entry. aside. Qed.

(** ** History *)
Lemma aside_evolving {A} (m : call A) : preserves aside m -> preserves evolving m.
Proof.
  intros Hm w r w' H. destruct (Hm w r w' H) as [Hf Ho Hp _]. unfold evolving. split; rewrite ?Hf, ?Ho, ?Hp; reflexivity.
Qed.

Lemma evolving_component {A} name (d : A) m : preserves evolving m -> preserves evolving (_run_component name d m).
Proof.
  intros Hm w r w' H. unfold _run_component, try_except in H. destruct (m w) as [[a|e] w1] eqn:E;
    injection H as _ <-; by eapply Hm.
Qed.

Lemma evolving_compact_and_write m candidates out :
  preserves evolving (compact_and_write clock gen uuid_str UUID m candidates out).
Proof.
  unfold compact_and_write. apply (preserves_bind _); [apply aside_evolving, aside_marked|]. intros marked.
  destruct (_ ++ _); [by apply (preserves_keep _)|].
  apply (preserves_bind _); [apply evolving_ensure_projects|intros _].
  apply (preserves_bind _); [apply aside_evolving, aside_current_for|intros current].
  apply (preserves_bind _); [apply aside_evolving, aside_current_terms|intros terms].
  apply (preserves_bind _); [apply aside_evolving, aside_compact|intros compacted].
  apply (preserves_bind _); [apply evolving_apply_with_changes|intros changes].
  apply (preserves_bind _); [apply aside_evolving, aside_apply_terms|intros saved]. by apply (preserves_keep _).
Qed.

Lemma evolving_write_turn t : preserves evolving (write_turn t).
Proof.
  unfold write_turn, finalize. destruct (negb _); [by apply (preserves_keep _)|].
  apply (preserves_bind _).
  - apply evolving_component. unfold extraction_component. destruct (wc_skip_llm_helpers _); [by apply (preserves_keep _)|].
    apply (preserves_bind _); [apply aside_evolving, aside_extract|]. intros l. by apply (preserves_keep _).
  - intros first. apply (preserves_bind _); [|intros second; by apply (preserves_keep _)].
    apply evolving_component. unfold compaction_component. destruct (wc_skip_llm_helpers _); [by apply (preserves_keep _)|].
    apply (preserves_bind _); [apply evolving_compact_and_write|]. intros saved. by apply (preserves_keep _).
Qed.

Lemma life_evolves w w' : rtc life_step w w' -> evolving w w'.
Proof.
  induction 1 as [|w w1 w2 H _ IH]; [reflexivity|]. etrans; [|exact IH]. destruct H as [o _|t|s term al descr t p].
  - apply perform_evolves.
  - destruct (write_turn t w) as [r w'] eqn:E. by eapply evolving_write_turn.
  - destruct (create_entry _ _ _ _ _ _ _ w) as [r w'] eqn:E. exact (aside_evolving _ (aside_create_entry s term al descr t p) _ _ _ E).
Qed.

(** ** The invariant *)
Context `{!Inj (=) (=) gen}.

Lemma empty_ok : mem_ok gen empty_world.
Proof.
  split; [split; cbn; try apply NoDup_nil_2|]; try (intros x Hx; by apply not_elem_of_nil in Hx).
Qed.

(** ** The glossary *)
Record beside (w w' : World) : Prop := {
  bs_entries : glossary_entries (db w') = glossary_entries (db w);
  bs_observations : glossary_observations (db w') = glossary_observations (db w);
  bs_uuids : (uuids w <= uuids w')%nat
}.

#[local] Instance beside_preorder : PreOrder beside.
Proof. split; [by split|]. intros a b c [] []. split; [congruence..|lia]. Qed.

Lemma beside_ok w w' : beside w w' -> glossary_ok gen w -> glossary_ok gen w'.
Proof.
  intros [He Ho Hu] Hw i. assert (forall i, drawn gen w i -> drawn gen w' i) as Hd by (intros j; by apply drawn_mono).
  destruct (Hw i). split; unfold entry_ids in *; rewrite ?He, ?Ho; eauto.
Qed.

Lemma beside_update p g : preserves beside (update_facts p g).
Proof. intros w r w' [= _ <-]. by split. Qed.

Lemma beside_scalar {A} (l : list A) : preserves beside (scalar_one_or_none l).
Proof. apply (preserves_keep _). intros w. by destruct l as [|? [|? ?]]. Qed.

Ltac beside_step :=
  match goal with
  | |- preserves beside (_ ≫= _) => apply (preserves_bind _); [|intros ?]
  | |- preserves beside (mret _) => by apply (preserves_keep _)
  | |- preserves beside (raise _) => by apply (preserves_keep _)
  | |- preserves beside (read _) => by apply (preserves_keep _)
  | |- preserves beside (select_facts _) => by apply (preserves_keep _)
  | |- preserves beside (scalar_one_or_none _) => apply beside_scalar
  | |- preserves beside (if ?b then _ else _) => destruct b
  | |- preserves beside (match ?x with _ => _ end) => destruct x
  | |- preserves beside (let (_, _) := ?x in _) => destruct x
  | |- preserves beside (update_facts _ _) => apply beside_update
  | |- preserves beside (assign _ _) => unfold assign
  | |- preserves beside (insert_fact _) => unfold insert_fact
  | |- preserves beside (insert_observation _) => unfold insert_observation
  | |- preserves beside (insert_project _) => unfold insert_project
  | |- preserves beside (get_active _ _ _) => unfold get_active
  | |- preserves beside (mark_superseded _ _) => unfold mark_superseded
  | |- preserves beside (supersede _ _) => unfold supersede
  | |- preserves beside (now _) => intros ? ? ? [= _ <-]; by split
  | |- preserves beside (uuid4 _) => intros ? ? ? [= _ <-]; split; [done..|simpl; lia]
  | |- preserves beside (write (with_facts _)) => apply preserves_modify; intros ?; by split
  | |- preserves beside (write (with_projects _)) => apply preserves_modify; intros ?; by split
  | |- preserves beside (write (with_observations _)) => apply preserves_modify; intros ?; by split
  end.
Ltac besides := repeat beside_step.

Lemma beside_map_call {A B} (f : A -> call B) l : (forall x, preserves beside (f x)) -> preserves beside (map_call f l).
Proof. intros H. induction l as [|x l IH]; cbn [map_call]; besides; [apply H|exact IH]. Qed.

Lemma beside_add_observations id l : preserves beside (_add_observations gen id l).
Proof. induction l as [|e l IH]; cbn [_add_observations]; besides; exact IH. Qed.

Lemma beside_ensure l : preserves beside (ensure_projects gen l).
Proof. apply (preserves_for_each _). intros c. unfold ensure_project. besides. Qed.

Lemma beside_apply l u t sandbox : preserves beside (apply_with_changes clock gen UUID l u t sandbox).
Proof.
  unfold apply_with_changes. besides; [apply beside_ensure|]. apply beside_map_call. intros c.
  unfold apply_candidate, _owner_for, find_or_create, _find_same, _supersede_targets, count_evidence, settle_status,
    confirm_fact, get_fact, _apply_confirmed_project_aliases. besides; apply beside_add_observations.
Qed.

Lemma perform_beside o w : beside w (perform clock gen uuid_str UUID o w).
Proof.
  assert (forall A (m : call A), preserves beside m -> beside w (m w).2) as H.
  { intros A m Hm. destruct (m w) as [r w'] eqn:E. by eapply Hm. }
  destruct o; apply H; [apply beside_apply|..];
    unfold update_user_fact, replace_user_fact, write_revision, create_user_fact, delete_user_facts, forget_user_entries,
      forget_owned, admin_update, admin_delete, admin_create, reassign_tenant_context; besides.
Qed.

(** *** A turn that is written: no component fails. *)
Lemma beside_new_dtos l : preserves beside (map_call (new_dto clock gen) l).
Proof. apply beside_map_call. intros d. unfold new_dto. besides. Qed.

Lemma beside_compact out candidates current : preserves beside (compact clock gen uuid_str out candidates current).
Proof. unfold compact. besides. apply beside_new_dtos. Qed.

Lemma beside_current u t keys : preserves beside (current_for clock gen u t keys).
Proof. unfold current_for. besides. apply beside_map_call. intros x. unfold _dto. besides. Qed.

Lemma beside_terms u t : preserves beside (current_terms clock u t).
Proof. unfold current_terms. besides. apply beside_map_call. intros x. unfold term_dto. besides. Qed.

Definition whole (w : World) : Prop := mem_ok gen w /\ glossary_ok gen w.

(** Calls that always return *)
Definition always {A} (m : call A) : Prop := forall w, exists a w', m w = (Ok a, w').

Lemma always_bind {A B} (m : call A) (k : A -> call B) : always m -> (forall a, always (k a)) -> always (m ≫= k).
Proof. intros Hm Hk w. destruct (Hm w) as (a & w1 & E). rewrite (bind_run_Ok _ _ _ _ _ E). apply Hk. Qed.

Lemma always_ret {A} (a : A) : always (mret a).
Proof. intros w. by exists a, w. Qed.

Lemma always_map_call {A B} (f : A -> call B) l : (forall x, always (f x)) -> always (map_call f l).
Proof.
  intros H. induction l as [|x l IH]; cbn [map_call]; [apply always_ret|].
  apply always_bind; [apply H|]. intros y. apply always_bind; [exact IH|]. intros ys. apply always_ret.
Qed.

Lemma always_new_dtos l : always (map_call (new_dto clock gen) l).
Proof. apply always_map_call. intros d w. by eexists _, _. Qed.

Lemma always_compact out candidates current : always (compact clock gen uuid_str out candidates current).
Proof.
  unfold compact. destruct candidates; [apply always_ret|]. destruct (List.filter (fun c => negb (is_exact current c)) _); [apply always_ret|].
  destruct out; [|apply always_ret]. apply always_bind; [apply always_new_dtos|]. intros l'. apply always_ret.
Qed.

Lemma always_current u t keys : always (current_for clock gen u t keys).
Proof.
  unfold current_for. apply always_bind; [by intros w; eexists _, _|]. intros ids.
  apply always_bind; [by intros w; eexists _, _|]. intros rows. apply always_map_call. intros x w. by eexists _, _.
Qed.

Lemma always_terms u t : always (current_terms clock u t).
Proof.
  unfold current_terms. apply always_bind; [by intros w; eexists _, _|]. intros rows. apply always_map_call.
  intros x w. by eexists _, _.
Qed.

Lemma runs_reading {A} (m : call A) (R : A -> Prop) : always m -> preserves aside m -> preserves beside m ->
  (forall w a w', m w = (Ok a, w') -> R a) -> runs whole m (fun a w => whole w /\ R a).
Proof.
  intros Ht Ha Hb HR w [Hm Hg]. destruct (Ht w) as (a & w' & E). exists a, w'.
  split; [done|]. split; [split|by eapply HR].
  - by eapply aside_ok; [eapply Ha|].
  - by eapply beside_ok; [eapply Hb|].
Qed.

Lemma runs_facts {A} (m : call A) : runs (mem_ok gen) m (fun _ => mem_ok gen) -> preserves beside m ->
  runs whole m (fun _ => whole).
Proof.
  intros Hm Hb w [Hw Hg]. destruct (Hm w Hw) as (a & w' & E & Hw'). exists a, w'. split; [done|]. split; [done|].
  by eapply beside_ok; [eapply Hb|].
Qed.

Lemma compact_and_write_runs m candidates out : Forall marks_projects candidates ->
  runs whole (compact_and_write clock gen uuid_str UUID m candidates out) (fun _ => whole).
Proof.
  intros Hc. unfold compact_and_write.
  eapply runs_bind; [apply (runs_reading _ (Forall marks_projects)); [apply always_new_dtos|apply aside_marked|apply beside_new_dtos|
    by intros ? ? ? ?%marked_marks]|].
  intros marked w [Hw Hm]. assert (Forall marks_projects (candidates ++ marked)) as Hall by (by apply Forall_app).
  revert w Hw. destruct (candidates ++ marked) as [|c0 cs]; [by apply runs_ret|].
  eapply (runs_bind _ _ (fun _ => whole)).
  { apply runs_facts; [|apply beside_ensure]. apply runs_for_each. intros c _. by apply ensure_project_runs. }
  intros ?. eapply runs_bind; [apply (runs_reading _ (fun _ => True)); [apply always_current|apply aside_current_for|apply beside_current|done]|].
  intros current. eapply runs_pre; [by intros w []|].
  eapply runs_bind; [apply (runs_reading _ (fun _ => True)); [apply always_terms|apply aside_current_terms|apply beside_terms|done]|].
  intros terms. eapply runs_pre; [by intros w []|].
  eapply runs_bind; [apply (runs_reading _ (Forall marks_projects)); [apply always_compact|apply aside_compact|apply beside_compact|
    by intros ? ? ? ?%compact_marks]|].
  intros compacted w [Hw Hcm]. revert w Hw. eapply (runs_bind _ _ (fun _ => whole)).
  { apply runs_facts; [|apply beside_apply]. apply apply_with_changes_runs; [done|]. rewrite Forall_forall in *.
    intros x [Hx _]%elem_of_List_filter. by apply Hcm. }
  intros changes. eapply (runs_bind _ _ (fun _ => whole)); [|intros ?; by apply runs_ret].
  intros w [Hw Hg]. destruct (apply_terms_runs clock gen (List.filter is_glossary compacted) (tm_user_id m) (tm_tenant_id m) w Hg)
    as (n & w' & E & Hg'). exists n, w'. split; [done|]. split; [|done]. eapply aside_ok; [by eapply aside_apply_terms|done].
Qed.

(** A component that returns *)
Lemma component_runs {A} name (d : A) m (Q : A * MemoryWriteResult -> World -> Prop) :
  runs whole m Q -> runs whole (_run_component name d m) Q.
Proof.
  intros Hm w Hw. destruct (Hm w Hw) as (a & w' & E & Hq). exists a, w'. split; [|done].
  unfold _run_component, try_except. by rewrite E.
Qed.

Definition succeeded (r : MemoryWriteResult) : Prop := wr_status r = "ok" \/ wr_status r = "skipped".

Lemma write_turn_runs t :
  runs whole (write_turn t) (fun results w => whole w /\ Forall succeeded results /\
                                              length results = if t_chat_exists t then 2%nat else 0%nat).
Proof.
  unfold write_turn, finalize. destruct (t_chat_exists t); cbn [negb]; [|by apply runs_ret]. set (ctx := {| wc_memory := _ |}).
  eapply runs_bind.
  - apply (component_runs _ _ _ (fun a w => whole w /\ Forall marks_projects a.1 /\ succeeded a.2)).
    unfold extraction_component. destruct (wc_skip_llm_helpers ctx).
    + apply runs_ret. intros w Hw. split_and!; [done|constructor|by right].
    + eapply runs_bind.
      * apply (runs_reading _ (Forall marks_projects)); [|apply aside_extract| |by intros ? ? ? ?%extract_marks];
          unfold extract, _to_dtos; destruct (t_extracted t); [apply always_new_dtos|apply always_ret|apply beside_new_dtos|besides].
      * intros l. apply runs_ret. intros w []. split_and!; [done|done|by left].
  - intros first w (Hw & Hm & Hs). revert w Hw.
    eapply (runs_bind _ _ (fun a w => whole w /\ succeeded a.2)).
    + apply component_runs. unfold compaction_component. destruct (wc_skip_llm_helpers ctx); [by apply runs_ret; intros w Hw; split; [|right]|].
      eapply (runs_bind _ _ (fun _ => whole)); [by apply compact_and_write_runs|].
      intros saved. apply runs_ret. intros w Hw. split; [done|by left].
    + intros second. apply runs_ret. intros w [Hw Hs2]. split_and!; [done|by rewrite Forall_cons, Forall_singleton|done].
Qed.

Lemma empty_glossary_ok : glossary_ok gen empty_world.
Proof. intros i. split; cbn; try apply NoDup_nil_2; intros x Hx; by apply not_elem_of_nil in Hx. Qed.

Lemma life_whole w w' : rtc life_step w w' -> whole w -> whole w'.
Proof.
  induction 1 as [|w w1 w2 H _ IH]; [done|]. intros [Hw Hg]. apply IH. destruct H as [o Ho|t|s term al descr t p].
  - split; [by apply perform_ok|]. eapply beside_ok; [apply perform_beside|done].
  - destruct (write_turn_runs t w) as (r & w' & -> & Hw' & _); [by split|done].
  - destruct (create_entry_runs gen s term al descr t p w Hg) as (r & w' & E & Hg'). rewrite E. split; [|done].
    exact (aside_ok gen _ _ (aside_create_entry s term al descr t p _ _ _ E) Hw).
Qed.

Lemma reachable_whole w : reachable w -> whole w.
Proof. intros H. eapply life_whole; [exact H|]. split; [apply empty_ok|apply empty_glossary_ok]. Qed.
End Life.
