(* ===== verification/FactProperties.v ===== *)
(** * Properties of the runtime memory

    What holds of every memory that the program can reach, of a turn that is
    written, of a replayed turn and of an edited fact. *)
From S2P Require Import Prelude.
From S2P Require Import Facts.
From S2P Require Import FactServices.
From S2P Require Import FactReconciler.
From S2P Require Import FactProofs.
From S2P Require Import FactInvariant.
From S2P Require Import FactReach.
From S2P Require Import FactReplay.
From S2P Require Import FactExtractor.
From S2P Require Import FactCompactor.
From S2P Require Import Glossary.
From S2P Require Import GlossaryProofs.
From S2P Require Import MemoryWriter.
From S2P Require Import MemoryWriterProofs.
From S2P Require Import MemoryTargets.
From S2P Require Import MemoryLife.
Open Scope Z_scope.

Section Memory.
Context (clock gen : nat -> Z) (uuid_str : Z -> string) (UUID : string -> option Z) `{!Inj (=) (=) gen}.
#[local] Abbreviation reachable := (reachable clock gen uuid_str UUID).
#[local] Abbreviation life_step := (life_step clock gen uuid_str UUID).

Lemma reach_ok w : reachable w -> mem_ok gen w /\ glossary_ok gen w.
Proof. apply (reachable_whole clock gen uuid_str UUID w). Qed.

(** The distinct sources recorded for a fact *)
Definition observed (w : World) (f : Fact) (sources : list (string * string)) : Prop :=
  NoDup sources /\
  forall s, s ∈ sources <->
    exists o, o ∈ observations (db w) /\ o_fact_id o = f_id f /\ (o_source_type o, o_source_ref o) = s.

Lemma observed_sources w (f : Fact) : mem_ok gen w ->
  observed w f (map (fun o => (o_source_type o, o_source_ref o)) (evidence_of (f_id f) (observations (db w)))).
Proof.
  intros [[] _]. split.
  - apply NoDup_fmap_2_strong.
    + intros x y Hx Hy E. apply elem_of_List_filter in Hx as [Hx Ex%Z.eqb_eq]. apply elem_of_List_filter in Hy as [Hy Ey%Z.eqb_eq].
      apply (NoDup_map_key o_key (observations (db w))); [done..|]. unfold o_key. injection E as -> ->. by rewrite Ex, Ey.
    + by apply (NoDup_fmap_1 o_key), NoDup_map_filter.
  - intros s. rewrite list_elem_of_fmap. split.
    + intros (o & -> & [Ho E%Z.eqb_eq]%elem_of_List_filter). by exists o.
    + intros (o & Ho & E & <-). exists o. split; [done|]. apply elem_of_List_filter. by rewrite E, Z.eqb_refl.
Qed.

(** In every reachable memory, the support of a fact is the number of distinct sources recorded for it, or one
    more when a person typed it in; identifiers are unique and every observation belongs to a fact. *)
Theorem support_counts_sources w : reachable w ->
  NoDup (fact_ids w) /\
  (forall o, o ∈ observations (db w) -> o_fact_id o ∈ fact_ids w) /\
  forall f : Fact, f ∈ facts (db w) ->
    exists sources, observed w f sources /\
      if decide (source f = MANUAL)
      then Z.of_nat (length sources) <= support_count f <= Z.of_nat (length sources) + 1
      else support_count f = Z.of_nat (length sources).
Proof.
  intros [Hw _]%reach_ok. split_and!; [apply Hw..|]. intros f Hf. eexists. split; [by apply observed_sources|].
  rewrite length_map. destruct (ok_facts _ _ Hw f Hf) as [L H S _]. unfold support_of in *.
  destruct (decide (source f = MANUAL)); [lia|]. rewrite S by done. lia.
Qed.

(** C28: In every reachable memory, a department's fact that nobody typed in is confirmed only when at least three
    distinct sources were recorded for it. *)
Theorem department_facts_supported w (f : Fact) : reachable w -> f ∈ facts (db w) ->
  status f = CONFIRMED -> scope f = TENANT -> source f <> MANUAL ->
  exists sources, observed w f sources /\ (3 <= length sources)%nat.
Proof.
  intros [Hw _]%reach_ok Hf Hs Hsc Hso. eexists. split; [by apply observed_sources|]. rewrite length_map.
  destruct (ok_facts _ _ Hw f Hf) as [_ _ S R]. specialize (S Hso). specialize (R (conj Hs (conj Hsc Hso))).
  unfold support_of in *. lia.
Qed.



(** Applying the same candidates again, as the task queue may, changes nothing and reports nothing, unless one
    rewrites or supersedes. *)
Theorem replayed_candidates_ignored w l user_id tenant r w' : reachable w -> Forall replayable l ->
  apply_with_changes clock gen UUID l user_id tenant false w = (Ok r, w') ->
  apply_with_changes clock gen UUID l user_id tenant false w' = (Ok [], w').
Proof. intros [Hw _]%reach_ok Hl H. by eapply replay. Qed.

(** A glossary term is confirmed only when at least three distinct sources were recorded for it, or when somebody
    typed it in, which counts for three. *)
Theorem terms_supported w e : reachable w -> e ∈ glossary_entries (db w) -> g_status e = G_CONFIRMED ->
  let n := term_support (g_id e) (glossary_observations (db w)) in
  NoDup (map go_key (glossary_observations (db w))) /\
  (g_support_count e = n /\ 3 <= n \/ g_support_count e = n + 3).
Proof.
  intros [_ Hg]%reach_ok He Hs n. destruct (Hg 0) as [_ _ _ Hk _ Ht]. split; [done|].
  destruct (Ht e He) as [S R]. specialize (R Hs). unfold term_due in S. destruct (Z.eqb _ 0); fold n in S; lia.
Qed.
End Memory.

(** ** A turn supersedes nothing *)
Section Turn.
Context (clock gen : nat -> Z) (uuid_str : Z -> string) (UUID : string -> option Z) `{!Inj (=) (=) gen}.

Lemma extraction_untargeted ctx extras overrides out w a w' :
  extraction_component clock gen uuid_str ctx extras overrides out w = (Ok a, w') -> Forall untargeted a.1.
Proof.
  unfold extraction_component. destruct (wc_skip_llm_helpers ctx); intros H; [by injection H as <- _|].
  apply bind_Ok in H as (l & w1 & Hl & H). injection H as <- _. by eapply extract_untargeted.
Qed.

Lemma calm_extraction ctx extras overrides out :
  preserves calm (extraction_component clock gen uuid_str ctx extras overrides out).
Proof.
  unfold extraction_component, extract, _to_dtos. destruct (wc_skip_llm_helpers ctx); [by apply (preserves_keep _)|].
  apply (preserves_bind _); [|intros l; by apply (preserves_keep _)].
  destruct out; [apply calm_map_call, calm_new_dto|by apply (preserves_keep _)].
Qed.

(** A turn that is written never supersedes a fact, whatever the compactor answers: the identifiers it gives as
    targets are those of DTOs made for the comparison, which no row has. *)
Theorem turn_supersedes_nothing w t r w' : reachable clock gen uuid_str UUID w ->
  (forall i j, UUID (uuid_str i) = Some j -> j = i) ->
  (forall e, e ∈ glossary_entries (db w) -> g_id e ∉ fact_ids w) ->
  write_turn clock gen uuid_str UUID t w = (r, w') ->
  map slot (facts (db w)) `prefix_of` map slot (facts (db w')).
Proof.
  intros Hr Hlaw Hterms H. destruct (reach_ok clock gen uuid_str UUID w Hr) as [[Hw _] Hg]. specialize (Hg 0). change (steady w w').
  unfold write_turn, finalize in H. destruct (negb _); [by injection H as _ <-|]. set (ctx := {| wc_memory := _ |}) in H.
  apply bind_either in H as [(a & w1 & E1 & H)|(e & E1 & _)].
  2: { unfold _run_component, try_except in E1. by destruct (extraction_component _ _ _ _ _ _ _ w) as [[] ?]. }
  assert (calm w w1 /\ Forall untargeted a.1) as [Hc Ha].
  { unfold _run_component, try_except in E1. destruct (extraction_component _ _ _ _ _ _ _ w) as [[b|e] w2] eqn:E;
      injection E1 as <- <-; (split; [by eapply calm_extraction|]); [by eapply extraction_untargeted|constructor]. }
  assert (forall r w2, compaction_component clock gen uuid_str UUID ctx a.1 (t_compacted t) w1 = (r, w2) -> steady w w2) as Hs.
  { intros r2 w2 E. etrans; [by apply calm_steady|]. unfold compaction_component in E.
    destruct (wc_skip_llm_helpers ctx); [by injection E as _ <-|].
    assert (forall r w3, compact_and_write clock gen uuid_str UUID (wc_memory ctx) a.1 (t_compacted t) w1 = (r, w3) -> steady w1 w3).
    { intros r3 w3. apply steady_write; [done|done| | |done].
      - destruct Hc as [F _ U]. unfold fact_ids. rewrite F. intros i Hi. eapply drawn_mono; [exact U|]. by apply Hw.
      - intros e He. apply (no_fact_calm gen w w1); [done|]. rewrite (cm_glossary _ _ Hc) in He.
        split; [by apply (gd_ids _ _ _ _ Hg)|by apply Hterms]. }
    apply bind_either in E as [(s & w3 & E3 & E)|(e & E3 & _)]; [injection E as _ <-|]; by eauto. }
  assert (forall r w2, _run_component "fact_compactor" [] (compaction_component clock gen uuid_str UUID ctx a.1 (t_compacted t)) w1
            = (r, w2) -> steady w w2) as Hs2.
  { intros r2 w2. unfold _run_component, try_except. destruct (compaction_component _ _ _ _ _ _ _ w1) as [[b|e] w3] eqn:E;
      intros [= _ <-]; by eapply Hs. }
  apply bind_either in H as [(b & w2 & E2 & H)|(e & E2 & _)]; [injection H as _ <-|]; by eapply Hs2.
Qed.
End Turn.

(** ** A fact that its owner edits *)
Section Edit.
Context (clock gen : nat -> Z) (uuid_str : Z -> string) (UUID : string -> option Z) `{!Inj (=) (=) gen}.

(** The rows that an edit of the fact [fact_id] sets to unconfirmed *)
Definition demoted (fact_id user_id : Z) (subj : string) (f : Fact) : bool :=
  Z.eqb (f_id f) fact_id ||
  (owned_by "user" user_id f && bool_decide (scope f = USER) && String.eqb (subject f) subj && active f).

Definition demote (fact_id user_id : Z) (subj : string) (f : Fact) : Fact :=
  if demoted fact_id user_id subj f then {| columns := f; state := set_status UNCONFIRMED f |} else f.

Lemma demote_twice id u subj (l : list Fact) :
  apply_where (fun f => Z.eqb (f_id f) id) (fun _ => set_status UNCONFIRMED)
    (apply_where (fun f => owned_by "user" u f && bool_decide (scope f = USER) && String.eqb (subject f) subj && active f &&
                           negb (Z.eqb (f_id f) id)) (fun _ => set_status UNCONFIRMED) l) =
  map (demote id u subj) l.
Proof.
  unfold apply_where. rewrite map_map. apply map_ext. intros f. unfold demote, demoted.
  destruct (Z.eqb (f_id f) id) eqn:E; rewrite ?andb_false_r, ?andb_true_r; cbn; rewrite ?E; [done|].
  destruct (_ && _); cbn; by rewrite ?E.
Qed.

Lemma head_unique {A} (p : A -> bool) l x : p x = true -> x ∈ l -> (forall y, y ∈ l -> p y = true -> y = x) ->
  head (List.filter p l) = Some x.
Proof.
  intros Hp Hx Hu. destruct (List.filter p l) as [|y k] eqn:E.
  - assert (x ∈ @nil A) as []%not_elem_of_nil. rewrite <- E. by apply elem_of_List_filter.
  - assert (y ∈ List.filter p l) as [Hy Hpy]%elem_of_List_filter by (rewrite E; left). simpl. by rewrite (Hu y).
Qed.

Lemma write_revision_spec id u s v (f : Fact) w : mem_ok gen w -> f_id f = id ->
  exists (g : Fact) o w', write_revision clock gen uuid_str id u s v f w = (Ok (Some g), w') /\
    facts (db w') = map (demote id u s) (facts (db w)) ++ [g] /\
    observations (db w') = observations (db w) ++ [o] /\ o_fact_id o = f_id g /\ projects (db w') = projects (db w) /\
    f_id g ∉ fact_ids w /\ scope g = USER /\ owned_by "user" u g = true /\ subject g = s /\ value g = v /\
    source g = MANUAL /\ status g = CONFIRMED /\ superseded_by g = None /\ revision g = revision f + 1.
Proof.
  intros Hw Hid. destruct (write_revision_runs clock gen uuid_str id u s v f w Hw) as (r & w' & E & _).
  revert E. unfold write_revision. rewrite (bind_run_Ok _ _ w (clock (readings w)) (tick w) eq_refl).
  rewrite (bind_run_Ok _ _ _ _ _ (update_facts_run _ _ (tick w))), Hid.
  match goal with |- context [on_facts ?h (tick w)] => set (w1 := on_facts h (tick w)) end.
  rewrite (bind_run_Ok _ _ _ _ _ (assign_run id (set_status UNCONFIRMED) w1)).
  match goal with |- context [on_facts ?h w1] => set (w2 := on_facts h w1) end.
  assert (facts (db w2) = map (demote id u s) (facts (db w))) as E2 by apply demote_twice.
  rewrite (bind_run_Ok _ _ _ _ _ (eq_refl : uuid4 gen w2 = (Ok (gen (uuids w2)), draw w2))).
  match goal with |- context [insert_fact ?m] => set (g := m) end.
  assert (f_id g ∉ fact_ids w) as Hn by (intros Hi; by apply (fresh_not_drawn gen w), Hw).
  assert (fact_ids w2 = fact_ids w) as Ei by (unfold w2, w1; by rewrite !fact_ids_update).
  assert (f_id g ∉ fact_ids (draw w2)) as Hn2 by (unfold fact_ids in *; cbn in *; by rewrite Ei).
  rewrite (bind_run_Ok _ _ _ _ _ (insert_fact_run g (draw w2) Hn2)).
  match goal with |- context [on_facts ?h (draw w2)] => set (w3 := on_facts h (draw w2)) end.
  rewrite (bind_run_Ok _ _ _ _ _ (eq_refl : uuid4 gen w3 = (Ok (gen (uuids w3)), draw w3))).
  match goal with |- context [insert_observation ?m] => set (o := m) end.
  intros H. apply bind_Ok in H as ([] & w4 & Hins & _). rewrite (bind_run_Ok _ _ _ _ _ Hins).
  unfold insert_observation in Hins. apply bind_Ok in Hins as (taken & w5 & Hr & Hins). injection Hr as _ <-.
  destruct taken; [done|]. injection Hins as <-. exists g, o. eexists. split; [done|]. cbn [db with_observations facts observations projects].
  split_and!; try done; [by cbn; rewrite <- E2|]. unfold owned_by. by rewrite !bool_decide_true.
Qed.

(** A profile edit of a fact of the user writes a confirmed manual replacement of the next revision and sets the fact
    and the user's other facts of the new subject to unconfirmed; it supersedes none of them, and touches nothing else. *)
Theorem edited_fact w (f : Fact) user_id subj val :
  reachable clock gen uuid_str UUID w -> f ∈ facts (db w) -> owned_by "user" user_id f = true -> active f = true ->
  let (s, v) := profile_text subj val in
  str_empty s = false -> str_empty v = false ->
  exists (g : Fact) o w', update_user_fact clock gen uuid_str (f_id f) user_id subj val w = (Ok g, w') /\
    facts (db w') = map (demote (f_id f) user_id s) (facts (db w)) ++ [g] /\
    observations (db w') = observations (db w) ++ [o] /\ o_fact_id o = f_id g /\ projects (db w') = projects (db w) /\
    f_id g ∉ fact_ids w /\ scope g = USER /\ owned_by "user" user_id g = true /\ subject g = s /\ value g = v /\
    source g = MANUAL /\ status g = CONFIRMED /\ superseded_by g = None /\ revision g = revision f + 1.
Proof.
  intros Hr Hf Ho Ha. destruct (profile_text subj val) as [s v] eqn:Ep. intros Hs Hv.
  destruct (reach_ok clock gen uuid_str UUID w Hr) as [Hw _].
  unfold update_user_fact. rewrite Ep, Hs, Hv. cbn [orb]. unfold replace_user_fact. unfold mbind at 1, py_bind at 1.
  rewrite (bind_run_Ok _ _ _ _ _ (eq_refl : select_facts _ w = (Ok _, w))).
  rewrite (bind_run_Ok _ _ _ _ _ (scalar_run _ w (one_owned gen (f_id f) "user" user_id w Hw))).
  assert (head (List.filter (fun f0 : Fact => Z.eqb (f_id f0) (f_id f) && owned_by "user" user_id f0 && active f0) (facts (db w)))
    = Some f) as ->.
  { apply head_unique; [by rewrite Z.eqb_refl, Ho, Ha|done|]. intros g Hg. rewrite !andb_true_iff, Z.eqb_eq. intros [[E _] _].
    by apply (NoDup_map_key (fun f : Fact => f_id f) (facts (db w))); [apply Hw|..]. }
  destruct (write_revision_spec (f_id f) user_id s v f w Hw) as (g & o & w' & E & Hg); [done..|].
  rewrite E. exists g, o, w'. split; [done|]. exact Hg.
Qed.
Lemma apply_where_id (g : FactState -> FactState) i (l : list Fact) (x : Fact) : i ∉ map (fun f : Fact => f_id f) l -> f_id x = i ->
  apply_where (fun f => Z.eqb (f_id f) i) (fun _ => g) (l ++ [x]) = l ++ [{| columns := x; state := g x |}].
Proof.
  intros Hn Hx. unfold apply_where. rewrite map_app. cbn. rewrite Hx, Z.eqb_refl. f_equal. rewrite <- (map_id l) at 2.
  apply map_ext_in. intros f Hf%list_elem_of_In. destruct (Z.eqb_spec (f_id f) i) as [<-|]; [|done].
  destruct Hn. by apply (list_elem_of_fmap_2 (fun f : Fact => f_id f)).
Qed.

Definition superseded_in (i by_ : Z) (l : list Fact) : list Fact :=
  apply_where (fun f => Z.eqb (f_id f) i && active f) (fun _ => set_superseded by_) l.

Lemma get_active_is id type owner w : mem_ok gen w ->
  get_active id type owner w =
    (Ok (head (List.filter (fun f : Fact => Z.eqb (f_id f) id && owned_by type owner f && active f) (facts (db w)))), w).
Proof.
  intros Hw. unfold get_active. rewrite (bind_run_Ok _ _ _ _ _ (eq_refl : select_facts _ w = (Ok _, w))).
  apply scalar_run, (one_owned gen id type owner w Hw).
Qed.

Lemma admin_create_is type owner subj val w : mem_ok gen w -> exists g : Fact,
  admin_create clock gen uuid_str type owner subj val w = (Ok g, on_facts (fun l => l ++ [g]) (draw (tick w))) /\
  f_id g = gen (uuids w) /\ owned_by type owner g = true /\ value g = str_take 500 (strip val) /\ source g = MANUAL /\
  status g = CONFIRMED /\ superseded_by g = None.
Proof.
  intros Hw. unfold admin_create. rewrite (bind_run_Ok _ _ w (clock (readings w)) (tick w) eq_refl).
  rewrite (bind_run_Ok _ _ (tick w) (gen (uuids w)) (draw (tick w)) eq_refl). cbv zeta.
  match goal with |- context [insert_fact ?m] => set (g := m) end. exists g.
  assert (f_id g ∉ fact_ids w) as Hn by (intros Hi; by apply (fresh_not_drawn gen w), Hw).
  rewrite (bind_run_Ok _ _ _ _ _ (insert_fact_run g (draw (tick w)) Hn)). split_and!; try done.
  unfold owned_by. by rewrite !bool_decide_true.
Qed.

(** An administrator's edit of an active fact of the owner writes a confirmed manual replacement of the next revision
    and supersedes exactly that fact by it; a fact that is not there is refused without effect. *)
Theorem admin_edit_supersedes w id type owner subj val : reachable clock gen uuid_str UUID w ->
  match head (List.filter (fun f : Fact => Z.eqb (f_id f) id && owned_by type owner f && active f) (facts (db w))) with
  | None => admin_update clock gen uuid_str id type owner subj val w = (Err (AdminFactNotFoundError id), w)
  | Some f => exists (g : Fact) w', admin_update clock gen uuid_str id type owner subj val w = (Ok g, w') /\
      facts (db w') = superseded_in id (f_id g) (facts (db w)) ++ [g] /\ observations (db w') = observations (db w) /\
      f_id g ∉ fact_ids w /\ owned_by type owner g = true /\ value g = str_take 500 (strip val) /\ source g = MANUAL /\
      status g = CONFIRMED /\ superseded_by g = None /\ revision g = revision f + 1
  end.
Proof.
  intros Hr. destruct (reach_ok clock gen uuid_str UUID w Hr) as [Hw _]. unfold admin_update.
  rewrite (bind_run_Ok _ _ _ _ _ (get_active_is id type owner w Hw)).
  destruct (head _) as [c|] eqn:E; [|done].
  assert (f_id c = id) as Hid.
  { destruct (List.filter _ _) as [|x k] eqn:Ef; [done|]. injection E as ->. assert (c ∈ c :: k) as Hin by left.
    rewrite <- Ef in Hin. apply elem_of_List_filter in Hin as [_ Hp]. by rewrite !andb_true_iff, Z.eqb_eq in Hp; apply Hp. }
  destruct (admin_create_is type owner subj val w Hw) as (g & Hrun & Hi & Ho & Hv & Hs & Hst & Hsup).
  rewrite (bind_run_Ok _ _ _ _ _ Hrun), (bind_run_Ok _ _ _ _ _ (update_facts_run _ _ _)).
  match goal with |- context [supersede ?a ?b] => rewrite (bind_run_Ok (supersede a b) _ _ tt _ eq_refl) end.
  set (g' := {| columns := g; state := set_revision (revision c + 1) g |}).
  assert (f_id g ∉ fact_ids w) as Hn by (intros Hin; rewrite Hi in Hin; by apply (fresh_not_drawn gen w), Hw).
  exists g'. eexists. split; [done|]. split_and!; try done.
  change (superseded_in (f_id c) (f_id g) (apply_where (fun f => Z.eqb (f_id f) (f_id g)) (fun _ => set_revision (revision c + 1))
    (facts (db w) ++ [g])) = superseded_in id (f_id g) (facts (db w)) ++ [g']).
  rewrite (apply_where_id _ (f_id g) (facts (db w)) g Hn eq_refl). unfold superseded_in, apply_where. rewrite map_app. cbn. fold g'. rewrite Hid. f_equal.
  destruct (Z.eqb_spec (f_id g) id) as [Hg|]; [|done]. destruct Hn. rewrite Hg, <- Hid.
  apply (list_elem_of_fmap_2 (fun f : Fact => f_id f)). destruct (List.filter _ _) as [|x k] eqn:Ef; [done|].
  injection E as ->. assert (c ∈ c :: k) as Hin by left. rewrite <- Ef in Hin. by apply elem_of_List_filter in Hin as [Hin _].
Qed.
End Edit.

(** ** The context of a prompt *)
Definition total_size (l : list ContextItem) : nat := foldr Nat.add 0%nat (map context_size l).

Lemma context_spec l : forall used, (used <= MAX_PROFILE_CHARS)%nat ->
  exists k, _context used l = map context_item (take k l) /\
    (used + total_size (_context used l) <= MAX_PROFILE_CHARS)%nat /\
    forall f, l !! k = Some f ->
      (MAX_PROFILE_CHARS < used + total_size (_context used l) + context_size (context_item f))%nat.
Proof.
  induction l as [|x l IH]; intros used Hu; cbn [_context].
  { exists 0%nat. split_and!; [done|cbn; lia|done]. }
  destruct (decide _) as [Hx|Hx].
  { exists 0%nat. split_and!; [done|cbn; lia|]. intros f [= <-]. cbn [total_size map foldr]. lia. }
  destruct (IH (used + context_size (context_item x))%nat) as (k & E & Hs & Hn); [lia|]. exists (S k).
  unfold total_size in *. cbn [map foldr take]. split_and!; [by rewrite E|lia|]. intros f Hf. specialize (Hn f Hf). lia.
Qed.

Lemma sorted_weaken {A} (R R' : A -> A -> Prop) l : (forall x y, R x y -> R' x y) -> StronglySorted R l -> StronglySorted R' l.
Proof. intros HR. induction 1 as [|x l _ IH Hx]; constructor; [done|]. eapply Forall_impl; [exact Hx|]. apply HR. Qed.

(** The facts an agent is given are a prefix of the facts ranked by the words they share with the query, at most the
    limit, of at most 240 characters per field and 2400 in all, and stop only when the next one would not fit. *)
Theorem agent_context_bounded query limit s :
  let ranked := sort_by (fun f => - Z.of_nat (term_hits (query_words query) f)) Z.le (entries s) in
  exists k, (k <= limit)%nat /\ agent_context query limit s = map context_item (take k ranked) /\
    ranked ≡ₚ entries s /\
    StronglySorted (fun f g => (term_hits (query_words query) g <= term_hits (query_words query) f)%nat) ranked /\
    (total_size (agent_context query limit s) <= 2400)%nat /\
    (forall c, c ∈ agent_context query limit s -> String.length (ci_subject c) <= 240 /\ String.length (ci_value c) <= 240)%nat /\
    forall f, (k < limit)%nat -> ranked !! k = Some f ->
      (2400 < total_size (agent_context query limit s) + context_size (context_item f))%nat.
Proof.
  intros ranked. destruct (context_spec (take limit ranked) 0) as (k & E & Hs & Hn); [unfold MAX_PROFILE_CHARS; lia|].
  exists (Nat.min k limit). unfold agent_context. fold ranked. rewrite E, take_take.
  split_and!; [lia|done|apply sort_by_perm| | | |].
  - eapply sorted_weaken; [|apply (sort_by_sorted (fun f => - Z.of_nat (term_hits (query_words query) f)) Z.le)].
    intros f g H. cbn in H. lia.
  - rewrite <- take_take, <- E. exact Hs.
  - intros c (f & -> & _)%list_elem_of_fmap. split; apply str_take_length.
  - intros f Hk Hf. destruct (decide (k < limit)%nat) as [Hlt|]; [|lia]. rewrite Nat.min_l in Hf by lia.
    rewrite <- take_take, <- E. specialize (Hn f). rewrite lookup_take_lt in Hn by lia. specialize (Hn Hf). exact Hn.
Qed.
