(* ===== verification/FactDemo.v ===== *)
(** * A small memory

    A user and a department, three turns that bring the same evidence from three
    runs, and an edit: the inputs at which the properties of [FactProperties] are
    applied. *)
From S2P Require Import Prelude.
From S2P Require Import Facts.
From S2P Require Import FactServices.
From S2P Require Import FactReconciler.
From S2P Require Import FactProofs.
From S2P Require Import FactInvariant.
From S2P Require Import FactReach.
From S2P Require Import FactReplay.
From S2P Require Import FactExtractor.
From S2P Require Import FactCompactor.
From S2P Require Import Glossary.
From S2P Require Import GlossaryProofs.
From S2P Require Import MemoryWriter.
From S2P Require Import MemoryLife.
From S2P Require Import FactProperties.
From stdpp Require Import pretty.
From Stdlib Require Import QArith.QArith_base.
Open Scope Z_scope.

Definition m_clock (n : nat) : Z := 1000 + Z.of_nat n.
Definition m_gen (n : nat) : Z := Z.of_nat n.
Definition m_str (i : Z) : string := pretty i.
(** The identifiers drawn by the examples are small. *)
Definition m_UUID (s : string) : option Z := List.find (fun i => String.eqb (m_str i) s) (map Z.of_nat (seq 0 64)).

#[export] Instance m_gen_inj : Inj (=) (=) m_gen.
Proof. intros a b. apply Nat2Z.inj. Qed.

Lemma m_uuid_law i j : m_UUID (m_str i) = Some j -> j = i.
Proof.
  unfold m_UUID. intros [_ E%String.eqb_eq]%List.find_some. unfold m_str in E. by apply (inj pretty) in E.
Qed.

Definition call_evidence (run : string) : Evidence :=
  {| source_id := "call"; source_type := "tool_result"; source_ref := run; text := "office hours: open until eight, sla: one day";
     label := Some "collection.document.search"; support_ref := None |}.

Definition candidate (s subj val k : string) (ids : list string) : LLMFactCandidate :=
  {| l_scope := s; l_subject := subj; l_value := val; l_confidence := 9 # 10; l_kind := k; l_project_key := None;
     l_project_aliases := []; l_aliases := []; l_evidence_source_ids := ids |}.

Definition the_turn (run : string) (out : option (list CompactedFact)) : Turn :=
  {| t_memory := {| tm_chat_id := Some 1; tm_user_id := Some 7; tm_tenant_id := Some 9;
                    tm_durable := {| user_facts := []; tenant_facts := [] |};
                    tm_fact_evidence := [call_evidence run]; tm_project_candidates := []; tm_fact_run_ref := Some run;
                    tm_agent_results := [] |};
     t_message := "my name is Anna, when is the office open?"; t_budget_exceeded := false; t_chat_exists := true;
     t_role_extras := JNull; t_overrides := JNull;
     t_extracted := Some [candidate "user" "name" "Anna" "fact" ["user_message"];
                          candidate "tenant" "office hours" "open until eight" "fact" ["call"];
                          candidate "tenant" "sla" "one day" "glossary" ["call"]];
     t_compacted := out |}.

#[local] Abbreviation written t w := (write_turn m_clock m_gen m_str m_UUID t w).2.
Definition w1 : World := written (the_turn "run-1" None) empty_world.
Definition w2 : World := written (the_turn "run-2" None) w1.
Definition w3 : World := written (the_turn "run-3" None) w2.

#[local] Abbreviation reachable := (reachable m_clock m_gen m_str m_UUID).
#[local] Abbreviation life_step := (life_step m_clock m_gen m_str m_UUID).

Lemma step_w2 : life_step w1 w2.
Proof. exact (life_turn m_clock m_gen m_str m_UUID w1 (the_turn "run-2" None)). Qed.
Lemma step_w3 : life_step w2 w3.
Proof. exact (life_turn m_clock m_gen m_str m_UUID w2 (the_turn "run-3" None)). Qed.
Lemma steps_w3 : rtc life_step w1 w3.
Proof. exact (rtc_l _ _ _ _ step_w2 (rtc_once _ _ step_w3)). Qed.
Lemma reach_w1 : reachable w1.
Proof. exact (rtc_once _ _ (life_turn m_clock m_gen m_str m_UUID empty_world (the_turn "run-1" None))). Qed.
Lemma reach_w3 : reachable w3.
Proof. exact (transitivity reach_w1 steps_w3). Qed.

(** The rows of the third turn *)
Definition stub : Fact := manual_fact 0 None "" 0 None USER "" "" "" "" false 0 0.
Definition row (n : nat) (w : World) : Fact := default stub (facts (db w) !! n).
Definition anna : Fact := row 0 w3.
Definition office : Fact := row 1 w3.

Lemma anna_in : anna ∈ facts (db w3).
Proof. apply (list_elem_of_lookup_2 _ 0). vm_compute. reflexivity. Qed.
Lemma office_in : office ∈ facts (db w3).
Proof. apply (list_elem_of_lookup_2 _ 1). vm_compute. reflexivity. Qed.

Lemma support_counts_sources_witness :
  NoDup (fact_ids w3) /\ exists sources, observed w3 office sources /\ support_count office = Z.of_nat (length sources).
Proof.
  destruct (support_counts_sources m_clock m_gen m_str m_UUID w3 reach_w3) as (Hn & _ & Hs). split; [exact Hn|].
  destruct (Hs office office_in) as (l & Hl & E). exists l. split; [exact Hl|].
  assert (source office <> MANUAL) as Hm by (vm_compute; discriminate). destruct (decide (source office = MANUAL)) as [Hd|_]; [destruct (Hm Hd)|exact E].
Defined.

Lemma department_facts_supported_witness :
  value office = "open until eight" /\ exists sources, observed w3 office sources /\ (3 <= length sources)%nat.
Proof.
  split; [vm_compute; reflexivity|].
  apply (department_facts_supported m_clock m_gen m_str m_UUID w3 office reach_w3 office_in);
    [vm_compute; reflexivity|vm_compute; reflexivity|vm_compute; discriminate].
Defined.


(** A turn whose compaction names both current facts as superseded *)
Definition superseding : CompactedFact :=
  {| k_scope := "tenant"; k_subject := "office hours"; k_value := "open until nine"; k_source_candidate_indexes := [0];
     k_action := "supersede"; k_target_current_indexes := [0; 1] |}.
Definition t4 : Turn :=
  {| t_memory := {| tm_chat_id := Some 1; tm_user_id := Some 7; tm_tenant_id := Some 9;
                    tm_durable := {| user_facts := []; tenant_facts := [] |};
                    tm_fact_evidence := [call_evidence "run-4"]; tm_project_candidates := []; tm_fact_run_ref := Some "run-4";
                    tm_agent_results := [] |};
     t_message := "is it now open until nine?"; t_budget_exceeded := false; t_chat_exists := true;
     t_role_extras := JNull; t_overrides := JNull;
     t_extracted := Some [candidate "tenant" "office hours" "open until nine" "fact" ["call"]];
     t_compacted := Some [superseding] |}.


Lemma ids_w3 : fact_ids w3 = [3; 5] /\ map g_id (glossary_entries (db w3)) = [7].
Proof. split; vm_compute; reflexivity. Qed.

Lemma apart_by_ids l (es : list GlossaryEntry) (ids : list Z) e : map g_id es = l -> (forall i, i ∈ l -> i ∉ ids) -> e ∈ es -> g_id e ∉ ids.
Proof. intros <- H He. apply H. by apply list_elem_of_fmap_2. Qed.

Lemma terms_apart_w3 e : e ∈ glossary_entries (db w3) -> g_id e ∉ fact_ids w3.
Proof.
  destruct ids_w3 as [-> Eg]. apply (apart_by_ids [7]); [exact Eg|].
  intros i ->%list_elem_of_singleton. by intros [|[|?%not_elem_of_nil]%elem_of_cons]%elem_of_cons.
Qed.

Definition r5 := write_turn m_clock m_gen m_str m_UUID t4 w3.

Lemma r5_run : write_turn m_clock m_gen m_str m_UUID t4 w3 = (r5.1, r5.2).
Proof. unfold r5. generalize (write_turn m_clock m_gen m_str m_UUID t4 w3). by intros []. Qed.

Lemma turn_supersedes_nothing_witness :
  map slot (facts (db w3)) `prefix_of` map slot (facts (db r5.2)) /\
  map (fun f : Fact => superseded_by f) (facts (db r5.2)) = [None; None; None].
Proof.
  split; [|vm_compute; reflexivity].
  exact (turn_supersedes_nothing m_clock m_gen m_str m_UUID w3 t4 r5.1 r5.2 reach_w3 m_uuid_law terms_apart_w3 r5_run).
Defined.

(** A candidate of the user, applied twice *)
Definition replayed : FactDTO :=
  {| d_scope := USER; d_subject := "language"; d_value := "Danish"; d_source := USER_UTTERANCE; d_tenant_id := Some 9;
     d_project_id := None; d_owner_type := None; d_owner_id := None; d_kind := "fact";
     d_metadata := {| project_key := None; project_aliases := []; aliases := []; evidence := [call_evidence "run-5"];
                      glossary_scope := None; compaction_action := None; compaction_target_ids := [];
                      project_memory_marked := false |};
     d_confidence := 1; d_source_ref := None; d_observed_at := 0; d_id := 0; d_superseded_by := None;
     d_user_visible := true; d_status := PENDING; d_support_count := 0; d_first_confirmed_at := None;
     d_last_confirmed_at := None; d_revision := 1 |}.
#[local] Abbreviation applied w := (apply_with_changes m_clock m_gen m_UUID [replayed] (Some 7) (Some 9) false w).
Definition w4 : World := (applied w3).2.

Definition changes4 : list FactReconciliationChange := match (applied w3).1 with Ok l => l | Err _ => [] end.

Lemma applied_w3 : applied w3 = (Ok changes4, w4).
Proof. vm_compute. reflexivity. Qed.

Lemma replayable_replayed : Forall replayable [replayed].
Proof. apply Forall_singleton. split; [reflexivity|discriminate]. Qed.

Lemma replayed_candidates_ignored_witness : length (facts (db w4)) = 3%nat /\ applied w4 = (Ok [], w4).
Proof.
  split; [vm_compute; reflexivity|].
  exact (replayed_candidates_ignored m_clock m_gen m_str m_UUID w3 [replayed] (Some 7) (Some 9) changes4 w4 reach_w3
           replayable_replayed applied_w3).
Defined.

#[local] Abbreviation compacted := (compact m_clock m_gen m_str (Some [superseding]) [replayed; replayed] [] empty_world).
Definition survivors : list FactDTO := match compacted.1 with Ok l => l | Err _ => [] end.

Lemma compacted_run : compacted = (Ok survivors, compacted.2).
Proof. vm_compute. reflexivity. Qed.

Lemma replayed_in : replayed ∈ [replayed; replayed].
Proof. left. Qed.

Lemma compaction_loses_nothing_witness :
  length survivors = 2%nat /\
  (replayed ∈ survivors \/ exists outputs, Some [superseding] = Some outputs /\
     accounted replayed (List.filter (fun c => negb (is_exact [] c)) [replayed; replayed]) outputs survivors).
Proof.
  split; [vm_compute; reflexivity|].
  exact (compaction_loses_nothing m_clock m_gen m_str (Some [superseding]) [replayed; replayed] [] empty_world survivors
           compacted.2 compacted_run replayed replayed_in).
Defined.

Lemma terms_supported_witness : exists e, e ∈ glossary_entries (db w3) /\ g_term e = "sla" /\
  3 <= term_support (g_id e) (glossary_observations (db w3)).
Proof.
  destruct (glossary_entries (db w3)) as [|e l] eqn:E; [vm_compute in E; discriminate|].
  assert (e ∈ glossary_entries (db w3)) as He by (rewrite E; left).
  assert (map (fun e => (g_term e, g_support_count e, g_status e)) (glossary_entries (db w3)) = [("sla", 3, G_CONFIRMED)]) as Em
    by (vm_compute; reflexivity).
  rewrite E in Em. simpl in Em. injection Em as Ht Hs Hc _. exists e. split; [left|]. split; [exact Ht|].
  destruct (terms_supported m_clock m_gen m_str m_UUID w3 e reach_w3 He Hc) as (_ & [[_ H]|H]); [exact H|].
  exfalso. rewrite Hs in H. assert (term_support (g_id e) (glossary_observations (db w3)) = 3) as E3; [|lia].
  assert (map g_id (glossary_entries (db w3)) = [7]) as Ei by (vm_compute; reflexivity).
  rewrite E in Ei. simpl in Ei. injection Ei as -> _. vm_compute. reflexivity.
Defined.

Lemma edited_fact_witness : exists (g : Fact) w',
  update_user_fact m_clock m_gen m_str (f_id anna) 7 "Name" "Anya" w3 = (Ok g, w') /\
  facts (db w') = map (demote (f_id anna) 7 "name") (facts (db w3)) ++ [g] /\ value g = "Anya" /\ revision g = 2.
Proof.
  pose proof (edited_fact m_clock m_gen m_str m_UUID w3 anna 7 "Name" "Anya" reach_w3 anna_in) as H.
  assert (profile_text "Name" "Anya" = ("name", "Anya")) as E by reflexivity. rewrite E in H.
  destruct H as (g & o & w' & Hr & Hf & _ & _ & _ & _ & _ & _ & _ & Hv & _ & _ & _ & Hrev);
    [vm_compute; reflexivity|vm_compute; reflexivity|reflexivity|reflexivity|].
  exists g, w'. split; [exact Hr|]. split; [exact Hf|]. split; [exact Hv|]. rewrite Hrev. vm_compute. reflexivity.
Defined.

Lemma anna_found : head (List.filter (fun f : Fact => Z.eqb (f_id f) 3 && owned_by "user" 7 f && active f) (facts (db w3))) = Some anna.
Proof. vm_compute. reflexivity. Qed.

Lemma admin_edit_supersedes_witness : exists (g : Fact) w',
  admin_update m_clock m_gen m_str 3 "user" 7 "Name" "Ann" w3 = (Ok g, w') /\
  facts (db w') = superseded_in 3 (f_id g) (facts (db w3)) ++ [g] /\ value g = "Ann".
Proof.
  pose proof (admin_edit_supersedes m_clock m_gen m_str m_UUID w3 3 "user" 7 "Name" "Ann" reach_w3) as H.
  rewrite anna_found in H. destruct H as (g & w' & Hr & Hf & _ & _ & _ & Hv & _).
  exists g, w'. split; [exact Hr|]. split; [exact Hf|exact Hv].
Defined.

(** ** What an edit leaves behind: the next turn that repeats the old value confirms it again, beside the new one. *)
Definition edited : World := (update_user_fact m_clock m_gen m_str (f_id anna) 7 "Name" "Anya" w3).2.
Definition seen (w : World) : list (string * FactStatus * option Z) :=
  map (fun f : Fact => (value f, status f, superseded_by f)) (List.filter (fun f : Fact => String.eqb (subject f) "name") (facts (db w))).

Example edited_fact_returns :
  seen edited = [("Anna", UNCONFIRMED, None); ("Anya", CONFIRMED, None)] /\
  seen (written (the_turn "run-6" None) edited) = [("Anna", CONFIRMED, None); ("Anya", CONFIRMED, None)].
Proof. split; vm_compute; reflexivity. Qed.
